(* ===== verification/_CoqProject ===== *)
-Q . S2P
Prelude.v
Text.v
TextFacts.v
Json.v
JsonFacts.v
JsonText.v
Sha256.v
PyTime.v
PyBuiltins.v
IsoFormat.v
Base64.v
ScheduleDays.v
Ordering.v
Models.v
EvidenceManifest.v
EvidenceFacts.v
EvidenceChain.v
EvidenceProps.v
EvidencePrivacy.v
Sha1.v
IpAddress.v
PyUrl.v
PublishContract.v
PublishInput.v
Permissions.v
PublishInputProps.v
World.v
RuntimeSettings.v
Cascade.v
Sessions.v
Commissioning.v
Security.v
Governance.v
Activation.v
Ceremonies.v
AuditTrail.v
WebEdits.v
WebEditsProps.v
Diff.v
Ha.v
HaWitness.v
HaProps.v
HaStatus.v
HaReplication.v
HaReplicationProps.v
Push.v
Calendar.v
CalendarEdits.v
CalendarProps.v
CalendarEditsProps.v
PublicLinks.v
LeaseAgent.v
LeaseAgentProps.v
Evidence.v
OperatorEvidence.v
OperatorEvidenceProps.v
EvidenceFrames.v
EvidenceBridge.v
DeletionWorkflow.v
DeletionCases.v
DeletionProps.v
DeletionLifecycle.v
ActivationMail.v
Snapshots.v
SnapshotProps.v
History.v
HistoryFacts.v
HistoryProps.v
Retention.v
Publish.v
DesktopEvidence.v
PublishProps.v
DesktopEvidenceProps.v
RetentionProps.v
PublicLinksProps.v
DeletionPurge.v
DeletionLiveness.v
