(* ===== verification/Prelude.v ===== *)
(** * The masterplan server: a verified model of its core

    The server publishes an event's schedule to the people in it, lets them
    sign in with passkeys, and keeps signed evidence of what it did with
    personal data.  It runs alone or as a cluster of two nodes with one writer.
    This library models the Python of [backend/app], [deploy/evidence] and
    [deploy/ha], operation by operation, and proves what each part promises.

    ** How the code is read

    A Python function that may raise is an [outcome] ([Ok] or [Raise] of an
    exception class and a message); one that reads or changes state is [M S]: it
    takes the state and returns an outcome {e and} the state it leaves, so
    changes made before an exception stay made.  [try_except] catches the
    classes a handler names and their subclasses.  A dictionary is an
    association list in insertion order; a text is a [string] of UTF-8 bytes; an
    instant is a number of microseconds.

    - [Prelude]: record update, outcomes, the state monad, dictionaries, lists.
    - [Text], [TextFacts]: Unicode texts and [re.fullmatch] by derivatives.
    - [Json], [JsonFacts], [JsonText]: [json.loads] and [json.dumps], and their round trip.
    - [Sha256], [Sha1], [Base64], [PyTime], [IsoFormat], [PyBuiltins], [IpAddress]: SHA-256
      and HMAC, UUID5, [base64], [datetime] and its texts, [int], [str], [sorted], [ipaddress].

    ** The components

    - Evidence: [EvidenceManifest] is [deploy/evidence/evidence_manifest.py]
      over a directory of files; [EvidenceFacts] and [EvidenceChain] hold its
      lemmas, [EvidenceProps] and [EvidencePrivacy] its theorems: appending
      extends a verified chain by one record or leaves no trace, a head digest
      commits to the history, a record ID is used once, and no free text gets
      in.  [ssh-keygen] is a parameter ([ssh_sign], [ssh_verify]).  [Evidence] is
      [backend/app/core/evidence.py], which ties that ledger to the database: it
      runs the tool, reconciles what a crash left between them and answers
      replays; [EvidenceBridge] proves that a recorded step is in the ledger and
      that the two agree after a reconciliation.  [EvidenceFrames] has what its
      calls leave alone and the class [EvidenceService] the workflows rely on.
    - Database: [Models] has a record per table ([backend/app/models]), [World]
      the session's and the committed database, clock, files, queue and
      configuration.  A query returns rows in table order.  The sessions have
      [autoflush=False]; a filter that runs on unwritten changes is modelled
      where the code has one ([Evidence.verify_flushed]).  Unique keys are not
      enforced by the model; a theorem that needs one has it as a hypothesis.
    - Access: [Sessions], [Activation], [Ceremonies], [Permissions],
      [Commissioning], [Security] and [RuntimeSettings] are the files of those
      names in [backend/app/core] ([Ceremonies] is [passkey_ceremonies.py],
      [Permissions] also [rate_limit.py]): live sessions, single-use links and
      ceremonies, CSRF, what every dependency of the handlers lets through.
    - Records: [AuditTrail] ([audit.py]), [PublishContract],
      [ScheduleDays], [Diff] and [WebEdits] with [WebEditsProps]: audit entries
      and published values are minimised, differences name the persons whose
      schedule changed, reverting edits restores the published baseline.
    - Publishing: [PublishInput] is the schemas of [backend/app/api/v1/publish.py] and
      what they refuse, [Publish] its handlers; [PublishInputProps] shows that an accepted
      payload is well typed, [PublishProps] that a publish refines the replacement of the
      schedule in scope.  [Snapshots] ([snapshots.py]) and [History] ([history.py]) keep
      versions of a published event: [SnapshotProps] bounds their number, and
      [HistoryProps], over [HistoryFacts], shows what restoring one brings back.
    - Desktop evidence: [OperatorEvidence] is [operator_evidence.py], the documents the
      controllers and processors sign, over the class [TrustKeys] of the library's
      Ed25519 operations; [OperatorEvidenceProps] shows that a signature binds its document
      and that a portable package verifies from its text.  [DesktopEvidence] is the rest of
      [publish.py], what a paired desktop enrols, acknowledges and reports;
      [DesktopEvidenceProps] shows that a statement about a deletion order is accepted only
      when the active key of its processor signed it.
    - Erasure: [DeletionWorkflow] and [DeletionCases] are
      [backend/app/core/deletion_workflow.py] and [deletion_cases.py]: accepting a
      case, revoking access, the work orders the desktops claim and report on, the
      purge of live data, the peer's confirmation, the clean backup, the
      checklist, its approval and the completion.  [Cascade] deletes a user or an
      event with what the foreign keys ask for.  Evidence is filed through the class
      [EvidenceService].  [DeletionProps] shows that a completion has every
      proof, [DeletionPurge] that a purged subject is forgotten, and
      [DeletionLiveness] that an approved case completes; [DeletionLifecycle] is
      the transition system of all their calls, with commits and rollbacks, and
      the invariant of complete cases.
    - Retention: [Retention] is [backend/app/core/retention.py], one cycle of it
      in a session of its own, with the recovery of interrupted deliveries
      ([ActivationMail], from [activation_email.py]) and the pruning of old snapshots
      ([Snapshots]).  A flush of a row that a bulk deletion took
      raises, as SQLAlchemy does.  [RetentionProps] shows which rows a cycle leaves,
      and that it commits all of its work or none.
    - Handlers: [PublicLinks] is [backend/app/api/v1/public_schedule_links.py], the
      shared links to public schedules; [PublicLinksProps] shows what the holder of
      a token sees, and that an invalidated link stays dead.  [Calendar] and
      [CalendarEdits] are [calendar.py]: what a member of an event sees, what a device
      may keep, and the edits on the web, with [Governance] ([core/governance.py]),
      [Push] ([core/push.py]) and [PyUrl] ([urlsplit]); [CalendarProps] shows whom a
      calendar names and that an assignment names a person once, [CalendarEditsProps]
      what an edit on the web leaves alone.  [Ordering] is the [ORDER BY] and
      [sorted] of the rows they answer.
    - Cluster: [Ha] and [HaStatus] ([ha.py]), [HaWitness] ([ha_witness.py], the
      commit fence of [db/database.py] and the gate of [main.py]), [HaProps],
      [HaReplication] with [HaReplicationProps] ([ha_replication.py]), and on the
      host [LeaseAgent] with [LeaseAgentProps] ([deploy/ha/lease_agent.py],
      [witness_control.py]): one writer at a time, a commit only with a permit,
      whole requests on the queue.  The witness, HTTP and subprocesses are
      parameters.

    Interactions: the gate calls readiness and the permit; a commit calls the
    permit again; the lease agent writes the control file both read; sessions
    and links read their limits through [RuntimeSettings.get_int].

    ** Bounds and fuel

    Parsers of [Json] and [replace] take the length of their text as fuel and
    the decimal printer the binary logarithm of its number; lemmas of [JsonFacts]
    and [TextFacts] show that this is enough.  Python integers are unbounded and
    are [Z].

    ** Not modelled

    The other HTTP handlers of [backend/app/api], the rendering of policies, mail,
    archives and Git, the release and snapshot tools: see the component list of the manifest.
    Columns that the database engine maintains ([updated_at]).  WebAuthn, SQL, SMTP and subprocesses are
    libraries the source only calls.  The endless loops of the lease agent and
    of the retention scheduler are represented by one turn of them, whose theorems
    hold of every turn. *)
From Stdlib Require Import ZArith Lia.
From stdpp Require Import base list strings gmap.

(** * Record update *)

(** [Eta R] lists the fields of a record once; [Setter g] is then derived for
    every projection [g], and [r <| g := v |>] is the functional counterpart of
    the attribute assignment [r.g = v]. *)
Class Eta (R : Type) := eta : R -> R.
Class Setter {R T : Type} (g : R -> T) := set_field : (T -> T) -> R -> R.
Arguments set_field {R T} g {_} f r.

Ltac make_setter :=
  match goal with
  | |- @Setter ?R ?T ?g =>
      let e := constr:(_ : Eta R) in
      let e := eval red in e in
      let s := constr:(fun (f : T -> T) (r : R) =>
        ltac:(let b := eval cbv beta in (e r) in
              let p := eval pattern (g r) in b in
              match p with
              | ?h _ => let t := eval cbv beta in (h (f (g r))) in exact t
              end)) in
      exact s
  end.
#[export] Hint Extern 1 (Setter _) => make_setter : typeclass_instances.

Declare Scope rec_scope.
Delimit Scope rec_scope with rec.
Notation "r <| g := v |>" := (set_field g (fun _ => v) r)
  (at level 1, left associativity, format "r  <| g  :=  v |>") : rec_scope.
Open Scope rec_scope.
Open Scope Z_scope.

(** * Exceptions and fallible computations *)

(** The exception classes the modelled code raises or catches. *)
Inductive exn_class : Type :=
| ValueError | TypeError | KeyError | LookupError | AttributeError | IndexError
| RuntimeError | RecursionError | OverflowError
| OSError | PermissionError | FileNotFoundError
| JSONDecodeError | UnicodeDecodeError | UnicodeEncodeError
| NoResultFound | IntegrityError | StaleDataError | ValidationError
| EvidenceError | EvidenceUnavailable | TrustEvidenceError
| HAWritePermitError | HAProtectionQueueError
| LeaseAuthorityUnavailable | LeaseAuthorityRejected
| CalledProcessError | TimeoutExpired
| ActivationDeliveryInProgressError
| HTTPException (status_code : Z).

#[export] Instance exn_class_eq_dec : EqDecision exn_class.
Proof. solve_decision. Defined.

(** An exception instance: its class and its message. *)
Record exn : Type := Exn { exn_cls : exn_class; exn_msg : string }.

#[export] Instance exn_eq_dec : EqDecision exn.
Proof. solve_decision. Defined.

(** The direct base class of each class, where the modelled [except] clauses
    depend on it. *)
Definition exn_base (c : exn_class) : option exn_class :=
  match c with
  | KeyError | IndexError => Some LookupError
  | RecursionError => Some RuntimeError
  | PermissionError | FileNotFoundError => Some OSError
  | JSONDecodeError | UnicodeDecodeError | UnicodeEncodeError => Some ValueError
  | EvidenceError | ValidationError | TrustEvidenceError => Some ValueError
  | EvidenceUnavailable | HAWritePermitError | HAProtectionQueueError
  | LeaseAuthorityUnavailable | LeaseAuthorityRejected
  | ActivationDeliveryInProgressError => Some RuntimeError
  | _ => None
  end.

(** [issubclass(c, d)]; the hierarchy above is at most one level deep. *)
Definition exn_isa (c d : exn_class) : bool :=
  bool_decide (c = d) || bool_decide (exn_base c = Some d).

(** Membership of an exception in the tuple of an [except] clause. *)
Definition exn_in (e : exn) (cs : list exn_class) : bool :=
  existsb (exn_isa (exn_cls e)) cs.

(** The result of a Python call: a value or a raised exception. *)
Inductive outcome (A : Type) : Type :=
| Ok (a : A)
| Raise (e : exn).
Arguments Ok {A} a.
Arguments Raise {A} e.

#[export] Instance outcome_eq_dec {A} `{EqDecision A} : EqDecision (outcome A).
Proof. solve_decision. Defined.

Definition raise {A} (c : exn_class) (m : string) : outcome A := Raise (Exn c m).

#[export] Instance outcome_ret : MRet outcome := fun A a => Ok a.
#[export] Instance outcome_bind : MBind outcome := fun A B k m =>
  match m with Ok a => k a | Raise e => Raise e end.

(** [if c: raise ...] as a statement. *)
Definition raise_if (c : bool) (k : exn_class) (m : string) : outcome unit :=
  if c then raise k m else Ok tt.

Definition is_ok {A} (r : outcome A) : bool := match r with Ok _ => true | _ => false end.

Section Loops.
Context {A B : Type} (f : A -> outcome unit) (g : A -> outcome B).

(** [for x in l: f(x)] *)
Fixpoint for_each (l : list A) : outcome unit :=
  match l with
  | [] => Ok tt
  | x :: l => _ ← f x; for_each l
  end.

Fixpoint map_outcome (l : list A) : outcome (list B) :=
  match l with
  | [] => Ok []
  | x :: l => y ← g x; ys ← map_outcome l; Ok (y :: ys)
  end.
End Loops.

Lemma for_each_ok {A} (f : A -> outcome unit) l :
  for_each f l = Ok tt <-> Forall (fun x => f x = Ok tt) l.
Proof.
  split.
  - induction l as [|x l IH]; cbn; [constructor|]. destruct (f x) as [[]|] eqn:E; [|done].
    constructor; auto.
  - induction 1 as [|x l Hx Hl IH]; cbn; [done|]. by rewrite Hx.
Qed.

(** * Stateful fallible computations *)

(** A procedure over a world [W]: assignments made before an exception stay in
    the world, as they do on Python objects; only the caller rolls back. *)
Definition M (W A : Type) : Type := W -> outcome A * W.

#[export] Instance M_ret {W} : MRet (M W) := fun A a w => (Ok a, w).
#[export] Instance M_bind {W} : MBind (M W) := fun A B k m w =>
  match m w with
  | (Ok a, w') => k a w'
  | (Raise e, w') => (Raise e, w')
  end.

Definition get {W} : M W W := fun w => (Ok w, w).
Definition gets {W A} (f : W -> A) : M W A := fun w => (Ok (f w), w).
Definition modify {W} (f : W -> W) : M W unit := fun w => (Ok tt, f w).
Definition throw {W A} (c : exn_class) (m : string) : M W A := fun w => (raise c m, w).
Definition lift {W A} (r : outcome A) : M W A := fun w => (r, w).
Definition throw_if {W} (c : bool) (k : exn_class) (m : string) : M W unit :=
  lift (raise_if c k m).
Definition when {W} (c : bool) (m : M W unit) : M W unit := if c then m else mret tt.

(** [try: m except cs as exc: h exc] *)
Definition try_except {W A} (m : M W A) (cs : list exn_class) (h : exn -> M W A) : M W A :=
  fun w => match m w with
           | (Raise e, w') => if exn_in e cs then h e w' else (Raise e, w')
           | r => r
           end.

(** [try: m except Exception: cleanup; raise] *)
Definition on_exception {W A} (m : M W A) (cleanup : M W unit) : M W A :=
  fun w => match m w with
           | (Raise e, w') => (Raise e, snd (cleanup w'))
           | r => r
           end.

Fixpoint mfor {W A} (f : A -> M W unit) (l : list A) : M W unit :=
  match l with
  | [] => mret tt
  | x :: l => _ ← f x; mfor f l
  end.

Fixpoint mmap {W A B} (f : A -> M W B) (l : list A) : M W (list B) :=
  match l with
  | [] => mret []
  | x :: l => y ← f x; ys ← mmap f l; mret (y :: ys)
  end.

(** * Proof automation *)

(** Case analysis on the discriminee of a [match] in a hypothesis or the goal,
    after which the contradictory branches are discarded. *)
Ltac case_on_hyp H :=
  match type of H with
  | context [match ?x with _ => _ end] =>
      lazymatch x with
      | context [match _ with _ => _ end] => fail
      | _ => destruct x eqn:?
      end
  end.

Ltac case_on_goal :=
  match goal with
  | |- context [match ?x with _ => _ end] =>
      lazymatch x with
      | context [match _ with _ => _ end] => fail
      | _ => destruct x eqn:?
      end
  end.

Ltac split_hyp H := repeat (case_on_hyp H; try discriminate).

Ltac bool_norm :=
  repeat match goal with
  | H : (_ && _) = true |- _ => apply andb_true_iff in H; destruct H
  | H : (_ || _) = false |- _ => apply orb_false_iff in H; destruct H
  | H : negb _ = true |- _ => apply negb_true_iff in H
  | H : negb _ = false |- _ => apply negb_false_iff in H
  | H : bool_decide _ = true |- _ => apply bool_decide_eq_true in H
  | H : bool_decide _ = false |- _ => apply bool_decide_eq_false in H
  | H : (_ =? _)%Z = true |- _ => apply Z.eqb_eq in H
  | H : (_ =? _)%Z = false |- _ => apply Z.eqb_neq in H
  | H : (_ <? _)%Z = true |- _ => apply Z.ltb_lt in H
  | H : (_ <? _)%Z = false |- _ => apply Z.ltb_ge in H
  | H : (_ <=? _)%Z = true |- _ => apply Z.leb_le in H
  | H : (_ <=? _)%Z = false |- _ => apply Z.leb_gt in H
  | H : String.eqb _ _ = true |- _ => apply String.eqb_eq in H
  | H : String.eqb _ _ = false |- _ => apply String.eqb_neq in H
  end.

Lemma bind_Ok_inv {A B} (m : outcome A) (k : A -> outcome B) b :
  m ≫= k = Ok b -> exists a, m = Ok a /\ k a = Ok b.
Proof. destruct m; cbn; [eauto | discriminate]. Qed.

Lemma Mbind_Ok_inv {W A B} (m : M W A) (k : A -> M W B) w b w' :
  (m ≫= k) w = (Ok b, w') -> exists a w1, m w = (Ok a, w1) /\ k a w1 = (Ok b, w').
Proof.
  unfold mbind, M_bind. destruct (m w) as [[a|e] w1]; [eauto | discriminate].
Qed.

Lemma lift_Ok_inv {W A} (r : outcome A) (w : W) a w' :
  lift r w = (Ok a, w') -> r = Ok a /\ w' = w.
Proof. unfold lift. by intros [= -> ->]. Qed.

Lemma modify_Ok_inv {W} (f : W -> W) w u w' : modify f w = (Ok u, w') -> w' = f w.
Proof. unfold modify. by intros [= _ ->]. Qed.

Lemma mret_Ok_inv {W A} (a b : A) (w w' : W) : (mret a : M W A) w = (Ok b, w') -> b = a /\ w' = w.
Proof. by intros [= -> ->]. Qed.

Lemma raise_if_Ok_inv c k m u : raise_if c k m = Ok u -> c = false.
Proof. by destruct c. Qed.

Lemma throw_if_Ok_inv {W} c k m (w : W) u w' :
  throw_if c k m w = (Ok u, w') -> c = false /\ w' = w.
Proof. intros [H ->]%lift_Ok_inv. by apply raise_if_Ok_inv in H. Qed.

Lemma throw_if_true {W} k m (w : W) : throw_if true k m w = (raise k m, w).
Proof. reflexivity. Qed.

Lemma throw_if_false {W} k m (w : W) : throw_if false k m w = (Ok tt, w).
Proof. reflexivity. Qed.

Lemma when_false {W} (m : M W unit) w : when false m w = (Ok tt, w).
Proof. reflexivity. Qed.

(** One step of a run whose first call is known to succeed. *)
Lemma Mbind_Ok {W A B} (m : M W A) (k : A -> M W B) w a w1 :
  m w = (Ok a, w1) -> (m ≫= k) w = k a w1.
Proof. unfold mbind, M_bind. by intros ->. Qed.

Lemma Mbind_Raise {W A B} (m : M W A) (k : A -> M W B) w e w1 :
  m w = (Raise e, w1) -> (m ≫= k) w = (Raise e, w1).
Proof. unfold mbind, M_bind. by intros ->. Qed.

Lemma Mbind_Raise_inv {W A B} (m : M W A) (k : A -> M W B) w e w' :
  (m ≫= k) w = (Raise e, w') ->
  m w = (Raise e, w') \/ exists a w1, m w = (Ok a, w1) /\ k a w1 = (Raise e, w').
Proof.
  unfold mbind, M_bind. destruct (m w) as [[a|e'] w1]; intros H; [eauto|left]. by injection H as -> ->.
Qed.

Lemma lift_snd {W A} (r : outcome A) (w : W) o w' : lift r w = (o, w') -> o = r /\ w' = w.
Proof. by intros [= -> ->]. Qed.

Lemma lift_bind {W A B} (r : outcome A) (k : A -> M W B) w :
  (lift r ≫= k) w = match r with Ok a => k a w | Raise e => (Raise e, w) end.
Proof. by destruct r. Qed.

Lemma get_bind {W B} (k : W -> M W B) w : (get ≫= k) w = k w w.
Proof. reflexivity. Qed.

Lemma check_bind {W A C} (r : outcome A) (k : unit -> M W C) w :
  ((_ ← lift r; mret tt) ≫= k) w =
  match r with Ok _ => k tt w | Raise e => (Raise e, w) end.
Proof. unfold mbind, M_bind, lift. by destruct r. Qed.

(** A check made only on an argument that was given. *)
Lemma opt_lift_bind {W A B C} (o : option A) (f : A -> outcome B) (k : unit -> M W C) w :
  ((match o with Some c => _ ← lift (f c); mret tt | None => mret tt end) ≫= k) w =
  match (match o with Some c => _ ← f c; Ok tt | None => Ok tt end) with
  | Ok _ => k tt w
  | Raise e => (Raise e, w)
  end.
Proof. destruct o as [c|]; [|done]. unfold mbind, M_bind, lift, outcome_bind. by destruct (f c). Qed.

(** Open the binds of a successful run, one hypothesis per call. *)
Ltac inv_ok :=
  repeat match goal with
  | H : mbind _ _ = Ok _ |- _ =>
      let a := fresh "a" in let H1 := fresh "Hrun" in let H2 := fresh "Hrun" in
      apply bind_Ok_inv in H as (a & H1 & H2); cbv beta in H2
  | H : mbind _ _ _ = (Ok _, _) |- _ =>
      let a := fresh "a" in let w := fresh "w" in
      let H1 := fresh "Hrun" in let H2 := fresh "Hrun" in
      apply Mbind_Ok_inv in H as (a & w & H1 & H2); cbv beta in H2
  | H : throw_if _ _ _ _ = (Ok _, _) |- _ =>
      let E := fresh "E" in apply throw_if_Ok_inv in H as [H E]; subst
  | H : raise_if _ _ _ = Ok _ |- _ => apply raise_if_Ok_inv in H
  | H : raise _ _ = Ok _ |- _ => discriminate H
  | H : throw _ _ _ = (Ok _, _) |- _ => discriminate H
  | H : lift _ _ = (Ok _, _) |- _ =>
      let E := fresh "E" in apply lift_Ok_inv in H as [H E]; subst
  | H : gets _ _ = (Ok _, _) |- _ => injection H; intros; subst
  | H : get _ = (Ok _, _) |- _ => injection H; intros; subst
  | H : modify _ _ = (Ok _, _) |- _ => injection H; intros; subst
  | H : mret _ _ = (Ok _, _) |- _ => injection H; intros; subst
  | H : mret _ = Ok _ |- _ => injection H; intros; subst
  | H : Ok _ = Ok _ |- _ => injection H; intros; subst
  end.

(** * Lists *)

Lemma filter_none {A} (f : A -> bool) l : (forall x, In x l -> f x = false) -> List.filter f l = [].
Proof.
  induction l as [|x l IH]; intros H; [done|]. cbn. rewrite H by (by left). apply IH. intros y Hy.
  apply H. by right.
Qed.

Lemma filter_perm {A} (p : A -> bool) l l' : l ≡ₚ l' -> List.filter p l ≡ₚ List.filter p l'.
Proof.
  induction 1 as [|x l l' _ IH|x y l|l l' l'' _ IH _ IH']; cbn; [done| | |by etransitivity].
  - destruct (p x); by rewrite IH.
  - destruct (p x), (p y); try done. apply Permutation_swap.
Qed.
Lemma filter_filter {A} (p q : A -> bool) l :
  List.filter p (List.filter q l) = List.filter (fun x => q x && p x) l.
Proof. induction l as [|x l IH]; [done|]. cbn. destruct (q x); cbn; by rewrite IH. Qed.

Lemma find_none_iff {A} (f : A -> bool) l : List.find f l = None <-> forall x, x ∈ l -> f x = false.
Proof.
  split.
  - intros H x Hx. by apply (List.find_none f l H), list_elem_of_In.
  - induction l as [|y l IH]; intros H; [done|]. cbn. rewrite H by left. apply IH. intros x Hx.
    apply H. by right.
Qed.

Lemma find_some_elem {A} (f : A -> bool) l x : List.find f l = Some x -> x ∈ l /\ f x = true.
Proof. intros [? ?]%List.find_some. by rewrite list_elem_of_In. Qed.

(** Rows with a unique key are equal when their keys are. *)
Lemma nodup_key {A K} (key : A -> K) l x y :
  NoDup (map key l) -> x ∈ l -> y ∈ l -> key x = key y -> x = y.
Proof.
  induction l as [|z l IH]; [by intros _ ?%elem_of_nil|]. cbn. intros [Hz Hd]%NoDup_cons Hx Hy E.
  apply elem_of_cons in Hx, Hy. destruct Hx as [->|Hx], Hy as [->|Hy]; try done.
  - destruct Hz. rewrite E. apply list_elem_of_fmap. by exists y.
  - destruct Hz. rewrite <-E. apply list_elem_of_fmap. by exists x.
  - by apply IH.
Qed.

(** A key that an update of the rows keeps finds the updated row. *)
Lemma find_map {A} (p : A -> bool) (f : A -> A) l :
  (forall x, p (f x) = p x) -> List.find p (map f l) = option_map f (List.find p l).
Proof.
  intros Hp. induction l as [|x l IH]; [done|]. cbn. rewrite Hp. by destruct (p x).
Qed.

(** * Frame reasoning *)

(** [keeps R m]: whatever [m] returns or raises, the world it leaves is related
    by [R] to the world it found. *)
Definition keeps {W A} (R : W -> W -> Prop) (m : M W A) : Prop :=
  forall w, R w (snd (m w)).

Create HintDb keeps discriminated.
Create HintDb py discriminated.

Section Keeps.
Context {W : Type} (R : W -> W -> Prop) `{!PreOrder R}.

Lemma keeps_ret {A} (a : A) : keeps R (mret a).
Proof. intros w. cbn. reflexivity. Qed.
Lemma keeps_lift {A} (r : outcome A) : keeps R (lift r).
Proof. intros w. cbn. reflexivity. Qed.
Lemma keeps_throw {A} c s : keeps R (throw (A := A) c s).
Proof. intros w. cbn. reflexivity. Qed.
Lemma keeps_throw_if b c s : keeps R (throw_if b c s).
Proof. apply keeps_lift. Qed.
Lemma keeps_gets {A} (f : W -> A) : keeps R (gets f).
Proof. intros w. cbn. reflexivity. Qed.
Lemma keeps_get : keeps R get.
Proof. intros w. cbn. reflexivity. Qed.
Lemma keeps_modify f : (forall w, R w (f w)) -> keeps R (modify f).
Proof. intros H w. apply H. Qed.
Lemma keeps_bind {A B} (m : M W A) (k : A -> M W B) :
  keeps R m -> (forall a, keeps R (k a)) -> keeps R (m ≫= k).
Proof.
  intros Hm Hk w. specialize (Hm w). unfold mbind, M_bind.
  destruct (m w) as [[a|e] w1]; [|done].
  etransitivity; [apply Hm | apply Hk].
Qed.
Lemma keeps_when b m : keeps R m -> keeps R (when b m).
Proof. destruct b; [done | intros _; apply keeps_ret]. Qed.
Lemma keeps_if {A} (b : bool) (m1 m2 : M W A) :
  keeps R m1 -> keeps R m2 -> keeps R (if b then m1 else m2).
Proof. by destruct b. Qed.
Lemma keeps_option {A B} (o : option B) (f : B -> M W A) (d : M W A) :
  (forall b, keeps R (f b)) -> keeps R d ->
  keeps R (match o with Some b => f b | None => d end).
Proof. by destruct o. Qed.
Lemma keeps_try {A} (m : M W A) cs h :
  keeps R m -> (forall e, keeps R (h e)) -> keeps R (try_except m cs h).
Proof.
  intros Hm Hh w. specialize (Hm w). unfold try_except.
  destruct (m w) as [[a|e] w1]; [done|]. destruct (exn_in e cs); [|done].
  etransitivity; [apply Hm | apply Hh].
Qed.
Lemma keeps_mfor {A} (f : A -> M W unit) l :
  (forall x, keeps R (f x)) -> keeps R (mfor f l).
Proof. intros H. induction l; cbn; auto using keeps_ret, keeps_bind. Qed.
Lemma keeps_mmap {A B} (f : A -> M W B) l :
  (forall x, keeps R (f x)) -> keeps R (mmap f l).
Proof. intros H. induction l; cbn; auto using keeps_ret, keeps_bind. Qed.
End Keeps.

#[export] Hint Resolve keeps_ret keeps_lift keeps_throw keeps_throw_if keeps_gets
  keeps_get keeps_modify keeps_bind keeps_when keeps_if keeps_option keeps_try
  keeps_mfor keeps_mmap : keeps.

(** [yields R m P]: whatever [m] returns or raises, the world it leaves is related
    by [R] to the one it started from; what it returns satisfies [P]. *)
Definition yields {W A} (R : W -> W -> Prop) (m : M W A) (P : A -> Prop) : Prop :=
  forall w, R w (snd (m w)) /\ forall a, fst (m w) = Ok a -> P a.
Section Yields.
Context {W : Type} (R : W -> W -> Prop) `{!PreOrder R}.
Lemma yields_bind {A B} (m : M W A) (k : A -> M W B) P Q :
  yields R m P -> (forall a, P a -> yields R (k a) Q) -> yields R (m ≫= k) Q.
Proof.
  intros Hm Hk w. destruct (Hm w) as [HR HP]. unfold mbind, M_bind. destruct (m w) as [[a|e] w1]; cbn in *; [|by split].
  destruct (Hk a (HP a eq_refl) w1) as [HR' HQ]. split; [by etransitivity|done].
Qed.
Lemma yields_keeps {A} (m : M W A) : keeps R m -> yields R m (fun _ => True).
Proof. intros H w. by split. Qed.
Lemma keeps_yields {A} (m : M W A) P : yields R m P -> keeps R m.
Proof. intros H w. apply H. Qed.
Lemma yields_ret {A} (a : A) (P : A -> Prop) : P a -> yields R (mret a) P.
Proof. intros H w. split; [reflexivity|]. by intros a' [= <-]. Qed.
Lemma yields_lift {A} (r : outcome A) : yields R (lift r) (fun a => r = Ok a).
Proof. intros w. split; [reflexivity|done]. Qed.
Lemma yields_mmap {A B} (f : A -> M W B) (P : B -> Prop) l :
  (forall x, yields R (f x) P) -> yields R (mmap f l) (Forall P).
Proof.
  intros Hf. induction l as [|x l IH]; cbn; [apply yields_ret; constructor|].
  eapply yields_bind; [apply Hf|]. intros y Hy. eapply yields_bind; [exact IH|]. intros ys Hys.
  apply yields_ret. by constructor.
Qed.
End Yields.
(** A call, and then what is done with what it yields *)
Ltac yield_by lemma := eapply yields_bind; [typeclasses eauto|apply lemma|].

(** Walk through a call, step by step, to show that it keeps a relation: [base]
    closes the steps the hints do not. *)
Ltac by_frame base :=
  repeat first
    [ progress intros | solve [auto with keeps] | apply keeps_bind; [typeclasses eauto| |] | base
    | apply keeps_mfor; [typeclasses eauto|] | apply keeps_mmap; [typeclasses eauto|]
    | apply keeps_try; [typeclasses eauto| |] | apply keeps_when; [typeclasses eauto|] | case_on_goal
    | lazymatch goal with |- PreOrder _ => typeclasses eauto end ].
