(* ===== verification/Text.v ===== *)
(** Python text. A [str] is represented by its UTF-8 encoding, so that a Rocq
    [string] is both the text and the bytes [text.encode("utf-8")] gives; UTF-8
    preserves the code-point order, so [sorted] on keys is the byte order.
    A lone surrogate is represented by its three-byte generalised encoding, which
    [utf8_valid] rejects as [str.encode] does.  The file also holds the regular
    expressions of the modelled code, matched with Brzozowski derivatives over
    code points. *)
From Stdlib Require Import ZArith Lia Ascii String.
From stdpp Require Import base list strings.
From S2P Require Import Prelude.

Abbreviation ord := N_of_ascii.
Definition zord (c : ascii) : Z := Z.of_N (N_of_ascii c).
Definition chr (z : Z) : ascii := ascii_of_N (Z.to_N z).
Infix "+:+" := String.append (at level 60, right associativity) : string_scope.
Open Scope string_scope.
Open Scope list_scope.

(** ** Characters and searching *)

Fixpoint all_chars (p : ascii -> bool) (s : string) : bool :=
  match s with
  | EmptyString => true
  | String c s => p c && all_chars p s
  end.

Fixpoint any_char (p : ascii -> bool) (s : string) : bool :=
  match s with
  | EmptyString => false
  | String c s => p c || any_char p s
  end.

Definition between (lo hi : Z) (c : ascii) : bool := (lo <=? zord c)%Z && (zord c <=? hi)%Z.
Definition is_digit (c : ascii) : bool := between 48 57 c.
Definition is_lower (c : ascii) : bool := between 97 122 c.
Definition is_upper (c : ascii) : bool := between 65 90 c.
(** A byte that begins a code point. *)
Definition is_lead (c : ascii) : bool := negb (between 128 191 c).

(** [len(s)] counts code points. *)
Fixpoint strlen (s : string) : Z :=
  match s with
  | EmptyString => 0
  | String c s => (if is_lead c then 1 else 0) + strlen s
  end.

Definition byte_length (s : string) : Z := Z.of_nat (String.length s).

Definition truthy_str (s : string) : bool := negb (String.eqb s "").
Definition truthy_opt (o : option string) : bool :=
  match o with Some s => truthy_str s | None => false end.

Definition startswith (p s : string) : bool := String.prefix p s.

(** [s[len(p):]] when [s.startswith(p)]. *)
Fixpoint drop_prefix (p s : string) : option string :=
  match p, s with
  | EmptyString, _ => Some s
  | String a p, String b s => if Ascii.eqb a b then drop_prefix p s else None
  | _, _ => None
  end.

(** [p in s] *)
Fixpoint contains (p s : string) : bool :=
  startswith p s || match s with EmptyString => false | String _ s => contains p s end.

(** [s.replace(p, r)] for non-empty [p]: left-to-right, non-overlapping. *)
Fixpoint replace_fuel (n : nat) (p r s : string) : string :=
  match n with
  | O => s
  | S n =>
      match drop_prefix p s with
      | Some s' => r +:+ replace_fuel n p r s'
      | None => match s with
                | EmptyString => EmptyString
                | String c s => String c (replace_fuel n p r s)
                end
      end
  end.
Definition replace (p r s : string) : string := replace_fuel (S (String.length s)) p r s.

Fixpoint rev_string (s acc : string) : string :=
  match s with EmptyString => acc | String c s => rev_string s (String c acc) end.

Fixpoint lstrip_p (p : ascii -> bool) (s : string) : string :=
  match s with
  | String c s' => if p c then lstrip_p p s' else s
  | EmptyString => EmptyString
  end.
Definition rstrip_p (p : ascii -> bool) (s : string) : string :=
  rev_string (lstrip_p p (rev_string s "")) "".
Definition strip_p (p : ascii -> bool) (s : string) : string := rstrip_p p (lstrip_p p s).

(** ASCII white space of [str.strip()] and [str.split()]. *)
Definition is_space (c : ascii) : bool := between 9 13 c || between 28 32 c.
Definition strip (s : string) : string := strip_p is_space s.
Definition rstrip_slash (s : string) : string := rstrip_p (Ascii.eqb "/") s.

(** [s.split(c)] *)
Fixpoint split_on (c : ascii) (s : string) : list string :=
  match s with
  | EmptyString => [""]
  | String a s =>
      if Ascii.eqb a c then "" :: split_on c s
      else match split_on c s with
           | w :: ws => String a w :: ws
           | [] => [String a ""]
           end
  end.

(** [s.split()] *)
Definition split_ws (s : string) : list string :=
  List.filter truthy_str
    (split_on " " ((fix norm s := match s with
       | EmptyString => EmptyString
       | String c s => String (if is_space c then " "%char else c) (norm s)
       end) s)).

(** [sep.join(l)] *)
Fixpoint join (sep : string) (l : list string) : string :=
  match l with
  | [] => ""
  | [x] => x
  | x :: l => x +:+ sep +:+ join sep l
  end.

(** [s[:n]] on a text of single-byte characters. *)
Definition take_bytes (n : nat) (s : string) : string := String.substring 0 n s.

Fixpoint lower (s : string) : string :=
  match s with
  | EmptyString => EmptyString
  | String c s => String (if is_upper c then chr (zord c + 32) else c) (lower s)
  end.

(** ** Decimal numerals *)

Definition digit_char (d : Z) : ascii := chr (48 + d).

Fixpoint dec (fuel : nat) (z : Z) : string :=
  match fuel with
  | O => EmptyString
  | S fuel =>
      if (z <? 10)%Z then String (digit_char z) EmptyString
      else dec fuel (z / 10)%Z +:+ String (digit_char (z mod 10)%Z) EmptyString
  end.

(** [str(z)]; a number has fewer decimal digits than [log2 z + 2]. *)
Definition string_of_nonneg (z : Z) : string := dec (S (Z.to_nat (Z.log2 z))) z.
Definition string_of_Z (z : Z) : string :=
  if (z <? 0)%Z then String "-" (string_of_nonneg (- z)) else string_of_nonneg z.

Fixpoint digits_val (acc : Z) (s : string) : option Z :=
  match s with
  | EmptyString => Some acc
  | String c s => if is_digit c then digits_val (10 * acc + (zord c - 48))%Z s else None
  end.

(** [int(s)] for a plain decimal numeral with an optional minus sign. *)
Definition Z_of_string (s : string) : option Z :=
  match s with
  | EmptyString => None
  | String c r =>
      if Ascii.eqb c "-" then
        match r with EmptyString => None | _ => option_map Z.opp (digits_val 0 r) end
      else digits_val 0 s
  end.

Fixpoint zeros (n : nat) : string :=
  match n with O => EmptyString | S n => String "0" (zeros n) end.

(** [f"{z:0{w}d}"] for non-negative [z]. *)
Definition pad (w : nat) (z : Z) : string :=
  let s := string_of_Z z in zeros (w - String.length s) +:+ s.

(** ** UTF-8 *)

Definition cont (b : Z) : bool := (128 <=? b)%Z && (b <=? 191)%Z.
Definition low6 (b : Z) : Z := Z.land b 63.

(** Decoding to code points; [surr] admits the encoding of a surrogate. *)
Fixpoint decode (surr : bool) (s : string) : option (list Z) :=
  match s with
  | EmptyString => Some []
  | String c0 s0 =>
      let b0 := zord c0 in
      if (b0 <? 128)%Z then option_map (cons b0) (decode surr s0)
      else match s0 with
      | EmptyString => None
      | String c1 s1 =>
          let b1 := zord c1 in
          if negb (cont b1) then None
          else if (194 <=? b0)%Z && (b0 <=? 223)%Z then
            option_map (cons (Z.lor (Z.shiftl (Z.land b0 31) 6) (low6 b1))) (decode surr s1)
          else match s1 with
          | EmptyString => None
          | String c2 s2 =>
              let b2 := zord c2 in
              if negb (cont b2) then None
              else if (224 <=? b0)%Z && (b0 <=? 239)%Z then
                let cp := Z.lor (Z.shiftl (Z.land b0 15) 12)
                            (Z.lor (Z.shiftl (low6 b1) 6) (low6 b2)) in
                if (cp <? 2048)%Z || (negb surr && (55296 <=? cp)%Z && (cp <=? 57343)%Z)
                then None else option_map (cons cp) (decode surr s2)
              else match s2 with
              | EmptyString => None
              | String c3 s3 =>
                  let b3 := zord c3 in
                  if negb (cont b3) then None
                  else if (240 <=? b0)%Z && (b0 <=? 244)%Z then
                    let cp := Z.lor (Z.shiftl (Z.land b0 7) 18)
                                (Z.lor (Z.shiftl (low6 b1) 12)
                                  (Z.lor (Z.shiftl (low6 b2) 6) (low6 b3))) in
                    if (cp <? 65536)%Z || (1114111 <? cp)%Z then None
                    else option_map (cons cp) (decode surr s3)
                  else None
              end
          end
      end
  end.

Definition utf8_valid (s : string) : bool :=
  match decode false s with Some _ => true | None => false end.

Definition code_points (s : string) : list Z :=
  match decode true s with Some l => l | None => [] end.

(** The encoding of one code point. *)
Definition encode (cp : Z) : string :=
  if (cp <? 128)%Z then String (chr cp) ""
  else if (cp <? 2048)%Z then
    String (chr (192 + Z.shiftr cp 6)) (String (chr (128 + Z.land cp 63)) "")
  else if (cp <? 65536)%Z then
    String (chr (224 + Z.shiftr cp 12))
      (String (chr (128 + Z.land (Z.shiftr cp 6) 63)) (String (chr (128 + Z.land cp 63)) ""))
  else
    String (chr (240 + Z.shiftr cp 18))
      (String (chr (128 + Z.land (Z.shiftr cp 12) 63))
        (String (chr (128 + Z.land (Z.shiftr cp 6) 63)) (String (chr (128 + Z.land cp 63)) ""))).

Definition is_ascii (s : string) : bool := all_chars (fun c => (zord c <? 128)%Z) s.

(** ** Regular expressions *)

Inductive regex : Type :=
| RNone
| REps
| RChar (p : Z -> bool)
| RSeq (a b : regex)
| RAlt (a b : regex)
| RStar (a : regex).

Fixpoint nullable (r : regex) : bool :=
  match r with
  | RNone | RChar _ => false
  | REps | RStar _ => true
  | RSeq a b => nullable a && nullable b
  | RAlt a b => nullable a || nullable b
  end.

(** Smart constructors that keep derivatives small. *)
Definition seq_r (a b : regex) : regex :=
  match a, b with
  | RNone, _ | _, RNone => RNone
  | REps, _ => b
  | _, REps => a
  | _, _ => RSeq a b
  end.
Definition alt_r (a b : regex) : regex :=
  match a, b with
  | RNone, _ => b
  | _, RNone => a
  | _, _ => RAlt a b
  end.

Fixpoint deriv (c : Z) (r : regex) : regex :=
  match r with
  | RNone | REps => RNone
  | RChar p => if p c then REps else RNone
  | RSeq a b =>
      if nullable a then alt_r (seq_r (deriv c a) b) (deriv c b) else seq_r (deriv c a) b
  | RAlt a b => alt_r (deriv c a) (deriv c b)
  | RStar a => seq_r (deriv c a) (RStar a)
  end.

Fixpoint match_points (r : regex) (l : list Z) : bool :=
  match l with
  | [] => nullable r
  | c :: l => match_points (deriv c r) l
  end.

(** [re.fullmatch(r, s)] *)
Definition fullmatch (r : regex) (s : string) : bool := match_points r (code_points s).

Fixpoint rep (n : nat) (r : regex) : regex :=
  match n with O => REps | S n => seq_r r (rep n r) end.
(** At most [n] repetitions. *)
Fixpoint rep_opt (n : nat) (r : regex) : regex :=
  match n with O => REps | S n => alt_r REps (seq_r r (rep_opt n r)) end.
(** [r{lo,hi}] *)
Definition rep_range (lo hi : nat) (r : regex) : regex := seq_r (rep lo r) (rep_opt (hi - lo) r).
Definition plus_r (r : regex) : regex := seq_r r (RStar r).

(** Literal ASCII text in a pattern. *)
Fixpoint lit (s : string) : regex :=
  match s with
  | EmptyString => REps
  | String c s => seq_r (RChar (Z.eqb (zord c))) (lit s)
  end.

Definition in_rng (lo hi c : Z) : bool := (lo <=? c)%Z && (c <=? hi)%Z.
Definition cls (ranges : list (ascii * ascii)) : regex :=
  RChar (fun c => existsb (fun '(lo, hi) => in_rng (zord lo) (zord hi) c) ranges).
Definition one_of (s : string) : list (ascii * ascii) :=
  map (fun c => (c, c)) (list_ascii_of_string s).

Definition hex_lower : regex := cls [("0", "9"); ("a", "f")]%char.
Definition digit_cls : regex := cls [("0", "9")]%char.

(** [\d] on a [str] pattern: the Unicode decimal digits, by their zeros. *)
Definition nd_zeros : list Z :=
  [48; 1632; 1776; 1984; 2406; 2534; 2662; 2790; 2918; 3046; 3174; 3302; 3430; 3558;
   3664; 3792; 3872; 4160; 4240; 6112; 6160; 6470; 6608; 6784; 6800; 6992; 7088; 7232;
   7248; 42528; 43216; 43264; 43472; 43504; 43600; 44016; 65296; 66720; 68912; 69734;
   69872; 69942; 70096; 70384; 70736; 70864; 71248; 71360; 71472; 71904; 72016; 72784;
   73040; 73120; 92768; 92864; 93008; 120782; 120792; 120802; 120812; 120822; 123200;
   123632; 125264; 130032]%Z.
Definition uni_digit (c : Z) : option Z :=
  match List.find (fun z => in_rng z (z + 9) c) nd_zeros with
  | Some z => Some (c - z)%Z
  | None => None
  end.
Definition backslash_d : regex :=
  RChar (fun c => match uni_digit c with Some _ => true | None => false end).

(** [str.isspace] on a code point. *)
Definition uni_space (c : Z) : bool :=
  existsb (Z.eqb c)
    [9; 10; 11; 12; 13; 28; 29; 30; 31; 32; 133; 160; 5760; 8192; 8193; 8194; 8195; 8196;
     8197; 8198; 8199; 8200; 8201; 8202; 8232; 8233; 8239; 8287; 12288].
Fixpoint drop_while (p : Z -> bool) (l : list Z) : list Z :=
  match l with c :: l' => if p c then drop_while p l' else l | [] => [] end.

(** [s.strip()] *)
Definition ustrip (s : string) : string :=
  let l := List.rev (drop_while uni_space (List.rev (drop_while uni_space (code_points s)))) in
  fold_right (fun c acc => encode c +:+ acc) EmptyString l.

(** [s.split()] on a text of any characters *)
Fixpoint split_spaces (cur : list Z) (l : list Z) : list (list Z) :=
  match l with
  | [] => [List.rev cur]
  | c :: l => if uni_space c then List.rev cur :: split_spaces [] l else split_spaces (c :: cur) l
  end.
Definition usplit (s : string) : list string :=
  List.filter truthy_str (map (fun l => join "" (map encode l)) (split_spaces [] (code_points s))).

(** The language of a regular expression. *)
Inductive lang : regex -> list Z -> Prop :=
| l_eps : lang REps []
| l_char p c : p c = true -> lang (RChar p) [c]
| l_seq a b x y : lang a x -> lang b y -> lang (RSeq a b) (x ++ y)
| l_alt_l a b x : lang a x -> lang (RAlt a b) x
| l_alt_r a b x : lang b x -> lang (RAlt a b) x
| l_star_nil a : lang (RStar a) []
| l_star_cons a c x y : lang a (c :: x) -> lang (RStar a) y -> lang (RStar a) (c :: x ++ y).
#[export] Hint Constructors lang : py.

Lemma nullable_lang r : nullable r = true <-> lang r [].
Proof.
  induction r; cbn; rewrite ?andb_true_iff, ?orb_true_iff; split; intros H;
    try discriminate; try (inversion H; subst; done); eauto with py.
  - destruct H as [Ha Hb]. apply (l_seq _ _ [] []); tauto.
  - inversion H as [| |? ? x y Hx Hy E1 E2| | | |]; subst.
    apply app_eq_nil in E2 as [-> ->]. tauto.
  - destruct H; [apply l_alt_l | apply l_alt_r]; tauto.
  - inversion H; subst; tauto.
Qed.

Lemma seq_r_lang a b l : lang (seq_r a b) l <-> lang (RSeq a b) l.
Proof.
  assert (forall r x, lang RNone x -> lang r x) as Hn by (intros ? ? H; inversion H).
  split.
  - destruct a, b; cbn; intros H; try (inversion H; fail); try exact H;
      try (apply (l_seq _ _ [] l); [constructor | exact H]);
      rewrite <-(app_nil_r l); constructor; try exact H; constructor.
  - intros H. inversion H as [| |? ? x y Hx Hy| | | |]; subst.
    destruct a, b; cbn; try (inversion Hx; fail); try (inversion Hy; fail);
      try (inversion Hx; subst; exact Hy);
      try (inversion Hy; subst; rewrite app_nil_r; exact Hx); exact H.
Qed.

Lemma alt_r_lang a b l : lang (alt_r a b) l <-> lang a l \/ lang b l.
Proof.
  split.
  - destruct a, b; cbn; intros H; auto; inversion H; subst; auto.
  - intros [H|H]; destruct a, b; cbn; auto with py; inversion H.
Qed.

Lemma deriv_lang r c l : lang (deriv c r) l <-> lang r (c :: l).
Proof.
  revert l. induction r as [| |p|a IHa b IHb|a IHa b IHb|a IHa]; intros l; cbn.
  - split; intros H; inversion H.
  - split; intros H; inversion H.
  - destruct (p c) eqn:E; split; intros H; inversion H; subst; auto with py; congruence.
  - assert (lang (seq_r (deriv c a) b) l <-> exists x y, l = x ++ y /\ lang a (c :: x) /\ lang b y) as Hs.
    { rewrite seq_r_lang. split.
      - intros H; inversion H; subst. eexists _, _. rewrite <-IHa. eauto.
      - intros (x & y & -> & Hx & Hy). constructor; [by apply IHa | done]. }
    assert (lang (RSeq a b) (c :: l) <->
      (exists x y, l = x ++ y /\ lang a (c :: x) /\ lang b y) \/ (lang a [] /\ lang b (c :: l))) as Hr.
    { split.
      - intros H; inversion H as [| |? ? x y Hx Hy E| | | |]; subst.
        destruct x as [|d x]; cbn in *.
        + right. by subst.
        + left. simplify_eq. eauto.
      - intros [(x & y & -> & Hx & Hy)|[Hx Hy]].
        + apply (l_seq _ _ (c :: x) y); done.
        + apply (l_seq _ _ [] (c :: l)); done. }
    rewrite Hr. destruct (nullable a) eqn:En.
    + rewrite alt_r_lang, Hs, IHb. apply nullable_lang in En. tauto.
    + rewrite Hs. split; [tauto|]. intros [?|[Hx _]]; [done|].
      apply nullable_lang in Hx. congruence.
  - rewrite alt_r_lang, IHa, IHb. split.
    + intros [H|H]; auto with py.
    + intros H; inversion H; subst; auto.
  - rewrite seq_r_lang. split.
    + intros H; inversion H; subst. constructor; [by apply IHa | done].
    + intros H; inversion H as [| | | | | |? ? x y Hx Hy]; subst.
      constructor; [by apply IHa | done].
Qed.

(** The derivative matcher decides the language of the pattern. *)
Lemma match_points_lang r l : match_points r l = true <-> lang r l.
Proof.
  revert r. induction l as [|c l IH]; intros r; cbn.
  - apply nullable_lang.
  - rewrite IH. apply deriv_lang.
Qed.
Open Scope Z_scope.
