(* ===== verification/TextFacts.v ===== *)
(** Facts on text: concatenation, the decimal numerals of [str] and of
    zero-padded fields, and their order as text. *)
From Stdlib Require Import ZArith Lia Ascii String.
From stdpp Require Import base list strings.
From S2P Require Import Prelude Text.

(** ** Concatenation *)

Lemma app_str_assoc a b c : (a +:+ b) +:+ c = a +:+ b +:+ c.
Proof. induction a as [|x a IH]; [done | exact (f_equal (String x) IH)]. Qed.

Lemma length_app_str a b : String.length (a +:+ b) = (String.length a + String.length b)%nat.
Proof. induction a as [|x a IH]; [done | exact (f_equal S IH)]. Qed.

Lemma app_str_nil_r a : a +:+ EmptyString = a.
Proof. induction a as [|x a IH]; [done | exact (f_equal (String x) IH)]. Qed.

Lemma app_str_cons c a b : String c a +:+ b = String c (a +:+ b).
Proof. reflexivity. Qed.

(** Spell out the length of a concatenation. *)
Ltac str_len H := repeat first [rewrite length_app_str in H | progress cbn [String.length] in H].

Lemma all_chars_app p a b : all_chars p (a +:+ b) = all_chars p a && all_chars p b.
Proof.
  induction a as [|c a IH]; [done|]. rewrite app_str_cons. cbn [all_chars].
  by rewrite IH, andb_assoc.
Qed.

Lemma substring_app a b : String.substring 0 (String.length a) (a +:+ b) = a.
Proof.
  induction a as [|c a IH]; [by destruct b|]. rewrite app_str_cons. cbn [String.length String.substring].
  by rewrite IH.
Qed.

Lemma compare_app a b s t :
  String.length a = String.length b ->
  String.compare (a +:+ s) (b +:+ t) =
  match String.compare a b with Eq => String.compare s t | c => c end.
Proof.
  revert b. induction a as [|c a IH]; intros [|d b] Hl; try discriminate; [done|].
  injection Hl as Hl. rewrite !app_str_cons. cbn [String.compare].
  destruct (Ascii.compare c d); auto.
Qed.

Lemma compare_str_refl a : String.compare a a = Eq.
Proof.
  induction a as [|c a IH]; [done|]. cbn [String.compare]. unfold Ascii.compare.
  by rewrite N.compare_refl.
Qed.

(** ** Numerals *)

Lemma zord_digit d : 0 <= d <= 9 -> zord (digit_char d) = 48 + d.
Proof.
  intros H. assert (d = 0 \/ d = 1 \/ d = 2 \/ d = 3 \/ d = 4 \/ d = 5 \/ d = 6 \/ d = 7 \/ d = 8 \/ d = 9)
    as Hd by lia.
  repeat (destruct Hd as [->|Hd]; [reflexivity|]). by rewrite Hd.
Qed.

Lemma is_digit_char d : 0 <= d <= 9 -> is_digit (digit_char d) = true.
Proof. intros H. unfold is_digit, between. rewrite zord_digit by done. lia. Qed.

Lemma pow10_S n : 10 ^ Z.of_nat (S n) = 10 * 10 ^ Z.of_nat n.
Proof. rewrite Nat2Z.inj_succ, Z.pow_succ_r; lia. Qed.

Lemma dec_indep f f' z :
  (0 < f)%nat -> (0 < f')%nat -> 0 <= z < 10 ^ Z.of_nat f -> z < 10 ^ Z.of_nat f' ->
  dec f z = dec f' z.
Proof.
  revert f' z. induction f as [|f IH]; intros f' z Hf Hf' Hz Hz'; [lia|].
  destruct f' as [|f']; [lia|]. cbn [dec].
  destruct (Z.ltb_spec z 10); [done|]. rewrite pow10_S in Hz, Hz'.
  destruct f as [|f]; [cbn in Hz; lia|]. destruct f' as [|f']; [cbn in Hz'; lia|].
  rewrite (IH (S f') (z / 10)); [done|lia|lia|..].
  - split; [apply Z.div_pos; lia|]. apply Z.div_lt_upper_bound; lia.
  - apply Z.div_lt_upper_bound; lia.
Qed.

Lemma nonneg_fuel z : 0 <= z -> z < 10 ^ Z.of_nat (S (Z.to_nat (Z.log2 z))).
Proof.
  intros Hz. destruct (Z.eq_dec z 0) as [->|]; [done|].
  pose proof (Z.log2_spec z ltac:(lia)) as [_ Hl]. pose proof (Z.log2_nonneg z).
  rewrite Nat2Z.inj_succ, Z2Nat.id by done.
  eapply Z.lt_le_trans; [exact Hl|]. apply Z.pow_le_mono_l. lia.
Qed.

Lemma nonneg_dec f z : (0 < f)%nat -> 0 <= z < 10 ^ Z.of_nat f -> string_of_nonneg z = dec f z.
Proof.
  intros Hf Hz. unfold string_of_nonneg.
  apply dec_indep; [lia | done | split; [lia | apply nonneg_fuel; lia] | lia].
Qed.

Lemma dec_length f z : (String.length (dec f z) <= f)%nat.
Proof.
  revert z. induction f as [|f IH]; intros z; cbn [dec]; [cbn; lia|].
  destruct (z <? 10); cbn [String.length]; [lia|]. rewrite length_app_str. cbn.
  specialize (IH (z / 10)). lia.
Qed.

Lemma string_of_Z_length z k :
  (0 < k)%nat -> 0 <= z < 10 ^ Z.of_nat k -> (String.length (string_of_Z z) <= k)%nat.
Proof.
  intros Hk Hz. unfold string_of_Z. destruct (Z.ltb_spec z 0); [lia|].
  rewrite (nonneg_dec k) by done. apply dec_length.
Qed.

(** Facts about [dec] with enough fuel, proved together. *)
Definition plain_digits (s : string) : Prop :=
  all_chars is_digit s = true /\ s <> EmptyString /\
  forall r, s = String "0" r -> r = EmptyString.

Lemma digits_val_app acc a b :
  digits_val acc (a +:+ b) = match digits_val acc a with Some v => digits_val v b | None => None end.
Proof.
  revert acc. induction a as [|c a IH]; intros acc; [done|]. rewrite app_str_cons. cbn [digits_val].
  destruct (is_digit c); auto.
Qed.

Lemma digit_val acc d : 0 <= d <= 9 ->
  digits_val acc (String (digit_char d) EmptyString) = Some (10 * acc + d).
Proof. intros H. cbn [digits_val]. rewrite is_digit_char, zord_digit by done. f_equal. lia. Qed.

Lemma dec_spec f z :
  (0 < f)%nat -> 0 <= z < 10 ^ Z.of_nat f ->
  plain_digits (dec f z) /\ digits_val 0 (dec f z) = Some z /\
  (0 < z -> forall r, dec f z <> String "0" r).
Proof.
  revert z. induction f as [|f IH]; intros z Hf Hz; [lia|]. cbn [dec].
  destruct (Z.ltb_spec z 10).
  - rewrite digit_val by lia. split_and!; [|done|].
    + split_and!; [cbn [all_chars]; by rewrite is_digit_char by lia | done | by intros r [= _ <-]].
    + intros Hp r [= E _]. assert (zord (digit_char z) = zord "0") as E' by by rewrite E.
      rewrite zord_digit in E' by lia. change (zord "0") with 48 in E'. lia.
  - destruct f as [|f]; [cbn in Hz; lia|]. rewrite pow10_S in Hz.
    assert (0 < z / 10) as Hq by (apply Z.div_str_pos; lia).
    pose proof (Z.mod_pos_bound z 10 ltac:(lia)).
    destruct (IH (z / 10)) as ((Ha & Hne & Hz0) & Hv & Hnz); [lia| |].
    { split; [lia|]. apply Z.div_lt_upper_bound; lia. }
    specialize (Hnz Hq).
    destruct (dec (S f) (z / 10)) as [|c r] eqn:E; [done|].
    assert (forall r', String c r +:+ String (digit_char (z mod 10)) EmptyString <> String "0" r') as Hn.
    { rewrite app_str_cons. intros r' [= -> _]. by apply (Hnz r). }
    split_and!; [split_and!|..].
    + rewrite all_chars_app, Ha. cbn [all_chars]. by rewrite is_digit_char by lia.
    + done.
    + intros r' E'. by apply Hn in E'.
    + rewrite digits_val_app, Hv, digit_val by lia. f_equal. pose proof (Z.div_mod z 10). lia.
    + intros _. exact Hn.
Qed.

Lemma nonneg_spec z :
  0 <= z -> plain_digits (string_of_nonneg z) /\ digits_val 0 (string_of_nonneg z) = Some z.
Proof.
  intros Hz. unfold string_of_nonneg.
  destruct (dec_spec (S (Z.to_nat (Z.log2 z))) z) as (H1 & H2 & _); [lia| |done].
  split; [done | by apply nonneg_fuel].
Qed.

Lemma digits_first d :
  plain_digits d -> exists c r, d = String c r /\ is_digit c = true.
Proof.
  intros (Hd & Hne & _). destruct d as [|c r]; [done|]. cbn [all_chars] in Hd. bool_norm. eauto.
Qed.

(** [int(str(z)) == z] *)
Lemma Z_of_string_of_Z z : Z_of_string (string_of_Z z) = Some z.
Proof.
  unfold string_of_Z. destruct (Z.ltb_spec z 0).
  - destruct (nonneg_spec (- z)) as [Hp Hv]; [lia|].
    destruct (digits_first _ Hp) as (c & r & E & _). rewrite E in *.
    cbn [Z_of_string]. change (Ascii.eqb "-" "-") with true. cbv iota. rewrite Hv. cbn. f_equal. lia.
  - destruct (nonneg_spec z) as [Hp Hv]; [lia|].
    destruct (digits_first _ Hp) as (c & r & E & Hc). rewrite E in *.
    cbn [Z_of_string]. destruct (Ascii.eqb_spec c "-") as [->|]; [by vm_compute in Hc | done].
Qed.

Lemma digits_val_bound acc s v :
  0 <= acc -> digits_val acc s = Some v -> v < (acc + 1) * 10 ^ Z.of_nat (String.length s).
Proof.
  revert acc. induction s as [|c s IH]; intros acc Ha H; cbn [digits_val] in H; [injection H as <-; cbn; lia|].
  destruct (is_digit c) eqn:Hc; [|done]. unfold is_digit, between in Hc. apply andb_true_iff in Hc as [H1 H2].
  apply IH in H; [|lia]. cbn [String.length]. rewrite pow10_S.
  pose proof (Z.pow_pos_nonneg 10 (Z.of_nat (String.length s)) ltac:(lia) ltac:(lia)). nia.
Qed.

(** A numeral of at most [k] digits is below [10 ^ k]. *)
Lemma numeral_bound z k :
  0 <= z -> (String.length (string_of_Z z) <= k)%nat -> z < 10 ^ Z.of_nat k.
Proof.
  intros Hz Hl. unfold string_of_Z in Hl. destruct (Z.ltb_spec z 0); [lia|]. destruct (nonneg_spec z) as [_ Hv]; [done|].
  apply digits_val_bound in Hv; [|lia]. pose proof (Z.pow_le_mono_r 10 (Z.of_nat (String.length (string_of_nonneg z)))
    (Z.of_nat k) ltac:(lia) ltac:(lia)). lia.
Qed.

Lemma string_of_Z_shape z :
  exists d, plain_digits d /\ (string_of_Z z = d \/ string_of_Z z = String "-" d).
Proof.
  unfold string_of_Z. destruct (Z.ltb_spec z 0).
  - exists (string_of_nonneg (- z)). destruct (nonneg_spec (- z)); [lia|]. auto.
  - exists (string_of_nonneg z). destruct (nonneg_spec z); [lia|]. auto.
Qed.

(** ** Fixed-width fields *)

Fixpoint fixed (w : nat) (z : Z) : string :=
  match w with
  | O => EmptyString
  | S w => fixed w (z / 10) +:+ String (digit_char (z mod 10)) EmptyString
  end.

Lemma fixed_length w z : String.length (fixed w z) = w.
Proof. revert z. induction w as [|w IH]; intros z; cbn [fixed]; [done|]. rewrite length_app_str, IH. cbn. lia. Qed.

Lemma fixed_digits w z : all_chars is_digit (fixed w z) = true.
Proof.
  revert z. induction w as [|w IH]; intros z; cbn [fixed]; [done|].
  rewrite all_chars_app, IH. cbn [all_chars]. pose proof (Z.mod_pos_bound z 10 ltac:(lia)).
  by rewrite is_digit_char by lia.
Qed.

Lemma fixed_0 w : fixed w 0 = zeros w.
Proof.
  induction w as [|w IH]; [done|]. cbn [fixed]. change (0 / 10) with 0. rewrite IH.
  change (digit_char (0 mod 10)) with "0"%char. clear IH.
  induction w as [|w IH]; [done|]. cbn [zeros]. rewrite app_str_cons. by rewrite IH.
Qed.

Lemma pad_fixed w z : (0 < w)%nat -> 0 <= z < 10 ^ Z.of_nat w -> pad w z = fixed w z.
Proof.
  intros Hw Hz. unfold pad, string_of_Z. destruct (Z.ltb_spec z 0); [lia|].
  rewrite (nonneg_dec w) by done. clear H. revert z Hz. induction w as [|w IH]; intros z Hz; [lia|].
  cbn [dec fixed]. rewrite pow10_S in Hz. destruct (Z.ltb_spec z 10).
  - rewrite Z.div_small, Z.mod_small by lia. rewrite fixed_0. cbn [String.length].
    by replace (S w - 1)%nat with w by lia.
  - destruct w as [|w]; [cbn in Hz; lia|].
    rewrite length_app_str. cbn [String.length].
    replace (S (S w) - (String.length (dec (S w) (z / 10)) + 1))%nat
      with (S w - String.length (dec (S w) (z / 10)))%nat by lia.
    rewrite <-app_str_assoc, IH; [done|lia|].
    split; [apply Z.div_pos; lia|]. apply Z.div_lt_upper_bound; lia.
Qed.

Lemma digit_compare a b : 0 <= a <= 9 -> 0 <= b <= 9 ->
  String.compare (String (digit_char a) EmptyString) (String (digit_char b) EmptyString) = (a ?= b).
Proof.
  intros Ha Hb. cbn [String.compare]. unfold Ascii.compare.
  assert (forall d, 0 <= d <= 9 -> N_of_ascii (digit_char d) = Z.to_N (48 + d)) as Hd.
  { intros d H. pose proof (zord_digit d H) as E. unfold zord in E. lia. }
  rewrite !Hd by done.
  destruct (Z.compare_spec a b) as [->|E|E].
  - by rewrite N.compare_refl.
  - assert (Z.to_N (48 + a) < Z.to_N (48 + b))%N as ->%N.compare_lt_iff by lia. done.
  - assert (Z.to_N (48 + b) < Z.to_N (48 + a))%N as ->%N.compare_gt_iff by lia. done.
Qed.

(** Zero-padded numerals order as the numbers do. *)
Lemma fixed_compare w a b :
  0 <= a < 10 ^ Z.of_nat w -> 0 <= b < 10 ^ Z.of_nat w ->
  String.compare (fixed w a) (fixed w b) = (a ?= b).
Proof.
  revert a b. induction w as [|w IH]; intros a b Ha Hb.
  - cbn in *. assert (a = 0) as -> by lia. by assert (b = 0) as -> by lia.
  - cbn [fixed]. rewrite pow10_S in Ha, Hb. rewrite compare_app by by rewrite !fixed_length.
    pose proof (Z.mod_pos_bound a 10 ltac:(lia)). pose proof (Z.mod_pos_bound b 10 ltac:(lia)).
    pose proof (Z.div_mod a 10 ltac:(lia)). pose proof (Z.div_mod b 10 ltac:(lia)).
    rewrite IH.
    2-3: split; [apply Z.div_pos; lia | apply Z.div_lt_upper_bound; lia].
    rewrite digit_compare by lia.
    destruct (Z.compare_spec (a / 10) (b / 10)); destruct (Z.compare_spec a b);
      first [done | lia | destruct (Z.compare_spec (a mod 10) (b mod 10)); first [done | lia]].
Qed.
