(* ===== verification/Json.v ===== *)
(** JSON documents: Python's values, [==] on them, [json.dumps] and [json.loads]
    on UTF-8 text, and the round trip between the two.  Integers are unbounded,
    a float is a binary64 value, an object is its insertion-ordered item list. *)
From Stdlib Require Import Ascii String SpecFloat.
From stdpp Require Import base list strings.
From S2P Require Import Prelude Text.

#[warnings="-register-all"]
Inductive json : Type :=
| JNull
| JBool (b : bool)
| JInt (z : Z)
| JFloat (f : spec_float)
| JStr (s : string)
| JList (l : list json)
| JObj (l : list (string * json)).

Section JsonInd.
Context (P : json -> Prop).
Context (Hnull : P JNull) (Hbool : forall b, P (JBool b)) (Hint : forall z, P (JInt z)).
Context (Hfloat : forall f, P (JFloat f)) (Hstr : forall s, P (JStr s)).
Context (Hlist : forall l, Forall P l -> P (JList l)).
Context (Hobj : forall l, Forall (fun kv => P kv.2) l -> P (JObj l)).

Fixpoint json_rect' (v : json) : P v :=
  match v with
  | JNull => Hnull
  | JBool b => Hbool b
  | JInt z => Hint z
  | JFloat f => Hfloat f
  | JStr s => Hstr s
  | JList l =>
      Hlist l ((fix go l : Forall P l :=
        match l with
        | [] => List.Forall_nil _
        | x :: l => List.Forall_cons _ x l (json_rect' x) (go l)
        end) l)
  | JObj l =>
      Hobj l ((fix go l : Forall (fun kv => P kv.2) l :=
        match l with
        | [] => List.Forall_nil _
        | x :: l => List.Forall_cons _ x l (json_rect' x.2) (go l)
        end) l)
  end.
End JsonInd.

(** ** Dictionaries as item lists *)

Fixpoint dget {V} (k : string) (d : list (string * V)) : option V :=
  match d with
  | [] => None
  | (k', v) :: d => if String.eqb k k' then Some v else dget k d
  end.

(** [d[k] = v]: in place when the key is present, at the end otherwise. *)
Fixpoint dset {V} (k : string) (v : V) (d : list (string * V)) : list (string * V) :=
  match d with
  | [] => [(k, v)]
  | (k', v') :: d => if String.eqb k k' then (k, v) :: d else (k', v') :: dset k v d
  end.

(** [d.pop(k, None)] *)
Definition dpop {V} (k : string) (d : list (string * V)) : list (string * V) :=
  List.filter (fun kv => negb (String.eqb k kv.1)) d.

(** [d.update(e)] *)
Definition dupdate {V} (e d : list (string * V)) : list (string * V) :=
  fold_left (fun d kv => dset kv.1 kv.2 d) e d.

Definition dict_of_pairs {V} (l : list (string * V)) : list (string * V) := dupdate l [].

Definition dkeys {V} (d : list (string * V)) : list string := map fst d.
Definition str_in (s : string) (l : list string) : bool := existsb (String.eqb s) l.
Definition has_key {V} (k : string) (d : list (string * V)) : bool := str_in k (dkeys d).

(** [set(d) == ks], [set(d) <= ks] and [ks <= set(d)] *)
Definition keys_within {V} (d : list (string * V)) (ks : list string) : bool :=
  forallb (fun kv => str_in kv.1 ks) d.
Definition keys_cover {V} (d : list (string * V)) (ks : list string) : bool :=
  forallb (fun k => has_key k d) ks.
Definition keys_are {V} (d : list (string * V)) (ks : list string) : bool :=
  keys_within d ks && keys_cover d ks.

Definition get_item (k : string) (v : json) : option json :=
  match v with JObj d => dget k d | _ => None end.

Definition is_obj (v : json) : bool := match v with JObj _ => true | _ => false end.
Definition is_str (v : json) : bool := match v with JStr _ => true | _ => false end.
(** [d.get(k)] with [None] for an absent key. *)
Definition dget_or_null (k : string) (d : list (string * json)) : json :=
  match dget k d with Some v => v | None => JNull end.
Definition is_null (v : json) : bool := match v with JNull => true | _ => false end.
Definition is_true (v : json) : bool := match v with JBool true => true | _ => false end.
Definition of_opt_str (o : option string) : json :=
  match o with Some s => JStr s | None => JNull end.
Definition of_opt_int (o : option Z) : json :=
  match o with Some z => JInt z | None => JNull end.

(** [bool(v)] *)
Definition truthy (v : json) : bool :=
  match v with
  | JNull => false
  | JBool b => b
  | JInt z => negb (z =? 0)
  | JFloat f => negb (SFeqb f (S754_zero false))
  | JStr s => truthy_str s
  | JList l => match l with [] => false | _ => true end
  | JObj l => match l with [] => false | _ => true end
  end.

(** ** Equality *)

(** An integer against a binary64 value, compared exactly. *)
Definition int_eq_float (z : Z) (f : spec_float) : bool :=
  match f with
  | S754_zero _ => z =? 0
  | S754_finite s m e =>
      let v := if s then - Zpos m else Zpos m in
      if 0 <=? e then v * 2 ^ e =? z else z * 2 ^ (- e) =? v
  | _ => false
  end.

Definition b2z (b : bool) : Z := if b then 1 else 0.

(** Python's [==]: booleans are the integers 0 and 1, and dictionaries compare
    without their order. *)
Fixpoint py_eq (a b : json) {struct a} : bool :=
  match a, b with
  | JNull, JNull => true
  | JBool x, JBool y => Bool.eqb x y
  | JBool x, JInt y => b2z x =? y
  | JInt x, JBool y => x =? b2z y
  | JInt x, JInt y => x =? y
  | JBool x, JFloat y => int_eq_float (b2z x) y
  | JInt x, JFloat y => int_eq_float x y
  | JFloat x, JBool y => int_eq_float (b2z y) x
  | JFloat x, JInt y => int_eq_float y x
  | JFloat x, JFloat y => SFeqb x y
  | JStr x, JStr y => String.eqb x y
  | JList x, JList y =>
      (fix go x y := match x, y with
       | [], [] => true
       | u :: x, v :: y => py_eq u v && go x y
       | _, _ => false
       end) x y
  | JObj x, JObj y =>
      Nat.eqb (length x) (length y) &&
      (fix go x := match x with
       | [] => true
       | (k, u) :: x =>
           match dget k y with Some v => py_eq u v | None => false end && go x
       end) x
  | _, _ => false
  end.

(** ** Floats: correctly rounded reading, shortest [repr] *)

Definition float_of_decimal (neg : bool) (m e10 : Z) : spec_float :=
  match m with
  | Zpos p =>
      if 0 <=? e10 then
        binary_normalize 53 1024 (if neg then - (m * 10 ^ e10) else m * 10 ^ e10) 0 neg
      else
        let '(q, e, l) := SFdiv_core_binary 53 1024 m 0 (10 ^ (- e10)) 0 in
        binary_round_aux 53 1024 neg q e l
  | _ => S754_zero neg
  end.

(** [a / b] rounded to the nearest integer, ties to even. *)
Definition round_div (a b : Z) : Z :=
  let q := a / b in
  let r := a mod b in
  if 2 * r <? b then q else if b <? 2 * r then q + 1 else if Z.even q then q else q + 1.

(** The decimal exponent of [num/den]: the largest [e] with [10^e <= num/den]. *)
Fixpoint exp10_search (n : nat) (e num den : Z) : Z :=
  match n with
  | O => e
  | S n =>
      if (if 0 <=? e then den * 10 ^ e <=? num else den <=? num * 10 ^ (- e)) then e
      else exp10_search n (e - 1) num den
  end.

Definition round_digits (num den e10 : Z) (n : Z) : Z :=
  let k := e10 - n + 1 in
  if 0 <=? k then round_div num (den * 10 ^ k) else round_div (num * 10 ^ (- k)) den.

Fixpoint shortest (fuel : nat) (n num den e10 : Z) (x : spec_float) : Z * Z :=
  let d := round_digits num den e10 n in
  match fuel with
  | O => (d, n)
  | S fuel =>
      if SFeqb (float_of_decimal false d (e10 - n + 1)) x then (d, n)
      else shortest fuel (n + 1) num den e10 x
  end.

Definition strip_zeros (s : string) : string :=
  let t := rstrip_p (Ascii.eqb "0") s in if truthy_str t then t else "0"%string.

Definition format_repr (d n e10 : Z) : string :=
  let s := strip_zeros (string_of_Z d) in
  let e := if Z.of_nat (String.length (string_of_Z d)) =? n then e10 else e10 + 1 in
  let len := Z.of_nat (String.length s) in
  if (-4 <=? e) && (e <? 16) then
    if e <? 0 then "0." +:+ zeros (Z.to_nat (- e - 1)) +:+ s
    else if len <=? e + 1 then s +:+ zeros (Z.to_nat (e + 1 - len)) +:+ ".0"
    else String.substring 0 (Z.to_nat (e + 1)) s +:+ "." +:+
         String.substring (Z.to_nat (e + 1)) (Z.to_nat len) s
  else
    let mant := if len =? 1 then s
                else String.substring 0 1 s +:+ "." +:+ String.substring 1 (Z.to_nat len) s in
    mant +:+ (if e <? 0 then "e-" else "e+") +:+ pad 2 (Z.abs e).

(** [float.__repr__], with the names [json.dumps] gives to the special values. *)
Definition float_repr (f : spec_float) : string :=
  match f with
  | S754_zero s => (if s then "-0.0" else "0.0")%string
  | S754_infinity s => (if s then "-Infinity" else "Infinity")%string
  | S754_nan => "NaN"%string
  | S754_finite s m e =>
      let num := if 0 <=? e then Zpos m * 2 ^ e else Zpos m in
      let den := if 0 <=? e then 1 else 2 ^ (- e) in
      let e10 := exp10_search 700 310 num den in
      let '(d, n) := shortest 16 1 num den e10 (S754_finite false m e) in
      (if s then "-" else "")%string +:+ format_repr d n e10
  end.

(** ** Printing *)

Definition hexdigit (z : Z) : ascii := if z <? 10 then chr (48 + z) else chr (87 + z).
Definition hex4 (z : Z) : string :=
  String (hexdigit (z / 4096 mod 16)) (String (hexdigit (z / 256 mod 16))
    (String (hexdigit (z / 16 mod 16)) (String (hexdigit (z mod 16)) ""))).

(** The escape of one ASCII character shared by both escaping modes. *)
Definition escape_char (c : ascii) : string :=
  let z := zord c in
  if z =? 34 then String "\" (String c "")
  else if z =? 92 then String "\" (String c "")
  else if z =? 10 then "\n"
  else if z =? 13 then "\r"
  else if z =? 9 then "\t"
  else if z =? 12 then "\f"
  else if z =? 8 then "\b"
  else if z <? 32 then "\u" +:+ hex4 z
  else String c "".

(** [ensure_ascii=False] *)
Fixpoint escape (s : string) : string :=
  match s with
  | EmptyString => EmptyString
  | String c s => escape_char c +:+ escape s
  end.

(** [ensure_ascii=True] *)
Definition escape_point (cp : Z) : string :=
  if cp <? 128 then if cp =? 127 then "\u007f" else escape_char (chr cp)
  else if cp <? 65536 then "\u" +:+ hex4 cp
  else let c := cp - 65536 in
       "\u" +:+ hex4 (55296 + Z.shiftr c 10) +:+ "\u" +:+ hex4 (56320 + Z.land c 1023).
Definition escape_ascii (s : string) : string :=
  fold_right (fun cp r => escape_point cp +:+ r) ""%string (code_points s).

Definition dquote : ascii := chr 34.
Definition quote (esc : string -> string) (s : string) : string :=
  String dquote (esc s +:+ String dquote "").

Section Print.
Context (esc : string -> string) (isep ksep : string).

Fixpoint print (v : json) : string :=
  match v with
  | JNull => "null"
  | JBool true => "true"
  | JBool false => "false"
  | JInt z => string_of_Z z
  | JFloat f => float_repr f
  | JStr s => quote esc s
  | JList l => "[" +:+ join isep (map print l) +:+ "]"
  | JObj l =>
      "{" +:+ join isep (map (fun kv => quote esc kv.1 +:+ ksep +:+ print kv.2) l) +:+ "}"
  end.
End Print.

(** [sort_keys=True] *)
Definition key_le (a b : string) : bool :=
  match String.compare a b with Gt => false | _ => true end.
Fixpoint insert_item {V} (kv : string * V) (l : list (string * V)) : list (string * V) :=
  match l with
  | [] => [kv]
  | kv' :: l' => if key_le kv.1 kv'.1 then kv :: l else kv' :: insert_item kv l'
  end.
Definition sort_items {V} (l : list (string * V)) : list (string * V) :=
  fold_right insert_item [] l.

Fixpoint sort_keys (v : json) : json :=
  match v with
  | JList l => JList (map sort_keys l)
  | JObj l => JObj (sort_items (map (fun kv => (kv.1, sort_keys kv.2)) l))
  | v => v
  end.

(** The keyword combinations the code uses. *)
Definition dumps (v : json) : string := print escape_ascii ", " ": " v.
Definition dumps_sorted (v : json) : string := print escape_ascii ", " ": " (sort_keys v).
Definition dumps_compact (v : json) : string := print escape "," ":" v.
Definition dumps_compact_sorted (v : json) : string := print escape "," ":" (sort_keys v).
Definition dumps_ascii_compact_sorted (v : json) : string :=
  print escape_ascii "," ":" (sort_keys v).

(** [allow_nan=False] *)
Fixpoint all_finite (v : json) : bool :=
  match v with
  | JFloat (S754_infinity _) | JFloat S754_nan => false
  | JList l => forallb all_finite l
  | JObj l => forallb (fun kv => all_finite kv.2) l
  | _ => true
  end.

(** ** Parsing *)

(** The keyword arguments of [json.loads]. *)
Record hooks : Type := Hooks {
  h_pairs : list (string * json) -> outcome json;
  h_float : string -> outcome json;
  h_const : string -> outcome json
}.

Definition json_error {A} (m : string) : outcome A := raise JSONDecodeError m.

Definition is_ws (c : ascii) : bool :=
  let z := zord c in (z =? 32) || (z =? 9) || (z =? 10) || (z =? 13).
Definition skip_ws (s : string) : string := lstrip_p is_ws s.

Definition hexval (c : ascii) : option Z :=
  if is_digit c then Some (zord c - 48)
  else if between 97 102 c then Some (zord c - 87)
  else if between 65 70 c then Some (zord c - 55)
  else None.

Definition read_hex4 (s : string) : option (Z * string) :=
  match s with
  | String a (String b (String c (String d r))) =>
      match hexval a, hexval b, hexval c, hexval d with
      | Some a, Some b, Some c, Some d => Some (a * 4096 + b * 256 + c * 16 + d, r)
      | _, _, _, _ => None
      end
  | _ => None
  end.

(** The code point of a [\uXXXX] escape, joining a surrogate pair. *)
Definition read_escape_u (s : string) : outcome (Z * string) :=
  match read_hex4 s with
  | None => json_error "Invalid \uXXXX escape"
  | Some (u, r) =>
      if in_rng 55296 56319 u then
        match drop_prefix "\u" r with
        | None => Ok (u, r)
        | Some r' =>
            match read_hex4 r' with
            | None => json_error "Invalid \uXXXX escape"
            | Some (v, r'') =>
                if in_rng 56320 57343 v
                then Ok (65536 + Z.shiftl (u - 55296) 10 + (v - 56320), r'')
                else Ok (u, r)
            end
        end
      else Ok (u, r)
  end.

Definition simple_escape (c : ascii) : option string :=
  let z := zord c in
  if z =? 34 then Some (String c "")
  else if z =? 92 then Some (String c "")
  else if z =? 47 then Some (String c "")
  else if z =? 98 then Some (String (chr 8) "")
  else if z =? 102 then Some (String (chr 12) "")
  else if z =? 110 then Some (String (chr 10) "")
  else if z =? 114 then Some (String (chr 13) "")
  else if z =? 116 then Some (String (chr 9) "")
  else None.

(** The body of a string literal, after its opening quote. *)
Fixpoint read_string (fuel : nat) (s : string) : outcome (string * string) :=
  match fuel with
  | O => json_error "Unterminated string starting at"
  | S fuel =>
      match s with
      | EmptyString => json_error "Unterminated string starting at"
      | String c r =>
          if zord c =? 34 then Ok (EmptyString, r)
          else if zord c =? 92 then
            match r with
            | EmptyString => json_error "Unterminated string starting at"
            | String e r =>
                if zord e =? 117 then
                  ur ← read_escape_u r;
                  tr ← read_string fuel ur.2;
                  Ok (encode ur.1 +:+ tr.1, tr.2)
                else match simple_escape e with
                | None => json_error "Invalid \escape"
                | Some x => tr ← read_string fuel r; Ok (x +:+ tr.1, tr.2)
                end
            end
          else if zord c <? 32 then json_error "Invalid control character at"
          else tr ← read_string fuel r; Ok (String c tr.1, tr.2)
      end
  end.

Fixpoint span (p : ascii -> bool) (s : string) : string * string :=
  match s with
  | String c r => if p c then let '(a, b) := span p r in (String c a, b) else (EmptyString, s)
  | EmptyString => (EmptyString, EmptyString)
  end.

(** An optional fraction and an optional exponent. *)
Definition read_frac (s : string) : string * string :=
  match s with
  | String c r =>
      if zord c =? 46 then
        let '(d, r') := span is_digit r in
        if truthy_str d then (String c d, r') else (EmptyString, s)
      else (EmptyString, s)
  | EmptyString => (EmptyString, s)
  end.
Definition read_exp (s : string) : string * string :=
  match s with
  | String c r =>
      if (zord c =? 101) || (zord c =? 69) then
        let '(sg, r1) := match r with
                         | String g r1 => if (zord g =? 43) || (zord g =? 45)
                                          then (String g "", r1) else (EmptyString, r)
                         | EmptyString => (EmptyString, r)
                         end in
        let '(d, r2) := span is_digit r1 in
        if truthy_str d then (String c (sg +:+ d), r2) else (EmptyString, s)
      else (EmptyString, s)
  | EmptyString => (EmptyString, s)
  end.

(** [int(text)] with the interpreter's limit on the number of digits. *)
Definition int_of_lexeme (s : string) : outcome json :=
  if 4300 <? Z.of_nat (String.length (lstrip_p (Ascii.eqb "-") s))
  then raise ValueError "Exceeds the limit (4300 digits) for integer string conversion"
  else match Z_of_string s with
       | Some z => Ok (JInt z)
       | None => json_error "Expecting value"
       end.

Definition read_number (h : hooks) (s : string) : outcome (json * string) :=
  let '(sg, r) := match s with
                  | String c r => if zord c =? 45 then (String c "", r) else (EmptyString, s)
                  | EmptyString => (EmptyString, s)
                  end in
  match r with
  | String c r' =>
      if negb (is_digit c) then json_error "Expecting value"
      else
        let '(i, r1) := if zord c =? 48 then (String c "", r') else span is_digit r in
        let '(f, r2) := read_frac r1 in
        let '(e, r3) := read_exp r2 in
        if truthy_str (f +:+ e) then
          v ← h_float h (sg +:+ i +:+ f +:+ e); Ok (v, r3)
        else v ← int_of_lexeme (sg +:+ i); Ok (v, r3)
  | EmptyString => json_error "Expecting value"
  end.

Definition constants : list (string * json) :=
  [("null", JNull); ("true", JBool true); ("false", JBool false)]%string.
Definition float_constants : list string := ["NaN"; "Infinity"; "-Infinity"]%string.

Fixpoint first_prefix (l : list (string * json)) (s : string) : option (json * string) :=
  match l with
  | [] => None
  | (p, v) :: l => match drop_prefix p s with
                   | Some r => Some (v, r)
                   | None => first_prefix l s
                   end
  end.

(** [read_value] reads one value; [read_items] and [read_members] read the rest
    of an array or object after its first bracket or a comma. *)
Fixpoint read_value (fuel : nat) (h : hooks) (s : string) : outcome (json * string) :=
  match fuel with
  | O => raise RecursionError "maximum recursion depth exceeded"
  | S fuel =>
      match s with
      | EmptyString => json_error "Expecting value"
      | String c r =>
          if zord c =? 34 then
            tr ← read_string fuel r; Ok (JStr tr.1, tr.2)
          else if zord c =? 123 then
            match skip_ws r with
            | String d r' =>
                if zord d =? 125 then v ← h_pairs h []; Ok (v, r')
                else mr ← read_members fuel h (String d r'); v ← h_pairs h mr.1; Ok (v, mr.2)
            | EmptyString => json_error "Expecting property name enclosed in double quotes"
            end
          else if zord c =? 91 then
            match skip_ws r with
            | String d r' =>
                if zord d =? 93 then Ok (JList [], r')
                else ir ← read_items fuel h (String d r'); Ok (JList ir.1, ir.2)
            | EmptyString => json_error "Expecting value"
            end
          else match first_prefix constants s with
          | Some vr => Ok vr
          | None =>
              match first_prefix (map (fun x => (x, JStr x)) float_constants) s with
              | Some (JStr x, r) => v ← h_const h x; Ok (v, r)
              | _ => read_number h s
              end
          end
      end
  end
with read_items (fuel : nat) (h : hooks) (s : string) : outcome (list json * string) :=
  match fuel with
  | O => raise RecursionError "maximum recursion depth exceeded"
  | S fuel =>
      vr ← read_value fuel h s;
      match skip_ws vr.2 with
      | String c r =>
          if zord c =? 93 then Ok ([vr.1], r)
          else if zord c =? 44 then
            ir ← read_items fuel h (skip_ws r); Ok (vr.1 :: ir.1, ir.2)
          else json_error "Expecting ',' delimiter"
      | EmptyString => json_error "Expecting ',' delimiter"
      end
  end
with read_members (fuel : nat) (h : hooks) (s : string) : outcome (list (string * json) * string) :=
  match fuel with
  | O => raise RecursionError "maximum recursion depth exceeded"
  | S fuel =>
      match s with
      | String q r =>
          if negb (zord q =? 34) then
            json_error "Expecting property name enclosed in double quotes"
          else
            kr ← read_string fuel r;
            match skip_ws kr.2 with
            | String c r =>
                if negb (zord c =? 58) then json_error "Expecting ':' delimiter"
                else
                  vr ← read_value fuel h (skip_ws r);
                  match skip_ws vr.2 with
                  | String d r =>
                      if zord d =? 125 then Ok ([(kr.1, vr.1)], r)
                      else if zord d =? 44 then
                        mr ← read_members fuel h (skip_ws r);
                        Ok ((kr.1, vr.1) :: mr.1, mr.2)
                      else json_error "Expecting ',' delimiter"
                  | EmptyString => json_error "Expecting ',' delimiter"
                  end
            | EmptyString => json_error "Expecting ':' delimiter"
            end
      | EmptyString => json_error "Expecting property name enclosed in double quotes"
      end
  end.

(** [json.loads(s, ...)]; every recursive call of the reader consumes a
    character, so the length of the text is fuel enough. *)
Definition loads_with (h : hooks) (s : string) : outcome json :=
  vr ← read_value (S (String.length s)) h (skip_ws s);
  if truthy_str (skip_ws vr.2) then json_error "Extra data" else Ok vr.1.

Definition read_float (s : string) : outcome json :=
  let '(neg, r) := match s with
                   | String c r => if zord c =? 45 then (true, r) else (false, s)
                   | EmptyString => (false, s)
                   end in
  let '(i, r1) := span is_digit r in
  let frac := match r1 with String c r2 => if zord c =? 46 then fst (span is_digit r2) else EmptyString
                       | EmptyString => EmptyString end in
  let ex := match snd (span (fun c => negb ((zord c =? 101) || (zord c =? 69))) r1) with
            | String _ t => match Z_of_string (lstrip_p (Ascii.eqb "+") t) with
                            | Some z => z | None => 0 end
            | EmptyString => 0 end in
  match Z_of_string (i +:+ frac) with
  | Some m => Ok (JFloat (float_of_decimal neg m (ex - Z.of_nat (String.length frac))))
  | None => json_error "Expecting value"
  end.

Definition read_const (s : string) : outcome json :=
  Ok (JFloat (if String.eqb s "NaN" then S754_nan
              else S754_infinity (String.eqb s "-Infinity"))).

Definition default_hooks : hooks := Hooks (fun l => Ok (JObj (dict_of_pairs l))) read_float read_const.

(** [json.loads(s)] *)
Definition loads (s : string) : outcome json := loads_with default_hooks s.
