(* ===== verification/JsonFacts.v ===== *)
(** Facts on JSON text: what [json.dumps] prints [json.loads] reads back, for
    both escaping modes and any separators the code uses; [sort_keys] is a
    normal form; Python's [==] does not see the order of keys. *)
From Stdlib Require Import Ascii String SpecFloat.
From stdpp Require Import base list strings.
From S2P Require Import Prelude Text TextFacts Json.

(** ** Reading back what was printed *)

(** The values whose text reads back: no float, no repeated key, numerals
    within the interpreter's limit and strings [sok] accepts. *)
Fixpoint json_ok (sok : string -> bool) (v : json) : bool :=
  match v with
  | JFloat _ => false
  | JInt z => Z.of_nat (String.length (string_of_Z z)) <=? 4300
  | JStr s => sok s
  | JList l => forallb (json_ok sok) l
  | JObj l => bool_decide (NoDup (dkeys l)) && forallb (fun kv => sok kv.1 && json_ok sok kv.2) l
  | _ => true
  end.

(** The same with the floats [fok] accepts. *)
Fixpoint json_okf (fok : spec_float -> bool) (sok : string -> bool) (v : json) : bool :=
  match v with
  | JFloat f => fok f
  | JInt z => Z.of_nat (String.length (string_of_Z z)) <=? 4300
  | JStr s => sok s
  | JList l => forallb (json_okf fok sok) l
  | JObj l => bool_decide (NoDup (dkeys l)) && forallb (fun kv => sok kv.1 && json_okf fok sok kv.2) l
  | _ => true
  end.

Lemma forallb_ext_Forall {A} (p q : A -> bool) l : Forall (fun x => p x = q x) l -> forallb p l = forallb q l.
Proof. induction 1 as [|x l H _ IH]; cbn; [done|by rewrite H, IH]. Qed.
Lemma json_ok_okf sok v : json_ok sok v = json_okf (fun _ => false) sok v.
Proof.
  induction v as [|b|z|f|s|l HP|l HP] using json_rect'; try reflexivity; cbn [json_ok json_okf].
  - by apply forallb_ext_Forall.
  - f_equal. apply forallb_ext_Forall. eapply Forall_impl; [exact HP|]. intros kv E. cbn beta in *. by rewrite E.
Qed.

(** The characters that may follow a value in printed text. *)
Definition ends_value (s : string) : bool :=
  match s with
  | EmptyString => true
  | String c _ => (zord c =? 44) || (zord c =? 93) || (zord c =? 125) || (zord c =? 10)
  end.

Lemma span_digits d rest :
  all_chars is_digit d = true -> ends_value rest = true -> span is_digit (d +:+ rest) = (d, rest).
Proof.
  intros Hd Hr. induction d as [|c d IH].
  - destruct rest as [|c rest]; [done|]. cbn [ends_value] in Hr.
    change (EmptyString +:+ String c rest) with (String c rest). cbn [span].
    assert (is_digit c = false) as ->; [|done].
    unfold is_digit, between. apply orb_true_iff in Hr as [Hr|Hr]; bool_norm; [|lia].
    apply orb_true_iff in Hr as [Hr|Hr]; bool_norm; [|lia].
    apply orb_true_iff in Hr as [Hr|Hr]; bool_norm; lia.
  - cbn [all_chars] in Hd. bool_norm. rewrite app_str_cons. cbn [span]. by rewrite H, IH.
Qed.

Lemma ends_value_not_num rest :
  ends_value rest = true -> read_frac rest = (EmptyString, rest) /\ read_exp rest = (EmptyString, rest).
Proof.
  destruct rest as [|c rest]; [done|]. cbn. intros H.
  rewrite !orb_true_iff in H.
  destruct (Z.eqb_spec (zord c) 46); [exfalso; destruct H as [[[H|H]|H]|H]; bool_norm; lia|].
  destruct (Z.eqb_spec (zord c) 101); [exfalso; destruct H as [[[H|H]|H]|H]; bool_norm; lia|].
  destruct (Z.eqb_spec (zord c) 69); [exfalso; destruct H as [[[H|H]|H]|H]; bool_norm; lia|].
  done.
Qed.

(** A scan stops at the end of its value. *)
Lemma span_app p s rest :
  (forall c r, rest = String c r -> p c = false) ->
  span p (s +:+ rest) = ((span p s).1, (span p s).2 +:+ rest).
Proof.
  intros Hp. induction s as [|c s IH].
  - change (EmptyString +:+ rest) with rest. destruct rest as [|c r]; [done|]. cbn. by rewrite (Hp c r).
  - rewrite app_str_cons. cbn [span]. destruct (p c); [|done]. rewrite IH. by destruct (span p s).
Qed.
Lemma ends_not_digit rest c r : ends_value rest = true -> rest = String c r ->
  is_digit c = false /\ (zord c =? 43) || (zord c =? 45) = false.
Proof.
  intros H ->. cbn in H. unfold is_digit, between. rewrite !orb_true_iff, !Z.eqb_eq in H.
  split; [apply andb_false_iff|apply orb_false_iff]; rewrite ?Z.leb_gt, ?Z.eqb_neq; lia.
Qed.
Lemma read_frac_app s rest : ends_value rest = true ->
  read_frac (s +:+ rest) = ((read_frac s).1, (read_frac s).2 +:+ rest).
Proof.
  intros Hr. destruct s as [|c s]; [change (EmptyString +:+ rest) with rest; by rewrite (proj1 (ends_value_not_num rest Hr))|].
  rewrite app_str_cons. cbn [read_frac]. destruct (zord c =? 46); [|done].
  rewrite span_app by (intros ? ? E; apply (ends_not_digit _ _ _ Hr E)). destruct (span is_digit s) as [d r']. cbn. by destruct (truthy_str d).
Qed.
Lemma read_exp_app s rest : ends_value rest = true ->
  read_exp (s +:+ rest) = ((read_exp s).1, (read_exp s).2 +:+ rest).
Proof.
  intros Hr. destruct s as [|c s]; [change (EmptyString +:+ rest) with rest; by rewrite (proj2 (ends_value_not_num rest Hr))|].
  rewrite app_str_cons. cbn [read_exp]. destruct ((zord c =? 101) || (zord c =? 69)); [|done].
  assert (forall c r, rest = String c r -> is_digit c = false) as Hd by (intros ? ? E; apply (ends_not_digit _ _ _ Hr E)).
  destruct s as [|g s].
  - change (EmptyString +:+ rest) with rest. cbn.
    destruct rest as [|g r]; [done|]. rewrite (proj2 (ends_not_digit _ g r Hr eq_refl)). cbn [span].
    by rewrite (Hd g r eq_refl).
  - rewrite app_str_cons. destruct ((zord g =? 43) || (zord g =? 45)).
    + rewrite (span_app _ s rest Hd). destruct (span is_digit s) as [d r']. cbn. by destruct (truthy_str d).
    + rewrite <-app_str_cons, (span_app _ (String g s) rest Hd). destruct (span is_digit (String g s)) as [d r']. cbn.
      by destruct (truthy_str d).
Qed.
Lemma read_number_app h s v rest :
  read_number h s = Ok (v, EmptyString) -> ends_value rest = true -> read_number h (s +:+ rest) = Ok (v, rest).
Proof.
  intros H Hr. unfold read_number in *.
  assert (forall (sg r : string),
    match r with
    | String c r' =>
        if negb (is_digit c) then json_error "Expecting value"
        else
          let '(i, r1) := if zord c =? 48 then (String c EmptyString, r') else span is_digit r in
          let '(f, r2) := read_frac r1 in
          let '(e, r3) := read_exp r2 in
          if truthy_str (f +:+ e) then v ← h_float h (sg +:+ i +:+ f +:+ e); Ok (v, r3)
          else v ← int_of_lexeme (sg +:+ i); Ok (v, r3)
    | EmptyString => json_error "Expecting value"
    end = Ok (v, EmptyString) ->
    match r +:+ rest with
    | String c r' =>
        if negb (is_digit c) then json_error "Expecting value"
        else
          let '(i, r1) := if zord c =? 48 then (String c EmptyString, r') else span is_digit (r +:+ rest) in
          let '(f, r2) := read_frac r1 in
          let '(e, r3) := read_exp r2 in
          if truthy_str (f +:+ e) then v ← h_float h (sg +:+ i +:+ f +:+ e); Ok (v, r3)
          else v ← int_of_lexeme (sg +:+ i); Ok (v, r3)
    | EmptyString => json_error "Expecting value"
    end = Ok (v, rest)) as Hmain.
  { intros sg [|c r]; [done|]. rewrite app_str_cons. destruct (is_digit c); cbn [negb]; [|done].
    intros Hok. rewrite <-app_str_cons, span_app by (intros ? ? E; apply (ends_not_digit _ _ _ Hr E)).
    destruct (zord c =? 48); [|destruct (span is_digit (String c r)) as [i r1]; cbn [fst snd]]; revert Hok;
      rewrite ?read_frac_app by done; (destruct (read_frac _) as [f r2]; cbn [fst snd]);
      rewrite read_exp_app by done; (destruct (read_exp r2) as [e r3]; cbn [fst snd]);
      (destruct (truthy_str (f +:+ e)); intros (x & -> & [= -> ->])%bind_Ok_inv; reflexivity). }
  destruct s as [|c s]; [done|]. rewrite app_str_cons. destruct (zord c =? 45).
  - by apply Hmain.
  - by apply (Hmain EmptyString (String c s)).
Qed.
Lemma read_number_first h s v : read_number h s = Ok (v, EmptyString) ->
  exists c r, s = String c r /\ (is_digit c = true \/ c = "-"%char) /\ forall rest t, r +:+ rest <> String "I" t \/ c <> "-"%char.
Proof.
  unfold read_number. destruct s as [|c s]; [done|]. destruct (Z.eqb_spec (zord c) 45) as [E|E].
  - destruct s as [|d s]; [done|]. destruct (is_digit d) eqn:Hd; [|done]. intros _. exists c, (String d s).
    split; [done|]. split.
    { right. rewrite <-(ascii_N_embedding c). unfold zord in E. by assert (N_of_ascii c = 45%N) as -> by lia. }
    intros rest t. left. rewrite app_str_cons. intros [= -> _]. by vm_compute in Hd.
  - destruct (is_digit c) eqn:Hc; [|done]. intros _. exists c, s. split; [done|]. split; [by left|].
    intros rest t. right. intros ->. by apply E.
Qed.

(** The floats that Python's reader gives back from their [repr]. *)
#[export] Instance spec_float_eq_dec : EqDecision spec_float.
Proof. solve_decision. Defined.
Definition float_ok (h : hooks) (f : spec_float) : bool :=
  match read_number h (float_repr f) with
  | Ok (JFloat g, EmptyString) => bool_decide (g = f)
  | _ => false
  end.
Lemma float_ok_read h f : float_ok h f = true -> read_number h (float_repr f) = Ok (JFloat f, EmptyString).
Proof.
  unfold float_ok. destruct (read_number h (float_repr f)) as [[[] []]|]; try done.
  intros H. bool_norm. by subst.
Qed.

(** A digit or a minus sign starts no other token. *)
Lemma num_start c :
  is_digit c = true \/ c = "-"%char ->
  (zord c =? 34) = false /\ (zord c =? 123) = false /\ (zord c =? 91) = false /\
  is_ws c = false /\ c <> "n"%char /\ c <> "t"%char /\ c <> "f"%char /\ c <> "N"%char /\ c <> "I"%char.
Proof.
  intros [H| ->]; [|by vm_compute].
  unfold is_digit, between in H. bool_norm. unfold is_ws.
  repeat split; try (intros ->; vm_compute in H, H0; congruence); lia.
Qed.

Lemma strip_minus_length d :
  Z.of_nat (String.length (lstrip_p (Ascii.eqb "-") d)) <= Z.of_nat (String.length d).
Proof. induction d as [|c d IH]; cbn [lstrip_p String.length]; [lia|]. destruct (Ascii.eqb _ _); cbn; lia. Qed.

Lemma int_of_lexeme_Z z :
  Z.of_nat (String.length (string_of_Z z)) <= 4300 -> int_of_lexeme (string_of_Z z) = Ok (JInt z).
Proof.
  intros H. unfold int_of_lexeme. pose proof (strip_minus_length (string_of_Z z)).
  destruct (Z.ltb_spec 4300 (Z.of_nat (String.length (lstrip_p (Ascii.eqb "-") (string_of_Z z))))); [lia|].
  by rewrite Z_of_string_of_Z.
Qed.

Lemma read_unsigned d rest (sg : string) (h : hooks) :
  plain_digits d -> ends_value rest = true ->
  (match d +:+ rest with
   | String c r' =>
      if negb (is_digit c) then json_error "Expecting value"
      else
        let '(i, r1) := if zord c =? 48 then (String c "", r') else span is_digit (d +:+ rest) in
        let '(f, r2) := read_frac r1 in
        let '(e, r3) := read_exp r2 in
        if truthy_str (f +:+ e) then
          v ← h_float h (sg +:+ i +:+ f +:+ e); Ok (v, r3)
        else v ← int_of_lexeme (sg +:+ i); Ok (v, r3)
   | EmptyString => json_error "Expecting value"
   end) = (v ← int_of_lexeme (sg +:+ d); Ok (v, rest)).
Proof.
  intros Hd Hr. pose proof Hd as (Hall & Hne & Hz).
  destruct (digits_first d Hd) as (c & r & -> & Hc).
  rewrite app_str_cons, Hc. cbn [negb].
  destruct (ends_value_not_num rest Hr) as [Hf He].
  destruct (Z.eqb_spec (zord c) 48) as [E|E].
  - assert (c = "0"%char) as ->.
    { rewrite <-(ascii_N_embedding c). unfold zord in E.
      assert (N_of_ascii c = 48%N) as -> by lia. done. }
    assert (r = EmptyString) as -> by by apply Hz.
    change (EmptyString +:+ rest) with rest.
    by rewrite Hf, He.
  - rewrite <-app_str_cons, span_digits by done. by rewrite Hf, He.
Qed.

Lemma read_number_int h z rest :
  Z.of_nat (String.length (string_of_Z z)) <= 4300 -> ends_value rest = true ->
  read_number h (string_of_Z z +:+ rest) = Ok (JInt z, rest).
Proof.
  intros Hl Hr. pose proof (int_of_lexeme_Z z Hl) as Hi.
  destruct (string_of_Z_shape z) as (d & Hd & [E|E]); rewrite E in *; unfold read_number.
  - destruct (digits_first d Hd) as (c & r & Ed & Hc).
    pose proof (read_unsigned d rest EmptyString h Hd Hr) as Hu.
    assert ((zord c =? 45) = false) as Hc'.
    { unfold is_digit, between in Hc. bool_norm. lia. }
    rewrite Ed in Hu |- *. rewrite app_str_cons in Hu |- *. rewrite Hc'.
    cbv beta iota. rewrite Hu. rewrite <-Ed. change (EmptyString +:+ d) with d. by rewrite Hi.
  - rewrite app_str_cons. change (zord "-" =? 45) with true. cbv beta iota.
    rewrite (read_unsigned d rest (String "-" EmptyString) h Hd Hr).
    change (String "-" EmptyString +:+ d) with (String "-" d). by rewrite Hi.
Qed.

Lemma read_escape_char c fuel t :
  read_string (S fuel) (escape_char c +:+ t) =
  tr ← read_string fuel t; Ok (String c tr.1, tr.2).
Proof. destruct c as [[] [] [] [] [] [] [] []]; reflexivity. Qed.

Lemma escape_char_length c : (1 <= String.length (escape_char c))%nat.
Proof. destruct c as [[] [] [] [] [] [] [] []]; vm_compute; lia. Qed.

Lemma read_escape s fuel rest :
  (String.length (escape s) < fuel)%nat ->
  read_string fuel (escape s +:+ String dquote rest) = Ok (s, rest).
Proof.
  revert fuel. induction s as [|c s IH]; intros fuel Hf; (destruct fuel as [|fuel]; [lia|]).
  - reflexivity.
  - cbn [escape] in *. rewrite length_app_str in Hf. pose proof (escape_char_length c).
    rewrite app_str_assoc, read_escape_char, IH by lia. reflexivity.
Qed.

Lemma read_escape_point c fuel t :
  zord c < 128 ->
  read_string (S fuel) (escape_point (zord c) +:+ t) =
  tr ← read_string fuel t; Ok (String c tr.1, tr.2).
Proof.
  destruct c as [[] [] [] [] [] [] [] []]; intros H; try reflexivity; vm_compute in H; discriminate H.
Qed.

Lemma escape_point_length c : zord c < 128 -> (1 <= String.length (escape_point (zord c)))%nat.
Proof.
  destruct c as [[] [] [] [] [] [] [] []]; intros H;
    first [by vm_compute in H | vm_compute; lia].
Qed.

Lemma code_points_ascii_cons c s :
  zord c < 128 -> is_ascii s = true -> code_points (String c s) = zord c :: code_points s.
Proof.
  intros Hc Hs. unfold code_points. cbn [decode].
  destruct (Z.ltb_spec (zord c) 128); [|lia].
  assert (exists l, decode true s = Some l) as [l ->]; [|done].
  clear c Hc H. induction s as [|c s IH]; [by exists []|].
  unfold is_ascii in Hs. cbn [all_chars] in Hs. bool_norm.
  destruct (IH H0) as [l Hl]. cbn [decode]. destruct (Z.ltb_spec (zord c) 128); [|lia].
  rewrite Hl. cbn. eauto.
Qed.

Lemma read_escape_ascii s fuel rest :
  is_ascii s = true -> (String.length (escape_ascii s) < fuel)%nat ->
  read_string fuel (escape_ascii s +:+ String dquote rest) = Ok (s, rest).
Proof.
  revert fuel. induction s as [|c s IH]; intros fuel Ha Hf; (destruct fuel as [|fuel]; [lia|]).
  - reflexivity.
  - unfold is_ascii in Ha. cbn [all_chars] in Ha. bool_norm.
    unfold escape_ascii in *. rewrite code_points_ascii_cons in * by done. cbn [fold_right] in *.
    rewrite length_app_str in Hf. pose proof (escape_point_length c H).
    rewrite app_str_assoc, read_escape_point, IH by (done || lia). reflexivity.
Qed.

Lemma skip_ws_digit c r : is_ws c = false -> skip_ws (String c r) = String c r.
Proof. unfold skip_ws. cbn [lstrip_p]. by intros ->. Qed.

Section RoundTrip.
Context (esc : string -> string) (fok : spec_float -> bool) (sok : string -> bool) (wi wk : string) (h : hooks).
Context (Hfloat : forall f, fok f = true -> float_ok h f = true).
Context (Hesc : forall s fuel rest, sok s = true -> (String.length (esc s) < fuel)%nat ->
  read_string fuel (esc s +:+ String dquote rest) = Ok (s, rest)).
Context (Hwi : forall t, skip_ws (wi +:+ t) = skip_ws t).
Context (Hwk : forall t, skip_ws (wk +:+ t) = skip_ws t).
Context (Hh : forall l, NoDup (dkeys l) -> h_pairs h l = Ok (JObj l)).
Let isep := String "," wi.
Let ksep := String ":" wk.
Let pr := print esc isep ksep.

(** No printed value starts with white space. *)
Lemma print_first v :
  json_okf fok sok v = true -> exists c r, pr v = String c r /\ is_ws c = false /\
    (zord c =? 93) = false /\ (zord c =? 125) = false.
Proof.
  destruct v as [|[]|z|f|s|l|l]; cbn [json_okf]; intros Hok; try discriminate;
    try (eexists _, _; split; [reflexivity | done]).
  2: { unfold pr. cbn [print]. destruct (read_number_first _ _ _ (float_ok_read _ _ (Hfloat _ Hok))) as (c & r & -> & Hc & _).
    exists c, r. split; [done|]. destruct Hc as [Hc| ->]; [|done].
    destruct (num_start c (or_introl Hc)) as (_ & _ & _ & Hw & _).
    unfold is_digit, between in Hc. bool_norm. split_and!; [done | lia | lia]. }
  unfold pr. cbn [print].
  destruct (string_of_Z_shape z) as (d & Hd & [->| ->]); [|by eexists _, _].
  destruct (digits_first d Hd) as (c & r & -> & Hc). exists c, r.
  destruct (num_start c (or_introl Hc)) as (_ & _ & _ & Hw & _).
  unfold is_digit, between in Hc. bool_norm. split_and!; [done | done | lia | lia].
Qed.

Lemma skip_ws_print v t : json_okf fok sok v = true -> skip_ws (pr v +:+ t) = pr v +:+ t.
Proof.
  intros (c & r & -> & Hw & _)%print_first. rewrite app_str_cons. by apply skip_ws_digit.
Qed.

Definition reads (v : json) : Prop :=
  json_okf fok sok v = true -> forall fuel rest,
  (String.length (pr v) < fuel)%nat -> ends_value rest = true ->
  read_value fuel h (pr v +:+ rest) = Ok (v, rest).

Definition print_member (kv : string * json) : string :=
  quote esc kv.1 +:+ ksep +:+ pr kv.2.

Lemma read_items_print l fuel rest :
  Forall reads l -> forallb (json_okf fok sok) l = true -> l <> [] ->
  (String.length (join isep (map pr l)) + 1 < fuel)%nat ->
  read_items fuel h (join isep (map pr l) +:+ String "]" rest) = Ok (l, rest).
Proof.
  intros HP. revert fuel. induction HP as [|v l Hv HP IH]; intros fuel Hok Hne Hf; [done|].
  cbn [forallb] in Hok. bool_norm.
  destruct fuel as [|fuel]; [lia|]. destruct l as [|v' l].
  - cbn [map join read_items] in *. rewrite (Hv H) by (done || lia). reflexivity.
  - cbn [map] in *. change (join isep (pr v :: pr v' :: map pr l))
      with (pr v +:+ isep +:+ join isep (pr v' :: map pr l)) in *.
    rewrite !length_app_str in Hf. unfold isep at 1 in Hf. cbn [String.length] in Hf.
    cbn [read_items]. rewrite !app_str_assoc, (Hv H) by (done || lia). cbn [mbind outcome_bind fst snd].
    unfold isep at 1. rewrite app_str_cons.
    rewrite skip_ws_digit by done. change (zord "," =? 93) with false. change (zord "," =? 44) with true.
    cbv iota. rewrite Hwi.
    assert (skip_ws (join isep (pr v' :: map pr l) +:+ String "]" rest)
            = join isep (pr v' :: map pr l) +:+ String "]" rest) as ->.
    { cbn [forallb] in H0. bool_norm. destruct l as [|v'' l]; cbn [map].
      - apply skip_ws_print; done.
      - change (join isep (pr v' :: pr v'' :: map pr l))
          with (pr v' +:+ isep +:+ join isep (pr v'' :: map pr l)).
        rewrite app_str_assoc. by apply skip_ws_print. }
    rewrite (IH fuel) by (done || lia). reflexivity.
Qed.

Lemma print_member_first kv t :
  skip_ws (print_member kv +:+ t) = print_member kv +:+ t.
Proof. reflexivity. Qed.

Lemma read_member_value kv fuel t :
  reads kv.2 -> sok kv.1 = true -> json_okf fok sok kv.2 = true ->
  (String.length (print_member kv) < fuel)%nat -> ends_value t = true ->
  read_members (S fuel) h (print_member kv +:+ t) =
  match skip_ws t with
  | String d r =>
      if zord d =? 125 then Ok ([kv], r)
      else if zord d =? 44 then
        mr ← read_members fuel h (skip_ws r); Ok (kv :: mr.1, mr.2)
      else json_error "Expecting ',' delimiter"
  | EmptyString => json_error "Expecting ',' delimiter"
  end.
Proof.
  destruct kv as [k v]. unfold print_member, quote. cbn [fst snd]. intros Hv Hk Hok Hf Ht.
  unfold ksep in Hf. str_len Hf.
  rewrite !app_str_assoc, app_str_cons, app_str_assoc. cbn [read_members].
  change (zord dquote =? 34) with true. cbn [negb]. change (String dquote EmptyString +:+ ?x) with (String dquote x).
  rewrite Hesc by (done || lia). cbn [mbind outcome_bind fst snd]. 
  unfold ksep. rewrite app_str_cons, skip_ws_digit by done.
  change (zord ":" =? 58) with true. cbn [negb]. rewrite Hwk, skip_ws_print by done.
  rewrite (Hv Hok) by (done || lia). reflexivity.
Qed.

Lemma read_members_print l fuel rest :
  Forall (fun kv => reads kv.2) l ->
  forallb (fun kv => sok kv.1 && json_okf fok sok kv.2) l = true -> l <> [] ->
  (String.length (join isep (map print_member l)) + 1 < fuel)%nat ->
  read_members fuel h (join isep (map print_member l) +:+ String "}" rest) = Ok (l, rest).
Proof.
  intros HP. revert fuel. induction HP as [|kv l Hv HP IH]; intros fuel Hok Hne Hf; [done|].
  cbn [forallb] in Hok. bool_norm. destruct fuel as [|fuel]; [lia|]. destruct l as [|kv' l].
  - cbn [map join] in *. rewrite read_member_value by (done || lia). reflexivity.
  - cbn [map] in *. change (join isep (print_member kv :: print_member kv' :: map print_member l))
      with (print_member kv +:+ isep +:+ join isep (print_member kv' :: map print_member l)) in *.
    rewrite !length_app_str in Hf. unfold isep at 1 in Hf. cbn [String.length] in Hf.
    rewrite !app_str_assoc, read_member_value by (done || lia).
    unfold isep at 1. rewrite app_str_cons, skip_ws_digit by done.
    change (zord "," =? 125) with false. change (zord "," =? 44) with true. cbv iota.
    rewrite Hwi.
    assert (skip_ws (join isep (print_member kv' :: map print_member l) +:+ String "}" rest)
            = join isep (print_member kv' :: map print_member l) +:+ String "}" rest) as ->.
    { destruct l; reflexivity. }
    rewrite (IH fuel) by (done || lia). reflexivity.
Qed.

Lemma first_prefix_num l c r :
  is_digit c = true \/ c = "-"%char ->
  Forall (fun kv => exists a t, kv.1 = String a t /\
    (a = "n" \/ a = "t" \/ a = "f" \/ a = "N" \/ a = "I" \/
     (a = "-" /\ exists t', t = String "I" t'))%char) l ->
  (forall t, r <> String "I" t \/ c <> "-"%char) ->
  first_prefix l (String c r) = None.
Proof.
  intros Hc Hl Hr. destruct (num_start c Hc) as (_ & _ & _ & _ & Hn & Ht & Hf & HN & HI).
  induction Hl as [|[p v] l (a & t & Hp & Ha) Hl IH]; [done|]. cbn [fst] in Hp. subst p.
  cbn [first_prefix drop_prefix]. destruct (Ascii.eqb_spec a c) as [->|]; [|done].
  destruct Ha as [?|[?|[?|[?|[?|[? (t' & ->)]]]]]]; try congruence.
  destruct r as [|d r]; cbn [drop_prefix]; [done|].
  destruct (Ascii.eqb_spec "I" d) as [<-|]; [exfalso; by destruct (Hr r) | done].
Qed.

(** A number is read as one, whatever follows it. *)
Lemma read_value_number fuel c r v rest :
  (is_digit c = true \/ c = "-"%char) -> (forall t, r <> String "I" t \/ c <> "-"%char) ->
  read_number h (String c r) = Ok (v, rest) -> read_value (S fuel) h (String c r) = Ok (v, rest).
Proof.
  intros Hc HI Hn. destruct (num_start c Hc) as (H34 & H123 & H91 & _).
  cbn [read_value]. rewrite H34, H123, H91.
  rewrite first_prefix_num; [|done| |done].
  2: { unfold constants. repeat constructor; eexists _, _; cbn; (split; [done|]); auto 10. }
  rewrite first_prefix_num; [done|done| |done].
  unfold float_constants. cbn [map].
  repeat constructor; eexists _, _; cbn; (split; [done|]); eauto 12.
Qed.
Lemma read_value_int fuel z rest :
  Z.of_nat (String.length (string_of_Z z)) <= 4300 -> ends_value rest = true ->
  read_value (S fuel) h (string_of_Z z +:+ rest) = Ok (JInt z, rest).
Proof.
  intros Hl Hr. pose proof (read_number_int h z EmptyString Hl eq_refl) as Hn. rewrite app_str_nil_r in Hn.
  pose proof (read_number_app h _ _ rest Hn Hr) as Ha.
  destruct (read_number_first _ _ _ Hn) as (c & r & E & Hc & HI). rewrite E, app_str_cons in *.
  by apply read_value_number; eauto.
Qed.
Lemma read_value_float fuel f rest :
  float_ok h f = true -> ends_value rest = true ->
  read_value (S fuel) h (float_repr f +:+ rest) = Ok (JFloat f, rest).
Proof.
  intros Hn%float_ok_read Hr. pose proof (read_number_app h _ _ rest Hn Hr) as Ha.
  destruct (read_number_first _ _ _ Hn) as (c & r & E & Hc & HI). rewrite E, app_str_cons in *.
  by apply read_value_number; eauto.
Qed.

Lemma read_print v : reads v.
Proof.
  induction v as [|[]|z|f|s|l HP|l HP] using json_rect'; intros Hok fuel rest Hf Hr;
    (destruct fuel as [|fuel]; [lia|]); try discriminate Hok; try reflexivity.
  - apply read_value_int; [cbn in Hok; by bool_norm | done].
  - apply read_value_float; [by apply Hfloat | done].
  - cbn [json_okf] in Hok. unfold pr in Hf |- *. cbn [print] in Hf |- *. unfold quote in Hf |- *.
    cbn [String.length] in Hf. rewrite length_app_str in Hf. cbn in Hf.
    rewrite app_str_cons, app_str_assoc, app_str_cons.
    cbn [read_value]. change (zord dquote =? 34) with true. cbv iota.
    rewrite Hesc by (done || lia). reflexivity.
  - cbn [json_okf] in Hok. unfold pr in Hf |- *. cbn [print] in Hf |- *. fold pr in Hf |- *.
    rewrite !length_app_str in Hf. cbn [String.length] in Hf.
    destruct l as [|v l]; [reflexivity|].
    rewrite !app_str_assoc. change ("[" +:+ ?x) with (String "[" x).
    change ("]" +:+ rest) with (String "]" rest). cbn [read_value].
    change (zord "[" =? 34) with false. change (zord "[" =? 123) with false.
    change (zord "[" =? 91) with true. cbv iota.
    pose proof Hok as Hok1. cbn [forallb] in Hok1. bool_norm.
    assert (exists c r, join isep (map pr (v :: l)) +:+ String "]" rest = String c r /\
      is_ws c = false /\ (zord c =? 93) = false) as (c & r & E & Hw & Hc).
    { destruct (print_first v) as (c & r & E & Hw & Hc & _); [done|].
      exists c. cbn [map join]. destruct l; cbn [map]; rewrite E, ?app_str_cons; eauto. }
    rewrite E, skip_ws_digit, Hc, <-E by done.
    rewrite read_items_print by (done || lia). reflexivity.
  - cbn [json_okf] in Hok. bool_norm. unfold pr in Hf |- *. cbn [print] in Hf |- *. fold pr in Hf |- *.
    change (map (fun kv => quote esc kv.1 +:+ ksep +:+ pr kv.2) l) with (map print_member l) in *.
    rewrite !length_app_str in Hf. cbn [String.length] in Hf.
    destruct l as [|kv l]; [cbn; by rewrite Hh|].
    rewrite !app_str_assoc. change ("{" +:+ ?x) with (String "{" x).
    change ("}" +:+ rest) with (String "}" rest). cbn [read_value].
    change (zord "{" =? 34) with false. change (zord "{" =? 123) with true. cbv iota.
    assert (exists r, join isep (map print_member (kv :: l)) +:+ String "}" rest = String dquote r) as (r & E).
    { cbn [map join]. destruct l; cbn [map]; unfold print_member at 1, quote at 1; eauto. }
    rewrite E, skip_ws_digit by done. change (zord dquote =? 125) with false. cbv iota.
    rewrite <-E, read_members_print by (done || lia).
    cbn [mbind outcome_bind fst snd]. by rewrite Hh.
Qed.

(** [json.loads(json.dumps(v)) == v], also with a line feed after the text. *)
Lemma loads_print v nl :
  json_okf fok sok v = true -> skip_ws nl = EmptyString -> ends_value nl = true ->
  loads_with h (pr v +:+ nl) = Ok v.
Proof.
  intros Hok Hnl He. unfold loads_with. rewrite skip_ws_print by done.
  rewrite read_print; [|done| |done].
  - cbn [mbind outcome_bind snd]. by rewrite Hnl.
  - rewrite length_app_str. lia.
Qed.
End RoundTrip.

(** ** Strings and keys of a value *)

(** All strings of a value, the keys of objects apart. *)
Fixpoint text_leaves (v : json) : list string :=
  match v with
  | JStr s => [s]
  | JList l => flat_map text_leaves l
  | JObj d => flat_map (fun kv => text_leaves kv.2) d
  | _ => []
  end.

(** All keys of the objects of a value. *)
Fixpoint all_keys (v : json) : list string :=
  match v with
  | JList l => flat_map all_keys l
  | JObj d => dkeys d ++ flat_map (fun kv => all_keys kv.2) d
  | _ => []
  end.

(** ** Sorting keys *)

Lemma key_le_total a b : key_le a b = false -> key_le b a = true.
Proof.
  unfold key_le. rewrite (String.compare_antisym a b). by destruct (String.compare b a).
Qed.

Fixpoint sorted_items {V} (l : list (string * V)) : bool :=
  match l with
  | [] => true
  | kv :: l' => match l' with kv' :: _ => key_le kv.1 kv'.1 | [] => true end && sorted_items l'
  end.

Section Items.
Context {V : Type}.
Implicit Types (l : list (string * V)) (kv : string * V).

Lemma insert_item_sorted kv l : sorted_items l = true -> sorted_items (insert_item kv l) = true.
Proof.
  induction l as [|kv' l IH]; [done|]. intros Hs. cbn [insert_item].
  destruct (key_le kv.1 kv'.1) eqn:E; [cbn [sorted_items] in *; by rewrite E|].
  apply key_le_total in E. destruct l as [|kv'' l]; [by cbn; rewrite E|].
  apply andb_true_iff in Hs as [H Hs]. specialize (IH Hs). cbn [insert_item] in *.
  destruct (key_le kv.1 kv''.1); cbn [sorted_items] in *; by rewrite ?E, ?H, ?IH.
Qed.

Lemma sort_items_sorted l : sorted_items (sort_items l) = true.
Proof. induction l; cbn; [done | by apply insert_item_sorted]. Qed.

Lemma sort_items_id l : sorted_items l = true -> sort_items l = l.
Proof.
  induction l as [|kv l IH]; [done|]. intros Hs. change (insert_item kv (sort_items l) = kv :: l).
  apply andb_true_iff in Hs as [H Hs]. rewrite IH by done.
  destruct l as [|kv' l]; [done|]. cbn. by rewrite H.
Qed.

Lemma insert_item_perm kv l : insert_item kv l ≡ₚ kv :: l.
Proof.
  induction l as [|kv' l IH]; cbn; [done|]. destruct (key_le _ _); [done|].
  rewrite IH. apply Permutation_swap.
Qed.

Lemma sort_items_perm l : sort_items l ≡ₚ l.
Proof. induction l as [|kv l IH]; cbn; [done|]. by rewrite insert_item_perm, IH. Qed.

Lemma dget_elem k v l : dget k l = Some v -> (k, v) ∈ l.
Proof.
  induction l as [|[k' v'] l IH]; cbn; [done|]. destruct (String.eqb_spec k k').
  - intros [= ->]. subst. left.
  - right. auto.
Qed.

Lemma elem_dget k v l : NoDup (dkeys l) -> (k, v) ∈ l -> dget k l = Some v.
Proof.
  unfold dkeys. induction l as [|[k' v'] l IH]; cbn; intros Hd Hin; [by apply elem_of_nil in Hin|].
  apply NoDup_cons in Hd as [Hn Hd]. apply elem_of_cons in Hin as [E|Hin].
  - injection E as <- <-. by rewrite String.eqb_refl.
  - destruct (String.eqb_spec k k') as [<-|]; [|auto].
    exfalso. apply Hn. apply list_elem_of_fmap. by exists (k, v).
Qed.

Lemma dget_perm k l l' : NoDup (dkeys l) -> l ≡ₚ l' -> dget k l' = dget k l.
Proof.
  intros Hd Hp. assert (NoDup (dkeys l')) as Hd'.
  { unfold dkeys in *. by rewrite <-Hp. }
  destruct (dget k l') as [v|] eqn:E'.
  - symmetry. apply elem_dget; [done|]. rewrite Hp. by apply dget_elem.
  - destruct (dget k l) as [v|] eqn:E; [|done]. apply dget_elem in E.
    rewrite Hp in E. apply elem_dget in E; congruence.
Qed.
End Items.

Lemma insert_item_map {V V'} (f : V -> V') kv l :
  insert_item (kv.1, f kv.2) (map (fun kv => (kv.1, f kv.2)) l) =
  map (fun kv => (kv.1, f kv.2)) (insert_item kv l).
Proof. induction l as [|kv' l IH]; cbn; [done|]. destruct (key_le _ _); cbn; [done | by rewrite <-IH]. Qed.

Lemma sort_items_map {V V'} (f : V -> V') l :
  sort_items (map (fun kv => (kv.1, f kv.2)) l) = map (fun kv => (kv.1, f kv.2)) (sort_items l).
Proof. induction l as [|kv l IH]; cbn [map sort_items fold_right]; [done|]. unfold sort_items in IH. by rewrite IH, <-insert_item_map. Qed.

Lemma dkeys_map {V V'} (f : V -> V') l : dkeys (map (fun kv => (kv.1, f kv.2)) l) = dkeys l.
Proof. unfold dkeys. by rewrite map_map. Qed.

Lemma sort_keys_idem v : sort_keys (sort_keys v) = sort_keys v.
Proof.
  induction v as [|b|z|f|s|l HP|l HP] using json_rect'; cbn; try done.
  - f_equal. rewrite map_map. induction HP as [|x l Hx HP IH]; cbn; [done | by rewrite Hx, IH].
  - f_equal. rewrite <-(sort_items_map sort_keys), map_map. cbn.
    rewrite sort_items_id.
    + f_equal.
      induction HP as [|x l Hx HP IH]; cbn; [done | by rewrite Hx, IH].
    + apply sort_items_sorted.
Qed.

Lemma forallb_perm {A} (p : A -> bool) l l' : l ≡ₚ l' -> forallb p l = forallb p l'.
Proof. intros H. induction H; cbn; try congruence. by destruct (p x), (p y). Qed.

Lemma json_ok_sort sok v : json_ok sok (sort_keys v) = json_ok sok v.
Proof.
  induction v as [|b|z|f|s|l HP|l HP] using json_rect'; cbn; try done.
  - induction HP as [|x l Hx HP IH]; cbn; [done | by rewrite Hx, IH].
  - f_equal.
    + apply bool_decide_ext. rewrite <-(dkeys_map sort_keys l).
      unfold dkeys. by rewrite sort_items_perm.
    + rewrite (forallb_perm _ _ _ (sort_items_perm _)).
      induction HP as [|x l Hx HP IH]; cbn; [done | by rewrite Hx, IH].
Qed.

(** ** Equality *)

Lemma py_eq_obj x y :
  length x = length y ->
  (forall k u, (k, u) ∈ x -> exists v, dget k y = Some v /\ py_eq u v = true) ->
  py_eq (JObj x) (JObj y) = true.
Proof.
  intros Hl H. cbn. rewrite Hl, Nat.eqb_refl. cbn. clear Hl.
  induction x as [|[k u] x IH]; [done|].
  destruct (H k u) as (v & -> & ->); [by left|]. apply IH. intros k' u' Hin. apply H. by right.
Qed.

(** A value equals itself, and equals itself with its keys sorted. *)
Lemma py_eq_sort v v' :
  json_ok (fun _ => true) v = true -> v' = v \/ v' = sort_keys v -> py_eq v v' = true.
Proof.
  revert v'. induction v as [|b|z|f|s|l HP|l HP] using json_rect'; intros v' Hok Hv';
    cbn [json_ok] in Hok; try (destruct Hv' as [->| ->]; cbn;
      rewrite ?Z.eqb_refl, ?String.eqb_refl, ?Bool.eqb_reflx; done).
  - assert (exists g, (g = (fun x => x) \/ g = sort_keys) /\ v' = JList (map g l)) as (g & Hg & ->).
    { destruct Hv' as [->| ->]; eexists; eauto. split; [by left|]. by rewrite map_id. }
    clear Hv'. induction HP as [|x l Hx HP IH]; [done|]. cbn in *. bool_norm.
    rewrite Hx by (done || destruct Hg as [->| ->]; auto). by apply IH.
  - apply andb_true_iff in Hok as [Hd Hok]. bool_norm.
    rewrite Forall_forall in HP. rewrite forallb_forall in Hok.
    assert (forall k u, (k, u) ∈ l -> json_ok (fun _ => true) u = true) as Hu.
    { intros k u Hin. by apply (Hok (k, u)), list_elem_of_In. }
    destruct Hv' as [->| ->]; apply py_eq_obj.
    + done.
    + intros k u Hin. exists u. split; [by apply elem_dget|]. apply (HP (k, u)); eauto.
    + by rewrite sort_items_perm, length_map.
    + intros k u Hin. exists (sort_keys u). split; [|apply (HP (k, u)); eauto].
      rewrite (dget_perm _ (map (fun kv => (kv.1, sort_keys kv.2)) l)).
      * apply elem_dget; [by rewrite dkeys_map|]. apply list_elem_of_fmap. by exists (k, u).
      * by rewrite dkeys_map.
      * by rewrite sort_items_perm.
Qed.

(** The other way round: the value with its keys sorted equals the value. *)
Lemma py_eq_sorted v : json_ok (fun _ => true) v = true -> py_eq (sort_keys v) v = true.
Proof.
  induction v as [|b|z|f|s|l HP|l HP] using json_rect'; intros Hok; cbn [json_ok] in Hok;
    try (cbn; rewrite ?Z.eqb_refl, ?String.eqb_refl, ?Bool.eqb_reflx; done).
  - induction HP as [|x l Hx HP IH]; [done|]. cbn in *. bool_norm. rewrite Hx by done. by apply IH.
  - apply andb_true_iff in Hok as [Hd Hok]. bool_norm. rewrite Forall_forall in HP.
    rewrite forallb_forall in Hok. cbn [sort_keys]. apply py_eq_obj.
    + by rewrite sort_items_perm, length_map.
    + intros k u Hin. rewrite sort_items_perm in Hin. apply list_elem_of_fmap in Hin as ([k' u'] & E & Hin).
      cbn in E. injection E as -> ->. exists u'. split; [by apply elem_dget|].
      apply (HP (k', u') Hin). by apply (Hok (k', u')), list_elem_of_In.
Qed.

(** ** Dictionaries *)

Section Dict.
Context {V : Type}.
Implicit Types d : list (string * V).

Lemma dget_dset k k' v d : dget k (dset k' v d) = if String.eqb k k' then Some v else dget k d.
Proof.
  induction d as [|[q x] d IH]; cbn; [done|].
  destruct (String.eqb_spec k' q) as [<-|]; cbn.
  - by destruct (String.eqb_spec k k').
  - rewrite IH. destruct (String.eqb_spec k q) as [->|]; [|done].
    by destruct (String.eqb_spec q k') as [->|].
Qed.

Lemma dget_dpop k k' d : dget k (dpop k' d) = if String.eqb k k' then None else dget k d.
Proof.
  unfold dpop. induction d as [|[q x] d IH]; cbn; [by destruct (String.eqb k k')|].
  destruct (String.eqb_spec k' q) as [<-|]; cbn.
  - rewrite IH. by destruct (String.eqb_spec k k').
  - rewrite IH. destruct (String.eqb_spec k q) as [->|]; [|done].
    by destruct (String.eqb_spec q k') as [->|].
Qed.

Lemma dkeys_dset k v d :
  dkeys (dset k v d) = if has_key k d then dkeys d else dkeys d ++ [k].
Proof.
  unfold has_key, dkeys, str_in. induction d as [|[q x] d IH]; cbn; [done|].
  destruct (String.eqb_spec k q) as [<-|]; cbn; [done|]. rewrite IH. by destruct (existsb _ _).
Qed.

Lemma dkeys_dpop k d : dkeys (dpop k d) = List.filter (fun q => negb (String.eqb k q)) (dkeys d).
Proof.
  unfold dkeys, dpop. induction d as [|[q x] d IH]; cbn; [done|].
  destruct (String.eqb k q); cbn; [done | by rewrite IH].
Qed.

Lemma has_key_dget k d : has_key k d = match dget k d with Some _ => true | None => false end.
Proof.
  unfold has_key, dkeys, str_in. induction d as [|[q x] d IH]; cbn; [done|].
  by destruct (String.eqb k q).
Qed.
End Dict.

Lemma dset_snoc {V} k (v : V) d : has_key k d = false -> dset k v d = d ++ [(k, v)].
Proof.
  unfold has_key, dkeys, str_in. induction d as [|[q x] d IH]; cbn; [done|].
  destruct (String.eqb k q); cbn; [done|]. intros H. by rewrite IH.
Qed.

Lemma has_key_elem {V} k (d : list (string * V)) : has_key k d = true <-> k ∈ dkeys d.
Proof.
  unfold has_key, str_in. rewrite existsb_exists. split.
  - intros (x & Hx & ->%String.eqb_eq). by apply list_elem_of_In.
  - intros H. exists k. rewrite String.eqb_refl. by rewrite <-list_elem_of_In.
Qed.

Lemma dict_of_pairs_nodup {V} (l : list (string * V)) : NoDup (dkeys l) -> dict_of_pairs l = l.
Proof.
  unfold dict_of_pairs, dupdate.
  enough (forall acc, NoDup (dkeys (acc ++ l)) ->
    fold_left (fun d kv => dset kv.1 kv.2 d) l acc = acc ++ l) as H by apply (H []).
  induction l as [|[k v] l IH]; intros acc Hd; [by rewrite app_nil_r|]. cbn [fold_left fst snd].
  unfold dkeys in Hd. rewrite map_app in Hd. cbn in Hd. apply NoDup_app in Hd as (H1 & H2 & H3).
  apply NoDup_cons in H3 as [Hk Hl].
  rewrite dset_snoc.
  - rewrite IH; [by rewrite <-app_assoc|]. unfold dkeys. rewrite <-app_assoc, map_app. cbn.
    apply NoDup_app. split_and!; [done|done|]. by constructor.
  - apply not_true_iff_false. rewrite has_key_elem. intros Hin. apply (H2 k Hin). by left.
Qed.

(** ** [json.loads] after [json.dumps] *)

Definition sort_dict (d : list (string * json)) : list (string * json) :=
  sort_items (map (fun kv => (kv.1, sort_keys kv.2)) d).

Lemma sort_dict_perm d : sort_dict d ≡ₚ map (fun kv => (kv.1, sort_keys kv.2)) d.
Proof. apply sort_items_perm. Qed.

Lemma dkeys_sort_dict d : dkeys (sort_dict d) ≡ₚ dkeys d.
Proof. unfold dkeys. rewrite sort_dict_perm, map_map. done. Qed.

Lemma dget_map_sort k d :
  dget k (map (fun kv => (kv.1, sort_keys kv.2)) d) = option_map sort_keys (dget k d).
Proof. induction d as [|[q x] d IH]; cbn; [done|]. by destruct (String.eqb k q). Qed.

Lemma dget_sort_dict k d :
  NoDup (dkeys d) -> dget k (sort_dict d) = option_map sort_keys (dget k d).
Proof.
  intros Hd. rewrite <-dget_map_sort. apply dget_perm.
  - by rewrite dkeys_map.
  - by rewrite sort_dict_perm.
Qed.

Lemma length_sort_dict d : length (sort_dict d) = length d.
Proof. by rewrite sort_dict_perm, length_map. Qed.

Lemma Forall_sort_dict (P : string * json -> Prop) d :
  Forall P (sort_dict d) <-> Forall (fun kv => P (kv.1, sort_keys kv.2)) d.
Proof. rewrite sort_dict_perm. by rewrite Forall_map. Qed.

Lemma loads_compact h v nl :
  (forall l, NoDup (dkeys l) -> h_pairs h l = Ok (JObj l)) ->
  json_ok (fun _ => true) v = true -> skip_ws nl = EmptyString -> ends_value nl = true ->
  loads_with h (dumps_compact_sorted v +:+ nl) = Ok (sort_keys v).
Proof.
  intros Hh Hok Hn He.
  rewrite json_ok_okf in Hok. apply (loads_print escape (fun _ => false) (fun _ => true) EmptyString EmptyString h); try done.
  - intros s fuel rest _. apply read_escape.
  - by rewrite <-json_ok_okf, json_ok_sort, json_ok_okf.
Qed.


Lemma loads_dumps v : json_ok is_ascii v = true -> loads (dumps v) = Ok v.
Proof.
  intros Hok. rewrite <-(app_str_nil_r (dumps v)).
  rewrite json_ok_okf in Hok. apply (loads_print escape_ascii (fun _ => false) is_ascii " " " " default_hooks); try done.
  - intros s fuel rest. apply read_escape_ascii.
  - intros l Hl. cbn. by rewrite dict_of_pairs_nodup.
Qed.

Lemma loads_dumps_sorted v : json_ok is_ascii v = true -> loads (dumps_sorted v) = Ok (sort_keys v).
Proof.
  intros Hok. rewrite <-(app_str_nil_r (dumps_sorted v)).
  rewrite json_ok_okf in Hok. apply (loads_print escape_ascii (fun _ => false) is_ascii " " " " default_hooks); try done.
  - intros s fuel rest. apply read_escape_ascii.
  - intros l Hl. cbn. by rewrite dict_of_pairs_nodup.
  - by rewrite <-json_ok_okf, json_ok_sort, json_ok_okf.
Qed.

Lemma loads_dumps_ascii_compact_sorted v :
  json_ok is_ascii v = true -> loads (dumps_ascii_compact_sorted v) = Ok (sort_keys v).
Proof.
  intros Hok. rewrite <-(app_str_nil_r (dumps_ascii_compact_sorted v)).
  rewrite json_ok_okf in Hok. apply (loads_print escape_ascii (fun _ => false) is_ascii EmptyString EmptyString default_hooks); try done.
  - intros s fuel rest. apply read_escape_ascii.
  - intros l Hl. cbn. by rewrite dict_of_pairs_nodup.
  - by rewrite <-json_ok_okf, json_ok_sort, json_ok_okf.
Qed.

Lemma loads_dumps_compact v : json_ok (fun _ => true) v = true -> loads (dumps_compact v) = Ok v.
Proof.
  intros Hok. rewrite <-(app_str_nil_r (dumps_compact v)).
  rewrite json_ok_okf in Hok. apply (loads_print escape (fun _ => false) (fun _ => true) EmptyString EmptyString default_hooks); try done.
  - intros s fuel rest _. apply read_escape.
  - intros l Hl. cbn. by rewrite dict_of_pairs_nodup.
Qed.

Lemma loads_dumps_compact_sorted v :
  json_ok (fun _ => true) v = true -> loads (dumps_compact_sorted v) = Ok (sort_keys v).
Proof.
  intros Hok. rewrite <-(app_str_nil_r (dumps_compact_sorted v)).
  apply loads_compact; try done. intros l Hl. cbn. by rewrite dict_of_pairs_nodup.
Qed.
