(* ===== verification/JsonText.v ===== *)
(** [json.loads] reads back what [json.dumps] writes in ASCII of any Unicode text:
    the UTF-8 decoder is inverted by the encoder, and every escape, with surrogate
    pairs, by the reader. *)
From Stdlib Require Import ZArith Lia Ascii String SpecFloat.
From stdpp Require Import base list strings.
From S2P Require Import Prelude Text TextFacts Json JsonFacts.

(** ** UTF-8 is read back *)

Lemma zord_range c : 0 <= zord c < 256.
Proof. unfold zord. pose proof (N_ascii_bounded c). lia. Qed.
Lemma chr_of_code c z : zord c = z -> chr z = c.
Proof. intros <-. unfold chr, zord. rewrite N2Z.id. apply ascii_N_embedding. Qed.
Lemma zord_chr z : 0 <= z < 256 -> zord (chr z) = z.
Proof. intros H. unfold chr, zord. rewrite N_ascii_embedding by lia. lia. Qed.
Lemma lor_shift x y k : 0 <= k -> 0 <= y < 2 ^ k -> Z.lor (Z.shiftl x k) y = x * 2 ^ k + y.
Proof.
  intros Hk Hy. rewrite <-Z.shiftl_mul_pow2, <-Z.add_lor_land by done.
  assert (Z.land (Z.shiftl x k) y = 0) as ->; [|lia].
  rewrite <-(Z.mod_small y (2 ^ k)), <-Z.land_ones, (Z.land_comm y), Z.land_assoc, Z.land_ones by done.
  rewrite Z.shiftl_mul_pow2, Z_mod_mult by done. reflexivity.
Qed.
Lemma land_mask x k : 0 <= k -> Z.land x (2 ^ k - 1) = x mod 2 ^ k.
Proof. intros Hk. rewrite <-Z.land_ones by done. by rewrite Z.ones_equiv. Qed.

Lemma encode2 b0 b1 : 194 <= b0 <= 223 -> 128 <= b1 <= 191 ->
  let cp := Z.lor (Z.shiftl (Z.land b0 31) 6) (low6 b1) in
  128 <= cp < 2048 /\ encode cp = String (chr b0) (String (chr b1) EmptyString).
Proof.
  intros H0 H1. unfold low6. change 31 with (2 ^ 5 - 1). change 63 with (2 ^ 6 - 1). rewrite !land_mask by lia.
  rewrite lor_shift by (lia || (apply Z.mod_pos_bound; lia)). cbv zeta.
  set (cp := _ + _). assert (cp = (b0 - 192) * 64 + (b1 - 128)) as E.
  { unfold cp. change (2 ^ 5) with 32. change (2 ^ 6) with 64. Z.to_euclidean_division_equations; lia. }
  split; [lia|]. unfold encode.
  destruct (Z.ltb_spec cp 128); [lia|]. destruct (Z.ltb_spec cp 2048); [|lia].
  rewrite Z.shiftr_div_pow2 by lia. change 63 with (2 ^ 6 - 1). rewrite land_mask by lia. change (2 ^ 6) with 64.
  assert (192 + cp / 64 = b0 /\ 128 + cp mod 64 = b1) as [-> ->] by (Z.to_euclidean_division_equations; lia). done.
Qed.
Lemma encode3 b0 b1 b2 : 224 <= b0 <= 239 -> 128 <= b1 <= 191 -> 128 <= b2 <= 191 ->
  let cp := Z.lor (Z.shiftl (Z.land b0 15) 12) (Z.lor (Z.shiftl (low6 b1) 6) (low6 b2)) in
  2048 <= cp ->
  cp < 65536 /\ encode cp = String (chr b0) (String (chr b1) (String (chr b2) EmptyString)).
Proof.
  intros H0 H1 H2. unfold low6. change 15 with (2 ^ 4 - 1). change 63 with (2 ^ 6 - 1). rewrite !land_mask by lia.
  assert (0 <= b1 mod 2 ^ 6 < 64 /\ 0 <= b2 mod 2 ^ 6 < 64) as [? ?] by (split; apply Z.mod_pos_bound; lia).
  rewrite (lor_shift _ (b2 mod 2 ^ 6)) by lia.
  rewrite lor_shift by (change (2 ^ 12) with 4096; change (2 ^ 6) with 64 in *; lia). cbv zeta.
  set (cp := _ + _). assert (cp = (b0 - 224) * 4096 + (b1 - 128) * 64 + (b2 - 128)) as E.
  { unfold cp. change (2 ^ 4) with 16. change (2 ^ 6) with 64. change (2 ^ 12) with 4096. Z.to_euclidean_division_equations; lia. }
  intros Hlo. split; [lia|]. unfold encode.
  destruct (Z.ltb_spec cp 128); [lia|]. destruct (Z.ltb_spec cp 2048); [lia|]. destruct (Z.ltb_spec cp 65536); [|lia].
  rewrite !Z.shiftr_div_pow2 by lia. change 63 with (2 ^ 6 - 1). rewrite !land_mask by lia.
  change (2 ^ 6) with 64. change (2 ^ 12) with 4096.
  assert (224 + cp / 4096 = b0 /\ 128 + (cp / 64) mod 64 = b1 /\ 128 + cp mod 64 = b2) as (-> & -> & ->)
    by (Z.to_euclidean_division_equations; lia). done.
Qed.
Lemma encode4 b0 b1 b2 b3 : 240 <= b0 <= 244 -> 128 <= b1 <= 191 -> 128 <= b2 <= 191 -> 128 <= b3 <= 191 ->
  let cp := Z.lor (Z.shiftl (Z.land b0 7) 18) (Z.lor (Z.shiftl (low6 b1) 12) (Z.lor (Z.shiftl (low6 b2) 6) (low6 b3))) in
  65536 <= cp ->
  encode cp = String (chr b0) (String (chr b1) (String (chr b2) (String (chr b3) EmptyString))).
Proof.
  intros H0 H1 H2 H3. unfold low6. change 7 with (2 ^ 3 - 1). change 63 with (2 ^ 6 - 1). rewrite !land_mask by lia.
  assert (0 <= b1 mod 2 ^ 6 < 64 /\ 0 <= b2 mod 2 ^ 6 < 64 /\ 0 <= b3 mod 2 ^ 6 < 64) as (? & ? & ?)
    by (repeat split; apply Z.mod_pos_bound; lia).
  rewrite (lor_shift _ (b3 mod 2 ^ 6)) by lia.
  rewrite (lor_shift _ (_ + _)) by (change (2 ^ 12) with 4096; change (2 ^ 6) with 64 in *; lia).
  rewrite lor_shift by (change (2 ^ 18) with 262144; change (2 ^ 12) with 4096; change (2 ^ 6) with 64 in *; lia). cbv zeta.
  set (cp := _ + _). assert (cp = (b0 - 240) * 262144 + (b1 - 128) * 4096 + (b2 - 128) * 64 + (b3 - 128)) as E.
  { unfold cp. change (2 ^ 3) with 8. change (2 ^ 6) with 64. change (2 ^ 12) with 4096. change (2 ^ 18) with 262144.
    Z.to_euclidean_division_equations; lia. }
  intros Hlo. unfold encode.
  destruct (Z.ltb_spec cp 128); [lia|]. destruct (Z.ltb_spec cp 2048); [lia|]. destruct (Z.ltb_spec cp 65536); [lia|].
  rewrite !Z.shiftr_div_pow2 by lia. change 63 with (2 ^ 6 - 1). rewrite !land_mask by lia.
  change (2 ^ 6) with 64. change (2 ^ 12) with 4096. change (2 ^ 18) with 262144.
  assert (240 + cp / 262144 = b0 /\ 128 + (cp / 4096) mod 64 = b1 /\ 128 + (cp / 64) mod 64 = b2 /\ 128 + cp mod 64 = b3)
    as (-> & -> & -> & ->) by (Z.to_euclidean_division_equations; lia). done.
Qed.

(** The code points of a valid text: they encode it, and none is a surrogate. *)
Definition scalar (cp : Z) : Prop := 0 <= cp <= 1114111 /\ ~ 55296 <= cp <= 57343.
Lemma decode_encode n s l : (String.length s <= n)%nat -> decode false s = Some l ->
  fold_right (fun cp r => encode cp +:+ r) EmptyString l = s /\ Forall scalar l /\ decode true s = Some l.
Proof.
  revert s l. induction n as [n IH] using lt_wf_ind. intros s l Hn.
  assert (forall t k, (String.length t < String.length s)%nat -> decode false t = Some k ->
    fold_right (fun cp r => encode cp +:+ r) EmptyString k = t /\ Forall scalar k /\ decode true t = Some k) as IH'.
  { intros t k Ht. apply (IH (String.length t)); lia. }
  clear IH. destruct s as [|c0 s]; cbn [decode].
  { intros [= <-]. repeat split; constructor. }
  pose proof (zord_range c0) as Hc0. destruct (Z.ltb_spec (zord c0) 128) as [Hlt|Hge].
  { intros (k & Hk & [= ->])%fmap_Some_1. destruct (IH' s k) as (Ht & Hf & ->); [cbn; lia|done|].
    split; [|split; [|done]].
    - cbn [fold_right]. rewrite Ht. unfold encode. destruct (Z.ltb_spec (zord c0) 128); [|lia]. by rewrite (chr_of_code c0 _ eq_refl).
    - constructor; [|done]. unfold scalar. lia. }
  destruct s as [|c1 s]; [done|]. unfold cont. pose proof (zord_range c1).
  destruct (Z.leb_spec 128 (zord c1)); [|done]. destruct (Z.leb_spec (zord c1) 191); [|done]. cbn [andb negb].
  destruct ((194 <=? zord c0) && (zord c0 <=? 223)) eqn:E2.
  { bool_norm. intros (k & Hk & [= ->])%fmap_Some_1. destruct (IH' s k) as (Ht & Hf & ->); [cbn; lia|done|].
    destruct (encode2 (zord c0) (zord c1)) as [Hcp He]; [lia..|]. cbv zeta in *. split; [|split; [|done]].
    - cbn [fold_right]. rewrite Ht, He, !app_str_cons. by rewrite (chr_of_code c0 _ eq_refl), (chr_of_code c1 _ eq_refl).
    - constructor; [|done]. unfold scalar. lia. }
  destruct s as [|c2 s]; [done|]. pose proof (zord_range c2).
  destruct (Z.leb_spec 128 (zord c2)); [|done]. destruct (Z.leb_spec (zord c2) 191); [|done]. cbn [andb negb].
  destruct ((224 <=? zord c0) && (zord c0 <=? 239)) eqn:E3.
  { bool_norm. cbv zeta.
    match goal with |- (if (?cp <? 2048) || _ then _ else _) = _ -> _ => destruct (Z.ltb_spec cp 2048) as [|Hlo]; [done|];
      destruct (encode3 (zord c0) (zord c1) (zord c2)) as [Hcp He]; [lia..|]; cbv zeta in *;
      destruct (Z.leb_spec 55296 cp); [destruct (Z.leb_spec cp 57343); [done|]|] end; cbn [andb orb];
    (intros (k & Hk & [= ->])%fmap_Some_1; destruct (IH' s k) as (Ht & Hf & ->); [cbn; lia|done|];
     split; [|split; [|done]];
     [cbn [fold_right]; rewrite Ht, He, !app_str_cons;
      by rewrite (chr_of_code c0 _ eq_refl), (chr_of_code c1 _ eq_refl), (chr_of_code c2 _ eq_refl)
     |constructor; [|done]; unfold scalar; lia]). }
  destruct s as [|c3 s]; [done|]. pose proof (zord_range c3).
  destruct (Z.leb_spec 128 (zord c3)); [|done]. destruct (Z.leb_spec (zord c3) 191); [|done]. cbn [andb negb].
  destruct ((240 <=? zord c0) && (zord c0 <=? 244)) eqn:E4; [|done].
  bool_norm. cbv zeta.
  match goal with |- (if (?cp <? 65536) || (1114111 <? ?cp) then _ else _) = _ -> _ =>
    destruct (Z.ltb_spec cp 65536) as [|Hlo]; [done|]; destruct (Z.ltb_spec 1114111 cp) as [|Hhi]; [done|] end. cbn [orb].
  pose proof (encode4 (zord c0) (zord c1) (zord c2) (zord c3)) as He. cbv zeta in He.
  intros (k & Hk & [= ->])%fmap_Some_1. destruct (IH' s k) as (Ht & Hf & ->); [cbn; lia|done|].
  split; [|split; [|done]].
  - cbn [fold_right]. rewrite Ht, He, !app_str_cons by lia.
    by rewrite (chr_of_code c0 _ eq_refl), (chr_of_code c1 _ eq_refl), (chr_of_code c2 _ eq_refl), (chr_of_code c3 _ eq_refl).
  - constructor; [|done]. unfold scalar. lia.
Qed.

(** ** Escapes of any code point are read back *)

Lemma hexval_digit d : 0 <= d < 16 -> hexval (hexdigit d) = Some d.
Proof.
  intros H. assert (d ∈ map Z.of_nat (seq 0 16)) as Hin.
  { apply list_elem_of_fmap. exists (Z.to_nat d). rewrite Z2Nat.id by lia. split; [done|]. apply elem_of_seq. lia. }
  revert d Hin H. apply (Forall_forall (fun d => 0 <= d < 16 -> hexval (hexdigit d) = Some d)). cbn [map seq]. repeat constructor.
Qed.
Lemma read_hex4_hex4 u t : 0 <= u < 65536 -> read_hex4 (hex4 u +:+ t) = Some (u, t).
Proof.
  intros H. unfold hex4. rewrite !app_str_cons. unfold read_hex4.
  rewrite !hexval_digit by (apply Z.mod_pos_bound; lia). do 2 f_equal. Z.to_euclidean_division_equations; lia.
Qed.
Lemma read_escape_code cp fuel t : scalar cp ->
  read_string (S fuel) (escape_point cp +:+ t) = tr ← read_string fuel t; Ok (encode cp +:+ tr.1, tr.2).
Proof.
  intros [H Hs]. destruct (Z.ltb_spec cp 128) as [Hlt|Hge].
  { rewrite <-(zord_chr cp) at 1 by lia. rewrite read_escape_point by (rewrite zord_chr; lia).
    unfold encode. by destruct (Z.ltb_spec cp 128); [|lia]. }
  unfold escape_point. destruct (Z.ltb_spec cp 128); [lia|].
  assert (forall r, read_string (S fuel) ("\u" +:+ r) = ur ← read_escape_u r; tr ← read_string fuel ur.2; Ok (encode ur.1 +:+ tr.1, tr.2)) as Hu
    by reflexivity.
  destruct (Z.ltb_spec cp 65536).
  - rewrite app_str_assoc, Hu. unfold read_escape_u. rewrite read_hex4_hex4 by lia. unfold in_rng.
    destruct (Z.leb_spec 55296 cp), (Z.leb_spec cp 56319); cbn [andb]; try reflexivity. lia.
  - rewrite !app_str_assoc, Hu. unfold read_escape_u. rewrite Z.shiftr_div_pow2 by lia. change 1023 with (2 ^ 10 - 1).
    rewrite land_mask by lia. change (2 ^ 10) with 1024.
    assert (0 <= (cp - 65536) / 1024 < 1024 /\ 0 <= (cp - 65536) mod 1024 < 1024) as [Hq Hm] by (Z.to_euclidean_division_equations; lia).
    rewrite read_hex4_hex4 by lia. unfold in_rng at 1.
    destruct (Z.leb_spec 55296 (55296 + (cp - 65536) / 1024)); [|lia].
    destruct (Z.leb_spec (55296 + (cp - 65536) / 1024) 56319); [|lia]. cbn [andb].
    change (drop_prefix "\u" ("\u" +:+ ?r)) with (Some r). cbv beta iota.
    rewrite read_hex4_hex4 by lia. unfold in_rng.
    destruct (Z.leb_spec 56320 (56320 + (cp - 65536) mod 1024)); [|lia].
    destruct (Z.leb_spec (56320 + (cp - 65536) mod 1024) 57343); [|lia]. cbn [andb].
    cbn [mbind outcome_bind fst snd]. rewrite Z.shiftl_mul_pow2 by lia.
    assert (65536 + (55296 + (cp - 65536) / 1024 - 55296) * 2 ^ 10 + (56320 + (cp - 65536) mod 1024 - 56320) = cp) as ->; [|done].
    change (2 ^ 10) with 1024. Z.to_euclidean_division_equations; lia.
Qed.
Lemma escape_code_length cp : (1 <= String.length (escape_point cp))%nat.
Proof.
  unfold escape_point. destruct (cp <? 128); [destruct (cp =? 127); [cbn; lia|apply escape_char_length]|].
  destruct (cp <? 65536); cbv zeta; rewrite !length_app_str; cbn [String.length]; lia.
Qed.

(** [json.dumps] with its default escaping, of any Unicode text *)
Lemma read_escape_unicode s fuel rest :
  utf8_valid s = true -> (String.length (escape_ascii s) < fuel)%nat ->
  read_string fuel (escape_ascii s +:+ String dquote rest) = Ok (s, rest).
Proof.
  unfold utf8_valid. intros Hv. destruct (decode false s) as [l|] eqn:E; [|done].
  destruct (decode_encode (String.length s) s l) as (Hs & Hf & Ht); [done..|].
  unfold escape_ascii, code_points. rewrite Ht. rewrite <-Hs. clear s Hv E Hs Ht. revert fuel.
  induction Hf as [|cp l Hcp Hf IH]; intros fuel Hn; (destruct fuel as [|fuel]; [lia|]); [reflexivity|].
  cbn [fold_right] in *. rewrite length_app_str in Hn. pose proof (escape_code_length cp).
  rewrite app_str_assoc, read_escape_code, IH by (done || lia). reflexivity.
Qed.

(** Values whose texts are Unicode and whose floats read back *)
Definition json_text (v : json) : bool := json_okf (float_ok default_hooks) utf8_valid v.
Lemma forallb_map {A B} (p : B -> bool) (g : A -> B) l : forallb p (map g l) = forallb (fun x => p (g x)) l.
Proof. induction l as [|x l IH]; cbn; [done|by rewrite IH]. Qed.
Lemma json_okf_sort fok sok v : json_okf fok sok (sort_keys v) = json_okf fok sok v.
Proof.
  induction v as [|b|z|f|s|l HP|l HP] using json_rect'; cbn; try done.
  - rewrite forallb_map. by apply forallb_ext_Forall.
  - f_equal.
    + apply bool_decide_ext. rewrite <-(dkeys_map sort_keys l).
      unfold dkeys. by rewrite sort_items_perm.
    + rewrite (forallb_perm _ _ _ (sort_items_perm _)), forallb_map.
      apply forallb_ext_Forall. eapply Forall_impl; [exact HP|]. intros kv E. cbn beta in *. by rewrite <-E.
Qed.
Lemma loads_dumps_sorted_text v : json_text v = true -> loads (dumps_sorted v) = Ok (sort_keys v).
Proof.
  intros Hok. unfold json_text in Hok. rewrite <-(app_str_nil_r (dumps_sorted v)).
  apply (loads_print escape_ascii (float_ok default_hooks) utf8_valid " " " " default_hooks); try done.
  - apply read_escape_unicode.
  - intros l Hl. cbn. by rewrite dict_of_pairs_nodup.
  - by rewrite json_okf_sort.
Qed.
