(* ===== verification/Sha256.v ===== *)
(** SHA-256 as [hashlib] computes it, over the bytes of a text.  Words are
    integers below 2^32; additions wrap around explicitly. *)
From Stdlib Require Import Ascii String.
From stdpp Require Import base list strings.
From S2P Require Import Prelude Text.

Definition w32 (z : Z) : Z := Z.land z (Z.ones 32).
Definition add32 (a b : Z) : Z := w32 (a + b).
Definition rotr (n x : Z) : Z := Z.lor (Z.shiftr x n) (w32 (Z.shiftl x (32 - n))).

Definition sha_k : list Z :=
  [1116352408; 1899447441; 3049323471; 3921009573; 961987163; 1508970993; 2453635748;
   2870763221; 3624381080; 310598401; 607225278; 1426881987; 1925078388; 2162078206;
   2614888103; 3248222580; 3835390401; 4022224774; 264347078; 604807628; 770255983;
   1249150122; 1555081692; 1996064986; 2554220882; 2821834349; 2952996808; 3210313671;
   3336571891; 3584528711; 113926993; 338241895; 666307205; 773529912; 1294757372;
   1396182291; 1695183700; 1986661051; 2177026350; 2456956037; 2730485921; 2820302411;
   3259730800; 3345764771; 3516065817; 3600352804; 4094571909; 275423344; 430227734;
   506948616; 659060556; 883997877; 958139571; 1322822218; 1537002063; 1747873779;
   1955562222; 2024104815; 2227730452; 2361852424; 2428436474; 2756734187; 3204031479;
   3329325298].

Definition sha_init : list Z :=
  [1779033703; 3144134277; 1013904242; 2773480762; 1359893119; 2600822924; 528734635;
   1541459225].

(** The message with its padding: a one bit, zeros, and the 64-bit bit length. *)
Definition pad_message (bytes : list Z) : list Z :=
  let n := Z.of_nat (length bytes) in
  let k := Z.to_nat ((55 - n) mod 64) in
  bytes ++ [128] ++ repeat 0 k ++
  map (fun i => Z.land (Z.shiftr (8 * n) (8 * i)) 255) [7; 6; 5; 4; 3; 2; 1; 0].

Fixpoint words (l : list Z) : list Z :=
  match l with
  | a :: b :: c :: d :: l =>
      Z.lor (Z.shiftl a 24) (Z.lor (Z.shiftl b 16) (Z.lor (Z.shiftl c 8) d)) :: words l
  | _ => []
  end.

(** The message schedule, most recent word first. *)
Fixpoint schedule (n : nat) (ws : list Z) : list Z :=
  match n with
  | O => ws
  | S n =>
      let w i := nth i ws 0 in
      let s0 := Z.lxor (rotr 7 (w 14%nat)) (Z.lxor (rotr 18 (w 14%nat)) (Z.shiftr (w 14%nat) 3)) in
      let s1 := Z.lxor (rotr 17 (w 1%nat)) (Z.lxor (rotr 19 (w 1%nat)) (Z.shiftr (w 1%nat) 10)) in
      schedule n (add32 (w 15%nat) (add32 s0 (add32 (w 6%nat) s1)) :: ws)
  end.

Fixpoint rounds (kw : list (Z * Z)) (st : list Z) : list Z :=
  match kw, st with
  | (k, w) :: kw, [a; b; c; d; e; f; g; h] =>
      let s1 := Z.lxor (rotr 6 e) (Z.lxor (rotr 11 e) (rotr 25 e)) in
      let ch := Z.lxor (Z.land e f) (Z.land (Z.lxor e (Z.ones 32)) g) in
      let t1 := add32 h (add32 s1 (add32 ch (add32 k w))) in
      let s0 := Z.lxor (rotr 2 a) (Z.lxor (rotr 13 a) (rotr 22 a)) in
      let maj := Z.lxor (Z.land a b) (Z.lxor (Z.land a c) (Z.land b c)) in
      rounds kw [add32 t1 (add32 s0 maj); a; b; c; add32 d t1; e; f; g]
  | _, _ => st
  end.

Definition compress (st block : list Z) : list Z :=
  let ws := List.rev (schedule 48 (List.rev (words block))) in
  zip_with add32 st (rounds (combine sha_k ws) st).

Fixpoint blocks (fuel : nat) (l st : list Z) : list Z :=
  match fuel with
  | O => st
  | S fuel => match l with
              | [] => st
              | _ => blocks fuel (skipn 64 l) (compress st (firstn 64 l))
              end
  end.

Definition hex_nibble (z : Z) : ascii := if z <? 10 then chr (48 + z) else chr (87 + z).
Definition hex_word (z : Z) : string :=
  string_of_list_ascii
    (map (fun i => hex_nibble (Z.land (Z.shiftr z (4 * i)) 15)) [7; 6; 5; 4; 3; 2; 1; 0]).

(** [hashlib.sha256(s.encode()).hexdigest()]; the fuel is the number of bytes,
    more than the number of blocks. *)
Definition sha256 (s : string) : string :=
  let m := pad_message (map zord (list_ascii_of_string s)) in
  fold_right String.append EmptyString (map hex_word (blocks (length m) m sha_init)).

Example sha256_abc :
  sha256 "abc" = "ba7816bf8f01cfea414140de5dae2223b00361a396177a9cb410ff61f20015ad"%string.
Proof. vm_compute. reflexivity. Qed.

Example sha256_two_blocks :
  sha256 "abcdbcdecdefdefgefghfghighijhijkijkljklmklmnlmnomnopnopq"
  = "248d6a61d20638b8e5c026930c3e6039a33ce45964ff2167f6ecedd419db06c1"%string.
Proof. vm_compute. reflexivity. Qed.

(** ** The digest is 64 characters long *)

Lemma rounds_length kw st : length (rounds kw st) = length st.
Proof.
  revert st. induction kw as [|[k w] kw IH]; intros st; [done|].
  do 8 (destruct st as [|? st]; [done|]). destruct st; [|done]. cbn [rounds]. by rewrite IH.
Qed.

Lemma blocks_length fuel l st : length (blocks fuel l st) = length st.
Proof.
  revert l st. induction fuel as [|fuel IH]; intros l st; [done|]. destruct l; [done|].
  cbn [blocks]. rewrite IH. unfold compress. rewrite length_zip_with, rounds_length. lia.
Qed.

Lemma hex_words_length l :
  String.length (fold_right String.append EmptyString (map hex_word l)) = (8 * length l)%nat.
Proof.
  induction l as [|z l IH]; [done|]. cbn [map fold_right].
  assert (forall a b, String.length (String.append a b) = (String.length a + String.length b)%nat) as Ha.
  { intros a b. induction a as [|c a IHa]; [done|].
    change (String.append (String c a) b) with (String c (String.append a b)). cbn. by rewrite IHa. }
  rewrite Ha, IH. cbn [hex_word map string_of_list_ascii String.length length]. lia.
Qed.

Lemma sha256_length s : String.length (sha256 s) = 64%nat.
Proof. unfold sha256. by rewrite hex_words_length, blocks_length. Qed.
Lemma sha256_truthy s : truthy_str (sha256 s) = true.
Proof. pose proof (sha256_length s) as H. by destruct (sha256 s). Qed.
