(* ===== verification/PyTime.v ===== *)
(** Dates and times of Python's [datetime] module.  A datetime is its wall-clock
    reading in microseconds since 1970-01-01T00:00:00 and the UTC offset of its
    [tzinfo], absent for a naive value.  Arithmetic past year 9999, where Python
    raises [OverflowError], is not modelled. *)
From Stdlib Require Import Ascii String.
From stdpp Require Import base list strings.
From S2P Require Import Prelude Text.

Record datetime : Type := DT { wall : Z; tzoff : option Z }.

#[export] Instance datetime_eq_dec : EqDecision datetime.
Proof. solve_decision. Defined.

Definition us_second : Z := 1000000.
Definition us_minute : Z := 60 * us_second.
Definition us_hour : Z := 60 * us_minute.
Definition us_day : Z := 24 * us_hour.

(** ** The proleptic Gregorian calendar *)

Definition days_from_civil (y m d : Z) : Z :=
  let y := if m <=? 2 then y - 1 else y in
  let era := y / 400 in
  let yoe := y - era * 400 in
  let doy := (153 * (if 2 <? m then m - 3 else m + 9) + 2) / 5 + d - 1 in
  let doe := yoe * 365 + yoe / 4 - yoe / 100 + doy in
  era * 146097 + doe - 719468.

Definition civil_from_days (z : Z) : Z * Z * Z :=
  let z := z + 719468 in
  let era := z / 146097 in
  let doe := z - era * 146097 in
  let yoe := (doe - doe / 1460 + doe / 36524 - doe / 146096) / 365 in
  let doy := doe - (365 * yoe + yoe / 4 - yoe / 100) in
  let mp := (5 * doy + 2) / 153 in
  let m := if mp <? 10 then mp + 3 else mp - 9 in
  (yoe + era * 400 + (if m <=? 2 then 1 else 0), m, doy - (153 * mp + 2) / 5 + 1).

Definition leap (y : Z) : bool := (y mod 4 =? 0) && (negb (y mod 100 =? 0) || (y mod 400 =? 0)).
Definition days_in_month (y m : Z) : Z :=
  if m =? 2 then if leap y then 29 else 28
  else if (m =? 4) || (m =? 6) || (m =? 9) || (m =? 11) then 30 else 31.

Definition valid_date (y m d : Z) : bool :=
  (1 <=? y) && (y <=? 9999) && (1 <=? m) && (m <=? 12) && (1 <=? d) && (d <=? days_in_month y m).
Definition valid_clock (h mi s us : Z) : bool :=
  (0 <=? h) && (h <=? 23) && (0 <=? mi) && (mi <=? 59) && (0 <=? s) && (s <=? 59)
  && (0 <=? us) && (us <=? 999999).

(** [datetime(y, m, d, h, mi, s, us, tzinfo)] *)
Definition make_datetime (y m d h mi s us : Z) (off : option Z) : outcome datetime :=
  if valid_date y m d && valid_clock h mi s us then
    Ok (DT (days_from_civil y m d * us_day + h * us_hour + mi * us_minute + s * us_second + us) off)
  else raise ValueError "date or time component out of range".

(** ** Comparison and arithmetic *)

Definition utc : option Z := Some 0.
(** [datetime.now(timezone.utc)] at a number of microseconds of the epoch. *)
Definition utc_at (us : Z) : datetime := DT us utc.
Definition is_naive (d : datetime) : bool := match tzoff d with None => true | _ => false end.
(** The instant of an aware value; a naive one is read as UTC. *)
Definition instant (d : datetime) : Z := wall d - match tzoff d with Some o => o | None => 0 end.
(** [d.replace(tzinfo=timezone.utc)] *)
Definition replace_utc (d : datetime) : datetime := DT (wall d) utc.
(** [if d.tzinfo is None: d = d.replace(tzinfo=timezone.utc)] *)
Definition ensure_aware (d : datetime) : datetime := if is_naive d then replace_utc d else d.
(** [d.astimezone(timezone.utc)] of an aware value *)
Definition astimezone_utc (d : datetime) : datetime := DT (instant d) utc.
Definition add_us (d : datetime) (us : Z) : datetime := DT (wall d + us) (tzoff d).
Definition drop_us (d : datetime) : datetime := DT (wall d - wall d mod us_second) (tzoff d).

(** [a < b]: values of which exactly one is naive do not compare. *)
Definition dt_lt (a b : datetime) : outcome bool :=
  if Bool.eqb (is_naive a) (is_naive b) then Ok (instant a <? instant b)
  else raise TypeError "can't compare offset-naive and offset-aware datetimes".
Definition dt_le (a b : datetime) : outcome bool :=
  if Bool.eqb (is_naive a) (is_naive b) then Ok (instant a <=? instant b)
  else raise TypeError "can't compare offset-naive and offset-aware datetimes".
(** [(a - b)] in microseconds, for two aware values *)
Definition dt_sub (a b : datetime) : Z := instant a - instant b.

(** ** Formatting *)

Definition date_string (days : Z) : string :=
  let '(y, m, d) := civil_from_days days in pad 4 y +:+ "-" +:+ pad 2 m +:+ "-" +:+ pad 2 d.
(** [%H:%M:%S] *)
Definition clock_string (us : Z) : string :=
  pad 2 (us / us_hour) +:+ ":" +:+ pad 2 (us / us_minute mod 60) +:+ ":" +:+
  pad 2 (us / us_second mod 60).
Definition offset_string (o : Z) : string :=
  let a := Z.abs o in
  let sign := if o <? 0 then "-" else "+" in
  let frac := if a mod us_second =? 0 then EmptyString else "." +:+ pad 6 (a mod us_second) in
  let secs := if a mod us_minute =? 0 then EmptyString
              else ":" +:+ pad 2 (a / us_second mod 60) +:+ frac in
  sign +:+ pad 2 (a / us_hour) +:+ ":" +:+ pad 2 (a / us_minute mod 60) +:+ secs.

(** [d.isoformat()] *)
Definition isoformat (d : datetime) : string :=
  let us := wall d mod us_day in
  let frac := if us mod us_second =? 0 then EmptyString else "." +:+ pad 6 (us mod us_second) in
  date_string (wall d / us_day) +:+ "T" +:+ clock_string us +:+ frac +:+
  match tzoff d with Some o => offset_string o | None => EmptyString end.

(** [d.date().isoformat()] and [d.strftime(...)] for the formats in use *)
Definition iso_date (d : datetime) : string := date_string (wall d / us_day).
Definition strftime_Z (d : datetime) : string :=
  iso_date d +:+ "T" +:+ clock_string (wall d mod us_day) +:+ "Z".
Definition strftime_HM (d : datetime) : string :=
  let us := wall d mod us_day in pad 2 (us / us_hour) +:+ ":" +:+ pad 2 (us / us_minute mod 60).

(** ** [datetime.fromisoformat] *)

Definition iso_error {A} : outcome A := raise ValueError "Invalid isoformat string".
Definition ascii_digit (c : Z) : bool := in_rng 48 57 c.
Fixpoint digits_value (acc : Z) (l : list Z) : option Z :=
  match l with
  | [] => Some acc
  | c :: l => if ascii_digit c then digits_value (10 * acc + (c - 48)) l else None
  end.
(** [int(s[p:p+n])] where exactly [n] digits must be present *)
Definition int_at (p n : nat) (l : list Z) : outcome Z :=
  let s := firstn n (skipn p l) in
  if Nat.eqb (length s) n then
    match digits_value 0 s with Some z => Ok z | None => iso_error end
  else iso_error.
Definition char_at (p : nat) (l : list Z) : Z := nth p l (-1).
Definition dash : Z := 45.
Definition colon : Z := 58.

Fixpoint count_digits (l : list Z) : nat :=
  match l with c :: l => if ascii_digit c then S (count_digits l) else O | [] => O end.

(** [_find_isoformat_datetime_separator] *)
Definition separator_location (l : list Z) : outcome nat :=
  let n := length l in
  if Nat.eqb n 7 then Ok 7%nat
  else if char_at 4 l =? dash then
    if char_at 5 l =? 87 then
      if Nat.ltb n 8 then iso_error
      else if Nat.ltb 8 n && (char_at 8 l =? dash) then
        if Nat.eqb n 9 then iso_error
        else if Nat.ltb 10 n && ascii_digit (char_at 10 l) then Ok 8%nat else Ok 10%nat
      else Ok 8%nat
    else Ok 10%nat
  else if char_at 4 l =? 87 then
    let idx := (7 + count_digits (skipn 7 l))%nat in
    if Nat.ltb idx 9 then Ok idx else if Nat.even idx then Ok 7%nat else Ok 8%nat
  else Ok 8%nat.

Definition iso_week_date (y w d : Z) : outcome Z :=
  if negb ((1 <=? y) && (y <=? 9999)) then iso_error
  else
    let jan1 := days_from_civil y 1 1 in
    let wd := (jan1 + 3) mod 7 in
    let monday := jan1 - wd + (if 3 <? wd then 7 else 0) in
    let long := (wd =? 3) || ((wd =? 2) && leap y) in
    if ((1 <=? w) && (w <=? 52) || (w =? 53) && long) && (1 <=? d) && (d <=? 7)
    then Ok (monday + 7 * (w - 1) + d - 1) else iso_error.

(** The day number of the date part. *)
Definition parse_iso_date (l : list Z) : outcome Z :=
  y ← int_at 0 4 l;
  let sep := char_at 4 l =? dash in
  let pos := if sep then 5%nat else 4%nat in
  if char_at pos l =? 87 then
    w ← int_at (pos + 1) 2 l;
    let p := (pos + 3)%nat in
    if Nat.ltb p (length l) then
      if Bool.eqb (char_at p l =? dash) sep then
        d ← int_at (if sep then p + 1 else p) 1 l; iso_week_date y w d
      else iso_error
    else iso_week_date y w 1
  else
    m ← int_at pos 2 l;
    if Bool.eqb (char_at (pos + 2) l =? dash) sep then
      d ← int_at (pos + 2 + (if sep then 1 else 0)) 2 l;
      if valid_date y m d then Ok (days_from_civil y m d) else iso_error
    else iso_error.

(** [_parse_hh_mm_ss_ff]: hours, minutes, seconds, microseconds. *)
Definition parse_fraction (l : list Z) : outcome Z :=
  match l with
  | [] => Ok 0
  | c :: f =>
      if negb ((c =? 46) || (c =? 44)) then iso_error
      else if forallb ascii_digit f && negb (Nat.eqb (length f) 0) then
        let g := firstn 6 f in
        match digits_value 0 g with
        | Some z => Ok (z * 10 ^ (6 - Z.of_nat (length g)))
        | None => iso_error
        end
      else iso_error
  end.
Definition parse_hms (l : list Z) : outcome (Z * Z * Z * Z) :=
  h ← int_at 0 2 l;
  match skipn 2 l with
  | [] => Ok (h, 0, 0, 0)
  | c :: _ =>
      let sep := c =? colon in
      let p := if sep then 3%nat else 2%nat in
      m ← int_at p 2 l;
      match skipn (p + 2) l with
      | [] => Ok (h, m, 0, 0)
      | c' :: _ =>
          if sep && negb (c' =? colon) then iso_error
          else
            let q := if sep then (p + 3)%nat else (p + 2)%nat in
            s ← int_at q 2 l;
            us ← parse_fraction (skipn (q + 2) l);
            Ok (h, m, s, us)
      end
  end.

Fixpoint find_char (c : Z) (l : list Z) : option nat :=
  match l with
  | [] => None
  | x :: l => if x =? c then Some O else option_map S (find_char c l)
  end.

(** Position of the first offset sign; ["-"], then ["+"], then ["Z"]. *)
Definition tz_position (l : list Z) : option nat :=
  match find_char dash l with
  | Some p => Some p
  | None => match find_char 43 l with Some p => Some p | None => find_char 90 l end
  end.

Definition parse_offset (l : list Z) (p : nat) : outcome (option Z) :=
  if Nat.eqb (S p) (length l) && (char_at p l =? 90) then Ok utc
  else
    let z := skipn (S p) l in
    let n := length z in
    if Nat.eqb n 0 || Nat.eqb n 1 || Nat.eqb n 3 then iso_error
    else
      '(h, m, s, us) ← parse_hms z;
      let o := h * us_hour + m * us_minute + s * us_second + us in
      if us_day <=? o then iso_error
      else Ok (Some (if char_at p l =? dash then - o else o)).

Definition fromisoformat (s : string) : outcome datetime :=
  let l := code_points s in
  if Nat.ltb (length l) 7 then iso_error
  else
    loc ← separator_location l;
    days ← parse_iso_date (firstn loc l);
    let t := skipn (S loc) l in
    match t with
    | [] => Ok (DT (days * us_day) None)
    | _ =>
        if Nat.ltb (length t) 2 then iso_error
        else
          let tz := tz_position t in
          '(h, m, sec, us) ← parse_hms (match tz with Some p => firstn p t | None => t end);
          off ← match tz with Some p => parse_offset t p | None => Ok None end;
          if valid_clock h m sec us then
            Ok (DT (days * us_day + h * us_hour + m * us_minute + sec * us_second + us) off)
          else if (h =? 24) && (m =? 0) && (sec =? 0) && (us =? 0) then
            Ok (DT ((days + 1) * us_day) off)
          else iso_error
    end.

(** [datetime.fromisoformat(str(s).replace("Z", "+00:00"))] *)
Definition parse_timestamp (s : string) : outcome datetime :=
  fromisoformat (replace "Z" "+00:00" s).

Example parse_zulu :
  parse_timestamp "2026-07-30T12:34:56.5Z" = make_datetime 2026 7 30 12 34 56 500000 utc.
Proof. vm_compute. reflexivity. Qed.

Example parse_isoformat_example :
  fromisoformat (isoformat (DT 1785414896500000 (Some (-19800000000))))
  = Ok (DT 1785414896500000 (Some (-19800000000))).
Proof. vm_compute. reflexivity. Qed.
