(* ===== verification/PyBuiltins.v ===== *)
(** Builtin functions of Python on decoded JSON values: [int], [str] ordering
    and [sorted], the [date] parser and the [%H:%M] clock parser. *)
From Stdlib Require Import ZArith Lia Ascii String SpecFloat.
From stdpp Require Import base list strings.
From S2P Require Import Prelude Text Json PyTime.

(** ** [int] *)

(** The decimal digits of [int(s)]: single underscores between digits. *)
Fixpoint int_digits (under : bool) (acc : Z) (n : Z) (l : list Z) : option (Z * Z) :=
  match l with
  | [] => if under then None else Some (acc, n)
  | c :: l =>
      match uni_digit c with
      | Some v => int_digits false (10 * acc + v) (n + 1) l
      | None => if (c =? 95) && negb under then int_digits true acc n l else None
      end
  end.

Definition int_of_str (s : string) : outcome Z :=
  let l := List.rev (drop_while uni_space (List.rev (drop_while uni_space (code_points s)))) in
  let '(negative, l) :=
    match l with
    | c :: l' => if c =? 45 then (true, l') else if c =? 43 then (false, l') else (false, l)
    | [] => (false, l)
    end in
  match l with
  | c :: _ =>
      match uni_digit c, int_digits false 0 0 l with
      | Some _, Some (z, n) =>
          if 4300 <? n then raise ValueError "Exceeds the limit (4300 digits) for integer string conversion"
          else Ok (if negative then - z else z)
      | _, _ => raise ValueError "invalid literal for int() with base 10"
      end
  | [] => raise ValueError "invalid literal for int() with base 10"
  end.

(** [int(f)] truncates towards zero. *)
Definition int_of_float (f : spec_float) : outcome Z :=
  match f with
  | S754_zero _ => Ok 0
  | S754_infinity _ => raise OverflowError "cannot convert float infinity to integer"
  | S754_nan => raise ValueError "cannot convert float NaN to integer"
  | S754_finite s m e =>
      let v := if 0 <=? e then Zpos m * 2 ^ e else Zpos m / 2 ^ (- e) in
      Ok (if s then - v else v)
  end.

Definition py_int (v : json) : outcome Z :=
  match v with
  | JInt z => Ok z
  | JBool b => Ok (b2z b)
  | JFloat f => int_of_float f
  | JStr s => int_of_str s
  | JNull | JList _ | JObj _ =>
      raise TypeError "int() argument must be a string, a bytes-like object or a real number"
  end.

(** ** [str] *)

(** [str(v)]; the text of a list or an object is a parameter. *)
Definition py_str (repr_container : json -> string) (v : json) : string :=
  match v with
  | JNull => "None"
  | JBool b => if b then "True" else "False"
  | JInt z => string_of_Z z
  | JFloat f => float_repr f
  | JStr s => s
  | JList _ | JObj _ => repr_container v
  end.

(** ** Iteration over a decoded value *)

Definition iter (v : json) : outcome (list json) :=
  match v with
  | JList l => Ok l
  | JObj d => Ok (map JStr (dkeys d))
  | JStr s => Ok (map (fun c => JStr (encode c)) (code_points s))
  | _ => raise TypeError "object is not iterable"
  end.
(** [v[k]] for a text key *)
Definition subscript (k : string) (v : json) : outcome json :=
  match v with
  | JObj d => match dget k d with Some x => Ok x | None => raise KeyError k end
  | _ => raise TypeError "object is not subscriptable with a text"
  end.
(** [v.get(k, default)] *)
Definition get_attr (k : string) (default v : json) : outcome json :=
  match v with
  | JObj d => Ok (match dget k d with Some x => x | None => default end)
  | _ => raise AttributeError "object has no attribute 'get'"
  end.
Definition hashable (v : json) : bool := match v with JList _ | JObj _ => false | _ => true end.

(** [set(v)], as a list *)
Definition elements (v : json) : outcome (list json) :=
  l ← iter v;
  _ ← raise_if (negb (forallb hashable l)) TypeError "unhashable type";
  Ok l.

(** ** [sorted] *)

Section Sorted.
Context {A : Type} (lt : A -> A -> outcome bool).

Fixpoint insert_sorted (x : A) (l : list A) : outcome (list A) :=
  match l with
  | [] => Ok [x]
  | y :: l' =>
      b ← lt y x;
      (if (b : bool) then r ← insert_sorted x l'; Ok (y :: r) else Ok (x :: l))
  end.

(** A stable sort; it raises when a comparison it makes raises. *)
Fixpoint py_sorted (l : list A) : outcome (list A) :=
  match l with
  | [] => Ok []
  | x :: l => r ← py_sorted l; insert_sorted x r
  end.
End Sorted.

Definition type_error {A} : outcome A := raise TypeError "'<' not supported between instances".

Definition str_lt (a b : string) : bool :=
  match String.compare a b with Lt => true | _ => false end.

(** The value of a finite number as a numerator over a power of two. *)
Definition int_lt_float (z : Z) (f : spec_float) : bool :=
  match f with
  | S754_zero _ => z <? 0
  | S754_infinity s => negb s
  | S754_nan => false
  | S754_finite s m e =>
      let v := if s then Zneg m else Zpos m in
      if 0 <=? e then z <? v * 2 ^ e else z * 2 ^ (- e) <? v
  end.
Definition float_lt_int (f : spec_float) (z : Z) : bool :=
  match f with
  | S754_zero _ => 0 <? z
  | S754_infinity s => s
  | S754_nan => false
  | S754_finite s m e =>
      let v := if s then Zneg m else Zpos m in
      if 0 <=? e then v * 2 ^ e <? z else v <? z * 2 ^ (- e)
  end.

(** [a < b]: texts by code point, numbers by value, lists element by element;
    [None] and objects do not compare. *)
Fixpoint json_lt (a b : json) {struct a} : outcome bool :=
  match a, b with
  | JStr x, JStr y => Ok (str_lt x y)
  | JInt x, JInt y => Ok (x <? y)
  | JInt x, JBool y => Ok (x <? b2z y)
  | JBool x, JInt y => Ok (b2z x <? y)
  | JBool x, JBool y => Ok (b2z x <? b2z y)
  | JFloat x, JFloat y => Ok (SFltb x y)
  | JInt x, JFloat y => Ok (int_lt_float x y)
  | JBool x, JFloat y => Ok (int_lt_float (b2z x) y)
  | JFloat x, JInt y => Ok (float_lt_int x y)
  | JFloat x, JBool y => Ok (float_lt_int x (b2z y))
  | JList l, JList l' =>
      (fix go (l l' : list json) : outcome bool :=
         match l, l' with
         | _, [] => Ok false
         | [], _ => Ok true
         | x :: l, y :: l' => if py_eq x y then go l l' else json_lt x y
         end) l l'
  | _, _ => type_error
  end.

(** ** Clocks and dates *)

(** [datetime.strptime(s, "%H:%M")] as hours and minutes. *)
Definition clock_error {A} : outcome A := raise ValueError "time data does not match format '%H:%M'".
Definition strptime_hour (l : list Z) : outcome Z :=
  match l with
  | [b] => match uni_digit b with Some v => Ok v | None => clock_error end
  | [a; b] =>
      match uni_digit b with
      | Some v =>
          if in_rng 48 49 a then Ok (10 * (a - 48) + v)
          else if (a =? 50) && in_rng 48 51 b then Ok (20 + v) else clock_error
      | None => clock_error
      end
  | _ => clock_error
  end.
Definition strptime_minute (l : list Z) : outcome Z :=
  match l with
  | [b] => match uni_digit b with Some v => Ok v | None => clock_error end
  | [a; b] =>
      match uni_digit b with
      | Some v => if in_rng 48 53 a then Ok (10 * (a - 48) + v) else clock_error
      | None => clock_error
      end
  | _ => clock_error
  end.
Definition strptime_HM (l : list Z) : outcome (Z * Z) :=
  match find_char colon l with
  | Some p =>
      h ← strptime_hour (firstn p l);
      m ← strptime_minute (skipn (S p) l);
      Ok (h, m)
  | None => clock_error
  end.

(** [datetime.strptime(s, "%Y-%m-%d").date()] as a day number: a year of four
    digits, a month and a day of one or two. *)
Definition date_error {A} : outcome A := raise ValueError "time data does not match format '%Y-%m-%d'".
Definition strptime_number (first second : Z -> Z -> bool) (l : list Z) : outcome Z :=
  match l with
  | [b] => if in_rng 49 57 b then Ok (b - 48) else date_error
  | [a; b] =>
      match uni_digit b with
      | Some v =>
          if (a =? 48) && in_rng 49 57 b then Ok v
          else if first a b then Ok (10 * (a - 48) + v) else if second a b then Ok v else date_error
      | None => date_error
      end
  | _ => date_error
  end.
Definition strptime_month : list Z -> outcome Z :=
  strptime_number (fun a b => (a =? 49) && in_rng 48 50 b) (fun _ _ => false).
Definition strptime_day : list Z -> outcome Z :=
  strptime_number (fun a b => ((a =? 51) && in_rng 48 49 b) || in_rng 49 50 a) (fun a b => (a =? 32) && in_rng 49 57 b).
Definition strptime_Ymd (l : list Z) : outcome Z :=
  match mapM uni_digit (firstn 4 l), skipn 4 l with
  | Some [y1; y2; y3; y4], c :: rest =>
      match (c =? dash), find_char dash rest with
      | true, Some p =>
          m ← strptime_month (firstn p rest);
          d ← strptime_day (skipn (S p) rest);
          t ← make_datetime (1000 * y1 + 100 * y2 + 10 * y3 + y4) m d 0 0 0 0 None;
          Ok (wall t / us_day)
      | _, _ => date_error
      end
  | _, _ => date_error
  end.

(** [date.fromisoformat(s)] as a day number. *)
Definition date_fromisoformat (s : string) : outcome Z :=
  let l := code_points s in
  let n := length l in
  if Nat.eqb n 7 || Nat.eqb n 8 || Nat.eqb n 10 then
    let sep := char_at 4 l =? dash in
    let week := char_at (if sep then 5 else 4)%nat l =? 87 in
    let used :=
      (if week then
         let base := if sep then 8 else 7 in
         base + (if Nat.ltb base n then if sep then 2 else 1 else 0)
       else if sep then 10 else 8)%nat in
    d ← parse_iso_date l;
    if Nat.eqb used n then Ok d else iso_error
  else iso_error.

Definition min_day : Z := days_from_civil 1 1 1.
(** [d - timedelta(days=1)] *)
Definition previous_day (d : Z) : outcome Z :=
  if d <=? min_day then raise OverflowError "date value out of range" else Ok (d - 1).
