(* ===== verification/IsoFormat.v ===== *)
(** [datetime.fromisoformat] reads back what [isoformat] writes: for every date of
    the years 1 to 9999, every time of day, naive or at an offset of whole minutes
    within a day.  The calendar repeats every 400 years, so that its inverse is
    checked for the days of one such era. *)
From Stdlib Require Import ZArith Lia Ascii String.
From stdpp Require Import base list strings.
From S2P Require Import Prelude Text TextFacts Json JsonFacts PyTime PyBuiltins.

(** ** The calendar *)

Definition max_day : Z := days_from_civil 9999 12 31.

(** The fields of a day of an era, from which its number comes back *)
Definition era_day_ok (doe : Z) : bool :=
  let yoe := (doe - doe / 1460 + doe / 36524 - doe / 146096) / 365 in
  let doy := doe - (365 * yoe + yoe / 4 - yoe / 100) in
  let mp := (5 * doy + 2) / 153 in
  let m := if mp <? 10 then mp + 3 else mp - 9 in
  let d := doy - (153 * mp + 2) / 5 + 1 in
  let y := yoe + (if m <=? 2 then 1 else 0) in
  (0 <=? yoe) && (yoe <=? 399) && (1 <=? m) && (m <=? 12) && (1 <=? d) && (d <=? days_in_month y m)
  && ((153 * (if 2 <? m then m - 3 else m + 9) + 2) / 5 + d - 1 =? doy)
  && ((doe <? 306) || (1 <=? y)) && ((146036 <? doe) || (y <=? 399)).
Fixpoint all_from (n : nat) (p : Z -> bool) (z : Z) : bool :=
  match n with O => true | S n => p z && all_from n p (z + 1) end.
Lemma all_from_spec n p z x : all_from n p z = true -> z <= x < z + Z.of_nat n -> p x = true.
Proof.
  revert z. induction n as [|n IH]; intros z H Hx; [lia|]. cbn in H. bool_norm.
  destruct (Z.eq_dec x z) as [->|]; [done|]. apply (IH (z + 1)); [done|lia].
Qed.
(** The years of an era begin in March. *)
Definition year_start (y : Z) : Z := if y =? 400 then 146097 else 365 * y + y / 4 - y / 100.
Definition year_of (doe : Z) : Z := (doe - doe / 1460 + doe / 36524 - doe / 146096) / 365.
Definition year_ok (y : Z) : bool :=
  (year_start (y + 1) =? year_start y + (if leap (y + 1) then 366 else 365))
  && (year_of (year_start y) =? y) && (year_of (year_start (y + 1) - 1) =? y).
Definition doy_ok (doy : Z) : bool :=
  let mp := (5 * doy + 2) / 153 in
  let m := if mp <? 10 then mp + 3 else mp - 9 in
  let d := doy - (153 * mp + 2) / 5 + 1 in
  (1 <=? m) && (m <=? 12) && (1 <=? d) && ((d <=? days_in_month 1 m) || ((doy =? 365) && (m =? 2) && (d =? 29)))
  && ((153 * (if 2 <? m then m - 3 else m + 9) + 2) / 5 + d - 1 =? doy) && Bool.eqb (m <=? 2) (306 <=? doy).
Lemma years_ok : all_from 400 year_ok 0 = true.
Proof. vm_compute. reflexivity. Qed.
Lemma doys_ok : all_from 366 doy_ok 0 = true.
Proof. vm_compute. reflexivity. Qed.

Lemma year_of_step a : year_of a <= year_of (a + 1).
Proof. unfold year_of. apply Z.div_le_mono; [lia|]. Z.to_euclidean_division_equations. lia. Qed.
Lemma year_of_mono a b : a <= b -> year_of a <= year_of b.
Proof.
  intros H. assert (b = a + Z.of_nat (Z.to_nat (b - a))) as -> by lia. generalize (Z.to_nat (b - a)). clear. intros n.
  induction n as [|n IH]; [rewrite Z.add_0_r; lia|]. pose proof (year_of_step (a + Z.of_nat n)).
  assert (a + Z.of_nat (S n) = a + Z.of_nat n + 1) as -> by lia. lia.
Qed.
Lemma year_within doe n : 0 <= doe < year_start (Z.of_nat n) ->
  exists y, 0 <= y < Z.of_nat n /\ year_start y <= doe < year_start (y + 1).
Proof.
  induction n as [|n IH]; intros H; [change (year_start (Z.of_nat 0)) with 0 in H; lia|].
  destruct (Z.ltb_spec doe (year_start (Z.of_nat n))).
  - destruct IH as (y & Hy & Hr); [lia|]. exists y. split; [lia|done].
  - exists (Z.of_nat n). split; [lia|]. assert (Z.of_nat n + 1 = Z.of_nat (S n)) as -> by lia. lia.
Qed.
Lemma days_in_month_le y m : days_in_month 1 m <= days_in_month y m.
Proof. unfold days_in_month. change (leap 1) with false. destruct (m =? 2); [destruct (leap y); lia|lia]. Qed.
Lemma era_day doe : 0 <= doe < 146097 -> era_day_ok doe = true.
Proof.
  intros H. destruct (year_within doe 400) as (y & Hy & Hdoe); [exact H|].
  pose proof (all_from_spec _ _ _ y years_ok ltac:(lia)) as Hok. unfold year_ok in Hok. bool_norm.
  assert (year_of doe = y) as Ey.
  { pose proof (year_of_mono (year_start y) doe). pose proof (year_of_mono doe (year_start (y + 1) - 1)). lia. }
  assert (365 * y + y / 4 - y / 100 = year_start y) as Es by (unfold year_start; destruct (Z.eqb_spec y 400); [lia|done]).
  unfold era_day_ok. fold (year_of doe). rewrite Ey, Es.
  set (doy := doe - year_start y). assert (0 <= doy <= 365 /\ (doy = 365 -> leap (y + 1) = true)) as [Hd Hl].
  { unfold doy. destruct (leap (y + 1)); split; (done || lia). }
  pose proof (all_from_spec _ _ _ doy doys_ok ltac:(lia)) as Ho. unfold doy_ok in Ho.
  set (mp := (5 * doy + 2) / 153) in *. set (m := if mp <? 10 then mp + 3 else mp - 9) in *.
  set (d := doy - (153 * mp + 2) / 5 + 1) in *. cbv zeta in *.
  assert ((m <=? 2) = (306 <=? doy)) as Em by (bool_norm; by apply Bool.eqb_prop).
  assert (d <= days_in_month (y + (if m <=? 2 then 1 else 0)) m) as Hdim.
  { pose proof (days_in_month_le (y + (if m <=? 2 then 1 else 0)) m). bool_norm.
    match goal with H : _ || _ = true |- _ => apply orb_true_iff in H as [E|E] end; bool_norm; [lia|].
    rewrite Em. destruct (Z.leb_spec 306 doy); [|lia]. unfold days_in_month. rewrite (proj2 (Z.eqb_eq m 2)) by done.
    rewrite Hl by done. lia. }
  rewrite Em in *. bool_norm. rewrite !andb_true_iff, !orb_true_iff, !Z.leb_le, !Z.ltb_lt, !Z.eqb_eq.
  assert (year_start 399 = 145731) as E399 by reflexivity. assert (year_start 0 = 0) as E0 by reflexivity.
  repeat split; try lia.
  - destruct (Z.eq_dec y 0) as [->|]; [|destruct (306 <=? doy); lia]. rewrite E0 in *.
    destruct (Z.leb_spec 306 doy); [|unfold doy in *; lia]. lia.
  - destruct (Z.eq_dec y 399) as [->|]; [|destruct (306 <=? doy); lia]. rewrite E399 in *.
    destruct (Z.leb_spec 306 doy); [unfold doy in *; lia|lia].
Qed.

Lemma leap_era y era : leap (y + era * 400) = leap y.
Proof.
  unfold leap. assert (forall k, (k | 400) -> 0 < k -> (y + era * 400) mod k = y mod k) as H.
  { intros k [q Hq] Hk. rewrite Hq, Z.mul_assoc. by rewrite Z_mod_plus_full. }
  rewrite !H; [done| | | | | |]; try lia; [by exists 1|by exists 4|by exists 100].
Qed.
Lemma civil_inverse z : min_day <= z <= max_day ->
  let '(y, m, d) := civil_from_days z in valid_date y m d = true /\ days_from_civil y m d = z.
Proof.
  intros Hz. unfold civil_from_days. set (u := z + 719468). set (era := u / 146097). set (doe := u - era * 146097).
  assert (0 <= doe < 146097) as Hdoe.
  { unfold doe, era. pose proof (Z.div_mod u 146097). pose proof (Z.mod_pos_bound u 146097). lia. }
  assert (306 <= u <= 3652364) as Hu.
  { change min_day with (-719162) in Hz. change max_day with 2932896 in Hz. unfold u. lia. }
  assert (0 <= era <= 24) as Hera.
  { unfold era. split; [apply Z.div_pos; lia|]. apply Z.lt_succ_r, Z.div_lt_upper_bound; lia. }
  pose proof (era_day doe Hdoe) as Hok. unfold era_day_ok in Hok.
  set (yoe := (doe - doe / 1460 + doe / 36524 - doe / 146096) / 365) in *.
  set (doy := doe - (365 * yoe + yoe / 4 - yoe / 100)) in *. set (mp := (5 * doy + 2) / 153) in *.
  set (m := if mp <? 10 then mp + 3 else mp - 9) in *. set (d := doy - (153 * mp + 2) / 5 + 1) in *.
  set (adj := if m <=? 2 then 1 else 0) in *. bool_norm.
  assert (0 <= adj <= 1) as Hadj by (unfold adj; destruct (m <=? 2); lia).
  assert (yoe + era * 400 + adj = (yoe + adj) + era * 400) as -> by lia. split.
  - unfold valid_date. unfold days_in_month in *. rewrite leap_era.
    assert (1 <= yoe + adj + era * 400) as Hlo.
    { destruct (Z.eq_dec era 0) as [E|]; [|lia]. unfold doe in *. rewrite E in *.
      apply orb_true_iff in H0 as [?|?]; bool_norm; lia. }
    assert (yoe + adj + era * 400 <= 9999) as Hhi.
    { destruct (Z.eq_dec era 24) as [E|]; [|lia]. unfold doe in *. rewrite E in *.
      apply orb_true_iff in H1 as [?|?]; bool_norm; lia. }
    rewrite !andb_true_iff, !Z.leb_le. lia.
  - unfold days_from_civil.
    assert ((if m <=? 2 then yoe + adj + era * 400 - 1 else yoe + adj + era * 400) = yoe + era * 400) as ->
      by (unfold adj; destruct (m <=? 2); lia).
    assert ((yoe + era * 400) / 400 = era) as ->.
    { rewrite Z.div_add, Z.div_small by lia. lia. }
    assert (yoe + era * 400 - era * 400 = yoe) as -> by lia.
    match goal with H : _ + d - 1 = doy |- _ => rewrite H end. unfold doy, doe, u. lia.
Qed.

(** ** Digits *)

Fixpoint digs (w : nat) (z : Z) : list Z :=
  match w with O => [] | S w => digs w (z / 10) ++ [48 + z mod 10] end.
Lemma points_app a b : is_ascii a = true -> is_ascii b = true -> code_points (a +:+ b) = code_points a ++ code_points b.
Proof.
  unfold is_ascii. intros Ha Hb. induction a as [|c a IH]; [done|]. cbn [all_chars] in Ha. bool_norm.
  rewrite app_str_cons, !code_points_ascii_cons; unfold is_ascii; rewrite ?all_chars_app, ?Hb, ?andb_true_r; try done; try lia.
  by rewrite IH.
Qed.
Lemma ascii_app a b : is_ascii (a +:+ b) = is_ascii a && is_ascii b.
Proof. apply all_chars_app. Qed.
Lemma fixed_ascii w z : is_ascii (fixed w z) = true.
Proof.
  generalize (fixed_digits w z). generalize (fixed w z). intros s. unfold is_ascii. induction s as [|c s IH]; [done|].
  cbn [all_chars]. intros H. bool_norm. rewrite IH by done. unfold is_digit, between in *. bool_norm.
  destruct (Z.ltb_spec (zord c) 128); [done|lia].
Qed.
Lemma points_fixed w z : code_points (fixed w z) = digs w z.
Proof.
  revert z. induction w as [|w IH]; intros z; [done|]. cbn [fixed digs].
  pose proof (Z.mod_pos_bound z 10 ltac:(lia)).
  assert (zord (digit_char (z mod 10)) = 48 + z mod 10) as E by (apply zord_digit; lia).
  rewrite points_app; [|apply fixed_ascii|unfold is_ascii; cbn [all_chars]; rewrite E; destruct (Z.ltb_spec (48 + z mod 10) 128); [done|lia]].
  rewrite IH. f_equal. rewrite code_points_ascii_cons by (rewrite ?E; done || lia). by rewrite E.
Qed.
Lemma digits_value_app acc l l' a : digits_value acc l = Some a -> digits_value acc (l ++ l') = digits_value a l'.
Proof. revert acc. induction l as [|c l IH]; intros acc; cbn; [by intros [= ->]|]. destruct (ascii_digit c); [apply IH|done]. Qed.
Lemma digits_digs w z acc : 0 <= z < 10 ^ Z.of_nat w -> digits_value acc (digs w z) = Some (acc * 10 ^ Z.of_nat w + z).
Proof.
  revert z acc. induction w as [|w IH]; intros z acc Hz; cbn [digs].
  { cbn in *. f_equal. lia. }
  rewrite pow10_S in Hz. pose proof (Z.mod_pos_bound z 10 ltac:(lia)). pose proof (Z.div_mod z 10 ltac:(lia)).
  erewrite digits_value_app; [|apply IH; split; [apply Z.div_pos; lia|apply Z.div_lt_upper_bound; lia]].
  cbn [digits_value]. unfold ascii_digit, in_rng.
  destruct (Z.leb_spec 48 (48 + z mod 10)), (Z.leb_spec (48 + z mod 10) 57); try lia. cbn [andb]. rewrite pow10_S. f_equal. lia.
Qed.
Lemma digs_length w z : length (digs w z) = w.
Proof. revert z. induction w as [|w IH]; intros z; [done|]. cbn. rewrite length_app, IH. cbn. lia. Qed.
Lemma digs_digits w z : forallb ascii_digit (digs w z) = true.
Proof.
  revert z. induction w as [|w IH]; intros z; [done|]. cbn [digs]. rewrite forallb_app, IH. cbn.
  pose proof (Z.mod_pos_bound z 10 ltac:(lia)). unfold ascii_digit, in_rng.
  destruct (Z.leb_spec 48 (48 + z mod 10)), (Z.leb_spec (48 + z mod 10) 57); (done || lia).
Qed.
Lemma int_at_digs p n l z : firstn n (skipn p l) = digs n z -> 0 <= z < 10 ^ Z.of_nat n -> int_at p n l = Ok z.
Proof. intros H Hz. unfold int_at. rewrite H, digs_length, Nat.eqb_refl, digits_digs by done. f_equal. Qed.
Lemma find_digs w z c rest : ~ 48 <= c <= 57 -> find_char c (digs w z ++ rest) = option_map (Nat.add w) (find_char c rest).
Proof.
  intros Hc. generalize (digs_digits w z). rewrite <-(digs_length w z) at 3. generalize (digs w z). intros l.
  induction l as [|x l IH]; cbn [app forallb find_char length]; [by destruct (find_char c rest)|].
  intros H. bool_norm. unfold ascii_digit, in_rng in H. bool_norm.
  destruct (Z.eqb_spec x c); [lia|]. rewrite IH by done. by destruct (find_char c rest).
Qed.
Lemma find_other x c rest : x <> c -> find_char c (x :: rest) = option_map S (find_char c rest).
Proof. intros H. cbn. by destruct (Z.eqb_spec x c). Qed.

(** ** Texts *)

Definition points_of_date (day : Z) : list Z :=
  let '(y, m, d) := civil_from_days day in digs 4 y ++ dash :: digs 2 m ++ dash :: digs 2 d.
Definition points_of_clock (us : Z) : list Z :=
  digs 2 (us / us_hour) ++ colon :: digs 2 (us / us_minute mod 60) ++ colon :: digs 2 (us / us_second mod 60).
Definition points_of_frac (us : Z) : list Z := if us mod us_second =? 0 then [] else 46 :: digs 6 (us mod us_second).
Definition points_of_offset (off : option Z) : list Z :=
  match off with
  | Some o => (if o <? 0 then dash else 43) :: digs 2 (Z.abs o / us_hour) ++ colon :: digs 2 (Z.abs o / us_minute mod 60)
  | None => []
  end.
Definition whole_minutes (off : option Z) : Prop :=
  match off with Some o => o mod us_minute = 0 /\ Z.abs o < us_day | None => True end.

Lemma date_points z : min_day <= z <= max_day ->
  exists y m d, points_of_date z = digs 4 y ++ dash :: digs 2 m ++ dash :: digs 2 d /\
    0 <= y <= 9999 /\ 0 <= m <= 12 /\ 0 <= d <= 31 /\ valid_date y m d = true /\ days_from_civil y m d = z /\
    date_string z = pad 4 y +:+ "-" +:+ pad 2 m +:+ "-" +:+ pad 2 d.
Proof.
  intros Hz. pose proof (civil_inverse z Hz) as H. unfold points_of_date, date_string.
  destruct (civil_from_days z) as [[y m] d]. destruct H as [Hv Hd]. exists y, m, d.
  assert (days_in_month y m <= 31) by (unfold days_in_month; destruct (m =? 2); [destruct (leap y); lia|destruct (_ || _); lia]).
  pose proof Hv as Hv'. unfold valid_date in Hv'. bool_norm. repeat split; auto; lia.
Qed.
Lemma us_bounds us : 0 <= us < us_day ->
  0 <= us / us_hour <= 23 /\ 0 <= us / us_minute mod 60 <= 59 /\ 0 <= us / us_second mod 60 <= 59 /\ 0 <= us mod us_second <= 999999 /\
  us / us_hour * us_hour + us / us_minute mod 60 * us_minute + us / us_second mod 60 * us_second + us mod us_second = us.
Proof.
  change us_day with 86400000000. change us_hour with 3600000000. change us_minute with 60000000. change us_second with 1000000.
  intros H. Z.to_euclidean_division_equations. lia.
Qed.

(** [code_points] of a text of padded numerals and separators *)
Definition text_is (s : string) (l : list Z) : Prop := is_ascii s = true /\ code_points s = l.
Lemma text_app a la b lb : text_is a la -> text_is b lb -> text_is (a +:+ b) (la ++ lb).
Proof. intros [Ha <-] [Hb <-]. split; [by rewrite ascii_app, Ha, Hb|by apply points_app]. Qed.
Lemma text_pad w z : (0 < w)%nat -> 0 <= z < 10 ^ Z.of_nat w -> text_is (pad w z) (digs w z).
Proof. intros Hw Hz. rewrite pad_fixed by done. split; [apply fixed_ascii|apply points_fixed]. Qed.
Ltac by_text_is :=
  repeat lazymatch goal with
  | |- text_is (pad _ _) _ => apply text_pad; [lia|cbn; lia]
  | |- text_is (_ +:+ _) _ => apply text_app
  | |- _ => by split
  end.

Lemma points_of_offset_ok off : whole_minutes off ->
  text_is match off with Some o => offset_string o | None => EmptyString end (points_of_offset off).
Proof.
  destruct off as [o|]; [|by split]. intros [Hmod Hlt]. unfold offset_string, points_of_offset.
  assert (Z.abs o mod us_minute = 0) as ->.
  { change us_minute with 60000000 in *. Z.to_euclidean_division_equations. lia. }
  destruct (us_bounds (Z.abs o)) as (Hh & Hm & _); [lia|]. rewrite Z.eqb_refl.
  set (h := Z.abs o / us_hour) in *. set (m := Z.abs o / us_minute mod 60) in *.
  change (text_is ((if o <? 0 then "-" else "+") +:+ pad 2 h +:+ ":" +:+ pad 2 m +:+ EmptyString)
            ((if o <? 0 then dash else 43) :: digs 2 h ++ colon :: digs 2 m)).
  assert ((if o <? 0 then dash else 43) :: digs 2 h ++ colon :: digs 2 m =
          [if o <? 0 then dash else 43] ++ digs 2 h ++ [colon] ++ digs 2 m ++ []) as -> by by rewrite app_nil_r.
  destruct (o <? 0); by_text_is.
Qed.
Lemma code_points_iso d :
  min_day <= wall d / us_day <= max_day -> whole_minutes (tzoff d) ->
  code_points (isoformat d) =
  points_of_date (wall d / us_day) ++ 84 :: points_of_clock (wall d mod us_day)
    ++ points_of_frac (wall d mod us_day) ++ points_of_offset (tzoff d).
Proof.
  intros Hday Hoff. set (z := wall d / us_day) in *. set (us := wall d mod us_day).
  assert (0 <= us < us_day) as Hus by (apply Z.mod_pos_bound; by vm_compute).
  destruct (us_bounds us Hus) as (Hh & Hm & Hs & Hf & _).
  destruct (date_points z Hday) as (y & m & dd & Hp & Hy & Hmo & Hd & _ & _ & Hds).
  assert (text_is (isoformat d) (points_of_date z ++ [84] ++ points_of_clock us ++ points_of_frac us ++ points_of_offset (tzoff d))) as [_ H]; [|exact H].
  rewrite Hp. unfold isoformat. fold z us. rewrite Hds. unfold clock_string, points_of_clock.
  assert (text_is (if us mod us_second =? 0 then EmptyString else "." +:+ pad 6 (us mod us_second)) (points_of_frac us)) as Hfr.
  { unfold points_of_frac. destruct (us mod us_second =? 0); [by split|]. change (46 :: ?l) with ([46] ++ l). by_text_is. }
  pose proof (points_of_offset_ok (tzoff d) Hoff) as Ho. revert Hfr Ho.
  generalize (if us mod us_second =? 0 then EmptyString else "." +:+ pad 6 (us mod us_second)).
  generalize (match tzoff d with Some o => offset_string o | None => EmptyString end). intros sf so Hfr Ho.
  rewrite !app_str_assoc.
  match goal with |- text_is _ ?l => assert (l = digs 4 y ++ [dash] ++ digs 2 m ++ [dash] ++ digs 2 dd ++ [84] ++ digs 2 (us / us_hour)
    ++ [colon] ++ digs 2 (us / us_minute mod 60) ++ [colon] ++ digs 2 (us / us_second mod 60) ++ points_of_frac us ++ points_of_offset (tzoff d)) as -> end.
  { cbn [app]. rewrite <-!app_assoc. cbn [app]. by rewrite <-?app_assoc. }
  repeat first [assumption | progress by_text_is].
Qed.

Lemma parse_date_points z rest : min_day <= z <= max_day ->
  separator_location (points_of_date z ++ rest) = Ok 10%nat /\ parse_iso_date (firstn 10 (points_of_date z ++ rest)) = Ok z /\
  skipn 10 (points_of_date z ++ rest) = rest.
Proof.
  intros Hz. destruct (date_points z Hz) as (y & m & d & -> & Hy & Hm & Hd & Hv & Hz' & _).
  assert (((48 + (m / 10) mod 10) =? 87) = false) as Hw.
  { pose proof (Z.mod_pos_bound (m / 10) 10 ltac:(lia)). apply Z.eqb_neq. lia. }
  split; [|split; [|reflexivity]].
  - unfold separator_location. cbn [digs app length Nat.eqb]. cbn [char_at nth]. unfold char_at, dash, colon. cbn [nth]. by rewrite Hw.
  - unfold parse_iso_date. cbn [digs app firstn]. unfold char_at. cbn [nth]. change (dash =? dash) with true. cbv iota. cbn [nth Nat.add].
    rewrite (int_at_digs 0 4 _ y) by (reflexivity || (cbn; lia)). cbn [mbind outcome_bind]. rewrite Hw.
    rewrite (int_at_digs 5 2 _ m) by (reflexivity || (cbn; lia)). cbn [mbind outcome_bind]. change (Bool.eqb true true) with true. cbv iota.
    rewrite (int_at_digs 8 2 _ d) by (reflexivity || (cbn; lia)). cbn [mbind outcome_bind]. rewrite Hv. by rewrite Hz'.
Qed.
Lemma parse_clock_points us : 0 <= us < us_day ->
  parse_hms (points_of_clock us ++ points_of_frac us) =
  Ok (us / us_hour, us / us_minute mod 60, us / us_second mod 60, us mod us_second).
Proof.
  intros Hus. destruct (us_bounds us Hus) as (Hh & Hm & Hs & Hf & _). unfold points_of_clock, points_of_frac.
  set (h := us / us_hour) in *. set (m := us / us_minute mod 60) in *. set (s := us / us_second mod 60) in *. set (f := us mod us_second) in *.
  assert (exists F, digs 6 f = F /\ forallb ascii_digit F = true /\ length F = 6%nat /\ digits_value 0 F = Some f) as (F & -> & HF & HFl & HFv).
  { exists (digs 6 f). rewrite digs_digits, digs_length, digits_digs by lia. repeat split. }
  unfold parse_hms. cbn [digs app skipn Nat.add]. rewrite (int_at_digs 0 2 _ h) by (reflexivity || (cbn; lia)). cbn [mbind outcome_bind].
  unfold colon at 2. cbn [Z.eqb Pos.eqb Nat.add skipn]. change (colon =? colon) with true. cbv iota.
  rewrite (int_at_digs 3 2 _ m) by (reflexivity || (cbn; lia)). cbn [mbind outcome_bind skipn Nat.add andb negb].
  change (colon =? colon) with true. cbn [negb andb]. cbv iota.
  rewrite (int_at_digs 6 2 _ s) by (reflexivity || (cbn; lia)). cbn [mbind outcome_bind skipn Nat.add].
  destruct (Z.eqb_spec f 0) as [->|Hne]; [reflexivity|].
  unfold parse_fraction. change ((46 =? 46) || (46 =? 44)) with true. cbn [negb]. cbv iota.
  cbn [skipn Nat.add]. change (colon =? colon) with true. cbn [negb]. cbv iota beta.  rewrite HF, HFl. cbn [Nat.eqb negb andb]. rewrite (firstn_all2 F) by lia. rewrite HFv, HFl.
  change (10 ^ (6 - Z.of_nat 6)) with 1. cbn [mbind outcome_bind]. by rewrite Z.mul_1_r.
Qed.

(** ** The round trip *)

Lemma tz_of_clock us off : 0 <= us < us_day ->
  tz_position (points_of_clock us ++ points_of_frac us ++ points_of_offset off) =
  match off with Some _ => Some (length (points_of_clock us ++ points_of_frac us)) | None => None end.
Proof.
  intros Hus.
  assert (forall c rest, ~ 48 <= c <= 58 -> c <> 46 ->
    find_char c (points_of_clock us ++ points_of_frac us ++ rest) =
    option_map (Nat.add (length (points_of_clock us ++ points_of_frac us))) (find_char c rest)) as H.
  { intros c rest Hc H46. unfold points_of_clock, points_of_frac. rewrite <-!app_assoc.
    cbn [app]. rewrite <-!app_assoc. cbn [app]. rewrite <-?app_assoc.
    rewrite find_digs by lia. rewrite find_other by (unfold colon; lia). rewrite find_digs by lia.
    rewrite find_other by (unfold colon; lia). rewrite find_digs by lia.
    rewrite !length_app, !digs_length. cbn [length]. rewrite !length_app, !digs_length. cbn [length]. rewrite ?digs_length.
    destruct (us mod us_second =? 0); cbn [app].
    - destruct (find_char c rest); cbn; [f_equal; lia|done].
    - rewrite find_other, find_digs by lia. cbn [length]. rewrite ?digs_length. destruct (find_char c rest); cbn; [f_equal; lia|done]. }
  unfold tz_position. rewrite !H by (unfold dash; lia). destruct off as [o|]; [|reflexivity].
  unfold points_of_offset. destruct (Z.ltb_spec o 0).
  - cbn [find_char]. rewrite Z.eqb_refl. cbn. by rewrite Nat.add_0_r.
  - rewrite (find_other 43 dash) by done. rewrite find_digs by (unfold dash; lia).
    rewrite (find_other colon dash) by done. rewrite <-(app_nil_r (digs 2 (Z.abs o / us_minute mod 60))), find_digs by (unfold dash; lia).
    cbn. by rewrite Nat.add_0_r.
Qed.
Lemma parse_offset_points T o : whole_minutes (Some o) ->
  parse_offset (T ++ points_of_offset (Some o)) (length T) = Ok (Some o).
Proof.
  intros [Hmod Hlt]. unfold parse_offset, points_of_offset. set (sign := if o <? 0 then dash else 43). set (a := Z.abs o) in *.
  assert (char_at (length T) (T ++ sign :: digs 2 (a / us_hour) ++ colon :: digs 2 (a / us_minute mod 60)) = sign) as ->.
  { unfold char_at. rewrite app_nth2, Nat.sub_diag by lia. done. }
  assert ((sign =? 90) = false) as -> by (unfold sign; by destruct (o <? 0)). rewrite andb_false_r.
  assert (skipn (S (length T)) (T ++ sign :: digs 2 (a / us_hour) ++ colon :: digs 2 (a / us_minute mod 60)) =
          digs 2 (a / us_hour) ++ colon :: digs 2 (a / us_minute mod 60)) as ->.
  { rewrite skipn_app, (skipn_all2 T) by lia. by assert (S (length T) - length T = 1)%nat as -> by lia. }
  destruct (us_bounds a) as (Hh & Hm & _); [unfold a; lia|].
  set (h := a / us_hour) in *. set (m := a / us_minute mod 60) in *.
  cbn [digs app length Nat.eqb orb]. unfold parse_hms. rewrite (int_at_digs 0 2 _ h) by (reflexivity || (cbn; lia)).
  cbn [mbind outcome_bind skipn]. change (colon =? colon) with true. cbv iota.
  rewrite (int_at_digs 3 2 _ m) by (reflexivity || (cbn; lia)). cbn [mbind outcome_bind skipn Nat.add].
  assert (h * us_hour + m * us_minute + 0 * us_second + 0 = a) as ->.
  { unfold h, m. revert Hmod. subst a. change us_hour with 3600000000. change us_minute with 60000000. change us_second with 1000000.
    intros Hmod. Z.to_euclidean_division_equations. lia. }
  destruct (Z.leb_spec us_day a); [lia|]. unfold sign, a. destruct (Z.ltb_spec o 0); cbn; do 2 f_equal; lia.
Qed.

(** Times with an offset of whole minutes, in the years 1 to 9999 *)
Definition iso_ok (d : datetime) : Prop := min_day <= wall d / us_day <= max_day /\ whole_minutes (tzoff d).
Lemma date_length z : min_day <= z <= max_day -> length (points_of_date z) = 10%nat.
Proof. intros Hz. destruct (date_points z Hz) as (y & m & d & -> & _). reflexivity. Qed.
Lemma clock_length us rest : (8 <= length (points_of_clock us ++ rest))%nat.
Proof. unfold points_of_clock. rewrite !length_app, !digs_length. cbn [length]. rewrite length_app, digs_length. cbn [length]. rewrite digs_length. lia. Qed.
Lemma parse_time_points us off : 0 <= us < us_day -> whole_minutes off ->
  let t := points_of_clock us ++ points_of_frac us ++ points_of_offset off in
  (parse_hms (match tz_position t with Some p => firstn p t | None => t end) =
   Ok (us / us_hour, us / us_minute mod 60, us / us_second mod 60, us mod us_second)) /\
  match tz_position t with Some p => parse_offset t p | None => Ok None end = Ok off.
Proof.
  intros Hus Hoff t. unfold t. rewrite tz_of_clock by done. destruct off as [o|].
  - rewrite app_assoc, firstn_app, firstn_all, Nat.sub_diag, firstn_O, app_nil_r. split; [by apply parse_clock_points|by apply parse_offset_points].
  - cbn [points_of_offset]. rewrite app_nil_r. split; [by apply parse_clock_points|done].
Qed.
Lemma fromisoformat_points s z us off :
  min_day <= z <= max_day -> 0 <= us < us_day -> whole_minutes off ->
  code_points s = points_of_date z ++ 84 :: points_of_clock us ++ points_of_frac us ++ points_of_offset off ->
  fromisoformat s = Ok (DT (z * us_day + us) off).
Proof.
  intros Hday Hus Hoff Hs. unfold fromisoformat. rewrite Hs. clear Hs.
  destruct (parse_time_points us off Hus Hoff) as [Hhms Htz]. cbv zeta in Hhms, Htz.
  pose proof (clock_length us (points_of_frac us ++ points_of_offset off)) as HT. revert Hhms Htz HT.
  generalize (points_of_clock us ++ points_of_frac us ++ points_of_offset off). intros T Hhms Htz HT.
  destruct (parse_date_points z (84 :: T) Hday) as (Hsep & Hdate & Hskip).
  rewrite length_app, date_length by done. cbn [length]. destruct (Nat.ltb_spec (10 + S (length T)) 7); [lia|].
  rewrite Hsep. cbn [mbind outcome_bind]. rewrite Hdate. cbn [mbind outcome_bind].
  assert (skipn 11 (points_of_date z ++ 84 :: T) = T) as ->.
  { change 11%nat with (1 + 10)%nat. rewrite <-skipn_skipn. by rewrite Hskip. }
  destruct T as [|t0 T']; [cbn in HT; lia|]. destruct (Nat.ltb_spec (length (t0 :: T')) 2); [lia|].
  rewrite Hhms. cbn [mbind outcome_bind]. rewrite Htz. cbn [mbind outcome_bind].
  destruct (us_bounds us Hus) as (Hh & Hm & Hs & Hf & Hsum).
  assert (valid_clock (us / us_hour) (us / us_minute mod 60) (us / us_second mod 60) (us mod us_second) = true) as ->.
  { unfold valid_clock. rewrite !andb_true_iff, !Z.leb_le. lia. }
  do 2 f_equal. lia.
Qed.
Lemma fromisoformat_isoformat d : iso_ok d -> fromisoformat (isoformat d) = Ok d.
Proof.
  intros [Hday Hoff]. assert (0 <= wall d mod us_day < us_day) as Hus by (apply Z.mod_pos_bound; by vm_compute).
  rewrite (fromisoformat_points _ _ _ _ Hday Hus Hoff (code_points_iso d Hday Hoff)).
  pose proof (Z.div_mod (wall d) us_day) as H. rewrite (Z.mul_comm us_day) in H. rewrite <-H by by vm_compute. by destruct d.
Qed.

(** *** [strptime] of a date *)

Lemma code_points_date z : min_day <= z <= max_day -> code_points (date_string z) = points_of_date z.
Proof.
  intros Hz. destruct (date_points z Hz) as (y & m & d & -> & Hy & Hm & Hd & _ & _ & ->).
  assert (text_is (pad 4 y +:+ "-" +:+ pad 2 m +:+ "-" +:+ pad 2 d) (digs 4 y ++ [dash] ++ digs 2 m ++ [dash] ++ digs 2 d)) as [_ H]; [|exact H].
  by_text_is.
Qed.
Lemma uni_digit_ascii x : 0 <= x <= 9 -> uni_digit (48 + x) = Some x.
Proof.
  intros H. assert (all_from 10 (fun x => bool_decide (uni_digit (48 + x) = Some x)) 0 = true) as Hall by (vm_compute; reflexivity).
  apply (all_from_spec _ _ _ x) in Hall; [by apply (bool_decide_eq_true_1 _ Hall)|lia].
Qed.
Lemma strptime_two m : 1 <= m <= 31 ->
  strptime_day (digs 2 m) = Ok m /\ (m <= 12 -> strptime_month (digs 2 m) = Ok m).
Proof.
  intros H. assert (all_from 31 (fun m => bool_decide (strptime_day (digs 2 m) = Ok m)) 1 = true) as Hd by (vm_compute; reflexivity).
  assert (all_from 12 (fun m => bool_decide (strptime_month (digs 2 m) = Ok m)) 1 = true) as Hm by (vm_compute; reflexivity).
  split; [apply (all_from_spec _ _ _ m) in Hd; [by apply (bool_decide_eq_true_1 _ Hd)|lia]|].
  intros Hl. apply (all_from_spec _ _ _ m) in Hm; [by apply (bool_decide_eq_true_1 _ Hm)|lia].
Qed.
Lemma strptime_date z : min_day <= z <= max_day -> strptime_Ymd (code_points (date_string z)) = Ok z.
Proof.
  intros Hz. rewrite code_points_date by done. destruct (date_points z Hz) as (y & m & d & -> & Hy & Hm & Hd & Hv & Hz' & _).
  assert (1 <= m /\ 1 <= d) as [Hm1 Hd1] by (unfold valid_date in Hv; bool_norm; lia).
  destruct (strptime_two d) as [Ed _]; [lia|]. destruct (strptime_two m) as [_ Em]; [lia|].
  unfold strptime_Ymd. cbn [digs app firstn skipn mapM].
  rewrite !uni_digit_ascii by (match goal with |- 0 <= ?a mod 10 <= 9 => pose proof (Z.mod_pos_bound a 10); lia end).
  cbn [mbind option_bind mret option_ret].
  change (dash =? dash) with true.
  assert (find_char dash (digs 2 m ++ dash :: digs 2 d) = Some 2%nat) as Hf.
  { rewrite find_digs by (unfold dash; lia). reflexivity. }
  cbn [digs app] in Hf. rewrite Hf. cbn [firstn skipn].
  change [48 + m / 10 mod 10; 48 + m mod 10] with (digs 2 m). change [48 + d / 10 mod 10; 48 + d mod 10] with (digs 2 d).
  rewrite Em by lia. cbn [mbind outcome_bind]. rewrite Ed. cbn [mbind outcome_bind]. unfold make_datetime.
  assert (1000 * (y / 10 / 10 / 10 mod 10) + 100 * (y / 10 / 10 mod 10) + 10 * (y / 10 mod 10) + y mod 10 = y) as ->
    by (Z.to_euclidean_division_equations; lia).
  rewrite Hv. change (valid_clock 0 0 0 0) with true. cbn [andb mbind outcome_bind wall]. f_equal.
  rewrite Hz'. unfold us_day, us_hour, us_minute, us_second. rewrite !Z.mul_0_l, !Z.add_0_r. apply Z.div_mul. lia.
Qed.
