(* ===== verification/Base64.v ===== *)
(** The module [base64] of Python's standard library: [b64encode] and the strict
    [b64decode], which takes groups of four characters with the padding in the
    last one, on texts of bytes. *)
From Stdlib Require Import ZArith Lia Ascii String List.
From stdpp Require Import base list.
From S2P Require Import Prelude Text TextFacts.

Definition b64_char (v : Z) : ascii :=
  if v <? 26 then chr (65 + v) else if v <? 52 then chr (71 + v) else if v <? 62 then chr (v - 4)
  else if v =? 62 then chr 43 else chr 47.
Definition b64_value (c : ascii) : option Z :=
  let z := zord c in
  if (65 <=? z) && (z <=? 90) then Some (z - 65) else if (97 <=? z) && (z <=? 122) then Some (z - 71)
  else if (48 <=? z) && (z <=? 57) then Some (z + 4) else if z =? 43 then Some 62 else if z =? 47 then Some 63 else None.
Definition b64_pad : ascii := chr 61.
Definition b64_error {A} : outcome A := raise ValueError "Invalid base64-encoded string".

Fixpoint b64encode_bytes (l : list ascii) : list ascii :=
  match l with
  | [] => []
  | [a] => [b64_char (zord a / 4); b64_char (zord a mod 4 * 16); b64_pad; b64_pad]
  | [a; b] => [b64_char (zord a / 4); b64_char (zord a mod 4 * 16 + zord b / 16); b64_char (zord b mod 16 * 4); b64_pad]
  | a :: b :: c :: l =>
      b64_char (zord a / 4) :: b64_char (zord a mod 4 * 16 + zord b / 16) ::
      b64_char (zord b mod 16 * 4 + zord c / 64) :: b64_char (zord c mod 64) :: b64encode_bytes l
  end.
Definition b64encode (bytes : string) : string := string_of_list_ascii (b64encode_bytes (list_ascii_of_string bytes)).

Definition digit (c : ascii) : outcome Z := match b64_value c with Some v => Ok v | None => b64_error end.
Fixpoint b64decode_chars (l : list ascii) : outcome (list ascii) :=
  match l with
  | [] => Ok []
  | a :: b :: c :: d :: l =>
      x ← digit a; y ← digit b;
      if Ascii.eqb d b64_pad then
        match l with
        | [] =>
            if Ascii.eqb c b64_pad then Ok [chr (x * 4 + y / 16)]
            else z ← digit c; Ok [chr (x * 4 + y / 16); chr (y mod 16 * 16 + z / 4)]
        | _ => b64_error
        end
      else
        z ← digit c; t ← digit d; rest ← b64decode_chars l;
        Ok (chr (x * 4 + y / 16) :: chr (y mod 16 * 16 + z / 4) :: chr (z mod 4 * 64 + t) :: rest)
  | _ => b64_error
  end.
(** [base64.b64decode(s, validate=True)] *)
Definition b64decode (s : string) : outcome string :=
  bytes ← b64decode_chars (list_ascii_of_string s); Ok (string_of_list_ascii bytes).

(** ** Decoding undoes encoding *)

Lemma b64_digit v : 0 <= v < 64 -> digit (b64_char v) = Ok v /\ Ascii.eqb (b64_char v) b64_pad = false.
Proof.
  intros H. assert (forallb (fun v => match digit (b64_char v) with Ok x => x =? v | _ => false end && negb (Ascii.eqb (b64_char v) b64_pad))
    (map Z.of_nat (seq 0 64)) = true) as E by (vm_compute; reflexivity).
  rewrite forallb_forall in E. specialize (E v). rewrite andb_true_iff, negb_true_iff in E.
  destruct E as [E ?]; [apply in_map_iff; exists (Z.to_nat v); rewrite in_seq; lia|].
  destruct (digit (b64_char v)); [|done]. apply Z.eqb_eq in E. by subst.
Qed.
Lemma chr_zord c : chr (zord c) = c.
Proof. unfold chr, zord. by rewrite N2Z.id, ascii_N_embedding. Qed.
Lemma byte_range c : 0 <= zord c < 256.
Proof. unfold zord. pose proof (N_ascii_bounded c). lia. Qed.
#[local] Ltac Zify.zify_post_hook ::= Z.div_mod_to_equations.
Ltac b64_step := repeat match goal with
  | |- context [digit (b64_char ?v)] => rewrite (proj1 (b64_digit v ltac:(lia)))
  | |- context [Ascii.eqb (b64_char ?v) b64_pad] => rewrite (proj2 (b64_digit v ltac:(lia)))
  end; cbn [mbind outcome_bind].
Lemma b64_byte a v : zord a = v -> chr v = a.
Proof. intros <-. apply chr_zord. Qed.
Lemma b64decode_encode_bytes n l : (length l <= n)%nat -> b64decode_chars (b64encode_bytes l) = Ok l.
Proof.
  revert l. induction n as [|n IH]; intros l Hl; [destruct l; [done|cbn in Hl; lia]|].
  destruct l as [|a [|b [|c l]]]; [done| | |]; cbn [b64encode_bytes b64decode_chars].
  - pose proof (byte_range a). b64_step. change (Ascii.eqb b64_pad b64_pad) with true. cbv iota.
    do 2 f_equal. apply b64_byte. lia.
  - pose proof (byte_range a). pose proof (byte_range b). b64_step. change (Ascii.eqb b64_pad b64_pad) with true. cbv iota. b64_step.
    do 2 f_equal; [|f_equal]; apply b64_byte; lia.
  - pose proof (byte_range a). pose proof (byte_range b). pose proof (byte_range c). b64_step.
    rewrite IH by (cbn in Hl; lia). cbn [mbind outcome_bind]. do 2 f_equal; [|f_equal; [|f_equal]]; apply b64_byte; lia.
Qed.
Lemma b64decode_encode s : b64decode (b64encode s) = Ok s.
Proof.
  unfold b64decode, b64encode. rewrite list_ascii_of_string_of_list_ascii, (b64decode_encode_bytes (length (list_ascii_of_string s))) by done.
  cbn [mbind outcome_bind]. by rewrite string_of_list_ascii_of_string.
Qed.
