(* ===== verification/ScheduleDays.v ===== *)
(** Working days of a published schedule ([backend/app/core/schedule_days.py]):
    the validated range of hours a day covers, its storage in the event's
    metadata, and the working date that owns a local date and time. *)
From Stdlib Require Import ZArith Lia Ascii String.
From stdpp Require Import base list strings.
From S2P Require Import Prelude Text TextFacts Json JsonFacts PyTime PyBuiltins.

(** ** The model *)

Definition DEFAULT_SCHEDULE_DAY_RANGE : Z * Z := (6, 24).

(** [{"start_hour": s, "end_hour": e}] *)
Definition range_json (r : Z * Z) : json :=
  JObj [("start_hour", JInt r.1); ("end_hour", JInt r.2)]%string.

(** [value.get(a, value.get(b))] *)
Definition get_or_alias (a b : string) (d : list (string * json)) : json :=
  match dget a d with Some v => v | None => dget_or_null b d end.

Definition normalise_schedule_day_range (value : json) : outcome (Z * Z) :=
  match value with
  | JObj d =>
      match
        (start_hour ← py_int (get_or_alias "start_hour" "startHour" d);
         end_hour ← py_int (get_or_alias "end_hour" "endHour" d);
         Ok (start_hour, end_hour))
      with
      | Ok (start_hour, end_hour) =>
          if negb ((0 <=? start_hour) && (start_hour <=? 23) &&
                   (start_hour <? end_hour) && (end_hour <=? 36))
          then Ok DEFAULT_SCHEDULE_DAY_RANGE else Ok (start_hour, end_hour)
      | Raise e => if exn_in e [TypeError; ValueError] then Ok DEFAULT_SCHEDULE_DAY_RANGE else Raise e
      end
  | _ => Ok DEFAULT_SCHEDULE_DAY_RANGE
  end.

(** The metadata of an event: [{}] when absent or malformed. *)
Definition load_metadata (metadata_json : option string) : outcome json :=
  match metadata_json with
  | None => Ok (JObj [])
  | Some s =>
      if truthy_str s then
        match loads s with
        | Ok v => Ok v
        | Raise e => if exn_in e [TypeError; ValueError] then Ok (JObj []) else Raise e
        end
      else Ok (JObj [])
  end.

Definition no_attribute {A} : outcome A := raise AttributeError "object has no attribute 'get'".

Definition event_schedule_day_range (metadata_json : option string) : outcome (Z * Z) :=
  metadata ← load_metadata metadata_json;
  match metadata with
  | JObj d => normalise_schedule_day_range (dget_or_null "schedule_day_range" d)
  | _ => no_attribute
  end.

Definition merge_schedule_day_range (metadata_json : option string) (schedule_day_range : json)
  : outcome string :=
  metadata ← load_metadata metadata_json;
  r ← normalise_schedule_day_range schedule_day_range;
  match metadata with
  | JObj d => Ok (dumps (JObj (dset "schedule_day_range" (range_json r) d)))
  | _ => raise TypeError "object does not support item assignment"
  end.

Definition schedule_day_offset_hour (schedule_day_range : json) : outcome Z :=
  normalised ← normalise_schedule_day_range schedule_day_range;
  Ok (Z.max 0 (normalised.2 - 24)).

(** The argument is a date, given by its day number, or its text. *)
Definition working_date_for_clock (actual_date : Z + string) (clock_time : string)
  (schedule_day_range : json) : outcome string :=
  day ← match actual_date with inl d => Ok d | inr s => date_fromisoformat s end;
  '(hour, _) ← strptime_HM (firstn 5 (code_points clock_time));
  offset ← schedule_day_offset_hour schedule_day_range;
  day ← (if hour <? offset then previous_day day else Ok day);
  Ok (date_string day).

Definition working_date_for_datetime (value : datetime) (schedule_day_range : json) : outcome string :=
  working_date_for_clock (inl (wall value / us_day)) (strftime_HM value) schedule_day_range.

(** ** Properties *)

(** The ranges the rest of the program may assume. *)
Definition valid_range (r : Z * Z) : Prop := 0 <= r.1 <= 23 /\ r.1 < r.2 <= 36.

Lemma normalise_range_ok value r :
  normalise_schedule_day_range value = Ok r ->
  valid_range r /\ normalise_schedule_day_range (range_json r) = Ok r.
Proof.
  intros H. assert (valid_range r) as Hv.
  { unfold normalise_schedule_day_range in H. destruct value; try (injection H as <-; by vm_compute).
    destruct (_ ≫= _) as [[s e]|ex].
    - destruct (negb _) eqn:E; injection H as <-; [by vm_compute|]. bool_norm. done.
    - destruct (exn_in ex _); [|done]. injection H as <-. by vm_compute. }
  split; [done|]. destruct r as [s e]. unfold valid_range in Hv. cbn in *.
  rewrite !(proj2 (Z.leb_le _ _)), (proj2 (Z.ltb_lt _ _)) by lia. done.
Qed.

(** Whatever the input, a range that comes out of normalisation is within
    the hours a working day may cover, and normalising it again changes nothing. *)
Theorem normalise_range_valid value r :
  normalise_schedule_day_range value = Ok r ->
  valid_range r /\ normalise_schedule_day_range (range_json r) = Ok r.
Proof. apply normalise_range_ok. Qed.

Lemma offset_bounds v o : schedule_day_offset_hour v = Ok o -> 0 <= o <= 12.
Proof.
  unfold schedule_day_offset_hour. intros H. apply bind_Ok_inv in H as (r & Hr & [= <-]).
  apply normalise_range_ok in Hr as [[? ?] _]. lia.
Qed.

(** The clock text of a time of day reads back as its hour. *)
Lemma strptime_clock h m : 0 <= h <= 23 -> 0 <= m <= 59 ->
  strptime_HM (firstn 5 (code_points (pad 2 h +:+ ":" +:+ pad 2 m))) = Ok (h, m).
Proof.
  intros Hh Hm.
  assert (forallb (fun h => forallb (fun m =>
    bool_decide (strptime_HM (firstn 5 (code_points (pad 2 h +:+ ":" +:+ pad 2 m))) = Ok (h, m)))
    (map Z.of_nat (seq 0 60))) (map Z.of_nat (seq 0 24)) = true) as H by (vm_compute; reflexivity).
  rewrite forallb_forall in H. specialize (H h). rewrite forallb_forall in H.
  eapply bool_decide_eq_true_1, H; apply in_map_iff; [exists (Z.to_nat h) | exists (Z.to_nat m)];
    (split; [apply Z2Nat.id; lia | apply in_seq; lia]).
Qed.

(** The working date of a local time is the calendar date of that time moved
    back by the day's next-day tail: up to twelve hours past midnight still
    belong to the day before, and the schedule day never skips or repeats. *)
Theorem working_date_is_shifted_date value range o
  (Hoff : schedule_day_offset_hour range = Ok o) (Hday : min_day < wall value / us_day) :
  working_date_for_datetime value range = Ok (date_string ((wall value - o * us_hour) / us_day)).
Proof.
  pose proof (offset_bounds _ _ Hoff) as Ho.
  unfold working_date_for_datetime, working_date_for_clock, strftime_HM.
  set (us := wall value mod us_day).
  assert (0 <= us < us_day) as Hus by (apply Z.mod_pos_bound; by vm_compute).
  assert (0 <= us / us_hour <= 23) as Hh.
  { split; [apply Z.div_pos; [lia | by vm_compute]|].
    apply Z.lt_succ_r, Z.div_lt_upper_bound; [by vm_compute|]. change (us_hour * Z.succ 23) with us_day. lia. }
  rewrite strptime_clock; [|done|].
  2: { pose proof (Z.mod_pos_bound (us / us_minute) 60). lia. }
  cbn [mbind outcome_bind]. rewrite Hoff. cbn [mbind outcome_bind].
  pose proof (Z.div_mod (wall value) us_day ltac:(by vm_compute)) as Hdm. fold us in Hdm.
  pose proof (Z.div_mod us us_hour ltac:(by vm_compute)) as Hhm.
  pose proof (Z.mod_pos_bound us us_hour ltac:(by vm_compute)) as Hr.
  unfold previous_day. set (d := wall value / us_day) in *. set (h := us / us_hour) in *.
  assert (us_day = 24 * us_hour /\ 0 < us_hour) as [Hdh Hpos] by by vm_compute.
  destruct (Z.ltb_spec h o).
  - rewrite (proj2 (Z.leb_gt _ _)) by done. cbn [mbind outcome_bind]. do 2 f_equal.
    apply (Z.div_unique_pos _ _ _ (us + us_day - o * us_hour)); nia.
  - cbn [mbind outcome_bind]. do 2 f_equal.
    apply (Z.div_unique_pos _ _ _ (us - o * us_hour)); nia.
Qed.

Lemma working_date_is_shifted_date_witness :
  working_date_for_datetime (DT 1785375000000000 None) (range_json (6, 30)) =
  Ok (date_string ((1785375000000000 - 6 * us_hour) / us_day)).
Proof.
  apply (working_date_is_shifted_date (DT 1785375000000000 None) (range_json (6, 30)) 6);
    vm_compute; reflexivity.
Defined.

Lemma normalise_range_valid_witness :
  normalise_schedule_day_range (JObj [("startHour", JStr " 8 "); ("end_hour", JInt 30)]%string) = Ok (8, 30) /\
  valid_range (8, 30).
Proof.
  split; [vm_compute; reflexivity|].
  apply (normalise_range_valid (JObj [("startHour", JStr " 8 "); ("end_hour", JInt 30)]%string)).
  vm_compute. reflexivity.
Defined.

Lemma json_ok_dset sok k v d :
  sok k = true -> json_ok sok v = true -> json_ok sok (JObj d) = true ->
  json_ok sok (JObj (dset k v d)) = true.
Proof.
  intros Hk Hv. cbn [json_ok]. rewrite !andb_true_iff, !bool_decide_eq_true, !forallb_forall.
  intros [Hd Hf]. split.
  - rewrite dkeys_dset. destruct (has_key k d) eqn:E; [done|]. apply NoDup_app. split_and!; [done| |apply NoDup_singleton].
    intros x Hx ->%list_elem_of_singleton. by apply has_key_elem in Hx; congruence.
  - intros [q x] Hin. apply list_elem_of_In, elem_dget in Hin.
    + rewrite dget_dset in Hin. destruct (String.eqb_spec q k) as [->|].
      * injection Hin as <-. cbn. by rewrite Hk.
      * apply dget_elem, list_elem_of_In in Hin. by apply Hf.
    + rewrite dkeys_dset. destruct (has_key k d) eqn:E; [done|]. apply NoDup_app. split_and!; [done| |apply NoDup_singleton].
      intros y Hy ->%list_elem_of_singleton. by apply has_key_elem in Hy; congruence.
Qed.

Lemma range_json_ok r : valid_range r -> json_ok is_ascii (range_json r) = true.
Proof.
  destruct r as [s e]. unfold valid_range. cbn [fst snd]. intros [Hs He].
  pose proof (string_of_Z_length s 2 ltac:(lia) ltac:(lia)).
  pose proof (string_of_Z_length e 2 ltac:(lia) ltac:(lia)).
  unfold range_json. cbn [json_ok forallb fst snd dkeys map].
  rewrite !(proj2 (Z.leb_le _ 4300)) by lia. reflexivity.
Qed.

(** A stored range is read back: after merging a range into the metadata of
    an event, reading the event's range gives the normalised range, and every
    other member of the metadata is as it was. *)
Theorem merged_range_is_read_back metadata_json d value r text
  (Hload : load_metadata metadata_json = Ok (JObj d))
  (Hok : json_ok is_ascii (JObj d) = true)
  (Hnorm : normalise_schedule_day_range value = Ok r)
  (Hmerge : merge_schedule_day_range metadata_json value = Ok text) :
  event_schedule_day_range (Some text) = Ok r /\
  exists d', load_metadata (Some text) = Ok (JObj d') /\
    forall k, k <> "schedule_day_range"%string -> dget k d' = dget k d.
Proof.
  unfold merge_schedule_day_range in Hmerge. rewrite Hload, Hnorm in Hmerge.
  cbn [mbind outcome_bind] in Hmerge.
  assert (text = dumps (JObj (dset "schedule_day_range" (range_json r) d))) as -> by congruence.
  destruct (normalise_range_ok _ _ Hnorm) as [Hv Hr].
  set (d' := dset _ _ d). assert (json_ok is_ascii (JObj d') = true) as Hok'.
  { apply json_ok_dset; [done | by apply range_json_ok | done]. }
  assert (load_metadata (Some (dumps (JObj d'))) = Ok (JObj d')) as Hl.
  { unfold load_metadata. rewrite loads_dumps by done. by destruct (truthy_str _) eqn:E; [|discriminate E]. }
  split.
  - unfold event_schedule_day_range. rewrite Hl. cbn [mbind outcome_bind].
    unfold dget_or_null, d'. by rewrite dget_dset, String.eqb_refl.
  - exists d'. split; [done|]. intros k Hk. unfold d'. rewrite dget_dset.
    by rewrite (proj2 (String.eqb_neq _ _) Hk).
Qed.

Definition toy_metadata : string := dumps (JObj [("a"%string, JInt 1)]).

Lemma merged_range_is_read_back_witness :
  exists text, merge_schedule_day_range (Some toy_metadata) (range_json (7, 26)) = Ok text /\
    event_schedule_day_range (Some text) = Ok (7, 26).
Proof.
  eexists. split; [vm_compute; reflexivity|].
  apply (merged_range_is_read_back (Some toy_metadata) [("a"%string, JInt 1)] (range_json (7, 26)) (7, 26));
    vm_compute; reflexivity.
Defined.
