(* ===== verification/Ordering.v ===== *)
(** [ORDER BY] and [sorted]: a stable sort by a comparison, and the comparisons of
    the columns the code sorts by. *)
From Stdlib Require Import ZArith String SpecFloat Permutation.
From stdpp Require Import base list strings.
From S2P Require Import Prelude Text Json.

Section Sort.
Context {R : Type} (le : R -> R -> bool).
(** Before the first row that is not smaller: rows that are equal keep their order. *)
Fixpoint insert_with (r : R) (l : list R) : list R :=
  match l with
  | [] => [r]
  | x :: l' => if le r x then r :: l else x :: insert_with r l'
  end.
Definition sort_with (l : list R) : list R := fold_right insert_with [] l.

Lemma insert_with_perm r l : insert_with r l ≡ₚ r :: l.
Proof.
  induction l as [|x l IH]; [done|]. cbn [insert_with]. destruct (le r x); [done|].
  rewrite IH. apply Permutation_swap.
Qed.
Lemma sort_with_perm l : sort_with l ≡ₚ l.
Proof. induction l as [|x l IH]; [done|]. cbn [sort_with fold_right]. by rewrite insert_with_perm, IH. Qed.
Lemma sort_with_elem l x : x ∈ sort_with l <-> x ∈ l.
Proof. by rewrite sort_with_perm. Qed.
End Sort.

(** A comparison by one key after another: [None] where they are equal. *)
Definition ordering : Type := option bool.
Definition by_text (a b : string) : ordering := if String.eqb a b then None else Some (key_le a b).
Definition by_number (a b : Z) : ordering := if a =? b then None else Some (a <? b).
Definition by_float (a b : spec_float) : ordering := if SFeqb a b then None else Some (SFltb a b).
(** A NULL comes last. *)
Definition nulls_last {A} (by_ : A -> A -> ordering) (a b : option A) : ordering :=
  match a, b with
  | Some a, Some b => by_ a b
  | Some _, None => Some true
  | None, Some _ => Some false
  | None, None => None
  end.
Fixpoint first_of (l : list ordering) : bool :=
  match l with [] => true | Some b :: _ => b | None :: l => first_of l end.

(** [value or 0] of a float column *)
Definition or_zero (f : option spec_float) : spec_float :=
  match f with Some x => if SFeqb x (S754_zero false) then S754_zero false else x | None => S754_zero false end.
