(* ===== verification/Models.v ===== *)
(** The tables of [backend/app/models/]: one record per mapped class, a field per
    column, a nullable column as an [option].  [new_X now] is a row with the
    columns' defaults, in which the required columns without a default are
    empty until the code that builds the row fills them.  Columns that only
    record the last update, and relationships, are left out; a Boolean column
    that is NULL reads as [false], as it does in every condition on it. *)
From Stdlib Require Import ZArith String SpecFloat.
From stdpp Require Import base list strings.
From S2P Require Import Prelude Text Json PyTime.

(** Server-side event that receives published schedules: table [events]. *)
Record Event : Type := mkEvent {
  ev_id : Z; ev_evidence_id : string; ev_name : string; ev_location : option string;
  ev_start_date : option Z; ev_end_date : option Z; ev_status : option string;
  ev_publish_secret_hash : string; ev_metadata_json : option string;
  ev_logo_color_1 : option string; ev_logo_color_2 : option string;
  ev_secret_created_at : option datetime; ev_purge_grace_days : option Z;
  ev_purge_due_at : option datetime; ev_purge_case_request_id : option string;
  ev_purge_started_at : option datetime; ev_created_at : option datetime
}.
#[export] Instance eta_Event : Eta Event := fun r =>
  mkEvent (ev_id r) (ev_evidence_id r) (ev_name r) (ev_location r) (ev_start_date r)
  (ev_end_date r) (ev_status r) (ev_publish_secret_hash r) (ev_metadata_json r)
  (ev_logo_color_1 r) (ev_logo_color_2 r) (ev_secret_created_at r) (ev_purge_grace_days r)
  (ev_purge_due_at r) (ev_purge_case_request_id r) (ev_purge_started_at r) (ev_created_at r).
Definition new_Event (now : datetime) : Event :=
  mkEvent 0 EmptyString EmptyString None None None (Some "draft"%string) EmptyString None None
  None None None None None None (Some now).

(** Login accounts. Passkey-only authentication: table [users]. *)
Record User : Type := mkUser {
  u_id : Z; u_evidence_subject_id : string; u_username : string; u_display_name : string;
  u_email : option string; u_is_root_admin : bool; u_is_admin : bool; u_is_issuer : bool;
  u_can_edit : bool; u_is_active : bool; u_is_activated : bool; u_linked_person_id : option Z;
  u_event_id : option Z; u_tags : option json; u_last_login_at : option datetime;
  u_deletion_requested_at : option datetime; u_created_at : option datetime
}.
#[export] Instance eta_User : Eta User := fun r =>
  mkUser (u_id r) (u_evidence_subject_id r) (u_username r) (u_display_name r) (u_email r)
  (u_is_root_admin r) (u_is_admin r) (u_is_issuer r) (u_can_edit r) (u_is_active r)
  (u_is_activated r) (u_linked_person_id r) (u_event_id r) (u_tags r) (u_last_login_at r)
  (u_deletion_requested_at r) (u_created_at r).
Definition new_User (now : datetime) : User :=
  mkUser 0 EmptyString EmptyString EmptyString None false false false false true false None None
  None None None (Some now).

(** Stored passkey credentials for WebAuthn authentication: table [webauthn_credentials]. *)
Record WebAuthnCredential : Type := mkWebAuthnCredential {
  wc_id : Z; wc_user_id : Z; wc_credential_id : string; wc_public_key : string;
  wc_sign_count : Z; wc_transports : option json; wc_aaguid : option string;
  wc_friendly_name : option string; wc_created_at : option datetime;
  wc_last_used_at : option datetime
}.
#[export] Instance eta_WebAuthnCredential : Eta WebAuthnCredential := fun r =>
  mkWebAuthnCredential (wc_id r) (wc_user_id r) (wc_credential_id r) (wc_public_key r)
  (wc_sign_count r) (wc_transports r) (wc_aaguid r) (wc_friendly_name r) (wc_created_at r)
  (wc_last_used_at r).
Definition new_WebAuthnCredential (now : datetime) : WebAuthnCredential :=
  mkWebAuthnCredential 0 0 EmptyString EmptyString 0 None None (Some "Passkey"%string) (Some now)
  None.

(** Legacy WebAuthn challenge rows kept for upgrade cleanup only: table [passkey_challenges]. *)
Record PasskeyChallenge : Type := mkPasskeyChallenge {
  ph_id : Z; ph_challenge : string; ph_user_id : option Z; ph_challenge_type : string;
  ph_expires_at : datetime; ph_created_at : option datetime
}.
#[export] Instance eta_PasskeyChallenge : Eta PasskeyChallenge := fun r =>
  mkPasskeyChallenge (ph_id r) (ph_challenge r) (ph_user_id r) (ph_challenge_type r)
  (ph_expires_at r) (ph_created_at r).
Definition new_PasskeyChallenge (now : datetime) : PasskeyChallenge :=
  mkPasskeyChallenge 0 EmptyString None EmptyString now (Some now).

(** One scoped, expiring, single-use WebAuthn ceremony: table [passkey_ceremonies]. *)
Record PasskeyCeremony : Type := mkPasskeyCeremony {
  pc_id : string; pc_challenge : string; pc_purpose : string; pc_user_id : option Z;
  pc_session_id : option Z; pc_activation_link_id : option Z; pc_expires_at : datetime;
  pc_consumed_at : option datetime; pc_action_json : option string;
  pc_action_sha256 : option string; pc_created_at : option datetime
}.
#[export] Instance eta_PasskeyCeremony : Eta PasskeyCeremony := fun r =>
  mkPasskeyCeremony (pc_id r) (pc_challenge r) (pc_purpose r) (pc_user_id r) (pc_session_id r)
  (pc_activation_link_id r) (pc_expires_at r) (pc_consumed_at r) (pc_action_json r)
  (pc_action_sha256 r) (pc_created_at r).
Definition new_PasskeyCeremony (now : datetime) : PasskeyCeremony :=
  mkPasskeyCeremony EmptyString EmptyString EmptyString None None None now None None None
  (Some now).

(** Short-lived one-time codes exchanged for a session after passkey auth: table [exchange_codes]. *)
Record ExchangeCode : Type := mkExchangeCode {
  xc_id : Z; xc_code : string; xc_user_id : Z; xc_expires_at : datetime;
  xc_used_at : option datetime; xc_created_at : option datetime
}.
#[export] Instance eta_ExchangeCode : Eta ExchangeCode := fun r =>
  mkExchangeCode (xc_id r) (xc_code r) (xc_user_id r) (xc_expires_at r) (xc_used_at r)
  (xc_created_at r).
Definition new_ExchangeCode (now : datetime) : ExchangeCode :=
  mkExchangeCode 0 EmptyString 0 now None (Some now).

(** Active login sessions (server-side session store): table [auth_sessions]. *)
Record AuthSession : Type := mkAuthSession {
  s_id : Z; s_user_id : Z; s_session_token : string; s_csrf_token : string;
  s_expires_at : datetime; s_last_seen_at : option datetime; s_ip_address : option string;
  s_user_agent : option string; s_fingerprint : option string; s_revoked_at : option datetime;
  s_reauth_at : option datetime; s_created_at : option datetime
}.
#[export] Instance eta_AuthSession : Eta AuthSession := fun r =>
  mkAuthSession (s_id r) (s_user_id r) (s_session_token r) (s_csrf_token r) (s_expires_at r)
  (s_last_seen_at r) (s_ip_address r) (s_user_agent r) (s_fingerprint r) (s_revoked_at r)
  (s_reauth_at r) (s_created_at r).
Definition new_AuthSession (now : datetime) : AuthSession :=
  mkAuthSession 0 0 EmptyString EmptyString now None None None None None None (Some now).

(** One-time activation links for passkey registration: table [activation_links]. *)
Record ActivationLink : Type := mkActivationLink {
  al_id : Z; al_token_hash : string; al_user_id : Z; al_purpose : string;
  al_created_at : option datetime; al_expires_at : datetime; al_used_at : option datetime;
  al_invalidated_at : option datetime; al_delivery_pending : bool; al_created_by_id : option Z
}.
#[export] Instance eta_ActivationLink : Eta ActivationLink := fun r =>
  mkActivationLink (al_id r) (al_token_hash r) (al_user_id r) (al_purpose r) (al_created_at r)
  (al_expires_at r) (al_used_at r) (al_invalidated_at r) (al_delivery_pending r)
  (al_created_by_id r).
Definition new_ActivationLink (now : datetime) : ActivationLink :=
  mkActivationLink 0 EmptyString 0 "initial_setup"%string (Some now) now None None false None.

(** Non-secret record of an administrator-triggered activation email: table [activation_email_deliveries]. *)
Record ActivationEmailDelivery : Type := mkActivationEmailDelivery {
  ad_id : Z; ad_activation_link_id : option Z; ad_user_id : Z; ad_requested_by_id : option Z;
  ad_retry_of_id : option Z; ad_recipient_email : string; ad_purpose : string;
  ad_message_id : option string; ad_status : string; ad_error_code : option string;
  ad_error_message : option string; ad_includes_qr : bool; ad_started_at : option datetime;
  ad_completed_at : option datetime
}.
#[export] Instance eta_ActivationEmailDelivery : Eta ActivationEmailDelivery := fun r =>
  mkActivationEmailDelivery (ad_id r) (ad_activation_link_id r) (ad_user_id r)
  (ad_requested_by_id r) (ad_retry_of_id r) (ad_recipient_email r) (ad_purpose r)
  (ad_message_id r) (ad_status r) (ad_error_code r) (ad_error_message r) (ad_includes_qr r)
  (ad_started_at r) (ad_completed_at r).
Definition new_ActivationEmailDelivery (now : datetime) : ActivationEmailDelivery :=
  mkActivationEmailDelivery 0 None 0 None None EmptyString "initial_setup"%string None
  "sending"%string None None true (Some now) None.

(** Web Push API subscriptions - one per user-device pair: table [push_subscriptions]. *)
Record PushSubscription : Type := mkPushSubscription {
  ps_id : Z; ps_user_id : Z; ps_event_id : option Z; ps_endpoint : string; ps_p256dh : string;
  ps_auth : string; ps_created_at : option datetime
}.
#[export] Instance eta_PushSubscription : Eta PushSubscription := fun r =>
  mkPushSubscription (ps_id r) (ps_user_id r) (ps_event_id r) (ps_endpoint r) (ps_p256dh r)
  (ps_auth r) (ps_created_at r).
Definition new_PushSubscription (now : datetime) : PushSubscription :=
  mkPushSubscription 0 0 None EmptyString EmptyString EmptyString (Some now).

(** Admin announcements per event - persists across republishes: table [announcements]. *)
Record Announcement : Type := mkAnnouncement {
  an_id : Z; an_event_id : Z; an_title : string; an_body : option string;
  an_created_by_id : option Z; an_created_at : option datetime
}.
#[export] Instance eta_Announcement : Eta Announcement := fun r =>
  mkAnnouncement (an_id r) (an_event_id r) (an_title r) (an_body r) (an_created_by_id r)
  (an_created_at r).
Definition new_Announcement (now : datetime) : Announcement :=
  mkAnnouncement 0 0 EmptyString None None (Some now).

(** Per-user schedule change records created on each republish: table [schedule_changes]. *)
Record ScheduleChange : Type := mkScheduleChange {
  sc_id : Z; sc_user_id : Z; sc_event_id : Z; sc_changes_json : string;
  sc_created_at : option datetime; sc_read_at : option datetime
}.
#[export] Instance eta_ScheduleChange : Eta ScheduleChange := fun r =>
  mkScheduleChange (sc_id r) (sc_user_id r) (sc_event_id r) (sc_changes_json r) (sc_created_at r)
  (sc_read_at r).
Definition new_ScheduleChange (now : datetime) : ScheduleChange :=
  mkScheduleChange 0 0 0 EmptyString (Some now) None.

(** Persisted record of security-relevant user and admin actions: table [audit_log]. *)
Record AuditLog : Type := mkAuditLog {
  au_id : Z; au_timestamp : option datetime; au_user_id : option Z; au_username : option string;
  au_actor_ref : option string; au_action : string; au_resource_type : option string;
  au_resource_id : option Z; au_detail : option string; au_ip_hash : option string;
  au_outcome : option string
}.
#[export] Instance eta_AuditLog : Eta AuditLog := fun r =>
  mkAuditLog (au_id r) (au_timestamp r) (au_user_id r) (au_username r) (au_actor_ref r)
  (au_action r) (au_resource_type r) (au_resource_id r) (au_detail r) (au_ip_hash r)
  (au_outcome r).
Definition new_AuditLog (now : datetime) : AuditLog :=
  mkAuditLog 0 (Some now) None None None EmptyString None None None None (Some "success"%string).

(** Persons published from the desktop app. Used for display and filtering: table [published_persons]. *)
Record PublishedPerson : Type := mkPublishedPerson {
  pp_id : Z; pp_evidence_subject_id : string; pp_event_id : Z; pp_external_person_id : Z;
  pp_first_name : string; pp_last_name : string; pp_email : option string;
  pp_created_at : option datetime
}.
#[export] Instance eta_PublishedPerson : Eta PublishedPerson := fun r =>
  mkPublishedPerson (pp_id r) (pp_evidence_subject_id r) (pp_event_id r)
  (pp_external_person_id r) (pp_first_name r) (pp_last_name r) (pp_email r) (pp_created_at r).
Definition new_PublishedPerson (now : datetime) : PublishedPerson :=
  mkPublishedPerson 0 EmptyString 0 0 EmptyString EmptyString None (Some now).

(** One published person-unavailability interval for an event working day: table [published_person_unavailability]. *)
Record PublishedPersonUnavailability : Type := mkPublishedPersonUnavailability {
  pu_id : Z; pu_event_id : Z; pu_external_person_id : Z; pu_working_date : string;
  pu_start_datetime : string; pu_end_datetime : string; pu_created_at : option datetime
}.
#[export] Instance eta_PublishedPersonUnavailability : Eta PublishedPersonUnavailability := fun r =>
  mkPublishedPersonUnavailability (pu_id r) (pu_event_id r) (pu_external_person_id r)
  (pu_working_date r) (pu_start_datetime r) (pu_end_datetime r) (pu_created_at r).
Definition new_PublishedPersonUnavailability (now : datetime) : PublishedPersonUnavailability :=
  mkPublishedPersonUnavailability 0 0 0 EmptyString EmptyString EmptyString (Some now).

(** Tasks published from the desktop app. Read-only source of truth: table [published_tasks]. *)
Record PublishedTask : Type := mkPublishedTask {
  pt_id : Z; pt_event_id : Z; pt_external_task_id : Z; pt_name : string;
  pt_summary : option string; pt_description : option string; pt_start_datetime : datetime;
  pt_end_datetime : datetime; pt_location_name : option string;
  pt_location_address : option string; pt_task_type_code : option string;
  pt_task_type_name : option string; pt_color : option string; pt_attendees_json : option string;
  pt_field_assignments_json : option string; pt_field_values_json : option string;
  pt_field_definitions_json : option string; pt_additional_json : option string;
  pt_attachments_json : option string; pt_sort_order : option spec_float; pt_web_created : bool;
  pt_created_at : option datetime
}.
#[export] Instance eta_PublishedTask : Eta PublishedTask := fun r =>
  mkPublishedTask (pt_id r) (pt_event_id r) (pt_external_task_id r) (pt_name r) (pt_summary r)
  (pt_description r) (pt_start_datetime r) (pt_end_datetime r) (pt_location_name r)
  (pt_location_address r) (pt_task_type_code r) (pt_task_type_name r) (pt_color r)
  (pt_attendees_json r) (pt_field_assignments_json r) (pt_field_values_json r)
  (pt_field_definitions_json r) (pt_additional_json r) (pt_attachments_json r) (pt_sort_order r)
  (pt_web_created r) (pt_created_at r).
Definition new_PublishedTask (now : datetime) : PublishedTask :=
  mkPublishedTask 0 0 0 EmptyString None None now now None None None None None None None None
  None None None (Some (S754_zero false)) false (Some now).

(** Ephemeral web-only edits. Overlaid on published tasks. Wiped on re-publish: table [task_edits]. *)
Record TaskEdit : Type := mkTaskEdit {
  te_id : Z; te_task_id : Z; te_edited_by_user_id : option Z; te_name : option string;
  te_summary : option string; te_description : option string;
  te_start_datetime : option datetime; te_end_datetime : option datetime;
  te_location_name : option string; te_location_address : option string;
  te_color : option string; te_attendees_json : option string;
  te_field_assignments_json : option string; te_field_values_json : option string;
  te_attachments_json : option string; te_is_deleted : bool; te_edited_at : option datetime
}.
#[export] Instance eta_TaskEdit : Eta TaskEdit := fun r =>
  mkTaskEdit (te_id r) (te_task_id r) (te_edited_by_user_id r) (te_name r) (te_summary r)
  (te_description r) (te_start_datetime r) (te_end_datetime r) (te_location_name r)
  (te_location_address r) (te_color r) (te_attendees_json r) (te_field_assignments_json r)
  (te_field_values_json r) (te_attachments_json r) (te_is_deleted r) (te_edited_at r).
Definition new_TaskEdit (now : datetime) : TaskEdit :=
  mkTaskEdit 0 0 None None None None None None None None None None None None None false
  (Some now).

(** Archived schedule snapshot taken before each desktop republish: table [publish_snapshots]. *)
Record PublishSnapshot : Type := mkPublishSnapshot {
  sn_id : Z; sn_event_id : Z; sn_version : Z; sn_snapshot_json : string;
  sn_content_hash : string; sn_task_count : Z; sn_person_count : Z; sn_edits_count : Z;
  sn_source : option string; sn_label : option string; sn_frozen : bool;
  sn_created_at : option datetime
}.
#[export] Instance eta_PublishSnapshot : Eta PublishSnapshot := fun r =>
  mkPublishSnapshot (sn_id r) (sn_event_id r) (sn_version r) (sn_snapshot_json r)
  (sn_content_hash r) (sn_task_count r) (sn_person_count r) (sn_edits_count r) (sn_source r)
  (sn_label r) (sn_frozen r) (sn_created_at r).
Definition new_PublishSnapshot (now : datetime) : PublishSnapshot :=
  mkPublishSnapshot 0 0 0 EmptyString EmptyString 0 0 0 None None false (Some now).

(** Audience category published for authenticated Public Schedule views: table [published_general_schedule_categories]. *)
Record PublishedGeneralScheduleCategory : Type := mkPublishedGeneralScheduleCategory {
  gc_id : Z; gc_event_id : Z; gc_external_category_id : Z; gc_name : string;
  gc_sort_order : option spec_float; gc_published_at : option datetime;
  gc_created_at : option datetime
}.
#[export] Instance eta_PublishedGeneralScheduleCategory : Eta PublishedGeneralScheduleCategory := fun r =>
  mkPublishedGeneralScheduleCategory (gc_id r) (gc_event_id r) (gc_external_category_id r)
  (gc_name r) (gc_sort_order r) (gc_published_at r) (gc_created_at r).
Definition new_PublishedGeneralScheduleCategory (now : datetime) : PublishedGeneralScheduleCategory :=
  mkPublishedGeneralScheduleCategory 0 0 0 EmptyString (Some (S754_zero false)) None (Some now).

(** Public Session Elements published from the desktop General Schedule: table [published_general_schedule_items]. *)
Record PublishedGeneralScheduleItem : Type := mkPublishedGeneralScheduleItem {
  gi_id : Z; gi_event_id : Z; gi_external_session_element_id : Z; gi_title : string;
  gi_date : string; gi_start_time : string; gi_end_time : string;
  gi_location_name : option string; gi_location_address : option string;
  gi_responsible : option string; gi_audience_teams_json : option string;
  gi_description : option string; gi_category_id : option Z; gi_category_name : option string;
  gi_type_id : option Z; gi_type_name : option string; gi_copy_template_html : option string;
  gi_category : option string; gi_colour : option string; gi_sort_order : option spec_float;
  gi_published_at : option datetime; gi_created_at : option datetime
}.
#[export] Instance eta_PublishedGeneralScheduleItem : Eta PublishedGeneralScheduleItem := fun r =>
  mkPublishedGeneralScheduleItem (gi_id r) (gi_event_id r) (gi_external_session_element_id r)
  (gi_title r) (gi_date r) (gi_start_time r) (gi_end_time r) (gi_location_name r)
  (gi_location_address r) (gi_responsible r) (gi_audience_teams_json r) (gi_description r)
  (gi_category_id r) (gi_category_name r) (gi_type_id r) (gi_type_name r)
  (gi_copy_template_html r) (gi_category r) (gi_colour r) (gi_sort_order r) (gi_published_at r)
  (gi_created_at r).
Definition new_PublishedGeneralScheduleItem (now : datetime) : PublishedGeneralScheduleItem :=
  mkPublishedGeneralScheduleItem 0 0 0 EmptyString EmptyString EmptyString EmptyString None None
  None None None None None None None None None None (Some (S754_zero false)) None (Some now).

(** Latest published General Schedule status for one server event: table [general_schedule_publish_state]. *)
Record GeneralSchedulePublishState : Type := mkGeneralSchedulePublishState {
  gs_id : Z; gs_event_id : Z; gs_fingerprint : option string; gs_published_at : option datetime;
  gs_item_count : Z; gs_created_at : option datetime
}.
#[export] Instance eta_GeneralSchedulePublishState : Eta GeneralSchedulePublishState := fun r =>
  mkGeneralSchedulePublishState (gs_id r) (gs_event_id r) (gs_fingerprint r) (gs_published_at r)
  (gs_item_count r) (gs_created_at r).
Definition new_GeneralSchedulePublishState (now : datetime) : GeneralSchedulePublishState :=
  mkGeneralSchedulePublishState 0 0 None None 0 (Some now).

(** Runtime-configurable server setting stored in the database: table [server_settings]. *)
Record ServerSetting : Type := mkServerSetting {
  ss_id : Z; ss_key : string; ss_value : string
}.
#[export] Instance eta_ServerSetting : Eta ServerSetting := fun r =>
  mkServerSetting (ss_id r) (ss_key r) (ss_value r).
Definition new_ServerSetting (now : datetime) : ServerSetting :=
  mkServerSetting 0 EmptyString EmptyString.

(** Singleton draft containing controller-supplied deployment facts: table [instance_governance_profile]. *)
Record InstanceGovernanceProfile : Type := mkInstanceGovernanceProfile {
  gp_id : Z; gp_instance_id : string; gp_controller_type : string;
  gp_controller_legal_name : string; gp_controller_postal_address : string;
  gp_controller_country : string; gp_privacy_contact_email : string;
  gp_dpo_contact : option string; gp_supervisory_authority_name : string;
  gp_supervisory_authority_url : string; gp_default_locale : string;
  gp_processor_summary : string; gp_retention_summary : string; gp_rights_summary : string;
  gp_terms_summary : string; gp_structured_json : string
}.
#[export] Instance eta_InstanceGovernanceProfile : Eta InstanceGovernanceProfile := fun r =>
  mkInstanceGovernanceProfile (gp_id r) (gp_instance_id r) (gp_controller_type r)
  (gp_controller_legal_name r) (gp_controller_postal_address r) (gp_controller_country r)
  (gp_privacy_contact_email r) (gp_dpo_contact r) (gp_supervisory_authority_name r)
  (gp_supervisory_authority_url r) (gp_default_locale r) (gp_processor_summary r)
  (gp_retention_summary r) (gp_rights_summary r) (gp_terms_summary r) (gp_structured_json r).
Definition new_InstanceGovernanceProfile (now : datetime) : InstanceGovernanceProfile :=
  mkInstanceGovernanceProfile 1 EmptyString EmptyString EmptyString EmptyString EmptyString
  EmptyString None EmptyString EmptyString "en"%string EmptyString EmptyString EmptyString
  EmptyString "{}"%string.

(** One current-schema case retained independently of live personal data: table [deletion_cases]. *)
Record DeletionCase : Type := mkDeletionCase {
  dc_id : Z; dc_request_id : string; dc_case_type : string; dc_initiation_reason : string;
  dc_event_purge_key : option string; dc_instance_id : string; dc_event_evidence_id : string;
  dc_event_display_name : option string; dc_subject_display_name : option string;
  dc_subject_evidence_id : string; dc_user_id : option Z; dc_request_type : string;
  dc_identity_verification : string; dc_verification_method : option string; dc_state : string;
  dc_submitted_at : datetime; dc_normal_response_due_at : datetime;
  dc_decision_at : option datetime; dc_response_sent_at : option datetime;
  dc_decision_code : option string; dc_access_revoked_at : option datetime;
  dc_request_manifest_sha256 : option string; dc_acceptance_receipt_sha256 : option string;
  dc_access_revocation_receipt_sha256 : option string; dc_live_data_purged_at : option datetime;
  dc_live_purge_receipt_sha256 : option string; dc_privacy_action_id : option string;
  dc_privacy_action_sequence : option Z; dc_peer_confirmation_sha256 : option string;
  dc_peer_confirmed_at : option datetime; dc_peer_replication_job_id : option string;
  dc_peer_bundle_id : option string; dc_peer_bundle_sha256 : option string;
  dc_peer_generation : option Z; dc_peer_accepted_at : option datetime;
  dc_replacement_package_id : option string; dc_replacement_package_sha256 : option string;
  dc_clean_backup_job_id : option string; dc_clean_backup_receipt_id : option string;
  dc_peer_backup_resolution_id : option string; dc_peer_backup_resolution_sha256 : option string;
  dc_peer_backup_resolved_at : option datetime; dc_backup_resolution_sha256 : option string;
  dc_desktop_report_sha256 : option string; dc_desktop_absence_receipt_sha256 : option string;
  dc_desktop_deletion_required : bool; dc_backup_not_applicable_sha256 : option string;
  dc_checklist_version : option Z; dc_checklist_json : option string;
  dc_checklist_sha256 : option string; dc_checklist_created_at : option datetime;
  dc_executor_approval_sha256 : option string; dc_status_capability_sha256 : option string;
  dc_status_capability_expires_at : option datetime; dc_retention_reason_code : option string;
  dc_retention_review_at : option datetime; dc_outstanding_actions_json : option string;
  dc_final_receipt_sha256 : option string; dc_completed_at : option datetime;
  dc_error_code : option string; dc_created_at : datetime
}.
#[export] Instance eta_DeletionCase : Eta DeletionCase := fun r =>
  mkDeletionCase (dc_id r) (dc_request_id r) (dc_case_type r) (dc_initiation_reason r)
  (dc_event_purge_key r) (dc_instance_id r) (dc_event_evidence_id r) (dc_event_display_name r)
  (dc_subject_display_name r) (dc_subject_evidence_id r) (dc_user_id r) (dc_request_type r)
  (dc_identity_verification r) (dc_verification_method r) (dc_state r) (dc_submitted_at r)
  (dc_normal_response_due_at r) (dc_decision_at r) (dc_response_sent_at r) (dc_decision_code r)
  (dc_access_revoked_at r) (dc_request_manifest_sha256 r) (dc_acceptance_receipt_sha256 r)
  (dc_access_revocation_receipt_sha256 r) (dc_live_data_purged_at r)
  (dc_live_purge_receipt_sha256 r) (dc_privacy_action_id r) (dc_privacy_action_sequence r)
  (dc_peer_confirmation_sha256 r) (dc_peer_confirmed_at r) (dc_peer_replication_job_id r)
  (dc_peer_bundle_id r) (dc_peer_bundle_sha256 r) (dc_peer_generation r) (dc_peer_accepted_at r)
  (dc_replacement_package_id r) (dc_replacement_package_sha256 r) (dc_clean_backup_job_id r)
  (dc_clean_backup_receipt_id r) (dc_peer_backup_resolution_id r)
  (dc_peer_backup_resolution_sha256 r) (dc_peer_backup_resolved_at r)
  (dc_backup_resolution_sha256 r) (dc_desktop_report_sha256 r)
  (dc_desktop_absence_receipt_sha256 r) (dc_desktop_deletion_required r)
  (dc_backup_not_applicable_sha256 r) (dc_checklist_version r) (dc_checklist_json r)
  (dc_checklist_sha256 r) (dc_checklist_created_at r) (dc_executor_approval_sha256 r)
  (dc_status_capability_sha256 r) (dc_status_capability_expires_at r)
  (dc_retention_reason_code r) (dc_retention_review_at r) (dc_outstanding_actions_json r)
  (dc_final_receipt_sha256 r) (dc_completed_at r) (dc_error_code r) (dc_created_at r).
Definition new_DeletionCase (now : datetime) : DeletionCase :=
  mkDeletionCase 0 EmptyString "personal_data_erasure"%string "authenticated_request"%string None
  EmptyString EmptyString None None EmptyString None "full_erasure"%string
  "recent_passkey_reauthentication"%string None "submitted"%string now now None None None None
  None None None None None None None None None None None None None None None None None None None
  None None None None None true None None None None None None None None None None None None None
  None now.

(** One pseudonymous event or subject scope covered by a deletion case: table [deletion_subject_scopes]. *)
Record DeletionSubjectScope : Type := mkDeletionSubjectScope {
  ds_id : Z; ds_scope_id : string; ds_case_id : Z; ds_event_ref : string;
  ds_subject_ref : option string; ds_event_id : option Z; ds_state : string;
  ds_created_at : datetime; ds_completed_at : option datetime
}.
#[export] Instance eta_DeletionSubjectScope : Eta DeletionSubjectScope := fun r =>
  mkDeletionSubjectScope (ds_id r) (ds_scope_id r) (ds_case_id r) (ds_event_ref r)
  (ds_subject_ref r) (ds_event_id r) (ds_state r) (ds_created_at r) (ds_completed_at r).
Definition new_DeletionSubjectScope (now : datetime) : DeletionSubjectScope :=
  mkDeletionSubjectScope 0 EmptyString 0 EmptyString None None "pending"%string now None.

(** Event-scoped deletion instruction claimed by one paired desktop: table [desktop_deletion_work_orders]. *)
Record DesktopDeletionWorkOrder : Type := mkDesktopDeletionWorkOrder {
  wo_id : Z; wo_work_order_id : string; wo_case_id : Z; wo_event_id : option Z;
  wo_event_ref : string; wo_subject_ref : option string; wo_processor_entity_id : string;
  wo_processor_key_id : string; wo_operation : string; wo_state : string;
  wo_claim_capability_sha256 : option string; wo_claim_expires_at : option datetime;
  wo_claimed_at : option datetime; wo_report_json : option string;
  wo_report_sha256 : option string; wo_report_signature_sha256 : option string;
  wo_report_evidence_package_json : option string;
  wo_report_evidence_package_sha256 : option string; wo_copy_resolution_sha256 : option string;
  wo_copy_resolution_signature_sha256 : option string;
  wo_copy_resolution_evidence_package_json : option string;
  wo_copy_resolution_evidence_package_sha256 : option string; wo_reported_at : option datetime;
  wo_created_at : datetime
}.
#[export] Instance eta_DesktopDeletionWorkOrder : Eta DesktopDeletionWorkOrder := fun r =>
  mkDesktopDeletionWorkOrder (wo_id r) (wo_work_order_id r) (wo_case_id r) (wo_event_id r)
  (wo_event_ref r) (wo_subject_ref r) (wo_processor_entity_id r) (wo_processor_key_id r)
  (wo_operation r) (wo_state r) (wo_claim_capability_sha256 r) (wo_claim_expires_at r)
  (wo_claimed_at r) (wo_report_json r) (wo_report_sha256 r) (wo_report_signature_sha256 r)
  (wo_report_evidence_package_json r) (wo_report_evidence_package_sha256 r)
  (wo_copy_resolution_sha256 r) (wo_copy_resolution_signature_sha256 r)
  (wo_copy_resolution_evidence_package_json r) (wo_copy_resolution_evidence_package_sha256 r)
  (wo_reported_at r) (wo_created_at r).
Definition new_DesktopDeletionWorkOrder (now : datetime) : DesktopDeletionWorkOrder :=
  mkDesktopDeletionWorkOrder 0 EmptyString 0 None EmptyString None EmptyString EmptyString
  EmptyString "open"%string None None None None None None None None None None None None None now.

(** Immutable processor assignment captured when a case is accepted: table [deletion_required_processors]. *)
Record DeletionRequiredProcessor : Type := mkDeletionRequiredProcessor {
  rp_id : Z; rp_requirement_id : string; rp_case_id : Z; rp_event_ref : string;
  rp_processor_entity_id : string; rp_snapshotted_key_id : string;
  rp_snapshotted_public_key_sha256 : string; rp_deletion_receipt_sha256 : option string;
  rp_copy_resolution_sha256 : option string; rp_completed_key_id : option string;
  rp_completed_public_key_sha256 : option string; rp_state : string; rp_created_at : datetime;
  rp_completed_at : option datetime
}.
#[export] Instance eta_DeletionRequiredProcessor : Eta DeletionRequiredProcessor := fun r =>
  mkDeletionRequiredProcessor (rp_id r) (rp_requirement_id r) (rp_case_id r) (rp_event_ref r)
  (rp_processor_entity_id r) (rp_snapshotted_key_id r) (rp_snapshotted_public_key_sha256 r)
  (rp_deletion_receipt_sha256 r) (rp_copy_resolution_sha256 r) (rp_completed_key_id r)
  (rp_completed_public_key_sha256 r) (rp_state r) (rp_created_at r) (rp_completed_at r).
Definition new_DeletionRequiredProcessor (now : datetime) : DeletionRequiredProcessor :=
  mkDeletionRequiredProcessor 0 EmptyString 0 EmptyString EmptyString EmptyString EmptyString
  None None None None "awaiting_desktop"%string now None.

(** A passkey-verified human approval bound to an immutable checklist: table [deletion_checklist_approvals]. *)
Record DeletionChecklistApproval : Type := mkDeletionChecklistApproval {
  ap_id : Z; ap_approval_id : string; ap_case_id : Z; ap_checklist_sha256 : string;
  ap_role : string; ap_user_id : option Z; ap_credential_sha256 : string;
  ap_approval_sha256 : string; ap_approved_at : datetime
}.
#[export] Instance eta_DeletionChecklistApproval : Eta DeletionChecklistApproval := fun r =>
  mkDeletionChecklistApproval (ap_id r) (ap_approval_id r) (ap_case_id r) (ap_checklist_sha256 r)
  (ap_role r) (ap_user_id r) (ap_credential_sha256 r) (ap_approval_sha256 r) (ap_approved_at r).
Definition new_DeletionChecklistApproval (now : datetime) : DeletionChecklistApproval :=
  mkDeletionChecklistApproval 0 EmptyString 0 EmptyString EmptyString None EmptyString
  EmptyString now.

(** A typed public trust key. Private controller/processor bytes never enter Server: table [evidence_keys]. *)
Record EvidenceKey : Type := mkEvidenceKey {
  ek_id : Z; ek_key_id : string; ek_public_key : string; ek_public_key_sha256 : string;
  ek_instance_id : string; ek_entity_id : option string; ek_algorithm : string; ek_role : string;
  ek_valid_from : datetime; ek_expires_at : option datetime; ek_revoked_at : option datetime;
  ek_revocation_reason : option string; ek_supersedes_key_id : option string;
  ek_superseded_by_key_id : option string; ek_registration_proof_sha256 : option string;
  ek_root_credential_id_sha256 : option string; ek_root_action_sha256 : option string;
  ek_activated_at : option datetime; ek_trust_establishment_sha256 : option string;
  ek_registered_at : datetime
}.
#[export] Instance eta_EvidenceKey : Eta EvidenceKey := fun r =>
  mkEvidenceKey (ek_id r) (ek_key_id r) (ek_public_key r) (ek_public_key_sha256 r)
  (ek_instance_id r) (ek_entity_id r) (ek_algorithm r) (ek_role r) (ek_valid_from r)
  (ek_expires_at r) (ek_revoked_at r) (ek_revocation_reason r) (ek_supersedes_key_id r)
  (ek_superseded_by_key_id r) (ek_registration_proof_sha256 r) (ek_root_credential_id_sha256 r)
  (ek_root_action_sha256 r) (ek_activated_at r) (ek_trust_establishment_sha256 r)
  (ek_registered_at r).
Definition new_EvidenceKey (now : datetime) : EvidenceKey :=
  mkEvidenceKey 0 EmptyString EmptyString EmptyString EmptyString None "Ed25519"%string
  "instance"%string now None None None None None None None None None None now.

(** One processor identity immutably assigned to one event: table [processor_identities]. *)
Record ProcessorIdentity : Type := mkProcessorIdentity {
  pi_id : Z; pi_assignment_id : string; pi_instance_id : string; pi_entity_id : string;
  pi_event_id : option Z; pi_event_evidence_id : string; pi_event_display_name : option string;
  pi_display_label : option string; pi_status : string; pi_active_key_id : option string;
  pi_created_at : datetime; pi_activated_at : option datetime; pi_revoked_at : option datetime
}.
#[export] Instance eta_ProcessorIdentity : Eta ProcessorIdentity := fun r =>
  mkProcessorIdentity (pi_id r) (pi_assignment_id r) (pi_instance_id r) (pi_entity_id r)
  (pi_event_id r) (pi_event_evidence_id r) (pi_event_display_name r) (pi_display_label r)
  (pi_status r) (pi_active_key_id r) (pi_created_at r) (pi_activated_at r) (pi_revoked_at r).
Definition new_ProcessorIdentity (now : datetime) : ProcessorIdentity :=
  mkProcessorIdentity 0 EmptyString EmptyString EmptyString None EmptyString None None
  "pending"%string None now None None.

(** Singleton cache of the authoritative signed filesystem chain: table [evidence_chain_state]. *)
Record EvidenceChainState : Type := mkEvidenceChainState {
  cs_id : Z; cs_instance_id : string; cs_chain_id : string; cs_evidence_mode : string;
  cs_last_sequence : Z; cs_head_sha256 : option string; cs_initialised_at : datetime;
  cs_verified_at : option datetime
}.
#[export] Instance eta_EvidenceChainState : Eta EvidenceChainState := fun r =>
  mkEvidenceChainState (cs_id r) (cs_instance_id r) (cs_chain_id r) (cs_evidence_mode r)
  (cs_last_sequence r) (cs_head_sha256 r) (cs_initialised_at r) (cs_verified_at r).
Definition new_EvidenceChainState (now : datetime) : EvidenceChainState :=
  mkEvidenceChainState 1 EmptyString EmptyString "required"%string 0 None now None.

(** Restart-safe outbox entry coordinating DB state and signed files: table [evidence_operations]. *)
Record EvidenceOperation : Type := mkEvidenceOperation {
  eo_id : Z; eo_operation_id : string; eo_record_id : string; eo_workflow_type : string;
  eo_workflow_id : string; eo_operation_type : string; eo_record_type : option string;
  eo_payload_json : string; eo_management_audit_tail_sha256 : option string; eo_state : string;
  eo_record_sha256 : option string; eo_error_code : option string; eo_created_at : datetime
}.
#[export] Instance eta_EvidenceOperation : Eta EvidenceOperation := fun r =>
  mkEvidenceOperation (eo_id r) (eo_operation_id r) (eo_record_id r) (eo_workflow_type r)
  (eo_workflow_id r) (eo_operation_type r) (eo_record_type r) (eo_payload_json r)
  (eo_management_audit_tail_sha256 r) (eo_state r) (eo_record_sha256 r) (eo_error_code r)
  (eo_created_at r).
Definition new_EvidenceOperation (now : datetime) : EvidenceOperation :=
  mkEvidenceOperation 0 EmptyString EmptyString EmptyString EmptyString EmptyString None
  EmptyString None "pending"%string None None now.

(** Complete non-secret inventory of known portable recovery packages: table [backup_inventory_records]. *)
Record BackupInventoryRecord : Type := mkBackupInventoryRecord {
  bi_id : Z; bi_package_id : string; bi_package_sha256 : string;
  bi_archive_sha256 : option string; bi_recovery_key_id : option string; bi_status : string;
  bi_created_at : datetime; bi_verified_at : option datetime; bi_confirmed_at : option datetime;
  bi_delete_after : option datetime; bi_replacement_package_id : option string;
  bi_deletion_resolution_sha256 : option string
}.
#[export] Instance eta_BackupInventoryRecord : Eta BackupInventoryRecord := fun r =>
  mkBackupInventoryRecord (bi_id r) (bi_package_id r) (bi_package_sha256 r) (bi_archive_sha256 r)
  (bi_recovery_key_id r) (bi_status r) (bi_created_at r) (bi_verified_at r) (bi_confirmed_at r)
  (bi_delete_after r) (bi_replacement_package_id r) (bi_deletion_resolution_sha256 r).
Definition new_BackupInventoryRecord (now : datetime) : BackupInventoryRecord :=
  mkBackupInventoryRecord 0 EmptyString EmptyString None None "active"%string now None None None
  None None.

(** Minimal durable tombstone preventing stale restoration: table [privacy_action_receipts]. *)
Record PrivacyActionReceipt : Type := mkPrivacyActionReceipt {
  pr_id : Z; pr_privacy_action_id : string; pr_sequence : Z; pr_instance_id : string;
  pr_event_ref : string; pr_subject_ref : option string; pr_action_type : string;
  pr_created_at : datetime; pr_local_applied_at : option datetime;
  pr_peer_confirmed_at : option datetime; pr_retain_until : datetime;
  pr_witness_receipt_sha256 : option string
}.
#[export] Instance eta_PrivacyActionReceipt : Eta PrivacyActionReceipt := fun r =>
  mkPrivacyActionReceipt (pr_id r) (pr_privacy_action_id r) (pr_sequence r) (pr_instance_id r)
  (pr_event_ref r) (pr_subject_ref r) (pr_action_type r) (pr_created_at r)
  (pr_local_applied_at r) (pr_peer_confirmed_at r) (pr_retain_until r)
  (pr_witness_receipt_sha256 r).
Definition new_PrivacyActionReceipt (now : datetime) : PrivacyActionReceipt :=
  mkPrivacyActionReceipt 0 EmptyString 0 EmptyString EmptyString None EmptyString now None None
  now None.

(** Singleton cluster identity and generation used to prevent stale writers: table [ha_cluster_state]. *)
Record HAClusterState : Type := mkHAClusterState {
  hc_id : Z; hc_cluster_id : string; hc_generation : Z; hc_active_node_id : string;
  hc_maintenance : bool
}.
#[export] Instance eta_HAClusterState : Eta HAClusterState := fun r =>
  mkHAClusterState (hc_id r) (hc_cluster_id r) (hc_generation r) (hc_active_node_id r)
  (hc_maintenance r).
Definition new_HAClusterState (now : datetime) : HAClusterState :=
  mkHAClusterState 0 EmptyString 0 EmptyString false.

(** Durable state for one mutation that must be accepted by the standby: table [ha_protection_operations]. *)
Record HAProtectionOperation : Type := mkHAProtectionOperation {
  ho_id : string; ho_idempotency_key : string; ho_operation_type : string;
  ho_resource_type : string; ho_resource_id : option string; ho_mutation_sequence : Z;
  ho_state : string; ho_stage : string; ho_accepted_bundle_id : option string;
  ho_accepted_bundle_sha256 : option string; ho_accepted_generation : option Z;
  ho_error_code : option string; ho_created_at : datetime; ho_updated_at : datetime;
  ho_accepted_at : option datetime; ho_cancelled_at : option datetime
}.
#[export] Instance eta_HAProtectionOperation : Eta HAProtectionOperation := fun r =>
  mkHAProtectionOperation (ho_id r) (ho_idempotency_key r) (ho_operation_type r)
  (ho_resource_type r) (ho_resource_id r) (ho_mutation_sequence r) (ho_state r) (ho_stage r)
  (ho_accepted_bundle_id r) (ho_accepted_bundle_sha256 r) (ho_accepted_generation r)
  (ho_error_code r) (ho_created_at r) (ho_updated_at r) (ho_accepted_at r) (ho_cancelled_at r).
Definition new_HAProtectionOperation (now : datetime) : HAProtectionOperation :=
  mkHAProtectionOperation EmptyString EmptyString EmptyString EmptyString None 0 "pending"%string
  "queued"%string None None None None now now None None.

(** Immutable copy of exactly one published governance configuration: table [governance_publications]. *)
Record GovernancePublication : Type := mkGovernancePublication {
  gv_id : Z; gv_version : Z; gv_content_json : string; gv_content_sha256 : string;
  gv_source_json : string; gv_source_sha256 : string; gv_published_by_id : option Z;
  gv_published_at : datetime; gv_supersedes_version : option Z; gv_material_change : bool;
  gv_change_summary_json : string
}.
#[export] Instance eta_GovernancePublication : Eta GovernancePublication := fun r =>
  mkGovernancePublication (gv_id r) (gv_version r) (gv_content_json r) (gv_content_sha256 r)
  (gv_source_json r) (gv_source_sha256 r) (gv_published_by_id r) (gv_published_at r)
  (gv_supersedes_version r) (gv_material_change r) (gv_change_summary_json r).
Definition new_GovernancePublication (now : datetime) : GovernancePublication :=
  mkGovernancePublication 0 0 EmptyString EmptyString "{}"%string
  "0000000000000000000000000000000000000000000000000000000000000000"%string None now None true
  "[]"%string.

(** Short-lived entity and action-bound proof-of-possession challenge: table [evidence_key_registration_challenges]. *)
Record EvidenceKeyRegistrationChallenge : Type := mkEvidenceKeyRegistrationChallenge {
  kc_id : Z; kc_challenge_id : string; kc_purpose : string; kc_instance_id : string;
  kc_entity_id : string; kc_event_id : option Z; kc_event_evidence_id : option string;
  kc_event_display_name : option string; kc_display_label : option string;
  kc_public_key : string; kc_public_key_sha256 : string; kc_key_id : string; kc_role : string;
  kc_supersedes_key_id : option string; kc_rotation_reason : option string;
  kc_challenge_json : string; kc_challenge_sha256 : string; kc_action_sha256 : string;
  kc_possession_proof_sha256 : option string; kc_previous_proof_sha256 : option string;
  kc_root_ceremony_id : option string; kc_expires_at : datetime; kc_used_at : option datetime;
  kc_created_at : datetime
}.
#[export] Instance eta_EvidenceKeyRegistrationChallenge : Eta EvidenceKeyRegistrationChallenge := fun r =>
  mkEvidenceKeyRegistrationChallenge (kc_id r) (kc_challenge_id r) (kc_purpose r)
  (kc_instance_id r) (kc_entity_id r) (kc_event_id r) (kc_event_evidence_id r)
  (kc_event_display_name r) (kc_display_label r) (kc_public_key r) (kc_public_key_sha256 r)
  (kc_key_id r) (kc_role r) (kc_supersedes_key_id r) (kc_rotation_reason r) (kc_challenge_json r)
  (kc_challenge_sha256 r) (kc_action_sha256 r) (kc_possession_proof_sha256 r)
  (kc_previous_proof_sha256 r) (kc_root_ceremony_id r) (kc_expires_at r) (kc_used_at r)
  (kc_created_at r).
Definition new_EvidenceKeyRegistrationChallenge (now : datetime) : EvidenceKeyRegistrationChallenge :=
  mkEvidenceKeyRegistrationChallenge 0 EmptyString EmptyString EmptyString EmptyString None None
  None None EmptyString EmptyString EmptyString EmptyString None None EmptyString EmptyString
  EmptyString None None None now None now.

(** Singleton status row for root monitoring and restart evidence: table [retention_scheduler_state]. *)
Record RetentionSchedulerState : Type := mkRetentionSchedulerState {
  rs_id : Z; rs_cycle_count : Z; rs_last_started_at : option datetime;
  rs_last_completed_at : option datetime; rs_last_success_at : option datetime;
  rs_last_result : option string; rs_last_error_code : option string;
  rs_last_counts_json : option string
}.
#[export] Instance eta_RetentionSchedulerState : Eta RetentionSchedulerState := fun r =>
  mkRetentionSchedulerState (rs_id r) (rs_cycle_count r) (rs_last_started_at r)
  (rs_last_completed_at r) (rs_last_success_at r) (rs_last_result r) (rs_last_error_code r)
  (rs_last_counts_json r).
Definition new_RetentionSchedulerState : RetentionSchedulerState :=
  mkRetentionSchedulerState 1 0 None None None None None None.

(** Local acknowledgement of the permitted-data policy, never consent: table [data_policy_acknowledgements]. *)
Record DataPolicyAcknowledgement : Type := mkDataPolicyAcknowledgement {
  dp_id : Z; dp_user_id : option Z; dp_event_id : option Z; dp_policy_version : Z;
  dp_policy_sha256 : string; dp_scope : string; dp_acknowledged_at : datetime;
  dp_superseded_at : option datetime
}.
#[export] Instance eta_DataPolicyAcknowledgement : Eta DataPolicyAcknowledgement := fun r =>
  mkDataPolicyAcknowledgement (dp_id r) (dp_user_id r) (dp_event_id r) (dp_policy_version r)
  (dp_policy_sha256 r) (dp_scope r) (dp_acknowledged_at r) (dp_superseded_at r).
Definition new_DataPolicyAcknowledgement (now : datetime) : DataPolicyAcknowledgement :=
  mkDataPolicyAcknowledgement 0 None None 0 EmptyString EmptyString now None.

(** A reusable, expiring link to selected Public Schedule views: table [public_schedule_links]. *)
Record PublicScheduleLink : Type := mkPublicScheduleLink {
  pl_id : Z; pl_event_id : Z; pl_token_hash : string; pl_description : string;
  pl_expires_at : datetime; pl_invalidated_at : option datetime; pl_created_by_id : option Z;
  pl_created_at : option datetime
}.
#[export] Instance eta_PublicScheduleLink : Eta PublicScheduleLink := fun r =>
  mkPublicScheduleLink (pl_id r) (pl_event_id r) (pl_token_hash r) (pl_description r)
  (pl_expires_at r) (pl_invalidated_at r) (pl_created_by_id r) (pl_created_at r).
Definition new_PublicScheduleLink (now : datetime) : PublicScheduleLink :=
  mkPublicScheduleLink 0 0 EmptyString EmptyString now None None (Some now).

(** One Public Schedule view permitted by a sharing link: table [public_schedule_link_views]. *)
Record PublicScheduleLinkView : Type := mkPublicScheduleLinkView {
  pv_id : Z; pv_link_id : Z; pv_external_view_id : Z; pv_view_name_snapshot : string;
  pv_sort_order_snapshot : spec_float
}.
#[export] Instance eta_PublicScheduleLinkView : Eta PublicScheduleLinkView := fun r =>
  mkPublicScheduleLinkView (pv_id r) (pv_link_id r) (pv_external_view_id r)
  (pv_view_name_snapshot r) (pv_sort_order_snapshot r).
Definition new_PublicScheduleLinkView (now : datetime) : PublicScheduleLinkView :=
  mkPublicScheduleLinkView 0 0 0 EmptyString (S754_zero false).
(** One processor-signed acknowledgement of an exact published policy: table [processor_policy_acknowledgements]. *)
Record ProcessorPolicyAcknowledgement : Type := mkProcessorPolicyAcknowledgement {
  pk_id : Z; pk_acknowledgement_id : string; pk_instance_id : string;
  pk_event_evidence_id : string; pk_entity_id : string; pk_key_id : string;
  pk_policy_version : Z; pk_policy_sha256 : string; pk_document_json : string;
  pk_document_sha256 : string; pk_signature_sha256 : string;
  pk_evidence_package_json : option string; pk_evidence_package_sha256 : option string;
  pk_acknowledged_at : datetime; pk_instance_record_sha256 : option string;
  pk_created_at : datetime
}.
#[export] Instance eta_ProcessorPolicyAcknowledgement : Eta ProcessorPolicyAcknowledgement := fun r =>
  mkProcessorPolicyAcknowledgement (pk_id r) (pk_acknowledgement_id r) (pk_instance_id r)
  (pk_event_evidence_id r) (pk_entity_id r) (pk_key_id r) (pk_policy_version r)
  (pk_policy_sha256 r) (pk_document_json r) (pk_document_sha256 r) (pk_signature_sha256 r)
  (pk_evidence_package_json r) (pk_evidence_package_sha256 r) (pk_acknowledged_at r)
  (pk_instance_record_sha256 r) (pk_created_at r).
Definition new_ProcessorPolicyAcknowledgement (now : datetime) : ProcessorPolicyAcknowledgement :=
  mkProcessorPolicyAcknowledgement 0 EmptyString EmptyString EmptyString EmptyString EmptyString
  0 EmptyString EmptyString EmptyString EmptyString None None now None now.
