(* ===== verification/EvidenceManifest.v ===== *)
(** The evidence ledger of [deploy/evidence/evidence_manifest.py]: strict
    reading and canonical printing of records, the privacy whitelist of payload
    fields, signing and appending one record, and the verification of a whole
    chain.  A ledger directory is the list of its entries; OpenSSH is the
    parameter [ssh_sign]/[ssh_verify].  File modes, [fsync] and the advisory lock
    (which makes one append atomic with respect to another) have no counterpart. *)
From Stdlib Require Import Ascii String.
From stdpp Require Import base list strings.
From S2P Require Import Prelude Text Json Sha256 PyTime.

Definition FORMAT : string := "mp-opt-evidence-record-v1".
Definition NAMESPACE : string := "mp-opt-evidence-v1".
Definition MAX_MANIFEST_BYTES : Z := 64 * 1024.
Definition GENESIS : string := "GENESIS".
Definition SHA256_RE : regex := rep 64 hex_lower.
Definition KEY_ID_RE : regex := seq_r (lit "ek-") (rep 16 hex_lower).
Definition SAFE_ENUM_RE : regex :=
  seq_r (cls [("a", "z")]%char)
    (rep_opt 63 (cls ([("a", "z"); ("0", "9")]%char ++ one_of "_.-"))).
Definition GIT_DIGEST_RE : regex := alt_r (rep 40 hex_lower) (rep 64 hex_lower).
Definition REPOSITORY_ID_RE : regex := seq_r (cls [("1", "9")]%char) (rep_opt 19 digit_cls).
Definition SUBMISSION_RE : regex := seq_r (lit "sub-") (rep 32 hex_lower).
Definition CONTROLLER_RE : regex :=
  seq_r (lit "ctl-") (rep_range 8 48 (cls [("a", "z"); ("0", "9")]%char)).

(** [RECORD_TYPES] *)
Definition RECORD_TYPES : list string :=
  ["instance.initialised"; "key.rotated"; "trust_key.registered"; "trust_key.rotated";
   "trust_key.revoked"; "commissioning.recovery_key_acknowledged"; "commissioning.completed";
   "account.processing_consent_recorded"; "desktop.policy_acknowledged";
   "data_subject.deletion.requested"; "data_subject.deletion.withdrawn";
   "data_subject.deletion.accepted"; "data_subject.deletion.rejected";
   "data_subject.access_revoked"; "data_subject.live_data_purged"; "deletion.peer_confirmed";
   "deletion.clean_backup_verified"; "deletion.peer_snapshot_resolution_remediated";
   "deletion.event_requested"; "deletion.event_accepted"; "deletion.event_access_revoked";
   "deletion.desktop_work_order_created"; "deletion.desktop_report_received";
   "deletion.desktop_copy_resolution"; "deletion.desktop_absence_confirmed";
   "deletion.desktop_actions_resolved"; "deletion.event_live_data_purged";
   "deletion.backup_inventory_resolved"; "deletion.backup_not_applicable";
   "deletion.checklist_created"; "deletion.checklist_approved"; "deletion.completed";
   "backup.export_confirmed"; "backup.superseded"; "evidence.bundle_exported";
   "evidence.archive_trust_bound"; "evidence.git_anchor_imported";
   "evidence.git_archive_completed"; "privacy_action.created"]%string.

(** [TOP_LEVEL_FIELDS] *)
Definition TOP_LEVEL_FIELDS : list string :=
  ["format"; "instance_id"; "chain_id"; "sequence"; "record_id"; "record_type"; "created_at";
   "signer"; "previous_record_sha256"; "management_audit_tail_sha256"; "payload"]%string.

(** [SIGNER_FIELDS] *)
Definition SIGNER_FIELDS : list string :=
  ["key_id"; "role"]%string.

(** [SIGNER_ROLES] *)
Definition SIGNER_ROLES : list string :=
  ["instance"]%string.

(** [PAYLOAD_FIELDS] *)
Definition PAYLOAD_FIELDS : list string :=
  ["request_id"; "case_id"; "case_type"; "event_ref"; "subject_ref"; "work_order_id";
   "operation"; "request_type"; "identity_verification"; "initiation_reason";
   "verification_method"; "normal_response_due_at"; "submitted_at"; "policy_response_due_at";
   "access_revocation_due_at"; "status"; "outcome"; "topology"; "decision_code";
   "receipt_sha256"; "package_id"; "package_sha256"; "archive_sha256";
   "replacement_package_id"; "replacement_package_sha256"; "verified_at"; "completed_at";
   "retain_until"; "peer_confirmed_at"; "privacy_action_id"; "privacy_action_sequence";
   "action_type"; "key_id"; "key_role"; "previous_key_id"; "new_key_id"; "public_key_sha256";
   "chain_head_sha256"; "bundle_sha256"; "bundle_id"; "generation"; "error_code";
   "report_sha256"; "checklist_sha256"; "approval_sha256"; "executor_approval_sha256";
   "processor_approval_sha256"; "outstanding_backup_ids"; "outstanding_actions"; "actions";
   "outstanding_live_stores"; "request_manifest_sha256"; "acceptance_receipt_sha256";
   "access_revocation_receipt_sha256"; "live_purge_receipt_sha256"; "privacy_action_sha256";
   "peer_confirmation_sha256"; "replacement_backup_receipt_sha256";
   "controller_approval_sha256"; "package_ids"; "checklist_version"; "role";
   "challenge_sha256"; "proof_sha256"; "previous_proof_sha256"; "signature_sha256";
   "reason_code"; "anchor_id"; "repository_id"; "git_commit_sha"; "controller_key_id";
   "controller_role"; "instance_id"; "entity_id"; "processor_entity_id"; "processor_key_id";
   "processor_assignment_id"; "local_resolution_id"; "peer_snapshot_resolution_id";
   "snapshotted_key_id"; "completed_key_id"; "snapshotted_public_key_sha256";
   "completed_public_key_sha256"; "algorithm"; "root_credential_id_sha256";
   "root_action_sha256"; "root_authorisation"; "server_verification"; "ledger_signer_role";
   "statement_sha256"; "document_sha256"; "evidence_package_sha256"; "policy_sha256";
   "recipient_sha256"; "trust_establishment_sha256"; "checks_sha256";
   "previous_chain_head_sha256"; "download_acknowledged"; "local_reimport_verified";
   "trust_scope"; "governance_authorisation"; "deletion_receipt_sha256";
   "copy_resolution_sha256"; "desktop_processor_receipts"; "server_receipts";
   "clean_backup_sha256"; "backup_not_applicable_sha256"; "local_resolution_sha256";
   "peer_snapshot_resolution_sha256"; "peer_resolution_digest";
   "original_final_receipt_sha256"; "peer_node_id"; "local_snapshot_count";
   "retained_local_snapshot_count"; "peer_retained_local_snapshot_count";
   "peer_superseded_local_snapshot_receipt_sha256s";
   "superseded_local_snapshot_receipt_sha256s"; "superseded_portable_package_ids";
   "policy_version"; "disposition"; "signed_at"; "submission_id"; "controller_id";
   "pull_request_number"; "pull_request_head_sha"; "merge_commit_sha"; "archive_status";
   "reconciled_at"; "archive_repository_id"; "evidence_operation_id";
   "evidence_workflow_type"; "evidence_workflow_id"; "evidence_operation_type"]%string.

(** [UUID_FIELDS] *)
Definition UUID_FIELDS : list string :=
  ["request_id"; "case_id"; "event_ref"; "subject_ref"; "work_order_id"; "package_id";
   "bundle_id"; "replacement_package_id"; "privacy_action_id"; "evidence_operation_id";
   "anchor_id"; "repository_id"; "instance_id"; "processor_assignment_id";
   "local_resolution_id"; "peer_snapshot_resolution_id"]%string.

(** [HASH_FIELDS] *)
Definition HASH_FIELDS : list string :=
  ["receipt_sha256"; "package_sha256"; "archive_sha256"; "replacement_package_sha256";
   "report_sha256"; "checklist_sha256"; "approval_sha256"; "executor_approval_sha256";
   "processor_approval_sha256"; "public_key_sha256"; "chain_head_sha256"; "bundle_sha256";
   "request_manifest_sha256"; "acceptance_receipt_sha256"; "access_revocation_receipt_sha256";
   "live_purge_receipt_sha256"; "privacy_action_sha256"; "peer_confirmation_sha256";
   "replacement_backup_receipt_sha256"; "controller_approval_sha256"; "challenge_sha256";
   "proof_sha256"; "previous_proof_sha256"; "signature_sha256"; "root_credential_id_sha256";
   "evidence_package_sha256"; "root_action_sha256"; "statement_sha256"; "document_sha256";
   "policy_sha256"; "recipient_sha256"; "trust_establishment_sha256"; "checks_sha256";
   "previous_chain_head_sha256"; "deletion_receipt_sha256"; "copy_resolution_sha256";
   "snapshotted_public_key_sha256"; "completed_public_key_sha256"; "clean_backup_sha256";
   "backup_not_applicable_sha256"; "local_resolution_sha256";
   "peer_snapshot_resolution_sha256"; "peer_resolution_digest";
   "original_final_receipt_sha256"]%string.

(** [TIMESTAMP_FIELDS] *)
Definition TIMESTAMP_FIELDS : list string :=
  ["normal_response_due_at"; "submitted_at"; "policy_response_due_at";
   "access_revocation_due_at"; "verified_at"; "completed_at"; "retain_until";
   "peer_confirmed_at"; "signed_at"; "reconciled_at"]%string.

Definition evidence_error {A} (m : string) : outcome A := raise EvidenceError m.
Definition line_feed : string := String (chr 10) EmptyString.
Definition carriage_return : string := String (chr 13) EmptyString.

(** ** Reading and printing *)

(** [_reject_duplicate_keys] *)
Fixpoint reject_duplicate_keys (seen : list string) (pairs : list (string * json)) : outcome unit :=
  match pairs with
  | [] => Ok tt
  | (k, _) :: pairs =>
      if str_in k seen then evidence_error ("duplicate JSON property: " +:+ k)
      else reject_duplicate_keys (k :: seen) pairs
  end.
Definition _reject_duplicate_keys (pairs : list (string * json)) : outcome json :=
  _ ← reject_duplicate_keys [] pairs; Ok (JObj pairs).

Definition _reject_float (value : string) : outcome json :=
  evidence_error ("floating-point numbers are forbidden: " +:+ value).

Definition evidence_hooks : hooks := Hooks _reject_duplicate_keys _reject_float _reject_float.

Definition load_json_bytes (raw : string) : outcome (list (string * json)) :=
  _ ← raise_if (MAX_MANIFEST_BYTES <? byte_length raw) EvidenceError "manifest exceeds 64 KiB";
  _ ← raise_if (negb (utf8_valid raw)) EvidenceError "manifest must be UTF-8";
  _ ← raise_if (contains carriage_return raw) EvidenceError "manifest must use LF line endings";
  match loads_with evidence_hooks raw with
  | Ok (JObj value) => Ok value
  | Ok _ => evidence_error "manifest must be a JSON object"
  | Raise e =>
      if bool_decide (exn_cls e = JSONDecodeError)
      then evidence_error ("invalid JSON: " +:+ exn_msg e) else Raise e
  end.

Definition reject_string (s : string) : outcome unit :=
  _ ← raise_if (any_char (fun c => zord c <? 32) s) EvidenceError "control characters are forbidden";
  raise_if (512 <? strlen s) EvidenceError "string value exceeds 512 characters".

Fixpoint _reject_values (value : json) : outcome unit :=
  match value with
  | JFloat _ => evidence_error "floating-point numbers are forbidden"
  | JNull | JBool _ | JInt _ => Ok tt
  | JStr s => reject_string s
  | JList l =>
      _ ← raise_if (256 <? Z.of_nat (length l)) EvidenceError "array exceeds 256 entries";
      for_each _reject_values l
  | JObj d =>
      _ ← raise_if (128 <? Z.of_nat (length d)) EvidenceError "object exceeds 128 properties";
      for_each (fun kv => _ ← reject_string kv.1; _reject_values kv.2) d
  end.

(** The text of a canonical record, as bytes. *)
Definition canonical_json (value : list (string * json)) : outcome string :=
  _ ← _reject_values (JObj value);
  let encoded := dumps_compact_sorted (JObj value) +:+ line_feed in
  _ ← raise_if (negb (utf8_valid encoded)) UnicodeEncodeError "surrogates not allowed";
  _ ← raise_if (MAX_MANIFEST_BYTES <? byte_length encoded) EvidenceError "manifest exceeds 64 KiB";
  Ok encoded.

(** ** Identifiers and timestamps *)

(** [int(s, 16)] on code points: white space around, a sign, a [0x] prefix and
    single underscores between digits are accepted. *)
Definition hex_point (c : Z) : option Z :=
  if in_rng 97 102 c then Some (c - 87) else if in_rng 65 70 c then Some (c - 55) else uni_digit c.
Fixpoint hex_digits (under : bool) (acc : Z) (l : list Z) : option Z :=
  match l with
  | [] => if under then None else Some acc
  | c :: l =>
      match hex_point c with
      | Some v => hex_digits false (16 * acc + v) l
      | None => if (c =? 95) && negb under then hex_digits true acc l else None
      end
  end.
Definition int_base16 (l : list Z) : option Z :=
  let l := List.rev (drop_while uni_space (List.rev (drop_while uni_space l))) in
  let l := match l with c :: l' => if c =? 43 then l' else l | [] => l end in
  let '(prefixed, l) :=
    match l with
    | z :: x :: l' => if (z =? 48) && ((x =? 120) || (x =? 88)) then (true, l') else (false, l)
    | _ => (false, l)
    end in
  let l := match l with u :: l' => if prefixed && (u =? 95) then l' else l | [] => l end in
  match l with
  | c :: _ => match hex_point c with Some _ => hex_digits false 0 l | None => None end
  | [] => None
  end.

(** [uuid.UUID(value).int] *)
Definition parse_uuid (value : string) : option Z :=
  let hex := replace "uuid:" EmptyString (replace "urn:" EmptyString value) in
  let brace c := Ascii.eqb c "{" || Ascii.eqb c "}" in
  let hex := replace "-" EmptyString (strip_p brace hex) in
  if strlen hex =? 32 then int_base16 (code_points hex) else None.

Fixpoint hex_fixed (n : nat) (z : Z) (acc : string) : string :=
  match n with
  | O => acc
  | S n => hex_fixed n (z / 16) (String (hexdigit (z mod 16)) acc)
  end.
(** [str(uuid.UUID(int=z))] *)
Definition uuid_string (z : Z) : string :=
  let h := hex_fixed 32 z EmptyString in
  String.substring 0 8 h +:+ "-" +:+ String.substring 8 4 h +:+ "-" +:+
  String.substring 12 4 h +:+ "-" +:+ String.substring 16 4 h +:+ "-" +:+
  String.substring 20 12 h.

Definition _canonical_uuid (value : json) (field : string) : outcome string :=
  match value with
  | JStr s =>
      match parse_uuid s with
      | None => evidence_error (field +:+ " must be a UUID")
      | Some z => if String.eqb (uuid_string z) s then Ok s
                  else evidence_error (field +:+ " must use canonical lower-case UUID form")
      end
  | _ => evidence_error (field +:+ " must be a UUID string")
  end.

Definition TIMESTAMP_RE : regex :=
  let d n := rep n backslash_d in
  seq_r (d 4%nat) (seq_r (lit "-") (seq_r (d 2%nat) (seq_r (lit "-") (seq_r (d 2%nat) (seq_r (lit "T")
    (seq_r (d 2%nat) (seq_r (lit ":") (seq_r (d 2%nat) (seq_r (lit ":") (seq_r (d 2%nat) (lit "Z"))))))))))).

(** The two-digit fields of [strptime], whose first digit is ASCII. *)
Definition two_digits (ok : Z -> Z -> bool) (a b : Z) : outcome Z :=
  match uni_digit b with
  | Some v =>
      if in_rng 48 57 a && ok (a - 48) b then Ok (10 * (a - 48) + v)
      else raise ValueError "time data does not match format '%Y-%m-%dT%H:%M:%SZ'"
  | None => raise ValueError "time data does not match format '%Y-%m-%dT%H:%M:%SZ'"
  end.
Definition year_value (l : list Z) : outcome Z :=
  match mapM uni_digit l with
  | Some ds => Ok (fold_left (fun acc d => 10 * acc + d) ds 0)
  | None => raise ValueError "time data does not match format '%Y-%m-%dT%H:%M:%SZ'"
  end.

(** [datetime.strptime(value, "%Y-%m-%dT%H:%M:%SZ")] on a text of that shape. *)
Definition strptime_Z (l : list Z) : outcome datetime :=
  y ← year_value (firstn 4 l);
  m ← two_digits (fun t u => ((t =? 1) && in_rng 48 50 u) || ((t =? 0) && in_rng 49 57 u))
        (char_at 5 l) (char_at 6 l);
  d ← two_digits (fun t u => ((t =? 3) && in_rng 48 49 u) || (t =? 1) || (t =? 2) ||
                              ((t =? 0) && in_rng 49 57 u)) (char_at 8 l) (char_at 9 l);
  h ← two_digits (fun t u => ((t =? 2) && in_rng 48 51 u) || (t =? 0) || (t =? 1))
        (char_at 11 l) (char_at 12 l);
  mi ← two_digits (fun t u => t <=? 5) (char_at 14 l) (char_at 15 l);
  s ← two_digits (fun t u => (t <=? 5) || ((t =? 6) && in_rng 48 49 u)) (char_at 17 l) (char_at 18 l);
  make_datetime y m d h mi s 0 None.

Definition _timestamp (now : Z) (value : json) (field : string) (reject_future : bool)
  : outcome datetime :=
  match value with
  | JStr s =>
      if negb (fullmatch TIMESTAMP_RE s)
      then evidence_error (field +:+ " must be a UTC RFC 3339 timestamp ending in Z")
      else
        parsed ← strptime_Z (code_points s);
        let parsed := replace_utc parsed in
        if reject_future && (now + 5 * us_minute <? instant parsed)
        then evidence_error (field +:+ " is more than five minutes in the future")
        else Ok parsed
  | _ => evidence_error (field +:+ " must be a UTC RFC 3339 timestamp ending in Z")
  end.

Definition canonical_public_key (public_key : string) : outcome string :=
  match split_ws (strip public_key) with
  | kind :: body :: _ =>
      if String.eqb kind "ssh-ed25519" then Ok (kind +:+ " " +:+ body)
      else evidence_error "evidence keys must be OpenSSH Ed25519 public keys"
  | _ => evidence_error "evidence keys must be OpenSSH Ed25519 public keys"
  end.

Definition key_id (public_key : string) : outcome string :=
  canonical ← canonical_public_key public_key;
  Ok ("ek-" +:+ take_bytes 16 (sha256 canonical)).

(** ** Validation *)

Fixpoint insert_string (x : string) (l : list string) : list string :=
  match l with [] => [x] | y :: l' => if key_le x y then x :: l else y :: insert_string x l' end.
(** [sorted] on texts *)
Definition sort_strings (l : list string) : list string := fold_right insert_string [] l.

Definition str_matches (r : regex) (v : json) : bool :=
  match v with JStr s => fullmatch r s | _ => false end.

(** [isinstance(v, int) and not isinstance(v, bool)] and a bound *)
Definition int_where (p : Z -> bool) (v : json) : bool :=
  match v with JInt z => p z | _ => false end.

Definition check (c : bool) (m : string) : outcome unit := raise_if (negb c) EvidenceError m.
Definition index_path (path : string) (i : Z) : string := path +:+ "[" +:+ string_of_Z i +:+ "]".

(** One entry of a list value that is not an object. *)
Definition validate_entry (field path : string) (entry : json) : outcome unit :=
  if str_in field ["package_ids"; "outstanding_backup_ids"; "superseded_portable_package_ids"]%string
  then _ ← _canonical_uuid entry path; Ok tt
  else if str_in field ["superseded_local_snapshot_receipt_sha256s";
                        "peer_superseded_local_snapshot_receipt_sha256s"]%string
  then check (str_matches SHA256_RE entry) (path +:+ " must be a lower-case SHA-256 digest")
  else check (str_matches SAFE_ENUM_RE entry) (path +:+ " entries must be bounded enums").

(** The field-specific rules; [None] when the value itself decides. *)
Definition validate_typed_field (field path : string) (item : json) : option (outcome unit) :=
  if str_in field UUID_FIELDS then Some (_ ← _canonical_uuid item path; Ok tt)
  else if String.eqb field "evidence_workflow_id" then
    Some (if negb (is_str item) then evidence_error (path +:+ " must be a bounded identifier")
          else match _canonical_uuid item path with
               | Ok _ => Ok tt
               | Raise e =>
                   if exn_isa (exn_cls e) EvidenceError
                   then check (str_matches KEY_ID_RE item)
                          (path +:+ " must be a UUID or evidence key ID")
                   else Raise e
               end)
  else if str_in field HASH_FIELDS then
    Some (check (str_matches SHA256_RE item) (path +:+ " must be a lower-case SHA-256 digest"))
  else if str_in field TIMESTAMP_FIELDS then
    Some (_ ← _timestamp 0 item path false; Ok tt)
  else if String.eqb field "git_commit_sha" then
    Some (check (str_matches GIT_DIGEST_RE item) (path +:+ " must be a Git object digest"))
  else if str_in field ["pull_request_head_sha"; "merge_commit_sha"]%string then
    Some (check (str_matches GIT_DIGEST_RE item) (path +:+ " must be a Git object digest"))
  else if String.eqb field "archive_repository_id" then
    Some (check (str_matches REPOSITORY_ID_RE item) (path +:+ " must be a numeric repository ID"))
  else if String.eqb field "submission_id" then
    Some (check (str_matches SUBMISSION_RE item) (path +:+ " must be an archive submission ID"))
  else if String.eqb field "controller_id" then
    Some (check (str_matches CONTROLLER_RE item) (path +:+ " must be a controller ID"))
  else if String.eqb field "pull_request_number" then
    Some (check (int_where (fun z => (1 <=? z) && (z <=? 2147483647)) item)
            (path +:+ " must be a positive pull request number"))
  else if String.eqb field "local_snapshot_count" then
    Some (check (int_where (fun z => z =? 1) item) (path +:+ " must be exactly one"))
  else if String.eqb field "retained_local_snapshot_count" then
    Some (check (int_where (fun z => 1 <=? z) item) (path +:+ " must be a positive snapshot count"))
  else if String.eqb field "peer_retained_local_snapshot_count" then
    Some (check (int_where (fun z => 0 <=? z) item)
            (path +:+ " must be a non-negative snapshot count"))
  else None.

Definition unknown_fields (d : list (string * json)) (known : list string) : list string :=
  List.filter (fun k => negb (str_in k known)) (dkeys d).

(** The entries of a list value, from index [i]; objects are validated by [vp]. *)
Section Entries.
Context (vp : string -> json -> outcome unit) (field path : string).

Fixpoint validate_entries (i : Z) (l : list json) : outcome unit :=
  match l with
  | [] => Ok tt
  | entry :: l =>
      _ ← match entry with
          | JObj _ => vp (index_path path i) entry
          | _ => validate_entry field (index_path path i) entry
          end;
      validate_entries (i + 1) l
  end.
End Entries.

(** [_validate_payload]: only whitelisted fields, each with a machine-checkable
    value; no free text reaches a record. *)
Fixpoint _validate_payload (path : string) (value : json) : outcome unit :=
  match value with
  | JObj d =>
      let unknown := unknown_fields d PAYLOAD_FIELDS in
      _ ← raise_if (negb (Nat.eqb (length unknown) 0)) EvidenceError
            ("unknown " +:+ path +:+ " properties: " +:+ join ", " (sort_strings unknown));
      for_each (fun kv =>
        let child_path := path +:+ "." +:+ kv.1 in
        match validate_typed_field kv.1 child_path kv.2 with
        | Some r => r
        | None =>
            match kv.2 with
            | JObj _ => _validate_payload child_path kv.2
            | JList l =>
                _ ← raise_if (256 <? Z.of_nat (length l)) EvidenceError
                      (child_path +:+ " has too many entries");
                validate_entries _validate_payload kv.1 child_path 0 l
            | JStr s =>
                _ ← raise_if (String.eqb kv.1 "error_code" && negb (fullmatch SAFE_ENUM_RE s))
                      EvidenceError (child_path +:+ " must be an enumerated error code");
                check (fullmatch SAFE_ENUM_RE s)
                  (child_path +:+ " must be a bounded enum, not free text")
            | JBool _ | JInt _ => Ok tt
            | JNull | JFloat _ => evidence_error (child_path +:+ " contains an unsupported value")
            end
        end) d
  | _ => evidence_error "payload must be an object"
  end.

(** [record[key]] *)
Definition item (k : string) (d : list (string * json)) : outcome json :=
  match dget k d with Some v => Ok v | None => raise KeyError k end.

(** [value in frozenset_of_strings]: a list or object is not hashable. *)
Definition in_frozenset (v : json) (l : list string) : outcome bool :=
  match v with
  | JStr s => Ok (str_in s l)
  | JList _ | JObj _ => raise TypeError "unhashable type"
  | _ => Ok false
  end.

Definition missing_fields (d : list (string * json)) (required : list string) : list string :=
  List.filter (fun k => negb (has_key k d)) required.

Definition validate_signer (signer : json) : outcome unit :=
  match signer with
  | JObj s =>
      _ ← check (keys_are s SIGNER_FIELDS) "signer must contain exactly key_id and role";
      _ ← check (str_matches KEY_ID_RE (dget_or_null "key_id" s)) "invalid signer key ID";
      role_known ← in_frozenset (dget_or_null "role" s) SIGNER_ROLES;
      check role_known "invalid signer role"
  | _ => evidence_error "signer must contain exactly key_id and role"
  end.

Definition validate_record (now : Z) (record : list (string * json)) : outcome unit :=
  let unknown := unknown_fields record TOP_LEVEL_FIELDS in
  let missing := missing_fields record TOP_LEVEL_FIELDS in
  _ ← raise_if (negb (Nat.eqb (length unknown) 0) || negb (Nat.eqb (length missing) 0)) EvidenceError
        ("invalid record fields; missing=" +:+ join ", " (sort_strings missing) +:+
         ", unknown=" +:+ join ", " (sort_strings unknown));
  format ← item "format" record;
  _ ← check (py_eq format (JStr FORMAT)) "unsupported evidence format";
  instance ← item "instance_id" record;
  _ ← _canonical_uuid instance "instance_id";
  chain ← item "chain_id" record;
  _ ← _canonical_uuid chain "chain_id";
  rid ← item "record_id" record;
  _ ← _canonical_uuid rid "record_id";
  sequence ← item "sequence" record;
  _ ← check (int_where (fun z => 1 <=? z) sequence) "sequence must be a positive integer";
  record_type ← item "record_type" record;
  known ← in_frozenset record_type RECORD_TYPES;
  _ ← check known "unknown evidence record type";
  created ← item "created_at" record;
  _ ← _timestamp now created "created_at" true;
  signer ← item "signer" record;
  _ ← validate_signer signer;
  previous ← item "previous_record_sha256" record;
  _ ← check (py_eq previous (JStr GENESIS) || str_matches SHA256_RE previous)
        "invalid previous record digest";
  audit_tail ← item "management_audit_tail_sha256" record;
  _ ← check (is_null audit_tail || str_matches SHA256_RE audit_tail)
        "invalid management audit tail digest";
  payload ← item "payload" record;
  _ ← _validate_payload "payload" payload;
  _ ← canonical_json record;
  Ok tt.

(** ** Files *)

Inductive node : Type :=
| Regular (raw : string)
| Symlink
| Special.

Abbreviation dir := (list (string * node)).

(** [_safe_regular_file(path, max_bytes=...)]; [name] is the path shown. *)
Definition _safe_regular_file (name : string) (n : option node) (max_bytes : Z) : outcome string :=
  match n with
  | None => raise FileNotFoundError name
  | Some Symlink => evidence_error ("symlinks are forbidden: " +:+ name)
  | Some Special => evidence_error ("not a regular file: " +:+ name)
  | Some (Regular raw) =>
      if max_bytes <? byte_length raw
      then evidence_error ("file exceeds size limit: " +:+ name) else Ok raw
  end.

Definition KEY_FILE_BYTES : Z := 32 * 1024.

Definition load_record (now : Z) (name : string) (n : option node) (require_canonical : bool)
  : outcome (list (string * json) * string) :=
  raw ← _safe_regular_file name n MAX_MANIFEST_BYTES;
  record ← load_json_bytes raw;
  _ ← validate_record now record;
  canonical ← canonical_json record;
  _ ← raise_if (require_canonical && negb (String.eqb raw canonical)) EvidenceError
        ("record is not canonical JSON: " +:+ name);
  Ok (record, canonical).

(** [public_key.decode("ascii")] *)
Definition decode_ascii (raw : string) : outcome string :=
  if is_ascii raw then Ok raw else raise UnicodeDecodeError "ordinal not in range(128)".

Definition read_public_key (public_key : option node) : outcome string :=
  raw ← _safe_regular_file "public_key" public_key KEY_FILE_BYTES;
  text ← decode_ascii raw;
  canonical_public_key text.

(** The ledger entries [sorted(ledger.glob("[0-9]*12_*.json"))] selects. *)
Definition ends_with (suffix s : string) : bool :=
  startswith (rev_string suffix EmptyString) (rev_string s EmptyString).
Definition record_name (s : string) : bool :=
  all_chars is_digit (take_bytes 12 s) && (12 <? byte_length s) &&
  String.eqb (String.substring 12 1 s) "_" && ends_with ".json" s && (18 <=? byte_length s).
Definition record_paths (ledger : dir) : list string :=
  sort_strings (List.filter record_name (dkeys ledger)).
Definition sequence_name (sequence : Z) (record_id : string) : string :=
  pad 12 sequence +:+ "_" +:+ record_id +:+ ".json".
Definition sig_name (s : string) : string := s +:+ ".sig".
(** [list(ledger.glob("[0-9]*12_<record_id>.json"))] *)
Definition paths_of_record (record_id : string) (ledger : dir) : list string :=
  List.filter (fun s => all_chars is_digit (take_bytes 12 s) &&
    String.eqb s (take_bytes 12 s +:+ "_" +:+ record_id +:+ ".json") &&
    (byte_length (take_bytes 12 s) =? 12)) (dkeys ledger).

(** [_atomic_write]: the entry is replaced as a whole. *)
Definition _atomic_write (name raw : string) : M dir unit := fun ledger =>
  match dget name ledger with
  | Some Symlink => (raise EvidenceError ("refusing to replace symlink: " +:+ name), ledger)
  | _ => (Ok tt, dset name (Regular raw) ledger)
  end.
(** [path.unlink(missing_ok=True)] *)
Definition unlink (name : string) : M dir unit := modify (dpop name).

Section Ledger.
(** [ssh-keygen -Y sign -f key -n namespace] on a content: the armoured
    signature, or a non-zero exit. *)
Context (ssh_sign : string -> string -> string -> option string).
(** [ssh-keygen -Y verify -f allowed -I identity -n namespace -s sig] *)
Context (ssh_verify : string -> string -> string -> string -> string -> bool).

(** [sign_file(path, private_key)]: leaves [path.sig] beside the file. *)
Definition sign_file (name : string) (private_key : option node) : M dir string := fun ledger =>
  match
    (raw ← _safe_regular_file name (dget name ledger) MAX_MANIFEST_BYTES;
     key ← _safe_regular_file "private_key" private_key KEY_FILE_BYTES;
     match ssh_sign key NAMESPACE raw with
     | None => evidence_error "OpenSSH evidence signing failed"
     | Some s => Ok s
     end)
  with
  | Raise e => (Raise e, ledger)
  | Ok s =>
      let ledger := dset (sig_name name) (Regular s) ledger in
      (_ ← _safe_regular_file (sig_name name) (dget (sig_name name) ledger) KEY_FILE_BYTES;
       Ok (sig_name name), ledger)
  end.

Definition allowed_signers (identity public : string) : string :=
  identity +:+ " namespaces=" +:+ String dquote (NAMESPACE +:+ String dquote (" " +:+ public +:+ line_feed)).

Definition verify_file (name : string) (file signature public_key : option node) : outcome unit :=
  raw ← _safe_regular_file name file MAX_MANIFEST_BYTES;
  sg ← _safe_regular_file (sig_name name) signature KEY_FILE_BYTES;
  public ← read_public_key public_key;
  expected_key_id ← key_id public;
  check (ssh_verify (allowed_signers expected_key_id public) expected_key_id NAMESPACE sg raw)
    "OpenSSH evidence signature verification failed".

Definition verify_at (ledger : dir) (public_key : option node) (name : string) : outcome unit :=
  verify_file name (dget name ledger) (dget (sig_name name) ledger) public_key.

(** The body of the loop of [verify_chain]: one record, given the number, the
    digest and the identity the chain so far expects of it. *)
Definition verify_step (now : Z) (ledger : dir) (public_key : option node) (path : string)
  (sequence : Z) (expected_previous : string) (ids : option (json * json))
  : outcome (string * (json * json)) :=
  _ ← raise_if (negb (String.eqb (hd EmptyString (split_on "_" path)) (pad 12 sequence)))
        EvidenceError "evidence filenames are not contiguous";
  '(record, raw) ← load_record now path (dget path ledger) true;
  number ← item "sequence" record;
  _ ← raise_if (negb (py_eq number (JInt sequence))) EvidenceError
        "record sequence does not match filename";
  previous ← item "previous_record_sha256" record;
  _ ← raise_if (negb (py_eq previous (JStr expected_previous))) EvidenceError
        "evidence chain digest mismatch";
  chain ← item "chain_id" record;
  instance ← item "instance_id" record;
  ids ← match ids with
        | None => Ok (chain, instance)
        | Some (c, i) =>
            if negb (py_eq chain c) || negb (py_eq instance i)
            then evidence_error "record belongs to another instance or chain"
            else Ok (c, i)
        end;
  _ ← verify_at ledger public_key path;
  Ok (sha256 raw, ids).

Fixpoint verify_records (now : Z) (ledger : dir) (public_key : option node) (paths : list string)
  (sequence : Z) (expected_previous : string) (ids : option (json * json))
  : outcome (string * option (json * json)) :=
  match paths with
  | [] => Ok (expected_previous, ids)
  | path :: paths =>
      r ← verify_step now ledger public_key path sequence expected_previous ids;
      verify_records now ledger public_key paths (sequence + 1) r.1 (Some r.2)
  end.

(** [real] tells that the path is a directory and not a symbolic link. *)
Definition verify_chain (now : Z) (real : bool) (ledger : dir) (public_key : option node)
  : outcome (list (string * json)) :=
  _ ← raise_if (negb real) EvidenceError "ledger must be a real directory";
  let records := record_paths ledger in
  _ ← raise_if (Nat.eqb (length records) 0) EvidenceError "evidence ledger is empty";
  '(head, ids) ← verify_records now ledger public_key records 1 GENESIS None;
  Ok [("valid", JBool true); ("records", JInt (Z.of_nat (length records)));
      ("instance_id", match ids with Some (_, i) => i | None => JNull end);
      ("chain_id", match ids with Some (c, _) => c | None => JNull end);
      ("head_sha256", JStr head)]%string.

(** The arguments of one append. *)
Record append_args : Type := AppendArgs {
  a_instance_id : string;
  a_chain_id : string;
  a_record_type : string;
  a_payload : list (string * json);
  a_audit_tail : option string;
  a_record_id : option string;
  a_created_at : option string
}.

(** The reuse of a record ID: the same evidence is found again, anything else
    is refused. *)
Definition existing_record (now : Z) (args : append_args) (public_key : option node)
  (ledger : dir) (path : string) : outcome string :=
  '(current, _) ← load_record now path (dget path ledger) true;
  instance ← item "instance_id" current;
  chain ← item "chain_id" current;
  record_type ← item "record_type" current;
  payload ← item "payload" current;
  audit_tail ← item "management_audit_tail_sha256" current;
  _ ← raise_if (negb (py_eq instance (JStr (a_instance_id args)))
                || negb (py_eq chain (JStr (a_chain_id args)))
                || negb (py_eq record_type (JStr (a_record_type args)))
                || negb (py_eq payload (JObj (a_payload args)))
                || negb (py_eq audit_tail (of_opt_str (a_audit_tail args))))
        EvidenceError "record ID was already used for different evidence";
  _ ← verify_at ledger public_key path;
  Ok path.

(** The digest the next record links to. *)
Definition previous_digest (now : Z) (ledger : dir) (records : list string) : outcome string :=
  match last records with
  | None => Ok GENESIS
  | Some path =>
      '(previous_record, previous_raw) ← load_record now path (dget path ledger) true;
      number ← item "sequence" previous_record;
      _ ← raise_if (negb (py_eq number (JInt (Z.of_nat (length records))))) EvidenceError
            "existing evidence chain sequence is inconsistent";
      Ok (sha256 previous_raw)
  end.

Definition build_record (args : append_args) (now sequence : Z) (record_id previous key : string)
  : list (string * json) :=
  [("format", JStr FORMAT);
   ("instance_id", JStr (a_instance_id args));
   ("chain_id", JStr (a_chain_id args));
   ("sequence", JInt sequence);
   ("record_id", JStr record_id);
   ("record_type", JStr (a_record_type args));
   ("created_at", JStr (match a_created_at args with
                        | Some c => if truthy_str c then c else strftime_Z (utc_at now)
                        | None => strftime_Z (utc_at now) end));
   ("signer", JObj [("key_id", JStr key); ("role", JStr "instance")]);
   ("previous_record_sha256", JStr previous);
   ("management_audit_tail_sha256", of_opt_str (a_audit_tail args));
   ("payload", JObj (a_payload args))]%string.

Definition chain_head (args : append_args) (sequence : Z) (digest : string)
  : list (string * json) :=
  [("chain_id", JStr (a_chain_id args)); ("head_sha256", JStr digest);
   ("instance_id", JStr (a_instance_id args)); ("sequence", JInt sequence)]%string.

(** Signing, checking and publishing the record just written. *)
Definition seal_record (args : append_args) (private_key public_key : option node)
  (sequence : Z) (destination canonical : string) : M dir unit :=
  sig ← sign_file destination private_key;
  ledger ← get;
  signature_raw ← lift (_safe_regular_file sig (dget sig ledger) KEY_FILE_BYTES);
  _ ← unlink sig;
  _ ← _atomic_write (sig_name destination) signature_raw;
  ledger ← get;
  _ ← lift (verify_at ledger public_key destination);
  head ← lift (canonical_json (chain_head args sequence (sha256 canonical)));
  _atomic_write "chain-head.json" head.

Definition append_record (now : Z) (real : bool) (fresh_id : string) (args : append_args)
  (private_key public_key : option node) : M dir string :=
  _ ← lift (_canonical_uuid (JStr (a_instance_id args)) "instance_id");
  _ ← lift (_canonical_uuid (JStr (a_chain_id args)) "chain_id");
  _ ← match a_record_id args with
      | Some r => _ ← lift (_canonical_uuid (JStr r) "record_id"); mret tt
      | None => mret tt
      end;
  _ ← match a_created_at args with
      | Some c => _ ← lift (_timestamp now (JStr c) "created_at" true); mret tt
      | None => mret tt
      end;
  _ ← throw_if (negb real) EvidenceError "ledger must be a real directory";
  ledger ← get;
  let records := record_paths ledger in
  let existing := match a_record_id args with
                  | Some r => head (paths_of_record r ledger)
                  | None => None
                  end in
  match existing with
  | Some path => lift (existing_record now args public_key ledger path)
  | None =>
      let sequence := Z.of_nat (length records) + 1 in
      previous ← lift (previous_digest now ledger records);
      public ← lift (read_public_key public_key);
      key ← lift (key_id public);
      let record_id := match a_record_id args with
                       | Some r => if truthy_str r then r else fresh_id
                       | None => fresh_id
                       end in
      let record := build_record args now sequence record_id previous key in
      _ ← lift (validate_record now record);
      let destination := sequence_name sequence record_id in
      canonical ← lift (canonical_json record);
      _ ← _atomic_write destination canonical;
      _ ← on_exception
            (seal_record args private_key public_key sequence destination canonical)
            (_ ← unlink destination; unlink (sig_name destination));
      mret destination
  end.

(** [_load_payload] of the command line. *)
Definition _load_payload (n : option node) : outcome (list (string * json)) :=
  raw ← _safe_regular_file "payload" n MAX_MANIFEST_BYTES;
  value ← load_json_bytes raw;
  _ ← _validate_payload "payload" (JObj value);
  Ok value.
End Ledger.
