(* ===== verification/EvidenceFacts.v ===== *)
(** Lemmas on the evidence ledger: validation and canonical text do not depend
    on key order, a canonical record reads back, and how one append changes the
    entries of a ledger. *)
From Stdlib Require Import Ascii String.
From stdpp Require Import base list strings.
From S2P Require Import Prelude Text TextFacts Json JsonFacts Sha256 PyTime EvidenceManifest.

(** ** Validation does not depend on key order *)

Lemma raise_if_ok c k m : raise_if c k m = Ok tt <-> c = false.
Proof. by destruct c. Qed.

Lemma check_ok c m : check c m = Ok tt <-> c = true.
Proof. by destruct c. Qed.

Lemma bind_ok_iff {A} (m : outcome A) (k : A -> outcome unit) :
  m ≫= k = Ok tt <-> exists a, m = Ok a /\ k a = Ok tt.
Proof. destruct m; cbn; split; [eauto | by intros (? & E & ?); simplify_eq | done | by intros (? & ? & ?)]. Qed.

Lemma bind_unit_ok (m k : outcome unit) : (m ≫= fun _ => k) = Ok tt <-> m = Ok tt /\ k = Ok tt.
Proof. destruct m as [[]|]; cbn; split; [auto | by intros [_ ?] | done | by intros [? _]]. Qed.

Lemma reject_values_sort v : _reject_values (sort_keys v) = Ok tt <-> _reject_values v = Ok tt.
Proof.
  induction v as [|b|z|f|s|l HP|l HP] using json_rect'; try done.
  - cbn. rewrite !bind_unit_ok, !for_each_ok, length_map, Forall_map.
    apply and_iff_compat_l. induction HP as [|x l Hx HP IH]; [done|].
    rewrite !Forall_cons. by rewrite Hx, IH.
  - change (sort_keys (JObj l)) with (JObj (sort_dict l)). cbn.
    rewrite !bind_unit_ok, !for_each_ok, length_sort_dict, Forall_sort_dict.
    apply and_iff_compat_l. induction HP as [|x l Hx HP IH]; [done|].
    rewrite !Forall_cons, IH. apply and_iff_compat_r. cbn. by rewrite !bind_unit_ok, Hx.
Qed.

Lemma canonical_json_sort d raw :
  canonical_json d = Ok raw -> canonical_json (sort_dict d) = Ok raw.
Proof.
  unfold canonical_json. change (JObj (sort_dict d)) with (sort_keys (JObj d)). intros H.
  apply bind_Ok_inv in H as ([] & Hr & H). rewrite (proj2 (reject_values_sort _) Hr).
  cbn [mbind outcome_bind]. unfold dumps_compact_sorted in *. by rewrite sort_keys_idem.
Qed.

(** A value that sorting leaves as it is. *)
Definition scalar (v : json) : bool := match v with JList _ | JObj _ => false | _ => true end.
Lemma sort_scalar v : scalar v = true -> sort_keys v = v.
Proof. by destruct v. Qed.

Lemma canonical_uuid_str v f s : _canonical_uuid v f = Ok s -> v = JStr s.
Proof.
  unfold _canonical_uuid. destruct v; try done. destruct (parse_uuid s0); [|done].
  destruct (String.eqb _ _); [by intros [= ->] | done].
Qed.

Lemma str_matches_str r v : str_matches r v = true -> exists s, v = JStr s /\ fullmatch r s = true.
Proof. destruct v; try done. eauto. Qed.

(** The success of a field check tells that the value is a string or number. *)
Lemma validate_typed_scalar f p v : validate_typed_field f p v = Some (Ok tt) -> scalar v = true.
Proof.
  unfold validate_typed_field, check, int_where. intros H.
  repeat match type of H with
  | context [if ?b then Some _ else _] => destruct b
  end; try discriminate H; injection H as H; destruct v; done.
Qed.

Lemma validate_typed_none f p v : validate_typed_field f p v = None ->
  forall p' v', validate_typed_field f p' v' = None.
Proof.
  unfold validate_typed_field. intros H p' v'.
  repeat match type of H with
  | context [if ?b then Some _ else _] => destruct b; [done|]
  end. done.
Qed.

(** One member of a payload object. *)
Definition member_ok (path : string) (kv : string * json) : Prop :=
  match validate_typed_field kv.1 (path +:+ "." +:+ kv.1) kv.2 with
  | Some r => r = Ok tt
  | None =>
      match kv.2 with
      | JObj _ => _validate_payload (path +:+ "." +:+ kv.1) kv.2 = Ok tt
      | JList l => Z.of_nat (length l) <= 256 /\
                   validate_entries _validate_payload kv.1 (path +:+ "." +:+ kv.1) 0 l = Ok tt
      | JStr s => fullmatch SAFE_ENUM_RE s = true
      | JBool _ | JInt _ => True
      | JNull | JFloat _ => False
      end
  end.

Lemma unknown_none d known :
  Nat.eqb (length (unknown_fields d known)) 0 = true <-> Forall (fun k => str_in k known = true) (dkeys d).
Proof.
  unfold unknown_fields. induction (dkeys d) as [|k l IH]; cbn; [done|].
  rewrite Forall_cons. destruct (str_in k known); cbn; [by rewrite IH; split; [auto | intros [_ ?]] | by split; [|intros [? _]]].
Qed.

Lemma validate_payload_obj path d :
  _validate_payload path (JObj d) = Ok tt <->
  Forall (fun k => str_in k PAYLOAD_FIELDS = true) (dkeys d) /\ Forall (member_ok path) d.
Proof.
  cbn [_validate_payload]. rewrite bind_unit_ok, raise_if_ok, negb_false_iff, unknown_none, for_each_ok.
  apply and_iff_compat_l. apply Forall_iff. intros [k v]. unfold member_ok. cbn [fst snd].
  destruct (validate_typed_field _ _ _) as [r|]; [done|].
  destruct v as [|b|z|f|s|l|l]; cbv iota beta; try done.
  - rewrite bind_unit_ok, raise_if_ok, check_ok.
    destruct (fullmatch SAFE_ENUM_RE s); [|split; [intros [_ H]; exact H | intros H; discriminate H]].
    change (negb true) with false. rewrite andb_false_r. tauto.
  - rewrite bind_unit_ok, raise_if_ok, Z.ltb_ge. done.
Qed.

Definition payload_sort_ok (v : json) : Prop :=
  forall path, _validate_payload path (sort_keys v) = Ok tt <-> _validate_payload path v = Ok tt.

Lemma validate_entries_sort field path i l :
  Forall payload_sort_ok l ->
  validate_entries _validate_payload field path i (map sort_keys l) = Ok tt <->
  validate_entries _validate_payload field path i l = Ok tt.
Proof.
  intros H. revert i. induction H as [|x l Hx H IH]; intros i; [done|]. cbn [map validate_entries].
  rewrite !bind_unit_ok, IH. apply and_iff_compat_r.
  destruct x as [| | | | | |d]; try done. exact (Hx _).
Qed.

Lemma validate_payload_sort v : payload_sort_ok v.
Proof.
  enough (payload_sort_ok v /\ match v with JList l => Forall payload_sort_ok l | _ => True end) by tauto.
  induction v as [|b|z|f|s|l HP|d HP] using json_rect'; try done.
  - split; [done|]. eapply Forall_impl; [exact HP|]. by intros x [Hx _].
  - split; [|done]. intros path. change (sort_keys (JObj d)) with (JObj (sort_dict d)).
    rewrite !validate_payload_obj, dkeys_sort_dict, Forall_sort_dict. apply and_iff_compat_l.
    induction HP as [|[k v] d Hv HP IH]; [done|]. rewrite !Forall_cons, IH. apply and_iff_compat_r.
    unfold member_ok. cbn [fst snd] in *. set (p := path +:+ "." +:+ k).
    destruct (validate_typed_field k p v) as [r|] eqn:E.
    + destruct (scalar v) eqn:Es; [by rewrite (sort_scalar v Es), E|].
      destruct (validate_typed_field k p (sort_keys v)) as [r'|] eqn:E'.
      * assert (scalar (sort_keys v) = false) as Es' by by destruct v.
        split; intros ->; [apply validate_typed_scalar in E' | apply validate_typed_scalar in E]; congruence.
      * by rewrite (validate_typed_none _ _ _ E') in E.
    + rewrite (validate_typed_none _ _ _ E p (sort_keys v)). destruct v as [|b|z|f|s|l|l]; try done.
      * cbn [sort_keys]. by rewrite length_map, validate_entries_sort by apply Hv.
      * apply Hv.
Qed.

Lemma item_sort k d v :
  NoDup (dkeys d) -> item k d = Ok v -> item k (sort_dict d) = Ok (sort_keys v).
Proof.
  intros Hd. unfold item. rewrite dget_sort_dict by done.
  destruct (dget k d); cbn; [by intros [= ->] | done].
Qed.

Lemma item_dget k d v : item k d = Ok v <-> dget k d = Some v.
Proof. unfold item, raise. destruct (dget k d); naive_solver. Qed.

Lemma has_key_sort k d : has_key k (sort_dict d) = has_key k d.
Proof.
  unfold has_key, str_in. apply eq_bool_prop_intro. rewrite !Is_true_true, !existsb_exists.
  by setoid_rewrite <-list_elem_of_In; setoid_rewrite dkeys_sort_dict.
Qed.

Lemma missing_sort d ks : missing_fields (sort_dict d) ks = missing_fields d ks.
Proof. unfold missing_fields. apply List.filter_ext. intros k. by rewrite has_key_sort. Qed.

Lemma unknown_sort d ks :
  Nat.eqb (length (unknown_fields (sort_dict d) ks)) 0 = Nat.eqb (length (unknown_fields d ks)) 0.
Proof.
  apply eq_bool_prop_intro. rewrite !Is_true_true, !unknown_none. by rewrite dkeys_sort_dict.
Qed.

Lemma keys_are_sort d ks : keys_are (sort_dict d) ks = keys_are d ks.
Proof.
  unfold keys_are, keys_cover, keys_within. f_equal.
  - rewrite (forallb_perm _ _ _ (sort_dict_perm d)).
    induction d as [|x d IH]; cbn; [done|]. by rewrite IH.
  - induction ks as [|k ks IH]; cbn; [done|]. by rewrite has_key_sort, IH.
Qed.

Lemma in_frozenset_true v l : in_frozenset v l = Ok true -> scalar v = true.
Proof. by destruct v. Qed.

Lemma timestamp_scalar now v f b d : _timestamp now v f b = Ok d -> scalar v = true.
Proof. by destruct v. Qed.

Lemma bind_item_sort {A} k d v (f : json -> outcome A) :
  NoDup (dkeys d) -> item k d = Ok v -> item k (sort_dict d) ≫= f = f (sort_keys v).
Proof. intros Hd Hv. by rewrite (item_sort _ _ _ Hd Hv). Qed.

Lemma validate_signer_sort v :
  match v with JObj s => NoDup (dkeys s) | _ => True end ->
  validate_signer v = Ok tt -> validate_signer (sort_keys v) = Ok tt.
Proof.
  destruct v as [| | | | | |s]; try done. intros Hd H.
  change (sort_keys (JObj s)) with (JObj (sort_dict s)). unfold validate_signer in *.
  apply bind_unit_ok in H as [H1 H]. apply bind_unit_ok in H as [H2 H].
  apply bind_ok_iff in H as (b & H3 & H4). apply check_ok in H4 as ->.
  rewrite keys_are_sort, H1. cbn [mbind outcome_bind].
  unfold dget_or_null in *. rewrite !dget_sort_dict by done.
  destruct (dget "key_id" s) as [ki|]; [|done]. destruct (dget "role" s) as [ro|]; [|done].
  cbn [option_map]. apply check_ok in H2. destruct (str_matches_str _ _ H2) as (x & -> & Hx).
  rewrite (sort_scalar ro) by by eapply in_frozenset_true.
  cbn [sort_keys str_matches]. rewrite Hx, H3. done.
Qed.

(** Read the next field of a record in a successful run and in the goal. *)
Ltac open_item H Hd v Hv :=
  apply bind_ok_iff in H as (v & Hv & H); rewrite (bind_item_sort _ _ _ _ Hd Hv).

(** What a valid record says of its fields; sorting keys keeps all of it. *)
Lemma validate_record_sort now d :
  json_ok (fun _ => true) (JObj d) = true ->
  validate_record now d = Ok tt -> validate_record now (sort_dict d) = Ok tt.
Proof.
  intros Hok H. cbn [json_ok] in Hok. apply andb_true_iff in Hok as [Hd Hsub].
  apply bool_decide_eq_true in Hd. rewrite forallb_forall in Hsub.
  assert (forall k v, item k d = Ok v -> json_ok (fun _ => true) v = true) as Hitem.
  { intros k v Hv%item_dget%dget_elem%list_elem_of_In. by apply (Hsub (k, v)). }
  unfold validate_record in *. rewrite missing_sort, unknown_sort.
  apply bind_unit_ok in H as [Hf H]. apply raise_if_ok in Hf. rewrite Hf. cbn [raise_if mbind outcome_bind].
  open_item H Hd v1 H1. apply bind_unit_ok in H as [H2 H]. apply check_ok in H2.
  rewrite (sort_scalar v1) by by destruct v1. rewrite H2. cbn [check negb raise_if mbind outcome_bind].
  do 3 (open_item H Hd v Hv; apply bind_ok_iff in H as (? & Hu & H);
        pose proof (canonical_uuid_str _ _ _ Hu); subst v; cbn [sort_keys]; rewrite Hu;
        cbn [mbind outcome_bind]; clear Hu Hv).
  open_item H Hd sq Hsq. apply bind_unit_ok in H as [H3 H]. apply check_ok in H3.
  rewrite (sort_scalar sq) by by destruct sq. rewrite H3. cbn [check negb raise_if mbind outcome_bind].
  open_item H Hd rt Hrt. apply bind_ok_iff in H as (kn & H4 & H). apply bind_unit_ok in H as [H5 H].
  apply check_ok in H5 as ->. rewrite (sort_scalar rt), H4 by by eapply in_frozenset_true.
  cbn [check negb raise_if mbind outcome_bind].
  open_item H Hd cr Hcr. apply bind_ok_iff in H as (ts & H6 & H).
  rewrite (sort_scalar cr), H6 by by eapply timestamp_scalar. cbn [mbind outcome_bind].
  open_item H Hd sg Hsg. apply bind_unit_ok in H as [H7 H].
  rewrite validate_signer_sort; [|apply Hitem in Hsg; destruct sg; try done|done].
  2: { cbn [json_ok] in Hsg. by bool_norm. }
  cbn [mbind outcome_bind].
  open_item H Hd pv Hpv. apply bind_unit_ok in H as [H8 H]. apply check_ok in H8.
  rewrite (sort_scalar pv) by by destruct pv. rewrite H8. cbn [check negb raise_if mbind outcome_bind].
  open_item H Hd at_ Hat. apply bind_unit_ok in H as [H9 H]. apply check_ok in H9.
  rewrite (sort_scalar at_) by by destruct at_. rewrite H9. cbn [check negb raise_if mbind outcome_bind].
  open_item H Hd pl Hpl. apply bind_unit_ok in H as [H10 H].
  rewrite (proj2 (validate_payload_sort pl "payload") H10). cbn [mbind outcome_bind].
  apply bind_ok_iff in H as (raw & H11 & _). by rewrite (canonical_json_sort _ _ H11).
Qed.

(** ** Canonical text reads back *)

Definition visible (c : ascii) : bool := 32 <=? zord c.

Lemma escape_visible s : all_chars visible (escape s) = true.
Proof.
  induction s as [|c s IH]; [done|]. cbn [escape]. rewrite all_chars_app, IH, andb_true_r.
  by destruct c as [[] [] [] [] [] [] [] []].
Qed.

Lemma digits_visible d : all_chars is_digit d = true -> all_chars visible d = true.
Proof.
  induction d as [|c d IH]; [done|]. cbn [all_chars]. intros H. bool_norm. rewrite IH by done.
  unfold is_digit, between in H. unfold visible. bool_norm. rewrite andb_true_r. lia.
Qed.

Lemma join_visible sep l :
  all_chars visible sep = true -> Forall (fun s => all_chars visible s = true) l ->
  all_chars visible (join sep l) = true.
Proof.
  intros Hs H. induction H as [|x l Hx H IH]; [done|]. destruct l as [|y l]; [done|].
  change (join sep (x :: y :: l)) with (x +:+ sep +:+ join sep (y :: l)).
  by rewrite !all_chars_app, Hx, Hs, IH.
Qed.

Lemma quote_visible s : all_chars visible (quote escape s) = true.
Proof. unfold quote. cbn [all_chars]. by rewrite all_chars_app, escape_visible. Qed.

Lemma print_visible v :
  json_ok (fun _ => true) v = true -> all_chars visible (print escape "," ":" v) = true.
Proof.
  induction v as [|[]|z|f|s|l HP|l HP] using json_rect'; intros Hok; try done.
  - cbn [print]. destruct (string_of_Z_shape z) as (d & (Hd & _) & [->| ->]);
      cbn [all_chars]; by rewrite digits_visible.
  - apply quote_visible.
  - cbn [print json_ok] in *. rewrite !all_chars_app, join_visible; [done|done|].
    apply Forall_map. rewrite forallb_forall in Hok. rewrite Forall_forall in *.
    intros x Hx. apply HP; [done|]. by apply Hok, list_elem_of_In.
  - cbn [print json_ok] in *. bool_norm. rewrite !all_chars_app, join_visible; [done|done|].
    apply Forall_map. rewrite forallb_forall in H0. rewrite Forall_forall in *.
    intros x Hx. rewrite !all_chars_app, quote_visible. cbn [andb].
    apply (HP x Hx). apply list_elem_of_In, H0 in Hx. by bool_norm.
Qed.

Lemma no_carriage_return s :
  all_chars visible s = true -> contains carriage_return (s +:+ line_feed) = false.
Proof.
  induction s as [|c s IH]; [done|]. cbn [all_chars]. intros H. bool_norm.
  rewrite app_str_cons. cbn [contains]. rewrite IH by done. rewrite orb_false_r.
  unfold startswith, carriage_return. cbn [String.prefix].
  destruct (ascii_dec (chr 13) c) as [<-|]; [by vm_compute in H | done].
Qed.

Lemma reject_duplicates_nodup seen l :
  NoDup (dkeys l) -> Forall (fun k => k ∉ seen) (dkeys l) -> reject_duplicate_keys seen l = Ok tt.
Proof.
  revert seen. induction l as [|[k v] l IH]; intros seen Hd Hs; [done|]. cbn in *.
  apply NoDup_cons in Hd as [Hn Hd]. apply Forall_cons in Hs as [Hk Hs].
  assert (str_in k seen = false) as ->.
  { unfold str_in. apply not_true_iff_false. rewrite existsb_exists.
    intros (x & Hx & ->%String.eqb_eq). by apply list_elem_of_In in Hx. }
  apply IH; [done|]. rewrite Forall_forall in *. intros x Hx [->|Hin]%elem_of_cons; [done|].
  by apply (Hs x).
Qed.

Lemma evidence_hooks_pairs l : NoDup (dkeys l) -> h_pairs evidence_hooks l = Ok (JObj l).
Proof.
  intros H. cbn. unfold _reject_duplicate_keys. rewrite reject_duplicates_nodup; [done|done|].
  rewrite Forall_forall. intros x _ Hx. by apply elem_of_nil in Hx.
Qed.

(** What [canonical_json] accepts, [load_json_bytes] reads back in key order. *)
Lemma load_canonical d raw :
  json_ok (fun _ => true) (JObj d) = true -> canonical_json d = Ok raw ->
  load_json_bytes raw = Ok (sort_dict d).
Proof.
  intros Hok H. unfold canonical_json in H.
  apply bind_Ok_inv in H as ([] & _ & H). cbv zeta in H.
  apply bind_Ok_inv in H as ([] & Hu%raise_if_Ok_inv & H).
  apply bind_Ok_inv in H as ([] & Hl%raise_if_Ok_inv & [= <-]).
  unfold load_json_bytes. rewrite Hl, Hu. cbn [raise_if mbind outcome_bind].
  rewrite no_carriage_return by (apply print_visible; by rewrite json_ok_sort).
  cbn [raise_if mbind outcome_bind].
  rewrite loads_compact by (done || apply evidence_hooks_pairs). reflexivity.
Qed.

Lemma file_size_ok d raw : canonical_json d = Ok raw -> (MAX_MANIFEST_BYTES <? byte_length raw) = false.
Proof.
  unfold canonical_json. intros H. apply bind_Ok_inv in H as ([] & _ & H).
  apply bind_Ok_inv in H as ([] & _ & H).
  by apply bind_Ok_inv in H as ([] & Hl%raise_if_Ok_inv & [= <-]).
Qed.

(** A record written canonically is loaded back as a valid record. *)
Lemma load_record_canonical now name d raw b :
  json_ok (fun _ => true) (JObj d) = true ->
  validate_record now d = Ok tt -> canonical_json d = Ok raw ->
  load_record now name (Some (Regular raw)) b = Ok (sort_dict d, raw).
Proof.
  intros Hok Hv Hc. unfold load_record, _safe_regular_file.
  rewrite (file_size_ok _ _ Hc). cbn [mbind outcome_bind].
  rewrite (load_canonical _ _ Hok Hc). cbn [mbind outcome_bind].
  rewrite (validate_record_sort _ _ Hok Hv). cbn [mbind outcome_bind].
  rewrite (canonical_json_sort _ _ Hc). cbn [mbind outcome_bind].
  by rewrite String.eqb_refl, andb_false_r.
Qed.
