(* ===== verification/EvidenceChain.v ===== *)
(** The evidence chain: how [verify_records] composes, which entries it looks
    at, the file names of a verified ledger, and the effect of one append. *)
From Stdlib Require Import ZArith Lia Ascii String.
From stdpp Require Import base list strings.
From S2P Require Import Prelude Text TextFacts Json JsonFacts Sha256 PyTime EvidenceManifest EvidenceFacts.

(** ** Names *)

Lemma key_le_iff a b : key_le a b = true <-> String.compare a b <> Gt.
Proof. unfold key_le. destruct (String.compare a b); split; congruence. Qed.

Lemma insert_string_last x l y :
  key_le x y = true -> insert_string x (l ++ [y]) = insert_string x l ++ [y].
Proof.
  intros H. induction l as [|z l IH]; cbn; [by rewrite H|].
  destruct (key_le x z); [done|]. by rewrite IH.
Qed.

(** A name no smaller than the others sorts last. *)
Lemma sort_strings_snoc l y :
  Forall (fun x => key_le x y = true) l -> sort_strings (l ++ [y]) = sort_strings l ++ [y].
Proof.
  unfold sort_strings. induction 1 as [|x l Hx H IH]; [done|].
  cbn [app fold_right]. rewrite IH. by apply insert_string_last.
Qed.

Lemma insert_string_perm x l : insert_string x l ≡ₚ x :: l.
Proof.
  induction l as [|y l IH]; cbn; [done|]. destruct (key_le x y); [done|].
  rewrite IH. apply Permutation_swap.
Qed.

Lemma sort_strings_perm l : sort_strings l ≡ₚ l.
Proof. induction l as [|x l IH]; cbn; [done|]. by rewrite insert_string_perm, IH. Qed.

Lemma split_on_hd c s : exists r, s = hd EmptyString (split_on c s) +:+ r.
Proof.
  induction s as [|a s [r IH]]; [by exists EmptyString|]. cbn [split_on].
  destruct (Ascii.eqb a c); [by exists (String a s)|].
  destruct (split_on c s) as [|w ws]; [exists s; done|]. exists r. cbn [hd] in *.
  rewrite app_str_cons. by f_equal.
Qed.

Lemma split_on_digits d r :
  all_chars is_digit d = true -> hd EmptyString (split_on "_" (d +:+ String "_" r)) = d.
Proof.
  induction d as [|c d IH]; [done|]. cbn [all_chars]. intros H. bool_norm. rewrite app_str_cons.
  cbn [split_on]. destruct (Ascii.eqb_spec c "_") as [->|]; [by vm_compute in H|].
  specialize (IH H0). destruct (split_on _ _) as [|w ws]; cbn [hd] in *; by subst.
Qed.

Definition max_sequence : Z := 10 ^ 12.

Lemma pad12 n : 0 <= n < max_sequence -> pad 12 n = fixed 12 n.
Proof. intros H. apply pad_fixed; [lia | done]. Qed.

Lemma numbered_lt p i j r :
  0 <= i < j -> j < max_sequence -> hd EmptyString (split_on "_" p) = pad 12 i ->
  String.compare p (pad 12 j +:+ r) = Lt.
Proof.
  intros Hi Hj Hp. destruct (split_on_hd "_" p) as [r' ->]. rewrite Hp.
  rewrite !pad12 by lia. rewrite compare_app by by rewrite !fixed_length.
  rewrite fixed_compare by (unfold max_sequence in *; lia).
  by rewrite (proj2 (Z.compare_lt_iff i j)) by lia.
Qed.

Lemma rev_string_app s acc : rev_string s acc = rev_string s EmptyString +:+ acc.
Proof.
  revert acc. induction s as [|c s IH]; intros acc; [done|]. cbn [rev_string].
  rewrite IH, (IH (String c EmptyString)), app_str_assoc. done.
Qed.

Lemma rev_string_app_str a b : rev_string (a +:+ b) EmptyString = rev_string b EmptyString +:+ rev_string a EmptyString.
Proof.
  induction a as [|c a IH]; [by rewrite app_str_nil_r|]. rewrite app_str_cons. cbn [rev_string].
  by rewrite rev_string_app, IH, app_str_assoc, (rev_string_app a (String c EmptyString)).
Qed.

Lemma prefix_app_str a b : startswith a (a +:+ b) = true.
Proof.
  unfold startswith. induction a as [|c a IH]; [by destruct b|]. rewrite app_str_cons.
  change (String.prefix (String c a) (String c (a +:+ b)))
    with (if ascii_dec c c then String.prefix a (a +:+ b) else false).
  destruct (ascii_dec c c) as [_|n]; [exact IH | congruence].
Qed.

Lemma ends_with_app s suffix : ends_with suffix (s +:+ suffix) = true.
Proof. unfold ends_with. rewrite rev_string_app_str. apply prefix_app_str. Qed.

Lemma record_name_sequence n r :
  0 <= n < max_sequence -> record_name (sequence_name n r) = true.
Proof.
  intros Hn. unfold sequence_name. rewrite pad12 by done.
  set (t := "_" +:+ r +:+ ".json"). unfold record_name.
  assert (take_bytes 12 (fixed 12 n +:+ t) = fixed 12 n) as Ht.
  { unfold take_bytes. rewrite <-(fixed_length 12 n) at 1. apply substring_app. }
  assert (String.substring 12 1 (fixed 12 n +:+ t) = "_"%string) as Hu.
  { pose proof (fixed_length 12 n) as Hl. revert Hl. generalize (fixed 12 n). intros s Hl.
    do 12 (destruct s as [|? s]; [discriminate Hl|]). destruct s; [|discriminate Hl]. unfold t.
    by destruct r. }
  rewrite Ht, Hu, fixed_digits. unfold t at 2. rewrite <-!app_str_assoc, ends_with_app.
  unfold byte_length, t. rewrite !length_app_str, fixed_length. cbn [String.length String.eqb andb].
  rewrite !Nat2Z.inj_add. cbn.
  rewrite !andb_true_r. apply andb_true_iff. split; [apply Z.ltb_lt | apply Z.leb_le]; lia.
Qed.

Lemma not_record_sig s : ends_with ".json" (sig_name s) = false.
Proof. unfold ends_with, sig_name. by rewrite rev_string_app_str. Qed.

Lemma record_name_sig s : record_name (sig_name s) = false.
Proof. unfold record_name. rewrite not_record_sig, andb_false_r. done. Qed.

(** ** The verified prefix *)

Section Chain.
Context (ssh_sign : string -> string -> string -> option string).
Context (ssh_verify : string -> string -> string -> string -> string -> bool).
Abbreviation verify := (verify_records ssh_verify).
Abbreviation append := (append_record ssh_sign ssh_verify).

Lemma verify_app now L pub ps qs s prev ids :
  verify now L pub (ps ++ qs) s prev ids =
  r ← verify now L pub ps s prev ids;
  verify now L pub qs (s + Z.of_nat (length ps)) r.1 r.2.
Proof.
  revert s prev ids. induction ps as [|p ps IH]; intros s prev ids.
  - cbn. f_equal. lia.
  - cbn [app verify_records length].
    destruct (verify_step _ _ _ _ _ _ _ _) as [r|e]; [|done]. cbn [mbind outcome_bind].
    rewrite IH. by replace (s + 1 + Z.of_nat (length ps)) with (s + Z.of_nat (S (length ps))) by lia.
Qed.

(** Only the records and their signatures matter. *)
Lemma verify_step_frame now L L' pub p s prev ids :
  dget p L = dget p L' -> dget (sig_name p) L = dget (sig_name p) L' ->
  verify_step ssh_verify now L pub p s prev ids = verify_step ssh_verify now L' pub p s prev ids.
Proof. intros H1 H2. unfold verify_step, verify_at. by rewrite H1, H2. Qed.

Lemma verify_frame now L L' pub ps s prev ids :
  Forall (fun p => dget p L = dget p L' /\ dget (sig_name p) L = dget (sig_name p) L') ps ->
  verify now L pub ps s prev ids = verify now L' pub ps s prev ids.
Proof.
  intros H. revert s prev ids. induction H as [|p ps [H1 H2] H IH]; intros s prev ids; [done|].
  cbn [verify_records]. rewrite (verify_step_frame now L L') by done.
  destruct (verify_step _ _ _ _ _ _ _ _); [apply IH | done].
Qed.

Lemma verify_step_ok now L pub p s prev ids h ids' :
  verify_step ssh_verify now L pub p s prev ids = Ok (h, ids') ->
  hd EmptyString (split_on "_" p) = pad 12 s /\
  exists record raw, load_record now p (dget p L) true = Ok (record, raw) /\
    (exists v, dget "sequence" record = Some v /\ py_eq v (JInt s) = true) /\
    (exists v, dget "previous_record_sha256" record = Some v /\ py_eq v (JStr prev) = true) /\
    h = sha256 raw.
Proof.
  unfold verify_step. intros H. apply bind_Ok_inv in H as ([] & H1%raise_if_Ok_inv & H).
  apply negb_false_iff, String.eqb_eq in H1. split; [done|].
  apply bind_Ok_inv in H as ([record raw] & H2 & H). exists record, raw. split; [done|].
  apply bind_Ok_inv in H as (v & Hv%item_dget & H).
  apply bind_Ok_inv in H as ([] & H3%raise_if_Ok_inv%negb_false_iff & H).
  apply bind_Ok_inv in H as (w & Hw%item_dget & H).
  apply bind_Ok_inv in H as ([] & H4%raise_if_Ok_inv%negb_false_iff & H).
  apply bind_Ok_inv in H as (c & _ & H). apply bind_Ok_inv in H as (i & _ & H).
  apply bind_Ok_inv in H as (ci & _ & H). apply bind_Ok_inv in H as ([] & _ & [= <- _]).
  eauto 10.
Qed.

Lemma verify_numbered now L pub ps s prev ids h ids' :
  verify now L pub ps s prev ids = Ok (h, ids') ->
  Forall (fun p => exists i, s <= i < s + Z.of_nat (length ps) /\
    hd EmptyString (split_on "_" p) = pad 12 i) ps.
Proof.
  revert s prev ids. induction ps as [|p ps IH]; intros s prev ids H; [constructor|].
  cbn [verify_records] in H. apply bind_Ok_inv in H as ([h1 i1] & H1 & H). cbn [length].
  apply verify_step_ok in H1 as [H1 _]. constructor.
  - exists s. split; [lia | done].
  - eapply Forall_impl; [by eapply IH|]. intros q (i & Hi & Hq). exists i. split; [lia | done].
Qed.

(** The digest [append_record] links to is the head [verify_chain] computes. *)
Lemma previous_digest_verified now L pub h ids :
  verify now L pub (record_paths L) 1 GENESIS None = Ok (h, ids) ->
  previous_digest now L (record_paths L) = Ok h.
Proof.
  unfold previous_digest. destruct (last (record_paths L)) as [p|] eqn:E.
  - apply last_Some in E as [ps E]. rewrite E, verify_app. intros H.
    apply bind_Ok_inv in H as ([h1 i1] & _ & H). cbn [verify_records fst snd] in H.
    apply bind_Ok_inv in H as ([h2 i2] & H & [= <- _]).
    apply verify_step_ok in H as (_ & record & raw & -> & (v & Hv & Hs) & _ & ->).
    cbn [mbind outcome_bind]. rewrite (proj2 (item_dget _ _ _) Hv). cbn [mbind outcome_bind].
    rewrite length_app. cbn [length].
    replace (Z.of_nat (length ps + 1)) with (1 + Z.of_nat (length ps)) by lia. by rewrite Hs.
  - apply last_None in E. rewrite E. cbn. by intros [= <- _].
Qed.

(** ** One append *)

Definition untouched (D : string) (L L' : dir) : Prop :=
  forall k, k <> D -> k <> sig_name D -> k <> "chain-head.json"%string -> dget k L' = dget k L.

Definition record_keys (L : dir) : list string := List.filter record_name (dkeys L).

Lemma record_keys_dset k v L :
  record_keys (dset k v L) =
  if record_name k && negb (has_key k L) then record_keys L ++ [k] else record_keys L.
Proof.
  unfold record_keys. rewrite dkeys_dset. destruct (has_key k L); [by rewrite andb_false_r|].
  rewrite List.filter_app. cbn. destruct (record_name k); cbn; [done | by rewrite app_nil_r].
Qed.

Lemma record_keys_dpop k L : record_name k = false -> record_keys (dpop k L) = record_keys L.
Proof.
  intros Hk. unfold record_keys. rewrite dkeys_dpop. induction (dkeys L) as [|q l IH]; [done|].
  cbn. destruct (String.eqb_spec k q) as [<-|]; cbn; [by rewrite Hk|].
  by destruct (record_name q); rewrite IH.
Qed.

Lemma atomic_write_ok D raw L u L' :
  _atomic_write D raw L = (Ok u, L') -> L' = dset D (Regular raw) L.
Proof. unfold _atomic_write. by destruct (dget D L) as [[]|]; intros [= <- <-]. Qed.

Lemma sign_file_ok D key L sig L' :
  sign_file ssh_sign D key L = (Ok sig, L') ->
  sig = sig_name D /\ exists s, L' = dset (sig_name D) (Regular s) L.
Proof.
  unfold sign_file. intros H. destruct (_ ≫= _) as [s|e]; [|done].
  rewrite dget_dset, String.eqb_refl in H. cbn [_safe_regular_file] in H.
  destruct (KEY_FILE_BYTES <? byte_length s); [done|]. cbn in H. injection H as <- <-. eauto.
Qed.

Lemma chain_head_not_record : record_name "chain-head.json" = false.
Proof. reflexivity. Qed.

Lemma sig_not_chain_head D : sig_name D <> "chain-head.json"%string.
Proof. intros E. pose proof (not_record_sig D) as H. by rewrite E in H. Qed.

Lemma sig_name_inj a b : sig_name a = sig_name b -> a = b.
Proof.
  unfold sig_name. intros E. assert (String.length a = String.length b) as Hl.
  { apply (f_equal String.length) in E. rewrite !length_app_str in E. lia. }
  apply (f_equal (String.substring 0 (String.length a))) in E.
  by rewrite substring_app, Hl, substring_app in E.
Qed.

Lemma sig_name_longer D : D <> sig_name D.
Proof. intros E. apply (f_equal String.length) in E. unfold sig_name in E. rewrite length_app_str in E. cbn in E. lia. Qed.

(** Sealing leaves the record, a signature that verifies, and every other
    entry but the head file as it was. *)
Lemma seal_record_ok args sk pk n D canonical L u L' :
  D <> "chain-head.json"%string -> dget D L = Some (Regular canonical) ->
  seal_record ssh_sign ssh_verify args sk pk n D canonical L = (Ok u, L') ->
  dget D L' = Some (Regular canonical) /\ verify_at ssh_verify L' pk D = Ok tt /\
  untouched D L L' /\ record_keys L' = record_keys L.
Proof.
  intros Hdh HL H. unfold seal_record in H.
  assert (D <> sig_name D) as Hds by apply sig_name_longer.
  pose proof (sig_not_chain_head D) as Hsh.
  apply Mbind_Ok_inv in H as (sg & L2 & [-> [s ->]]%sign_file_ok & H).
  apply Mbind_Ok_inv in H as (? & ? & [= <- <-] & H).
  apply Mbind_Ok_inv in H as (s' & ? & [Hs' ->]%lift_Ok_inv & H).
  apply Mbind_Ok_inv in H as ([] & ? & ->%modify_Ok_inv & H).
  apply Mbind_Ok_inv in H as ([] & ? & ->%atomic_write_ok & H).
  apply Mbind_Ok_inv in H as (? & ? & [= <- <-] & H).
  apply Mbind_Ok_inv in H as ([] & ? & [Hv ->]%lift_Ok_inv & H).
  apply Mbind_Ok_inv in H as (head & ? & [_ ->]%lift_Ok_inv & ->%atomic_write_ok).
  apply String.eqb_neq in Hds, Hdh, Hsh. split_and!.
  - by rewrite !dget_dset, dget_dpop, dget_dset, Hdh, Hds, HL.
  - unfold verify_at in *. rewrite !dget_dset in *. rewrite String.eqb_refl in *.
    rewrite Hdh, Hsh in *. exact Hv.
  - intros k Hk1 Hk2 Hk3. apply String.eqb_neq in Hk1, Hk2, Hk3.
    by rewrite !dget_dset, dget_dpop, dget_dset, Hk3, Hk2.
  - rewrite record_keys_dset, chain_head_not_record, record_keys_dset, record_name_sig. cbn [andb].
    by rewrite record_keys_dpop, record_keys_dset, record_name_sig by apply record_name_sig.
Qed.

Lemma append_new now fresh args sk pk L D L' :
  append now true fresh args sk pk L = (Ok D, L') ->
  (exists r, a_record_id args = Some r /\ D ∈ paths_of_record r L /\ L' = L) \/
  exists previous key rid canonical,
    let n := Z.of_nat (length (record_paths L)) + 1 in
    let record := build_record args now n rid previous key in
    previous_digest now L (record_paths L) = Ok previous /\
    validate_record now record = Ok tt /\ canonical_json record = Ok canonical /\
    D = sequence_name n rid /\
    exists L1, L1 = dset D (Regular canonical) L /\
      on_exception (seal_record ssh_sign ssh_verify args sk pk n D canonical)
        (_ ← unlink D; unlink (sig_name D)) L1 = (Ok tt, L') /\
      (forall r, a_record_id args = Some r -> truthy_str r = true -> rid = r).
Proof.
  unfold append_record. intros H.
  apply Mbind_Ok_inv in H as (? & ? & [_ ->]%lift_Ok_inv & H).
  apply Mbind_Ok_inv in H as (? & ? & [_ ->]%lift_Ok_inv & H).
  apply Mbind_Ok_inv in H as (? & L1 & H1 & H).
  assert (L1 = L) as ->.
  { destruct (a_record_id args); [|by apply mret_Ok_inv in H1 as [_ ->]].
    by apply Mbind_Ok_inv in H1 as (? & ? & [_ ->]%lift_Ok_inv & [_ ->]%mret_Ok_inv). }
  apply Mbind_Ok_inv in H as (? & L2 & H2 & H).
  assert (L2 = L) as ->.
  { destruct (a_created_at args); [|by apply mret_Ok_inv in H2 as [_ ->]].
    by apply Mbind_Ok_inv in H2 as (? & ? & [_ ->]%lift_Ok_inv & [_ ->]%mret_Ok_inv). }
  apply Mbind_Ok_inv in H as (? & ? & [_ ->]%throw_if_Ok_inv & H).
  apply Mbind_Ok_inv in H as (? & ? & [= <- <-] & H). cbv zeta in H.
  destruct (match a_record_id args with Some r => head (paths_of_record r L) | None => None end)
    as [p|] eqn:E.
  - left. destruct (a_record_id args) as [r|] eqn:Er; [|done]. exists r.
    apply lift_Ok_inv in H as [H ->]. split; [done|]. split; [|done].
    unfold existing_record in H. apply bind_Ok_inv in H as ([cur raw] & _ & H).
    do 7 apply bind_Ok_inv in H as (? & _ & H). injection H as <-.
    by apply head_Some_elem_of in E.
  - right. apply Mbind_Ok_inv in H as (previous & ? & [Hp ->]%lift_Ok_inv & H).
    apply Mbind_Ok_inv in H as (public & ? & [_ ->]%lift_Ok_inv & H).
    apply Mbind_Ok_inv in H as (key & ? & [_ ->]%lift_Ok_inv & H).
    apply Mbind_Ok_inv in H as ([] & ? & [Hv ->]%lift_Ok_inv & H).
    apply Mbind_Ok_inv in H as (canonical & ? & [Hc ->]%lift_Ok_inv & H).
    apply Mbind_Ok_inv in H as ([] & ? & ->%atomic_write_ok & H).
    apply Mbind_Ok_inv in H as ([] & ? & Hs & [= <- <-]).
    eexists previous, key, _, canonical. cbv zeta. do 4 (split; [done|]).
    eexists. split; [done|]. split; [exact Hs|]. by intros r -> ->.
Qed.

(** [h] and [ids] are what [verify_chain] computes of a ledger: the digest of
    its last record ([GENESIS] when it is empty) and the identity its records
    share. *)
Definition chain_is (now : Z) (pub : option node) (L : dir) (h : string)
  (ids : option (json * json)) : Prop :=
  verify now L pub (record_paths L) 1 GENESIS None = Ok (h, ids).

Lemma record_paths_keys L : record_paths L ≡ₚ record_keys L.
Proof. apply sort_strings_perm. Qed.

Lemma elem_record_paths p L : p ∈ record_paths L <-> record_name p = true /\ has_key p L = true.
Proof.
  rewrite record_paths_keys. unfold record_keys. rewrite list_elem_of_In, filter_In.
  unfold has_key, str_in. rewrite existsb_exists. split.
  - intros [H1 H2]. split; [done|]. exists p. by rewrite String.eqb_refl.
  - intros [H1 (q & Hq & ->%String.eqb_eq)]. done.
Qed.

(** The numbers of a verified ledger fit the twelve digits of its file names. *)
Lemma record_name_split q :
  record_name q = true -> String.length (hd EmptyString (split_on "_" q)) = 12%nat.
Proof.
  unfold record_name, byte_length. intros [[[[Hd Hl%Z.ltb_lt]%andb_true_iff Hu%String.eqb_eq]%andb_true_iff _]%andb_true_iff _]%andb_true_iff.
  do 12 (destruct q as [|? q]; [exfalso; cbn in Hl; lia|]). destruct q as [|c q]; [exfalso; cbn in Hl; lia|].
  change (String c (String.substring 0 0 q) = "_"%string) in Hu. injection Hu as -> _.
  match goal with |- String.length (hd _ (split_on _ ?t)) = _ =>
    change t with (take_bytes 12 t +:+ String "_" q) end.
  rewrite split_on_digits by exact Hd. reflexivity.
Qed.

Lemma chain_room now pub L h ids :
  chain_is now pub L h ids -> Z.of_nat (length (record_paths L)) < max_sequence.
Proof.
  intros Hc. unfold chain_is in Hc. pose proof (elem_record_paths) as He. specialize (fun p => He p L). revert Hc He.
  generalize (record_paths L). intros ps Hc He.
  destruct ps as [|q ps _] using rev_ind; [done|].
  rewrite verify_app in Hc. apply bind_Ok_inv in Hc as ([h1 i1] & _ & Hc). cbn [verify_records] in Hc.
  apply bind_Ok_inv in Hc as ([h2 i2] & Hs & _). apply verify_step_ok in Hs as [Hs _].
  destruct (He q) as [[Hq _] _]; [apply elem_of_app; right; by left|].
  apply record_name_split in Hq. rewrite Hs in Hq. unfold pad in Hq. rewrite length_app_str in Hq.
  rewrite length_app. cbn [length]. assert (1 + Z.of_nat (length ps) < 10 ^ Z.of_nat 12); [|unfold max_sequence; lia].
  apply numeral_bound; [lia|]. lia.
Qed.

(** The name the next record gets is after those of a verified ledger. *)
Lemma next_name_after now pub L h ids rid :
  chain_is now pub L h ids ->
  Z.of_nat (length (record_paths L)) + 1 < max_sequence ->
  let D := sequence_name (Z.of_nat (length (record_paths L)) + 1) rid in
  Forall (fun p => String.compare p D = Lt) (record_paths L).
Proof.
  intros Hc Hn D. apply verify_numbered in Hc. eapply Forall_impl; [exact Hc|].
  intros p (i & Hi & Hp). eapply numbered_lt; [|done|exact Hp]. lia.
Qed.

Lemma next_name_fresh now pub L h ids rid :
  chain_is now pub L h ids ->
  Z.of_nat (length (record_paths L)) + 1 < max_sequence ->
  let D := sequence_name (Z.of_nat (length (record_paths L)) + 1) rid in
  record_name D = true /\ has_key D L = false.
Proof.
  intros Hc Hn D. assert (record_name D = true) as HD by (apply record_name_sequence; lia).
  split; [done|]. apply not_true_iff_false. intros Hk.
  pose proof (next_name_after _ _ _ _ _ rid Hc Hn) as H. rewrite Forall_forall in H.
  specialize (H D). rewrite compare_str_refl in H.
  by discriminate H; apply elem_record_paths.
Qed.

Lemma record_paths_snoc L L' D :
  Forall (fun p => String.compare p D = Lt) (record_paths L) ->
  record_keys L' = record_keys L ++ [D] -> record_paths L' = record_paths L ++ [D].
Proof.
  intros H HK. unfold record_paths in *. fold (record_keys L') (record_keys L) in *.
  rewrite HK. apply sort_strings_snoc. rewrite sort_strings_perm in H.
  eapply Forall_impl; [exact H|]. intros p Hp. unfold key_le. by rewrite Hp.
Qed.

(** The earlier records do not notice a new one. *)
Lemma verify_untouched now pub L L' D s prev ids :
  record_name D = true -> has_key D L = false -> untouched D L L' ->
  verify now L' pub (record_paths L) s prev ids = verify now L pub (record_paths L) s prev ids.
Proof.
  intros HD Hk Hu. apply verify_frame. rewrite Forall_forall. intros p [Hp Hpk]%elem_record_paths.
  assert (p <> D) by (intros ->; congruence).
  split; apply Hu.
  - done.
  - intros ->. by rewrite record_name_sig in Hp.
  - intros ->. done.
  - intros E. rewrite <-E, record_name_sig in HD. done.
  - by intros E%sig_name_inj.
  - apply sig_not_chain_head.
Qed.

Lemma build_record_ok args now n rid prev key :
  0 <= n < max_sequence -> json_ok (fun _ => true) (JObj (a_payload args)) = true ->
  json_ok (fun _ => true) (JObj (build_record args now n rid prev key)) = true.
Proof.
  intros Hn Hp. pose proof (string_of_Z_length n 12 ltac:(lia) Hn).
  cbn [json_ok] in *. apply andb_true_iff. split.
  { change (dkeys _) with ["format"; "instance_id"; "chain_id"; "sequence"; "record_id"; "record_type";
      "created_at"; "signer"; "previous_record_sha256"; "management_audit_tail_sha256"; "payload"]%string.
    reflexivity. }
  cbn [build_record forallb fst snd andb]. change (json_ok (fun _ => true) (JObj (a_payload args)))
    with (bool_decide (NoDup (dkeys (a_payload args))) &&
          forallb (fun kv => true && json_ok (fun _ => true) kv.2) (a_payload args)). rewrite Hp.
  unfold of_opt_str. destruct (a_audit_tail args); cbn [json_ok forallb andb fst snd]; rewrite (proj2 (Z.leb_le _ 4300)) by lia; reflexivity.
Qed.

(** ** One append that fails *)

(** Where a call that fails may leave the ledger different. *)
Definition only_at (ks : list string) (L L' : dir) : Prop :=
  forall k, k ∉ ks -> dget k L' = dget k L.

Lemma atomic_write_raise D raw L e L' : _atomic_write D raw L = (Raise e, L') -> L' = L.
Proof. unfold _atomic_write. by destruct (dget D L) as [[]|]; intros [= _ <-]. Qed.

Lemma sign_file_raise D key L e L' :
  sign_file ssh_sign D key L = (Raise e, L') -> only_at [sig_name D] L L'.
Proof.
  unfold sign_file. intros H k Hk. apply not_elem_of_cons in Hk as [Hk%String.eqb_neq _].
  destruct (_ ≫= _) as [s|e']; injection H as _ <-; [|done]. by rewrite dget_dset, Hk.
Qed.

(** A seal that fails touches at most the signature of the record. *)
Lemma seal_record_raise args sk pk n D canonical L e L' :
  seal_record ssh_sign ssh_verify args sk pk n D canonical L = (Raise e, L') ->
  only_at [sig_name D] L L'.
Proof.
  intros H. unfold seal_record in H.
  apply Mbind_Raise_inv in H as [H%sign_file_raise|(sg & L2 & [-> [s ->]]%sign_file_ok & H)]; [done|].
  apply Mbind_Raise_inv in H as [H|(? & ? & [= <- <-] & H)]; [done|].
  intros k Hk. apply not_elem_of_cons in Hk as [Hk%String.eqb_neq _].
  apply Mbind_Raise_inv in H as [[_ ->]%lift_snd|(s' & ? & [_ ->]%lift_Ok_inv & H)];
    [by rewrite dget_dset, Hk|].
  apply Mbind_Raise_inv in H as [H|([] & ? & ->%modify_Ok_inv & H)]; [done|].
  apply Mbind_Raise_inv in H as [->%atomic_write_raise|([] & ? & ->%atomic_write_ok & H)];
    [by rewrite dget_dpop, dget_dset, Hk|].
  apply Mbind_Raise_inv in H as [H|(? & ? & [= <- <-] & H)]; [done|].
  apply Mbind_Raise_inv in H as [[_ ->]%lift_snd|(? & ? & [_ ->]%lift_Ok_inv & H)];
    [by rewrite dget_dset, dget_dpop, dget_dset, Hk|].
  apply Mbind_Raise_inv in H as [[_ ->]%lift_snd|(? & ? & [_ ->]%lift_Ok_inv & ->%atomic_write_raise)];
    by rewrite dget_dset, dget_dpop, dget_dset, Hk.
Qed.

Lemma append_raise now fresh args sk pk L e L' :
  append now true fresh args sk pk L = (Raise e, L') ->
  L' = L \/ exists rid, let D := sequence_name (Z.of_nat (length (record_paths L)) + 1) rid in
    only_at [D; sig_name D] L L' /\ dget D L' = None /\ dget (sig_name D) L' = None.
Proof.
  unfold append_record. intros H.
  apply Mbind_Raise_inv in H as [[_ ->]%lift_snd|(? & ? & [_ ->]%lift_Ok_inv & H)]; [by left|].
  apply Mbind_Raise_inv in H as [[_ ->]%lift_snd|(? & ? & [_ ->]%lift_Ok_inv & H)]; [by left|].
  apply Mbind_Raise_inv in H as [H|(? & L1 & H1 & H)].
  { left. destruct (a_record_id args); [|done].
    by apply Mbind_Raise_inv in H as [[_ ->]%lift_snd|(? & ? & _ & ?)]. }
  assert (L1 = L) as ->.
  { destruct (a_record_id args); [|by apply mret_Ok_inv in H1 as [_ ->]].
    by apply Mbind_Ok_inv in H1 as (? & ? & [_ ->]%lift_Ok_inv & [_ ->]%mret_Ok_inv). }
  apply Mbind_Raise_inv in H as [H|(? & L2 & H2 & H)].
  { left. destruct (a_created_at args); [|done].
    by apply Mbind_Raise_inv in H as [[_ ->]%lift_snd|(? & ? & _ & ?)]. }
  assert (L2 = L) as ->.
  { destruct (a_created_at args); [|by apply mret_Ok_inv in H2 as [_ ->]].
    by apply Mbind_Ok_inv in H2 as (? & ? & [_ ->]%lift_Ok_inv & [_ ->]%mret_Ok_inv). }
  apply Mbind_Raise_inv in H as [[_ ->]%lift_snd|(? & ? & [_ ->]%throw_if_Ok_inv & H)]; [by left|].
  apply Mbind_Raise_inv in H as [H|(? & ? & [= <- <-] & H)]; [done|]. cbv zeta in H.
  destruct (match a_record_id args with Some r => head (paths_of_record r L) | None => None end)
    as [p|]; [left; by apply lift_snd in H as [_ ->]|].
  apply Mbind_Raise_inv in H as [[_ ->]%lift_snd|(previous & ? & [_ ->]%lift_Ok_inv & H)]; [by left|].
  apply Mbind_Raise_inv in H as [[_ ->]%lift_snd|(public & ? & [_ ->]%lift_Ok_inv & H)]; [by left|].
  apply Mbind_Raise_inv in H as [[_ ->]%lift_snd|(key & ? & [_ ->]%lift_Ok_inv & H)]; [by left|].
  apply Mbind_Raise_inv in H as [[_ ->]%lift_snd|([] & ? & [_ ->]%lift_Ok_inv & H)]; [by left|].
  apply Mbind_Raise_inv in H as [[_ ->]%lift_snd|(canonical & ? & [_ ->]%lift_Ok_inv & H)]; [by left|].
  apply Mbind_Raise_inv in H as [->%atomic_write_raise|([] & ? & ->%atomic_write_ok & H)]; [by left|].
  apply Mbind_Raise_inv in H as [H|(? & ? & _ & H)]; [|done].
  right. match type of H with context [sequence_name _ ?r] => exists r end. cbv zeta.
  revert H. set (D := sequence_name _ _). unfold on_exception.
  destruct (seal_record _ _ _ _ _ _ _ _ _) as [[u|e'] L1] eqn:E; [done|].
  apply seal_record_raise in E. intros [= _ <-]. unfold unlink. cbn.
  assert (D <> sig_name D) as Hds%String.eqb_neq.
  { intros Hd. apply (f_equal String.length) in Hd. unfold sig_name in Hd.
    rewrite length_app_str in Hd. cbn in Hd. lia. }
  split_and!.
  - intros k [Hk1 [Hk2 _]%not_elem_of_cons]%not_elem_of_cons.
    rewrite !dget_dpop, (proj2 (String.eqb_neq _ _) Hk1), (proj2 (String.eqb_neq _ _) Hk2).
    rewrite E by (by apply not_elem_of_cons; split; [|apply not_elem_of_nil]).
    by rewrite dget_dset, (proj2 (String.eqb_neq _ _) Hk1).
  - by rewrite !dget_dpop, Hds, String.eqb_refl.
  - by rewrite !dget_dpop, String.eqb_refl.
Qed.
End Chain.
