(* ===== verification/EvidencePrivacy.v ===== *)
(** No free text reaches the evidence ledger: every string of a validated
    payload is a short machine token. *)
From Stdlib Require Import ZArith Lia Ascii String.
From stdpp Require Import base list strings.
From S2P Require Import Prelude Text TextFacts Json JsonFacts Sha256 PyTime EvidenceManifest EvidenceFacts.

(** ** What a pattern bounds *)

(** Every character class of the pattern is within [P]. *)
Fixpoint regex_in (P : Z -> Prop) (r : regex) : Prop :=
  match r with
  | RNone | REps => True
  | RChar p => forall c, p c = true -> P c
  | RSeq a b | RAlt a b => regex_in P a /\ regex_in P b
  | RStar a => regex_in P a
  end.

Lemma regex_in_lang P r l : regex_in P r -> lang r l -> Forall P l.
Proof.
  intros Hr Hl. induction Hl; cbn in Hr; try destruct Hr; auto.
  - apply Forall_app. auto.
  - change (c :: x ++ y) with ((c :: x) ++ y). apply Forall_app. auto.
Qed.

Lemma regex_in_seq P a b : regex_in P a -> regex_in P b -> regex_in P (seq_r a b).
Proof. destruct a, b; cbn; tauto. Qed.
Lemma regex_in_alt P a b : regex_in P a -> regex_in P b -> regex_in P (alt_r a b).
Proof. destruct a, b; cbn; tauto. Qed.
Lemma regex_in_rep P n r : regex_in P r -> regex_in P (rep n r).
Proof. intros H. induction n; cbn [rep]; [done | by apply regex_in_seq]. Qed.
Lemma regex_in_rep_opt P n r : regex_in P r -> regex_in P (rep_opt n r).
Proof. intros H. induction n; cbn [rep_opt]; [done|]. apply regex_in_alt; [done | by apply regex_in_seq]. Qed.
Lemma regex_in_lit P s : Forall (fun c => P (zord c)) (list_ascii_of_string s) -> regex_in P (lit s).
Proof.
  induction s as [|c s IH]; cbn [lit list_ascii_of_string]; [done|]. intros [Hc Hs]%Forall_cons.
  apply regex_in_seq; [|by apply IH]. by intros d <-%Z.eqb_eq.
Qed.
#[export] Hint Resolve regex_in_seq regex_in_alt regex_in_rep regex_in_rep_opt regex_in_lit : py.

(** The longest text a pattern matches, [None] when there is no bound. *)
Fixpoint max_len (r : regex) : option nat :=
  match r with
  | RNone | REps => Some 0%nat
  | RChar _ => Some 1%nat
  | RSeq a b => x ← max_len a; y ← max_len b; Some (x + y)%nat
  | RAlt a b => x ← max_len a; y ← max_len b; Some (Nat.max x y)
  | RStar _ => None
  end.

Lemma max_len_lang r l n : max_len r = Some n -> lang r l -> (length l <= n)%nat.
Proof.
  intros Hn Hl. revert n Hn.
  induction Hl as [|p c|a b x y _ IHx _ IHy|a b x _ IH|a b x _ IH|a|a c x y _ _ _ _];
    intros n Hn; cbn [max_len length] in *; try (injection Hn as <-; lia); try discriminate Hn.
  all: destruct (max_len a) as [na|]; [|discriminate Hn];
    destruct (max_len b) as [nb|]; [|discriminate Hn]; injection Hn as <-.
  - rewrite length_app. specialize (IHx _ eq_refl). specialize (IHy _ eq_refl). lia.
  - specialize (IH _ eq_refl). lia.
  - specialize (IH _ eq_refl). lia.
Qed.

(** ** Machine tokens *)

Definition token_char (c : Z) : bool :=
  in_rng 97 122 c || existsb (Z.eqb c) [95; 46; 45; 58; 84; 90] ||
  match uni_digit c with Some _ => true | None => false end.

(** At most 64 characters, each a lower-case ASCII letter, a decimal digit or
    one of [_ . - : T Z]: no space, no at sign, no other letter. *)
Definition machine_token (s : string) : Prop :=
  Forall (fun c => token_char c = true) (code_points s) /\ (length (code_points s) <= 64)%nat.

Lemma token_regex r n :
  regex_in (fun c => token_char c = true) r -> max_len r = Some n -> (n <= 64)%nat ->
  forall s, fullmatch r s = true -> machine_token s.
Proof.
  intros Hr Hn Hle s Hs%match_points_lang. split; [by eapply regex_in_lang|].
  pose proof (max_len_lang _ _ _ Hn Hs). lia.
Qed.

Lemma token_range lo hi c :
  in_rng lo hi c = true -> (97 <= lo /\ hi <= 122) \/ (48 <= lo /\ hi <= 57) -> token_char c = true.
Proof.
  unfold token_char, in_rng. intros H [Hb|Hb]; bool_norm.
  - by rewrite !(proj2 (Z.leb_le _ _)) by lia.
  - unfold uni_digit. cbn [nd_zeros List.find]. unfold in_rng.
    rewrite (proj2 (Z.leb_le 48 c)), (proj2 (Z.leb_le c (48 + 9))) by lia. cbn. by rewrite !orb_true_r.
Qed.

Lemma token_hex : regex_in (fun c => token_char c = true) hex_lower.
Proof.
  intros c. unfold hex_lower, cls. cbn [existsb]. rewrite !orb_true_iff.
  intros [H|[H|?]]; [| |done]; eapply token_range; try exact H; [right | left]; by vm_compute.
Qed.

(** A class made of ranges of letters and digits and of single tokens. *)
Ltac token_class :=
  let c := fresh "c" in let H := fresh "H" in
  intros c; cbn [existsb app one_of map list_ascii_of_string]; rewrite ?orb_true_iff;
  intros H; destruct_or! H; try discriminate H;
  first
    [ eapply token_range; [exact H | first [left; by vm_compute | right; by vm_compute]]
    | unfold in_rng in H; bool_norm;
      match goal with H : ?z <= c |- _ => replace c with z by lia; reflexivity end ].

Lemma token_sha s : fullmatch SHA256_RE s = true -> machine_token s.
Proof. apply (token_regex _ 64); [|done|lia]. apply regex_in_rep, token_hex. Qed.

Lemma token_key_id s : fullmatch KEY_ID_RE s = true -> machine_token s.
Proof.
  apply (token_regex _ 19); [|done|lia]. apply regex_in_seq; [|apply regex_in_rep, token_hex].
  apply regex_in_lit. repeat constructor.
Qed.

Lemma token_git s : fullmatch GIT_DIGEST_RE s = true -> machine_token s.
Proof. apply (token_regex _ 64); [|done|lia]. apply regex_in_alt; apply regex_in_rep, token_hex. Qed.

Lemma token_enum s : fullmatch SAFE_ENUM_RE s = true -> machine_token s.
Proof.
  apply (token_regex _ 64); [|done|lia].
  apply regex_in_seq; [|apply regex_in_rep_opt]; token_class.
Qed.

Lemma token_repository s : fullmatch REPOSITORY_ID_RE s = true -> machine_token s.
Proof.
  apply (token_regex _ 20); [|done|lia].
  apply regex_in_seq; [|apply regex_in_rep_opt]; token_class.
Qed.

Lemma token_submission s : fullmatch SUBMISSION_RE s = true -> machine_token s.
Proof.
  apply (token_regex _ 36); [|done|lia]. apply regex_in_seq; [|apply regex_in_rep, token_hex].
  apply regex_in_lit. repeat constructor.
Qed.

Lemma token_controller s : fullmatch CONTROLLER_RE s = true -> machine_token s.
Proof.
  apply (token_regex _ 52); [|done|lia]. apply regex_in_seq; [apply regex_in_lit; repeat constructor|].
  apply regex_in_seq; [apply regex_in_rep | apply regex_in_rep_opt]; token_class.
Qed.

Lemma token_timestamp s : fullmatch TIMESTAMP_RE s = true -> machine_token s.
Proof.
  apply (token_regex _ 20); [|done|lia]. unfold TIMESTAMP_RE.
  repeat lazymatch goal with
  | |- regex_in _ (seq_r _ _) => apply regex_in_seq
  | |- regex_in _ (lit _) => apply regex_in_lit; repeat constructor
  | |- regex_in _ (rep _ _) => apply regex_in_rep; intros c Hc; unfold token_char;
      destruct (uni_digit c); [by rewrite orb_true_r | done]
  end.
Qed.

(** ** Canonical UUIDs *)

Lemma code_points_ascii s : is_ascii s = true -> code_points s = map zord (list_ascii_of_string s).
Proof.
  induction s as [|c s IH]; [done|]. unfold is_ascii in *. cbn [all_chars list_ascii_of_string map].
  intros H. bool_norm. rewrite code_points_ascii_cons by done. by rewrite IH.
Qed.

Definition hex_dash (c : ascii) : bool := is_digit c || in_rng 97 102 (zord c) || Ascii.eqb c "-".

Lemma hex_dash_token c : hex_dash c = true -> token_char (zord c) = true /\ zord c < 128.
Proof. destruct c as [[] [] [] [] [] [] [] []]; intros H; first [by vm_compute in H | by vm_compute]. Qed.

Lemma hex_fixed_chars n z acc :
  all_chars hex_dash acc = true ->
  all_chars hex_dash (hex_fixed n z acc) = true /\
  String.length (hex_fixed n z acc) = (n + String.length acc)%nat.
Proof.
  revert z acc. induction n as [|n IH]; intros z acc H; [done|]. cbn [hex_fixed].
  destruct (IH (z / 16) (String (hexdigit (z mod 16)) acc)) as [-> ->].
  - cbn [all_chars]. rewrite H, andb_true_r. pose proof (Z.mod_pos_bound z 16 ltac:(lia)) as Hb.
    revert Hb. generalize (z mod 16). intros d Hd.
    assert (d = 0 \/ d = 1 \/ d = 2 \/ d = 3 \/ d = 4 \/ d = 5 \/ d = 6 \/ d = 7 \/ d = 8 \/
      d = 9 \/ d = 10 \/ d = 11 \/ d = 12 \/ d = 13 \/ d = 14 \/ d = 15) as H' by lia.
    by destruct_or! H'; subst.
  - split; [done|]. cbn [String.length]. lia.
Qed.

Lemma all_chars_substring p i n s :
  all_chars p s = true -> all_chars p (String.substring i n s) = true.
Proof.
  revert i n. induction s as [|c s IH]; intros i n H; [by destruct i, n|].
  cbn [all_chars] in H. bool_norm. destruct i, n; cbn [String.substring all_chars]; auto.
  by rewrite H, IH.
Qed.

Lemma substring_length i n s : (String.length (String.substring i n s) <= n)%nat.
Proof.
  revert i n. induction s as [|c s IH]; intros [|i] [|n]; cbn [String.substring String.length]; try lia.
  - specialize (IH 0%nat n). lia.
  - apply (IH i 0%nat).
  - apply (IH i (S n)).
Qed.

Lemma token_uuid_string z : machine_token (uuid_string z).
Proof.
  unfold uuid_string. destruct (hex_fixed_chars 32 z EmptyString eq_refl) as [Hh _].
  revert Hh. generalize (hex_fixed 32 z EmptyString). intros h Hh.
  set (u := _ +:+ _). assert (all_chars hex_dash u = true) as Hu.
  { subst u. rewrite !all_chars_app, !all_chars_substring by done. done. }
  assert (String.length u <= 36)%nat as Hlen.
  { subst u. rewrite !length_app_str. cbn [String.length].
    pose proof (substring_length 0 8 h). pose proof (substring_length 8 4 h).
    pose proof (substring_length 12 4 h). pose proof (substring_length 16 4 h).
    pose proof (substring_length 20 12 h). lia. }
  clearbody u. clear h Hh. unfold machine_token.
  assert (is_ascii u = true /\ Forall (fun c => token_char c = true) (map zord (list_ascii_of_string u))
    /\ length (list_ascii_of_string u) = String.length u) as (Ha & Ht & Hl).
  { clear Hlen. induction u as [|c u IH]; [done|]. cbn [all_chars] in Hu. bool_norm.
    apply hex_dash_token in H as [Hc1 Hc2]. destruct (IH H0) as (Ha & Ht & Hl).
    unfold is_ascii in *. cbn [all_chars list_ascii_of_string map String.length length].
    split_and!; [rewrite Ha, andb_true_r; by apply Z.ltb_lt | by constructor | by rewrite Hl]. }
  rewrite code_points_ascii by done. split; [done|]. rewrite length_map. lia.
Qed.

Lemma token_uuid s f r : _canonical_uuid (JStr s) f = Ok r -> machine_token s.
Proof.
  cbn. destruct (parse_uuid s) as [z|]; [|done].
  destruct (String.eqb_spec (uuid_string z) s) as [<-|]; [|done]. intros _. apply token_uuid_string.
Qed.

(** ** Payloads *)

Definition private_safe (v : json) : Prop :=
  Forall (fun k => str_in k PAYLOAD_FIELDS = true) (all_keys v) /\
  Forall machine_token (text_leaves v).

Lemma token_matches r s : (forall s, fullmatch r s = true -> machine_token s) ->
  str_matches r (JStr s) = true -> machine_token s.
Proof. intros H. apply H. Qed.

Lemma scalar_safe v : scalar v = true -> (forall s, v = JStr s -> machine_token s) -> private_safe v.
Proof. destruct v; try done; intros _ H; split; cbn; auto. Qed.

Lemma bind_uuid_ok v p : (_ ← _canonical_uuid v p; Ok tt) = Ok tt -> forall s, v = JStr s -> machine_token s.
Proof. intros H s ->. apply bind_Ok_inv in H as (r & H & _). by eapply token_uuid. Qed.

Lemma check_str r v m (Hr : forall s, fullmatch r s = true -> machine_token s) :
  check (str_matches r v) m = Ok tt -> forall s, v = JStr s -> machine_token s.
Proof. intros H%check_ok s ->. by apply Hr. Qed.

Lemma check_int p v m : check (int_where p v) m = Ok tt -> forall s, v = JStr s -> machine_token s.
Proof. intros H%check_ok s ->. discriminate H. Qed.
#[export] Hint Resolve bind_uuid_ok check_str check_int token_sha token_key_id token_git token_enum
  token_repository token_submission token_controller : py.

Lemma typed_field_token f p v :
  validate_typed_field f p v = Some (Ok tt) -> forall s, v = JStr s -> machine_token s.
Proof.
  unfold validate_typed_field. intros H.
  repeat match type of H with
  | (if ?b then Some _ else _) = _ => destruct b; [injection H as H; eauto with py; fail|]
  | (if ?b then Some _ else _) = _ => destruct b; [injection H as H|]
  end; try discriminate H; intros s ->.
  - cbn [is_str negb] in H. destruct (_canonical_uuid (JStr s) p) as [r|e] eqn:E.
    + by eapply token_uuid.
    + destruct (exn_isa _ _); [|done]. apply check_ok in H. by apply token_key_id.
  - apply bind_Ok_inv in H as (d & H & _). unfold _timestamp in H.
    destruct (fullmatch TIMESTAMP_RE s) eqn:E; [by apply token_timestamp | done].
Qed.

Lemma entry_token f p v :
  validate_entry f p v = Ok tt -> scalar v = true /\ forall s, v = JStr s -> machine_token s.
Proof.
  unfold validate_entry. destruct (str_in f _); [|destruct (str_in f _)]; intros H.
  - split; [|eauto with py]. by destruct v.
  - split; [|eauto with py]. by destruct v.
  - split; [|eauto with py]. by destruct v.
Qed.

Lemma safe_list l : Forall private_safe l -> private_safe (JList l).
Proof.
  intros H. split; cbn; induction H as [|x l [H1 H2] H IH]; cbn; auto using Forall_app_2.
Qed.

Lemma safe_obj d :
  Forall (fun k => str_in k PAYLOAD_FIELDS = true) (dkeys d) ->
  Forall (fun kv => private_safe kv.2) d -> private_safe (JObj d).
Proof.
  intros Hk H. split; cbn [all_keys text_leaves].
  - apply Forall_app_2; [done|]. clear Hk. induction H as [|x d [H1 H2] H IH]; cbn; auto using Forall_app_2.
  - clear Hk. induction H as [|x d [H1 H2] H IH]; cbn; auto using Forall_app_2.
Qed.

Lemma entries_safe f p i l :
  Forall (fun v => forall path, _validate_payload path v = Ok tt -> private_safe v) l ->
  validate_entries _validate_payload f p i l = Ok tt -> Forall private_safe l.
Proof.
  intros H. revert i. induction H as [|x l Hx H IH]; intros i He; [constructor|].
  cbn [validate_entries] in He. apply bind_unit_ok in He as [Hv He]. constructor; [|by eapply IH].
  assert (forall q, validate_entry f q x = Ok tt -> private_safe x) as Hs.
  { intros q [? ?]%entry_token. by apply scalar_safe. }
  destruct x; eauto.
Qed.


