(* ===== verification/Sha1.v ===== *)
(** SHA-1 and the name-based identifiers of [uuid.uuid5]. *)
From Stdlib Require Import Ascii String.
From stdpp Require Import base list strings.
From S2P Require Import Prelude Text Sha256 EvidenceManifest.

Definition rotl (n x : Z) : Z := rotr (32 - n) x.

Definition sha1_init : list Z := [1732584193; 4023233417; 2562383102; 271733878; 3285377520].

(** The message schedule, most recent word first. *)
Fixpoint sha1_schedule (n : nat) (ws : list Z) : list Z :=
  match n with
  | O => ws
  | S n =>
      let w i := nth i ws 0 in
      sha1_schedule n
        (rotl 1 (Z.lxor (w 2%nat) (Z.lxor (w 7%nat) (Z.lxor (w 13%nat) (w 15%nat)))) :: ws)
  end.

Definition sha1_f (t b c d : Z) : Z * Z :=
  if t <? 20 then (Z.lor (Z.land b c) (Z.land (Z.lxor b (Z.ones 32)) d), 1518500249)
  else if t <? 40 then (Z.lxor b (Z.lxor c d), 1859775393)
  else if t <? 60 then (Z.lor (Z.land b c) (Z.lor (Z.land b d) (Z.land c d)), 2400959708)
  else (Z.lxor b (Z.lxor c d), 3395469782).

Fixpoint sha1_rounds (t : Z) (ws st : list Z) : list Z :=
  match ws, st with
  | w :: ws, [a; b; c; d; e] =>
      let '(f, k) := sha1_f t b c d in
      sha1_rounds (t + 1) ws [add32 (rotl 5 a) (add32 f (add32 e (add32 k w))); a; rotl 30 b; c; d]
  | _, _ => st
  end.

Definition sha1_compress (st block : list Z) : list Z :=
  zip_with add32 st (sha1_rounds 0 (List.rev (sha1_schedule 64 (List.rev (words block)))) st).

Fixpoint sha1_blocks (fuel : nat) (l st : list Z) : list Z :=
  match fuel with
  | O => st
  | S fuel => match l with
              | [] => st
              | _ => sha1_blocks fuel (skipn 64 l) (sha1_compress st (firstn 64 l))
              end
  end.

(** The five words of [hashlib.sha1(...).digest()]; the fuel is the number of
    bytes, more than the number of blocks. *)
Definition sha1_words (bytes : list Z) : list Z :=
  let m := pad_message bytes in sha1_blocks (length m) m sha1_init.

Example sha1_abc :
  fold_right String.append EmptyString (map hex_word (sha1_words [97; 98; 99]))
  = "a9993e364706816aba3e25717850c26c9cd0d89d"%string.
Proof. vm_compute. reflexivity. Qed.

(** [uuid.uuid5(namespace, name)]: the first sixteen bytes of the digest with the
    version and the variant set. *)
Definition int_bytes (n : nat) (z : Z) : list Z :=
  map (fun i => Z.land (Z.shiftr z (8 * Z.of_nat i)) 255) (List.rev (List.seq 0 n)).
Definition set_field_bits (z at_ width value : Z) : Z :=
  Z.lor (Z.ldiff z (Z.shiftl (Z.ones width) at_)) (Z.shiftl value at_).
Definition uuid5 (namespace : Z) (name : string) : string :=
  let digest := sha1_words (int_bytes 16 namespace ++ map zord (list_ascii_of_string name)) in
  let z := fold_left (fun acc w => Z.lor (Z.shiftl acc 32) w) (firstn 4 digest) 0 in
  uuid_string (set_field_bits (set_field_bits z 62 2 2) 76 4 5).

Example uuid5_python_org :
  option_map (fun n => uuid5 n "python.org") (parse_uuid "6ba7b810-9dad-11d1-80b4-00c04fd430c8")
  = Some "886313e1-3b8a-5372-9b90-0c9aee199e5d"%string.
Proof. vm_compute. reflexivity. Qed.
