(* ===== verification/IpAddress.v ===== *)
(** The textual forms of IP addresses as Python's [ipaddress] module reads and
    prints them, and HMAC-SHA-256: what [_hash_ip] needs of the standard
    library. *)
From Stdlib Require Import ZArith Lia Ascii String.
From stdpp Require Import base list strings.
From S2P Require Import Prelude Text Json Sha256.

(** ** IPv4 *)

Definition parse_octet (s : string) : option Z :=
  if String.eqb s EmptyString || negb (all_chars is_digit s) || (3 <? byte_length s) then None
  else if negb (String.eqb s "0") && startswith "0" s then None
  else match digits_val 0 s with
       | Some z => if 255 <? z then None else Some z
       | None => None
       end.

(** [IPv4Address(s)] as its four octets. *)
Definition parse_ipv4 (s : string) : option (list Z) :=
  match split_on "." s with
  | [a; b; c; d] => mapM parse_octet [a; b; c; d]
  | _ => None
  end.
Definition ipv4_string (l : list Z) : string := join "." (map string_of_Z l).

(** ** IPv6 *)

Definition hex_char (c : ascii) : bool := is_digit c || between 97 102 c || between 65 70 c.
Definition hex_char_value (c : ascii) : Z :=
  if is_digit c then zord c - 48 else if between 97 102 c then zord c - 87 else zord c - 55.
Fixpoint hex_value (acc : Z) (s : string) : Z :=
  match s with EmptyString => acc | String c s => hex_value (16 * acc + hex_char_value c) s end.
Definition parse_hextet (s : string) : option Z :=
  if all_chars hex_char s && (byte_length s <=? 4) && negb (String.eqb s EmptyString)
  then Some (hex_value 0 s) else None.

(** The groups by position: texts, with an embedded IPv4 already read. *)
Definition group : Type := string + Z.
Definition groups (parts : list string) : option (list group) :=
  match List.rev parts with
  | lastp :: firsts =>
      if contains "." lastp then
        match parse_ipv4 lastp with
        | Some [a; b; c; d] => Some (map inl (List.rev firsts) ++ [inr (256 * a + b); inr (256 * c + d)])
        | _ => None
        end
      else Some (map inl parts)
  | [] => None
  end.
Definition empty_group (g : group) : bool :=
  match g with inl s => String.eqb s EmptyString | inr _ => false end.
Definition group_value (g : group) : option Z :=
  match g with inl s => parse_hextet s | inr z => Some z end.

(** The empty groups strictly inside, where [::] was written. *)
Definition inner_empty (gs : list group) : list nat :=
  List.filter (fun i => empty_group (nth i gs (inr 0))) (seq 1 (length gs - 2)).

Definition parse_groups (gs : list group) : option (list Z) :=
  let n := length gs in
  let first_empty := empty_group (nth 0 gs (inr 0)) in
  let last_empty := empty_group (nth (n - 1) gs (inr 0)) in
  match inner_empty gs with
  | [] =>
      if negb (Nat.eqb n 8) || first_empty || last_empty then None else mapM group_value gs
  | [i] =>
      let hi := if first_empty then (i - 1)%nat else i in
      let lo := if last_empty then (n - i - 2)%nat else (n - i - 1)%nat in
      if first_empty && negb (Nat.eqb hi 0) || last_empty && negb (Nat.eqb lo 0)
         || Nat.leb 8 (hi + lo) then None
      else
        h ← mapM group_value (firstn hi gs);
        l ← mapM group_value (skipn (n - lo) gs);
        Some (h ++ replicate (8 - (hi + lo)) 0 ++ l)
  | _ => None
  end.

(** Address groups and scope of [IPv6Address(s)]. *)
Definition split_scope (s : string) : option (string * option string) :=
  match split_on "%" s with
  | [a] => Some (a, None)
  | [a; sc] => if String.eqb sc EmptyString then None else Some (a, Some sc)
  | _ => None
  end.
Definition parse_ipv6 (s : string) : option (list Z * option string) :=
  '(a, scope) ← split_scope s;
  let parts := split_on ":" a in
  if Nat.ltb (length parts) 3 then None
  else
    gs ← groups parts;
    if Nat.ltb 9 (length gs) then None
    else z ← parse_groups gs; Some (z, scope).

(** The first longest run of zero groups: its start and length. *)
Fixpoint best_run (i start len bs bl : nat) (l : list Z) : nat * nat :=
  match l with
  | [] => (bs, bl)
  | z :: l =>
      if z =? 0 then
        let start := if Nat.eqb len 0 then i else start in
        let len := S len in
        if Nat.ltb bl len then best_run (S i) start len start len l
        else best_run (S i) start len bs bl l
      else best_run (S i) 0 0 bs bl l
  end.

Fixpoint hex_string (fuel : nat) (z : Z) (acc : string) : string :=
  match fuel with
  | O => acc
  | S fuel => let acc := String (hexdigit (z mod 16)) acc in
              if z <? 16 then acc else hex_string fuel (z / 16) acc
  end.
Definition hextet_string (z : Z) : string := hex_string 4 z EmptyString.

Definition ipv6_string (l : list Z) : string :=
  let '(s, n) := best_run 0 0 0 0 0 l in
  let texts := map hextet_string l in
  if Nat.ltb 1 n then
    let before := firstn s texts in
    let after := skipn (s + n) texts in
    join ":" ((if Nat.eqb s 0 then [EmptyString] else []) ++ before ++ [EmptyString] ++ after ++
              (if Nat.eqb (s + n) (length l) then [EmptyString] else []))
  else join ":" texts.

(** An IPv4-mapped address prints its IPv4 part in dotted form. *)
Definition ipv6_text (l : list Z) : string :=
  match l with
  | [a; b; c; d; e; f; g; h] =>
      if forallb (Z.eqb 0) [a; b; c; d; e] && (f =? 65535) then
        "::ffff:" +:+ ipv4_string [g / 256; g mod 256; h / 256; h mod 256]
      else ipv6_string l
  | _ => ipv6_string l
  end.

(** [ipaddress.ip_address(s).compressed], or [None] where it raises. *)
Definition ip_compressed (s : string) : option string :=
  match parse_ipv4 s with
  | Some l => Some (ipv4_string l)
  | None =>
      '(l, scope) ← parse_ipv6 s;
      Some (ipv6_text l +:+ match scope with Some sc => "%" +:+ sc | None => EmptyString end)
  end.

(** ** HMAC *)

(** The bytes a hexadecimal digest stands for. *)
Fixpoint unhex (s : string) : string :=
  match s with
  | String a (String b s) => String (chr (16 * hex_char_value a + hex_char_value b)) (unhex s)
  | _ => EmptyString
  end.
Fixpoint zero_bytes (n : nat) : string :=
  match n with O => EmptyString | S n => String (chr 0) (zero_bytes n) end.
Fixpoint xor_bytes (k : Z) (s : string) : string :=
  match s with EmptyString => EmptyString | String c s => String (chr (Z.lxor k (zord c))) (xor_bytes k s) end.

(** [hmac.new(key, message, hashlib.sha256).hexdigest()] *)
Definition hmac_sha256 (key message : string) : string :=
  let key := if 64 <? byte_length key then unhex (sha256 key) else key in
  let block := key +:+ zero_bytes (64 - String.length key) in
  sha256 (xor_bytes 92 block +:+ unhex (sha256 (xor_bytes 54 block +:+ message))).

Example hmac_example :
  hmac_sha256 "key" "The quick brown fox jumps over the lazy dog"
  = "f7bc83f430538424b13298e6aa6fb143ef4d59a14946175997479dbc2d1a3cd8"%string.
Proof. vm_compute. reflexivity. Qed.

Example ip_examples :
  map ip_compressed ["192.168.0.1"; "01.2.3.4"; "2001:DB8:0:0:1::1"; "::"; "::ffff:102:304"; "1::";
                     "fe80::1%eth0"; "1:2:3:4:5:6:7::"; ":1:2:3:4:5:6:7"; "0:0:1:0:0:0:0:1"]%string
  = [Some "192.168.0.1"; None; Some "2001:db8::1:0:0:1"; Some "::"; Some "::ffff:1.2.3.4"; Some "1::";
     Some "fe80::1%eth0"; Some "1:2:3:4:5:6:7:0"; None; Some "0:0:1::1"]%string.
Proof. vm_compute. reflexivity. Qed.
