(* ===== verification/PyUrl.v ===== *)
(** [urllib.parse.urlsplit]: the scheme and the network location of a URL.  The
    check of a bracketed host, which the patch releases of Python do differently, and the
    normal form NFKC of the Unicode database are parameters. *)
From Stdlib Require Import ZArith Lia Ascii String.
From stdpp Require Import base list strings.
From S2P Require Import Prelude Text.

(** [s.partition(c)]: what comes before and after the first [c] *)
Fixpoint partition_at (p : ascii -> bool) (s : string) : option (string * string) :=
  match s with
  | EmptyString => None
  | String c s =>
      if p c then Some (EmptyString, s)
      else match partition_at p s with Some (a, b) => Some (String c a, b) | None => None end
  end.
Fixpoint drop_chars (p : ascii -> bool) (s : string) : string :=
  match s with
  | EmptyString => EmptyString
  | String c s => if p c then drop_chars p s else String c (drop_chars p s)
  end.
Fixpoint take_until (p : ascii -> bool) (s : string) : string :=
  match s with EmptyString => EmptyString | String c s => if p c then EmptyString else String c (take_until p s) end.
Definition has_char (c : ascii) (s : string) : bool := negb (all_chars (fun d => negb (Ascii.eqb c d)) s).

Definition is_alpha (c : ascii) : bool := is_lower c || is_upper c.
Definition scheme_char (c : ascii) : bool := is_alpha c || is_digit c || existsb (Ascii.eqb c) ["+"; "-"; "."]%char.
Definition ends_netloc (c : ascii) : bool := existsb (Ascii.eqb c) ["/"; "?"; "#"]%char.
Definition c0_or_space (c : ascii) : bool := between 0 32 c.
Definition unsafe_char (c : ascii) : bool := existsb (Ascii.eqb c) [chr 9; chr 13; chr 10].
Definition netloc_mark (c : ascii) : bool := existsb (Ascii.eqb c) ["@"; ":"; "#"; "?"]%char.

Section Url.
Context (bracketed_ok : string -> bool) (nfkc : string -> string).

Definition checknetloc (netloc : string) : outcome unit :=
  if is_ascii netloc then Ok tt
  else
    let n := drop_chars netloc_mark netloc in
    let normal := nfkc n in
    raise_if (negb (String.eqb n normal) && existsb (fun c => has_char c normal) ["/"; "?"; "#"; "@"; ":"]%char)
      ValueError "netloc contains invalid characters under NFKC normalization".

Definition urlsplit (url : string) : outcome (string * string) :=
  let url := drop_chars unsafe_char (lstrip_p c0_or_space url) in
  let '(scheme, url) :=
    match partition_at (Ascii.eqb ":") url with
    | Some (String c s, rest) =>
        if is_alpha c && all_chars scheme_char (String c s) then (lower (String c s), rest) else (EmptyString, url)
    | _ => (EmptyString, url)
    end in
  if startswith "//" url then
    let netloc := take_until ends_netloc (String.substring 2 (String.length url - 2) url) in
    let opening := has_char "[" netloc in
    let closing := has_char "]" netloc in
    _ ← raise_if (xorb opening closing) ValueError "Invalid IPv6 URL";
    _ ← raise_if (opening && closing && negb (bracketed_ok netloc)) ValueError "Invalid IPv6 URL";
    _ ← checknetloc netloc;
    Ok (scheme, netloc)
  else Ok (scheme, EmptyString).
End Url.
