(* ===== verification/PublishContract.v ===== *)
(** The Desktop to Server data-minimisation contract
    ([backend/app/core/publish_contract.py]): which values a published field of
    each declared type may carry. *)
From Stdlib Require Import ZArith Lia Ascii String.
From stdpp Require Import base list strings.
From S2P Require Import Prelude Text TextFacts Json JsonFacts.

Definition short_str (n : Z) (v : json) : bool := match v with JStr s => strlen s <=? n | _ => false end.

(** [isinstance(v, int) and v > 0]; [True] is an integer. *)
Definition positive_int (v : json) : bool :=
  match v with JInt z => 0 <? z | JBool b => b | _ => false end.

Definition valid_person (item : json) : bool :=
  match item with
  | JObj d =>
      keys_are d ["name"; "person_id"]%string &&
      short_str 256 (dget_or_null "name" d) && positive_int (dget_or_null "person_id" d)
  | _ => false
  end.

Definition valid_location (value : json) : bool :=
  match value with
  | JObj d =>
      keys_within d ["name"; "address"]%string && short_str 512 (dget_or_null "name" d) &&
      (is_null (dget_or_null "address" d) || short_str 1024 (dget_or_null "address" d))
  | _ => false
  end.

Definition valid_time_range (value : json) : bool :=
  match value with
  | JObj d =>
      keys_within d ["start"; "end"]%string && keys_are d ["start"; "end"]%string &&
      forallb (fun k => short_str 64 (dget_or_null k d)) ["start"; "end"]%string
  | _ => false
  end.

Definition validate_published_field_value (field_type : string) (value : json) : bool :=
  if str_in field_type ["text"; "link"]%string then short_str 10000 value
  else if str_in field_type ["number"; "duration"]%string then
    match value with JInt _ | JFloat _ => true | _ => false end
  else if String.eqb field_type "capabilities_list" then
    match value with
    | JList l => (Z.of_nat (length l) <=? 200) && forallb (short_str 128) l
    | _ => false
    end
  else if String.eqb field_type "persons_list" then
    match value with
    | JList l => (Z.of_nat (length l) <=? 500) && forallb valid_person l
    | _ => false
    end
  else if String.eqb field_type "location" then valid_location value
  else if str_in field_type ["start_end_time"; "time_range"]%string then valid_time_range value
  else false.

(** ** Properties *)

(** The types of the contract. *)
Definition field_types : list string :=
  ["capabilities_list"; "duration"; "link"; "location"; "number"; "persons_list";
   "start_end_time"; "text"; "time_range"]%string.

(** The members a published value may have anywhere in it. *)
Definition contract_keys : list string := ["name"; "person_id"; "address"; "start"; "end"]%string.

Definition text_size (v : json) : Z := fold_right Z.add 0 (map strlen (text_leaves v)).

Lemma strlen_nonneg s : 0 <= strlen s.
Proof. induction s as [|c s IH]; cbn; [lia|]. destruct (is_lead c); lia. Qed.

Lemma text_size_str n v : short_str n v = true -> text_size v <= n /\ all_keys v = [].
Proof.
  destruct v; try done. intros H%Z.leb_le. unfold text_size. cbn. split; [lia | done].
Qed.

Lemma text_size_app l l' :
  fold_right Z.add 0 (map strlen (l ++ l')) = fold_right Z.add 0 (map strlen l) + fold_right Z.add 0 (map strlen l').
Proof. induction l as [|s l IH]; cbn; [done|]. rewrite IH. lia. Qed.

Lemma text_size_list n l :
  0 <= n -> Forall (fun v => text_size v <= n) l -> text_size (JList l) <= n * Z.of_nat (length l).
Proof.
  intros Hn. unfold text_size. cbn [text_leaves]. induction 1 as [|v l Hv H IH]; cbn; [lia|].
  rewrite text_size_app. lia.
Qed.

(** An object with unique keys drawn from a list is no larger than what the
    listed keys hold. *)
Lemma text_size_obj d ks n (b : string -> Z) :
  NoDup (dkeys d) -> keys_within d ks = true -> NoDup ks -> (forall k, k ∈ ks -> 0 <= b k) ->
  (forall k v, dget k d = Some v -> text_size v <= b k) ->
  fold_right Z.add 0 (map b ks) <= n -> text_size (JObj d) <= n.
Proof.
  intros Hd Hk Hks Hb Hv Hn.
  enough (text_size (JObj d) <= fold_right Z.add 0 (map b (dkeys d)) /\
    fold_right Z.add 0 (map b (dkeys d)) <= fold_right Z.add 0 (map b ks)) by lia.
  split.
  - clear Hk Hks Hb Hn. unfold text_size. cbn [text_leaves].
    induction d as [|[k v] d IH]; cbn; [lia|]. cbn in Hd. apply NoDup_cons in Hd as [Hnin Hd].
    rewrite text_size_app. specialize (Hv k v) as Hkv. cbn in Hkv. rewrite String.eqb_refl in Hkv.
    specialize (Hkv eq_refl). unfold text_size in Hkv.
    assert (forall k v, dget k d = Some v -> text_size v <= b k) as Hv'.
    { intros k' v' Hk'. apply Hv. cbn. destruct (String.eqb_spec k' k) as [->|]; [|done].
      apply dget_elem in Hk'. destruct Hnin. unfold dkeys. apply list_elem_of_fmap. by exists (k, v'). }
    specialize (IH Hd Hv'). fold (dkeys d). lia.
  - assert (Forall (fun k => k ∈ ks) (dkeys d)) as Hin.
    { unfold keys_within in Hk. rewrite forallb_forall in Hk. rewrite Forall_forall. intros k Hkd.
      apply list_elem_of_fmap in Hkd as (kv & -> & Hkd%list_elem_of_In). specialize (Hk _ Hkd).
      unfold str_in in Hk. apply existsb_exists in Hk as (x & Hx & ->%String.eqb_eq). by apply list_elem_of_In. }
    clear Hv Hk Hn. revert ks Hks Hb Hin. induction (dkeys d) as [|k l IH]; intros ks Hks Hb Hin; cbn.
    + clear -Hb. induction ks as [|k ks IH]; cbn; [lia|].
      assert (0 <= b k) by (apply Hb; left). assert (forall q, q ∈ ks -> 0 <= b q) by (intros q Hq; apply Hb; by right).
      specialize (IH ltac:(done)). lia.
    + apply NoDup_cons in Hd as [Hnin Hd]. apply Forall_cons in Hin as [Hk Hin].
      apply list_elem_of_split in Hk as (l1 & l2 & ->).
      assert (fold_right Z.add 0 (map b (l1 ++ k :: l2)) = b k + fold_right Z.add 0 (map b (l1 ++ l2))) as ->.
      { clear. induction l1 as [|x l1 IH]; cbn; [done|]. rewrite IH. lia. }
      apply Z.add_le_mono_l. apply IH; [done| | |].
      * apply NoDup_app in Hks as (H1 & H2 & H3). apply NoDup_cons in H3 as [H3 H4]. apply NoDup_app.
        split_and!; [done| |done]. intros x Hx Hx'. apply (H2 x Hx). by right.
      * intros x Hx. apply Hb. apply elem_of_app. apply elem_of_app in Hx as [?|?]; [by left | right; by right].
      * rewrite Forall_forall in *. intros x Hx. specialize (Hin x Hx).
        apply elem_of_app in Hin as [?|[->|?]%elem_of_cons]; apply elem_of_app; [by left|done|by right].
Qed.

(** No dictionary repeats a key: every decoded value is of this kind. *)
Fixpoint keys_distinct (v : json) : bool :=
  match v with
  | JList l => forallb keys_distinct l
  | JObj d => bool_decide (NoDup (dkeys d)) && forallb (fun kv => keys_distinct kv.2) d
  | _ => true
  end.

(** At most [n] characters of text, under keys of the contract only. *)
Definition bounded (n : Z) (v : json) : Prop :=
  text_size v <= n /\ Forall (fun k => k ∈ contract_keys) (all_keys v).

Lemma bounded_str n v : short_str n v = true -> bounded n v.
Proof. intros [H1 H2]%text_size_str. split; [done|]. by rewrite H2. Qed.

Lemma bounded_list n m l :
  0 <= n -> Z.of_nat (length l) <= m -> Forall (bounded n) l -> bounded (n * m) (JList l).
Proof.
  intros Hn Hm H. split.
  - etransitivity; [apply text_size_list; [done|]|nia]. eapply Forall_impl; [exact H|]. by intros v [? _].
  - cbn. induction H as [|v l [_ Hv] H IH]; cbn; [constructor|]. apply Forall_app. split; [done|].
    apply IH. cbn in Hm. lia.
Qed.

Lemma keys_within_elem {V} (d : list (string * V)) ks k :
  keys_within d ks = true -> k ∈ dkeys d -> k ∈ ks.
Proof.
  unfold keys_within. rewrite forallb_forall. intros H Hk.
  apply list_elem_of_fmap in Hk as (kv & -> & Hin%list_elem_of_In). specialize (H _ Hin).
  unfold str_in in H. apply existsb_exists in H as (x & Hx & ->%String.eqb_eq). by apply list_elem_of_In.
Qed.

(** An object whose listed members are scalars of bounded size. *)
Lemma bounded_obj d ks n (b : string -> Z) :
  NoDup (dkeys d) -> keys_within d ks = true -> NoDup ks -> (forall k, k ∈ ks -> k ∈ contract_keys) ->
  (forall k, k ∈ ks -> 0 <= b k) ->
  (forall k v, dget k d = Some v -> text_size v <= b k /\ all_keys v = []) ->
  fold_right Z.add 0 (map b ks) <= n -> bounded n (JObj d).
Proof.
  intros Hd Hk Hks Hc Hb Hv Hn. split.
  - eapply text_size_obj; try done. intros k v H. by apply Hv.
  - cbn. apply Forall_app. split.
    + rewrite Forall_forall. intros k Hin. by eapply Hc, keys_within_elem.
    + assert (flat_map (fun kv => all_keys kv.2) d = []) as ->; [|done].
      assert (forall k v, (k, v) ∈ d -> all_keys v = []) as H.
      { intros k v Hin. apply (Hv k), elem_dget; done. }
      clear -H. induction d as [|[k v] d IH]; [done|]. cbn. rewrite (H k v) by left. apply IH.
      intros k' v' Hin. apply (H k'). by right.
Qed.

Lemma dget_of_null k d v : dget k d = Some v -> dget_or_null k d = v.
Proof. unfold dget_or_null. by intros ->. Qed.

Lemma member_of_two (a b k : string) : k ∈ [a; b] -> k = a \/ k = b.
Proof. intros [->|[->|[]%elem_of_nil]%elem_of_cons]%elem_of_cons; auto. Qed.

Lemma valid_person_bounded v : keys_distinct v = true -> valid_person v = true -> bounded 256 v.
Proof.
  destruct v as [| | | | | |d]; try done. cbn [keys_distinct valid_person]. intros Hd H. bool_norm.
  apply andb_true_iff in H as [Hk _].
  apply (bounded_obj d ["name"; "person_id"]%string 256
    (fun k => if String.eqb k "name" then 256 else 0)); try done.
  - by apply (bool_decide_unpack _).
  - intros k Hin. by destruct (member_of_two _ _ _ Hin) as [->| ->]; apply (bool_decide_unpack _).
  - intros k _. by destruct (String.eqb k "name").
  - intros k v Hv. assert (k ∈ dkeys d) as Hin.
    { apply dget_elem in Hv. apply list_elem_of_fmap. by exists (k, v). }
    apply (keys_within_elem _ _ _ Hk) in Hin.
    destruct (member_of_two _ _ _ Hin) as [->| ->]; cbn; rewrite (dget_of_null _ _ _ Hv) in *.
    + by apply text_size_str.
    + by destruct v.
Qed.

Lemma valid_location_bounded v : keys_distinct v = true -> valid_location v = true -> bounded 1536 v.
Proof.
  destruct v as [| | | | | |d]; try done. cbn [keys_distinct valid_location]. intros Hd H. bool_norm.
  apply (bounded_obj d ["name"; "address"]%string 1536
    (fun k => if String.eqb k "name" then 512 else 1024)); try done.
  - by apply (bool_decide_unpack _).
  - intros k Hin. by destruct (member_of_two _ _ _ Hin) as [->| ->]; apply (bool_decide_unpack _).
  - intros k _. by destruct (String.eqb k "name").
  - intros k v Hv. assert (k ∈ dkeys d) as Hin.
    { apply dget_elem in Hv. apply list_elem_of_fmap. by exists (k, v). }
    apply (keys_within_elem d ["name"; "address"]%string) in Hin; [|done].
    destruct (member_of_two _ _ _ Hin) as [->| ->]; cbn; rewrite (dget_of_null _ _ _ Hv) in *.
    + by apply text_size_str.
    + apply orb_true_iff in H0 as [Hn|Hs]; [by destruct v | by apply text_size_str].
Qed.

Lemma valid_time_range_bounded v : keys_distinct v = true -> valid_time_range v = true -> bounded 128 v.
Proof.
  destruct v as [| | | | | |d]; try done. cbn [keys_distinct valid_time_range forallb]. intros Hd H. bool_norm.
  apply (bounded_obj d ["start"; "end"]%string 128 (fun _ => 64)); try done.
  - by apply (bool_decide_unpack _).
  - intros k Hin. by destruct (member_of_two _ _ _ Hin) as [->| ->]; apply (bool_decide_unpack _).
  - intros k v Hv. assert (k ∈ dkeys d) as Hin.
    { apply dget_elem in Hv. apply list_elem_of_fmap. by exists (k, v). }
    apply (keys_within_elem d ["start"; "end"]%string) in Hin; [|done].
    destruct (member_of_two _ _ _ Hin) as [->| ->]; cbn; rewrite (dget_of_null _ _ _ Hv) in *;
      by apply text_size_str.
Qed.

(** The publish contract is closed and bounded: a value accepted for a
    published field has one of the nine declared types, holds at most 128,000
    characters of text in all, and uses no key but the five the contract names,
    at any depth; any other field type is refused. *)
Theorem published_value_bounded field_type value
  (Hd : keys_distinct value = true) (H : validate_published_field_value field_type value = true) :
  field_type ∈ field_types /\ bounded 128000 value.
Proof.
  assert (forall n, n <= 128000 -> bounded n value -> bounded 128000 value) as Hle.
  { intros n Hn [H1 H2]. split; [lia | done]. }
  unfold validate_published_field_value, str_in in H. cbn [existsb] in H.
  repeat match type of H with
  | context [String.eqb field_type ?s] =>
      destruct (String.eqb_spec field_type s) as [->|]; cbn [orb] in H
  end; try discriminate H; (split; [by apply (bool_decide_unpack _)|]).
  - apply (Hle 10000); [done | by apply bounded_str].
  - apply (Hle 10000); [done | by apply bounded_str].
  - destruct value; try done; split; done.
  - destruct value; try done; split; done.
  - destruct value as [| | | | |l|]; try done. bool_norm.
    apply (Hle (128 * 200)); [done|]. apply bounded_list; [done|done|].
    rewrite Forall_forall. intros v Hin. apply bounded_str. rewrite forallb_forall in H0.
    by apply H0, list_elem_of_In.
  - destruct value as [| | | | |l|]; try done. bool_norm.
    apply (Hle (256 * 500)); [done|]. apply bounded_list; [done|done|].
    rewrite Forall_forall. intros v Hin%list_elem_of_In. cbn in Hd. rewrite forallb_forall in H0, Hd.
    by apply valid_person_bounded; [apply Hd | apply H0].
  - apply (Hle 1536); [done | by apply valid_location_bounded].
  - apply (Hle 128); [done | by apply valid_time_range_bounded].
  - apply (Hle 128); [done | by apply valid_time_range_bounded].
Qed.

Definition toy_persons : json :=
  JList [JObj [("person_id", JInt 15); ("name", JStr "Jane")]%string].
Lemma published_value_bounded_witness :
  validate_published_field_value "persons_list" toy_persons = true /\ bounded 128000 toy_persons.
Proof.
  split; [vm_compute; reflexivity|].
  apply (published_value_bounded "persons_list" toy_persons); vm_compute; reflexivity.
Defined.
