(* ===== verification/PublishInput.v ===== *)
(** The payload a paired desktop publishes, [backend/app/api/v1/publish.py]: the
    schemas with the bounds of their fields, and what [TaskIn] refuses - unclassified
    and private fields, values of another type than declared, a person who is
    allocated twice.

    [is_alnum] and [lower_point] are [str.isalnum] and [str.lower] on one character. *)
From Stdlib Require Import ZArith Lia Ascii String SpecFloat.
From stdpp Require Import base list strings.
From S2P Require Import Prelude Text TextFacts Json JsonFacts PublishContract EvidenceManifest.

(** ** Schemas *)

Record AttendeeIn : Type := mkAttendeeIn { ai_name : string; ai_person_id : Z }.
Record PublishedFieldDefinitionIn : Type := mkPublishedFieldDefinitionIn {
  fd_id : string; fd_name : string; fd_type : string; fd_purpose : string; fd_visibility : string
}.
Record TaskIn : Type := mkTaskIn {
  ti_id : Z; ti_name : string; ti_summary : option string; ti_description : option string; ti_start : string; ti_end : string;
  ti_location_name : option string; ti_location_address : option string; ti_task_type_code : option string;
  ti_task_type_name : option string; ti_color : option string; ti_attendees : list AttendeeIn;
  ti_field_assignments : option (list (string * list AttendeeIn)); ti_field_values : option (list (string * json));
  ti_field_definitions : option (list PublishedFieldDefinitionIn); ti_sort_order : option spec_float
}.
Record PersonIn : Type := mkPersonIn {
  pi_id : Z; pi_first_name : string; pi_last_name : string; pi_email : option string; pi_evidence_subject_id : string
}.
Record EventMetaIn : Type := mkEventMetaIn {
  em_name : option string; em_start_date : option string; em_end_date : option string;
  em_day_aliases : option (list (string * string)); em_schedule_day_range : option (list (string * Z))
}.
Record PersonUnavailabilityIn : Type := mkPersonUnavailabilityIn {
  ui_person_id : Z; ui_working_date : string; ui_start : string; ui_end : string
}.
Record PublishPayload : Type := mkPublishPayload {
  py_contract_version : string; py_event : option EventMetaIn; py_tasks : list TaskIn; py_persons : list PersonIn;
  py_unavailabilities : list PersonUnavailabilityIn; py_publish_scope : option string; py_dates : option (list string)
}.
#[export] Instance attendee_eq_dec : EqDecision AttendeeIn.
Proof. solve_decision. Defined.

(** [publish_contract.py] *)
Definition PUBLISH_CONTRACT_VERSION : string := "2026-07-30".
Definition FieldPurpose : list string :=
  ["assignment"; "capability_requirement"; "location"; "operational_instruction"; "reference"; "timing"]%string.
Definition FieldVisibility : list string := ["organiser"; "participant"; "public"; "never_publish"]%string.

(** ** Bounds of the fields *)

Definition max_length (n : Z) (s : string) : bool := strlen s <=? n.
Definition opt_max (n : Z) (o : option string) : bool := match o with Some s => max_length n s | None => true end.
Definition opt_short {A} (n : Z) (o : option (list A)) : bool := match o with Some l => Z.of_nat (length l) <=? n | None => true end.
(** [^[A-Za-z0-9_.:-]+$]: no [re.MULTILINE], and pydantic's [$] is the end of the text *)
Definition FIELD_ID_RE : regex := plus_r (cls ([("A", "Z"); ("a", "z"); ("0", "9")] ++ one_of "_.:-")%char).

Definition attendee_fields (a : AttendeeIn) : bool := max_length 256 (ai_name a) && (0 <? ai_person_id a).
Definition definition_fields (d : PublishedFieldDefinitionIn) : bool :=
  (1 <=? strlen (fd_id d)) && max_length 128 (fd_id d) && fullmatch FIELD_ID_RE (fd_id d) &&
  (1 <=? strlen (fd_name d)) && max_length 256 (fd_name d) && str_in (fd_type d) field_types &&
  str_in (fd_purpose d) FieldPurpose && str_in (fd_visibility d) FieldVisibility.
Definition task_fields (t : TaskIn) : bool :=
  (0 <? ti_id t) && max_length 512 (ti_name t) && opt_max 2000 (ti_summary t) && opt_max 10000 (ti_description t) &&
  max_length 64 (ti_start t) && max_length 64 (ti_end t) && opt_max 512 (ti_location_name t) &&
  opt_max 1024 (ti_location_address t) && opt_max 64 (ti_task_type_code t) && opt_max 256 (ti_task_type_name t) &&
  opt_max 32 (ti_color t) && forallb attendee_fields (ti_attendees t) &&
  match ti_field_assignments t with Some d => forallb (fun kv => forallb attendee_fields kv.2) d | None => true end &&
  opt_short 100 (ti_field_values t) && opt_short 100 (ti_field_definitions t) &&
  match ti_field_definitions t with Some l => forallb definition_fields l | None => true end.

(** [validate_canonical_evidence_identity] of [evidence_identity.py]: version and
    variant are bits of the UUID's 128. *)
Definition uuid_variant_rfc (z : Z) : bool := (Z.land (Z.shiftr z 62) 3 =? 2).
Definition uuid_version (z : Z) : Z := Z.land (Z.shiftr z 76) 15.
Definition validate_canonical_evidence_identity (value : string) : outcome string :=
  match parse_uuid value with
  | None => raise ValueError "Evidence identity must be a UUID"
  | Some parsed =>
      _ ← raise_if (negb (String.eqb (uuid_string parsed) value)) ValueError
            "Evidence identity must use canonical lower-case UUID form";
      _ ← raise_if (parsed =? 0) ValueError "Evidence identity must not be the nil UUID";
      _ ← raise_if (negb (uuid_variant_rfc parsed)) ValueError "Evidence identity must use the RFC 4122 variant";
      _ ← raise_if (negb ((uuid_version parsed =? 4) || (uuid_version parsed =? 5))) ValueError
            "Evidence identity must be a UUIDv4 or UUIDv5";
      Ok value
  end.

Definition person_fields (p : PersonIn) : bool :=
  (0 <? pi_id p) && max_length 256 (pi_first_name p) && max_length 256 (pi_last_name p) && opt_max 512 (pi_email p) &&
  is_ok (validate_canonical_evidence_identity (pi_evidence_subject_id p)).
Definition meta_fields (e : EventMetaIn) : bool :=
  opt_max 256 (em_name e) && opt_max 16 (em_start_date e) && opt_max 16 (em_end_date e).
Definition unavailability_fields (u : PersonUnavailabilityIn) : bool :=
  (0 <? ui_person_id u) && max_length 10 (ui_working_date u) && max_length 32 (ui_start u) && max_length 32 (ui_end u).

(** ** What a task may carry *)

Section Profiling.
Context (is_alnum : Z -> bool) (lower_point : Z -> string).

Definition _PROHIBITED_PROFILE_TOKENS : list string :=
  ["allergies"; "allergy"; "criminal"; "diagnosis"; "diet"; "dietary"; "disciplinary"; "disability"; "ethnicity"; "health";
   "medical"; "political"; "private_note"; "private_profile"; "religion"; "religious"; "safeguarding"; "sexual_orientation";
   "trade_union"]%string.
Definition _normalised_field_name (value : string) : string :=
  join "" (map (fun c => if is_alnum c then lower_point c else "_"%string) (code_points value)).
Definition _normalised_field_tokens (value : string) : list string :=
  List.filter truthy_str (split_on "_" (_normalised_field_name value)).
Definition _prohibited_field_name (value : string) : bool :=
  existsb (fun token => str_in token _PROHIBITED_PROFILE_TOKENS) (_normalised_field_tokens value) ||
  existsb (fun phrase => contains "_" phrase && contains phrase (_normalised_field_name value)) _PROHIBITED_PROFILE_TOKENS.

Fixpoint _walk_structured_keys (value : json) : list string :=
  match value with
  | JObj d => flat_map (fun kv => kv.1 :: _walk_structured_keys kv.2) d
  | JList l => flat_map _walk_structured_keys l
  | _ => []
  end.
(** Of a definition, the members named [id] and [name] are there. *)
Definition definition_names (d : PublishedFieldDefinitionIn) : list string := List.filter truthy_str [fd_id d; fd_name d].
Definition _reject_prohibited_profile_fields (field_values : list (string * json))
  (field_definitions : list PublishedFieldDefinitionIn) : outcome unit :=
  let candidates := _walk_structured_keys (JObj field_values) ++ flat_map definition_names field_definitions in
  raise_if (existsb _prohibited_field_name candidates) ValueError
    "Sensitive or unrelated private profiling fields are not supported".

Definition or_none {A} (o : option (list A)) : list A := match o with Some l => l | None => [] end.
Definition is_persons_list (d : PublishedFieldDefinitionIn) : bool := String.eqb (fd_type d) "persons_list".

Definition check_definition (values : list (string * json)) (assignments : list (string * list AttendeeIn))
  (d : PublishedFieldDefinitionIn) : outcome unit :=
  let has_value := has_key (fd_id d) values in
  let has_assignment := has_key (fd_id d) assignments in
  _ ← raise_if (String.eqb (fd_visibility d) "never_publish" && (has_value || has_assignment)) ValueError
        "Fields marked never_publish must not cross the publish boundary";
  _ ← raise_if (match dget (fd_id d) values with
                | Some v => negb (validate_published_field_value (fd_type d) v) | None => false end) ValueError
        ("Published field " +:+ fd_id d +:+ " does not match its declared type");
  _ ← raise_if (is_persons_list d && has_value) ValueError "persons_list data must use the structured assignment contract";
  raise_if (has_assignment && negb (is_persons_list d)) ValueError "Only persons_list fields may contain published assignments".
Fixpoint each {A} (f : A -> outcome unit) (l : list A) : outcome unit :=
  match l with [] => Ok tt | x :: l => _ ← f x; each f l end.

(** The people allocated, in the order of the fields *)
Definition allocated (definitions : list PublishedFieldDefinitionIn) (assignments : list (string * list AttendeeIn)) : list AttendeeIn :=
  flat_map (fun d => match dget (fd_id d) assignments with Some l => l | None => [] end) (List.filter is_persons_list definitions).
Fixpoint allocate_once (seen : list Z) (l : list AttendeeIn) : outcome unit :=
  match l with
  | [] => Ok tt
  | a :: l =>
      _ ← raise_if (existsb (Z.eqb (ai_person_id a)) seen) ValueError
            "A person may be allocated only once across a published task's assignment fields";
      allocate_once (ai_person_id a :: seen) l
  end.

Definition reject_private_profiling (t : TaskIn) : outcome unit :=
  let definitions := or_none (ti_field_definitions t) in
  let values := or_none (ti_field_values t) in
  let assignments := or_none (ti_field_assignments t) in
  _ ← _reject_prohibited_profile_fields values definitions;
  _ ← raise_if (negb (bool_decide (NoDup (map fd_id definitions)))) ValueError "Published field identifiers must be unique";
  _ ← raise_if (negb (forallb (fun k => str_in k (map fd_id definitions)) (dkeys values ++ dkeys assignments))) ValueError
        "Published values contain an unclassified field";
  _ ← each (check_definition values assignments) definitions;
  _ ← allocate_once [] (allocated definitions assignments);
  _ ← raise_if (negb (bool_decide (NoDup (map ai_person_id (ti_attendees t))))) ValueError
        "A person may appear only once in a published task's attendee list";
  raise_if (existsb is_persons_list definitions && negb (bool_decide (ti_attendees t = allocated definitions assignments)))
    ValueError "Published flat attendees must exactly match the ordered assignment fields".

(** The whole of a payload *)
Definition publish_scopes : list string := ["full"; "dates"]%string.
Definition validate_task (t : TaskIn) : outcome unit :=
  _ ← raise_if (negb (task_fields t)) ValidationError "TaskIn"; reject_private_profiling t.
Definition validate_payload (p : PublishPayload) : outcome unit :=
  _ ← raise_if (negb (String.eqb (py_contract_version p) PUBLISH_CONTRACT_VERSION)) ValidationError "contract_version";
  _ ← raise_if (match py_event p with Some e => negb (meta_fields e) | None => false end) ValidationError "EventMetaIn";
  _ ← each validate_task (py_tasks p);
  _ ← raise_if (negb (forallb person_fields (py_persons p))) ValidationError "PersonIn";
  _ ← raise_if (negb (forallb unavailability_fields (py_unavailabilities p))) ValidationError "PersonUnavailabilityIn";
  raise_if (match py_publish_scope p with Some s => negb (str_in s publish_scopes) | None => false end) ValidationError "publish_scope".
End Profiling.
