(* ===== verification/Permissions.v ===== *)
(** The request gate ([backend/app/core/permissions.py]): which writes need a
    CSRF token, and the keys under which requests are rate-limited
    ([backend/app/core/rate_limit.py]).  The client address is the web
    framework's. *)
From Stdlib Require Import ZArith Lia Ascii String.
From stdpp Require Import base list strings.
From S2P Require Import Prelude Text TextFacts Json Sha256.

(** A request: header names are lower case. *)
Record request : Type := Request {
  method : string;
  path : string;
  headers : list (string * string);
  cookies : list (string * string)
}.

Definition get_or (k d : string) (l : list (string * string)) : string :=
  match dget k l with Some v => v | None => d end.

(** ** CSRF *)

Definition WRITE_METHODS : list string := ["POST"; "PUT"; "PATCH"; "DELETE"]%string.

Definition ALWAYS_ALLOWED_WRITE_PATHS : list string :=
  ["/api/v1/auth/exchange"; "/api/v1/passkey/bootstrap/begin"; "/api/v1/passkey/bootstrap/complete";
   "/api/v1/passkey/auth/begin"; "/api/v1/passkey/auth/complete"; "/api/v1/activation/validate"]%string.

Definition ALWAYS_ALLOWED_WRITE_PREFIXES : list string := ["/api/v1/publish/"]%string.

Definition REGISTER_PATHS : list string :=
  ["/api/v1/passkey/register/begin"; "/api/v1/passkey/register/complete"]%string.

Definition _matches_prefix (path : string) (prefixes : list string) : bool :=
  existsb (fun pfx => let stripped := rstrip_slash pfx in
                      String.eqb path stripped || startswith (stripped +:+ "/") path) prefixes.

(** [hmac.compare_digest] on texts: both must be ASCII. *)
Definition compare_digest (a b : string) : outcome bool :=
  if is_ascii a && is_ascii b then Ok (String.eqb a b)
  else raise TypeError "comparing strings with non-ASCII characters is not supported".

Section Gate.
Context (SESSION_COOKIE_NAME CSRF_COOKIE_NAME : string).

Definition _verify_csrf (r : request) : outcome bool :=
  let csrf_header := get_or "x-csrf-token" EmptyString (headers r) in
  let csrf_cookie := get_or CSRF_COOKIE_NAME EmptyString (cookies r) in
  if negb (truthy_str csrf_header) || negb (truthy_str csrf_cookie) then Ok false
  else compare_digest csrf_header csrf_cookie.

(** [Forward] calls the next handler; [Denied] answers 403. *)
Inductive decision : Type := Forward | Denied.

Definition exempt (r : request) : bool :=
  str_in (path r) ALWAYS_ALLOWED_WRITE_PATHS ||
  (str_in (path r) REGISTER_PATHS &&
   truthy_str (get_or "x-activation-token" EmptyString (headers r))) ||
  _matches_prefix (path r) ALWAYS_ALLOWED_WRITE_PREFIXES.

Definition enforce_permissions_middleware (r : request) : outcome decision :=
  if str_in (method r) WRITE_METHODS then
    if exempt r then Ok Forward
    else if has_key SESSION_COOKIE_NAME (cookies r) then
      ok ← _verify_csrf r;
      Ok (if (ok : bool) then Forward else Denied)
    else Ok Forward
  else Ok Forward.

(** ** Rate-limit keys *)

Context (get_remote_address : request -> string).

Definition _secret_rate_key (scope value : string) : string := scope +:+ ":" +:+ sha256 value.
Definition client_ip_rate_key (r : request) : string := "ip:" +:+ get_remote_address r.
Definition passkey_session_rate_key (r : request) : string :=
  let session_token := get_or SESSION_COOKIE_NAME EmptyString (cookies r) in
  if truthy_str session_token then _secret_rate_key "passkey-session" session_token
  else client_ip_rate_key r.
Definition passkey_registration_rate_key (r : request) : string :=
  let activation_token := get_or "x-activation-token" EmptyString (headers r) in
  if truthy_str activation_token then _secret_rate_key "passkey-activation" activation_token
  else
    let session_token := get_or SESSION_COOKIE_NAME EmptyString (cookies r) in
    if truthy_str session_token then _secret_rate_key "passkey-session" session_token
    else client_ip_rate_key r.

(** ** Properties *)

(** A browser's own write: a write method, a session cookie, and none of the
    paths with their own authentication. *)
Definition cookie_write (r : request) : Prop :=
  method r ∈ WRITE_METHODS /\ SESSION_COOKIE_NAME ∈ dkeys (cookies r) /\
  ~ (path r ∈ ALWAYS_ALLOWED_WRITE_PATHS) /\ path r <> "/api/v1/publish"%string /\
  ~ (exists rest, path r = ("/api/v1/publish/" +:+ rest)) /\
  ~ (path r ∈ REGISTER_PATHS /\ get_or "x-activation-token" EmptyString (headers r) <> EmptyString).

Lemma str_in_true s l : str_in s l = true <-> s ∈ l.
Proof.
  unfold str_in. rewrite existsb_exists, list_elem_of_In. split.
  - by intros (x & Hx & ->%String.eqb_eq).
  - intros H. exists s. by rewrite String.eqb_refl.
Qed.

Lemma startswith_iff p s : startswith p s = true <-> exists r, s = p +:+ r.
Proof.
  unfold startswith. revert s. induction p as [|c p IH]; intros s.
  - split; [by exists s | by destruct s].
  - destruct s as [|d s]; cbn; [by split; [|intros (r & H)]|].
    destruct (ascii_dec c d) as [<-|Hne].
    + rewrite IH. split; intros (r & H); exists r; rewrite app_str_cons in *; congruence.
    + split; [done|]. intros (r & H). rewrite app_str_cons in H. congruence.
Qed.

Lemma truthy_str_true s : truthy_str s = true <-> s <> EmptyString.
Proof. unfold truthy_str. by rewrite negb_true_iff, String.eqb_neq. Qed.

(** C38: no browser session writes without its CSRF token: a write with a
    session cookie, outside the paths that carry their own authentication, is
    forwarded exactly when the request's token header equals the token cookie
    and is not empty; a prefix exempts only itself and what is below it. *)
Theorem cookie_write_needs_csrf r (H : cookie_write r) :
  enforce_permissions_middleware r = Ok Forward <->
  exists token, token <> EmptyString /\ is_ascii token = true /\
    dget "x-csrf-token" (headers r) = Some token /\ dget CSRF_COOKIE_NAME (cookies r) = Some token.
Proof.
  destruct H as (Hm & Hc & Hp & Hpub & Hpre & Hreg). unfold enforce_permissions_middleware.
  rewrite (proj2 (str_in_true _ _) Hm).
  assert (exempt r = false) as ->.
  { unfold exempt. apply not_true_iff_false. rewrite !orb_true_iff, andb_true_iff, !str_in_true, truthy_str_true.
    intros [[H|H]|H]; [done|done|].
    unfold _matches_prefix, ALWAYS_ALLOWED_WRITE_PREFIXES in H. cbn [existsb] in H. rewrite orb_false_r in H.
    apply orb_true_iff in H as [H%String.eqb_eq|H%startswith_iff]; done. }
  assert (has_key SESSION_COOKIE_NAME (cookies r) = true) as -> by by apply str_in_true. unfold _verify_csrf, get_or, compare_digest.
  split.
  - destruct (dget "x-csrf-token" (headers r)) as [h|]; [|done].
    destruct (dget CSRF_COOKIE_NAME (cookies r)) as [c|]; [|by rewrite orb_true_r].
    destruct (truthy_str h) eqn:Eh; [|done]. destruct (truthy_str c) eqn:Ec; [|done]. cbn [negb orb].
    destruct (is_ascii h) eqn:Ah; [|done]. destruct (is_ascii c); [|done]. cbn.
    destruct (String.eqb_spec h c) as [->|]; [|done]. intros _. exists c. by rewrite truthy_str_true in Ec.
  - intros (t & Ht%truthy_str_true & Ha & -> & ->). rewrite Ht, Ha. cbn. by rewrite String.eqb_refl.
Qed.

(** Rate-limit buckets of different credentials stay apart: two requests
    share a registration bucket only if they present the same activation
    token, or the same session token, or no credential and the same address
    (or two different secrets with the same SHA-256); a bucket's name shows
    the digest of the secret, never the secret. *)
Theorem rate_keys_separated r1 r2
  (H : passkey_registration_rate_key r1 = passkey_registration_rate_key r2) :
  let activation r := get_or "x-activation-token" EmptyString (headers r) in
  let session r := get_or SESSION_COOKIE_NAME EmptyString (cookies r) in
  (activation r1 <> EmptyString /\ activation r2 <> EmptyString /\
     sha256 (activation r1) = sha256 (activation r2)) \/
  (activation r1 = EmptyString /\ activation r2 = EmptyString /\
     session r1 <> EmptyString /\ session r2 <> EmptyString /\
     sha256 (session r1) = sha256 (session r2)) \/
  (activation r1 = EmptyString /\ activation r2 = EmptyString /\
     session r1 = EmptyString /\ session r2 = EmptyString /\
     get_remote_address r1 = get_remote_address r2).
Proof.
  intros activation session. revert H. unfold passkey_registration_rate_key. fold (activation r1) (activation r2).
  fold (session r1) (session r2).
  assert (forall s, truthy_str s = false -> s = EmptyString) as Hf.
  { intros s Hs. unfold truthy_str in Hs. by apply negb_false_iff, String.eqb_eq in Hs. }
  destruct (truthy_str (activation r1)) eqn:A1, (truthy_str (activation r2)) eqn:A2;
    rewrite ?truthy_str_true in A1, A2; try apply Hf in A1; try apply Hf in A2.
  - left. split_and!; [done|done|]. unfold _secret_rate_key in H. by injection H.
  - by destruct (truthy_str (session r2)).
  - by destruct (truthy_str (session r1)).
  - right. destruct (truthy_str (session r1)) eqn:S1, (truthy_str (session r2)) eqn:S2;
      rewrite ?truthy_str_true in S1, S2; try apply Hf in S1; try apply Hf in S2; try done.
    + left. split_and!; try done. unfold _secret_rate_key in H. by injection H.
    + right. split_and!; try done. unfold client_ip_rate_key in H. by injection H.
Qed.
End Gate.

Definition toy_write : request :=
  Request "POST" "/api/v1/events" [("x-csrf-token", "t")]%string [("session_id", "s"); ("csrf_token", "t")]%string.

Lemma cookie_write_needs_csrf_witness :
  enforce_permissions_middleware "session_id" "csrf_token" toy_write = Ok Forward <->
  exists token, token <> EmptyString /\ is_ascii token = true /\
    dget "x-csrf-token" (headers toy_write) = Some token /\ dget "csrf_token" (cookies toy_write) = Some token.
Proof.
  apply (cookie_write_needs_csrf "session_id" "csrf_token" toy_write). unfold cookie_write. cbn.
  split; [left|]. split; [left|].
  split; [apply (bool_decide_unpack _); reflexivity|]. split; [discriminate|]. split.
  - intros (rest & H). rewrite !app_str_cons in H. discriminate H.
  - intros [_ H]. apply H. reflexivity.
Defined.

Lemma rate_keys_separated_witness :
  passkey_registration_rate_key "session_id" (fun _ => "10.0.0.1"%string) toy_write =
  passkey_registration_rate_key "session_id" (fun _ => "10.0.0.2"%string) toy_write /\
  sha256 "s" = sha256 "s".
Proof.
  split; [reflexivity|].
  destruct (rate_keys_separated "session_id" (fun _ => "10.0.0.1"%string) toy_write toy_write eq_refl)
    as [(H & _)|[(_ & _ & _ & _ & H)|(_ & _ & H & _)]].
  - destruct H. reflexivity.
  - exact H.
  - discriminate H.
Defined.
