(* ===== verification/PublishInputProps.v ===== *)
(** What an accepted payload may carry. *)
From Stdlib Require Import ZArith Lia Ascii String.
From stdpp Require Import base list strings.
From S2P Require Import Prelude Text TextFacts Json JsonFacts PublishContract EvidenceManifest PublishInput Permissions.

Section Accepted.
Context (is_alnum : Z -> bool) (lower_point : Z -> string).
Abbreviation prohibited := (_prohibited_field_name is_alnum lower_point).

(** The definition that classifies a field of the task *)
Definition classified (t : TaskIn) (k : string) (d : PublishedFieldDefinitionIn) : Prop :=
  d ∈ or_none (ti_field_definitions t) /\ fd_id d = k /\ fd_visibility d <> "never_publish"%string.

Record well_typed (t : TaskIn) : Prop := {
  wt_fields : task_fields t = true;
  wt_ids : NoDup (map fd_id (or_none (ti_field_definitions t)));
  wt_values k v : dget k (or_none (ti_field_values t)) = Some v ->
    exists d, classified t k d /\ fd_type d <> "persons_list"%string /\ validate_published_field_value (fd_type d) v = true;
  wt_assignments k l : dget k (or_none (ti_field_assignments t)) = Some l ->
    exists d, classified t k d /\ fd_type d = "persons_list"%string /\
      forall a, a ∈ l -> a ∈ allocated (or_none (ti_field_definitions t)) (or_none (ti_field_assignments t));
  wt_people : NoDup (map ai_person_id (allocated (or_none (ti_field_definitions t)) (or_none (ti_field_assignments t))));
  wt_attendees : NoDup (map ai_person_id (ti_attendees t));
  wt_same_people d : d ∈ or_none (ti_field_definitions t) -> fd_type d = "persons_list"%string ->
    ti_attendees t = allocated (or_none (ti_field_definitions t)) (or_none (ti_field_assignments t));
  wt_keys k : k ∈ all_keys (JObj (or_none (ti_field_values t))) -> prohibited k = false;
  wt_names d k : d ∈ or_none (ti_field_definitions t) -> k ∈ [fd_id d; fd_name d] -> truthy_str k = true -> prohibited k = false
}.

Lemma each_Ok {A} (f : A -> outcome unit) l : each f l = Ok tt -> forall x, x ∈ l -> f x = Ok tt.
Proof.
  induction l as [|y l IH]; cbn [each]; [by intros _ x ?%elem_of_nil|]. intros ([] & H & Hl)%bind_Ok_inv x [->|Hx]%elem_of_cons; auto.
Qed.
Lemma walk_all_keys v k : k ∈ all_keys v -> k ∈ _walk_structured_keys v.
Proof.
  induction v as [| | | | |l IH|d IH] using json_rect'; cbn [all_keys _walk_structured_keys]; try by intros ?%elem_of_nil.
  - rewrite !list_elem_of_In, !in_flat_map. intros (v & Hv & Hk). exists v. split; [done|]. rewrite Forall_forall in IH.
    apply list_elem_of_In, IH; by apply list_elem_of_In.
  - rewrite Forall_forall in IH. rewrite elem_of_app, !list_elem_of_In, !in_flat_map. intros [Hk|(v & Hv & Hk)].
    + apply in_map_iff in Hk as (kv & <- & Hkv). exists kv. split; [done|by left].
    + exists v. split; [done|]. right. apply list_elem_of_In, IH; by apply list_elem_of_In.
Qed.
Lemma allocate_once_ok seen l : allocate_once seen l = Ok tt ->
  NoDup (map ai_person_id l) /\ forall i, i ∈ map ai_person_id l -> i ∉ seen.
Proof.
  revert seen. induction l as [|a l IH]; intros seen; cbn [allocate_once map]; [split; [constructor|by intros ? ?%elem_of_nil]|].
  intros ([] & Hs%raise_if_Ok_inv & (Hn & Hseen)%IH)%bind_Ok_inv. split.
  - constructor; [|done]. intros Hin. by apply (Hseen _ Hin), elem_of_cons; left.
  - intros i [->|Hi]%elem_of_cons.
    + intros Hin. assert (existsb (Z.eqb (ai_person_id a)) seen = true); [|congruence].
      apply existsb_exists. exists (ai_person_id a). rewrite <-list_elem_of_In. split; [done|lia].
    + intros Hin. by apply (Hseen _ Hi), elem_of_cons; right.
Qed.
Lemma is_persons_list_iff d : is_persons_list d = true <-> fd_type d = "persons_list"%string.
Proof. apply String.eqb_eq. Qed.

End Accepted.

(** ** A small instance *)

Module Payload.
Definition alnum (c : Z) : bool := in_rng 48 57 c || in_rng 65 90 c || in_rng 97 122 c.
Definition low (c : Z) : string := encode (if in_rng 65 90 c then c + 32 else c).
Definition definitions : list PublishedFieldDefinitionIn :=
  [mkPublishedFieldDefinitionIn "crew" "Crew" "persons_list" "assignment" "participant";
   mkPublishedFieldDefinitionIn "note" "Equipment" "text" "operational_instruction" "public"]%string.
Definition ann : AttendeeIn := mkAttendeeIn "Ann" 7.
Definition task : TaskIn :=
  mkTaskIn 3 "Set up" None None "2026-08-01T10:00:00" "2026-08-01T11:00:00" None None None None None [ann]
    (Some [("crew", [ann])])%string (Some [("note", JStr "two tents")])%string (Some definitions) None.
Definition payload (l : list TaskIn) : PublishPayload :=
  mkPublishPayload PUBLISH_CONTRACT_VERSION None l [mkPersonIn 7 "Ann" "Lee" None "0b9f3a56-1c2d-4e3f-8a4b-5c6d7e8f9a0b"] [] None None.
(** A field about health is refused, whatever it is called and wherever it is. *)
Definition health : TaskIn :=
  mkTaskIn 4 "Walk" None None "2026-08-01T10:00:00" "2026-08-01T11:00:00" None None None None None [] None
    (Some [("note", JObj [("Medical-info", JStr "x")])])%string (Some definitions) None.
End Payload.

