(* ===== verification/World.v ===== *)
(** What the server's code runs in: the database as its session sees it and as
    last committed, the files under the runtime and evidence directories, the
    configuration, the cached write permit, the directory of the replication
    queue, and the streams of clock readings and of fresh random texts that
    [datetime.now], [uuid4] and [secrets] draw from.  A stream of faults says
    which file operations on the queue fail, and how.  A query returns rows
    in table order.  Unique keys are not enforced: a theorem that needs one
    assumes it. *)
From Stdlib Require Import ZArith Lia String.
From stdpp Require Import base list strings.
From S2P Require Import Prelude Text Json PyTime Models EvidenceManifest.

(** ** The database *)

Record database : Type := mkDatabase {
  t_events : list Event;
  t_users : list User;
  t_webauthn_credentials : list WebAuthnCredential;
  t_passkey_challenges : list PasskeyChallenge;
  t_passkey_ceremonies : list PasskeyCeremony;
  t_exchange_codes : list ExchangeCode;
  t_auth_sessions : list AuthSession;
  t_activation_links : list ActivationLink;
  t_activation_email_deliveries : list ActivationEmailDelivery;
  t_push_subscriptions : list PushSubscription;
  t_announcements : list Announcement;
  t_schedule_changes : list ScheduleChange;
  t_audit_log : list AuditLog;
  t_published_persons : list PublishedPerson;
  t_published_person_unavailability : list PublishedPersonUnavailability;
  t_published_tasks : list PublishedTask;
  t_task_edits : list TaskEdit;
  t_publish_snapshots : list PublishSnapshot;
  t_published_general_schedule_categories : list PublishedGeneralScheduleCategory;
  t_published_general_schedule_items : list PublishedGeneralScheduleItem;
  t_general_schedule_publish_state : list GeneralSchedulePublishState;
  t_server_settings : list ServerSetting;
  t_instance_governance_profile : list InstanceGovernanceProfile;
  t_deletion_cases : list DeletionCase;
  t_deletion_subject_scopes : list DeletionSubjectScope;
  t_desktop_deletion_work_orders : list DesktopDeletionWorkOrder;
  t_deletion_required_processors : list DeletionRequiredProcessor;
  t_deletion_checklist_approvals : list DeletionChecklistApproval;
  t_evidence_keys : list EvidenceKey;
  t_processor_identities : list ProcessorIdentity;
  t_evidence_chain_state : list EvidenceChainState;
  t_evidence_operations : list EvidenceOperation;
  t_backup_inventory_records : list BackupInventoryRecord;
  t_privacy_action_receipts : list PrivacyActionReceipt;
  t_ha_cluster_state : list HAClusterState;
  t_ha_protection_operations : list HAProtectionOperation;
  t_governance_publications : list GovernancePublication;
  t_evidence_key_registration_challenges : list EvidenceKeyRegistrationChallenge;
  t_retention_scheduler_state : list RetentionSchedulerState;
  t_data_policy_acknowledgements : list DataPolicyAcknowledgement;
  t_public_schedule_links : list PublicScheduleLink;
  t_public_schedule_link_views : list PublicScheduleLinkView;
  t_processor_policy_acknowledgements : list ProcessorPolicyAcknowledgement
}.
#[export] Instance eta_database : Eta database := fun d =>
  mkDatabase (t_events d) (t_users d) (t_webauthn_credentials d) (t_passkey_challenges d)
  (t_passkey_ceremonies d) (t_exchange_codes d) (t_auth_sessions d) (t_activation_links d)
  (t_activation_email_deliveries d) (t_push_subscriptions d) (t_announcements d)
  (t_schedule_changes d) (t_audit_log d) (t_published_persons d)
  (t_published_person_unavailability d) (t_published_tasks d) (t_task_edits d)
  (t_publish_snapshots d) (t_published_general_schedule_categories d)
  (t_published_general_schedule_items d) (t_general_schedule_publish_state d) (t_server_settings
  d) (t_instance_governance_profile d) (t_deletion_cases d) (t_deletion_subject_scopes d)
  (t_desktop_deletion_work_orders d) (t_deletion_required_processors d)
  (t_deletion_checklist_approvals d) (t_evidence_keys d) (t_processor_identities d)
  (t_evidence_chain_state d) (t_evidence_operations d) (t_backup_inventory_records d)
  (t_privacy_action_receipts d) (t_ha_cluster_state d) (t_ha_protection_operations d)
  (t_governance_publications d) (t_evidence_key_registration_challenges d) (t_retention_scheduler_state d)
  (t_data_policy_acknowledgements d) (t_public_schedule_links d) (t_public_schedule_link_views d) (t_processor_policy_acknowledgements d).
Definition empty_database : database :=
  mkDatabase [] [] [] [] [] [] [] [] [] [] [] [] [] [] [] [] [] [] [] [] [] [] [] [] [] [] [] []
  [] [] [] [] [] [] [] [] [] [] [] [] [] [] [].

(** The fields of [Settings] the modelled code reads. *)
Record config : Type := mkConfig {
  SESSION_TTL_HOURS : Z; SESSION_TTL_HOURS_ADMIN : Z; SESSION_INACTIVITY_MINUTES : Z;
  RETENTION_REVOKED_SESSIONS_DAYS : Z; RETENTION_EXPIRED_SESSIONS_DAYS : Z;
  RETENTION_USED_ACTIVATION_LINKS_DAYS : Z; EVENT_PURGE_GRACE_DAYS : Z;
  SESSION_COOKIE_NAME : string; CSRF_COOKIE_NAME : string; IP_HMAC_KEY : string;
  ip_hmac_key_id : string; MP_INSTANCE_ID : string; EVIDENCE_MODE : string;
  EVIDENCE_TOMBSTONE_RETENTION_DAYS : Z;
  HA_MODE : string; HA_NODE_ID : string; HA_CLUSTER_ID : string; HA_GENERATION : Z;
  HA_CONTROL_WITNESS_REQUIRED : bool; HA_CONTROL_WITNESS_MAX_AGE_SECONDS : Z;
  HA_WITNESS_URL : string; HA_NODE_TOKEN : string; HA_WRITE_PERMIT_TIMEOUT_SECONDS : Z;
  HA_CONTROL_STATE_PATH : string; HA_LEASE_STATE_PATH : string; HA_REPLICATION_REQUEST_DIR : string;
  EVIDENCE_HOME : string; EVIDENCE_SIGNING_KEY_PATH : string; HA_SNAPSHOT_STATUS_PATH : string;
  SMTP_TIMEOUT_SECONDS : Z; RETENTION_SCHEDULER_INTERVAL_SECONDS : Z;
  VAPID_PRIVATE_KEY : string; VAPID_CLAIMS_EMAIL : string
}.
#[export] Instance eta_config : Eta config := fun c =>
  mkConfig (SESSION_TTL_HOURS c) (SESSION_TTL_HOURS_ADMIN c) (SESSION_INACTIVITY_MINUTES c)
  (RETENTION_REVOKED_SESSIONS_DAYS c) (RETENTION_EXPIRED_SESSIONS_DAYS c)
  (RETENTION_USED_ACTIVATION_LINKS_DAYS c) (EVENT_PURGE_GRACE_DAYS c)
  (SESSION_COOKIE_NAME c) (CSRF_COOKIE_NAME c) (IP_HMAC_KEY c) (ip_hmac_key_id c)
  (MP_INSTANCE_ID c) (EVIDENCE_MODE c) (EVIDENCE_TOMBSTONE_RETENTION_DAYS c) (HA_MODE c)
  (HA_NODE_ID c) (HA_CLUSTER_ID c) (HA_GENERATION c) (HA_CONTROL_WITNESS_REQUIRED c)
  (HA_CONTROL_WITNESS_MAX_AGE_SECONDS c) (HA_WITNESS_URL c) (HA_NODE_TOKEN c)
  (HA_WRITE_PERMIT_TIMEOUT_SECONDS c) (HA_CONTROL_STATE_PATH c) (HA_LEASE_STATE_PATH c)
  (HA_REPLICATION_REQUEST_DIR c) (EVIDENCE_HOME c) (EVIDENCE_SIGNING_KEY_PATH c)
  (HA_SNAPSHOT_STATUS_PATH c) (SMTP_TIMEOUT_SECONDS c) (RETENTION_SCHEDULER_INTERVAL_SECONDS c)
  (VAPID_PRIVATE_KEY c) (VAPID_CLAIMS_EMAIL c).
(** The defaults of [backend/app/core/config.py]. *)
Definition default_config : config :=
  mkConfig 8 1 30 7 1 30 90 "session_id" "csrf_token" EmptyString EmptyString EmptyString "required"
  1095 "standalone" "standalone" EmptyString 0 false 90 EmptyString EmptyString 3
  "/runtime/ha-control.json" "/runtime/ha-control.json" "/runtime/ha-requests"
  "/evidence" "/run/secrets/evidence_signing_key" "/runtime/ha-snapshot-status.json" 15 300
  EmptyString EmptyString.

(** ** The world *)

(** What the path of the replication queue is; [QUnreadable] where asking
    fails. *)
Inductive queue_kind : Type := QMissing | QSymlink | QFile | QUnreadable | QDirectory (writable : bool).

(** A failing file operation: the exception, and what a failing write leaves in
    the file, if it has created it. *)
Record fault : Type := Fault { fault_exn : exn; fault_partial : option string }.

Record world : Type := mkWorld {
  w_db : database;
  w_committed : database;
  w_next_id : Z;
  w_config : config;
  w_clock : nat -> Z;
  w_ticks : nat;
  w_entropy : nat -> string;
  w_draws : nat;
  w_ledger : dir;
  w_files : dir;
  w_permit : Z;
  w_queue_kind : queue_kind;
  w_queue : dir;
  w_faults : nat -> option fault;
  w_io : nat
}.
#[export] Instance eta_world : Eta world := fun w =>
  mkWorld (w_db w) (w_committed w) (w_next_id w) (w_config w) (w_clock w) (w_ticks w)
  (w_entropy w) (w_draws w) (w_ledger w) (w_files w) (w_permit w) (w_queue_kind w)
  (w_queue w) (w_faults w) (w_io w).

Abbreviation py := (M world).

Definition setting {A} (f : config -> A) : py A := gets (fun w => f (w_config w)).

(** [datetime.now(timezone.utc)]: the next reading of the clock. *)
Definition utc_now : py datetime := fun w =>
  (Ok (utc_at (w_clock w (w_ticks w))), w <| w_ticks := S (w_ticks w) |>).
(** [str(uuid.uuid4())], [secrets.token_urlsafe(n)], [secrets.token_hex(n)] *)
Definition fresh : py string := fun w =>
  (Ok (w_entropy w (w_draws w)), w <| w_draws := S (w_draws w) |>).

Definition commit : py unit := modify (fun w => w <| w_committed := w_db w |>).
Definition rollback : py unit := modify (fun w => w <| w_db := w_committed w |>).

(** ** Queries *)

Section Tables.
Context {R : Type} (t : database -> list R) `{!Setter t}.

Definition q_all (p : R -> bool) : py (list R) := gets (fun w => List.filter p (t (w_db w))).
Definition q_first (p : R -> bool) : py (option R) := gets (fun w => List.find p (t (w_db w))).
Definition q_count : py Z := gets (fun w => Z.of_nat (length (t (w_db w)))).

Definition on_table (f : list R -> list R) (w : world) : world :=
  w <| w_db := set_field t f (w_db w) |>.

(** [query.filter(p).update(...)]: the number of rows changed. *)
Definition q_update (p : R -> bool) (f : R -> R) : py Z := fun w =>
  (Ok (Z.of_nat (length (List.filter p (t (w_db w))))),
   on_table (map (fun r => if p r then f r else r)) w).
(** [query.filter(p).delete()] *)
Definition q_delete (p : R -> bool) : py Z := fun w =>
  (Ok (Z.of_nat (length (List.filter p (t (w_db w))))),
   on_table (List.filter (fun r => negb (p r))) w).
(** [db.add(row); db.flush()], the primary key drawn from its sequence. *)
Definition q_insert (row : Z -> R) : py R := fun w =>
  let r := row (w_next_id w) in
  (Ok r, on_table (fun l => l ++ [r]) (w <| w_next_id := w_next_id w + 1 |>)).
(** [db.add(row)] of a row that brings its primary key *)
Definition q_add (row : R) : py unit := modify (on_table (fun l => l ++ [row])).
End Tables.

(** [order_by(key)]: rows of equal key keep their order. *)
Fixpoint insert_by {R} (key : R -> Z) (r : R) (l : list R) : list R :=
  match l with
  | [] => [r]
  | x :: l' => if key r <=? key x then r :: l else x :: insert_by key r l'
  end.
Definition order_by {R} (key : R -> Z) (l : list R) : list R := fold_right (insert_by key) [] l.

(** [query.filter(...).one()] *)
Definition one {R} (l : list R) : outcome R :=
  match l with [r] => Ok r | _ => raise NoResultFound "exactly one row was expected" end.

Definition is_some {A} (o : option A) : bool := match o with Some _ => true | None => false end.
Definition is_none {A} (o : option A) : bool := negb (is_some o).
Definition opt_eqb {A} (eqb : A -> A -> bool) (a b : option A) : bool :=
  match a, b with Some x, Some y => eqb x y | None, None => true | _, _ => false end.
Definition eq_opt_Z : option Z -> option Z -> bool := opt_eqb Z.eqb.
Definition eq_opt_str : option string -> option string -> bool := opt_eqb String.eqb.

(** ** What a call leaves alone *)

(** The databases, the ledger and the files are as they were. *)
Definition same_state (w w' : world) : Prop :=
  w_db w' = w_db w /\ w_committed w' = w_committed w /\ w_config w' = w_config w /\
  w_ledger w' = w_ledger w /\ w_files w' = w_files w /\
  w_permit w' = w_permit w /\ w_queue w' = w_queue w /\ w_clock w' = w_clock w.

#[export] Instance same_state_preorder : PreOrder same_state.
Proof.
  split; [by intros w|]. intros w1 w2 w3 (A & B & C & D & E & F & G & H) (A' & B' & C' & D' & E' & F' & G' & H').
  unfold same_state. by rewrite A', B', C', D', E', F', G', H'.
Qed.

Lemma same_state_utc_now : keeps same_state utc_now.
Proof. by intros w. Qed.
Lemma same_state_fresh : keeps same_state fresh.
Proof. by intros w. Qed.
#[export] Hint Resolve same_state_utc_now same_state_fresh same_state_preorder : keeps.

Lemma keeps_run {A} R (m : py A) w o w' : keeps R m -> m w = (o, w') -> R w w'.
Proof. intros Hk H. specialize (Hk w). by rewrite H in Hk. Qed.

Lemma yields_first {R} (Q : world -> world -> Prop) `{!PreOrder Q} (t : database -> list R) p :
  yields Q (q_first t p) (fun o => forall r, o = Some r -> p r = true).
Proof. intros w. split; [reflexivity|]. by intros o [= <-] r [_ H]%List.find_some. Qed.

Lemma try_except_inv {A} (m : py A) cs h w a w' :
  try_except m cs h w = (Ok a, w') ->
  m w = (Ok a, w') \/ exists e w1, m w = (Raise e, w1) /\ exn_in e cs = true /\ h e w1 = (Ok a, w').
Proof.
  unfold try_except. destruct (m w) as [[b|e] w1]; [by left|]. destruct (exn_in e cs) eqn:E; [|done].
  right. eauto.
Qed.

(** A world to run examples in: a clock that stands still, small random texts. *)
Definition toy_world (db : database) : world :=
  mkWorld db db 100 default_config (fun _ => 1785414896000000) 0
    (fun n => nth n ["0"; "1"; "2"; "3"; "4"; "5"; "6"; "7"; "8"; "9"]%string "x"%string) 0 [] [] 0
    (QDirectory true) [] (fun _ => None) 0.
