(* ===== verification/RuntimeSettings.v ===== *)
(** Runtime-configurable settings ([backend/app/core/runtime_settings.py]): the
    registry of tuneable keys, their effective values, and the bookkeeping of
    the governance draft they feed.  Rewriting the governance draft itself
    ([_sync_governance_draft], [set_value]) depends on the policy renderer and
    is left out. *)
From Stdlib Require Import ZArith Lia String.
From stdpp Require Import base list strings.
From S2P Require Import Prelude Text TextFacts Json JsonFacts PyTime PyBuiltins Models World.

Record tuneable : Type := Tuneable { s_key : string; s_default : Z; s_min : Z; s_max : Z }.

Definition TUNEABLE_SETTINGS (c : config) : list tuneable :=
  [Tuneable "session_ttl_hours" (SESSION_TTL_HOURS c) 1 720;
   Tuneable "session_ttl_hours_admin" (SESSION_TTL_HOURS_ADMIN c) 1 24;
   Tuneable "session_inactivity_minutes" (SESSION_INACTIVITY_MINUTES c) 5 1440;
   Tuneable "offline_access_ttl_hours" 24 1 24;
   Tuneable "reauth_window_minutes" 5 1 30;
   Tuneable "activation_link_expiry_hours" 24 1 168;
   Tuneable "retention_revoked_sessions_days" (RETENTION_REVOKED_SESSIONS_DAYS c) 1 365;
   Tuneable "retention_expired_sessions_days" (RETENTION_EXPIRED_SESSIONS_DAYS c) 1 365;
   Tuneable "retention_used_activation_links_days" (RETENTION_USED_ACTIVATION_LINKS_DAYS c) 1 365;
   Tuneable "audit_log_retention_days" 90 30 730;
   Tuneable "event_purge_grace_days" (EVENT_PURGE_GRACE_DAYS c) 1 3650;
   Tuneable "secret_max_age_days" 90 0 365;
   Tuneable "max_snapshots_per_event" 20 5 100;
   Tuneable "challenge_ttl_minutes" 5 1 30;
   Tuneable "exchange_code_ttl_seconds" 30 10 300;
   Tuneable "reauth_challenge_ttl_minutes" 5 1 30;
   Tuneable "passkey_requests_per_minute" 60 5 600;
   Tuneable "self_service_additional_passkeys_enabled" 0 0 1;
   Tuneable "self_service_passkey_emails_per_minute" 1 1 10;
   Tuneable "self_service_passkey_emails_per_day" 3 1 50;
   Tuneable "announcements_per_event_limit" 50 10 500;
   Tuneable "masterplan_pushes_per_minute" 5 1 120;
   Tuneable "public_schedule_pushes_per_minute" 5 1 120;
   Tuneable "ha_replication_interval_minutes" 5 5 1440].

Definition find_tuneable (key : string) (c : config) : option tuneable :=
  List.find (fun t => String.eqb (s_key t) key) (TUNEABLE_SETTINGS c).

(** [meta["min"] <= v <= meta["max"]] *)
Definition in_bounds (m : tuneable) (v : Z) : bool := (s_min m <=? v) && (v <=? s_max m).

Definition _get_overrides : py (list (string * string)) :=
  rows ← q_all t_server_settings (fun _ => true);
  mret (dict_of_pairs (map (fun r => (ss_key r, ss_value r)) rows)).

(** The value an override text stands for. *)
Definition effective (m : tuneable) (raw : string) : outcome Z :=
  match int_of_str raw with
  | Ok v => if in_bounds m v then Ok v else Ok (s_default m)
  | Raise e => if exn_in e [ValueError; TypeError] then Ok (s_default m) else Raise e
  end.

Definition get_int (key : string) : py Z :=
  c ← setting id;
  match find_tuneable key c with
  | None => throw KeyError ("Unknown setting: " +:+ key)
  | Some meta =>
      row ← q_first t_server_settings (fun r => String.eqb (ss_key r) key);
      match row with
      | Some r => lift (effective meta (ss_value r))
      | None => mret (s_default meta)
      end
  end.

(** The effective value of every setting. *)
Definition get_all : py (list (string * Z)) :=
  overrides ← _get_overrides;
  c ← setting id;
  mmap (fun m =>
    v ← match dget (s_key m) overrides with
        | Some raw => lift (effective m raw)
        | None => mret (s_default m)
        end;
    mret (s_key m, v)) (TUNEABLE_SETTINGS c).

Definition _set_internal (key value : string) : py unit :=
  row ← q_first t_server_settings (fun r => String.eqb (ss_key r) key);
  match row with
  | Some r =>
      _ ← q_update t_server_settings (fun x => ss_id x =? ss_id r) (fun x => x <| ss_value := value |>);
      mret tt
  | None => _ ← q_insert t_server_settings (fun i => mkServerSetting i key value); mret tt
  end.

(** The changed fields of the governance draft not yet published. *)
Definition differs (item : json) : bool :=
  match item with
  | JObj d => negb (py_eq (dget_or_null "current" d) (dget_or_null "previous" d))
  | _ => false
  end.

Definition or_default (o : option string) (d : string) : string :=
  match o with Some s => s | None => d end.

Definition governance_impact : py (list (string * json)) :=
  values ← _get_overrides;
  changes ← lift (match loads (or_default (dget "governance_runtime_changed_fields" values) "[]") with
                  | Ok v => Ok v
                  | Raise e => if exn_in e [JSONDecodeError] then Ok (JList []) else Raise e
                  end);
  changes ← lift (match changes with
                  | JList l => Ok (List.filter differs l)
                  | JObj _ | JStr _ => Ok []
                  | _ => raise TypeError "object is not iterable"
                  end);
  let pending := negb (Nat.eqb (length changes) 0) in
  let required := String.eqb (or_default (dget "governance_runtime_publication_required" values) "")
                    "true" in
  let changed_at := dget "governance_runtime_draft_changed_at" values in
  mret [("draft_updated", JBool pending);
        ("publication_required", JBool (pending && required));
        ("changed_at", if pending && truthy_opt changed_at then of_opt_str changed_at else JNull);
        ("changes", JList changes)]%string.

Definition clear_governance_impact : py unit :=
  _ ← _set_internal "governance_runtime_changed_fields" "[]";
  _set_internal "governance_runtime_publication_required" "false".

(** ** Lemmas *)

(** The static defaults the configuration supplies are themselves in range. *)
Definition config_in_bounds (c : config) : Prop :=
  forallb (fun m => in_bounds m (s_default m)) (TUNEABLE_SETTINGS c) = true.

Lemma effective_bounds m raw v :
  in_bounds m (s_default m) = true -> effective m raw = Ok v -> in_bounds m v = true.
Proof.
  unfold effective. intros Hd H. destruct (int_of_str raw) as [x|e].
  - destruct (in_bounds m x) eqn:E; by injection H as <-.
  - destruct (exn_in e _); [by injection H as <- | done].
Qed.

Lemma get_int_run key w :
  get_int key w =
  match find_tuneable key (w_config w) with
  | None => (raise KeyError ("Unknown setting: " +:+ key), w)
  | Some meta =>
      (match List.find (fun r => String.eqb (ss_key r) key) (t_server_settings (w_db w)) with
       | Some r => effective meta (ss_value r)
       | None => Ok (s_default meta)
       end, w)
  end.
Proof.
  unfold get_int, setting, q_first, gets, mbind, M_bind, id.
  destruct (find_tuneable key (w_config w)); [|done].
  by destruct (List.find (fun r => String.eqb (ss_key r) key) (t_server_settings (w_db w))).
Qed.

(** Reading a setting changes nothing and never leaves its bounds. *)
Lemma get_int_ok key w v w' :
  config_in_bounds (w_config w) -> get_int key w = (Ok v, w') ->
  w' = w /\ exists m, find_tuneable key (w_config w) = Some m /\ s_min m <= v <= s_max m.
Proof.
  intros Hc. rewrite get_int_run. destruct (find_tuneable key (w_config w)) as [m|] eqn:E; [|done].
  intros H. injection H as H <-. split; [done|]. exists m. split; [done|].
  assert (in_bounds m (s_default m) = true) as Hd.
  { unfold config_in_bounds in Hc. rewrite forallb_forall in Hc. apply Hc.
    by apply List.find_some in E as [? _]. }
  assert (in_bounds m v = true) as Hb.
  { destruct (List.find _ _); [by eapply effective_bounds | by injection H as <-]. }
  unfold in_bounds in Hb. bool_norm. lia.
Qed.

(** Every tuneable setting stays within its registered bounds: whatever
    text an administrator or an old release left in the settings table, reading
    a known key returns a value between the key's minimum and maximum and
    changes nothing; only an unregistered key raises. *)
Theorem settings_stay_in_bounds key w
  (Hc : config_in_bounds (w_config w)) :
  (get_int key w).2 = w /\
  match find_tuneable key (w_config w) with
  | Some m => exists v, (get_int key w).1 = Ok v /\ s_min m <= v <= s_max m
  | None => (get_int key w).1 = raise KeyError ("Unknown setting: " +:+ key)
  end.
Proof.
  rewrite get_int_run. destruct (find_tuneable key (w_config w)) as [m|] eqn:E; [|done].
  split; [done|].
  assert (in_bounds m (s_default m) = true) as Hd.
  { unfold config_in_bounds in Hc. rewrite forallb_forall in Hc. apply Hc.
    by apply List.find_some in E as [? _]. }
  assert (exists v, match List.find (fun r => String.eqb (ss_key r) key) (t_server_settings (w_db w)) with
    | Some r => effective m (ss_value r) | None => Ok (s_default m) end = Ok v) as [v Hv].
  { destruct (List.find _ _) as [r|]; [|eauto]. unfold effective.
    destruct (int_of_str (ss_value r)) as [x|e] eqn:Ei; [destruct (in_bounds m x); eauto|].
    assert (exn_in e [ValueError; TypeError] = true) as ->; [|eauto].
    unfold int_of_str in Ei. repeat case_on_hyp Ei; try discriminate Ei; by injection Ei as <-. }
  exists v. cbn [fst]. rewrite Hv. split; [done|].
  assert (in_bounds m v = true) as Hb.
  { destruct (List.find _ _); [by eapply effective_bounds | by injection Hv as <-]. }
  unfold in_bounds in Hb. bool_norm. lia.
Qed.

Definition toy_settings : world :=
  toy_world (empty_database <| t_server_settings := [mkServerSetting 1 "max_snapshots_per_event" " 7_0 "] |>).

Lemma settings_stay_in_bounds_witness :
  (get_int "max_snapshots_per_event" toy_settings).2 = toy_settings /\
  (get_int "max_snapshots_per_event" toy_settings).1 = Ok 70.
Proof.
  split; [|vm_compute; reflexivity].
  apply (settings_stay_in_bounds "max_snapshots_per_event" toy_settings). vm_compute. reflexivity.
Defined.
