(* ===== verification/Cascade.v ===== *)
(** Deleting a row with what the foreign keys of [backend/app/models/] ask for:
    the rows of [ondelete="CASCADE"] go with it, the columns of
    [ondelete="SET NULL"] lose it.  Tables that no modelled code uses are not in
    the database and are left out here too. *)
From Stdlib Require Import ZArith Lia String.
From stdpp Require Import base list strings.
From S2P Require Import Prelude Text Json PyTime Models World.

Definition is_id (id : Z) (o : option Z) : bool := match o with Some i => i =? id | None => false end.
Definition among (ids : list Z) (i : Z) : bool := existsb (Z.eqb i) ids.
Definition opt_in (ids : list Z) (o : option Z) : bool := match o with Some i => among ids i | None => false end.
(** A reference to one of the deleted rows becomes NULL. *)
Definition unless_in (ids : list Z) (o : option Z) : option Z := if opt_in ids o then None else o.

Section Rows.
Context {R : Type}.
Definition without (p : R -> bool) (l : list R) : list R := List.filter (fun r => negb (p r)) l.
Definition ids_of (key : R -> Z) (p : R -> bool) (l : list R) : list Z := map key (List.filter p l).
End Rows.

(** ** Sessions, links and deliveries *)

(** [DELETE FROM auth_sessions WHERE p] *)
Definition delete_session_rows (p : AuthSession -> bool) (db : database) : database :=
  let sessions := ids_of s_id p (t_auth_sessions db) in
  db <| t_auth_sessions := without p (t_auth_sessions db) |>
     <| t_passkey_ceremonies := without (fun c => opt_in sessions (pc_session_id c)) (t_passkey_ceremonies db) |>.
(** [DELETE FROM activation_links WHERE p] *)
Definition delete_link_rows (p : ActivationLink -> bool) (db : database) : database :=
  let links := ids_of al_id p (t_activation_links db) in
  db <| t_activation_links := without p (t_activation_links db) |>
     <| t_passkey_ceremonies :=
          map (fun c => c <| pc_activation_link_id := unless_in links (pc_activation_link_id c) |>)
            (t_passkey_ceremonies db) |>
     <| t_activation_email_deliveries :=
          map (fun d => d <| ad_activation_link_id := unless_in links (ad_activation_link_id d) |>)
            (t_activation_email_deliveries db) |>.
(** [DELETE FROM activation_email_deliveries WHERE p] *)
Definition delete_delivery_rows (p : ActivationEmailDelivery -> bool) (db : database) : database :=
  let deliveries := ids_of ad_id p (t_activation_email_deliveries db) in
  db <| t_activation_email_deliveries :=
          map (fun d => d <| ad_retry_of_id := unless_in deliveries (ad_retry_of_id d) |>)
            (without p (t_activation_email_deliveries db)) |>.

(** [query.filter(p).delete()] of a table others refer to: the number of rows. *)
Definition delete_where {R} (t : database -> list R) (rows : (R -> bool) -> database -> database) (p : R -> bool) : py Z :=
  fun w => (Ok (Z.of_nat (length (List.filter p (t (w_db w))))), w <| w_db := rows p (w_db w) |>).
Definition delete_sessions : (AuthSession -> bool) -> py Z := delete_where t_auth_sessions delete_session_rows.
Definition delete_links : (ActivationLink -> bool) -> py Z := delete_where t_activation_links delete_link_rows.
Definition delete_deliveries : (ActivationEmailDelivery -> bool) -> py Z :=
  delete_where t_activation_email_deliveries delete_delivery_rows.

(** ** Users *)

(** [DELETE FROM users WHERE id = ...] *)
Definition delete_user_row (id : Z) (db : database) : database :=
  let sessions := ids_of s_id (fun s => s_user_id s =? id) (t_auth_sessions db) in
  let links := ids_of al_id (fun l => al_user_id l =? id) (t_activation_links db) in
  let deliveries := ids_of ad_id (fun d => ad_user_id d =? id) (t_activation_email_deliveries db) in
  let gone := unless_in [id] in
  db <| t_users := without (fun u => u_id u =? id) (t_users db) |>
     <| t_webauthn_credentials := without (fun c => wc_user_id c =? id) (t_webauthn_credentials db) |>
     <| t_passkey_challenges := without (fun c => is_id id (ph_user_id c)) (t_passkey_challenges db) |>
     <| t_exchange_codes := without (fun c => xc_user_id c =? id) (t_exchange_codes db) |>
     <| t_auth_sessions := without (fun s => s_user_id s =? id) (t_auth_sessions db) |>
     <| t_push_subscriptions := without (fun p => ps_user_id p =? id) (t_push_subscriptions db) |>
     <| t_schedule_changes := without (fun c => sc_user_id c =? id) (t_schedule_changes db) |>
     <| t_passkey_ceremonies :=
          map (fun c => c <| pc_activation_link_id := unless_in links (pc_activation_link_id c) |>)
            (without (fun c => is_id id (pc_user_id c) || opt_in sessions (pc_session_id c)) (t_passkey_ceremonies db)) |>
     <| t_activation_links :=
          map (fun l => l <| al_created_by_id := gone (al_created_by_id l) |>)
            (without (fun l => al_user_id l =? id) (t_activation_links db)) |>
     <| t_activation_email_deliveries :=
          map (fun d => d <| ad_activation_link_id := unless_in links (ad_activation_link_id d) |>
                          <| ad_requested_by_id := gone (ad_requested_by_id d) |>
                          <| ad_retry_of_id := unless_in deliveries (ad_retry_of_id d) |>)
            (without (fun d => ad_user_id d =? id) (t_activation_email_deliveries db)) |>
     <| t_announcements := map (fun a => a <| an_created_by_id := gone (an_created_by_id a) |>) (t_announcements db) |>
     <| t_task_edits := map (fun e => e <| te_edited_by_user_id := gone (te_edited_by_user_id e) |>) (t_task_edits db) |>
     <| t_audit_log := map (fun a => a <| au_user_id := gone (au_user_id a) |>) (t_audit_log db) |>
     <| t_governance_publications :=
          map (fun g => g <| gv_published_by_id := gone (gv_published_by_id g) |>) (t_governance_publications db) |>
     <| t_data_policy_acknowledgements :=
          map (fun a => a <| dp_user_id := gone (dp_user_id a) |>) (t_data_policy_acknowledgements db) |>
     <| t_public_schedule_links :=
          map (fun l => l <| pl_created_by_id := gone (pl_created_by_id l) |>) (t_public_schedule_links db) |>
     <| t_deletion_cases := map (fun c => c <| dc_user_id := gone (dc_user_id c) |>) (t_deletion_cases db) |>
     <| t_deletion_checklist_approvals :=
          map (fun a => a <| ap_user_id := gone (ap_user_id a) |>) (t_deletion_checklist_approvals db) |>.

(** ** Events *)

(** [DELETE FROM events WHERE id = ...] *)
Definition delete_event_row (id : Z) (db : database) : database :=
  let tasks := ids_of pt_id (fun t => pt_event_id t =? id) (t_published_tasks db) in
  let links := ids_of pl_id (fun l => pl_event_id l =? id) (t_public_schedule_links db) in
  let gone := unless_in [id] in
  db <| t_events := without (fun e => ev_id e =? id) (t_events db) |>
     <| t_push_subscriptions := without (fun p => is_id id (ps_event_id p)) (t_push_subscriptions db) |>
     <| t_announcements := without (fun a => an_event_id a =? id) (t_announcements db) |>
     <| t_schedule_changes := without (fun c => sc_event_id c =? id) (t_schedule_changes db) |>
     <| t_published_persons := without (fun p => pp_event_id p =? id) (t_published_persons db) |>
     <| t_published_person_unavailability :=
          without (fun u => pu_event_id u =? id) (t_published_person_unavailability db) |>
     <| t_published_tasks := without (fun t => pt_event_id t =? id) (t_published_tasks db) |>
     <| t_task_edits := without (fun e => among tasks (te_task_id e)) (t_task_edits db) |>
     <| t_publish_snapshots := without (fun s => sn_event_id s =? id) (t_publish_snapshots db) |>
     <| t_published_general_schedule_categories :=
          without (fun c => gc_event_id c =? id) (t_published_general_schedule_categories db) |>
     <| t_published_general_schedule_items :=
          without (fun i => gi_event_id i =? id) (t_published_general_schedule_items db) |>
     <| t_general_schedule_publish_state :=
          without (fun s => gs_event_id s =? id) (t_general_schedule_publish_state db) |>
     <| t_data_policy_acknowledgements :=
          without (fun a => is_id id (dp_event_id a)) (t_data_policy_acknowledgements db) |>
     <| t_public_schedule_links := without (fun l => pl_event_id l =? id) (t_public_schedule_links db) |>
     <| t_public_schedule_link_views := without (fun v => among links (pv_link_id v)) (t_public_schedule_link_views db) |>
     <| t_users := map (fun u => u <| u_event_id := gone (u_event_id u) |>) (t_users db) |>
     <| t_processor_identities :=
          map (fun p => p <| pi_event_id := gone (pi_event_id p) |>) (t_processor_identities db) |>
     <| t_evidence_key_registration_challenges :=
          map (fun c => c <| kc_event_id := gone (kc_event_id c) |>) (t_evidence_key_registration_challenges db) |>
     <| t_deletion_subject_scopes :=
          map (fun s => s <| ds_event_id := gone (ds_event_id s) |>) (t_deletion_subject_scopes db) |>
     <| t_desktop_deletion_work_orders :=
          map (fun o => o <| wo_event_id := gone (wo_event_id o) |>) (t_desktop_deletion_work_orders db) |>.

Definition delete_user (id : Z) : py unit := modify (fun w => w <| w_db := delete_user_row id (w_db w) |>).
Definition delete_event (id : Z) : py unit := modify (fun w => w <| w_db := delete_event_row id (w_db w) |>).

(** ** Objects of the session *)

(** The row of one object changes: the first with its primary key, since the key
    is unique. *)
Fixpoint update_first {R} (p : R -> bool) (f : R -> R) (l : list R) : list R :=
  match l with
  | [] => []
  | r :: l => if p r then f r :: l else r :: update_first p f l
  end.

Section Object.
Context {R : Type} (t : database -> list R) `{!Setter t} (key : R -> Z).

(** The object with that primary key; the code holds one only if the row is
    there. *)
Definition row (id : Z) : py R :=
  r ← q_first t (fun r => key r =? id);
  match r with Some r => mret r | None => throw NoResultFound "the row of the object was deleted" end.
(** Assignments to its attributes *)
Definition assign (id : Z) (f : R -> R) : py unit := modify (on_table t (update_first (fun r => key r =? id) f)).
(** [for r in query.filter(p): ...] where the body computes the new row *)
Definition for_rows (p : R -> bool) (f : R -> outcome R) : py unit :=
  rows ← q_all t p;
  mfor (fun r => r' ← lift (f r); assign (key r) (fun _ => r')) rows.
End Object.
