(* ===== verification/Sessions.v ===== *)
(** Server-side sessions ([backend/app/core/sessions.py]): creation, validation,
    revocation and clean-up of the rows of [auth_sessions], and the
    pseudonymised traces a session keeps of its client. *)
From Stdlib Require Import ZArith Lia Ascii String.
From stdpp Require Import base list strings.
From S2P Require Import Prelude Text TextFacts Json Sha256 PyTime PyBuiltins Models IpAddress World Cascade.
From S2P Require Import RuntimeSettings.

(** ** Client traces *)

Definition _hash_ip (ip : option string) : py (option string) :=
  match ip with
  | None => mret None
  | Some ip =>
      if negb (truthy_str ip) then mret None
      else
        match ip_compressed (ustrip ip) with
        | None => mret None
        | Some canonical_ip =>
            key ← setting IP_HMAC_KEY;
            if negb (truthy_str key) then mret None
            else
              now ← utc_now;
              key_id ← setting ip_hmac_key_id;
              let nul := String (chr 0) EmptyString in
              let message := "mp-opt-ip-v1" +:+ nul +:+ iso_date now +:+ nul +:+ canonical_ip in
              let digest := take_bytes 32 (hmac_sha256 key message) in
              mret (Some ("v1:" +:+ key_id +:+ ":" +:+ digest))
        end
  end.

Definition or_empty (o : option string) : string := match o with Some s => s | None => EmptyString end.

Definition _compute_fingerprint (user_agent accept_language : option string) : option string :=
  if negb (truthy_opt user_agent) then None
  else Some (take_bytes 64 (sha256 (or_empty user_agent +:+ "|" +:+ or_empty accept_language))).

Definition browsers : list string := ["Firefox"; "Edge"; "Chrome"; "Safari"; "Browser"]%string.
Definition systems : list string :=
  ["Windows"; "macOS"; "iOS"; "Android"; "ChromeOS"; "Linux"; "Other"]%string.
(** [_COARSE_USER_AGENT.fullmatch(value)] *)
Definition coarse_labels : list string :=
  flat_map (fun b => map (fun s => b +:+ " on " +:+ s) systems) browsers.

Definition contains_any (ps : list string) (s : string) : bool := existsb (fun p => contains p s) ps.

Definition browser_family (value : string) : string :=
  if contains_any ["Edg/"; "EdgiOS/"; "EdgA/"] value then "Edge"
  else if contains_any ["Firefox/"; "FxiOS/"] value then "Firefox"
  else if contains_any ["Chrome/"; "CriOS/"] value then "Chrome"
  else if contains "Safari/" value && contains "Version/" value then "Safari"
  else "Browser".
Definition system_family (value : string) : string :=
  if contains "Windows" value then "Windows"
  else if contains "CrOS" value then "ChromeOS"
  else if contains "Android" value then "Android"
  else if contains_any ["iPhone"; "iPad"; "iPod"] value then "iOS"
  else if contains_any ["Macintosh"; "Mac OS X"] value then "macOS"
  else if contains "Linux" value then "Linux"
  else "Other".
Definition _coarse_user_agent (user_agent : option string) : option string :=
  if negb (truthy_opt user_agent) then None
  else
    let value := ustrip (or_empty user_agent) in
    if str_in value coarse_labels then Some value
    else Some (browser_family value +:+ " on " +:+ system_family value).

Definition _hash_token (token : string) : string := sha256 token.

(** ** Sessions *)

(** The new row and the raw token, which only the caller's cookie holds. *)
Definition create_session (user_id : Z) (ip_address user_agent accept_language : option string)
  (is_privileged reauthenticated : bool) : py (AuthSession * string) :=
  ttl_hours ← (if is_privileged then get_int "session_ttl_hours_admin" else get_int "session_ttl_hours");
  now ← utc_now;
  raw_token ← fresh;
  csrf_token ← fresh;
  ip ← _hash_ip ip_address;
  session ← q_insert t_auth_sessions (fun i =>
    (new_AuthSession now) <| s_id := i |> <| s_user_id := user_id |>
      <| s_session_token := _hash_token raw_token |> <| s_csrf_token := csrf_token |>
      <| s_expires_at := add_us now (ttl_hours * us_hour) |> <| s_last_seen_at := Some now |>
      <| s_reauth_at := if reauthenticated then Some now else None |> <| s_ip_address := ip |>
      <| s_user_agent := _coarse_user_agent user_agent |>
      <| s_fingerprint := _compute_fingerprint user_agent accept_language |>);
  _ ← commit;
  mret (session, raw_token).

(** The unrevoked row that stores a token's hash. *)
Definition holds_token (token_hash : string) (s : AuthSession) : bool :=
  String.eqb (s_session_token s) token_hash && is_none (s_revoked_at s).

Definition fingerprint_matches (session : AuthSession) (user_agent accept_language : option string) : bool :=
  if truthy_opt (s_fingerprint session) then
    match _compute_fingerprint user_agent accept_language with
    | None => false
    | Some current => String.eqb current (or_empty (s_fingerprint session))
    end
  else true.

Definition validate_session (session_token : string) (user_agent accept_language : option string)
  (update_last_seen : bool) : py (option AuthSession) :=
  let token_hash := _hash_token session_token in
  session ← q_first t_auth_sessions (holds_token token_hash);
  match session with
  | None => mret None
  | Some session =>
      now ← utc_now;
      if instant (ensure_aware (s_expires_at session)) <? instant now then mret None
      else
        inactive ← match s_last_seen_at session with
                   | None => mret false
                   | Some last_seen =>
                       minutes ← get_int "session_inactivity_minutes";
                       mret (instant (add_us (ensure_aware last_seen) (minutes * us_minute)) <? instant now)
                   end;
        if (inactive : bool) || negb (fingerprint_matches session user_agent accept_language) then mret None
        else if update_last_seen then
          _ ← q_update t_auth_sessions (fun s => s_id s =? s_id session)
                (fun s => s <| s_last_seen_at := Some now |>);
          _ ← commit;
          mret (Some (session <| s_last_seen_at := Some now |>))
        else mret (Some session)
  end.

Definition revoke_session (session_token : string) : py bool :=
  let token_hash := _hash_token session_token in
  session ← q_first t_auth_sessions (holds_token token_hash);
  match session with
  | None => mret false
  | Some session =>
      now ← utc_now;
      _ ← q_update t_auth_sessions (fun s => s_id s =? s_id session)
            (fun s => s <| s_revoked_at := Some now |>);
      _ ← commit;
      mret true
  end.

Definition active_session_of (user_id : Z) (s : AuthSession) : bool :=
  (s_user_id s =? user_id) && is_none (s_revoked_at s).

Definition revoke_all_user_sessions (user_id : Z) : py Z :=
  now ← utc_now;
  count ← q_update t_auth_sessions (active_session_of user_id)
            (fun s => s <| s_revoked_at := Some now |>);
  _ ← commit;
  mret count.

Definition cleanup_expired_sessions (now : option datetime) (do_commit : bool) : py Z :=
  now ← match now with Some n => mret n | None => utc_now end;
  expired_days ← get_int "retention_expired_sessions_days";
  let expired_cutoff := add_us now (- (expired_days * us_day)) in
  expired ← delete_sessions (fun s => instant (s_expires_at s) <? instant expired_cutoff);
  revoked_days ← get_int "retention_revoked_sessions_days";
  let revoked_cutoff := add_us now (- (revoked_days * us_day)) in
  revoked ← delete_sessions (fun s =>
    match s_revoked_at s with Some r => instant r <? instant revoked_cutoff | None => false end);
  _ ← when do_commit commit;
  mret (expired + revoked).

(** ** Lemmas *)

Lemma q_first_inv {R} (t : database -> list R) p w o w' :
  q_first t p w = (Ok o, w') -> w' = w /\ o = List.find p (t (w_db w)).
Proof. by intros [= <- <-]. Qed.

Lemma utc_now_inv w d w' :
  utc_now w = (Ok d, w') -> d = utc_at (w_clock w (w_ticks w)) /\ w' = w <| w_ticks := S (w_ticks w) |>.
Proof. by intros [= <- <-]. Qed.

Lemma same_state_hash_ip ip : keeps same_state (_hash_ip ip).
Proof.
  unfold _hash_ip, setting. destruct ip as [ip|]; [|auto with keeps].
  destruct (negb (truthy_str ip)); [auto with keeps|]. destruct (ip_compressed _); eauto 10 with keeps.
Qed.
#[export] Hint Resolve same_state_hash_ip : keeps.

Lemma get_int_keeps key w o w' : get_int key w = (o, w') -> w' = w.
Proof. rewrite get_int_run. by destruct (find_tuneable _ _); intros [= _ <-]. Qed.

Lemma instant_utc z : instant (utc_at z) = z.
Proof. unfold instant, utc_at. cbn. lia. Qed.

(** A session that may act at time [now] (microseconds): its stored hash is of
    the token shown, nothing revoked it, neither its lifetime nor the
    inactivity limit has passed, and its fingerprint fits the client. *)
Definition live_session (token : string) (now minutes : Z) (ua al : option string) (s : AuthSession) : Prop :=
  s_session_token s = sha256 token /\ s_revoked_at s = None /\
  now <= instant (ensure_aware (s_expires_at s)) /\
  (forall l, s_last_seen_at s = Some l -> now <= instant (ensure_aware l) + minutes * us_minute) /\
  fingerprint_matches s ua al = true.

Lemma holds_token_true h s : holds_token h s = true <-> s_session_token s = h /\ s_revoked_at s = None.
Proof.
  unfold holds_token, is_none, is_some. rewrite andb_true_iff, String.eqb_eq.
  by destruct (s_revoked_at s); split; intros [? ?].
Qed.

Lemma instant_add d us : instant (add_us d us) = instant d + us.
Proof. unfold instant, add_us. cbn. lia. Qed.

Lemma validate_some token ua al upd w s w' :
  validate_session token ua al upd w = (Ok (Some s), w') ->
  exists row minutes, row ∈ t_auth_sessions (w_db w) /\
    live_session token (w_clock w (w_ticks w)) minutes ua al row /\
    (s_last_seen_at row <> None -> (get_int "session_inactivity_minutes" w).1 = Ok minutes) /\
    s = (if upd then row <| s_last_seen_at := Some (utc_at (w_clock w (w_ticks w))) |> else row) /\
    w_db w' = (if upd then set_field t_auth_sessions (map (fun r => if s_id r =? s_id row
                             then r <| s_last_seen_at := Some (utc_at (w_clock w (w_ticks w))) |> else r)) (w_db w)
               else w_db w).
Proof.
  unfold validate_session. intros H.
  apply Mbind_Ok_inv in H as (o & w1 & [-> ->]%q_first_inv & H).
  destruct (List.find _ _) as [row|] eqn:E; [|by apply mret_Ok_inv in H as [? _]].
  apply List.find_some in E as [Hin [Htok Hrev]%holds_token_true].
  apply Mbind_Ok_inv in H as (now & w1 & [-> ->]%utc_now_inv & H).
  set (w1 := w <| w_ticks := _ |>) in H.
  destruct (Z.ltb_spec (instant (ensure_aware (s_expires_at row))) (instant (utc_at (w_clock w (w_ticks w)))))
    as [|Hexp]; [by apply mret_Ok_inv in H as [? _]|].
  apply Mbind_Ok_inv in H as (inactive & w2 & Hi & H).
  destruct inactive; [by apply mret_Ok_inv in H as [? _]|]. cbn [orb] in H.
  destruct (fingerprint_matches row ua al) eqn:Hfp; [|by apply mret_Ok_inv in H as [? _]]. cbn [negb] in H.
  assert (w2 = w1 /\ exists minutes,
    (forall l, s_last_seen_at row = Some l -> w_clock w (w_ticks w) <= instant (ensure_aware l) + minutes * us_minute)
    /\ (s_last_seen_at row <> None -> (get_int "session_inactivity_minutes" w).1 = Ok minutes))
    as (-> & minutes & Hlast & Hmin).
  { destruct (s_last_seen_at row) as [l|].
    - apply Mbind_Ok_inv in Hi as (m & w3 & Hm & [Hle ->]%mret_Ok_inv).
      pose proof (get_int_keeps _ _ _ _ Hm) as ->. split; [done|]. exists m. split.
      + intros l' [= <-]. symmetry in Hle. apply Z.ltb_ge in Hle. rewrite instant_add in Hle.
        by rewrite instant_utc in Hle.
      + intros _. rewrite get_int_run in *. by injection Hm.
    - apply mret_Ok_inv in Hi as [_ ->]. split; [done|]. exists 0. by split. }
  assert (w_clock w (w_ticks w) <= instant (ensure_aware (s_expires_at row))) as Hexp'.
  { by rewrite instant_utc in Hexp. }
  exists row, minutes. split; [by apply list_elem_of_In|]. split; [by split_and!|]. split; [done|].
  destruct upd.
  - apply Mbind_Ok_inv in H as (n & w3 & Hu & H). injection Hu as _ <-.
    apply Mbind_Ok_inv in H as ([] & w4 & ->%modify_Ok_inv & [Hs ->]%mret_Ok_inv).
    injection Hs as ->. done.
  - apply mret_Ok_inv in H as [[= ->] ->]. done.
Qed.

Lemma revoke_all_run user w n w' :
  revoke_all_user_sessions user w = (Ok n, w') ->
  w_db w' = (w_db w) <| t_auth_sessions := map (fun r => if active_session_of user r
    then r <| s_revoked_at := Some (utc_at (w_clock w (w_ticks w))) |> else r) (t_auth_sessions (w_db w)) |> /\
  w_committed w' = w_db w'.
Proof.
  unfold revoke_all_user_sessions. intros H.
  apply Mbind_Ok_inv in H as (now & w1 & [-> ->]%utc_now_inv & H).
  apply Mbind_Ok_inv in H as (c & w2 & Hu & H). injection Hu as _ <-.
  apply Mbind_Ok_inv in H as ([] & w3 & ->%modify_Ok_inv & [_ ->]%mret_Ok_inv). done.
Qed.

(** ** Properties *)


(** C22: revoking all sessions of a user ends them: afterwards, and in every
    later state that leaves the session table as it is, no token whatever
    authenticates as that user. *)
Theorem revoked_user_cannot_authenticate user w n w' token ua al upd w2 s w3
  (Hrevoke : revoke_all_user_sessions user w = (Ok n, w'))
  (Hkeep : t_auth_sessions (w_db w2) = t_auth_sessions (w_db w'))
  (Hvalid : validate_session token ua al upd w2 = (Ok (Some s), w3)) :
  s_user_id s <> user.
Proof.
  apply validate_some in Hvalid as (row & m & Hin & (_ & Hrev & _) & _ & -> & _).
  assert (s_user_id (if upd then row <| s_last_seen_at := Some (utc_at (w_clock w2 (w_ticks w2))) |> else row) = s_user_id row) as ->
    by by destruct upd.
  apply revoke_all_run in Hrevoke as [Hdb _]. rewrite Hkeep, Hdb in Hin. cbn in Hin.
  apply list_elem_of_fmap in Hin as (r & -> & _).
  destruct (active_session_of user r) eqn:E; [done|]. intros Hu. unfold active_session_of in E.
  by rewrite Hu, Z.eqb_refl, Hrev in E.
Qed.

(** Clean-up deletes no session that can still be used: a session that is
    neither expired at the clean-up time nor revoked is kept, and every deleted
    row had expired or been revoked before its retention cut-off. *)
Theorem cleanup_keeps_live_sessions now w n w' s
  (Hc : config_in_bounds (w_config w))
  (H : cleanup_expired_sessions (Some now) true w = (Ok n, w'))
  (Hs : s ∈ t_auth_sessions (w_db w)) (Hlive : instant now <= instant (s_expires_at s))
  (Hrev : s_revoked_at s = None) :
  s ∈ t_auth_sessions (w_db w').
Proof.
  unfold cleanup_expired_sessions in H.
  apply Mbind_Ok_inv in H as (now' & w1 & [-> ->]%mret_Ok_inv & H).
  apply Mbind_Ok_inv in H as (d & w1 & Hd & H).
  pose proof (get_int_keeps _ _ _ _ Hd) as ->.
  destruct (get_int_ok _ _ _ _ Hc Hd) as (_ & m & Hm & Hmin).
  apply Mbind_Ok_inv in H as (e & w1 & [= <- <-] & H).
  apply Mbind_Ok_inv in H as (d2 & w2 & Hd2 & H).
  pose proof (get_int_keeps _ _ _ _ Hd2) as ->.
  apply Mbind_Ok_inv in H as (r & w2 & [= <- <-] & H).
  apply Mbind_Ok_inv in H as ([] & w3 & ->%modify_Ok_inv & [_ ->]%mret_Ok_inv).
  cbn. rewrite !list_elem_of_In in *. apply filter_In. split; [|by rewrite Hrev].
  apply filter_In. split; [done|]. apply negb_true_iff, Z.ltb_ge. rewrite instant_add.
  assert (0 <= d * us_day); [|lia]. apply Z.mul_nonneg_nonneg; [|by vm_compute].
  unfold find_tuneable in Hm. vm_compute in Hm. injection Hm as <-. cbn in Hmin. lia.
Qed.

(** ** Witnesses *)

Definition toy_agent : option string := Some "Mozilla/5.0 (X11; Linux x86_64) Chrome/126.0"%string.
Definition toy_created : outcome (AuthSession * string) * world :=
  create_session 7 None toy_agent None false false (toy_world empty_database).
Definition toy_token : string := "0".
Definition toy_session : AuthSession := Eval vm_compute in
  match toy_created.1 with Ok (s, _) => s | Raise _ => new_AuthSession (utc_at 0) end.
Definition toy_db : database := empty_database <| t_auth_sessions := [toy_session] |>.


(** Two sessions: user 7 is signed out, user 8 is not. *)
Definition toy_other : AuthSession := toy_session <| s_id := 2 |> <| s_user_id := 8 |> <| s_session_token := sha256 "b" |>.
Definition toy_two : database := empty_database <| t_auth_sessions := [toy_session; toy_other] |>.

Lemma revoked_user_cannot_authenticate_witness :
  exists s w3, validate_session "b" toy_agent None true (revoke_all_user_sessions 7 (toy_world toy_two)).2
    = (Ok (Some s), w3) /\ s_user_id s <> 7.
Proof.
  destruct (revoke_all_user_sessions 7 (toy_world toy_two)) as [[n|e] w'] eqn:E;
    [|vm_compute in E; discriminate E]. cbn [snd].
  destruct (validate_session "b" toy_agent None true w') as [[[s|]|e] w3] eqn:V.
  - exists s, w3. split; [reflexivity|].
    exact (revoked_user_cannot_authenticate 7 (toy_world toy_two) n w' "b" toy_agent None true w' s w3 E eq_refl V).
  - vm_compute in E. injection E as _ <-. vm_compute in V. discriminate V.
  - vm_compute in E. injection E as _ <-. vm_compute in V. discriminate V.
Defined.

Lemma cleanup_keeps_live_sessions_witness :
  toy_session ∈ t_auth_sessions (w_db (cleanup_expired_sessions (Some (utc_at 0)) true (toy_world toy_db)).2).
Proof.
  destruct (cleanup_expired_sessions (Some (utc_at 0)) true (toy_world toy_db)) as [[n|e] w'] eqn:E;
    [|vm_compute in E; discriminate E].
  apply (cleanup_keeps_live_sessions (utc_at 0) (toy_world toy_db) n w' toy_session).
  - vm_compute. reflexivity.
  - exact E.
  - left.
  - vm_compute. discriminate.
  - reflexivity.
Defined.
