(* ===== verification/Commissioning.v ===== *)
(** The three steps of root commissioning, [backend/app/core/commissioning.py]:
    which one the installation is at, read from settings, keys and published
    governance. *)
From Stdlib Require Import ZArith Lia Ascii String.
From stdpp Require Import base list strings.
From S2P Require Import Prelude Text TextFacts Json Sha256 PyTime PyBuiltins Models World.

Definition _iso_utc (value : option datetime) : option string :=
  match value with
  | None => None
  | Some v => Some (isoformat (drop_us (astimezone_utc (ensure_aware v))))
  end.

Definition setting_value (key : string) : py (option string) :=
  row ← q_first t_server_settings (fun r => String.eqb (ss_key r) key);
  mret (match row with Some r => Some (ss_value r) | None => None end).
Definition set_setting (key value : string) : py unit :=
  row ← q_first t_server_settings (fun r => String.eqb (ss_key r) key);
  match row with
  | None => _ ← q_insert t_server_settings (fun i => mkServerSetting i key value); mret tt
  | Some r => _ ← q_update t_server_settings (fun x => ss_id x =? ss_id r) (fun x => x <| ss_value := value |>); mret tt
  end.

(** [order_by(key.desc()).first()] *)
Definition latest {R} (key : R -> Z) (l : list R) : option R := hd_error (order_by (fun r => - key r) l).
Definition trusted_controller_key (k : EvidenceKey) : bool :=
  String.eqb (ek_role k) "controller" && is_some (ek_activated_at k) && is_none (ek_revoked_at k) &&
  is_some (ek_trust_establishment_sha256 k).
Definition activation (k : EvidenceKey) : Z := match ek_activated_at k with Some d => instant d | None => 0 end.
Definition active_controller_key : py (option EvidenceKey) :=
  keys ← q_all t_evidence_keys trusted_controller_key;
  mret (latest activation keys).
Definition latest_governance : py (option GovernancePublication) :=
  rows ← q_all t_governance_publications (fun _ => true);
  mret (latest gv_version rows).

Definition root_passkey_ready : py bool :=
  root ← q_first t_users u_is_root_admin;
  match root with
  | None => mret false
  | Some r => c ← q_first t_webauthn_credentials (fun c => wc_user_id c =? u_id r); mret (is_some c)
  end.

Definition hex_digit (c : ascii) : bool := between 48 57 c || between 97 102 c.
(** [len(s) != 64 or any(c not in "0123456789abcdef" for c in s)], negated *)
Definition is_receipt (s : string) : bool := (strlen s =? 64) && all_chars hex_digit s.

Inductive stage : Type := Recovery | Controller | Governance | Complete.
#[export] Instance stage_eq_dec : EqDecision stage.
Proof. solve_decision. Defined.
Definition stage_name (s : stage) : string :=
  match s with
  | Recovery => "recovery" | Controller => "controller" | Governance => "governance" | Complete => "complete"
  end.

Definition commissioning_stage : py stage :=
  acknowledged ← setting_value "root_recovery_download_acknowledged_at";
  if negb (truthy_opt acknowledged) then mret Recovery
  else
    key ← active_controller_key;
    if is_none key then mret Controller
    else
      publication ← latest_governance;
      if is_none publication then mret Governance
      else
        receipt ← setting_value "root_commissioning_receipt_sha256";
        completed ← setting_value "root_commissioning_completed_at";
        if negb (truthy_opt completed) || negb (is_receipt (default EmptyString receipt)) then mret Governance
        else mret Complete.

Definition commissioning_required : py bool :=
  ready ← root_passkey_ready;
  if (ready : bool) then s ← commissioning_stage; mret (negb (bool_decide (s = Complete))) else mret false.

(** ** The status the setup page shows *)

Definition _completed_at (step : stage) : py (option string) :=
  match step with
  | Recovery => setting_value "root_recovery_download_acknowledged_at"
  | Controller => k ← active_controller_key; mret (match k with Some k => _iso_utc (ek_activated_at k) | None => None end)
  | Governance => g ← latest_governance; mret (match g with Some g => _iso_utc (Some (gv_published_at g)) | None => None end)
  | Complete => mret None
  end.

Definition order : list stage := [Recovery; Controller; Governance].
Definition index (s : stage) : Z :=
  match s with Recovery => 0 | Controller => 1 | Governance => 2 | Complete => 3 end.
Definition title (s : stage) : string :=
  match s with
  | Recovery => "Recovery key" | Controller => "Controller identity" | _ => "Governance baseline"
  end.
Definition action (s : stage) : string * string :=
  match s with
  | Recovery => ("verify_recovery_download", "Generate, download and locally verify the recovery key.")
  | Controller => ("establish_controller_identity", "Generate or import a controller key, verify custody and approve it with the root passkey.")
  | Governance => ("publish_governance_v1", "Complete the governance draft, resolve preflight items and publish version 1.")
  | Complete => ("enter_administration", "Commissioning is complete. Normal administration is available.")
  end%string.
Definition step_state (current step : stage) : string :=
  if (index step <? index current) || bool_decide (current = Complete) then "complete"
  else if index step =? index current then "current" else "locked".
Definition status_step (current step : stage) : py json :=
  let state := step_state current step in
  completed ← (if String.eqb state "complete" then _completed_at step else mret None);
  mret (JObj [("id", JStr (stage_name step)); ("title", JStr (title step)); ("number", JInt (index step + 1));
              ("status", JStr state); ("completed_at", of_opt_str completed)]%string).

(** [f(row) if row else None] *)
Definition of_row {R} (o : option R) (f : R -> json) : json := match o with Some r => f r | None => JNull end.
Definition status_payload : py json :=
  current ← commissioning_stage;
  steps ← mmap (status_step current) order;
  controller ← active_controller_key;
  publication ← latest_governance;
  acknowledged ← setting_value "root_recovery_download_acknowledged_at";
  recipient ← setting_value "root_recovery_recipient_sha256";
  completed ← setting_value "root_commissioning_completed_at";
  receipt ← setting_value "root_commissioning_receipt_sha256";
  let done := bool_decide (current = Complete) in
  mret (JObj [
    ("required", JBool (negb done)); ("current_step", JStr (stage_name current));
    ("current_step_number", JInt (if bool_decide (current = Governance) || done then 3 else index current + 1));
    ("total_steps", JInt 3); ("percent_complete", JInt (if done then 100 else index current * 33));
    ("steps", JList steps);
    ("next_action", JObj [("code", JStr (action current).1); ("message", JStr (action current).2)]);
    ("can_enter_administration", JBool done);
    ("recovery", JObj [("acknowledged", JBool (truthy_opt acknowledged)); ("recipient_sha256", of_opt_str recipient)]);
    ("controller", JObj [("ready", JBool (is_some controller));
       ("entity_id", of_row controller (fun k => of_opt_str (ek_entity_id k)));
       ("key_id", of_row controller (fun k => JStr (ek_key_id k)));
       ("public_key_sha256", of_row controller (fun k => JStr (ek_public_key_sha256 k)));
       ("trust_establishment_sha256", of_row controller (fun k => of_opt_str (ek_trust_establishment_sha256 k)))]);
    ("governance", JObj [("published", JBool (is_some publication));
       ("version", of_row publication (fun g => JInt (gv_version g)));
       ("content_sha256", of_row publication (fun g => JStr (gv_content_sha256 g)))]);
    ("commissioning", JObj [("completed_at", of_opt_str completed); ("receipt_sha256", of_opt_str receipt)])]%string).

Definition mark_commissioning_complete (receipt_sha256 : string) : py unit :=
  now ← utc_now;
  _ ← set_setting "root_commissioning_completed_at" (isoformat (drop_us now));
  set_setting "root_commissioning_receipt_sha256" receipt_sha256.
