(* ===== verification/Security.v ===== *)
(** Who is asking, and what they may reach: the dependencies of the request
    handlers, [backend/app/core/security.py].  A request is a cookie jar and
    headers; a principal is the user with the session the request came in. *)
From Stdlib Require Import ZArith Lia Ascii String.
From stdpp Require Import base list strings.
From S2P Require Import Prelude Text TextFacts Json Sha256 PyTime PyBuiltins Models Permissions World RuntimeSettings Sessions Commissioning.

Record principal : Type := Principal { p_user : User; p_session : option AuthSession }.

Definition unauthorised {A} (detail : string) : py A := throw (HTTPException 401) detail.
Definition forbidden_if (c : bool) (detail : string) : py unit := throw_if c (HTTPException 403) detail.

Definition _get_session_token_from_request (r : request) : py (option string) :=
  c ← gets w_config;
  mret (dget (SESSION_COOKIE_NAME c) (cookies r)).

Definition _get_current_user (r : request) (update_last_seen allow_commissioning : bool) : py principal :=
  token ← _get_session_token_from_request r;
  if negb (truthy_opt token) then unauthorised "Not authenticated"
  else
    session ← validate_session (default EmptyString token) (dget "user-agent" (headers r))
                (dget "accept-language" (headers r)) update_last_seen;
    match session with
    | None => unauthorised "Session expired or invalid"
    | Some session =>
        user ← q_first t_users (fun u => u_id u =? s_user_id session);
        match user with
        | None => unauthorised "User not found, inactive, or not activated"
        | Some user =>
            _ ← throw_if (negb (u_is_active user)
                          || (negb (u_is_activated user) && negb (allow_commissioning && u_is_root_admin user)))
                  (HTTPException 401) "User not found, inactive, or not activated";
            required ← (if u_is_root_admin user && negb allow_commissioning then commissioning_required else mret false);
            _ ← (if (required : bool) then _ ← commissioning_stage; throw (HTTPException 423)
                       "Complete root commissioning before using administration." else mret tt);
            mret (Principal user (Some session))
        end
    end.

Definition get_current_user (r : request) : py principal := _get_current_user r true false.
Definition get_current_user_read_only (r : request) : py principal := _get_current_user r false false.
Definition get_current_user_for_commissioning (r : request) : py principal := _get_current_user r true true.

(** The dependencies on a user, of the user that was resolved *)
Definition ensure_recent_reauth (current : principal) : py principal :=
  let refused := throw (HTTPException 403) "Re-authentication required" in
  match p_session current with
  | None => refused
  | Some session =>
      match s_reauth_at session with
      | None => refused
      | Some at_ =>
          window ← get_int "reauth_window_minutes";
          now ← utc_now;
          if instant (add_us (ensure_aware at_) (window * us_minute)) <? instant now then refused
          else mret current
      end
  end.

Definition require_role (role : User -> bool) (detail : string) (current : principal) : py principal :=
  _ ← forbidden_if (negb (role (p_user current))) detail;
  mret current.
Definition is_admin_role (u : User) : bool := u_is_root_admin u || u_is_admin u.
Definition is_admin_or_issuer (u : User) : bool := u_is_root_admin u || u_is_admin u || u_is_issuer u.
Definition is_root_or_issuer (u : User) : bool := u_is_root_admin u || u_is_issuer u.

Definition require_commissioning_root (r : request) : py principal :=
  p ← get_current_user_for_commissioning r;
  require_role u_is_root_admin "Root administrator access required" p.
Definition require_commissioning_root_recent_reauth (r : request) : py principal :=
  p ← require_commissioning_root r; ensure_recent_reauth p.
Definition require_admin (r : request) : py principal :=
  p ← get_current_user r; require_role is_admin_role "Admin access required" p.
Definition require_admin_or_issuer (r : request) : py principal :=
  p ← get_current_user r; require_role is_admin_or_issuer "Admin or issuer access required" p.
Definition require_root_or_issuer (r : request) : py principal :=
  p ← get_current_user r; require_role is_root_or_issuer "Root administrator or issuer access required" p.
Definition require_root_admin (r : request) : py principal :=
  p ← get_current_user r; require_role u_is_root_admin "Root admin access required" p.
Definition require_root_admin_read_only (r : request) : py principal :=
  p ← get_current_user_read_only r; require_role u_is_root_admin "Root admin access required" p.
Definition require_recent_reauth (r : request) : py principal :=
  p ← require_admin_or_issuer r; ensure_recent_reauth p.
Definition require_admin_recent_reauth (r : request) : py principal :=
  p ← require_admin r; ensure_recent_reauth p.
Definition require_root_recent_reauth (r : request) : py principal :=
  p ← require_root_admin r; ensure_recent_reauth p.

(** ** Reach *)

Definition _is_issuer_only (u : User) : bool := u_is_issuer u && negb (u_is_admin u) && negb (u_is_root_admin u).
Definition require_same_event (target current : User) : py unit :=
  forbidden_if (_is_issuer_only current &&
                (is_none (u_event_id current) || negb (eq_opt_Z (u_event_id target) (u_event_id current))))
    "No access to users from other events".
Definition require_user_management_access (target current : User) : py unit :=
  _ ← forbidden_if (u_is_root_admin target) "Cannot manage the root admin account";
  _ ← forbidden_if ((u_is_admin target || u_is_issuer target) && negb (u_is_root_admin current))
        "Only root admin can manage privileged accounts";
  require_same_event target current.

Definition require_event_access (event_id : Z) (current : User) : py Event :=
  event ← q_first t_events (fun e => ev_id e =? event_id);
  match event with
  | None => throw (HTTPException 404) "Event not found"
  | Some event =>
      if u_is_root_admin current || u_is_admin current then mret event
      else
        _ ← forbidden_if (is_none (u_event_id current) || negb (eq_opt_Z (u_event_id current) (Some event_id)))
              "No access to this event";
        mret event
  end.

(** ** The first account *)

Definition create_default_admin : py User :=
  root ← q_first t_users u_is_root_admin;
  match root with
  | Some u => mret u
  | None =>
      now ← utc_now;
      id ← fresh;
      u ← q_insert t_users (fun i => (new_User now) <| u_id := i |> <| u_evidence_subject_id := id |>
            <| u_username := "root.admin"%string |> <| u_display_name := "Root Administrator"%string |>
            <| u_email := Some "root-admin"%string |> <| u_is_root_admin := true |> <| u_is_admin := true |>
            <| u_is_activated := true |>);
      _ ← commit;
      mret u
  end.

(** ** What a dependency lets through *)

(** The dependencies on the user of a request *)
Inductive dependency : Type :=
| CurrentUser | CurrentUserReadOnly | CommissioningUser | CommissioningRoot | CommissioningRootReauth
| Admin | AdminOrIssuer | RootOrIssuer | RootAdmin | RootAdminReadOnly
| RecentReauth | AdminRecentReauth | RootRecentReauth.
Definition depend (d : dependency) : request -> py principal :=
  match d with
  | CurrentUser => get_current_user
  | CurrentUserReadOnly => get_current_user_read_only
  | CommissioningUser => get_current_user_for_commissioning
  | CommissioningRoot => require_commissioning_root
  | CommissioningRootReauth => require_commissioning_root_recent_reauth
  | Admin => require_admin
  | AdminOrIssuer => require_admin_or_issuer
  | RootOrIssuer => require_root_or_issuer
  | RootAdmin => require_root_admin
  | RootAdminReadOnly => require_root_admin_read_only
  | RecentReauth => require_recent_reauth
  | AdminRecentReauth => require_admin_recent_reauth
  | RootRecentReauth => require_root_recent_reauth
  end.
(** What each promises: the roles, a recent passkey proof, that a root account has
    been commissioned, that nothing is written. *)
Definition roles (d : dependency) (u : User) : bool :=
  match d with
  | CurrentUser | CurrentUserReadOnly | CommissioningUser => true
  | CommissioningRoot | CommissioningRootReauth | RootAdmin | RootAdminReadOnly | RootRecentReauth => u_is_root_admin u
  | Admin | AdminRecentReauth => u_is_root_admin u || u_is_admin u
  | AdminOrIssuer | RecentReauth => u_is_root_admin u || u_is_admin u || u_is_issuer u
  | RootOrIssuer => u_is_root_admin u || u_is_issuer u
  end.
Definition reauth (d : dependency) : bool :=
  match d with CommissioningRootReauth | RecentReauth | AdminRecentReauth | RootRecentReauth => true | _ => false end.
Definition commissioning (d : dependency) : bool :=
  match d with CommissioningUser | CommissioningRoot | CommissioningRootReauth => true | _ => false end.
Definition read_only (d : dependency) : bool :=
  match d with CurrentUserReadOnly | RootAdminReadOnly => true | _ => false end.

(** The session table apart from the times of last use *)
Definition unseen (s : AuthSession) : AuthSession := s <| s_last_seen_at := None |>.
(** Only times of last use may have been written. *)
Definition only_seen (w w' : world) : Prop :=
  map unseen (t_auth_sessions (w_db w')) = map unseen (t_auth_sessions (w_db w)) /\
  (w_db w') <| t_auth_sessions := [] |> = (w_db w) <| t_auth_sessions := [] |>.
(** The session a principal came in with: stored, live, the token's. *)
Definition comes_from (r : request) (token : string) (s : AuthSession) (w : world) : Prop :=
  exists row minutes, row ∈ t_auth_sessions (w_db w) /\ unseen s = unseen row /\
    live_session token (w_clock w (w_ticks w)) minutes (dget "user-agent" (headers r)) (dget "accept-language" (headers r)) row.

#[local] Instance eq_world_preorder : PreOrder (fun w w' : world => w' = w).
Proof. split; [done|]. intros w1 w2 w3 -> ->. done. Qed.
Ltac by_reads := by_frame ltac:(solve [intros ?; reflexivity]).
Lemma stage_reads : keeps (fun w w' => w' = w) commissioning_stage.
Proof. unfold commissioning_stage, active_controller_key, latest_governance, setting_value. by_reads. Qed.
Lemma commissioning_reads : keeps (fun w w' => w' = w) commissioning_required.
Proof. unfold commissioning_required, root_passkey_ready. pose proof stage_reads. by_reads. Qed.

(** ** Runs *)

Definition authenticated (r : request) (allow_commissioning : bool) (p : principal) (w w' : world) : Prop :=
  exists token s, dget (SESSION_COOKIE_NAME (w_config w)) (cookies r) = Some token /\ p_session p = Some s /\
    comes_from r token s w /\ p_user p ∈ t_users (w_db w) /\ u_id (p_user p) = s_user_id s /\
    u_is_active (p_user p) = true /\
    (u_is_activated (p_user p) = true \/ (allow_commissioning = true /\ u_is_root_admin (p_user p) = true)) /\
    (u_is_root_admin (p_user p) = true -> allow_commissioning = false ->
       exists w1, w_db w1 = w_db w' /\ (commissioning_required w1).1 = Ok false).

Lemma only_seen_validated (upd : bool) (row : AuthSession) (now : datetime) (db : database) :
  let db' := if upd then set_field t_auth_sessions (map (fun r => if s_id r =? s_id row
               then r <| s_last_seen_at := Some now |> else r)) db else db in
  map unseen (t_auth_sessions db') = map unseen (t_auth_sessions db) /\
  db' <| t_auth_sessions := [] |> = db <| t_auth_sessions := [] |>.
Proof.
  destruct upd; [|done]. cbn. split; [|done]. rewrite map_map. apply map_ext. intros r. by destruct (s_id r =? s_id row).
Qed.

Lemma current_user_inv r upd allow w p w' :
  _get_current_user r upd allow w = (Ok p, w') ->
  authenticated r allow p w w' /\ only_seen w w' /\ (upd = false -> w_db w' = w_db w).
Proof.
  unfold _get_current_user. intros H.
  apply Mbind_Ok_inv in H as (token & ? & Ht & H).
  apply Mbind_Ok_inv in Ht as (conf & ? & [= <- <-] & [-> ->]%mret_Ok_inv).
  destruct (dget _ (cookies r)) as [token|] eqn:Et; [|done]. cbn [truthy_opt] in H.
  destruct (negb (truthy_str token)); [done|].
  apply Mbind_Ok_inv in H as (s & w1 & Hv & H). destruct s as [s|]; [|done].
  apply validate_some in Hv as (row & minutes & Hin & Hlive & _ & Hs & Hdb).
  apply Mbind_Ok_inv in H as (user & ? & [-> ->]%q_first_inv & H).
  match type of H with (match List.find ?p ?l with _ => _ end) _ = _ => destruct (List.find p l) as [user|] eqn:Eu end; [|done].
  apply find_some in Eu as [Hu Eid]. bool_norm.
  apply Mbind_Ok_inv in H as (? & ? & [Hact ->]%throw_if_Ok_inv & H). bool_norm.
  apply Mbind_Ok_inv in H as (required & w2 & Hreq & H).
  apply Mbind_Ok_inv in H as (? & w3 & Hno & [-> ->]%mret_Ok_inv).
  assert (w2 = w1 /\ (u_is_root_admin user = true -> allow = false -> (commissioning_required w1).1 = Ok required)) as [-> Hr].
  { destruct (u_is_root_admin user && negb allow) eqn:Er.
    - pose proof (keeps_run _ _ _ _ _ commissioning_reads Hreq) as ->. by rewrite Hreq.
    - apply mret_Ok_inv in Hreq as [_ ->]. split; [done|]. intros Hr Ha. rewrite Hr, Ha in Er. discriminate. }
  assert (required = false /\ w3 = w1) as [-> ->].
  { destruct required; [|by apply mret_Ok_inv in Hno as [_ ->]].
    apply Mbind_Ok_inv in Hno as (? & ? & _ & Hno). discriminate. }
  destruct (only_seen_validated upd row (utc_at (w_clock w (w_ticks w))) (w_db w)) as [Hseen Herase].
  assert (only_seen w w1) as Ho by (unfold only_seen; by rewrite Hdb).
  split; [|split; [done|intros ->; exact Hdb]].
  exists token, s. split; [done|]. split; [done|]. split; [exists row, minutes; by subst s; destruct upd|].
  split; [|split; [done|split; [done|split; [|intros Hroot Hcomm; exists w1; auto]]]].
  - assert (t_users (w_db w1) = t_users (w_db w)) as <- by exact (f_equal t_users (proj2 Ho)). by apply list_elem_of_In.
  - cbn [p_user]. destruct (u_is_activated user); [by left|right]. cbn in *. destruct allow, (u_is_root_admin user); done.
Qed.

(** The passkey proof of a session is at most a window old. *)
Definition recent (s : AuthSession) (now : Z) (w : world) : Prop :=
  exists at_ window, s_reauth_at s = Some at_ /\ (get_int "reauth_window_minutes" w).1 = Ok window /\
    now <= instant (ensure_aware at_) + window * us_minute.
Lemma recent_reauth_inv p w p' w' : ensure_recent_reauth p w = (Ok p', w') ->
  p' = p /\ w_db w' = w_db w /\
  exists s, p_session p = Some s /\ recent s (w_clock w (w_ticks w)) w.
Proof.
  unfold ensure_recent_reauth. intros H. destruct (p_session p) as [s|]; [|done].
  destruct (s_reauth_at s) as [at_|] eqn:E; [|done].
  apply Mbind_Ok_inv in H as (window & w1 & Hw & H). pose proof (get_int_keeps _ _ _ _ Hw) as ->.
  apply Mbind_Ok_inv in H as (now & w1 & [-> ->]%utc_now_inv & H).
  destruct (Z.ltb_spec (instant (add_us (ensure_aware at_) (window * us_minute))) (instant (utc_at (w_clock w (w_ticks w)))))
    as [|Hle]; [done|]. apply mret_Ok_inv in H as [-> ->].
  split; [done|]. split; [done|]. exists s. split; [done|]. exists at_, window.
  rewrite Hw. split; [done|]. split; [done|]. rewrite instant_add, instant_utc in Hle. exact Hle.
Qed.
Lemma role_inv role detail p w p' w' : require_role role detail p w = (Ok p', w') -> p' = p /\ w' = w /\ role (p_user p) = true.
Proof.
  unfold require_role, forbidden_if. intros H. apply Mbind_Ok_inv in H as (? & ? & [Hr ->]%throw_if_Ok_inv & [-> ->]%mret_Ok_inv).
  by bool_norm.
Qed.

Lemma depend_inv d r w p w' : depend d r w = (Ok p, w') ->
  exists w1, _get_current_user r (negb (read_only d)) (commissioning d) w = (Ok p, w1) /\ roles d (p_user p) = true /\
    if reauth d then ensure_recent_reauth p w1 = (Ok p, w') else w' = w1.
Proof.
  assert (forall m (k : principal -> User -> bool) detail w0 q w2,
    (p ← m; require_role (k p) detail p) w0 = (Ok q, w2) -> m w0 = (Ok q, w2) /\ k q (p_user q) = true) as Hrole.
  { intros m k detail w0 q w2 (p0 & w1 & Hm & (-> & -> & Hk)%role_inv)%Mbind_Ok_inv. done. }
  assert (forall m w0 q w2, (p ← m; ensure_recent_reauth p) w0 = (Ok q, w2) ->
    exists w1, m w0 = (Ok q, w1) /\ ensure_recent_reauth q w1 = (Ok q, w2)) as Hreauth.
  { intros m w0 q w2 (p0 & w1 & Hm & He)%Mbind_Ok_inv. destruct (recent_reauth_inv _ _ _ _ He) as [-> _]. by exists w1. }
  intros H. destruct d; cbn [depend roles reauth commissioning read_only negb] in *;
    unfold get_current_user, get_current_user_read_only, get_current_user_for_commissioning,
      require_commissioning_root_recent_reauth, require_recent_reauth, require_admin_recent_reauth, require_root_recent_reauth in H;
    try (apply Hreauth in H as (w1 & H & He)); try (apply (Hrole _ (fun _ => _)) in H as [H Hr]); by eauto.
Qed.


(** ** A small instance *)

(** An issuer who proved possession of the passkey a moment ago *)
Definition issuer : User :=
  (new_User (utc_at 0)) <| u_id := 7 |> <| u_is_issuer := true |> <| u_is_activated := true |>.
Definition issuer_world : world :=
  toy_world (empty_database <| t_users := [issuer] |>
    <| t_auth_sessions := [toy_session <| s_reauth_at := Some (utc_at (w_clock (toy_world empty_database) 0)) |>] |>).
Definition issuer_request : request :=
  Request "POST" "/api/v1/events/1/history/1/restore"
    (match toy_agent with Some a => [("user-agent", a)] | None => [] end)%string
    [(SESSION_COOKIE_NAME default_config, toy_token)].
