(* ===== verification/Governance.v ===== *)
(** The permitted-data policy in force and its acknowledgement
    ([backend/app/core/governance.py]; [stable_instance_id] is in [Evidence]). *)
From Stdlib Require Import ZArith Lia Ascii String.
From stdpp Require Import base list strings.
From S2P Require Import Prelude Text TextFacts Json Sha256 PyTime PyBuiltins Models World Commissioning.

Definition current_policy_version : py (option Z) :=
  publication ← latest_governance;
  mret (option_map gv_version publication).
Definition current_policy_identity : py (option (Z * string)) :=
  publication ← latest_governance;
  mret (option_map (fun p => (gv_version p, gv_content_sha256 p)) publication).

Definition template_version (content_json : string) : outcome (option string) :=
  match loads content_json with
  | Ok (JObj content) =>
      Ok (match dget_or_null "template_version" content with JStr v => Some v | _ => None end)
  | Ok _ => Ok None
  | Raise e => if exn_in e [JSONDecodeError; TypeError] then Ok None else Raise e
  end.
Definition current_policy_template_version : py (option string) :=
  publication ← latest_governance;
  match publication with
  | None => mret None
  | Some p => lift (template_version (gv_content_json p))
  end.

Definition require_current_policy_identity (policy_version : Z) (policy_sha256 : string) : py (Z * string) :=
  identity ← current_policy_identity;
  match identity with
  | None => throw (HTTPException 409) "No permitted-data policy is published"
  | Some (version, digest) =>
      _ ← throw_if (negb ((version =? policy_version) && String.eqb digest (lower policy_sha256)))
            (HTTPException 409) "data_policy_identity_mismatch";
      mret (version, digest)
  end.

Definition BOOTSTRAP_POLICY_VERSION : string := "2026-07-30".
Definition BOOTSTRAP_POLICY_TEXT : string :=
  "Masterplan supports operational event scheduling and access management. " +:+
  "Permitted information is limited to necessary names, business contact details, " +:+
  "event roles, availability and operational instructions. Do not enter health, " +:+
  "dietary, safeguarding, political, religious, disciplinary or unrelated private " +:+
  "information. The self-hosting controller remains responsible for legal basis, " +:+
  "transparency, providers, access, retention, data-subject requests and incidents.".
Definition BOOTSTRAP_POLICY_SHA256 : string :=
  sha256 (dumps_ascii_compact_sorted
    (JObj [("version", JStr BOOTSTRAP_POLICY_VERSION); ("text", JStr BOOTSTRAP_POLICY_TEXT)]%string)).

(** A standing acknowledgement of a version of the policy by a user for an event *)
Definition acknowledges (user : User) (event_id version : Z) (digest : string) (a : DataPolicyAcknowledgement) : bool :=
  eq_opt_Z (dp_user_id a) (Some (u_id user)) && eq_opt_Z (dp_event_id a) (Some event_id) &&
  (dp_policy_version a =? version) && String.eqb (dp_policy_sha256 a) digest && is_none (dp_superseded_at a).

Definition require_data_policy_acknowledgement (user : User) (event_id : Z) : py unit :=
  identity ← current_policy_identity;
  match identity with
  | None => mret tt
  | Some (version, digest) =>
      acknowledged ← q_first t_data_policy_acknowledgements (acknowledges user event_id version digest);
      throw_if (is_none acknowledged) (HTTPException 428) "data_policy_acknowledgement_required"
  end.
Definition has_data_policy_acknowledgement (user : User) (event_id : Z) : py bool :=
  identity ← current_policy_identity;
  match identity with
  | None => mret true
  | Some (version, digest) =>
      acknowledged ← q_first t_data_policy_acknowledgements (acknowledges user event_id version digest);
      mret (is_some acknowledged)
  end.
