(* ===== verification/Activation.v ===== *)
(** Activation links ([backend/app/core/activation.py]): one live link per user,
    single use, and the interplay with a running e-mail delivery. *)
From Stdlib Require Import ZArith Lia Ascii String.
From stdpp Require Import base list strings.
From S2P Require Import Prelude Text Json Sha256 PyTime PyBuiltins Models World RuntimeSettings Sessions.

Definition INITIAL_SETUP : string := "initial_setup".
Definition ADDITIONAL_PASSKEY : string := "additional_passkey".
Definition CREDENTIAL_RESET : string := "credential_reset".

Definition hash_token (token : string) : string := sha256 token.

Definition resolve_activation_purpose (is_activated : bool) (requested : option string) : outcome string :=
  if negb is_activated then
    if is_some requested then
      raise ValueError "Credential-management links require an activated account"
    else Ok INITIAL_SETUP
  else Ok (match requested with
           | Some r => if truthy_str r then r else CREDENTIAL_RESET
           | None => CREDENTIAL_RESET
           end).

(** A link of the user that nothing has used or invalidated. *)
Definition active_link (user_id : Z) (l : ActivationLink) : bool :=
  (al_user_id l =? user_id) && is_none (al_used_at l) && is_none (al_invalidated_at l).

Definition create_activation_link (user_id created_by_id : Z) (purpose : string)
  (expiry_hours : option Z) (delivery_pending permit_email_delivery_start : bool)
  : py (string * ActivationLink) :=
  expiry_hours ← match expiry_hours with
                 | Some h => mret h
                 | None => get_int "activation_link_expiry_hours"
                 end;
  _ ← throw_if (negb (str_in purpose [INITIAL_SETUP; ADDITIONAL_PASSKEY; CREDENTIAL_RESET]))
        ValueError "Unsupported activation purpose";
  now ← utc_now;
  user ← q_first t_users (fun u => u_id u =? user_id);
  _ ← throw_if (is_none user) ValueError "User not found";
  _ ← (if permit_email_delivery_start then mret tt
       else
         sending ← q_first t_activation_email_deliveries (fun d =>
           (ad_user_id d =? user_id) && String.eqb (ad_status d) "sending");
         throw_if (is_some sending) ActivationDeliveryInProgressError
           "An activation email is already being handed off for this user");
  _ ← q_update t_activation_links (active_link user_id) (fun l => l <| al_invalidated_at := Some now |>);
  raw_token ← fresh;
  link ← q_insert t_activation_links (fun i =>
    (new_ActivationLink now) <| al_id := i |> <| al_token_hash := hash_token raw_token |>
      <| al_user_id := user_id |> <| al_purpose := purpose |>
      <| al_expires_at := add_us now (expiry_hours * us_hour) |>
      <| al_delivery_pending := delivery_pending |> <| al_created_by_id := Some created_by_id |>);
  mret (raw_token, link).

Definition validate_activation_token (token : string) : py (option ActivationLink) :=
  let hashed := hash_token token in
  link ← q_first t_activation_links (fun l => String.eqb (al_token_hash l) hashed);
  match link with
  | None => mret None
  | Some link =>
      now ← utc_now;
      if instant (ensure_aware (al_expires_at link)) <? instant now then mret None
      else if is_some (al_used_at link) then mret None
      else if is_some (al_invalidated_at link) then mret None
      else if al_delivery_pending link then mret None
      else mret (Some link)
  end.

(** [link] is the row as the session holds it. *)
Definition mark_link_used (link : ActivationLink) : py unit :=
  _ ← throw_if (is_some (al_used_at link) || is_some (al_invalidated_at link)) ValueError
        "Activation link is no longer available";
  now ← utc_now;
  _ ← q_update t_activation_links (fun l => al_id l =? al_id link) (fun l => l <| al_used_at := Some now |>);
  commit.

(** ** Properties *)

Lemma create_link_run user by_ purpose hours pending permit w token link w' :
  create_activation_link user by_ purpose hours pending permit w = (Ok (token, link), w') ->
  token = w_entropy w (w_draws w) /\
  al_token_hash link = sha256 token /\ al_user_id link = user /\ al_used_at link = None /\
  al_invalidated_at link = None /\ al_delivery_pending link = pending /\
  t_activation_links (w_db w') =
    map (fun l => if active_link user l
                  then l <| al_invalidated_at := Some (utc_at (w_clock w (w_ticks w))) |> else l)
      (t_activation_links (w_db w)) ++ [link].
Proof.
  unfold create_activation_link. intros H.
  apply Mbind_Ok_inv in H as (h & w1 & Hh & H).
  assert (w1 = w) as ->.
  { destruct hours; [by apply mret_Ok_inv in Hh as [_ ->] | by apply get_int_keeps in Hh]. }
  apply Mbind_Ok_inv in H as ([] & w1 & [_ ->]%throw_if_Ok_inv & H).
  apply Mbind_Ok_inv in H as (now & w1 & [-> ->]%utc_now_inv & H).
  apply Mbind_Ok_inv in H as (u & w1 & [-> ->]%q_first_inv & H).
  apply Mbind_Ok_inv in H as ([] & w1 & [_ ->]%throw_if_Ok_inv & H).
  apply Mbind_Ok_inv in H as ([] & w1 & Hs & H).
  assert (w1 = w <| w_ticks := S (w_ticks w) |>) as ->.
  { destruct permit; [by apply mret_Ok_inv in Hs as [_ ->]|].
    by apply Mbind_Ok_inv in Hs as (o & w2 & [-> ->]%q_first_inv & [_ ->]%throw_if_Ok_inv). }
  apply Mbind_Ok_inv in H as (c & w1 & [= <- <-] & H).
  apply Mbind_Ok_inv in H as (raw & w1 & [= <- <-] & H).
  apply Mbind_Ok_inv in H as (l & w1 & [= <- <-] & [[= -> ->] ->]%mret_Ok_inv). done.
Qed.

Lemma active_link_true u l :
  active_link u l = true <-> al_user_id l = u /\ al_used_at l = None /\ al_invalidated_at l = None.
Proof.
  unfold active_link, is_none, is_some. rewrite !andb_true_iff, Z.eqb_eq.
  destruct (al_used_at l), (al_invalidated_at l); cbn; intuition congruence.
Qed.

(** A user has one live activation link at most: creating a link leaves
    exactly one unused, uninvalidated link for the user, the new one, and
    touches no link of anyone else. *)
Theorem one_active_link_per_user user by_ purpose hours pending permit w token link w'
  (H : create_activation_link user by_ purpose hours pending permit w = (Ok (token, link), w')) :
  List.filter (active_link user) (t_activation_links (w_db w')) = [link] /\
  forall u, u <> user ->
    List.filter (fun l => al_user_id l =? u) (t_activation_links (w_db w')) =
    List.filter (fun l => al_user_id l =? u) (t_activation_links (w_db w)).
Proof.
  apply create_link_run in H as (_ & _ & Hu & Hused & Hinv & _ & ->).
  rewrite List.filter_app. cbn [List.filter].
  rewrite (proj2 (active_link_true user link)) by done. split.
  - rewrite filter_none; [done|].
    intros l (r & <- & _)%in_map_iff. destruct (active_link user r) eqn:E; [|done].
    apply not_true_iff_false. intros (_ & _ & Hn)%active_link_true. done.
  - intros u Hne. rewrite List.filter_app. cbn [List.filter]. rewrite Hu, (proj2 (Z.eqb_neq user u)) by done.
    rewrite app_nil_r. induction (t_activation_links (w_db w)) as [|l ls IH]; [done|].
    cbn [map List.filter]. rewrite <-IH. destruct (active_link user l) eqn:E; cbn; [|done].
    apply active_link_true in E as [-> _]. by rewrite (proj2 (Z.eqb_neq user u)) by done.
Qed.

(** An activation token works at most once and only while its link is
    live: it is accepted only for a stored link with the token's hash that has
    not expired, been used, been invalidated or been held back for delivery; and
    once that link is marked used, the token is refused in every later state
    that keeps the link's row. *)
Theorem activation_token_single_use token w link w1 w2 w3
  (Hvalid : validate_activation_token token w = (Ok (Some link), w1))
  (Hmark : mark_link_used link w1 = (Ok tt, w2))
  (Hkeep : t_activation_links (w_db w3) = t_activation_links (w_db w2)) :
  (link ∈ t_activation_links (w_db w) /\ al_token_hash link = sha256 token /\
   al_used_at link = None /\ al_invalidated_at link = None /\ al_delivery_pending link = false /\
   w_clock w (w_ticks w) <= instant (ensure_aware (al_expires_at link))) /\
  (validate_activation_token token w3).1 = Ok None.
Proof.
  unfold validate_activation_token in Hvalid.
  apply Mbind_Ok_inv in Hvalid as (o & w0 & [-> ->]%q_first_inv & H).
  destruct (List.find _ _) as [row|] eqn:E; [|by apply mret_Ok_inv in H as [? _]].
  apply Mbind_Ok_inv in H as (now & w0 & [-> ->]%utc_now_inv & H). rewrite instant_utc in H.
  destruct (Z.ltb_spec (instant (ensure_aware (al_expires_at row))) (w_clock w (w_ticks w))) as [|Hexp];
    [by apply mret_Ok_inv in H as [? _]|].
  destruct (al_used_at row) eqn:Hu; [by apply mret_Ok_inv in H as [? _]|]. cbn [is_some] in H.
  destruct (al_invalidated_at row) eqn:Hi; [by apply mret_Ok_inv in H as [? _]|]. cbn [is_some] in H.
  destruct (al_delivery_pending row) eqn:Hd; [by apply mret_Ok_inv in H as [? _]|].
  apply mret_Ok_inv in H as [[= ->] ->].
  pose proof (find_some_elem _ _ _ E) as [Hin Htok%String.eqb_eq]. split; [by split_and!|].
  unfold mark_link_used in Hmark.
  apply Mbind_Ok_inv in Hmark as ([] & w0 & [_ ->]%throw_if_Ok_inv & H).
  apply Mbind_Ok_inv in H as (now & w0 & [-> ->]%utc_now_inv & H).
  apply Mbind_Ok_inv in H as (n & w0 & [= <- <-] & ->%modify_Ok_inv). cbn in Hkeep.
  unfold validate_activation_token, q_first, gets. unfold mbind, M_bind. rewrite Hkeep.
  clear -E Htok. set (now := Some _).
  assert (forall ls, List.find (fun l => String.eqb (al_token_hash l) (hash_token token)) ls = Some row ->
    exists l, List.find (fun l => String.eqb (al_token_hash l) (hash_token token))
      (map (fun r => if al_id r =? al_id row then r <| al_used_at := now |> else r) ls) = Some l /\
      al_used_at l = now) as Hfind.
  { intros ls. induction ls as [|l ls IH]; [done|]. cbn [List.find map].
    destruct (String.eqb (al_token_hash l) (hash_token token)) eqn:El.
    - intros [= ->]. rewrite Z.eqb_refl. cbn. rewrite El. by eexists.
    - destruct (al_id l =? al_id row); cbn; rewrite El; apply IH. }
  destruct (Hfind _ E) as (l & -> & Hl). unfold utc_now. cbn [fst].
  destruct (_ <? _); [done|]. by rewrite Hl.
Qed.

(** ** Witnesses *)

Definition toy_users : database :=
  empty_database <| t_users := [(new_User (utc_at 0)) <| u_id := 7 |>] |>.
Definition toy_link_run : outcome (string * ActivationLink) * world :=
  create_activation_link 7 1 INITIAL_SETUP None false false (toy_world toy_users).

Lemma one_active_link_per_user_witness :
  exists link w', toy_link_run = (Ok ("0"%string, link), w') /\
    List.filter (active_link 7) (t_activation_links (w_db w')) = [link].
Proof.
  destruct toy_link_run as [[[tok link]|e] w'] eqn:E; [|vm_compute in E; discriminate E].
  pose proof E as E'. unfold toy_link_run in E'.
  pose proof (one_active_link_per_user _ _ _ _ _ _ _ _ _ _ E') as [H _].
  exists link, w'. split; [|exact H].
  pose proof (create_link_run _ _ _ _ _ _ _ _ _ _ E') as [-> _]. reflexivity.
Defined.

Definition toy_link : ActivationLink :=
  (new_ActivationLink (utc_at 0)) <| al_id := 3 |> <| al_token_hash := sha256 "t" |>
    <| al_expires_at := utc_at 9785414896000000 |>.
Definition toy_links : world := toy_world (empty_database <| t_activation_links := [toy_link] |>).

Lemma activation_token_single_use_witness :
  (validate_activation_token "t" (mark_link_used toy_link toy_links).2).1 = Ok None.
Proof.
  destruct (mark_link_used toy_link (toy_links <| w_ticks := 1%nat |>)) as [[[]|e] w2] eqn:E;
    [|vm_compute in E; discriminate E].
  refine (proj2 (activation_token_single_use "t" toy_links toy_link (toy_links <| w_ticks := 1%nat |>) w2 _ _ E _)).
  - vm_compute. reflexivity.
  - vm_compute in E. injection E as <-. vm_compute. reflexivity.
Defined.
