(* ===== verification/Ceremonies.v ===== *)
(** WebAuthn ceremonies ([backend/app/core/passkey_ceremonies.py]): scoped,
    expiring, single-use challenges.  The encoding of the challenge bytes is the
    library's and a parameter. *)
From Stdlib Require Import ZArith Lia Ascii String.
From stdpp Require Import base list strings.
From S2P Require Import Prelude Text Json Sha256 PyTime PyBuiltins Models World RuntimeSettings Sessions.

Definition BOOTSTRAP_REGISTRATION : string := "bootstrap_registration".
Definition ACTIVATION_REGISTRATION : string := "activation_registration".
Definition ACCOUNT_REGISTRATION : string := "account_registration".
Definition AUTHENTICATION : string := "authentication".
Definition REAUTHENTICATION : string := "reauthentication".
Definition DELETION_APPROVAL : string := "deletion_approval".
Definition TRUST_KEY_ACTIVATION : string := "trust_key_activation".

Definition cleanup_ceremonies : py Z :=
  now ← utc_now;
  let cutoff := add_us now (- us_day) in
  count ← q_delete t_passkey_ceremonies (fun c => instant (pc_expires_at c) <? instant cutoff);
  _ ← when (negb (count =? 0)) commit;
  mret count.

Section Create.
Context (bytes_to_base64url : string -> string).

Definition create_ceremony (challenge purpose : string) (user_id session_id activation_link_id : option Z)
  (ttl_minutes : option Z) (action_json action_sha256 : option string) : py PasskeyCeremony :=
  _ ← cleanup_ceremonies;
  ttl_minutes ← match ttl_minutes with Some t => mret t | None => get_int "challenge_ttl_minutes" end;
  id ← fresh;
  now ← utc_now;
  ceremony ← q_insert t_passkey_ceremonies (fun _ =>
    mkPasskeyCeremony id (bytes_to_base64url challenge) purpose user_id session_id activation_link_id
      (add_us now (ttl_minutes * us_minute)) None action_json action_sha256 (Some now));
  _ ← commit;
  mret ceremony.
End Create.

Definition bad_request {A} (detail : string) : py A := throw (HTTPException 400) detail.
Definition refuse_if (c : bool) (detail : string) : py unit := throw_if c (HTTPException 400) detail.

Definition claimable (id : string) (now : datetime) (c : PasskeyCeremony) : bool :=
  String.eqb (pc_id c) id && is_none (pc_consumed_at c) && (instant now <? instant (pc_expires_at c)).

Definition consume_ceremony (ceremony_id purpose : string) (user_id session_id activation_link_id : option Z)
  : py PasskeyCeremony :=
  _ ← refuse_if (negb (truthy_str ceremony_id) || (128 <? strlen ceremony_id)) "Invalid passkey ceremony";
  ceremony ← q_first t_passkey_ceremonies (fun c => String.eqb (pc_id c) ceremony_id);
  match ceremony with
  | None => bad_request "Passkey ceremony is unknown"
  | Some ceremony =>
      _ ← refuse_if (negb (String.eqb (pc_purpose ceremony) purpose))
            "Passkey ceremony has the wrong purpose";
      _ ← refuse_if (negb (eq_opt_Z (pc_user_id ceremony) user_id))
            "Passkey ceremony does not match this account";
      _ ← refuse_if (negb (eq_opt_Z (pc_session_id ceremony) session_id))
            "Passkey ceremony does not match this session";
      _ ← refuse_if (negb (eq_opt_Z (pc_activation_link_id ceremony) activation_link_id))
            "Passkey ceremony does not match this activation";
      now ← utc_now;
      _ ← refuse_if (instant (ensure_aware (pc_expires_at ceremony)) <? instant now)
            "Passkey ceremony has expired";
      _ ← refuse_if (is_some (pc_consumed_at ceremony)) "Passkey ceremony has already been used";
      updated ← q_update t_passkey_ceremonies (claimable (pc_id ceremony) now)
                  (fun c => c <| pc_consumed_at := Some now |>);
      if negb (updated =? 1) then
        _ ← rollback;
        bad_request "Passkey ceremony has already been used"
      else mret (ceremony <| pc_consumed_at := Some now |>)
  end.

(** ** Properties *)

Lemma eq_opt_Z_true a b : eq_opt_Z a b = true -> a = b.
Proof. destruct a, b; cbn; try done. by intros ->%Z.eqb_eq. Qed.

Lemma refuse_if_Ok_inv c d (w : world) u w' : refuse_if c d w = (Ok u, w') -> c = false /\ w' = w.
Proof. apply throw_if_Ok_inv. Qed.

(** What a successful claim found and did. *)
Lemma consume_run id purpose user session link w c w' :
  consume_ceremony id purpose user session link w = (Ok c, w') ->
  exists row, List.find (fun c => String.eqb (pc_id c) id) (t_passkey_ceremonies (w_db w)) = Some row /\
    pc_purpose row = purpose /\ pc_user_id row = user /\ pc_session_id row = session /\
    pc_activation_link_id row = link /\ pc_consumed_at row = None /\
    w_clock w (w_ticks w) <= instant (ensure_aware (pc_expires_at row)) /\
    length (List.filter (claimable id (utc_at (w_clock w (w_ticks w)))) (t_passkey_ceremonies (w_db w))) = 1%nat /\
    c = row <| pc_consumed_at := Some (utc_at (w_clock w (w_ticks w))) |> /\
    t_passkey_ceremonies (w_db w') =
      map (fun c => if claimable id (utc_at (w_clock w (w_ticks w))) c
                    then c <| pc_consumed_at := Some (utc_at (w_clock w (w_ticks w))) |> else c)
        (t_passkey_ceremonies (w_db w)).
Proof.
  unfold consume_ceremony. intros H.
  apply Mbind_Ok_inv in H as ([] & w1 & [_ ->]%refuse_if_Ok_inv & H).
  apply Mbind_Ok_inv in H as (o & w1 & [-> ->]%q_first_inv & H).
  destruct (List.find _ _) as [row|] eqn:E; [|done]. exists row. split; [done|].
  apply Mbind_Ok_inv in H as ([] & w1 & [H1%negb_false_iff%String.eqb_eq ->]%refuse_if_Ok_inv & H).
  apply Mbind_Ok_inv in H as ([] & w1 & [H2%negb_false_iff%eq_opt_Z_true ->]%refuse_if_Ok_inv & H).
  apply Mbind_Ok_inv in H as ([] & w1 & [H3%negb_false_iff%eq_opt_Z_true ->]%refuse_if_Ok_inv & H).
  apply Mbind_Ok_inv in H as ([] & w1 & [H4%negb_false_iff%eq_opt_Z_true ->]%refuse_if_Ok_inv & H).
  apply Mbind_Ok_inv in H as (now & w1 & [-> ->]%utc_now_inv & H).
  apply Mbind_Ok_inv in H as ([] & w1 & [H5%Z.ltb_ge ->]%refuse_if_Ok_inv & H).
  apply Mbind_Ok_inv in H as ([] & w1 & [H6 ->]%refuse_if_Ok_inv & H).
  rewrite instant_utc in H5.
  apply Mbind_Ok_inv in H as (n & w1 & Hu & H). injection Hu as <- <-.
  pose proof (find_some_elem _ _ _ E) as [_ Hid%String.eqb_eq]. rewrite Hid in H. cbn in H.
  destruct (_ =? 1) eqn:En; cbn [negb] in H; [|by apply Mbind_Ok_inv in H as (? & ? & _ & ?)].
  apply mret_Ok_inv in H as [-> ->]. apply Z.eqb_eq in En.
  split_and!; try done; [by destruct (pc_consumed_at row) | lia].
Qed.

(** A passkey ceremony is claimed once, in its own scope and time: a claim
    succeeds only for the stored ceremony of that id whose purpose, account,
    session and activation link are exactly the caller's and which is unexpired
    and unused; and after a successful claim every further claim of that id
    fails, whatever its scope, in any later state that keeps the table (whose ids are its primary key). *)
Theorem ceremony_claimed_once id purpose user session link w c w'
  (Hkey : NoDup (map pc_id (t_passkey_ceremonies (w_db w))))
  (H : consume_ceremony id purpose user session link w = (Ok c, w')) :
  (exists row, row ∈ t_passkey_ceremonies (w_db w) /\ pc_id row = id /\ pc_purpose row = purpose /\
    pc_user_id row = user /\ pc_session_id row = session /\ pc_activation_link_id row = link /\
    pc_consumed_at row = None /\ w_clock w (w_ticks w) <= instant (ensure_aware (pc_expires_at row))) /\
  forall purpose' user' session' link' w2,
    t_passkey_ceremonies (w_db w2) = t_passkey_ceremonies (w_db w') ->
    forall c' w3, consume_ceremony id purpose' user' session' link' w2 <> (Ok c', w3).
Proof.
  apply consume_run in H as (row & Hf & H1 & H2 & H3 & H4 & H5 & H6 & Hn & _ & Hw). split.
  - exists row. apply find_some_elem in Hf as [Hin Hid%String.eqb_eq]. by split_and!.
  - intros p' u' s' l' w2 Hkeep c' w3 H'.
    apply consume_run in H' as (row' & H').
    destruct H' as (Hf' & _ & _ & _ & _ & Hnone & _). rewrite Hkeep, Hw in Hf'.
    rewrite find_map, Hf in Hf'; [|intros x; by destruct (claimable id _ x)].
    injection Hf' as <-. destruct (claimable id _ row) eqn:Ec; [done|]. clear Hnone.
    destruct (List.filter _ _) as [|x l] eqn:El in Hn; [done|].
    assert (In x (x :: l)) as Hx by (by left). rewrite <-El in Hx. apply filter_In in Hx as [Hx Hcx].
    pose proof (find_some_elem _ _ _ Hf) as [Hin Hid%String.eqb_eq].
    assert (x = row) as ->; [|congruence]. apply (nodup_key pc_id _ _ _ Hkey); [by apply list_elem_of_In|done|].
    unfold claimable in Hcx. bool_norm. congruence.
Qed.

(** ** Witnesses *)

Definition toy_ceremony : PasskeyCeremony :=
  mkPasskeyCeremony "abc" "xyz" AUTHENTICATION (Some 7) None None (utc_at 9785414896000000) None None None None.
Definition toy_ceremonies : world := toy_world (empty_database <| t_passkey_ceremonies := [toy_ceremony] |>).

Lemma ceremony_claimed_once_witness :
  exists c w', consume_ceremony "abc" AUTHENTICATION (Some 7) None None toy_ceremonies = (Ok c, w') /\
    forall c' w3, consume_ceremony "abc" AUTHENTICATION (Some 7) None None w' <> (Ok c', w3).
Proof.
  destruct (consume_ceremony "abc" AUTHENTICATION (Some 7) None None toy_ceremonies) as [[c|e] w'] eqn:E;
    [|vm_compute in E; discriminate E].
  exists c, w'. split; [reflexivity|]. intros c' w3.
  apply (proj2 (ceremony_claimed_once "abc" AUTHENTICATION (Some 7) None None toy_ceremonies c w'
    (NoDup_singleton _) E) _ _ _ _ _ eq_refl).
Defined.
