(* ===== verification/AuditTrail.v ===== *)
(** The audit log ([backend/app/core/audit.py]): closed vocabularies and
    minimised details. *)
From Stdlib Require Import ZArith Lia Ascii String.
From stdpp Require Import base list strings.
From S2P Require Import Prelude Text TextFacts Json JsonFacts PyTime Models World Sessions.

(** ** The model *)

Definition AUDIT_ACTIONS : list string :=
  ["activation.create"; "activation.create_batch"; "activation.email_accepted";
   "activation.email_attempt"; "activation.email_failed"; "activation.email_not_attempted";
   "activation.invalidate"; "activation.invalidate_all"; "activation.qr_download";
   "announcement.create"; "announcement.delete"; "auth.login"; "auth.logout";
   "auth.reauth"; "auth.reauth_failed"; "auth.session_revoke"; "calendar.commit";
   "calendar.task_edit"; "calendar.task_revert"; "event.create"; "event.import_setup";
   "commissioning.recovery_completed"; "commissioning.completed";
   "event.regenerate_secret"; "evidence.export"; "evidence.initialise"; "evidence.verify";
   "evidence.trust_key.challenge"; "evidence.trust_key.proof_verified";
   "evidence.trust_key.root_authorised"; "evidence.trust_key.register";
   "evidence.trust_key.rotate"; "evidence.trust_key.revoke";
   "evidence.archive_trust.bound";
   "evidence.git_anchor.import"; "evidence.archive_retry";
   "gdpr.accept_deletion"; "gdpr.accept_event_erasure"; "gdpr.clean_backup_receipt_applied";
   "gdpr.clean_backup_requested"; "gdpr.create_checklist"; "gdpr.create_event_erasure";
   "gdpr.advance_deletion"; "gdpr.confirm_deletion_completion";
   "gdpr.desktop_absence_confirmed"; "gdpr.no_controlled_backups_confirmed";
   "gdpr.delete"; "gdpr.dismiss_deletion"; "gdpr.export"; "gdpr.finalise_deletion";
   "gdpr.peer_replication_confirmed"; "gdpr.peer_replication_requested";
   "gdpr.purge_event_live_data"; "gdpr.purge_live"; "gdpr.request_deletion";
   "gdpr.resolve_backups"; "gdpr.resolve_outstanding_actions"; "gdpr.withdraw_deletion";
   "general_schedule.publish"; "governance.data_policy_acknowledged";
   "governance.draft_saved"; "governance.event_override_saved";
   "governance.published"; "ha.protection.retry"; "ha.replication_requested";
   "history.delete"; "history.restore"; "history.update"; "passkey.auth_failed";
   "passkey.bootstrap"; "passkey.bootstrap_failed"; "passkey.delete";
   "passkey.duplicate_denied"; "passkey.register"; "passkey.registration_failed";
   "passkey.rename"; "recovery.bootstrap_download_confirmed";
   "public_schedule_link.create"; "public_schedule_link.delete";
   "public_schedule_link.invalidate"; "public_schedule_link.update"; "publish.data";
   "settings.email_test"; "settings.update"; "user.create"; "user.create_bulk";
   "user.delete_unused_invitation"; "user.link_person"; "user.tags_bulk_update";
   "user.update"; "web_edit.revert"; "web_edit.revert_bulk"]%string.

Definition AUDIT_RESOURCE_TYPES : list string :=
  ["activation_email_delivery"; "activation_link"; "announcement"; "credential";
   "deletion_request"; "event"; "evidence"; "governance_publication"; "ha_cluster";
   "instance"; "public_schedule_link"; "publish_snapshot"; "published_task";
   "settings"; "user"]%string.

Definition AUDIT_OUTCOMES : list string := ["success"; "denied"; "error"]%string.

Definition _FIELD_NAME : regex :=
  seq_r (cls [("a", "z")]%char) (rep_opt 63 (cls ([("a", "z"); ("0", "9")]%char ++ one_of "_"))).

Definition _FORBIDDEN_FIELD_PARTS : list string :=
  ["body"; "cookie"; "email"; "header"; "name"; "passkey"; "password"; "recipient"; "secret";
   "token"; "username"]%string.

Definition newline : string := String (chr 10) EmptyString.
Definition return_char : string := String (chr 13) EmptyString.

(** A field name the details may use. *)
Definition check_field (key : string) : outcome unit :=
  _ ← raise_if (negb (fullmatch _FIELD_NAME key)) ValueError
        "audit detail field names must be bounded identifiers";
  raise_if (contains_any _FORBIDDEN_FIELD_PARTS (lower key)) ValueError
    ("audit detail field is not permitted: " +:+ key).

Fixpoint _validate_detail_value (depth : Z) (value : json) : outcome unit :=
  match value with
  | JNull | JBool _ | JInt _ => Ok tt
  | JStr s =>
      raise_if ((256 <? strlen s) || contains return_char s || contains newline s) ValueError
        "audit detail strings must be short single-line values"
  | JFloat _ =>
      if 4 <? depth then raise ValueError "audit detail nesting is too deep"
      else raise ValueError "audit detail values must be JSON scalars, lists or objects"
  | JList l =>
      if 4 <? depth then raise ValueError "audit detail nesting is too deep"
      else
        _ ← raise_if (500 <? Z.of_nat (length l)) ValueError "audit detail lists are too large";
        for_each (_validate_detail_value (depth + 1)) l
  | JObj d =>
      if 4 <? depth then raise ValueError "audit detail nesting is too deep"
      else
        _ ← raise_if (64 <? Z.of_nat (length d)) ValueError
              "audit detail objects contain too many fields";
        for_each (fun kv => _ ← check_field kv.1; _validate_detail_value (depth + 1) kv.2) d
  end.

(** [value.setdefault("schema_version", 1)] *)
Definition with_version (d : list (string * json)) : list (string * json) :=
  if has_key "schema_version" d then d else dset "schema_version" (JInt 1) d.

Definition _canonical_detail (detail : option string) : outcome (option string) :=
  match detail with
  | None => Ok None
  | Some detail =>
      value ← match loads detail with
              | Ok v => Ok v
              | Raise e => if exn_in e [JSONDecodeError; TypeError]
                           then raise ValueError "audit detail must be a JSON object" else Raise e
              end;
      match value with
      | JObj d =>
          let d := with_version d in
          _ ← raise_if (negb (py_eq (dget_or_null "schema_version" d) (JInt 1))) ValueError
                "unsupported audit detail schema version";
          _ ← _validate_detail_value 0 (JObj d);
          let rendered := dumps_ascii_compact_sorted (JObj d) in
          _ ← raise_if (8192 <? byte_length rendered) ValueError "audit detail exceeds the bounded size";
          Ok (Some rendered)
      | _ => raise ValueError "audit detail must be a JSON object"
      end
  end.

(** [client_host] is the address of the request's client, if there is a
    request. *)
Definition audit (user : option User) (action : string) (resource_type : option string)
  (resource_id : option Z) (detail : option string) (client_host : option (option string))
  (outcome_ : string) : py AuditLog :=
  _ ← throw_if (negb (str_in action AUDIT_ACTIONS)) ValueError ("unsupported audit action: " +:+ action);
  _ ← throw_if (match resource_type with Some t => negb (str_in t AUDIT_RESOURCE_TYPES) | None => false end)
        ValueError ("unsupported audit resource type: " +:+ or_empty resource_type);
  _ ← throw_if (negb (str_in outcome_ AUDIT_OUTCOMES)) ValueError ("unsupported audit outcome: " +:+ outcome_);
  ip_hash ← match client_host with Some host => _hash_ip host | None => mret None end;
  detail ← lift (_canonical_detail detail);
  now ← utc_now;
  q_insert t_audit_log (fun i =>
    mkAuditLog i (Some now) (option_map u_id user) None (option_map u_evidence_subject_id user) action
      resource_type resource_id detail ip_hash (Some outcome_)).

(** ** Properties *)

(** A key that names nothing personal or secret. *)
Definition field_allowed (k : string) : Prop :=
  fullmatch _FIELD_NAME k = true /\ contains_any _FORBIDDEN_FIELD_PARTS (lower k) = false.
(** A short text on one line. *)
Definition text_allowed (s : string) : Prop :=
  strlen s <= 256 /\ contains return_char s = false /\ contains newline s = false.

Lemma check_field_ok k : check_field k = Ok tt <-> field_allowed k.
Proof.
  unfold check_field, field_allowed. destruct (fullmatch _FIELD_NAME k); cbn [negb raise_if mbind outcome_bind].
  - destruct (contains_any _ _); by split; [|intros [_ ?]].
  - by split; [|intros [? _]].
Qed.

Lemma raise_if_tt c k m : raise_if c k m = Ok tt <-> c = false.
Proof. by destruct c. Qed.

Lemma seq_tt (m k : outcome unit) : (m ≫= fun _ => k) = Ok tt <-> m = Ok tt /\ k = Ok tt.
Proof. destruct m as [[]|]; cbn; [tauto|]. by split; [|intros [? _]]. Qed.

Lemma validate_list depth l :
  _validate_detail_value depth (JList l) = Ok tt <->
  depth <= 4 /\ Z.of_nat (length l) <= 500 /\ Forall (fun v => _validate_detail_value (depth + 1) v = Ok tt) l.
Proof.
  cbn [_validate_detail_value]. destruct (Z.ltb_spec 4 depth); [split; [intros E; discriminate E | intros [? _]; exfalso; lia]|].
  rewrite seq_tt, raise_if_tt, Z.ltb_ge, for_each_ok. tauto.
Qed.

Lemma validate_obj depth d :
  _validate_detail_value depth (JObj d) = Ok tt <->
  depth <= 4 /\ Z.of_nat (length d) <= 64 /\
  Forall (fun kv => field_allowed kv.1 /\ _validate_detail_value (depth + 1) kv.2 = Ok tt) d.
Proof.
  cbn [_validate_detail_value]. destruct (Z.ltb_spec 4 depth); [split; [intros E; discriminate E | intros [? _]; exfalso; lia]|].
  rewrite seq_tt, raise_if_tt, Z.ltb_ge, for_each_ok.
  assert (Forall (fun kv => (_ ← check_field kv.1; _validate_detail_value (depth + 1) kv.2) = Ok tt) d <->
    Forall (fun kv => field_allowed kv.1 /\ _validate_detail_value (depth + 1) kv.2 = Ok tt) d) as ->; [|tauto].
  apply Forall_iff. intros kv. by rewrite seq_tt, check_field_ok.
Qed.

Lemma validate_sort v depth :
  _validate_detail_value depth (sort_keys v) = Ok tt <-> _validate_detail_value depth v = Ok tt.
Proof.
  revert depth. induction v as [|b|z|f|s|l HP|d HP] using json_rect'; intros depth; try done.
  - cbn [sort_keys]. rewrite !validate_list, length_map, Forall_map.
    assert (Forall (fun v => _validate_detail_value (depth + 1) (sort_keys v) = Ok tt) l <->
      Forall (fun v => _validate_detail_value (depth + 1) v = Ok tt) l) as ->; [|done].
    induction HP as [|x l Hx HP IH]; [done|]. by rewrite !Forall_cons, Hx, IH.
  - change (sort_keys (JObj d)) with (JObj (sort_dict d)). rewrite !validate_obj, length_sort_dict, Forall_sort_dict.
    cbn [fst snd].
    assert (Forall (fun kv => field_allowed kv.1 /\ _validate_detail_value (depth + 1) (sort_keys kv.2) = Ok tt) d <->
      Forall (fun kv => field_allowed kv.1 /\ _validate_detail_value (depth + 1) kv.2 = Ok tt) d) as ->; [|done].
    induction HP as [|x d Hx HP IH]; [done|]. by rewrite !Forall_cons, Hx, IH.
Qed.

Lemma validate_clean v depth :
  _validate_detail_value depth v = Ok tt ->
  Forall field_allowed (all_keys v) /\ Forall text_allowed (text_leaves v).
Proof.
  revert depth. induction v as [|b|z|f|s|l HP|d HP] using json_rect'; intros depth; try (by split; constructor).
  - cbn [_validate_detail_value]. rewrite raise_if_tt. intros H. bool_norm.
    split; [constructor|]. repeat constructor; done.
  - rewrite validate_list. intros (_ & _ & H). cbn.
    induction HP as [|x l Hx HP IH]; cbn; [by split|]. apply Forall_cons in H as [H1 H2].
    destruct (Hx _ H1), (IH H2). split; by apply Forall_app.
  - rewrite validate_obj. intros (_ & _ & H). cbn [all_keys text_leaves].
    induction HP as [|[k x] d Hx HP IH]; cbn; [by split|]. apply Forall_cons in H as [[H0 H1] H2].
    destruct (Hx _ H1) as [Ha Hb], (IH H2) as [Hc Hd]. cbn in Ha, Hb. apply Forall_app in Hc as [Hc He].
    split; [constructor; [done|]|]; repeat (apply Forall_app; split); done.
Qed.

(** What a canonical detail stands for. *)
Lemma canonical_detail_run detail rendered :
  _canonical_detail (Some detail) = Ok (Some rendered) ->
  exists d, loads detail = Ok (JObj d) /\ rendered = dumps_ascii_compact_sorted (JObj (with_version d)) /\
    py_eq (dget_or_null "schema_version" (with_version d)) (JInt 1) = true /\
    _validate_detail_value 0 (JObj (with_version d)) = Ok tt /\ byte_length rendered <= 8192.
Proof.
  cbn [_canonical_detail]. intros H. apply bind_Ok_inv in H as (v & Hl & H).
  assert (loads detail = Ok v) as Hl'.
  { destruct (loads detail) as [x|e]; [by injection Hl as ->|]. by destruct (exn_in e _). }
  destruct v as [| | | | | |d]; try done. exists d. split; [done|].
  apply bind_Ok_inv in H as ([] & H1%raise_if_Ok_inv%negb_false_iff & H).
  apply bind_Ok_inv in H as ([] & H2 & H).
  apply bind_Ok_inv in H as ([] & H3%raise_if_Ok_inv%Z.ltb_ge & H). injection H as <-. done.
Qed.


(** The stored form of a detail is a fixed point: canonicalising it again
    gives the same text, so equal details are stored as equal texts. *)
Theorem canonical_detail_stable detail rendered d
  (H : _canonical_detail (Some detail) = Ok (Some rendered))
  (Hload : loads detail = Ok (JObj d)) (Hok : json_ok is_ascii (JObj (with_version d)) = true) :
  _canonical_detail (Some rendered) = Ok (Some rendered).
Proof.
  apply canonical_detail_run in H as (d' & Hl & Hr & Hver & Hv & Hb).
  rewrite Hload in Hl. injection Hl as <-.
  set (e := with_version d) in *. cbn [_canonical_detail]. subst rendered.
  rewrite loads_dumps_ascii_compact_sorted by done. cbn [mbind outcome_bind].
  change (sort_keys (JObj e)) with (JObj (sort_dict e)). cbv iota beta.
  assert (NoDup (dkeys e)) as Hd by (cbn [json_ok] in Hok; by bool_norm).
  assert (has_key "schema_version" e = true) as Hkey.
  { subst e. unfold with_version. destruct (has_key "schema_version" d) eqn:E; [done|].
    by rewrite has_key_dget, dget_dset. }
  assert (with_version (sort_dict e) = sort_dict e) as ->.
  { unfold with_version. apply has_key_elem in Hkey. rewrite <-dkeys_sort_dict in Hkey.
    by apply has_key_elem in Hkey as ->. }
  assert (dget_or_null "schema_version" (sort_dict e) = dget_or_null "schema_version" e) as ->.
  { unfold dget_or_null. rewrite dget_sort_dict by done. unfold dget_or_null in Hver.
    destruct (dget "schema_version" e) as [x|]; [|done]. cbn. by destruct x. }
  rewrite Hver. cbn [negb raise_if mbind outcome_bind].
  rewrite (proj2 (validate_sort (JObj e) 0) Hv : _validate_detail_value 0 (JObj (sort_dict e)) = Ok tt).
  cbn [mbind outcome_bind].
  assert (dumps_ascii_compact_sorted (JObj (sort_dict e)) = dumps_ascii_compact_sorted (JObj e)) as ->.
  { unfold dumps_ascii_compact_sorted. change (JObj (sort_dict e)) with (sort_keys (JObj e)).
    by rewrite sort_keys_idem. }
  by rewrite (proj2 (Z.ltb_ge _ _) Hb).
Qed.

(** ** Witnesses *)

Definition toy_detail : string := dumps (JObj [("b_count", JInt 2); ("reason_code", JStr "ok")]%string).
Definition toy_stored : string := Eval vm_compute in
  match _canonical_detail (Some toy_detail) with Ok (Some r) => r | _ => EmptyString end.
Definition toy_user : User := (new_User (utc_at 0)) <| u_id := 7 |> <| u_evidence_subject_id := "ref" |>.


Lemma canonical_detail_stable_witness : _canonical_detail (Some toy_stored) = Ok (Some toy_stored).
Proof.
  apply (canonical_detail_stable toy_detail toy_stored
    [("b_count", JInt 2); ("reason_code", JStr "ok")]%string); vm_compute; reflexivity.
Defined.
