(* ===== verification/WebEdits.v ===== *)
(** Web edits over a published schedule ([backend/app/core/web_edits.py]): what
    was changed, the event's confidence summary, and reverting edits to the
    desktop-published baseline. *)
From Stdlib Require Import ZArith Lia Ascii String SpecFloat.
From stdpp Require Import base list strings.
From S2P Require Import Prelude Text TextFacts Json JsonFacts PyTime PyBuiltins Models World Sessions.

(** ** Comparing stored JSON *)

(** [None] stands for an absent, malformed or [null] text. *)
Definition _parse_json (raw : option string) : outcome json :=
  match raw with
  | None => Ok JNull
  | Some s =>
      match loads s with
      | Ok v => Ok v
      | Raise e => if exn_in e [JSONDecodeError; TypeError] then Ok JNull else Raise e
      end
  end.

Definition _same_json (left right : option string) : outcome bool :=
  left_parsed ← _parse_json left;
  right_parsed ← _parse_json right;
  if negb (is_null left_parsed) || negb (is_null right_parsed)
  then Ok (py_eq left_parsed right_parsed)
  else Ok (String.eqb (or_empty left) (or_empty right)).

(** [edited is not None and not _same_json(edited, original)] *)
Definition json_changed (edited original : option string) : outcome bool :=
  match edited with
  | None => Ok false
  | Some _ => same ← _same_json edited original; Ok (negb same)
  end.

Definition str_changed (edited : option string) (original : option string) : bool :=
  is_some edited && negb (eq_opt_str edited original).

Definition note (c : bool) (s : string) : list string := if c then [s] else [].

Definition summarise_task_edit (task : PublishedTask) (edit : option TaskEdit) : outcome (list string) :=
  match edit with
  | None => Ok (note (pt_web_created task) "Created on web")
  | Some edit =>
      people ← json_changed (te_attendees_json edit) (pt_attendees_json task);
      assignments ← json_changed (te_field_assignments_json edit) (pt_field_assignments_json task);
      fields ← json_changed (te_field_values_json edit) (pt_field_values_json task);
      attachments ← json_changed (te_attachments_json edit) (pt_attachments_json task);
      let changes :=
        note (te_is_deleted edit) "Deleted from live schedule" ++
        note (str_changed (te_name edit) (Some (pt_name task))) "Name changed" ++
        note (is_some (te_start_datetime edit) || is_some (te_end_datetime edit)) "Time changed" ++
        note (is_some (te_location_name edit) || is_some (te_location_address edit)) "Location changed" ++
        note people "People changed" ++
        note assignments "Assignments changed" ++
        note fields "Fields changed" ++
        note attachments "Attachments changed" ++
        note (is_some (te_summary edit) || is_some (te_description edit)) "Text changed" ++
        note (str_changed (te_color edit) (pt_color task)) "Colour changed" in
      Ok (match changes with [] => ["Edited on the web"%string] | _ => changes end)
  end.

(** ** Texts shown before a revert *)

Definition middle_dot : string := " " +:+ encode 183 +:+ " ".

Definition _format_time_range (start end_ : option datetime) : string :=
  match start, end_ with
  | Some s, Some e => strftime_HM s +:+ " - " +:+ strftime_HM e
  | _, _ => "Time not available"
  end.

Section Items.
(** [str] of a list or an object. *)
Context (repr_container : json -> string).

Definition attendee_name (item : json) : list string :=
  match item with
  | JObj d => let name := dget_or_null "name" d in if truthy name then [py_str repr_container name] else []
  | _ => []
  end.

Definition _attendee_names (raw : option string) : outcome string :=
  attendees ← _parse_json raw;
  match attendees with
  | JList ((_ :: _) as l) =>
      match flat_map attendee_name l with
      | [] => Ok "No assigned people"%string
      | names => Ok (join ", " names)
      end
  | _ => Ok "No assigned people"%string
  end.

Definition _state_summary (start end_ : option datetime) (location attendees_json : option string)
  : outcome string :=
  names ← _attendee_names attendees_json;
  Ok (join middle_dot [_format_time_range start end_;
                       if truthy_opt location then or_empty location else "No location"; names]).

Definition _original_summary (task : PublishedTask) : outcome string :=
  if pt_web_created task then Ok "No desktop-published version"%string
  else _state_summary (Some (pt_start_datetime task)) (Some (pt_end_datetime task))
         (pt_location_name task) (pt_attendees_json task).

(** [edit.x if edit and edit.x is not None else task.x] *)
Definition overlay {A B} (edit : option B) (f : B -> option A) (d : option A) : option A :=
  match edit with
  | Some e => match f e with Some x => Some x | None => d end
  | None => d
  end.

Definition deleted (edit : option TaskEdit) : bool :=
  match edit with Some e => te_is_deleted e | None => false end.

Definition _current_summary (task : PublishedTask) (edit : option TaskEdit) : outcome string :=
  if deleted edit then Ok "Deleted from the live schedule"%string
  else _state_summary
         (overlay edit te_start_datetime (Some (pt_start_datetime task)))
         (overlay edit te_end_datetime (Some (pt_end_datetime task)))
         (overlay edit te_location_name (pt_location_name task))
         (overlay edit te_attendees_json (pt_attendees_json task)).

Record WebEditItem : Type := mkWebEditItem {
  wi_task_id : Z; wi_task_name : string; wi_day : option string; wi_start : option datetime;
  wi_end : option datetime; wi_location : option string; wi_edited_at : option datetime;
  wi_edited_by : option string; wi_edited_by_user_id : option Z;
  wi_change_summary : list string; wi_original_summary : string; wi_current_summary : string
}.

Definition build_web_edit_item (task : PublishedTask) (edit : option TaskEdit)
  (editor_name : option string) : outcome WebEditItem :=
  let effective_start := overlay edit te_start_datetime (Some (pt_start_datetime task)) in
  let effective_end := overlay edit te_end_datetime (Some (pt_end_datetime task)) in
  let effective_name := match edit with
                        | Some e => match te_name e with Some n => n | None => pt_name task end
                        | None => pt_name task
                        end in
  let effective_location := overlay edit te_location_name (pt_location_name task) in
  changes ← summarise_task_edit task edit;
  original ← _original_summary task;
  current ← _current_summary task edit;
  Ok (mkWebEditItem (pt_id task) effective_name (option_map iso_date effective_start)
        effective_start effective_end effective_location
        (match edit with Some e => te_edited_at e | None => pt_created_at task end)
        editor_name (match edit with Some e => te_edited_by_user_id e | None => None end)
        changes original current).

Definition get_task_web_edit_metadata (task : PublishedTask) (edit : option TaskEdit)
  (editor_name : option string) : outcome (list (string * json)) :=
  if is_none edit && negb (pt_web_created task) then
    Ok [("has_web_edit", JBool false); ("web_edit_edited_at", JNull); ("web_edit_edited_by", JNull);
        ("web_edit_edited_by_user_id", JNull); ("web_edit_change_summary", JList [])]%string
  else
    item ← build_web_edit_item task edit editor_name;
    Ok [("has_web_edit", JBool true);
        ("web_edit_edited_at", of_opt_str (option_map isoformat (wi_edited_at item)));
        ("web_edit_edited_by", of_opt_str (wi_edited_by item));
        ("web_edit_edited_by_user_id", of_opt_int (wi_edited_by_user_id item));
        ("web_edit_change_summary", JList (map JStr (wi_change_summary item)))]%string.

(** ** Queries *)

(** [ORDER BY start_datetime, sort_order]: a row without a sort order comes
    last among those of one start. *)
Definition order_le (a b : option spec_float) : bool :=
  match a, b with
  | _, None => true
  | None, Some _ => false
  | Some x, Some y => SFleb x y
  end.
Definition task_le (a b : PublishedTask) : bool :=
  let x := instant (pt_start_datetime a) in let y := instant (pt_start_datetime b) in
  (x <? y) || ((x =? y) && order_le (pt_sort_order a) (pt_sort_order b)).
Fixpoint insert_task (t : PublishedTask) (l : list PublishedTask) : list PublishedTask :=
  match l with [] => [t] | u :: l' => if task_le t u then t :: l else u :: insert_task t l' end.
Definition order_tasks (l : list PublishedTask) : list PublishedTask := fold_right insert_task [] l.

Definition of_event (event_id : Z) (t : PublishedTask) : bool := pt_event_id t =? event_id.
Definition Z_in (z : Z) (l : list Z) : bool := existsb (Z.eqb z) l.

Definition event_tasks (event_id : Z) : py (list PublishedTask) :=
  tasks ← q_all t_published_tasks (of_event event_id);
  mret (order_tasks tasks).
Definition edits_of (tasks : list PublishedTask) : py (list TaskEdit) :=
  q_all t_task_edits (fun e => Z_in (te_task_id e) (map pt_id tasks)).

Definition _editor_name (user : User) : option string :=
  let name := if truthy_str (u_display_name user) then u_display_name user else u_username user in
  if truthy_str name then Some name else None.

Definition _load_editor_names (edits : list TaskEdit) : py (list (Z * string)) :=
  let editor_ids := flat_map (fun e => match te_edited_by_user_id e with Some i => [i] | None => [] end) edits in
  match editor_ids with
  | [] => mret []
  | _ =>
      users ← q_all t_users (fun u => Z_in (u_id u) editor_ids);
      mret (map (fun u => (u_id u, match _editor_name u with Some n => n | None => "Unknown editor"%string end)) users)
  end.

Definition assoc_Z {A} (k : Z) (l : list (Z * A)) : option A :=
  option_map snd (List.find (fun kv => kv.1 =? k) l).

(** [edits_by_task.get(id)]: the last edit of the task. *)
Definition edit_of (edits : list TaskEdit) (t : PublishedTask) : option TaskEdit :=
  List.find (fun e => te_task_id e =? pt_id t) (List.rev edits).

(** [items.sort(key=..., reverse=True)]: the latest first, ties in order. *)
Definition edit_key (i : WebEditItem) : Z :=
  match wi_edited_at i with Some d => instant d | None => min_day * us_day end.
Fixpoint insert_item_desc (x : WebEditItem) (l : list WebEditItem) : list WebEditItem :=
  match l with
  | [] => [x]
  | y :: l' => if edit_key x <? edit_key y then y :: insert_item_desc x l' else x :: l
  end.
Definition sort_items_desc (l : list WebEditItem) : list WebEditItem := fold_right insert_item_desc [] l.

Record WebEditSummary : Type := mkWebEditSummary {
  ws_level : string; ws_edited_task_count : Z; ws_last_edited_at : option datetime;
  ws_last_edited_by : option string; ws_has_published_baseline : bool; ws_headline : string;
  ws_description : string; ws_items : list WebEditItem
}.

Definition edited (edits : list TaskEdit) (t : PublishedTask) : bool :=
  pt_web_created t || is_some (edit_of edits t).

Definition build_items (edits : list TaskEdit) (editor_names : list (Z * string))
  (tasks : list PublishedTask) : outcome (list WebEditItem) :=
  map_outcome (fun t =>
    let edit := edit_of edits t in
    build_web_edit_item t edit
      (match edit with
       | Some e => match te_edited_by_user_id e with Some i => assoc_Z i editor_names | None => None end
       | None => None
       end)) (List.filter (edited edits) tasks).

Definition derive_web_edit_summary (event_id : Z) : py WebEditSummary :=
  tasks ← event_tasks event_id;
  if negb (existsb (fun t => negb (pt_web_created t)) tasks) then
    mret (mkWebEditSummary "unknown" 0 None None false "Web edit state unknown"
            "No published desktop baseline is available yet." [])
  else
    edits ← edits_of tasks;
    editor_names ← _load_editor_names edits;
    items ← lift (build_items edits editor_names tasks);
    match sort_items_desc items with
    | [] =>
        mret (mkWebEditSummary "healthy" 0 None None true "No web edits"
                "Live schedule matches the published desktop source." [])
    | (last_item :: _) as items =>
        let n := Z.of_nat (length items) in
        mret (mkWebEditSummary "review" n (wi_edited_at last_item) (wi_edited_by last_item) true
                "Review needed"
                (string_of_Z n +:+ " web edit" +:+ (if n =? 1 then EmptyString else "s") +:+
                 " since the last desktop publish.") items)
    end.
End Items.

(** ** Reverting *)

Definition _edited_tasks_for_event (event_id : Z) : py (list PublishedTask) :=
  tasks ← event_tasks event_id;
  edits ← edits_of tasks;
  mret (List.filter (fun t => pt_web_created t || Z_in (pt_id t) (map te_task_id edits)) tasks).

(** [db.delete(task)]: the task's edits go with it. *)
Definition delete_task (task_id : Z) : py unit :=
  _ ← q_delete t_published_tasks (fun t => pt_id t =? task_id);
  _ ← q_delete t_task_edits (fun e => te_task_id e =? task_id);
  mret tt.

Definition revert_web_edit (event_id task_id : Z) : py (string * Z) :=
  task ← q_first t_published_tasks (fun t => (pt_id t =? task_id) && of_event event_id t);
  match task with
  | None => throw LookupError "Task not found"
  | Some task =>
      edit ← q_first t_task_edits (fun e => te_task_id e =? task_id);
      _ ← throw_if (is_none edit && negb (pt_web_created task)) LookupError
            "No web edit found for this task";
      let task_name := pt_name task in
      _ ← match edit with
          | Some edit => _ ← q_delete t_task_edits (fun e => te_id e =? te_id edit); mret tt
          | None => mret tt
          end;
      _ ← when (pt_web_created task) (delete_task (pt_id task));
      remaining ← _edited_tasks_for_event event_id;
      mret (task_name, Z.of_nat (length remaining))
  end.

(** One target of a bulk revert: whether it was reverted. *)
Definition revert_target (event_id task_id : Z) : py bool :=
  try_except (_ ← revert_web_edit event_id task_id; mret true) [LookupError] (fun _ => mret false).

Definition revert_web_edits (event_id : Z) (task_ids : option (list Z)) (revert_all : bool) : py (Z * Z) :=
  targets ← (if revert_all then
               tasks ← _edited_tasks_for_event event_id; mret (map pt_id tasks)
             else mret (match task_ids with Some l => l | None => [] end));
  match targets with
  | [] =>
      remaining ← _edited_tasks_for_event event_id;
      mret (0, Z.of_nat (length remaining))
  | _ =>
      reverted ← mmap (revert_target event_id) targets;
      remaining ← _edited_tasks_for_event event_id;
      mret (Z.of_nat (length (List.filter id reverted)), Z.of_nat (length remaining))
  end.
