(* ===== verification/WebEditsProps.v ===== *)
(** Reverting web edits returns an event to its desktop-published baseline. *)
From Stdlib Require Import ZArith Lia Ascii String SpecFloat.
From stdpp Require Import base list strings.
From S2P Require Import Prelude Text TextFacts Json JsonFacts PyTime PyBuiltins Models World Sessions.
From S2P Require Import WebEdits.

(** ** Lemmas *)

(** The primary keys and the one-edit-per-task key of the two tables. *)
Definition keys_ok (d : database) : Prop :=
  NoDup (map pt_id (t_published_tasks d)) /\ NoDup (map te_id (t_task_edits d)) /\
  NoDup (map te_task_id (t_task_edits d)).

Lemma insert_task_perm t l : insert_task t l ≡ₚ t :: l.
Proof.
  induction l as [|u l IH]; cbn; [done|]. destruct (task_le t u); [done|].
  rewrite IH. apply Permutation_swap.
Qed.

Lemma order_tasks_perm l : order_tasks l ≡ₚ l.
Proof. induction l as [|t l IH]; cbn; [done|]. by rewrite insert_task_perm, IH. Qed.

Lemma Z_in_true z l : Z_in z l = true <-> z ∈ l.
Proof.
  unfold Z_in. rewrite existsb_exists, list_elem_of_In. split.
  - by intros (x & Hx & ->%Z.eqb_eq).
  - intros H. exists z. by rewrite Z.eqb_refl.
Qed.

Lemma filter_ext_elem {A} (p q : A -> bool) l :
  (forall x, x ∈ l -> p x = q x) -> List.filter p l = List.filter q l.
Proof. intros H. apply List.filter_ext_in. intros x Hx. by apply H, list_elem_of_In. Qed.

Lemma nodup_filter_map {A K} (key : A -> K) p l :
  NoDup (map key l) -> NoDup (map key (List.filter p l)).
Proof.
  induction l as [|x l IH]; cbn; [done|]. intros [Hx Hd]%NoDup_cons. destruct (p x); cbn; [|by apply IH].
  constructor; [|by apply IH]. intros (y & E & Hy)%list_elem_of_fmap. apply Hx. rewrite E.
  apply list_elem_of_fmap. exists y. split; [done|]. by apply list_elem_of_In, filter_In, proj1, list_elem_of_In in Hy.
Qed.

Lemma filter_all_true {A} (l : list A) : length (List.filter id (map (fun _ => true) l)) = length l.
Proof. induction l as [|x l IH]; cbn; [done|]. by rewrite IH. Qed.

(** A task of the event that differs from the desktop baseline. *)
Definition is_edited (d : database) (event_id : Z) (t : PublishedTask) : bool :=
  of_event event_id t && (pt_web_created t || Z_in (pt_id t) (map te_task_id (t_task_edits d))).

Lemma event_edits_of (l tasks : list PublishedTask) (edits : list TaskEdit) t :
  tasks ≡ₚ l -> t ∈ l ->
  Z_in (pt_id t) (map te_task_id (List.filter (fun e => Z_in (te_task_id e) (map pt_id tasks)) edits)) =
  Z_in (pt_id t) (map te_task_id edits).
Proof.
  intros Hp Ht. apply Bool.eq_iff_eq_true. rewrite !Z_in_true, !list_elem_of_fmap. split.
  - intros (e & -> & He). exists e. split; [done|]. apply list_elem_of_In in He. apply filter_In in He as [He _].
    by apply list_elem_of_In.
  - intros (e & Heq & He). exists e. split; [done|]. apply list_elem_of_In, filter_In. rewrite <-list_elem_of_In.
    split; [done|]. apply Z_in_true. rewrite <-Heq. apply list_elem_of_fmap. exists t. split; [done|].
    by rewrite Hp.
Qed.

(** Both ways the code tells the edited tasks give the tasks that differ. *)
Lemma edited_rows event_id d edited :
  let tasks := order_tasks (List.filter (of_event event_id) (t_published_tasks d)) in
  let edits := List.filter (fun e => Z_in (te_task_id e) (map pt_id tasks)) (t_task_edits d) in
  (forall t, edited t = pt_web_created t || Z_in (pt_id t) (map te_task_id edits)) ->
  List.filter edited tasks ≡ₚ List.filter (is_edited d event_id) (t_published_tasks d).
Proof.
  intros tasks edits Hed. etransitivity; [apply filter_perm, order_tasks_perm|].
  rewrite filter_filter. match goal with |- ?a ≡ₚ ?b => enough (a = b) as -> by done end.
  apply filter_ext_elem. intros t Ht. unfold is_edited.
  destruct (of_event event_id t) eqn:E; [|done]. cbn [andb]. rewrite Hed. f_equal.
  apply (event_edits_of _ _ _ _ (order_tasks_perm _)).
  apply list_elem_of_In, filter_In. by rewrite <-list_elem_of_In.
Qed.

Lemma edited_tasks_run event_id w :
  exists l, _edited_tasks_for_event event_id w = (Ok l, w) /\
    l ≡ₚ List.filter (is_edited (w_db w) event_id) (t_published_tasks (w_db w)).
Proof. eexists. split; [reflexivity|]. by apply edited_rows. Qed.

(** The database with the edits of some tasks reverted. *)
Definition reverted (ids : list Z) (d : database) : database :=
  d <| t_published_tasks := List.filter (fun t => negb (pt_web_created t && Z_in (pt_id t) ids)) (t_published_tasks d) |>
    <| t_task_edits := List.filter (fun e => negb (Z_in (te_task_id e) ids)) (t_task_edits d) |>.

Definition with_db (d : database) (w : world) : world := w <| w_db := d |>.

Lemma delete_task_run id d w :
  delete_task id (with_db d w) =
    (Ok tt, with_db (d <| t_published_tasks := List.filter (fun t => negb (pt_id t =? id)) (t_published_tasks d) |>
                      <| t_task_edits := List.filter (fun e => negb (te_task_id e =? id)) (t_task_edits d) |>) w).
Proof. reflexivity. Qed.

Lemma revert_run event_id t w :
  keys_ok (w_db w) -> t ∈ t_published_tasks (w_db w) -> is_edited (w_db w) event_id t = true ->
  exists r, revert_web_edit event_id (pt_id t) w =
    (Ok (pt_name t, r), with_db (reverted [pt_id t] (w_db w)) w).
Proof.
  intros (Hk1 & Hk2 & Hk3) Ht He. unfold is_edited in He. apply andb_true_iff in He as [Hev He].
  unfold revert_web_edit.
  assert (List.find (fun u => (pt_id u =? pt_id t) && of_event event_id u) (t_published_tasks (w_db w)) = Some t) as Hf.
  { destruct (List.find _ _) as [u|] eqn:E.
    - apply find_some_elem in E as [Hu [Hid%Z.eqb_eq _]%andb_true_iff]. f_equal.
      by apply (nodup_key pt_id _ _ _ Hk1).
    - rewrite find_none_iff in E. specialize (E _ Ht). by rewrite Z.eqb_refl, Hev in E. }
  erewrite Mbind_Ok; [|unfold q_first, gets; by rewrite Hf]. cbv iota beta.
  set (o := List.find (fun e => te_task_id e =? pt_id t) (t_task_edits (w_db w))).
  erewrite Mbind_Ok; [|reflexivity]. fold o.
  assert (is_none o && negb (pt_web_created t) = false) as Hno.
  { destruct (pt_web_created t); [by rewrite andb_false_r|]. cbn in He. apply Z_in_true in He.
    apply list_elem_of_fmap in He as (e & Heq & He). subst o. destruct (List.find _ (t_task_edits _)) eqn:E; [done|].
    rewrite find_none_iff in E. specialize (E _ He). cbv beta in E. by rewrite Heq, Z.eqb_refl in E. }
  rewrite Hno. erewrite Mbind_Ok; [|reflexivity]. cbv zeta.
  set (edits' := List.filter (fun e => negb (Z_in (te_task_id e) [pt_id t])) (t_task_edits (w_db w))).
  assert (match o with
    | Some edit => _ ← q_delete t_task_edits (fun e => te_id e =? te_id edit); mret tt
    | None => mret tt end w = (Ok tt, with_db ((w_db w) <| t_task_edits := edits' |>) w)) as Hdel.
  { subst edits'. destruct o as [e|] eqn:E; subst o.
    - unfold q_delete, on_table, mbind, M_bind, mret, M_ret, with_db. do 3 f_equal.
      change (set_field t_task_edits ?f (w_db w)) with ((w_db w) <| t_task_edits := f (t_task_edits (w_db w)) |>).
      rewrite (filter_ext_elem (fun r => negb (te_id r =? te_id e)) (fun e => negb (Z_in (te_task_id e) [pt_id t])));
        [reflexivity|].
      intros x Hx. f_equal. cbn [Z_in existsb]. rewrite orb_false_r.
      apply find_some_elem in E as [He' Hid%Z.eqb_eq]. apply Bool.eq_iff_eq_true. rewrite !Z.eqb_eq. split.
      + intros Hxe. by rewrite (nodup_key te_id _ _ _ Hk2 Hx He' Hxe).
      + intros Hxe. rewrite <-Hid in Hxe. by rewrite (nodup_key te_task_id _ _ _ Hk3 Hx He' Hxe).
    - rewrite find_none_iff in E. unfold with_db, mret, M_ret. do 2 f_equal.
      rewrite (filter_ext_elem _ (fun _ => true)), List.filter_true; [by destruct w as [[] ]|].
      intros x Hx. cbn. by rewrite (E x Hx). }
  erewrite Mbind_Ok; [|exact Hdel]. clear Hdel.
  assert (when (pt_web_created t) (delete_task (pt_id t)) (with_db ((w_db w) <| t_task_edits := edits' |>) w)
    = (Ok tt, with_db (reverted [pt_id t] (w_db w)) w)) as Hdel.
  { subst edits'. destruct (pt_web_created t) eqn:Ew; cbn [when].
    - rewrite delete_task_run. unfold reverted. cbn.
      rewrite filter_filter.
      rewrite (filter_ext_elem (fun u => negb (pt_id u =? pt_id t))
                 (fun u => negb (pt_web_created u && ((pt_id u =? pt_id t) || false)))).
      2:{ intros x Hx. rewrite orb_false_r. f_equal.
          destruct (Z.eqb_spec (pt_id x) (pt_id t)) as [Hid|]; [|by rewrite andb_false_r].
          by rewrite (nodup_key pt_id _ _ _ Hk1 Hx Ht Hid), Ew. }
      rewrite (filter_ext_elem (fun e => negb ((te_task_id e =? pt_id t) || false) && negb (te_task_id e =? pt_id t))
                 (fun e => negb ((te_task_id e =? pt_id t) || false))); [done|].
      intros x _. rewrite orb_false_r. apply andb_diag.
    - unfold mret, M_ret, with_db, reverted. do 2 f_equal. cbn.
      rewrite (filter_ext_elem (fun u => negb (pt_web_created u && _)) (fun _ => true)), List.filter_true;
        [by destruct w as [[] ]|].
      intros x Hx. rewrite orb_false_r.
      destruct (Z.eqb_spec (pt_id x) (pt_id t)) as [Hid|]; [|by rewrite andb_false_r].
      by rewrite (nodup_key pt_id _ _ _ Hk1 Hx Ht Hid), Ew. }
  erewrite Mbind_Ok; [|exact Hdel].
  destruct (edited_tasks_run event_id (with_db (reverted [pt_id t] (w_db w)) w)) as (l & Hl & _).
  erewrite Mbind_Ok; [|exact Hl]. eexists. reflexivity.
Qed.

Lemma reverted_keys ids d : keys_ok d -> keys_ok (reverted ids d).
Proof. intros (H1 & H2 & H3). repeat split; cbn; by apply nodup_filter_map. Qed.

Lemma reverted_nil d : reverted [] d = d.
Proof.
  unfold reverted. cbn.
  rewrite (filter_ext_elem (fun t => negb (_ && false)) (fun _ => true)) by (intros; by rewrite andb_false_r).
  rewrite !List.filter_true. by destruct d.
Qed.

(** The two tables an edit is kept in, each with some of its rows. *)
Lemma two_tables p p' q q' d :
  (forall t, t ∈ t_published_tasks d -> p t = p' t) -> (forall e, e ∈ t_task_edits d -> q e = q' e) ->
  d <| t_published_tasks := List.filter p (t_published_tasks d) |>
    <| t_task_edits := List.filter q (t_task_edits d) |> =
  d <| t_published_tasks := List.filter p' (t_published_tasks d) |>
    <| t_task_edits := List.filter q' (t_task_edits d) |>.
Proof. intros H1 H2. by rewrite (filter_ext_elem _ _ _ H1), (filter_ext_elem _ _ _ H2). Qed.

Lemma reverted_app i ids d : reverted ids (reverted [i] d) = reverted (i :: ids) d.
Proof.
  unfold reverted. cbn. rewrite !filter_filter.
  etransitivity; [|apply (two_tables
    (fun x => negb (pt_web_created x && ((pt_id x =? i) || false)) && negb (pt_web_created x && Z_in (pt_id x) ids)) _
    (fun x => negb ((te_task_id x =? i) || false) && negb (Z_in (te_task_id x) ids)))]; [done|..].
  - intros x _. cbn. rewrite orb_false_r. by destruct (pt_web_created x), (pt_id x =? i).
  - intros x _. cbn. rewrite orb_false_r. by destruct (te_task_id x =? i).
Qed.

Lemma reverted_others d ev t u :
  u ∈ t_published_tasks d -> is_edited d ev u = true -> pt_id u <> pt_id t ->
  u ∈ t_published_tasks (reverted [pt_id t] d) /\ is_edited (reverted [pt_id t] d) ev u = true.
Proof.
  intros Hu He Hne. apply Z.eqb_neq in Hne. split.
  - cbn. apply list_elem_of_In, filter_In. rewrite <-list_elem_of_In. split; [done|].
    by rewrite Hne, andb_false_r.
  - unfold is_edited in *. apply andb_true_iff in He as [-> He]. cbn [andb].
    destruct (pt_web_created u); [done|]. cbn in He |- *. apply Z_in_true, list_elem_of_fmap in He as (e & Heq & He).
    apply Z_in_true, list_elem_of_fmap. exists e. split; [done|].
    apply list_elem_of_In, filter_In. rewrite <-list_elem_of_In. split; [done|]. by rewrite <-Heq, Hne.
Qed.

(** Bulk revert: every target is reverted, each against what the earlier ones left. *)
Lemma revert_targets_run ev l : forall w,
  keys_ok (w_db w) -> NoDup (map pt_id l) ->
  (forall t, t ∈ l -> t ∈ t_published_tasks (w_db w) /\ is_edited (w_db w) ev t = true) ->
  mmap (revert_target ev) (map pt_id l) w =
    (Ok (map (fun _ => true) l), with_db (reverted (map pt_id l) (w_db w)) w).
Proof.
  induction l as [|t l IH]; intros w Hk Hd Hl.
  - cbn [map mmap]. rewrite reverted_nil. unfold with_db. by destruct w.
  - cbn [map mmap]. apply NoDup_cons in Hd as [Ht Hd].
    destruct (Hl t) as [Hin He]; [by left|].
    destruct (revert_run ev t w Hk Hin He) as (r & Hr).
    erewrite Mbind_Ok; [|unfold revert_target, try_except; rewrite (Mbind_Ok _ _ _ _ _ Hr); reflexivity].
    erewrite Mbind_Ok.
    2:{ apply IH; [by apply reverted_keys | done |]. intros u Hu. cbn [w_db with_db].
        destruct (Hl u) as [Hu1 Hu2]; [by right|]. apply reverted_others; [done..|].
        intros E. apply Ht. rewrite <-E. apply list_elem_of_fmap. by exists u. }
    change (w_db (with_db ?d w)) with d. rewrite reverted_app. by unfold with_db.
Qed.

(** The event's published tasks as the desktop wrote them, and no edits of them. *)
Definition baseline (ev : Z) (d : database) : database :=
  d <| t_published_tasks := List.filter (fun t => negb (of_event ev t && pt_web_created t)) (t_published_tasks d) |>
    <| t_task_edits := List.filter (fun e =>
         negb (existsb (fun t => of_event ev t && (pt_id t =? te_task_id e)) (t_published_tasks d)))
       (t_task_edits d) |>.

Section Baseline.
Context (ev : Z) (w : world) (Hk : keys_ok (w_db w)).
Let d := w_db w.
Let edited_rows := List.filter (is_edited d ev) (t_published_tasks d).

Lemma reverting_edited l : l ≡ₚ edited_rows -> reverted (map pt_id l) d = baseline ev d.
Proof.
  intros Hl.
  assert (forall t, t ∈ l <-> t ∈ t_published_tasks d /\ is_edited d ev t = true) as Hin.
  { intros t. rewrite Hl. unfold edited_rows. rewrite !list_elem_of_In. apply filter_In. }
  apply two_tables.
  - intros t Ht. f_equal. apply Bool.eq_iff_eq_true. rewrite !andb_true_iff, Z_in_true, list_elem_of_fmap. split.
    + intros [Hc (u & E & [Hu [Hev _]%andb_true_iff]%Hin)]. split; [|done].
      by rewrite (nodup_key pt_id _ t u (proj1 Hk) Ht Hu E).
    + intros [Hev Hc]. split; [done|]. exists t. split; [done|]. apply Hin. split; [done|].
      unfold is_edited. by rewrite Hev, Hc.
  - intros e He. f_equal. apply Bool.eq_iff_eq_true. rewrite Z_in_true, list_elem_of_fmap, existsb_exists. split.
    + intros (t & E & [Ht [Hev _]%andb_true_iff]%Hin). exists t. rewrite <-list_elem_of_In. split; [done|].
      by rewrite Hev, E, Z.eqb_refl.
    + intros (t & Ht & [Hev E%Z.eqb_eq]%andb_true_iff). apply list_elem_of_In in Ht. exists t. split; [done|].
      apply Hin. split; [done|]. unfold is_edited. rewrite Hev. apply orb_true_iff. right. apply Z_in_true.
      apply list_elem_of_fmap. by exists e.
Qed.

Lemma baseline_unedited : List.filter (is_edited (baseline ev d) ev) (t_published_tasks (baseline ev d)) = [].
Proof.
  apply filter_none. intros t [Ht Hn]%filter_In. unfold is_edited. destruct (of_event ev t) eqn:Hev; [|done].
  cbn [andb] in Hn |- *. apply negb_true_iff in Hn as ->. cbn [orb].
  apply not_true_is_false. rewrite Z_in_true, list_elem_of_fmap. intros (e & E & He).
  apply list_elem_of_In, filter_In in He as [_ He]. apply negb_true_iff, not_true_iff_false in He.
  apply He, existsb_exists. exists t. split; [done|]. by rewrite Hev, E, Z.eqb_refl.
Qed.

Lemma edited_baseline : _edited_tasks_for_event ev (with_db (baseline ev d) w) = (Ok [], with_db (baseline ev d) w).
Proof.
  destruct (edited_tasks_run ev (with_db (baseline ev d) w)) as (l & -> & Hl). cbn [w_db with_db] in Hl.
  change (w_db (with_db ?x w)) with x in Hl. rewrite baseline_unedited in Hl. by apply Permutation_nil_r in Hl as ->.
Qed.
End Baseline.

(** C40: reverting all web edits of an event always succeeds and restores the
    desktop-published baseline: it reports as many reverts as there were edited
    tasks and none remaining, the event's web-created tasks are gone, no task
    of the event has an edit left, and every other row of the database, the
    tasks and edits of other events included, is as it was. *)
Theorem revert_all_restores_baseline (ev : Z) (ids : option (list Z)) (w : world)
  (Hk : keys_ok (w_db w)) :
  revert_web_edits ev ids true w =
    (Ok (Z.of_nat (length (List.filter (is_edited (w_db w) ev) (t_published_tasks (w_db w)))), 0%Z),
     with_db (baseline ev (w_db w)) w).
Proof.
  unfold revert_web_edits. destruct (edited_tasks_run ev w) as (l & Hl & Hp).
  erewrite Mbind_Ok; [|erewrite Mbind_Ok; [|exact Hl]; reflexivity].
  rewrite <-Hp, <-(reverting_edited ev w Hk l Hp). destruct l as [|t l'] eqn:El; cbn [map].
  - rewrite reverted_nil. erewrite Mbind_Ok; [|exact Hl]. unfold with_db. by destruct w.
  - change (pt_id t :: map pt_id l') with (map pt_id (t :: l')). rewrite <-El in *.
    erewrite Mbind_Ok.
    2:{ apply revert_targets_run; [done|..].
        - rewrite Hp. apply nodup_filter_map, Hk.
        - intros u. rewrite Hp, !list_elem_of_In. by intros []%filter_In. }
    rewrite (reverting_edited ev w Hk l Hp). erewrite Mbind_Ok; [|apply edited_baseline].
    cbn. do 4 f_equal. by rewrite filter_all_true.
Qed.

Definition task_1 : PublishedTask :=
  let n := utc_at 1785414896000000 in (new_PublishedTask n) <| pt_id := 1 |> <| pt_event_id := 7 |> <| pt_name := "Lunch" |>.
Definition tasks_db : database :=
  let n := utc_at 1785414896000000 in
  empty_database
    <| t_published_tasks := [task_1; task_1 <| pt_id := 2 |> <| pt_web_created := true |>; task_1 <| pt_id := 3 |>;
                             task_1 <| pt_id := 4 |> <| pt_event_id := 8 |>] |>
    <| t_task_edits := [(new_TaskEdit n) <| te_id := 1 |> <| te_task_id := 1 |> <| te_name := Some "Supper"%string |>;
                        (new_TaskEdit n) <| te_id := 2 |> <| te_task_id := 4 |>] |>.

Lemma tasks_db_keys : keys_ok tasks_db.
Proof. repeat split; vm_compute; repeat constructor; rewrite ?elem_of_cons, ?elem_of_nil; intuition discriminate. Qed.

Lemma revert_all_restores_baseline_witness :
  revert_web_edits 7 None true (toy_world tasks_db) = (Ok (2%Z, 0%Z), with_db (baseline 7 tasks_db) (toy_world tasks_db)) /\
  map pt_id (t_published_tasks (baseline 7 tasks_db)) = [1%Z; 3%Z; 4%Z] /\
  map te_id (t_task_edits (baseline 7 tasks_db)) = [2%Z].
Proof.
  split; [|by vm_compute]. exact (revert_all_restores_baseline 7 None (toy_world tasks_db) tasks_db_keys).
Defined.

(** ** The confidence summary *)

Lemma map_outcome_map {A B C} (f : A -> outcome B) (g : B -> C) (h : A -> C) l ys :
  (forall x y, f x = Ok y -> g y = h x) -> map_outcome f l = Ok ys -> map g ys = map h l.
Proof.
  intros Hf. revert ys. induction l as [|x l IH]; intros ys H; cbn in H; inv_ok; [done|].
  cbn. f_equal; [by apply Hf | by apply IH].
Qed.

Lemma sort_items_desc_perm l : sort_items_desc l ≡ₚ l.
Proof.
  assert (forall x l, insert_item_desc x l ≡ₚ x :: l) as Hi.
  { clear l. intros x l. induction l as [|y l IH]; cbn; [done|]. destruct (_ <? _); [|done].
    rewrite IH. apply Permutation_swap. }
  induction l as [|x l IH]; cbn; [done|]. by rewrite Hi, IH.
Qed.

Lemma build_item_id repr t e n i : build_web_edit_item repr t e n = Ok i -> wi_task_id i = pt_id t.
Proof. unfold build_web_edit_item. intros H. inv_ok. by subst. Qed.

Lemma edit_of_some edits t : is_some (edit_of edits t) = Z_in (pt_id t) (map te_task_id edits).
Proof.
  unfold edit_of. apply Bool.eq_iff_eq_true. rewrite Z_in_true, list_elem_of_fmap. split.
  - destruct (List.find _ _) as [e|] eqn:E; [|done]. intros _. apply find_some_elem in E as [He E%Z.eqb_eq].
    exists e. split; [done|]. by apply list_elem_of_In, in_rev, list_elem_of_In.
  - intros (e & E & He). destruct (List.find _ _) eqn:Ef; [done|]. rewrite find_none_iff in Ef.
    assert (e ∈ List.rev edits) as He' by (apply list_elem_of_In; rewrite <-in_rev; by apply list_elem_of_In).
    specialize (Ef e He'). cbv beta in Ef. by rewrite E, Z.eqb_refl in Ef.
Qed.

Lemma load_names_same edits w names w' : _load_editor_names edits w = (Ok names, w') -> w' = w.
Proof. unfold _load_editor_names. intros H. destruct (flat_map _ _); inv_ok; [done|]. by injection Hrun as _ ->. Qed.

(** The confidence summary of an event says "unknown" exactly when the event
    has no desktop-published task, otherwise "review" exactly when some task
    differs from the baseline and "healthy" when none does; its items are the
    edited tasks, once each, and the count is theirs. Reading it changes nothing. *)
Theorem summary_reports_every_edit (repr : json -> string) (ev : Z) (w w' : world) (s : WebEditSummary)
  (Hrun : derive_web_edit_summary repr ev w = (Ok s, w')) :
  let edited := List.filter (is_edited (w_db w) ev) (t_published_tasks (w_db w)) in
  let baseline := existsb (fun t => of_event ev t && negb (pt_web_created t)) (t_published_tasks (w_db w)) in
  w' = w /\ ws_has_published_baseline s = baseline /\
  ws_level s = (if baseline then if Nat.eqb (length edited) 0 then "healthy" else "review" else "unknown")%string /\
  (baseline = true ->
   map wi_task_id (ws_items s) ≡ₚ map pt_id edited /\ ws_edited_task_count s = Z.of_nat (length edited)).
Proof.
  intros ed base. unfold derive_web_edit_summary in Hrun.
  apply Mbind_Ok_inv in Hrun as (tasks & w1 & Ht & Hrun).
  injection Ht as <- <-. set (tasks := order_tasks _) in *.
  assert (tasks ≡ₚ List.filter (of_event ev) (t_published_tasks (w_db w))) as Hp by apply order_tasks_perm.
  assert (existsb (fun t => negb (pt_web_created t)) tasks = base) as Hb.
  { apply Bool.eq_iff_eq_true. unfold base. rewrite !existsb_exists. split.
    - intros (t & Hin & Hwc). apply list_elem_of_In in Hin. rewrite Hp, list_elem_of_In, filter_In in Hin.
      exists t. by rewrite Hwc, andb_true_r.
    - intros (t & Hin & [Hev Hwc]%andb_true_iff). exists t. split; [|done].
      apply list_elem_of_In. rewrite Hp. by apply list_elem_of_In, filter_In. }
  rewrite Hb in Hrun. destruct base; cbn [negb] in Hrun.
  - apply Mbind_Ok_inv in Hrun as (edits & w1 & He & Hrun).
    injection He as <- <-. apply Mbind_Ok_inv in Hrun as (names & w1 & Hn & Hrun).
    assert (w1 = w) as -> by (by eapply load_names_same).
    apply Mbind_Ok_inv in Hrun as (items & w1 & [Hi ->]%lift_Ok_inv & Hrun).
    assert (map wi_task_id (sort_items_desc items) ≡ₚ map pt_id ed) as Hids.
    { rewrite sort_items_desc_perm. unfold build_items in Hi. erewrite map_outcome_map; [|..|exact Hi].
      - apply Permutation_map, edited_rows. intros t. unfold edited. f_equal. apply edit_of_some.
      - intros t i. apply build_item_id. }
    assert (length ed = length (sort_items_desc items)) as Hlen.
    { apply Permutation_length in Hids. by rewrite !length_map in Hids. }
    rewrite Hlen. destruct (sort_items_desc items) as [|i l]; apply mret_Ok_inv in Hrun as [-> ->]; by repeat split.
  - apply mret_Ok_inv in Hrun as [-> ->]. by repeat split.
Qed.

Definition toy_summary : outcome WebEditSummary * world :=
  derive_web_edit_summary (fun _ => EmptyString) 7 (toy_world tasks_db).
Lemma summary_reports_every_edit_witness :
  exists s, toy_summary = (Ok s, toy_world tasks_db) /\ ws_level s = "review"%string /\ ws_edited_task_count s = 2%Z.
Proof.
  destruct toy_summary as [[s|e] w'] eqn:E; [|by vm_compute in E].
  destruct (summary_reports_every_edit (fun _ => EmptyString) 7 (toy_world tasks_db) w' s E) as (-> & _ & Hl & Hc).
  exists s. split; [done|]. split; [exact Hl|]. by apply Hc.
Defined.
