(* ===== verification/Diff.v ===== *)
(** What changed for each person between two published schedules
    ([backend/app/core/diff.py]).  The attendees of a task are decoded JSON of any
    shape; person ids are compared as Python compares dictionary keys.  The
    iteration order of a Python set of person ids is taken to be insertion
    order. *)
From Stdlib Require Import ZArith Lia Ascii String SpecFloat.
From stdpp Require Import base list strings.
From S2P Require Import Prelude Text TextFacts Json JsonFacts PyTime PyBuiltins Models World Sessions.
From S2P Require Import WebEdits.

(** ** Dictionaries keyed by integers or decoded values *)

Section Assoc.
Context {K V : Type} (eqb : K -> K -> bool).

Fixpoint assoc_get (k : K) (d : list (K * V)) : option V :=
  match d with
  | [] => None
  | (k', v) :: d => if eqb k' k then Some v else assoc_get k d
  end.
(** [d[k] = v]: an existing key keeps its place. *)
Fixpoint assoc_set (k : K) (v : V) (d : list (K * V)) : list (K * V) :=
  match d with
  | [] => [(k, v)]
  | (k', v') :: d => if eqb k' k then (k', v) :: d else (k', v') :: assoc_set k v d
  end.
Definition assoc_has (k : K) (d : list (K * V)) : bool := is_some (assoc_get k d).
End Assoc.

Fixpoint insert_Z (z : Z) (l : list Z) : list Z :=
  match l with [] => [z] | y :: l' => if z <=? y then z :: l else y :: insert_Z z l' end.
(** [sorted] of a set of integers *)
Definition sort_Z (l : list Z) : list Z := fold_right insert_Z [] l.

(** ** Resolved tasks *)

Record resolved : Type := mkResolved {
  r_external_task_id : Z; r_name : string; r_start : option string; r_end : option string;
  r_location_name : option string; r_location_address : option string; r_attendees : json
}.

Definition edit_or {A} (e d : option A) : option A := match e with Some x => Some x | None => d end.

Definition _resolve_task (task : PublishedTask) (edit : option TaskEdit) : outcome (option resolved) :=
  if deleted edit then Ok None
  else
    attendees ← (match pt_attendees_json task with
                 | Some s => if truthy_str s then loads s else Ok (JList [])
                 | None => Ok (JList [])
                 end);
    let start := Some (isoformat (pt_start_datetime task)) in
    let end_ := Some (isoformat (pt_end_datetime task)) in
    match edit with
    | None => Ok (Some (mkResolved (pt_external_task_id task) (pt_name task) start end_
                          (pt_location_name task) (pt_location_address task) attendees))
    | Some e =>
        attendees ← (match te_attendees_json e with
                     | Some s =>
                         if truthy_str s then
                           parsed ← loads s; Ok (if is_null parsed then attendees else parsed)
                         else Ok attendees
                     | None => Ok attendees
                     end);
        Ok (Some (mkResolved (pt_external_task_id task)
                    (match te_name e with Some n => n | None => pt_name task end)
                    (edit_or (option_map isoformat (te_start_datetime e)) start)
                    (edit_or (option_map isoformat (te_end_datetime e)) end_)
                    (edit_or (te_location_name e) (pt_location_name task))
                    (edit_or (te_location_address e) (pt_location_address task))
                    attendees))
    end.

Definition person_tasks : Type := list (Z * resolved).
Definition person_map : Type := list (json * person_tasks).

(** [result.setdefault(pid, {})[task_id] = resolved] *)
Definition put_task (pid : json) (r : resolved) (m : person_map) : person_map :=
  let tasks := match assoc_get py_eq pid m with Some t => t | None => [] end in
  assoc_set py_eq pid (assoc_set Z.eqb (r_external_task_id r) r tasks) m.

Fixpoint put_attendees (r : resolved) (l : list json) (m : person_map) : outcome person_map :=
  match l with
  | [] => Ok m
  | att :: l =>
      pid ← get_attr "person_id" JNull att;
      (if is_null pid then put_attendees r l m
       else if negb (hashable pid) then raise TypeError "unhashable type"
       else put_attendees r l (put_task pid r m))
  end.

Fixpoint build_map (edits_map : list (Z * TaskEdit)) (tasks : list PublishedTask) (m : person_map)
  : outcome person_map :=
  match tasks with
  | [] => Ok m
  | task :: tasks =>
      resolved ← _resolve_task task (assoc_Z (pt_id task) edits_map);
      match resolved with
      | None => build_map edits_map tasks m
      | Some r =>
          attendees ← iter (r_attendees r);
          m ← put_attendees r attendees m;
          build_map edits_map tasks m
      end
  end.
Definition _build_person_task_map (tasks : list PublishedTask) (edits_map : list (Z * TaskEdit))
  : outcome person_map := build_map edits_map tasks [].

(** ** Differences *)

Definition _task_summary (t : resolved) : json :=
  JObj [("name", JStr (r_name t)); ("start", of_opt_str (r_start t)); ("end", of_opt_str (r_end t));
        ("location", JStr (or_empty (r_location_name t)))]%string.

(** The compared fields, in the order of [_DIFF_FIELDS]. *)
Definition _DIFF_FIELDS : list (string * (resolved -> option string)) :=
  [("name", fun r => Some (r_name r)); ("start", r_start); ("end", r_end);
   ("location_name", r_location_name); ("location_address", r_location_address)]%string.

Definition old_new (o n : json) : json := JObj [("old", o); ("new", n)]%string.

Definition field_changes (old_t new_t : resolved) : list (string * json) :=
  flat_map (fun '(field, f) =>
    if eq_opt_str (f old_t) (f new_t) then []
    else [(field, old_new (of_opt_str (f old_t)) (of_opt_str (f new_t)))]) _DIFF_FIELDS.

(** [sorted(a.get("name", "") for a in attendees)] *)
Definition sorted_names (t : resolved) : outcome (list json) :=
  l ← iter (r_attendees t);
  names ← map_outcome (get_attr "name" (JStr EmptyString)) l;
  py_sorted json_lt names.

(** [", ".join(names)] *)
Definition join_names (l : list json) : outcome string :=
  names ← map_outcome (fun v => match v with
                                | JStr s => Ok s
                                | _ => raise TypeError "sequence item: expected str instance"
                                end) l;
  Ok (join ", " names).

Definition task_changes (old_t new_t : resolved) : outcome (list (string * json)) :=
  old_names ← sorted_names old_t;
  new_names ← sorted_names new_t;
  (if py_eq (JList old_names) (JList new_names) then Ok (field_changes old_t new_t)
   else
     o ← join_names old_names;
     n ← join_names new_names;
     Ok (field_changes old_t new_t ++ [("attendees"%string, old_new (JStr o) (JStr n))])).

Definition modified_task (old_t new_t : resolved) : outcome (list json) :=
  changes ← task_changes old_t new_t;
  Ok (match changes with
      | [] => []
      | _ => [JObj [("name", JStr (r_name new_t)); ("changes", JObj changes)]%string]
      end).

Definition ids (t : person_tasks) : list Z := map fst t.

(** The tasks listed in [ids] that the dictionary has. *)
Definition tasks_at (l : list Z) (t : person_tasks) : list resolved :=
  flat_map (fun tid => match assoc_get Z.eqb tid t with Some r => [r] | None => [] end) l.

Definition plural (n : Z) : string := if n =? 1 then EmptyString else "s".

Record person_diff : Type := mkPersonDiff {
  d_type : string; d_summary : string; d_added : list json; d_removed : list json; d_modified : list json
}.

Definition diff_person (is_initial : bool) (old new : person_tasks) : outcome (option person_diff) :=
  let added := map _task_summary
    (tasks_at (sort_Z (List.filter (fun i => negb (Z_in i (ids old))) (ids new))) new) in
  let removed := map _task_summary
    (tasks_at (sort_Z (List.filter (fun i => negb (Z_in i (ids new))) (ids old))) old) in
  let common := sort_Z (List.filter (fun i => Z_in i (ids new)) (ids old)) in
  modified ← map_outcome (fun '(o, n) => modified_task o n) (combine (tasks_at common old) (tasks_at common new));
  let modified := concat modified in
  match added, removed, modified with
  | [], [], [] => Ok None
  | _, _, _ =>
      let total := Z.of_nat (length added + length removed + length modified) in
      Ok (Some (mkPersonDiff
        (if is_initial then "initial" else "republish")
        (if is_initial
         then "Your schedule has been published with " +:+ string_of_Z total +:+ " task" +:+ plural total
         else string_of_Z total +:+ " change" +:+ plural total +:+ " to your schedule")
        added removed modified))
  end.

Definition tasks_of (pid : json) (m : person_map) : person_tasks :=
  match assoc_get py_eq pid m with Some t => t | None => [] end.

(** [set(old_map.keys()) | set(new_map.keys())] *)
Definition all_person_ids (old_map new_map : person_map) : list json :=
  map fst old_map ++ List.filter (fun p => negb (assoc_has py_eq p old_map)) (map fst new_map).

Fixpoint diff_persons (is_initial : bool) (old_map new_map : person_map) (pids : list json)
  : outcome (list (json * person_diff)) :=
  match pids with
  | [] => Ok []
  | pid :: pids =>
      d ← diff_person is_initial (tasks_of pid old_map) (tasks_of pid new_map);
      rest ← diff_persons is_initial old_map new_map pids;
      Ok (match d with Some d => (pid, d) :: rest | None => rest end)
  end.

Definition compute_per_person_diffs (old_tasks : list PublishedTask) (old_edits_map : list (Z * TaskEdit))
  (new_tasks : list PublishedTask) (new_edits_map : option (list (Z * TaskEdit)))
  : outcome (list (json * person_diff)) :=
  old_map ← _build_person_task_map old_tasks old_edits_map;
  new_map ← _build_person_task_map new_tasks (match new_edits_map with Some m => m | None => [] end);
  diff_persons (Nat.eqb (length old_tasks) 0) old_map new_map (all_person_ids old_map new_map).

(** ** Stored changes *)

Definition diff_json (d : person_diff) : json :=
  JObj [("type", JStr (d_type d)); ("summary", JStr (d_summary d)); ("added", JList (d_added d));
        ("removed", JList (d_removed d)); ("modified", JList (d_modified d))]%string.

(** The difference of the person a user is linked to. *)
Definition diff_of (u : User) (diffs : list (json * person_diff)) : option person_diff :=
  match u_linked_person_id u with Some p => assoc_get py_eq (JInt p) diffs | None => None end.

Definition linked_to (event_id : Z) (diffs : list (json * person_diff)) (u : User) : bool :=
  eq_opt_Z (u_event_id u) (Some event_id) && is_some (diff_of u diffs).

Fixpoint store_changes (event_id : Z) (diffs : list (json * person_diff)) (users : list User) : py Z :=
  match users with
  | [] => mret 0
  | user :: users =>
      match diff_of user diffs with
      | None => store_changes event_id diffs users
      | Some d =>
          now ← utc_now;
          _ ← q_insert t_schedule_changes (fun i =>
                (new_ScheduleChange now) <| sc_id := i |> <| sc_user_id := u_id user |>
                  <| sc_event_id := event_id |> <| sc_changes_json := dumps (diff_json d) |>);
          n ← store_changes event_id diffs users;
          mret (n + 1)
      end
  end.

Definition store_schedule_changes (event_id : Z) (diffs : list (json * person_diff)) : py Z :=
  match diffs with
  | [] => mret 0
  | _ =>
      linked_users ← q_all t_users (linked_to event_id diffs);
      store_changes event_id diffs linked_users
  end.

(** ** What a difference means *)

Definition same_task (a b : resolved) : Prop :=
  r_name a = r_name b /\ r_start a = r_start b /\ r_end a = r_end b /\
  r_location_name a = r_location_name b /\ r_location_address a = r_location_address b /\
  exists na nb, sorted_names a = Ok na /\ sorted_names b = Ok nb /\ py_eq (JList na) (JList nb) = true.

(** A person has the same tasks in both schedules, each with the same name,
    times, place and names of its attendees. *)
Definition same_tasks (old new : person_tasks) : Prop :=
  forall tid, match assoc_get Z.eqb tid old, assoc_get Z.eqb tid new with
              | Some a, Some b => same_task a b
              | None, None => True
              | _, _ => False
              end.

Lemma eq_opt_str_true a b : eq_opt_str a b = true <-> a = b.
Proof.
  destruct a as [a|], b as [b|]; cbn; [|done..]. rewrite String.eqb_eq. split; [by intros ->|congruence].
Qed.

Lemma field_changes_nil a b :
  field_changes a b = [] <->
  r_name a = r_name b /\ r_start a = r_start b /\ r_end a = r_end b /\
  r_location_name a = r_location_name b /\ r_location_address a = r_location_address b.
Proof.
  assert (forall x y k, (if eq_opt_str x y then [] else [k : string * json]) = [] <-> x = y) as H.
  { intros x y k. rewrite <-eq_opt_str_true. by destruct (eq_opt_str x y). }
  unfold field_changes. cbn [flat_map _DIFF_FIELDS].
  assert (forall (A : Type) (l r : list A), l ++ r = [] <-> l = [] /\ r = []) as Happ.
  { intros A l r. split; [by intros ?%app_nil | by intros [-> ->]]. }
  rewrite !Happ, !H. split.
  - by intros ([= ->] & -> & -> & -> & -> & _).
  - by intros (-> & -> & -> & -> & ->).
Qed.

(** Two lists that [join] accepts compare as their texts do. *)
Lemma join_names_refl l s : join_names l = Ok s -> py_eq (JList l) (JList l) = true.
Proof.
  unfold join_names. intros (names & H & _)%bind_Ok_inv. cbn [py_eq].
  revert names H. induction l as [|v l IH]; intros names H; [done|]. cbn in H |- *. inv_ok.
  destruct v; try done. cbn. rewrite String.eqb_refl. by eapply IH.
Qed.

Lemma modified_task_ok a b m :
  modified_task a b = Ok m ->
  (m = [] <-> same_task a b).
Proof.
  unfold modified_task, task_changes. intros (ch & H & Hm)%bind_Ok_inv.
  apply bind_Ok_inv in H as (na & Ha & H). apply bind_Ok_inv in H as (nb & Hb & H).
  injection Hm as <-. unfold same_task. rewrite Ha, Hb. destruct (py_eq _ _) eqn:E.
  - injection H as <-. pose proof (field_changes_nil a b) as Hf. destruct (field_changes a b) as [|c l].
    + split; [|done]. intros _. destruct Hf as [Hf _]. destruct (Hf eq_refl) as (? & ? & ? & ? & ?). eauto 10.
    + split; [done|]. intros (H1 & H2 & H3 & H4 & H5 & _). by discriminate (proj2 Hf).
  - apply bind_Ok_inv in H as (o & _ & H). apply bind_Ok_inv in H as (n & _ & H). injection H as <-.
    split; [by destruct (field_changes a b)|].
    intros (_ & _ & _ & _ & _ & ? & ? & [= <-] & [= <-] & E'). congruence.
Qed.

Lemma modified_task_refl a m : modified_task a a = Ok m -> m = [].
Proof.
  intros H. apply (modified_task_ok a a m H). unfold modified_task, task_changes in H.
  apply bind_Ok_inv in H as (ch & H & _). apply bind_Ok_inv in H as (na & Ha & H).
  apply bind_Ok_inv in H as (nb & Hb & H). repeat (split; [done|]). exists na, nb. repeat split; [done..|].
  rewrite Ha in Hb. injection Hb as ->. destruct (py_eq _ _) eqn:E; [done|].
  apply bind_Ok_inv in H as (o & Ho & _). apply join_names_refl in Ho. congruence.
Qed.

(** ** Tasks by their ids *)

Lemma insert_Z_perm z l : insert_Z z l ≡ₚ z :: l.
Proof.
  induction l as [|y l IH]; cbn; [done|]. destruct (z <=? y); [done|]. rewrite IH. apply Permutation_swap.
Qed.
Lemma sort_Z_perm l : sort_Z l ≡ₚ l.
Proof. induction l as [|z l IH]; cbn; [done|]. by rewrite insert_Z_perm, IH. Qed.

Lemma elem_sorted_filter (p : Z -> bool) l tid : tid ∈ sort_Z (List.filter p l) <-> tid ∈ l /\ p tid = true.
Proof. rewrite sort_Z_perm. rewrite !list_elem_of_In. apply filter_In. Qed.

Lemma ids_get tid (t : person_tasks) : Z_in tid (ids t) = true <-> exists r, assoc_get Z.eqb tid t = Some r.
Proof.
  induction t as [|[k r] t IH]; cbn; [split; [done | by intros []]|].
  rewrite orb_true_iff, IH, Z.eqb_eq. destruct (Z.eqb_spec k tid) as [->|Hne].
  - split; eauto.
  - split; [by intros [->|H]|auto].
Qed.

Lemma Z_in_elem z l : z ∈ l <-> Z_in z l = true.
Proof.
  unfold Z_in. rewrite existsb_exists, list_elem_of_In. split.
  - intros H. exists z. by rewrite Z.eqb_refl.
  - by intros (x & Hx & ->%Z.eqb_eq).
Qed.

Lemma tasks_at_nil l t : tasks_at l t = [] <-> forall tid, tid ∈ l -> assoc_get Z.eqb tid t = None.
Proof.
  unfold tasks_at. induction l as [|i l IH]; cbn.
  - split; [by intros _ tid ?%elem_of_nil | done].
  - split.
    + intros [H1 H2]%app_nil tid [->|Hi]%elem_of_cons; [by destruct (assoc_get _ _ t)|]. by apply IH.
    + intros H. rewrite (H i) by left. apply IH. intros tid Ht. apply H. by right.
Qed.

(** Every id on one side only is listed there. *)
Lemma only_in_nil old new :
  tasks_at (sort_Z (List.filter (fun i => negb (Z_in i (ids old))) (ids new))) new = [] <->
  forall tid, is_some (assoc_get Z.eqb tid new) = true -> is_some (assoc_get Z.eqb tid old) = true.
Proof.
  rewrite tasks_at_nil. split.
  - intros H tid Hn. destruct (assoc_get _ tid new) as [r|] eqn:E; [|done].
    destruct (Z_in tid (ids old)) eqn:Eo; [by apply ids_get in Eo as [? ->]|].
    rewrite (H tid) in E; [done|]. apply elem_sorted_filter. split; [|by rewrite Eo].
    apply Z_in_elem, ids_get. eauto.
  - intros H tid [Hi Ho]%elem_sorted_filter. apply Z_in_elem, ids_get in Hi as [r Hr].
    specialize (H tid). rewrite Hr in H. destruct (assoc_get _ tid old) eqn:E; [|by discriminate H].
    assert (Z_in tid (ids old) = true) as Ht by (apply ids_get; eauto). by rewrite Ht in Ho.
Qed.

(** The tasks both sides have, side by side. *)
Lemma paired_tasks l old new ms :
  (forall tid, tid ∈ l -> is_some (assoc_get Z.eqb tid old) && is_some (assoc_get Z.eqb tid new) = true) ->
  map_outcome (fun '(o, n) => modified_task o n) (combine (tasks_at l old) (tasks_at l new)) = Ok ms ->
  concat ms = [] <->
  forall tid a b, tid ∈ l -> assoc_get Z.eqb tid old = Some a -> assoc_get Z.eqb tid new = Some b -> same_task a b.
Proof.
  revert ms. induction l as [|i l IH]; intros ms Hl Hm.
  - cbn in Hm. injection Hm as <-. split; [|done]. by intros _ tid a b ?%elem_of_nil.
  - pose proof (Hl i ltac:(left)) as Hi. cbn in Hm.
    destruct (assoc_get Z.eqb i old) as [a|] eqn:Ea; [|done].
    destruct (assoc_get Z.eqb i new) as [b|] eqn:Eb; [|done]. cbn in Hm. inv_ok. cbn [concat].
    specialize (IH _ ltac:(intros; apply Hl; by right) Hrun1). apply modified_task_ok in Hrun. split.
    + intros [H1 H2]%app_nil tid a' b' [->|Ht]%elem_of_cons Ha' Hb'.
      * rewrite Ea in Ha'. rewrite Eb in Hb'. injection Ha' as <-. injection Hb' as <-. by apply Hrun.
      * by apply (proj1 IH H2 tid).
    + intros H. rewrite (proj2 Hrun), (proj2 IH); [done|..].
      * intros tid a' b' Ht. apply H. by right.
      * apply (H i); [by left|done..].
Qed.

(** No difference is computed exactly when the person's tasks are the same. *)
Lemma diff_person_none init old new d :
  diff_person init old new = Ok d -> (d = None <-> same_tasks old new).
Proof.
  unfold diff_person. intros (ms & Hm & H)%bind_Ok_inv. cbv beta in H.
  apply paired_tasks in Hm.
  2:{ intros tid [Ho Hn]%elem_sorted_filter. apply Z_in_elem, ids_get in Ho as [? ->].
      by apply ids_get in Hn as [? ->]. }
  pose proof (only_in_nil old new) as Ha. pose proof (only_in_nil new old) as Hr.
  set (added := tasks_at _ new) in Ha, H. set (removed := tasks_at _ old) in Hr, H.
  transitivity (added = [] /\ removed = [] /\ concat ms = []).
  - destruct added, removed, (concat ms); injection H as <-; split;
      solve [intros (? & ? & ?); (discriminate || done) | intros ?; (discriminate || done)].
  - rewrite Ha, Hr, Hm. unfold same_tasks. split.
    + intros (H1 & H2 & H3) tid. specialize (H1 tid). specialize (H2 tid).
      destruct (assoc_get _ tid old) as [a|] eqn:Eo, (assoc_get _ tid new) as [b|] eqn:En;
        [|by discriminate H2 | by discriminate H1 | done].
      apply (H3 tid); [|done..]. apply elem_sorted_filter. split; [apply Z_in_elem|]; apply ids_get; eauto.
    + intros Hs. split; [|split].
      * intros tid. specialize (Hs tid). by destruct (assoc_get _ tid old), (assoc_get _ tid new).
      * intros tid. specialize (Hs tid). by destruct (assoc_get _ tid old), (assoc_get _ tid new).
      * intros tid a b _ Ea Eb. specialize (Hs tid). by rewrite Ea, Eb in Hs.
Qed.

Lemma diff_persons_elem init om nm pids ds pid :
  diff_persons init om nm pids = Ok ds ->
  pid ∈ map fst ds <-> pid ∈ pids /\ ~ same_tasks (tasks_of pid om) (tasks_of pid nm).
Proof.
  revert ds. induction pids as [|q pids IH]; intros ds H.
  - injection H as <-. cbn. split; [by intros ?%elem_of_nil | by intros [?%elem_of_nil _]].
  - cbn in H. apply bind_Ok_inv in H as (d & Hd & H). apply bind_Ok_inv in H as (rest & Hr & H).
    injection H as <-. apply diff_person_none in Hd. specialize (IH rest Hr). rewrite elem_of_cons.
    destruct d as [d|]; cbn [map fst].
    + rewrite elem_of_cons, IH. split; [|by intros [[->|?] ?]; [left|right]].
      intros [->|[? ?]]; [|auto]. split; [by left|]. by intros ?%Hd.
    + rewrite IH. split; [intros [? ?]; auto|]. intros [[->|?] Hn]; [|auto]. destruct Hn. by apply Hd.
Qed.

(** ** Properties *)

(** The computed differences name exactly the persons whose schedule changed:
    a person id is reported when, and only when, the task ids of the person in
    the two resolved schedules differ, or a task on both sides differs in name,
    start, end, place, address or the names of its attendees. *)
Theorem reported_persons_changed old_tasks old_edits new_tasks new_edits diffs
  (H : compute_per_person_diffs old_tasks old_edits new_tasks new_edits = Ok diffs) :
  exists old_map new_map,
    _build_person_task_map old_tasks old_edits = Ok old_map /\
    _build_person_task_map new_tasks (match new_edits with Some m => m | None => [] end) = Ok new_map /\
    forall pid, pid ∈ map fst diffs <->
      pid ∈ all_person_ids old_map new_map /\ ~ same_tasks (tasks_of pid old_map) (tasks_of pid new_map).
Proof.
  unfold compute_per_person_diffs in H. apply bind_Ok_inv in H as (om & Ho & H).
  apply bind_Ok_inv in H as (nm & Hn & H). exists om, nm. do 2 (split; [done|]). intros pid. exact (diff_persons_elem _ _ _ _ _ pid H).
Qed.

Lemma diff_person_refl init t d : diff_person init t t = Ok d -> d = None.
Proof.
  intros H. apply (diff_person_none _ _ _ _ H). unfold diff_person in H.
  apply bind_Ok_inv in H as (ms & Hm & _). intros tid.
  destruct (assoc_get Z.eqb tid t) as [r|] eqn:E; [|done].
  pose proof Hm as Hm'. apply paired_tasks in Hm'.
  2:{ intros i [Hi _]%elem_sorted_filter. apply Z_in_elem, ids_get in Hi as [? ->]. reflexivity. }
  apply (proj1 Hm') with tid; [|clear Hm'|done..].
  - clear Hm'. revert ms Hm. generalize (sort_Z (List.filter (fun i => Z_in i (ids t)) (ids t))). intros l.
    generalize (tasks_at l t). intros rs. induction rs as [|a rs IH]; intros ms Hm; cbn in Hm; inv_ok; [done|].
    subst. cbn. apply modified_task_refl in Hrun as ->. by apply IH.
  - apply elem_sorted_filter. assert (Z_in tid (ids t) = true) as Ht by (apply ids_get; eauto).
    split; [by apply Z_in_elem | done].
Qed.

(** Publishing the same schedule again reports no change to anyone: when the
    tasks and the edits over them are the same on both sides, the comparison,
    if it completes, is empty. *)
Theorem unchanged_schedule_reports_nothing tasks edits diffs
  (H : compute_per_person_diffs tasks edits tasks (Some edits) = Ok diffs) : diffs = [].
Proof.
  unfold compute_per_person_diffs in H. apply bind_Ok_inv in H as (om & Ho & H).
  rewrite Ho in H. cbn in H. revert diffs H. induction (all_person_ids om om) as [|p pids IH]; intros ds H.
  - by injection H.
  - cbn in H. inv_ok. apply diff_person_refl in Hrun as ->. by apply IH.
Qed.

(** Storing the differences always succeeds and adds one unread notification
    per user of the event linked to a reported person, holding that person's
    changes and nobody else's, in the order of the users; the count is theirs,
    and no other table changes. *)
Theorem stored_changes_reach_their_user (event_id : Z) (diffs : list (json * person_diff)) (w : world) :
  let users := List.filter (linked_to event_id diffs) (t_users (w_db w)) in
  exists rows w',
    store_schedule_changes event_id diffs w = (Ok (Z.of_nat (length users)), w') /\
    w_db w' = (w_db w) <| t_schedule_changes := t_schedule_changes (w_db w) ++ rows |> /\
    w_committed w' = w_committed w /\ w_ledger w' = w_ledger w /\ w_files w' = w_files w /\
    Forall2 (fun u r => sc_user_id r = u_id u /\ sc_event_id r = event_id /\ sc_read_at r = None /\
               exists d, diff_of u diffs = Some d /\ sc_changes_json r = dumps (diff_json d)) users rows.
Proof.
  intros users.
  assert (Forall (fun u => is_some (diff_of u diffs) = true) users) as Hu.
  { apply Forall_forall. intros u Hin. apply list_elem_of_In, filter_In in Hin as [_ Hin].
    unfold linked_to in Hin. by apply andb_true_iff in Hin as [_ Hin]. }
  assert (store_schedule_changes event_id diffs w = store_changes event_id diffs users w) as ->.
  { unfold store_schedule_changes. destruct diffs as [|d ds] eqn:Ed; [|reflexivity].
    destruct users as [|u us]; [reflexivity|]. apply Forall_cons in Hu as [Hu _]. unfold diff_of in Hu.
    by destruct (u_linked_person_id u). }
  clearbody users. revert w. induction Hu as [|u us Hu Hus IH]; intros w.
  - exists [], w. repeat split; [|constructor]. rewrite app_nil_r. by destruct w as [[] ].
  - cbn [store_changes]. destruct (diff_of u diffs) as [d|] eqn:Ed; [|done].
    erewrite Mbind_Ok; [|reflexivity]. erewrite Mbind_Ok; [|reflexivity].
    match goal with |- context [(store_changes _ _ _ ≫= _) ?w1] => destruct (IH w1) as (rows & w' & Hr & Hdb & Hc & Hl & Hf & Hall) end.
    erewrite Mbind_Ok; [|exact Hr]. eexists (_ :: rows), w'. repeat split; [..|constructor; [|exact Hall]].
    + unfold mret, M_ret. do 2 f_equal. cbn [length]. lia.
    + rewrite Hdb. cbn. by rewrite <-app_assoc.
    + by rewrite Hc.
    + by rewrite Hl.
    + by rewrite Hf.
    + cbn. repeat split. by exists d.
Qed.

(** ** Examples *)

Definition people : string := Eval vm_compute in
  dumps (JList [JObj [("person_id", JInt 1); ("name", JStr "Ada")]; JObj [("person_id", JInt 2); ("name", JStr "Bo")]]%string).
Definition task_9 : PublishedTask :=
  (new_PublishedTask (utc_at 1785414896000000)) <| pt_id := 1 |> <| pt_external_task_id := 9 |> <| pt_name := "Lunch" |>
    <| pt_attendees_json := Some people |>.
Definition only_ada : string := Eval vm_compute in
  dumps (JList [JObj [("person_id", JInt 1); ("name", JStr "Ada")]]%string).
Definition edit_9 : TaskEdit :=
  (new_TaskEdit (utc_at 1785414896000000)) <| te_task_id := 1 |> <| te_attendees_json := Some only_ada |>.

Definition toy_diffs : outcome (list (json * person_diff)) :=
  Eval vm_compute in compute_per_person_diffs [task_9] [] [task_9] (Some [(1, edit_9)]).

(** Taking Bo off the task is reported to Bo, and to Ada, whose task has other attendees. *)
Lemma reported_persons_changed_witness :
  exists diffs om nm, toy_diffs = Ok diffs /\ map fst diffs = [JInt 1; JInt 2] /\
    ~ same_tasks (tasks_of (JInt 2) om) (tasks_of (JInt 2) nm).
Proof.
  destruct toy_diffs as [diffs|] eqn:E; [|discriminate E].
  assert (compute_per_person_diffs [task_9] [] [task_9] (Some [(1, edit_9)]) = toy_diffs) as H by (vm_compute; reflexivity).
  rewrite E in H.
  destruct (reported_persons_changed _ _ _ _ _ H) as (om & nm & _ & _ & Hp).
  assert (map fst diffs = [JInt 1; JInt 2]) as Hd by (injection E as <-; reflexivity).
  exists diffs, om, nm. split; [done|]. split; [exact Hd|].
  apply (proj1 (Hp (JInt 2))). rewrite Hd. right. left.
Defined.

Lemma unchanged_schedule_reports_nothing_witness :
  exists d, compute_per_person_diffs [task_9] [(1, edit_9)] [task_9] (Some [(1, edit_9)]) = Ok d /\ d = [].
Proof.
  exists []. assert (compute_per_person_diffs [task_9] [(1, edit_9)] [task_9] (Some [(1, edit_9)]) = Ok []) as H
    by (vm_compute; reflexivity).
  split; [exact H|]. exact (unchanged_schedule_reports_nothing _ _ _ H).
Defined.
