(* ===== verification/Ha.v ===== *)
(** High availability on a server node ([backend/app/core/ha.py],
    [backend/app/core/ha_witness.py], the commit fence of
    [backend/app/db/database.py] and the writer gate of [backend/app/main.py]):
    the control witness observation, the readiness of the node, the public
    status, and the write permit without which nothing is committed.  The
    witness service, the database server's recovery state and the text of a
    Python list or dict are parameters. *)
From Stdlib Require Import ZArith Lia Ascii String SpecFloat.
From stdpp Require Import base list strings.
From S2P Require Import Prelude Text TextFacts Json JsonFacts PyTime PyBuiltins Models EvidenceManifest World.
From S2P Require Import Permissions.

(** [path.read_text(encoding="utf-8")] of a runtime file *)
Definition read_text (path : string) : py string := fun w =>
  (match dget path (w_files w) with
   | None => raise FileNotFoundError path
   | Some (Regular raw) => if utf8_valid raw then Ok raw else raise UnicodeDecodeError "invalid utf-8"
   | Some _ => raise OSError path
   end, w).

(** The exceptions by which an unusable control file is recognised. *)
Definition UNUSABLE : list exn_class := [OSError; ValueError; KeyError; TypeError; JSONDecodeError].

Record HAReadiness : Type := mkHAReadiness { ready : bool; reason : string }.

Definition is_ha_enabled : py bool := gets (fun w => String.eqb (HA_MODE (w_config w)) "ha").

Definition z_stamp (d : datetime) : string := replace "+00:00" "Z" (isoformat d).

Section Node.
Context (repr_container : json -> string).

Definition str_stamp (v : json) : outcome datetime := parse_timestamp (py_str repr_container v).

Definition control_witness_state : py (option (list (string * json))) :=
  c ← gets w_config;
  if negb (HA_CONTROL_WITNESS_REQUIRED c) then
    mret (Some [("holder_node_id", JStr (HA_NODE_ID c)); ("generation", JInt (HA_GENERATION c));
                ("routing_ready", JBool true)]%string)
  else
    try_except (
      raw ← read_text (HA_CONTROL_STATE_PATH c);
      witness ← lift (loads raw);
      observed_at ← lift (v ← subscript "observed_at" witness; str_stamp v);
      if is_naive observed_at then mret None
      else
        now ← utc_now;
        let age := dt_sub now (astimezone_utc observed_at) in
        if negb ((0 <=? age) && (age <=? HA_CONTROL_WITNESS_MAX_AGE_SECONDS c * us_second)) then mret None
        else
          lease_expires_at ← lift (v ← subscript "lease_expires_at" witness; str_stamp v);
          if is_naive lease_expires_at || (instant lease_expires_at <=? instant now) then mret None
          else
            holder ← lift (get_attr "holder_node_id" JNull witness);
            generation ← lift (get_attr "generation" JNull witness);
            match witness, holder, generation with
            | JObj d, JStr h, JInt g =>
                if truthy_str h && (1 <=? g) then mret (Some (dset "holder_node_id" (JStr h) d))
                else mret None
            | _, _, _ => mret None
            end)
    UNUSABLE (fun _ => mret None).

Definition holds (k : string) (v : json) (d : list (string * json)) : bool := py_eq (dget_or_null k d) v.

Definition control_witness_ready : py bool :=
  witness ← control_witness_state;
  node ← setting HA_NODE_ID;
  mret (match witness with
        | Some d => holds "holder_node_id" (JStr node) d && is_true (dget_or_null "routing_ready" d)
        | None => false
        end).

(** ** The public status *)

Definition _public_timestamp (value : json) : outcome (option string) :=
  match value with
  | JStr s =>
      if truthy_str s then
        match parse_timestamp s with
        | Ok parsed => Ok (if is_naive parsed then None else Some (z_stamp (astimezone_utc parsed)))
        | Raise e => if exn_in e [ValueError] then Ok None else Raise e
        end
      else Ok None
  | _ => Ok None
  end.

Definition capabilities (b : bool) : json :=
  JObj [("sign_in", JBool b); ("live_reads", JBool b); ("writes", JBool b); ("public_links", JBool b)]%string.

Definition status_base (mode : string) (observed_at : datetime) : list (string * json) :=
  [("format", JStr "mp-opt-ha-public-status-v1"); ("mode", JStr mode);
   ("observed_at", JStr (z_stamp observed_at));
   ("roles", JObj [("from", JNull); ("to", JNull); ("active", JStr "Primary")]);
   ("capabilities", capabilities true); ("retry_after_seconds", JInt 0);
   ("transition_started_at", JNull); ("earliest_failover_at", JNull); ("recovery_point_at", JNull);
   ("last_recovery", JNull)]%string.

(** [{**base, **update}] *)
Definition status_update (base update : list (string * json)) : list (string * json) := dupdate update base.

Definition dict_or_empty (v : json) : list (string * json) := match v with JObj d => d | _ => [] end.

Definition status_state (transition : list (string * json)) (should_promote routing_ready local_holder : bool)
  : string :=
  let phase := dget_or_null "phase" transition in
  if py_eq phase (JStr "planned_handoff") then if should_promote then "promoting" else "planned_handoff"
  else if py_eq phase (JStr "failover_wait") then "failover_wait"
  else if py_eq phase (JStr "automatic_failover_disabled") then "automatic_failover_disabled"
  else if py_eq phase (JStr "routing") then if should_promote then "promoting" else "routing"
  else if local_holder && routing_ready then "ready"
  else if local_holder then "routing"
  else "standby_shell".

(** [math.ceil] of a duration in seconds *)
Definition ceil_seconds (us : Z) : Z := - (- us / us_second).

Definition retry_after (ready : bool) (earliest : option string) : py Z :=
  if ready then mret 0
  else
    match earliest with
    | None => mret 5
    | Some e =>
        if truthy_str e then
          match parse_timestamp e with
          | Ok due =>
              now ← utc_now;
              mret (Z.max 1 (Z.min 60 (ceil_seconds (dt_sub due now))))
          | Raise x => if exn_in x [ValueError] then mret 5 else lift (Raise x)
          end
        else mret 5
    end.

Definition RECOVERY_KINDS : list string := ["planned_handoff"; "automatic_failover"]%string.
Definition PUBLIC_REASONS : list string :=
  ["planned_handoff"; "automatic_failover"; "node_unreachable"; "application_unhealthy"]%string.

Definition public_recovery (v : json) : outcome json :=
  match v with
  | JObj d =>
      known ← in_frozenset (dget_or_null "kind" d) RECOVERY_KINDS;
      (if negb known then Ok JNull
       else
         completed_at ← _public_timestamp (dget_or_null "completed_at" d);
         Ok (JObj [("kind", dget_or_null "kind" d); ("completed_at", of_opt_str completed_at);
                   ("recovery_seconds", match dget_or_null "recovery_seconds" d with
                                        | JInt z => JInt z
                                        | JBool b => JBool b
                                        | _ => JNull
                                        end)]%string))
  | _ => Ok JNull
  end.

(** The observation the public status is drawn from; it fails when stale. *)
Definition fresh_observation (c : config) : py json :=
  raw ← read_text (HA_CONTROL_STATE_PATH c);
  witness ← lift (loads raw);
  observed ← lift (v ← subscript "observed_at" witness; str_stamp v);
  _ ← throw_if (is_naive observed) ValueError "naive observation";
  now ← utc_now;
  let age := dt_sub now (astimezone_utc observed) in
  _ ← throw_if (negb ((0 <=? age) && (age <=? HA_CONTROL_WITNESS_MAX_AGE_SECONDS c * us_second)))
        ValueError "stale observation";
  mret witness.

Definition status_of_witness (c : config) (base w : list (string * json)) : py (list (string * json)) :=
  let transition := dict_or_empty (dget_or_null "transition" w) in
  let state := status_state transition (is_true (dget_or_null "should_promote" w))
                 (is_true (dget_or_null "routing_ready" w)) (holds "holder_node_id" (JStr (HA_NODE_ID c)) w) in
  let ready := String.eqb state "ready" in
  earliest ← lift (_public_timestamp (dget_or_null "earliest_failover_at" transition));
  retry ← retry_after ready earliest;
  last_recovery ← lift (public_recovery (dget_or_null "last_recovery" w));
  reason_known ← lift (in_frozenset (dget_or_null "reason" transition) PUBLIC_REASONS);
  observed ← lift (_public_timestamp (dget_or_null "observed_at" w));
  started ← lift (_public_timestamp (dget_or_null "started_at" transition));
  point ← lift (_public_timestamp (dget_or_null "recovery_point_at" transition));
  mret (status_update base
    [("state", JStr state);
     ("reason", if (reason_known : bool) then dget_or_null "reason" transition else JNull);
     ("observed_at", match observed with
                     | Some o => if truthy_str o then JStr o else dget_or_null "observed_at" base
                     | None => dget_or_null "observed_at" base
                     end);
     ("roles", JObj [("from", if truthy (dget_or_null "from_node_id" transition) then JStr "Primary" else JNull);
                     ("to", if truthy (dget_or_null "to_node_id" transition) then JStr "Standby" else JNull);
                     ("active", if ready then JStr "Primary" else JNull)]);
     ("capabilities", capabilities ready);
     ("retry_after_seconds", JInt retry);
     ("transition_started_at", of_opt_str started);
     ("earliest_failover_at", of_opt_str earliest);
     ("recovery_point_at", of_opt_str point);
     ("last_recovery", last_recovery)]%string).

Definition public_service_status : py (list (string * json)) :=
  c ← gets w_config;
  ha ← is_ha_enabled;
  observed_at ← utc_now;
  let base := status_base (if (ha : bool) then "ha" else "standalone") observed_at in
  if negb ha then mret (status_update base [("state", JStr "ready"); ("reason", JNull)]%string)
  else
    witness ← try_except (o ← fresh_observation c; mret (Some o)) UNUSABLE (fun _ => mret None);
    match witness with
    | None =>
        mret (status_update base
          [("state", JStr "control_unavailable"); ("reason", JStr "control_unavailable");
           ("capabilities", capabilities false); ("retry_after_seconds", JInt 5)]%string)
    | Some (JObj d) => status_of_witness c base d
    | Some _ => throw AttributeError "object has no attribute 'get'"
    end.

(** ** Readiness *)

(** [SELECT pg_is_in_recovery(), NOT transaction_read_only, ...] *)
Context (pg_is_in_recovery transaction_writable : bool).

Definition assess_readiness : py HAReadiness :=
  c ← gets w_config;
  ha ← is_ha_enabled;
  if negb ha then mret (mkHAReadiness true "standalone")
  else
    witness ← control_witness_state;
    match witness with
    | None => mret (mkHAReadiness false "control-witness-unavailable")
    | Some witness =>
        if negb (holds "holder_node_id" (JStr (HA_NODE_ID c)) witness)
        then mret (mkHAReadiness false "not-lease-holder")
        else if negb (is_true (dget_or_null "routing_ready" witness))
        then mret (mkHAReadiness false "routing-not-ready")
        else
          row ← q_first t_ha_cluster_state (fun r => hc_id r =? 1);
          match row with
          | None => mret (mkHAReadiness false "cluster-state-missing")
          | Some row =>
              if pg_is_in_recovery || negb transaction_writable
              then mret (mkHAReadiness false "database-read-only")
              else if hc_maintenance row then mret (mkHAReadiness false "maintenance")
              else if negb (String.eqb (hc_cluster_id row) (HA_CLUSTER_ID c))
              then mret (mkHAReadiness false "cluster-mismatch")
              else
                generation ← lift (py_int (match dget "generation" witness with Some g => g | None => JInt (-1) end));
                if negb (hc_generation row =? generation)
                then mret (mkHAReadiness false "generation-mismatch")
                else if negb (String.eqb (hc_active_node_id row) (HA_NODE_ID c))
                then mret (mkHAReadiness false "active-node-mismatch")
                else mret (mkHAReadiness true "ready")
          end
    end.
End Node.
