(* ===== verification/HaWitness.v ===== *)
(** The write permit of a node ([backend/app/core/ha_witness.py]), the commit
    fence that requires it ([backend/app/db/database.py]) and the gate before
    every request ([enforce_active_writer] of [backend/app/main.py]).  The
    witness service is a function of the request it receives; a nonce makes
    requests distinct.  Instants are exact microseconds. *)
From Stdlib Require Import ZArith Lia Ascii String SpecFloat.
From stdpp Require Import base list strings.
From S2P Require Import Prelude Text TextFacts Json JsonFacts PyTime PyBuiltins Models EvidenceManifest World.
From S2P Require Import Permissions Ha.

Record http_request : Type := HttpRequest { url : string; data : string; http_headers : list (string * string) }.

(** [urlopen]: a connection or protocol failure, or a response. *)
Inductive http_result : Type := HttpFailure | HttpResponse (status : Z) (body : string).

(** [json.loads(raw)] of a UTF-8 body *)
Definition loads_bytes (raw : string) : outcome json :=
  if utf8_valid raw then loads raw else raise UnicodeDecodeError "invalid utf-8".

(** [json.dumps(payload, separators=(",", ":"))] *)
Definition dumps_payload (v : json) : string := print escape_ascii "," ":" v.

Section Witness.
Context (repr_container : json -> string) (urlopen : http_request -> http_result).

Definition _utc_timestamp (value : string) : outcome Z :=
  parsed ← parse_timestamp value;
  if is_naive parsed then raise ValueError "Witness timestamps must include a timezone" else Ok (instant parsed).

Definition witness_request (c : config) (path : string) (payload : json) (nonce : string) : http_request :=
  HttpRequest (rstrip_slash (HA_WITNESS_URL c) +:+ path) (dumps_payload payload)
    [("Authorization", "Bearer " +:+ HA_NODE_TOKEN c); ("Content-Type", "application/json");
     ("Accept", "application/json"); ("User-Agent", "MP-OPT-HA/1.0"); ("X-MP-OPT-Nonce", nonce)]%string.

Definition parse_response (r : http_result) : outcome (list (string * json)) :=
  match r with
  | HttpFailure => raise HAWritePermitError "The HA lease authority is unavailable"
  | HttpResponse status raw =>
      if negb (status =? 200) then raise HAWritePermitError "The HA lease authority refused the request"
      else if 65536 <? byte_length raw then raise HAWritePermitError "The HA lease response was too large"
      else
        match loads_bytes raw with
        | Ok (JObj d) => Ok d
        | Ok _ => raise HAWritePermitError "The HA lease response was invalid"
        | Raise e =>
            if exn_in e [TypeError; ValueError; JSONDecodeError]
            then raise HAWritePermitError "The HA lease response was invalid" else Raise e
        end
  end.

Definition _witness_call (path : string) (payload : json) : py (list (string * json)) :=
  c ← gets w_config;
  _ ← throw_if (negb (truthy_str (HA_WITNESS_URL c)) || negb (truthy_str (HA_NODE_TOKEN c)))
        HAWritePermitError "The HA lease authority is not configured";
  nonce ← fresh;
  lift (parse_response (urlopen (witness_request c path payload nonce))).

Definition witness_post : string -> json -> py (list (string * json)) := _witness_call.

Definition set_permit (deadline : Z) : py unit := modify (fun w => w <| w_permit := deadline |>).
Definition clear_cached_write_permit : py unit := set_permit 0.

(** The generation in the local lease file, else the configured one. *)
Definition local_generation (c : config) : py Z :=
  try_except (
    raw ← read_text (HA_LEASE_STATE_PATH c);
    local_state ← lift (loads raw);
    v ← lift (get_attr "generation" (JInt (HA_GENERATION c)) local_state);
    lift (py_int v))
  [OSError; TypeError; ValueError; JSONDecodeError] (fun _ => mret (HA_GENERATION c)).

(** [allowed], the holder and the generation, checked in this order. *)
Definition denies (c : config) (generation : Z) (result : list (string * json)) : outcome bool :=
  if negb (is_true (dget_or_null "allowed" result)) then Ok true
  else if negb (holds "holder_node_id" (JStr (HA_NODE_ID c)) result) then Ok true
  else
    g ← py_int (match dget "generation" result with Some g => g | None => JInt (-1) end);
    Ok (negb (g =? generation)).

Definition permit_deadline (result : list (string * json)) : outcome Z :=
  match (v ← subscript "permit_expires_at" (JObj result); _utc_timestamp (py_str repr_container v)) with
  | Ok d => Ok d
  | Raise e =>
      if exn_in e [KeyError; TypeError; ValueError]
      then raise HAWritePermitError "The HA lease response omitted its expiry" else Raise e
  end.

Definition require_write_permit (force_refresh : bool) : py unit :=
  c ← gets w_config;
  if negb (String.eqb (HA_MODE c) "ha") then mret tt
  else
    now ← utc_now;
    cached ← gets w_permit;
    if negb force_refresh && (us_second <=? cached - instant now) then mret tt
    else
      generation ← local_generation c;
      result ← _witness_call ("/v1/clusters/" +:+ HA_CLUSTER_ID c +:+ "/write-permit")
                 (JObj [("node_id", JStr (HA_NODE_ID c)); ("generation", JInt generation)]%string);
      denied ← lift (denies c generation result);
      _ ← throw_if denied HAWritePermitError "This node does not hold the HA writer lease";
      deadline ← lift (permit_deadline result);
      _ ← throw_if (deadline <=? instant now) HAWritePermitError "The HA writer permit has expired";
      set_permit deadline.

(** ** The commit fence *)

(** [session.commit()]: [before_commit] runs first when the session holds a change. *)
Definition fenced_commit (changed : bool) : py unit :=
  _ ← when changed (require_write_permit false);
  commit.

(** The first word of a textual statement, upper case. *)
Definition MUTATING_WORDS : list string :=
  ["INSERT"; "UPDATE"; "DELETE"; "MERGE"; "TRUNCATE"; "CREATE"; "ALTER"; "DROP";
   "WITH"; "CALL"; "GRANT"; "REVOKE"; "COMMENT"; "VACUUM"]%string.
Definition bulk_write (orm_mutation : bool) (first_word : option string) : py unit :=
  when (orm_mutation || match first_word with Some f => str_in f MUTATING_WORDS | None => false end)
    (require_write_permit false).

(** ** The gate before every request *)

Context (pg_is_in_recovery transaction_writable : bool).

Inductive gate : Type := Passed | LiveReadsPaused | WritesPaused | OwnershipUnverified.

Definition GATE_EXEMPT : list string := ["/health"; "/ha/ready"; "/ha/status"]%string.

(** [except Exception] *)
Definition catch_all {A} (m : py A) (h : py A) : py A := fun w =>
  match m w with (Raise _, w') => h w' | r => r end.

Definition enforce_active_writer (r : request) : py gate :=
  ha ← is_ha_enabled;
  if ha && negb (str_in (path r) GATE_EXEMPT) then
    if negb (str_in (method r) WRITE_METHODS) then
      if startswith "/api/v1/governance/public" (path r) then mret Passed
      else
        let root_ha_status_read := String.eqb (method r) "GET" && String.eqb (path r) "/api/v1/admin/ha/status" in
        live ← control_witness_ready repr_container;
        mret (if negb live && negb root_ha_status_read then LiveReadsPaused else Passed)
    else
      readiness ← catch_all (r ← assess_readiness repr_container pg_is_in_recovery transaction_writable; mret (Some r))
                    (mret None);
      match readiness with
      | Some (mkHAReadiness true _) =>
          try_except (_ ← require_write_permit true; mret Passed) [HAWritePermitError]
            (fun _ => mret OwnershipUnverified)
      | _ => mret WritesPaused
      end
  else mret Passed.
End Witness.
