(* ===== verification/HaProps.v ===== *)
(** What a ready node, a fenced commit and the public status guarantee. *)
From Stdlib Require Import ZArith Lia Ascii String SpecFloat.
From stdpp Require Import base list strings.
From S2P Require Import Prelude Text TextFacts Json JsonFacts PyTime PyBuiltins Models EvidenceManifest World.
From S2P Require Import Permissions Ha HaWitness.

(** ** Lemmas *)

Lemma same_state_read_text p : keeps same_state (read_text p).
Proof. by intros w. Qed.
#[export] Hint Resolve same_state_read_text : keeps.

Lemma read_text_inv p w raw w' :
  read_text p w = (Ok raw, w') -> w' = w /\ dget p (w_files w) = Some (Regular raw).
Proof.
  unfold read_text. destruct (dget p (w_files w)) as [[r| |]|]; try done.
  destruct (utf8_valid r); [|done]. by intros [= -> ->].
Qed.

Lemma dset_same {V} k (v : V) d : dget k d = Some v -> dset k v d = d.
Proof.
  induction d as [|[q x] d IH]; cbn; [done|]. destruct (String.eqb_spec k q) as [<-|]; [by intros [= ->]|].
  intros H. by rewrite IH.
Qed.

(** The world with the clock read once more. *)
Definition ticked (w : world) : world := w <| w_ticks := S (w_ticks w) |>.
(** The clock at its next reading. *)
Definition now_of (w : world) : Z := w_clock w (w_ticks w).

Lemma utc_now_run w : utc_now w = (Ok (utc_at (now_of w)), ticked w).
Proof. reflexivity. Qed.

Section Node.
Context (repr_container : json -> string).

(** A value of the control file read as an aware instant. *)
Definition stamped (k : string) (d : list (string * json)) (us : Z) : Prop :=
  exists v t, dget k d = Some v /\ str_stamp repr_container v = Ok t /\ is_naive t = false /\ instant t = us.

(** The control file of the world is an observation of the lease, at most the
    configured age old at instant [now], of a lease that has not expired then. *)
Definition fresh_lease (w : world) (now : Z) (d : list (string * json)) : Prop :=
  exists raw observed expires holder,
    dget (HA_CONTROL_STATE_PATH (w_config w)) (w_files w) = Some (Regular raw) /\ loads raw = Ok (JObj d) /\
    stamped "observed_at" d observed /\ stamped "lease_expires_at" d expires /\
    observed <= now <= observed + HA_CONTROL_WITNESS_MAX_AGE_SECONDS (w_config w) * us_second /\
    now < expires /\ dget "holder_node_id" d = Some (JStr holder) /\ holder <> EmptyString.

Lemma witness_state_inv w d w' :
  control_witness_state repr_container w = (Ok (Some d), w') ->
  (exists g, dget "generation" d = Some (JInt g)) /\
  (HA_CONTROL_WITNESS_REQUIRED (w_config w) = true ->
   fresh_lease w (now_of w) d /\ exists g, dget "generation" d = Some (JInt g) /\ 1 <= g).
Proof.
  intros H. unfold control_witness_state in H. apply Mbind_Ok_inv in H as (c & w1 & [= <- <-] & H).
  destruct (HA_CONTROL_WITNESS_REQUIRED (w_config w)) eqn:Er; cbn [negb] in H.
  2:{ injection H as <- <-. split; [|done]. by eexists. }
  apply try_except_inv in H as [H|(e & w1 & _ & _ & H)]; [|done].
  apply Mbind_Ok_inv in H as (raw & w1 & [-> Hf]%read_text_inv & H).
  apply Mbind_Ok_inv in H as (wit & w1 & [Hl ->]%lift_Ok_inv & H).
  apply Mbind_Ok_inv in H as (obs & w1 & [Ho ->]%lift_Ok_inv & H).
  destruct (is_naive obs) eqn:En; [done|].
  apply Mbind_Ok_inv in H as (now & w1 & Hn & H). rewrite utc_now_run in Hn. injection Hn as <- <-.
  destruct (negb _) eqn:Ea in H; [done|].
  apply Mbind_Ok_inv in H as (lease & w1 & [Hle ->]%lift_Ok_inv & H).
  destruct (is_naive lease || _) eqn:Ex in H; [done|].
  apply Mbind_Ok_inv in H as (holder & w1 & [Hh ->]%lift_Ok_inv & H).
  apply Mbind_Ok_inv in H as (gen & w1 & [Hg ->]%lift_Ok_inv & H).
  destruct wit as [| | | | | |d0]; try done. destruct holder as [| | | |h| |]; try done.
  destruct gen as [| |g| | | |]; try done. destruct (truthy_str h && (1 <=? g)) eqn:Eg; [|done].
  injection H as <- <-.
  apply negb_false_iff, andb_true_iff in Ea as [Ea1%Z.leb_le Ea2%Z.leb_le].
  apply orb_false_iff in Ex as [Ex1 Ex2%Z.leb_gt]. apply andb_true_iff in Eg as [Eh Eg%Z.leb_le].
  cbn in Hh, Hg. destruct (dget "holder_node_id" d0) as [x|] eqn:Eho; [|done]. injection Hh as ->.
  destruct (dget "generation" d0) as [x|] eqn:Ege; [|done]. injection Hg as ->.
  assert (dset "holder_node_id" (JStr h) d0 = d0) as -> by by apply dset_same.
  split; [by eexists|]. intros _. split; [|by exists g].
  apply bind_Ok_inv in Ho as (vo & Hvo & Ho). apply bind_Ok_inv in Hle as (ve & Hve & Hle).
  cbn in Hvo, Hve. destruct (dget "observed_at" d0) as [x|] eqn:E1; [|done]. injection Hvo as ->.
  destruct (dget "lease_expires_at" d0) as [x|] eqn:E2; [|done]. injection Hve as ->.
  exists raw, (instant obs), (instant lease), h. split; [done|]. split; [done|].
  split; [by exists vo, obs|]. split; [by exists ve, lease|].
  unfold dt_sub, astimezone_utc, utc_at, instant in *. cbn in *.
  split; [lia|]. split; [lia|]. split; [done|]. by apply truthy_str_true.
Qed.

Lemma holds_str k s d : holds k (JStr s) d = true <-> dget k d = Some (JStr s).
Proof.
  unfold holds, dget_or_null. destruct (dget k d) as [v|]; [|done]. split.
  - destruct v; try done. cbn. by intros ->%String.eqb_eq.
  - intros [= ->]. cbn. by rewrite String.eqb_refl.
Qed.

Lemma is_true_iff k d : is_true (dget_or_null k d) = true <-> dget k d = Some (JBool true).
Proof.
  unfold dget_or_null. destruct (dget k d) as [v|]; [|done]. split.
  - destruct v as [|[]| | | | |]; try done.
  - by intros [= ->].
Qed.

Lemma same_state_witness : keeps same_state (control_witness_state repr_container).
Proof.
  unfold control_witness_state. apply keeps_bind; [typeclasses eauto|auto with keeps|intros c].
  apply keeps_if; [auto with keeps|]. apply keeps_try; [typeclasses eauto| |auto with keeps].
  repeat first [ apply keeps_bind; [typeclasses eauto|solve [auto with keeps]|intros ?] | apply keeps_if
               | solve [auto with keeps] | case_match ].
Qed.

Context (pg_is_in_recovery transaction_writable : bool).

(** The durable cluster row names this node, of this cluster and generation,
    and the database takes writes. *)
Definition writer_row (w : world) (row : HAClusterState) : Prop :=
  List.find (fun r => hc_id r =? 1) (t_ha_cluster_state (w_db w)) = Some row /\
  pg_is_in_recovery = false /\ transaction_writable = true /\ hc_maintenance row = false /\
  hc_cluster_id row = HA_CLUSTER_ID (w_config w) /\ hc_active_node_id row = HA_NODE_ID (w_config w).

(** What a ready node of a cluster has proved. *)
Definition active_writer (w : world) : Prop :=
  exists row, writer_row w row /\
    if HA_CONTROL_WITNESS_REQUIRED (w_config w) then
      exists d, fresh_lease w (now_of w) d /\
        dget "holder_node_id" d = Some (JStr (HA_NODE_ID (w_config w))) /\
        dget "routing_ready" d = Some (JBool true) /\
        dget "generation" d = Some (JInt (hc_generation row)) /\ 1 <= hc_generation row
    else hc_generation row = HA_GENERATION (w_config w).

Lemma readiness_inv w rs w' :
  HA_MODE (w_config w) = "ha"%string ->
  assess_readiness repr_container pg_is_in_recovery transaction_writable w = (Ok (mkHAReadiness true rs), w') ->
  active_writer w /\ same_state w w'.
Proof.
  intros Hm H. unfold assess_readiness in H. apply Mbind_Ok_inv in H as (c & w1 & [= <- <-] & H).
  apply Mbind_Ok_inv in H as (ha & w1 & [= <- <-] & H). rewrite Hm in H. cbn [negb String.eqb] in H.
  apply Mbind_Ok_inv in H as (o & w1 & Hw & H). pose proof (keeps_run _ _ _ _ _ same_state_witness Hw) as Hs.
  destruct o as [d|]; [|done]. cbn in H.
  destruct (holds "holder_node_id" _ d) eqn:Eh; [|done]. destruct (is_true _) eqn:Er; [|done]. cbn in H.
  apply Mbind_Ok_inv in H as (row & w2 & [= <- <-] & H). pose proof (proj1 Hs) as Hdb.
  destruct (List.find _ (t_ha_cluster_state (w_db w1))) as [row|] eqn:Erow; [|done].
  destruct (pg_is_in_recovery || _) eqn:Ep; [done|]. apply orb_false_iff in Ep as [Ep1 Ep2%negb_false_iff].
  destruct (hc_maintenance row) eqn:Em; [done|]. destruct (String.eqb (hc_cluster_id row) _) eqn:Ec; [|done].
  cbn in H. apply Mbind_Ok_inv in H as (g & w2 & [Hg ->]%lift_Ok_inv & H).
  destruct (hc_generation row =? g) eqn:Eg; [|done]. cbn in H.
  destruct (String.eqb (hc_active_node_id row) _) eqn:Ea; [|done]. injection H as _ <-.
  split; [|exact Hs]. exists row. apply String.eqb_eq in Ec, Ea. apply Z.eqb_eq in Eg. subst g.
  split; [by rewrite Hdb in Erow|].
  apply holds_str in Eh. apply is_true_iff in Er.
  destruct (witness_state_inv w d w1 Hw) as [(g & Hd) Hfresh]. rewrite Hd in Hg. injection Hg as ->.
  destruct (HA_CONTROL_WITNESS_REQUIRED (w_config w)) eqn:Ereq.
  - destruct (Hfresh eq_refl) as (Hf & g' & Hd' & Hg'). exists d. rewrite Hd in Hd'. by injection Hd' as <-.
  - unfold control_witness_state in Hw. apply Mbind_Ok_inv in Hw as (c & w2 & [= <- <-] & Hw).
    rewrite Ereq in Hw. injection Hw as <- _. by injection Hd as ->.
Qed.
End Node.

(** ** The write permit *)

(** The databases are as they were. *)
Definition same_dbs (w w' : world) : Prop :=
  w_db w' = w_db w /\ w_committed w' = w_committed w /\ w_config w' = w_config w /\ w_clock w' = w_clock w.

#[export] Instance same_dbs_preorder : PreOrder same_dbs.
Proof.
  split; [by intros w|]. intros w1 w2 w3 (A & B & C & D) (A' & B' & C' & D').
  unfold same_dbs. by rewrite A', B', C', D'.
Qed.
#[export] Hint Resolve same_dbs_preorder : keeps.

Section Permit.
Context (repr_container : json -> string) (urlopen : http_request -> http_result).

(** The witness answered a request for this node and generation with a permit
    whose expiry is [deadline]. *)
Definition granted (c : config) (generation deadline : Z) : Prop :=
  exists nonce body d,
    urlopen (witness_request c ("/v1/clusters/" +:+ HA_CLUSTER_ID c +:+ "/write-permit")
               (JObj [("node_id", JStr (HA_NODE_ID c)); ("generation", JInt generation)]%string) nonce)
      = HttpResponse 200 body /\
    byte_length body <= 65536 /\ loads body = Ok (JObj d) /\
    dget "allowed" d = Some (JBool true) /\ dget "holder_node_id" d = Some (JStr (HA_NODE_ID c)) /\
    py_int (match dget "generation" d with Some g => g | None => JInt (-1) end) = Ok generation /\
    stamped repr_container "permit_expires_at" d deadline.

Lemma parse_response_inv r d :
  parse_response r = Ok d ->
  exists body, r = HttpResponse 200 body /\ byte_length body <= 65536 /\ loads body = Ok (JObj d).
Proof.
  unfold parse_response. destruct r as [|st body]; [done|].
  destruct (negb _) eqn:Es; [done|]. apply negb_false_iff, Z.eqb_eq in Es as ->.
  destruct (65536 <? _) eqn:Eb; [done|]. apply Z.ltb_ge in Eb.
  unfold loads_bytes. destruct (utf8_valid body); [|done].
  destruct (loads body) as [[| | | | | |x]|e] eqn:El; try done; [|by case_match].
  intros [= <-]. by exists body.
Qed.

Lemma same_dbs_call path payload : keeps same_dbs (_witness_call urlopen path payload).
Proof.
  unfold _witness_call. apply keeps_bind; [typeclasses eauto|by intros w|intros c].
  apply keeps_bind; [typeclasses eauto|auto with keeps|intros u].
  apply keeps_bind; [typeclasses eauto|by intros w|auto with keeps].
Qed.

Lemma same_dbs_local c : keeps same_dbs (local_generation c).
Proof.
  unfold local_generation. apply keeps_try; [typeclasses eauto| |auto with keeps].
  apply keeps_bind; [typeclasses eauto|by intros w|intros raw]. auto 10 with keeps.
Qed.

Lemma same_dbs_permit force : keeps same_dbs (require_write_permit repr_container urlopen force).
Proof.
  unfold require_write_permit. apply keeps_bind; [typeclasses eauto|by intros w|intros c].
  apply keeps_if; [auto with keeps|]. apply keeps_bind; [typeclasses eauto|by intros w|intros now].
  apply keeps_bind; [typeclasses eauto|by intros w|intros cached]. apply keeps_if; [auto with keeps|].
  apply keeps_bind; [typeclasses eauto|apply same_dbs_local|intros g].
  apply keeps_bind; [typeclasses eauto|apply same_dbs_call|intros r].
  repeat (apply keeps_bind; [typeclasses eauto|solve [auto with keeps]|intros ?]). by intros w.
Qed.

(** Nothing is committed. *)
Definition uncommitted (w w' : world) : Prop := w_committed w' = w_committed w.
#[export] Instance uncommitted_preorder : PreOrder uncommitted.
Proof. split; [by intros w|]. intros w1 w2 w3. unfold uncommitted. congruence. Qed.
(** A commit commits the session's database, or, when it is refused, nothing. *)
Lemma fence_inv w o w' : fenced_commit repr_container urlopen true w = (o, w') ->
  match o with Ok _ => w_committed w' = w_db w | Raise _ => uncommitted w w' end /\ w_db w' = w_db w.
Proof.
  unfold fenced_commit, when. intros H. pose proof (same_dbs_permit false w) as (Hd & Hc & _).
  unfold mbind, M_bind in H. destruct (require_write_permit _ _ false w) as [[u|e] w1]; cbn in Hd, Hc.
  - injection H as <- <-. by rewrite <-Hd.
  - by injection H as <- <-.
Qed.

Lemma permit_inv force w w' :
  HA_MODE (w_config w) = "ha"%string ->
  require_write_permit repr_container urlopen force w = (Ok tt, w') ->
  (force = false /\ w_permit w' = w_permit w /\ now_of w + us_second <= w_permit w') \/
  (exists generation, granted (w_config w) generation (w_permit w') /\ now_of w < w_permit w').
Proof.
  intros Hm H. unfold require_write_permit in H. apply Mbind_Ok_inv in H as (c & w1 & [= <- <-] & H).
  rewrite Hm in H. cbn [negb String.eqb] in H.
  apply Mbind_Ok_inv in H as (now & w1 & Hn & H). rewrite utc_now_run in Hn. injection Hn as <- <-.
  apply Mbind_Ok_inv in H as (cached & w1 & [= <- <-] & H).
  assert (instant (utc_at (now_of w)) = now_of w) as Hi by (unfold instant, utc_at; cbn; lia). rewrite Hi in H.
  destruct (negb force && _) eqn:Ef in H.
  - injection H as <-. apply andb_true_iff in Ef as [Ef%negb_true_iff Hc%Z.leb_le].
    left. cbn in *. repeat split; [done|lia].
  - apply Mbind_Ok_inv in H as (g & w1 & Hloc & H). apply Mbind_Ok_inv in H as (d & w2 & Hc & H).
    apply (keeps_run _ _ _ _ _ (same_dbs_local _)) in Hloc as (_ & _ & Hcfg & _).
    apply Mbind_Ok_inv in H as (denied & w3 & [Hden ->]%lift_Ok_inv & H).
    apply Mbind_Ok_inv in H as ([] & w3 & [-> ->]%throw_if_Ok_inv & H).
    apply Mbind_Ok_inv in H as (deadline & w3 & [Hdl ->]%lift_Ok_inv & H).
    apply Mbind_Ok_inv in H as ([] & w3 & [Hexp%Z.leb_gt ->]%throw_if_Ok_inv & H).
    apply modify_Ok_inv in H as ->. right. exists g. cbn. split; [|done].
    apply Mbind_Ok_inv in Hc as (c & w4 & [= <- <-] & Hc). apply Mbind_Ok_inv in Hc as ([] & w4 & [_ ->]%throw_if_Ok_inv & Hc).
    apply Mbind_Ok_inv in Hc as (nonce & w4 & _ & Hc). apply lift_Ok_inv in Hc as [Hr _].
    apply parse_response_inv in Hr as (body & Hu & Hlen & Hl). unfold denies in Hden.
    destruct (is_true _) eqn:Ea; [|done]. destruct (holds _ _ _) eqn:Eh; [|done]. cbn [negb] in Hden.
    apply is_true_iff in Ea. apply holds_str in Eh. apply bind_Ok_inv in Hden as (g' & Hg & [= Heq%negb_false_iff%Z.eqb_eq]).
    subst g'. unfold permit_deadline in Hdl.
    destruct (_ ≫= _) as [dl|e] eqn:Es in Hdl; [|by case_match]. injection Hdl as ->.
    apply bind_Ok_inv in Es as (v & Hv & Ht). unfold _utc_timestamp in Ht.
    apply bind_Ok_inv in Ht as (t & Ht & Hd). destruct (is_naive t) eqn:En; [done|]. injection Hd as <-.
    cbn in Hv. destruct (dget "permit_expires_at" d) as [x|] eqn:Ep; [|done]. injection Hv as ->.
    exists nonce, body, d. rewrite Hcfg in Hu. do 6 (split; [assumption|]). by exists v, t.
Qed.


(** ** The gate *)

Lemma catch_all_inv {A} (m h : py A) w a w1 :
  catch_all m h w = (Ok a, w1) -> m w = (Ok a, w1) \/ exists w2, h w2 = (Ok a, w1).
Proof. unfold catch_all. destruct (m w) as [[x|e] w2]; eauto. Qed.

Context (pg_is_in_recovery transaction_writable : bool).

End Permit.

(** C17: at most one node of a cluster is ready: two nodes with different ids
    that see the same durable cluster row are never both ready to write. *)
Theorem at_most_one_ready_node repr1 repr2 rec1 rec2 rw1 rw2 w1 w2 r1 r2 w1' w2'
  (Hm1 : HA_MODE (w_config w1) = "ha"%string) (Hm2 : HA_MODE (w_config w2) = "ha"%string)
  (Hid : HA_NODE_ID (w_config w1) <> HA_NODE_ID (w_config w2))
  (Hrow : List.find (fun r => hc_id r =? 1) (t_ha_cluster_state (w_db w1)) =
          List.find (fun r => hc_id r =? 1) (t_ha_cluster_state (w_db w2)))
  (H1 : assess_readiness repr1 rec1 rw1 w1 = (Ok r1, w1'))
  (H2 : assess_readiness repr2 rec2 rw2 w2 = (Ok r2, w2')) :
  ready r1 = false \/ ready r2 = false.
Proof.
  destruct r1 as [[] s1]; [|by left]. destruct r2 as [[] s2]; [|by right].
  apply readiness_inv in H1 as [(row1 & Hw1 & _) _]; [|done].
  apply readiness_inv in H2 as [(row2 & Hw2 & _) _]; [|done].
  destruct Hw1 as (E1 & _ & _ & _ & _ & A1), Hw2 as (E2 & _ & _ & _ & _ & A2).
  rewrite E1, E2 in Hrow. injection Hrow as ->. congruence.
Qed.

(** ** Example *)

Definition no_repr : json -> string := fun _ => EmptyString.

Definition node_config (node : string) : config :=
  default_config <| HA_MODE := "ha"%string |> <| HA_NODE_ID := node |> <| HA_CLUSTER_ID := "c1"%string |>
    <| HA_GENERATION := 3 |> <| HA_CONTROL_WITNESS_REQUIRED := true |>
    <| HA_WITNESS_URL := "https://witness.example/"%string |> <| HA_NODE_TOKEN := "token"%string |>.

Definition control_file : string := Eval vm_compute in
  dumps (JObj [("observed_at", JStr "2026-07-30T12:34:50Z"); ("lease_expires_at", JStr "2026-07-30T12:36:00Z");
               ("holder_node_id", JStr "a"); ("generation", JInt 3); ("routing_ready", JBool true)]%string).

Definition permit_answer : string := Eval vm_compute in
  dumps (JObj [("allowed", JBool true); ("holder_node_id", JStr "a"); ("generation", JInt 3);
               ("permit_expires_at", JStr "2026-07-30T12:35:10+00:00")]%string).

Definition toy_witness (r : http_request) : http_result := HttpResponse 200 permit_answer.

Definition cluster_db : database :=
  empty_database <| t_ha_cluster_state := [mkHAClusterState 1 "c1" 3 "a" false] |>.

Definition toy_node (node : string) : world :=
  (toy_world cluster_db) <| w_config := node_config node |>
    <| w_files := [("/runtime/ha-control.json"%string, Regular control_file)] |>.

Definition toy_write : request := Request "POST" "/api/v1/calendar/tasks" [] [].

Lemma run_ok {A} (m : outcome A * world) a : fst m = Ok a -> exists w', m = (Ok a, w').
Proof. destruct m as [o w']. cbn. intros ->. by exists w'. Qed.

Lemma toy_ha node : HA_MODE (w_config (toy_node node)) = "ha"%string.
Proof. reflexivity. Qed.



Lemma at_most_one_ready_node_witness :
  exists r1 r2 w1 w2, assess_readiness no_repr false true (toy_node "a") = (Ok r1, w1) /\ ready r1 = true /\
    assess_readiness no_repr false true (toy_node "b") = (Ok r2, w2) /\ (ready r1 = false \/ ready r2 = false).
Proof.
  destruct (run_ok (assess_readiness no_repr false true (toy_node "a")) (mkHAReadiness true "ready")) as (w1 & E1).
  { vm_compute. reflexivity. }
  destruct (run_ok (assess_readiness no_repr false true (toy_node "b")) (mkHAReadiness false "not-lease-holder"))
    as (w2 & E2).
  { vm_compute. reflexivity. }
  assert (HA_NODE_ID (w_config (toy_node "a")) <> HA_NODE_ID (w_config (toy_node "b"))) as Hid by discriminate.
  eexists _, _, w1, w2. split; [exact E1|]. split; [exact eq_refl|]. split; [exact E2|].
  exact (at_most_one_ready_node no_repr no_repr false false true true (toy_node "a") (toy_node "b") _ _ w1 w2
           (toy_ha "a") (toy_ha "b") Hid eq_refl E1 E2).
Defined.
