(* ===== verification/HaStatus.v ===== *)
(** The public service status discloses nothing of the control plane. *)
From Stdlib Require Import ZArith Lia Ascii String SpecFloat.
From stdpp Require Import base list strings.
From S2P Require Import Prelude Text TextFacts Json JsonFacts PyTime PyBuiltins Models EvidenceManifest World.
From S2P Require Import Permissions Ha HaProps.

(** The words a status may contain. *)
Definition STATUS_WORDS : list string :=
  ["mp-opt-ha-public-status-v1"; "ha"; "standalone"; "Primary"; "Standby"; "ready"; "control_unavailable";
   "promoting"; "planned_handoff"; "failover_wait"; "automatic_failover_disabled"; "routing"; "standby_shell";
   "automatic_failover"; "node_unreachable"; "application_unhealthy"]%string.

(** A word of the format, or an instant written in UTC. *)
Definition public_text (s : string) : Prop :=
  str_in s STATUS_WORDS = true \/ exists d, tzoff d = utc /\ s = z_stamp d.
Definition public_value (v : json) : Prop := Forall public_text (text_leaves v).
Definition public_dict (d : list (string * json)) : Prop := Forall (fun kv => public_value kv.2) d.

Lemma public_dict_obj d : public_dict d -> public_value (JObj d).
Proof.
  unfold public_dict, public_value. induction 1 as [|kv d H _ IH]; cbn; [constructor|].
  by apply Forall_app.
Qed.

Lemma public_dset k v d : public_value v -> public_dict d -> public_dict (dset k v d).
Proof.
  intros Hv. induction 1 as [|[q x] d Hx Hd IH]; cbn; [by repeat constructor|].
  destruct (String.eqb k q); by constructor.
Qed.

Lemma public_update base update :
  public_dict base -> public_dict update -> public_dict (status_update base update).
Proof.
  intros Hb Hu. unfold status_update, dupdate. revert base Hb.
  induction Hu as [|kv u Hx Hu IH]; intros base Hb; cbn; [done|]. by apply IH, public_dset.
Qed.

Lemma public_word s : str_in s STATUS_WORDS = true -> public_value (JStr s).
Proof. intros H. constructor; [by left | constructor]. Qed.
Lemma public_stamp d : tzoff d = utc -> public_value (JStr (z_stamp d)).
Proof. intros H. constructor; [right; by exists d | constructor]. Qed.
Lemma public_null : public_value JNull.
Proof. constructor. Qed.
Lemma public_int z : public_value (JInt z).
Proof. constructor. Qed.
Lemma public_capabilities b : public_value (capabilities b).
Proof. constructor. Qed.

Create HintDb public discriminated.
#[export] Hint Resolve public_null public_int public_capabilities : public.
#[export] Hint Extern 2 (public_value (JStr _)) => apply public_word; reflexivity : public.

(** Prove a dictionary public value by value. *)
Ltac public_fields :=
  repeat match goal with
         | |- public_dict [] => constructor
         | |- public_dict (_ :: _) => apply Forall_cons; split; cbn [snd]
         | |- Forall _ [] => constructor
         | |- Forall (fun kv => public_value _) _ => apply Forall_cons; split; cbn [snd]
         | |- public_value (JObj _) => apply public_dict_obj
         | |- public_value _ => solve [eauto with public]
         end.

Lemma public_timestamp_public v o : _public_timestamp v = Ok o -> public_value (of_opt_str o).
Proof.
  unfold _public_timestamp. destruct v as [| | | |s| |]; try (intros [= <-]; apply public_null).
  destruct (truthy_str s); [|intros [= <-]; apply public_null].
  destruct (parse_timestamp s) as [t|e]; [|destruct (exn_in e _); [intros [= <-]; apply public_null|done]].
  intros [= <-]. destruct (is_naive t); [apply public_null|]. by apply public_stamp.
Qed.

Lemma public_timestamp_text v s : _public_timestamp v = Ok (Some s) -> public_value (JStr s).
Proof. intros H. by apply (public_timestamp_public v (Some s)). Qed.

(** A membership test in a set of public words admits only those. *)
Lemma frozenset_public v l b :
  (forall s, str_in s l = true -> str_in s STATUS_WORDS = true) -> in_frozenset v l = Ok b ->
  public_value (if b then v else JNull).
Proof.
  intros Hl. unfold in_frozenset. destruct v as [| | | |s| |]; try (intros [= <-]; apply public_null); try done.
  intros [= <-]. destruct (str_in s l) eqn:E; [|apply public_null]. by apply public_word, Hl.
Qed.

Lemma str_in_sub l l' : forallb (fun s => str_in s l') l = true -> forall s, str_in s l = true -> str_in s l' = true.
Proof.
  intros H s Hs. unfold str_in in Hs. apply existsb_exists in Hs as (x & Hx & ->%String.eqb_eq).
  rewrite forallb_forall in H. by apply H.
Qed.

Lemma public_recovery_public v r : public_recovery v = Ok r -> public_value r.
Proof.
  unfold public_recovery. destruct v as [| | | | | |d]; try (intros [= <-]; apply public_null).
  intros H. apply bind_Ok_inv in H as (known & Hk & H).
  apply frozenset_public in Hk; [|by apply str_in_sub].
  destruct known; cbn [negb] in H; [|injection H as <-; apply public_null].
  apply bind_Ok_inv in H as (c & Hc & [= <-]). apply public_timestamp_public in Hc.
  apply public_dict_obj. public_fields. destruct (dget_or_null "recovery_seconds" d); constructor.
Qed.

Lemma state_word t b1 b2 b3 : str_in (status_state t b1 b2 b3) STATUS_WORDS = true.
Proof. unfold status_state. repeat case_match; reflexivity. Qed.

Lemma public_base mode d : str_in mode STATUS_WORDS = true -> tzoff d = utc -> public_dict (status_base mode d).
Proof.
  intros Hm Hd. unfold status_base. public_fields; solve [by apply public_word | by apply public_stamp].
Qed.

Lemma status_update_get k base u :
  dget k (status_update base u) = match dget k (List.rev u) with Some v => Some v | None => dget k base end.
Proof.
  unfold status_update, dupdate. rewrite <-fold_left_rev_right.
  induction (List.rev u) as [|[q v] l IH]; cbn; [done|]. rewrite dget_dset, IH.
  by destruct (String.eqb k q).
Qed.

Section Status.
Context (repr_container : json -> string).

Lemma status_of_witness_public c base d w r w' :
  public_dict base -> status_of_witness c base d w = (Ok r, w') -> public_dict r.
Proof.
  intros Hb H. unfold status_of_witness in H.
  apply Mbind_Ok_inv in H as (earliest & w1 & [He ->]%lift_Ok_inv & H).
  apply Mbind_Ok_inv in H as (retry & w1 & _ & H).
  apply Mbind_Ok_inv in H as (recovery & w2 & [Hr ->]%lift_Ok_inv & H).
  apply Mbind_Ok_inv in H as (known & w2 & [Hk ->]%lift_Ok_inv & H).
  apply Mbind_Ok_inv in H as (observed & w2 & [Ho ->]%lift_Ok_inv & H).
  apply Mbind_Ok_inv in H as (started & w2 & [Hs ->]%lift_Ok_inv & H).
  apply Mbind_Ok_inv in H as (point & w2 & [Hp ->]%lift_Ok_inv & H).
  apply mret_Ok_inv in H as [-> ->]. apply public_update; [done|].
  apply public_timestamp_public in He, Hs, Hp. apply public_recovery_public in Hr.
  apply frozenset_public in Hk; [|by apply str_in_sub].
  assert (public_value (dget_or_null "observed_at" base)) as Hbase.
  { unfold dget_or_null. destruct (dget "observed_at" base) eqn:E; [|apply public_null].
    apply dget_elem in E. unfold public_dict in Hb. rewrite Forall_forall in Hb. exact (Hb _ E). }
  public_fields.
  - apply public_word, state_word.
  - destruct observed as [o|]; [|done]. destruct (truthy_str o); [|done]. by apply public_timestamp_text in Ho.
  - destruct (truthy _); public_fields.
  - destruct (truthy _); public_fields.
  - destruct (String.eqb (status_state _ _ _ _) "ready"); public_fields.
Qed.

Lemma fresh_observation_inv w c d w' :
  fresh_observation repr_container c w = (Ok (JObj d), w') ->
  exists raw observed n, dget (HA_CONTROL_STATE_PATH c) (w_files w) = Some (Regular raw) /\
    loads raw = Ok (JObj d) /\ stamped repr_container "observed_at" d observed /\
    observed <= w_clock w n <= observed + HA_CONTROL_WITNESS_MAX_AGE_SECONDS c * us_second.
Proof.
  intros H. unfold fresh_observation in H.
  apply Mbind_Ok_inv in H as (raw & w1 & [-> Hf]%read_text_inv & H).
  apply Mbind_Ok_inv in H as (wit & w1 & [Hl ->]%lift_Ok_inv & H).
  apply Mbind_Ok_inv in H as (obs & w1 & [Ho ->]%lift_Ok_inv & H).
  apply Mbind_Ok_inv in H as ([] & w1 & [Hn ->]%throw_if_Ok_inv & H).
  apply Mbind_Ok_inv in H as (now & w1 & Hnow & H). rewrite utc_now_run in Hnow. injection Hnow as <- <-.
  apply Mbind_Ok_inv in H as ([] & w1 & [Ha ->]%throw_if_Ok_inv & H). apply mret_Ok_inv in H as [<- ->].
  apply negb_false_iff, andb_true_iff in Ha as [Ha1%Z.leb_le Ha2%Z.leb_le].
  apply bind_Ok_inv in Ho as (v & Hv & Ho). cbn in Hv. destruct (dget "observed_at" d) as [x|] eqn:E; [|done].
  injection Hv as ->. exists raw, (instant obs), (w_ticks w). do 2 (split; [done|]).
  split; [by exists v, obs|]. unfold dt_sub, astimezone_utc, utc_at, instant, now_of in *. cbn in *. lia.
Qed.

Lemma capable_holder c base cw w d w' :
  status_of_witness c base cw w = (Ok d, w') -> dget "capabilities" d = Some (capabilities true) ->
  holds "holder_node_id" (JStr (HA_NODE_ID c)) cw = true /\ is_true (dget_or_null "routing_ready" cw) = true.
Proof.
  intros H Hc. unfold status_of_witness in H. set (st := status_state _ _ _ _) in H.
  apply Mbind_Ok_inv in H as (earliest & w1 & _ & H). apply Mbind_Ok_inv in H as (retry & w2 & _ & H).
  apply Mbind_Ok_inv in H as (recovery & w3 & _ & H). apply Mbind_Ok_inv in H as (known & w4 & _ & H).
  apply Mbind_Ok_inv in H as (observed & w5 & _ & H). apply Mbind_Ok_inv in H as (started & w6 & _ & H).
  apply Mbind_Ok_inv in H as (point & w7 & _ & H). apply mret_Ok_inv in H as [-> _].
  rewrite status_update_get in Hc. cbn [List.rev app] in Hc.
  injection Hc as E. apply String.eqb_eq in E. subst st. unfold status_state in E.
  repeat (case_match; try discriminate E). by apply andb_true_iff.
Qed.

(** The public status discloses no control detail and promises service only
    with the lease: every text in it is a word of the format or an instant in
    UTC, whatever the control file holds, so no node id, generation or
    witness text reaches the public; and a cluster node announces its
    capabilities only from a fresh observation in which it is the routed
    lease holder. *)
Theorem public_status_sanitised w d w' 
  (H : public_service_status repr_container w = (Ok d, w')) :
  public_dict d /\
  (HA_MODE (w_config w) = "ha"%string -> dget "capabilities" d = Some (capabilities true) ->
   exists raw c, dget (HA_CONTROL_STATE_PATH (w_config w)) (w_files w) = Some (Regular raw) /\
     loads raw = Ok (JObj c) /\ dget "holder_node_id" c = Some (JStr (HA_NODE_ID (w_config w))) /\
     dget "routing_ready" c = Some (JBool true) /\
     exists observed n, stamped repr_container "observed_at" c observed /\
       observed <= w_clock w n <= observed + HA_CONTROL_WITNESS_MAX_AGE_SECONDS (w_config w) * us_second).
Proof.
  unfold public_service_status in H. apply Mbind_Ok_inv in H as (c & w1 & [= <- <-] & H).
  apply Mbind_Ok_inv in H as (ha & w1 & [= <- <-] & H).
  apply Mbind_Ok_inv in H as (now & w1 & Hn & H). rewrite utc_now_run in Hn. injection Hn as <- <-.
  set (base := status_base _ _) in H.
  assert (public_dict base) as Hb by (apply public_base; [destruct (String.eqb _ _); reflexivity|done]).
  destruct (String.eqb_spec (HA_MODE (w_config w)) "ha") as [Em|Em]; cbn [negb] in H.
  2:{ apply mret_Ok_inv in H as [-> _]. split; [|done]. apply public_update; [done|]. public_fields. }
  apply Mbind_Ok_inv in H as (o & w1 & Ho & H). apply try_except_inv in Ho as [Ho|(e & w2 & _ & _ & [= <- <-])].
  2:{ apply mret_Ok_inv in H as [-> _]. split; [apply public_update; [done|]; public_fields|].
      intros _ Hc. rewrite status_update_get in Hc. discriminate Hc. }
  apply Mbind_Ok_inv in Ho as (wit & w2 & Ho & [= <- <-]).
  destruct wit as [| | | | | |cw]; try done. split; [by eapply status_of_witness_public|]. intros _ Hc.
  apply fresh_observation_inv in Ho as (raw & observed & n & Hf & Hl & Hs & Hn).
  apply capable_holder in H; [|done]. destruct H as [Hh Hr].
  exists raw, cw. split; [done|]. split; [done|]. split; [by apply holds_str|]. split; [by apply is_true_iff|].
  by exists observed, n.
Qed.
End Status.

(** ** Example *)

Definition toy_status : outcome (list (string * json)) := Eval vm_compute in
  fst (public_service_status no_repr (toy_node "a")).

Lemma public_status_sanitised_witness :
  exists d w', public_service_status no_repr (toy_node "a") = (Ok d, w') /\ public_dict d /\
    dget "capabilities" d = Some (capabilities true).
Proof.
  destruct toy_status as [d|e] eqn:E; [|discriminate E].
  destruct (run_ok (public_service_status no_repr (toy_node "a")) d) as (w' & H).
  { rewrite <-E. vm_compute. reflexivity. }
  exists d, w'. split; [exact H|]. split; [exact (proj1 (public_status_sanitised no_repr (toy_node "a") d w' H))|].
  injection E as <-. reflexivity.
Defined.
