(* ===== verification/HaReplication.v ===== *)
(** Requests to replicate a protected mutation and their receipts
    ([backend/app/core/ha_replication.py]).  The queue is a directory shared with
    the host's worker, which reads the files that are not hidden; any file
    operation on it may fail, and a failing write may leave a partial file.
    Logging is left out. *)
From Stdlib Require Import ZArith Lia Ascii String SpecFloat.
From stdpp Require Import base list strings.
From S2P Require Import Prelude Text TextFacts Json JsonFacts Sha256 PyTime PyBuiltins Models.
From S2P Require Import EvidenceManifest World Sessions Ha HaWitness.

Definition word_tail : list (ascii * ascii) := [("A", "Z"); ("a", "z"); ("0", "9"); (".", "."); ("_", "_"); (":", ":"); ("-", "-")]%char.
Definition word_head : regex := cls [("A", "Z"); ("a", "z"); ("0", "9")]%char.
Definition _IDEMPOTENCY_KEY : regex := seq_r word_head (rep_range 15 127 (cls word_tail)).
Definition BUNDLE_ID : regex := seq_r word_head (rep_opt 127 (cls word_tail)).
Definition _SAFE_CODE : regex :=
  seq_r (cls [("a", "z")]%char) (rep_opt 63 (cls [("a", "z"); ("0", "9"); ("_", "_")]%char)).
Definition TYPE_NAME : regex :=
  seq_r (cls [("a", "z")]%char)
    (rep_range 1 63 (cls [("a", "z"); ("0", "9"); ("_", "_"); (".", "."); ("-", "-")]%char)).
Definition BUNDLE_SHA : regex := rep 64 hex_lower.
Definition _FINAL_STATES : list string := ["accepted"; "failed"; "cancelled"]%string.

(** ** File operations on the queue *)

Definition file_op (on_fault : fault -> dir -> dir) (op : dir -> outcome dir) : py unit := fun w =>
  let w := w <| w_io := S (w_io w) |> in
  match w_faults w (pred (w_io w)) with
  | Some f => (Raise (fault_exn f), w <| w_queue := on_fault f (w_queue w) |>)
  | None =>
      match op (w_queue w) with
      | Ok d => (Ok tt, w <| w_queue := d |>)
      | Raise e => (Raise e, w)
      end
  end.

Definition write_text (name content : string) : py unit :=
  file_op (fun f d => match fault_partial f with Some p => dset name (Regular p) d | None => d end)
    (fun d => Ok (dset name (Regular content) d)).
Definition chmod (name : string) : py unit :=
  file_op (fun _ d => d) (fun d => if has_key name d then Ok d else raise FileNotFoundError name).
(** [source.replace(target)] is atomic. *)
Definition replace_file (source target : string) : py unit :=
  file_op (fun _ d => d)
    (fun d => match dget source d with
              | Some n => Ok (dset target n (dpop source d))
              | None => raise FileNotFoundError source
              end).
Definition unlink_file (missing_ok : bool) (name : string) : py unit :=
  file_op (fun _ d => d)
    (fun d => if has_key name d || missing_ok then Ok (dpop name d) else raise FileNotFoundError name).

(** [try: m finally: f], for an [f] that raises nothing *)
Definition finally {A} (m : py A) (f : py unit) : py A := fun w =>
  let '(r, w1) := m w in (r, snd (f w1)).

(** [try: m except OSError: pass] *)
Definition swallow_os (m : py unit) : py unit := try_except m [OSError] (fun _ => mret tt).

(** ** Operations *)

Definition protection_marker (operation : HAProtectionOperation) : list (string * json) :=
  let marker := [("operation_id", JStr (ho_id operation)); ("mutation_sequence", JInt (ho_mutation_sequence operation));
                 ("operation_type", JStr (ho_operation_type operation));
                 ("resource_type", JStr (ho_resource_type operation));
                 ("resource_id", of_opt_str (ho_resource_id operation))]%string in
  marker ++ [("marker_sha256"%string, JStr (sha256 (dumps_ascii_compact_sorted (JObj marker))))].

Definition has_idempotency_key (key : string) (o : HAProtectionOperation) : bool :=
  String.eqb (ho_idempotency_key o) key.

Definition find_protection_operation (idempotency_key : string) : py (option HAProtectionOperation) :=
  _ ← throw_if (negb (fullmatch _IDEMPOTENCY_KEY idempotency_key)) ValueError "invalid_idempotency_key";
  q_first t_ha_protection_operations (has_idempotency_key idempotency_key).

Definition protection_queue_error : py (option string) := fun w =>
  (Ok (if negb (String.eqb (HA_MODE (w_config w)) "ha") then None
       else match w_queue_kind w with
            | QSymlink => Some "replication_queue_unsafe"%string
            | QMissing => Some "replication_queue_missing"%string
            | QFile => Some "replication_queue_unsafe"%string
            | QUnreadable => Some "replication_queue_unsafe"%string
            | QDirectory writable => if writable then None else Some "replication_queue_not_writable"%string
            end), w).

(** The bounded code of a failed file operation. *)
Definition io_code (e : exn) : option string :=
  if exn_in e [PermissionError] then Some "replication_queue_not_writable"%string
  else if exn_in e [FileNotFoundError] then Some "replication_queue_missing"%string
  else if exn_in e [OSError] then Some "replication_queue_atomic_write_failed"%string
  else None.

Definition require_protection_queue_ready : py unit :=
  code ← protection_queue_error;
  match code with
  | Some code => throw HAProtectionQueueError code
  | None =>
      probe_id ← fresh;
      let target := "." +:+ probe_id +:+ ".permission-probe" in
      let temporary := target +:+ ".tmp" in
      finally
        (try_except
           (_ ← write_text temporary ("{}" +:+ String (chr 10) EmptyString);
            _ ← chmod temporary;
            _ ← replace_file temporary target;
            unlink_file false target)
           [OSError]
           (fun e => match io_code e with
                     | Some code => throw HAProtectionQueueError code
                     | None => lift (Raise e)
                     end))
        (_ ← swallow_os (unlink_file true temporary); swallow_os (unlink_file true target))
  end.

(** [str(x)[:n]] *)
Definition take_points (n : nat) (s : string) : string := join EmptyString (map encode (firstn n (code_points s))).

(** [nextval('ha_protection_mutation_sequence')] *)
Definition next_mutation_sequence : py Z := fun w =>
  (Ok (w_next_id w), w <| w_next_id := w_next_id w + 1 |>).

Section Witness.
Context (urlopen : http_request -> http_result).

Definition create_protection_operation (idempotency_key operation_type resource_type : string)
  (resource_id : option string) : py (option HAProtectionOperation) :=
  c ← gets w_config;
  if negb (String.eqb (HA_MODE c) "ha") then mret None
  else
    existing ← find_protection_operation idempotency_key;
    match existing with
    | Some e => mret (Some e)
    | None =>
        _ ← require_protection_queue_ready;
        _ ← throw_if (negb (fullmatch TYPE_NAME operation_type)) ValueError "invalid_operation_type";
        _ ← throw_if (negb (fullmatch TYPE_NAME resource_type)) ValueError "invalid_resource_type";
        mutation_sequence ← next_mutation_sequence;
        id ← fresh;
        now ← utc_now;
        operation ← q_insert t_ha_protection_operations (fun _ =>
          (new_HAProtectionOperation now) <| ho_id := id |> <| ho_idempotency_key := idempotency_key |>
            <| ho_operation_type := operation_type |> <| ho_resource_type := resource_type |>
            <| ho_resource_id := option_map (take_points 128) resource_id |>
            <| ho_mutation_sequence := mutation_sequence |>
            <| ho_state := "pending"%string |> <| ho_stage := "queued"%string |>);
        _ ← witness_post urlopen ("/v1/clusters/" +:+ HA_CLUSTER_ID c +:+ "/critical-begin")
              (JObj [("node_id", JStr (HA_NODE_ID c)); ("operation_id", JStr (ho_id operation));
                     ("mutation_sequence", JInt (ho_mutation_sequence operation))]%string);
        mret (Some operation)
    end.

Definition cancel_uncommitted_protection (operation : option HAProtectionOperation) : py unit :=
  c ← gets w_config;
  match operation with
  | Some o =>
      if negb (String.eqb (HA_MODE c) "ha") then mret tt
      else
        try_except
          (_ ← witness_post urlopen ("/v1/clusters/" +:+ HA_CLUSTER_ID c +:+ "/critical-cancel")
                 (JObj [("node_id", JStr (HA_NODE_ID c)); ("operation_id", JStr (ho_id o))]%string);
           mret tt)
          [HAWritePermitError] (fun _ => mret tt)
  | None => mret tt
  end.

(** ** Queueing *)

(** The code of the failure of [m], or none. *)
Definition queue_code (m : py unit) : py (option string) :=
  try_except (_ ← m; mret None) [HAProtectionQueueError; OSError]
    (fun e => if exn_in e [HAProtectionQueueError] then mret (Some (exn_msg e))
              else match io_code e with Some c => mret (Some c) | None => lift (Raise e) end).

Definition with_assertion (privacy_assertion : option json) (document : list (string * json)) : list (string * json) :=
  match privacy_assertion with Some a => dset "privacy_assertion" a document | None => document end.

Definition request_text (document : list (string * json)) : string :=
  dumps_sorted (JObj document) +:+ String (chr 10) EmptyString.

Definition operation_document (operation : HAProtectionOperation) (now : datetime)
  (privacy_assertion : option json) : list (string * json) :=
  with_assertion privacy_assertion
    [("format", JStr "mp-opt-replication-request-v2"); ("job_id", JStr (ho_id operation));
     ("reason", JStr (ho_operation_type operation)); ("critical", JBool true);
     ("created_at", JStr (isoformat now)); ("operation", JObj (protection_marker operation))]%string.

(** Write a hidden temporary file, then move it over the target. *)
Definition publish_file (temporary target content : string) : py unit :=
  _ ← write_text temporary content;
  _ ← chmod temporary;
  replace_file temporary target.

Definition queue_protection_operation (operation : option HAProtectionOperation)
  (privacy_assertion : option json) : py (option string) :=
  match operation with
  | None => mret None
  | Some operation =>
      not_ready ← queue_code require_protection_queue_ready;
      match not_ready with
      | Some code => mret (Some code)
      | None =>
          unique ← fresh;
          now ← utc_now;
          let temporary := "." +:+ ho_id operation +:+ "." +:+ unique +:+ ".tmp" in
          failed ← queue_code (publish_file temporary (ho_id operation +:+ ".json")
                     (request_text (operation_document operation now privacy_assertion)));
          match failed with
          | None => mret None
          | Some code => _ ← swallow_os (unlink_file true temporary); mret (Some code)
          end
      end
  end.

Definition request_ha_replication (reason : string) (critical : bool) (privacy_assertion : option json)
  : py (option string) :=
  c ← gets w_config;
  if negb (String.eqb (HA_MODE c) "ha") then mret None
  else
    job_id ← fresh;
    try_except
      (_ ← require_protection_queue_ready;
       unique ← fresh;
       now ← utc_now;
       let document := with_assertion privacy_assertion
         [("format", JStr "mp-opt-replication-request-v1"); ("job_id", JStr job_id);
          ("reason", JStr reason); ("critical", JBool critical); ("created_at", JStr (isoformat now))]%string in
       _ ← publish_file ("." +:+ job_id +:+ "." +:+ unique +:+ ".tmp") (job_id +:+ ".json") (request_text document);
       mret (Some job_id))
      [HAProtectionQueueError; OSError] (fun _ => mret None).
End Witness.

(** ** Receipts *)

Definition RECEIPT_FIELDS : list string :=
  ["format"; "operation_id"; "state"; "stage"; "mutation_sequence"; "bundle_id"; "bundle_sha256"; "generation";
   "error_code"; "updated_at"; "accepted_at"]%string.
Definition RECEIPT_REQUIRED : list string :=
  ["format"; "operation_id"; "state"; "stage"; "mutation_sequence"; "updated_at"]%string.
Definition RECEIPT_STATES : list string := ["pending"; "accepted"; "indeterminate"; "failed"]%string.
Definition RECEIPT_STAGES : list string :=
  ["queued"; "capturing"; "transferring"; "verifying"; "accepted"; "attention_required"]%string.

(** [set(document) - allowed or not required.issubset(document) or
    document.get("format") != "mp-opt-ha-operation-result-v1"] *)
Definition malformed (document : json) : outcome bool :=
  l ← elements document;
  (if negb (forallb (fun v => existsb (fun s => py_eq v (JStr s)) RECEIPT_FIELDS) l) then Ok true
   else if negb (forallb (fun s => existsb (fun v => py_eq v (JStr s)) l) RECEIPT_REQUIRED) then Ok true
   else
     format ← get_attr "format" JNull document;
     Ok (negb (py_eq format (JStr "mp-opt-ha-operation-result-v1")))).

Record acceptance : Type := mkAcceptance {
  a_bundle_id : string; a_bundle_sha256 : string; a_generation : Z; a_accepted_at : datetime
}.

Definition parent_dir (path : string) : string :=
  match List.rev (split_on "/" path) with
  | _ :: rest => join "/" (List.rev rest)
  | [] => EmptyString
  end.
Definition receipt_path (c : config) (id : string) : string :=
  parent_dir (HA_REPLICATION_REQUEST_DIR c) +:+ "/ha-operation-results/" +:+ id +:+ ".json".

Section Receipts.
Context (repr_container : json -> string).

(** The accepted bundle a receipt names: [None] where a field is unusable. *)
Definition acceptance_of (document : json) : outcome (option acceptance) :=
  bundle_id ← get_attr "bundle_id" JNull document;
  bundle_hash ← get_attr "bundle_sha256" JNull document;
  generation ← get_attr "generation" JNull document;
  match bundle_id, bundle_hash, generation with
  | JStr b, JStr h, JInt g =>
      if fullmatch BUNDLE_ID b && fullmatch BUNDLE_SHA h && (1 <=? g) then
        v ← get_attr "accepted_at" (JStr EmptyString) document;
        match parse_timestamp (py_str repr_container v) with
        | Ok t => Ok (if is_naive t then None else Some (mkAcceptance b h g t))
        | Raise e => if exn_in e [ValueError] then Ok None else Raise e
        end
      else Ok None
  | _, _, _ => Ok None
  end.

(** What a receipt says of an operation: its new state, stage and error code,
    and the acceptance where the state is accepted. *)
Record verdict : Type := mkVerdict {
  v_state : string; v_stage : string; v_error_code : option string; v_accepted : option acceptance
}.

Definition judge (operation : HAProtectionOperation) (document : json) : outcome (option verdict) :=
  bad ← malformed document;
  if (bad : bool) then Ok None
  else
    operation_id ← get_attr "operation_id" JNull document;
    mutation_sequence ← get_attr "mutation_sequence" JNull document;
    if negb (py_eq operation_id (JStr (ho_id operation))) then Ok None
    else if negb (py_eq mutation_sequence (JInt (ho_mutation_sequence operation))) then Ok None
    else
      state ← get_attr "state" JNull document;
      stage ← get_attr "stage" JNull document;
      state_known ← in_frozenset state RECEIPT_STATES;
      if negb state_known then Ok None
      else
        stage_known ← in_frozenset stage RECEIPT_STAGES;
        if negb stage_known then Ok None
        else
          error_code ← get_attr "error_code" JNull document;
          match state, stage, (match error_code with
                               | JNull => Some None
                               | JStr c => if fullmatch _SAFE_CODE c then Some (Some c) else None
                               | _ => None
                               end) with
          | JStr state, JStr stage, Some error_code =>
              if String.eqb state "accepted" then
                accepted ← acceptance_of document;
                Ok (match accepted with
                    | Some a => Some (mkVerdict state stage error_code (Some a))
                    | None => None
                    end)
              else Ok (Some (mkVerdict state stage error_code None))
          | _, _, _ => Ok None
          end.

Definition apply_verdict (v : verdict) (o : HAProtectionOperation) : HAProtectionOperation :=
  let o := o <| ho_state := v_state v |> <| ho_stage := v_stage v |> <| ho_error_code := v_error_code v |> in
  match v_accepted v with
  | Some a =>
      o <| ho_accepted_bundle_id := Some (a_bundle_id a) |> <| ho_accepted_bundle_sha256 := Some (a_bundle_sha256 a) |>
        <| ho_accepted_generation := Some (a_generation a) |> <| ho_accepted_at := Some (a_accepted_at a) |>
  | None => o
  end.

Definition same_operation (operation o : HAProtectionOperation) : bool := String.eqb (ho_id o) (ho_id operation).

(** The delivery-pending activation links of an event's users. *)
Definition link_of_event (users : list User) (event_id : Z) (l : ActivationLink) : bool :=
  al_delivery_pending l &&
  existsb (fun u => (u_id u =? al_user_id l) && eq_opt_Z (u_event_id u) (Some event_id)) users.

Definition release_links (operation : HAProtectionOperation) : py unit :=
  match ho_resource_id operation with
  | Some r =>
      if String.eqb (ho_operation_type operation) "publisher-secret-import" && truthy_str r then
        event_id ← lift (int_of_str r);
        users ← q_all t_users (fun _ => true);
        _ ← q_update t_activation_links (link_of_event users event_id) (fun l => l <| al_delivery_pending := false |>);
        mret tt
      else mret tt
  | None => mret tt
  end.

Definition read_receipt (c : config) (operation : HAProtectionOperation) : py (option json) :=
  try_except
    (raw ← read_text (receipt_path c (ho_id operation));
     document ← lift (loads raw);
     mret (Some document))
    [OSError; ValueError; JSONDecodeError] (fun _ => mret None).

Definition sync_protection_operation (operation : HAProtectionOperation) : py HAProtectionOperation :=
  c ← gets w_config;
  if str_in (ho_state operation) _FINAL_STATES || negb (String.eqb (HA_MODE c) "ha") then mret operation
  else
    document ← read_receipt c operation;
    match document with
    | None => mret operation
    | Some document =>
        v ← lift (judge operation document);
        match v with
        | None => mret operation
        | Some v =>
            _ ← q_update t_ha_protection_operations (same_operation operation) (apply_verdict v);
            _ ← when (is_some (v_accepted v)) (release_links operation);
            now ← utc_now;
            _ ← q_update t_ha_protection_operations (same_operation operation) (fun o => o <| ho_updated_at := now |>);
            mret ((apply_verdict v operation) <| ho_updated_at := now |>)
        end
    end.
End Receipts.
