(* ===== verification/HaReplicationProps.v ===== *)
(** The replication queue never shows a partial request, an operation is created
    once, and is accepted only on a receipt that proves it. *)
From Stdlib Require Import ZArith Lia Ascii String SpecFloat.
From stdpp Require Import base list strings.
From S2P Require Import Prelude Text TextFacts Json JsonFacts Sha256 PyTime PyBuiltins Models.
From S2P Require Import EvidenceManifest World Permissions Sessions Ha HaWitness HaProps HaReplication.

(** ** What the worker sees of the queue *)

Definition hidden (name : string) : bool := startswith "." name.

(** The entries that are not hidden are the same. *)
Definition same_visible (w w' : world) : Prop :=
  forall name, hidden name = false -> dget name (w_queue w') = dget name (w_queue w).

#[export] Instance same_visible_preorder : PreOrder same_visible.
Proof.
  split; [by intros w name|]. intros w1 w2 w3 H1 H2 name Hn. by rewrite H2, H1.
Qed.
#[export] Hint Resolve same_visible_preorder : keeps.

Lemma hidden_dot s : hidden ("." +:+ s) = true.
Proof. apply startswith_iff. by exists s. Qed.

Lemma hidden_ne a b : hidden a = true -> hidden b = false -> b <> a.
Proof. congruence. Qed.

Lemma file_op_run on_fault op w :
  (exists d, file_op on_fault op w = (Ok tt, w <| w_io := S (w_io w) |> <| w_queue := d |>) /\ op (w_queue w) = Ok d) \/
  (exists e, file_op on_fault op w = (Raise e, w <| w_io := S (w_io w) |>)) \/
  (exists f, file_op on_fault op w =
     (Raise (fault_exn f), w <| w_io := S (w_io w) |> <| w_queue := on_fault f (w_queue w) |>)).
Proof.
  unfold file_op. cbn. destruct (w_faults w (w_io w)) as [f|]; [right; right; by exists f|].
  destruct (op (w_queue w)) as [d|e] eqn:E; [left; by exists d | right; left; by exists e].
Qed.

Lemma file_op_visible on_fault op :
  (forall f d name, hidden name = false -> dget name (on_fault f d) = dget name d) ->
  (forall d d' name, op d = Ok d' -> hidden name = false -> dget name d' = dget name d) ->
  keeps same_visible (file_op on_fault op).
Proof.
  intros Hf Ho w. destruct (file_op_run on_fault op w) as [(d & -> & E)|[(e & ->)|(f & ->)]]; intros name Hn; cbn.
  - by apply (Ho _ _ _ E).
  - done.
  - by apply Hf.
Qed.

Lemma dset_hidden {V} k (v : V) d name : hidden k = true -> hidden name = false -> dget name (dset k v d) = dget name d.
Proof.
  intros Hk Hn. rewrite dget_dset. destruct (String.eqb_spec name k) as [->|]; [congruence|done].
Qed.
Lemma dpop_hidden {V} k (d : list (string * V)) name : hidden k = true -> hidden name = false -> dget name (dpop k d) = dget name d.
Proof.
  intros Hk Hn. rewrite dget_dpop. destruct (String.eqb_spec name k) as [->|]; [congruence|done].
Qed.

Lemma write_visible name content : hidden name = true -> keeps same_visible (write_text name content).
Proof.
  intros Hh. apply file_op_visible.
  - intros [e [p|]] d n Hn; cbn; [by apply dset_hidden | done].
  - intros d d' n [= <-] Hn. by apply dset_hidden.
Qed.
Lemma chmod_visible name : keeps same_visible (chmod name).
Proof. apply file_op_visible; [done|]. intros d d' n. destruct (has_key name d); [by intros [= <-]|done]. Qed.
Lemma unlink_visible ok name : hidden name = true -> keeps same_visible (unlink_file ok name).
Proof.
  intros Hh. apply file_op_visible; [done|]. intros d d' n. destruct (_ || _); [|done].
  intros [= <-] Hn. by apply dpop_hidden.
Qed.
Lemma replace_visible source target :
  hidden source = true -> hidden target = true -> keeps same_visible (replace_file source target).
Proof.
  intros Hs Ht. apply file_op_visible; [done|]. intros d d' n. destruct (dget source d); [|done].
  intros [= <-] Hn. by rewrite dset_hidden, dpop_hidden.
Qed.
Lemma swallow_visible m : keeps same_visible m -> keeps same_visible (swallow_os m).
Proof. intros Hm. apply keeps_try; [typeclasses eauto|done|auto with keeps]. Qed.
Lemma finally_visible {A} (m : py A) f :
  keeps same_visible m -> keeps same_visible f -> keeps same_visible (finally m f).
Proof.
  intros Hm Hf w. unfold finally. specialize (Hm w). destruct (m w) as [r w1]. cbn in *.
  etransitivity; [exact Hm | apply Hf].
Qed.
Lemma fresh_visible : keeps same_visible fresh.
Proof. by intros w n. Qed.
Lemma now_visible : keeps same_visible utc_now.
Proof. by intros w n. Qed.
#[export] Hint Resolve write_visible chmod_visible unlink_visible replace_visible swallow_visible finally_visible
  fresh_visible now_visible hidden_dot : keeps.

Lemma ready_visible : keeps same_visible require_protection_queue_ready.
Proof.
  unfold require_protection_queue_ready. apply keeps_bind; [typeclasses eauto|by intros w|]. intros [code|]; [auto with keeps|].
  apply keeps_bind; [typeclasses eauto|auto with keeps|]. intros id. cbv zeta.
  assert (hidden ("." +:+ id +:+ ".permission-probe") = true) as Ht by apply hidden_dot.
  assert (hidden (("." +:+ id +:+ ".permission-probe") +:+ ".tmp") = true) as Hs by apply hidden_dot.
  apply finally_visible.
  - apply keeps_try; [typeclasses eauto| |intros e; destruct (io_code e); auto with keeps].
    repeat (apply keeps_bind; [typeclasses eauto|solve [auto with keeps]|intros ?]). auto with keeps.
  - apply keeps_bind; [typeclasses eauto|auto with keeps|]. auto with keeps.
Qed.

Lemma queue_code_visible m : keeps same_visible m -> keeps same_visible (queue_code m).
Proof.
  intros Hm. unfold queue_code. apply keeps_try; [typeclasses eauto| |].
  - apply keeps_bind; [typeclasses eauto|done|auto with keeps].
  - intros e. apply keeps_if; [auto with keeps|]. destruct (io_code e); auto with keeps.
Qed.

(** Publishing either moves the whole text in place or shows nothing. *)
Lemma publish_run temporary target content w :
  hidden temporary = true ->
  (exists w', publish_file temporary target content w = (Ok tt, w') /\
     dget target (w_queue w') = Some (Regular content) /\
     forall name, hidden name = false -> name <> target -> dget name (w_queue w') = dget name (w_queue w)) \/
  (exists e w', publish_file temporary target content w = (Raise e, w') /\ same_visible w w').
Proof.
  intros Hh. unfold publish_file.
  destruct (write_text temporary content w) as [[[]|e] w1] eqn:E1.
  2:{ right. exists e, w1. split; [by apply Mbind_Raise|]. by apply (keeps_run _ _ _ _ _ (write_visible _ _ Hh)) in E1. }
  destruct (chmod temporary w1) as [[[]|e] w2] eqn:E2.
  2:{ right. exists e, w2. split; [by rewrite (Mbind_Ok _ _ _ _ _ E1); apply Mbind_Raise|].
      apply (keeps_run _ _ _ _ _ (write_visible _ _ Hh)) in E1. apply (keeps_run _ _ _ _ _ (chmod_visible _)) in E2.
      by etransitivity. }
  rewrite (Mbind_Ok _ _ _ _ _ E1), (Mbind_Ok _ _ _ _ _ E2).
  assert (dget temporary (w_queue w2) = Some (Regular content)) as Ht.
  { unfold write_text in E1. destruct (file_op_run (fun f d => match fault_partial f with Some p => dset temporary (Regular p) d | None => d end)
      (fun d => Ok (dset temporary (Regular content) d)) w) as [(d & E & [= <-])|[(e & E)|(f & E)]]; rewrite E in E1; try done.
    injection E1 as <-. unfold chmod in E2.
    match type of E2 with file_op ?a ?b ?v = _ => destruct (file_op_run a b v) as [(d & E3 & H3)|[(e & E3)|(f & E3)]] end;
      rewrite E3 in E2; try done.
    injection E2 as <-. cbn in *. destruct (existsb _ _) in H3; [|done]. injection H3 as <-.
    by rewrite dget_dset, String.eqb_refl. }
  apply (keeps_run _ _ _ _ _ (write_visible _ _ Hh)) in E1. apply (keeps_run _ _ _ _ _ (chmod_visible _)) in E2.
  assert (same_visible w w2) as Hv by (by etransitivity).
  unfold replace_file. match goal with |- context [file_op ?a ?b w2] => destruct (file_op_run a b w2) as [(d & E3 & H3)|[(e & E3)|(f & E3)]] end;
    rewrite E3; cbn in *.
  - left. eexists. split; [reflexivity|]. cbn. rewrite Ht in H3. injection H3 as <-.
    rewrite dget_dset, String.eqb_refl. split; [done|]. intros name Hn Hne.
    rewrite dget_dset. apply String.eqb_neq in Hne as ->. rewrite dpop_hidden by done. by apply Hv.
  - right. eexists e, _. by split; [reflexivity|].
  - right. eexists _, _. by split; [reflexivity|].
Qed.

Lemma queue_code_ok m w w1 : m w = (Ok tt, w1) -> queue_code m w = (Ok None, w1).
Proof. intros H. unfold queue_code, try_except. by rewrite (Mbind_Ok _ _ _ _ _ H). Qed.
Lemma queue_code_raise m w e w1 :
  m w = (Raise e, w1) -> exists r, queue_code m w = (r, w1) /\ r <> Ok None.
Proof.
  intros H. unfold queue_code, try_except. rewrite (Mbind_Raise _ _ _ _ _ H).
  destruct (exn_in e [HAProtectionQueueError; OSError]); [|by eexists].
  destruct (exn_in e _); [by eexists|]. by destruct (io_code e); eexists.
Qed.

(** C19: the host worker never reads a partial request: whatever file operations
    fail, and however, queueing an operation leaves every visible entry of the
    queue as it was, except that on success, and only then, the operation's own
    entry is the whole request document, written at one instant. *)
Theorem queued_request_is_whole operation assertion r w w'
  (H : queue_protection_operation (Some operation) assertion w = (r, w')) :
  let target := ho_id operation +:+ ".json" in
  (forall name, hidden name = false -> name <> target -> dget name (w_queue w') = dget name (w_queue w)) /\
  match r with
  | Ok None => exists now, dget target (w_queue w') = Some (Regular (request_text (operation_document operation now assertion)))
  | _ => hidden target = false -> dget target (w_queue w') = dget target (w_queue w)
  end.
Proof.
  intros target. unfold queue_protection_operation in H.
  assert (forall v, same_visible w v ->
    (forall name, hidden name = false -> name <> target -> dget name (w_queue v) = dget name (w_queue w)) /\
    (hidden target = false -> dget target (w_queue v) = dget target (w_queue w))) as Hsame
    by (intros v Hv; split; [intros name Hn _; by apply Hv | apply Hv]).
  pose proof (queue_code_visible _ ready_visible w) as Hr. unfold mbind at 1, M_bind in H.
  destruct (queue_code require_protection_queue_ready w) as [[[code|]|e] w1]; cbn [snd] in Hr.
  - injection H as <- <-. by apply Hsame.
  - erewrite (Mbind_Ok fresh _ w1) in H; [|reflexivity]. erewrite (Mbind_Ok utc_now) in H; [|reflexivity].
    cbv zeta in H. set (now := utc_at _) in H.
    match type of H with (queue_code (publish_file ?t _ ?c) ≫= _) ?w2 = _ =>
      destruct (publish_run t target c w2 (hidden_dot _)) as [(w3 & Hp & Ht & Ho)|(e & w3 & Hp & Hv)];
      assert (same_visible w w2) as Hw2 by (intros n Hn; by apply Hr) end.
    + rewrite (Mbind_Ok _ _ _ _ _ (queue_code_ok _ _ _ Hp)) in H. injection H as <- <-.
      split; [|by exists now]. intros name Hn Hne. rewrite (Ho name Hn Hne). by apply Hw2.
    + destruct (queue_code_raise _ _ _ _ Hp) as (o & Hq & Hne).
      assert (same_visible w w' /\ r <> Ok None) as [Hv' Hr'].
      { destruct o as [[code|]|x]; [|done|].
        - rewrite (Mbind_Ok _ _ _ _ _ Hq) in H.
          match type of H with (swallow_os ?m ≫= _) _ = _ =>
            pose proof (swallow_visible m (unlink_visible true _ (hidden_dot _)) w3) as Hs;
            destruct (swallow_os m w3) as [[[]|y] w4] eqn:Es end; cbn [snd] in Hs;
            [rewrite (Mbind_Ok _ _ _ _ _ Es) in H | rewrite (Mbind_Raise _ _ _ _ _ Es) in H];
            injection H as <- <-; (split; [|done]); (do 2 (etransitivity; [eassumption|])); exact Hs.
        - rewrite (Mbind_Raise _ _ _ _ _ Hq) in H. injection H as <- <-. split; [|done].
          by etransitivity. }
      pose proof (Hsame w' Hv') as [H1 H2]. split; [done|]. by destruct r as [[|]|].
  - injection H as <- <-. by apply Hsame.
Qed.

(** ** Receipts *)

Section Receipts.
Context (repr_container : json -> string).

(** A receipt that proves the acceptance of an operation: it is bound to the
    operation and its mutation, and names a bundle, its hash, a generation
    and an instant. *)
Definition proves_acceptance (o : HAProtectionOperation) (document : json) (a : acceptance) : Prop :=
  exists d, document = JObj d /\ (forall k, k ∈ dkeys d -> k ∈ RECEIPT_FIELDS) /\
    dget "operation_id" d = Some (JStr (ho_id o)) /\
    (exists m, dget "mutation_sequence" d = Some m /\ py_eq m (JInt (ho_mutation_sequence o)) = true) /\
    dget "bundle_id" d = Some (JStr (a_bundle_id a)) /\ fullmatch BUNDLE_ID (a_bundle_id a) = true /\
    dget "bundle_sha256" d = Some (JStr (a_bundle_sha256 a)) /\ fullmatch BUNDLE_SHA (a_bundle_sha256 a) = true /\
    dget "generation" d = Some (JInt (a_generation a)) /\ 1 <= a_generation a /\ is_naive (a_accepted_at a) = false.

Lemma acceptance_inv d a : acceptance_of repr_container (JObj d) = Ok (Some a) ->
  dget "bundle_id" d = Some (JStr (a_bundle_id a)) /\ fullmatch BUNDLE_ID (a_bundle_id a) = true /\
  dget "bundle_sha256" d = Some (JStr (a_bundle_sha256 a)) /\ fullmatch BUNDLE_SHA (a_bundle_sha256 a) = true /\
  dget "generation" d = Some (JInt (a_generation a)) /\ 1 <= a_generation a /\ is_naive (a_accepted_at a) = false.
Proof.
  unfold acceptance_of. cbn [get_attr mbind outcome_bind].
  destruct (dget "bundle_id" d) as [[| | | |b| |]|]; try done.
  destruct (dget "bundle_sha256" d) as [[| | | |h| |]|]; try done.
  destruct (dget "generation" d) as [[| |g| | | |]|]; try done.
  destruct (fullmatch BUNDLE_ID b) eqn:Eb; [|done]. destruct (fullmatch BUNDLE_SHA h) eqn:Eh; [|done].
  destruct (1 <=? g) eqn:Eg; [|done]. cbn [andb].
  destruct (parse_timestamp _) as [t|e]; [|by case_match]. destruct (is_naive t) eqn:En; [done|].
  intros [= <-]. cbn. apply Z.leb_le in Eg. by repeat split.
Qed.

Lemma malformed_inv document : malformed document = Ok false ->
  exists d, document = JObj d /\ forall k, k ∈ dkeys d -> k ∈ RECEIPT_FIELDS.
Proof.
  unfold malformed. intros H. apply bind_Ok_inv in H as (l & Hl & H).
  destruct (forallb _ l) eqn:Ef; [|done]. destruct (forallb _ RECEIPT_REQUIRED); [|done]. cbn [negb] in H.
  apply bind_Ok_inv in H as (f & Hf & _). destruct document as [| | | | | |d]; try done. exists d. split; [done|].
  intros k Hk. unfold elements in Hl. apply bind_Ok_inv in Hl as (l' & [= <-] & Hl).
  apply bind_Ok_inv in Hl as (u & _ & [= <-]). rewrite forallb_forall in Ef.
  specialize (Ef (JStr k)). rewrite existsb_exists in Ef.
  destruct Ef as (s & Hs & He%String.eqb_eq); [|subst; by apply list_elem_of_In].
  apply in_map. by apply list_elem_of_In.
Qed.

Lemma judge_inv o document v : judge repr_container o document = Ok (Some v) ->
  str_in (v_state v) RECEIPT_STATES = true /\
  (v_state v = "accepted"%string -> exists a, v_accepted v = Some a /\ proves_acceptance o document a) /\
  (v_state v <> "accepted"%string -> v_accepted v = None).
Proof.
  unfold judge. intros H. apply bind_Ok_inv in H as (bad & Hbad & H). destruct bad; [done|].
  apply malformed_inv in Hbad as (d & -> & Hk). cbn [get_attr mbind outcome_bind] in H.
  destruct (dget "operation_id" d) as [oid|] eqn:Eo; [|done].
  destruct (py_eq oid _) eqn:Eoid; [|done]. cbn [negb] in H.
  destruct (py_eq (match dget "mutation_sequence" d with Some x => x | None => JNull end) _) eqn:Ems; [|done].
  cbn [negb] in H. destruct (dget "state" d) as [[| | | |st| |]|]; try done.
  cbn [in_frozenset mbind outcome_bind] in H.
  destruct (str_in st RECEIPT_STATES) eqn:Est; [|done]. cbn [negb] in H.
  destruct (in_frozenset _ RECEIPT_STAGES) as [[]|]; try done. cbn [negb mbind outcome_bind] in H.
  destruct (dget "stage" d) as [[| | | |sg| |]|]; try done.
  destruct (match match dget "error_code" d with Some x => x | None => JNull end with
            | JNull => Some None | JStr c => _ | _ => None end) as [ec|]; [|done].
  destruct (String.eqb_spec st "accepted") as [->|Hne].
  - apply bind_Ok_inv in H as (oa & Ha & H). destruct oa as [a|]; [|done]. injection H as <-. cbn.
    split; [done|]. split; [|done]. intros _. exists a. split; [done|]. exists d.
    apply acceptance_inv in Ha. do 2 (split; [done|]). split.
    { destruct oid; try done. cbn in Eoid. apply String.eqb_eq in Eoid. by subst. }
    split; [|exact Ha]. destruct (dget "mutation_sequence" d) as [m|]; [|done]. by exists m.
  - injection H as <-. cbn. by repeat split.
Qed.

End Receipts.

(** ** One operation per key *)

Lemma file_op_dbs on_fault op : keeps same_dbs (file_op on_fault op).
Proof. intros w. by destruct (file_op_run on_fault op w) as [(d & -> & E)|[(e & ->)|(f & ->)]]. Qed.

Lemma ready_dbs : keeps same_dbs require_protection_queue_ready.
Proof.
  unfold require_protection_queue_ready. apply keeps_bind; [typeclasses eauto|by intros w|]. intros [code|]; [auto with keeps|].
  apply keeps_bind; [typeclasses eauto|by intros w|]. intros id w. cbv zeta. unfold finally.
  match goal with |- context [try_except ?m ?cs ?h w] =>
    assert (keeps same_dbs (try_except m cs h)) as Hm end.
  { apply keeps_try; [typeclasses eauto| |intros e; destruct (io_code e); auto with keeps].
    repeat (apply keeps_bind; [typeclasses eauto|apply file_op_dbs|intros ?]). apply file_op_dbs. }
  specialize (Hm w). destruct (try_except _ _ _ w) as [r w1]. cbn [snd] in Hm |- *.
  etransitivity; [exact Hm|]. match goal with |- same_dbs _ (snd (?f _)) => assert (keeps same_dbs f) as Hf end; [|apply Hf].
  apply keeps_bind; [typeclasses eauto| |intros ?]; apply keeps_try; try typeclasses eauto;
    try apply file_op_dbs; auto with keeps.
Qed.

Lemma find_app {A} (p : A -> bool) l l' :
  List.find p (l ++ l') = match List.find p l with Some x => Some x | None => List.find p l' end.
Proof. induction l as [|x l IH]; cbn; [done|]. by destruct (p x). Qed.

Section Creation.
Context (urlopen : http_request -> http_result).

(** An idempotency key names one operation: a successful creation leaves a
    row with the key that it returns, adds one only when there was none, and
    repeating the call, with whatever other arguments, returns the same
    operation and changes nothing. *)
Theorem one_operation_per_key key ot rt rid w o w'
  (Hm : HA_MODE (w_config w) = "ha"%string)
  (H : create_protection_operation urlopen key ot rt rid w = (Ok o, w')) :
  exists row, o = Some row /\ ho_idempotency_key row = key /\
    length (List.filter (has_idempotency_key key) (t_ha_protection_operations (w_db w'))) =
      Nat.max 1 (length (List.filter (has_idempotency_key key) (t_ha_protection_operations (w_db w)))) /\
    forall ot' rt' rid', create_protection_operation urlopen key ot' rt' rid' w' = (Ok (Some row), w').
Proof.
  assert (forall row v, HA_MODE (w_config v) = "ha"%string -> fullmatch _IDEMPOTENCY_KEY key = true ->
            List.find (has_idempotency_key key) (t_ha_protection_operations (w_db v)) = Some row ->
            forall ot' rt' rid', create_protection_operation urlopen key ot' rt' rid' v = (Ok (Some row), v)) as Hagain.
  { intros row v Hv Hk Hf ot' rt' rid'. unfold create_protection_operation. erewrite Mbind_Ok; [|reflexivity]. rewrite Hv.
    change (negb (String.eqb "ha" "ha")) with false. cbv iota.
    assert (find_protection_operation key v = (Ok (Some row), v)) as E.
    { unfold find_protection_operation. rewrite Hk. erewrite Mbind_Ok; [|reflexivity].
      unfold q_first, gets. by rewrite Hf. }
    by rewrite (Mbind_Ok _ _ _ _ _ E). }
  unfold create_protection_operation in H. apply Mbind_Ok_inv in H as (c & w1 & [= <- <-] & H).
  rewrite Hm in H. cbn [negb String.eqb] in H. apply Mbind_Ok_inv in H as (ex & w1 & Hex & H).
  unfold find_protection_operation in Hex. apply Mbind_Ok_inv in Hex as ([] & w2 & [Hk%negb_false_iff ->]%throw_if_Ok_inv & [= <- <-]).
  destruct (List.find _ _) as [row|] eqn:Ef.
  - injection H as <- <-. exists row. pose proof Ef as [He Hkey]%find_some_elem. unfold has_idempotency_key in Hkey.
    apply String.eqb_eq in Hkey. split; [done|]. split; [done|]. split; [|by apply Hagain].
    assert (In row (List.filter (has_idempotency_key key) (t_ha_protection_operations (w_db w)))) as Hin.
    { apply filter_In. apply list_elem_of_In in He. split; [done|]. unfold has_idempotency_key. by apply String.eqb_eq. }
    destruct (List.filter _ _); [done|]. cbn. lia.
  - apply Mbind_Ok_inv in H as ([] & w2 & Hr & H). apply (keeps_run _ _ _ _ _ ready_dbs) in Hr as (Hdb & _ & Hcfg & _).
    apply Mbind_Ok_inv in H as ([] & w3 & [_ ->]%throw_if_Ok_inv & H).
    apply Mbind_Ok_inv in H as ([] & w3 & [_ ->]%throw_if_Ok_inv & H).
    apply Mbind_Ok_inv in H as (seq & w3 & [= <- <-] & H). apply Mbind_Ok_inv in H as (id & w3 & [= <- <-] & H).
    apply Mbind_Ok_inv in H as (now & w3 & [= <- <-] & H). apply Mbind_Ok_inv in H as (row & w3 & [= <- <-] & H).
    apply Mbind_Ok_inv in H as (reply & w4 & Hp & H). apply (keeps_run _ _ _ _ _ (same_dbs_call _ _ _)) in Hp as (Hdb' & _ & Hcfg' & _).
    injection H as <- <-. eexists. split; [reflexivity|]. split; [reflexivity|]. cbn in Hdb', Hcfg'.
    pose proof (find_none_iff (has_idempotency_key key) (t_ha_protection_operations (w_db w))) as [Hn _]. specialize (Hn Ef).
    split.
    + rewrite Hdb'. cbn. rewrite Hdb, List.filter_app, length_app. rewrite filter_none.
      2:{ intros x Hx. apply Hn. by apply list_elem_of_In. }
      cbn. unfold has_idempotency_key. cbn. by rewrite String.eqb_refl.
    + apply Hagain; [by rewrite Hcfg', Hcfg | done|]. rewrite Hdb'. cbn. rewrite Hdb, find_app, Ef. cbn.
      unfold has_idempotency_key. cbn. by rewrite String.eqb_refl.
Qed.
End Creation.

(** ** Examples *)

Definition toy_operation : HAProtectionOperation :=
  (new_HAProtectionOperation (utc_at 0)) <| ho_id := "op-1"%string |> <| ho_mutation_sequence := 7 |>
    <| ho_operation_type := "publish"%string |>.

(** The write of the request fails half way: the disk is full. *)
Definition full_disk : world :=
  (toy_node "a") <| w_faults := fun n => if Nat.eqb n 6 then Some (Fault (Exn OSError "ENOSPC") (Some "{"%string)) else None |>.

Lemma queued_request_is_whole_witness :
  (exists w', queue_protection_operation (Some toy_operation) None (toy_node "a") = (Ok None, w') /\
     exists now, dget "op-1.json" (w_queue w') =
       Some (Regular (request_text (operation_document toy_operation now None)))) /\
  (exists w', queue_protection_operation (Some toy_operation) None full_disk =
      (Ok (Some "replication_queue_atomic_write_failed"%string), w') /\
     dget "op-1.json" (w_queue w') = None).
Proof.
  split.
  - destruct (run_ok (queue_protection_operation (Some toy_operation) None (toy_node "a")) None) as (w' & H).
    { vm_compute. reflexivity. }
    exists w'. split; [exact H|]. exact (proj2 (queued_request_is_whole toy_operation None _ _ _ H)).
  - destruct (run_ok (queue_protection_operation (Some toy_operation) None full_disk)
                (Some "replication_queue_atomic_write_failed"%string)) as (w' & H).
    { vm_compute. reflexivity. }
    exists w'. split; [exact H|]. exact (proj2 (queued_request_is_whole toy_operation None _ _ _ H) eq_refl).
Defined.

Definition toy_receipt : string := Eval vm_compute in
  dumps (JObj [("format", JStr "mp-opt-ha-operation-result-v1"); ("operation_id", JStr "op-1"); ("state", JStr "accepted");
               ("stage", JStr "accepted"); ("mutation_sequence", JInt 7); ("bundle_id", JStr "b-1");
               ("bundle_sha256", JStr (join EmptyString (repeat "ab"%string 32))); ("generation", JInt 3);
               ("updated_at", JStr "2026-07-30T12:34:50Z"); ("accepted_at", JStr "2026-07-30T12:34:50Z")]%string).
Definition synced_node : world :=
  (toy_node "a") <| w_files := [("/runtime/ha-operation-results/op-1.json"%string, Regular toy_receipt)] |>.
Definition toy_accepted : HAProtectionOperation := Eval vm_compute in
  match fst (sync_protection_operation no_repr toy_operation synced_node) with Ok o => o | Raise _ => toy_operation end.


Definition toy_key : string := "publish:0123456789abcdef".
Definition toy_created : option HAProtectionOperation := Eval vm_compute in
  match fst (create_protection_operation toy_witness toy_key "publish" "event" (Some "7"%string) (toy_node "a")) with
  | Ok o => o | Raise _ => None end.

Lemma one_operation_per_key_witness :
  exists row w', create_protection_operation toy_witness toy_key "publish" "event" (Some "7"%string) (toy_node "a") = (Ok (Some row), w') /\
    create_protection_operation toy_witness toy_key "other" "other" None w' = (Ok (Some row), w').
Proof.
  destruct (run_ok (create_protection_operation toy_witness toy_key "publish" "event" (Some "7"%string) (toy_node "a"))
              toy_created) as (w' & H).
  { vm_compute. reflexivity. }
  destruct (one_operation_per_key toy_witness toy_key "publish" "event" (Some "7"%string) (toy_node "a") toy_created w'
              (toy_ha "a") H) as (row & Ho & _ & _ & Hagain).
  exists row, w'. rewrite <-Ho. split; [exact H|]. rewrite Ho. exact (Hagain "other"%string "other"%string None).
Defined.
