(* ===== verification/Push.v ===== *)
(** Web Push deliveries ([backend/app/core/push.py]).  The library [pywebpush] is a
    parameter; the derivation of the public key, which only calls a cryptographic
    library, is not modelled.  Logging is left out. *)
From Stdlib Require Import ZArith Lia Ascii String.
From stdpp Require Import base list strings.
From S2P Require Import Prelude Text TextFacts Json PyTime PyBuiltins Models World Cascade Ha HaWitness.

(** One call of [webpush]: it returns, raises [WebPushException] with the status of
    its response, if it has one, or raises another exception. *)
Inductive push_result : Type := Delivered | PushRefused (status_code : option Z) | PushError.
Record push_request : Type := PushRequest {
  pr_endpoint : string; pr_p256dh : string; pr_auth : string; pr_data : string; pr_private_key : string; pr_sub : string
}.

Section Push.
Context (repr_container : json -> string) (urlopen : http_request -> http_result) (webpush : push_request -> push_result).

Definition _vapid_configured : py bool :=
  gets (fun w => truthy_str (VAPID_PRIVATE_KEY (w_config w)) && truthy_str (VAPID_CLAIMS_EMAIL (w_config w))).

(** [Some false] where the subscription has expired, [None] where the delivery
    failed for another reason *)
Definition send_push (endpoint p256dh auth : string) (payload : list (string * json)) : py (option bool) :=
  configured ← _vapid_configured;
  if negb configured then mret None
  else
    c ← gets w_config;
    let email := VAPID_CLAIMS_EMAIL c in
    let sub := if startswith "mailto:" email then email else "mailto:" +:+ email in
    mret (match webpush (PushRequest endpoint p256dh auth (dumps (JObj payload)) (VAPID_PRIVATE_KEY c) sub) with
          | Delivered => Some true
          | PushRefused (Some status_code) => if among [404; 410] status_code then Some false else None
          | PushRefused None => None
          | PushError => None
          end).

Definition push_payload (title body : string) (url notification_type : option string) : list (string * json) :=
  [("title", JStr title); ("body", JStr body)]%string ++
  (if truthy_opt url then [("url"%string, of_opt_str url)] else []) ++
  (if truthy_opt notification_type then [("type"%string, of_opt_str notification_type)] else []).

Definition send_push_to_event (event_id : Z) (title body : string) (url notification_type : option string) : py Z :=
  configured ← _vapid_configured;
  if negb configured then mret 0
  else
    subs ← q_all t_push_subscriptions (fun s => eq_opt_Z (ps_event_id s) (Some event_id));
    let payload := push_payload title body url notification_type in
    results ← mmap (fun s => ok ← send_push (ps_endpoint s) (ps_p256dh s) (ps_auth s) payload; mret (ps_id s, ok)) subs;
    let sent := Z.of_nat (length (List.filter (fun r => match r.2 with Some ok => ok | None => false end) results)) in
    let expired_ids := map fst (List.filter (fun r => match r.2 with Some ok => negb ok | None => false end) results) in
    _ ← match expired_ids with
        | [] => mret tt
        | _ =>
            _ ← q_delete t_push_subscriptions (fun s => among expired_ids (ps_id s));
            fenced_commit repr_container urlopen true
        end;
    mret sent.
End Push.
