(* ===== verification/Calendar.v ===== *)
(** What a member of an event sees of its schedule: the reading side of
    [backend/app/api/v1/calendar.py].  Answers are built by pydantic, a parameter
    where it converts a decoded value to an integer ([as_int]). *)
From Stdlib Require Import ZArith Lia Ascii String SpecFloat.
From stdpp Require Import base list strings.
From S2P Require Import Prelude Text TextFacts Json JsonFacts PyTime PyBuiltins ScheduleDays Ordering Models EvidenceManifest World Cascade Commissioning Security Governance WebEdits.

(** ** Answers *)

Record AttendeeOut : Type := Attendee { ao_name : string; ao_person_id : Z }.
Record TaskOut : Type := mkTaskOut {
  to_id : Z; to_external_task_id : Z; to_name : string; to_summary : option string; to_description : option string;
  to_start : string; to_end : string; to_working_date : string; to_location_name : option string;
  to_location_address : option string; to_task_type_code : option string; to_task_type_name : option string;
  to_color : option string; to_attendees : list AttendeeOut;
  to_field_assignments : option (list (string * list AttendeeOut)); to_field_values : option (list (string * json));
  to_field_definitions : option (list (list (string * string))); to_additional : option (list (string * json));
  to_sort_order : spec_float; to_has_web_edit : bool; to_web_edit_edited_at : option string;
  to_web_edit_edited_by : option string; to_web_edit_edited_by_user_id : option Z; to_web_edit_change_summary : list string
}.
#[export] Instance eta_TaskOut : Eta TaskOut := fun t =>
  mkTaskOut (to_id t) (to_external_task_id t) (to_name t) (to_summary t) (to_description t) (to_start t) (to_end t)
  (to_working_date t) (to_location_name t) (to_location_address t) (to_task_type_code t) (to_task_type_name t)
  (to_color t) (to_attendees t) (to_field_assignments t) (to_field_values t) (to_field_definitions t)
  (to_additional t) (to_sort_order t) (to_has_web_edit t) (to_web_edit_edited_at t) (to_web_edit_edited_by t)
  (to_web_edit_edited_by_user_id t) (to_web_edit_change_summary t).
Record PersonOut : Type := mkPersonOut {
  po_id : Z; po_external_person_id : Z; po_first_name : string; po_last_name : string
}.
Record PublicScheduleItemOut : Type := mkPublicScheduleItemOut {
  io_id : Z; io_external_session_element_id : Z; io_title : string; io_date : string; io_start_time : string;
  io_end_time : string; io_working_date : string; io_location_name : option string; io_location_address : option string;
  io_responsible : option string; io_audience_teams : list (list (string * json)); io_description : option string;
  io_category_id : option Z; io_category_name : option string; io_type_id : option Z; io_type_name : option string;
  io_copy_template_html : option string; io_category : option string; io_colour : option string; io_sort_order : spec_float
}.
Record PublicScheduleCategoryOut : Type := CategoryOut { co_id : Z; co_name : string; co_sort_order : spec_float }.
Record GeneralScheduleStateOut : Type := StateOut {
  go_published_at : option string; go_fingerprint : option string; go_item_count : Z
}.
Record PersonUnavailabilityOut : Type := UnavailabilityOut {
  uo_person_id : Z; uo_working_date : string; uo_start : string; uo_end : string
}.
(** The logo colours are always null. *)
Record CalendarResponse : Type := mkCalendarResponse {
  cr_event_id : Z; cr_event_name : string; cr_start_date : option string; cr_end_date : option string;
  cr_day_aliases : option (list (string * string)); cr_schedule_day_range : Z * Z; cr_tasks : list TaskOut;
  cr_persons : list PersonOut; cr_public_schedule_categories : list PublicScheduleCategoryOut;
  cr_public_schedule_views : list PublicScheduleCategoryOut; cr_public_schedule_items : list PublicScheduleItemOut;
  cr_general_schedule_state : option GeneralScheduleStateOut; cr_unavailabilities : list PersonUnavailabilityOut;
  cr_data_policy_version : option Z; cr_data_policy_sha256 : option string; cr_data_policy_acknowledged : bool
}.

Record OfflineAudienceTeamOut : Type := OfflineTeam { ot_name : string; ot_short_name : option string }.
Record OfflinePublicScheduleItemOut : Type := mkOfflineItem {
  of_id : Z; of_external_session_element_id : Z; of_title : string; of_date : string; of_working_date : string;
  of_start_time : string; of_end_time : string; of_location_name : option string; of_location_address : option string;
  of_responsible : option string; of_audience_teams : list OfflineAudienceTeamOut; of_description : option string;
  of_category_id : option Z; of_category_name : option string; of_type_name : option string; of_colour : option string;
  of_sort_order : spec_float
}.
(** A task of the offline answer has the fields of [TaskOut]. *)
Definition OfflineTaskOut : Type := TaskOut.
Record OfflineCalendarResponse : Type := mkOfflineCalendar {
  oc_event_id : Z; oc_event_name : string; oc_start_date : option string; oc_end_date : option string;
  oc_day_aliases : option (list (string * string)); oc_schedule_day_range : Z * Z; oc_tasks : list OfflineTaskOut;
  oc_persons : list PersonOut; oc_public_schedule_categories : list PublicScheduleCategoryOut;
  oc_public_schedule_views : list PublicScheduleCategoryOut; oc_public_schedule_items : list OfflinePublicScheduleItemOut;
  oc_unavailabilities : list PersonUnavailabilityOut;
  oc_data_policy_version : option Z; oc_data_policy_sha256 : option string; oc_data_policy_acknowledged : bool
}.

(** ** Decoded values *)

Definition validation_error {A} (detail : string) : outcome A := raise ValidationError detail.
(** [v or []] *)
Definition or_empty_list (v : json) : json := if truthy v then v else JList [].
(** [{k: v for v in ...}] of texts only *)
Definition text_of (v : json) : outcome string :=
  match v with JStr s => Ok s | _ => validation_error "Input should be a valid string" end.
Definition text_dict (d : list (string * json)) : outcome (list (string * string)) :=
  map_outcome (fun kv => s ← text_of kv.2; Ok (kv.1, s)) d.
Definition dict_of (v : json) : outcome (list (string * json)) :=
  match v with JObj d => Ok d | _ => validation_error "Input should be a valid dictionary" end.
Definition opt_int (v : json) : option Z := match v with JInt n => Some n | _ => None end.
Definition opt_text (v : json) : option string := match v with JStr s => Some s | _ => None end.

Section Calendar.
Context (repr_container : json -> string) (as_int : json -> option Z).

(** [AttendeeOut] of an object *)
Definition validate_attendee (d : list (string * json)) : outcome AttendeeOut :=
  match dget "name" d, dget "person_id" d with
  | Some (JStr name), Some person_id =>
      match as_int person_id with
      | Some n =>
          if (1 <=? strlen name) && (strlen name <=? 256) && (0 <? n) then Ok (Attendee name n)
          else validation_error "AttendeeOut"
      | None => validation_error "AttendeeOut"
      end
  | _, _ => validation_error "AttendeeOut"
  end.
(** [AttendeeOut( **a)] *)
Definition attendee_of (a : json) : outcome AttendeeOut :=
  match a with JObj d => validate_attendee d | _ => raise TypeError "argument after ** must be a mapping" end.
Definition attendees_of (v : json) : outcome (list AttendeeOut) := l ← iter v; map_outcome attendee_of l.

(** ** A task *)

(** The visibilities of the fields a reader is shown *)
Definition allowed_visibilities (include_all_authenticated_fields : bool) : list string :=
  if include_all_authenticated_fields then ["participant"; "organiser"; "public"]%string else ["participant"]%string.
Definition visible_definition (allowed : list string) (definition : json) : outcome (list (list (string * json))) :=
  match definition with
  | JObj d =>
      match dget_or_null "id" d with
      | JStr _ =>
          shown ← in_frozenset (dget_or_null "visibility" d) allowed;
          Ok (if (shown : bool) then [d] else [])
      | _ => Ok []
      end
  | _ => Ok []
  end.
Definition definition_id (d : list (string * json)) : string := match dget_or_null "id" d with JStr s => s | _ => EmptyString end.

(** The parsed value of a field of an edit, where it has one that parses *)
Definition edited_json (raw : option string) (published : json) : outcome json :=
  if truthy_opt raw then
    v ← _parse_json raw;
    Ok (if is_null v then published else v)
  else Ok published.
Definition edited_value (edit : option TaskEdit) (f : TaskEdit -> option string) (published : json) : outcome json :=
  match edit with Some e => edited_json (f e) published | None => Ok published end.

Definition web_metadata (metadata : list (string * json)) (include_web_edit_details : bool) (t : TaskOut) : TaskOut :=
  let has := is_true (dget_or_null "has_web_edit" metadata) in
  let t := t <| to_has_web_edit := has |> in
  if negb include_web_edit_details && has then t
  else
    t <| to_web_edit_edited_at := opt_text (dget_or_null "web_edit_edited_at" metadata) |>
      <| to_web_edit_edited_by := opt_text (dget_or_null "web_edit_edited_by" metadata) |>
      <| to_web_edit_edited_by_user_id := opt_int (dget_or_null "web_edit_edited_by_user_id" metadata) |>
      <| to_web_edit_change_summary :=
           match dget_or_null "web_edit_change_summary" metadata with
           | JList l => flat_map (fun v => match v with JStr s => [s] | _ => [] end) l
           | _ => []
           end |>.

Definition nonempty {A} (l : list A) : option (list A) := match l with [] => None | _ => Some l end.

(** The values and the assignments of the fields that are shown *)
Definition visible_values (ids : list string) (v : json) : list (string * json) :=
  match v with JObj d => List.filter (fun kv => str_in kv.1 ids) d | _ => [] end.
Definition visible_assignments (ids : list string) (v : json) : list (string * json) :=
  match v with
  | JObj d => List.filter (fun kv => str_in kv.1 ids && match kv.2 with JList _ => true | _ => false end) d
  | _ => []
  end.

Definition _task_to_out (task : PublishedTask) (edit : option TaskEdit) (editor_name : option string)
  (include_web_edit_details include_management_details include_all_authenticated_fields : bool)
  (schedule_day_range : Z * Z) : outcome (option TaskOut) :=
  if deleted edit then Ok None
  else
    attendees ← _parse_json (pt_attendees_json task);
    let attendees := or_empty_list attendees in
    field_assignments ← _parse_json (pt_field_assignments_json task);
    field_values ← _parse_json (pt_field_values_json task);
    field_definitions ← _parse_json (pt_field_definitions_json task);
    additional ← _parse_json (pt_additional_json task);
    metadata ← get_task_web_edit_metadata repr_container task edit editor_name;
    attendees ← edited_value edit te_attendees_json attendees;
    field_assignments ← edited_value edit te_field_assignments_json field_assignments;
    field_values ← edited_value edit te_field_values_json field_values;
    let start := isoformat (default (pt_start_datetime task) (overlay edit te_start_datetime None)) in
    let end_ := isoformat (default (pt_end_datetime task) (overlay edit te_end_datetime None)) in
    definitions ← iter (or_empty_list field_definitions);
    visible_definitions ← map_outcome (visible_definition (allowed_visibilities include_all_authenticated_fields)) definitions;
    let visible_definitions := concat visible_definitions in
    let ids := map definition_id visible_definitions in
    started ← fromisoformat start;
    working_date ← working_date_for_datetime started (range_json schedule_day_range);
    attendees ← attendees_of attendees;
    assignments ← map_outcome (fun kv => l ← attendees_of kv.2; Ok (kv.1, l)) (visible_assignments ids field_assignments);
    definitions ← map_outcome text_dict visible_definitions;
    additional ← (if include_management_details && negb (is_null additional)
                  then d ← dict_of additional; Ok (Some d) else Ok None);
    Ok (Some (web_metadata metadata include_web_edit_details (mkTaskOut
      (pt_id task) (pt_external_task_id task) (default (pt_name task) (overlay edit te_name None))
      (overlay edit te_summary (pt_summary task)) (overlay edit te_description (pt_description task))
      start end_ working_date
      (overlay edit te_location_name (pt_location_name task)) (overlay edit te_location_address (pt_location_address task))
      (pt_task_type_code task) (pt_task_type_name task) (overlay edit te_color (pt_color task))
      attendees (nonempty assignments) (nonempty (visible_values ids field_values)) (nonempty definitions) additional
      (or_zero (pt_sort_order task)) false None None None []))).

Definition _general_schedule_item_to_out (item : PublishedGeneralScheduleItem) (schedule_day_range : Z * Z)
  : outcome PublicScheduleItemOut :=
  teams ← (if truthy_opt (gi_audience_teams_json item) then
             match loads (default EmptyString (gi_audience_teams_json item)) with
             | Ok (JList l) => Ok l
             | Ok _ => Ok []
             | Raise e => if exn_in e [JSONDecodeError; TypeError] then Ok [] else Raise e
             end
           else Ok []);
  working_date ← working_date_for_clock (inr (gi_date item)) (gi_start_time item) (range_json schedule_day_range);
  teams ← map_outcome dict_of teams;
  Ok (mkPublicScheduleItemOut (gi_id item) (gi_external_session_element_id item) (gi_title item) (gi_date item)
        (gi_start_time item) (gi_end_time item) working_date (gi_location_name item) (gi_location_address item)
        (gi_responsible item) teams (gi_description item) (gi_category_id item) (gi_category_name item)
        (gi_type_id item) (gi_type_name item) (gi_copy_template_html item) (gi_category item) (gi_colour item)
        (or_zero (gi_sort_order item))).

(** ** The calendar of an event *)

Definition privileged (u : User) : bool := u_can_edit u || u_is_admin u || u_is_root_admin u || u_is_issuer u.
Definition editor_name (u : User) : string := if truthy_str (u_display_name u) then u_display_name u else u_username u.
Definition task_le (a b : PublishedTask) : bool :=
  first_of [nulls_last by_float (pt_sort_order a) (pt_sort_order b);
            by_number (instant (pt_start_datetime a)) (instant (pt_start_datetime b))].
Definition person_le (a b : PublishedPerson) : bool :=
  first_of [by_text (pp_last_name a) (pp_last_name b); by_text (pp_first_name a) (pp_first_name b)].
Definition schedule_item_le (a b : PublishedGeneralScheduleItem) : bool :=
  first_of [by_text (gi_date a) (gi_date b); by_text (gi_start_time a) (gi_start_time b);
            nulls_last by_float (gi_sort_order a) (gi_sort_order b); by_text (gi_title a) (gi_title b)].
Definition category_le (a b : PublishedGeneralScheduleCategory) : bool :=
  first_of [nulls_last by_float (gc_sort_order a) (gc_sort_order b); by_text (gc_name a) (gc_name b)].
Definition unavailability_le (a b : PublishedPersonUnavailability) : bool :=
  first_of [by_text (pu_working_date a) (pu_working_date b); by_text (pu_start_datetime a) (pu_start_datetime b);
            by_number (pu_external_person_id a) (pu_external_person_id b)].
Definition person_out (p : PublishedPerson) : PersonOut :=
  mkPersonOut (pp_id p) (pp_external_person_id p) (pp_first_name p) (pp_last_name p).
Definition category_out (c : PublishedGeneralScheduleCategory) : PublicScheduleCategoryOut :=
  CategoryOut (gc_external_category_id c) (gc_name c) (or_zero (gc_sort_order c)).
Definition unavailability_out (u : PublishedPersonUnavailability) : PersonUnavailabilityOut :=
  UnavailabilityOut (pu_external_person_id u) (pu_working_date u) (pu_start_datetime u) (pu_end_datetime u).
Definition state_out (s : GeneralSchedulePublishState) : GeneralScheduleStateOut :=
  StateOut (option_map isoformat (gs_published_at s)) (gs_fingerprint s) (gs_item_count s).

(** [metadata.get("day_aliases")] *)
Definition day_aliases (event : Event) : outcome json :=
  if truthy_opt (ev_metadata_json event) then
    match (meta ← loads (default EmptyString (ev_metadata_json event)); get_attr "day_aliases" JNull meta) with
    | Ok v => Ok v
    | Raise e => if exn_in e [JSONDecodeError; TypeError] then Ok JNull else Raise e
    end
  else Ok JNull.

(** The names of the editors, for the edits of the tasks *)
Definition editors_of (edits : list TaskEdit) : py (list (Z * string)) :=
  let editor_ids := flat_map (fun e => match te_edited_by_user_id e with Some i => [i] | None => [] end) edits in
  match editor_ids with
  | [] => mret []
  | _ =>
      editors ← q_all t_users (fun u => among editor_ids (u_id u));
      mret (map (fun u => (u_id u, editor_name u)) editors)
  end.
Definition editor_of (editors : list (Z * string)) (edit : option TaskEdit) : option string :=
  match edit with
  | Some e => match te_edited_by_user_id e with Some i => assoc_Z i (List.rev editors) | None => None end
  | None => None
  end.

(** [linked_person_id is not None and id == linked_person_id] *)
Definition is_linked (user : User) (id : Z) : bool := eq_opt_Z (u_linked_person_id user) (Some id).
Definition own_attendees (user : User) (l : list AttendeeOut) : list AttendeeOut :=
  List.filter (fun a => is_linked user (ao_person_id a)) l.
Definition own_assignments (user : User) (assignments : option (list (string * list AttendeeOut)))
  : option (list (string * list AttendeeOut)) :=
  match assignments with
  | Some d => nonempty (flat_map (fun kv => match own_attendees user kv.2 with [] => [] | l => [(kv.1, l)] end) d)
  | None => None
  end.
Definition safe_task (user : User) (t : TaskOut) : TaskOut :=
  t <| to_attendees := own_attendees user (to_attendees t) |>
    <| to_field_assignments := own_assignments user (to_field_assignments t) |>.

Definition _build_calendar_response (event_id : Z) (current_user : User)
  (restrict_identity_directory restrict_task_assignments : bool) : py CalendarResponse :=
  event ← require_event_access event_id current_user;
  schedule_day_range ← lift (event_schedule_day_range (ev_metadata_json event));
  let include_web_edit_details := negb restrict_identity_directory && privileged current_user in
  tasks ← q_all t_published_tasks (fun t => pt_event_id t =? event_id);
  let tasks := sort_with task_le tasks in
  edits ← edits_of tasks;
  editors ← editors_of edits;
  persons ← q_all t_published_persons (fun p => pp_event_id p =? event_id);
  aliases ← lift (day_aliases event);
  items ← q_all t_published_general_schedule_items (fun i => gi_event_id i =? event_id);
  categories ← q_all t_published_general_schedule_categories (fun c => gc_event_id c =? event_id);
  state ← q_first t_general_schedule_publish_state (fun s => gs_event_id s =? event_id);
  unavailabilities ← q_all t_published_person_unavailability (fun u => pu_event_id u =? event_id);
  outputs ← lift (map_outcome (fun t =>
    let edit := edit_of edits t in
    _task_to_out t edit (editor_of editors edit) include_web_edit_details include_web_edit_details
      (negb restrict_task_assignments) schedule_day_range) tasks);
  let outputs := omap id outputs in
  let persons := sort_with person_le persons in
  let unavailabilities := sort_with unavailability_le unavailabilities in
  let persons := if restrict_identity_directory
                 then List.filter (fun p => is_linked current_user (pp_external_person_id p)) persons else persons in
  let unavailabilities :=
    if restrict_identity_directory
    then List.filter (fun u => is_linked current_user (pu_external_person_id u)) unavailabilities else unavailabilities in
  let outputs := if restrict_identity_directory && restrict_task_assignments
                 then map (safe_task current_user) outputs else outputs in
  policy_identity ← current_policy_identity;
  items ← lift (map_outcome (fun i => _general_schedule_item_to_out i schedule_day_range) (sort_with schedule_item_le items));
  acknowledged ← has_data_policy_acknowledgement current_user event_id;
  aliases ← lift (if is_null aliases then Ok None else d ← dict_of aliases; t ← text_dict d; Ok (Some t));
  let categories := map category_out (sort_with category_le categories) in
  mret (mkCalendarResponse (ev_id event) (ev_name event) (option_map date_string (ev_start_date event))
          (option_map date_string (ev_end_date event)) aliases schedule_day_range outputs (map person_out persons)
          categories categories items (option_map state_out state) (map unavailability_out unavailabilities)
          (option_map fst policy_identity) (option_map snd policy_identity) acknowledged).

(** ** What a device may keep *)

Definition offline_task (t : TaskOut) : OfflineTaskOut :=
  t <| to_additional := None |> <| to_has_web_edit := false |> <| to_web_edit_edited_at := None |>
    <| to_web_edit_edited_by := None |> <| to_web_edit_edited_by_user_id := None |> <| to_web_edit_change_summary := [] |>.
Definition offline_team (team : list (string * json)) : list OfflineAudienceTeamOut :=
  match dget_or_null "name" team, dget_or_null "short_name" team with
  | JStr name, JNull => if truthy_str name then [OfflineTeam name None] else []
  | JStr name, JStr short => if truthy_str name then [OfflineTeam name (Some short)] else []
  | _, _ => []
  end.
Definition offline_item (i : PublicScheduleItemOut) : OfflinePublicScheduleItemOut :=
  mkOfflineItem (io_id i) (io_external_session_element_id i) (io_title i) (io_date i) (io_working_date i)
    (io_start_time i) (io_end_time i) (io_location_name i) (io_location_address i) (io_responsible i)
    (flat_map offline_team (io_audience_teams i)) (io_description i) (io_category_id i) (io_category_name i)
    (io_type_name i) (io_colour i) (io_sort_order i).
Definition _offline_calendar_response (c : CalendarResponse) : OfflineCalendarResponse :=
  mkOfflineCalendar (cr_event_id c) (cr_event_name c) (cr_start_date c) (cr_end_date c) (cr_day_aliases c)
    (cr_schedule_day_range c) (map offline_task (cr_tasks c)) (cr_persons c) (cr_public_schedule_categories c)
    (cr_public_schedule_views c) (map offline_item (cr_public_schedule_items c)) (cr_unavailabilities c)
    (cr_data_policy_version c) (cr_data_policy_sha256 c) (cr_data_policy_acknowledged c).

(** ** Handlers *)

Definition get_calendar (event_id : Z) (current_user : User) : py CalendarResponse :=
  _build_calendar_response event_id current_user (negb (privileged current_user)) false.

(** [POLICY_TEMPLATE_VERSION] of [backend/app/core/governance_rendering.py] *)
Definition POLICY_TEMPLATE_VERSION : string := "2026-08-18".
Definition get_offline_calendar (event_id : Z) (current_user : User) : py OfflineCalendarResponse :=
  version ← current_policy_template_version;
  let policy_allows_allocation_names := eq_opt_str version (Some POLICY_TEMPLATE_VERSION) in
  calendar ← _build_calendar_response event_id current_user true (negb policy_allows_allocation_names);
  mret (_offline_calendar_response calendar).

Definition get_persons (event_id : Z) (current_user : User) : py (list PersonOut) :=
  _ ← require_event_access event_id current_user;
  persons ← q_all t_published_persons (fun p => pp_event_id p =? event_id);
  let persons := sort_with person_le persons in
  let persons := if privileged current_user then persons
                 else List.filter (fun p => is_linked current_user (pp_external_person_id p)) persons in
  mret (map person_out persons).
End Calendar.
