(* ===== verification/CalendarEdits.v ===== *)
(** Editing the published schedule on the web: the writing side of
    [backend/app/api/v1/calendar.py].  Bodies arrive validated by pydantic.  The sessions have [autoflush=False]: a row that was added is
    not found by a query before the commit writes it. *)
From Stdlib Require Import ZArith Lia Ascii String SpecFloat.
From stdpp Require Import base list strings.
From S2P Require Import Prelude Text TextFacts Json JsonFacts PyTime PyBuiltins PyUrl ScheduleDays Ordering Models World Cascade Commissioning Security AuditTrail Ha HaWitness HaReplication Governance Push WebEdits Calendar.

(** ** Requests *)

Definition assignments_in : Type := list (string * list AttendeeOut).
Record TaskEditIn : Type := mkTaskEditIn {
  ei_start : option string; ei_end : option string; ei_attendees : option (list AttendeeOut);
  ei_field_assignments : option assignments_in
}.
Record BatchEditItem : Type := mkBatchEditItem {
  be_task_id : Z; be_name : option string; be_summary : option string; be_description : option string;
  be_start : option string; be_end : option string; be_location_name : option string;
  be_location_address : option string; be_color : option string; be_attendees : option (list AttendeeOut);
  be_field_assignments : option assignments_in; be_field_values : option (list (string * json))
}.
Record BatchCreateItem : Type := mkBatchCreateItem {
  bc_name : string; bc_summary : option string; bc_description : option string; bc_start : string; bc_end : string;
  bc_location_name : option string; bc_location_address : option string; bc_color : option string;
  bc_attendees : option (list AttendeeOut); bc_field_assignments : option assignments_in;
  bc_field_values : option (list (string * json))
}.
Record BatchCommitRequest : Type := mkBatchCommitRequest {
  bq_edits : list BatchEditItem; bq_deletions : list Z; bq_creations : list BatchCreateItem
}.

Section Edits.
Context (repr_container : json -> string) (as_int : json -> option Z) (bracketed_ok : string -> bool) (nfkc : string -> string)
  (urlopen : http_request -> http_result) (webpush : push_request -> push_result).

(** ** Assignments *)

(** [attendee.model_dump()] *)
Definition dump_attendee (a : AttendeeOut) : json := JObj [("name", JStr (ao_name a)); ("person_id", JInt (ao_person_id a))]%string.

(** An entry of an assignment field that is no attendee is left out. *)
Definition flat_attendee (raw : json) : outcome (list json) :=
  match raw with
  | JObj d =>
      let candidate := if negb (has_key "person_id" d) && has_key "id" d
                       then dset "person_id" (dget_or_null "id" d) d else d in
      match validate_attendee as_int candidate with
      | Ok a => Ok [dump_attendee a]
      | Raise e => if exn_in e [TypeError; ValueError] then Ok [] else Raise e
      end
  | _ => Ok []
  end.
Definition _flatten_field_assignments (assignments : list (string * json)) : outcome (list json) :=
  parts ← map_outcome (fun kv => match kv.2 with
                                 | JList l => parts ← map_outcome flat_attendee l; Ok (concat parts)
                                 | _ => Ok []
                                 end) assignments;
  Ok (concat parts).

Definition invalid_request {A} (detail : string) : outcome A := raise (HTTPException 422) detail.
(** [isinstance(person_id, int)]: a boolean is an integer. *)
Definition person_number (v : json) : option Z := match v with JInt n => Some n | JBool b => Some (b2z b) | _ => None end.
Definition assigned_person (raw : json) : outcome Z :=
  match raw with
  | JObj d =>
      match person_number (match dget "person_id" d with Some v => v | None => dget_or_null "id" d end) with
      | Some n => Ok n
      | None => invalid_request "A task assignment is invalid"
      end
  | _ => invalid_request "A task assignment is invalid"
  end.
Fixpoint unique_people (seen : list Z) (l : list json) : outcome (list Z) :=
  match l with
  | [] => Ok seen
  | raw :: l =>
      n ← assigned_person raw;
      _ ← raise_if (among seen n) (HTTPException 422)
            "A person may be allocated only once across a task's assignment fields";
      unique_people (n :: seen) l
  end.
Fixpoint unique_assignments (seen : list Z) (assignments : list (string * json)) : outcome unit :=
  match assignments with
  | [] => Ok tt
  | (_, JList l) :: assignments => seen ← unique_people seen l; unique_assignments seen assignments
  | _ => invalid_request "A task assignment field is invalid"
  end.
Definition _require_unique_assignment_people (assignments : list (string * json)) : outcome unit :=
  unique_assignments [] assignments.

Definition HEX_COLOUR : regex := seq_r (cls [("#", "#")]%char) (rep 6 (cls [("0", "9"); ("a", "f"); ("A", "F")]%char)).

Fixpoint distinct (l : list Z) : bool := match l with [] => true | i :: l => negb (among l i) && distinct l end.
Definition person_name (p : PublishedPerson) : string := ustrip (pp_first_name p +:+ " " +:+ pp_last_name p).
(** The last row of an ID *)
Definition person_of (people : list PublishedPerson) (id : Z) : option PublishedPerson :=
  List.find (fun p => pp_external_person_id p =? id) (List.rev people).
Definition canonical_attendee (people : list PublishedPerson) (id : Z) : outcome AttendeeOut :=
  match person_of people id with
  | Some p =>
      let name := person_name p in
      if (1 <=? strlen name) && (strlen name <=? 256) && (0 <? id) then Ok (Attendee name id)
      else validation_error "AttendeeOut"
  | None => invalid_request "Assigned person is not part of this event"
  end.
Definition _canonical_attendees (event_id : Z) (attendees : list AttendeeOut) : py (list AttendeeOut) :=
  let person_ids := map ao_person_id attendees in
  _ ← throw_if (negb (distinct person_ids)) (HTTPException 422) "Duplicate assigned person";
  people ← q_all t_published_persons (fun p => (pp_event_id p =? event_id) && among person_ids (pp_external_person_id p));
  _ ← throw_if (negb (forallb (fun i => is_some (person_of people i)) person_ids)) (HTTPException 422)
        "Assigned person is not part of this event";
  lift (map_outcome (canonical_attendee people) person_ids).

Definition _effective_json (edited : option string) (published : option string) : outcome json :=
  _parse_json (match edited with Some _ => edited | None => published end).

Definition definition_field_id (definition : json) : list string :=
  match definition with
  | JObj d =>
      if negb (is_null (dget_or_null "id" d)) && py_eq (dget_or_null "type" d) (JStr "persons_list")
      then [py_str repr_container (dget_or_null "id" d)] else []
  | _ => []
  end.
Definition _assignment_field_ids (task : PublishedTask) : outcome (list string) :=
  definitions ← _parse_json (pt_field_definitions_json task);
  match (match definitions with JList l => flat_map definition_field_id l | _ => [] end) with
  | [] =>
      existing ← _parse_json (pt_field_assignments_json task);
      Ok (match existing with JObj d => dkeys d | _ => [] end)
  | ids => Ok ids
  end.

Definition obj_or_empty (v : json) : list (string * json) := match v with JObj d => d | _ => [] end.
Fixpoint fill (ids : list string) (d : list (string * json)) : list (string * json) :=
  match ids with [] => d | i :: ids => fill ids (if has_key i d then d else dset i (JList []) d) end.
Definition _merge_field_assignments (event_id : Z) (task : PublishedTask) (edited : option string)
  (incoming : assignments_in) : py (list (string * json)) :=
  allowed ← lift (_assignment_field_ids task);
  _ ← throw_if (negb (forallb (fun kv => str_in kv.1 allowed) incoming) || bool_decide (allowed = []))
        (HTTPException 422) "Unknown assignment field";
  current ← lift (_effective_json edited (pt_field_assignments_json task));
  changes ← mmap (fun kv => l ← _canonical_attendees event_id kv.2; mret (kv.1, JList (map dump_attendee l))) incoming;
  let effective := fill allowed (dupdate changes (obj_or_empty current)) in
  _ ← lift (_require_unique_assignment_people effective);
  mret effective.

(** ** Values and times *)

Definition _validate_link_value (value : json) : outcome json :=
  '(url, text) ← match value with
                 | JStr s => Ok (ustrip s, EmptyString)
                 | JObj d =>
                     let get k := py_str repr_container (match dget k d with Some v => v | None => JStr EmptyString end) in
                     Ok (ustrip (get "url"%string), take_points 512 (get "text"%string))
                 | _ => invalid_request "Invalid link field"
                 end;
  let link (url : string) := JObj [("url", JStr url); ("text", JStr text)]%string in
  if negb (truthy_str url) then Ok (link EmptyString)
  else
    '(scheme, netloc) ← urlsplit bracketed_ok nfkc url;
    if negb (str_in scheme ["http"; "https"]%string) || negb (truthy_str netloc) || (2048 <? strlen url)
    then invalid_request "Link fields require an HTTP or HTTPS URL"
    else Ok (link url).

(** [{str(d.get("id")): d.get("type")}] *)
Definition definition_type (definition : json) : list (string * json) :=
  match definition with
  | JObj d => if is_null (dget_or_null "id" d) then []
              else [(py_str repr_container (dget_or_null "id" d), dget_or_null "type" d)]
  | _ => []
  end.
Definition merge_value (types merged : list (string * json)) (kv : string * json) : outcome (list (string * json)) :=
  let type := dget_or_null kv.1 types in
  if is_null type then invalid_request "Unknown task field"
  else if negb (py_eq type (JStr "link")) then
    _ ← raise_if (negb (py_eq kv.2 (dget_or_null kv.1 merged))) (HTTPException 422) "Task field is not editable on the web";
    Ok merged
  else v ← _validate_link_value kv.2; Ok (dset kv.1 v merged).
Fixpoint merge_values (types merged incoming : list (string * json)) : outcome (list (string * json)) :=
  match incoming with
  | [] => Ok merged
  | kv :: incoming => merged ← merge_value types merged kv; merge_values types merged incoming
  end.
Definition _merge_field_values (task : PublishedTask) (edited : option string) (incoming : list (string * json))
  : outcome (list (string * json)) :=
  definitions ← _parse_json (pt_field_definitions_json task);
  definitions ← iter (or_empty_list definitions);
  let types := dict_of_pairs (flat_map definition_type definitions) in
  current ← _effective_json edited (pt_field_values_json task);
  merge_values types (obj_or_empty current) incoming.

Definition parse_or (text : option string) (fallback : datetime) : outcome datetime :=
  match text with Some s => fromisoformat s | None => Ok fallback end.
Definition _validate_effective_task_values (start end_ : option string) (fallback_start fallback_end : datetime)
  (colour : option string) : outcome (datetime * datetime) :=
  '(s, e) ← match (s ← parse_or start fallback_start; e ← parse_or end_ fallback_end; Ok (s, e)) with
            | Ok p => Ok p
            | Raise x => if exn_in x [ValueError] then invalid_request "Invalid task datetime" else Raise x
            end;
  _ ← raise_if (xorb (is_naive s) (is_naive e)) (HTTPException 422) "Task datetimes must use the same timezone format";
  _ ← raise_if (instant e <=? instant s) (HTTPException 422) "Task end must be after its start";
  _ ← raise_if (match colour with Some c => negb (fullmatch HEX_COLOUR c) | None => false end) (HTTPException 422)
        "Invalid task colour";
  Ok (s, e).

(** ** Handlers *)

Definition may_edit (u : User) : bool := u_can_edit u || u_is_admin u || u_is_root_admin u.
Definition require_edit_permission (u : User) : py unit :=
  throw_if (negb (may_edit u)) (HTTPException 403) "Edit permission required".
Definition new_edit (task_id : Z) (user : User) : TaskEdit :=
  mkTaskEdit 0 task_id (Some (u_id user)) None None None None None None None None None None None None false None.
(** [if value is not None: edit.field = value] *)
Definition put {A} (value : option A) (set : A -> TaskEdit -> TaskEdit) (edit : TaskEdit) : TaskEdit :=
  match value with Some v => set v edit | None => edit end.
Definition set_times (start end_ : option string) (times : datetime * datetime) (edit : TaskEdit) : TaskEdit :=
  let edit := put start (fun _ e => e <| te_start_datetime := Some times.1 |>) edit in
  put end_ (fun _ e => e <| te_end_datetime := Some times.2 |>) edit.

(** The people of a task: its assignment fields, or its attendees where it has none *)
Definition edit_people (event_id : Z) (task : PublishedTask) (field_assignments : option assignments_in)
  (attendees : option (list AttendeeOut)) (edit : TaskEdit) : py TaskEdit :=
  match field_assignments, attendees with
  | Some incoming, _ =>
      data ← _merge_field_assignments event_id task (te_field_assignments_json edit) incoming;
      flat ← lift (_flatten_field_assignments data);
      mret (edit <| te_field_assignments_json := Some (dumps (JObj data)) |> <| te_attendees_json := Some (dumps (JList flat)) |>)
  | None, Some attendees =>
      ids ← lift (_assignment_field_ids task);
      _ ← throw_if (bool_decide (ids <> [])) (HTTPException 422) "Structured assignments must be edited by category";
      l ← _canonical_attendees event_id attendees;
      mret (edit <| te_attendees_json := Some (dumps (JList (map dump_attendee l))) |>)
  | None, None => mret edit
  end.

#[export] Instance task_edit_eq_dec : EqDecision TaskEdit.
Proof. solve_decision. Defined.
(** The rows of a batch that the commit writes: the edits that were added, and the
    tasks that were deleted. *)
Record batch : Type := Batch { b_added : list TaskEdit; b_deleted : list Z }.

(** [edited_at]: the database stamps a row that is written. *)
Definition stamp_edit (now : datetime) (e : TaskEdit) : TaskEdit := e <| te_edited_at := Some now |>.
Definition store_edit (found : option TaskEdit) (edit : TaskEdit) (b : batch) : py batch :=
  match found with
  | Some old =>
      now ← utc_now;
      _ ← when (bool_decide (edit <> old)) (assign t_task_edits te_task_id (te_task_id old) (fun _ => stamp_edit now edit));
      mret b
  | None => mret (Batch (b_added b ++ [edit]) (b_deleted b))
  end.
(** The unit of work: the added edits, whose task IDs are unique, then the deletions *)
Definition write_batch (b : batch) : py unit :=
  stored ← q_all t_task_edits (fun _ => true);
  let ids := map te_task_id (b_added b) in
  _ ← throw_if (negb (distinct ids) || existsb (among ids) (map te_task_id stored)) IntegrityError "task_edits.task_id";
  now ← utc_now;
  _ ← mfor (fun e => _ ← q_insert t_task_edits (fun i => stamp_edit now (e <| te_id := i |>)); mret tt) (b_added b);
  mfor delete_task (b_deleted b).

Definition edit_task (event_id task_id : Z) (body : TaskEditIn) (client : option (option string)) (current_user : User) : py unit :=
  _ ← require_edit_permission current_user;
  _ ← require_event_access event_id current_user;
  _ ← require_data_policy_acknowledgement current_user event_id;
  task ← q_first t_published_tasks (fun t => (pt_id t =? task_id) && (pt_event_id t =? event_id));
  match task with
  | None => throw (HTTPException 404) "Task not found"
  | Some task =>
      found ← q_first t_task_edits (fun e => te_task_id e =? task_id);
      let edit := default (new_edit task_id current_user) found in
      times ← lift (_validate_effective_task_values (ei_start body) (ei_end body)
        (default (pt_start_datetime task) (te_start_datetime edit)) (default (pt_end_datetime task) (te_end_datetime edit)) None);
      let edit := set_times (ei_start body) (ei_end body) times edit in
      edit ← edit_people event_id task (ei_field_assignments body) (ei_attendees body) edit;
      b ← store_edit found (edit <| te_edited_by_user_id := Some (u_id current_user) |>) (Batch [] []);
      _ ← audit (Some current_user) "calendar.task_edit" (Some "published_task"%string) (Some (pt_id task))
            (Some (dumps (JObj [("event_id", JInt event_id)]%string))) client "success";
      _ ← write_batch b;
      fenced_commit repr_container urlopen true
  end.

Definition revert_task_edit (event_id task_id : Z) (client : option (option string)) (current_user : User) : py unit :=
  _ ← require_edit_permission current_user;
  _ ← require_event_access event_id current_user;
  task ← q_first t_published_tasks (fun t => (pt_id t =? task_id) && (pt_event_id t =? event_id));
  match task with
  | None => throw (HTTPException 404) "Task not found"
  | Some task =>
      deleted ← q_delete t_task_edits (fun e => te_task_id e =? pt_id task);
      _ ← throw_if (deleted =? 0) (HTTPException 404) "No edit found for this task";
      _ ← audit (Some current_user) "calendar.task_revert" (Some "published_task"%string) (Some (pt_id task))
            (Some (dumps (JObj [("event_id", JInt event_id)]%string))) client "success";
      fenced_commit repr_container urlopen true
  end.

(** ** A batch *)

Definition the_task (tasks : list PublishedTask) (id : Z) : py PublishedTask :=
  match List.find (fun t => pt_id t =? id) tasks with Some t => mret t | None => throw KeyError (string_of_Z id) end.
Definition commit_edit (event_id : Z) (user : User) (tasks : list PublishedTask) (b : batch) (item : BatchEditItem) : py batch :=
  task ← the_task tasks (be_task_id item);
  found ← q_first t_task_edits (fun e => te_task_id e =? be_task_id item);
  let edit := default (new_edit (be_task_id item) user) found in
  let edit := put (be_name item) (fun v e => e <| te_name := Some v |>) edit in
  let edit := put (be_summary item) (fun v e => e <| te_summary := Some v |>) edit in
  let edit := put (be_description item) (fun v e => e <| te_description := Some v |>) edit in
  times ← lift (_validate_effective_task_values (be_start item) (be_end item)
    (default (pt_start_datetime task) (te_start_datetime edit)) (default (pt_end_datetime task) (te_end_datetime edit))
    (be_color item));
  let edit := set_times (be_start item) (be_end item) times edit in
  let edit := put (be_location_name item) (fun v e => e <| te_location_name := Some v |>) edit in
  let edit := put (be_location_address item) (fun v e => e <| te_location_address := Some v |>) edit in
  let edit := put (be_color item) (fun v e => e <| te_color := Some v |>) edit in
  edit ← edit_people event_id task (be_field_assignments item) (be_attendees item) edit;
  edit ← match be_field_values item with
         | Some incoming =>
             values ← lift (_merge_field_values task (te_field_values_json edit) incoming);
             mret (edit <| te_field_values_json := Some (dumps (JObj values)) |>)
         | None => mret edit
         end;
  store_edit found (edit <| te_edited_by_user_id := Some (u_id user) |>) b.

(** A task made on the web goes; a published one is hidden. *)
Definition commit_deletion (user : User) (tasks : list PublishedTask) (b : batch) (task_id : Z) : py batch :=
  task ← the_task tasks task_id;
  if pt_web_created task then
    _ ← q_delete t_task_edits (fun e => te_task_id e =? task_id);
    mret (Batch (b_added b) (b_deleted b ++ [pt_id task]))
  else
    found ← q_first t_task_edits (fun e => te_task_id e =? task_id);
    store_edit found ((default (new_edit task_id user) found) <| te_is_deleted := true |>
                        <| te_edited_by_user_id := Some (u_id user) |>) b.

Definition commit_creation (event_id : Z) (new_task : BatchCreateItem) : py (Z -> datetime -> PublishedTask) :=
  _ ← throw_if (match bc_field_assignments new_task with Some (_ :: _) => true | _ => false end) (HTTPException 422)
        "New web tasks cannot define hidden assignment fields";
  _ ← throw_if (match bc_field_values new_task with Some (_ :: _) => true | _ => false end) (HTTPException 422)
        "New web tasks cannot define hidden task fields";
  fallback_start ← utc_now;
  fallback_end ← utc_now;
  times ← lift (_validate_effective_task_values (Some (bc_start new_task)) (Some (bc_end new_task)) fallback_start fallback_end
                  (bc_color new_task));
  attendees ← _canonical_attendees event_id (default [] (bc_attendees new_task));
  mret (fun i now => (new_PublishedTask now) <| pt_id := i |> <| pt_event_id := event_id |> <| pt_external_task_id := 0 |>
    <| pt_name := bc_name new_task |> <| pt_summary := bc_summary new_task |> <| pt_description := bc_description new_task |>
    <| pt_start_datetime := times.1 |> <| pt_end_datetime := times.2 |> <| pt_location_name := bc_location_name new_task |>
    <| pt_location_address := bc_location_address new_task |> <| pt_color := bc_color new_task |>
    <| pt_attendees_json := match attendees with [] => None | l => Some (dumps (JList (map dump_attendee l))) end |>
    <| pt_web_created := true |>).

Definition mfold {A B} (f : B -> A -> py B) : B -> list A -> py B :=
  fix go b l := match l with [] => mret b | x :: l => b ← f b x; go b l end.

Record BatchCommitResponse : Type := mkBatchCommitResponse {
  bp_edits_applied : Z; bp_tasks_deleted : Z; bp_tasks_created : Z; bp_notification_sent : bool
}.
Definition batch_detail (body : BatchCommitRequest) : string :=
  dumps (JObj [("edited_task_ids", JList (map (fun i => JInt (be_task_id i)) (bq_edits body)));
               ("deleted_task_ids", JList (map JInt (bq_deletions body)));
               ("created_count", JInt (Z.of_nat (length (bq_creations body))))]%string).
(** The part of [batch_commit] that one transaction commits *)
Definition commit_batch (event_id : Z) (body : BatchCommitRequest) (client : option (option string)) (current_user : User) : py unit :=
  let affected := map be_task_id (bq_edits body) ++ bq_deletions body in
  locked ← q_all t_published_tasks (fun t => (pt_event_id t =? event_id) && among affected (pt_id t));
  let missing := List.filter (fun i => negb (among (map pt_id locked) i)) affected in
  _ ← throw_if (bool_decide (missing <> [])) (HTTPException 404)
        ("Task " +:+ string_of_Z (fold_right Z.min (hd 0 missing) missing) +:+ " not found");
  b ← mfold (commit_edit event_id current_user locked) (Batch [] []) (bq_edits body);
  b ← mfold (commit_deletion current_user locked) b (bq_deletions body);
  created ← mmap (commit_creation event_id) (bq_creations body);
  _ ← audit (Some current_user) "calendar.commit" (Some "event"%string) (Some event_id) (Some (batch_detail body)) client "success";
  _ ← write_batch b;
  now ← utc_now;
  _ ← mfor (fun row => _ ← q_insert t_published_tasks (fun i => row i now); mret tt) created;
  fenced_commit repr_container urlopen true.
Definition batch_commit (event_id : Z) (body : BatchCommitRequest) (client : option (option string)) (current_user : User)
  : py BatchCommitResponse :=
  _ ← require_edit_permission current_user;
  _ ← require_event_access event_id current_user;
  _ ← require_data_policy_acknowledgement current_user event_id;
  _ ← commit_batch event_id body client current_user;
  sent ← catch_all
    (count ← send_push_to_event repr_container urlopen webpush event_id "Masterplan Changed"
       "The masterplan has been changed manually." (Some ("/calendar?event=" +:+ string_of_Z event_id)) (Some "schedule"%string);
     mret (0 <? count))
    (mret false);
  mret (mkBatchCommitResponse (Z.of_nat (length (bq_edits body))) (Z.of_nat (length (bq_deletions body)))
          (Z.of_nat (length (bq_creations body))) sent).
End Edits.
