(* ===== verification/CalendarProps.v ===== *)
(** What a calendar shows of other people, and that the assignments of a task name
    each person once. *)
From Stdlib Require Import ZArith Lia String SpecFloat.
From stdpp Require Import base list strings.
From S2P Require Import Prelude Text TextFacts Json JsonFacts PyTime PyBuiltins ScheduleDays Ordering Models EvidenceManifest World Cascade Commissioning Sessions Security AuditTrail Ha HaWitness HaProps HaReplication Governance Push WebEdits Calendar CalendarEdits.

#[local] Hint Extern 0 (PreOrder _) => typeclasses eauto : keeps.

Ltac by_eq := by_frame ltac:(idtac; lazymatch goal with
  | |- keeps _ (_ ≫= _) => fail
  | |- _ => solve [by intros ?]
  end).

Section Reading.
Context (repr_container : json -> string) (as_int : json -> option Z).

(** ** One task *)

Lemma metadata_inv task edit name metadata : get_task_web_edit_metadata repr_container task edit name = Ok metadata ->
  is_true (dget_or_null "has_web_edit" metadata) = true \/
  metadata = [("has_web_edit", JBool false); ("web_edit_edited_at", JNull); ("web_edit_edited_by", JNull);
              ("web_edit_edited_by_user_id", JNull); ("web_edit_change_summary", JList [])]%string.
Proof.
  unfold get_task_web_edit_metadata. destruct (_ && _); [intros [= <-]; by right|].
  intros (item & _ & [= <-])%bind_Ok_inv. by left.
Qed.

(** What only the managers of an event are told of a task *)
Definition unmanaged (t : TaskOut) : Prop :=
  to_additional t = None /\ to_web_edit_edited_at t = None /\ to_web_edit_edited_by t = None /\
  to_web_edit_edited_by_user_id t = None /\ to_web_edit_change_summary t = [].
Lemma web_metadata_unmanaged task edit name metadata t :
  get_task_web_edit_metadata repr_container task edit name = Ok metadata -> unmanaged t -> unmanaged (web_metadata metadata false t).
Proof.
  intros H (A & B & C & D & E). unfold web_metadata. cbv zeta. destruct (is_true _) eqn:Eh.
  - done.
  - apply metadata_inv in H as [H| ->]; [congruence|]. done.
Qed.
Lemma web_metadata_id metadata b t : to_id (web_metadata metadata b t) = to_id t.
Proof. unfold web_metadata. cbv zeta. by destruct (_ && _). Qed.

Lemma task_out_inv task edit name details management all rng o :
  _task_to_out repr_container as_int task edit name details management all rng = Ok o ->
  match o with
  | None => deleted edit = true
  | Some t => deleted edit = false /\ to_id t = pt_id task /\ (details = false -> management = false -> unmanaged t)
  end.
Proof.
  unfold _task_to_out. destruct (deleted edit); [by intros [= <-]|].
  intros (? & _ & H)%bind_Ok_inv. cbv zeta in H.
  do 4 (apply bind_Ok_inv in H as (? & _ & H)). apply bind_Ok_inv in H as (metadata & Hm & H).
  do 10 (apply bind_Ok_inv in H as (? & _ & H); cbv zeta in H). apply bind_Ok_inv in H as (? & Ha & H).
  injection H as <-. split; [done|]. split; [by rewrite web_metadata_id|]. intros -> ->.
  apply (web_metadata_unmanaged _ _ _ _ _ Hm). injection Ha as <-. by repeat split.
Qed.

(** ** The calendar *)

Lemma policy_reads user event_id : keeps eq (has_data_policy_acknowledgement user event_id).
Proof. unfold has_data_policy_acknowledgement, current_policy_identity, latest_governance. by_eq. Qed.
Lemma editors_reads edits : keeps eq (editors_of edits).
Proof. unfold editors_of. cbv zeta. generalize (flat_map (fun e => match te_edited_by_user_id e with Some i => [i] | None => [] end) edits). intros []; by_eq. Qed.
Lemma calendar_reads event_id user r1 r2 :
  keeps eq (_build_calendar_response repr_container as_int event_id user r1 r2).
Proof.
  unfold _build_calendar_response, require_event_access, forbidden_if, edits_of, current_policy_identity, latest_governance.
  pose proof policy_reads. pose proof editors_reads. by_eq.
Qed.

Lemma omap_map {A B C} (f : A -> option B) (g : B -> C) l : map g (omap f l) = omap (fun x => option_map g (f x)) l.
Proof. induction l as [|x l IH]; [done|]. cbn. destruct (f x); cbn; by rewrite IH. Qed.
Lemma outputs_inv (f : PublishedTask -> outcome (option TaskOut)) (edit : PublishedTask -> option TaskEdit) (P : TaskOut -> Prop) tasks outputs :
  map_outcome f tasks = Ok outputs ->
  (forall t o, f t = Ok o -> match o with
                             | None => deleted (edit t) = true
                             | Some out => deleted (edit t) = false /\ to_id out = pt_id t /\ P out
                             end) ->
  map to_id (omap id outputs) = map pt_id (List.filter (fun t => negb (deleted (edit t))) tasks) /\ Forall P (omap id outputs).
Proof.
  revert outputs. induction tasks as [|t tasks IH]; intros outputs H Hf; cbn in H; [injection H as <-; by split|].
  apply bind_Ok_inv in H as (o & Ho & H). apply bind_Ok_inv in H as (rest & Hr & [= <-]).
  destruct (IH _ Hr Hf) as [Hm Hp]. apply Hf in Ho. cbn. destruct o as [out|]; cbn.
  - destruct Ho as (-> & Hid & Hout). cbn. rewrite Hm, Hid. split; [done|by constructor].
  - rewrite Ho. cbn. by split.
Qed.

(** What a calendar shows, for the two restrictions it is built with *)
Record calendar_of (event_id : Z) (user : User) (r1 r2 : bool) (db : database) (out : CalendarResponse) : Prop := {
  own_persons : r1 = true -> forall p, p ∈ cr_persons out -> u_linked_person_id user = Some (po_external_person_id p);
  own_unavailability : r1 = true -> forall u, u ∈ cr_unavailabilities out -> u_linked_person_id user = Some (uo_person_id u);
  event_persons : r1 = false -> cr_persons out = map person_out (sort_with person_le
    (List.filter (fun p => pp_event_id p =? event_id) (t_published_persons db)));
  shown_tasks : exists edits, edits = List.filter (fun e => Z_in (te_task_id e)
      (map pt_id (sort_with task_le (List.filter (fun t => pt_event_id t =? event_id) (t_published_tasks db))))) (t_task_edits db) /\
    map to_id (cr_tasks out) = map pt_id (List.filter (fun t => negb (deleted (edit_of edits t)))
      (sort_with task_le (List.filter (fun t => pt_event_id t =? event_id) (t_published_tasks db))));
  unmanaged_tasks : r1 = true \/ privileged user = false -> Forall unmanaged (cr_tasks out);
  own_allocations : r1 = true -> r2 = true -> Forall (fun t =>
    (forall a, a ∈ to_attendees t -> u_linked_person_id user = Some (ao_person_id a)) /\
    (forall d f l a, to_field_assignments t = Some d -> (f, l) ∈ d -> a ∈ l -> u_linked_person_id user = Some (ao_person_id a)))
    (cr_tasks out)
}.
Lemma is_linked_spec user id : is_linked user id = true -> u_linked_person_id user = Some id.
Proof. unfold is_linked, eq_opt_Z, opt_eqb. destruct (u_linked_person_id user) as [n|]; [|done]. by intros ->%Z.eqb_eq. Qed.
Lemma own_attendees_spec user l a : a ∈ own_attendees user l -> u_linked_person_id user = Some (ao_person_id a).
Proof. unfold own_attendees. intros [_ H]%list_elem_of_In%List.filter_In. by apply is_linked_spec. Qed.
Lemma own_assignments_spec user o d f l a :
  own_assignments user o = Some d -> (f, l) ∈ d -> a ∈ l -> u_linked_person_id user = Some (ao_person_id a).
Proof.
  destruct o as [d0|]; [|done]. cbn. unfold nonempty.
  destruct (flat_map _ d0) as [|x rest] eqn:E; [done|]. intros [= <-]. rewrite <-E. clear E x rest.
  intros ((f0 & l0) & _ & H)%list_elem_of_In%in_flat_map Ha. revert H. cbn [fst snd].
  destruct (own_attendees user l0) as [|y rest] eqn:E; [by intros []|]. intros [[= <- <-]|[]].
  rewrite <-E in Ha. by apply own_attendees_spec in Ha.
Qed.
Lemma safe_tasks user outputs : Forall (fun t =>
    (forall a, a ∈ to_attendees t -> u_linked_person_id user = Some (ao_person_id a)) /\
    (forall d f l a, to_field_assignments t = Some d -> (f, l) ∈ d -> a ∈ l -> u_linked_person_id user = Some (ao_person_id a)))
  (map (safe_task user) outputs).
Proof.
  apply Forall_forall. intros t (t0 & -> & _)%list_elem_of_fmap. split; cbn.
  - apply own_attendees_spec.
  - intros d f l a. apply own_assignments_spec.
Qed.

Lemma calendar_inv event_id user r1 r2 w out w' :
  _build_calendar_response repr_container as_int event_id user r1 r2 w = (Ok out, w') ->
  w' = w /\ calendar_of event_id user r1 r2 (w_db w) out.
Proof.
  intros H. pose proof (keeps_run _ _ _ _ _ (calendar_reads event_id user r1 r2) H) as <-. split; [done|].
  unfold _build_calendar_response in H. cbv zeta in H.
  apply Mbind_Ok_inv in H as (event & w1 & He & H). apply Mbind_Ok_inv in H as (rng & ? & [_ ->]%lift_Ok_inv & H).
  assert (w1 = w) as ->.
  { symmetry. refine (keeps_run eq _ _ _ _ _ He). unfold require_event_access, forbidden_if. by_eq. }
  apply Mbind_Ok_inv in H as (tasks & ? & [= <- <-] & H). apply Mbind_Ok_inv in H as (edits & ? & [= <- <-] & H).
  apply Mbind_Ok_inv in H as (editors & w1 & Hed & H). pose proof (keeps_run _ _ _ _ _ (editors_reads _) Hed) as <-.
  apply Mbind_Ok_inv in H as (persons & ? & [= <- <-] & H). apply Mbind_Ok_inv in H as (al & ? & [_ ->]%lift_Ok_inv & H).
  do 3 (apply Mbind_Ok_inv in H as (? & ? & [= _ <-] & H)). apply Mbind_Ok_inv in H as (us & ? & [= <- <-] & H).
  apply Mbind_Ok_inv in H as (outputs & ? & [Hout ->]%lift_Ok_inv & H).
  apply Mbind_Ok_inv in H as (? & w1 & _ & H). apply Mbind_Ok_inv in H as (? & ? & _ & H).
  apply Mbind_Ok_inv in H as (? & ? & _ & H). apply Mbind_Ok_inv in H as (? & ? & _ & [-> _]%mret_Ok_inv).
  set (tasks := sort_with task_le (List.filter (fun t => pt_event_id t =? event_id) (t_published_tasks (w_db w)))) in *.
  set (edits := List.filter _ (t_task_edits (w_db w))) in Hout.
  destruct (outputs_inv _ (edit_of edits) (fun t => r1 = true \/ privileged user = false -> unmanaged t) _ _ Hout) as [Hids Hun].
  { intros t o Ho%task_out_inv. destruct o as [o|]; [|done]. destruct Ho as (A & B & C). split; [done|]. split; [done|].
    intros Hr. assert (negb r1 && privileged user = false) as Hp by (destruct Hr as [-> | ->]; [done|apply andb_false_r]).
    by apply C. }
  split; cbn [cr_persons cr_unavailabilities cr_tasks].
  - intros -> p (p0 & -> & [_ Hp]%list_elem_of_In%List.filter_In)%list_elem_of_fmap. by apply is_linked_spec in Hp.
  - intros -> u (u0 & -> & [_ Hu]%list_elem_of_In%List.filter_In)%list_elem_of_fmap. by apply is_linked_spec in Hu.
  - by intros ->.
  - exists edits. split; [done|]. etransitivity; [|exact Hids]. destruct (r1 && r2); [by rewrite map_map|done].
  - intros Hr. assert (Forall unmanaged (omap id outputs)) as Hu.
    { eapply Forall_impl; [exact Hun|]. intros t Ht. by apply Ht. }
    destruct (r1 && r2); [|done]. apply Forall_map. eapply Forall_impl; [exact Hu|]. by intros t.
  - intros -> ->. apply safe_tasks.
Qed.


End Reading.

(** ** Assignments *)

Section Assignments.
Context (repr_container : json -> string).

Lemma dget_dupdate (changes d : list (string * json)) k v :
  NoDup (dkeys changes) -> (k, v) ∈ changes -> dget k (dupdate changes d) = Some v.
Proof.
  unfold dupdate. revert d. induction changes as [|[q x] changes IH]; intros d Hn Hin; [by apply elem_of_nil in Hin|].
  cbn in *. apply NoDup_cons in Hn as [Hq Hn]. apply elem_of_cons in Hin as [[= <- <-]|Hin]; [|by apply IH].
  clear IH. assert (dget k (dset k v d) = Some v) as Hd by (by rewrite dget_dset, String.eqb_refl). revert Hd Hq.
  generalize (dset k v d). clear Hn d. induction changes as [|[q x] changes IH]; intros d Hd Hq; [done|]. cbn in *.
  apply not_elem_of_cons in Hq as [Hne Hq]. apply IH; [|done]. rewrite dget_dset.
  by destruct (String.eqb_spec k q).
Qed.
Lemma dget_fill ids d k v : dget k d = Some v -> dget k (fill ids d) = Some v.
Proof.
  revert d. induction ids as [|i ids IH]; intros d H; [done|]. cbn. destruct (has_key i d) eqn:E; [by apply IH|].
  apply IH. rewrite dget_dset. destruct (String.eqb_spec k i) as [->|]; [|done]. rewrite has_key_dget in E. by rewrite H in E.
Qed.

(** The entries of the assignment fields *)
Definition entries (assignments : list (string * json)) : list json :=
  flat_map (fun kv => match kv.2 with JList l => l | _ => [] end) assignments.
Lemma unique_people_inv seen l seen' : unique_people seen l = Ok seen' ->
  exists people, map_outcome assigned_person l = Ok people /\ (NoDup seen -> NoDup seen') /\ seen' = List.rev people ++ seen.
Proof.
  revert seen. induction l as [|raw l IH]; intros seen H; cbn in H; [injection H as <-; by exists []|].
  apply bind_Ok_inv in H as (n & Hn & H). apply bind_Ok_inv in H as (? & Hf%raise_if_Ok_inv & H).
  apply IH in H as (people & Hp & Hnd & ->). exists (n :: people). cbn. rewrite Hn. cbn. rewrite Hp. split; [done|].
  split; [|by rewrite <-app_assoc]. intros Hs. apply Hnd. constructor; [|done].
  intros Hin. assert (among seen n = true); [|congruence]. unfold among. apply existsb_exists. exists n.
  split; [by apply list_elem_of_In|apply Z.eqb_refl].
Qed.
Lemma map_outcome_app {A B} (f : A -> outcome B) l l' ys ys' :
  map_outcome f l = Ok ys -> map_outcome f l' = Ok ys' -> map_outcome f (l ++ l') = Ok (ys ++ ys').
Proof.
  revert ys. induction l as [|x l IH]; intros ys H H'; cbn in *; [by injection H as <-|].
  apply bind_Ok_inv in H as (y & Hy & H). apply bind_Ok_inv in H as (rest & Hr & [= <-]). rewrite Hy. cbn.
  by rewrite (IH _ Hr H').
Qed.
Lemma unique_assignments_inv seen d : unique_assignments seen d = Ok tt -> NoDup seen ->
  exists people, map_outcome assigned_person (entries d) = Ok people /\ NoDup (List.rev people ++ seen) /\
    forall kv, kv ∈ d -> exists l, kv.2 = JList l.
Proof.
  revert seen. induction d as [|[k v] d IH]; intros seen H Hs; cbn in H; [exists []; repeat split; [done|]; by intros kv ?%elem_of_nil|].
  destruct v as [| | | | |l|]; try done. apply bind_Ok_inv in H as (seen' & Hl & H).
  apply unique_people_inv in Hl as (people & Hp & Hnd & ->). apply IH in H as (rest & Hr & Hn & Hlists); [|by apply Hnd].
  exists (people ++ rest). split; [|split].
  - by apply map_outcome_app.
  - by rewrite rev_app_distr, <-app_assoc.
  - intros kv [->|Hin]%elem_of_cons; [by exists l|by apply Hlists].
Qed.

(** ** The people named in a request *)

(** An attendee with the name its person is published with in the event *)
Definition canonical (event_id : Z) (db : database) (a : AttendeeOut) : Prop :=
  exists p, p ∈ t_published_persons db /\ pp_event_id p = event_id /\ pp_external_person_id p = ao_person_id a /\
    ao_name a = person_name p.
Lemma canonical_inv event_id l w l' w' : _canonical_attendees event_id l w = (Ok l', w') ->
  w' = w /\ map ao_person_id l' = map ao_person_id l /\ Forall (canonical event_id (w_db w)) l'.
Proof.
  unfold _canonical_attendees. cbv zeta. intros (? & ? & [_ ->]%throw_if_Ok_inv & H)%Mbind_Ok_inv.
  apply Mbind_Ok_inv in H as (people & ? & [= <- <-] & H). apply Mbind_Ok_inv in H as (? & ? & [_ ->]%throw_if_Ok_inv & H).
  apply lift_Ok_inv in H as [H ->]. split; [done|]. revert l' H. generalize (map ao_person_id l) at 2 3 as ids.
  intros ids. induction ids as [|i ids IH]; intros l' H; cbn in H; [by injection H as <-|].
  apply bind_Ok_inv in H as (a & Ha & H). apply bind_Ok_inv in H as (rest & Hr & [= <-]). apply IH in Hr as [Hm Hf].
  unfold canonical_attendee in Ha. destruct (person_of _ i) as [p|] eqn:Ep; [|done]. cbv zeta in Ha.
  destruct (_ && _); [|done]. injection Ha as <-. cbn. rewrite Hm. split; [done|]. constructor; [|done].
  unfold person_of in Ep. apply find_some in Ep as [Hp Hi]. apply in_rev, filter_In in Hp as [Hp He]. bool_norm.
  exists p. by rewrite list_elem_of_In.
Qed.
Lemma mmap_reads_inv {A B} (f : A -> py B) (P : A -> B -> Prop) l w ys w' :
  mmap f l w = (Ok ys, w') -> (forall x y w1, f x w = (Ok y, w1) -> w1 = w /\ P x y) -> w' = w /\ Forall2 P l ys.
Proof.
  intros H Hf. revert ys w' H. induction l as [|x l IH]; intros ys w' H; [by apply mret_Ok_inv in H as [-> ->]|].
  cbn in H. apply Mbind_Ok_inv in H as (y & w1 & [-> Hp]%Hf & H). apply Mbind_Ok_inv in H as (rest & w2 & Hl & H).
  apply IH in Hl as [-> Hr]. apply mret_Ok_inv in H as [-> ->]. split; [done|by constructor].
Qed.

(** C26: after an edit of the assignment fields of a task each person is allocated
    at most once across all of them; an edited field holds exactly the persons that
    were submitted, in order, under the names they are published with in the event;
    reading them changes nothing. *)
Theorem assignments_stay_unique event_id task edited incoming w data w'
  (H : _merge_field_assignments repr_container event_id task edited incoming w = (Ok data, w'))
  (Hkeys : NoDup (map fst incoming)) :
  w' = w /\
  (exists people, map_outcome assigned_person (entries data) = Ok people /\ NoDup people) /\
  forall f l, (f, l) ∈ incoming -> exists l', dget f data = Some (JList (map dump_attendee l')) /\
    map ao_person_id l' = map ao_person_id l /\ Forall (canonical event_id (w_db w)) l'.
Proof.
  unfold _merge_field_assignments in H. apply Mbind_Ok_inv in H as (allowed & ? & [_ ->]%lift_Ok_inv & H).
  apply Mbind_Ok_inv in H as (? & ? & [_ ->]%throw_if_Ok_inv & H). apply Mbind_Ok_inv in H as (current & ? & [_ ->]%lift_Ok_inv & H).
  apply Mbind_Ok_inv in H as (changes & w1 & Hc & H). cbv zeta in H.
  apply (mmap_reads_inv _ (fun kv ch => ch.1 = kv.1 /\ exists l', ch.2 = JList (map dump_attendee l') /\
    map ao_person_id l' = map ao_person_id kv.2 /\ Forall (canonical event_id (w_db w)) l')) in Hc as [-> Hc].
  2: { intros kv ch w2 Hx. apply Mbind_Ok_inv in Hx as (l' & w3 & (-> & Hm & Hf)%canonical_inv & [-> ->]%mret_Ok_inv).
       split; [done|]. split; [done|]. by exists l'. }
  apply Mbind_Ok_inv in H as ([] & ? & [Hu ->]%lift_Ok_inv & [-> ->]%mret_Ok_inv). split; [done|].
  assert (dkeys changes = map fst incoming) as Hk. { clear -Hc. unfold dkeys. induction Hc as [|kv ch ? ? [E _] ? IH]; cbn; [done|]. by rewrite E, IH. }
  split.
  - apply unique_assignments_inv in Hu as (people & Hp & Hn & _); [|constructor]. exists people. split; [done|].
    rewrite app_nil_r in Hn. by rewrite (Permutation_rev people).
  - intros f l Hin. apply list_elem_of_lookup in Hin as (i & Hi). destruct (Forall2_lookup_l _ _ _ _ _ Hc Hi) as ([f' v] & Hch & Ef & l' & Ev & Hm & Hf).
    cbn in *. subst f' v. exists l'. split; [|done]. apply dget_fill, dget_dupdate; [by rewrite Hk|]. apply list_elem_of_lookup. by exists i.
Qed.
End Assignments.

(** ** A small instance *)

Module Camp.
Definition now : datetime := utc_at 1785414896000000.
Definition no_repr (_ : json) : string := EmptyString.
Definition as_int (v : json) : option Z := match v with JInt n => Some n | _ => None end.
Definition unreachable (_ : http_request) : http_result := HttpFailure.
Definition no_push (_ : push_request) : push_result := PushError.
Definition editor : User := (new_User now) <| u_id := 1 |> <| u_can_edit := true |> <| u_event_id := Some 1 |>.
Definition member : User := (new_User now) <| u_id := 2 |> <| u_event_id := Some 1 |> <| u_linked_person_id := Some 8 |>.
Definition task (id : Z) (web : bool) : PublishedTask :=
  (new_PublishedTask now) <| pt_id := id |> <| pt_event_id := 1 |> <| pt_end_datetime := add_us now us_hour |> <| pt_web_created := web |>
    <| pt_field_definitions_json := Some (dumps (JList [JObj [("id", JStr "crew"); ("type", JStr "persons_list");
         ("visibility", JStr "participant")]]))%string |>
    <| pt_attendees_json := Some (dumps (JList [JObj [("name", JStr "Ann Lee"); ("person_id", JInt 7)]]))%string |>.
Definition person (id : Z) (first last : string) : PublishedPerson :=
  (new_PublishedPerson now) <| pp_id := id |> <| pp_event_id := 1 |> <| pp_external_person_id := id |>
    <| pp_first_name := first |> <| pp_last_name := last |>.
Definition db : database := empty_database
  <| t_events := [(new_Event now) <| ev_id := 1 |>] |> <| t_users := [editor; member] |>
  <| t_published_tasks := [task 1 false; task 2 true; task 3 false] |>
  <| t_published_persons := [person 7 "Ann" "Lee"; person 8 "Bo" "Ray"] |>
  <| t_task_edits := [(new_edit 3 editor) <| te_is_deleted := true |>] |>.
Definition start : world := toy_world db.
End Camp.

Lemma assignments_stay_unique_witness :
  exists data, fst (_merge_field_assignments Camp.no_repr 1 (Camp.task 1 false) None [("crew"%string, [Attendee "B." 8; Attendee "A." 7])] Camp.start) = Ok data /\
    dget "crew" data = Some (JList (map dump_attendee [Attendee "Bo Ray" 8; Attendee "Ann Lee" 7])) /\
    exists people, map_outcome assigned_person (entries data) = Ok people /\ NoDup people.
Proof.
  destruct (_merge_field_assignments Camp.no_repr 1 (Camp.task 1 false) None [("crew"%string, [Attendee "B." 8; Attendee "A." 7])] Camp.start)
    as [[data|e] w'] eqn:H; [|vm_compute in H; discriminate].
  destruct (assignments_stay_unique Camp.no_repr 1 (Camp.task 1 false) None _ Camp.start data w' H
    ltac:(apply (bool_decide_eq_true_1 _); vm_compute; reflexivity)) as (_ & Hp & _).
  exists data. split; [reflexivity|]. split; [|exact Hp]. vm_compute in H. injection H as <- _. reflexivity.
Defined.
