(* ===== verification/CalendarEditsProps.v ===== *)
(** What an edit of the schedule on the web can change, and that one that fails
    commits nothing. *)
From Stdlib Require Import ZArith Lia String SpecFloat.
From stdpp Require Import base list strings.
From S2P Require Import Prelude Text TextFacts Json JsonFacts PyTime PyBuiltins ScheduleDays Ordering Models EvidenceManifest World Cascade Commissioning Sessions Security AuditTrail Ha HaWitness HaProps HaReplication Governance Push WebEdits Calendar CalendarEdits CalendarProps.

#[local] Hint Extern 0 (PreOrder _) => typeclasses eauto : keeps.

(** ** What a commit on the web can change *)

Lemma yields_mfold (R : world -> world -> Prop) `{!PreOrder R} {A B} (f : B -> A -> py B) (P : B -> Prop) l b :
  P b -> (forall b x, P b -> yields R (f b x) P) -> yields R (mfold f b l) P.
Proof.
  intros Hb Hf. revert b Hb. induction l as [|x l IH]; intros b Hb; cbn; [by apply yields_ret|].
  eapply yields_bind; [done|by apply Hf|]. auto.
Qed.

(** The rows a commit on the web must leave: all but the tasks made on the web for
    the event and the edits of its tasks, whose IDs are [ids]. *)
Section Web.
Context (event_id : Z) (ids : list Z).
Definition web_task (t : PublishedTask) : bool := pt_web_created t && (pt_event_id t =? event_id).
Definition other_edit (e : TaskEdit) : bool := negb (among ids (te_task_id e)).
Definition erase_web (db : database) : database :=
  db <| t_published_tasks := [] |> <| t_task_edits := [] |> <| t_audit_log := [] |> <| t_push_subscriptions := [] |>.
Record kept (db db' : database) : Prop := {
  kept_tasks : without web_task (t_published_tasks db') = without web_task (t_published_tasks db);
  kept_edits : List.filter other_edit (t_task_edits db') = List.filter other_edit (t_task_edits db);
  kept_rest : erase_web db' = erase_web db
}.
#[local] Instance kept_preorder : PreOrder kept.
Proof.
  split; [by intros db|]. intros d1 d2 d3 [A B C] [A' B' C']. split; congruence.
Qed.

(** [all] are the tasks before the request: those there are later are among them
    or made on the web for the event. *)
Context (all : list PublishedTask).
Definition known (w : world) : Prop := forall t, t ∈ t_published_tasks (w_db w) -> t ∈ all \/ web_task t = true.
Definition editing (w w' : world) : Prop := known w ->
  known w' /\ kept (w_db w) (w_db w') /\ (w_committed w' = w_committed w \/ kept (w_db w) (w_committed w')).
#[local] Instance editing_preorder : PreOrder editing.
Proof.
  split; [by intros w K; repeat split; auto|]. intros w1 w2 w3 A B K. destruct (A K) as (K2 & A1 & A2). destruct (B K2) as (K3 & B1 & B2).
  split; [done|]. split; [by etransitivity|]. destruct B2 as [->|B2]; [done|right]. by etransitivity.
Qed.
Lemma editing_same w w' : known w = known w' -> kept (w_db w) (w_db w') -> w_committed w' = w_committed w -> editing w w'.
Proof. intros E K C Kn. rewrite <-E. auto. Qed.
Lemma editing_read {A} (m : py A) : keeps eq m -> keeps editing m.
Proof. intros H w. by rewrite <-(H w). Qed.
Lemma editing_now : keeps editing utc_now.
Proof. intros w. by apply editing_same. Qed.
Lemma erase_web_edits f db : erase_web (set_field t_task_edits f db) = erase_web db.
Proof. by destruct db. Qed.
Lemma erase_web_audit f db : erase_web (set_field t_audit_log f db) = erase_web db.
Proof. by destruct db. Qed.
Lemma editing_audit u a rt rid d ch o : keeps editing (audit u a rt rid d ch o).
Proof.
  unfold audit, _hash_ip. by_frame ltac:(idtac; lazymatch goal with
  | |- keeps _ (_ ≫= _) => fail
  | |- keeps _ utc_now => apply editing_now
  | |- keeps _ (q_insert _ _) => intros w; apply editing_same; [done| |done]; split; [done|done|apply (erase_web_audit _ (w_db w))]
  | |- _ => solve [by intros ?]
  end).
Qed.

Lemma update_first_filter {R} (p q : R -> bool) (f : R -> R) l :
  (forall r, p r = true -> q r = false /\ q (f r) = false) -> List.filter q (update_first p f l) = List.filter q l.
Proof.
  intros H. induction l as [|r l IH]; [done|]. cbn. destruct (p r) eqn:E; cbn.
  - destruct (H r E) as [-> ->]. done.
  - destruct (q r); by rewrite IH.
Qed.
Lemma editing_assign id f : among ids id = true -> (forall e, te_task_id e = id -> te_task_id (f e) = id) ->
  keeps editing (assign t_task_edits te_task_id id f).
Proof.
  intros Hid Hf w. apply editing_same; [done| |done]. split; [done| |apply (erase_web_edits _ (w_db w))].
  apply update_first_filter. intros e He%Z.eqb_eq. unfold other_edit. rewrite (Hf e He), He, Hid. done.
Qed.
Lemma editing_delete id : among ids id = true -> keeps editing (q_delete t_task_edits (fun e => te_task_id e =? id)).
Proof.
  intros Hid w. apply editing_same; [done| |done]. split; [done| |apply (erase_web_edits _ (w_db w))]. cbn.
  generalize (t_task_edits (w_db w)). intros l. induction l as [|e l IH]; [done|]. cbn.
  destruct (Z.eqb_spec (te_task_id e) id) as [E|]; cbn; [|by destruct (other_edit e); rewrite IH].
  assert (other_edit e = false) as -> by (unfold other_edit; by rewrite E, Hid). done.
Qed.

(** ** One edit, one deletion *)

Definition deletable (id : Z) : Prop := among ids id = true /\ forall t, t ∈ all -> pt_id t = id -> web_task t = true.
(** The added edits are of the event's tasks, the deleted tasks made on the web. *)
Definition inside (b : batch) : Prop :=
  Forall (fun e => among ids (te_task_id e) = true) (b_added b) /\ Forall deletable (b_deleted b).
Lemma store_yields found edit b : among ids (te_task_id edit) = true ->
  (forall old, found = Some old -> te_task_id old = te_task_id edit) -> inside b ->
  yields editing (store_edit found edit b) inside.
Proof.
  intros Hid Hf Hb. unfold store_edit. destruct found as [old|].
  - eapply yields_bind; [typeclasses eauto|apply yields_keeps, editing_now|]. intros now _.
    eapply yields_bind; [typeclasses eauto|apply yields_keeps|intros _ _; apply yields_ret; [typeclasses eauto|done]].
    apply keeps_when; [typeclasses eauto|]. rewrite (Hf old eq_refl). by apply editing_assign.
  - apply yields_ret; [typeclasses eauto|]. destruct Hb as [Ha Hd]. split; [|done]. apply Forall_app. split; [done|by constructor].
Qed.

Context (repr_container : json -> string) (as_int : json -> option Z) (bracketed_ok : string -> bool) (nfkc : string -> string)
  (urlopen : http_request -> http_result) (webpush : push_request -> push_result).

Lemma the_task_yields tasks id : yields editing (the_task tasks id) (fun t => t ∈ tasks /\ pt_id t = id).
Proof.
  intros w. unfold the_task. destruct (List.find _ _) as [t|] eqn:E; [|by split].
  split; [reflexivity|]. intros t' [= <-]. apply find_some_elem in E as [Ht He]. by bool_norm.
Qed.
Lemma reads_canonical e l : keeps eq (_canonical_attendees e l).
Proof. unfold _canonical_attendees. by_eq. Qed.
Lemma reads_merge e task edited incoming : keeps eq (_merge_field_assignments repr_container e task edited incoming).
Proof. unfold _merge_field_assignments. pose proof reads_canonical. by_eq. Qed.
Lemma people_yields e task fa att edit :
  yields editing (edit_people repr_container as_int e task fa att edit) (fun e' => te_task_id e' = te_task_id edit).
Proof.
  unfold edit_people. destruct fa as [incoming|]; [|destruct att as [l|]; [|apply yields_ret; [typeclasses eauto|done]]].
  - eapply yields_bind; [typeclasses eauto|apply yields_keeps, editing_read, reads_merge|intros data _].
    eapply yields_bind; [typeclasses eauto|apply yields_lift; typeclasses eauto|intros flat _].
    apply yields_ret; [typeclasses eauto|done].
  - eapply yields_bind; [typeclasses eauto|apply yields_lift; typeclasses eauto|intros fields _].
    eapply yields_bind; [typeclasses eauto|apply yields_keeps, editing_read; apply keeps_throw_if; typeclasses eauto|intros _ _].
    eapply yields_bind; [typeclasses eauto|apply yields_keeps, editing_read, reads_canonical|intros l' _].
    apply yields_ret; [typeclasses eauto|done].
Qed.
Lemma edit_of_found id user found : (forall old, found = Some old -> (te_task_id old =? id) = true) ->
  te_task_id (default (new_edit id user) found) = id.
Proof. destruct found as [old|]; [|done]. intros H. by apply Z.eqb_eq, H. Qed.
Lemma put_task_id {A} (v : option A) set e : (forall a, te_task_id (set a e) = te_task_id e) -> te_task_id (put v set e) = te_task_id e.
Proof. intros H. by destruct v; cbn. Qed.

Context (tasks : list PublishedTask) (user : User).
Context (Htasks : forall t, t ∈ tasks -> t ∈ all /\ among ids (pt_id t) = true /\ pt_event_id t = event_id)
  (Hall : NoDup (map pt_id all)).
Lemma edit_yields b item : inside b ->
  yields editing (commit_edit repr_container as_int bracketed_ok nfkc event_id user tasks b item) inside.
Proof.
  intros Hb. unfold commit_edit. eapply yields_bind; [typeclasses eauto|apply the_task_yields|intros task [Ht Hid]].
  eapply yields_bind; [typeclasses eauto|apply yields_first; typeclasses eauto|intros found Hf]. cbv zeta.
  eapply yields_bind; [typeclasses eauto|apply yields_lift; typeclasses eauto|intros times _].
  eapply yields_bind; [typeclasses eauto|apply people_yields|intros edit He].
  eapply yields_bind with (P := fun e => te_task_id e = be_task_id item); [typeclasses eauto| |].
  - assert (te_task_id edit = be_task_id item) as He'.
    { rewrite He. unfold set_times. rewrite !put_task_id by done. by apply edit_of_found. }
    destruct (be_field_values item) as [incoming|]; [|apply yields_ret; [typeclasses eauto|done]].
    eapply yields_bind; [typeclasses eauto|apply yields_lift; typeclasses eauto|intros values _].
    apply yields_ret; [typeclasses eauto|done].
  - intros edit' He'. apply store_yields; cbn; [rewrite He', <-Hid; by destruct (Htasks task Ht) as (_ & ? & _)| |done].
    intros old Ho. rewrite He'. by apply Z.eqb_eq, Hf.
Qed.


Lemma deletion_yields b id : inside b -> yields editing (commit_deletion user tasks b id) inside.
Proof.
  intros Hb. unfold commit_deletion. eapply yields_bind; [typeclasses eauto|apply the_task_yields|intros task [Ht <-]].
  destruct (Htasks task Ht) as (Hall' & Hid & Hev). destruct (pt_web_created task) eqn:Eweb.
  - eapply yields_bind; [typeclasses eauto|by apply yields_keeps, editing_delete|intros _ _].
    apply yields_ret; [typeclasses eauto|]. destruct Hb as [Ha Hd]. split; [done|]. apply Forall_app. split; [done|].
    constructor; [|done]. split; [done|]. intros t Hin Heq. assert (t = task) as ->.
    { apply (nodup_key pt_id all); auto. }
    unfold web_task. rewrite Eweb, Hev. apply Z.eqb_refl.
  - eapply yields_bind; [typeclasses eauto|apply yields_first; typeclasses eauto|intros found Hf].
    apply store_yields; cbn; [|intros old Ho|done].
    + destruct found as [old|]; cbn; [|done]. specialize (Hf old eq_refl). apply Z.eqb_eq in Hf. by rewrite Hf.
    + by rewrite Ho.
Qed.

Definition made_here (row : Z -> datetime -> PublishedTask) : Prop := forall i now, web_task (row i now) = true.
Lemma creation_yields new_task : yields editing (commit_creation event_id new_task) made_here.
Proof.
  unfold commit_creation. do 2 (eapply yields_bind; [typeclasses eauto|apply yields_keeps; auto with keeps|intros _ _]).
  do 2 (eapply yields_bind; [typeclasses eauto|apply yields_keeps, editing_now|intros ? _]).
  eapply yields_bind; [typeclasses eauto|apply yields_lift; typeclasses eauto|intros times _].
  eapply yields_bind; [typeclasses eauto|apply yields_keeps, editing_read, reads_canonical|intros att _].
  apply yields_ret; [typeclasses eauto|]. intros i now. unfold web_task. cbn. apply Z.eqb_refl.
Qed.

(** ** What the commit writes *)

Lemma erase_web_tasks f db : erase_web (set_field t_published_tasks f db) = erase_web db.
Proof. by destruct db. Qed.
Lemma erase_web_push f db : erase_web (set_field t_push_subscriptions f db) = erase_web db.
Proof. by destruct db. Qed.
Lemma editing_delete_task id : deletable id -> keeps editing (delete_task id).
Proof.
  intros [Hid Hd]. unfold delete_task. apply keeps_bind; [typeclasses eauto| |intros _; apply keeps_bind; [typeclasses eauto|by apply editing_delete|auto with keeps]].
  intros w K. split; [|split; [|by left]].
  - intros t [Ht _]%list_elem_of_In%List.filter_In. by apply K, list_elem_of_In.
  - split; [|done|apply (erase_web_tasks _ (w_db w))]. cbn. unfold known in K. revert K. unfold without.
    generalize (t_published_tasks (w_db w)). intros l K. induction l as [|t l IH]; [done|]. cbn.
    assert (List.filter (fun r => negb (web_task r)) (List.filter (fun t => negb (pt_id t =? id)) l) =
            List.filter (fun r => negb (web_task r)) l) as IH' by (apply IH; intros t' Ht'; apply K; by right).
    destruct (Z.eqb_spec (pt_id t) id) as [E|]; cbn; [|by rewrite IH'].
    assert (web_task t = true) as -> by (destruct (K t) as [Ht|Ht]; [left|by apply Hd|done]). done.
Qed.
Lemma editing_insert_edit e : among ids (te_task_id e) = true -> forall now,
  keeps editing (q_insert t_task_edits (fun i => stamp_edit now (e <| te_id := i |>))).
Proof.
  intros He now w. apply editing_same; [done| |done]. split; [done| |apply (erase_web_edits _ (w_db w))]. cbn.
  rewrite List.filter_app. cbn. unfold other_edit at 2. cbn. rewrite He. cbn. apply app_nil_r.
Qed.
Lemma editing_insert_task (row : Z -> PublishedTask) : (forall i, web_task (row i) = true) ->
  keeps editing (q_insert t_published_tasks row).
Proof.
  intros Hr w K. split; [|split; [|by left]].
  - intros t [Ht| ->%list_elem_of_singleton]%elem_of_app; [by apply K|by right].
  - split; [|done|apply (erase_web_tasks _ (w_db w))]. cbn. unfold without. rewrite List.filter_app. cbn. rewrite Hr. apply app_nil_r.
Qed.
Lemma mfor_keeps_all {A} R `{!PreOrder R} (f : A -> py unit) P l : Forall P l -> (forall x, P x -> keeps R (f x)) -> keeps R (mfor f l).
Proof. intros Hl Hf. induction Hl; cbn; [auto with keeps|]. apply keeps_bind; [done|auto|auto]. Qed.
Lemma editing_write b : inside b -> keeps editing (write_batch b).
Proof.
  intros [Ha Hd]. unfold write_batch. apply keeps_bind; [typeclasses eauto|apply editing_read; by intros ?|intros stored].
  apply keeps_bind; [typeclasses eauto|auto with keeps|intros _]. apply keeps_bind; [typeclasses eauto|apply editing_now|intros now].
  apply keeps_bind; [typeclasses eauto| |intros _].
  - eapply mfor_keeps_all; [typeclasses eauto|exact Ha|]. intros e He. apply keeps_bind; [typeclasses eauto|by apply editing_insert_edit|auto with keeps].
  - eapply mfor_keeps_all; [typeclasses eauto|exact Hd|]. intros id. apply editing_delete_task.
Qed.
Lemma editing_fence : keeps editing (fenced_commit repr_container urlopen true).
Proof.
  unfold fenced_commit. apply keeps_bind; [typeclasses eauto| |intros _ w K; split; [done|by split; [|right]]].
  apply keeps_when; [typeclasses eauto|]. intros w. destruct (same_dbs_permit repr_container urlopen false w) as (E & E' & _).
  apply editing_same; [unfold known; by rewrite E|by rewrite E|done].
Qed.

(** The rows of the request are locked and the edits and deletions collected before
    anything is written. *)
Lemma batch_yields locked body client : tasks = locked ->
  yields editing
    (b ← mfold (commit_edit repr_container as_int bracketed_ok nfkc event_id user locked) (Batch [] []) (bq_edits body);
     b ← mfold (commit_deletion user locked) b (bq_deletions body);
     created ← mmap (commit_creation event_id) (bq_creations body);
     _ ← audit (Some user) "calendar.commit" (Some "event"%string) (Some event_id) (Some (batch_detail body)) client "success";
     _ ← write_batch b;
     now ← utc_now;
     _ ← mfor (fun row => _ ← q_insert t_published_tasks (fun i => row i now); mret tt) created;
     fenced_commit repr_container urlopen true) (fun _ => True).
Proof.
  intros <-. assert (inside (Batch [] [])) as H0 by (split; constructor).
  eapply yields_bind; [typeclasses eauto|apply (yields_mfold _ _ inside); [done|intros; by apply edit_yields]|intros b1 H1].
  eapply yields_bind; [typeclasses eauto|apply (yields_mfold _ _ inside); [done|intros; by apply deletion_yields]|intros b2 H2].
  eapply yields_bind; [typeclasses eauto|apply yields_mmap; [typeclasses eauto|apply creation_yields]|intros created Hc].
  apply yields_keeps. apply keeps_bind; [typeclasses eauto|apply editing_audit|intros _].
  apply keeps_bind; [typeclasses eauto|by apply editing_write|intros _]. apply keeps_bind; [typeclasses eauto|apply editing_now|intros now].
  apply keeps_bind; [typeclasses eauto| |intros _; apply editing_fence].
  eapply mfor_keeps_all; [typeclasses eauto|exact Hc|]. intros row Hr.
  apply keeps_bind; [typeclasses eauto|apply editing_insert_task; intros i; apply Hr|auto with keeps].
Qed.
Lemma editing_push e t b u n : keeps editing (send_push_to_event repr_container urlopen webpush e t b u n).
Proof.
  unfold send_push_to_event, _vapid_configured. apply keeps_bind; [typeclasses eauto|by apply editing_read|intros []; cbn [negb]; [|auto with keeps]].
  apply keeps_bind; [typeclasses eauto|by apply editing_read|intros subs]. cbv zeta.
  apply keeps_bind; [typeclasses eauto| |intros results].
  { apply keeps_mmap; [typeclasses eauto|]. intros s. apply editing_read. unfold send_push, _vapid_configured. by_eq. }
  apply keeps_bind; [typeclasses eauto| |auto with keeps]. destruct (map fst _) as [|i l]; [auto with keeps|].
  apply keeps_bind; [typeclasses eauto| |intros _; apply editing_fence].
  intros w. apply editing_same; [done| |done]. split; [done|done|apply (erase_web_push _ (w_db w))].
Qed.
End Web.

(** ** The three requests that write *)

#[local] Existing Instance editing_preorder.
#[local] Hint Resolve uncommitted_preorder : keeps.
Ltac by_uncommitted := by_frame ltac:(idtac; lazymatch goal with
  | |- keeps _ (_ ≫= _) => fail
  | |- keeps _ (match _ with _ => _ end) => fail
  | |- keeps _ (mfor _ _) => fail
  | |- keeps _ (mmap _ _) => fail
  | |- _ => solve [intros ?; reflexivity]
  end).

Section Requests.
Context (repr_container : json -> string) (as_int : json -> option Z) (bracketed_ok : string -> bool) (nfkc : string -> string)
  (urlopen : http_request -> http_result) (webpush : push_request -> push_result).

Inductive web_write : Type :=
| EditTask (task_id : Z) (body : TaskEditIn)
| RevertTaskEdit (task_id : Z)
| BatchCommit (body : BatchCommitRequest).
Definition run_write (event_id : Z) (request : web_write) (client : option (option string)) (user : User) : py unit :=
  match request with
  | EditTask task_id body => edit_task repr_container as_int urlopen event_id task_id body client user
  | RevertTaskEdit task_id => revert_task_edit repr_container urlopen event_id task_id client user
  | BatchCommit body => _ ← batch_commit repr_container as_int bracketed_ok nfkc urlopen webpush event_id body client user; mret tt
  end.

Lemma uncommitted_read {A} (m : py A) : keeps eq m -> keeps uncommitted m.
Proof. intros H w. by rewrite <-(H w). Qed.
Lemma uncommitted_people e task fa att edit : keeps uncommitted (edit_people repr_container as_int e task fa att edit).
Proof.
  unfold edit_people. pose proof (fun e l => uncommitted_read _ (reads_canonical e l)).
  pose proof (fun e t d i => uncommitted_read _ (reads_merge repr_container e t d i)). by_uncommitted.
Qed.
Lemma uncommitted_store found edit b : keeps uncommitted (store_edit found edit b).
Proof. unfold store_edit. by_uncommitted. Qed.
Lemma uncommitted_write b : keeps uncommitted (write_batch b).
Proof. unfold write_batch, delete_task. by_uncommitted. Qed.
Lemma uncommitted_audit u a rt rid d ch o : keeps uncommitted (audit u a rt rid d ch o).
Proof. unfold audit, _hash_ip. by_uncommitted. Qed.
Lemma uncommitted_access event_id user : keeps uncommitted (require_event_access event_id user).
Proof. unfold require_event_access, forbidden_if. by_uncommitted. Qed.
Lemma uncommitted_policy event_id user : keeps uncommitted (require_data_policy_acknowledgement user event_id).
Proof. unfold require_data_policy_acknowledgement, current_policy_identity, latest_governance. by_uncommitted. Qed.
#[local] Hint Resolve uncommitted_people uncommitted_store uncommitted_write uncommitted_audit uncommitted_access uncommitted_policy : keeps.
Lemma uncommitted_mfold {A B} (f : B -> A -> py B) l b : (forall b x, keeps uncommitted (f b x)) -> keeps uncommitted (mfold f b l).
Proof. intros H. revert b. induction l as [|x l IH]; intros b; cbn; [auto with keeps|]. apply keeps_bind; [typeclasses eauto|apply H|auto]. Qed.

(** [atomic m]: when [m] raises, nothing was committed. *)
Definition atomic {A} (m : py A) : Prop := forall w e w', m w = (Raise e, w') -> w_committed w' = w_committed w.
Lemma atomic_bind {A B} (m : py A) (k : A -> py B) : keeps uncommitted m -> (forall a, atomic (k a)) -> atomic (m ≫= k).
Proof.
  intros Hm Hk w e w' H. apply Mbind_Raise_inv in H as [H|(a & w1 & H1 & H2)].
  - exact (keeps_run _ _ _ _ _ Hm H).
  - rewrite (Hk a _ _ _ H2). exact (keeps_run _ _ _ _ _ Hm H1).
Qed.
Lemma atomic_keeps {A} (m : py A) : keeps uncommitted m -> atomic m.
Proof. intros Hm w e w' H. exact (keeps_run _ _ _ _ _ Hm H). Qed.
Lemma atomic_fence : atomic (fenced_commit repr_container urlopen true).
Proof. intros w e w' H. by apply fence_inv in H as [H _]. Qed.
Ltac by_atomic := repeat first
  [ apply atomic_fence
  | apply atomic_bind; [solve [auto with keeps|by_uncommitted]|intros ?]
  | solve [apply atomic_keeps; auto with keeps] ].

Lemma catch_all_total {A} (m : py A) d w e w' : catch_all m (mret d) w <> (Raise e, w').
Proof. unfold catch_all. by destruct (m w) as [[]]. Qed.
Lemma atomic_commit event_id body client user :
  atomic (commit_batch repr_container as_int bracketed_ok nfkc urlopen event_id body client user).
Proof.
  unfold commit_batch. cbv zeta. apply atomic_bind; [by_uncommitted|intros locked]. apply atomic_bind; [by_uncommitted|intros _].
  apply atomic_bind; [apply uncommitted_mfold; intros b item; unfold commit_edit, the_task; by_uncommitted|intros b1].
  apply atomic_bind; [apply uncommitted_mfold; intros b id; unfold commit_deletion, the_task; by_uncommitted|intros b2].
  apply atomic_bind; [|intros created].
  { unfold commit_creation. pose proof (fun e l => uncommitted_read _ (reads_canonical e l)). by_uncommitted. }
  by_atomic.
Qed.
Lemma atomic_write event_id request client user : atomic (run_write event_id request client user).
Proof.
  destruct request as [id body|id|body]; cbn [run_write].
  - unfold edit_task, require_edit_permission. cbv zeta. do 4 (apply atomic_bind; [by_uncommitted|intros ?]).
    match goal with |- atomic (match ?o with _ => _ end) => destruct o as [task|] end; by_atomic.
  - unfold revert_task_edit, require_edit_permission. do 3 (apply atomic_bind; [by_uncommitted|intros ?]).
    match goal with |- atomic (match ?o with _ => _ end) => destruct o as [task|] end; by_atomic.
  - unfold batch_commit, require_edit_permission. intros w e w' H. apply Mbind_Raise_inv in H as [H|(r & w1 & _ & H)]; [|done].
    revert w e w' H. match goal with |- context [?m _ = _] => change (atomic m) end.
    do 3 (apply atomic_bind; [by_uncommitted|intros ?]).
    intros w e w' H. apply Mbind_Raise_inv in H as [H|(u & w1 & _ & H)]; [by apply atomic_commit in H|].
    apply Mbind_Raise_inv in H as [H|(s & w2 & _ & H)]; [by apply catch_all_total in H|done].
Qed.

Lemma reads_policy event_id user : keeps eq (require_data_policy_acknowledgement user event_id).
Proof. unfold require_data_policy_acknowledgement, current_policy_identity, latest_governance. by_eq. Qed.
Lemma reads_access event_id user : keeps eq (require_event_access event_id user).
Proof. unfold require_event_access, forbidden_if. by_eq. Qed.

(** What [editing] says of a run, for the tasks there are at its start *)
Definition event_tasks_ids (event_id : Z) (db : database) : list Z :=
  map pt_id (List.filter (fun t => pt_event_id t =? event_id) (t_published_tasks db)).
Lemma among_ids event_id db t : t ∈ t_published_tasks db -> pt_event_id t = event_id ->
  among (event_tasks_ids event_id db) (pt_id t) = true.
Proof.
  intros Ht He. unfold among. apply existsb_exists. exists (pt_id t). split; [|apply Z.eqb_refl].
  apply in_map, filter_In. split; [by apply list_elem_of_In|lia].
Qed.
Lemma after_read {A B} (m : py A) (k : A -> py B) (R : world -> world -> Prop) `{!PreOrder R} w :
  keeps eq m -> (forall a, fst (m w) = Ok a -> R w (snd (k a w))) -> R w (snd ((m ≫= k) w)).
Proof.
  intros Hm Hk. unfold mbind, M_bind. specialize (Hm w). destruct (m w) as [[a|e] w1]; cbn in *; subst w1; [by apply Hk|reflexivity].
Qed.
Lemma keeps_catch_all {A} (m : py A) d R : keeps R m -> keeps R (catch_all m (mret d)).
Proof. intros H w. unfold catch_all. specialize (H w). by destruct (m w) as [[]]. Qed.
Lemma after_run {A B} (m : py A) (k : A -> py B) (R : world -> world -> Prop) `{!PreOrder R} w :
  R w (snd (m w)) -> (forall a, keeps R (k a)) -> R w (snd ((m ≫= k) w)).
Proof. intros Hm Hk. unfold mbind, M_bind. destruct (m w) as [[a|e] w1]; cbn in *; [|done]. etransitivity; [exact Hm|apply Hk]. Qed.
Lemma after_keeps {A} (m : py A) (R : world -> world -> Prop) w : keeps R m -> R w (snd (m w)).
Proof. auto. Qed.
Lemma write_editing event_id request client user w :
  NoDup (map pt_id (t_published_tasks (w_db w))) ->
  editing event_id (event_tasks_ids event_id (w_db w)) (t_published_tasks (w_db w)) w
    (snd (run_write event_id request client user w)).
Proof.
  intros Hn. set (R := editing _ _ _). assert (PreOrder R) as HR by apply editing_preorder.
  destruct request as [id body|id|body]; cbn [run_write].
  - unfold edit_task. cbv zeta. do 3 (apply after_read; [done|first [apply reads_access|apply reads_policy|by_eq]|intros ? _]).
    apply after_read; [done|by_eq|]. intros [task|] [= Ht]; [|reflexivity]. apply find_some_elem in Ht as [Ht [Hid%Z.eqb_eq He]%andb_prop].
    apply Z.eqb_eq in He. apply after_read; [done|by_eq|]. intros found [= Hf]. apply after_keeps.
    assert (forall old, found = Some old -> te_task_id old = id) as Hf'.
    { intros old ->. by apply find_some_elem in Hf as [_ Hf%Z.eqb_eq]. }
    apply (keeps_yields _ _ (fun _ => True)).
    eapply yields_bind; [done|apply yields_lift; done|intros times _].
    eapply yields_bind; [done|apply people_yields|intros edit Hed].
    eapply yields_bind with (P := inside event_id (event_tasks_ids event_id (w_db w)) (t_published_tasks (w_db w))); [done|apply store_yields; cbn|intros b Hb].
    + rewrite Hed. unfold set_times. rewrite !put_task_id by done.
      destruct found as [old|]; cbn; [rewrite (Hf' old eq_refl)|]; rewrite <-Hid; by apply among_ids.
    + intros old Ho. rewrite Hed. unfold set_times. rewrite !put_task_id by done. by rewrite Ho.
    + split; constructor.
    + apply yields_keeps. apply keeps_bind; [done|apply editing_audit|intros _].
      apply keeps_bind; [done|by apply editing_write|intros _]. apply editing_fence.
  - unfold revert_task_edit. do 2 (apply after_read; [done|first [apply reads_access|by_eq]|intros ? _]).
    apply after_read; [done|by_eq|]. intros [task|] [= Ht]; [|reflexivity]. apply find_some_elem in Ht as [Ht [_ He]%andb_prop].
    apply Z.eqb_eq in He. apply after_keeps. apply keeps_bind; [done|apply editing_delete; by apply among_ids|intros n].
    apply keeps_bind; [done|auto with keeps|intros _]. apply keeps_bind; [done|apply editing_audit|intros _]. apply editing_fence.
  - apply after_run; [done| |intros ?; apply keeps_ret; done]. unfold batch_commit.
    do 3 (apply after_read; [done|first [apply reads_access|apply reads_policy|by_eq]|intros ? _]).
    apply after_run; [done| |intros _].
    + unfold commit_batch. cbv zeta. apply after_read; [done|by_eq|]. intros locked [= Hl].
      apply after_read; [done|by_eq|intros _ _]. refine (keeps_yields _ _ _ (batch_yields event_id _ _ _ _ _ _ _ locked user _ Hn locked body client eq_refl) w).
      intros t Ht. rewrite <-Hl in Ht. apply list_elem_of_In, filter_In in Ht as [Ht [He _]%andb_prop].
      apply Z.eqb_eq in He. apply list_elem_of_In in Ht. split; [done|]. split; [by apply among_ids|done].
    + apply keeps_bind; [done| |intros ?; apply keeps_ret; done].
      apply keeps_catch_all. apply keeps_bind; [done|apply editing_push|intros ?; apply keeps_ret; done].
Qed.

(** C23: an edit, a revert or a batch of edits, deletions and creations on the web
    leaves, in the session and in what is committed, every published task, every
    task and every edit of other events, and all other tables but the audit log and
    the push subscriptions as they were; and one that fails commits nothing. *)
Theorem web_write_keeps_published_rows event_id request client user w o w'
  (H : run_write event_id request client user w = (o, w')) (Hn : NoDup (map pt_id (t_published_tasks (w_db w)))) :
  let ids := event_tasks_ids event_id (w_db w) in
  kept event_id ids (w_db w) (w_db w') /\
  (w_committed w' = w_committed w \/ kept event_id ids (w_db w) (w_committed w')) /\
  (forall e, o = Raise e -> w_committed w' = w_committed w).
Proof.
  pose proof (write_editing event_id request client user w Hn) as He. rewrite H in He.
  destruct He as (_ & Hk & Hc); [by intros t Ht; left|]. split; [done|]. split; [done|].
  intros e ->. by apply atomic_write in H.
Qed.
End Requests.

(** ** A small instance *)

Module Batch.
Import Camp.
(** Task 1 is allocated, the web task 2 deleted and a task created. *)
Definition item : BatchEditItem :=
  mkBatchEditItem 1 None None None None None None None None None (Some [("crew"%string, [Attendee "B. Ray" 8; Attendee "A. L." 7])]) None.
Definition creation : BatchCreateItem :=
  mkBatchCreateItem "New" None None "2026-08-01T10:00:00" "2026-08-01T11:00:00" None None None None None None.
Definition body : BatchCommitRequest := mkBatchCommitRequest [item] [2] [creation].
Definition commit_run : outcome unit * world :=
  run_write no_repr as_int (fun _ => true) id unreachable no_push 1 (BatchCommit body) None editor start.
End Batch.

Lemma web_write_keeps_published_rows_witness :
  exists w', Batch.commit_run = (Ok tt, w') /\ map pt_name (t_published_tasks (w_committed w')) = [EmptyString; EmptyString; "New"%string] /\
    kept 1 [1; 2; 3] (w_db Camp.start) (w_db w').
Proof.
  unfold Batch.commit_run. destruct (run_write _ _ _ _ _ _ _ _ _ _ _) as [o w'] eqn:H.
  assert (NoDup (map pt_id (t_published_tasks (w_db Camp.start)))) as Hn by (apply (bool_decide_eq_true_1 _); vm_compute; reflexivity).
  destruct (web_write_keeps_published_rows Camp.no_repr Camp.as_int (fun _ => true) id Camp.unreachable Camp.no_push
    1 (BatchCommit Batch.body) None Camp.editor Camp.start o w' H Hn) as (Hk & _).
  exists w'. assert (Batch.commit_run = (o, w')) as E by exact H. clear H.
  assert (o = Batch.commit_run.1) as -> by (rewrite E; reflexivity).
  assert (w' = Batch.commit_run.2) as Hw by (rewrite E; reflexivity). clear E.
  split; [f_equal; vm_compute; reflexivity|]. split; [rewrite Hw; vm_compute; reflexivity|exact Hk].
Defined.

