(* ===== verification/PublicLinks.v ===== *)
(** Shared links to public schedules, [backend/app/api/v1/public_schedule_links.py]:
    their management by the root account and the issuers of an event, and what
    the holder of a token is shown.  Requests are validated bodies; a handler
    answers the status code and the body. *)
From Stdlib Require Import ZArith Lia Ascii String SpecFloat.
From stdpp Require Import base list strings.
From S2P Require Import Prelude Text TextFacts Json Sha256 PyTime PyBuiltins ScheduleDays Ordering Models World Cascade Commissioning AuditTrail Ha HaWitness HaReplication.

Definition us_year : Z := 365 * us_day.
Definition _MAX_EXPIRY : Z := us_year.
Definition _TOKEN_MIN_LENGTH : Z := 20.
Definition _TOKEN_MAX_LENGTH : Z := 256.
Definition _UNAVAILABLE_DETAIL : string := "Shared schedule not available".

(** ** Requests *)

Definition _aware_utc (value : datetime) : datetime :=
  if is_naive value then replace_utc value else astimezone_utc value.

Definition invalid {A} (detail : string) : outcome A := raise (HTTPException 422) detail.
(** The bounds of a field, then its validator *)
Definition normalise_description (value : string) : outcome string :=
  if negb ((1 <=? strlen value) && (strlen value <=? 256)) then invalid "description length"
  else
    let value := ustrip value in
    if truthy_str value then Ok value else invalid "Description is required".
Fixpoint unique_ids (l : list Z) : bool :=
  match l with [] => true | i :: l => negb (among l i) && unique_ids l end.
Definition validate_view_ids (value : list Z) : outcome (list Z) :=
  let n := Z.of_nat (length value) in
  if negb ((1 <=? n) && (n <=? 100)) then invalid "view_ids length"
  else if existsb (fun i => i <=? 0) value then invalid "View IDs must be positive"
  else if negb (unique_ids value) then invalid "View IDs must be unique"
  else Ok value.
Definition validate_key (key : option string) : outcome unit :=
  raise_if (match key with Some k => negb (fullmatch _IDEMPOTENCY_KEY k) | None => false end) (HTTPException 422) "idempotency_key".

Record PublicScheduleLinkCreate : Type := LinkCreate {
  lc_description : string; lc_expires_at : datetime; lc_view_ids : list Z; lc_token : string;
  lc_idempotency_key : option string
}.
Definition validate_create (b : PublicScheduleLinkCreate) : outcome PublicScheduleLinkCreate :=
  description ← normalise_description (lc_description b);
  view_ids ← validate_view_ids (lc_view_ids b);
  _ ← raise_if (negb ((32 <=? strlen (lc_token b)) && (strlen (lc_token b) <=? 256))) (HTTPException 422) "token length";
  _ ← validate_key (lc_idempotency_key b);
  Ok (LinkCreate description (lc_expires_at b) view_ids (lc_token b) (lc_idempotency_key b)).

(** A field that was sent, which may be null; [None] where it was not sent *)
Record PublicScheduleLinkUpdate : Type := LinkUpdate {
  lu_description : option (option string); lu_expires_at : option (option datetime);
  lu_view_ids : option (option (list Z)); lu_idempotency_key : option string
}.
Definition validated {A B} (f : A -> outcome B) (o : option (option A)) : outcome (option (option B)) :=
  match o with
  | Some (Some a) => b ← f a; Ok (Some (Some b))
  | Some None => Ok (Some None)
  | None => Ok None
  end.
Definition validate_update (b : PublicScheduleLinkUpdate) : outcome PublicScheduleLinkUpdate :=
  description ← validated normalise_description (lu_description b);
  view_ids ← validated validate_view_ids (lu_view_ids b);
  _ ← validate_key (lu_idempotency_key b);
  Ok (LinkUpdate description (lu_expires_at b) view_ids (lu_idempotency_key b)).

Definition _validate_expiry (value : datetime) : py datetime :=
  _ ← throw_if (is_naive value) (HTTPException 422) "Expiry must include a timezone";
  let value := astimezone_utc value in
  now ← utc_now;
  _ ← throw_if (instant value <=? instant now) (HTTPException 422) "Expiry must be in the future";
  _ ← throw_if (instant now + _MAX_EXPIRY <? instant value) (HTTPException 422) "Expiry cannot be more than one year away";
  mret value.

(** ** Access and rows *)

Definition _require_event_access (event_id : Z) (user : User) : py Event :=
  event ← q_first t_events (fun e => ev_id e =? event_id);
  match event with
  | None => throw (HTTPException 404) "Event not found"
  | Some event =>
      if u_is_root_admin user then mret event
      else if u_is_issuer user && eq_opt_Z (u_event_id user) (Some event_id) then mret event
      else throw (HTTPException 403) "No access to this event"
  end.

(** [{row.external_category_id: row}]: the last row of an ID *)
Definition view (id : Z) (views : list PublishedGeneralScheduleCategory) : option PublishedGeneralScheduleCategory :=
  List.find (fun v => gc_external_category_id v =? id) (List.rev views).
Definition has_view (views : list PublishedGeneralScheduleCategory) (id : Z) : bool := is_some (view id views).
Definition _current_views (event_id : Z) : py (list PublishedGeneralScheduleCategory) :=
  q_all t_published_general_schedule_categories (fun c => gc_event_id c =? event_id).

Definition grant_le (a b : PublicScheduleLinkView) : bool :=
  first_of [by_float (pv_sort_order_snapshot a) (pv_sort_order_snapshot b);
            by_text (pv_view_name_snapshot a) (pv_view_name_snapshot b)].
Definition _link_view_rows (link_id : Z) : py (list PublicScheduleLinkView) :=
  rows ← q_all t_public_schedule_link_views (fun v => pv_link_id v =? link_id);
  mret (sort_with grant_le rows).
Definition grant (id : Z) (rows : list PublicScheduleLinkView) : option PublicScheduleLinkView :=
  List.find (fun r => pv_external_view_id r =? id) (List.rev rows).

Definition unsettled (o : HAProtectionOperation) : bool := str_in (ho_state o) ["pending"; "indeterminate"]%string.
Definition operation_of (link_id : Z) (o : HAProtectionOperation) : bool :=
  String.eqb (ho_resource_type o) "public_schedule_link" && eq_opt_str (ho_resource_id o) (Some (string_of_Z link_id)).

Definition _link_status (link : PublicScheduleLink) (view_rows : list PublicScheduleLinkView)
  (available : list PublishedGeneralScheduleCategory) : py string :=
  if is_some (pl_invalidated_at link) then mret "invalidated"%string
  else
    now ← utc_now;
    mret (if instant (_aware_utc (pl_expires_at link)) <=? instant now then "expired"%string
          else if negb (existsb (fun r => has_view available (pv_external_view_id r)) view_rows) then "unavailable"%string
          else "active"%string).

Record PublicScheduleLinkViewOut : Type := LinkViewOut { vo_id : Z; vo_name : string; vo_available : bool }.
(** The metadata of a link: the hash of its token is not among them. *)
Record PublicScheduleLinkOut : Type := LinkOut {
  lo_id : Z; lo_event_id : Z; lo_description : string; lo_expires_at : datetime; lo_invalidated_at : option datetime;
  lo_created_at : option datetime; lo_created_by_id : option Z; lo_status : string;
  lo_views : list PublicScheduleLinkViewOut; lo_protection : option HAProtectionOperation; lo_share_url : option string
}.

Section Links.
Context (repr_container : json -> string) (urlopen : http_request -> http_result).

Definition _link_operation (link_id : Z) : py (option HAProtectionOperation) :=
  mode ← setting HA_MODE;
  if negb (String.eqb mode "ha") then mret None
  else
    operations ← q_all t_ha_protection_operations (operation_of link_id);
    match latest ho_mutation_sequence operations with
    | Some o =>
        if unsettled o then o ← sync_protection_operation repr_container o; mret (Some o)
        else mret (Some o)
    | None => mret None
    end.

(** The operation is queued for the standby: the answer is then 202. *)
Definition _queue_link_operation (operation : option HAProtectionOperation) (status : Z) : py Z :=
  match operation with
  | None => mret status
  | Some o =>
      queue_error ← queue_protection_operation (Some o) None;
      _ ← match queue_error with
          | Some code =>
              _ ← q_update t_ha_protection_operations (same_operation o)
                    (fun o => o <| ho_state := "indeterminate"%string |> <| ho_stage := "attention_required"%string |>
                                <| ho_error_code := Some code |>);
              commit
          | None => mret tt
          end;
      mret 202
  end.

Definition view_out (views : list PublishedGeneralScheduleCategory) (r : PublicScheduleLinkView) : PublicScheduleLinkViewOut :=
  let id := pv_external_view_id r in
  LinkViewOut id (match view id views with Some v => gc_name v | None => pv_view_name_snapshot r end) (has_view views id).
Definition _serialise_link (link : PublicScheduleLink) (share_url : option string) : py PublicScheduleLinkOut :=
  current_views ← _current_views (pl_event_id link);
  view_rows ← _link_view_rows (pl_id link);
  operation ← _link_operation (pl_id link);
  link_status ← _link_status link view_rows current_views;
  let link_status := if match operation with Some o => unsettled o | None => false end then "securing"%string else link_status in
  mret (LinkOut (pl_id link) (pl_event_id link) (pl_description link) (_aware_utc (pl_expires_at link))
          (option_map _aware_utc (pl_invalidated_at link)) (option_map _aware_utc (pl_created_at link))
          (pl_created_by_id link) link_status (map (view_out current_views) view_rows) operation share_url).

Definition _load_managed_link (event_id link_id : Z) (user : User) : py PublicScheduleLink :=
  _ ← _require_event_access event_id user;
  link ← q_first t_public_schedule_links (fun l => (pl_id l =? link_id) && (pl_event_id l =? event_id));
  match link with
  | Some l => mret l
  | None => throw (HTTPException 404) "Public schedule link not found"
  end.

Definition _require_active_link (link : PublicScheduleLink) : py unit :=
  view_rows ← _link_view_rows (pl_id link);
  current ← _current_views (pl_event_id link);
  status_value ← _link_status link view_rows current;
  throw_if (str_in status_value ["expired"; "invalidated"]%string) (HTTPException 409) "Link is no longer active".

(** The permissions become [view_ids]; one that is there already follows the view
    it names. *)
Definition put_permission (link : PublicScheduleLink) (current_views : list PublishedGeneralScheduleCategory)
  (existing : list PublicScheduleLinkView) (view_id : Z) : py unit :=
  match grant view_id existing, view view_id current_views with
  | Some previous, Some current =>
      assign t_public_schedule_link_views pv_id (pv_id previous)
        (fun r => r <| pv_view_name_snapshot := gc_name current |>
                    <| pv_sort_order_snapshot := or_zero (gc_sort_order current) |>)
  | Some _, None => mret tt
  | None, Some current =>
      _ ← q_insert t_public_schedule_link_views (fun i =>
            mkPublicScheduleLinkView i (pl_id link) view_id (gc_name current) (or_zero (gc_sort_order current)));
      mret tt
  | None, None => throw AttributeError "'NoneType' object has no attribute 'name'"
  end.
Definition _replace_view_permissions (link : PublicScheduleLink) (view_ids : list Z) (allow_existing_unavailable : bool)
  : py unit :=
  current_views ← _current_views (pl_event_id link);
  existing ← _link_view_rows (pl_id link);
  _ ← throw_if (existsb (fun i => negb (has_view current_views i) &&
                                  (negb allow_existing_unavailable || is_none (grant i existing))) view_ids)
        (HTTPException 422) "One or more Public Schedule views are unavailable";
  let removed := map pv_id (List.filter (fun r => negb (among view_ids (pv_external_view_id r))) existing) in
  _ ← q_delete t_public_schedule_link_views (fun r => among removed (pv_id r));
  mfor (put_permission link current_views existing) view_ids.

Definition _validate_new_view_permissions (event_id : Z) (view_ids : list Z) : py unit :=
  current ← _current_views event_id;
  throw_if (existsb (fun i => negb (has_view current i)) view_ids)
    (HTTPException 422) "One or more Public Schedule views are unavailable".

(** The protection of a change and the commit of both: either fails and the change
    is rolled back. *)
Definition abandon (protection : option HAProtectionOperation) (e : exn) : py (option HAProtectionOperation) :=
  _ ← rollback;
  _ ← cancel_uncommitted_protection urlopen protection;
  if exn_in e [HAWritePermitError] then throw (HTTPException 503) "The standby protection guard is unavailable"
  else lift (Raise e).
Definition protected_commit (key : option string) (operation_type : string) (link_id : Z) : py (option HAProtectionOperation) :=
  fun w =>
    match create_protection_operation urlopen (default EmptyString key) operation_type "public_schedule_link"
            (Some (string_of_Z link_id)) w with
    | (Raise e, w1) => abandon None e w1
    | (Ok protection, w1) =>
        match fenced_commit repr_container urlopen true w1 with
        | (Raise e, w2) => abandon protection e w2
        | (Ok _, w2) => (Ok protection, w2)
        end
    end.

(** A request that is repeated in the cluster: the operation its key names. *)
Definition replayed (key : option string) (operation_type : string) (resource_id : option string)
  : py (option HAProtectionOperation) :=
  mode ← setting HA_MODE;
  if negb (String.eqb mode "ha") then mret None
  else
    match key with
    | None => throw (HTTPException 422) "Idempotency key is required in HA mode"
    | Some key =>
        existing ← find_protection_operation key;
        match existing with
        | None => mret None
        | Some o =>
            _ ← throw_if (negb (String.eqb (ho_operation_type o) operation_type) ||
                          match resource_id with Some r => negb (eq_opt_str (ho_resource_id o) (Some r)) | None => false end)
                  (HTTPException 409) "Idempotency key is already in use";
            mret (Some o)
        end
    end.
Definition answer_replayed (o : HAProtectionOperation) (link : PublicScheduleLink) : py (Z * PublicScheduleLinkOut) :=
  _ ← sync_protection_operation repr_container o;
  _ ← commit;
  out ← _serialise_link link None;
  mret (202, out).
(** In the cluster a change that is not settled blocks the next one. *)
Definition refuse_unsettled (o : option HAProtectionOperation) : py unit :=
  throw_if (match o with Some o => unsettled o | None => false end) (HTTPException 409) "protection_pending".
Definition refuse_pending (link_id : Z) : py unit :=
  mode ← setting HA_MODE;
  if String.eqb mode "ha" then pending ← _link_operation link_id; refuse_unsettled pending else mret tt.

Definition list_public_schedule_links (event_id : Z) (user : User) : py (list PublicScheduleLinkOut) :=
  _ ← _require_event_access event_id user;
  links ← q_all t_public_schedule_links (fun l => pl_event_id l =? event_id);
  let created l := match pl_created_at l with Some d => instant d | None => 0 end in
  let links := sort_with (fun a b => first_of [by_number (created b) (created a); by_number (pl_id b) (pl_id a)]) links in
  values ← mmap (fun l => _serialise_link l None) links;
  _ ← commit;
  mret values.

Definition link_detail (l : list (string * json)) : option string := Some (dumps (JObj l)).
Definition the_link : Z -> py PublicScheduleLink := row t_public_schedule_links pl_id.
Definition set_link : Z -> (PublicScheduleLink -> PublicScheduleLink) -> py unit := assign t_public_schedule_links pl_id.

Definition create_public_schedule_link (event_id : Z) (body : PublicScheduleLinkCreate) (client : option (option string))
  (user : User) : py (Z * PublicScheduleLinkOut) :=
  body ← lift (validate_create body);
  _ ← _require_event_access event_id user;
  expires_at ← _validate_expiry (lc_expires_at body);
  _ ← _validate_new_view_permissions event_id (lc_view_ids body);
  let token_hash := sha256 (lc_token body) in
  existing ← replayed (lc_idempotency_key body) "public-link-create" None;
  match existing with
  | Some o =>
      id ← lift (match ho_resource_id o with Some r => if truthy_str r then int_of_str r else Ok 0 | None => Ok 0 end);
      link ← q_first t_public_schedule_links (fun l => pl_id l =? id);
      match link with
      | None => throw (HTTPException 409) "Idempotent link request does not match"
      | Some link =>
          _ ← throw_if (negb (String.eqb (pl_token_hash link) token_hash)) (HTTPException 409)
                "Idempotent link request does not match";
          answer_replayed o link
      end
  | None =>
      stamp ← utc_now;
      link ← q_insert t_public_schedule_links (fun i =>
        mkPublicScheduleLink i event_id token_hash (lc_description body) expires_at None (Some (u_id user)) (Some stamp));
      _ ← _replace_view_permissions link (lc_view_ids body) false;
      _ ← audit (Some user) "public_schedule_link.create" (Some "public_schedule_link"%string) (Some (pl_id link))
            (link_detail [("event_id", JInt event_id); ("view_ids", JList (map JInt (lc_view_ids body)));
                          ("expires_at", JStr (isoformat expires_at))]%string) client "success";
      protection ← protected_commit (lc_idempotency_key body) "public-link-create" (pl_id link);
      link ← the_link (pl_id link);
      status ← _queue_link_operation protection 201;
      out ← _serialise_link link
              (if is_none protection then Some ("/shared-schedule#token=" +:+ lc_token body) else None);
      mret (status, out)
  end.

Definition present {A} (o : option (option A)) (detail : string) : outcome (option A) :=
  match o with Some None => invalid detail | Some (Some a) => Ok (Some a) | None => Ok None end.
Definition update_public_schedule_link (event_id link_id : Z) (body : PublicScheduleLinkUpdate)
  (client : option (option string)) (user : User) : py (Z * PublicScheduleLinkOut) :=
  body ← lift (validate_update body);
  _ ← throw_if (is_none (lu_description body) && is_none (lu_expires_at body) && is_none (lu_view_ids body))
        (HTTPException 422) "No changes supplied";
  link ← _load_managed_link event_id link_id user;
  existing ← replayed (lu_idempotency_key body) "public-link-update" (Some (string_of_Z link_id));
  match existing with
  | Some o => answer_replayed o link
  | None =>
      _ ← refuse_pending link_id;
      _ ← _require_active_link link;
      description ← lift (present (lu_description body) "Description is required");
      _ ← match description with
          | Some d => set_link link_id (fun l => l <| pl_description := d |>) | None => mret tt end;
      expires_at ← lift (present (lu_expires_at body) "Expiry is required");
      _ ← match expires_at with
          | Some e => e ← _validate_expiry e; set_link link_id (fun l => l <| pl_expires_at := e |>)
          | None => mret tt
          end;
      view_ids ← lift (present (lu_view_ids body) "At least one view is required");
      _ ← match view_ids with Some ids => _replace_view_permissions link ids true | None => mret tt end;
      let changed_fields := (if is_some description then ["description"] else []) ++
        (if is_some expires_at then ["expires_at"] else []) ++ (if is_some view_ids then ["view_ids"] else []) in
      _ ← audit (Some user) "public_schedule_link.update" (Some "public_schedule_link"%string) (Some link_id)
            (link_detail [("event_id", JInt event_id); ("changed_fields", JList (map JStr changed_fields))]%string)
            client "success";
      protection ← protected_commit (lu_idempotency_key body) "public-link-update" link_id;
      link ← the_link link_id;
      status ← _queue_link_operation protection 200;
      out ← _serialise_link link None;
      mret (status, out)
  end.

Definition invalidate_public_schedule_link (event_id link_id : Z) (idempotency_key : option string)
  (client : option (option string)) (user : User) : py (Z * PublicScheduleLinkOut) :=
  _ ← lift (validate_key idempotency_key);
  link ← _load_managed_link event_id link_id user;
  existing ← replayed idempotency_key "public-link-invalidate" (Some (string_of_Z link_id));
  match existing with
  | Some o => answer_replayed o link
  | None =>
      _ ← refuse_pending link_id;
      _ ← _require_active_link link;
      now ← utc_now;
      _ ← set_link link_id (fun l => l <| pl_invalidated_at := Some now |>);
      _ ← audit (Some user) "public_schedule_link.invalidate" (Some "public_schedule_link"%string) (Some link_id)
            (link_detail [("event_id", JInt event_id)]%string) client "success";
      protection ← protected_commit idempotency_key "public-link-invalidate" link_id;
      link ← the_link link_id;
      status ← _queue_link_operation protection 200;
      out ← _serialise_link link None;
      mret (status, out)
  end.

(** The link, and with it its permissions *)
Definition delete_link_row (link_id : Z) : py unit :=
  _ ← q_delete t_public_schedule_links (fun l => pl_id l =? link_id);
  _ ← q_delete t_public_schedule_link_views (fun v => pv_link_id v =? link_id);
  mret tt.
Definition delete_public_schedule_link (event_id link_id : Z) (idempotency_key : option string)
  (client : option (option string)) (user : User) : py (Z * option HAProtectionOperation) :=
  _ ← lift (validate_key idempotency_key);
  existing ← replayed idempotency_key "public-link-delete" (Some (string_of_Z link_id));
  match existing with
  | Some o => o ← sync_protection_operation repr_container o; _ ← commit; mret (202, Some o)
  | None =>
      link ← _load_managed_link event_id link_id user;
      pending ← _link_operation (pl_id link);
      _ ← refuse_unsettled pending;
      out ← _serialise_link link None;
      _ ← audit (Some user) "public_schedule_link.delete" (Some "public_schedule_link"%string) (Some (pl_id link))
            (link_detail [("event_id", JInt event_id); ("previous_status", JStr (lo_status out))]%string) client "success";
      _ ← delete_link_row (pl_id link);
      protection ← protected_commit idempotency_key "public-link-delete" (pl_id link);
      status ← _queue_link_operation protection 204;
      mret (status, protection)
  end.

(** ** What the holder of a token is shown *)

Definition before_space (s : string) : option (string * string) :=
  match String.index 0 " " s with
  | Some n => Some (take_bytes n s, String.substring (S n) (String.length s - S n) s)
  | None => None
  end.
Definition _extract_bearer_token (authorization : option string) : option string :=
  if negb (truthy_opt authorization) then None
  else
    match before_space (default EmptyString authorization) with
    | None => None
    | Some (scheme, token) =>
        let token := ustrip token in
        if negb (String.eqb (lower scheme) "bearer") ||
           negb ((_TOKEN_MIN_LENGTH <=? strlen token) && (strlen token <=? _TOKEN_MAX_LENGTH)) then None
        else Some token
    end.

Record SharedScheduleAudienceOut : Type :=
  AudienceOut { ao_name : option string; ao_short_name : option string; ao_colour : option string }.
Definition text_or_none (v : json) : option string := match v with JStr s => Some s | _ => None end.
Definition audience (d : list (string * json)) : SharedScheduleAudienceOut :=
  AudienceOut (text_or_none (dget_or_null "name" d)) (text_or_none (dget_or_null "short_name" d))
    (text_or_none (dget_or_null "colour" d)).
Definition _public_audience (raw : option string) : outcome (list SharedScheduleAudienceOut) :=
  if negb (truthy_opt raw) then Ok []
  else
    match loads (default EmptyString raw) with
    | Ok (JList values) => Ok (flat_map (fun v => match v with JObj d => [audience d] | _ => [] end) values)
    | Ok _ => Ok []
    | Raise e => if exn_in e [JSONDecodeError; TypeError] then Ok [] else Raise e
    end.

Definition _day_aliases (event : Event) : outcome (option (list (string * string))) :=
  if negb (truthy_opt (ev_metadata_json event)) then Ok None
  else
    match loads (default EmptyString (ev_metadata_json event)) with
    | Ok (JObj metadata) =>
        Ok (match dget_or_null "day_aliases" metadata with
            | JObj aliases => Some (flat_map (fun kv => match kv.2 with JStr s => [(kv.1, s)] | _ => [] end) aliases)
            | _ => None
            end)
    | Ok _ => Ok None
    | Raise e => if exn_in e [JSONDecodeError; TypeError] then Ok None else Raise e
    end.

Record SharedScheduleViewOut : Type := SharedView { sv_id : Z; sv_name : string; sv_sort_order : spec_float }.
Record SharedScheduleItemOut : Type := SharedItem {
  so_id : Z; so_view_id : Z; so_title : string; so_date : string; so_start_time : string; so_end_time : string;
  so_working_date : string; so_location_name : option string; so_location_address : option string;
  so_responsible : option string; so_audience_teams : list SharedScheduleAudienceOut; so_description : option string;
  so_type_name : option string; so_colour : option string; so_sort_order : spec_float
}.
Record SharedScheduleEventOut : Type := SharedEvent {
  se_name : string; se_start_date : option string; se_end_date : option string;
  se_day_aliases : option (list (string * string)); se_schedule_day_range : Z * Z
}.
Record SharedScheduleOut : Type := SharedSchedule {
  sh_event : SharedScheduleEventOut; sh_views : list SharedScheduleViewOut; sh_items : list SharedScheduleItemOut
}.

Definition view_le (a b : PublishedGeneralScheduleCategory) : bool :=
  first_of [by_float (or_zero (gc_sort_order a)) (or_zero (gc_sort_order b)); by_text (gc_name a) (gc_name b)].
Definition shared_view (v : PublishedGeneralScheduleCategory) : SharedScheduleViewOut :=
  SharedView (gc_external_category_id v) (gc_name v) (or_zero (gc_sort_order v)).

(** [ORDER BY date, start_time, sort_order, title] *)
Definition item_le (a b : PublishedGeneralScheduleItem) : bool :=
  first_of [by_text (gi_date a) (gi_date b); by_text (gi_start_time a) (gi_start_time b);
            nulls_last by_float (gi_sort_order a) (gi_sort_order b); by_text (gi_title a) (gi_title b)].
Definition shared_item (schedule_day_range : Z * Z) (view_id index : Z) (i : PublishedGeneralScheduleItem)
  : outcome SharedScheduleItemOut :=
  working_date ← working_date_for_clock (inr (gi_date i)) (gi_start_time i) (range_json schedule_day_range);
  audience_teams ← _public_audience (gi_audience_teams_json i);
  Ok (SharedItem index view_id (gi_title i) (gi_date i) (gi_start_time i) (gi_end_time i) working_date
        (gi_location_name i) (gi_location_address i) (gi_responsible i) audience_teams (gi_description i)
        (gi_type_name i) (gi_colour i) (or_zero (gi_sort_order i))).
(** [enumerate(items, start=n)] *)
Fixpoint shared_items (schedule_day_range : Z * Z) (n : Z) (items : list PublishedGeneralScheduleItem)
  : outcome (list SharedScheduleItemOut) :=
  match items with
  | [] => Ok []
  | i :: items =>
      out ← shared_item schedule_day_range (default 0 (gi_category_id i)) n i;
      rest ← shared_items schedule_day_range (n + 1) items;
      Ok (out :: rest)
  end.

(** The granted views that are published, each once *)
Fixpoint available_ids (views : list PublishedGeneralScheduleCategory) (rows : list PublicScheduleLinkView) : list Z :=
  match rows with
  | [] => []
  | r :: rows =>
      let rest := available_ids views rows in
      let id := pv_external_view_id r in
      if has_view views id && negb (among rest id) then id :: rest else rest
  end.

Definition unavailable {A} : py A := throw (HTTPException 404) _UNAVAILABLE_DETAIL.
Definition get_shared_public_schedule (authorization : option string) : py SharedScheduleOut :=
  match _extract_bearer_token authorization with
  | None => unavailable
  | Some token =>
      let token_hash := sha256 token in
      link ← q_first t_public_schedule_links (fun l => String.eqb (pl_token_hash l) token_hash);
      match link with
      | None => unavailable
      | Some link =>
          protection ← _link_operation (pl_id link);
          if match protection with Some o => negb (String.eqb (ho_state o) "accepted") | None => false end then unavailable
          else
            view_rows ← _link_view_rows (pl_id link);
            current_views ← _current_views (pl_event_id link);
            let available := available_ids current_views view_rows in
            link_status ← _link_status link view_rows current_views;
            if negb (String.eqb link_status "active") || bool_decide (available = []) then unavailable
            else
              event ← q_first t_events (fun e => ev_id e =? pl_event_id link);
              match event with
              | None => unavailable
              | Some event =>
                  schedule_day_range ← lift (event_schedule_day_range (ev_metadata_json event));
                  let views := sort_with view_le (omap (fun i => view i current_views) available) in
                  items ← q_all t_published_general_schedule_items (fun i =>
                    (gi_event_id i =? pl_event_id link) && opt_in available (gi_category_id i));
                  day_aliases ← lift (_day_aliases event);
                  items ← lift (shared_items schedule_day_range 1 (sort_with item_le items));
                  mret (SharedSchedule
                    (SharedEvent (ev_name event) (option_map date_string (ev_start_date event))
                       (option_map date_string (ev_end_date event)) day_aliases schedule_day_range)
                    (map shared_view views) items)
              end
      end
  end.
End Links.
