(* ===== verification/LeaseAgent.v ===== *)
(** The lease agent of a cluster node's host ([deploy/ha/lease_agent.py]) and the
    operator's witness commands ([deploy/ha/witness_control.py]).  The agent's
    world is the host's files, its clock and the subprocesses it has run; the
    witness service and what a subprocess answers are parameters.  A file is
    replaced as a whole. *)
From Stdlib Require Import ZArith Lia Ascii String SpecFloat.
From stdpp Require Import base list strings.
From S2P Require Import Prelude Text TextFacts Json JsonFacts PyTime PyBuiltins EvidenceManifest HaWitness.

Record agent : Type := mkAgent {
  g_files : dir;
  g_clock : nat -> Z;
  g_ticks : nat;
  g_runs : list (list string)
}.
#[export] Instance eta_agent : Eta agent := fun g => mkAgent (g_files g) (g_clock g) (g_ticks g) (g_runs g).

Abbreviation ag := (M agent).

(** What the witness answers: an HTTP status that is an error, no answer at all,
    or a body. *)
Inductive lease_reply : Type := LeaseHTTPError (code : Z) | LeaseUnreachable | LeaseBody (raw : string).

(** What a subprocess does: it exits, or cannot run or times out. *)
Inductive run_result : Type := Exited (returncode : Z) (stdout : string) | RunFailed (e : exn).

Definition agent_now : ag datetime := fun g =>
  (Ok (utc_at (g_clock g (g_ticks g))), g <| g_ticks := S (g_ticks g) |>).

Definition is_file (path : string) : ag bool :=
  gets (fun g => match dget path (g_files g) with Some (Regular _) => true | _ => false end).

Definition read_file (path : string) : ag string := fun g =>
  (match dget path (g_files g) with
   | None => raise FileNotFoundError path
   | Some (Regular raw) => if utf8_valid raw then Ok raw else raise UnicodeDecodeError "invalid utf-8"
   | Some _ => raise OSError path
   end, g).

(** [str.splitlines] *)
Definition line_break (c : Z) : bool :=
  in_rng 10 13 c || in_rng 28 30 c || (c =? 133) || (c =? 8232) || (c =? 8233).
Fixpoint split_lines (cur : list Z) (l : list Z) : list (list Z) :=
  match l with
  | [] => match cur with [] => [] | _ => [List.rev cur] end
  | c :: l =>
      if line_break c then
        match l with
        | d :: l' => if (c =? 13) && (d =? 10) then List.rev cur :: split_lines [] l'
                     else List.rev cur :: split_lines [] l
        | [] => [List.rev cur]
        end
      else split_lines (c :: cur) l
  end.
Definition of_points (l : list Z) : string := join EmptyString (map encode l).
Definition splitlines (s : string) : list string := map of_points (split_lines [] (code_points s)).

(** [line.split("=", 1)] of a line with the sign *)
Fixpoint split_eq (s : string) : option (string * string) :=
  match s with
  | EmptyString => None
  | String c s =>
      if Ascii.eqb c "=" then Some (EmptyString, s)
      else option_map (fun kv => (String c kv.1, kv.2)) (split_eq s)
  end.

Definition CONFIG_ALLOWED : list string :=
  ["HA_MODE"; "HA_NODE_ID"; "HA_CLUSTER_ID"; "HA_PEER_NODE_ID"; "HA_WITNESS_URL"; "HA_AUTOMATIC_FAILOVER"]%string.
Definition CONFIG_REQUIRED : list string := ["HA_NODE_ID"; "HA_CLUSTER_ID"; "HA_WITNESS_URL"]%string.

Definition config_line (line : string) (result : list (string * string)) : list (string * string) :=
  if negb (truthy_str line) || startswith "#" line then result
  else
    match split_eq line with
    | None => result
    | Some (key, value) =>
        if str_in key CONFIG_ALLOWED && negb (contains (String (chr 10) EmptyString) value)
           && negb (contains (String (chr 13) EmptyString) value)
        then dset key value result else result
    end.

(** [try: m except Exception: None] *)
Definition attempt {A} (m : ag A) : ag (option A) := fun g =>
  match m g with (Ok a, g') => (Ok (Some a), g') | (Raise _, g') => (Ok None, g') end.

Definition RETRYABLE : list Z := [408; 425; 429].

Section Agent.
Context (ROOT HA_HOME DEPLOYMENT_POLICY : string).
(** [urlopen] on a URL, a token and a body; [subprocess.run] on a command. *)
Context (lease_urlopen : string -> string -> string -> lease_reply) (subprocess : list string -> run_result).
Context (repr_container : json -> string).

Definition CONTROL_PATH : string := ROOT +:+ "/runtime/ha-control.json".
Definition RECEIVER_PATH : string := ROOT +:+ "/runtime/ha-receiver.json".
Definition SMTP_STATUS_PATH : string := ROOT +:+ "/runtime/ha-smtp-status.json".
Definition CONNECTION_DRAIN_PATH : string := ROOT +:+ "/runtime/ha-connection-drain.json".

Definition read_config : ag (list (string * string)) :=
  raw ← read_file (HA_HOME +:+ "/node.env");
  let result := fold_left (fun r l => config_line l r) (splitlines raw) [] in
  _ ← throw_if (negb (match dget "HA_MODE" result with Some m => String.eqb m "ha" | None => false end)
                || negb (keys_cover result CONFIG_REQUIRED))
        RuntimeError "The symmetric HA node configuration is incomplete";
  mret result.

Definition json_text (value : list (string * json)) : string :=
  dumps_sorted (JObj value) +:+ String (chr 10) EmptyString.
Definition atomic_json (path : string) (value : list (string * json)) : ag unit :=
  modify (fun g => g <| g_files := dset path (Regular (json_text value)) (g_files g) |>).

Definition config_item (config : list (string * string)) (key : string) : outcome string :=
  match dget key config with Some v => Ok v | None => raise KeyError key end.

Definition parse_reply (r : lease_reply) : outcome (list (string * json)) :=
  match r with
  | LeaseHTTPError code =>
      if existsb (Z.eqb code) RETRYABLE || (500 <=? code)
      then raise LeaseAuthorityUnavailable "The HA lease authority is temporarily unavailable"
      else raise LeaseAuthorityRejected "The HA lease authority rejected the authenticated action"
  | LeaseUnreachable => raise LeaseAuthorityUnavailable "The HA lease authority is temporarily unavailable"
  | LeaseBody raw =>
      if 65536 <? byte_length raw then raise RuntimeError "The HA lease response was too large"
      else
        result ← loads_bytes raw;
        match result with
        | JObj d => Ok d
        | _ => raise RuntimeError "The HA lease response was invalid"
        end
  end.

Definition post (config : list (string * string)) (action : string) (payload : list (string * json))
  : ag (list (string * json)) :=
  raw ← read_file (HA_HOME +:+ "/secrets/node_token");
  let token := ustrip raw in
  _ ← throw_if (strlen token <? 32) RuntimeError "The HA node token is missing";
  url ← lift (config_item config "HA_WITNESS_URL");
  cluster ← lift (config_item config "HA_CLUSTER_ID");
  lift (parse_reply (lease_urlopen (rstrip_slash url +:+ "/v1/clusters/" +:+ cluster +:+ "/" +:+ action) token
                       (dumps_payload (JObj payload)))).

Definition test_override_enabled : ag bool :=
  override ← is_file (ROOT +:+ "/.test-deployment.env");
  if negb override then mret false
  else
    policy ← is_file DEPLOYMENT_POLICY;
    text ← (if (policy : bool) then read_file DEPLOYMENT_POLICY else mret EmptyString);
    _ ← throw_if (negb policy || negb (String.eqb (ustrip text) "test")) RuntimeError
          "unsigned deployment override exists outside test policy";
    mret true.

(** The commit named by the first identity line of a file. *)
Fixpoint identity_of (lines : list string) : option string :=
  match lines with
  | [] => None
  | line :: lines =>
      if startswith "MP_TEST_COMMIT=" line || startswith "MP_RELEASE_COMMIT=" line then
        let value := match split_eq line with Some kv => kv.2 | None => EmptyString end in
        Some (if fullmatch GIT_DIGEST_RE value then value else EmptyString)
      else identity_of lines
  end.

Definition run (command : list string) : ag (Z * string) := fun g =>
  let g := g <| g_runs := g_runs g ++ [command] |> in
  match subprocess command with
  | Exited code out => (Ok (code, out), g)
  | RunFailed e => (Raise e, g)
  end.
(** [check=True] *)
Definition run_checked (command : list string) : ag unit :=
  r ← run command;
  throw_if (negb (r.1 =? 0)) CalledProcessError "non-zero exit status".

Definition release_hash : ag string :=
  override ← test_override_enabled;
  let identity := if (override : bool) then ROOT +:+ "/.test-deployment.env" else ROOT +:+ "/.release.env" in
  known ← is_file identity;
  named ← (if (known : bool) then raw ← read_file identity; mret (identity_of (splitlines raw)) else mret None);
  match named with
  | Some v => mret v
  | None =>
      r ← run ["git"; "-C"; ROOT; "rev-parse"; "HEAD"]%string;
      let value := if r.1 =? 0 then ustrip r.2 else EmptyString in
      mret (if fullmatch GIT_DIGEST_RE value then value else EmptyString)
  end.

(** [{}] where the file is absent, unreadable or not an object *)
Definition json_object_file (path : string) : ag (list (string * json)) :=
  try_except
    (raw ← read_file path;
     v ← lift (loads raw);
     mret (match v with JObj d => d | _ => [] end))
    [OSError; ValueError; JSONDecodeError] (fun _ => mret []).
Definition receiver_state : ag (list (string * json)) := json_object_file RECEIVER_PATH.
Definition smtp_state : ag (list (string * json)) := json_object_file SMTP_STATUS_PATH.

Definition compose_command : ag (list string) :=
  release ← is_file (ROOT +:+ "/.release.env");
  test ← test_override_enabled;
  override ← is_file (ROOT +:+ "/infra/docker-compose.override.yml");
  mret (["docker"; "compose"; "--env-file"; ROOT +:+ "/.env"]%string ++
        (if (release : bool) then ["--env-file"; ROOT +:+ "/.release.env"]%string else []) ++
        (if (test : bool) then ["--env-file"; ROOT +:+ "/.test-deployment.env"]%string else []) ++
        ["-f"; ROOT +:+ "/infra/docker-compose.yml"; "-f"; ROOT +:+ "/infra/docker-compose.prod.yml";
         "-f"; ROOT +:+ "/infra/docker-compose.ha.yml"]%string ++
        (if (override : bool) then ["-f"; ROOT +:+ "/infra/docker-compose.override.yml"]%string else [])).

Definition HEALTH_PROBE : list string :=
  ["exec"; "-T"; "backend"; "python"; "-c";
   "import urllib.request; urllib.request.urlopen(" +:+ quote id "http://127.0.0.1:8000/health" +:+
   ", timeout=3).read()"]%string.
Definition local_healthy : ag bool :=
  compose ← compose_command;
  r ← run (compose ++ HEALTH_PROBE);
  mret (r.1 =? 0).

(** ** Draining the connections of a standby *)

Definition RECOVERED : list string := ["planned_handoff"; "automatic_failover"]%string.
Definition object_or_empty (v : json) : list (string * json) := match v with JObj d => d | _ => [] end.

(** The generation whose stable hand-over the state shows, when this node is
    not its holder. *)
Definition handed_over (node : string) (state : list (string * json)) : outcome (option Z) :=
  match dget_or_null "generation" state with
  | JInt g =>
      if (g <? 1) || py_eq (dget_or_null "holder_node_id" state) (JStr node)
         || negb (is_true (dget_or_null "routing_ready" state))
         || negb (py_eq (dget_or_null "phase" (object_or_empty (dget_or_null "transition" state))) (JStr "stable"))
      then Ok None
      else
        known ← in_frozenset (dget_or_null "kind" (object_or_empty (dget_or_null "last_recovery" state))) RECOVERED;
        Ok (if (known : bool) then Some g else None)
  | _ => Ok None
  end.

Definition completed_at (state : list (string * json)) : outcome (option datetime) :=
  match (v ← subscript "completed_at" (JObj (object_or_empty (dget_or_null "last_recovery" state)));
         parse_timestamp (py_str repr_container v)) with
  | Ok t => Ok (if is_naive t then None else Some t)
  | Raise e => if exn_in e [KeyError; TypeError; ValueError] then Ok None else Raise e
  end.

Definition drain_ttl (state : list (string * json)) : Z :=
  let ttl := match dget "ttl" (object_or_empty (dget_or_null "routing" state)) with
             | Some (JInt t) => t
             | _ => 60
             end in
  Z.max 5 (Z.min 300 ttl).

Definition drain_standby_client_connections (config : list (string * string)) (state : list (string * json))
  : ag bool :=
  node ← lift (config_item config "HA_NODE_ID");
  generation ← lift (handed_over node state);
  match generation with
  | None => mret false
  | Some generation =>
      completed ← lift (completed_at state);
      match completed with
      | None => mret false
      | Some completed =>
          now ← agent_now;
          if dt_sub now (astimezone_utc completed) <? (drain_ttl state + 5) * us_second then mret false
          else
            marker ← json_object_file CONNECTION_DRAIN_PATH;
            if py_eq (dget_or_null "generation" marker) (JInt generation) then mret false
            else
              compose ← compose_command;
              _ ← run_checked (compose ++ ["restart"; "caddy"]%string);
              drained_at ← agent_now;
              _ ← atomic_json CONNECTION_DRAIN_PATH
                    [("format", JStr "mp-opt-ha-connection-drain-v1"); ("generation", JInt generation);
                     ("holder_node_id", dget_or_null "holder_node_id" state);
                     ("drained_at", JStr (replace "+00:00" "Z" (isoformat drained_at)))]%string;
              mret true
      end
  end.

(** ** The heartbeat *)

Definition promote_command (generation : Z) : list string :=
  [ROOT +:+ "/deploy/ha/promote_local.sh"; string_of_Z generation]%string.
Definition promote (generation : Z) : ag unit := run_checked (promote_command generation).

(** [any(directory.glob("*.json"))] *)
Definition has_json (directory : string) : ag bool :=
  gets (fun g => existsb (fun k =>
    match drop_prefix (directory +:+ "/") k with
    | Some name => ends_with ".json" name && negb (contains "/" name)
    | None => false
    end) (dkeys (g_files g))).

Definition field_or (k : string) (default : json) (d : list (string * json)) : json :=
  match dget k d with Some v => v | None => default end.

Definition observed (node : string) (state : list (string * json)) : ag (list (string * json)) :=
  now ← agent_now;
  mret (dupdate [("node_id", JStr node); ("observed_at", JStr (isoformat now))]%string state).

Definition one_iteration (config : list (string * string)) : ag (list (string * json)) :=
  received ← receiver_state;
  smtp ← smtp_state;
  node ← lift (config_item config "HA_NODE_ID");
  healthy ← local_healthy;
  release ← release_hash;
  requests ← has_json (ROOT +:+ "/runtime/ha-requests");
  deferred ← has_json (ROOT +:+ "/runtime/ha-deferred-requests");
  let payload :=
    [("node_id", JStr node); ("healthy", JBool healthy); ("release_hash", JStr release);
     ("bundle_id", field_or "last_bundle_id" (JStr EmptyString) received);
     ("bundle_generation", field_or "generation" (JInt 0) received);
     ("bundle_created_at", field_or "last_received_at" (JStr EmptyString) received);
     ("smtp_configured", JBool (is_true (dget_or_null "configured" smtp)));
     ("smtp_ready", JBool (is_true (dget_or_null "ready" smtp)));
     ("smtp_checked_at", field_or "checked_at" (JStr EmptyString) smtp);
     ("smtp_error_code", field_or "error_code" (JStr EmptyString) smtp);
     ("smtp_config_fingerprint", field_or "config_fingerprint" (JStr EmptyString) smtp);
     ("critical_pending", JBool (requests || deferred))]%string in
  answer ← post config "heartbeat" payload;
  state ← observed node answer;
  _ ← atomic_json CONTROL_PATH state;
  let holder := py_eq (dget_or_null "holder_node_id" state) (JStr node) in
  if holder && negb (truthy (dget_or_null "routing_ready" state)) then
    generation ← lift (v ← subscript "generation" (JObj state); py_int v);
    _ ← promote generation;
    answer ← post config "ready" [("node_id"%string, JStr node)];
    state ← observed node answer;
    _ ← atomic_json CONTROL_PATH state;
    mret state
  else
    _ ← (if negb holder then _ ← drain_standby_client_connections config state; mret tt else mret tt);
    mret state.

(** [type(exc).__name__] of the classes the agent raises *)
Definition class_name (c : exn_class) : string :=
  match c with
  | ValueError => "ValueError"
  | TypeError => "TypeError"
  | KeyError => "KeyError"
  | LookupError => "LookupError"
  | AttributeError => "AttributeError"
  | IndexError => "IndexError"
  | RuntimeError => "RuntimeError"
  | RecursionError => "RecursionError"
  | OverflowError => "OverflowError"
  | OSError => "OSError"
  | PermissionError => "PermissionError"
  | FileNotFoundError => "FileNotFoundError"
  | JSONDecodeError => "JSONDecodeError"
  | UnicodeDecodeError => "UnicodeDecodeError"
  | UnicodeEncodeError => "UnicodeEncodeError"
  | CalledProcessError => "CalledProcessError"
  | TimeoutExpired => "TimeoutExpired"
  | LeaseAuthorityUnavailable => "LeaseAuthorityUnavailable"
  | LeaseAuthorityRejected => "LeaseAuthorityRejected"
  | _ => "Exception"
  end.

Definition record_failure (e : exn) : ag unit :=
  previous ← json_object_file CONTROL_PATH;
  now ← agent_now;
  atomic_json CONTROL_PATH
    (dupdate [("witness_error_at", JStr (isoformat now)); ("error_type", JStr (class_name (exn_cls e)))]%string previous).

(** One turn of [main]'s loop: the exception it met, if any. *)
Definition agent_turn : ag (option exn) := fun g =>
  match (config ← read_config; one_iteration config) g with
  | (Ok _, g') => (Ok None, g')
  | (Raise e, g') => (_ ← record_failure e; mret (Some e)) g'
  end.

(** [main] with [--once]: the exit code *)
Definition main_once : ag Z :=
  failed ← agent_turn;
  mret (match failed with
        | Some e => if exn_in e [LeaseAuthorityUnavailable] then 10 else 1
        | None => 0
        end).

(** ** Operator commands *)

Inductive command : Type :=
| CmdAutomatic (enabled : bool)
| CmdHandoff (target_node_id : string)
| CmdPermit
| CmdReady
| CmdAuthorizeTransfer (source_node_id bundle_id bundle_sha256 : string) (generation : Z)
| CmdCompleteTransfer (bundle_id bundle_sha256 : string)
| CmdCriticalComplete (operation_id bundle_id bundle_sha256 : string).

(** The action and the payload of a command; [None] when the local generation
    is unavailable. *)
Definition control_request (node : string) (c : command) : ag (option (string * list (string * json))) :=
  let base := [("node_id"%string, JStr node)] in
  match c with
  | CmdAutomatic enabled => mret (Some ("automatic"%string, base ++ [("enabled"%string, JBool enabled)]))
  | CmdHandoff target => mret (Some ("handoff"%string, base ++ [("target_node_id"%string, JStr target)]))
  | CmdPermit =>
      try_except
        (raw ← read_file CONTROL_PATH;
         v ← lift (loads raw);
         generation ← lift (g ← subscript "generation" v; py_int g);
         mret (Some ("write-permit"%string, base ++ [("generation"%string, JInt generation)])))
        [OSError; ValueError; KeyError; TypeError; JSONDecodeError] (fun _ => mret None)
  | CmdReady => mret (Some ("ready"%string, base))
  | CmdAuthorizeTransfer source bundle sha generation =>
      mret (Some ("transfer-authorize"%string,
        base ++ [("source_node_id", JStr source); ("target_node_id", JStr node); ("bundle_id", JStr bundle);
                 ("bundle_sha256", JStr sha); ("generation", JInt generation)]%string))
  | CmdCompleteTransfer bundle sha =>
      mret (Some ("transfer-complete"%string, base ++ [("bundle_id", JStr bundle); ("bundle_sha256", JStr sha)]%string))
  | CmdCriticalComplete operation bundle sha =>
      mret (Some ("critical-complete"%string,
        base ++ [("operation_id", JStr operation); ("bundle_id", JStr bundle); ("bundle_sha256", JStr sha)]%string))
  end.

Definition AUTHORITATIVE : list string :=
  ["holder_node_id"; "generation"; "routing_ready"; "automatic_failover"]%string.

(** The exit code and the text printed on success. *)
Definition witness_control (c : command) : ag (Z * option string) :=
  config ← read_config;
  node ← lift (config_item config "HA_NODE_ID");
  request ← control_request node c;
  match request with
  | None => mret (1, None)
  | Some (action, payload) =>
      reply ← attempt (post config action payload);
      match reply with
      | None => mret (1, None)
      | Some result =>
          result ← (if keys_cover result AUTHORITATIVE then
                      r ← observed node result; _ ← atomic_json CONTROL_PATH r; mret r
                    else mret result);
          mret (0, Some (dumps_sorted (JObj result)))
      end
  end.
End Agent.
