(* ===== verification/LeaseAgentProps.v ===== *)
(** What the lease agent's host files and commands guarantee when the witness
    answers, and when it does not. *)
From Stdlib Require Import ZArith Lia Ascii String SpecFloat.
From stdpp Require Import base list strings.
From S2P Require Import Prelude Text TextFacts Json JsonFacts PyTime PyBuiltins EvidenceManifest HaWitness.
From S2P Require Import LeaseAgent.

(** ** What a computation of the agent leaves alone *)

Definition same_files (g g' : agent) : Prop := g_files g' = g_files g /\ g_clock g' = g_clock g.
#[export] Instance same_files_preorder : PreOrder same_files.
Proof. split; [by intros g|]. intros g1 g2 g3 [A B] [A' B']. unfold same_files. by rewrite A', B'. Qed.

(** A command of the shape of a promotion: a program and one argument. *)
Definition like_promotion (c : list string) : Prop := length c = 2%nat /\ c <> ["restart"; "caddy"]%string.
(** No command of that shape has been run since. *)
Definition no_promotion (g g' : agent) : Prop :=
  forall c, like_promotion c -> c ∈ g_runs g' -> c ∈ g_runs g.
#[export] Instance no_promotion_preorder : PreOrder no_promotion.
Proof. split; [by intros g c|]. intros g1 g2 g3 H1 H2 c Hc H. by apply H1, H2. Qed.

#[export] Hint Resolve same_files_preorder no_promotion_preorder : keeps.

Ltac keep_steps :=
  repeat first [ solve [auto with keeps] | apply keeps_bind; [typeclasses eauto| |intros ?] | apply keeps_if
               | apply keeps_try; [typeclasses eauto| |intros ?] | case_match ].

Lemma files_now : keeps same_files agent_now.
Proof. by intros g. Qed.
Lemma promo_now : keeps no_promotion agent_now.
Proof. by intros g c. Qed.
Lemma files_is_file p : keeps same_files (is_file p).
Proof. by intros g. Qed.
Lemma promo_is_file p : keeps no_promotion (is_file p).
Proof. by intros g c. Qed.
Lemma files_read p : keeps same_files (read_file p).
Proof. by intros g. Qed.
Lemma promo_read p : keeps no_promotion (read_file p).
Proof. by intros g c. Qed.
#[export] Hint Resolve files_now promo_now files_is_file promo_is_file files_read promo_read : keeps.

Section Agent.
Context (ROOT HA_HOME DEPLOYMENT_POLICY : string).
Context (lease_urlopen : string -> string -> string -> lease_reply) (subprocess : list string -> run_result).
Context (repr_container : json -> string).

Lemma files_run c : keeps same_files (run subprocess c).
Proof. intros g. unfold run. by destruct (subprocess c). Qed.
Lemma promo_run c : ~ like_promotion c -> keeps no_promotion (run subprocess c).
Proof. intros Hc.
  intros g x Hx. unfold run.
  assert (x ∈ g_runs g ++ [c] -> x ∈ g_runs g) as H.
  { intros [?|Hs]%elem_of_app; [done|]. apply list_elem_of_singleton in Hs. by subst. }
  by destruct (subprocess c).
Qed.
Lemma longer_not_promotion c : length c <> 2%nat -> ~ like_promotion c.
Proof. by intros H [? _]. Qed.
Lemma promo_run_appended l l' : (2 < length l')%nat -> keeps no_promotion (run subprocess (l ++ l')).
Proof. intros H. apply promo_run, longer_not_promotion. rewrite length_app. lia. Qed.
Hint Resolve files_run promo_run longer_not_promotion : keeps.

Lemma files_override : keeps same_files (test_override_enabled ROOT DEPLOYMENT_POLICY).
Proof. unfold test_override_enabled. keep_steps. Qed.
Lemma promo_override : keeps no_promotion (test_override_enabled ROOT DEPLOYMENT_POLICY).
Proof. unfold test_override_enabled. keep_steps. Qed.
Hint Resolve files_override promo_override : keeps.

Lemma files_compose : keeps same_files (compose_command ROOT DEPLOYMENT_POLICY).
Proof. unfold compose_command. keep_steps. Qed.
Lemma promo_compose : keeps no_promotion (compose_command ROOT DEPLOYMENT_POLICY).
Proof. unfold compose_command. keep_steps. Qed.

Lemma files_object p : keeps same_files (json_object_file p).
Proof. unfold json_object_file. keep_steps. Qed.
Lemma promo_object p : keeps no_promotion (json_object_file p).
Proof. unfold json_object_file. keep_steps. Qed.
Hint Resolve files_compose promo_compose files_object promo_object : keeps.

Lemma files_healthy : keeps same_files (local_healthy ROOT DEPLOYMENT_POLICY subprocess).
Proof. unfold local_healthy. keep_steps. Qed.
Lemma promo_healthy : keeps no_promotion (local_healthy ROOT DEPLOYMENT_POLICY subprocess).
Proof.
  unfold local_healthy. apply keeps_bind; [typeclasses eauto|auto with keeps|intros l].
  apply keeps_bind; [typeclasses eauto| |auto with keeps]. apply promo_run_appended. cbn. lia.
Qed.
Lemma files_release : keeps same_files (release_hash ROOT DEPLOYMENT_POLICY subprocess).
Proof. unfold release_hash. keep_steps. Qed.
Lemma promo_release : keeps no_promotion (release_hash ROOT DEPLOYMENT_POLICY subprocess).
Proof. unfold release_hash. keep_steps. Qed.
Lemma files_has_json p : keeps same_files (has_json p).
Proof. by intros g. Qed.
Lemma promo_has_json p : keeps no_promotion (has_json p).
Proof. by intros g c. Qed.
Lemma files_post c a p : keeps same_files (post HA_HOME lease_urlopen c a p).
Proof. unfold post. keep_steps. Qed.
Lemma promo_post c a p : keeps no_promotion (post HA_HOME lease_urlopen c a p).
Proof. unfold post. keep_steps. Qed.
Lemma files_config : keeps same_files (read_config HA_HOME).
Proof. unfold read_config. keep_steps. Qed.
Lemma promo_config : keeps no_promotion (read_config HA_HOME).
Proof. unfold read_config. keep_steps. Qed.
Lemma files_receiver : keeps same_files (receiver_state ROOT).
Proof. apply files_object. Qed.
Lemma promo_receiver : keeps no_promotion (receiver_state ROOT).
Proof. apply promo_object. Qed.
Lemma files_smtp : keeps same_files (smtp_state ROOT).
Proof. apply files_object. Qed.
Lemma promo_smtp : keeps no_promotion (smtp_state ROOT).
Proof. apply promo_object. Qed.
Hint Resolve files_receiver promo_receiver files_smtp promo_smtp : keeps.
Hint Resolve files_healthy promo_healthy files_release promo_release files_has_json promo_has_json files_post
  promo_post files_config promo_config : keeps.

Lemma files_heartbeat config action payload : keeps same_files (
  post HA_HOME lease_urlopen config action payload).
Proof. auto with keeps. Qed.

Lemma post_inv config action payload g answer g' :
  post HA_HOME lease_urlopen config action payload g = (Ok answer, g') ->
  exists url token body raw, lease_urlopen url token body = LeaseBody raw /\ loads raw = Ok (JObj answer).
Proof.
  unfold post. intros H. apply Mbind_Ok_inv in H as (raw & g1 & _ & H).
  apply Mbind_Ok_inv in H as ([] & g2 & _ & H). apply Mbind_Ok_inv in H as (url & g3 & _ & H).
  apply Mbind_Ok_inv in H as (cluster & g4 & _ & H). apply lift_Ok_inv in H as [H _].
  unfold parse_reply in H. destruct (lease_urlopen _ _ _) as [code| |body] eqn:E; [by case_match|done|].
  destruct (65536 <? byte_length body); [done|]. apply bind_Ok_inv in H as (v & Hv & H).
  unfold loads_bytes in Hv. destruct (utf8_valid body); [|done]. destruct v; try done. injection H as ->.
  eexists _, _, _, body. split; [exact E|done].
Qed.

(** The witness answered that the node holds the lease of a generation whose
    routing is not ready. *)
Definition told_to_promote (config : list (string * string)) (generation : Z) : Prop :=
  exists node url token body raw answer v,
    dget "HA_NODE_ID" config = Some node /\ lease_urlopen url token body = LeaseBody raw /\
    loads raw = Ok (JObj answer) /\ dget "holder_node_id" answer = Some (JStr node) /\
    truthy (dget_or_null "routing_ready" answer) = false /\
    dget "generation" answer = Some v /\ py_int v = Ok generation.

Lemma drain_promotes_nothing config state :
  keeps no_promotion (drain_standby_client_connections ROOT DEPLOYMENT_POLICY subprocess repr_container config state).
Proof.
  unfold drain_standby_client_connections.
  repeat first [ solve [auto with keeps] | apply keeps_if | case_match
               | apply keeps_bind; [typeclasses eauto| |intros ?] ].
  - apply promo_run. intros [Hl Hne]. rewrite length_app in Hl. cbn in Hl.
    match type of Hne with ?l ++ _ <> _ => destruct l; [done|cbn in Hl; lia] end.
Qed.

Lemma observed_fields node answer g state g' :
  observed node answer g = (Ok state, g') ->
  g_runs g' = g_runs g /\ g_files g' = g_files g /\
  forall k, k <> "node_id"%string -> k <> "observed_at"%string -> dget k state = dget k answer.
Proof.
  unfold observed. intros H. apply Mbind_Ok_inv in H as (now & g1 & [= <- <-] & H).
  apply mret_Ok_inv in H as [-> ->]. do 2 (split; [done|]). intros k H1 H2. unfold dupdate. cbn [fold_left fst snd].
  rewrite !dget_dset. apply String.eqb_neq in H1 as ->. by apply String.eqb_neq in H2 as ->.
Qed.

Lemma promote_like generation : like_promotion (promote_command ROOT generation).
Proof.
  split; [done|]. unfold promote_command. intros [= H _].
  apply (f_equal String.length) in H. rewrite length_app_str in H. cbn in H. lia.
Qed.

Lemma run_checked_log c g r g' : run_checked subprocess c g = (r, g') -> g_runs g' = g_runs g ++ [c] /\ g_files g' = g_files g.
Proof.
  unfold run_checked, run, mbind, M_bind. destruct (subprocess c); intros [= _ <-]; [|done]. done.
Qed.

(** A step that promotes nothing: the run ended there, or goes on from a log
    with no new promotion. *)
Lemma skip_step {A B} (m : ag A) (k : A -> ag B) c g r g' :
  like_promotion c -> keeps no_promotion m -> (m ≫= k) g = (r, g') -> c ∈ g_runs g' ->
  c ∈ g_runs g \/ exists a g1, m g = (Ok a, g1) /\ k a g1 = (r, g') /\ (c ∈ g_runs g1 -> c ∈ g_runs g).
Proof.
  intros Hl Hk H Hin. specialize (Hk g). unfold mbind, M_bind in H. destruct (m g) as [[a|e] g1].
  - right. exists a, g1. repeat split; [done|]. by apply Hk.
  - injection H as _ <-. left. by apply Hk.
Qed.

Lemma promote_step {B} generation (k : unit -> ag B) c g r g' :
  like_promotion c -> (forall u, keeps no_promotion (k u)) ->
  (promote ROOT subprocess generation ≫= k) g = (r, g') -> c ∈ g_runs g' ->
  c ∈ g_runs g \/ promote_command ROOT generation = c.
Proof.
  intros Hl Hk H Hin. unfold mbind, M_bind in H.
  destruct (promote ROOT subprocess generation g) as [[u|e] g1] eqn:E; apply run_checked_log in E as [E _].
  - specialize (Hk u g1). rewrite H in Hk. apply Hk in Hin; [|done]. cbn in Hin. rewrite E in Hin.
    apply elem_of_app in Hin as [?|Hin]; [by left|]. apply list_elem_of_singleton in Hin. by right.
  - injection H as _ <-. rewrite E in Hin. apply elem_of_app in Hin as [?|Hin]; [by left|].
    apply list_elem_of_singleton in Hin. by right.
Qed.

Lemma promo_observed node answer : keeps no_promotion (observed node answer).
Proof. unfold observed. keep_steps. Qed.
Lemma promo_atomic p v : keeps no_promotion (atomic_json p v).
Proof. by intros g c. Qed.
Hint Resolve promo_observed promo_atomic drain_promotes_nothing : keeps.

Ltac skip_promo H :=
  lazymatch goal with
  | Hl : like_promotion ?c, Hr : ?c ∈ g_runs _ |- _ =>
      let a := fresh "a" in let g := fresh "g" in let E := fresh "E" in let Hb := fresh "Hb" in
      eapply skip_step in H; [ |exact Hl|solve [auto with keeps]|exact Hr];
      destruct H as [H|(a & g & E & H & Hb)]; [solve [left; auto 20]|]; cbv beta in H
  end.

(** C18: a node is promoted only on the witness's word: every promotion an
    iteration runs, whether or not the iteration then fails, is of a
    generation for which the witness has just answered that this node is the
    holder and its routing is not ready. *)
Theorem promotion_needs_witness config g r g' generation
  (H : one_iteration ROOT HA_HOME DEPLOYMENT_POLICY lease_urlopen subprocess repr_container config g = (r, g'))
  (Hrun : promote_command ROOT generation ∈ g_runs g') :
  promote_command ROOT generation ∈ g_runs g \/
  exists generation', promote_command ROOT generation' = promote_command ROOT generation /\
    told_to_promote config generation'.
Proof.
  pose proof (promote_like generation) as Hlike.
  set (c := promote_command ROOT generation) in *.
  unfold one_iteration in H.
  do 10 skip_promo H. rename E1 into Hnode, E6 into Hpost, E7 into Hobs, a1 into node, a6 into answer, a7 into state.
  destruct (_ && _) eqn:Ecase in H.
  2:{ left. do 10 match goal with Hb : c ∈ g_runs ?x -> _ |- c ∈ _ => apply Hb; clear Hb end.
      match type of H with ?m ?h = _ => assert (keeps no_promotion m) as Hk by keep_steps; specialize (Hk h) end.
      rewrite H in Hk. by apply Hk. }
  skip_promo H. apply promote_step with (c := c) in H; [|done| |done].
  2:{ intros u. keep_steps. }
  destruct H as [H|H]; [left; auto 20|]. right. eexists. split; [exact H|].
  apply lift_Ok_inv in Hnode as [Hnode _]. apply post_inv in Hpost as (url & token & body & raw & Hu & Hl).
  apply observed_fields in Hobs as (_ & _ & Hf). apply andb_true_iff in Ecase as [Eh Er%negb_true_iff].
  match goal with E : lift (subscript _ _ ≫= _) _ = _ |- _ => apply lift_Ok_inv in E as [Eg _] end.
  apply bind_Ok_inv in Eg as (v & Hv & Hg). cbn in Hv. destruct (dget "generation" state) as [v'|] eqn:Ev; [|done].
  injection Hv as ->. exists node, url, token, body, raw, answer, v.
  unfold config_item in Hnode. destruct (dget "HA_NODE_ID" config) as [n|]; [|done]. injection Hnode as ->.
  unfold dget_or_null in Eh, Er |- *. rewrite Hf in Eh, Er, Ev by done.
  do 3 (split; [done|]). split; [|by repeat split].
  destruct (dget "holder_node_id" answer) as [h|]; [|done]. destruct h; try done. cbn in Eh.
  by apply String.eqb_eq in Eh as ->.
Qed.

(** ** Outages *)

(** The dictionary a JSON file of the host holds, with [{}] for none. *)
Definition object_of (n : option node) (path : string) : outcome (list (string * json)) :=
  match (raw ← match n with
               | None => raise FileNotFoundError path
               | Some (Regular raw) => if utf8_valid raw then Ok raw else raise UnicodeDecodeError "invalid utf-8"
               | Some _ => raise OSError path
               end;
         v ← loads raw;
         Ok (match v with JObj d => d | _ => [] end)) with
  | Ok d => Ok d
  | Raise e => if exn_in e [OSError; ValueError; JSONDecodeError] then Ok [] else Raise e
  end.

Lemma object_run path g : json_object_file path g = (object_of (dget path (g_files g)) path, g).
Proof.
  unfold json_object_file, object_of, read_file, try_except, mbind, M_bind, lift, mret, M_ret, outcome_bind.
  destruct (dget path (g_files g)) as [[raw| |]|]; try done. destruct (utf8_valid raw); [|done].
  destruct (loads raw) as [v|e]; [done|]. by destruct (exn_in e _).
Qed.

(** A computation that raises without touching a file or promoting. *)
Definition fails_clean {A} (m : ag A) : Prop :=
  forall g, exists e g', m g = (Raise e, g') /\ same_files g g' /\ no_promotion g g'.

Lemma fails_after {A B} (m : ag A) (k : A -> ag B) :
  keeps same_files m -> keeps no_promotion m -> (forall a, fails_clean (k a)) -> fails_clean (m ≫= k).
Proof.
  intros Hf Hp Hk g. specialize (Hf g). specialize (Hp g). unfold mbind, M_bind.
  destruct (m g) as [[a|e] g1]; [|by exists e, g1].
  destruct (Hk a g1) as (e & g2 & -> & Hf2 & Hp2). exists e, g2. split; [done|].
  split; by etransitivity.
Qed.

Lemma fails_first {A B} (m : ag A) (k : A -> ag B) : fails_clean m -> fails_clean (m ≫= k).
Proof. intros Hm g. destruct (Hm g) as (e & g1 & H & Hs). exists e, g1. by rewrite (Mbind_Raise _ _ _ _ _ H). Qed.

Lemma keeps_silent {A} (r : outcome A) : fails_clean (lift r : ag A) <-> exists e, r = Raise e.
Proof.
  split; [intros H; destruct (H (mkAgent [] (fun _ => 0) 0 [])) as (e & g & [= -> _] & _); by exists e|].
  intros (e & ->) g. exists e, g. by repeat split.
Qed.

Section Outage.
Context (Hdown : forall url token body raw, lease_urlopen url token body <> LeaseBody raw).

Lemma post_down config action payload : fails_clean (post HA_HOME lease_urlopen config action payload).
Proof.
  unfold post. do 4 (apply fails_after; [auto with keeps|auto with keeps|intros ?]).
  apply keeps_silent. unfold parse_reply. destruct (lease_urlopen _ _ _) as [code| |raw] eqn:E.
  - destruct (_ || _); by eexists.
  - by eexists.
  - by apply Hdown in E.
Qed.

Lemma iteration_down : fails_clean (config ← read_config HA_HOME;
  one_iteration ROOT HA_HOME DEPLOYMENT_POLICY lease_urlopen subprocess repr_container config).
Proof.
  apply fails_after; [auto with keeps|auto with keeps|intros config]. unfold one_iteration.
  do 7 (apply fails_after; [auto with keeps|auto with keeps|intros ?]). apply fails_first, post_down.
Qed.
End Outage.

(** An outage of the witness never refreshes a lease observation: while the
    witness gives no answer, a turn of the agent fails, promotes nothing and
    changes no file but the control file, in which it only records the
    failure: the observation instant, the holder, the generation, the lease's
    expiry and everything else are those that were there, so the node's
    readiness runs out. *)
Theorem outage_keeps_observation g r g'
  (Hdown : forall url token body raw, lease_urlopen url token body <> LeaseBody raw)
  (H : agent_turn ROOT HA_HOME DEPLOYMENT_POLICY lease_urlopen subprocess repr_container g = (r, g')) :
  no_promotion g g' /\
  (forall path, path <> CONTROL_PATH ROOT -> dget path (g_files g') = dget path (g_files g)) /\
  match r with
  | Ok None => False
  | Ok (Some _) =>
      exists previous d now,
        object_of (dget (CONTROL_PATH ROOT) (g_files g)) (CONTROL_PATH ROOT) = Ok previous /\
        dget (CONTROL_PATH ROOT) (g_files g') = Some (Regular (json_text d)) /\
        dget "witness_error_at" d = Some (JStr (isoformat now)) /\
        forall k, k <> "witness_error_at"%string -> k <> "error_type"%string -> dget k d = dget k previous
  | Raise _ => g_files g' = g_files g
  end.
Proof.
  unfold agent_turn in H. destruct (iteration_down Hdown g) as (e & g1 & E & [Hf Hc] & Hp). rewrite E in H.
  unfold record_failure, mbind, M_bind in H. rewrite object_run, Hf in H.
  destruct (object_of _ _) as [previous|x].
  2:{ injection H as <- <-. by rewrite Hf. }
  unfold agent_now, atomic_json, modify, mret, M_ret in H. injection H as <- <-. cbn.
  split; [exact Hp|]. split.
  - intros path Hne. rewrite dget_dset, Hf. by apply String.eqb_neq in Hne as ->.
  - eexists previous, _, _. split; [done|]. rewrite dget_dset, String.eqb_refl. split; [reflexivity|].
    unfold dupdate. cbn [fold_left fst snd]. rewrite dget_dset. split; [rewrite dget_dset; reflexivity|].
    intros k H1 H2. rewrite !dget_dset. apply String.eqb_neq in H1 as ->. by apply String.eqb_neq in H2 as ->.
Qed.
End Agent.

(** ** Examples *)

Definition root : string := "/opt/masterplan".
Definition home : string := "/etc/mp-opt-ha".
Definition line (l : list string) : string := join (String (chr 10) EmptyString) l.
Definition node_env : string := Eval vm_compute in
  line ["# node"; "HA_MODE=ha"; "HA_NODE_ID=a"; "HA_CLUSTER_ID=c1"; "HA_WITNESS_URL=https://witness.example/"; "OTHER=1"]%string.
Definition old_control : string := Eval vm_compute in
  dumps (JObj [("holder_node_id", JStr "a"); ("observed_at", JStr "2026-07-30T12:00:00+00:00")]%string).
Definition host : agent :=
  mkAgent [("/etc/mp-opt-ha/node.env", Regular node_env);
           ("/etc/mp-opt-ha/secrets/node_token", Regular "0123456789abcdef0123456789abcdef");
           ("/opt/masterplan/runtime/ha-control.json", Regular old_control)]%string
    (fun _ => 1785414896000000) 0 [].
Definition all_well (c : list string) : run_result := Exited 0 EmptyString.
Definition heartbeat_answer : string := Eval vm_compute in
  dumps (JObj [("holder_node_id", JStr "a"); ("generation", JInt 4); ("routing_ready", JBool false)]%string).
Definition witness_up (url token body : string) : lease_reply := LeaseBody heartbeat_answer.
Definition witness_down (url token body : string) : lease_reply := LeaseUnreachable.
Definition no_text : json -> string := fun _ => EmptyString.

Definition host_config : list (string * string) := Eval vm_compute in
  match fst (read_config home host) with Ok c => c | Raise _ => [] end.

(** The run's result and the part of its log the examples look at. *)
Lemma agent_run {A B} (m : outcome A * agent) (f : agent -> B) o b :
  (fst m, f (snd m)) = (o, b) -> exists g', m = (o, g') /\ f g' = b.
Proof. destruct m as [r g']. cbn. intros [= -> <-]. by exists g'. Qed.

Lemma promotion_needs_witness_witness :
  exists r g', one_iteration root home "/etc/mp-opt/deployment-policy" witness_up all_well no_text host_config host = (Ok r, g') /\
    (promote_command root 4 ∈ g_runs host \/
     exists n, promote_command root n = promote_command root 4 /\ told_to_promote witness_up host_config n).
Proof.
  set (m := one_iteration root home "/etc/mp-opt/deployment-policy" witness_up all_well no_text host_config host).
  assert (exists r, fst m = Ok r) as [r Hr] by (eexists; vm_compute; reflexivity).
  destruct (agent_run m (fun g => existsb (fun c => bool_decide (c = promote_command root 4)) (g_runs g)) (Ok r) true) as (g' & H & Hin).
  { rewrite Hr. apply f_equal2; [reflexivity|]. vm_compute. reflexivity. }
  exists r, g'. split; [exact H|].
  assert (promote_command root 4 ∈ g_runs g') as Hp.
  { apply existsb_exists in Hin as (c & Hc & Ec). apply bool_decide_eq_true in Ec. subst c. by apply list_elem_of_In. }
  exact (promotion_needs_witness root home "/etc/mp-opt/deployment-policy" witness_up all_well no_text host_config host (Ok r) g' 4 H Hp).
Defined.

Lemma outage_keeps_observation_witness :
  exists e g', agent_turn root home "/etc/mp-opt/deployment-policy" witness_down all_well no_text host = (Ok (Some e), g') /\
    exists previous d, object_of (dget (CONTROL_PATH root) (g_files host)) (CONTROL_PATH root) = Ok previous /\
      dget (CONTROL_PATH root) (g_files g') = Some (Regular (json_text d)) /\
      dget "observed_at" d = dget "observed_at" previous.
Proof.
  assert (forall url token body raw, witness_down url token body <> LeaseBody raw) as Hdown by discriminate.
  set (m := agent_turn root home "/etc/mp-opt/deployment-policy" witness_down all_well no_text host).
  assert (exists e, fst m = Ok (Some e)) as [e He] by (eexists; vm_compute; reflexivity).
  destruct (agent_run m (fun _ => tt) (Ok (Some e)) tt) as (g' & H & _); [by rewrite He|].
  exists e, g'. split; [exact H|].
  destruct (outage_keeps_observation root home "/etc/mp-opt/deployment-policy" witness_down all_well no_text host (Ok (Some e)) g' Hdown H)
    as (_ & _ & previous & d & now & Hp & Hd & _ & Hk).
  exists previous, d. split; [exact Hp|]. split; [exact Hd|]. by apply Hk.
Defined.
