(* ===== verification/Evidence.v ===== *)
(** The bridge between the workflow rows of the database and the signed evidence
    ledger ([backend/app/core/evidence.py]), and the instance identity of
    [backend/app/core/governance.py].  The subprocess runs of the ledger tool are
    calls of [EvidenceManifest] on the ledger directory: a run that raises exits
    with a non-zero code, and the ledger keeps what it wrote.  A directory is not
    an entry of [w_files]; an entry at its path is what stands in its way. *)
From Stdlib Require Import ZArith Lia Ascii String.
From stdpp Require Import base list strings.
From S2P Require Import Prelude Text Json Sha256 PyTime PyBuiltins Models EvidenceManifest Sha1 World.
From S2P Require Import Ha HaWitness.

(** The class of the exceptions for which a caller sees evidence missing. *)
Definition evidence_unavailable {A} (m : string) : outcome A := raise EvidenceUnavailable m.
Definition unavailable_if (c : bool) (m : string) : py unit := throw_if c EvidenceUnavailable m.

(** ** Paths *)

Definition evidence_path (c : config) (name : string) : string := EVIDENCE_HOME c +:+ "/" +:+ name.
Definition public_key_path (c : config) : string := evidence_path c "public/instance_signing_key.pub".
Definition audit_head_path (c : config) : string := evidence_path c "public/management-audit-head.json".
Definition EVIDENCE_DIRECTORIES : list string :=
  ["ledger"; "public"; "requests"; "outbox"; "exports"; "anchors"]%string.

Definition file_at (path : string) : py (option node) := gets (fun w => dget path (w_files w)).
Definition is_symlink (n : option node) : bool := match n with Some Symlink => true | _ => false end.
Definition is_regular (n : option node) : bool := match n with Some (Regular _) => true | _ => false end.

(** [path.read_bytes()] *)
Definition bytes_of (path : string) (n : option node) : outcome string :=
  match n with
  | None => raise FileNotFoundError path
  | Some (Regular raw) => Ok raw
  | Some _ => raise OSError path
  end.
(** [path.read_text(encoding="ascii")] *)
Definition read_ascii (path : string) : py string :=
  n ← file_at path;
  raw ← lift (bytes_of path n);
  lift (decode_ascii raw).

(** [directory.mkdir(parents=True, exist_ok=True)] *)
Definition make_directory (path : string) : py unit :=
  n ← file_at path;
  throw_if (match n with Some (Regular _) | Some Special => true | _ => false end) OSError path.

(** ** Keys *)

Definition ensure_directory (c : config) (name : string) : py unit :=
  let path := evidence_path c name in
  _ ← make_directory path;
  n ← file_at path;
  unavailable_if (is_symlink n) "An evidence directory is unsafe".

Definition ensure_directories : py unit :=
  c ← gets w_config;
  root ← file_at (EVIDENCE_HOME c);
  _ ← unavailable_if (is_symlink root) "The evidence root may not be a symbolic link";
  mfor (fun name => _ ← make_directory (EVIDENCE_HOME c); ensure_directory c name) EVIDENCE_DIRECTORIES.

Definition _canonical_public_key (value : string) : outcome string :=
  match usplit (ustrip value) with
  | kind :: body :: _ =>
      if String.eqb kind "ssh-ed25519" then Ok (kind +:+ " " +:+ body)
      else evidence_unavailable "The evidence signing key is not Ed25519"
  | _ => evidence_unavailable "The evidence signing key is not Ed25519"
  end.

(** [text.encode("ascii")] *)
Definition encode_ascii (s : string) : outcome string :=
  if is_ascii s then Ok s else raise UnicodeEncodeError "ordinal not in range(128)".

Definition public_key_id (public_key : string) : outcome string :=
  canonical ← _canonical_public_key public_key;
  raw ← encode_ascii canonical;
  Ok ("ek-" +:+ take_bytes 16 (sha256 raw)).

(** [_atomic_write(parent / name, raw)] outside the ledger *)
Definition write_file (parent path raw : string) : py unit :=
  _ ← make_directory parent;
  up ← file_at parent;
  n ← file_at path;
  _ ← unavailable_if (is_symlink up || is_symlink n) "Evidence paths may not be symbolic links";
  _ ← throw_if (match n with Some Special => true | _ => false end) OSError path;
  modify (fun w => w <| w_files := dset path (Regular raw) (w_files w) |>).

(** [_atomic_write] of an entry of the ledger directory *)
Definition write_ledger_entry (name raw : string) : py unit :=
  ledger ← gets w_ledger;
  _ ← unavailable_if (is_symlink (dget name ledger)) "Evidence paths may not be symbolic links";
  _ ← throw_if (match dget name ledger with Some Special => true | _ => false end) OSError name;
  modify (fun w => w <| w_ledger := dset name (Regular raw) (w_ledger w) |>).

(** [text.encode("utf-8")] *)
Definition encode_utf8 (s : string) : outcome string :=
  if utf8_valid s then Ok s else raise UnicodeEncodeError "surrogates not allowed".

(** A text column takes a text or NULL; the engine refuses other values. *)
Definition text_column (v : json) : outcome (option string) :=
  match v with
  | JStr s => Ok (Some s)
  | JNull => Ok None
  | _ => raise TypeError "the column takes a text"
  end.

(** ** The identity of the instance *)

Definition stable_instance_id : py string :=
  c ← gets w_config;
  if truthy_str (MP_INSTANCE_ID c) then mret (MP_INSTANCE_ID c)
  else
    profile ← q_first t_instance_governance_profile (fun p => gp_id p =? 1);
    match profile with
    | Some p => mret (gp_instance_id p)
    | None =>
        row ← q_first t_server_settings (fun r => String.eqb (ss_key r) "instance_id");
        match row with
        | Some r => mret (ss_value r)
        | None =>
            id ← fresh;
            row ← q_insert t_server_settings (fun i => mkServerSetting i "instance_id" id);
            mret (ss_value row)
        end
    end.

Section Bridge.
(** [ssh-keygen] signing, verifying, and deriving the public key of a private one. *)
Context (ssh_sign : string -> string -> string -> option string).
Context (ssh_verify : string -> string -> string -> string -> string -> bool).
Context (ssh_derive : string -> option string).
Context (repr_container : json -> string).

(** [lock_evidence_transaction] takes an advisory lock of the engine; calls here
    run one after the other. *)
Definition lock_evidence_transaction : py unit := mret tt.

Definition _verify_detached_bytes (content signature public_key : string) : outcome unit :=
  _ ← raise_if ((64 * 1024 <? byte_length content) || (32 * 1024 <? byte_length signature))
        EvidenceUnavailable "The evidence proof exceeds its size limit";
  _ ← raise_if (contains "PRIVATE KEY" signature) EvidenceUnavailable "Private keys may not be imported";
  canonical ← _canonical_public_key public_key;
  identifier ← public_key_id canonical;
  raise_if (negb (ssh_verify (allowed_signers identifier canonical) identifier NAMESPACE signature content))
    EvidenceUnavailable "The evidence proof signature is invalid".

Definition _derive_public_key : py string :=
  c ← gets w_config;
  n ← file_at (EVIDENCE_SIGNING_KEY_PATH c);
  match n with
  | Some (Regular key) =>
      match ssh_derive key with
      | Some out => lift (_canonical_public_key out)
      | None => throw EvidenceUnavailable "The instance evidence public key could not be derived"
      end
  | _ => throw EvidenceUnavailable "The instance evidence signing key is unavailable"
  end.

Definition AUDIT_HEAD_FIELDS : list string := ["format"; "tail_sha256"; "verified_at"]%string.
(** [set(document) != {...}] *)
Definition audit_head_fields (l : list json) : bool :=
  forallb (fun v => existsb (fun s => py_eq v (JStr s)) AUDIT_HEAD_FIELDS) l &&
  forallb (fun s => existsb (fun v => py_eq v (JStr s)) l) AUDIT_HEAD_FIELDS.

Definition read_audit_head (n : option node) : outcome string :=
  raw ← bytes_of "management-audit-head.json" n;
  _ ← raise_if (4096 <? byte_length raw) EvidenceUnavailable "The management audit head is unsafe";
  _ ← raise_if (negb (utf8_valid raw)) UnicodeDecodeError "invalid utf-8";
  document ← loads raw;
  l ← elements document;
  _ ← raise_if (negb (audit_head_fields l)) ValueError "unexpected audit head fields";
  digest ← subscript "tail_sha256" document;
  format ← subscript "format" document;
  if negb (py_eq format (JStr "mp-opt-management-audit-head-v1"))
  then raise ValueError "invalid audit head"
  else match digest with
       | JStr d => if fullmatch SHA256_RE d then Ok d else raise ValueError "invalid audit head"
       | _ => raise TypeError "expected string or bytes-like object"
       end.

Definition management_audit_tail (required : bool) : py (option string) :=
  c ← gets w_config;
  n ← file_at (audit_head_path c);
  _ ← unavailable_if (is_symlink n) "The management audit head is unsafe";
  try_except (digest ← lift (read_audit_head n); mret (Some digest))
    [OSError; ValueError; TypeError; JSONDecodeError]
    (fun _ => if required then throw EvidenceUnavailable "The verified management audit head is unavailable"
              else mret None).

(** ** The ledger and its tool *)

(** [ledger.is_dir()] and not a link *)
Definition ledger_is_real (w : world) : bool :=
  match dget (evidence_path (w_config w) "ledger") (w_files w) with None => true | Some _ => false end.

(** The run of [evidence_manifest.py verify-chain]: its output, or a non-zero exit. *)
Definition tool_verify_chain : py (option string) :=
  now ← utc_now;
  w ← get;
  match EvidenceManifest.verify_chain ssh_verify (instant now) (ledger_is_real w) (w_ledger w)
          (dget (public_key_path (w_config w)) (w_files w)) with
  | Ok document => mret (Some (dumps_sorted (JObj document)))
  | Raise _ => mret None
  end.

(** The run of [evidence_manifest.py append]: the name of the record file, or a
    non-zero exit.  The bridge always names the record. *)
Definition tool_append (args : append_args) (payload_file : string) : py (option string) :=
  now ← utc_now;
  w ← get;
  let run : M dir string :=
    _ ← throw_if (negb (str_in (a_record_type args) RECORD_TYPES)) ValueError "invalid choice";
    payload ← lift (_load_payload (dget payload_file (w_files w)));
    EvidenceManifest.append_record ssh_sign ssh_verify (instant now) (ledger_is_real w) EmptyString
      (AppendArgs (a_instance_id args) (a_chain_id args) (a_record_type args) payload
         (a_audit_tail args) (a_record_id args) (a_created_at args))
      (dget (EVIDENCE_SIGNING_KEY_PATH (w_config w)) (w_files w))
      (dget (public_key_path (w_config w)) (w_files w)) in
  let '(r, ledger) := run (w_ledger w) in
  _ ← modify (fun w => w <| w_ledger := ledger |>);
  mret (match r with Ok path => Some path | Raise _ => None end).

(** A record file with its content and the digest of its bytes *)
Definition entry : Type := string * json * string.
Definition read_entry (ledger : dir) (path : string) : outcome entry :=
  raw ← bytes_of path (dget path ledger);
  record ← loads_bytes raw;
  Ok (path, record, sha256 raw).
Definition ledger_records (ledger : dir) : outcome (list entry) :=
  map_outcome (read_entry ledger) (record_paths ledger).
Definition _ledger_records : py (list entry) := fun w => (ledger_records (w_ledger w), w).

Definition chain_contains_digest (digest : string) : py bool :=
  if negb (fullmatch SHA256_RE digest) then mret false
  else records ← _ledger_records; mret (existsb (fun e => String.eqb e.2 digest) records).

(** ** Operations *)

Definition METADATA : list string :=
  ["evidence_operation_id"; "evidence_workflow_type"; "evidence_workflow_id"; "evidence_operation_type"]%string.
Definition _payload_without_operation_metadata (payload : list (string * json)) : list (string * json) :=
  fold_left (fun d k => dpop k d) METADATA payload.

Definition operation_metadata (o : EvidenceOperation) : list (string * json) :=
  [("evidence_operation_id", JStr (eo_operation_id o)); ("evidence_workflow_type", JStr (eo_workflow_type o));
   ("evidence_workflow_id", JStr (eo_workflow_id o)); ("evidence_operation_type", JStr (eo_operation_type o))]%string.
Definition _operation_payload (o : EvidenceOperation) : outcome (list (string * json)) :=
  payload ← loads (eo_payload_json o);
  match payload with
  | JObj d => Ok (dupdate (operation_metadata o) d)
  | _ => raise AttributeError "object has no attribute 'update'"
  end.

(** The state row and an operation row as the session updates them. *)
Definition set_state (f : EvidenceChainState -> EvidenceChainState) : py unit :=
  _ ← q_update t_evidence_chain_state (fun s => cs_id s =? 1) f; mret tt.
Definition set_operation (o : EvidenceOperation) (f : EvidenceOperation -> EvidenceOperation) : py unit :=
  _ ← q_update t_evidence_operations (fun x => eo_id x =? eo_id o) f; mret tt.
Definition chain_state : py (option EvidenceChainState) :=
  q_first t_evidence_chain_state (fun s => cs_id s =? 1).

Definition completed (digest : string) (o : EvidenceOperation) : EvidenceOperation :=
  o <| eo_state := "complete"%string |> <| eo_record_sha256 := Some digest |> <| eo_error_code := None |>.

Definition _append_operation_file (state : EvidenceChainState) (operation : EvidenceOperation) : py string :=
  record_type ← match eo_record_type operation with
                | Some t => if truthy_str t then mret t
                            else throw EvidenceUnavailable "The pending evidence operation has no record type"
                | None => throw EvidenceUnavailable "The pending evidence operation has no record type"
                end;
  _ ← ensure_directories;
  c ← gets w_config;
  let payload_file := evidence_path c "outbox" +:+ "/" +:+ eo_operation_id operation +:+ ".json" in
  payload ← lift (_operation_payload operation);
  raw ← lift (encode_utf8 (dumps_compact_sorted (JObj payload) +:+ String (chr 10) EmptyString));
  _ ← write_file (evidence_path c "outbox") payload_file raw;
  out ← tool_append (AppendArgs (cs_instance_id state) (cs_chain_id state) record_type []
          (match eo_management_audit_tail_sha256 operation with
           | Some t => if truthy_str t then Some t else None
           | None => None
           end) (Some (eo_record_id operation)) None) payload_file;
  _ ← modify (fun w => w <| w_files := dpop payload_file (w_files w) |>);
  match out with
  | None => throw EvidenceUnavailable "The signed evidence record could not be appended"
  | Some path =>
      ledger ← gets w_ledger;
      '(_, record, digest) ← lift (read_entry ledger path);
      _ ← set_operation operation (completed digest);
      sequence ← lift (v ← subscript "sequence" record; py_int v);
      now ← utc_now;
      _ ← set_state (fun s => s <| cs_last_sequence := sequence |> <| cs_head_sha256 := Some digest |>
                                <| cs_verified_at := Some now |>);
      mret digest
  end.

(** ** Reconciliation *)

(** One file of an uncommitted tail, moved with its signature. *)
Definition quarantine_entry (quarantine : string) (e : entry) : py unit :=
  let path := e.1.1 in
  ledger ← gets w_ledger;
  node ← lift (match dget path ledger with Some n => Ok n | None => raise FileNotFoundError path end);
  _ ← modify (fun w => w <| w_ledger := dpop path (w_ledger w) |>
                         <| w_files := dset (quarantine +:+ "/" +:+ path) node (w_files w) |>);
  let signature := sig_name path in
  match dget signature ledger with
  | Some (Regular raw) =>
      modify (fun w => w <| w_ledger := dpop signature (w_ledger w) |>
                         <| w_files := dset (quarantine +:+ "/" +:+ signature) (Regular raw) (w_files w) |>)
  | _ => throw EvidenceUnavailable "An orphaned evidence signature is missing"
  end.

Definition retained_head (record : json) (digest : string) : outcome string :=
  chain ← subscript "chain_id" record;
  instance ← subscript "instance_id" record;
  sequence ← subscript "sequence" record;
  Ok (dumps_ascii_compact_sorted
        (JObj [("chain_id", chain); ("head_sha256", JStr digest); ("instance_id", instance);
               ("sequence", sequence)]%string) +:+ String (chr 10) EmptyString).

Definition _quarantine_orphaned_tail (records retained : list entry) : py unit :=
  match last retained with
  | None => throw EvidenceUnavailable "The evidence genesis is not committed by the database"
  | Some (_, last_record, last_digest) =>
      c ← gets w_config;
      id ← fresh;
      _ ← mfor (quarantine_entry (evidence_path c "outbox/orphaned/" +:+ id)) records;
      head ← lift (retained_head last_record last_digest);
      write_ledger_entry "chain-head.json" head
  end.

(** Whether a ledger record is the one the operation asked for. *)
Definition matches_record (o : EvidenceOperation) (record : json) (payload : list (string * json)) : outcome bool :=
  original ← loads (eo_payload_json o);
  let bound := negb (is_null (dget_or_null "evidence_operation_id" payload)) in
  let record_payload := if bound then _payload_without_operation_metadata payload else payload in
  record_type ← get_attr "record_type" JNull record;
  Ok (py_eq original (JObj record_payload)
      && negb (match eo_record_type o with
               | Some t => truthy_str t && negb (py_eq (JStr t) record_type)
               | None => false
               end)
      && negb (bound && negb (forallb (fun kv => py_eq (dget_or_null kv.1 payload) kv.2) (operation_metadata o)))).

(** The loop over the ledger: the record ids present, and the entries retained
    and orphaned, both in reverse. *)
Fixpoint reconcile_records (l : list entry) (present : list string) (retained orphaned : list entry)
  : py (list string * list entry * list entry) :=
  match l with
  | [] => mret (present, List.rev retained, List.rev orphaned)
  | e :: l =>
      let '(path, record, digest) := e in
      record_id ← lift (get_attr "record_id" JNull record);
      payload ← lift (get_attr "payload" JNull record);
      match record_id, payload with
      | JStr record_id, JObj payload =>
          operation ← q_first t_evidence_operations (fun o => String.eqb (eo_record_id o) record_id);
          match operation with
          | None => reconcile_records l (record_id :: present) retained (e :: orphaned)
          | Some operation =>
              _ ← unavailable_if (negb (Nat.eqb (length orphaned) 0))
                    "A committed evidence record depends on an uncommitted ledger tail";
              ok ← lift (matches_record operation record payload);
              _ ← unavailable_if (negb ok) "Evidence operation content does not match the ledger";
              record_type ← lift (v ← get_attr "record_type" JNull record; text_column v);
              audit_tail ← lift (v ← get_attr "management_audit_tail_sha256" JNull record; text_column v);
              _ ← set_operation operation (fun o =>
                    completed digest (o <| eo_record_type := record_type |>
                                        <| eo_management_audit_tail_sha256 := audit_tail |>));
              reconcile_records l (record_id :: present) (e :: retained) orphaned
          end
      | _, _ => throw EvidenceUnavailable "The evidence ledger contains an invalid record"
      end
  end.

(** The ids of the ledger's records with their digests. *)
Fixpoint record_digests (l : list entry) (records : list (string * json)) : outcome (list (string * json)) :=
  match l with
  | [] => Ok records
  | (_, record, digest) :: l =>
      record_id ← get_attr "record_id" JNull record;
      match record_id with
      | JStr id =>
          if has_key id records
          then evidence_unavailable "The evidence ledger has duplicate or invalid record IDs"
          else record_digests l (dset id (JStr digest) records)
      | _ => evidence_unavailable "The evidence ledger has duplicate or invalid record IDs"
      end
  end.
(** The session does not write its changes before a query ([autoflush=False] in
    [db/database.py]): a filter is evaluated on the rows as last [flushed], and
    the rows it selects are the session's objects. *)
Definition flushed_complete (flushed : list EvidenceOperation) (o : EvidenceOperation) : bool :=
  existsb (fun r => (eo_id r =? eo_id o) && String.eqb (eo_state r) "complete") flushed.
Definition committed_digests (flushed l : list EvidenceOperation) : list (string * json) :=
  dict_of_pairs (map (fun o => (eo_record_id o, of_opt_str (eo_record_sha256 o)))
                   (List.filter (flushed_complete flushed) l)).

Definition instance_key (public digest id : string) (k : EvidenceKey) : bool :=
  String.eqb (ek_role k) "instance" && String.eqb (ek_key_id k) id &&
  String.eqb (ek_public_key_sha256 k) digest && is_none (ek_revoked_at k).

(** The check, when the rows were last written as [flushed]. *)
Definition verify_flushed (flushed : list EvidenceOperation) : py (list (string * json)) :=
  state ← chain_state;
  match state with
  | None => throw EvidenceUnavailable "Evidence has not been initialised"
  | Some state =>
      out ← tool_verify_chain;
      text ← match out with
             | None => throw EvidenceUnavailable "The local evidence chain is invalid"
             | Some text => mret text
             end;
      document ← lift (loads text);
      instance ← lift (get_attr "instance_id" JNull document);
      chain ← lift (get_attr "chain_id" JNull document);
      _ ← unavailable_if (negb (py_eq instance (JStr (cs_instance_id state)))
                          || negb (py_eq chain (JStr (cs_chain_id state))))
            "The evidence ledger belongs to another database state";
      c ← gets w_config;
      stored ← read_ascii (public_key_path c);
      public ← lift (_canonical_public_key stored);
      public_raw ← lift (encode_ascii public);
      id ← lift (public_key_id public);
      registered ← q_first t_evidence_keys (instance_key public (sha256 public_raw) id);
      _ ← unavailable_if (is_none registered) "The evidence ledger key is not registered by this database";
      entries ← _ledger_records;
      records ← lift (record_digests entries []);
      operations ← q_all t_evidence_operations (fun _ => true);
      _ ← unavailable_if (negb (py_eq (JObj records) (JObj (committed_digests flushed operations))))
            "The evidence ledger and committed database operations do not match";
      count ← lift (v ← subscript "records" document; py_int v);
      head ← lift (v ← subscript "head_sha256" document; text_column v);
      now ← utc_now;
      _ ← set_state (fun s => s <| cs_last_sequence := count |> <| cs_head_sha256 := head |>
                                <| cs_verified_at := Some now |>);
      match document with JObj d => mret d | _ => lift (raise TypeError "an object was expected") end
  end.

Definition verify_local_chain : py (list (string * json)) :=
  operations ← q_all t_evidence_operations (fun _ => true);
  verify_flushed operations.

(** The operations that have no record in the ledger are appended again. *)
Fixpoint append_missing (state_of : py EvidenceChainState) (present : list string) (l : list EvidenceOperation)
  : py unit :=
  match l with
  | [] => mret tt
  | o :: l =>
      _ ← (if str_in (eo_record_id o) present then mret tt
           else
             _ ← unavailable_if (negb (str_in (eo_state o) ["pending"; "failed"]%string))
                   "A committed evidence record is missing from the ledger";
             state ← state_of;
             _ ← _append_operation_file state o; mret tt);
      append_missing state_of present l
  end.

(** [state] stays the session's object, so its identity fields are the ones read. *)
Definition reconcile_local_chain : py (list (string * json)) :=
  _ ← lock_evidence_transaction;
  state ← chain_state;
  match state with
  | None => throw EvidenceUnavailable "Evidence has not been initialised"
  | Some state =>
      _ ← ensure_directories;
      derived ← _derive_public_key;
      c ← gets w_config;
      raw ← read_ascii (public_key_path c);
      stored ← lift (_canonical_public_key raw);
      _ ← unavailable_if (negb (String.eqb derived stored))
            "The instance evidence private and public keys do not match";
      out ← tool_verify_chain;
      _ ← unavailable_if (is_none out) "The local evidence chain is invalid";
      entries ← _ledger_records;
      '(present, retained, orphaned) ← reconcile_records entries [] [] [];
      _ ← when (negb (Nat.eqb (length orphaned) 0)) (_quarantine_orphaned_tail orphaned retained);
      operations ← q_all t_evidence_operations (fun _ => true);
      _ ← append_missing (mret state) present (order_by eo_id operations);
      verify_flushed operations
  end.

Definition verify_existing : py EvidenceChainState :=
  state ← chain_state;
  match state with
  | None => throw EvidenceUnavailable "The required evidence chain has not been initialised"
  | Some state =>
      _ ← try_except
            (_ ← ensure_directories;
             derived ← _derive_public_key;
             c ← gets w_config;
             raw ← read_ascii (public_key_path c);
             stored ← lift (_canonical_public_key raw);
             _ ← unavailable_if (negb (String.eqb derived stored))
                   "The instance evidence private and public keys do not match";
             _ ← verify_local_chain; mret tt)
            [OSError; UnicodeDecodeError; UnicodeEncodeError; EvidenceUnavailable]
            (fun _ => throw EvidenceUnavailable "The existing evidence chain failed startup verification");
      mret state
  end.

(** ** Appending and initialising *)

Definition _deterministic_record_id (chain_id workflow_type workflow_id operation_type : string) : outcome string :=
  match parse_uuid chain_id with
  | None => raise ValueError "badly formed hexadecimal UUID string"
  | Some n => Ok (uuid5 n (workflow_type +:+ ":" +:+ workflow_id +:+ ":" +:+ operation_type))
  end.

Definition of_workflow (workflow_type workflow_id operation_type : string) (o : EvidenceOperation) : bool :=
  String.eqb (eo_workflow_type o) workflow_type && String.eqb (eo_workflow_id o) workflow_id &&
  String.eqb (eo_operation_type o) operation_type.

(** One request of a workflow for a record. *)
Record request : Type := Request {
  q_workflow_type : string;
  q_workflow_id : string;
  q_operation_type : string;
  q_record_type : string;
  q_payload : list (string * json);
  q_allow_missing_audit : bool
}.
Definition q_canonical (q : request) : string := dumps_compact_sorted (JObj (q_payload q)).
Definition of_request (q : request) : EvidenceOperation -> bool :=
  of_workflow (q_workflow_type q) (q_workflow_id q) (q_operation_type q).

(** The request refused when it differs from the operation already there. *)
Definition check_replay (q : request) (existing : EvidenceOperation) : py unit :=
  _ ← unavailable_if (negb (String.eqb (eo_payload_json existing) (q_canonical q)))
        "An evidence operation was replayed with different content";
  unavailable_if (match eo_record_type existing with
                  | Some t => truthy_str t && negb (String.eqb t (q_record_type q))
                  | None => false
                  end) "An evidence operation was replayed with another record type".

Definition new_operation (q : request) (state : EvidenceChainState) : py EvidenceOperation :=
  operation_id ← fresh;
  record_id ← lift (_deterministic_record_id (cs_chain_id state) (q_workflow_type q) (q_workflow_id q)
                      (q_operation_type q));
  now ← utc_now;
  q_insert t_evidence_operations (fun i =>
    (new_EvidenceOperation now) <| eo_id := i |> <| eo_operation_id := operation_id |>
      <| eo_record_id := record_id |> <| eo_workflow_type := q_workflow_type q |>
      <| eo_workflow_id := q_workflow_id q |> <| eo_operation_type := q_operation_type q |>
      <| eo_record_type := Some (q_record_type q) |> <| eo_payload_json := q_canonical q |>).

(** The part of [append_record] that may be tried again later. *)
Definition attempt_append (q : request) (state : EvidenceChainState) (operation : EvidenceOperation) : py string :=
  try_except
    (audit_tail ← management_audit_tail (negb (q_allow_missing_audit q));
     let prepare o := o <| eo_record_type := Some (q_record_type q) |>
                        <| eo_management_audit_tail_sha256 := audit_tail |> in
     _ ← set_operation operation prepare;
     _append_operation_file state (prepare operation))
    [OSError; ValueError; TypeError; JSONDecodeError; EvidenceUnavailable]
    (fun _ =>
       _ ← set_operation operation (fun o => o <| eo_state := "failed"%string |>
                                              <| eo_error_code := Some "evidence_append_failed"%string |>);
       throw EvidenceUnavailable "Required evidence could not be appended").

(** [append_record], given the initialisation it starts when there is no chain. *)
Definition append_with (init : py EvidenceChainState) (q : request) : py string :=
  _ ← lock_evidence_transaction;
  known ← chain_state;
  ledger ← gets w_ledger;
  state ← match known with
          | None => init
          | Some state =>
              _ ← (if negb (Nat.eqb (length (record_paths ledger)) 0)
                   then _ ← reconcile_local_chain; mret tt else mret tt);
              mret state
          end;
  existing ← q_first t_evidence_operations (of_request q);
  match existing with
  | Some existing =>
      _ ← check_replay q existing;
      match eo_record_sha256 existing with
      | Some digest =>
          if String.eqb (eo_state existing) "complete" && truthy_str digest then mret digest
          else attempt_append q state existing
      | None => attempt_append q state existing
      end
  | None => operation ← new_operation q state; attempt_append q state operation
  end.

Definition register_instance_key (public instance_id : string) : py string :=
  raw ← lift (encode_ascii public);
  id ← lift (public_key_id public);
  now ← utc_now;
  stamp ← utc_now;
  _ ← q_insert t_evidence_keys (fun i =>
        (new_EvidenceKey stamp) <| ek_id := i |> <| ek_key_id := id |> <| ek_public_key := public |>
          <| ek_public_key_sha256 := sha256 raw |> <| ek_instance_id := instance_id |>
          <| ek_activated_at := Some now |>);
  mret id.

Definition add_chain_state (instance_id chain_id : string) : py EvidenceChainState :=
  c ← gets w_config;
  now ← utc_now;
  let state := (new_EvidenceChainState now) <| cs_instance_id := instance_id |>
                 <| cs_chain_id := chain_id |> <| cs_evidence_mode := EVIDENCE_MODE c |> in
  _ ← q_add t_evidence_chain_state state;
  mret state.

Definition non_empty_text (v : json) : option string :=
  match v with JStr s => if truthy_str s then Some s else None | _ => None end.

(** The identity the database and the configuration already know. *)
Definition known_instance (c : config) (profile : option InstanceGovernanceProfile)
  (setting : option ServerSetting) : option string :=
  let first (a b : option string) := if truthy_opt a then a else b in
  first (first (Some (MP_INSTANCE_ID c)) (option_map gp_instance_id profile)) (option_map ss_value setting).

Definition _recover_uncommitted_initialisation : py (option EvidenceChainState) := fun w =>
  (if negb (ledger_is_real w) || Nat.eqb (length (record_paths (w_ledger w))) 0 then mret None
   else
     public ← _derive_public_key;
     c ← gets w_config;
     pub ← lift (encode_ascii public);
     _ ← write_file (evidence_path c "public") (public_key_path c) (pub +:+ String (chr 10) EmptyString);
     out ← tool_verify_chain;
     text ← match out with
            | None => throw EvidenceUnavailable "The interrupted evidence initialisation is invalid"
            | Some text => mret text
            end;
     chain ← lift (loads text);
     entries ← _ledger_records;
     '(_, first, first_digest) ← lift (match entries with e :: _ => Ok e | [] => raise IndexError "list index" end);
     first_type ← lift (get_attr "record_type" JNull first);
     _ ← unavailable_if (negb (py_eq first_type (JStr "instance.initialised")))
           "The evidence ledger has no valid initialisation record";
     recovered ← lift (v ← subscript "instance_id" chain; Ok (py_str repr_container v));
     profile ← q_first t_instance_governance_profile (fun p => gp_id p =? 1);
     setting ← q_first t_server_settings (fun r => String.eqb (ss_key r) "instance_id");
     _ ← unavailable_if (match known_instance c profile setting with
                         | Some known => negb (String.eqb known recovered)
                         | None => false
                         end) "The evidence ledger belongs to another instance";
     _ ← when (is_none setting && negb (truthy_str (MP_INSTANCE_ID c)) && is_none profile)
           (_ ← q_insert t_server_settings (fun i => mkServerSetting i "instance_id" recovered); mret tt);
     chain_id ← lift (v ← subscript "chain_id" chain; Ok (py_str repr_container v));
     state ← add_chain_state recovered chain_id;
     _ ← register_instance_key public recovered;
     payload ← lift (v ← get_attr "payload" JNull first;
                     match v with
                     | JObj d => Ok d
                     | _ => evidence_unavailable "The evidence initialisation payload is invalid"
                     end);
     let field k := non_empty_text (dget_or_null k payload) in
     match field "evidence_operation_id"%string, field "evidence_workflow_type"%string,
           field "evidence_workflow_id"%string, field "evidence_operation_type"%string with
     | Some operation_id, Some workflow_type, Some workflow_id, Some operation_type =>
         expected ← lift (_deterministic_record_id chain_id workflow_type workflow_id operation_type);
         record_id ← lift (get_attr "record_id" JNull first);
         _ ← unavailable_if (negb (py_eq (JStr expected) record_id))
               "The interrupted initialisation metadata is inconsistent";
         audit_tail ← lift (v ← get_attr "management_audit_tail_sha256" JNull first; text_column v);
         now ← utc_now;
         _ ← q_insert t_evidence_operations (fun i =>
               (new_EvidenceOperation now) <| eo_id := i |> <| eo_operation_id := operation_id |>
                 <| eo_record_id := expected |> <| eo_workflow_type := workflow_type |>
                 <| eo_workflow_id := workflow_id |> <| eo_operation_type := operation_type |>
                 <| eo_record_type := Some "instance.initialised"%string |>
                 <| eo_payload_json := dumps_compact_sorted (JObj (_payload_without_operation_metadata payload)) |>
                 <| eo_management_audit_tail_sha256 := audit_tail |> <| eo_state := "complete"%string |>
                 <| eo_record_sha256 := Some first_digest |>);
         _ ← reconcile_local_chain;
         mret (Some state)
     | _, _, _, _ => throw EvidenceUnavailable "The interrupted initialisation has no recovery metadata"
     end) w.

(** [initialise], given the [append_record] it calls once the chain state is there. *)
Definition initialise_with (append : request -> py string) : py EvidenceChainState :=
  state ← chain_state;
  match state with
  | Some state =>
      _ ← try_except (_ ← reconcile_local_chain; mret tt)
            [OSError; UnicodeDecodeError; UnicodeEncodeError; EvidenceUnavailable]
            (fun _ => throw EvidenceUnavailable "The existing evidence chain failed startup verification");
      mret state
  | None =>
      _ ← ensure_directories;
      public ← _derive_public_key;
      recovered ← _recover_uncommitted_initialisation;
      match recovered with
      | Some state => mret state
      | None =>
          instance_id ← stable_instance_id;
          chain_id ← fresh;
          state ← add_chain_state instance_id chain_id;
          key ← register_instance_key public instance_id;
          c ← gets w_config;
          pub ← lift (encode_ascii public);
          _ ← write_file (evidence_path c "public") (public_key_path c) (pub +:+ String (chr 10) EmptyString);
          _ ← append (Request "instance" instance_id "initialised" "instance.initialised"
                [("status", JStr "initialised"); ("key_id", JStr key);
                 ("public_key_sha256", JStr (sha256 pub))]%string true);
          mret state
      end
  end.

(** The two functions call each other; once the state row is there [append_record]
    does not initialise again, so two levels are the whole recursion. *)
Definition initialise : py EvidenceChainState :=
  initialise_with (append_with (throw RecursionError "maximum recursion depth exceeded")).
Definition append_record : request -> py string := append_with initialise.
End Bridge.
