(* ===== verification/OperatorEvidence.v ===== *)
(** Trust evidence of controllers and processors, [backend/app/core/operator_evidence.py]:
    the canonical text of a document, the identities of keys and entities, what a
    registration, an archive binding and a desktop document must say, and the
    check of an Ed25519 signature over one.

    The library [cryptography] is a parameter ([TrustKeys]): reading an OpenSSH
    public key, its canonical text, verifying a signature. *)
From Stdlib Require Import ZArith Lia Ascii String.
From stdpp Require Import base list strings.
From S2P Require Import Prelude Text TextFacts Json JsonFacts Sha256 PyTime PyBuiltins Base64 EvidenceManifest World Evidence.

Definition REGISTRATION_FORMAT : string := "mp-opt-controller-trust-registration-v2".
Definition PROCESSOR_EVENT_REGISTRATION_FORMAT : string := "mp-opt-processor-event-registration-v1".
Definition DESKTOP_POLICY_ACK_FORMAT : string := "mp-opt-desktop-policy-acknowledgement-v1".
Definition DESKTOP_DELETION_FORMAT : string := "mp-opt-desktop-deletion-receipt-v2".
Definition DESKTOP_COPY_RESOLUTION_FORMAT : string := "mp-opt-desktop-copy-resolution-v1".
Definition DESKTOP_WORK_ORDER_CLAIM_FORMAT : string := "mp-opt-desktop-work-order-claim-v1".
Definition SIGNATURE_FORMAT : string := "mp-opt-ed25519-signature-v1".
Definition TRUST_NAMESPACE : string := "mp-opt-role-trust-v1".
Definition DESKTOP_EVIDENCE_NAMESPACE : string := "mp-opt-desktop-evidence-v1".
Definition SIGNED_DESKTOP_EVIDENCE_PACKAGE_FORMAT : string := "mp-opt-signed-desktop-evidence-v1".
Definition ARCHIVE_TRUST_FORMAT : string := "mp-opt-controller-archive-trust-v1".
Definition ARCHIVE_TRUST_SCOPE : string := "accountability_evidence_archive".
Definition TRUST_ROLES : list string := ["controller"; "processor"]%string.
Definition ROTATION_REASONS : list string := ["routine"; "lost"; "compromised"]%string.
Definition KEY_ID_RE : regex := seq_r (lit "ek-") (rep 16 hex_lower).
Definition entity_chars : regex := rep_range 8 48 (cls [("a", "z"); ("0", "9")]%char).
Definition ENTITY_ID_RE (role : string) : regex := if String.eqb role "controller" then seq_r (lit "ctl-") entity_chars else seq_r (lit "prc-") entity_chars.
Definition SHA256_RE : regex := rep 64 hex_lower.
Definition PRIVATE_MARKERS : list string :=
  map (fun label => "-----BEGIN " +:+ label +:+ "-----") ["OPENSSH PRIVATE KEY"; "PRIVATE KEY"; "ENCRYPTED PRIVATE KEY"]%string.

Definition trust_error {A} (m : string) : outcome A := raise TrustEvidenceError m.
Definition trust_if (c : bool) (m : string) : outcome unit := raise_if c TrustEvidenceError m.

(** ** Documents *)

Definition has_private_marker (s : string) : bool := existsb (fun marker => contains marker s) PRIVATE_MARKERS.
Definition check_text (s : string) : outcome unit :=
  _ ← trust_if ((4096 <? strlen s) || existsb (fun c => c <? 32) (code_points s)) "trust evidence contains an unsafe string";
  trust_if (has_private_marker s) "private-key material is forbidden".
Fixpoint _reject_values (value : json) : outcome unit :=
  match value with
  | JFloat _ => trust_error "floating-point values are forbidden"
  | JNull | JBool _ | JInt _ => Ok tt
  | JStr s => check_text s
  | JList l =>
      _ ← trust_if (64 <? Z.of_nat (length l)) "trust evidence array is too large";
      for_each _reject_values l
  | JObj d =>
      _ ← trust_if (32 <? Z.of_nat (length d)) "trust evidence object is invalid";
      for_each (fun kv => _ ← check_text kv.1; _reject_values kv.2) d
  end.

Definition canonical_json (value : list (string * json)) : outcome string :=
  _ ← _reject_values (JObj value);
  raw ← encode_utf8 (dumps_compact_sorted (JObj value) +:+ line_feed);
  _ ← trust_if (64 * 1024 <? byte_length raw) "trust evidence exceeds 64 KiB";
  Ok raw.
Definition canonical_sha256 (value : list (string * json)) : outcome string := raw ← canonical_json value; Ok (sha256 raw).

Definition parse_timestamp (value : json) (field : string) : outcome datetime :=
  match value with
  | JStr s => if fullmatch TIMESTAMP_RE s then d ← strptime_Z (code_points s); Ok (replace_utc d)
              else trust_error (field +:+ " must be a canonical UTC timestamp")
  | _ => trust_error (field +:+ " must be a canonical UTC timestamp")
  end.
Definition _uuid (value : json) (field : string) : outcome string :=
  match value with
  | JStr s =>
      match parse_uuid s with
      | None => trust_error (field +:+ " must be a UUID")
      | Some z => if String.eqb (uuid_string z) s then Ok s else trust_error (field +:+ " must use canonical UUID form")
      end
  | _ => trust_error (field +:+ " must be a UUID")
  end.
Definition str_full (r : regex) (v : json) : bool := match v with JStr s => fullmatch r s | _ => false end.
Definition validate_entity (role entity_id : json) : outcome string :=
  known ← in_frozenset role TRUST_ROLES;
  match role, entity_id with
  | JStr role, JStr entity => if known && fullmatch (ENTITY_ID_RE role) entity then Ok entity
                              else trust_error "the entity identity does not match the trust role"
  | _, _ => trust_error "the entity identity does not match the trust role"
  end.

(** The members of a document, in an action *)
Definition members (format : string) (names : list string) (document : list (string * json)) : list (string * json) :=
  ("format"%string, JStr format) :: map (fun k => (k, dget_or_null k document)) names.
Definition action_payload (document : list (string * json)) : list (string * json) :=
  members "mp-opt-trust-action-v1"
    ["action"; "instance_id"; "entity_id"; "key_id"; "role"; "algorithm"; "public_key_sha256"; "trust_scope";
     "governance_authorisation"; "supersedes_key_id"; "reason"]%string document.
Definition action_sha256 (document : list (string * json)) : outcome string := canonical_sha256 (action_payload document).
Definition processor_event_action_payload (document : list (string * json)) : list (string * json) :=
  members "mp-opt-processor-event-action-v1"
    ["action"; "instance_id"; "event_ref"; "entity_id"; "key_id"; "role"; "algorithm"; "public_key_sha256";
     "supersedes_key_id"; "reason"]%string document.
Definition processor_event_action_sha256 (document : list (string * json)) : outcome string :=
  canonical_sha256 (processor_event_action_payload document).

Definition is_text (v : json) (s : string) : bool := py_eq v (JStr s).
Definition check_nonce (document : list (string * json)) (invalid wrong_length : string) : outcome unit :=
  match dget_or_null "nonce" document with
  | JStr s =>
      match b64decode s with
      | Ok nonce => trust_if (negb (byte_length nonce =? 32)) wrong_length
      | Raise _ => trust_error invalid
      end
  | _ => trust_error invalid
  end.
Definition check_lifetime (document : list (string * json)) (message : string) : outcome unit :=
  created ← parse_timestamp (dget_or_null "created_at" document) "created_at";
  expires ← parse_timestamp (dget_or_null "expires_at" document) "expires_at";
  trust_if ((instant expires <=? instant created) || (instant created + 15 * us_minute <? instant expires)) message.
Definition check_rotation (rotation : bool) (document : list (string * json)) (new_message rotation_message : string) : outcome unit :=
  let previous := dget_or_null "supersedes_key_id" document in
  let reason := dget_or_null "reason" document in
  if negb rotation then trust_if (negb (is_null previous) || negb (is_null reason)) new_message
  else if negb (str_full KEY_ID_RE previous) then trust_error rotation_message
  else known ← in_frozenset reason ROTATION_REASONS; trust_if (negb known) rotation_message.

Definition REGISTRATION_FIELDS : list string :=
  ["format"; "challenge_id"; "action"; "instance_id"; "entity_id"; "key_id"; "role"; "algorithm"; "public_key_sha256";
   "trust_scope"; "governance_authorisation"; "supersedes_key_id"; "reason"; "action_sha256"; "nonce"; "created_at"; "expires_at"]%string.
Definition validate_registration_document (document : list (string * json)) : outcome unit :=
  let field k := dget_or_null k document in
  _ ← trust_if (negb (keys_are document REGISTRATION_FIELDS) || negb (is_text (field "format") REGISTRATION_FORMAT))
        "registration challenge fields are invalid";
  _ ← _uuid (field "challenge_id") "challenge_id"; _ ← _uuid (field "instance_id") "instance_id";
  _ ← validate_entity (field "role") (field "entity_id");
  known ← in_frozenset (field "action") ["register"; "rotate"]%string;
  _ ← trust_if (negb known || negb (is_text (field "algorithm") "Ed25519")) "registration action or algorithm is invalid";
  _ ← trust_if (negb (is_text (field "role") "controller")) "the controller registration role is invalid";
  _ ← trust_if (negb (is_text (field "trust_scope") "controller_governance_authority")) "the controller trust scope is invalid";
  _ ← trust_if (negb (is_text (field "governance_authorisation") "root_passkey_per_publication"))
        "the governance authorisation scope is invalid";
  _ ← trust_if (negb (str_full KEY_ID_RE (field "key_id"))) "registration key ID is invalid";
  _ ← trust_if (negb (str_full SHA256_RE (field "public_key_sha256"))) "registration fingerprint is invalid";
  digest ← action_sha256 document;
  _ ← trust_if (negb (is_text (field "action_sha256") digest)) "registration exact action digest is invalid";
  _ ← check_rotation (negb (is_text (field "action") "register")) document "new registration cannot contain rotation metadata"
        "rotation metadata is invalid";
  _ ← check_nonce document "registration nonce is invalid" "registration nonce must contain 32 bytes";
  _ ← check_lifetime document "registration challenge lifetime is invalid";
  _ ← canonical_json document; Ok tt.

Definition PROCESSOR_REGISTRATION_FIELDS : list string :=
  ["format"; "challenge_id"; "action"; "instance_id"; "event_ref"; "entity_id"; "key_id"; "role"; "algorithm"; "public_key_sha256";
   "supersedes_key_id"; "reason"; "action_sha256"; "nonce"; "created_at"; "expires_at"]%string.
Definition validate_processor_event_registration (document : list (string * json)) : outcome unit :=
  let field k := dget_or_null k document in
  _ ← trust_if (negb (keys_are document PROCESSOR_REGISTRATION_FIELDS) ||
                negb (is_text (field "format") PROCESSOR_EVENT_REGISTRATION_FORMAT)) "processor event registration fields are invalid";
  _ ← _uuid (field "challenge_id") "challenge_id"; _ ← _uuid (field "instance_id") "instance_id"; _ ← _uuid (field "event_ref") "event_ref";
  _ ← validate_entity (JStr "processor") (field "entity_id");
  _ ← trust_if (negb (is_text (field "role") "processor") || negb (is_text (field "algorithm") "Ed25519"))
        "processor event registration role is invalid";
  known ← in_frozenset (field "action") ["register"; "rotate"; "assign"]%string;
  _ ← trust_if (negb known) "processor event registration action is invalid";
  _ ← trust_if (negb (str_full KEY_ID_RE (field "key_id"))) "processor event registration key ID is invalid";
  _ ← trust_if (negb (str_full SHA256_RE (field "public_key_sha256"))) "processor event registration fingerprint is invalid";
  digest ← processor_event_action_sha256 document;
  _ ← trust_if (negb (is_text (field "action_sha256") digest)) "processor event registration action digest is invalid";
  _ ← check_rotation (is_text (field "action") "rotate") document "new processor assignment cannot contain rotation metadata"
        "processor rotation metadata is invalid";
  _ ← check_nonce document "processor event registration nonce is invalid" "processor event registration nonce must contain 32 bytes";
  _ ← check_lifetime document "processor event registration lifetime is invalid";
  _ ← canonical_json document; Ok tt.

Definition ARCHIVE_FIELDS : list string :=
  ["format"; "instance_id"; "controller_id"; "controller_key_id"; "controller_public_key_sha256"; "instance_key_id";
   "instance_public_key_sha256"; "scope"; "signed_at"]%string.
Definition validate_archive_trust_document (repr_container : json -> string) (document : list (string * json))
  (instance_id controller_entity_id controller_key_id controller_fingerprint instance_key_id instance_fingerprint : string)
  (require_fresh : bool) : py unit :=
  let field k := dget_or_null k document in
  let text k := py_str repr_container (field k) in
  _ ← lift (_ ← trust_if (negb (keys_are document ARCHIVE_FIELDS) || negb (is_text (field "format") ARCHIVE_TRUST_FORMAT))
                  "archive trust document fields are invalid";
            _ ← _uuid (field "instance_id") "instance_id";
            _ ← validate_entity (JStr "controller") (field "controller_id");
            _ ← trust_if (negb (is_text (field "instance_id") instance_id && is_text (field "controller_id") controller_entity_id &&
                                is_text (field "controller_key_id") controller_key_id &&
                                is_text (field "controller_public_key_sha256") controller_fingerprint &&
                                is_text (field "instance_key_id") instance_key_id &&
                                is_text (field "instance_public_key_sha256") instance_fingerprint &&
                                is_text (field "scope") ARCHIVE_TRUST_SCOPE))
                  "archive trust document targets another controller or deployment";
            _ ← trust_if (negb (fullmatch KEY_ID_RE (text "controller_key_id")) || negb (fullmatch KEY_ID_RE (text "instance_key_id")))
                  "archive trust key identity is invalid";
            trust_if (negb (fullmatch SHA256_RE (text "controller_public_key_sha256")) ||
                      negb (fullmatch SHA256_RE (text "instance_public_key_sha256"))) "archive trust fingerprint is invalid");
  signed_at ← lift (parse_timestamp (field "signed_at") "signed_at");
  now ← World.utc_now;
  _ ← lift (trust_if (require_fresh && ((instant signed_at <? instant now - 15 * us_minute) || (instant now + 2 * us_minute <? instant signed_at)))
              "archive trust document is stale or dated in the future");
  _ ← lift (canonical_json document); mret tt.

Definition DESKTOP_FORMATS : list string :=
  [DESKTOP_POLICY_ACK_FORMAT; DESKTOP_DELETION_FORMAT; DESKTOP_COPY_RESOLUTION_FORMAT; DESKTOP_WORK_ORDER_CLAIM_FORMAT].
Definition validate_desktop_evidence_document (document : list (string * json))
  (instance_id event_ref entity_id row_key_id fingerprint : string) : outcome unit :=
  let field k := dget_or_null k document in
  known ← in_frozenset (field "format") DESKTOP_FORMATS;
  _ ← trust_if (negb known) "the processor may sign only typed Desktop evidence";
  _ ← trust_if (negb (is_text (field "instance_id") instance_id && is_text (field "event_ref") event_ref &&
                      is_text (field "entity_id") entity_id && is_text (field "key_id") row_key_id &&
                      is_text (field "role") "processor" && is_text (field "algorithm") "Ed25519" &&
                      is_text (field "public_key_sha256") fingerprint))
        "Desktop evidence targets another deployment, event, entity, or key";
  _ ← canonical_json document; Ok tt.

(** ** Keys and signatures *)

Class TrustKeys : Type := {
  ssh_key : Set; load_ssh_public_key : string -> outcome ssh_key; is_ed25519 : ssh_key -> bool;
  openssh_text : ssh_key -> string; key_verify : ssh_key -> string -> string -> bool
}.
(** The OpenSSH text of an Ed25519 key is short ASCII on one line, and reads as the key. *)
Class TrustKeyLaws `{!TrustKeys} : Prop := {
  openssh_ascii k : is_ed25519 k = true -> is_ascii (openssh_text k) = true;
  openssh_short k : is_ed25519 k = true -> byte_length (openssh_text k) <= 2048;
  openssh_strip k : is_ed25519 k = true -> ustrip (openssh_text k) = openssh_text k;
  openssh_public k : is_ed25519 k = true -> has_private_marker (openssh_text k) = false;
  openssh_safe k : is_ed25519 k = true -> existsb (fun c => c <? 32) (code_points (openssh_text k)) = false;
  openssh_loads k : is_ed25519 k = true -> load_ssh_public_key (openssh_text k) = Ok k
}.

Section Keys.
Context `{Keys : !TrustKeys}.

Definition read_public_key (text : string) : outcome ssh_key :=
  match (if is_ascii text then load_ssh_public_key text else raise UnicodeEncodeError "ascii") with
  | Ok key => Ok key
  | Raise e => if exn_in e [ValueError; TypeError] then trust_error "the public key is not valid OpenSSH data" else Raise e
  end.
Definition canonical_public_key (value : string) : outcome string :=
  raw ← encode_utf8 value;
  _ ← trust_if (2048 <? byte_length raw) "the public key is invalid";
  _ ← trust_if (has_private_marker value) "private-key material is forbidden";
  key ← read_public_key (ustrip value);
  _ ← trust_if (negb (is_ed25519 key)) "trust keys must use Ed25519";
  Ok (openssh_text key).
Definition public_key_sha256 (public_key : string) : outcome string := k ← canonical_public_key public_key; Ok (sha256 k).
Definition key_id (public_key : string) : outcome string := d ← public_key_sha256 public_key; Ok ("ek-" +:+ String.substring 0 16 d).

Definition signing_bytes (namespace : string) (document : list (string * json)) : outcome string :=
  raw ← canonical_json document; Ok (namespace +:+ String (chr 0) raw).
Definition ENVELOPE_FIELDS : list string := ["format"; "key_id"; "namespace"; "signature"]%string.
Definition signature_envelope (key_identifier signature namespace : string) : outcome (list (string * json)) :=
  _ ← trust_if (negb (fullmatch KEY_ID_RE key_identifier) || negb (byte_length signature =? 64)) "Ed25519 signature material is invalid";
  Ok [("format", JStr SIGNATURE_FORMAT); ("key_id", JStr key_identifier); ("namespace", JStr namespace);
      ("signature", JStr (b64encode signature))]%string.
Definition verify_signature (document envelope : list (string * json)) (public_key namespace : string) : outcome string :=
  let field k := dget_or_null k envelope in
  _ ← trust_if (negb (keys_are envelope ENVELOPE_FIELDS)) "signature envelope is invalid";
  canonical ← canonical_public_key public_key;
  identifier ← key_id canonical;
  _ ← trust_if (negb (is_text (field "format") SIGNATURE_FORMAT && is_text (field "namespace") namespace && is_text (field "key_id") identifier))
        "signature identity is invalid";
  signature ← match field "signature" with
              | JStr s => match b64decode s with Ok b => Ok b | Raise _ => trust_error "signature encoding is invalid" end
              | _ => trust_error "signature encoding is invalid"
              end;
  _ ← trust_if (negb (byte_length signature =? 64)) "signature length is invalid";
  key ← load_ssh_public_key canonical;
  _ ← match signing_bytes namespace document with
      | Ok message => trust_if (negb (key_verify key signature message)) "signature verification failed"
      | Raise _ => trust_error "signature verification failed"
      end;
  canonical_sha256 envelope.

(** The text of the package, its digest, and those of the document and of the envelope *)
Definition desktop_package (document envelope : list (string * json)) (canonical_key : string) : list (string * json) :=
  [("format", JStr SIGNED_DESKTOP_EVIDENCE_PACKAGE_FORMAT); ("namespace", JStr DESKTOP_EVIDENCE_NAMESPACE);
   ("document", JObj document); ("proof", JObj envelope); ("public_key", JStr canonical_key)]%string.
Definition signed_desktop_evidence_package (document envelope : list (string * json)) (public_key : string)
  : outcome (string * string * string * string) :=
  canonical_key ← canonical_public_key public_key;
  signature_digest ← verify_signature document envelope canonical_key DESKTOP_EVIDENCE_NAMESPACE;
  document_digest ← canonical_sha256 document;
  rendered ← canonical_json (desktop_package document envelope canonical_key);
  Ok (rendered, sha256 rendered, document_digest, signature_digest).
End Keys.
