(* ===== verification/OperatorEvidenceProps.v ===== *)
(** What a signature over trust evidence binds, and that a signed package can be
    checked again from its text alone. *)
From Stdlib Require Import ZArith Lia Ascii String.
From stdpp Require Import base list strings.
From S2P Require Import Prelude Text TextFacts Json JsonFacts JsonText Sha256 PyTime PyBuiltins Base64 EvidenceManifest EvidenceFacts World Evidence OperatorEvidence.

(** ** Canonical text does not depend on key order *)

Lemma trust_values_sort v : _reject_values (sort_keys v) = Ok tt <-> _reject_values v = Ok tt.
Proof.
  induction v as [|b|z|f|s|l HP|l HP] using json_rect'; try done.
  - cbn. rewrite !bind_unit_ok, !for_each_ok, length_map, Forall_map.
    apply and_iff_compat_l. induction HP as [|x l Hx HP IH]; [done|].
    rewrite !Forall_cons. by rewrite Hx, IH.
  - change (sort_keys (JObj l)) with (JObj (sort_dict l)). cbn.
    rewrite !bind_unit_ok, !for_each_ok, length_sort_dict, Forall_sort_dict.
    apply and_iff_compat_l. induction HP as [|x l Hx HP IH]; [done|].
    rewrite !Forall_cons, IH. apply and_iff_compat_r. cbn. by rewrite !bind_unit_ok, Hx.
Qed.
Lemma trust_canonical_sort d raw : canonical_json d = Ok raw -> canonical_json (sort_dict d) = Ok raw.
Proof.
  unfold canonical_json. change (JObj (sort_dict d)) with (sort_keys (JObj d)). intros H.
  apply bind_Ok_inv in H as ([] & Hr & H). rewrite (proj2 (trust_values_sort _) Hr).
  cbn [mbind outcome_bind]. unfold dumps_compact_sorted in *. by rewrite sort_keys_idem.
Qed.
Lemma trust_canonical_inv d raw : canonical_json d = Ok raw -> raw = dumps_compact_sorted (JObj d) +:+ line_feed /\ utf8_valid raw = true.
Proof.
  unfold canonical_json, encode_utf8. intros H. apply bind_Ok_inv in H as ([] & _ & H). apply bind_Ok_inv in H as (r & Hr & H).
  apply bind_Ok_inv in H as ([] & _ & [= <-]). destruct (utf8_valid _) eqn:E; [|done]. by injection Hr as <-.
Qed.
Lemma trust_loads d raw : json_ok (fun _ => true) (JObj d) = true -> canonical_json d = Ok raw -> loads raw = Ok (JObj (sort_dict d)).
Proof.
  intros Hok [-> _]%trust_canonical_inv. unfold loads. rewrite loads_compact; [done| |done|done|done]. intros l Hl. cbn. by rewrite dict_of_pairs_nodup.
Qed.

(** ** The message that is signed *)

(** A name space has no NUL. *)
Definition plain (s : string) : bool := all_chars (fun c => negb (Ascii.eqb c (chr 0))) s.
Lemma nul_prefix a b x y : plain a = true -> plain b = true ->
  a +:+ String (chr 0) x = b +:+ String (chr 0) y -> a = b /\ x = y.
Proof.
  revert b. induction a as [|c a IH]; intros [|d b]; cbn [plain all_chars]; intros Ha Hb E.
  - injection E as ->. done.
  - injection E as <- _. discriminate Hb.
  - injection E as -> _. discriminate Ha.
  - bool_norm. injection E as -> E. destruct (IH b) as [-> ->]; [done|done|done|done].
Qed.

Lemma trust_canonical_same d d' raw : sort_dict d' = sort_dict d -> canonical_json d = Ok raw -> canonical_json d' = Ok raw.
Proof.
  unfold canonical_json. intros E H. apply bind_Ok_inv in H as ([] & Hr & H).
  assert (sort_keys (JObj d') = sort_keys (JObj d)) as Es by exact (f_equal JObj E).
  rewrite <-trust_values_sort, <-Es, trust_values_sort in Hr. rewrite Hr. cbn [mbind outcome_bind].
  unfold dumps_compact_sorted in *. by rewrite Es.
Qed.
Lemma is_ascii_valid s : is_ascii s = true -> utf8_valid s = true.
Proof.
  intros H. unfold utf8_valid. assert (is_Some (decode false s)) as [l ->]; [|done].
  unfold is_ascii in H. induction s as [|c s IH]; [by exists []|]. cbn [all_chars] in H. apply andb_true_iff in H as [Hc Hs].
  cbn [decode]. rewrite Hc. destruct (IH Hs) as [l ->]. by eexists.
Qed.
Section Keys.
Context `{Keys : !TrustKeys} `{Laws : !TrustKeyLaws}.

Lemma public_key_inv pk k : canonical_public_key pk = Ok k -> exists key, is_ed25519 key = true /\ k = openssh_text key.
Proof.
  unfold canonical_public_key. intros H. apply bind_Ok_inv in H as (raw & _ & H). apply bind_Ok_inv in H as ([] & _ & H).
  apply bind_Ok_inv in H as ([] & _ & H). apply bind_Ok_inv in H as (key & _ & H).
  apply bind_Ok_inv in H as ([] & He%raise_if_Ok_inv%negb_false_iff & [= <-]). by exists key.
Qed.
Lemma public_key_again key : is_ed25519 key = true -> canonical_public_key (openssh_text key) = Ok (openssh_text key).
Proof.
  intros H. unfold canonical_public_key, encode_utf8, read_public_key, trust_if.
  rewrite (is_ascii_valid _ (openssh_ascii key H)). cbn [mbind outcome_bind].
  rewrite (proj2 (Z.ltb_ge _ _) (openssh_short key H)), (openssh_public key H). cbn [raise_if mbind outcome_bind].
  rewrite (openssh_strip key H), (openssh_ascii key H), (openssh_loads key H). cbn [mbind outcome_bind]. by rewrite H.
Qed.

(** The message a signature was checked over *)
Lemma verify_inv document envelope pk ns digest : verify_signature document envelope pk ns = Ok digest ->
  exists key identifier signature message,
    is_ed25519 key = true /\ canonical_public_key pk = Ok (openssh_text key) /\ key_id (openssh_text key) = Ok identifier /\
    keys_are envelope ENVELOPE_FIELDS = true /\
    dget "namespace" envelope = Some (JStr ns) /\ dget "key_id" envelope = Some (JStr identifier) /\
    signing_bytes ns document = Ok message /\ byte_length signature = 64 /\ key_verify key signature message = true /\
    canonical_sha256 envelope = Ok digest.
Proof.
  unfold verify_signature. intros H. apply bind_Ok_inv in H as ([] & Hf%raise_if_Ok_inv%negb_false_iff & H).
  apply bind_Ok_inv in H as (k & Hk & H). apply bind_Ok_inv in H as (i & Hi & H).
  destruct (public_key_inv _ _ Hk) as (key & He & ->). exists key, i.
  apply bind_Ok_inv in H as ([] & Hm%raise_if_Ok_inv%negb_false_iff & H). apply bind_Ok_inv in H as (sg & _ & H).
  apply bind_Ok_inv in H as ([] & Hl%raise_if_Ok_inv%negb_false_iff%Z.eqb_eq & H). apply bind_Ok_inv in H as (key' & Hk' & H).
  rewrite (openssh_loads key He) in Hk'. injection Hk' as <-. apply bind_Ok_inv in H as ([] & Hv & H).
  destruct (signing_bytes ns document) as [message|e] eqn:Es; [|done]. apply raise_if_Ok_inv in Hv as Hv%negb_false_iff.
  rewrite !andb_true_iff in Hm. destruct Hm as [[_ Hns] Hid]. exists sg, message.
  assert (forall k s, is_text (dget_or_null k envelope) s = true -> dget k envelope = Some (JStr s)) as Ht.
  { intros k s. unfold is_text, dget_or_null. destruct (dget k envelope) as [[]|]; try done. intros E%String.eqb_eq. by subst. }
  repeat (split; [by auto|]). done.
Qed.


Lemma field_sort k d : NoDup (dkeys d) -> dget_or_null k (sort_dict d) = sort_keys (dget_or_null k d).
Proof. intros Hd. unfold dget_or_null. rewrite dget_sort_dict by done. by destruct (dget k d). Qed.
Lemma is_text_sort v s : is_text (sort_keys v) s = is_text v s.
Proof. by destruct v. Qed.
Lemma canonical_sha256_sort d r : canonical_sha256 d = Ok r -> canonical_sha256 (sort_dict d) = Ok r.
Proof. unfold canonical_sha256. intros (raw & Hr & H)%bind_Ok_inv. by rewrite (trust_canonical_sort _ _ Hr). Qed.
Lemma verify_sort document envelope pk ns digest : NoDup (dkeys envelope) ->
  verify_signature document envelope pk ns = Ok digest ->
  verify_signature (sort_dict document) (sort_dict envelope) pk ns = Ok digest.
Proof.
  intros Hn. unfold verify_signature. rewrite keys_are_sort, !field_sort, !is_text_sort by done. intros H.
  apply bind_Ok_inv in H as ([] & -> & H). cbn [mbind outcome_bind]. apply bind_Ok_inv in H as (k & -> & H). cbn [mbind outcome_bind].
  apply bind_Ok_inv in H as (i & -> & H). cbn [mbind outcome_bind]. rewrite ?is_text_sort. apply bind_Ok_inv in H as ([] & -> & H). cbn [mbind outcome_bind].
  apply bind_Ok_inv in H as (sg & Hs & H). destruct (dget_or_null "signature" envelope) as [| | | |s| |]; try done. cbn [sort_keys].
  rewrite Hs. cbn [mbind outcome_bind]. apply bind_Ok_inv in H as ([] & -> & H). cbn [mbind outcome_bind].
  apply bind_Ok_inv in H as (key & -> & H). cbn [mbind outcome_bind]. apply bind_Ok_inv in H as ([] & Hv & H).
  unfold signing_bytes in *. destruct (canonical_json document) as [raw|e] eqn:Ec; [|done].
  rewrite (trust_canonical_sort _ _ Ec). cbn [mbind outcome_bind] in *. rewrite Hv. cbn [mbind outcome_bind]. by apply canonical_sha256_sort.
Qed.

(** C29: a signed desktop package can be verified from its text alone: the text reads
    back as a package whose document, proof and key give, verified again, the same
    text and digests. *)
Theorem package_verifies_from_its_text document envelope pk text digest document_digest signature_digest
  (Hok : json_ok (fun _ => true) (JObj document) = true) (Hoke : json_ok (fun _ => true) (JObj envelope) = true)
  (H : signed_desktop_evidence_package document envelope pk = Ok (text, digest, document_digest, signature_digest)) :
  digest = sha256 text /\
  exists package document' envelope' key,
    loads text = Ok (JObj package) /\ dget "document" package = Some (JObj document') /\
    dget "proof" package = Some (JObj envelope') /\ dget "public_key" package = Some (JStr key) /\
    document' = sort_dict document /\
    signed_desktop_evidence_package document' envelope' key = Ok (text, digest, document_digest, signature_digest).
Proof.
  unfold signed_desktop_evidence_package in H. apply bind_Ok_inv in H as (k & Hk & H). apply bind_Ok_inv in H as (sd & Hv & H).
  apply bind_Ok_inv in H as (dd & Hd & H). apply bind_Ok_inv in H as (raw & Hr & [= <- <- <- <-]).
  split; [done|]. destruct (public_key_inv _ _ Hk) as (key & He & ->).
  assert (NoDup (dkeys (desktop_package document envelope (openssh_text key)))) as Hn.
  { apply (bool_decide_eq_true_1 _). vm_compute. reflexivity. }
  assert (json_ok (fun _ => true) (JObj (desktop_package document envelope (openssh_text key))) = true) as Hp.
  { change (bool_decide (NoDup (dkeys (desktop_package document envelope (openssh_text key)))) &&
            forallb (fun kv => true && json_ok (fun _ => true) kv.2) (desktop_package document envelope (openssh_text key)) = true).
    rewrite bool_decide_eq_true_2 by done. unfold desktop_package. cbn [forallb snd]. rewrite Hok, Hoke. done. }
  assert (NoDup (dkeys envelope)) as Hne by (cbn [json_ok] in Hoke; bool_norm; done).
  exists (sort_dict (desktop_package document envelope (openssh_text key))), (sort_dict document), (sort_dict envelope), (openssh_text key).
  split; [by apply trust_loads|]. rewrite !dget_sort_dict by done. do 3 (split; [reflexivity|]). split; [done|].
  unfold signed_desktop_evidence_package. rewrite public_key_again by done. cbn [mbind outcome_bind].
  rewrite (verify_sort _ envelope _ _ _ Hne Hv). cbn [mbind outcome_bind].
  rewrite (canonical_sha256_sort _ _ Hd). cbn [mbind outcome_bind].
  assert (canonical_json (desktop_package (sort_dict document) (sort_dict envelope) (openssh_text key)) = Ok raw) as ->; [|done].
  refine (trust_canonical_same _ _ _ _ Hr).
  assert (forall d e k, sort_dict (desktop_package d e k) =
    sort_items [("format", JStr SIGNED_DESKTOP_EVIDENCE_PACKAGE_FORMAT); ("namespace", JStr DESKTOP_EVIDENCE_NAMESPACE);
                ("document", sort_keys (JObj d)); ("proof", sort_keys (JObj e)); ("public_key", JStr k)]%string) as E by reflexivity.
  rewrite !E. change (JObj (sort_dict document)) with (sort_keys (JObj document)).
  change (JObj (sort_dict envelope)) with (sort_keys (JObj envelope)). by rewrite !sort_keys_idem.
Qed.
End Keys.

(** ** A small instance *)

Module Signed.
(** One key, whose signatures are digests. *)
#[local] Instance toy_keys : TrustKeys := {
  ssh_key := string; load_ssh_public_key s := Ok s; is_ed25519 k := String.eqb k "ssh-ed25519 AAAA"; openssh_text k := k;
  key_verify k signature message := String.eqb signature (sha256 message)
}.
#[local] Instance toy_key_laws : TrustKeyLaws.
Proof. split; cbn; intros k ->%String.eqb_eq; vm_compute; done. Qed.
Definition key : string := "ssh-ed25519 AAAA".
Definition document : list (string * json) := [("format", JStr DESKTOP_DELETION_FORMAT); ("event_ref", JStr "e")]%string.
Definition envelope : list (string * json) :=
  match key_id key, signing_bytes DESKTOP_EVIDENCE_NAMESPACE document with
  | Ok i, Ok m => match signature_envelope i (sha256 m) DESKTOP_EVIDENCE_NAMESPACE with Ok e => e | Raise _ => [] end
  | _, _ => []
  end.
Definition package : string * string * string * string :=
  match signed_desktop_evidence_package document envelope key with Ok p => p | Raise _ => (EmptyString, EmptyString, EmptyString, EmptyString) end.
End Signed.
#[local] Existing Instance Signed.toy_keys.

Lemma package_verifies_from_its_text_witness :
  exists package, loads Signed.package.1.1.1 = Ok (JObj package) /\ Signed.package.1.1.2 = sha256 Signed.package.1.1.1 /\
    dget "public_key" package = Some (JStr Signed.key).
Proof.
  assert (signed_desktop_evidence_package Signed.document Signed.envelope Signed.key =
          Ok (Signed.package.1.1.1, Signed.package.1.1.2, Signed.package.1.2, Signed.package.2)) as H by (vm_compute; reflexivity).
  destruct (package_verifies_from_its_text (Laws := Signed.toy_key_laws) Signed.document Signed.envelope Signed.key _ _ _ _ eq_refl eq_refl H)
    as (Hd & package & document & envelope & key & Hl & _ & _ & Hk & _ & Hs).
  assert (key = Signed.key) as ->.
  { assert (match loads Signed.package.1.1.1 with Ok (JObj p) => dget "public_key" p | _ => None end = Some (JStr Signed.key)) as E
      by (vm_compute; reflexivity).
    rewrite Hl, Hk in E. by injection E. }
  exists package. split; [exact Hl|]. split; [exact Hd|exact Hk].
Defined.
