(* ===== verification/EvidenceFrames.v ===== *)
(** What the calls of [Evidence] leave alone: a reconciliation changes nothing
    but the ledger, the files and the progress of operations, and an append
    nothing outside the evidence tables.  [EvidenceService] is what the workflows
    rely on, and [evidence_service] its implementation. *)
From Stdlib Require Import ZArith Lia Ascii String.
From stdpp Require Import base list strings.
From S2P Require Import Prelude Text TextFacts Json JsonFacts Sha256 PyTime PyBuiltins Models.
From S2P Require Import EvidenceManifest EvidenceFacts EvidenceChain EvidenceProps EvidencePrivacy World Sha1 Ha HaWitness Evidence.

(** ** Frames *)

Definition erase_chain (db : database) : database :=
  db <| t_evidence_chain_state := [] |> <| t_evidence_operations := [] |>.
(** What a workflow asked for, which the bridge never rewrites. *)
Definition op_key (o : EvidenceOperation) : Z * string * string * string * string * string * string :=
  (eo_id o, eo_operation_id o, eo_record_id o, eo_workflow_type o, eo_workflow_id o, eo_operation_type o,
   eo_payload_json o).
Definition state_key (s : EvidenceChainState) : Z * string * string := (cs_id s, cs_instance_id s, cs_chain_id s).

(** The operations of a record are complete. *)
Definition done (w : world) (rid : string) : Prop :=
  forall o, o ∈ t_evidence_operations (w_db w) -> eo_record_id o = rid -> eo_state o = "complete"%string.

(** Nothing outside the ledger directory, the files and the progress of
    operations changes. *)
Definition reconciling (w w' : world) : Prop :=
  erase_chain (w_db w') = erase_chain (w_db w) /\
  map op_key (t_evidence_operations (w_db w')) = map op_key (t_evidence_operations (w_db w)) /\
  map state_key (t_evidence_chain_state (w_db w')) = map state_key (t_evidence_chain_state (w_db w)) /\
  w_committed w' = w_committed w /\ w_config w' = w_config w /\ w_permit w' = w_permit w /\
  w_queue_kind w' = w_queue_kind w /\ w_queue w' = w_queue w /\ w_clock w' = w_clock w /\ w_entropy w' = w_entropy w /\
  (forall rid, done w rid -> done w' rid).

#[export] Instance reconciling_preorder : PreOrder reconciling.
Proof.
  split; [by intros w|]. intros w1 w2 w3 (A & B & C & D & E & F & G & H & I & J & K)
    (A' & B' & C' & D' & E' & F' & G' & H' & I' & J' & K').
  unfold reconciling. rewrite A', B', C', D', E', F', G', H', I', J'. split_and!; auto.
Qed.

Lemma reconciling_utc_now : keeps reconciling utc_now.
Proof. by intros w. Qed.
Lemma reconciling_fresh : keeps reconciling fresh.
Proof. by intros w. Qed.
Lemma map_update {R K} (key : R -> K) (p : R -> bool) f l :
  (forall r, key (f r) = key r) -> map key (map (fun r => if p r then f r else r) l) = map key l.
Proof. intros H. rewrite map_map. apply map_ext. intros r. destruct (p r); [apply H | done]. Qed.
Lemma done_update (p : EvidenceOperation -> bool) f (w w' : world) :
  (forall x, op_key (f x) = op_key x) ->
  (forall x, eo_state x = "complete"%string -> eo_state (f x) = "complete"%string) ->
  t_evidence_operations (w_db w') = map (fun r => if p r then f r else r) (t_evidence_operations (w_db w)) ->
  forall rid, done w rid -> done w' rid.
Proof.
  intros Hk Hf E rid Hd o. rewrite E. intros Ho Hr. apply list_elem_of_fmap in Ho as (x & -> & Hx).
  destruct (p x); [|by apply Hd]. apply Hf, Hd; [done|]. specialize (Hk x). unfold op_key in Hk. congruence.
Qed.
Lemma reconciling_set_operation o f :
  (forall x, op_key (f x) = op_key x) ->
  (forall x, eo_state x = "complete"%string -> eo_state (f x) = "complete"%string) ->
  keeps reconciling (set_operation o f).
Proof.
  intros Hf Hs w. unfold set_operation, q_update, on_table, mbind, M_bind, mret, M_ret, reconciling. cbn [fst snd].
  split; [done|]. split; [by apply map_update|]. do 8 (split; [done|]). by apply (done_update (fun x => eo_id x =? eo_id o) f).
Qed.
Lemma reconciling_set_state f : (forall x, state_key (f x) = state_key x) -> keeps reconciling (set_state f).
Proof.
  intros Hf w. unfold set_state, q_update, on_table, mbind, M_bind, mret, M_ret, reconciling. cbn [fst snd].
  split; [done|]. split; [done|]. split; [by apply map_update|]. done.
Qed.
Lemma reconciling_query {R} (t : database -> list R) p : keeps reconciling (q_first t p).
Proof. apply keeps_gets, _. Qed.
Lemma reconciling_query_all {R} (t : database -> list R) p : keeps reconciling (q_all t p).
Proof. apply keeps_gets, _. Qed.
Lemma reconciling_ledger f : keeps reconciling (modify (fun w => w <| w_ledger := f w |>)).
Proof. by intros w. Qed.
Lemma reconciling_files f : keeps reconciling (modify (fun w => w <| w_files := f w |>)).
Proof. by intros w. Qed.
Lemma reconciling_both f g : keeps reconciling (modify (fun w => w <| w_ledger := f w |> <| w_files := g w |>)).
Proof. by intros w. Qed.
Lemma reconciling_run {A} (f : world -> outcome A) : keeps reconciling (fun w => (f w, w)).
Proof. by intros w. Qed.

#[export] Hint Resolve reconciling_utc_now reconciling_fresh reconciling_query reconciling_query_all
  reconciling_ledger reconciling_files reconciling_both reconciling_run reconciling_preorder : keeps.

(** Walk through a computation, call by call. *)
Ltac by_keeps :=
  repeat first
    [ progress intros | solve [auto with keeps] | apply keeps_bind; [typeclasses eauto| |] | progress unfold unavailable_if
    | apply reconciling_set_operation; by intros [] | apply reconciling_set_state; by intros []
    | apply keeps_mfor; [typeclasses eauto|] | apply keeps_try; [typeclasses eauto| |]
    | apply keeps_when | case_on_goal ].

Section Frames.
Context (ssh_sign : string -> string -> string -> option string).
Context (ssh_verify : string -> string -> string -> string -> string -> bool).
Context (ssh_derive : string -> option string).

Lemma reconciling_make_directory p : keeps reconciling (make_directory p).
Proof. unfold make_directory, file_at. by_keeps. Qed.
#[local] Hint Resolve reconciling_make_directory : keeps.
Lemma reconciling_ensure : keeps reconciling ensure_directories.
Proof. unfold ensure_directories, ensure_directory, file_at. by_keeps. Qed.
#[local] Hint Resolve reconciling_ensure : keeps.
Lemma reconciling_derive : keeps reconciling (_derive_public_key ssh_derive).
Proof. unfold _derive_public_key, file_at. by_keeps. Qed.
Lemma reconciling_read_ascii p : keeps reconciling (read_ascii p).
Proof. unfold read_ascii, file_at. by_keeps. Qed.
Lemma reconciling_write_file a b c : keeps reconciling (write_file a b c).
Proof. unfold write_file, file_at. by_keeps. Qed.
Lemma reconciling_tool_verify : keeps reconciling (tool_verify_chain ssh_verify).
Proof. unfold tool_verify_chain. by_keeps. Qed.
Lemma reconciling_tool_append a p : keeps reconciling (tool_append ssh_sign ssh_verify a p).
Proof. unfold tool_append. by_keeps. Qed.
#[local] Hint Resolve reconciling_derive reconciling_read_ascii reconciling_write_file reconciling_tool_verify
  reconciling_tool_append : keeps.
Lemma reconciling_append_file s o : keeps reconciling (_append_operation_file ssh_sign ssh_verify s o).
Proof. unfold _append_operation_file. by_keeps. Qed.
#[local] Hint Resolve reconciling_append_file : keeps.
Lemma reconciling_quarantine a b : keeps reconciling (_quarantine_orphaned_tail a b).
Proof. unfold _quarantine_orphaned_tail, quarantine_entry, write_ledger_entry. by_keeps. Qed.
Lemma reconciling_records l a b c : keeps reconciling (reconcile_records l a b c).
Proof.
  revert a b c. induction l as [|[[path record] digest] l IH]; intros a b c; cbn [reconcile_records]; by_keeps; apply IH.
Qed.
Lemma reconciling_missing s p l : keeps reconciling (append_missing ssh_sign ssh_verify (mret s) p l).
Proof. induction l as [|o l IH]; cbn [append_missing]; by_keeps. Qed.
Lemma reconciling_verify flushed : keeps reconciling (verify_flushed ssh_verify flushed).
Proof. unfold verify_flushed, chain_state, _ledger_records. by_keeps. Qed.
#[local] Hint Resolve reconciling_quarantine reconciling_records reconciling_missing reconciling_verify : keeps.
Lemma reconciling_reconcile : keeps reconciling (reconcile_local_chain ssh_sign ssh_verify ssh_derive).
Proof. unfold reconcile_local_chain, lock_evidence_transaction, chain_state, _ledger_records. by_keeps. Qed.
End Frames.

Section Service.
Context (ssh_sign : string -> string -> string -> option string).
Context (ssh_verify : string -> string -> string -> string -> string -> bool).
Context (ssh_derive : string -> option string) (repr_container : json -> string).

(** ** The frame of every call *)

Definition erase_evidence (db : database) : database :=
  (erase_chain db) <| t_evidence_keys := [] |> <| t_server_settings := [] |>.
(** Only the evidence tables, the identity setting, the ledger and the files change. *)
Definition evidence_only (w w' : world) : Prop :=
  erase_evidence (w_db w') = erase_evidence (w_db w) /\
  w_committed w' = w_committed w /\ w_config w' = w_config w /\ w_permit w' = w_permit w /\
  w_queue_kind w' = w_queue_kind w /\ w_queue w' = w_queue w /\ w_clock w' = w_clock w /\ w_entropy w' = w_entropy w.
#[export] Instance evidence_only_preorder : PreOrder evidence_only.
Proof.
  split; [by intros w|]. intros w1 w2 w3 (A & B & C & D & E & F & G & H) (A' & B' & C' & D' & E' & F' & G' & H').
  unfold evidence_only. rewrite A', B', C', D', E', F', G', H'. split_and!; auto.
Qed.
Lemma reconciling_only w w' : reconciling w w' -> evidence_only w w'.
Proof.
  intros (A & _ & _ & B & C & D & E & F & G & H & _). unfold evidence_only, erase_evidence. rewrite A. done.
Qed.
Lemma weaken_keeps {W A} (R S : W -> W -> Prop) (m : M W A) : (forall w w', R w w' -> S w w') -> keeps R m -> keeps S m.
Proof. intros H Hm w. apply H, Hm. Qed.
Lemma only_set_operation o f : keeps evidence_only (set_operation o f).
Proof. by intros w. Qed.
Lemma only_insert_operation f : keeps evidence_only (q_insert t_evidence_operations f).
Proof. by intros w. Qed.
Lemma only_insert_key f : keeps evidence_only (q_insert t_evidence_keys f).
Proof. by intros w. Qed.
Lemma only_insert_setting f : keeps evidence_only (q_insert t_server_settings f).
Proof. by intros w. Qed.
Lemma only_add_state s : keeps evidence_only (q_add t_evidence_chain_state s).
Proof. by intros w. Qed.
Lemma only_utc_now : keeps evidence_only utc_now.
Proof. by intros w. Qed.
Lemma only_fresh : keeps evidence_only fresh.
Proof. by intros w. Qed.
Lemma only_query {R} (t : database -> list R) p : keeps evidence_only (q_first t p).
Proof. apply keeps_gets, _. Qed.
Lemma only_records : keeps evidence_only _ledger_records.
Proof. by intros w. Qed.

#[local] Hint Resolve only_set_operation only_insert_operation only_insert_key only_insert_setting only_add_state
  only_utc_now only_fresh only_query only_records evidence_only_preorder : keeps.

Lemma only_reconciling {A} (m : py A) : keeps reconciling m -> keeps evidence_only m.
Proof. apply weaken_keeps, reconciling_only. Qed.
Lemma only_reconcile : keeps evidence_only (reconcile_local_chain ssh_sign ssh_verify ssh_derive).
Proof. apply only_reconciling, reconciling_reconcile. Qed.
Lemma only_append_file s o : keeps evidence_only (_append_operation_file ssh_sign ssh_verify s o).
Proof. apply only_reconciling, reconciling_append_file. Qed.
Lemma only_audit_tail b : keeps evidence_only (management_audit_tail b).
Proof. apply only_reconciling. unfold management_audit_tail, file_at. by_keeps. Qed.
Lemma only_ensure : keeps evidence_only ensure_directories.
Proof. apply only_reconciling, reconciling_ensure. Qed.
Lemma only_derive : keeps evidence_only (_derive_public_key ssh_derive).
Proof. apply only_reconciling, reconciling_derive. Qed.
Lemma only_write_file a b c : keeps evidence_only (write_file a b c).
Proof. apply only_reconciling, reconciling_write_file. Qed.
Lemma only_tool_verify : keeps evidence_only (tool_verify_chain ssh_verify).
Proof. apply only_reconciling, reconciling_tool_verify. Qed.
#[local] Hint Resolve only_reconcile only_append_file only_audit_tail only_ensure only_derive only_write_file only_tool_verify : keeps.

Lemma only_attempt q s o : keeps evidence_only (attempt_append ssh_sign ssh_verify q s o).
Proof. unfold attempt_append. by_keeps. Qed.
Lemma only_register a b : keeps evidence_only (register_instance_key a b).
Proof. unfold register_instance_key. by_keeps. Qed.
Lemma only_new_state a b : keeps evidence_only (add_chain_state a b).
Proof. unfold add_chain_state. by_keeps. Qed.
Lemma only_stable : keeps evidence_only stable_instance_id.
Proof. unfold stable_instance_id. by_keeps. Qed.
#[local] Hint Resolve only_attempt only_register only_new_state only_stable : keeps.
Lemma only_recover : keeps evidence_only (_recover_uncommitted_initialisation ssh_sign ssh_verify ssh_derive repr_container).
Proof.
  unfold _recover_uncommitted_initialisation. intros w. destruct (_ || _); [done|]. revert w.
  match goal with |- forall w, evidence_only w (?m w).2 => change (keeps evidence_only m) end. by_keeps.
Qed.
#[local] Hint Resolve only_recover : keeps.
Lemma only_append_with init q : keeps evidence_only init ->
  keeps evidence_only (append_with ssh_sign ssh_verify ssh_derive init q).
Proof.
  intros Hi. unfold append_with, lock_evidence_transaction, chain_state, check_replay, new_operation. by_keeps.
Qed.
Lemma only_initialise_with a : (forall q, keeps evidence_only (a q)) ->
  keeps evidence_only (initialise_with ssh_sign ssh_verify ssh_derive repr_container a).
Proof. intros Ha. unfold initialise_with, chain_state. by_keeps. Qed.
Lemma only_append q : keeps evidence_only (append_record ssh_sign ssh_verify ssh_derive repr_container q).
Proof. apply only_append_with, only_initialise_with. intros r. apply only_append_with. auto with keeps. Qed.
End Service.

(** ** What a workflow relies on *)

(** The request is recorded under that digest. *)
Definition recorded_as (q : request) (digest : string) (w : world) : Prop :=
  exists o, o ∈ t_evidence_operations (w_db w) /\ of_request q o = true /\
    eo_payload_json o = q_canonical q /\ eo_state o = "complete"%string /\ eo_record_sha256 o = Some digest.

(** Recording changes only evidence, and a digest it returns is that of the
    completed operation of exactly this request. *)
Class EvidenceService : Type := {
  evidence_append : request -> py string;
  evidence_append_only q : keeps evidence_only (evidence_append q);
  evidence_append_recorded q w digest w' :
    evidence_append q w = (Ok digest, w') -> recorded_as q digest w'
}.
#[export] Hint Resolve evidence_append_only evidence_only_preorder : keeps.
