(* ===== verification/EvidenceBridge.v ===== *)
(** What the bridge of [Evidence] promises: a reconciled ledger and the database
    agree, and an appended request is in both. *)
From Stdlib Require Import ZArith Lia Ascii String.
From stdpp Require Import base list strings.
From S2P Require Import Prelude Text TextFacts Json JsonFacts Sha256 PyTime PyBuiltins Models.
From S2P Require Import EvidenceManifest EvidenceFacts EvidenceChain EvidenceProps EvidencePrivacy World Sha1 Ha HaWitness Evidence EvidenceFrames.

(** ** Names of record files *)

(** The file name of a record carries its id. *)
Definition named (rid path : string) : Prop :=
  String.length rid = 36%nat /\ exists x, path = x +:+ "_" +:+ rid +:+ ".json".
Definition only_record (path : string) (L L' : dir) : Prop :=
  forall k, k <> path -> k <> sig_name path -> k <> "chain-head.json"%string -> dget k L' = dget k L.

Lemma substring_length_exact n m s : (n + m <= String.length s)%nat -> String.length (String.substring n m s) = m.
Proof.
  revert n m. induction s as [|c s IH]; intros n m H.
  - cbn in H. assert (n = 0%nat) as -> by lia. assert (m = 0%nat) as -> by lia. done.
  - destruct n as [|n]; [destruct m as [|m]; [done|]|]; cbn [String.substring String.length] in *.
    + rewrite IH; lia.
    + apply IH. lia.
Qed.
Lemma uuid_string_length z : String.length (uuid_string z) = 36%nat.
Proof.
  unfold uuid_string. destruct (hex_fixed_chars 32 z EmptyString eq_refl) as [_ Hl].
  rewrite !length_app_str, !substring_length_exact by (rewrite Hl; cbn; lia). done.
Qed.

Lemma app_str_inv_tail a b x y : String.length a = String.length b -> x +:+ a = y +:+ b -> a = b.
Proof.
  intros Hl. revert y. induction x as [|c x IH]; intros [|d y] E.
  - exact E.
  - apply (f_equal String.length) in E. change (String.length a = S (String.length (y +:+ b))) in E.
    rewrite length_app_str in E. lia.
  - apply (f_equal String.length) in E. change (S (String.length (x +:+ a)) = String.length b) in E.
    rewrite length_app_str in E. lia.
  - apply (IH y). by injection E.
Qed.
Lemma named_rid r1 r2 p : named r1 p -> named r2 p -> r1 = r2.
Proof.
  intros [H1 [x ->]] [H2 [y E]]. apply app_str_inv_tail in E; [|by rewrite !length_app_str, H1, H2].
  injection E as E. pose proof (substring_app r1 ".json") as S1. pose proof (substring_app r2 ".json") as S2.
  rewrite H1 in S1. rewrite H2 in S2. change (r1 +:+ ".json" = r2 +:+ ".json") in E. congruence.
Qed.

Lemma named_kept rid rid' path D L L' :
  named rid path -> named rid' D -> rid <> rid' -> only_record D L L' -> dget path L' = dget path L.
Proof.
  intros Hn Hd Hne Ho. pose proof (named_rid rid rid' path Hn) as Hr. destruct Hn as [_ [x ->]]. apply Ho.
  - intros E. apply Hne, Hr. by rewrite E.
  - intros E. apply (f_equal (ends_with ".json")) in E. rewrite not_record_sig in E.
    by rewrite <-!app_str_assoc, ends_with_app in E.
  - intros E. apply (f_equal (all_chars (fun c => negb (Ascii.eqb c "_"%char)))) in E.
    rewrite all_chars_app in E. cbn [String.append all_chars] in E. by rewrite andb_false_r in E.
Qed.

Section Named.
Context (ssh_sign : string -> string -> string -> option string).
Context (ssh_verify : string -> string -> string -> string -> string -> bool).

Lemma canonical_uuid_length s f r : _canonical_uuid (JStr s) f = Ok r -> String.length s = 36%nat.
Proof.
  cbn. destruct (parse_uuid s) as [z|]; [|done]. destruct (String.eqb_spec (uuid_string z) s) as [<-|]; [|done].
  intros _. apply uuid_string_length.
Qed.

Lemma append_uuid now fresh args sk pk L D L' r :
  EvidenceManifest.append_record ssh_sign ssh_verify now true fresh args sk pk L = (Ok D, L') ->
  a_record_id args = Some r -> String.length r = 36%nat.
Proof.
  unfold EvidenceManifest.append_record. intros H Hr. rewrite Hr in H.
  apply Mbind_Ok_inv in H as (? & ? & [_ ->]%lift_Ok_inv & H).
  apply Mbind_Ok_inv in H as (? & ? & [_ ->]%lift_Ok_inv & H).
  apply Mbind_Ok_inv in H as (? & ? & H1 & _). apply Mbind_Ok_inv in H1 as (? & ? & [H1 ->]%lift_Ok_inv & _).
  by apply canonical_uuid_length in H1.
Qed.

(** A successful append leaves a file that carries the record's id, and changes
    no other file but its signature and the head. *)
Lemma append_named now fresh args sk pk L D L' r :
  EvidenceManifest.append_record ssh_sign ssh_verify now true fresh args sk pk L = (Ok D, L') ->
  a_record_id args = Some r -> named r D /\ only_record D L L'.
Proof.
  intros H Hr. pose proof (append_uuid _ _ _ _ _ _ _ _ _ H Hr) as Hl.
  apply append_new in H as [(r' & Hr' & HD & ->)|(previous & key & rid & canonical & H)].
  - assert (r' = r) as -> by congruence. split; [split; [done|]|by intros k].
    unfold paths_of_record in HD. apply list_elem_of_In, filter_In in HD as [_ HD]. bool_norm. eauto.
  - cbv zeta in H. destruct H as (_ & _ & _ & -> & L1 & -> & Hs%on_exception_ok & Hrid).
    assert (rid = r) as -> by (apply Hrid; [done|by destruct r]). assert (named r (sequence_name (Z.of_nat (length (record_paths L)) + 1) r)) as Hn
      by (split; [done|]; unfold sequence_name; eauto).
    split; [done|]. apply seal_record_ok in Hs as (_ & _ & Hu & _); [| |by rewrite dget_dset, String.eqb_refl].
    { intros k H1 H2 H3. rewrite Hu, dget_dset by done. by rewrite (proj2 (String.eqb_neq _ _)). }
    intros E. apply (f_equal (all_chars (fun c => negb (Ascii.eqb c "_"%char)))) in E.
    unfold sequence_name in E. rewrite all_chars_app in E. cbn [String.append all_chars] in E.
    rewrite andb_false_r in E. done.
Qed.
End Named.

(** ** Agreement of the ledger and the database *)

(** The ledger holds a record of that id and digest. *)
Definition recorded_in (L : dir) (rid digest : string) : Prop :=
  exists path raw record,
    path ∈ record_paths L /\ dget path L = Some (Regular raw) /\ loads_bytes raw = Ok record /\
    get_item "record_id" record = Some (JStr rid) /\ sha256 raw = digest.
Definition complete_with (rid digest : string) (o : EvidenceOperation) : Prop :=
  eo_record_id o = rid /\ eo_state o = "complete"%string /\ eo_record_sha256 o = Some digest.

Lemma subset_nodup (a b : list string) :
  NoDup a -> (forall k, k ∈ a -> k ∈ b) -> length a = length b -> forall k, k ∈ b -> k ∈ a.
Proof.
  intros Ha Hs Hl k Hk. assert (a ⊆+ b) as Hsub by by apply NoDup_submseteq.
  apply submseteq_length_Permutation in Hsub; [by rewrite Hsub | lia].
Qed.

Lemma py_eq_items (a b : list (string * json)) :
  py_eq (JObj a) (JObj b) = true -> NoDup (dkeys a) ->
  (forall k u, (k, u) ∈ a -> exists v, dget k b = Some v /\ py_eq u v = true) /\
  forall k, k ∈ dkeys b -> k ∈ dkeys a.
Proof.
  cbn [py_eq]. intros [Hl%Nat.eqb_eq H]%andb_true_iff Ha.
  assert (forall k u, (k, u) ∈ a -> exists v, dget k b = Some v /\ py_eq u v = true) as Hab.
  { clear Hl Ha. induction a as [|[k u] a IH]; intros k' u' Hin; [by apply elem_of_nil in Hin|].
    apply andb_true_iff in H as [Hk H]. apply elem_of_cons in Hin as [[= -> ->]|Hin]; [|by apply IH].
    destruct (dget k b) as [v|]; [by exists v | done]. }
  split; [done|]. apply subset_nodup; [done| |unfold dkeys; by rewrite !length_map].
  intros k Hk. unfold dkeys in *. apply list_elem_of_fmap in Hk as ([k0 u] & -> & Hin).
  destruct (Hab _ _ Hin) as (v & Hv & _). apply dget_elem in Hv. apply list_elem_of_fmap. by exists (k0, v).
Qed.

(** Equal dictionaries of texts: the same texts under the same keys. *)
Lemma py_eq_texts (a b : list (string * json)) :
  py_eq (JObj a) (JObj b) = true -> NoDup (dkeys a) -> NoDup (dkeys b) ->
  forall k s, (k, JStr s) ∈ a <-> (k, JStr s) ∈ b.
Proof.
  intros H Ha Hb. destruct (py_eq_items a b H Ha) as [Hab Hback]. intros k s. split; intros Hin.
  - destruct (Hab _ _ Hin) as (v & Hv & He). destruct v; try done.
    apply String.eqb_eq in He as ->. by apply dget_elem.
  - assert (k ∈ dkeys a) as Hk by (apply Hback; unfold dkeys; apply list_elem_of_fmap; by exists (k, JStr s)).
    unfold dkeys in Hk. apply list_elem_of_fmap in Hk as ([k0 u] & -> & Hin').
    destruct (Hab _ _ Hin') as (v & Hv & He). cbn in *.
    rewrite (elem_dget _ _ _ Hb Hin) in Hv. injection Hv as <-. destruct u; try done.
    by apply String.eqb_eq in He as ->.
Qed.

(** ... and no other value on the right when there is none on the left. *)
Lemma py_eq_only_texts (a b : list (string * json)) :
  py_eq (JObj a) (JObj b) = true -> NoDup (dkeys a) -> NoDup (dkeys b) ->
  (forall k v, (k, v) ∈ a -> exists s, v = JStr s) -> forall k v, (k, v) ∈ b -> exists s, v = JStr s.
Proof.
  intros H Ha Hb Ht k v Hin. destruct (py_eq_items a b H Ha) as [Hab Hback].
  assert (k ∈ dkeys a) as Hk by (apply Hback; unfold dkeys; apply list_elem_of_fmap; by exists (k, v)).
  unfold dkeys in Hk. apply list_elem_of_fmap in Hk as ([k0 u] & -> & Hin').
  destruct (Hab _ _ Hin') as (v' & Hv & He). cbn in *. rewrite (elem_dget _ _ _ Hb Hin) in Hv. injection Hv as <-.
  destruct (Ht _ _ Hin') as [s ->]. destruct v as [| | | |s'| |]; try done. by exists s'.
Qed.

Lemma record_digests_texts l acc r :
  record_digests l acc = Ok r -> (forall k v, (k, v) ∈ acc -> exists s, v = JStr s) ->
  forall k v, (k, v) ∈ r -> exists s, v = JStr s.
Proof.
  revert acc. induction l as [|[[path record] digest] l IH]; intros acc; cbn [record_digests]; [by intros [= <-]|].
  intros H Ha. apply bind_Ok_inv in H as (id & _ & H). destruct id as [| | | |id| |]; try done.
  destruct (has_key id acc) eqn:Hk; [done|]. apply (IH _ H). intros k v. rewrite (dset_snoc id (JStr digest) acc Hk).
  intros [Hin|[= -> ->]%list_elem_of_singleton]%elem_of_app; [by eapply Ha|by eexists].
Qed.

Lemma get_attr_str k v s : get_attr k JNull v = Ok (JStr s) <-> get_item k v = Some (JStr s).
Proof.
  destruct v; cbn; try done. destruct (dget k l); [|done]. split; [by intros [= ->] | by intros [= ->]].
Qed.

Lemma record_digests_ok l acc r :
  record_digests l acc = Ok r -> NoDup (dkeys acc) ->
  NoDup (dkeys r) /\
  forall k s, (k, JStr s) ∈ r <->
    (k, JStr s) ∈ acc \/ exists e, e ∈ l /\ get_item "record_id" e.1.2 = Some (JStr k) /\ e.2 = s.
Proof.
  revert acc. induction l as [|[[path record] digest] l IH]; intros acc; cbn [record_digests].
  - intros [= <-] Hd. split; [done|]. intros k s. split; [by left|]. intros [H|(e & H & _)]; [done|by apply elem_of_nil in H].
  - intros H Hd. apply bind_Ok_inv in H as (id & Hid & H). destruct id as [| | | |id| |]; try done.
    destruct (has_key id acc) eqn:Hk; [done|]. apply get_attr_str in Hid.
    destruct (IH _ H) as [Hn Hr].
    { rewrite dkeys_dset, Hk. apply NoDup_app. split; [done|]. split; [|apply NoDup_singleton].
      intros x Hx ->%list_elem_of_singleton. by apply not_true_iff_false in Hk; rewrite has_key_elem in Hk. }
    split; [done|]. intros k s. rewrite Hr, (dset_snoc id (JStr digest) acc Hk), elem_of_app, list_elem_of_singleton.
    split.
    + intros [[Ha|[= -> ->]]|(e & He & E)].
      * by left.
      * right. exists (path, record, digest). split; [by left|done].
      * right. exists e. split; [by right|done].
    + intros [Ha|(e & [->|He]%elem_of_cons & Hg & Hs)].
      * by left; left.
      * left; right. cbn in *. rewrite Hid in Hg. by injection Hg as ->; subst.
      * right. by exists e.
Qed.

Lemma map_outcome_elem {A B} (g : A -> outcome B) l r :
  map_outcome g l = Ok r -> forall y, y ∈ r <-> exists x, x ∈ l /\ g x = Ok y.
Proof.
  revert r. induction l as [|x l IH]; intros r; cbn.
  - intros [= <-] y. split; [by intros ?%elem_of_nil|]. intros (x & H & _). by apply elem_of_nil in H.
  - intros H. apply bind_Ok_inv in H as (y0 & Hy0 & H). apply bind_Ok_inv in H as (ys & Hys & [= <-]).
    intros y. rewrite elem_of_cons, (IH _ Hys). split.
    + intros [->|(x' & Hx' & Hg)]; [exists x; split; [by left|done] | exists x'; split; [by right|done]].
    + intros (x' & [->|Hx']%elem_of_cons & Hg); [left; congruence | right; by exists x'].
Qed.

Lemma recorded_entries L entries rid digest :
  ledger_records L = Ok entries ->
  (exists e, e ∈ entries /\ get_item "record_id" e.1.2 = Some (JStr rid) /\ e.2 = digest) <-> recorded_in L rid digest.
Proof.
  intros H. unfold ledger_records in H. pose proof (map_outcome_elem _ _ _ H) as He. split.
  - intros (e & Hin & Hg & <-). apply He in Hin as (path & Hp & Hr). unfold read_entry in Hr.
    apply bind_Ok_inv in Hr as (raw & Hraw & Hr). apply bind_Ok_inv in Hr as (record & Hrec & [= <-]). cbn in *.
    exists path, raw, record. split; [done|]. split; [|done].
    unfold bytes_of in Hraw. destruct (dget path L) as [[]|]; try done. by injection Hraw as ->.
  - intros (path & raw & record & Hp & Hd & Hl & Hg & <-). exists (path, record, sha256 raw). split; [|done].
    apply He. exists path. split; [done|]. unfold read_entry. rewrite Hd. cbn [bytes_of]. unfold mbind, outcome_bind.
    by rewrite Hl.
Qed.

Lemma committed_pairs flushed ops :
  NoDup (map eo_record_id ops) ->
  let l := map (fun o => (eo_record_id o, of_opt_str (eo_record_sha256 o)))
             (List.filter (flushed_complete flushed) ops) in
  committed_digests flushed ops = l /\ NoDup (dkeys l).
Proof.
  intros Hd l. assert (NoDup (dkeys l)) as Hn; [|by unfold committed_digests; rewrite dict_of_pairs_nodup].
  subst l. unfold dkeys. rewrite map_map. cbn. induction ops as [|o ops IH]; [constructor|].
  cbn in Hd. apply NoDup_cons in Hd as [Ho Hd]. cbn [List.filter]. destruct (flushed_complete flushed o); [|by apply IH].
  cbn. apply NoDup_cons. split; [|by apply IH]. intros Hin. apply Ho. apply list_elem_of_fmap in Hin as (x & Hx & Hin).
  apply list_elem_of_In, filter_In in Hin as [Hin _]. apply list_elem_of_fmap. exists x. by rewrite list_elem_of_In.
Qed.

Lemma committed_pair flushed ops o :
  NoDup (map eo_record_id ops) -> o ∈ ops -> flushed_complete flushed o = true ->
  (eo_record_id o, of_opt_str (eo_record_sha256 o)) ∈ committed_digests flushed ops.
Proof.
  intros Hd Ho Hs. destruct (committed_pairs flushed ops Hd) as [-> _]. apply list_elem_of_fmap. exists o. split; [done|].
  apply list_elem_of_In, filter_In. by rewrite <-list_elem_of_In.
Qed.

(** The operation is in the database, complete when the rows were last written,
    with that digest. *)
Definition written_with (flushed : list EvidenceOperation) (rid digest : string) (o : EvidenceOperation) : Prop :=
  flushed_complete flushed o = true /\ eo_record_id o = rid /\ eo_record_sha256 o = Some digest.

Lemma committed_elem flushed ops rid digest :
  NoDup (map eo_record_id ops) ->
  NoDup (dkeys (committed_digests flushed ops)) /\
  ((rid, JStr digest) ∈ committed_digests flushed ops <-> exists o, o ∈ ops /\ written_with flushed rid digest o).
Proof.
  intros Hd. destruct (committed_pairs flushed ops Hd) as [-> Hn]. split; [done|]. rewrite list_elem_of_fmap. split.
  - intros (o & [= -> He] & Hin). apply list_elem_of_In, filter_In in Hin as [Hin Hs].
    exists o. rewrite list_elem_of_In. split; [done|]. split; [done|]. split; [done|].
    destruct (eo_record_sha256 o) as [s|]; [|done]. by injection He as ->.
  - intros (o & Hin & Hs & <- & Hd'). exists o. rewrite Hd'. split; [done|].
    apply list_elem_of_In, filter_In. by rewrite <-list_elem_of_In.
Qed.

(** ** The verified chain *)

Definition chain_document (n : Z) (c i h : string) : list (string * json) :=
  [("valid", JBool true); ("records", JInt n); ("instance_id", JStr i); ("chain_id", JStr c);
   ("head_sha256", JStr h)]%string.
Definition sorted_document (n : Z) (c i h : string) : list (string * json) :=
  [("chain_id", JStr c); ("head_sha256", JStr h); ("instance_id", JStr i); ("records", JInt n);
   ("valid", JBool true)]%string.

Lemma loads_document n c i h :
  0 <= n < max_sequence -> is_ascii c = true -> is_ascii i = true -> is_ascii h = true ->
  loads (dumps_sorted (JObj (chain_document n c i h))) = Ok (JObj (sorted_document n c i h)).
Proof.
  intros Hn Hc Hi Hh. rewrite loads_dumps_sorted; [done|].
  cbn [json_ok chain_document forallb fst snd andb]. rewrite Hc, Hi, Hh.
  pose proof (string_of_Z_length n 12 ltac:(lia) Hn).
  by assert ((Z.of_nat (String.length (string_of_Z n)) <=? 4300) = true) as -> by lia.
Qed.

Lemma uuid_string_ascii z : is_ascii (uuid_string z) = true.
Proof.
  unfold is_ascii, uuid_string. destruct (hex_fixed_chars 32 z EmptyString eq_refl) as [Hh _].
  assert (all_chars (fun c => zord c <? 128) (hex_fixed 32 z EmptyString) = true) as H.
  { revert Hh. generalize (hex_fixed 32 z EmptyString). intros h. induction h as [|c h IH]; [done|].
    cbn [all_chars]. intros [Hc%hex_dash_token Hh]%andb_true_iff. rewrite IH by done. rewrite andb_true_r. lia. }
  by rewrite !all_chars_app, !all_chars_substring.
Qed.

Lemma canonical_uuid_ascii v f r : _canonical_uuid v f = Ok r -> v = JStr r /\ is_ascii r = true.
Proof.
  destruct v; try done. cbn. destruct (parse_uuid s) as [z|]; [|done].
  destruct (String.eqb_spec (uuid_string z) s) as [<-|]; [|done]. intros [= <-]. split; [done|].
  apply uuid_string_ascii.
Qed.

Lemma sha256_ascii s : is_ascii (sha256 s) = true.
Proof.
  unfold sha256. cbv zeta. generalize (blocks (length (pad_message (map zord (list_ascii_of_string s))))
    (pad_message (map zord (list_ascii_of_string s))) sha_init). intros l. unfold is_ascii.
  induction l as [|z l IH]; [done|]. cbn [map fold_right]. change String.append with String.app.
  rewrite all_chars_app, IH, andb_true_r. unfold hex_word. cbn [map string_of_list_ascii all_chars].
  assert (forall x, (zord (hex_nibble (Z.land x 15)) <? 128) = true) as Hn.
  { intros x. change 15 with (Z.ones 4). rewrite Z.land_ones by lia. pose proof (Z.mod_pos_bound x (2 ^ 4) ltac:(lia)) as Hb.
    revert Hb. generalize (x mod 2 ^ 4). intros d Hd.
    assert (d = 0 \/ d = 1 \/ d = 2 \/ d = 3 \/ d = 4 \/ d = 5 \/ d = 6 \/ d = 7 \/ d = 8 \/
      d = 9 \/ d = 10 \/ d = 11 \/ d = 12 \/ d = 13 \/ d = 14 \/ d = 15) as H' by lia.
    by destruct_or! H'; subst. }
  by rewrite !Hn.
Qed.

Definition text_ids (ids : json * json) : Prop :=
  exists c i, ids = (JStr c, JStr i) /\ is_ascii c = true /\ is_ascii i = true.

Lemma record_ids_text now p n b record raw c i :
  load_record now p n b = Ok (record, raw) -> item "chain_id" record = Ok c -> item "instance_id" record = Ok i ->
  text_ids (c, i).
Proof.
  unfold load_record. intros H Hc Hi. apply bind_Ok_inv in H as (bytes & _ & H).
  apply bind_Ok_inv in H as (r & _ & H). apply bind_Ok_inv in H as ([] & Hv & H).
  apply bind_Ok_inv in H as (? & _ & H). apply bind_Ok_inv in H as ([] & _ & [= -> _]).
  unfold validate_record in Hv. apply bind_Ok_inv in Hv as (? & _ & Hv). apply bind_Ok_inv in Hv as (? & _ & Hv).
  apply bind_Ok_inv in Hv as (? & _ & Hv). rewrite Hi in Hv. apply bind_Ok_inv in Hv as (? & [= <-] & Hv).
  apply bind_Ok_inv in Hv as (? & [-> Hia]%canonical_uuid_ascii & Hv).
  rewrite Hc in Hv. apply bind_Ok_inv in Hv as (? & [= <-] & Hv).
  apply bind_Ok_inv in Hv as (? & [-> Hca]%canonical_uuid_ascii & _). by eexists _, _.
Qed.

Lemma verify_text_ids sv now L pub ps s prev ids h ids' :
  verify_records sv now L pub ps s prev ids = Ok (h, ids') ->
  is_ascii prev = true -> (forall x, ids = Some x -> text_ids x) ->
  is_ascii h = true /\ (forall x, ids' = Some x -> text_ids x) /\ (ps <> [] -> ids' <> None).
Proof.
  revert s prev ids. induction ps as [|p ps IH]; intros s prev ids H Hp Hids.
  - injection H as <- <-. done.
  - cbn [verify_records] in H. apply bind_Ok_inv in H as ([h1 x1] & H1 & H). cbn [fst snd] in H.
    assert (is_ascii h1 = true /\ text_ids x1) as [Hh1 Hx1].
    { unfold verify_step in H1. apply bind_Ok_inv in H1 as ([] & _ & H1).
      apply bind_Ok_inv in H1 as ([record raw] & Hl & H1). apply bind_Ok_inv in H1 as (? & _ & H1).
      apply bind_Ok_inv in H1 as (? & _ & H1). apply bind_Ok_inv in H1 as (? & _ & H1).
      apply bind_Ok_inv in H1 as (? & _ & H1). apply bind_Ok_inv in H1 as (c & Hc & H1).
      apply bind_Ok_inv in H1 as (i & Hi & H1). apply bind_Ok_inv in H1 as (found & Hx & H1).
      apply bind_Ok_inv in H1 as (? & _ & [= <- <-]). split; [apply sha256_ascii|].
      destruct ids as [[c0 i0]|].
      - destruct (_ || _); [done|]. injection Hx as <-. by apply Hids.
      - injection Hx as <-. by eapply record_ids_text. }
    destruct (IH _ _ _ H Hh1) as (Hh & Hy & Hn); [by intros ? [= <-]|].
    split; [done|]. split; [done|]. intros _. destruct ps; [|by apply Hn]. by injection H as <- <-.
Qed.

Section Verified.
Context (ssh_verify : string -> string -> string -> string -> string -> bool).

(** The public key file the tool reads. *)
Definition key_file (w : world) : option node := dget (public_key_path (w_config w)) (w_files w).

Lemma tool_verify_inv w text w1 :
  tool_verify_chain ssh_verify w = (Ok (Some text), w1) ->
  w1 = w <| w_ticks := S (w_ticks w) |> /\
  exists now h c i n,
    chain_is ssh_verify now (key_file w) (w_ledger w) h (Some (JStr c, JStr i)) /\
    loads text = Ok (JObj (sorted_document n c i h)).
Proof.
  unfold tool_verify_chain. intros H.
  apply Mbind_Ok_inv in H as (now & w2 & [= <- <-] & H). apply Mbind_Ok_inv in H as (? & ? & [= <- <-] & H).
  destruct (verify_chain _ _ _ _ _) as [document|] eqn:Hv; [|by apply mret_Ok_inv in H as [? _]].
  apply mret_Ok_inv in H as [[= ->] ->]. split; [done|].
  unfold verify_chain in Hv. apply bind_Ok_inv in Hv as ([] & _ & Hv).
  apply bind_Ok_inv in Hv as ([] & Hne%raise_if_Ok_inv & Hv). apply bind_Ok_inv in Hv as ([h ids] & Hr & [= <-]).
  set (L := w_ledger w) in *. change (w_ledger (w <| w_ticks := S (w_ticks w) |>)) with L in *.
  pose proof (verify_text_ids _ _ _ _ _ _ _ _ _ _ Hr) as (Hh & Hids & Hsome); [done|done|].
  destruct ids as [ids|]; [|by destruct Hsome; [intros E; rewrite E in Hne|]].
  destruct (Hids _ eq_refl) as (c & i & -> & Hc & Hi).
  eexists _, h, c, i, (Z.of_nat (length (record_paths L))). split; [exact Hr|].
  pose proof (chain_room _ _ _ _ _ _ Hr). apply loads_document; [lia|done..].
Qed.

Lemma read_ascii_same p w o w' : read_ascii p w = (o, w') -> w' = w.
Proof.
  unfold read_ascii, file_at, gets, mbind, M_bind, lift. destruct (bytes_of _ _); [|by intros [= _ <-]].
  by intros [= _ <-].
Qed.

Lemma chain_state_find w s w' : chain_state w = (Ok s, w') ->
  w' = w /\ s = List.find (fun s => cs_id s =? 1) (t_evidence_chain_state (w_db w)).
Proof. by intros [= -> ->]. Qed.

Lemma set_state_inv f w u w' : set_state f w = (u, w') ->
  (forall s, cs_id (f s) = cs_id s) ->
  w_ledger w' = w_ledger w /\ w_files w' = w_files w /\ w_config w' = w_config w /\
  t_evidence_operations (w_db w') = t_evidence_operations (w_db w) /\
  List.find (fun s => cs_id s =? 1) (t_evidence_chain_state (w_db w')) =
  option_map f (List.find (fun s => cs_id s =? 1) (t_evidence_chain_state (w_db w))).
Proof.
  intros H Hf. unfold set_state, q_update, on_table, mbind, M_bind, mret, M_ret in H. injection H as _ <-.
  repeat (split; [done|]). cbn. rewrite find_map.
  - destruct (List.find _ _) as [s|] eqn:E; [|done]. apply find_some_elem in E as [_ E]. cbn. by rewrite E.
  - intros x. destruct (cs_id x =? 1) eqn:E; [by rewrite Hf | done].
Qed.

Lemma filter_true {A} (l : list A) : List.filter (fun _ => true) l = l.
Proof. induction l as [|x l IH]; cbn; congruence. Qed.

(** What [verify_flushed] establishes. *)
Lemma verify_flushed_inv flushed w doc w' :
  verify_flushed ssh_verify flushed w = (Ok doc, w') ->
  NoDup (map eo_record_id (t_evidence_operations (w_db w))) ->
  w_ledger w' = w_ledger w /\ t_evidence_operations (w_db w') = t_evidence_operations (w_db w) /\
  key_file w' = key_file w /\
  (forall rid digest, recorded_in (w_ledger w) rid digest <->
     exists o, o ∈ t_evidence_operations (w_db w) /\ written_with flushed rid digest o) /\
  (forall o, o ∈ t_evidence_operations (w_db w) -> flushed_complete flushed o = true ->
     exists digest, eo_record_sha256 o = Some digest) /\
  exists now h s, chain_is ssh_verify now (key_file w) (w_ledger w) h (Some (JStr (cs_chain_id s), JStr (cs_instance_id s))) /\
    List.find (fun s => cs_id s =? 1) (t_evidence_chain_state (w_db w')) = Some s /\ cs_head_sha256 s = Some h.
Proof.
  intros H Hd. unfold verify_flushed in H.
  apply Mbind_Ok_inv in H as (state & ? & [-> Hs]%chain_state_find & H). destruct state as [state|]; [|done].
  apply Mbind_Ok_inv in H as (out & w1 & Ht & H). destruct out as [text|]; [|done].
  apply tool_verify_inv in Ht as (-> & now & h & c & i & n & Hc & Hl).
  apply Mbind_Ok_inv in H as (? & ? & [-> ->]%mret_Ok_inv & H).
  rewrite Hl in H. apply Mbind_Ok_inv in H as (? & ? & [[= <-] ->]%lift_Ok_inv & H).
  apply Mbind_Ok_inv in H as (? & ? & [[= <-] ->]%lift_Ok_inv & H).
  apply Mbind_Ok_inv in H as (? & ? & [[= <-] ->]%lift_Ok_inv & H).
  apply Mbind_Ok_inv in H as (? & ? & [[Hi Hch]%orb_false_iff ->]%throw_if_Ok_inv & H).
  apply negb_false_iff, String.eqb_eq in Hi, Hch. subst c i.
  apply Mbind_Ok_inv in H as (? & ? & [= <- <-] & H).
  apply Mbind_Ok_inv in H as (? & ? & ->%read_ascii_same & H).
  apply Mbind_Ok_inv in H as (? & ? & [_ ->]%lift_Ok_inv & H).
  apply Mbind_Ok_inv in H as (? & ? & [_ ->]%lift_Ok_inv & H).
  apply Mbind_Ok_inv in H as (? & ? & [_ ->]%lift_Ok_inv & H).
  apply Mbind_Ok_inv in H as (? & ? & [= <- <-] & H).
  apply Mbind_Ok_inv in H as (? & ? & [_ ->]%throw_if_Ok_inv & H).
  apply Mbind_Ok_inv in H as (entries & ? & [= He <-] & H).
  apply Mbind_Ok_inv in H as (records & ? & [Hr ->]%lift_Ok_inv & H).
  apply Mbind_Ok_inv in H as (ops & ? & [= <- <-] & H).
  apply Mbind_Ok_inv in H as (? & ? & [Heq%negb_false_iff ->]%throw_if_Ok_inv & H).
  apply Mbind_Ok_inv in H as (? & ? & [_ ->]%lift_Ok_inv & H).
  apply Mbind_Ok_inv in H as (? & ? & [[= <-] ->]%lift_Ok_inv & H).
  apply Mbind_Ok_inv in H as (? & ? & [= <- <-] & H).
  apply Mbind_Ok_inv in H as ([] & w3 & Hset & [= <- <-]).
  apply set_state_inv in Hset as (E1 & E2 & E3 & E4 & E5); [|done].
  cbn in E1, E2, E3, E4, E5. rewrite filter_true in Heq.
  split; [done|]. split; [done|]. split; [by unfold key_file; rewrite E2, E3|]. split.
  - intros rid digest. apply record_digests_ok in Hr as [Hn Hr]; [|constructor].
    destruct (committed_elem flushed _ rid digest Hd) as [Hcn Hcd]. rewrite <-Hcd.
    rewrite <-(py_eq_texts _ _ Heq Hn Hcn), Hr, <-(recorded_entries _ _ _ _ He).
    split; [by right|]. by intros [?%elem_of_nil|].
  - split.
    { intros o Ho Hst. pose proof (record_digests_texts _ _ _ Hr) as Ht.
      apply record_digests_ok in Hr as [Hn _]; [|constructor]. destruct (committed_elem flushed _ EmptyString EmptyString Hd) as [Hcn _].
      destruct (py_eq_only_texts _ _ Heq Hn Hcn (Ht ltac:(by intros ? ? ?%elem_of_nil)) (eo_record_id o)
                  (of_opt_str (eo_record_sha256 o))) as [s Hsd].
      - by apply committed_pair.
      - destruct (eo_record_sha256 o) as [d|]; [by exists d|done]. }
    rewrite <-Hs in E5. eexists now, h, _. split; [|split; [exact E5|done]]. done.
Qed.
End Verified.

(** ** Reconciliation *)

Lemma set_operation_done o d w :
  NoDup (map eo_record_id (t_evidence_operations (w_db w))) ->
  (exists x, x ∈ t_evidence_operations (w_db w) /\ eo_id x = eo_id o /\ eo_record_id x = eo_record_id o) ->
  forall f, (forall x, op_key (f x) = op_key x) -> 
  done (set_operation o (fun x => completed d (f x)) w).2 (eo_record_id o).
Proof.
  intros Hd (x & Hx & Hid & Hr) f Hf y Hy Hyr. unfold set_operation, q_update, on_table, mbind, M_bind in Hy. cbn in Hy.
  apply list_elem_of_fmap in Hy as (z & -> & Hz). destruct (eo_id z =? eo_id o) eqn:E; [done|]. exfalso.
  assert (z = x) as -> by (apply (nodup_key eo_record_id _ _ _ Hd Hz Hx); congruence). lia.
Qed.

Lemma keys_elem {w w'} : reconciling w w' ->
  forall o, o ∈ t_evidence_operations (w_db w) ->
  exists x, x ∈ t_evidence_operations (w_db w') /\ op_key x = op_key o.
Proof.
  intros (_ & Hk & _) o Ho. assert (op_key o ∈ map op_key (t_evidence_operations (w_db w'))) as Hin.
  { rewrite Hk. apply list_elem_of_fmap. by exists o. }
  apply list_elem_of_fmap in Hin as (x & Hx & Hin). by exists x.
Qed.
Lemma record_ids_kept {w w'} : reconciling w w' ->
  map eo_record_id (t_evidence_operations (w_db w')) = map eo_record_id (t_evidence_operations (w_db w)).
Proof.
  intros (_ & Hk & _). assert (forall l, map eo_record_id l = map (fun k => k.1.1.1.1.2) (map op_key l)) as E.
  { intros l. by rewrite map_map. }
  by rewrite !E, Hk.
Qed.

Section Reconcile.
Context (ssh_sign : string -> string -> string -> option string).
Context (ssh_verify : string -> string -> string -> string -> string -> bool).
Context (ssh_derive : string -> option string).

Lemma set_operation_frame o d f w :
  (forall x, op_key (f x) = op_key x) -> reconciling w (set_operation o (fun x => completed d (f x)) w).2.
Proof.
  intros Hf. pose proof (reconciling_set_operation o (fun x => completed d (f x))) as H.
  apply H; [|done]. intros x. rewrite <-(Hf x). by destruct (f x).
Qed.

(** A successful append: the bridge works up to [w1], in whose ledger the record
    is, and then completes the operation. *)
(** The ledger and the operations are untouched. *)
Definition quiet (w w' : world) : Prop :=
  w_ledger w' = w_ledger w /\ t_evidence_operations (w_db w') = t_evidence_operations (w_db w).
#[local] Instance quiet_preorder : PreOrder quiet.
Proof. split; [by intros w|]. intros w1 w2 w3 [A B] [C D]. unfold quiet. by rewrite C, D, A, B. Qed.
Lemma quiet_files f : keeps quiet (modify (fun w => w <| w_files := f w |>)).
Proof. by intros w. Qed.
Lemma quiet_utc_now : keeps quiet utc_now.
Proof. by intros w. Qed.
#[local] Hint Resolve quiet_preorder quiet_files quiet_utc_now : keeps.
Lemma quiet_make_directory p : keeps quiet (make_directory p).
Proof. unfold make_directory, file_at. by_keeps. Qed.
#[local] Hint Resolve quiet_make_directory : keeps.
Lemma quiet_ensure : keeps quiet ensure_directories.
Proof. unfold ensure_directories, ensure_directory, file_at. by_keeps. Qed.
Lemma quiet_write_file a b c : keeps quiet (write_file a b c).
Proof. unfold write_file, file_at. by_keeps. Qed.

Lemma tool_append_named args p w path w' r :
  tool_append ssh_sign ssh_verify args p w = (Ok (Some path), w') -> a_record_id args = Some r ->
  named r path /\ only_record path (w_ledger w) (w_ledger w') /\
  t_evidence_operations (w_db w') = t_evidence_operations (w_db w).
Proof.
  unfold tool_append. intros H Hr. apply Mbind_Ok_inv in H as (now & w1 & [= <- <-] & H).
  apply Mbind_Ok_inv in H as (? & ? & [= <- <-] & H).
  match type of H with (let '(_, _) := ?run in _) _ = _ => destruct run as [[D|e] L'] eqn:E end;
    apply Mbind_Ok_inv in H as (? & ? & ->%modify_Ok_inv & [H ->]%mret_Ok_inv); [|done]. injection H as ->.
  apply Mbind_Ok_inv in E as (? & ? & [_ ->]%throw_if_Ok_inv & E).
  apply Mbind_Ok_inv in E as (payload & ? & [_ ->]%lift_Ok_inv & E).
  destruct (ledger_is_real _).
  - apply (append_named _ _ _ _ _ _ _ _ _ _ r) in E as [Hn Ho]; [|done]. done.
  - exfalso. unfold EvidenceManifest.append_record in E.
    do 4 apply Mbind_Ok_inv in E as (? & ? & _ & E). by apply Mbind_Ok_inv in E as (? & ? & [? _]%throw_if_Ok_inv & _).
Qed.

Lemma append_file_split s o w digest w' :
  _append_operation_file ssh_sign ssh_verify s o w = (Ok digest, w') ->
  exists w1 path raw, reconciling w w1 /\ named (eo_record_id o) path /\ only_record path (w_ledger w) (w_ledger w1) /\
    t_evidence_operations (w_db w1) = t_evidence_operations (w_db w) /\
    dget path (w_ledger w1) = Some (Regular raw) /\ sha256 raw = digest /\ w_ledger w' = w_ledger w1 /\
    t_evidence_operations (w_db w') =
      map (fun r => if eo_id r =? eo_id o then completed digest r else r) (t_evidence_operations (w_db w1)).
Proof.
  unfold _append_operation_file. intros H.
  apply Mbind_Ok_inv in H as (rt & w1 & H1 & H).
  assert (w1 = w) as -> by (destruct (eo_record_type o) as [t|]; [destruct (truthy_str t)|]; by inversion H1).
  apply Mbind_Ok_inv in H as (? & w2 & H2 & H). pose proof (keeps_run _ _ _ _ _ quiet_ensure H2) as Q2.
  apply (keeps_run _ _ _ _ _ reconciling_ensure) in H2.
  apply Mbind_Ok_inv in H as (c & ? & [= <- <-] & H). apply Mbind_Ok_inv in H as (payload & ? & [_ ->]%lift_Ok_inv & H).
  apply Mbind_Ok_inv in H as (raw & ? & [_ ->]%lift_Ok_inv & H).
  apply Mbind_Ok_inv in H as (? & w3 & H3 & H). pose proof (keeps_run _ _ _ _ _ (quiet_write_file _ _ _) H3) as Q3.
  apply (keeps_run _ _ _ _ _ (reconciling_write_file _ _ _)) in H3.
  apply Mbind_Ok_inv in H as (out & w4 & H4 & H). pose proof H4 as T4.
  apply (keeps_run _ _ _ _ _ (reconciling_tool_append _ _ _ _)) in H4.
  apply Mbind_Ok_inv in H as (? & w5 & H5 & H). pose proof (keeps_run _ _ _ _ _ (quiet_files _) H5) as Q5.
  apply (keeps_run _ _ _ _ _ (reconciling_files _)) in H5.
  destruct out as [path|]; [|by inversion H].
  apply (tool_append_named _ _ _ _ _ (eo_record_id o)) in T4 as (Hn & Ho & E4); [|done].
  apply Mbind_Ok_inv in H as (ledger & ? & [= <- <-] & H).
  apply Mbind_Ok_inv in H as ([[p record] dig] & ? & [Hr ->]%lift_Ok_inv & H).
  apply Mbind_Ok_inv in H as (? & w6 & [= _ <-] & H).
  apply Mbind_Ok_inv in H as (sequence & ? & [_ ->]%lift_Ok_inv & H).
  apply Mbind_Ok_inv in H as (now & w7 & [= _ <-] & H).
  apply Mbind_Ok_inv in H as (? & w8 & H8 & [<- ->]%mret_Ok_inv).
  apply set_state_inv in H8 as (E1 & _ & _ & E5 & _); [|done].
  unfold read_entry in Hr. apply bind_Ok_inv in Hr as (bytes & Hb & Hr).
  apply bind_Ok_inv in Hr as (v & _ & [= <- <- <-]).
  assert (quiet w w3) as [QL QO] by (by etransitivity). destruct Q5 as [QL5 QO5].
  exists w5, path, bytes. split.
  { etransitivity; [exact H2|]. etransitivity; [exact H3|]. by etransitivity. }
  split; [done|]. split; [by rewrite QL5, <-QL|]. split; [by rewrite QO5, E4, QO|].
  split; [|done]. unfold bytes_of in Hb. destruct (dget path _) as [[]|]; try done. by injection Hb as ->.
Qed.

Lemma append_file_done s o w digest w' :
  _append_operation_file ssh_sign ssh_verify s o w = (Ok digest, w') ->
  NoDup (map eo_record_id (t_evidence_operations (w_db w))) ->
  (exists x, x ∈ t_evidence_operations (w_db w) /\ op_key x = op_key o) ->
  done w' (eo_record_id o).
Proof.
  intros H Hd (x & Hx & Hk). apply append_file_split in H as (w1 & path & raw & Hfr & _ & _ & _ & _ & _ & _ & E).
  destruct (keys_elem Hfr x Hx) as (y & Hy & Hyk). rewrite Hk in Hyk. injection Hyk as E1 _ E2 _ _ _ _.
  rewrite <-(record_ids_kept Hfr) in Hd.
  pose proof (set_operation_done o digest w1 Hd (ex_intro _ y (conj Hy (conj E1 E2))) (fun x => x) (fun _ => eq_refl)) as Hs.
  intros z Hz. rewrite E in Hz. by apply Hs.
Qed.

(** The operations of a record are complete, with the digest of the file of its
    name. *)
Definition filed (L : dir) (rid digest : string) : Prop :=
  exists path raw, named rid path /\ dget path L = Some (Regular raw) /\ sha256 raw = digest.
Definition settled (w : world) (rid : string) : Prop :=
  forall o, o ∈ t_evidence_operations (w_db w) -> eo_record_id o = rid ->
    exists digest, complete_with rid digest o /\ filed (w_ledger w) rid digest.

Lemma append_file_settles s o w digest w' :
  _append_operation_file ssh_sign ssh_verify s o w = (Ok digest, w') ->
  NoDup (map eo_record_id (t_evidence_operations (w_db w))) ->
  NoDup (map eo_id (t_evidence_operations (w_db w))) ->
  (exists x, x ∈ t_evidence_operations (w_db w) /\ op_key x = op_key o) ->
  settled w' (eo_record_id o) /\ forall rid, rid <> eo_record_id o -> settled w rid -> settled w' rid.
Proof.
  intros (w1 & path & raw & _ & Hn & Ho & Eo & Hp & Hs & HL & E)%append_file_split Hd Hid (x & Hx & Hk).
  assert (eo_id x = eo_id o /\ eo_record_id x = eo_record_id o) as [Ei Er] by by injection Hk as E1 _ E2 _ _ _ _.
  rewrite Eo in E. split; [intros y Hy Hyr | intros rid Hne Hset y Hy Hyr]; rewrite E in Hy;
    apply list_elem_of_fmap in Hy as (z & -> & Hz); destruct (eo_id z =? eo_id o) eqn:Ez.
  - exists digest. split; [by split|]. rewrite HL. by exists path, raw.
  - exfalso. assert (z = x) as -> by (apply (nodup_key eo_record_id _ _ _ Hd Hz Hx); congruence). lia.
  - exfalso. assert (z = x) as -> by (apply (nodup_key eo_id _ _ _ Hid Hz Hx); lia).
    apply Hne. rewrite <-Hyr, <-Er. by destruct x.
  - destruct (Hset z Hz Hyr) as (d & Hc & p & r & Hpn & Hpr & Hsha). exists d. split; [done|]. exists p, r.
    split; [done|]. split; [|done]. rewrite HL, (named_kept rid (eo_record_id o) p path _ _ Hpn Hn Hne Ho). done.
Qed.

Lemma reconcile_records_done l present retained orphaned w present' r' o' w' :
  reconcile_records l present retained orphaned w = (Ok (present', r', o'), w') ->
  NoDup (map eo_record_id (t_evidence_operations (w_db w))) ->
  (forall rid, rid ∈ present -> done w rid) -> forall rid, rid ∈ present' -> done w' rid.
Proof.
  revert present retained orphaned w.
  induction l as [|[[path record] digest] l IH]; intros present retained orphaned w H Hd Hp; cbn [reconcile_records] in H.
  - by apply mret_Ok_inv in H as [[= -> -> ->] ->].
  - apply Mbind_Ok_inv in H as (rid & ? & [_ ->]%lift_Ok_inv & H).
    apply Mbind_Ok_inv in H as (payload & ? & [_ ->]%lift_Ok_inv & H).
    destruct rid as [| | | |rid| |]; try done. destruct payload as [| | | | | |payload]; try done.
    apply Mbind_Ok_inv in H as (op & ? & [= <- <-] & H). destruct (List.find _ _) as [op|] eqn:Ef.
    + apply Mbind_Ok_inv in H as (? & ? & [_ ->]%throw_if_Ok_inv & H).
      apply Mbind_Ok_inv in H as (ok & ? & [_ ->]%lift_Ok_inv & H).
      apply Mbind_Ok_inv in H as (? & ? & [_ ->]%throw_if_Ok_inv & H).
      apply Mbind_Ok_inv in H as (rt & ? & [_ ->]%lift_Ok_inv & H).
      apply Mbind_Ok_inv in H as (tail & ? & [_ ->]%lift_Ok_inv & H).
      apply Mbind_Ok_inv in H as (? & w1 & Hs & H). apply find_some_elem in Ef as [Ho Hr%String.eqb_eq].
      set (f := fun o => o <| eo_record_type := rt |> <| eo_management_audit_tail_sha256 := tail |>) in *.
      pose proof (set_operation_frame op digest f w ltac:(by intros [])) as Hfr.
      pose proof (set_operation_done op digest w Hd (ex_intro _ op (conj Ho (conj eq_refl eq_refl))) f ltac:(by intros [])) as Hdn.
      unfold f in Hfr, Hdn. rewrite Hs in Hfr, Hdn. cbn [snd] in Hfr, Hdn.
      eapply IH; [exact H|by rewrite (record_ids_kept Hfr)|].
      intros r [->|Hin]%elem_of_cons; [by rewrite <-Hr|]. by apply Hfr, Hp.
    + eapply IH; [exact H|done|]. intros r [->|Hin]%elem_of_cons; [|by apply Hp].
      intros o Ho E. rewrite find_none_iff in Ef. specialize (Ef o Ho). by rewrite E, String.eqb_refl in Ef.
Qed.

Lemma append_missing_done s present l w u w' :
  append_missing ssh_sign ssh_verify (mret s) present l w = (Ok u, w') ->
  NoDup (map eo_record_id (t_evidence_operations (w_db w))) ->
  (forall o, o ∈ l -> exists x, x ∈ t_evidence_operations (w_db w) /\ op_key x = op_key o) ->
  (forall rid, rid ∈ present -> done w rid) ->
  forall o, o ∈ l -> done w' (eo_record_id o).
Proof.
  revert w. induction l as [|o l IH]; intros w H Hd Hl Hp; [by intros ? ?%elem_of_nil|]. cbn [append_missing] in H.
  apply Mbind_Ok_inv in H as (? & w1 & H1 & H).
  assert (reconciling w w1) as Hfr.
  { apply (keeps_run reconciling) in H1; [done|]. pose proof (reconciling_append_file ssh_sign ssh_verify). by_keeps; auto with keeps. }
  assert (done w1 (eo_record_id o)) as Hdo.
  { destruct (str_in (eo_record_id o) present) eqn:Ein.
    - apply mret_Ok_inv in H1 as [_ ->]. apply Hp. apply existsb_exists in Ein as (r & Hin & ->%String.eqb_eq).
      by apply list_elem_of_In.
    - apply Mbind_Ok_inv in H1 as (? & ? & [_ ->]%throw_if_Ok_inv & H1).
      apply Mbind_Ok_inv in H1 as (st & ? & [-> ->]%mret_Ok_inv & H1).
      apply Mbind_Ok_inv in H1 as (dig & ? & H1 & [_ ->]%mret_Ok_inv).
      eapply append_file_done; [exact H1|done|]. apply Hl. by left. }
  assert (reconciling w1 w') as Hrest.
  { apply (keeps_run reconciling) in H; [done|]. apply reconciling_missing. }
  intros q [->|Hq]%elem_of_cons; [by apply Hrest|].
  eapply IH; [exact H|by rewrite (record_ids_kept Hfr)| | |done].
  - intros y Hy. destruct (Hl y ltac:(by right)) as (old & Hx & Hxy).
    destruct (keys_elem Hfr old Hx) as (z & Hz & Hzx). exists z. split; [done|congruence].
  - intros rid Hin. by apply Hfr, Hp.
Qed.
Lemma done_kept {w w'} : reconciling w w' -> forall rid, done w rid -> done w' rid.
Proof. by intros (_ & _ & _ & _ & _ & _ & _ & _ & _ & _ & K). Qed.
Lemma ids_kept {w w'} : reconciling w w' ->
  map eo_id (t_evidence_operations (w_db w')) = map eo_id (t_evidence_operations (w_db w)).
Proof.
  intros (_ & Hk & _). assert (forall l, map eo_id l = map (fun k => k.1.1.1.1.1.1) (map op_key l)) as E.
  { intros l. by rewrite map_map. }
  by rewrite !E, Hk.
Qed.

(** What was appended again is in the ledger. *)
Lemma append_missing_settled s present l w u w' :
  append_missing ssh_sign ssh_verify (mret s) present l w = (Ok u, w') ->
  NoDup (map eo_record_id (t_evidence_operations (w_db w))) ->
  NoDup (map eo_id (t_evidence_operations (w_db w))) ->
  (forall o, o ∈ l -> exists x, x ∈ t_evidence_operations (w_db w) /\ op_key x = op_key o) ->
  (forall rid, str_in rid present = false -> settled w rid -> settled w' rid) /\
  forall o, o ∈ l -> str_in (eo_record_id o) present = false -> settled w' (eo_record_id o).
Proof.
  revert w. induction l as [|o l IH]; intros w H Hd Hid Hl; cbn [append_missing] in H.
  { apply mret_Ok_inv in H as [_ ->]. split; [done|]. by intros ? ?%elem_of_nil. }
  apply Mbind_Ok_inv in H as (? & w1 & H1 & H).
  destruct (str_in (eo_record_id o) present) eqn:Ein.
  { apply mret_Ok_inv in H1 as [_ ->]. destruct (IH w H Hd Hid) as [Hk Ha]; [intros y Hy; apply Hl; by right|].
    split; [done|]. intros y [->|Hy]%elem_of_cons Hn; [congruence|by apply Ha]. }
  apply Mbind_Ok_inv in H1 as (? & ? & [_ ->]%throw_if_Ok_inv & H1).
  apply Mbind_Ok_inv in H1 as (st & ? & [-> ->]%mret_Ok_inv & H1).
  apply Mbind_Ok_inv in H1 as (dig & ? & H1 & [_ ->]%mret_Ok_inv).
  pose proof (keeps_run _ _ _ _ _ (reconciling_append_file _ _ _ _) H1) as Hfr.
  apply append_file_settles in H1 as [Hso Hkeep]; [|done|done|apply Hl; by left].
  destruct (IH _ H) as [Hk Ha]; [by rewrite (record_ids_kept Hfr)|by rewrite (ids_kept Hfr)| |].
  { intros y Hy. destruct (Hl y ltac:(by right)) as (old & Hx & Hxy).
    destruct (keys_elem Hfr old Hx) as (z & Hz & Hzx). exists z. split; [done|congruence]. }
  split.
  - intros rid Hrid Hset. apply Hk; [done|]. destruct (decide (rid = eo_record_id o)) as [->|]; [done|by apply Hkeep].
  - intros y [->|Hy]%elem_of_cons Hn; [by apply Hk|by apply Ha].
Qed.

Lemma order_by_elem {R} (key : R -> Z) l x : x ∈ order_by key l <-> x ∈ l.
Proof.
  assert (forall y k, x ∈ insert_by key y k <-> x = y \/ x ∈ k) as Hi.
  { intros y k. induction k as [|z k IH]; cbn; [by rewrite elem_of_cons|]. destruct (key y <=? key z).
    - by rewrite !elem_of_cons.
    - rewrite !elem_of_cons, IH. tauto. }
  induction l as [|y l IH]; [done|]. cbn [order_by fold_right]. by rewrite Hi, elem_of_cons, IH.
Qed.

(** The ledger and the operations of the database agree: every operation is
    complete, with the digest of a record that has its id, inside or in the name
    of its file, and every record is that of a complete operation. *)
Definition agree (w : world) : Prop :=
  (forall o, o ∈ t_evidence_operations (w_db w) -> exists digest, complete_with (eo_record_id o) digest o /\
     (recorded_in (w_ledger w) (eo_record_id o) digest \/ filed (w_ledger w) (eo_record_id o) digest)) /\
  (forall rid digest, recorded_in (w_ledger w) rid digest ->
     exists o, o ∈ t_evidence_operations (w_db w) /\ complete_with rid digest o).
(** The ledger verifies and the database knows its head. *)
Definition head_known (w : world) : Prop :=
  exists now h s,
    chain_is ssh_verify now (key_file w) (w_ledger w) h (Some (JStr (cs_chain_id s), JStr (cs_instance_id s))) /\
    List.find (fun s => cs_id s =? 1) (t_evidence_chain_state (w_db w)) = Some s /\ cs_head_sha256 s = Some h.

Lemma reconcile_inv w doc w' :
  reconcile_local_chain ssh_sign ssh_verify ssh_derive w = (Ok doc, w') ->
  NoDup (map eo_record_id (t_evidence_operations (w_db w))) ->
  NoDup (map eo_id (t_evidence_operations (w_db w))) ->
  reconciling w w' /\ agree w' /\ head_known w'.
Proof.
  intros H Hd Hid.
  pose proof (keeps_run _ _ _ _ _ (reconciling_reconcile ssh_sign ssh_verify ssh_derive) H) as Hfr.
  split; [done|]. unfold reconcile_local_chain in H. apply Mbind_Ok_inv in H as (? & ? & [_ ->]%mret_Ok_inv & H).
  apply Mbind_Ok_inv in H as (st & ? & [-> Hs]%chain_state_find & H). destruct st as [st|]; [|done].
  apply Mbind_Ok_inv in H as (? & w1 & H1 & H). apply (keeps_run _ _ _ _ _ reconciling_ensure) in H1.
  apply Mbind_Ok_inv in H as (? & w2 & H2 & H). apply (keeps_run _ _ _ _ _ (reconciling_derive _)) in H2.
  apply Mbind_Ok_inv in H as (? & ? & [= <- <-] & H). apply Mbind_Ok_inv in H as (? & ? & ->%read_ascii_same & H).
  apply Mbind_Ok_inv in H as (? & ? & [_ ->]%lift_Ok_inv & H). apply Mbind_Ok_inv in H as (? & ? & [_ ->]%throw_if_Ok_inv & H).
  apply Mbind_Ok_inv in H as (out & w3 & H3 & H). apply (keeps_run _ _ _ _ _ (reconciling_tool_verify _)) in H3.
  apply Mbind_Ok_inv in H as (? & ? & [_ ->]%throw_if_Ok_inv & H).
  apply Mbind_Ok_inv in H as (entries & ? & [= _ <-] & H).
  apply Mbind_Ok_inv in H as ([[present retained] orphaned] & w4 & H4 & H).
  assert (reconciling w w3) as Ha by (etransitivity; [exact H1|]; etransitivity; [exact H2|exact H3]).
  pose proof (keeps_run _ _ _ _ _ (reconciling_records _ _ _ _) H4) as H4'.
  assert (reconciling w w4) as Hb by (by etransitivity).
  pose proof (reconcile_records_done _ _ _ _ _ _ _ _ _ H4) as Hpresent.
  rewrite (record_ids_kept Ha) in Hpresent. specialize (Hpresent Hd (fun _ H => False_ind _ (not_elem_of_nil _ H))).
  apply Mbind_Ok_inv in H as (? & w5 & H5 & H).
  apply (keeps_run reconciling) in H5; [|pose proof reconciling_quarantine; by_keeps; auto with keeps].
  apply Mbind_Ok_inv in H as (ops & ? & [= <- <-] & H).
  apply Mbind_Ok_inv in H as ([] & w6 & H6 & H).
  assert (reconciling w w5) as Hc by (by etransitivity).
  pose proof (keeps_run _ _ _ _ _ (reconciling_missing _ _ _ _ _) H6) as H6'.
  assert (reconciling w w6) as He by (by etransitivity).
  rewrite filter_true in H6, H.
  pose proof (append_missing_done _ _ _ _ _ _ H6) as Hdone.
  apply append_missing_settled in H6 as [_ Hset];
    [|by rewrite (record_ids_kept Hc)|by rewrite (ids_kept Hc)|intros y Hy%order_by_elem; by exists y].
  apply verify_flushed_inv in H as (EL & EO & EK & Hag & Hsome & Hhead); [|by rewrite (record_ids_kept He)].
  pose proof (record_ids_kept Hc) as Hids5.
  assert (forall o, o ∈ t_evidence_operations (w_db w6) ->
    exists old, old ∈ t_evidence_operations (w_db w5) /\ op_key o = op_key old) as Hold.
  { intros o Ho. destruct He as (_ & Hk6 & _), Hc as (_ & Hk5 & _).
    assert (op_key o ∈ map op_key (t_evidence_operations (w_db w5))) as Hin.
    { rewrite Hk5, <-Hk6. apply list_elem_of_fmap. by exists o. }
    apply list_elem_of_fmap in Hin as (old & Hx & Hin). by exists old. }
  assert (forall o, o ∈ t_evidence_operations (w_db w6) -> eo_state o = "complete"%string) as Hall.
  { intros o Ho. destruct (Hold o Ho) as (old & Hin & Hx). refine (Hdone _ _ _ old _ o Ho _).
    - by rewrite Hids5.
    - intros y Hy%order_by_elem. by exists y.
    - intros rid Hr. by apply H5, Hpresent.
    - by apply order_by_elem.
    - unfold op_key in Hx. congruence. }
  unfold agree, head_known. rewrite EL, EO, EK. split; [split|].
  - intros o Ho. pose proof (Hall o Ho) as Hst. destruct (Hold o Ho) as (old & Hin & Hx).
    assert (eo_id o = eo_id old /\ eo_record_id o = eo_record_id old) as [Ei Er] by by injection Hx as E1 _ E2 _ _ _ _.
    destruct (flushed_complete (t_evidence_operations (w_db w5)) o) eqn:Ef.
    + destruct (Hsome o Ho Ef) as [d Hdg]. exists d. split; [done|]. left. apply Hag. by exists o.
    + assert (settled w6 (eo_record_id old)) as Hso.
      { apply Hset; [by apply order_by_elem|].
        apply not_true_iff_false. intros (r & Hr & Er'%String.eqb_eq)%existsb_exists. rewrite <-list_elem_of_In in Hr.
        pose proof (done_kept H5 _ (Hpresent _ Hr) old Hin Er') as Hc'.
        apply not_true_iff_false in Ef. apply Ef, existsb_exists. exists old. rewrite <-list_elem_of_In.
        split; [done|]. by rewrite Ei, Z.eqb_refl, Hc'. }
      destruct (Hso o Ho Er) as (d & Hc' & Hf). exists d. rewrite Er. by split; [|right].
  - intros rid d Hr. apply Hag in Hr as (o & Ho & _ & Hr & Hdg). exists o. split; [done|]. split; [done|]. split; [by apply Hall|done].
  - done.
Qed.
End Reconcile.

(** ** Appending *)

Section Append.
Context (ssh_sign : string -> string -> string -> option string).
Context (ssh_verify : string -> string -> string -> string -> string -> bool).
Context (ssh_derive : string -> option string) (repr_container : json -> string).

(** A file of the ledger has that digest. *)
Definition has_digest (L : dir) (digest : string) : Prop :=
  exists path raw, dget path L = Some (Regular raw) /\ sha256 raw = digest.

Lemma append_file_completes s o w digest w' :
  _append_operation_file ssh_sign ssh_verify s o w = (Ok digest, w') ->
  has_digest (w_ledger w') digest /\
  forall x, x ∈ t_evidence_operations (w_db w) -> eo_id x = eo_id o ->
    exists y, y ∈ t_evidence_operations (w_db w') /\ op_key y = op_key x /\ complete_with (eo_record_id x) digest y.
Proof.
  intros (w1 & path & raw & Hfr & _ & _ & _ & Hp & Hs & HL & E)%append_file_split. split.
  - exists path, raw. by rewrite HL.
  - intros x Hx Hid. destruct (keys_elem Hfr x Hx) as (y & Hy & Hyk). exists (completed digest y).
    assert (eo_id y = eo_id x /\ eo_record_id y = eo_record_id x) as [Ei Er].
    { by injection Hyk as E1 _ E2 _ _ _ _. }
    split; [|split; [by destruct y|by split; [destruct y|]]]. rewrite E. apply list_elem_of_fmap. exists y.
    split; [|done]. by rewrite Ei, Hid, Z.eqb_refl.
Qed.

Lemma attempt_completes q s o w digest w' :
  attempt_append ssh_sign ssh_verify q s o w = (Ok digest, w') ->
  has_digest (w_ledger w') digest /\
  forall x, x ∈ t_evidence_operations (w_db w) -> eo_id x = eo_id o ->
    exists y, y ∈ t_evidence_operations (w_db w') /\ op_key y = op_key x /\ complete_with (eo_record_id x) digest y.
Proof.
  unfold attempt_append. intros H. apply try_except_inv in H as [H|(e & w1 & _ & _ & H)].
  - apply Mbind_Ok_inv in H as (tail & w1 & H1 & H).
    assert (reconciling w w1) as Hfr.
    { apply (keeps_run reconciling) in H1; [done|]. unfold management_audit_tail, file_at. by_keeps. }
    apply Mbind_Ok_inv in H as (u & w2 & H2 & H).
    apply append_file_completes in H as [Hd H]. split; [done|]. intros x Hx Hid.
    destruct (keys_elem Hfr x Hx) as (y & Hy & Hyk).
    assert (eo_id y = eo_id x) as Ei by by injection Hyk.
    set (f := fun o => _) in H2. injection H2 as _ <-. cbn in H.
    destruct (H (f y)) as (z & Hz & Hzk & Hc).
    { apply list_elem_of_fmap. exists y. split; [|done]. by rewrite Ei, Hid, Z.eqb_refl. }
    { change (eo_id y = eo_id o). by rewrite Ei. }
    exists z. split; [done|]. replace (eo_record_id x) with (eo_record_id (f y)).
    + split; [|done]. by rewrite Hzk, <-Hyk.
    + change (eo_record_id y = eo_record_id x). by injection Hyk.
  - apply Mbind_Ok_inv in H as (? & ? & _ & H). by inversion H.
Qed.
(** A search that only looks at the key finds the row at the same place. *)
Lemma find_key {R K} (key : R -> K) (p : R -> bool) l l' :
  (forall a b, key a = key b -> p a = p b) -> map key l' = map key l ->
  option_map key (List.find p l') = option_map key (List.find p l).
Proof.
  intros Hp. revert l'. induction l as [|x l IH]; intros [|y l'] E; try done. injection E as Ey E.
  cbn. rewrite (Hp y x Ey). destruct (p x); [cbn; by rewrite Ey | by apply IH].
Qed.
Lemma of_request_key q a b : op_key a = op_key b -> of_request q a = of_request q b.
Proof. intros [= _ _ _ Et Ew Eo _]. unfold of_request, of_workflow. by rewrite Et, Ew, Eo. Qed.

Lemma append_with_recorded init q w digest w' :
  append_with ssh_sign ssh_verify ssh_derive init q w = (Ok digest, w') -> recorded_as q digest w'.
Proof.
  unfold append_with. intros H. apply Mbind_Ok_inv in H as (? & ? & [_ ->]%mret_Ok_inv & H).
  apply Mbind_Ok_inv in H as (known & ? & [-> ->]%chain_state_find & H).
  apply Mbind_Ok_inv in H as (ledger & ? & [= <- <-] & H).
  apply Mbind_Ok_inv in H as (st & w1 & _ & H).
  apply Mbind_Ok_inv in H as (existing & ? & [= <- <-] & H).
  destruct (List.find (of_request q) _) as [o|] eqn:Ef.
  - apply Mbind_Ok_inv in H as (u & w2 & Hc & H). unfold check_replay in Hc.
    apply Mbind_Ok_inv in Hc as (? & ? & [Hp%negb_false_iff%String.eqb_eq ->]%throw_if_Ok_inv & [_ ->]%throw_if_Ok_inv).
    apply find_some_elem in Ef as [Ho Hq].
    assert (attempt_append ssh_sign ssh_verify q st o w1 = (Ok digest, w') -> recorded_as q digest w') as Hattempt.
    { intros [_ Ha]%attempt_completes. destruct (Ha o Ho eq_refl) as (y & Hy & Hk & _ & Hs & Hg). exists y.
      rewrite (of_request_key q y o Hk). split; [done|]. split; [done|]. split; [|done]. rewrite <-Hp. by injection Hk. }
    destruct (eo_record_sha256 o) as [d|] eqn:Ed; [|by apply Hattempt].
    destruct (String.eqb_spec (eo_state o) "complete") as [Hs|]; cbn [andb] in H; [|by apply Hattempt].
    destruct (truthy_str d); [|by apply Hattempt]. apply mret_Ok_inv in H as [-> ->]. by exists o.
  - apply Mbind_Ok_inv in H as (o & w2 & Hn & H). unfold new_operation in Hn.
    apply Mbind_Ok_inv in Hn as (oid & w3 & [= <- <-] & Hn). apply Mbind_Ok_inv in Hn as (rid & ? & [_ ->]%lift_Ok_inv & Hn).
    apply Mbind_Ok_inv in Hn as (now & w4 & [= <- <-] & [= <- <-]).
    apply attempt_completes in H as [_ H].
    set (o := _ : EvidenceOperation) in H. destruct (H o) as (y & Hy & Hk & _ & Hs & Hg); [|done|].
    { cbn. apply elem_of_app. right. by left. }
    exists y. rewrite (of_request_key q y o Hk). split; [done|]. split; [|split; [by injection Hk|done]].
    unfold of_request, of_workflow, o. cbn. by rewrite !String.eqb_refl.
Qed.
#[export] Instance evidence_service : EvidenceService := {|
  evidence_append := append_record ssh_sign ssh_verify ssh_derive repr_container;
  evidence_append_only := only_append ssh_sign ssh_verify ssh_derive repr_container;
  evidence_append_recorded q := append_with_recorded _ q |}.


(** C6: after a reconciliation the ledger and the database agree: the chain
    verifies and its head is the one the database records; every operation the
    database asked for is complete and its digest is that of the record with its
    id in the ledger; every record in the ledger belongs to such an operation, so nothing a
    rolled-back transaction signed is left in it; and reconciliation neither
    invents, drops nor rewrites a request. *)
Theorem reconciled_chain_matches_database w doc w'
  (Hd : NoDup (map eo_record_id (t_evidence_operations (w_db w))))
  (Hid : NoDup (map eo_id (t_evidence_operations (w_db w))))
  (H : reconcile_local_chain ssh_sign ssh_verify ssh_derive w = (Ok doc, w')) :
  agree w' /\ head_known ssh_verify w' /\
  map op_key (t_evidence_operations (w_db w')) = map op_key (t_evidence_operations (w_db w)) /\
  erase_chain (w_db w') = erase_chain (w_db w).
Proof. destruct (reconcile_inv _ _ _ _ _ _ H Hd Hid) as ((E & K & _) & A & B). done. Qed.
End Append.

(** ** A small instance *)

Module Small.
Definition entropy (n : nat) : string :=
  nth n ["aaaaaaaa-2222-4333-8444-555555555501"; "aaaaaaaa-2222-4333-8444-555555555502";
         "aaaaaaaa-2222-4333-8444-555555555503"; "aaaaaaaa-2222-4333-8444-555555555504";
         "aaaaaaaa-2222-4333-8444-555555555505"; "aaaaaaaa-2222-4333-8444-555555555506"]%string "x"%string.
Definition ssh_derive (key : string) : option string := Some "ssh-ed25519 AAAA"%string.
Definition repr (v : json) : string := EmptyString.
Definition empty : world :=
  (toy_world empty_database) <| w_files := [("/run/secrets/evidence_signing_key"%string, Regular "k1")] |>
    <| w_entropy := entropy |> <| w_clock := fun _ => Toy.now |>.
Definition deletion (id : string) : request :=
  Request "case" id "completed" "deletion.completed"
    [("status", JStr "complete"); ("case_id", JStr id)]%string true.
Definition first_id : string := "cbbbbbbb-2222-3333-4444-555555555555".
Definition second_id : string := "dbbbbbbb-2222-3333-4444-555555555555".
Abbreviation append := (append_record Toy.ssh_sign Toy.ssh_verify ssh_derive repr).
(** A world with an initialised chain and one more record. *)
Definition started : world := Eval vm_compute in (append (deletion first_id) empty).2.
Definition second_digest : outcome string := Eval vm_compute in (append (deletion second_id) started).1.
Definition reconciled : outcome (list (string * json)) := Eval vm_compute in
  (reconcile_local_chain Toy.ssh_sign Toy.ssh_verify ssh_derive started).1.
End Small.

Lemma run_fst {A} (m : outcome A * world) (r : outcome A) : fst m = r -> m = (r, snd m).
Proof. destruct m. by intros <-. Qed.

Lemma started_ids : NoDup (map eo_record_id (t_evidence_operations (w_db Small.started))).
Proof. apply (bool_decide_eq_true_1 _). vm_compute. reflexivity. Qed.

Lemma started_keys : NoDup (map eo_id (t_evidence_operations (w_db Small.started))).
Proof. apply (bool_decide_eq_true_1 _). vm_compute. reflexivity. Qed.


Lemma reconciled_chain_matches_database_witness :
  exists doc w', reconcile_local_chain Toy.ssh_sign Toy.ssh_verify Small.ssh_derive Small.started = (Ok doc, w') /\
    agree w'.
Proof.
  pose proof (run_fst (reconcile_local_chain Toy.ssh_sign Toy.ssh_verify Small.ssh_derive Small.started)
    Small.reconciled) as Hrun.
  specialize (Hrun ltac:(vm_compute; reflexivity)). unfold Small.reconciled in Hrun.
  eexists _, _. split; [exact Hrun|].
  exact (proj1 (reconciled_chain_matches_database Toy.ssh_sign Toy.ssh_verify Small.ssh_derive
    Small.started _ _ started_ids started_keys Hrun)).
Defined.

(** An operation that was committed before its record was written is appended by
    the next reconciliation; that reconciliation still fails, since its check
    reads the rows as they were before ([autoflush=False]), and the one after the
    rollback succeeds. *)
Module Interrupted.
Definition pending : world := Eval vm_compute in
  ((s ← chain_state; match s with
                    | Some s => _ ← new_operation (Small.deletion Small.second_id) s; commit
                    | None => mret tt
                    end) Small.started).2.
Abbreviation reconcile := (reconcile_local_chain Toy.ssh_sign Toy.ssh_verify Small.ssh_derive).
End Interrupted.

Lemma interrupted_append_recovers_at_second_run :
  let first := Interrupted.reconcile Interrupted.pending in
  let second := Interrupted.reconcile (rollback first.2).2 in
  first.1 = Raise (Exn EvidenceUnavailable "The evidence ledger and committed database operations do not match") /\
  length (record_paths (w_ledger first.2)) = 3%nat /\ (exists doc, second.1 = Ok doc).
Proof. vm_compute. split; [reflexivity|]. split; [reflexivity|]. eexists. reflexivity. Qed.
