(* ===== verification/DeletionWorkflow.v ===== *)
(** The server's side of an erasure, [backend/app/core/deletion_workflow.py]:
    accepting a case, purging live data, the peer's confirmation and the clean
    backup.  A case, a user, an event is named by its primary key; its attributes
    are those of the row.  Every step that the law asks a proof of is recorded
    through the [EvidenceService]. *)
From Stdlib Require Import ZArith Lia Ascii String.
From stdpp Require Import base list strings.
From S2P Require Import Prelude Text Json Sha256 PyTime PyBuiltins Models EvidenceManifest World Sessions Evidence EvidenceFrames Cascade.

Definition timestamp (value : datetime) : string := strftime_Z (drop_us (astimezone_utc (ensure_aware value))).
Definition _topology (c : config) : string :=
  if String.eqb (HA_MODE c) "ha" then "two_node_ha" else "single_node".
Definition or_else (a b : option string) : option string := if truthy_opt a then a else b.

Definition the_case : Z -> py DeletionCase := row t_deletion_cases dc_id.
Definition set_case : Z -> (DeletionCase -> DeletionCase) -> py unit := assign t_deletion_cases dc_id.
Definition the_user : Z -> py User := row t_users u_id.
Definition set_user : Z -> (User -> User) -> py unit := assign t_users u_id.
Definition the_event : Z -> py Event := row t_events ev_id.

(** ** The inventory of recovery packages *)

Definition supersede_others (package_id : string) : py unit :=
  _ ← q_update t_backup_inventory_records
        (fun b => String.eqb (bi_status b) "active" && negb (String.eqb (bi_package_id b) package_id))
        (fun b => b <| bi_status := "superseded_pending_deletion"%string |>
                    <| bi_replacement_package_id := Some package_id |>);
  mret tt.
Definition is_package (package_id : string) (b : BackupInventoryRecord) : bool :=
  String.eqb (bi_package_id b) package_id.

Definition record_clean_backup (package_id package_sha256 : string) (archive_sha256 recovery_key_id : option string)
  (confirmed_at : option datetime) : py unit :=
  now ← utc_now;
  existing ← q_first t_backup_inventory_records (is_package package_id);
  _ ← throw_if (match existing with Some b => negb (String.eqb (bi_package_sha256 b) package_sha256) | None => false end)
        ValueError "The recovery package UUID is already registered with another digest";
  _ ← supersede_others package_id;
  match existing with
  | None =>
      stamp ← utc_now;
      _ ← q_insert t_backup_inventory_records (fun i =>
            (new_BackupInventoryRecord stamp) <| bi_id := i |> <| bi_package_id := package_id |>
              <| bi_package_sha256 := package_sha256 |> <| bi_archive_sha256 := archive_sha256 |>
              <| bi_recovery_key_id := recovery_key_id |> <| bi_status := "active"%string |>
              <| bi_verified_at := Some now |>
              <| bi_confirmed_at := Some (default now confirmed_at) |>);
      mret tt
  | Some b =>
      assign t_backup_inventory_records bi_id (bi_id b) (fun b =>
        b <| bi_status := "active"%string |> <| bi_verified_at := Some now |>
          <| bi_confirmed_at := Some (default now confirmed_at) |>
          <| bi_archive_sha256 := or_else archive_sha256 (bi_archive_sha256 b) |>
          <| bi_recovery_key_id := or_else recovery_key_id (bi_recovery_key_id b) |>)
  end.

(** The text or the instant under a key of a receipt *)
Definition text_item (k : string) (v : json) : outcome string :=
  x ← subscript k v; match x with JStr s => Ok s | _ => raise TypeError "the column takes a text" end.
Definition opt_text_item (k : string) (v : json) : outcome (option string) := x ← subscript k v; text_column x.
Definition instant_item (k : string) (v : json) : outcome datetime :=
  x ← subscript k v;
  match x with JStr s => fromisoformat s | _ => raise TypeError "fromisoformat: argument must be str" end.

Definition record_superseded_package (replacement_package_id : string) (package : json) : py unit :=
  package_id ← lift (text_item "package_id" package);
  existing ← q_first t_backup_inventory_records (is_package package_id);
  match existing with
  | Some b =>
      digest ← lift (subscript "package_sha256" package);
      _ ← throw_if (negb (py_eq (JStr (bi_package_sha256 b)) digest)) ValueError
            "A superseded recovery package is registered with another digest";
      when (negb (String.eqb (bi_status b) "confirmed_deleted"))
        (assign t_backup_inventory_records bi_id (bi_id b) (fun b =>
           b <| bi_status := "superseded_pending_deletion"%string |>
             <| bi_replacement_package_id := Some replacement_package_id |>))
  | None =>
      digest ← lift (text_item "package_sha256" package);
      archive ← lift (opt_text_item "archive_sha256" package);
      key ← lift (opt_text_item "recovery_key_id" package);
      created ← lift (instant_item "snapshot_created_at" package);
      confirmed ← lift (instant_item "portable_confirmed_at" package);
      _ ← q_insert t_backup_inventory_records (fun i =>
            (new_BackupInventoryRecord created) <| bi_id := i |> <| bi_package_id := package_id |>
              <| bi_package_sha256 := digest |> <| bi_archive_sha256 := archive |>
              <| bi_recovery_key_id := key |> <| bi_status := "superseded_pending_deletion"%string |>
              <| bi_confirmed_at := Some confirmed |>
              <| bi_replacement_package_id := Some replacement_package_id |>);
      mret tt
  end.
Definition record_superseded_portable_backups (packages : list json) (replacement_package_id : string) : py unit :=
  mfor (record_superseded_package replacement_package_id) packages.

(** ** Redaction of one person in stored JSON *)

(** [str(person_id) == str(external_person_id)]: the text of a list or an object
    starts with a bracket, so it is never that of an integer. *)
Definition same_person (external_person_id : Z) (v : json) : bool :=
  match v with
  | JList _ | JObj _ => false
  | _ => String.eqb (py_str (fun _ => EmptyString) v) (string_of_Z external_person_id)
  end.
Definition PERSON_KEYS : list string := ["first_name"; "last_name"; "email"]%string.
Definition NAME_KEYS : list string := ["name"; "first_name"; "last_name"; "email"; "display_name"]%string.
Definition person_of (result : list (string * json)) : json :=
  let person_id := dget_or_null "person_id" result in
  if is_null person_id && existsb (fun k => has_key k result) PERSON_KEYS then dget_or_null "id" result else person_id.
Definition redacted_name (k : string) : json :=
  if str_in k ["name"; "display_name"]%string then JStr "Deleted participant" else JNull.
Definition hide_person (result : list (string * json)) : list (string * json) :=
  fold_left (fun r k => if has_key k r then dset k (redacted_name k) r else r) NAME_KEYS result.
Fixpoint redact (external_person_id : Z) (item : json) : json :=
  match item with
  | JList l => JList (map (redact external_person_id) l)
  | JObj l =>
      let result := map (fun kv => (kv.1, redact external_person_id kv.2)) l in
      JObj (if same_person external_person_id (person_of result) then hide_person result else result)
  | v => v
  end.
Definition _redact_person_from_json (raw : option string) (external_person_id : Z) : outcome (option string) :=
  match raw with
  | Some s =>
      if truthy_str s then
        match loads s with
        | Ok value => Ok (Some (dumps_compact (redact external_person_id value)))
        | Raise e => if exn_in e [TypeError; ValueError] then Ok raw else Raise e
        end
      else Ok raw
  | None => Ok None
  end.

(** ** Accepting a case *)

Section Workflow.
Context `{Evidence : !EvidenceService}.

Definition case_request (job : DeletionCase) (operation_type record_type : string)
  (payload : list (string * json)) : request :=
  Request "deletion_case" (dc_request_id job) operation_type record_type payload false.

Definition has_privacy_action (id : option string) (r : PrivacyActionReceipt) : bool :=
  eq_opt_str (Some (pr_privacy_action_id r)) id.
Definition last_privacy_sequence : py Z := gets (fun w =>
  match map pr_sequence (t_privacy_action_receipts (w_db w)) with [] => 0 | n :: l => fold_left Z.max l n end).
Definition set_receipt : Z -> (PrivacyActionReceipt -> PrivacyActionReceipt) -> py unit :=
  assign t_privacy_action_receipts pr_id.

Definition new_privacy_action (job : DeletionCase) : py PrivacyActionReceipt :=
  last ← last_privacy_sequence;
  id ← fresh;
  now ← utc_now;
  days ← setting EVIDENCE_TOMBSTONE_RETENTION_DAYS;
  stamp ← utc_now;
  q_insert t_privacy_action_receipts (fun i =>
    (new_PrivacyActionReceipt stamp) <| pr_id := i |> <| pr_privacy_action_id := id |>
      <| pr_sequence := last + 1 |> <| pr_instance_id := dc_instance_id job |>
      <| pr_event_ref := dc_event_evidence_id job |>
      <| pr_subject_ref := if String.eqb (dc_case_type job) "event_erasure" then None
                           else Some (dc_subject_evidence_id job) |>
      <| pr_action_type := if String.eqb (dc_case_type job) "event_erasure" then "event_delete"%string
                           else "subject_delete"%string |>
      <| pr_retain_until := add_us now (days * us_day) |>).

Definition privacy_payload (job : DeletionCase) (receipt : PrivacyActionReceipt) : list (string * json) :=
  [("request_id", JStr (dc_request_id job)); ("event_ref", JStr (dc_event_evidence_id job));
   ("privacy_action_id", JStr (pr_privacy_action_id receipt));
   ("privacy_action_sequence", JInt (pr_sequence receipt)); ("action_type", JStr (pr_action_type receipt));
   ("retain_until", JStr (timestamp (pr_retain_until receipt))); ("status", JStr "created")]%string ++
  match pr_subject_ref receipt with Some s => [("subject_ref"%string, JStr s)] | None => [] end.

Definition _create_privacy_action (job : Z) : py PrivacyActionReceipt :=
  _ ← lock_evidence_transaction;
  c ← the_case job;
  if truthy_opt (dc_privacy_action_id c) then
    existing ← q_first t_privacy_action_receipts (has_privacy_action (dc_privacy_action_id c));
    match existing with
    | Some r => mret r
    | None => throw EvidenceUnavailable "The deletion privacy-action receipt is inconsistent"
    end
  else
    receipt ← new_privacy_action c;
    _ ← set_case job (fun c => c <| dc_privacy_action_id := Some (pr_privacy_action_id receipt) |>
                                 <| dc_privacy_action_sequence := Some (pr_sequence receipt) |>);
    _ ← evidence_append (case_request c "privacy_action_created" "privacy_action.created" (privacy_payload c receipt));
    mret receipt.

Definition EVENT_ACCEPTABLE : list string :=
  ["submitted"; "under_review"; "accepted"; "access_revoked"; "awaiting_desktop_report"]%string.
Definition of_event (event_id : Z) (u : User) : bool := is_id event_id (u_event_id u).
(** The state a case reaches when access is revoked. *)
Definition revoked_state (c : DeletionCase) : string :=
  if dc_desktop_deletion_required c then "awaiting_desktop_report" else "ready_for_live_purge".

Definition accept_event_request (job event : Z) : py unit :=
  c ← the_case job;
  ev ← the_event event;
  _ ← throw_if (negb (String.eqb (dc_case_type c) "event_erasure")
                || negb (String.eqb (ev_evidence_id ev) (dc_event_evidence_id c))) ValueError
        "The event erasure target does not match its case";
  _ ← throw_if (negb (str_in (dc_state c) EVENT_ACCEPTABLE)) ValueError
        "The event erasure cannot be accepted from its current state";
  if String.eqb (dc_state c) "awaiting_desktop_report" then mret tt
  else
    now ← utc_now;
    _ ← set_case job (fun c => c <| dc_verification_method := Some "root_passkey_reauthentication"%string |>
                                 <| dc_decision_code := Some "accepted_event_erasure"%string |>
                                 <| dc_decision_at := Some now |>);
    digest ← evidence_append (case_request c "accepted" "deletion.event_accepted"
      [("case_id", JStr (dc_request_id c)); ("event_ref", JStr (dc_event_evidence_id c));
       ("verification_method", JStr "root_passkey_reauthentication"); ("status", JStr "accepted")]%string);
    _ ← set_case job (fun c => c <| dc_acceptance_receipt_sha256 := Some digest |>);
    _ ← _create_privacy_action job;
    users ← q_all t_users (of_event event);
    _ ← q_update t_auth_sessions
          (fun s => among (map u_id users) (s_user_id s) && is_none (s_revoked_at s))
          (fun s => s <| s_revoked_at := Some now |>);
    _ ← set_case job (fun c => c <| dc_access_revoked_at := Some now |>);
    c ← the_case job;
    digest ← evidence_append (case_request c "access_revoked" "deletion.event_access_revoked"
      [("case_id", JStr (dc_request_id c)); ("event_ref", JStr (dc_event_evidence_id c));
       ("privacy_action_id", of_opt_str (dc_privacy_action_id c)); ("status", JStr "access_revoked")]%string);
    set_case job (fun c => c <| dc_access_revocation_receipt_sha256 := Some digest |>
                             <| dc_state := revoked_state c |>).

Definition SUBJECT_ACCEPTABLE : list string :=
  ["submitted"; "under_review"; "accepted"; "access_revoked"; "awaiting_desktop_report"; "ready_for_live_purge"]%string.
Definition SUBJECT_ACCEPTED : list string :=
  ["access_revoked"; "awaiting_desktop_report"; "ready_for_live_purge"]%string.

Definition revoke_account (user : Z) : py unit :=
  _ ← revoke_all_user_sessions user;
  _ ← delete_sessions (fun s => s_user_id s =? user);
  _ ← q_delete t_exchange_codes (fun c => xc_user_id c =? user);
  _ ← delete_links (fun l => al_user_id l =? user);
  set_user user (fun u => u <| u_is_active := false |> <| u_deletion_requested_at := None |>).

Definition accept_subject_request (job user : Z) : py unit :=
  c ← the_case job;
  _ ← throw_if (negb (str_in (dc_state c) SUBJECT_ACCEPTABLE)) ValueError
        "The deletion request cannot be accepted from its current state";
  if str_in (dc_state c) SUBJECT_ACCEPTED then mret tt
  else
    now ← utc_now;
    let method := or_else (dc_verification_method c) (Some "recent_passkey_reauthentication"%string) in
    _ ← set_case job (fun c => c <| dc_verification_method := method |>
                                 <| dc_decision_code := Some "accepted_erasure_request"%string |>
                                 <| dc_decision_at := Some now |>);
    digest ← evidence_append (case_request c "accepted" "data_subject.deletion.accepted"
      [("request_id", JStr (dc_request_id c)); ("event_ref", JStr (dc_event_evidence_id c));
       ("subject_ref", JStr (dc_subject_evidence_id c)); ("verification_method", of_opt_str method);
       ("decision_code", JStr "accepted_erasure_request"); ("status", JStr "accepted")]%string);
    _ ← set_case job (fun c => c <| dc_acceptance_receipt_sha256 := Some digest |>
                                 <| dc_state := "accepted"%string |>);
    _ ← _create_privacy_action job;
    _ ← revoke_account user;
    _ ← set_case job (fun c => c <| dc_access_revoked_at := Some now |>);
    c ← the_case job;
    digest ← evidence_append (case_request c "access_revoked" "data_subject.access_revoked"
      [("request_id", JStr (dc_request_id c)); ("event_ref", JStr (dc_event_evidence_id c));
       ("subject_ref", JStr (dc_subject_evidence_id c)); ("privacy_action_id", of_opt_str (dc_privacy_action_id c));
       ("privacy_action_sequence", of_opt_int (dc_privacy_action_sequence c)); ("status", JStr "access_revoked")]%string);
    set_case job (fun c => c <| dc_access_revocation_receipt_sha256 := Some digest |>
                             <| dc_state := revoked_state c |>).

(** ** Purging one subject *)

Definition PURGEABLE : list string := ["ready_for_live_purge"; "live_purge_in_progress"]%string.
Definition desktop_proof_missing (c : DeletionCase) : bool :=
  dc_desktop_deletion_required c &&
  negb (truthy_opt (dc_desktop_report_sha256 c) || truthy_opt (dc_desktop_absence_receipt_sha256 c)).
Definition after_purge (c : config) : string :=
  if String.eqb (HA_MODE c) "ha" then "peer_replication_pending" else "awaiting_clean_backup".

(** The account's own rows, and its traces on those of others *)
Definition purge_account_rows (user : Z) : py unit :=
  _ ← revoke_all_user_sessions user;
  _ ← delete_sessions (fun s => s_user_id s =? user);
  _ ← q_delete t_webauthn_credentials (fun c => wc_user_id c =? user);
  _ ← q_delete t_passkey_challenges (fun c => is_id user (ph_user_id c));
  _ ← q_delete t_passkey_ceremonies (fun c => is_id user (pc_user_id c));
  _ ← q_delete t_exchange_codes (fun c => xc_user_id c =? user);
  _ ← delete_deliveries (fun d => ad_user_id d =? user);
  _ ← q_update t_activation_links (fun l => is_id user (al_created_by_id l)) (fun l => l <| al_created_by_id := None |>);
  _ ← q_update t_activation_email_deliveries (fun d => is_id user (ad_requested_by_id d))
        (fun d => d <| ad_requested_by_id := None |>);
  _ ← delete_links (fun l => al_user_id l =? user);
  _ ← q_delete t_push_subscriptions (fun p => ps_user_id p =? user);
  _ ← q_update t_task_edits (fun e => is_id user (te_edited_by_user_id e)) (fun e => e <| te_edited_by_user_id := None |>);
  mret tt.

(** [sorted(set(...))] of pairs *)
Definition pair_lt (a b : Z * Z) : bool := (a.1 <? b.1) || ((a.1 =? b.1) && (a.2 <? b.2)).
Fixpoint insert_pair (x : Z * Z) (l : list (Z * Z)) : list (Z * Z) :=
  match l with
  | [] => [x]
  | y :: l' => if pair_lt x y then x :: l else if pair_lt y x then y :: insert_pair x l' else l
  end.
Definition sorted_targets (l : list (Z * Z)) : list (Z * Z) := fold_right insert_pair [] l.

Definition published_targets (c : DeletionCase) (person_id event_id : option Z) : py (list (Z * Z)) :=
  persons ← q_all t_published_persons (fun p => String.eqb (pp_evidence_subject_id p) (dc_subject_evidence_id c));
  mret (sorted_targets (map (fun p => (pp_event_id p, pp_external_person_id p)) persons ++
          match event_id, person_id with Some e, Some p => [(e, p)] | _, _ => [] end)).

Definition redact_task (person_id : Z) (t : PublishedTask) : outcome PublishedTask :=
  attendees ← _redact_person_from_json (pt_attendees_json t) person_id;
  assignments ← _redact_person_from_json (pt_field_assignments_json t) person_id;
  values ← _redact_person_from_json (pt_field_values_json t) person_id;
  definitions ← _redact_person_from_json (pt_field_definitions_json t) person_id;
  additional ← _redact_person_from_json (pt_additional_json t) person_id;
  attachments ← _redact_person_from_json (pt_attachments_json t) person_id;
  Ok (t <| pt_attendees_json := attendees |> <| pt_field_assignments_json := assignments |>
        <| pt_field_values_json := values |> <| pt_field_definitions_json := definitions |>
        <| pt_additional_json := additional |> <| pt_attachments_json := attachments |>).
Definition redact_edit (person_id : Z) (e : TaskEdit) : outcome TaskEdit :=
  attendees ← _redact_person_from_json (te_attendees_json e) person_id;
  assignments ← _redact_person_from_json (te_field_assignments_json e) person_id;
  values ← _redact_person_from_json (te_field_values_json e) person_id;
  attachments ← _redact_person_from_json (te_attachments_json e) person_id;
  Ok (e <| te_attendees_json := attendees |> <| te_field_assignments_json := assignments |>
        <| te_field_values_json := values |> <| te_attachments_json := attachments |>).
Definition redact_snapshot (person_id : Z) (s : PublishSnapshot) : outcome PublishSnapshot :=
  text ← _redact_person_from_json (Some (sn_snapshot_json s)) person_id;
  let text := match text with Some t => if truthy_str t then t else "{}"%string | None => "{}"%string end in
  raw ← encode_utf8 text;
  Ok (s <| sn_snapshot_json := text |> <| sn_content_hash := sha256 raw |>).

Definition purge_published_copy (target : Z * Z) : py unit :=
  let '(event_id, person_id) := target in
  _ ← q_update t_published_persons
        (fun p => (pp_event_id p =? event_id) && (pp_external_person_id p =? person_id))
        (fun p => p <| pp_first_name := "Deleted"%string |>
                    <| pp_last_name := "Participant " +:+ string_of_Z (pp_id p) |> <| pp_email := None |>);
  _ ← q_delete t_published_person_unavailability
        (fun u => (pu_event_id u =? event_id) && (pu_external_person_id u =? person_id));
  _ ← for_rows t_published_tasks pt_id (fun t => pt_event_id t =? event_id) (redact_task person_id);
  tasks ← q_all t_published_tasks (fun t => pt_event_id t =? event_id);
  _ ← for_rows t_task_edits te_id (fun e => among (map pt_id tasks) (te_task_id e)) (redact_edit person_id);
  for_rows t_publish_snapshots sn_id (fun s => sn_event_id s =? event_id) (redact_snapshot person_id).

Definition anonymise_audit (user : Z) : py unit :=
  _ ← q_update t_audit_log (fun a => is_id user (au_user_id a))
        (fun a => a <| au_user_id := None |> <| au_username := None |> <| au_actor_ref := None |>
                    <| au_detail := None |> <| au_ip_hash := None |>);
  _ ← q_update t_audit_log
        (fun a => eq_opt_str (au_resource_type a) (Some "user"%string) && is_id user (au_resource_id a))
        (fun a => a <| au_resource_id := None |> <| au_detail := None |>);
  mret tt.

(** The receipt of the case's privacy action, created if it is not there. *)
Definition applied_receipt (job : Z) (now : datetime) : py unit :=
  c ← the_case job;
  receipt ← q_first t_privacy_action_receipts (has_privacy_action (dc_privacy_action_id c));
  receipt ← match receipt with Some r => mret r | None => _create_privacy_action job end;
  set_receipt (pr_id receipt) (fun r => r <| pr_local_applied_at := Some now |>).

Definition anonymised (name : string) (u : User) : User :=
  u <| u_username := "deleted_" +:+ name |> <| u_display_name := "Deleted User"%string |> <| u_email := None |>
    <| u_tags := None |> <| u_event_id := None |> <| u_is_admin := false |> <| u_is_issuer := false |>
    <| u_is_active := false |> <| u_is_activated := false |> <| u_deletion_requested_at := None |>.

Definition purge_subject_live_data (job user : Z) : py unit :=
  c ← the_case job;
  if is_some (dc_live_data_purged_at c) then mret tt
  else
    _ ← throw_if (negb (str_in (dc_state c) PURGEABLE)) ValueError
          "The deletion request is not ready for live-data purge";
    _ ← throw_if (desktop_proof_missing c) ValueError
          "A verified desktop deletion report is required before live-data purge";
    _ ← set_case job (fun c => c <| dc_state := "live_purge_in_progress"%string |>);
    u ← the_user user;
    _ ← purge_account_rows user;
    targets ← published_targets c (u_linked_person_id u) (u_event_id u);
    _ ← mfor purge_published_copy targets;
    _ ← set_user user (fun u => u <| u_linked_person_id := None |>);
    _ ← anonymise_audit user;
    name ← fresh;
    _ ← set_user user (anonymised name);
    now ← utc_now;
    _ ← applied_receipt job now;
    _ ← set_case job (fun c => c <| dc_live_data_purged_at := Some now |>);
    conf ← gets w_config;
    c ← the_case job;
    digest ← evidence_append (case_request c "live_data_purged" "data_subject.live_data_purged"
      [("request_id", JStr (dc_request_id c)); ("event_ref", JStr (dc_event_evidence_id c));
       ("subject_ref", JStr (dc_subject_evidence_id c)); ("privacy_action_id", of_opt_str (dc_privacy_action_id c));
       ("privacy_action_sequence", of_opt_int (dc_privacy_action_sequence c)); ("topology", JStr (_topology conf));
       ("completed_at", JStr (timestamp now)); ("outcome", JStr "verified"); ("status", JStr "live_data_purged")]%string);
    _ ← set_case job (fun c => c <| dc_live_purge_receipt_sha256 := Some digest |> <| dc_user_id := None |>);
    _ ← delete_user user;
    set_case job (fun c => c <| dc_state := after_purge conf |>).

(** ** The peer and the clean backup *)

(** What the replication of the standby answered, [HAProtectionResult] of
    [ha_replication.py]. *)
Record HAProtectionResult : Type := mkHAProtectionResult {
  hp_protected : bool; hp_job_id : option string; hp_error_code : option string; hp_bundle_id : option string;
  hp_bundle_sha256 : option string; hp_generation : option Z; hp_accepted_at : option datetime
}.
Definition subject_field (c : DeletionCase) : list (string * json) :=
  if String.eqb (dc_case_type c) "event_erasure" then []
  else [("subject_ref"%string, JStr (dc_subject_evidence_id c))].

Definition peer_payload (c : DeletionCase) (p : HAProtectionResult) (now : datetime) : list (string * json) :=
  [("case_id", JStr (dc_request_id c)); ("event_ref", JStr (dc_event_evidence_id c));
   ("privacy_action_id", of_opt_str (dc_privacy_action_id c));
   ("privacy_action_sequence", of_opt_int (dc_privacy_action_sequence c));
   ("bundle_id", of_opt_str (hp_bundle_id p)); ("bundle_sha256", of_opt_str (hp_bundle_sha256 p));
   ("generation", of_opt_int (hp_generation p)); ("peer_confirmed_at", JStr (timestamp now));
   ("outcome", JStr "verified"); ("status", JStr "peer_replication_confirmed")]%string ++ subject_field c.

Definition confirm_case_peer (job : Z) (protection : HAProtectionResult) : py unit :=
  conf ← gets w_config;
  c ← the_case job;
  _ ← throw_if (negb (String.eqb (HA_MODE conf) "ha")) ValueError
        "Peer confirmation is not applicable to a single-node installation";
  _ ← throw_if (is_none (dc_live_data_purged_at c)) ValueError "Live data must be purged before peer confirmation";
  if is_some (dc_peer_confirmed_at c) then mret tt
  else
    let complete := hp_protected protection && truthy_opt (hp_job_id protection) &&
      truthy_opt (hp_bundle_id protection) && truthy_opt (hp_bundle_sha256 protection) &&
      match hp_generation protection with Some g => negb (g =? 0) | None => false end in
    match (if complete then hp_accepted_at protection else None) with
    | None => throw ValueError "The peer has not returned a complete accepted-bundle receipt"
    | Some now =>
        digest ← evidence_append (case_request c "peer_confirmed" "deletion.peer_confirmed" (peer_payload c protection now));
        _ ← set_case job (fun c => c <| dc_peer_confirmation_sha256 := Some digest |>
              <| dc_peer_confirmed_at := Some now |> <| dc_peer_replication_job_id := hp_job_id protection |>
              <| dc_peer_bundle_id := hp_bundle_id protection |> <| dc_peer_bundle_sha256 := hp_bundle_sha256 protection |>
              <| dc_peer_generation := hp_generation protection |> <| dc_peer_accepted_at := Some now |>);
        receipt ← q_first t_privacy_action_receipts (has_privacy_action (dc_privacy_action_id c));
        _ ← match receipt with
            | Some r => set_receipt (pr_id r) (fun r => r <| pr_peer_confirmed_at := Some now |>)
            | None => mret tt
            end;
        set_case job (fun c => c <| dc_state := "awaiting_clean_backup"%string |>)
    end.

(** The fields of the evidence that depend on which resolution the host made *)
Definition local_resolution (receipt : json) : outcome (list (string * json)) :=
  resolved ← get_attr "local_resolution_sha256" JNull receipt;
  if truthy resolved then
    id ← subscript "local_resolution_id" receipt;
    digest ← subscript "local_resolution_sha256" receipt;
    superseded ← subscript "superseded_local_snapshot_receipt_sha256s" receipt;
    Ok [("local_resolution_id", id); ("local_resolution_sha256", digest);
        ("superseded_local_snapshot_receipt_sha256s", superseded)]%string
  else
    count ← subscript "local_snapshot_count" receipt;
    Ok [("local_snapshot_count"%string, count)].
Definition peer_fields (peer : json) : outcome (list (string * json)) :=
  id ← subscript "resolution_id" peer;
  digest ← subscript "receipt_sha256" peer;
  resolution ← subscript "resolution_sha256" peer;
  node ← subscript "target_node_id" peer;
  retained ← subscript "retained_local_snapshot_count" peer;
  superseded ← subscript "superseded_local_snapshot_receipt_sha256s" peer;
  Ok [("peer_snapshot_resolution_id", id); ("peer_snapshot_resolution_sha256", digest);
      ("peer_resolution_digest", resolution); ("peer_node_id", node);
      ("peer_retained_local_snapshot_count", retained);
      ("peer_superseded_local_snapshot_receipt_sha256s", superseded)]%string.
Definition backup_payload (c : DeletionCase) (now : datetime) (package_id package_sha256 : string)
  (packages : list json) (receipt : json) (peer_receipt : option json) : outcome (list (string * json)) :=
  digest ← subscript "receipt_sha256" receipt;
  retained ← subscript "retained_local_snapshot_count" receipt;
  ids ← map_outcome (subscript "package_id") packages;
  local ← local_resolution receipt;
  peer ← match peer_receipt with Some p => peer_fields p | None => Ok [] end;
  Ok ([("case_id", JStr (dc_request_id c)); ("event_ref", JStr (dc_event_evidence_id c));
       ("replacement_package_id", JStr package_id); ("replacement_package_sha256", JStr package_sha256);
       ("receipt_sha256", digest); ("retained_local_snapshot_count", retained);
       ("superseded_portable_package_ids", JList ids); ("verified_at", JStr (timestamp now));
       ("outcome", JStr "verified"); ("status", JStr "clean_backup_verified")]%string ++ local ++ peer ++ subject_field c).

(** The peer's snapshots, in the columns of the case *)
Definition resolve_peer_snapshots (job : Z) (peer_receipt : json) : py unit :=
  id ← lift (opt_text_item "resolution_id" peer_receipt);
  _ ← set_case job (fun c => c <| dc_peer_backup_resolution_id := id |>);
  digest ← lift (opt_text_item "receipt_sha256" peer_receipt);
  _ ← set_case job (fun c => c <| dc_peer_backup_resolution_sha256 := digest |>);
  resolved ← lift (instant_item "resolved_at" peer_receipt);
  set_case job (fun c => c <| dc_peer_backup_resolved_at := Some resolved |>).

Definition confirm_case_clean_backup (job : Z) (receipt : json) (peer_receipt : option json) : py unit :=
  conf ← gets w_config;
  c ← the_case job;
  let ha := String.eqb (HA_MODE conf) "ha" in
  _ ← throw_if (is_none (dc_live_data_purged_at c)) ValueError
        "Live data must be purged before creating a clean replacement backup";
  _ ← throw_if (ha && is_none (dc_peer_confirmed_at c)) ValueError
        "The peer must confirm the privacy action before the clean backup";
  _ ← throw_if (ha && is_none peer_receipt) ValueError "The standby snapshot resolution receipt is required";
  package_id ← lift (text_item "package_id" receipt);
  package_sha256 ← lift (text_item "package_sha256" receipt);
  packages ← lift (v ← subscript "superseded_portable_packages" receipt; iter v);
  _ ← record_superseded_portable_backups packages package_id;
  archive ← lift (opt_text_item "archive_sha256" receipt);
  key ← lift (opt_text_item "recovery_key_id" receipt);
  confirmed ← lift (instant_item "portable_confirmed_at" receipt);
  _ ← record_clean_backup package_id package_sha256 archive key (Some confirmed);
  _ ← set_case job (fun c => c <| dc_replacement_package_id := Some package_id |>
                               <| dc_replacement_package_sha256 := Some package_sha256 |>);
  receipt_id ← lift (opt_text_item "receipt_id" receipt);
  _ ← set_case job (fun c => c <| dc_clean_backup_receipt_id := receipt_id |>);
  _ ← match peer_receipt with Some p => when ha (resolve_peer_snapshots job p) | None => mret tt end;
  now ← utc_now;
  payload ← lift (backup_payload c now package_id package_sha256 packages receipt peer_receipt);
  _ ← evidence_append (case_request c "clean_backup_verified" "deletion.clean_backup_verified" payload);
  set_case job (fun c => c <| dc_state := "awaiting_backup_resolution"%string |>).

Definition reconcile_completed_case_peer_snapshot (job : Z) (peer_receipt : json) : py (option string) :=
  conf ← gets w_config;
  c ← the_case job;
  _ ← throw_if (negb (String.eqb (HA_MODE conf) "ha")) ValueError "Peer snapshot reconciliation is not applicable";
  _ ← throw_if (negb (String.eqb (dc_state c) "complete") || negb (truthy_opt (dc_final_receipt_sha256 c))) ValueError
        "Only a completed HA deletion case can be reconciled";
  _ ← throw_if (negb (truthy_opt (dc_replacement_package_sha256 c))
                || negb (truthy_opt (dc_clean_backup_receipt_id c))) ValueError
        "The completed case has no verified clean replacement snapshot";
  if truthy_opt (dc_peer_backup_resolution_sha256 c) then mret (dc_peer_backup_resolution_sha256 c)
  else
    _ ← resolve_peer_snapshots job peer_receipt;
    now ← utc_now;
    peer ← lift (peer_fields peer_receipt);
    _ ← evidence_append (case_request c "peer_snapshot_resolution_remediated"
          "deletion.peer_snapshot_resolution_remediated"
          ([("case_id", JStr (dc_request_id c)); ("event_ref", JStr (dc_event_evidence_id c));
            ("original_final_receipt_sha256", of_opt_str (dc_final_receipt_sha256 c))]%string ++ peer ++
           [("reconciled_at", JStr (timestamp now)); ("outcome", JStr "verified");
            ("status", JStr "peer_snapshot_resolution_remediated")]%string));
    c ← the_case job;
    mret (dc_peer_backup_resolution_sha256 c).

(** ** Purging an event *)

Definition purge_event_users (event : Z) : py unit :=
  users ← q_all t_users (fun u => of_event event u && negb (u_is_root_admin u));
  let ids := map u_id users in
  when (negb (Nat.eqb (length users) 0))
    (_ ← q_update t_audit_log (fun a => opt_in ids (au_user_id a))
           (fun a => a <| au_user_id := None |> <| au_username := None |> <| au_actor_ref := None |>
                       <| au_detail := None |> <| au_ip_hash := None |>);
     _ ← q_update t_activation_email_deliveries (fun d => opt_in ids (ad_requested_by_id d))
           (fun d => d <| ad_requested_by_id := None |>);
     _ ← q_update t_activation_links (fun l => opt_in ids (al_created_by_id l))
           (fun l => l <| al_created_by_id := None |>);
     mfor delete_user ids).

Definition close_event_scopes (job : Z) (now : datetime) : py unit :=
  _ ← q_update t_deletion_subject_scopes (fun s => ds_case_id s =? job)
        (fun s => s <| ds_event_id := None |> <| ds_state := "server_deleted"%string |> <| ds_completed_at := Some now |>);
  _ ← q_update t_desktop_deletion_work_orders (fun o => wo_case_id o =? job) (fun o => o <| wo_event_id := None |>);
  mret tt.

Definition purge_event_live_data (job event : Z) : py unit :=
  c ← the_case job;
  if is_some (dc_live_data_purged_at c) then mret tt
  else
    ev ← the_event event;
    _ ← throw_if (negb (String.eqb (dc_case_type c) "event_erasure")
                  || negb (String.eqb (ev_evidence_id ev) (dc_event_evidence_id c))) ValueError
          "The event erasure target no longer matches";
    _ ← throw_if (negb (str_in (dc_state c) PURGEABLE)) ValueError
          "The event erasure is not ready for live-data deletion";
    _ ← throw_if (desktop_proof_missing c) ValueError
          "A verified desktop deletion report is required before live-data purge";
    _ ← set_case job (fun c => c <| dc_state := "live_purge_in_progress"%string |>);
    _ ← purge_event_users event;
    _ ← q_update t_audit_log
          (fun a => eq_opt_str (au_resource_type a) (Some "event"%string) && is_id event (au_resource_id a))
          (fun a => a <| au_resource_id := None |> <| au_detail := None |>);
    now ← utc_now;
    _ ← applied_receipt job now;
    _ ← close_event_scopes job now;
    _ ← delete_event event;
    _ ← set_case job (fun c => c <| dc_live_data_purged_at := Some now |>);
    conf ← gets w_config;
    c ← the_case job;
    digest ← evidence_append (case_request c "live_data_purged" "deletion.event_live_data_purged"
      [("case_id", JStr (dc_request_id c)); ("event_ref", JStr (dc_event_evidence_id c));
       ("privacy_action_id", of_opt_str (dc_privacy_action_id c)); ("topology", JStr (_topology conf));
       ("completed_at", JStr (timestamp now)); ("outcome", JStr "verified"); ("status", JStr "live_data_purged")]%string);
    set_case job (fun c => c <| dc_live_purge_receipt_sha256 := Some digest |> <| dc_state := after_purge conf |>).
End Workflow.
