(* ===== verification/DeletionCases.v ===== *)
(** The record of an erasure, [backend/app/core/deletion_cases.py]: cases and
    their status capability, the work orders paired desktops claim and report on,
    the checklist of everything that must be proved, its approval, and the
    completion of the case. *)
From Stdlib Require Import ZArith Lia Ascii String.
From stdpp Require Import base list strings.
From S2P Require Import Prelude Text Json Sha256 PyTime PyBuiltins Models EvidenceManifest World Permissions Evidence EvidenceFrames Cascade DeletionWorkflow.

Definition CHECKLIST_VERSION : Z := 3.
Definition CLAIM_TTL_MINUTES : Z := 30.
Definition STATUS_CAPABILITY_TTL_DAYS : Z := 90.
Definition _REPORT_COUNTERS : list string :=
  ["persons"; "assignments"; "capability_links"; "group_memberships"; "unavailability_intervals"; "task_references";
   "optimisation_records"; "publish_records"; "cached_records"; "tracked_exports"; "integration_references"]%string.

(** [json.dumps(..., ensure_ascii=True, allow_nan=False, sort_keys=True)] *)
Definition canonical_json (value : json) : outcome string :=
  if all_finite value then Ok (dumps_ascii_compact_sorted value)
  else raise ValueError "Out of range float values are not JSON compliant".
Definition sha256_text (value : string) : outcome string := raw ← encode_utf8 value; Ok (sha256 raw).
Definition hash_capability (raw : string) : outcome string := sha256_text raw.

Definition the_order : Z -> py DesktopDeletionWorkOrder := row t_desktop_deletion_work_orders wo_id.
Definition set_order : Z -> (DesktopDeletionWorkOrder -> DesktopDeletionWorkOrder) -> py unit :=
  assign t_desktop_deletion_work_orders wo_id.

(** ** The status capability *)

Definition issue_status_capability (job : Z) : py string :=
  c ← the_case job;
  _ ← throw_if (truthy_opt (dc_status_capability_sha256 c)) ValueError "A status capability has already been issued";
  raw ← fresh;
  digest ← lift (hash_capability raw);
  _ ← set_case job (fun c => c <| dc_status_capability_sha256 := Some digest |>);
  now ← utc_now;
  _ ← set_case job (fun c => c <| dc_status_capability_expires_at := Some (add_us now (STATUS_CAPABILITY_TTL_DAYS * us_day)) |>);
  mret raw.

Definition verify_status_capability (job : Z) (raw : string) : py bool :=
  c ← the_case job;
  match dc_status_capability_sha256 c, dc_status_capability_expires_at c with
  | Some stored, Some expires =>
      if negb (truthy_str raw) || negb (truthy_str stored) then mret false
      else
        now ← utc_now;
        if instant now <=? instant (ensure_aware expires)
        then lift (digest ← hash_capability raw; compare_digest stored digest)
        else mret false
  | _, _ => mret false
  end.

(** ** Claims of work orders *)

Definition live_claim (now : datetime) (expires : option datetime) : bool :=
  match expires with Some e => instant now <? instant (ensure_aware e) | None => false end.

Definition claim_work_order (work_order : Z) : py string :=
  o ← the_order work_order;
  _ ← throw_if (String.eqb (wo_state o) "report_received") ValueError "The work order is already complete";
  now ← utc_now;
  _ ← throw_if (String.eqb (wo_state o) "claimed" && live_claim now (wo_claim_expires_at o)) ValueError
        "The work order already has an active claim";
  raw ← fresh;
  digest ← lift (hash_capability raw);
  _ ← set_order work_order (fun o =>
        o <| wo_claim_capability_sha256 := Some digest |> <| wo_claimed_at := Some now |>
          <| wo_claim_expires_at := Some (add_us now (CLAIM_TTL_MINUTES * us_minute)) |>
          <| wo_state := "claimed"%string |>);
  mret raw.

(** ** The desktop's report *)

Definition REPORT_FIELDS : list string :=
  ["format"; "instance_id"; "entity_id"; "key_id"; "role"; "algorithm"; "public_key_sha256"; "work_order_id";
   "event_ref"; "subject_ref"; "operation"; "outcome"; "deleted_counts"; "outstanding_actions"; "completed_at"]%string.
Definition OUTSTANDING_ACTIONS : list string := ["untracked_external_export"; "external_integration_copy"]%string.
Definition is_count (v : json) : bool := match v with JInt n => 0 <=? n | _ => false end.
(** [item not in {...}]: an unhashable item raises. *)
Definition known_action (v : json) : outcome bool :=
  if hashable v then Ok (existsb (fun a => py_eq v (JStr a)) OUTSTANDING_ACTIONS)
  else raise TypeError "unhashable type".
Fixpoint all_known (l : list json) : outcome bool :=
  match l with
  | [] => Ok true
  | v :: l => k ← known_action v; match k with true => all_known l | false => Ok false end
  end.
Definition expected_fields (o : DesktopDeletionWorkOrder) : list (string * json) :=
  [("work_order_id", JStr (wo_work_order_id o)); ("event_ref", JStr (wo_event_ref o));
   ("subject_ref", of_opt_str (wo_subject_ref o)); ("operation", JStr (wo_operation o))]%string.

Definition validate_report_payload (o : DesktopDeletionWorkOrder) (report : list (string * json)) : outcome unit :=
  _ ← raise_if (negb (keys_are report REPORT_FIELDS)) ValueError
        "The desktop report contains missing or unknown fields";
  _ ← raise_if (negb (py_eq (dget_or_null "format" report) (JStr "mp-opt-desktop-deletion-receipt-v2"))) ValueError
        "Unsupported Desktop deletion receipt version";
  _ ← for_each (fun kv : string * json => raise_if (negb (py_eq (dget_or_null kv.1 report) kv.2)) ValueError
                            ("The desktop report " +:+ kv.1 +:+ " does not match its work order")) (expected_fields o);
  _ ← raise_if (negb (py_eq (dget_or_null "outcome" report) (JStr "deleted"))) ValueError
        "The desktop report does not confirm deletion";
  counts ← match dget_or_null "deleted_counts" report with
           | JObj counts => if keys_are counts _REPORT_COUNTERS then Ok counts
                            else raise ValueError "The desktop report counters do not match the current contract"
           | _ => raise ValueError "The desktop report counters do not match the current contract"
           end;
  _ ← raise_if (negb (forallb (fun kv => is_count kv.2) counts)) ValueError
        "Desktop deletion counters must be non-negative integers";
  known ← match dget_or_null "outstanding_actions" report with JList l => all_known l | _ => Ok false end;
  _ ← raise_if (negb known) ValueError "The desktop report contains an unsupported outstanding action";
  completed ← match dget_or_null "completed_at" report with
              | JStr s => match fromisoformat s with
                          | Ok d => Ok d
                          | Raise e => if exn_in e [TypeError; ValueError]
                                       then raise ValueError "The desktop report completion time is invalid" else Raise e
                          end
              | _ => raise ValueError "The desktop report completion time is invalid"
              end;
  raise_if (is_naive completed) ValueError "The desktop report completion time must include a UTC offset".

(** ** Cases, scopes and work orders *)

(** [order_by] of a text column; rows of equal key keep their order. *)
Fixpoint insert_text {R} (key : R -> string) (r : R) (l : list R) : list R :=
  match l with
  | [] => [r]
  | x :: l' => if key_le (key r) (key x) then r :: l else x :: insert_text key r l'
  end.
Definition order_by_text {R} (key : R -> string) (l : list R) : list R := fold_right (insert_text key) [] l.
(** [json.dumps] of a text that may be NULL, read again *)
Definition loads_list (o : option string) : outcome json :=
  loads (if truthy_opt o then match o with Some s => s | None => EmptyString end else "[]").
Fixpoint dedup (l : list json) : list json :=
  match l with
  | [] => []
  | v :: l => if existsb (py_eq v) l then dedup l else v :: dedup l
  end.
(** [sorted(set(...))] *)
Definition sorted_set (l : list json) : outcome (list json) := py_sorted json_lt (dedup l).

Section Cases.
Context `{Evidence : !EvidenceService}.

Definition create_event_erasure_case (event : Z) (initiation_reason : string) (now : option datetime) : py Z :=
  ev ← the_event event;
  existing ← q_first t_deletion_cases (fun c => eq_opt_str (dc_event_purge_key c) (Some (ev_evidence_id ev)));
  match existing with
  | Some c => mret (dc_id c)
  | None =>
      now ← match now with Some n => mret n | None => utc_now end;
      instance ← stable_instance_id;
      request_id ← fresh;
      stamp ← utc_now;
      let due := add_us now (30 * us_day) in
      c ← q_insert t_deletion_cases (fun i =>
            (new_DeletionCase stamp) <| dc_id := i |> <| dc_request_id := request_id |>
              <| dc_case_type := "event_erasure"%string |> <| dc_initiation_reason := initiation_reason |>
              <| dc_event_purge_key := Some (ev_evidence_id ev) |> <| dc_instance_id := instance |>
              <| dc_event_evidence_id := ev_evidence_id ev |> <| dc_event_display_name := Some (ev_name ev) |>
              <| dc_subject_evidence_id := ev_evidence_id ev |> <| dc_state := "submitted"%string |>
              <| dc_normal_response_due_at := due |>);
      digest ← evidence_append (case_request c "requested" "deletion.event_requested"
        [("case_id", JStr request_id); ("event_ref", JStr (ev_evidence_id ev)); ("case_type", JStr "event_erasure");
         ("initiation_reason", JStr initiation_reason); ("normal_response_due_at", JStr (strftime_Z due));
         ("status", JStr "submitted")]%string);
      _ ← set_case (dc_id c) (fun c => c <| dc_request_manifest_sha256 := Some digest |>);
      mret (dc_id c)
  end.

Definition scope_of (job : Z) (event_ref : string) (subject_ref : option string) (s : DeletionSubjectScope) : bool :=
  (ds_case_id s =? job) && String.eqb (ds_event_ref s) event_ref && eq_opt_str (ds_subject_ref s) subject_ref.
Definition ensure_case_scope (job event : Z) (subject_ref : option string) : py DeletionSubjectScope :=
  ev ← the_event event;
  existing ← q_first t_deletion_subject_scopes (scope_of job (ev_evidence_id ev) subject_ref);
  match existing with
  | Some s => mret s
  | None =>
      id ← fresh;
      stamp ← utc_now;
      q_insert t_deletion_subject_scopes (fun i =>
        (new_DeletionSubjectScope stamp) <| ds_id := i |> <| ds_scope_id := id |> <| ds_case_id := job |>
          <| ds_event_id := Some event |> <| ds_event_ref := ev_evidence_id ev |> <| ds_subject_ref := subject_ref |>)
  end.

Definition active_processor_key (i : ProcessorIdentity) (k : EvidenceKey) : bool :=
  eq_opt_str (Some (ek_key_id k)) (pi_active_key_id i) && eq_opt_str (ek_entity_id k) (Some (pi_entity_id i)) &&
  String.eqb (ek_role k) "processor" && is_some (ek_activated_at k) && is_none (ek_revoked_at k).
Definition required_of (job : Z) (event_ref entity : string) (r : DeletionRequiredProcessor) : bool :=
  (rp_case_id r =? job) && String.eqb (rp_event_ref r) event_ref && String.eqb (rp_processor_entity_id r) entity.
Definition order_of (job : Z) (event_ref : string) (subject_ref : option string) (entity : string)
  (o : DesktopDeletionWorkOrder) : bool :=
  (wo_case_id o =? job) && String.eqb (wo_event_ref o) event_ref && eq_opt_str (wo_subject_ref o) subject_ref &&
  String.eqb (wo_processor_entity_id o) entity.

Definition require_processor (job : Z) (ev : Event) (i : ProcessorIdentity) (key_id : string) (key : EvidenceKey) : py unit :=
  requirement ← q_first t_deletion_required_processors (required_of job (ev_evidence_id ev) (pi_entity_id i));
  match requirement with
  | Some _ => mret tt
  | None =>
      id ← fresh;
      stamp ← utc_now;
      _ ← q_insert t_deletion_required_processors (fun n =>
            (new_DeletionRequiredProcessor stamp) <| rp_id := n |> <| rp_requirement_id := id |>
              <| rp_case_id := job |> <| rp_event_ref := ev_evidence_id ev |>
              <| rp_processor_entity_id := pi_entity_id i |> <| rp_snapshotted_key_id := key_id |>
              <| rp_snapshotted_public_key_sha256 := ek_public_key_sha256 key |>);
      mret tt
  end.

Definition order_subject (o : DesktopDeletionWorkOrder) : list (string * json) :=
  match wo_subject_ref o with Some s => [("subject_ref"%string, JStr s)] | None => [] end.
Definition open_work_order (job : Z) (ev : Event) (subject_ref : option string) (i : ProcessorIdentity) (key_id : string)
  : py DesktopDeletionWorkOrder :=
  existing ← q_first t_desktop_deletion_work_orders (order_of job (ev_evidence_id ev) subject_ref (pi_entity_id i));
  match existing with
  | Some o => mret o
  | None =>
      c ← the_case job;
      id ← fresh;
      stamp ← utc_now;
      o ← q_insert t_desktop_deletion_work_orders (fun n =>
            (new_DesktopDeletionWorkOrder stamp) <| wo_id := n |> <| wo_work_order_id := id |> <| wo_case_id := job |>
              <| wo_event_id := Some (ev_id ev) |> <| wo_event_ref := ev_evidence_id ev |>
              <| wo_subject_ref := subject_ref |> <| wo_processor_entity_id := pi_entity_id i |>
              <| wo_processor_key_id := key_id |>
              <| wo_operation := if String.eqb (dc_case_type c) "event_erasure" then "delete_event"%string
                                 else "delete_subject"%string |>);
      _ ← evidence_append (case_request c ("desktop_work_order_created_" +:+ id) "deletion.desktop_work_order_created"
        ([("case_id", JStr (dc_request_id c)); ("work_order_id", JStr id); ("event_ref", JStr (wo_event_ref o));
          ("processor_entity_id", JStr (pi_entity_id i)); ("processor_key_id", JStr key_id);
          ("operation", JStr (wo_operation o)); ("status", JStr "open")]%string ++ order_subject o));
      mret o
  end.

Definition order_for_identity (job : Z) (ev : Event) (subject_ref : option string) (i : ProcessorIdentity)
  : py DesktopDeletionWorkOrder :=
  key ← q_first t_evidence_keys (active_processor_key i);
  match key, pi_active_key_id i with
  | Some key, Some key_id =>
      _ ← require_processor job ev i key_id key;
      open_work_order job ev subject_ref i key_id
  | _, _ => throw ValueError "An active processor assignment has no verifiable public key"
  end.

Definition ensure_desktop_work_order (job event : Z) (subject_ref : option string) : py (list DesktopDeletionWorkOrder) :=
  _ ← ensure_case_scope job event subject_ref;
  ev ← the_event event;
  known ← q_all t_processor_identities (fun i => String.eqb (pi_event_evidence_id i) (ev_evidence_id ev));
  let known := order_by_text pi_entity_id known in
  let identities := List.filter (fun i => String.eqb (pi_status i) "active" && is_some (pi_active_key_id i)) known in
  if Nat.eqb (length known) 0 then
    _ ← set_case job (fun c => c <| dc_desktop_deletion_required := false |>); mret []
  else
    _ ← set_case job (fun c => c <| dc_desktop_deletion_required := true |>);
    _ ← throw_if (Nat.eqb (length identities) 0) ValueError
          "This event was linked to Desktop, but no active processor key is available to complete its deletion receipt";
    mmap (order_for_identity job ev subject_ref) identities.
End Cases.

(** ** Recording a report *)

(** The signed package the report came in, already verified by the caller *)
Record signed_report : Type := SignedReport {
  sr_signature_sha256 : string; sr_package_json : string; sr_package_sha256 : string;
  sr_key_id : string; sr_public_key_sha256 : string
}.

Definition claim_valid (now : datetime) (o : DesktopDeletionWorkOrder) : bool :=
  match wo_claim_expires_at o with Some e => instant now <=? instant (ensure_aware e) | None => false end.
(** [secrets.compare_digest] of the two texts *)
Definition capability_matches (o : DesktopDeletionWorkOrder) (claim_capability : string) : outcome bool :=
  digest ← hash_capability claim_capability;
  compare_digest (default EmptyString (wo_claim_capability_sha256 o)) digest.

Section Reports.
Context `{Evidence : !EvidenceService}.

Definition check_claim (o : DesktopDeletionWorkOrder) (claim_capability : string) : py unit :=
  let invalid := throw ValueError "The work-order claim is missing, expired or invalid" in
  if negb (String.eqb (wo_state o) "claimed") || negb (truthy_opt (wo_claim_capability_sha256 o))
     || is_none (wo_claim_expires_at o) then invalid
  else
    now ← utc_now;
    if negb (claim_valid now o) then invalid
    else
      same ← lift (capability_matches o claim_capability);
      if (same : bool) then mret tt else invalid.

Definition pending_deletions (job : Z) : py Z :=
  rows ← q_all t_deletion_required_processors (fun r => (rp_case_id r =? job) && is_none (rp_deletion_receipt_sha256 r));
  mret (Z.of_nat (length rows)).
Definition set_requirement : Z -> (DeletionRequiredProcessor -> DeletionRequiredProcessor) -> py unit :=
  assign t_deletion_required_processors rp_id.
Definition the_requirement (job : Z) (o : DesktopDeletionWorkOrder) : py DeletionRequiredProcessor :=
  rows ← q_all t_deletion_required_processors (required_of job (wo_event_ref o) (wo_processor_entity_id o));
  lift (one rows).

(** The columns of the work order a report fills *)
Definition reported (canonical digest : string) (r : signed_report) (now : datetime) (o : DesktopDeletionWorkOrder)
  : DesktopDeletionWorkOrder :=
  o <| wo_report_json := Some canonical |> <| wo_report_sha256 := Some digest |>
    <| wo_report_signature_sha256 := Some (sr_signature_sha256 r) |>
    <| wo_report_evidence_package_json := Some (sr_package_json r) |>
    <| wo_report_evidence_package_sha256 := Some (sr_package_sha256 r) |>
    <| wo_processor_key_id := sr_key_id r |> <| wo_reported_at := Some now |>
    <| wo_claim_capability_sha256 := None |> <| wo_claim_expires_at := None |>
    <| wo_state := "report_received"%string |>.

(** The set of outstanding actions of the case, with those of the report *)
Definition merge_actions (job : Z) (actions : list json) : py unit :=
  c ← the_case job;
  merged ← lift (known ← loads_list (dc_outstanding_actions_json c);
                 known ← elements known;
                 new ← elements (JList actions);
                 all ← sorted_set (known ++ new);
                 canonical_json (JList all));
  set_case job (fun c => c <| dc_outstanding_actions_json := Some merged |>).

Definition report_payload (c : DeletionCase) (o : DesktopDeletionWorkOrder) (digest : string) (r : signed_report)
  (outstanding : json) : list (string * json) :=
  [("case_id", JStr (dc_request_id c)); ("work_order_id", JStr (wo_work_order_id o));
   ("event_ref", JStr (wo_event_ref o)); ("report_sha256", JStr digest);
   ("signature_sha256", JStr (sr_signature_sha256 r)); ("evidence_package_sha256", JStr (sr_package_sha256 r));
   ("processor_entity_id", JStr (wo_processor_entity_id o)); ("processor_key_id", JStr (sr_key_id r));
   ("completed_public_key_sha256", JStr (sr_public_key_sha256 r)); ("outstanding_actions", outstanding);
   ("status", JStr (dc_state c))]%string ++ order_subject o.

(** What follows once the report is accepted *)
Definition record_report (job work_order : Z) (report : list (string * json)) (canonical digest : string)
  (r : signed_report) : py unit :=
  now ← utc_now;
  _ ← set_order work_order (reported canonical digest r now);
  o ← the_order work_order;
  scopes ← q_all t_deletion_subject_scopes (scope_of job (wo_event_ref o) (wo_subject_ref o));
  scope ← lift (one scopes);
  _ ← assign t_deletion_subject_scopes ds_id (ds_id scope) (fun s => s <| ds_state := "desktop_deleted"%string |>);
  _ ← set_case job (fun c => c <| dc_desktop_report_sha256 := Some digest |>);
  requirement ← the_requirement job o;
  _ ← set_requirement (rp_id requirement) (fun q =>
        q <| rp_deletion_receipt_sha256 := Some digest |> <| rp_completed_key_id := Some (sr_key_id r) |>
          <| rp_completed_public_key_sha256 := Some (sr_public_key_sha256 r) |>
          <| rp_state := "deletion_received"%string |>);
  let outstanding := dget_or_null "outstanding_actions" report in
  actions ← lift (iter outstanding);
  _ ← merge_actions job actions;
  pending ← pending_deletions job;
  _ ← set_case job (fun c => c <| dc_state := if pending =? 0 then "ready_for_live_purge"%string
                                              else "awaiting_desktop_report"%string |>);
  _ ← when (truthy outstanding)
        (set_case job (fun c => c <| dc_retention_reason_code := Some "external_desktop_copy_unresolved"%string |>
                                  <| dc_retention_review_at := Some (add_us now (30 * us_day)) |>));
  c ← the_case job;
  _ ← evidence_append (case_request c ("desktop_report_received_" +:+ wo_work_order_id o)
        "deletion.desktop_report_received" (report_payload c o digest r outstanding));
  mret tt.

Definition apply_desktop_report (job work_order : Z) (claim_capability : string) (report : list (string * json))
  (r : signed_report) : py string :=
  canonical ← lift (canonical_json (JObj report));
  digest ← lift (sha256_text canonical);
  o ← the_order work_order;
  if truthy_opt (wo_report_sha256 o) then
    _ ← throw_if (negb (eq_opt_str (wo_report_sha256 o) (Some digest))
                  || negb (eq_opt_str (wo_report_evidence_package_sha256 o) (Some (sr_package_sha256 r)))) ValueError
          "A different report is already recorded for this work order";
    mret digest
  else
    _ ← check_claim o claim_capability;
    _ ← lift (validate_report_payload o report);
    _ ← record_report job work_order report canonical digest r;
    mret digest.

(** ** Outstanding actions and local copies *)

Definition _backup_inventory_resolved : py bool :=
  b ← q_first t_backup_inventory_records (fun b => String.eqb (bi_status b) "superseded_pending_deletion");
  mret (is_none b).

Definition resolve_outstanding_actions (job : Z) (actions : list string) : py string :=
  c ← the_case job;
  current ← lift (loads_list (dc_outstanding_actions_json c));
  known ← lift (l ← elements current; sorted_set l);
  given ← lift (sorted_set (map JStr actions));
  _ ← throw_if (negb (py_eq (JList given) (JList known)) || negb (truthy current)) ValueError
        "The resolved actions must exactly match the outstanding desktop actions";
  _ ← set_case job (fun c => c <| dc_outstanding_actions_json := Some "[]"%string |>
                               <| dc_retention_reason_code := None |> <| dc_retention_review_at := None |>);
  resolved ← (if is_none (dc_live_data_purged_at c) || negb (truthy_opt (dc_replacement_package_sha256 c))
              then mret true else _backup_inventory_resolved);
  let state := if is_none (dc_live_data_purged_at c) then "ready_for_live_purge"%string
               else if negb (truthy_opt (dc_replacement_package_sha256 c)) then "awaiting_clean_backup"%string
               else if negb resolved then "awaiting_backup_resolution"%string else "awaiting_checklist"%string in
  _ ← set_case job (fun c => c <| dc_state := state |>);
  sorted ← lift (l ← iter current; py_sorted json_lt l);
  evidence_append (case_request c "desktop_actions_resolved" "deletion.desktop_actions_resolved"
    [("case_id", JStr (dc_request_id c)); ("actions", JList sorted); ("status", JStr state)]%string).

Definition apply_desktop_copy_resolution (job work_order : Z) (document : list (string * json)) (r : signed_report)
  : py string :=
  o ← the_order work_order;
  _ ← throw_if (negb (truthy_opt (wo_report_sha256 o))) ValueError
        "Desktop data deletion must be recorded before local-copy resolution";
  canonical ← lift (canonical_json (JObj document));
  digest ← lift (sha256_text canonical);
  if truthy_opt (wo_copy_resolution_sha256 o) then
    _ ← throw_if (negb (eq_opt_str (wo_copy_resolution_sha256 o) (Some digest))
                  || negb (eq_opt_str (wo_copy_resolution_evidence_package_sha256 o) (Some (sr_package_sha256 r))))
          ValueError "a different local-copy resolution is already recorded";
    mret digest
  else
    _ ← set_order work_order (fun o =>
          o <| wo_copy_resolution_sha256 := Some digest |>
            <| wo_copy_resolution_signature_sha256 := Some (sr_signature_sha256 r) |>
            <| wo_copy_resolution_evidence_package_json := Some (sr_package_json r) |>
            <| wo_copy_resolution_evidence_package_sha256 := Some (sr_package_sha256 r) |>);
    requirement ← the_requirement job o;
    now ← utc_now;
    _ ← set_requirement (rp_id requirement) (fun q =>
          q <| rp_copy_resolution_sha256 := Some digest |> <| rp_completed_key_id := Some (sr_key_id r) |>
            <| rp_completed_public_key_sha256 := Some (sr_public_key_sha256 r) |> <| rp_state := "complete"%string |>
            <| rp_completed_at := Some now |>);
    c ← the_case job;
    disposition ← lift (subscript "disposition" (JObj document));
    _ ← evidence_append (case_request c ("desktop_copy_resolution_" +:+ wo_work_order_id o)
          "deletion.desktop_copy_resolution"
          [("case_id", JStr (dc_request_id c)); ("work_order_id", JStr (wo_work_order_id o));
           ("event_ref", JStr (wo_event_ref o)); ("processor_entity_id", JStr (wo_processor_entity_id o));
           ("processor_key_id", JStr (sr_key_id r)); ("copy_resolution_sha256", JStr digest);
           ("signature_sha256", JStr (sr_signature_sha256 r)); ("evidence_package_sha256", JStr (sr_package_sha256 r));
           ("completed_public_key_sha256", JStr (sr_public_key_sha256 r)); ("disposition", disposition);
           ("status", JStr "verified")]%string);
    mret digest.

Definition confirm_desktop_already_absent (job : Z) : py string :=
  throw ValueError "Root confirmation cannot replace required processor receipts".

(** ** Backups that are not there *)

Definition controlled_snapshot_count : py (option Z) :=
  c ← gets w_config;
  n ← file_at (HA_SNAPSHOT_STATUS_PATH c);
  match n with
  | Some (Regular raw) =>
      if 64 * 1024 <? byte_length raw then mret None
      else
        match (if utf8_valid raw then loads raw else raise UnicodeDecodeError "invalid utf-8") with
        | Raise e => if exn_in e [OSError; JSONDecodeError] then mret None else lift (Raise e)
        | Ok (JObj document) =>
            match dget_or_null "local_snapshot_count" document with
            | JInt count =>
                if negb (py_eq (dget_or_null "format" document) (JStr "mp-opt-ha-snapshot-status-v1")) || (count <? 0)
                then mret None else mret (Some count)
            | _ => mret None
            end
        | Ok _ => mret None
        end
  | _ => mret None
  end.

Definition confirm_no_controlled_backups (job : Z) : py (option string) :=
  c ← the_case job;
  _ ← throw_if (truthy_opt (dc_replacement_package_sha256 c)) ValueError "A clean recovery snapshot is already recorded";
  if truthy_opt (dc_backup_not_applicable_sha256 c) then mret (dc_backup_not_applicable_sha256 c)
  else
    conf ← gets w_config;
    _ ← throw_if (negb (truthy_opt (dc_live_purge_receipt_sha256 c))) ValueError "Live data must be purged first";
    _ ← throw_if (String.eqb (HA_MODE conf) "ha" && negb (truthy_opt (dc_peer_confirmation_sha256 c))) ValueError
          "Peer replication must be verified first";
    packages ← q_count t_backup_inventory_records;
    _ ← throw_if (0 <? packages) ValueError "Recovery packages are recorded; create a clean snapshot instead";
    snapshots ← controlled_snapshot_count;
    _ ← throw_if (match snapshots with Some n => 0 <? n | None => false end) ValueError
          "Controlled recovery snapshots are recorded; create a clean snapshot instead";
    digest ← evidence_append (case_request c "backup_not_applicable" "deletion.backup_not_applicable"
      ([("case_id", JStr (dc_request_id c)); ("event_ref", JStr (dc_event_evidence_id c));
        ("verification_method", JStr "controller_confirmation"); ("reason_code", JStr "no_controlled_backups");
        ("outcome", JStr "not_applicable"); ("status", JStr "awaiting_checklist")]%string ++ subject_field c));
    _ ← set_case job (fun c => c <| dc_backup_not_applicable_sha256 := Some digest |>
          <| dc_state := "awaiting_checklist"%string |> <| dc_retention_reason_code := None |>
          <| dc_retention_review_at := None |>);
    mret (Some digest).
End Reports.

(** ** The checklist *)

Definition scope_entry (s : DeletionSubjectScope) : json :=
  JObj [("scope_id", JStr (ds_scope_id s)); ("event_ref", JStr (ds_event_ref s));
        ("subject_ref", of_opt_str (ds_subject_ref s))]%string.
Definition processor_entry (r : DeletionRequiredProcessor) : json :=
  JObj [("event_ref", JStr (rp_event_ref r)); ("entity_id", JStr (rp_processor_entity_id r));
        ("snapshotted_key_id", JStr (rp_snapshotted_key_id r));
        ("snapshotted_public_key_sha256", JStr (rp_snapshotted_public_key_sha256 r));
        ("completed_key_id", of_opt_str (rp_completed_key_id r));
        ("completed_public_key_sha256", of_opt_str (rp_completed_public_key_sha256 r));
        ("deletion_receipt_sha256", of_opt_str (rp_deletion_receipt_sha256 r));
        ("copy_resolution_sha256", of_opt_str (rp_copy_resolution_sha256 r))]%string.
Definition receipt_fields (c : DeletionCase) : list (string * json) :=
  [("live_purge_receipt_sha256", of_opt_str (dc_live_purge_receipt_sha256 c));
   ("peer_confirmation_sha256", of_opt_str (dc_peer_confirmation_sha256 c));
   ("clean_backup_sha256", of_opt_str (dc_replacement_package_sha256 c));
   ("peer_snapshot_resolution_sha256", of_opt_str (dc_peer_backup_resolution_sha256 c));
   ("backup_not_applicable_sha256", of_opt_str (dc_backup_not_applicable_sha256 c))]%string.

(** What the checklist of the case is at this moment *)
Definition checklist_of (c : DeletionCase) (scopes : list DeletionSubjectScope)
  (processors : list DeletionRequiredProcessor) : json :=
  JObj [("version", JInt CHECKLIST_VERSION); ("case_id", JStr (dc_request_id c));
        ("case_type", JStr (dc_case_type c));
        ("scopes", JList (map scope_entry (order_by_text ds_scope_id scopes)));
        ("receipts", JObj (receipt_fields c));
        ("desktop_deletion_required", JBool (dc_desktop_deletion_required c));
        ("desktop_processors",
         JList (map processor_entry (order_by_text rp_event_ref (order_by_text rp_processor_entity_id processors))));
        ("outstanding_actions", JList [])]%string.
Definition case_scopes (job : Z) : py (list DeletionSubjectScope) :=
  q_all t_deletion_subject_scopes (fun s => ds_case_id s =? job).
Definition case_processors (job : Z) : py (list DeletionRequiredProcessor) :=
  q_all t_deletion_required_processors (fun r => rp_case_id r =? job).

Definition missing_if (b : bool) (name : string) : list string := if b then [name] else [].
Definition processors_missing (c : DeletionCase) (l : list DeletionRequiredProcessor) : bool :=
  dc_desktop_deletion_required c &&
  (Nat.eqb (length l) 0 || existsb (fun r => negb (String.eqb (rp_state r) "complete")) l).

Definition checklist_prerequisites (job : Z) : py (list string) :=
  c ← the_case job;
  conf ← gets w_config;
  let ha := String.eqb (HA_MODE conf) "ha" in
  processors ← case_processors job;
  resolved ← _backup_inventory_resolved;
  outstanding ← (if truthy_opt (dc_outstanding_actions_json c)
                 then v ← lift (loads_list (dc_outstanding_actions_json c)); mret (truthy v)
                 else mret false);
  mret (missing_if (processors_missing c processors) "desktop_processor_receipts" ++
        missing_if (negb (truthy_opt (dc_live_purge_receipt_sha256 c))) "live_purge_receipt" ++
        missing_if (ha && negb (truthy_opt (dc_peer_confirmation_sha256 c))) "peer_replication_receipt" ++
        missing_if (ha && truthy_opt (dc_replacement_package_sha256 c)
                    && negb (truthy_opt (dc_peer_backup_resolution_sha256 c))) "peer_snapshot_resolution_receipt" ++
        missing_if (negb (truthy_opt (dc_replacement_package_sha256 c)
                          || truthy_opt (dc_backup_not_applicable_sha256 c))) "clean_backup_receipt" ++
        missing_if (negb resolved) "backup_inventory_resolution" ++
        missing_if outstanding "outstanding_desktop_actions").

Section Completion.
Context `{Evidence : !EvidenceService}.

Definition build_checklist (job : Z) : py json :=
  c ← the_case job;
  if truthy_opt (dc_checklist_json c) then lift (loads (default EmptyString (dc_checklist_json c)))
  else
    missing ← checklist_prerequisites job;
    match missing with
    | first :: _ =>
        _ ← set_case job (fun c => c <| dc_state := "restricted_retention"%string |>
                                     <| dc_retention_reason_code := Some first |>);
        now ← utc_now;
        _ ← set_case job (fun c => c <| dc_retention_review_at := Some (add_us now (30 * us_day)) |>);
        throw ValueError "The deletion checklist cannot be created while required actions remain"
    | [] =>
        scopes ← case_scopes job;
        processors ← case_processors job;
        let checklist := checklist_of c scopes processors in
        canonical ← lift (canonical_json checklist);
        digest ← lift (sha256_text canonical);
        now ← utc_now;
        _ ← set_case job (fun c => c <| dc_checklist_version := Some CHECKLIST_VERSION |>
              <| dc_checklist_json := Some canonical |> <| dc_checklist_sha256 := Some digest |>
              <| dc_checklist_created_at := Some now |> <| dc_state := "awaiting_approvals"%string |>);
        _ ← evidence_append (case_request c "checklist_created" "deletion.checklist_created"
          [("case_id", JStr (dc_request_id c)); ("checklist_version", JInt CHECKLIST_VERSION);
           ("checklist_sha256", JStr digest); ("status", JStr "awaiting_approvals")]%string);
        mret checklist
    end.

Definition approval_of (job : Z) (checklist_sha256 : option string) (a : DeletionChecklistApproval) : bool :=
  (ap_case_id a =? job) && eq_opt_str (Some (ap_checklist_sha256 a)) checklist_sha256.
Definition approval_text (c : DeletionCase) (checklist role : string) (user_id : Z) (credential : string) (now : datetime)
  : outcome string :=
  canonical_json (JObj [("case_id", JStr (dc_request_id c)); ("checklist_sha256", JStr checklist); ("role", JStr role);
    ("user_id", JInt user_id); ("credential_sha256", JStr credential); ("approved_at", JStr (isoformat now))]%string).

Definition record_checklist_approval (job : Z) (role : string) (user_id : Z) (credential_sha256 : string)
  : py DeletionChecklistApproval :=
  _ ← throw_if (negb (String.eqb role "executor")) ValueError
        "Only the root executor may approve Server completion";
  c ← the_case job;
  let refused := throw ValueError "The case has no checklist awaiting approval" in
  match dc_checklist_sha256 c with
  | None => refused
  | Some checklist =>
      if negb (truthy_str checklist)
         || negb (str_in (dc_state c) ["awaiting_approvals"; "ready_for_completion"]%string) then refused
      else
        existing ← q_first t_deletion_checklist_approvals
                     (fun a => approval_of job (Some checklist) a && String.eqb (ap_role a) role);
        match existing with
        | Some a => mret a
        | None =>
            now ← utc_now;
            digest ← lift (text ← approval_text c checklist role user_id credential_sha256 now; sha256_text text);
            id ← fresh;
            a ← q_insert t_deletion_checklist_approvals (fun i =>
                  mkDeletionChecklistApproval i id job checklist role (Some user_id) credential_sha256 digest now);
            _ ← set_case job (fun c => c <| dc_executor_approval_sha256 := Some digest |>);
            (* the role just recorded is the one required *)
            _ ← set_case job (fun c => c <| dc_state := "ready_for_completion"%string |>);
            c ← the_case job;
            _ ← evidence_append (case_request c ("checklist_approved_" +:+ role) "deletion.checklist_approved"
              [("case_id", JStr (dc_request_id c)); ("checklist_sha256", JStr checklist); ("role", JStr role);
               ("approval_sha256", JStr digest); ("status", JStr (dc_state c))]%string);
            mret a
        end
  end.

(** The approval of the role in the dictionary [{row.role: row ...}]: the last
    row wins. *)
Definition approval_row (role : string) (l : list DeletionChecklistApproval) : option DeletionChecklistApproval :=
  last (List.filter (fun a => String.eqb (ap_role a) role) l).
Definition executor_approved (c : DeletionCase) (rows : list DeletionChecklistApproval) : bool :=
  match approval_row "executor" rows with
  | Some a => truthy_opt (dc_executor_approval_sha256 c) &&
              eq_opt_str (Some (ap_approval_sha256 a)) (dc_executor_approval_sha256 c)
  | None => false
  end.

Definition completion_payload (c : DeletionCase) (checklist : json) (now : datetime) : outcome (list (string * json)) :=
  receipts ← subscript "receipts" checklist;
  receipts ← match receipts with
             | JObj l => Ok (List.filter (fun kv => negb (is_null kv.2)) l)
             | _ => raise AttributeError "object has no attribute 'items'"
             end;
  processors ← subscript "desktop_processors" checklist;
  Ok [("case_id", JStr (dc_request_id c)); ("case_type", JStr (dc_case_type c));
      ("checklist_sha256", of_opt_str (dc_checklist_sha256 c));
      ("executor_approval_sha256", of_opt_str (dc_executor_approval_sha256 c)); ("server_receipts", JObj receipts);
      ("desktop_processor_receipts", processors); ("completed_at", JStr (strftime_Z (drop_us now)));
      ("outcome", JStr "verified"); ("status", JStr "complete")]%string.

(** The stored checklist, if it is intact *)
Definition stored_checklist (c : DeletionCase) : py json :=
  let text := default EmptyString (dc_checklist_json c) in
  _ ← throw_if (negb (truthy_str text) || negb (truthy_opt (dc_checklist_sha256 c))) ValueError
        "The deletion checklist is missing";
  checklist ← try_except (lift (loads text)) [TypeError; ValueError]
                (fun _ => throw ValueError "The deletion checklist is invalid");
  canonical ← lift (canonical_json checklist);
  same ← (if negb (String.eqb canonical text) then mret false
          else digest ← lift (sha256_text canonical); mret (eq_opt_str (Some digest) (dc_checklist_sha256 c)));
  _ ← throw_if (negb same) ValueError "The deletion checklist hash does not match its content";
  mret checklist.

(** The checks of a completion, and the evidence of it *)
Definition completion_evidence (job : Z) : py (string * datetime) :=
  c ← the_case job;
  _ ← throw_if (negb (String.eqb (dc_state c) "ready_for_completion")) ValueError
        "The deletion case is not ready for completion";
  missing ← checklist_prerequisites job;
  _ ← throw_if (negb (Nat.eqb (length missing) 0)) ValueError "A deletion prerequisite became unresolved";
  checklist ← stored_checklist c;
  scopes ← case_scopes job;
  processors ← case_processors job;
  _ ← throw_if (negb (py_eq checklist (checklist_of c scopes processors))) ValueError
        "The deletion checklist no longer matches the case";
  approvals ← q_all t_deletion_checklist_approvals (approval_of job (dc_checklist_sha256 c));
  _ ← throw_if (negb (executor_approved c approvals)) ValueError
        "The deletion checklist approvals are incomplete or inconsistent";
  now ← utc_now;
  payload ← lift (completion_payload c checklist now);
  digest ← evidence_append (case_request c "completed" "deletion.completed" payload);
  mret (digest, now).

Definition complete_case (job : Z) : py string :=
  '(digest, now) ← completion_evidence job;
  _ ← set_case job (fun c => c <| dc_final_receipt_sha256 := Some digest |>);
  _ ← q_update t_deletion_subject_scopes (fun s => ds_case_id s =? job)
        (fun s => s <| ds_state := "complete"%string |> <| ds_completed_at := Some now |>);
  _ ← set_case job (fun c => c <| dc_completed_at := Some now |> <| dc_state := "complete"%string |>
                               <| dc_event_display_name := None |> <| dc_subject_display_name := None |>);
  mret "complete"%string.
End Completion.
