(* ===== verification/DeletionProps.v ===== *)
(** What the erasure workflow promises: a case is completed only with every
    proof there, a report only counts with a live claim, and a purge leaves no
    row of the account. *)
From Stdlib Require Import ZArith Lia Ascii String.
From stdpp Require Import base list strings.
From S2P Require Import Prelude Text TextFacts Json JsonFacts Sha256 PyTime PyBuiltins Models World Permissions Evidence EvidenceFrames Cascade DeletionWorkflow DeletionCases.

(** ** Runs *)

Section Rows.
Context {R : Type} (t : database -> list R) `{!Setter t} (key : R -> Z).

Lemma row_inv id w r w' : row t key id w = (Ok r, w') ->
  w' = w /\ List.find (fun r => key r =? id) (t (w_db w)) = Some r.
Proof.
  unfold row. intros H. apply Mbind_Ok_inv in H as (o & ? & [= <- <-] & H).
  destruct (List.find _ _) as [r0|] eqn:E; [|done]. by apply mret_Ok_inv in H as [-> ->].
Qed.
Lemma assign_inv id f w u w' : assign t key id f w = (Ok u, w') ->
  w' = on_table t (update_first (fun r => key r =? id) f) w.
Proof. by intros [= _ <-]. Qed.
Lemma update_inv p f w n w' : q_update t p f w = (Ok n, w') ->
  w' = on_table t (map (fun r => if p r then f r else r)) w.
Proof. by intros [= _ <-]. Qed.
Lemma delete_inv p w n w' : q_delete t p w = (Ok n, w') ->
  w' = on_table t (List.filter (fun r => negb (p r))) w.
Proof. by intros [= _ <-]. Qed.
Lemma q_all_inv p w l w' : q_all t p w = (Ok l, w') -> l = List.filter p (t (w_db w)) /\ w' = w.
Proof. by intros [= <- <-]. Qed.
Lemma first_row_inv p w o w' : q_first t p w = (Ok o, w') -> o = List.find p (t (w_db w)) /\ w' = w.
Proof. by intros [= <- <-]. Qed.

Lemma find_update_first (f : R -> R) id l r :
  (forall r, key (f r) = key r) -> List.find (fun r => key r =? id) l = Some r ->
  List.find (fun r => key r =? id) (update_first (fun r => key r =? id) f l) = Some (f r).
Proof.
  intros Hf. induction l as [|x l IH]; [done|]. cbn. destruct (key x =? id) eqn:E; cbn.
  - intros [= <-]. by rewrite Hf, E.
  - rewrite E. apply IH.
Qed.
End Rows.

Lemma only_tables {w w'} : evidence_only w w' -> erase_evidence (w_db w') = erase_evidence (w_db w).
Proof. by intros (E & _). Qed.

Section Props.
Context `{Evidence : !EvidenceService}.

Definition the_row (job : Z) (w : world) : option DeletionCase :=
  List.find (fun c => dc_id c =? job) (t_deletion_cases (w_db w)).
Definition ha (w : world) : bool := String.eqb (HA_MODE (w_config w)) "ha".
Definition scopes_of (job : Z) (w : world) : list DeletionSubjectScope :=
  List.filter (fun s => ds_case_id s =? job) (t_deletion_subject_scopes (w_db w)).
Definition processors_of (job : Z) (w : world) : list DeletionRequiredProcessor :=
  List.filter (fun r => rp_case_id r =? job) (t_deletion_required_processors (w_db w)).

(** ** What completion needs *)

(** No proof is missing. *)
Definition proved (job : Z) (c : DeletionCase) (w : world) : Prop :=
  processors_missing c (processors_of job w) = false /\
  truthy_opt (dc_live_purge_receipt_sha256 c) = true /\
  (ha w = true -> truthy_opt (dc_peer_confirmation_sha256 c) = true /\
     (truthy_opt (dc_replacement_package_sha256 c) = true ->
      truthy_opt (dc_peer_backup_resolution_sha256 c) = true)) /\
  (truthy_opt (dc_replacement_package_sha256 c) = true \/ truthy_opt (dc_backup_not_applicable_sha256 c) = true) /\
  (forall b, b ∈ t_backup_inventory_records (w_db w) -> bi_status b <> "superseded_pending_deletion"%string) /\
  (truthy_opt (dc_outstanding_actions_json c) = true ->
   exists v, loads_list (dc_outstanding_actions_json c) = Ok v /\ truthy v = false).

Lemma missing_if_nil b s : missing_if b s = [] <-> b = false.
Proof. by destruct b. Qed.

Lemma prerequisites_inv job c w missing w' :
  the_row job w = Some c -> checklist_prerequisites job w = (Ok missing, w') ->
  w' = w /\ (missing = [] -> proved job c w).
Proof.
  intros Hc H. unfold checklist_prerequisites in H.
  apply Mbind_Ok_inv in H as (c' & ? & [-> Hc']%row_inv & H). unfold the_row in Hc. rewrite Hc in Hc'. injection Hc' as <-.
  apply Mbind_Ok_inv in H as (conf & ? & [= <- <-] & H). apply Mbind_Ok_inv in H as (ps & ? & [-> ->]%q_all_inv & H).
  apply Mbind_Ok_inv in H as (res & w1 & Hr & H). unfold _backup_inventory_resolved in Hr.
  apply Mbind_Ok_inv in Hr as (b & ? & [-> ->]%first_row_inv & [-> ->]%mret_Ok_inv).
  apply Mbind_Ok_inv in H as (out & w1 & Ho & H).
  assert (w1 = w /\ (out = false -> truthy_opt (dc_outstanding_actions_json c) = true ->
    exists v, loads_list (dc_outstanding_actions_json c) = Ok v /\ truthy v = false)) as [-> Hout].
  { destruct (truthy_opt _).
    - apply Mbind_Ok_inv in Ho as (v & ? & [Hv ->]%lift_Ok_inv & [-> ->]%mret_Ok_inv). eauto.
    - by apply mret_Ok_inv in Ho as [-> ->]. }
  apply mret_Ok_inv in H as [-> ->]. split; [done|]. intros Hm.
  repeat match type of Hm with _ ++ _ = [] => apply app_eq_nil in Hm as [?%missing_if_nil Hm] end.
  apply missing_if_nil in Hm. unfold proved, ha. bool_norm. repeat split; try done.
  - by destruct (HA_MODE (w_config w) =? "ha")%string, (truthy_opt (dc_peer_confirmation_sha256 c)).
  - by destruct (HA_MODE (w_config w) =? "ha")%string, (truthy_opt (dc_replacement_package_sha256 c)), (truthy_opt (dc_peer_backup_resolution_sha256 c)).
  - destruct (truthy_opt (dc_replacement_package_sha256 c)); [by left|right].
    by destruct (truthy_opt (dc_backup_not_applicable_sha256 c)).
  - intros b Hb Hs. match goal with K : context [List.find ?p ?l] |- _ => destruct (List.find p l) as [x|] eqn:E end. { done. } rewrite find_none_iff in E.
    specialize (E b Hb). by rewrite Hs in E.
  - by apply Hout.
Qed.

(** The stored checklist is intact, and is still what the case is. *)
Definition checklist_current (job : Z) (c : DeletionCase) (checklist : json) (w : world) : Prop :=
  exists text digest, dc_checklist_json c = Some text /\ loads text = Ok checklist /\
    canonical_json checklist = Ok text /\ sha256_text text = Ok digest /\ dc_checklist_sha256 c = Some digest /\
    py_eq checklist (checklist_of c (scopes_of job w) (processors_of job w)) = true.
(** The executor approved this very checklist. *)
Definition approved (job : Z) (c : DeletionCase) (w : world) : Prop :=
  exists a, a ∈ t_deletion_checklist_approvals (w_db w) /\ ap_case_id a = job /\ ap_role a = "executor"%string /\
    Some (ap_checklist_sha256 a) = dc_checklist_sha256 c /\ Some (ap_approval_sha256 a) = dc_executor_approval_sha256 c.

Lemma truthy_some o : truthy_opt o = true -> exists s, o = Some s /\ truthy_str s = true.
Proof. destruct o as [s|]; [|done]. by exists s. Qed.
Lemma eq_opt_str_spec a b : eq_opt_str a b = true <-> a = b.
Proof.
  destruct a as [s|], b as [t|]; cbn; try done. rewrite String.eqb_eq. split; congruence.
Qed.

Lemma stored_checklist_inv c w checklist w' :
  stored_checklist c w = (Ok checklist, w') ->
  w' = w /\ exists text digest, dc_checklist_json c = Some text /\ loads text = Ok checklist /\
    canonical_json checklist = Ok text /\ sha256_text text = Ok digest /\ dc_checklist_sha256 c = Some digest.
Proof.
  intros H. unfold stored_checklist in H. apply Mbind_Ok_inv in H as (? & ? & [Ht ->]%throw_if_Ok_inv & H).
  apply Mbind_Ok_inv in H as (v & w1 & Hl & H).
  apply try_except_inv in Hl as [[Hl ->]%lift_Ok_inv|(e & w2 & _ & _ & Hl)]; [|done].
  apply Mbind_Ok_inv in H as (canonical & ? & [Hc ->]%lift_Ok_inv & H).
  apply Mbind_Ok_inv in H as (same & w1 & Hs & H). apply Mbind_Ok_inv in H as (? & ? & [Hsame ->]%throw_if_Ok_inv & H).
  apply mret_Ok_inv in H as [-> ->]. bool_norm. subst same. destruct (dc_checklist_json c) as [text|]; [|done].
  change (default EmptyString (Some text)) with text in *.
  destruct (String.eqb_spec canonical text) as [->|]; cbn [negb] in Hs; [|by apply mret_Ok_inv in Hs as [? _]].
  apply Mbind_Ok_inv in Hs as (digest & ? & [Hd ->]%lift_Ok_inv & [Heq ->]%mret_Ok_inv).
  symmetry in Heq. apply eq_opt_str_spec in Heq. split; [done|]. exists text, digest. done.
Qed.

Lemma executor_approved_inv job c w :
  executor_approved c (List.filter (approval_of job (dc_checklist_sha256 c)) (t_deletion_checklist_approvals (w_db w))) = true ->
  approved job c w.
Proof.
  unfold executor_approved, approval_row. destruct (last _) as [a|] eqn:E; [|done].
  intros [_ Ha%eq_opt_str_spec]%andb_true_iff. apply last_Some_elem_of in E.
  apply list_elem_of_In, filter_In in E as [E Hr%String.eqb_eq]. apply filter_In in E as [E Hap].
  unfold approval_of in Hap. bool_norm. exists a. rewrite list_elem_of_In. by rewrite eq_opt_str_spec in *.
Qed.

(** The case once it is complete *)
Definition completed_case (digest : string) (now : datetime) (c : DeletionCase) : DeletionCase :=
  c <| dc_final_receipt_sha256 := Some digest |> <| dc_completed_at := Some now |> <| dc_state := "complete"%string |>
    <| dc_event_display_name := None |> <| dc_subject_display_name := None |>.

(** What completion changes apart from evidence: the case and its scopes. *)
Definition erase_case (db : database) : database :=
  (erase_evidence db) <| t_deletion_cases := [] |> <| t_deletion_subject_scopes := [] |>.

(** The last steps of a completion *)
Definition close_case (job : Z) (digest : string) (now : datetime) (w : world) : world :=
  on_table t_deletion_cases (update_first (fun c => dc_id c =? job) (fun c =>
      c <| dc_completed_at := Some now |> <| dc_state := "complete"%string |>
        <| dc_event_display_name := None |> <| dc_subject_display_name := None |>))
    (on_table t_deletion_subject_scopes (map (fun s => if ds_case_id s =? job
        then s <| ds_state := "complete"%string |> <| ds_completed_at := Some now |> else s))
      (on_table t_deletion_cases (update_first (fun c => dc_id c =? job) (fun c =>
          c <| dc_final_receipt_sha256 := Some digest |>)) w)).
Lemma complete_case_split job w r w' :
  complete_case job w = (r, w') ->
  (exists e, r = Raise e /\ completion_evidence job w = (Raise e, w')) \/
  exists digest now w2, r = Ok "complete"%string /\ completion_evidence job w = (Ok (digest, now), w2) /\
    w' = close_case job digest now w2.
Proof.
  unfold complete_case, mbind at 1, M_bind at 1. destruct (completion_evidence job w) as [[[digest now]|e] w2].
  - intros [= <- <-]. right. by exists digest, now, w2.
  - intros [= <- <-]. left. by exists e.
Qed.

Lemma completion_evidence_inv job w digest now w' :
  completion_evidence job w = (Ok (digest, now), w') ->
  exists c checklist payload,
    the_row job w = Some c /\ dc_state c = "ready_for_completion"%string /\ proved job c w /\
    checklist_current job c checklist w /\ approved job c w /\
    completion_payload c checklist now = Ok payload /\
    recorded_as (case_request c "completed" "deletion.completed" payload) digest w' /\ evidence_only w w'.
Proof.
  intros H. unfold completion_evidence in H. apply Mbind_Ok_inv in H as (c & ? & [-> Hc]%row_inv & H).
  apply Mbind_Ok_inv in H as (? & ? & [Hst ->]%throw_if_Ok_inv & H). bool_norm.
  apply Mbind_Ok_inv in H as (missing & w1 & Hm & H). apply (prerequisites_inv _ _ _ _ _ Hc) in Hm as [-> Hm].
  apply Mbind_Ok_inv in H as (? & ? & [Hnil ->]%throw_if_Ok_inv & H).
  apply Mbind_Ok_inv in H as (checklist & w1 & Hs & H). apply stored_checklist_inv in Hs as (-> & text & digest0 & Hs).
  apply Mbind_Ok_inv in H as (scopes & ? & [-> ->]%q_all_inv & H).
  apply Mbind_Ok_inv in H as (processors & ? & [-> ->]%q_all_inv & H).
  apply Mbind_Ok_inv in H as (? & ? & [Heq ->]%throw_if_Ok_inv & H). bool_norm.
  apply Mbind_Ok_inv in H as (approvals & ? & [-> ->]%q_all_inv & H).
  apply Mbind_Ok_inv in H as (? & ? & [Hap ->]%throw_if_Ok_inv & H). bool_norm.
  apply executor_approved_inv in Hap.
  apply Mbind_Ok_inv in H as (t & w1 & Hnow & H). pose proof (keeps_run _ _ _ _ _ only_utc_now Hnow) as Hw1.
  apply Mbind_Ok_inv in H as (payload & ? & [Hp ->]%lift_Ok_inv & H).
  apply Mbind_Ok_inv in H as (d & w2 & Happ & [[= -> ->] ->]%mret_Ok_inv).
  pose proof (evidence_append_recorded _ _ _ _ Happ) as Hrec.
  apply (keeps_run _ _ _ _ _ (evidence_append_only _)) in Happ.
  exists c, checklist, payload. split; [done|]. split; [done|].
  split; [by apply Hm; destruct missing|]. split; [by exists text, digest0; split_and!; try apply Hs|].
  split; [done|]. split; [done|]. split; [exact Hrec|]. by etransitivity.
Qed.

(** C7: a case is completed only when everything it promises is proved: no
    processor's receipts, purge receipt, peer confirmation, clean backup or
    resolution is missing, the stored checklist is intact and still describes the
    case, and the executor approved that checklist.  The completion is itself
    recorded as evidence, the case keeps no display name, all its scopes are
    complete, and no other table changes. *)
Theorem completed_case_is_proved job w s w'
  (H : complete_case job w = (Ok s, w')) :
  exists c checklist payload digest now,
    the_row job w = Some c /\ dc_state c = "ready_for_completion"%string /\ proved job c w /\
    checklist_current job c checklist w /\ approved job c w /\
    completion_payload c checklist now = Ok payload /\
    recorded_as (case_request c "completed" "deletion.completed" payload) digest w' /\
    the_row job w' = Some (completed_case digest now c) /\
    (forall sc, sc ∈ scopes_of job w' -> ds_state sc = "complete"%string) /\
    erase_case (w_db w') = erase_case (w_db w).
Proof.
  apply complete_case_split in H as [(e & ? & _)|(digest & now & w2 & _ & H & ->)]; [done|].
  apply completion_evidence_inv in H as (c & checklist & payload & Hc & Hst & Hp & Hl & Ha & Hpay & Hrec & Ho).
  assert (t_deletion_cases (w_db w2) = t_deletion_cases (w_db w)) as Ec by exact (f_equal t_deletion_cases (only_tables Ho)).
  exists c, checklist, payload, digest, now. do 7 (split; [done|]). split; [|split].
  - unfold the_row, close_case. cbn. apply (find_update_first dc_id (fun c => c <| dc_completed_at := Some now |>
      <| dc_state := "complete"%string |> <| dc_event_display_name := None |> <| dc_subject_display_name := None |>)); [done|].
    apply find_update_first; [done|]. rewrite Ec. exact Hc.
  - unfold scopes_of. cbn. intros sc Hsc. apply list_elem_of_In, filter_In in Hsc as [Hsc Hj].
    apply list_elem_of_In, list_elem_of_fmap in Hsc as (sc0 & -> & _). by destruct (ds_case_id sc0 =? job) eqn:E; [|rewrite E in Hj].
  - transitivity (erase_case (w_db w2)); [reflexivity|]. unfold erase_case. by rewrite (only_tables Ho).
Qed.
End Props.

(** ** A small instance *)

Module Small.
(** A service that writes the operation at once. *)
Definition append (q : request) : py string :=
  now ← utc_now;
  let digest := sha256 (q_canonical q) in
  _ ← q_insert t_evidence_operations (fun i =>
        (new_EvidenceOperation now) <| eo_id := i |> <| eo_workflow_type := q_workflow_type q |>
          <| eo_workflow_id := q_workflow_id q |> <| eo_operation_type := q_operation_type q |>
          <| eo_record_type := Some (q_record_type q) |> <| eo_payload_json := q_canonical q |>
          <| eo_state := "complete"%string |> <| eo_record_sha256 := Some digest |>);
  mret digest.
Lemma append_only q : keeps evidence_only (append q).
Proof. by intros w. Qed.
Lemma append_recorded q w digest w' : append q w = (Ok digest, w') -> recorded_as q digest w'.
Proof.
  intros H. unfold append in H. apply Mbind_Ok_inv in H as (now & w1 & [= <- <-] & H).
  apply Mbind_Ok_inv in H as (o & w2 & [= Ho <-] & [-> ->]%mret_Ok_inv). exists o.
  split; subst o.
  - apply elem_of_app. right. by left.
  - unfold of_request, of_workflow. cbn. by rewrite !String.eqb_refl.
Qed.
#[export] Instance service : EvidenceService :=
  {| evidence_append := append; evidence_append_only := append_only; evidence_append_recorded := append_recorded |}.

Definition now : datetime := utc_at 1785414896000000.
(** One person with an account, published in one event, asks for erasure. *)
Definition db : database := empty_database
  <| t_events := [(new_Event now) <| ev_id := 1 |> <| ev_evidence_id := "event"%string |>] |>
  <| t_users := [(new_User now) <| u_id := 7 |> <| u_evidence_subject_id := "subject"%string |>
                   <| u_username := "ada"%string |> <| u_is_active := true |> <| u_event_id := Some 1 |>
                   <| u_linked_person_id := Some 3 |>] |>
  <| t_auth_sessions := [(new_AuthSession now) <| s_id := 1 |> <| s_user_id := 7 |>] |>
  <| t_audit_log := [(new_AuditLog now) <| au_id := 1 |> <| au_user_id := Some 7 |> <| au_username := Some "ada"%string |>] |>
  <| t_published_persons := [(new_PublishedPerson now) <| pp_id := 1 |> <| pp_event_id := 1 |>
       <| pp_external_person_id := 3 |> <| pp_evidence_subject_id := "subject"%string |>
       <| pp_first_name := "Ada"%string |> <| pp_email := Some "ada@example.org"%string |>] |>
  <| t_deletion_cases := [(new_DeletionCase now) <| dc_id := 1 |> <| dc_request_id := "request"%string |>
       <| dc_event_evidence_id := "event"%string |> <| dc_subject_evidence_id := "subject"%string |>
       <| dc_user_id := Some 7 |> <| dc_desktop_deletion_required := false |>] |>
  <| t_deletion_subject_scopes := [(new_DeletionSubjectScope now) <| ds_id := 1 |> <| ds_scope_id := "scope"%string |>
       <| ds_case_id := 1 |> <| ds_event_ref := "event"%string |> <| ds_subject_ref := Some "subject"%string |>] |>.
Definition start : world := toy_world db.
Definition accepted : world := Eval vm_compute in (accept_subject_request 1 7 start).2.
Definition purged : world := Eval vm_compute in (purge_subject_live_data 1 7 accepted).2.
Definition listed : world := Eval vm_compute in
  (build_checklist 1 (confirm_no_controlled_backups 1 purged).2).2.
Definition ready : world := Eval vm_compute in (record_checklist_approval 1 "executor" 9 "credential" listed).2.
End Small.
#[export] Existing Instance Small.service.

Lemma run_eq {A} (m : outcome A * world) (r : outcome A) : fst m = r -> m = (r, snd m).
Proof. destruct m. by intros <-. Qed.

Lemma completed_case_is_proved_witness :
  exists w' c, complete_case 1 Small.ready = (Ok "complete"%string, w') /\ the_row 1 Small.ready = Some c /\
    dc_state c = "ready_for_completion"%string /\ proved 1 c Small.ready.
Proof.
  pose proof (run_eq (complete_case 1 Small.ready) (Ok "complete"%string)) as Hrun.
  specialize (Hrun ltac:(vm_compute; reflexivity)).
  destruct (completed_case_is_proved 1 Small.ready _ _ Hrun) as (c & _ & _ & _ & _ & Hc & Hs & Hp & _).
  eexists _, c. split; [exact Hrun|]. split; [exact Hc|]. split; [exact Hs|exact Hp].
Defined.
