(* ===== verification/DeletionLifecycle.v ===== *)
(** The erasure workflow as a transition system: whatever calls are made, in
    whatever order, failing or not, committed or rolled back, a case is complete
    only with its proofs. *)
From Stdlib Require Import ZArith Lia Ascii String.
From stdpp Require Import base list strings.
From S2P Require Import Prelude Text TextFacts Json JsonFacts Sha256 PyTime PyBuiltins Models World Sessions Permissions Evidence EvidenceFrames Cascade DeletionWorkflow DeletionCases DeletionProps.

Section Lifecycle.
Context `{Evidence : !EvidenceService}.

(** ** The calls *)

(** The steps of [deletion_workflow.py] and [deletion_cases.py], and the end of a
    request. *)
Inductive call : Type :=
| CreateEventCase (event : Z) (reason : string) (now : option datetime)
| IssueCapability (job : Z)
| EnsureOrders (job event : Z) (subject_ref : option string)
| AcceptEvent (job event : Z)
| AcceptSubject (job user : Z)
| Claim (work_order : Z)
| Report (job work_order : Z) (capability : string) (report : list (string * json)) (package : signed_report)
| ResolveActions (job : Z) (actions : list string)
| ResolveCopies (job work_order : Z) (document : list (string * json)) (package : signed_report)
| PurgeSubject (job user : Z)
| PurgeEvent (job event : Z)
| ConfirmPeer (job : Z) (protection : HAProtectionResult)
| ConfirmBackup (job : Z) (receipt : json) (peer_receipt : option json)
| ConfirmNoBackups (job : Z)
| BuildChecklist (job : Z)
| Approve (job : Z) (role : string) (user : Z) (credential : string)
| Complete (job : Z)
| ReconcilePeer (job : Z) (peer_receipt : json)
| Commit
| Rollback.

Definition ignore {A} (m : py A) : py unit := _ ← m; mret tt.
Definition perform (c : call) : py unit :=
  match c with
  | CreateEventCase event reason now => ignore (create_event_erasure_case event reason now)
  | IssueCapability job => ignore (issue_status_capability job)
  | EnsureOrders job event subject_ref => ignore (ensure_desktop_work_order job event subject_ref)
  | AcceptEvent job event => accept_event_request job event
  | AcceptSubject job user => accept_subject_request job user
  | Claim work_order => ignore (claim_work_order work_order)
  | Report job work_order capability report package =>
      ignore (apply_desktop_report job work_order capability report package)
  | ResolveActions job actions => ignore (resolve_outstanding_actions job actions)
  | ResolveCopies job work_order document package =>
      ignore (apply_desktop_copy_resolution job work_order document package)
  | PurgeSubject job user => purge_subject_live_data job user
  | PurgeEvent job event => purge_event_live_data job event
  | ConfirmPeer job protection => confirm_case_peer job protection
  | ConfirmBackup job receipt peer_receipt => confirm_case_clean_backup job receipt peer_receipt
  | ConfirmNoBackups job => ignore (confirm_no_controlled_backups job)
  | BuildChecklist job => ignore (build_checklist job)
  | Approve job role user credential => ignore (record_checklist_approval job role user credential)
  | Complete job => ignore (complete_case job)
  | ReconcilePeer job peer_receipt => ignore (reconcile_completed_case_peer_snapshot job peer_receipt)
  | Commit => commit
  | Rollback => rollback
  end.

(** The worlds that calls lead to; a call that raises leaves what it had done. *)
Inductive reachable (w0 : world) : world -> Prop :=
| reach_start : reachable w0 w0
| reach_call w c : reachable w0 w -> reachable w0 (perform c w).2.

(** ** The invariant *)

Definition checklist_intact (text digest : option string) : Prop :=
  exists t d, text = Some t /\ sha256_text t = Ok d /\ digest = Some d.
(** The proofs of a complete case are there, and its display names are gone. *)
Definition sealed (c : DeletionCase) : Prop :=
  dc_state c = "complete"%string ->
  is_some (dc_live_purge_receipt_sha256 c) = true /\
  checklist_intact (dc_checklist_json c) (dc_checklist_sha256 c) /\ is_some (dc_executor_approval_sha256 c) = true /\
  is_some (dc_final_receipt_sha256 c) = true /\ is_some (dc_completed_at c) = true /\
  dc_event_display_name c = None /\ dc_subject_display_name c = None.
Definition all_sealed (db : database) : Prop := Forall sealed (t_deletion_cases db).
(** A call keeps it, in the session and as committed. *)
Definition seals (w w' : world) : Prop :=
  all_sealed (w_db w) /\ all_sealed (w_committed w) -> all_sealed (w_db w') /\ all_sealed (w_committed w').
#[local] Instance seals_preorder : PreOrder seals.
Proof. split; [by intros w H|]. intros w1 w2 w3 A B H. by apply B, A. Qed.

Lemma seals_same w w' :
  t_deletion_cases (w_db w') = t_deletion_cases (w_db w) -> w_committed w' = w_committed w -> seals w w'.
Proof. unfold seals, all_sealed. by intros -> ->. Qed.
Lemma evidence_seals w w' : evidence_only w w' -> seals w w'.
Proof. intros (E & C & _). apply seals_same; [exact (f_equal t_deletion_cases E)|done]. Qed.
Lemma seals_append q : keeps seals (evidence_append q).
Proof. intros w. apply evidence_seals, evidence_append_only. Qed.

Lemma seals_case job f : (forall c, sealed c -> sealed (f c)) -> keeps seals (set_case job f).
Proof.
  intros Hf w [H1 H2]. split; [|exact H2]. unfold all_sealed in *. cbn.
  induction H1 as [|c l Hc Hl IH]; cbn; [constructor|]. destruct (dc_id c =? job); constructor; auto.
Qed.
Lemma seals_user user : keeps seals (delete_user user).
Proof.
  intros w [H1 H2]. split; [|exact H2]. unfold all_sealed. apply Forall_fmap. eapply Forall_impl; [exact H1|]. done.
Qed.
Lemma seals_commit : keeps seals commit.
Proof. by intros w [H1 H2]. Qed.
Lemma seals_rollback : keeps seals rollback.
Proof. by intros w [H1 H2]. Qed.
Lemma seals_new f : (forall i, dc_state (f i) <> "complete"%string) -> keeps seals (q_insert t_deletion_cases f).
Proof.
  intros Hf w [H1 H2]. split; [|exact H2]. apply Forall_app. split; [exact H1|]. constructor; [|constructor].
  intros Hs. by apply Hf in Hs.
Qed.

(** Walk through a call: steps on other tables leave the cases as they were, an
    assignment to a case keeps it sealed. *)
Ltac seal_fields :=
  intros; unfold sealed, revoked_state, after_purge in *; cbn in *; repeat case_match; try done; tauto.
Ltac by_seals :=
  repeat first
    [ progress intros | solve [auto with seals] | apply keeps_bind; [typeclasses eauto| |]
    | apply seals_case; solve [seal_fields] | apply seals_new; done | apply seals_append
    | apply keeps_mfor; [typeclasses eauto|] | apply keeps_mmap; [typeclasses eauto|]
    | apply keeps_try; [typeclasses eauto| |] | apply keeps_when
    | solve [intros ? HH; exact HH] | case_on_goal ].
Create HintDb seals discriminated.
#[local] Hint Resolve seals_append seals_user seals_commit seals_rollback keeps_ret keeps_lift keeps_throw keeps_throw_if
  keeps_gets keeps_get seals_preorder : seals.

Lemma seals_the_case job : keeps seals (the_case job).
Proof. unfold the_case, row. by_seals. Qed.
#[local] Hint Resolve seals_the_case : seals.
Lemma seals_privacy_action job : keeps seals (_create_privacy_action job).
Proof. unfold _create_privacy_action, lock_evidence_transaction, new_privacy_action, last_privacy_sequence. by_seals. Qed.
#[local] Hint Resolve seals_privacy_action : seals.
Lemma seals_revoke user : keeps seals (revoke_all_user_sessions user).
Proof. unfold revoke_all_user_sessions. by_seals. Qed.
#[local] Hint Resolve seals_revoke : seals.
Lemma seals_assign {R} (t : database -> list R) `{!Setter t} key id f :
  (forall g db, t_deletion_cases (set_field t g db) = t_deletion_cases db) -> keeps seals (assign t key id f).
Proof. intros Ht w. apply seals_same; [apply Ht|done]. Qed.
Lemma seals_rows {R} (t : database -> list R) `{!Setter t} key p f :
  (forall g db, t_deletion_cases (set_field t g db) = t_deletion_cases db) -> keeps seals (for_rows t key p f).
Proof.
  intros Ht. unfold for_rows. apply keeps_bind; [typeclasses eauto|by intros w H|]. intros l.
  apply keeps_mfor; [typeclasses eauto|]. intros r. apply keeps_bind; [typeclasses eauto|auto with seals|].
  intros r'. by apply seals_assign.
Qed.

Lemma seals_event_case event reason now : keeps seals (create_event_erasure_case event reason now).
Proof. unfold create_event_erasure_case, the_event, row, stable_instance_id. by_seals. Qed.
Lemma seals_capability job : keeps seals (issue_status_capability job).
Proof. unfold issue_status_capability. by_seals. Qed.
Lemma seals_orders job event subject : keeps seals (ensure_desktop_work_order job event subject).
Proof.
  unfold ensure_desktop_work_order, ensure_case_scope, the_event, row, order_for_identity, require_processor, open_work_order.
  by_seals.
Qed.
Lemma seals_accept_event job event : keeps seals (accept_event_request job event).
Proof. unfold accept_event_request, the_event, row. by_seals. Qed.
Lemma seals_accept_subject job user : keeps seals (accept_subject_request job user).
Proof. unfold accept_subject_request, revoke_account. by_seals. Qed.
Lemma seals_claim o : keeps seals (claim_work_order o).
Proof. unfold claim_work_order, the_order, row. by_seals. Qed.
Lemma seals_report job o capability report package : keeps seals (apply_desktop_report job o capability report package).
Proof.
  unfold apply_desktop_report, check_claim, record_report, merge_actions, the_requirement, pending_deletions, the_order, row.
  by_seals.
Qed.
Lemma seals_actions job actions : keeps seals (resolve_outstanding_actions job actions).
Proof. unfold resolve_outstanding_actions, _backup_inventory_resolved. by_seals. Qed.
Lemma seals_copies job o document package : keeps seals (apply_desktop_copy_resolution job o document package).
Proof. unfold apply_desktop_copy_resolution, the_requirement, the_order, row. by_seals. Qed.

Lemma seals_published target : keeps seals (purge_published_copy target).
Proof. unfold purge_published_copy. by_seals; by apply seals_rows. Qed.
Lemma seals_account user : keeps seals (purge_account_rows user).
Proof. unfold purge_account_rows. by_seals. Qed.
Lemma seals_applied job now : keeps seals (applied_receipt job now).
Proof. unfold applied_receipt. by_seals. Qed.
#[local] Hint Resolve seals_published seals_account seals_applied : seals.
Lemma seals_purge_subject job user : keeps seals (purge_subject_live_data job user).
Proof. unfold purge_subject_live_data, the_user, row, published_targets, anonymise_audit. by_seals. Qed.
Lemma seals_event_users event : keeps seals (purge_event_users event).
Proof. unfold purge_event_users. by_seals. Qed.
#[local] Hint Resolve seals_event_users : seals.
Lemma seals_purge_event job event : keeps seals (purge_event_live_data job event).
Proof. unfold purge_event_live_data, the_event, row, close_event_scopes. by_seals. Qed.
Lemma seals_peer job protection : keeps seals (confirm_case_peer job protection).
Proof. unfold confirm_case_peer. by_seals. Qed.
Lemma seals_resolve job peer : keeps seals (resolve_peer_snapshots job peer).
Proof. unfold resolve_peer_snapshots. by_seals. Qed.
#[local] Hint Resolve seals_resolve : seals.
Lemma seals_backup job receipt peer : keeps seals (confirm_case_clean_backup job receipt peer).
Proof.
  unfold confirm_case_clean_backup, record_superseded_portable_backups, record_superseded_package, record_clean_backup,
    supersede_others. by_seals.
Qed.
Lemma seals_no_backups job : keeps seals (confirm_no_controlled_backups job).
Proof. unfold confirm_no_controlled_backups, controlled_snapshot_count, file_at. by_seals. Qed.
Lemma seals_prerequisites job : keeps seals (checklist_prerequisites job).
Proof. unfold checklist_prerequisites, case_processors, _backup_inventory_resolved. by_seals. Qed.
#[local] Hint Resolve seals_prerequisites : seals.
Lemma seals_checklist job : keeps seals (build_checklist job).
Proof. unfold build_checklist, case_scopes, case_processors. by_seals. Qed.
Lemma seals_approval job role user credential : keeps seals (record_checklist_approval job role user credential).
Proof. unfold record_checklist_approval. by_seals. Qed.
Lemma seals_reconcile job peer : keeps seals (reconcile_completed_case_peer_snapshot job peer).
Proof. unfold reconcile_completed_case_peer_snapshot. by_seals. Qed.

(** ** Completion *)

Lemma only_completion job : keeps evidence_only (completion_evidence job).
Proof.
  unfold completion_evidence, checklist_prerequisites, stored_checklist, the_case, row, case_processors, case_scopes,
    _backup_inventory_resolved. pose proof only_utc_now. by_keeps.
Qed.

Lemma close_sealed (p : DeletionCase -> bool) f g l c :
  Forall sealed l -> List.find p l = Some c -> p (f c) = true -> sealed (g (f c)) ->
  Forall sealed (update_first p g (update_first p f l)).
Proof.
  intros Hl. induction Hl as [|x l Hx Hl IH]; [done|]. cbn. destruct (p x) eqn:E; cbn.
  - intros [= ->] Hp Hs. rewrite Hp. by constructor.
  - rewrite E. constructor; auto.
Qed.

Lemma seals_complete job : keeps seals (complete_case job).
Proof.
  intros w. destruct (complete_case job w) as [r w'] eqn:H. cbn [snd]. apply complete_case_split in H.
  destruct H as [(e & _ & H)|(digest & now & w2 & _ & H & ->)].
  - apply evidence_seals. exact (keeps_run _ _ _ _ _ (only_completion job) H).
  - apply completion_evidence_inv in H as (c & checklist & payload & Hc & _ & Hp & Hl & Ha & _ & _ & Ho).
    intros HH. apply (evidence_seals _ _ Ho) in HH as [H1 H2]. split; [|exact H2].
    assert (t_deletion_cases (w_db w2) = t_deletion_cases (w_db w)) as Ec
      by exact (f_equal t_deletion_cases (only_tables Ho)).
    unfold all_sealed, close_case. cbn. unfold all_sealed in H1. eapply close_sealed; [exact H1|by rewrite Ec|..].
    + apply find_some in Hc as [_ Hc]. exact Hc.
    + destruct Hp as (_ & (s & Hs & _)%truthy_some & _), Hl as (text & d & Ht & _ & _ & Hsha & Hd & _), Ha as (a & _ & _ & _ & _ & Hap).
      unfold sealed. cbn. rewrite Hs, <-Hap. intros _. split; [done|]. split; [by exists text, d|done].
Qed.

Lemma seals_ignore {A} (m : py A) : keeps seals m -> keeps seals (ignore m).
Proof. intros H. unfold ignore. by_seals. Qed.
#[local] Hint Resolve seals_ignore seals_event_case seals_capability seals_orders seals_accept_event seals_accept_subject
  seals_claim seals_report seals_actions seals_copies seals_purge_subject seals_purge_event seals_peer seals_backup
  seals_no_backups seals_checklist seals_approval seals_complete seals_reconcile : seals.

(** C8: whatever calls of the workflow are made, in any order, whether they
    succeed or fail halfway, and whether they are then committed or rolled back: a
    case that is marked complete has the receipt of its live purge, a
    checklist whose digest is the one it records, the executor's approval, the receipt of its completion and its
    time, and no display name. *)
Theorem complete_cases_are_sealed w0 w c
  (Hdb : all_sealed (w_db w0)) (Hcommitted : all_sealed (w_committed w0))
  (Hreach : reachable w0 w) (Hc : c ∈ t_deletion_cases (w_db w)) (Hs : dc_state c = "complete"%string) :
  is_some (dc_live_purge_receipt_sha256 c) = true /\
  checklist_intact (dc_checklist_json c) (dc_checklist_sha256 c) /\ is_some (dc_executor_approval_sha256 c) = true /\
  is_some (dc_final_receipt_sha256 c) = true /\ is_some (dc_completed_at c) = true /\
  dc_event_display_name c = None /\ dc_subject_display_name c = None.
Proof.
  enough (all_sealed (w_db w) /\ all_sealed (w_committed w)) as [H _]
    by (unfold all_sealed in H; rewrite Forall_forall in H; by apply H).
  clear c Hc Hs. induction Hreach as [|w c _ IH]; [done|]. revert IH.
  change (seals w (perform c w).2). revert w. change (keeps seals (perform c)). destruct c; cbn [perform]; auto with seals.
Qed.
End Lifecycle.

(** ** A small run *)

Module Calls.
Definition small : list call :=
  [AcceptSubject 1 7; Commit; PurgeSubject 1 7; ConfirmNoBackups 1; BuildChecklist 1;
   Approve 1 "executor" 9 "credential"; Complete 1; Commit; PurgeSubject 1 7].
Definition performed (calls : list call) (w : world) : world := fold_left (fun w c => (perform c w).2) calls w.
Lemma performed_reachable calls w0 w : reachable w0 w -> reachable w0 (performed calls w).
Proof. revert w. induction calls as [|c calls IH]; intros w H; [done|]. apply IH. by constructor. Qed.
End Calls.

Lemma complete_cases_are_sealed_witness :
  exists c, c ∈ t_deletion_cases (w_db (Calls.performed Calls.small Small.start)) /\ dc_state c = "complete"%string /\
    dc_subject_display_name c = None /\ is_some (dc_live_purge_receipt_sha256 c) = true.
Proof.
  pose proof (Calls.performed_reachable Calls.small Small.start _ (reach_start _)) as Hreach.
  assert (all_sealed (w_db Small.start)) as Hdb by (repeat constructor; discriminate).
  assert (all_sealed (w_committed Small.start)) as Hcommitted by (repeat constructor; discriminate).
  assert (option_map dc_state (hd_error (t_deletion_cases (w_db (Calls.performed Calls.small Small.start))))
          = Some "complete"%string) as Hs by (vm_compute; reflexivity).
  destruct (t_deletion_cases (w_db (Calls.performed Calls.small Small.start))) as [|c l] eqn:E; [discriminate Hs|].
  injection Hs as Hs.
  assert (c ∈ t_deletion_cases (w_db (Calls.performed Calls.small Small.start))) as Hin by (rewrite E; by left).
  destruct (complete_cases_are_sealed Small.start _ c Hdb Hcommitted Hreach Hin Hs) as (Hp & _ & _ & _ & _ & _ & Hn).
  exists c. split; [by left|]. split; [exact Hs|]. split; [exact Hn|exact Hp].
Defined.
