(* ===== verification/ActivationMail.v ===== *)
(** What is left of an interrupted activation e-mail,
    [recover_stale_deliveries] of [backend/app/core/activation_email.py].  The
    sending itself is SMTP and image rendering. *)
From Stdlib Require Import ZArith Lia String.
From stdpp Require Import base list strings.
From S2P Require Import Prelude Text Json PyTime Models World Cascade.

Definition stale (user_id : option Z) (force : bool) (cutoff : datetime) (d : ActivationEmailDelivery) : bool :=
  String.eqb (ad_status d) "sending" &&
  (force || match ad_started_at d with Some t => instant t <? instant cutoff | None => false end) &&
  match user_id with Some u => ad_user_id d =? u | None => true end.

Definition interrupted (completed_at : datetime) (d : ActivationEmailDelivery) : ActivationEmailDelivery :=
  d <| ad_status := "unknown"%string |> <| ad_error_code := Some "delivery_interrupted"%string |>
    <| ad_error_message := Some ("Delivery was interrupted and could not be confirmed. " +:+
                                 "The activation link was invalidated; send a fresh email.") |>
    <| ad_completed_at := Some completed_at |>.
Definition withdrawn (completed_at : datetime) (l : ActivationLink) : ActivationLink :=
  let l := l <| al_delivery_pending := false |> in
  if is_none (al_used_at l) then l <| al_invalidated_at := Some completed_at |> else l.

(** The objects the session holds changes of, by primary key, until a flush. *)
Record unflushed : Type := Unflushed { dirty_deliveries : list Z; dirty_links : list Z }.
Definition clean : unflushed := Unflushed [] [].

Definition recover_delivery (completed_at : datetime) (d : ActivationEmailDelivery) : py (list Z) :=
  _ ← assign t_activation_email_deliveries ad_id (ad_id d) (interrupted completed_at);
  match ad_activation_link_id d with
  | None => mret []
  | Some id =>
      link ← q_first t_activation_links (fun l => al_id l =? id);
      match link with
      | None => mret []
      | Some link =>
          _ ← assign t_activation_links al_id id (withdrawn completed_at);
          mret (if al_delivery_pending link || is_none (al_used_at link) then [id] else [])
      end
  end.

(** The number of deliveries, and what stays unflushed. *)
Definition recover_stale_deliveries (user_id : option Z) (force : bool) (now : option datetime) : py (Z * unflushed) :=
  timeout ← setting SMTP_TIMEOUT_SECONDS;
  let grace_seconds := Z.max (timeout * 4) 120 in
  current_time ← match now with Some n => mret n | None => utc_now end;
  let cutoff := add_us current_time (- (grace_seconds * us_second)) in
  deliveries ← q_all t_activation_email_deliveries (stale user_id force cutoff);
  links ← mmap (recover_delivery current_time) deliveries;
  mret (Z.of_nat (length deliveries), Unflushed (map ad_id deliveries) (concat links)).

(** The flush of those changes: an UPDATE of a row that a bulk DELETE removed in
    the meantime changes no row, which SQLAlchemy reports. *)
Definition flush (u : unflushed) : py unit :=
  db ← gets w_db;
  throw_if (negb (forallb (fun i => among (map ad_id (t_activation_email_deliveries db)) i) (dirty_deliveries u) &&
                  forallb (fun i => among (map al_id (t_activation_links db)) i) (dirty_links u)))
    StaleDataError "UPDATE statement matched no row".
