(* ===== verification/Snapshots.v ===== *)
(** The archive of published schedules, [backend/app/core/snapshots.py].  The
    sessions have [autoflush=False]: the pruning does not see the snapshot that was
    just added, which the next flush writes. *)
From Stdlib Require Import ZArith Lia Ascii String SpecFloat.
From stdpp Require Import base list strings.
From S2P Require Import Prelude Text Json Sha256 PyTime Ordering ScheduleDays Models World RuntimeSettings Cascade WebEdits Calendar CalendarEdits.

(** ** Pruning *)

Definition snapshot_of (event_id : Z) (s : PublishSnapshot) : bool := sn_event_id s =? event_id.
Definition prunable (event_id : Z) (s : PublishSnapshot) : bool := snapshot_of event_id s && negb (sn_frozen s).

Definition _prune_old_snapshots (event_id : Z) : py unit :=
  max_snaps ← get_int "max_snapshots_per_event";
  snapshots ← q_all t_publish_snapshots (snapshot_of event_id);
  let excess := Z.of_nat (length snapshots) - max_snaps in
  if excess <=? 0 then mret tt
  else
    unfrozen ← q_all t_publish_snapshots (prunable event_id);
    let oldest_ids := map sn_id (firstn (Z.to_nat excess) (order_by sn_version unfrozen)) in
    when (negb (bool_decide (oldest_ids = [])))
      (_ ← q_delete t_publish_snapshots (fun s => among oldest_ids (sn_id s)); mret tt).

(** ** What a snapshot holds *)

Definition of_opt_float (o : option spec_float) : json := match o with Some f => JFloat f | None => JNull end.

Definition _serialize_raw_task (task : PublishedTask) : json :=
  JObj [("external_task_id", JInt (pt_external_task_id task)); ("name", JStr (pt_name task));
        ("summary", of_opt_str (pt_summary task)); ("description", of_opt_str (pt_description task));
        ("start_datetime", JStr (isoformat (pt_start_datetime task)));
        ("end_datetime", JStr (isoformat (pt_end_datetime task)));
        ("location_name", of_opt_str (pt_location_name task)); ("location_address", of_opt_str (pt_location_address task));
        ("task_type_code", of_opt_str (pt_task_type_code task)); ("task_type_name", of_opt_str (pt_task_type_name task));
        ("color", of_opt_str (pt_color task)); ("attendees_json", of_opt_str (pt_attendees_json task));
        ("field_assignments_json", of_opt_str (pt_field_assignments_json task));
        ("field_values_json", of_opt_str (pt_field_values_json task));
        ("field_definitions_json", of_opt_str (pt_field_definitions_json task));
        ("additional_json", of_opt_str (pt_additional_json task)); ("sort_order", of_opt_float (pt_sort_order task));
        ("web_created", JBool (pt_web_created task))]%string.
Definition _serialize_raw_person (person : PublishedPerson) : json :=
  JObj [("external_person_id", JInt (pp_external_person_id person)); ("first_name", JStr (pp_first_name person));
        ("last_name", JStr (pp_last_name person)); ("email", of_opt_str (pp_email person))]%string.
Definition raw_unavailability (u : PublishedPersonUnavailability) : json :=
  JObj [("external_person_id", JInt (pu_external_person_id u)); ("working_date", JStr (pu_working_date u));
        ("start_datetime", JStr (pu_start_datetime u)); ("end_datetime", JStr (pu_end_datetime u))]%string.
Definition event_meta (event : Event) : json :=
  JObj [("name", JStr (ev_name event)); ("start_date", of_opt_str (option_map date_string (ev_start_date event)));
        ("end_date", of_opt_str (option_map date_string (ev_end_date event)));
        ("metadata_json", of_opt_str (ev_metadata_json event))]%string.

(** [out.model_dump()] *)
Definition dump_attendees (l : list AttendeeOut) : json := JList (map dump_attendee l).
Definition dump_task (t : TaskOut) : json :=
  JObj [("id", JInt (to_id t)); ("external_task_id", JInt (to_external_task_id t)); ("name", JStr (to_name t));
        ("summary", of_opt_str (to_summary t)); ("description", of_opt_str (to_description t));
        ("start", JStr (to_start t)); ("end", JStr (to_end t)); ("working_date", JStr (to_working_date t));
        ("location_name", of_opt_str (to_location_name t)); ("location_address", of_opt_str (to_location_address t));
        ("task_type_code", of_opt_str (to_task_type_code t)); ("task_type_name", of_opt_str (to_task_type_name t));
        ("color", of_opt_str (to_color t)); ("attendees", dump_attendees (to_attendees t));
        ("field_assignments", match to_field_assignments t with
                              | Some d => JObj (map (fun kv => (kv.1, dump_attendees kv.2)) d) | None => JNull end);
        ("field_values", match to_field_values t with Some d => JObj d | None => JNull end);
        ("field_definitions", match to_field_definitions t with
                              | Some l => JList (map (fun d => JObj (map (fun kv => (kv.1, JStr kv.2)) d)) l) | None => JNull end);
        ("additional", match to_additional t with Some d => JObj d | None => JNull end);
        ("sort_order", JFloat (to_sort_order t)); ("has_web_edit", JBool (to_has_web_edit t));
        ("web_edit_edited_at", of_opt_str (to_web_edit_edited_at t));
        ("web_edit_edited_by", of_opt_str (to_web_edit_edited_by t));
        ("web_edit_edited_by_user_id", of_opt_int (to_web_edit_edited_by_user_id t));
        ("web_edit_change_summary", JList (map JStr (to_web_edit_change_summary t)))]%string.

Definition edits_summary (edits : list TaskEdit) : json :=
  let ids p := JList (map (fun e => JInt (te_task_id e)) (List.filter p edits)) in
  JObj [("edited_task_ids", ids (fun e => negb (te_is_deleted e))); ("deleted_task_ids", ids te_is_deleted);
        ("total", JInt (Z.of_nat (length edits)))]%string.

(** The parts of the published state that do not change when it is written again *)
Definition stable_parts (event : Event) (tasks : list PublishedTask) (persons : list PublishedPerson)
  (unavailabilities : list PublishedPersonUnavailability) : list (string * json) :=
  [("raw_tasks", JList (map _serialize_raw_task tasks)); ("persons", JList (map _serialize_raw_person persons));
   ("unavailabilities", JList (map raw_unavailability unavailabilities)); ("event_meta", event_meta event)]%string.
Definition content_hash_of (event : Event) (tasks : list PublishedTask) (persons : list PublishedPerson)
  (unavailabilities : list PublishedPersonUnavailability) : string :=
  sha256 (dumps_sorted (JObj (stable_parts event tasks persons unavailabilities))).

(** ** Making one *)

(** [max(...) or 0] *)
Definition max_of (l : list Z) : Z := match l with [] => 0 | v :: l => fold_right Z.max v l end.

Section Create.
Context (repr_container : json -> string) (as_int : json -> option Z).

Definition resolve_task (event : Event) (edits : list TaskEdit) (t : PublishedTask) : outcome (option TaskOut) :=
  range ← event_schedule_day_range (ev_metadata_json event);
  _task_to_out repr_container as_int t (edit_of edits t) None true true true range.

Definition create_snapshot (event : Event) (source : string) : py (option PublishSnapshot) :=
  tasks ← q_all t_published_tasks (fun t => pt_event_id t =? ev_id event);
  let tasks := sort_with Calendar.task_le tasks in
  match tasks with
  | [] => mret None
  | _ =>
      persons ← q_all t_published_persons (fun p => pp_event_id p =? ev_id event);
      let persons := sort_with person_le persons in
      unavailabilities ← q_all t_published_person_unavailability (fun u => pu_event_id u =? ev_id event);
      let unavailabilities := sort_with unavailability_le unavailabilities in
      edits ← edits_of tasks;
      resolved ← lift (map_outcome (resolve_task event edits) tasks);
      let stable := stable_parts event tasks persons unavailabilities in
      let snapshot_json := dumps_sorted (JObj (("tasks", JList (map dump_task (omap id resolved)))
                                               :: ("edits_summary", edits_summary edits) :: stable))%string in
      let content_hash := content_hash_of event tasks persons unavailabilities in
      existing ← q_first t_publish_snapshots (fun s => snapshot_of (ev_id event) s && String.eqb (sn_content_hash s) content_hash);
      if is_some existing then mret None else
      frozen ← q_all t_publish_snapshots (fun s => snapshot_of (ev_id event) s && sn_frozen s);
      max_snaps ← get_int "max_snapshots_per_event";
      if max_snaps <=? Z.of_nat (length frozen) then mret None
      else
        all ← q_all t_publish_snapshots (snapshot_of (ev_id event));
        let next_version := max_of (map sn_version all) + 1 in
        _ ← _prune_old_snapshots (ev_id event);
        now ← utc_now;
        snapshot ← q_insert t_publish_snapshots (fun i => (new_PublishSnapshot now) <| sn_id := i |>
          <| sn_event_id := ev_id event |> <| sn_version := next_version |> <| sn_snapshot_json := snapshot_json |>
          <| sn_content_hash := content_hash |> <| sn_task_count := Z.of_nat (length tasks) |>
          <| sn_person_count := Z.of_nat (length persons) |> <| sn_edits_count := Z.of_nat (length edits) |>
          <| sn_source := Some source |>);
        mret (Some snapshot)
  end.
End Create.
