(* ===== verification/SnapshotProps.v ===== *)
(** The archive of an event's schedules: what making a snapshot leaves of it. *)
From Stdlib Require Import ZArith Lia Ascii String SpecFloat Permutation.
From stdpp Require Import base list strings.
From S2P Require Import Prelude Text TextFacts Json JsonFacts JsonText PyTime PyBuiltins IsoFormat Ordering ScheduleDays Models World RuntimeSettings Cascade Sessions Security AuditTrail Ha HaWitness HaProps HaReplication Push WebEdits Calendar CalendarEdits CalendarProps DeletionProps Snapshots.

(** ** Lists of rows *)

Section Rows.
Context {R : Type} (key : R -> Z).
Lemma insert_by_perm (k : R -> Z) x l : insert_by k x l ≡ₚ x :: l.
Proof.
  induction l as [|y l IH]; [done|]. cbn. destruct (k x <=? k y); [done|]. rewrite IH. apply Permutation_swap.
Qed.
Lemma order_by_perm (k : R -> Z) l : order_by k l ≡ₚ l.
Proof. induction l as [|x l IH]; [done|]. cbn [order_by fold_right]. by rewrite insert_by_perm, IH. Qed.
Lemma among_true l i : among l i = true <-> i ∈ l.
Proof.
  unfold among. rewrite existsb_exists. setoid_rewrite <-list_elem_of_In. split.
  - intros (j & Hj & ->%Z.eqb_eq). done.
  - intros Hi. exists i. by rewrite Z.eqb_refl.
Qed.
Lemma filter_all (p : R -> bool) l : (forall x, x ∈ l -> p x = true) -> List.filter p l = l.
Proof. induction l as [|x l IH]; intros H; cbn; [done|]. rewrite (H x) by left. f_equal. apply IH. intros y Hy. apply H. by right. Qed.
Lemma filter_split (p : R -> bool) l : l ≡ₚ List.filter p l ++ List.filter (fun x => negb (p x)) l.
Proof.
  induction l as [|x l IH]; [done|]. cbn. destruct (p x); cbn; [by rewrite <-IH|].
  rewrite IH at 1. apply Permutation_middle.
Qed.
(** Rows without the first ones of an arrangement of them, by their keys *)
Lemma filter_taken n (l l' : list R) : NoDup (map key l) -> l' ≡ₚ l ->
  List.filter (fun x => negb (among (map key (firstn n l')) (key x))) l ≡ₚ skipn n l'.
Proof.
  intros Hnd Hp. set (p := fun x : R => _). transitivity (List.filter p l'); [by apply filter_perm|]. assert (NoDup (map key l')) as Hnd' by by rewrite Hp.
  rewrite <-(firstn_skipn n l') in Hnd'. rewrite map_app in Hnd'. apply NoDup_app in Hnd' as (_ & Hdis & _).
  transitivity (List.filter p (firstn n l' ++ skipn n l')); [by rewrite firstn_skipn|]. rewrite List.filter_app. unfold p.
  rewrite filter_none, filter_all; [done| |].
  - intros x Hx. apply negb_true_iff, not_true_iff_false. rewrite among_true. intros Hin. apply (Hdis _ Hin). by apply list_elem_of_fmap_2.
  - intros x Hx%list_elem_of_In. apply negb_false_iff, among_true. by apply list_elem_of_fmap_2.
Qed.
End Rows.

(** ** Pruning *)

Definition archive (event_id : Z) (w : world) : list PublishSnapshot := List.filter (snapshot_of event_id) (t_publish_snapshots (w_db w)).
Definition no_snapshots (db : database) : database := db <| t_publish_snapshots := [] |>.
Definition doomed (event_id limit : Z) (w : world) : list Z :=
  map sn_id (firstn (Z.to_nat (Z.of_nat (length (archive event_id w)) - limit))
    (order_by sn_version (List.filter (prunable event_id) (t_publish_snapshots (w_db w))))).
Lemma same_snapshots f db : f (t_publish_snapshots db) = t_publish_snapshots db -> set_field t_publish_snapshots f db = db.
Proof. destruct db. unfold set_field. cbn. by intros ->. Qed.
Lemma same_table f w : f (t_publish_snapshots (w_db w)) = t_publish_snapshots (w_db w) -> on_table t_publish_snapshots f w = w.
Proof. intros H. unfold on_table. rewrite (same_snapshots f (w_db w) H). by destruct w. Qed.
Lemma prune_run event_id w u w' : _prune_old_snapshots event_id w = (Ok u, w') ->
  exists limit, (get_int "max_snapshots_per_event" w).1 = Ok limit /\
    w' = on_table t_publish_snapshots (List.filter (fun s => negb (among (doomed event_id limit w) (sn_id s)))) w.
Proof.
  unfold _prune_old_snapshots. intros H. apply Mbind_Ok_inv in H as (limit & w1 & Hl & H).
  exists limit. split; [by rewrite Hl|]. pose proof (get_int_keeps _ _ _ _ Hl) as ->.
  apply Mbind_Ok_inv in H as (l & ? & [-> ->]%q_all_inv & H). fold (archive event_id w) in H.
  assert (forall ids, ids = [] -> w = on_table t_publish_snapshots (List.filter (fun s => negb (among ids (sn_id s)))) w) as Hnil.
  { intros ids ->. symmetry. apply same_table. by apply filter_all. }
  unfold doomed. destruct (Z.leb_spec (Z.of_nat (length (archive event_id w)) - limit) 0).
  - apply mret_Ok_inv in H as [_ ->]. apply Hnil. by rewrite Z2Nat.nonpos.
  - apply Mbind_Ok_inv in H as (l & ? & [-> ->]%q_all_inv & H). unfold when in H.
    destruct (bool_decide _) eqn:E; cbn [negb] in H; bool_norm.
    + apply mret_Ok_inv in H as [_ ->]. by apply Hnil.
    + apply Mbind_Ok_inv in H as (n & ? & ->%delete_inv & [_ ->]%mret_Ok_inv). done.
Qed.

(** ** Making a snapshot *)

Section Making.
Context (repr_container : json -> string) (as_int : json -> option Z).

Definition tasks_of (event_id : Z) (w : world) : list PublishedTask :=
  sort_with Calendar.task_le (List.filter (fun t => pt_event_id t =? event_id) (t_published_tasks (w_db w))).
Definition persons_of (event_id : Z) (w : world) : list PublishedPerson :=
  sort_with person_le (List.filter (fun p => pp_event_id p =? event_id) (t_published_persons (w_db w))).
Definition unavailabilities_of (event_id : Z) (w : world) : list PublishedPersonUnavailability :=
  sort_with unavailability_le (List.filter (fun u => pu_event_id u =? event_id) (t_published_person_unavailability (w_db w))).
(** The hash of the schedule that is live *)
Definition live_hash (event : Event) (w : world) : string :=
  content_hash_of event (tasks_of (ev_id event) w) (persons_of (ev_id event) w) (unavailabilities_of (ev_id event) w).
(** What a snapshot holds: a schedule with its metadata *)
Definition snapshot_parts (event : Event) (resolved edits : json) (w : world) : list (string * json) :=
  (("tasks", resolved) :: ("edits_summary", edits)
   :: stable_parts event (tasks_of (ev_id event) w) (persons_of (ev_id event) w) (unavailabilities_of (ev_id event) w))%string.
Definition taken_from (event : Event) (w : world) (s : PublishSnapshot) : Prop :=
  sn_event_id s = ev_id event /\ sn_content_hash s = live_hash event w /\
  exists resolved edits, sn_snapshot_json s = dumps_sorted (JObj (snapshot_parts event resolved edits w)).

Lemma create_run event source w o w' : create_snapshot repr_container as_int event source w = (Ok o, w') ->
  match o with
  | None =>
      w' = w /\
      (tasks_of (ev_id event) w = [] \/ (exists s, s ∈ archive (ev_id event) w /\ sn_content_hash s = live_hash event w) \/
       exists limit, (get_int "max_snapshots_per_event" w).1 = Ok limit /\
         limit <= Z.of_nat (length (List.filter sn_frozen (archive (ev_id event) w))))
  | Some s =>
      taken_from event w s /\ sn_version s = max_of (map sn_version (archive (ev_id event) w)) + 1 /\ sn_frozen s = false /\
      exists limit, (get_int "max_snapshots_per_event" w).1 = Ok limit /\
        Z.of_nat (length (List.filter sn_frozen (archive (ev_id event) w))) < limit /\
        t_publish_snapshots (w_db w') =
          List.filter (fun x => negb (among (doomed (ev_id event) limit w) (sn_id x))) (t_publish_snapshots (w_db w)) ++ [s] /\
        no_snapshots (w_db w') = no_snapshots (w_db w) /\ w_committed w' = w_committed w
  end.
Proof.
  unfold create_snapshot. intros H.
  apply Mbind_Ok_inv in H as (tasks & ? & [-> ->]%q_all_inv & H). fold (tasks_of (ev_id event) w) in H.
  destruct (tasks_of (ev_id event) w) as [|t0 ts] eqn:Et; [apply mret_Ok_inv in H as [-> ->]; auto|]. rewrite <-Et in H.
  apply Mbind_Ok_inv in H as (persons & ? & [-> ->]%q_all_inv & H). fold (persons_of (ev_id event) w) in H.
  apply Mbind_Ok_inv in H as (unav & ? & [-> ->]%q_all_inv & H). fold (unavailabilities_of (ev_id event) w) in H.
  apply Mbind_Ok_inv in H as (edits & ? & [-> ->]%q_all_inv & H).
  apply Mbind_Ok_inv in H as (resolved & ? & [_ ->]%lift_Ok_inv & H).
  apply Mbind_Ok_inv in H as (existing & ? & [-> ->]%first_row_inv & H).
  fold (live_hash event w) in H.
  match type of H with context [List.find ?p ?l] => destruct (List.find p l) as [x|] eqn:Ex end; cbn [is_some] in H.
  { apply mret_Ok_inv in H as [-> ->]. split; [done|]. right. left. apply find_some in Ex as [Hin Hx]. bool_norm.
    exists x. split; [|done]. apply list_elem_of_In, filter_In. auto. }
  apply Mbind_Ok_inv in H as (frozen & ? & [-> ->]%q_all_inv & H).
  apply Mbind_Ok_inv in H as (limit & w1 & Hl & H). pose proof (get_int_keeps _ _ _ _ Hl) as ->.
  rewrite <-filter_filter in H. fold (archive (ev_id event) w) in H.
  destruct (Z.leb_spec limit (Z.of_nat (length (List.filter sn_frozen (archive (ev_id event) w))))) as [Hle|Hlt].
  { apply mret_Ok_inv in H as [-> ->]. split; [done|]. right. right. exists limit. by rewrite Hl. }
  apply Mbind_Ok_inv in H as (all & ? & [-> ->]%q_all_inv & H). fold (archive (ev_id event) w) in H.
  apply Mbind_Ok_inv in H as (u & w1 & (limit' & Hl' & ->)%prune_run & H).
  rewrite Hl in Hl'. injection Hl' as <-.
  apply Mbind_Ok_inv in H as (now & w2 & [-> ->]%utc_now_inv & H).
  apply Mbind_Ok_inv in H as (s & w3 & Hi & [-> ->]%mret_Ok_inv). injection Hi as <- <-.
  split; [|split; [done|split; [done|]]].
  - split; [done|]. split; [done|]. by eexists _, _.
  - exists limit. rewrite Hl. split; [done|]. split; [done|]. split; [done|]. split; [|done]. by destruct w as [[]].
Qed.
End Making.

(** ** The archive *)

Lemma map_filter_nodup {R} (key : R -> Z) (p : R -> bool) l : NoDup (map key l) -> NoDup (map key (List.filter p l)).
Proof.
  induction l as [|x l IH]; cbn; [done|]. intros [Hx Hl]%NoDup_cons. destruct (p x); [|by apply IH]. cbn. apply NoDup_cons.
  split; [|by apply IH]. intros (y & Hy & Hin)%list_elem_of_fmap. apply Hx. rewrite Hy. apply list_elem_of_fmap_2.
  apply list_elem_of_In, filter_In in Hin as [Hin _]. by apply list_elem_of_In.
Qed.
Lemma filter_in {R} (p : R -> bool) l x : x ∈ List.filter p l <-> x ∈ l /\ p x = true.
Proof. by rewrite !list_elem_of_In, filter_In. Qed.
Lemma keyed_once {R} (key : R -> Z) l x y : NoDup (map key l) -> x ∈ l -> y ∈ l -> key x = key y -> x = y.
Proof.
  induction l as [|z l IH]; cbn; [by rewrite elem_of_nil|]. intros [Hz Hl]%NoDup_cons. rewrite !elem_of_cons.
  intros [->|Hx] [->|Hy] E; [done| | |by apply IH].
  - destruct Hz. rewrite E. by apply list_elem_of_fmap_2.
  - destruct Hz. rewrite <-E. by apply list_elem_of_fmap_2.
Qed.

Section Sorted.
Context {R : Type} (key : R -> Z).
Fixpoint ascending (l : list R) : Prop := match l with [] => True | x :: l => (forall y, y ∈ l -> key x <= key y) /\ ascending l end.
Lemma insert_ascending x l : ascending l -> ascending (insert_by key x l).
Proof.
  induction l as [|y l IH]; cbn [insert_by ascending].
  { intros _. split; [|done]. intros y Hy. by apply elem_of_nil in Hy. }
  intros [Hy Hl]. destruct (Z.leb_spec (key x) (key y)); cbn [ascending].
  - split; [|done]. intros z [->|Hz]%elem_of_cons; [done|]. specialize (Hy z Hz). lia.
  - split; [|by apply IH]. intros z. rewrite (insert_by_perm key x l), elem_of_cons. intros [->|Hz]; [lia|auto].
Qed.
Lemma order_ascending l : ascending (order_by key l).
Proof. induction l as [|x l IH]; [done|]. by apply insert_ascending. Qed.
Lemma ascending_split n l x y : ascending l -> x ∈ firstn n l -> y ∈ skipn n l -> key x <= key y.
Proof.
  revert n. induction l as [|z l IH]; intros [|n] Ha; cbn; try by intros ?%elem_of_nil.
  destruct Ha as [Hz Hl]. intros [->|Hx]%elem_of_cons Hy; [|by eapply IH].
  apply Hz. rewrite <-(firstn_skipn n l), elem_of_app. by right.
Qed.
End Sorted.

Section Bounded.
Context (event_id limit : Z) (w : world).
Let table := t_publish_snapshots (w_db w).
Context (Hnd : NoDup (map sn_id table)) (Hfrozen : Z.of_nat (length (List.filter sn_frozen (archive event_id w))) < limit).
Let excess := Z.to_nat (Z.of_nat (length (archive event_id w)) - limit).
Let young := order_by sn_version (List.filter (prunable event_id) table).
Let keep (s : PublishSnapshot) : bool := negb (among (doomed event_id limit w) (sn_id s)).

Lemma prunable_archive : List.filter (prunable event_id) table = List.filter (fun s => negb (sn_frozen s)) (archive event_id w).
Proof. unfold archive, prunable. symmetry. apply filter_filter. Qed.
Lemma doomed_young x : x ∈ table -> keep x = false -> x ∈ firstn excess young.
Proof.
  unfold keep. rewrite negb_false_iff, among_true. intros Hx (y & Hid & Hy)%list_elem_of_fmap.
  assert (y = x) as ->; [|done]. apply (keyed_once sn_id table); [done| |done|done].
  assert (y ∈ young) as Hin by (rewrite <-(firstn_skipn excess young), elem_of_app; by left).
  unfold young in Hin. rewrite order_by_perm, filter_in in Hin. tauto.
Qed.
Lemma young_prunable x : x ∈ firstn excess young -> x ∈ table /\ prunable event_id x = true.
Proof.
  intros Hx. assert (x ∈ young) as Hin by (rewrite <-(firstn_skipn excess young), elem_of_app; by left).
  unfold young in Hin. by rewrite order_by_perm, filter_in in Hin.
Qed.
Lemma kept_young : List.filter keep (List.filter (prunable event_id) table) ≡ₚ skipn excess young.
Proof. apply (filter_taken sn_id); [by apply map_filter_nodup|apply order_by_perm]. Qed.
Lemma kept_others x : x ∈ table -> prunable event_id x = false -> keep x = true.
Proof.
  intros Hx Hp. destruct (keep x) eqn:E; [done|]. apply doomed_young in E; [|done]. apply young_prunable in E as [_ E]. congruence.
Qed.
Lemma kept_count : Z.of_nat (length (List.filter keep (archive event_id w))) = Z.min (Z.of_nat (length (archive event_id w))) limit.
Proof.
  pose proof (filter_split sn_frozen (archive event_id w)) as Hs.
  assert (length (archive event_id w) = length (List.filter sn_frozen (archive event_id w)) + length young)%nat as Hn.
  { rewrite Hs at 1. rewrite length_app. f_equal. unfold young. by rewrite order_by_perm, prunable_archive. }
  rewrite (filter_perm keep _ _ Hs), List.filter_app, length_app.
  assert (List.filter keep (List.filter sn_frozen (archive event_id w)) = List.filter sn_frozen (archive event_id w)) as ->.
  { apply filter_all. intros x [Hx Hf]%filter_in. apply filter_in in Hx as [Hx _]. apply kept_others; [done|].
    unfold prunable. by rewrite Hf, andb_false_r. }
  rewrite <-prunable_archive, kept_young, length_skipn. unfold excess. lia.
Qed.
End Bounded.

Lemma max_of_le l x : x ∈ l -> x <= max_of l.
Proof.
  destruct l as [|v l]; [by intros ?%elem_of_nil|]. cbn [max_of]. revert x. induction l as [|z l IH]; cbn; intros x Hx.
  - apply list_elem_of_singleton in Hx. lia.
  - rewrite !elem_of_cons in Hx. destruct Hx as [->|[->|Hx]].
    + assert (v <= fold_right Z.max v l) by (apply IH; by left). lia.
    + lia.
    + assert (x <= fold_right Z.max v l) by (apply IH; by right). lia.
Qed.
(** C33: the archive of an event stays bounded: making a snapshot drops the
    unfrozen snapshots of least version until the limit is met, keeps every frozen
    one and those of other events, and adds the new one with a greater version than
    all before, so that an archive of [n] snapshots has [min n limit + 1]
    afterwards (one more than the setting names: the new row is not counted). *)
Theorem snapshot_archive_bounded repr_container as_int event source w s w'
  (Hnd : NoDup (map sn_id (t_publish_snapshots (w_db w))))
  (H : create_snapshot repr_container as_int event source w = (Ok (Some s), w')) :
  let before := archive (ev_id event) w in let after := archive (ev_id event) w' in
  exists limit, (get_int "max_snapshots_per_event" w).1 = Ok limit /\
    Z.of_nat (length after) = Z.min (Z.of_nat (length before)) limit + 1 /\
    (forall x, x ∈ before -> sn_frozen x = true -> x ∈ after) /\
    (forall x y, x ∈ before -> x ∉ after -> y ∈ before -> y ∈ after -> sn_frozen y = false -> sn_version x <= sn_version y) /\
    s ∈ after /\ (forall x, x ∈ before -> sn_version x < sn_version s) /\
    List.filter (fun x => negb (snapshot_of (ev_id event) x)) (t_publish_snapshots (w_db w')) =
    List.filter (fun x => negb (snapshot_of (ev_id event) x)) (t_publish_snapshots (w_db w)).
Proof.
  apply create_run in H as ((He & _) & Hv & _ & limit & Hl & Hf & Ht & _). cbv zeta. exists limit. split; [done|].
  set (keep := fun x : PublishSnapshot => negb (among (doomed (ev_id event) limit w) (sn_id x))) in *.
  assert (archive (ev_id event) w' = List.filter keep (archive (ev_id event) w) ++ [s]) as ->.
  { unfold archive. rewrite Ht, List.filter_app. cbn. unfold snapshot_of at 2. rewrite He, Z.eqb_refl, !filter_filter.
    f_equal. apply List.filter_ext. intros x. apply andb_comm. }
  split; [rewrite length_app; cbn; pose proof (kept_count (ev_id event) limit w Hnd Hf) as Hc; fold keep in Hc; lia|].
  split; [|split; [|split; [by rewrite elem_of_app, list_elem_of_singleton; right|split]]].
  - intros x Hx Hfr. rewrite elem_of_app, filter_in. left. split; [done|]. apply filter_in in Hx as [Hx _].
    apply (kept_others _ _ _ Hnd); [done|]. unfold prunable. by rewrite Hfr, andb_false_r.
  - intros x y Hx Hnx Hy Hky Hfr. rewrite elem_of_app, filter_in in Hnx. pose proof Hx as [Hxt _]%filter_in.
    pose proof Hy as [Hyt Hye]%filter_in.
    destruct (keep x) eqn:Ex; [destruct Hnx; auto|]. apply (doomed_young _ _ _ Hnd) in Ex; [|done].
    apply (ascending_split sn_version _ _ _ _ (order_ascending sn_version _) Ex).
    rewrite <-(kept_young _ _ _ Hnd), filter_in, filter_in.
    split; [split; [done|]|]; [unfold prunable; by rewrite Hye, Hfr|].
    apply elem_of_app in Hky as [[_ Hky]%filter_in|Hky]; [done|].
    apply list_elem_of_singleton in Hky. subst y. exfalso.
    assert (sn_version s <= max_of (map sn_version (archive (ev_id event) w))) by (apply max_of_le; by apply list_elem_of_fmap_2). lia.
  - intros x Hx. assert (sn_version x <= max_of (map sn_version (archive (ev_id event) w))) by (apply max_of_le; by apply list_elem_of_fmap_2). lia.
  - rewrite Ht, List.filter_app. cbn. unfold snapshot_of at 2. rewrite He, Z.eqb_refl. cbn. rewrite app_nil_r, filter_filter.
    apply filter_ext_in. intros x Hx%list_elem_of_In. destruct (snapshot_of (ev_id event) x) eqn:E; [apply andb_false_r|].
    assert (keep x = true) as ->; [|done]. apply (kept_others _ _ _ Hnd); [done|]. unfold prunable. by rewrite E.
Qed.

(** ** A small instance *)

Module Archive.
Import Camp.
Definition camp : Event := (new_Event now) <| ev_id := 1 |> <| ev_name := "Camp"%string |> <| ev_start_date := Some 20666 |>.
Definition first_state : world := start <| w_db := db <| t_events := [camp] |> |>.
Definition taken : outcome (option PublishSnapshot) * world := create_snapshot no_repr as_int camp "publish" first_state.
(** Afterwards a task is dropped and the event renamed. *)
Definition later : world := taken.2 <| w_db := (w_db taken.2) <| t_published_tasks := [task 1 false] |>
  <| t_events := [camp <| ev_name := "Camp 2"%string |>] |> |>.
Definition snap : PublishSnapshot := match taken.1 with Ok (Some s) => s | _ => new_PublishSnapshot now end.
End Archive.

Lemma snapshot_archive_bounded_witness :
  exists s w', create_snapshot Camp.no_repr Camp.as_int Archive.camp "again" Archive.later = (Ok (Some s), w') /\
    sn_version s = 2 /\ Z.of_nat (length (archive 1 w')) = 2.
Proof.
  assert (match (create_snapshot Camp.no_repr Camp.as_int Archive.camp "again" Archive.later).1 with
          | Ok (Some s) => sn_version s | _ => 0 end = 2) as Hv by (vm_compute; reflexivity).
  assert ((get_int "max_snapshots_per_event" Archive.later).1 = Ok 20) as Hten by (vm_compute; reflexivity).
  assert (Z.of_nat (length (archive 1 Archive.later)) = 1) as Hone by (vm_compute; reflexivity).
  destruct (create_snapshot _ _ _ _ _) as [[[s|]|e] w'] eqn:H; [|discriminate Hv|discriminate Hv].
  assert (NoDup (map sn_id (t_publish_snapshots (w_db Archive.later)))) as Hn by (apply (bool_decide_eq_true_1 _); vm_compute; reflexivity).
  destruct (snapshot_archive_bounded Camp.no_repr Camp.as_int Archive.camp "again" Archive.later s w' Hn H)
    as (limit & Hl & Hc & _).
  rewrite Hten in Hl. injection Hl as <-. change (ev_id Archive.camp) with 1 in Hc. rewrite Hone in Hc.
  exists s, w'. split; [reflexivity|]. split; [exact Hv|exact Hc].
Defined.
