(* ===== verification/History.v ===== *)
(** The archive of an event's schedules as its managers use it, and going back to
    an archived schedule: [backend/app/api/v1/history.py], with the linking of
    accounts by mail address of [publish.py].

    A snapshot is read back from JSON.  What the database driver makes of a value
    of another type than its column's is a parameter ([Columns]); its laws say that
    a value of the column's type is stored as it is.  SQLAlchemy takes a [None] that
    is assigned to a new row for a value never assigned, so that the default of the
    column applies. *)
From Stdlib Require Import ZArith Lia Ascii String SpecFloat.
From stdpp Require Import base list strings.
From S2P Require Import Prelude Text TextFacts Json PyTime PyBuiltins Ordering Models World RuntimeSettings Cascade Security AuditTrail Ha HaWitness HaReplication Push WebEdits Snapshots.

(** ** Columns *)

Class Columns : Type := {
  col_text : json -> outcome string; col_int : json -> outcome Z;
  col_float : json -> outcome spec_float; col_bool : json -> outcome bool
}.
Class ColumnLaws `{!Columns} : Prop := {
  col_text_law s : col_text (JStr s) = Ok s; col_int_law n : col_int (JInt n) = Ok n;
  col_float_law f : col_float (JFloat f) = Ok f; col_bool_law b : col_bool (JBool b) = Ok b
}.

Section Values.
Context {A : Type} (store : json -> outcome A).
Definition nullable (v : json) : outcome (option A) := match v with JNull => Ok None | _ => x ← store v; Ok (Some x) end.
Definition required (v : json) : outcome A :=
  match v with JNull => raise IntegrityError "NOT NULL constraint failed" | _ => store v end.
Definition with_default (d : A) (v : json) : outcome A := match v with JNull => Ok d | _ => store v end.
End Values.

(** ** Accounts *)

(** [_auto_link_users_by_email]; [unicode_lower] is [str.lower]. *)
Section Link.
Context (unicode_lower : string -> string).
Definition person_with_email (persons : list PublishedPerson) (email : string) : option PublishedPerson :=
  List.find (fun p => match pp_email p with
                      | Some e => truthy_str e && String.eqb (unicode_lower e) (unicode_lower email)
                      | None => false
                      end) (List.rev persons).
Definition linkable (event_id : Z) (u : User) : bool := eq_opt_Z (u_event_id u) (Some event_id) && truthy_opt (u_email u).
Definition link_to (persons : list PublishedPerson) (u : User) : User :=
  match u_email u with
  | Some email =>
      match person_with_email persons email with
      | Some p => u <| u_linked_person_id := Some (pp_external_person_id p) |>
      | None => u
      end
  | None => u
  end.
Definition _auto_link_users_by_email (event_id : Z) : py unit :=
  users ← q_all t_users (linkable event_id);
  match users with
  | [] => mret tt
  | _ =>
      persons ← q_all t_published_persons (fun p => (pp_event_id p =? event_id) && is_some (pp_email p));
      mfor (fun u => assign t_users u_id (u_id u) (link_to persons)) users
  end.
End Link.

(** ** Answers *)

Record SnapshotSummary : Type := mkSnapshotSummary {
  sm_id : Z; sm_version : Z; sm_task_count : Z; sm_person_count : Z; sm_edits_count : Z; sm_source : option string;
  sm_label : option string; sm_frozen : bool; sm_created_at : option datetime
}.
Record SnapshotPatch : Type := mkSnapshotPatch { sp_label : option string; sp_frozen : option bool; sp_fields : list string }.
Record SnapshotDetail : Type := mkSnapshotDetail {
  sd_id : Z; sd_version : Z; sd_task_count : Z; sd_person_count : Z; sd_edits_count : Z; sd_source : option string;
  sd_created_at : option datetime; sd_snapshot : list (string * json)
}.
Record RestoreResponse : Type := mkRestoreResponse {
  rr_restored_version : Z; rr_tasks_created : Z; rr_persons_created : Z; rr_edits_cleared : Z
}.

Definition snapshot_summary (s : PublishSnapshot) : SnapshotSummary :=
  mkSnapshotSummary (sn_id s) (sn_version s) (sn_task_count s) (sn_person_count s) (sn_edits_count s) (sn_source s)
    (sn_label s) (sn_frozen s) (sn_created_at s).
Definition not_found {A} : py A := throw (HTTPException 404) "Snapshot version not found".
Definition the_version (event_id version : Z) : py PublishSnapshot :=
  snap ← q_first t_publish_snapshots (fun s => (sn_event_id s =? event_id) && (sn_version s =? version));
  match snap with Some s => mret s | None => not_found end.

Definition _get_event_or_404 (event_id : Z) (user : User) : py Event := require_event_access event_id user.

Definition list_snapshots (event_id : Z) (admin : User) : py (list SnapshotSummary) :=
  _ ← _get_event_or_404 event_id admin;
  rows ← q_all t_publish_snapshots (fun s => sn_event_id s =? event_id);
  mret (map snapshot_summary (order_by (fun s => - sn_version s) rows)).

Definition get_snapshot (event_id version : Z) (admin : User) : py SnapshotDetail :=
  _ ← _get_event_or_404 event_id admin;
  snap ← the_version event_id version;
  data ← lift (loads (sn_snapshot_json snap));
  match data with
  | JObj d =>
      mret (mkSnapshotDetail (sn_id snap) (sn_version snap) (sn_task_count snap) (sn_person_count snap)
              (sn_edits_count snap) (sn_source snap) (sn_created_at snap) d)
  | _ => throw ValidationError "SnapshotDetail"
  end.

Section History.
Context (repr_container : json -> string) (urlopen : http_request -> http_result).

Definition version_detail (event_id version : Z) : list (string * json) :=
  [("event_id", JInt event_id); ("version", JInt version)]%string.

(** [body.label.strip()[:100] or None] *)
Definition new_label (label : string) : option string :=
  let l := take_points 100 (ustrip label) in if truthy_str l then Some l else None.

Definition patch_snapshot (event_id version : Z) (body : SnapshotPatch) (client : option (option string)) (admin : User)
  : py SnapshotSummary :=
  _ ← _get_event_or_404 event_id admin;
  snap ← the_version event_id version;
  let snap' := match sp_label body with Some l => snap <| sn_label := new_label l |> | None => snap end in
  snap' ← match sp_frozen body with
          | Some frozen =>
              if Bool.eqb frozen (sn_frozen snap) then mret snap'
              else
                _ ← when frozen
                      (taken ← q_all t_publish_snapshots (fun s => (sn_event_id s =? event_id) && sn_frozen s);
                       max_snaps ← get_int "max_snapshots_per_event";
                       throw_if (max_snaps <=? Z.of_nat (length taken)) (HTTPException 409) "All snapshot slots are frozen");
                mret (snap' <| sn_frozen := frozen |>)
          | None => mret snap'
          end;
  _ ← audit (Some admin) "history.update" (Some "publish_snapshot"%string) (Some (sn_id snap))
        (Some (dumps (JObj (version_detail event_id version ++
           [("changed_fields", JList (map JStr (sort_with key_le (sp_fields body))))]%string)))) client "success";
  _ ← assign t_publish_snapshots sn_id (sn_id snap) (fun _ => snap');
  _ ← fenced_commit repr_container urlopen true;
  mret (snapshot_summary snap').

Definition delete_snapshot (event_id version : Z) (client : option (option string)) (admin : User) : py Z :=
  _ ← _get_event_or_404 event_id admin;
  snap ← the_version event_id version;
  _ ← throw_if (sn_frozen snap) (HTTPException 409) "Unfreeze snapshot before deleting";
  _ ← audit (Some admin) "history.delete" (Some "publish_snapshot"%string) (Some (sn_id snap))
        (Some (dumps (JObj (version_detail event_id version)))) client "success";
  _ ← q_delete t_publish_snapshots (fun s => sn_id s =? sn_id snap);
  _ ← fenced_commit repr_container urlopen true;
  mret version.

(** ** Going back *)

Context (as_int : json -> option Z) (unicode_lower : string -> string) (webpush : push_request -> push_result).
Context `{!Columns}.

(** [data.get(key, [])], iterated *)
Definition rows_of (key : string) (data : json) : outcome (list json) := v ← get_attr key (JList []) data; iter v.

(** [datetime.strptime(v, "%Y-%m-%d").date()], [datetime.fromisoformat(v)] *)
Definition date_of (v : json) : outcome Z :=
  match v with JStr s => strptime_Ymd (code_points s) | _ => raise TypeError "strptime() argument 1 must be str" end.
Definition datetime_of (v : json) : outcome datetime :=
  match v with JStr s => fromisoformat s | _ => raise TypeError "fromisoformat: argument must be str" end.

(** The metadata of the event, as far as the snapshot has it *)
Definition if_truthy {A} (v : json) (f : json -> outcome A) : outcome (option A) :=
  if truthy v then x ← f v; Ok (Some x) else Ok None.
Record meta_update : Type := MetaUpdate {
  mu_name : json; mu_start_date : option Z; mu_end_date : option Z; mu_metadata_json : json
}.
Definition read_meta (data : json) : outcome (option meta_update) :=
  meta ← get_attr "event_meta" JNull data;
  if negb (truthy meta) then Ok None
  else
    name ← get_attr "name" JNull meta;
    start ← get_attr "start_date" JNull meta;
    start ← if_truthy start date_of;
    end_ ← get_attr "end_date" JNull meta;
    end_ ← if_truthy end_ date_of;
    metadata ← get_attr "metadata_json" JNull meta;
    Ok (Some (MetaUpdate (if truthy name then name else JNull) start end_ metadata)).
Definition restore_meta (m : option meta_update) (event : Event) : outcome Event :=
  match m with
  | None => Ok event
  | Some m =>
      name ← with_default col_text (ev_name event) (mu_name m);
      metadata ← nullable col_text (mu_metadata_json m);
      Ok (event <| ev_name := name |>
                <| ev_start_date := match mu_start_date m with Some d => Some d | None => ev_start_date event end |>
                <| ev_end_date := match mu_end_date m with Some d => Some d | None => ev_end_date event end |>
                <| ev_metadata_json := match metadata with Some t => Some t | None => ev_metadata_json event end |>)
  end.

(** The constructor reads the fields of a row; the flush stores them. *)
Definition read_person (p : json) : outcome (list json) :=
  a ← subscript "external_person_id" p; b ← subscript "first_name" p; c ← subscript "last_name" p;
  d ← get_attr "email" JNull p; Ok [a; b; c; d].
Definition store_person (event_id : Z) (fields : list json) : outcome (Z -> string -> datetime -> PublishedPerson) :=
  match fields with
  | [a; b; c; d] =>
      a ← required col_int a; b ← required col_text b; c ← required col_text c; d ← nullable col_text d;
      Ok (fun i uuid now => mkPublishedPerson i uuid event_id a b c d (Some now))
  | _ => raise TypeError "fields"
  end.
Definition read_unavailability (u : json) : outcome (list json) :=
  a ← subscript "external_person_id" u; b ← subscript "working_date" u; c ← subscript "start_datetime" u;
  d ← subscript "end_datetime" u; Ok [a; b; c; d].
Definition store_unavailability (event_id : Z) (fields : list json) : outcome (Z -> datetime -> PublishedPersonUnavailability) :=
  match fields with
  | [a; b; c; d] =>
      a ← required col_int a; b ← required col_text b; c ← required col_text c; d ← required col_text d;
      Ok (fun i now => mkPublishedPersonUnavailability i event_id a b c d (Some now))
  | _ => raise TypeError "fields"
  end.
Definition optional_task_fields : list string :=
  ["summary"; "description"; "location_name"; "location_address"; "task_type_code"; "task_type_name"; "color";
   "attendees_json"; "field_assignments_json"; "field_values_json"; "field_definitions_json"; "additional_json"]%string.
Record raw_task : Type := RawTask {
  rt_external : json; rt_name : json; rt_texts : list json; rt_start : datetime; rt_end : datetime; rt_sort : json; rt_web : json
}.
Definition read_task (t : json) : outcome raw_task :=
  external ← subscript "external_task_id" t; name ← subscript "name" t;
  start ← (v ← subscript "start_datetime" t; datetime_of v); end_ ← (v ← subscript "end_datetime" t; datetime_of v);
  texts ← map_outcome (fun k => get_attr k JNull t) optional_task_fields;
  sort ← get_attr "sort_order" JNull t; web ← get_attr "web_created" (JBool false) t;
  Ok (RawTask external name texts start end_ sort web).
Definition store_task (event_id : Z) (t : raw_task) : outcome (Z -> datetime -> PublishedTask) :=
  external ← required col_int (rt_external t); name ← required col_text (rt_name t);
  texts ← map_outcome (nullable col_text) (rt_texts t);
  sort ← with_default col_float (S754_zero false) (rt_sort t); web ← with_default col_bool false (rt_web t);
  match texts with
  | [summary; description; place; address; code; type; color; attendees; assignments; values; definitions; additional] =>
      Ok (fun i now => mkPublishedTask i event_id external name summary description (rt_start t) (rt_end t) place address
                         code type color attendees assignments values definitions additional None (Some sort) web (Some now))
  | _ => raise TypeError "fields"
  end.

(** The published rows of the event, with the edits of its tasks *)
Definition wipe_event (event_id : Z) : py Z :=
  tasks ← q_all t_published_tasks (fun t => pt_event_id t =? event_id);
  let ids := map pt_id tasks in
  _ ← q_delete t_task_edits (fun e => among ids (te_task_id e));
  _ ← q_delete t_published_tasks (fun t => pt_event_id t =? event_id);
  _ ← q_delete t_published_persons (fun p => pp_event_id p =? event_id);
  _ ← q_delete t_published_person_unavailability (fun u => pu_event_id u =? event_id);
  mret (Z.of_nat (length ids)).

(** The flush of what was read *)
Definition write_rows (event : Event) (meta : option meta_update) (persons unavailabilities : list (list json))
  (tasks : list raw_task) : py unit :=
  event' ← lift (restore_meta meta event);
  _ ← assign t_events ev_id (ev_id event) (fun _ => event');
  now ← utc_now;
  _ ← mfor (fun p => row ← lift (store_person (ev_id event) p); uuid ← fresh;
                     _ ← q_insert t_published_persons (fun i => row i uuid now); mret tt) persons;
  _ ← mfor (fun u => row ← lift (store_unavailability (ev_id event) u);
                     _ ← q_insert t_published_person_unavailability (fun i => row i now); mret tt) unavailabilities;
  mfor (fun t => row ← lift (store_task (ev_id event) t);
                 _ ← q_insert t_published_tasks (fun i => row i now); mret tt) tasks.

Definition restore_rows (event : Event) (snapshot_json : string) : py (Z * Z) :=
  data ← lift (loads snapshot_json);
  raw_tasks ← lift (rows_of "raw_tasks" data);
  persons ← lift (rows_of "persons" data);
  unavailabilities ← lift (rows_of "unavailabilities" data);
  meta ← lift (read_meta data);
  persons' ← lift (map_outcome read_person persons);
  unavailabilities' ← lift (map_outcome read_unavailability unavailabilities);
  tasks' ← lift (map_outcome read_task raw_tasks);
  _ ← write_rows event meta persons' unavailabilities' tasks';
  mret (Z.of_nat (length raw_tasks), Z.of_nat (length persons)).

Definition restore_snapshot (event_id version : Z) (client : option (option string)) (admin : User) : py RestoreResponse :=
  event ← _get_event_or_404 event_id admin;
  snap ← the_version event_id version;
  _ ← create_snapshot repr_container as_int event
        ("pre-rollback to v" +:+ string_of_Z version +:+ " by " +:+ u_display_name admin);
  edits_cleared ← wipe_event (ev_id event);
  '(tasks_created, persons_created) ← restore_rows event (sn_snapshot_json snap);
  _ ← _auto_link_users_by_email unicode_lower (ev_id event);
  _ ← audit (Some admin) "history.restore" (Some "publish_snapshot"%string) (Some (sn_id snap))
        (Some (dumps (JObj (version_detail event_id version)))) client "success";
  _ ← fenced_commit repr_container urlopen true;
  event ← row t_events ev_id (ev_id event);
  _ ← catch_all
        (_ ← send_push_to_event repr_container urlopen webpush (ev_id event) "Schedule Restored"
               (ev_name event +:+ " schedule restored to version " +:+ string_of_Z version +:+ ".")
               (Some ("/calendar?event=" +:+ string_of_Z (ev_id event))) (Some "schedule"%string);
         mret tt) (mret tt);
  mret (mkRestoreResponse version tasks_created persons_created edits_cleared).
End History.
