(* ===== verification/HistoryFacts.v ===== *)
(** Going back to an archived schedule: what a snapshot holds, read back and stored. *)
From Stdlib Require Import ZArith Lia Ascii String SpecFloat Permutation.
From stdpp Require Import base list strings.
From S2P Require Import Prelude Text TextFacts Json JsonFacts JsonText PyTime PyBuiltins IsoFormat Ordering ScheduleDays Models World RuntimeSettings Cascade Sessions Security AuditTrail Ha HaWitness HaProps HaReplication Push WebEdits Calendar CalendarEdits DeletionProps Snapshots SnapshotProps History.

(** ** What going back writes *)

(** Rows apart from the keys and times the database gives them: a snapshot does not
    keep a person's evidence identifier, nor the attachments of a task. *)
Definition bare_task (t : PublishedTask) : PublishedTask :=
  t <| pt_id := 0 |> <| pt_created_at := None |> <| pt_attachments_json := None |>.
Definition bare_person (p : PublishedPerson) : PublishedPerson :=
  p <| pp_id := 0 |> <| pp_created_at := None |> <| pp_evidence_subject_id := EmptyString |>.
Definition bare_unavailability (u : PublishedPersonUnavailability) : PublishedPersonUnavailability :=
  u <| pu_id := 0 |> <| pu_created_at := None |>.
Definition task_ok (t : PublishedTask) : Prop :=
  iso_ok (pt_start_datetime t) /\ iso_ok (pt_end_datetime t) /\ is_some (pt_sort_order t) = true.
Definition day_ok (d : option Z) : Prop := match d with Some d => min_day <= d <= max_day | None => True end.

(** *** Reading a snapshot *)

Lemma nodup_keys (l : list string) : bool_decide (NoDup l) = true -> NoDup l.
Proof. apply bool_decide_eq_true_1. Qed.
Lemma sorted_get k d v : NoDup (dkeys d) -> dget k d = Some v -> get_attr k JNull (sort_keys (JObj d)) = Ok (sort_keys v).
Proof. intros Hd Hk. cbn [sort_keys get_attr]. change (sort_items _) with (sort_dict d). by rewrite dget_sort_dict, Hk. Qed.
Lemma sorted_get_default k df d v : NoDup (dkeys d) -> dget k d = Some v -> get_attr k df (sort_keys (JObj d)) = Ok (sort_keys v).
Proof. intros Hd Hk. cbn [sort_keys get_attr]. change (sort_items _) with (sort_dict d). by rewrite dget_sort_dict, Hk. Qed.
Lemma sorted_sub k d v : NoDup (dkeys d) -> dget k d = Some v -> subscript k (sort_keys (JObj d)) = Ok (sort_keys v).
Proof. intros Hd Hk. cbn [sort_keys subscript]. change (sort_items _) with (sort_dict d). by rewrite dget_sort_dict, Hk. Qed.
Lemma sort_opt_str o : sort_keys (of_opt_str o) = of_opt_str o.
Proof. by destruct o. Qed.

Definition person_fields (p : PublishedPerson) : list json :=
  [JInt (pp_external_person_id p); JStr (pp_first_name p); JStr (pp_last_name p); of_opt_str (pp_email p)].
Lemma read_person_ok p : read_person (sort_keys (_serialize_raw_person p)) = Ok (person_fields p).
Proof.
  unfold read_person, _serialize_raw_person.
  do 3 (erewrite sorted_sub; [|apply nodup_keys; vm_compute; reflexivity|reflexivity]; cbn [mbind outcome_bind]).
  erewrite sorted_get; [|apply nodup_keys; vm_compute; reflexivity|reflexivity]. cbn [mbind outcome_bind].
  by rewrite sort_opt_str.
Qed.
Definition unavailability_fields (u : PublishedPersonUnavailability) : list json :=
  [JInt (pu_external_person_id u); JStr (pu_working_date u); JStr (pu_start_datetime u); JStr (pu_end_datetime u)].
Lemma read_unavailability_ok u : read_unavailability (sort_keys (raw_unavailability u)) = Ok (unavailability_fields u).
Proof.
  unfold read_unavailability, raw_unavailability.
  by do 4 (erewrite sorted_sub; [|apply nodup_keys; vm_compute; reflexivity|reflexivity]; cbn [mbind outcome_bind]).
Qed.
Definition task_fields (t : PublishedTask) : raw_task :=
  RawTask (JInt (pt_external_task_id t)) (JStr (pt_name t))
    (map of_opt_str [pt_summary t; pt_description t; pt_location_name t; pt_location_address t; pt_task_type_code t;
       pt_task_type_name t; pt_color t; pt_attendees_json t; pt_field_assignments_json t; pt_field_values_json t;
       pt_field_definitions_json t; pt_additional_json t])
    (pt_start_datetime t) (pt_end_datetime t) (of_opt_float (pt_sort_order t)) (JBool (pt_web_created t)).
Lemma datetime_text d : iso_ok d -> datetime_of (sort_keys (JStr (isoformat d))) = Ok d.
Proof. intros H. exact (fromisoformat_isoformat d H). Qed.
Lemma bind_value {A B} (a : A) (k : A -> outcome B) : (Ok a ≫= k) = k a.
Proof. done. Qed.
Ltac has_keys d ks :=
  lazymatch ks with
  | ?k :: ?ks => let E := fresh in eassert (dget k d = Some _) as E by reflexivity; has_keys d ks
  | _ => idtac
  end.
Lemma read_task_ok t : task_ok t -> read_task (sort_keys (_serialize_raw_task t)) = Ok (task_fields t).
Proof.
  intros (Hs & He & _). unfold read_task, _serialize_raw_task. match goal with |- context [sort_keys (JObj ?l)] => set (d := l) end.
  assert (NoDup (dkeys d)) as Hd by (apply nodup_keys; vm_compute; reflexivity).
  has_keys d (["external_task_id"; "name"; "start_datetime"; "end_datetime"; "sort_order"; "web_created"]%string).
  let ks := eval unfold optional_task_fields in optional_task_fields in has_keys d ks. clearbody d.
  do 4 (erewrite sorted_sub; [|exact Hd|eassumption]).
  rewrite !bind_value, !datetime_text, !bind_value by done.
  unfold optional_task_fields. cbn [map_outcome].
  do 13 (erewrite sorted_get; [|exact Hd|eassumption]).
  erewrite sorted_get_default; [|exact Hd|eassumption]. rewrite !sort_opt_str, !bind_value.
  unfold task_fields. cbn [map sort_keys]. by destruct (pt_sort_order t).
Qed.

Lemma map_outcome_read {A B C} (f : B -> outcome C) (g : A -> B) (h : A -> C) l :
  (forall x, x ∈ l -> f (g x) = Ok (h x)) -> map_outcome f (map g l) = Ok (map h l).
Proof.
  induction l as [|x l IH]; intros H; [done|]. cbn [map map_outcome]. rewrite (H x) by left. cbn [mbind outcome_bind].
  rewrite IH by (intros y Hy; apply H; by right). done.
Qed.

(** *** Storing it *)

Section Storing.
Context `{!Columns, !ColumnLaws}.
Lemma nullable_str o : nullable col_text (of_opt_str o) = Ok o.
Proof. destruct o as [s|]; [|done]. cbn. by rewrite col_text_law. Qed.
Lemma required_int n : required col_int (JInt n) = Ok n.
Proof. apply col_int_law. Qed.
Lemma required_text s : required col_text (JStr s) = Ok s.
Proof. apply col_text_law. Qed.
Lemma store_person_ok event_id p : store_person event_id (person_fields p) =
  Ok (fun i uuid now => mkPublishedPerson i uuid event_id (pp_external_person_id p) (pp_first_name p) (pp_last_name p) (pp_email p) (Some now)).
Proof.
  unfold store_person, person_fields. rewrite required_int, !required_text. cbn [mbind outcome_bind].
  by rewrite nullable_str.
Qed.
Lemma store_unavailability_ok event_id u : store_unavailability event_id (unavailability_fields u) =
  Ok (fun i now => mkPublishedPersonUnavailability i event_id (pu_external_person_id u) (pu_working_date u)
                     (pu_start_datetime u) (pu_end_datetime u) (Some now)).
Proof. unfold store_unavailability, unavailability_fields. by rewrite required_int, !required_text. Qed.
Lemma store_task_ok event_id t : task_ok t ->
  exists row, store_task event_id (task_fields t) = Ok row /\ forall i now, pt_event_id t = event_id -> bare_task (row i now) = bare_task t.
Proof.
  intros (_ & _ & Hs). unfold store_task, task_fields. cbn [rt_external rt_name rt_texts rt_sort rt_web map map_outcome].
  rewrite required_int, required_text. cbn [mbind outcome_bind].
  rewrite !nullable_str. cbn [mbind outcome_bind]. destruct (pt_sort_order t) as [f|] eqn:Ef; [|done]. cbn [of_opt_float with_default].
  rewrite col_float_law. cbn [mbind outcome_bind]. rewrite col_bool_law. cbn [mbind outcome_bind].
  eexists. split; [reflexivity|]. intros i now <-. destruct t. cbn in *. by subst.
Qed.
End Storing.

