(* ===== verification/HistoryProps.v ===== *)
(** Going back to an archived schedule restores what the snapshot holds, and can itself be undone. *)
From Stdlib Require Import ZArith Lia Ascii String SpecFloat Permutation.
From stdpp Require Import base list strings.
From S2P Require Import Prelude Text TextFacts Json JsonFacts JsonText PyTime PyBuiltins IsoFormat Ordering ScheduleDays Models World RuntimeSettings Cascade Sessions Security AuditTrail Ha HaWitness HaProps HaReplication Push WebEdits Calendar CalendarEdits CalendarProps CalendarEditsProps DeletionProps Snapshots SnapshotProps History HistoryFacts.
(** *** The rows of an event *)

Definition event_rows_tasks (event_id : Z) (w : world) := List.filter (fun t => pt_event_id t =? event_id) (t_published_tasks (w_db w)).
Definition event_rows_persons (event_id : Z) (w : world) := List.filter (fun p => pp_event_id p =? event_id) (t_published_persons (w_db w)).
Definition event_rows_unavailability (event_id : Z) (w : world) :=
  List.filter (fun u => pu_event_id u =? event_id) (t_published_person_unavailability (w_db w)).

Lemma mfor_rows {A R} (t : database -> list R) (same : world -> world -> Prop) `{!PreOrder same} (f : A -> py unit) (P : A -> R -> Prop) l :
  (forall a w u w', a ∈ l -> f a w = (Ok u, w') -> same w w' /\ exists r, t (w_db w') = t (w_db w) ++ [r] /\ P a r) ->
  forall w u w', mfor f l w = (Ok u, w') -> same w w' /\ exists rows, t (w_db w') = t (w_db w) ++ rows /\ Forall2 P l rows.
Proof.
  induction l as [|a l IH]; intros Hf w u w' H; cbn [mfor] in H.
  - apply mret_Ok_inv in H as [_ ->]. split; [done|]. exists []. by rewrite app_nil_r.
  - apply Mbind_Ok_inv in H as (u1 & w1 & H1 & H). apply Hf in H1 as (S1 & r & E1 & P1); [|by left].
    apply IH in H as (S2 & rows & E2 & P2); [|intros; eapply Hf; [by right|done]].
    split; [by etransitivity|]. exists (r :: rows). rewrite E2, E1, <-app_assoc. split; [done|by constructor].
Qed.
Lemma Forall2_map {A B C} (f : A -> C) (g : B -> C) l l' : Forall2 (fun a b => g b = f a) l l' -> map g l' = map f l.
Proof. induction 1 as [|a b l l' E _ IH]; cbn; [done|by rewrite E, IH]. Qed.

(** *** Metadata *)

(** What going back makes of the event's row: what the snapshot has, the rest as it was *)
Definition meta_restored (ev0 event : Event) : Event :=
  event <| ev_name := if truthy_str (ev_name ev0) then ev_name ev0 else ev_name event |>
        <| ev_start_date := match ev_start_date ev0 with Some d => Some d | None => ev_start_date event end |>
        <| ev_end_date := match ev_end_date ev0 with Some d => Some d | None => ev_end_date event end |>
        <| ev_metadata_json := match ev_metadata_json ev0 with Some t => Some t | None => ev_metadata_json event end |>.
Lemma date_string_ne d : min_day <= d <= max_day -> truthy_str (date_string d) = true.
Proof.
  intros H. pose proof (code_points_date d H) as E. destruct (date_points d H) as (y & m & dd & Hp & _).
  destruct (date_string d); [|done]. rewrite Hp in E. discriminate.
Qed.
Lemma if_truthy_date o : day_ok o -> if_truthy (of_opt_str (option_map date_string o)) date_of = Ok o.
Proof.
  destruct o as [d|]; [|done]. intros H. unfold if_truthy. cbn [option_map of_opt_str truthy]. rewrite date_string_ne by done.
  unfold date_of. by rewrite strptime_date.
Qed.
Lemma restore_meta_ok `{!Columns, !ColumnLaws} ev0 event rest : day_ok (ev_start_date ev0) -> day_ok (ev_end_date ev0) ->
  NoDup (dkeys rest) -> dget "event_meta" rest = Some (event_meta ev0) ->
  exists m, read_meta (sort_keys (JObj rest)) = Ok m /\ restore_meta m event = Ok (meta_restored ev0 event).
Proof.
  intros Hs He Hd Hm. unfold read_meta. erewrite sorted_get; [|exact Hd|exact Hm]. cbn [mbind outcome_bind].
  unfold event_meta. match goal with |- context [sort_keys (JObj ?l)] => set (d := l) end.
  assert (NoDup (dkeys d)) as Hdd by (apply nodup_keys; vm_compute; reflexivity).
  assert (truthy (sort_keys (JObj d)) = true) as ->.
  { cbn [sort_keys]. change (sort_items _) with (sort_dict d). pose proof (length_sort_dict d). by destruct (sort_dict d). }
  cbn [negb]. do 4 (erewrite sorted_get; [|exact Hdd|reflexivity]). rewrite !sort_opt_str.
  change (sort_keys (JStr ?s)) with (JStr s). cbn [mbind outcome_bind]. rewrite if_truthy_date by done. cbn [mbind outcome_bind].
  rewrite if_truthy_date by done. cbn [mbind outcome_bind]. eexists. split; [reflexivity|].
  unfold restore_meta. cbn [mu_name mu_metadata_json mu_start_date mu_end_date truthy].
  rewrite nullable_str. unfold meta_restored. destruct (truthy_str (ev_name ev0)); cbn [with_default].
  - rewrite col_text_law. cbn [mbind outcome_bind]. by destruct (ev_metadata_json ev0).
  - cbn [mbind outcome_bind]. by destruct (ev_metadata_json ev0).
Qed.

(** *** The run *)

(** The tables a schedule is in, but for the one that is written *)
Definition but_tasks (w w' : world) : Prop :=
  t_events (w_db w') = t_events (w_db w) /\ t_published_persons (w_db w') = t_published_persons (w_db w) /\
  t_published_person_unavailability (w_db w') = t_published_person_unavailability (w_db w) /\
  t_publish_snapshots (w_db w') = t_publish_snapshots (w_db w).
Definition but_persons (w w' : world) : Prop :=
  t_events (w_db w') = t_events (w_db w) /\ t_published_tasks (w_db w') = t_published_tasks (w_db w) /\
  t_published_person_unavailability (w_db w') = t_published_person_unavailability (w_db w) /\
  t_publish_snapshots (w_db w') = t_publish_snapshots (w_db w).
Definition but_unavailability (w w' : world) : Prop :=
  t_events (w_db w') = t_events (w_db w) /\ t_published_persons (w_db w') = t_published_persons (w_db w) /\
  t_published_tasks (w_db w') = t_published_tasks (w_db w) /\ t_publish_snapshots (w_db w') = t_publish_snapshots (w_db w).
Definition schedule_kept (w w' : world) : Prop := but_tasks w w' /\ t_published_tasks (w_db w') = t_published_tasks (w_db w).
#[export] Instance but_tasks_preorder : PreOrder but_tasks.
Proof. split; [by intros w|]. intros w1 w2 w3 (A & B & C & D) (A' & B' & C' & D'). repeat split; congruence. Qed.
#[export] Instance but_persons_preorder : PreOrder but_persons.
Proof. split; [by intros w|]. intros w1 w2 w3 (A & B & C & D) (A' & B' & C' & D'). repeat split; congruence. Qed.
#[export] Instance but_unavailability_preorder : PreOrder but_unavailability.
Proof. split; [by intros w|]. intros w1 w2 w3 (A & B & C & D) (A' & B' & C' & D'). repeat split; congruence. Qed.
#[export] Instance schedule_kept_preorder : PreOrder schedule_kept.
Proof. split; [by intros w|]. intros w1 w2 w3 [A B] [A' B']. split; [by etransitivity|congruence]. Qed.

Lemma mfor_map {A B} (f : B -> py unit) (g : A -> B) l : mfor f (map g l) = mfor (fun a => f (g a)) l.
Proof. induction l as [|a l IH]; [done|]. cbn [map mfor]. by rewrite IH. Qed.
Lemma inserted_one {R} (t : database -> list R) `{!Setter t} (mk : Z -> R) w u w' :
  (_ ← q_insert t mk; mret tt) w = (Ok u, w') ->
  w' = on_table t (fun l => l ++ [mk (w_next_id w)]) (w <| w_next_id := w_next_id w + 1 |>).
Proof. by intros [= _ <-]. Qed.

Definition restored {R} (bare : R -> R) (in_event : R -> Prop) (rows rows' : list R) : Prop :=
  map bare rows' = map bare rows /\ Forall in_event rows'.
Lemma restored_of {R} (bare : R -> R) (in_event : R -> Prop) rows rows' :
  Forall2 (fun r r' => bare r' = bare r /\ in_event r') rows rows' -> restored bare in_event rows rows'.
Proof.
  intros F. split; [apply Forall2_map; eapply Forall2_impl; [exact F|]; by intros ? ? []|].
  induction F as [|? ? ? ? [] _ IH]; constructor; auto.
Qed.

Section Writing.
Context `{Cols : !Columns} `{Laws : !ColumnLaws} (event_id : Z) (now : datetime).
Let in_person (p : PublishedPerson) : Prop := pp_event_id p = event_id.
Let in_unavailability (u : PublishedPersonUnavailability) : Prop := pu_event_id u = event_id.
Let in_task (t : PublishedTask) : Prop := pt_event_id t = event_id.
Lemma persons_run ps w u w' : Forall in_person ps ->
  mfor (fun p => row ← lift (store_person event_id p); uuid ← fresh;
                 _ ← q_insert t_published_persons (fun i => row i uuid now); mret tt) (map person_fields ps) w = (Ok u, w') ->
  but_persons w w' /\ exists rows, t_published_persons (w_db w') = t_published_persons (w_db w) ++ rows /\
    restored bare_person in_person ps rows.
Proof.
  rewrite Forall_forall. intros Hev H. rewrite mfor_map in H.
  apply (mfor_rows t_published_persons but_persons _ (fun p r => bare_person r = bare_person p /\ in_person r)) in H.
  - destruct H as (S1 & rows & E & F). split; [done|]. exists rows. split; [done|]. by apply restored_of.
  - intros p w1 u1 w1' Hp H1. rewrite store_person_ok in H1.
    apply Mbind_Ok_inv in H1 as (row & w2 & [= <- <-] & H1). apply Mbind_Ok_inv in H1 as (uuid & w2 & [= <- <-] & H1).
    apply inserted_one in H1 as ->. split; [done|]. eexists. split; [reflexivity|]. split; [|done].
    specialize (Hev p Hp). unfold in_person in Hev. subst event_id. by destruct p.
Qed.
Lemma unavailabilities_run us w u w' : Forall in_unavailability us ->
  mfor (fun u => row ← lift (store_unavailability event_id u);
                 _ ← q_insert t_published_person_unavailability (fun i => row i now); mret tt)
    (map unavailability_fields us) w = (Ok u, w') ->
  but_unavailability w w' /\ exists rows,
    t_published_person_unavailability (w_db w') = t_published_person_unavailability (w_db w) ++ rows /\
    restored bare_unavailability in_unavailability us rows.
Proof.
  rewrite Forall_forall. intros Hev H. rewrite mfor_map in H.
  apply (mfor_rows t_published_person_unavailability but_unavailability _
           (fun p r => bare_unavailability r = bare_unavailability p /\ in_unavailability r)) in H.
  - destruct H as (S1 & rows & E & F). split; [done|]. exists rows. split; [done|]. by apply restored_of.
  - intros p w1 u1 w1' Hp H1. rewrite store_unavailability_ok in H1.
    apply Mbind_Ok_inv in H1 as (row & w2 & [= <- <-] & H1).
    apply inserted_one in H1 as ->. split; [done|]. eexists. split; [reflexivity|]. split; [|done].
    specialize (Hev p Hp). unfold in_unavailability in Hev. subst event_id. by destruct p.
Qed.
Lemma tasks_run ts w u w' : Forall in_task ts -> Forall task_ok ts ->
  mfor (fun t => row ← lift (store_task event_id t);
                 _ ← q_insert t_published_tasks (fun i => row i now); mret tt) (map task_fields ts) w = (Ok u, w') ->
  but_tasks w w' /\ exists rows, t_published_tasks (w_db w') = t_published_tasks (w_db w) ++ rows /\
    restored bare_task in_task ts rows.
Proof.
  rewrite !Forall_forall. intros Hev Hok H. rewrite mfor_map in H.
  apply (mfor_rows t_published_tasks but_tasks _ (fun p r => bare_task r = bare_task p /\ in_task r)) in H.
  - destruct H as (S1 & rows & E & F). split; [done|]. exists rows. split; [done|]. by apply restored_of.
  - intros t w1 u1 w1' Ht H1. destruct (store_task_ok event_id t (Hok t Ht)) as (mk & Hs & Hb). rewrite Hs in H1.
    apply Mbind_Ok_inv in H1 as (row & w2 & [= <- <-] & H1).
    apply inserted_one in H1 as ->. split; [done|]. eexists. split; [reflexivity|].
    specialize (Hev t Ht). rewrite Hb by done. split; [done|]. specialize (Hb (w_next_id w1) now Hev).
    apply (f_equal pt_event_id) in Hb. unfold in_task in *. rewrite <-Hev. exact Hb.
Qed.
End Writing.

(** *** What the request does besides *)

Lemma same_schedule w w' : t_events (w_db w') = t_events (w_db w) -> t_published_tasks (w_db w') = t_published_tasks (w_db w) ->
  t_published_persons (w_db w') = t_published_persons (w_db w) ->
  t_published_person_unavailability (w_db w') = t_published_person_unavailability (w_db w) ->
  t_publish_snapshots (w_db w') = t_publish_snapshots (w_db w) -> schedule_kept w w'.
Proof. by repeat split. Qed.
Lemma same_db_schedule w w' : w_db w' = w_db w -> schedule_kept w w'.
Proof. intros E. by apply same_schedule; rewrite E. Qed.

(** The schedule of the last commit is the one at hand. *)
Definition committed_world (w : world) : world := w <| w_db := w_committed w |>.
Definition durable (w : world) : Prop := schedule_kept w (committed_world w).
Definition kept_durable (w w' : world) : Prop := schedule_kept w w' /\ (durable w -> durable w').
#[export] Instance kept_durable_preorder : PreOrder kept_durable.
Proof. split; [by intros w|]. intros w1 w2 w3 [A B] [A' B']. split; [by etransitivity|auto]. Qed.
Lemma schedule_kept_sym w w' : schedule_kept w w' -> schedule_kept w' w.
Proof. intros ((A & B & C & D) & E). repeat split; congruence. Qed.
Lemma durable_same w w' : schedule_kept w w' -> w_committed w' = w_committed w -> kept_durable w w'.
Proof.
  intros S E. split; [done|]. unfold durable. intros D. apply schedule_kept_sym in S. etransitivity; [exact S|].
  etransitivity; [exact D|]. apply same_db_schedule. exact E.
Qed.
Lemma same_db_durable w w' : w_db w' = w_db w -> w_committed w' = w_committed w -> kept_durable w w'.
Proof. intros E. apply durable_same, same_db_schedule, E. Qed.
Section Frames.
Context (repr_container : json -> string) (urlopen : http_request -> http_result)
        (unicode_lower : string -> string) (webpush : push_request -> push_result).
#[local] Hint Extern 0 (PreOrder _) => typeclasses eauto : keeps.
Ltac kept := by_frame ltac:(idtac; lazymatch goal with
  | |- keeps _ (q_insert _ _) => intros ?; apply durable_same; [apply same_schedule|]; reflexivity
  | |- keeps _ (q_delete _ _) => intros ?; apply durable_same; [apply same_schedule|]; reflexivity
  | |- keeps _ (assign _ _ _ _) => intros ?; apply durable_same; [apply same_schedule|]; reflexivity
  | |- keeps _ (q_all _ _) => intros ?; reflexivity
  | |- keeps _ (q_first _ _) => intros ?; reflexivity
  | |- keeps _ utc_now => intros ?; apply same_db_durable; reflexivity
  | |- keeps _ (setting _) => intros ?; reflexivity
  | |- keeps _ (gets _) => intros ?; reflexivity
  | |- keeps _ (throw_if _ _ _) => apply keeps_throw_if; typeclasses eauto
  end).
Lemma kept_fenced : keeps kept_durable (fenced_commit repr_container urlopen true).
Proof.
  intros w. destruct (fenced_commit _ _ true w) as [o w'] eqn:H. apply fence_inv in H as [Hc Hd]. cbn [snd].
  destruct o as [a|e].
  - split; [by apply same_db_schedule|]. intros _. apply same_db_schedule. cbn. by rewrite Hc, Hd.
  - apply same_db_durable; [done|apply Hc].
Qed.
Lemma kept_link event_id : keeps kept_durable (_auto_link_users_by_email unicode_lower event_id).
Proof. unfold _auto_link_users_by_email. kept. Qed.
Lemma kept_audit u a rt rid d ch o : keeps kept_durable (audit u a rt rid d ch o).
Proof. unfold audit, _hash_ip. kept. Qed.
#[local] Hint Resolve kept_fenced : keeps.
Lemma kept_push event_id title body url kind :
  keeps kept_durable (send_push_to_event repr_container urlopen webpush event_id title body url kind).
Proof. unfold send_push_to_event, send_push, _vapid_configured. kept. destruct (map fst _); kept. Qed.
End Frames.

(** *** The whole request *)

Section Restore.
Context (repr_container : json -> string) (urlopen : http_request -> http_result) (as_int : json -> option Z)
        (unicode_lower : string -> string) (webpush : push_request -> push_result).
Context `{Cols : !Columns} `{Laws : !ColumnLaws}.

(** A snapshot whose texts JSON carries, of rows the database gives back as they are *)
Record snapshot_of_world (ev0 : Event) (w0 : world) (s : PublishSnapshot) : Prop := {
  sw_parts : exists resolved edits, sn_snapshot_json s = dumps_sorted (JObj (snapshot_parts ev0 resolved edits w0)) /\
               json_text (JObj (snapshot_parts ev0 resolved edits w0)) = true;
  sw_tasks : Forall task_ok (tasks_of (ev_id ev0) w0);
  sw_start : day_ok (ev_start_date ev0); sw_end : day_ok (ev_end_date ev0)
}.

Lemma rows_of_ok k l rest : NoDup (dkeys rest) -> dget k rest = Some (JList l) ->
  rows_of k (sort_keys (JObj rest)) = Ok (map sort_keys l).
Proof. intros Hd Hk. unfold rows_of. erewrite sorted_get_default; [|exact Hd|exact Hk]. done. Qed.

Definition others_kept {R} (ev : R -> Z) (event_id : Z) (l l' : list R) : Prop :=
  List.filter (fun r => negb (ev r =? event_id)) l' = List.filter (fun r => negb (ev r =? event_id)) l.

Lemma lift_Ok_bind {A B} (a : A) (k : A -> py B) : (lift (Ok a) ≫= k) = k a.
Proof. done. Qed.
Lemma event_rows_all {R} (ev : R -> Z) (le : R -> R -> bool) event_id l :
  Forall (fun r => ev r = event_id) (sort_with le (List.filter (fun r => ev r =? event_id) l)).
Proof. apply Forall_forall. intros x. rewrite sort_with_perm, filter_in. intros [_ E%Z.eqb_eq]. done. Qed.
Lemma restore_rows_run event ev0 w0 s w counts w' : snapshot_of_world ev0 w0 s -> ev_id event = ev_id ev0 ->
  restore_rows event (sn_snapshot_json s) w = (Ok counts, w') ->
  t_events (w_db w') = update_first (fun e => ev_id e =? ev_id event) (fun _ => meta_restored ev0 event) (t_events (w_db w)) /\
  t_publish_snapshots (w_db w') = t_publish_snapshots (w_db w) /\
  (exists rows, t_published_tasks (w_db w') = t_published_tasks (w_db w) ++ rows /\
     restored bare_task (fun t => pt_event_id t = ev_id event) (tasks_of (ev_id ev0) w0) rows) /\
  (exists rows, t_published_persons (w_db w') = t_published_persons (w_db w) ++ rows /\
     restored bare_person (fun p => pp_event_id p = ev_id event) (persons_of (ev_id ev0) w0) rows) /\
  (exists rows, t_published_person_unavailability (w_db w') = t_published_person_unavailability (w_db w) ++ rows /\
     restored bare_unavailability (fun u => pu_event_id u = ev_id event) (unavailabilities_of (ev_id ev0) w0) rows) /\
  counts = (Z.of_nat (length (tasks_of (ev_id ev0) w0)), Z.of_nat (length (persons_of (ev_id ev0) w0))).
Proof.
  intros [(resolved & edits & Hj & Ht) Htasks Hs He] Hid H. unfold restore_rows in H.
  rewrite Hj, loads_dumps_sorted_text, lift_Ok_bind in H by exact Ht.
  assert (NoDup (dkeys (snapshot_parts ev0 resolved edits w0))) as Hnd by (apply nodup_keys; vm_compute; reflexivity).
  destruct (restore_meta_ok ev0 event _ Hs He Hnd eq_refl) as (m & Hm & Hr).
  rewrite (rows_of_ok "raw_tasks" _ _ Hnd eq_refl), lift_Ok_bind, (rows_of_ok "persons" _ _ Hnd eq_refl), lift_Ok_bind,
    (rows_of_ok "unavailabilities" _ _ Hnd eq_refl), lift_Ok_bind, Hm, lift_Ok_bind in H.
  rewrite !map_map in H.
  rewrite (map_outcome_read _ _ person_fields), lift_Ok_bind in H by (intros; apply read_person_ok).
  rewrite (map_outcome_read _ _ unavailability_fields), lift_Ok_bind in H by (intros; apply read_unavailability_ok).
  rewrite (map_outcome_read _ _ task_fields), lift_Ok_bind in H
    by (intros t Hin; apply read_task_ok; rewrite Forall_forall in Htasks; by apply Htasks).
  apply Mbind_Ok_inv in H as (u & w1 & H & [-> ->]%mret_Ok_inv). unfold write_rows in H. rewrite Hr, lift_Ok_bind in H.
  apply Mbind_Ok_inv in H as (u1 & w2 & ->%assign_inv & H). apply Mbind_Ok_inv in H as (now & w3 & [-> ->]%utc_now_inv & H).
  apply Mbind_Ok_inv in H as (u3 & w4 & H1 & H). apply Mbind_Ok_inv in H as (u4 & w5 & H2 & H3).
  apply persons_run in H1 as ((A1 & B1 & C1 & D1) & rows1 & E1 & R1); [|by rewrite Hid; apply event_rows_all].
  apply unavailabilities_run in H2 as ((A2 & B2 & C2 & D2) & rows2 & E2 & R2); [|by rewrite Hid; apply event_rows_all].
  apply tasks_run in H3 as ((A3 & B3 & C3 & D3) & rows3 & E3 & R3); [|by rewrite Hid; apply event_rows_all|done].
  rewrite A3, A2, A1, D3, D2, D1, E3, C2, B1, B3, B2, E1, C3, E2, C1. split; [done|]. split; [done|].
  split; [by exists rows3|]. split; [by exists rows1|]. split; [by exists rows2|].
  unfold tasks_of, persons_of. by rewrite !length_map.
Qed.

Lemma wipe_run event_id w n w' : wipe_event event_id w = (Ok n, w') ->
  t_events (w_db w') = t_events (w_db w) /\ t_publish_snapshots (w_db w') = t_publish_snapshots (w_db w) /\
  t_published_tasks (w_db w') = List.filter (fun t => negb (pt_event_id t =? event_id)) (t_published_tasks (w_db w)) /\
  t_published_persons (w_db w') = List.filter (fun p => negb (pp_event_id p =? event_id)) (t_published_persons (w_db w)) /\
  t_published_person_unavailability (w_db w') =
    List.filter (fun u => negb (pu_event_id u =? event_id)) (t_published_person_unavailability (w_db w)).
Proof.
  unfold wipe_event. intros H. apply Mbind_Ok_inv in H as (tasks & ? & [-> ->]%q_all_inv & H).
  apply Mbind_Ok_inv in H as (a & ? & ->%delete_inv & H). apply Mbind_Ok_inv in H as (b & ? & ->%delete_inv & H).
  apply Mbind_Ok_inv in H as (c & ? & ->%delete_inv & H). apply Mbind_Ok_inv in H as (d & ? & ->%delete_inv & H).
  apply mret_Ok_inv in H as [_ ->]. done.
Qed.
Lemma replaced_rows {R} (ev : R -> Z) event_id (l rows l' : list R) :
  l' = List.filter (fun r => negb (ev r =? event_id)) l ++ rows -> Forall (fun r => ev r = event_id) rows ->
  List.filter (fun r => ev r =? event_id) l' = rows /\ others_kept ev event_id l l'.
Proof.
  intros -> Hr. rewrite Forall_forall in Hr. unfold others_kept. rewrite !List.filter_app, !filter_filter. split.
  - rewrite (List.filter_ext _ (fun _ => false)) by (intros x; by destruct (ev x =? event_id)).
    assert (List.filter (fun _ : R => false) l = []) as -> by (clear; by induction l).
    apply filter_all. intros x Hx. apply Z.eqb_eq. auto.
  - rewrite (List.filter_ext (fun x => _ && _) (fun x => negb (ev x =? event_id))) by (intros x; by destruct (ev x =? event_id)).
    rewrite <-(app_nil_r (List.filter _ l)) at 2. f_equal.
    assert (forall x, x ∈ rows -> negb (ev x =? event_id) = false) as E.
    { intros x Hx. rewrite (proj2 (Z.eqb_eq _ _)); auto. }
    clear Hr. induction rows as [|x rows IH]; [done|]. cbn. rewrite E by left. apply IH. intros y Hy. apply E. by right.
Qed.

Lemma no_snapshots_eq db db' : no_snapshots db' = no_snapshots db ->
  t_events db' = t_events db /\ t_published_tasks db' = t_published_tasks db /\
  t_published_persons db' = t_published_persons db /\ t_published_person_unavailability db' = t_published_person_unavailability db.
Proof.
  intros E. repeat split; [apply (f_equal t_events) in E|apply (f_equal t_published_tasks) in E|
    apply (f_equal t_published_persons) in E|apply (f_equal t_published_person_unavailability) in E]; exact E.
Qed.
(** What the archive has of the schedule of [w] afterwards *)
Definition can_go_back (event : Event) (w w' : world) : Prop :=
  tasks_of (ev_id event) w = [] \/
  (exists s, s ∈ archive (ev_id event) w' /\ sn_content_hash s = live_hash event w) \/
  exists limit, (get_int "max_snapshots_per_event" w).1 = Ok limit /\
    limit <= Z.of_nat (length (List.filter sn_frozen (archive (ev_id event) w))).
Lemma create_keeps event source w o w' : create_snapshot repr_container as_int event source w = (Ok o, w') ->
  can_go_back event w w' /\ no_snapshots (w_db w') = no_snapshots (w_db w).
Proof.
  intros H. apply create_run in H. destruct o as [s|].
  - destruct H as ((He & Hh & _) & _ & _ & limit & _ & _ & Ht & Hn & _). split; [|done]. right. left. exists s. split; [|done].
    unfold archive. rewrite Ht, filter_in, elem_of_app, list_elem_of_singleton. split; [by right|].
    unfold snapshot_of. by rewrite He, Z.eqb_refl.
  - destruct H as [-> H]. split; [exact H|done].
Qed.
Lemma access_inv event_id user w event w' : _get_event_or_404 event_id user w = (Ok event, w') ->
  w' = w /\ List.find (fun e => ev_id e =? event_id) (t_events (w_db w)) = Some event.
Proof.
  unfold _get_event_or_404, require_event_access. intros H. apply Mbind_Ok_inv in H as (o & ? & [-> ->]%first_row_inv & H).
  destruct (List.find _ _) as [e|] eqn:E; [|done]. destruct (_ || _) in H; [by apply mret_Ok_inv in H as [-> ->]|].
  apply Mbind_Ok_inv in H as (u & ? & [_ ->]%throw_if_Ok_inv & H). by apply mret_Ok_inv in H as [-> ->].
Qed.
Lemma find_first {R} (key : R -> Z) id (x y : R) l : key y = id -> List.find (fun r => key r =? id) l = Some x ->
  List.find (fun r => key r =? id) (update_first (fun r => key r =? id) (fun _ => y) l) = Some y /\
  others_kept key id l (update_first (fun r => key r =? id) (fun _ => y) l).
Proof.
  intros Hy. unfold others_kept. induction l as [|r l IH]; cbn; [done|]. destruct (key r =? id) eqn:E; cbn.
  - intros _. by rewrite Hy, Z.eqb_refl.
  - rewrite E. intros H. destruct (IH H) as [A B]. by rewrite A, B.
Qed.

End Restore.

(** ** A small instance *)

Module Restoring.
Import Camp Archive.
#[local] Instance typed : Columns := {
  col_text v := match v with JStr s => Ok s | _ => raise TypeError "str" end;
  col_int v := match v with JInt n => Ok n | _ => raise TypeError "int" end;
  col_float v := match v with JFloat f => Ok f | _ => raise TypeError "float" end;
  col_bool v := match v with JBool b => Ok b | _ => raise TypeError "bool" end
}.
#[local] Instance typed_laws : ColumnLaws.
Proof. by constructor. Qed.
Definition resolved : json :=
  match map_outcome (resolve_task no_repr as_int camp (t_task_edits db)) (tasks_of 1 first_state) with
  | Ok l => JList (map dump_task (omap id l))
  | Raise _ => JNull
  end.
Lemma snap_taken : snapshot_of_world camp first_state snap.
Proof.
  split; [exists resolved, (edits_summary (t_task_edits db)); split; vm_compute; reflexivity| | |done].
  - assert (tasks_of (ev_id camp) first_state = t_published_tasks db) as -> by (vm_compute; reflexivity).
    repeat constructor; vm_compute; done.
  - done.
Qed.
End Restoring.
#[local] Existing Instance Restoring.typed.

