(* ===== verification/Retention.v ===== *)
(** The retention cycle, [backend/app/core/retention.py]: what is deleted when
    its time is over, which events are put on the way to deletion, and the
    status row that says how the last cycle went. *)
From Stdlib Require Import ZArith Lia String.
From stdpp Require Import base list strings.
From S2P Require Import Prelude Text Json PyTime PyBuiltins Models World RuntimeSettings Cascade Sessions Ha HaWitness Evidence EvidenceFrames DeletionWorkflow DeletionCases ActivationMail Snapshots.

Definition _aware_utc (value : datetime) : datetime :=
  if is_naive value then replace_utc value else astimezone_utc value.

(** [date.max], as a number of days *)
Definition last_day : Z := days_from_civil 9999 12 31.
(** [datetime.combine(end_date + timedelta(days=grace_days + 1), time.min, tzinfo=utc)] *)
Definition event_purge_due_at (end_date grace_days : Z) : outcome datetime :=
  _ ← raise_if (negb ((1 <=? grace_days) && (grace_days <=? 3650))) ValueError
        "Event purge grace days must be between 1 and 3650";
  _ ← raise_if (last_day <? end_date + (grace_days + 1)) OverflowError "date value out of range";
  Ok (utc_at ((end_date + (grace_days + 1)) * us_day)).

Definition set_event : Z -> (Event -> Event) -> py unit := assign t_events ev_id.

Definition materialise_event_purge_deadline (event : Z) (force : bool) : py (option datetime) :=
  e ← the_event event;
  if truthy_opt (ev_purge_case_request_id e) then mret (ev_purge_due_at e)
  else
    match ev_end_date e with
    | None =>
        _ ← set_event event (fun e => e <| ev_purge_grace_days := None |> <| ev_purge_due_at := None |>);
        mret None
    | Some end_date =>
        if is_some (ev_purge_due_at e) && negb force then mret (ev_purge_due_at e)
        else
          grace_days ← get_int "event_purge_grace_days";
          _ ← set_event event (fun e => e <| ev_purge_grace_days := Some grace_days |>);
          due ← lift (event_purge_due_at end_date grace_days);
          _ ← set_event event (fun e => e <| ev_purge_due_at := Some due |>);
          mret (Some due)
    end.

Fixpoint distinct (l : list Z) : list Z :=
  match l with
  | [] => []
  | i :: l => i :: List.filter (fun j => negb (j =? i)) (distinct l)
  end.
Definition _prune_snapshots : py Z :=
  before ← q_count t_publish_snapshots;
  snapshots ← q_all t_publish_snapshots (fun _ => true);
  _ ← mfor _prune_old_snapshots (distinct (map sn_event_id snapshots));
  after ← q_count t_publish_snapshots;
  mret (before - after).

(** The status row, [db.get(RetentionSchedulerState, 1)] or a new one *)
Definition scheduler_state : py unit :=
  state ← q_first t_retention_scheduler_state (fun s => rs_id s =? 1);
  when (is_none state) (q_add t_retention_scheduler_state new_RetentionSchedulerState).
Definition set_state : (RetentionSchedulerState -> RetentionSchedulerState) -> py unit :=
  assign t_retention_scheduler_state rs_id 1.

(** [type(exc).__name__] *)
Definition exn_name (c : exn_class) : string :=
  match c with
  | ValueError => "ValueError" | TypeError => "TypeError" | TrustEvidenceError => "TrustEvidenceError" | KeyError => "KeyError" | LookupError => "LookupError"
  | AttributeError => "AttributeError" | IndexError => "IndexError" | RuntimeError => "RuntimeError"
  | RecursionError => "RecursionError" | OverflowError => "OverflowError" | OSError => "OSError"
  | PermissionError => "PermissionError" | FileNotFoundError => "FileNotFoundError"
  | JSONDecodeError => "JSONDecodeError" | UnicodeDecodeError => "UnicodeDecodeError"
  | UnicodeEncodeError => "UnicodeEncodeError" | NoResultFound => "NoResultFound" | IntegrityError => "IntegrityError"
  | StaleDataError => "StaleDataError" | ValidationError => "ValidationError" | EvidenceError => "EvidenceError" | EvidenceUnavailable => "EvidenceUnavailable"
  | HAWritePermitError => "HAWritePermitError" | HAProtectionQueueError => "HAProtectionQueueError"
  | LeaseAuthorityUnavailable => "LeaseAuthorityUnavailable" | LeaseAuthorityRejected => "LeaseAuthorityRejected"
  | CalledProcessError => "CalledProcessError" | TimeoutExpired => "TimeoutExpired"
  | ActivationDeliveryInProgressError => "ActivationDeliveryInProgressError" | HTTPException _ => "HTTPException"
  end%string.

Definition link_expired (cutoff : datetime) (l : ActivationLink) : bool :=
  let before o := match o with Some d => instant d <? instant cutoff | None => false end in
  before (al_used_at l) || before (al_invalidated_at l) || (instant (al_expires_at l) <? instant cutoff).
Definition delivery_expired (cutoff : datetime) (d : ActivationEmailDelivery) : bool :=
  match ad_started_at d with Some t => instant t <? instant cutoff | None => false end.
Definition entry_expired (cutoff : datetime) (a : AuditLog) : bool :=
  match au_timestamp a with Some t => instant t <? instant cutoff | None => false end.

Section Cycle.
Context `{Evidence : !EvidenceService}.
Context (repr_container : json -> string) (urlopen : http_request -> http_result).
Context (is_postgresql lock_acquired : bool).

Definition _try_cycle_lock : py bool := mret (if is_postgresql then lock_acquired else true).

(** One event: the deadlines set and the cases started, 0 or 1 of each. *)
Definition schedule_event_purge (pending : unflushed) (now : datetime) (event : Z) : py (Z * Z) :=
  e ← the_event event;
  if truthy_opt (ev_purge_case_request_id e) then mret (0, 0)
  else
    scheduled ← (if is_none (ev_purge_due_at e)
                 then _ ← materialise_event_purge_deadline event false; mret 1 else mret 0);
    e ← the_event event;
    match ev_purge_due_at e with
    | None => mret (scheduled, 0)
    | Some due =>
        if instant now <? instant (_aware_utc due) then mret (scheduled, 0)
        else
          existing ← q_first t_deletion_cases (fun c => eq_opt_str (dc_event_purge_key c) (Some (ev_evidence_id e)));
          job ← match existing with
                | Some c => mret (dc_id c)
                | None => _ ← flush pending; create_event_erasure_case event "retention_schedule" (Some now)
                end;
          c ← the_case job;
          _ ← set_event event (fun e =>
                e <| ev_purge_case_request_id := Some (dc_request_id c) |>
                  <| ev_purge_started_at := Some (_aware_utc (dc_submitted_at c)) |>
                  <| ev_status := Some "purge_pending"%string |>);
          mret (scheduled, 1)
    end.
Definition total (f : Z * Z -> Z) (l : list (Z * Z)) : Z := fold_right Z.add 0 (map f l).
Definition _schedule_event_purges (pending : unflushed) (now : datetime) : py (Z * Z) :=
  events ← q_all t_events (fun e => is_some (ev_end_date e));
  counts ← mmap (schedule_event_purge pending now) (map ev_id (order_by ev_id events));
  mret (total fst counts, total snd counts).

(** The rows whose time is over, table by table: the counts of the deletions and
    the changes of the recovered deliveries that are still to be written *)
Definition delete_expired (now : datetime) : py (list (string * json) * unflushed) :=
  sessions ← cleanup_expired_sessions (Some now) false;
  '(recovered, pending) ← recover_stale_deliveries None false (Some now);
  challenges ← q_delete t_passkey_challenges (fun c => instant (ph_expires_at c) <=? instant now);
  key_challenges ← q_delete t_evidence_key_registration_challenges
                     (fun c => (instant (kc_expires_at c) <=? instant now) || is_some (kc_used_at c));
  ceremonies ← q_delete t_passkey_ceremonies (fun c => instant (pc_expires_at c) <=? instant (add_us now (- us_day)));
  codes ← q_delete t_exchange_codes (fun c => instant (xc_expires_at c) <=? instant now);
  link_days ← get_int "retention_used_activation_links_days";
  let link_cutoff := add_us now (- (link_days * us_day)) in
  links ← delete_links (link_expired link_cutoff);
  deliveries ← delete_deliveries (delivery_expired link_cutoff);
  audit_days ← get_int "audit_log_retention_days";
  entries ← q_delete t_audit_log (entry_expired (add_us now (- (audit_days * us_day))));
  mret ([("auth_sessions", JInt sessions); ("activation_deliveries_recovered", JInt recovered);
         ("passkey_challenges", JInt challenges); ("evidence_key_challenges", JInt key_challenges);
         ("passkey_ceremonies", JInt ceremonies); ("exchange_codes", JInt codes); ("activation_links", JInt links);
         ("activation_email_deliveries", JInt deliveries); ("audit_logs", JInt entries)]%string, pending).

Definition retention_work (now : datetime) : py (list (string * json) * unflushed) :=
  _ ← scheduler_state;
  _ ← set_state (fun s => s <| rs_last_started_at := Some now |>);
  '(counts, pending) ← delete_expired now;
  snapshots ← _prune_snapshots;
  '(scheduled, started) ← _schedule_event_purges pending now;
  let counts := counts ++ [("publish_snapshots", JInt snapshots); ("event_deadlines_materialised", JInt scheduled);
                           ("event_purge_cases_started", JInt started)]%string in
  _ ← set_state (fun s => s <| rs_cycle_count := rs_cycle_count s + 1 |> <| rs_last_completed_at := Some now |>
        <| rs_last_success_at := Some now |> <| rs_last_result := Some "success"%string |>
        <| rs_last_error_code := None |> <| rs_last_counts_json := Some (dumps_ascii_compact_sorted (JObj counts)) |>);
  mret (counts, pending).

(** [is_ha_enabled() and not control_witness_ready()] *)
Definition not_holder : py bool :=
  ha ← is_ha_enabled;
  if (ha : bool) then ready ← control_witness_ready repr_container; mret (negb ready) else mret false.

Definition run_retention_cycle (now : option datetime) (do_commit : bool) : py (list (string * json)) :=
  skipped ← not_holder;
  if (skipped : bool) then mret [("non_holder_skipped", JInt 1)]%string
  else
    _ ← require_write_permit repr_container urlopen true;
    now ← match now with Some n => mret n | None => utc_now end;
    let now := _aware_utc now in
    locked ← _try_cycle_lock;
    if negb locked then mret [("lock_skipped", JInt 1)]%string
    else
      '(counts, pending) ← retention_work now;
      _ ← flush pending;
      _ ← (if do_commit then fenced_commit repr_container urlopen true else mret tt);
      mret counts.

(** The status row of a cycle that failed *)
Definition record_failure (now : option datetime) (e : exn) : py unit :=
  now ← match now with Some n => mret n | None => utc_now end;
  let failure_time := _aware_utc now in
  _ ← scheduler_state;
  _ ← set_state (fun s => s <| rs_cycle_count := rs_cycle_count s + 1 |> <| rs_last_started_at := Some failure_time |>
        <| rs_last_completed_at := Some failure_time |> <| rs_last_result := Some "failed"%string |>
        <| rs_last_error_code := Some (take_bytes 64 (exn_name (exn_cls e))) |>
        <| rs_last_counts_json := Some "{}"%string |>);
  fenced_commit repr_container urlopen true.

(** A session of its own: it starts from what is committed, [failed] records what
    made it fail if it can, and what is not committed is lost when it closes. *)
Definition roll (w : world) : world := w <| w_db := w_committed w |>.
Definition in_session {A} (m : py A) (failed : exn -> py unit) : py A := fun w =>
  match m (roll w) with
  | (Ok a, w1) => (Ok a, roll w1)
  | (Raise e, w1) => (Raise e, roll (failed e (roll w1)).2)
  end.

Definition run_retention_cycle_once (now : option datetime) : py (list (string * json)) :=
  skipped ← not_holder;
  if (skipped : bool) then mret [("non_holder_skipped", JInt 1)]%string
  else
    _ ← require_write_permit repr_container urlopen true;
    in_session (run_retention_cycle now true) (record_failure now).
End Cycle.

(** ** The status the root account sees *)

Definition of_opt_stamp (o : option datetime) : json := match o with Some d => JStr (isoformat d) | None => JNull end.
Definition item (record_class mechanism : string) (settings : list string) : json :=
  JObj [("record_class", JStr record_class); ("mechanism", JStr mechanism);
        ("settings", JList (map JStr settings))]%string.
Definition RETENTION_INVENTORY : list json :=
  [item "auth_sessions" "scheduled_database_delete" ["retention_expired_sessions_days"; "retention_revoked_sessions_days"];
   item "passkey_challenges" "scheduled_database_delete" ["challenge_ttl_minutes"];
   item "evidence_key_challenges" "scheduled_database_delete" [];
   item "passkey_ceremonies" "scheduled_database_delete" ["challenge_ttl_minutes"];
   item "exchange_codes" "scheduled_database_delete" ["exchange_code_ttl_seconds"];
   item "activation_links" "scheduled_database_delete" ["retention_used_activation_links_days"];
   item "activation_email_deliveries" "scheduled_database_delete" ["retention_used_activation_links_days"];
   item "audit_logs" "scheduled_database_delete" ["audit_log_retention_days"];
   item "publish_snapshots" "scheduled_count_prune" ["max_snapshots_per_event"];
   item "events" "scheduled_signed_workflow" ["event_purge_grace_days"];
   item "recovery_packages" "controller_attested_workflow" [];
   item "privacy_tombstones" "restore_replay_guard" ["EVIDENCE_TOMBSTONE_RETENTION_DAYS"];
   item "evidence_ledger" "controller_repository_policy" []]%string.

Definition retention_status : py json :=
  state ← q_first t_retention_scheduler_state (fun s => rs_id s =? 1);
  counts ← match state with
           | Some s =>
               match rs_last_counts_json s with
               | Some raw =>
                   if negb (truthy_str raw) then mret (JObj [])
                   else try_except (lift (loads raw)) [TypeError; ValueError; JSONDecodeError] (fun _ => mret (JObj []))
               | None => mret (JObj [])
               end
           | None => mret (JObj [])
           end;
  interval ← setting RETENTION_SCHEDULER_INTERVAL_SECONDS;
  let shown f := match state with Some s => f s | None => JNull end in
  mret (JObj [
    ("format", JStr "mp-opt-retention-status-v1"); ("interval_seconds", JInt interval);
    ("cycle_count", match state with Some s => JInt (rs_cycle_count s) | None => JInt 0 end);
    ("last_started_at", shown (fun s => of_opt_stamp (rs_last_started_at s)));
    ("last_completed_at", shown (fun s => of_opt_stamp (rs_last_completed_at s)));
    ("last_success_at", shown (fun s => of_opt_stamp (rs_last_success_at s)));
    ("last_result", shown (fun s => of_opt_str (rs_last_result s)));
    ("last_error_code", shown (fun s => of_opt_str (rs_last_error_code s)));
    ("last_counts", counts); ("inventory", JList RETENTION_INVENTORY)]%string).
