(* ===== verification/Publish.v ===== *)
(** Publishing a schedule, [backend/app/api/v1/publish.py]: the event a paired
    desktop's secret authenticates, the days a publish replaces, the rows it writes
    and the request as a whole.

    The sessions do not flush before a query, so that the rows a request adds are
    written together, when it flushes. *)
From Stdlib Require Import ZArith Lia Ascii String SpecFloat.
From stdpp Require Import base list strings.
From S2P Require Import Prelude Text TextFacts Json PyTime PyBuiltins ScheduleDays Ordering Models World RuntimeSettings Permissions PublishInput Cascade Sessions Security AuditTrail WebEdits Diff Ha HaWitness HaReplication Push DeletionWorkflow DeletionCases Snapshots History Retention.

(** ** The event of a secret *)

Definition _hash_secret (secret : string) : outcome string := sha256_text secret.
Definition _ensure_aware_utc (value : option datetime) : option datetime := option_map _aware_utc value.

Definition SECRET_OPERATIONS : list string :=
  ["publisher-secret-create"; "publisher-secret-rotation"; "publisher-secret-import"]%string.
Definition pending_protection (event : Event) (o : HAProtectionOperation) : bool :=
  String.eqb (ho_resource_type o) "event" && eq_opt_str (ho_resource_id o) (Some (string_of_Z (ev_id event))) &&
  str_in (ho_operation_type o) SECRET_OPERATIONS && str_in (ho_state o) ["pending"; "indeterminate"]%string.
Definition unauthorised {A} (detail : string) : py A := throw (HTTPException 401) detail.

(** [auth_header[7:].strip()] *)
Definition bearer_secret (r : request) : option string :=
  let auth_header := get_or "authorization" EmptyString (headers r) in
  if startswith "bearer " (lower auth_header) then Some (ustrip (String.substring 7 (String.length auth_header) auth_header)) else None.
Definition check_secret_age (event : Event) : py unit :=
  max_age ← get_int "secret_max_age_days";
  if 0 <? max_age then
    match _ensure_aware_utc (ev_secret_created_at event) with
    | None => mret tt
    | Some created_at =>
        now ← utc_now;
        throw_if (max_age <? dt_sub now created_at / us_day) (HTTPException 401)
          "Publish secret has expired - please regenerate in the admin panel"
    end
  else mret tt.
Definition _authenticate_event (r : request) : py Event :=
  match bearer_secret r with
  | None => unauthorised "Missing Bearer token"
  | Some secret =>
      if negb (truthy_str secret) then unauthorised "Empty Bearer token"
      else
        secret_hash ← lift (_hash_secret secret);
        event ← q_first t_events (fun e => String.eqb (ev_publish_secret_hash e) secret_hash);
        match event with
        | None => unauthorised "Invalid publish secret"
        | Some event =>
            mode ← setting HA_MODE;
            _ ← when (String.eqb mode "ha")
                  (pending ← q_first t_ha_protection_operations (pending_protection event);
                   throw_if (is_some pending) (HTTPException 423) "STANDBY_PROTECTION_PENDING");
            _ ← check_secret_age event;
            mret event
        end
  end.

Definition _require_publishing_allowed (event : Event) : py unit :=
  throw_if (truthy_opt (ev_purge_case_request_id event)) (HTTPException 409) "EVENT_PURGE_IN_PROGRESS".

(** ** Days *)

Definition bad_request {A} (detail : string) : outcome A := raise (HTTPException 400) detail.
(** [except ValueError: raise HTTPException(status_code=400, ...)] *)
Definition or_bad_request {A} (m : outcome A) (detail : string) : outcome A :=
  match m with
  | Ok a => Ok a
  | Raise e => if exn_in e [ValueError] then bad_request detail else Raise e
  end.
Definition scope_date (raw_date : string) : outcome string :=
  or_bad_request (d ← strptime_Ymd (code_points (ustrip raw_date)); Ok (date_string d)) ("Invalid publish date: " +:+ raw_date).
Definition _normalise_scope_dates (dates : option (list string)) : outcome (list string) :=
  match dates with
  | None | Some [] => bad_request "Date-scoped publish requires at least one date."
  | Some dates => map_outcome scope_date dates
  end.
Definition _additional_date (additional_json : option string) : outcome (option string) :=
  match additional_json with
  | None => Ok None
  | Some text =>
      if negb (truthy_str text) then Ok None
      else
        match loads text with
        | Ok (JObj additional) =>
            match dget "date" additional with
            | Some (JStr raw_date) =>
                match strptime_Ymd (code_points raw_date) with
                | Ok d => Ok (Some (date_string d))
                | Raise e => if exn_in e [ValueError] then Ok None else Raise e
                end
            | _ => Ok None
            end
        | Ok _ => Ok None
        | Raise e => if exn_in e [TypeError; ValueError] then Ok None else Raise e
        end
  end.
Definition _published_task_day (range : json) (task : PublishedTask) : outcome string :=
  working_date_for_datetime (pt_start_datetime task) range.
Definition _payload_task_day (range : json) (task : TaskIn) : outcome string :=
  or_bad_request (start ← fromisoformat (ti_start task); working_date_for_datetime start range)
    ("Invalid task start datetime for task " +:+ string_of_Z (ti_id task)).

(** The range of hours the payload brings, or the event has *)
Definition incoming_range (payload : PublishPayload) (event : Event) : outcome json :=
  match py_event payload with
  | Some {| em_schedule_day_range := Some d |} => Ok (JObj (map (fun kv => (kv.1, JInt kv.2)) d))
  | _ => r ← event_schedule_day_range (ev_metadata_json event); Ok (range_json r)
  end.
Definition publish_range (payload : PublishPayload) (event : Event) : outcome json :=
  incoming ← incoming_range payload event;
  r ← normalise_schedule_day_range incoming;
  _ ← raise_if (negb (py_eq (range_json r) incoming)) (HTTPException 400) "Invalid schedule day range.";
  Ok (range_json r).
Definition publish_scope (payload : PublishPayload) : string :=
  match py_publish_scope payload with Some s => if truthy_str s then s else "full" | None => "full" end.
Definition scoped_dates (payload : PublishPayload) : outcome (option (list string)) :=
  if String.eqb (publish_scope payload) "dates" then d ← _normalise_scope_dates (py_dates payload); Ok (Some d) else Ok None.
Definition check_scope (range : json) (dates : option (list string)) (tasks : list TaskIn) : outcome unit :=
  match dates with
  | None => Ok tt
  | Some dates =>
      each (fun t => day ← _payload_task_day range t;
                     raise_if (negb (str_in day dates)) (HTTPException 400)
                       ("Task " +:+ string_of_Z (ti_id t) +:+ " is outside the requested publish dates.")) tasks
  end.

(** ** Rows *)

Definition person_row (event_id : Z) (p : PersonIn) : Z -> datetime -> PublishedPerson := fun i now =>
  mkPublishedPerson i (pi_evidence_subject_id p) event_id (pi_id p) (pi_first_name p) (pi_last_name p) (pi_email p) (Some now).
(** The people to insert *)
Definition _insert_person (p : PersonIn) : py (list PersonIn) := mret [p].
Definition _upsert_person (event_id : Z) (p : PersonIn) : py (list PersonIn) :=
  existing ← q_first t_published_persons (fun r => (pp_event_id r =? event_id) && (pp_external_person_id r =? pi_id p));
  match existing with
  | None => _insert_person p
  | Some r =>
      _ ← throw_if (truthy_str (pi_evidence_subject_id p) && negb (String.eqb (pi_evidence_subject_id p) (pp_evidence_subject_id r)))
            (HTTPException 409) "A person's evidence identifier is immutable.";
      _ ← assign t_published_persons pp_id (pp_id r) (fun r =>
            r <| pp_first_name := pi_first_name p |> <| pp_last_name := pi_last_name p |> <| pp_email := pi_email p |>);
      mret []
  end.

Definition dump_attendee_in (a : AttendeeIn) : json := JObj [("name", JStr (ai_name a)); ("person_id", JInt (ai_person_id a))]%string.
Definition dump_attendees_in (l : list AttendeeIn) : json := JList (map dump_attendee_in l).
Definition dump_definition (d : PublishedFieldDefinitionIn) : json :=
  JObj [("id", JStr (fd_id d)); ("name", JStr (fd_name d)); ("type", JStr (fd_type d)); ("purpose", JStr (fd_purpose d));
        ("visibility", JStr (fd_visibility d))]%string.
(** [json.dumps(v) if v else None] *)
Definition dumps_opt (v : json) : option string := if truthy v then Some (dumps v) else None.
Definition _insert_task (event_id : Z) (t : TaskIn) : outcome (Z -> datetime -> PublishedTask) :=
  '(start, end_) ← or_bad_request (start ← fromisoformat (ti_start t); end_ ← fromisoformat (ti_end t); Ok (start, end_))
                     ("Invalid task datetime for task " +:+ string_of_Z (ti_id t));
  Ok (fun i now =>
        mkPublishedTask i event_id (ti_id t) (ti_name t) (ti_summary t) (ti_description t) start end_
          (ti_location_name t) (ti_location_address t) (ti_task_type_code t) (ti_task_type_name t) (ti_color t)
          (dumps_opt (dump_attendees_in (ti_attendees t)))
          (dumps_opt (JObj (map (fun kv => (kv.1, dump_attendees_in kv.2)) (or_none (ti_field_assignments t)))))
          (dumps_opt (JObj (or_none (ti_field_values t))))
          (dumps_opt (JList (map dump_definition (or_none (ti_field_definitions t)))))
          None None (Some (match ti_sort_order t with Some f => f | None => S754_zero false end)) false (Some now)).

(** [(person_id, working_date, start, end)] *)
Definition interval : Type := Z * string * string * string.
Definition check_interval (valid_person_ids : list Z) (dates : option (list string)) (u : PersonUnavailabilityIn) : outcome interval :=
  '(working_date, start, end_) ← or_bad_request
      (d ← strptime_Ymd (code_points (ui_working_date u)); start ← fromisoformat (ui_start u); end_ ← fromisoformat (ui_end u);
       Ok (date_string d, start, end_)) "Invalid unavailability interval.";
  _ ← raise_if (negb (among valid_person_ids (ui_person_id u))) (HTTPException 400) "Unavailable person is not part of this event.";
  _ ← raise_if (match dates with Some dates => negb (str_in working_date dates) | None => false end) (HTTPException 400)
        "Unavailability is outside the requested publish dates.";
  early ← dt_le end_ start;
  _ ← raise_if early (HTTPException 400) "Unavailability end must be after its start.";
  Ok (ui_person_id u, working_date, isoformat start, isoformat end_).
(** An interval is added the first time it is seen. *)
Fixpoint new_intervals (seen : list interval) (l : list interval) : list interval :=
  match l with
  | [] => []
  | k :: l => if bool_decide (k ∈ seen) then new_intervals seen l else k :: new_intervals (k :: seen) l
  end.
Definition interval_row (event_id : Z) (k : interval) : Z -> datetime -> PublishedPersonUnavailability := fun i now =>
  let '(person_id, working_date, start, end_) := k in
  mkPublishedPersonUnavailability i event_id person_id working_date start end_ (Some now).

(** ** The request *)

(** [event.metadata_json] with the aliases of its days *)
Definition with_day_aliases (metadata_json : option string) (aliases : list (string * string)) : outcome string :=
  existing ← (if truthy_opt metadata_json then loads (or_empty metadata_json) else Ok (JObj []));
  match existing with
  | JObj d => Ok (dumps (JObj (dset "day_aliases" (JObj (map (fun kv => (kv.1, JStr kv.2)) aliases)) d)))
  | _ => raise TypeError "object does not support item assignment"
  end.
Definition event_day (text : option string) : outcome (option Z) :=
  match text with
  | Some s => if truthy_str s then d ← strptime_Ymd (code_points s); Ok (Some d) else Ok None
  | None => Ok None
  end.
Definition update_event (event_id : Z) (range : json) (m : EventMetaIn) : py unit :=
  _ ← when (truthy_opt (em_name m)) (set_event event_id (fun e => e <| ev_name := or_empty (em_name m) |>));
  start ← lift (event_day (em_start_date m));
  _ ← match start with Some d => set_event event_id (fun e => e <| ev_start_date := Some d |>) | None => mret tt end;
  new_end ← lift (event_day (em_end_date m));
  _ ← match new_end with
      | Some new_end =>
          event ← the_event event_id;
          _ ← set_event event_id (fun e => e <| ev_end_date := Some new_end |>);
          _ ← materialise_event_purge_deadline event_id (negb (eq_opt_Z (ev_end_date event) (Some new_end)));
          mret tt
      | None => mret tt
      end;
  _ ← match em_day_aliases m with
      | Some aliases =>
          event ← the_event event_id;
          text ← lift (with_day_aliases (ev_metadata_json event) aliases);
          set_event event_id (fun e => e <| ev_metadata_json := Some text |>)
      | None => mret tt
      end;
  _ ← when (is_some (em_schedule_day_range m))
        (event ← the_event event_id;
         text ← lift (merge_schedule_day_range (ev_metadata_json event) range);
         set_event event_id (fun e => e <| ev_metadata_json := Some text |>));
  set_event event_id (fun e => e <| ev_status := Some "published"%string |>).

(** What the publish replaces: the tasks of the scope with their edits *)
Definition in_scope (range : json) (dates : option (list string)) (t : PublishedTask) : outcome bool :=
  match dates with None => Ok true | Some dates => day ← _published_task_day range t; Ok (str_in day dates) end.
Definition clear_tasks (event_id : Z) (range : json) (dates : option (list string)) : py Z :=
  tasks ← q_all t_published_tasks (fun t => pt_event_id t =? event_id);
  scope ← lift (map_outcome (in_scope range dates) tasks);
  let existing_task_ids := map (fun p => pt_id p.1) (List.filter (fun p => p.2) (zip tasks scope)) in
  edits_cleared ← q_delete t_task_edits (fun e => among existing_task_ids (te_task_id e));
  _ ← q_delete t_published_tasks (fun t => among existing_task_ids (pt_id t));
  mret edits_cleared.
Definition cleared_interval (event_id : Z) (dates : option (list string)) (u : PublishedPersonUnavailability) : bool :=
  (pu_event_id u =? event_id) && match dates with None => true | Some dates => str_in (pu_working_date u) dates end.
Definition flush_rows {R} (t : database -> list R) `{!Setter t} (now : datetime) (rows : list (Z -> datetime -> R)) : py unit :=
  mfor (fun row => _ ← q_insert t (fun i => row i now); mret tt) rows.
Definition replace_schedule (event_id : Z) (range : json) (dates : option (list string)) (payload : PublishPayload) : py Z :=
  edits_cleared ← clear_tasks event_id range dates;
  _ ← when (negb (is_some dates))
        (_ ← q_delete t_published_persons (fun p => pp_event_id p =? event_id); mret tt);
  people ← mmap (if is_some dates then _upsert_person event_id else _insert_person) (py_persons payload);
  _ ← q_delete t_published_person_unavailability (cleared_interval event_id dates);
  intervals ← lift (map_outcome (check_interval (map pi_id (py_persons payload)) dates) (py_unavailabilities payload));
  tasks ← lift (map_outcome (_insert_task event_id) (py_tasks payload));
  now ← utc_now;
  _ ← flush_rows t_published_persons now (map (person_row event_id) (concat people));
  _ ← flush_rows t_published_person_unavailability now (map (interval_row event_id) (new_intervals [] intervals));
  _ ← flush_rows t_published_tasks now tasks;
  mret edits_cleared.

Record PublishResponse : Type := mkPublishResponse { pr_tasks_created : Z; pr_persons_created : Z; pr_edits_cleared : Z }.

Definition edits_map (edits : list TaskEdit) : list (Z * TaskEdit) := map (fun e => (te_task_id e, e)) edits.

Section Publish.
Context (repr_container : json -> string) (urlopen : http_request -> http_result) (as_int : json -> option Z)
        (unicode_lower : string -> string) (webpush : push_request -> push_result).

Definition record_changes (event_id : Z) (old_tasks : list PublishedTask) (old_edits : list TaskEdit) : py unit :=
  catch_all
    (new_tasks ← q_all t_published_tasks (fun t => pt_event_id t =? event_id);
     new_edits ← edits_of new_tasks;
     diffs ← lift (compute_per_person_diffs old_tasks (edits_map old_edits) new_tasks (Some (edits_map new_edits)));
     _ ← store_schedule_changes event_id diffs;
     mret tt) (mret tt).

Definition publish (payload : PublishPayload) (r : request) (client : option (option string)) : py PublishResponse :=
  event ← _authenticate_event r;
  _ ← _require_publishing_allowed event;
  range ← lift (publish_range payload event);
  dates ← lift (scoped_dates payload);
  _ ← lift (check_scope range dates (py_tasks payload));
  _ ← match py_event payload with Some m => update_event (ev_id event) range m | None => mret tt end;
  old_tasks ← q_all t_published_tasks (fun t => pt_event_id t =? ev_id event);
  old_edits ← edits_of old_tasks;
  edits_cleared ← replace_schedule (ev_id event) range dates payload;
  _ ← _auto_link_users_by_email unicode_lower (ev_id event);
  _ ← record_changes (ev_id event) old_tasks old_edits;
  event ← the_event (ev_id event);
  _ ← create_snapshot repr_container as_int event "Publish Secret";
  _ ← fenced_commit repr_container urlopen true;
  _ ← audit None "publish.data" (Some "event"%string) (Some (ev_id event))
        (Some (dumps (JObj [("scope", JStr (publish_scope payload)); ("tasks", JInt (Z.of_nat (length (py_tasks payload))))]%string)))
        client "success";
  _ ← fenced_commit repr_container urlopen true;
  event ← the_event (ev_id event);
  _ ← catch_all
        (_ ← send_push_to_event repr_container urlopen webpush (ev_id event) "Schedule Updated"
               (ev_name event +:+ " schedule has been republished.")
               (Some ("/calendar?event=" +:+ string_of_Z (ev_id event))) (Some "schedule"%string);
         mret tt) (mret tt);
  mret (mkPublishResponse (Z.of_nat (length (py_tasks payload))) (Z.of_nat (length (py_persons payload))) edits_cleared).

(** The health check of a desktop *)
Record PingResponse : Type := mkPingResponse { pg_event_name : string; pg_event_id : Z; pg_event_ref : string }.
Definition ping (r : request) : py PingResponse :=
  event ← _authenticate_event r;
  mret (mkPingResponse (ev_name event) (ev_id event) (ev_evidence_id event)).
End Publish.
