(* ===== verification/DesktopEvidence.v ===== *)
(** What a paired desktop signs, [backend/app/api/v1/publish.py]: enrolling the key
    of an event's processor, acknowledging the data policy, and claiming, reporting
    and resolving deletion work orders.

    [as_int] and [as_bool] are pydantic's conversions of a decoded value to an [int]
    and a [bool]; [initialise] is [initialise] of [evidence.py], modelled in
    [Evidence], whose tools are its parameters. *)
From Stdlib Require Import ZArith Lia Ascii String.
From stdpp Require Import base list strings.
From S2P Require Import Prelude Text TextFacts Json JsonFacts Sha256 PyTime PyBuiltins Base64 Models World Permissions EvidenceManifest Evidence EvidenceFrames Ha HaWitness Cascade Sessions DeletionWorkflow DeletionCases Governance Publish OperatorEvidence.

(** ** Schemas *)

Record ProcessorPublicPackageIn : Type := mkProcessorPublicPackageIn {
  pb_entity_id : string; pb_key_id : string; pb_public_key : string; pb_public_key_sha256 : string;
  pb_supersedes_key_id : option string; pb_rotation_reason : option string; pb_display_label : option string; pb_created_at : string
}.
Record ProcessorPossessionProofIn : Type := mkProcessorPossessionProofIn {
  po_challenge : list (string * json); po_proof : list (string * json); po_previous_proof : option (list (string * json))
}.
Record SignedDesktopDocumentIn : Type := mkSignedDesktopDocumentIn { sg_document : list (string * json); sg_proof : list (string * json) }.

Definition PRC_RE : regex := ENTITY_ID_RE "processor".
Definition UUID_SHAPE_RE : regex := rep 36 (cls ([("0", "9"); ("a", "f")] ++ one_of "-")%char).
(** The bounds of [ProcessorPublicPackageIn]; [re] fullmatch stands for an anchored pattern. *)
Definition package_fields (p : ProcessorPublicPackageIn) : bool :=
  fullmatch PRC_RE (pb_entity_id p) && fullmatch KEY_ID_RE (pb_key_id p) &&
  (32 <=? strlen (pb_public_key p)) && (strlen (pb_public_key p) <=? 2048) && fullmatch SHA256_RE (pb_public_key_sha256 p) &&
  match pb_supersedes_key_id p with Some k => fullmatch KEY_ID_RE k | None => true end &&
  match pb_rotation_reason p with Some r => str_in r ROTATION_REASONS | None => true end &&
  match pb_display_label p with Some l => strlen l <=? 128 | None => true end && (strlen (pb_created_at p) <=? 32).

Section Schemas.
Context (as_int : json -> option Z) (as_bool : json -> option bool).
(** A member of a model: whether it is required, its default, and its conversion *)
Record member : Type := Member { mb_name : string; mb_default : option json; mb_read : json -> option json }.
Definition literal (l : list string) (v : json) : option json := match v with JStr s => if str_in s l then Some v else None | _ => None end.
Definition matching (r : regex) (v : json) : option json := match v with JStr s => if fullmatch r s then Some v else None | _ => None end.
Definition short (n : Z) (v : json) : option json := match v with JStr s => if strlen s <=? n then Some v else None | _ => None end.
Definition optional (f : json -> option json) (v : json) : option json := match v with JNull => Some JNull | _ => f v end.
Definition counter (v : json) : option json := match as_int v with Some n => if 0 <=? n then Some (JInt n) else None | None => None end.
Definition boolean (v : json) : option json := option_map JBool (as_bool v).
Definition listed (f : json -> option json) (v : json) : option json :=
  match v with JList l => option_map JList (mapM f l) | _ => None end.
Definition read_member (d : list (string * json)) (m : member) : option (string * json) :=
  match dget (mb_name m) d with
  | Some v => option_map (fun v => (mb_name m, v)) (mb_read m v)
  | None => option_map (fun v => (mb_name m, v)) (mb_default m)
  end.
(** [Model.model_validate(d).model_dump(mode="json")] with [extra="forbid"] *)
Definition read_model (ms : list member) (d : list (string * json)) : option (list (string * json)) :=
  if keys_within d (map mb_name ms) then mapM (read_member d) ms else None.
Definition validate_model (name : string) (ms : list member) (d : list (string * json)) : outcome (list (string * json)) :=
  match read_model ms d with Some d => Ok d | None => raise ValidationError name end.
Definition nested (ms : list member) (v : json) : option json :=
  match v with JObj d => option_map JObj (read_model ms d) | _ => None end.
Definition need (name : string) (f : json -> option json) : member := Member name None f.

Definition DesktopDeletionCounts : list member :=
  map (fun k => need k counter) ["persons"; "assignments"; "capability_links"; "group_memberships"; "unavailability_intervals";
    "task_references"; "optimisation_records"; "publish_records"; "cached_records"; "tracked_exports"; "integration_references"]%string.
Definition DesktopDeletionReportIn : list member :=
  [need "format" (literal [DESKTOP_DELETION_FORMAT]); need "instance_id" (matching UUID_SHAPE_RE); need "entity_id" (matching PRC_RE);
   need "key_id" (matching KEY_ID_RE); need "role" (literal ["processor"]); need "algorithm" (literal ["Ed25519"]);
   need "public_key_sha256" (matching SHA256_RE); need "work_order_id" (matching UUID_SHAPE_RE);
   need "event_ref" (matching UUID_SHAPE_RE); Member "subject_ref" (Some JNull) (optional (matching UUID_SHAPE_RE));
   need "operation" (literal ["delete_subject"; "delete_event"]); need "outcome" (literal ["deleted"]);
   need "deleted_counts" (nested DesktopDeletionCounts);
   Member "outstanding_actions" (Some (JList [])) (listed (literal ["untracked_external_export"; "external_integration_copy"]));
   need "completed_at" (short 40)]%string.
Definition DesktopWorkOrderClaimIn : list member :=
  [need "format" (literal [DESKTOP_WORK_ORDER_CLAIM_FORMAT]); need "instance_id" (matching UUID_SHAPE_RE);
   need "event_ref" (matching UUID_SHAPE_RE); need "entity_id" (matching PRC_RE); need "key_id" (matching KEY_ID_RE);
   need "role" (literal ["processor"]); need "algorithm" (literal ["Ed25519"]); need "public_key_sha256" (matching SHA256_RE);
   need "work_order_id" (matching UUID_SHAPE_RE); need "requested_at" (short 40)]%string.
Definition DesktopCopyResolutionIn : list member :=
  [need "format" (literal [DESKTOP_COPY_RESOLUTION_FORMAT]); need "instance_id" (matching UUID_SHAPE_RE);
   need "event_ref" (matching UUID_SHAPE_RE); need "entity_id" (matching PRC_RE); need "key_id" (matching KEY_ID_RE);
   need "role" (literal ["processor"]); need "algorithm" (literal ["Ed25519"]); need "public_key_sha256" (matching SHA256_RE);
   need "work_order_id" (matching UUID_SHAPE_RE);
   need "disposition" (literal ["no_known_local_copies"; "relevant_local_copies_deleted"]);
   need "software_inventory_complete" boolean; need "operator_confirmation" (literal ["LOCAL COPIES RESOLVED"]);
   need "completed_at" (short 40)]%string.
End Schemas.

(** ** The processor's key *)

Definition _utc (value : datetime) : datetime := if is_naive value then replace_utc value else value.
Definition trust_raise {A} (m : string) : py A := throw TrustEvidenceError m.
Definition active_identity (event : Event) (entity_id : string) (i : ProcessorIdentity) : bool :=
  String.eqb (pi_event_evidence_id i) (ev_evidence_id event) && String.eqb (pi_entity_id i) entity_id && String.eqb (pi_status i) "active".
Definition active_key (i : ProcessorIdentity) (requested_key_id : string) (k : EvidenceKey) : bool :=
  String.eqb (ek_key_id k) requested_key_id && eq_opt_str (ek_entity_id k) (Some (pi_entity_id i)) &&
  String.eqb (ek_role k) "processor" && is_some (ek_activated_at k) && is_none (ek_revoked_at k).
Definition _processor_key_for_event (event : Event) (entity_id requested_key_id : string) : py (ProcessorIdentity * EvidenceKey) :=
  identity ← q_first t_processor_identities (active_identity event entity_id);
  match identity with
  | None => trust_raise "the processor identity is not active for this event"
  | Some identity =>
      key ← q_first t_evidence_keys (active_key identity requested_key_id);
      match key with
      | Some key =>
          if eq_opt_str (pi_active_key_id identity) (Some (ek_key_id key)) then mret (identity, key)
          else trust_raise "the processor key is not the active key for this event"
      | None => trust_raise "the processor key is not the active key for this event"
      end
  end.

(** ** Deletion work orders *)

Record WorkOrderDetail : Type := mkWorkOrderDetail {
  wd_work_order_id : string; wd_event_ref : string; wd_subject_ref : option string; wd_operation : string;
  wd_processor_entity_id : string; wd_processor_key_id : string; wd_state : string; wd_created_at : datetime;
  wd_claimed_at : option datetime; wd_claim_expires_at : option datetime; wd_reported_at : option datetime;
  wd_report_sha256 : option string; wd_report_signature_sha256 : option string; wd_copy_resolution_sha256 : option string
}.
Definition _desktop_work_order_detail (o : DesktopDeletionWorkOrder) : WorkOrderDetail :=
  mkWorkOrderDetail (wo_work_order_id o) (wo_event_ref o) (wo_subject_ref o) (wo_operation o) (wo_processor_entity_id o)
    (wo_processor_key_id o) (wo_state o) (wo_created_at o) (wo_claimed_at o) (wo_claim_expires_at o) (wo_reported_at o)
    (wo_report_sha256 o) (wo_report_signature_sha256 o) (wo_copy_resolution_sha256 o).
Definition of_event (event : Event) (o : DesktopDeletionWorkOrder) : bool := eq_opt_Z (wo_event_id o) (Some (ev_id event)).
Definition list_desktop_deletion_work_orders (r : Permissions.request) : py (list WorkOrderDetail) :=
  event ← _authenticate_event r;
  orders ← q_all t_desktop_deletion_work_orders (fun o =>
    of_event event o && str_in (wo_state o) ["open"; "claimed"; "report_received"]%string);
  mret (map _desktop_work_order_detail (order_by wo_id orders)).
Definition find_order (event : Event) (work_order_id : string) : py DesktopDeletionWorkOrder :=
  o ← q_first t_desktop_deletion_work_orders (fun o => String.eqb (wo_work_order_id o) work_order_id && of_event event o);
  match o with Some o => mret o | None => throw (HTTPException 404) "Deletion work order not found" end.
Definition find_case (o : DesktopDeletionWorkOrder) : py DeletionCase :=
  c ← q_first t_deletion_cases (fun c => dc_id c =? wo_case_id o);
  match c with Some c => mret c | None => throw (HTTPException 409) "Deletion case no longer exists" end.

Definition conflict {A} (e : exn) : py A := throw (HTTPException 409) (exn_msg e).
Definition document_text (k : string) (d : list (string * json)) : string := match dget k d with Some (JStr s) => s | _ => EmptyString end.

Section Desktop.
Context (repr_container : json -> string) (urlopen : http_request -> http_result) (initialise : py EvidenceChainState)
        (as_int : json -> option Z) (as_bool : json -> option bool).
Context `{Keys : !TrustKeys} `{Evidence : !EvidenceService}.

(** The document is one of this deployment, event, processor and active key *)
Definition check_document (event : Event) (i : ProcessorIdentity) (key : EvidenceKey) (document : list (string * json)) : outcome unit :=
  validate_desktop_evidence_document document (ek_instance_id key) (ev_evidence_id event) (pi_entity_id i) (ek_key_id key)
    (ek_public_key_sha256 key).
Definition identified (event : Event) (o : DesktopDeletionWorkOrder) (document : list (string * json)) (wrong_order wrong_processor : string)
  : py (ProcessorIdentity * EvidenceKey) :=
  _ ← throw_if (negb (String.eqb (document_text "work_order_id" document) (wo_work_order_id o))) TrustEvidenceError wrong_order;
  '(i, key) ← _processor_key_for_event event (document_text "entity_id" document) (document_text "key_id" document);
  _ ← throw_if (negb (String.eqb (wo_processor_entity_id o) (pi_entity_id i))) TrustEvidenceError wrong_processor;
  _ ← lift (check_document event i key document);
  mret (i, key).

Definition claim_request (event : Event) (o : DesktopDeletionWorkOrder) (body : SignedDesktopDocumentIn) : py string :=
  document ← lift (validate_model "DesktopWorkOrderClaimIn" DesktopWorkOrderClaimIn (sg_document body));
  '(i, key) ← _processor_key_for_event event (document_text "entity_id" document) (document_text "key_id" document);
  _ ← throw_if (negb (String.eqb (document_text "work_order_id" document) (wo_work_order_id o)) ||
                negb (String.eqb (wo_processor_entity_id o) (pi_entity_id i))) TrustEvidenceError
        "the work-order claim belongs to another processor assignment";
  _ ← lift (check_document event i key document);
  requested_at ← lift (PyTime.parse_timestamp (document_text "requested_at" document));
  _ ← throw_if (is_naive requested_at) TrustEvidenceError "the work-order claim time is outside the allowed window";
  now ← World.utc_now;
  _ ← throw_if (300 * us_second <? Z.abs (instant now - instant requested_at)) TrustEvidenceError
        "the work-order claim time is outside the allowed window";
  _ ← lift (verify_signature document (sg_proof body) (ek_public_key key) DESKTOP_EVIDENCE_NAMESPACE);
  claim_work_order (wo_id o).
Definition claim_desktop_deletion_work_order (work_order_id : string) (body : SignedDesktopDocumentIn) (r : Permissions.request)
  : py (WorkOrderDetail * string) :=
  event ← _authenticate_event r;
  o ← find_order event work_order_id;
  capability ← try_except (claim_request event o body) [TrustEvidenceError; ValueError] conflict;
  _ ← fenced_commit repr_container urlopen true;
  o ← the_order (wo_id o);
  mret (_desktop_work_order_detail o, capability).

Definition signed_of (key : EvidenceKey) (document : list (string * json)) (proof : list (string * json)) : outcome signed_report :=
  '(package_json, package_digest, _, signature_digest) ← signed_desktop_evidence_package document proof (ek_public_key key);
  Ok (SignedReport signature_digest package_json package_digest (ek_key_id key) (ek_public_key_sha256 key)).
Definition report_request (event : Event) (o : DesktopDeletionWorkOrder) (c : DeletionCase) (capability : string)
  (body : SignedDesktopDocumentIn) : py string :=
  document ← lift (validate_model "DesktopDeletionReportIn" (DesktopDeletionReportIn as_int) (sg_document body));
  '(i, key) ← identified event o document "the Desktop deletion receipt targets another work order"
                 "the Desktop deletion receipt belongs to another processor assignment";
  report ← lift (signed_of key document (sg_proof body));
  apply_desktop_report (dc_id c) (wo_id o) capability document report.
Definition rolled_back {A} (m : py A) : py A :=
  try_except m [TrustEvidenceError; ValueError] (fun e => _ ← rollback; conflict e).
Definition report_desktop_deletion_work_order (work_order_id : string) (body : SignedDesktopDocumentIn) (r : Permissions.request)
  : py (string * string * string) :=
  event ← _authenticate_event r;
  o ← find_order event work_order_id;
  c ← find_case o;
  let capability := get_or "x-deletion-claim" EmptyString (headers r) in
  digest ← rolled_back (report_request event o c capability body);
  _ ← fenced_commit repr_container urlopen true;
  c ← the_case (dc_id c);
  mret (wo_work_order_id o, digest, dc_state c).

Definition report_desktop_copy_resolution (work_order_id : string) (body : SignedDesktopDocumentIn) (r : Permissions.request)
  : py (string * string * string) :=
  event ← _authenticate_event r;
  o ← find_order event work_order_id;
  c ← find_case o;
  rolled_back
    (document ← lift (validate_model "DesktopCopyResolutionIn" (DesktopCopyResolutionIn as_bool) (sg_document body));
     '(i, key) ← identified event o document "the local-copy resolution targets another work order"
                    "the local-copy resolution belongs to another processor assignment";
     report ← lift (signed_of key document (sg_proof body));
     digest ← apply_desktop_copy_resolution (dc_id c) (wo_id o) document report;
     _ ← fenced_commit repr_container urlopen true;
     c ← the_case (dc_id c);
     mret (wo_work_order_id o, digest, dc_state c)).

(** ** Acknowledging the data policy *)

Record PolicyAcknowledged : Type := mkPolicyAcknowledged {
  pa_document_sha256 : string; pa_instance_record_sha256 : option string; pa_evidence_package_sha256 : option string
}.
Definition POLICY_FIELDS : list string :=
  ["format"; "instance_id"; "event_ref"; "entity_id"; "key_id"; "role"; "algorithm"; "public_key_sha256"; "policy_version";
   "policy_sha256"; "acknowledged_at"]%string.
Definition same_policy (event : Event) (entity : string) (version : Z) (digest : string) (k : ProcessorPolicyAcknowledgement) : bool :=
  String.eqb (pk_event_evidence_id k) (ev_evidence_id event) && String.eqb (pk_entity_id k) entity &&
  (pk_policy_version k =? version) && String.eqb (pk_policy_sha256 k) digest.
Definition policy_payload (event : Event) (i : ProcessorIdentity) (key : EvidenceKey) (version : Z)
  (digest document_digest signature_digest package_digest : string) : list (string * json) :=
  [("event_ref", JStr (ev_evidence_id event)); ("entity_id", JStr (pi_entity_id i)); ("key_id", JStr (ek_key_id key));
   ("policy_version", JInt version); ("policy_sha256", JStr digest); ("document_sha256", JStr document_digest);
   ("signature_sha256", JStr signature_digest); ("status", JStr "verified"); ("evidence_package_sha256", JStr package_digest);
   ("public_key_sha256", JStr (ek_public_key_sha256 key))]%string.
Definition acknowledge_policy (event : Event) (body : SignedDesktopDocumentIn) : py PolicyAcknowledged :=
  let document := sg_document body in
  let text k := py_str repr_container (dget_or_null k document) in
  _ ← throw_if (negb (keys_are document POLICY_FIELDS)) TrustEvidenceError "Desktop policy acknowledgement fields are invalid";
  '(i, key) ← _processor_key_for_event event (text "entity_id"%string) (text "key_id"%string);
  _ ← lift (check_document event i key document);
  current ← current_policy_identity;
  match current with
  | None => trust_raise "the permitted-data policy changed; review its current version"
  | Some (version, digest) =>
      _ ← throw_if (negb (py_eq (dget_or_null "policy_version" document) (JInt version)) ||
                    negb (py_eq (dget_or_null "policy_sha256" document) (JStr digest))) TrustEvidenceError
            "the permitted-data policy changed; review its current version";
      acknowledged_at ← lift (PyTime.parse_timestamp (text "acknowledged_at"%string));
      '(package_json, package_digest, document_digest, signature_digest) ←
        lift (signed_desktop_evidence_package document (sg_proof body) (ek_public_key key));
      rendered ← lift (OperatorEvidence.canonical_json document);
      existing ← q_first t_processor_policy_acknowledgements (same_policy event (pi_entity_id i) version digest);
      match existing with
      | Some k =>
          _ ← throw_if (negb (eq_opt_str (pk_evidence_package_sha256 k) (Some package_digest))) TrustEvidenceError
                "a different signed acknowledgement is already recorded";
          mret (mkPolicyAcknowledged (pk_document_sha256 k) (pk_instance_record_sha256 k) (pk_evidence_package_sha256 k))
      | None =>
          uuid ← fresh;
          now ← World.utc_now;
          k ← q_insert t_processor_policy_acknowledgements (fun id =>
                mkProcessorPolicyAcknowledgement id uuid (ek_instance_id key) (ev_evidence_id event) (pi_entity_id i) (ek_key_id key)
                  version digest rendered document_digest signature_digest (Some package_json) (Some package_digest) acknowledged_at
                  None now);
          record ← evidence_append (Evidence.Request "desktop_policy" (pk_acknowledgement_id k) "acknowledged"
                     "desktop.policy_acknowledged"
                     (policy_payload event i key version digest document_digest signature_digest package_digest) false);
          _ ← assign t_processor_policy_acknowledgements pk_id (pk_id k) (fun k => k <| pk_instance_record_sha256 := Some record |>);
          _ ← fenced_commit repr_container urlopen true;
          mret (mkPolicyAcknowledged document_digest (Some record) (Some package_digest))
      end
  end.
Definition record_processor_policy_acknowledgement (body : SignedDesktopDocumentIn) (r : Permissions.request) : py PolicyAcknowledged :=
  event ← _authenticate_event r;
  try_except (acknowledge_policy event body) [EvidenceUnavailable; TrustEvidenceError; ValueError] (fun e => _ ← rollback; conflict e).

(** The version and digest in force, with the acknowledgement of the event *)
Definition current_processor_policy_acknowledgement (r : Permissions.request)
  : py (option (Z * string) * option ProcessorPolicyAcknowledgement) :=
  event ← _authenticate_event r;
  current ← current_policy_identity;
  match current with
  | None => mret (None, None)
  | Some (version, digest) =>
      rows ← q_all t_processor_policy_acknowledgements (fun k =>
               String.eqb (pk_event_evidence_id k) (ev_evidence_id event) && (pk_policy_version k =? version) &&
               String.eqb (pk_policy_sha256 k) digest && is_some (pk_evidence_package_sha256 k));
      mret (Some (version, digest), hd_error (order_by (fun k => - pk_id k) rows))
  end.
End Desktop.

(** ** Enrolling a key *)

Inductive enrolment : Type :=
| EnrolmentActive (key_id entity_id event_ref : string)
| EnrolmentChallenge (challenge : json) (challenge_sha256 : string).
Record ProofAccepted : Type := mkProofAccepted { pf_challenge_id : string; pf_key_id : string; pf_event_ref : option string }.

Section Enrolment.
Context (repr_container : json -> string) (urlopen : http_request -> http_result) (initialise : py EvidenceChainState).
Context `{Keys : !TrustKeys}.

Definition rejected_enrolment {A} (m : py A) : py A :=
  try_except m [EvidenceUnavailable; TrustEvidenceError; ValueError] (fun e => _ ← rollback; conflict e).
Definition the_identity (instance_id entity_id : string) (i : ProcessorIdentity) : bool :=
  String.eqb (pi_instance_id i) instance_id && String.eqb (pi_entity_id i) entity_id.
Definition has_active_key (identifier : string) (i : option ProcessorIdentity) : bool :=
  match i with Some i => eq_opt_str (pi_active_key_id i) (Some identifier) | None => false end.
(** The key a rotation replaces *)
Definition previous_key (body : ProcessorPublicPackageIn) (i : option ProcessorIdentity) : py (option EvidenceKey) :=
  if truthy_opt (pb_supersedes_key_id body) then
    _ ← throw_if (match pb_rotation_reason body with Some r => negb (str_in r ROTATION_REASONS) | None => true end) TrustEvidenceError
          "processor rotation requires a bounded reason";
    previous ← q_first t_evidence_keys (fun k =>
      eq_opt_str (Some (ek_key_id k)) (pb_supersedes_key_id body) && eq_opt_str (ek_entity_id k) (Some (pb_entity_id body)) &&
      String.eqb (ek_role k) "processor" && is_none (ek_revoked_at k));
    match previous with
    | Some k => if has_active_key (ek_key_id k) i then mret (Some k)
                else trust_raise "the superseded key is not active for this event processor"
    | None => trust_raise "the superseded key is not active for this event processor"
    end
  else
    _ ← throw_if (is_some (pb_rotation_reason body)) TrustEvidenceError "new processor enrolment cannot include a rotation reason";
    mret None.
Definition open_challenge (event : Event) (identifier : string) (c : EvidenceKeyRegistrationChallenge) : bool :=
  String.eqb (kc_key_id c) identifier && eq_opt_str (kc_event_evidence_id c) (Some (ev_evidence_id event)) && is_none (kc_used_at c).
Definition challenge_document (challenge_id purpose instance_id : string) (event : Event) (entity identifier fingerprint : string)
  (previous reason : option string) (nonce : string) (now expires : datetime) (digest : string) : list (string * json) :=
  [("format", JStr PROCESSOR_EVENT_REGISTRATION_FORMAT); ("challenge_id", JStr challenge_id); ("action", JStr purpose);
   ("instance_id", JStr instance_id); ("event_ref", JStr (ev_evidence_id event)); ("entity_id", JStr entity); ("key_id", JStr identifier);
   ("role", JStr "processor"); ("algorithm", JStr "Ed25519"); ("public_key_sha256", JStr fingerprint);
   ("supersedes_key_id", of_opt_str previous); ("reason", of_opt_str reason); ("action_sha256", JStr digest); ("nonce", JStr nonce);
   ("created_at", JStr (strftime_Z now)); ("expires_at", JStr (strftime_Z expires))]%string.
Definition new_challenge (event : Event) (state : EvidenceChainState) (body : ProcessorPublicPackageIn) (public identifier fingerprint : string)
  (previous : option EvidenceKey) : py enrolment :=
  now ← World.utc_now;
  let now := drop_us now in
  let expires := add_us now (10 * us_minute) in
  let purpose := if is_some previous then "rotate"%string else "register"%string in
  let superseded := option_map ek_key_id previous in
  let reason := if is_some previous then pb_rotation_reason body else None in
  challenge_id ← fresh;
  nonce ← fresh;
  let document := challenge_document challenge_id purpose (cs_instance_id state) event (pb_entity_id body) identifier fingerprint superseded
                    reason (b64encode nonce) now expires in
  digest ← lift (processor_event_action_sha256 (document EmptyString));
  _ ← lift (validate_processor_event_registration (document digest));
  rendered ← lift (OperatorEvidence.canonical_json (document digest));
  c ← q_insert t_evidence_key_registration_challenges (fun id =>
        (new_EvidenceKeyRegistrationChallenge now) <| kc_id := id |> <| kc_challenge_id := challenge_id |> <| kc_purpose := purpose |>
          <| kc_instance_id := cs_instance_id state |> <| kc_entity_id := pb_entity_id body |> <| kc_event_id := Some (ev_id event) |>
          <| kc_event_evidence_id := Some (ev_evidence_id event) |> <| kc_event_display_name := Some (ev_name event) |>
          <| kc_display_label := pb_display_label body |> <| kc_public_key := public |> <| kc_public_key_sha256 := fingerprint |>
          <| kc_key_id := identifier |> <| kc_role := "processor"%string |> <| kc_supersedes_key_id := superseded |>
          <| kc_rotation_reason := reason |> <| kc_challenge_json := rendered |> <| kc_challenge_sha256 := sha256 rendered |>
          <| kc_action_sha256 := digest |> <| kc_expires_at := expires |>);
  _ ← fenced_commit repr_container urlopen true;
  mret (EnrolmentChallenge (JObj (document digest)) (kc_challenge_sha256 c)).
Definition begin_enrolment (event : Event) (body : ProcessorPublicPackageIn) : py enrolment :=
  _ ← lift (validate_entity (JStr "processor") (JStr (pb_entity_id body)));
  state ← initialise;
  public ← lift (canonical_public_key (pb_public_key body));
  identifier ← lift (key_id public);
  fingerprint ← lift (public_key_sha256 public);
  _ ← throw_if (negb (String.eqb identifier (pb_key_id body)) || negb (String.eqb fingerprint (pb_public_key_sha256 body))) TrustEvidenceError
        "the processor public package fingerprint is inconsistent";
  i ← q_first t_processor_identities (the_identity (cs_instance_id state) (pb_entity_id body));
  _ ← throw_if (match i with Some i => negb (String.eqb (pi_event_evidence_id i) (ev_evidence_id event)) | None => false end) TrustEvidenceError
        "this processor identity is immutably assigned to another event";
  existing ← q_first t_evidence_keys (fun k => String.eqb (ek_key_id k) identifier);
  if is_some existing && has_active_key identifier i then mret (EnrolmentActive identifier (pb_entity_id body) (ev_evidence_id event))
  else
    previous ← previous_key body i;
    duplicate ← q_first t_evidence_key_registration_challenges (open_challenge event identifier);
    reuse ← match duplicate with
            | Some c => now ← World.utc_now; mret (if instant now <=? instant (_utc (kc_expires_at c)) then Some c else None)
            | None => mret None
            end;
    match reuse with
    | Some c => challenge ← lift (loads (kc_challenge_json c)); mret (EnrolmentChallenge challenge (kc_challenge_sha256 c))
    | None => new_challenge event state body public identifier fingerprint previous
    end.
Definition begin_processor_event_enrolment (body : ProcessorPublicPackageIn) (r : Permissions.request) : py enrolment :=
  event ← _authenticate_event r;
  rejected_enrolment (begin_enrolment event body).

Definition set_challenge : Z -> (EvidenceKeyRegistrationChallenge -> EvidenceKeyRegistrationChallenge) -> py unit :=
  assign t_evidence_key_registration_challenges kc_id.
Definition prove_possession (event : Event) (challenge_id : string) (body : ProcessorPossessionProofIn) : py ProofAccepted :=
  _ ← lift (validate_processor_event_registration (po_challenge body));
  challenge ← q_first t_evidence_key_registration_challenges (fun c =>
    String.eqb (kc_challenge_id c) challenge_id && eq_opt_str (kc_event_evidence_id c) (Some (ev_evidence_id event)) && is_none (kc_used_at c));
  rendered ← lift (OperatorEvidence.canonical_json (po_challenge body));
  match challenge with
  | None => trust_raise "the processor enrolment challenge is unavailable or changed"
  | Some c =>
      _ ← throw_if (negb (String.eqb (kc_challenge_json c) rendered) || negb (String.eqb (kc_challenge_sha256 c) (sha256 rendered)))
            TrustEvidenceError "the processor enrolment challenge is unavailable or changed";
      now ← World.utc_now;
      _ ← throw_if (instant (_utc (kc_expires_at c)) <? instant now) TrustEvidenceError
            "the processor enrolment challenge is unavailable or changed";
      if is_some (kc_possession_proof_sha256 c) then mret (mkProofAccepted (kc_challenge_id c) (kc_key_id c) None)
      else
        proof ← lift (verify_signature (po_challenge body) (po_proof body) (kc_public_key c) TRUST_NAMESPACE);
        _ ← set_challenge (kc_id c) (fun c => c <| kc_possession_proof_sha256 := Some proof |>);
        _ ← when (String.eqb (kc_purpose c) "rotate")
              (previous ← q_first t_evidence_keys (fun k => eq_opt_str (Some (ek_key_id k)) (kc_supersedes_key_id c));
               match previous with
               | None => trust_raise "the superseded processor key is unavailable"
               | Some previous =>
                   _ ← throw_if (eq_opt_str (kc_rotation_reason c) (Some "routine"%string) && is_none (po_previous_proof body)) TrustEvidenceError
                         "routine rotation requires proof from the old key";
                   match po_previous_proof body with
                   | Some previous_proof =>
                       digest ← lift (verify_signature (po_challenge body) previous_proof (ek_public_key previous) TRUST_NAMESPACE);
                       set_challenge (kc_id c) (fun c => c <| kc_previous_proof_sha256 := Some digest |>)
                   | None => mret tt
                   end
               end);
        _ ← fenced_commit repr_container urlopen true;
        mret (mkProofAccepted (kc_challenge_id c) (kc_key_id c) (Some (ev_evidence_id event)))
  end.
Definition submit_processor_event_proof (challenge_id : string) (body : ProcessorPossessionProofIn) (r : Permissions.request)
  : py ProofAccepted :=
  event ← _authenticate_event r;
  rolled_back (prove_possession event challenge_id body).

Record ProcessorStatus : Type := mkProcessorStatus {
  pst_event_ref : string; pst_processors : list (string * option string * string * option string);
  pst_pending : list (string * string * string)
}.
Definition processor_event_key_status (r : Permissions.request) : py ProcessorStatus :=
  event ← _authenticate_event r;
  identities ← q_all t_processor_identities (fun i => String.eqb (pi_event_evidence_id i) (ev_evidence_id event));
  pending ← q_all t_evidence_key_registration_challenges (fun c =>
    eq_opt_str (kc_event_evidence_id c) (Some (ev_evidence_id event)) && is_some (kc_possession_proof_sha256 c) && is_none (kc_used_at c));
  mret (mkProcessorStatus (ev_evidence_id event)
          (map (fun i => (pi_entity_id i, pi_display_label i, pi_status i, pi_active_key_id i))
               (order_by (fun i => instant (pi_created_at i)) identities))
          (map (fun c => (kc_challenge_id c, kc_entity_id c, kc_key_id c)) pending)).
End Enrolment.
