(* ===== verification/PublishProps.v ===== *)
(** What a publish does to the schedules of the server: it implements replacing the
    schedule of one event, or the given days of it, and only an event's live secret
    gets it done. *)
From Stdlib Require Import ZArith Lia Ascii String SpecFloat.
From stdpp Require Import base list strings.
From S2P Require Import Prelude Text TextFacts Json PyTime PyBuiltins ScheduleDays Ordering Models World RuntimeSettings Permissions PublishInput PublishInputProps Cascade Sessions Security AuditTrail WebEdits Diff Ha HaWitness HaProps HaReplication Push CalendarProps CalendarEditsProps DeletionWorkflow DeletionCases DeletionProps Snapshots SnapshotProps History HistoryFacts HistoryProps Retention Publish.

(** ** The specification *)

(** The schedule of one event *)
Record schedule : Type := Schedule {
  s_tasks : list PublishedTask; s_people : list PublishedPerson; s_intervals : list PublishedPersonUnavailability
}.
Definition schedule_of (event_id : Z) (db : database) : schedule :=
  Schedule (List.filter (fun t => pt_event_id t =? event_id) (t_published_tasks db))
           (List.filter (fun p => pp_event_id p =? event_id) (t_published_persons db))
           (List.filter (fun u => pu_event_id u =? event_id) (t_published_person_unavailability db)).

(** [json.dumps] of a value, or nothing of an empty one *)
Definition stores (v : json) (col : option string) : Prop := col = if truthy v then Some (dumps v) else None.
Record task_carried (event_id : Z) (t : TaskIn) (r : PublishedTask) : Prop := {
  tc_event : pt_event_id r = event_id; tc_id : pt_external_task_id r = ti_id t; tc_name : pt_name r = ti_name t;
  tc_start : fromisoformat (ti_start t) = Ok (pt_start_datetime r); tc_end : fromisoformat (ti_end t) = Ok (pt_end_datetime r);
  tc_texts : [pt_summary r; pt_description r; pt_location_name r; pt_location_address r; pt_task_type_code r; pt_task_type_name r; pt_color r]
           = [ti_summary t; ti_description t; ti_location_name t; ti_location_address t; ti_task_type_code t; ti_task_type_name t; ti_color t];
  tc_attendees : stores (dump_attendees_in (ti_attendees t)) (pt_attendees_json r);
  tc_assignments : stores (JObj (map (fun kv => (kv.1, dump_attendees_in kv.2)) (or_none (ti_field_assignments t)))) (pt_field_assignments_json r);
  tc_values : stores (JObj (or_none (ti_field_values t))) (pt_field_values_json r);
  tc_web : pt_web_created r = false
}.
Record person_carried (event_id : Z) (p : PersonIn) (r : PublishedPerson) : Prop := {
  pc_event : pp_event_id r = event_id; pc_id : pp_external_person_id r = pi_id p; pc_subject : pp_evidence_subject_id r = pi_evidence_subject_id p;
  pc_names : (pp_first_name r, pp_last_name r, pp_email r) = (pi_first_name p, pi_last_name p, pi_email p)
}.
Record interval_carried (event_id : Z) (u : PersonUnavailabilityIn) (r : PublishedPersonUnavailability) : Prop := {
  ic_event : pu_event_id r = event_id; ic_person : pu_external_person_id r = ui_person_id u;
  ic_date : exists d, strptime_Ymd (code_points (ui_working_date u)) = Ok d /\ pu_working_date r = date_string d;
  ic_times : exists start end_, fromisoformat (ui_start u) = Ok start /\ fromisoformat (ui_end u) = Ok end_ /\
    dt_le end_ start = Ok false /\ pu_start_datetime r = isoformat start /\ pu_end_datetime r = isoformat end_
}.

(** The working day of a task is replaced. *)
Definition replaced (range : json) (dates : option (list string)) (t : PublishedTask) : bool :=
  match dates with
  | None => true
  | Some dates => match _published_task_day range t with Ok day => str_in day dates | Raise _ => false end
  end.
Definition date_replaced (dates : option (list string)) (u : PublishedPersonUnavailability) : bool :=
  match dates with None => true | Some dates => str_in (pu_working_date u) dates end.
Definition is_person (i : Z) (r : PublishedPerson) : bool := pp_external_person_id r =? i.
(** A person who is there gets the names of the payload. *)
Definition refresh (people : list PublishedPerson) (p : PersonIn) : list PublishedPerson :=
  update_first (is_person (pi_id p)) (fun r =>
    r <| pp_first_name := pi_first_name p |> <| pp_last_name := pi_last_name p |> <| pp_email := pi_email p |>) people.
Definition kept_people (dates : option (list string)) (old : list PublishedPerson) (ps : list PersonIn) : list PublishedPerson :=
  match dates with None => [] | Some _ => fold_left refresh ps old end.
Definition new_people (dates : option (list string)) (old : list PublishedPerson) (ps : list PersonIn) : list PersonIn :=
  match dates with None => ps | Some _ => List.filter (fun p => negb (existsb (is_person (pi_id p)) old)) ps end.

(** Replacing the schedule of an event, or some days of it *)
Record publishes (event_id : Z) (range : json) (dates : option (list string)) (p : PublishPayload) (old new : schedule) : Prop := {
  pb_tasks : exists fresh, s_tasks new = List.filter (fun t => negb (replaced range dates t)) (s_tasks old) ++ fresh /\
    Forall2 (task_carried event_id) (py_tasks p) fresh /\ Forall (fun t => replaced range dates t = true) fresh;
  pb_people : exists fresh, s_people new = kept_people dates (s_people old) (py_persons p) ++ fresh /\
    Forall2 (person_carried event_id) (new_people dates (s_people old) (py_persons p)) fresh;
  pb_intervals : exists fresh, s_intervals new = List.filter (fun u => negb (date_replaced dates u)) (s_intervals old) ++ fresh /\
    (forall u, u ∈ py_unavailabilities p -> exists r, r ∈ fresh /\ interval_carried event_id u r) /\
    Forall (fun r => date_replaced dates r = true /\ exists u, u ∈ py_unavailabilities p /\ interval_carried event_id u r) fresh /\
    NoDup (map (fun r => (pu_external_person_id r, pu_working_date r, pu_start_datetime r, pu_end_datetime r)) fresh)
}.

(** ** Steps that leave the schedules alone *)

Definition same_rows (db db' : database) : Prop :=
  t_published_tasks db' = t_published_tasks db /\ t_published_persons db' = t_published_persons db /\
  t_published_person_unavailability db' = t_published_person_unavailability db /\ t_task_edits db' = t_task_edits db.
#[export] Instance same_rows_equivalence : Equivalence same_rows.
Proof.
  split; [by intros db|intros a b (A & B & C & D); by repeat split|].
  intros a b c (A & B & C & D) (A' & B' & C' & D'). repeat split; congruence.
Qed.
Definition rows_durable (w : world) : Prop := same_rows (w_db w) (w_committed w).
Definition rows_kept (w w' : world) : Prop := same_rows (w_db w) (w_db w') /\ (rows_durable w -> rows_durable w').
#[export] Instance rows_kept_preorder : PreOrder rows_kept.
Proof. split; [by intros w|]. intros w1 w2 w3 [A B] [A' B']. split; [by etransitivity|auto]. Qed.
Lemma rows_kept_same w w' : same_rows (w_db w) (w_db w') -> w_committed w' = w_committed w -> rows_kept w w'.
Proof. intros S E. split; [done|]. unfold rows_durable. rewrite E. intros D. by rewrite <-S. Qed.
Lemma rows_kept_db w w' : w_db w' = w_db w -> w_committed w' = w_committed w -> rows_kept w w'.
Proof. intros E. apply rows_kept_same. by rewrite E. Qed.

Section Frames.
Context (repr_container : json -> string) (urlopen : http_request -> http_result) (as_int : json -> option Z)
        (unicode_lower : string -> string) (webpush : push_request -> push_result).
#[local] Hint Extern 0 (PreOrder _) => typeclasses eauto : keeps.
Ltac kept := by_frame ltac:(idtac; lazymatch goal with
  | |- keeps _ (q_insert _ _) => intros ?; apply rows_kept_same; [by repeat split|reflexivity]
  | |- keeps _ (q_delete _ _) => intros ?; apply rows_kept_same; [by repeat split|reflexivity]
  | |- keeps _ (assign _ _ _ _) => intros ?; apply rows_kept_same; [by repeat split|reflexivity]
  | |- keeps _ (set_event _ _) => intros ?; apply rows_kept_same; [by repeat split|reflexivity]
  | |- keeps _ (get_int ?k) => intros w0; destruct (get_int k w0) as [o0 w1] eqn:E0; apply get_int_keeps in E0 as ->; reflexivity
  | |- keeps _ (the_event ?i) => unfold the_event, row
  | |- keeps _ (q_all _ _) => intros ?; reflexivity
  | |- keeps _ (q_first _ _) => intros ?; reflexivity
  | |- keeps _ utc_now => intros ?; apply rows_kept_db; reflexivity
  | |- keeps _ (setting _) => intros ?; reflexivity
  | |- keeps _ (gets _) => intros ?; reflexivity
  | |- keeps _ (throw_if _ _ _) => apply keeps_throw_if; typeclasses eauto
  end).
Lemma kept_fence : keeps rows_kept (fenced_commit repr_container urlopen true).
Proof.
  intros w. destruct (fenced_commit _ _ true w) as [o w'] eqn:H. apply fence_inv in H as [Hc Hd]. cbn [snd].
  destruct o as [a|e]; [|by apply rows_kept_db; [done|apply Hc]].
  split; [by rewrite Hd|]. intros _. unfold rows_durable. by rewrite Hc, Hd.
Qed.
#[local] Hint Resolve kept_fence : keeps.
Lemma rows_link event_id : keeps rows_kept (_auto_link_users_by_email unicode_lower event_id).
Proof. unfold _auto_link_users_by_email. kept. Qed.
Lemma rows_audit u a rt rid d ch o : keeps rows_kept (audit u a rt rid d ch o).
Proof. unfold audit, _hash_ip. kept. Qed.
Lemma rows_push event_id title body url kind :
  keeps rows_kept (send_push_to_event repr_container urlopen webpush event_id title body url kind).
Proof. unfold send_push_to_event, send_push, _vapid_configured. kept. destruct (map fst _); kept. Qed.
Lemma rows_store event_id diffs users : keeps rows_kept (store_changes event_id diffs users).
Proof. induction users as [|u users IH]; cbn [store_changes]; kept. Qed.
#[local] Hint Resolve rows_store : keeps.
Lemma rows_changes event_id old_tasks old_edits : keeps rows_kept (record_changes event_id old_tasks old_edits).
Proof. unfold record_changes. apply keeps_catch_all. unfold store_schedule_changes, edits_of. kept. Qed.
Lemma rows_snapshot event source : keeps rows_kept (create_snapshot repr_container as_int event source).
Proof. unfold create_snapshot, _prune_old_snapshots, edits_of. kept. Qed.
Lemma rows_update event_id range m : keeps rows_kept (update_event event_id range m).
Proof. unfold update_event, materialise_event_purge_deadline. kept. Qed.
Lemma rows_authenticate r : keeps rows_kept (_authenticate_event r).
Proof. unfold _authenticate_event, check_secret_age, unauthorised. kept. Qed.
End Frames.

(** ** Rows that are added *)

Class Column {R} (t : database -> list R) `{!Setter t} : Prop := {
  column_set f db : t (set_field t f db) = f (t db);
  column_twice f g db : set_field t f (set_field t g db) = set_field t (fun l => f (g l)) db;
  column_ext f g db : f (t db) = g (t db) -> set_field t f db = set_field t g db;
  column_id db : set_field t (fun l => l) db = db
}.
Ltac column_laws := split;
  [ by intros ? db; destruct db | by intros ? ? db; destruct db | intros ? ? db E; destruct db; cbv in E |- *; by rewrite E
  | by intros db; destruct db ].
#[export] Instance column_persons : Column t_published_persons.
Proof. column_laws. Qed.
#[export] Instance column_tasks : Column t_published_tasks.
Proof. column_laws. Qed.
#[export] Instance column_intervals : Column t_published_person_unavailability.
Proof. column_laws. Qed.
Lemma on_table_db {R} (t : database -> list R) `{!Setter t} f w : w_db (on_table t f w) = set_field t f (w_db w).
Proof. done. Qed.
Lemma flush_run {R} (t : database -> list R) `{Col : Column R t} now mks w u w' : flush_rows t now mks w = (Ok u, w') ->
  exists rows, w_db w' = set_field t (fun l => l ++ rows) (w_db w) /\ Forall2 (fun mk r => exists i, r = mk i now) mks rows.
Proof.
  unfold flush_rows. revert w. induction mks as [|mk mks IH]; intros w H; cbn [mfor] in H.
  - apply mret_Ok_inv in H as [_ ->]. exists []. split; [|constructor]. rewrite (column_ext _ (fun l => l)) by apply app_nil_r.
    by rewrite column_id.
  - apply Mbind_Ok_inv in H as (u1 & w1 & ->%inserted_one & H). apply IH in H as (rows & E & F).
    exists (mk (w_next_id w) now :: rows). split; [|by constructor; [eexists|]]. rewrite E.
    rewrite on_table_db. change (w_db (w <| w_next_id := _ |>)) with (w_db w). rewrite column_twice.
    apply column_ext. by rewrite <-app_assoc.
Qed.

(** ** People *)

Section Lists.
Context {R : Type} (key : R -> Z) (q : R -> bool) (f : R -> R).
Lemma update_keyed l r : NoDup (map key l) -> List.find q l = Some r ->
  update_first (fun x => key x =? key r) f l = update_first q f l.
Proof.
  induction l as [|x l IH]; cbn [map List.find update_first]; [done|]. intros [Hx Hl]%NoDup_cons. destruct (q x) eqn:E.
  - intros [= ->]. by rewrite Z.eqb_refl.
  - intros Hf. destruct (Z.eqb_spec (key x) (key r)) as [Ek|]; [|by rewrite IH].
    destruct Hx. rewrite Ek. apply list_elem_of_fmap_2, list_elem_of_In. by apply find_some in Hf as [].
Qed.
Lemma update_none l : List.find q l = None -> update_first q f l = l.
Proof. induction l as [|x l IH]; cbn; [done|]. destruct (q x); [done|]. intros H. by rewrite IH. Qed.
Lemma update_map {A} (g : R -> A) l : (forall x, g (f x) = g x) -> map g (update_first q f l) = map g l.
Proof. intros Hg. induction l as [|x l IH]; cbn; [done|]. destruct (q x); cbn; by rewrite ?Hg, ?IH. Qed.
Lemma update_exists p l : (forall x, p (f x) = p x) -> existsb p (update_first q f l) = existsb p l.
Proof. intros Hp. induction l as [|x l IH]; cbn; [done|]. destruct (q x); cbn; by rewrite ?Hp, ?IH. Qed.
Lemma filter_update p l : (forall x, p (f x) = p x) ->
  List.filter p (update_first (fun x => p x && q x) f l) = update_first q f (List.filter p l).
Proof.
  intros Hp. induction l as [|x l IH]; cbn; [done|]. destruct (p x) eqn:E; cbn.
  - destruct (q x) eqn:Eq; cbn; by rewrite ?Hp, ?E, ?IH.
  - by rewrite E.
Qed.
Lemma exists_filter p l : existsb (fun x => p x && q x) l = existsb q (List.filter p l).
Proof. induction l as [|x l IH]; cbn; [done|]. destruct (p x); cbn; by rewrite IH. Qed.
Lemma find_exists l : is_some (List.find q l) = existsb q l.
Proof. induction l as [|x l IH]; cbn; [done|]. by destruct (q x). Qed.
End Lists.

Definition in_event (event_id : Z) (r : PublishedPerson) : bool := pp_event_id r =? event_id.
Definition refresh_in (event_id : Z) (people : list PublishedPerson) (p : PersonIn) : list PublishedPerson :=
  update_first (fun r => in_event event_id r && is_person (pi_id p) r) (fun r =>
    r <| pp_first_name := pi_first_name p |> <| pp_last_name := pi_last_name p |> <| pp_email := pi_email p |>) people.

Lemma upsert_run event_id ps w people w' : NoDup (map pp_id (t_published_persons (w_db w))) ->
  mmap (_upsert_person event_id) ps w = (Ok people, w') ->
  w_db w' = set_field t_published_persons (fun l => fold_left (refresh_in event_id) ps l) (w_db w) /\
  concat people = List.filter (fun p => negb (existsb (fun r => in_event event_id r && is_person (pi_id p) r) (t_published_persons (w_db w)))) ps.
Proof.
  revert w people. induction ps as [|p ps IH]; intros w people Hn H; cbn [mmap] in H.
  - apply mret_Ok_inv in H as [-> ->]. split; [|done]. by rewrite (column_id (t := t_published_persons)).
  - apply Mbind_Ok_inv in H as (l & w1 & H1 & H). apply Mbind_Ok_inv in H as (ls & w2 & H2 & [-> ->]%mret_Ok_inv).
    assert (w_db w1 = set_field t_published_persons (fun l => refresh_in event_id l p) (w_db w) /\
            l = if existsb (fun r => in_event event_id r && is_person (pi_id p) r) (t_published_persons (w_db w)) then [] else [p]) as [E1 ->].
    { unfold _upsert_person in H1. apply Mbind_Ok_inv in H1 as (o & ? & [-> ->]%first_row_inv & H1).
      rewrite <-find_exists. fold (in_event event_id) in H1.
      change (fun r => (pp_event_id r =? event_id) && (pp_external_person_id r =? pi_id p))
        with (fun r => in_event event_id r && is_person (pi_id p) r) in H1.
      destruct (List.find _ _) as [r|] eqn:Ef in H1; rewrite Ef.
      - apply Mbind_Ok_inv in H1 as (u1 & ? & [_ ->]%throw_if_Ok_inv & H1).
        apply Mbind_Ok_inv in H1 as (u2 & ? & ->%assign_inv & [-> ->]%mret_Ok_inv). split; [|done].
        apply (column_ext (t := t_published_persons)). unfold refresh_in. by apply update_keyed.
      - apply mret_Ok_inv in H1 as [-> ->]. split; [|done].
        rewrite (column_ext (t := t_published_persons) _ (fun l => l)) by (unfold refresh_in; by apply update_none).
        by rewrite (column_id (t := t_published_persons)). }
    assert (t_published_persons (w_db w1) = refresh_in event_id (t_published_persons (w_db w)) p) as E2.
    { rewrite E1. apply (column_set (t := t_published_persons)). }
    apply IH in H2 as [E3 E4]; [|rewrite E2; unfold refresh_in; by rewrite update_map].
    split; [by rewrite E3, E1, (column_twice (t := t_published_persons))|].
    cbn [concat List.filter]. rewrite E4, E2.
    rewrite (List.filter_ext _ (fun p => negb (existsb (fun r => in_event event_id r && is_person (pi_id p) r) (t_published_persons (w_db w)))))
      by (intros x; unfold refresh_in; by rewrite update_exists).
    by destruct (existsb _ _).
Qed.
Lemma insert_people_run ps w people w' : mmap _insert_person ps w = (Ok people, w') -> w' = w /\ concat people = ps.
Proof.
  revert people w'. induction ps as [|p ps IH]; intros people w' H; cbn [mmap] in H; [by apply mret_Ok_inv in H as [-> ->]|].
  apply Mbind_Ok_inv in H as (l & ? & [-> ->]%mret_Ok_inv & H). apply Mbind_Ok_inv in H as (ls & ? & [-> E]%IH & [-> ->]%mret_Ok_inv).
  split; [done|]. cbn. by rewrite E.
Qed.
Lemma refresh_event event_id ps l :
  List.filter (in_event event_id) (fold_left (refresh_in event_id) ps l) = fold_left refresh ps (List.filter (in_event event_id) l) /\
  List.filter (fun r => negb (in_event event_id r)) (fold_left (refresh_in event_id) ps l) = List.filter (fun r => negb (in_event event_id r)) l.
Proof.
  revert l. induction ps as [|p ps IH]; intros l; [done|]. cbn [fold_left]. destruct (IH (refresh_in event_id l p)) as [-> ->].
  unfold refresh_in. split; [by rewrite (filter_update (is_person (pi_id p)))|].
  apply update_first_filter. intros r [Hr _]%andb_true_iff. unfold in_event in *. cbn. by rewrite Hr.
Qed.

(** ** Tasks *)

Lemma in_scope_replaced range dates l scope : map_outcome (in_scope range dates) l = Ok scope -> scope = map (replaced range dates) l.
Proof.
  revert scope. induction l as [|t l IH]; intros scope; cbn [map_outcome]; [by intros [= <-]|].
  intros (b & Hb & (bs & Hbs%IH & [= <-])%bind_Ok_inv)%bind_Ok_inv. cbn. rewrite <-Hbs. f_equal.
  unfold in_scope, replaced in *. destruct dates; [|by injection Hb]. by apply bind_Ok_inv in Hb as (day & -> & [= <-]).
Qed.
Lemma zip_filter {R} (key : R -> Z) (p : R -> bool) l :
  map (fun x => key x.1) (List.filter (fun x => x.2) (zip l (map p l))) = map key (List.filter p l).
Proof. induction l as [|x l IH]; [done|]. cbn. destruct (p x); cbn; by rewrite IH. Qed.
Definition cleared (event_id : Z) (range : json) (dates : option (list string)) (w : world) : list Z :=
  map pt_id (List.filter (replaced range dates) (List.filter (fun t => pt_event_id t =? event_id) (t_published_tasks (w_db w)))).
Lemma clear_run event_id range dates w n w' : clear_tasks event_id range dates w = (Ok n, w') ->
  t_published_tasks (w_db w') = List.filter (fun t => negb (among (cleared event_id range dates w) (pt_id t))) (t_published_tasks (w_db w)) /\
  t_task_edits (w_db w') = List.filter (fun e => negb (among (cleared event_id range dates w) (te_task_id e))) (t_task_edits (w_db w)) /\
  t_published_persons (w_db w') = t_published_persons (w_db w) /\
  t_published_person_unavailability (w_db w') = t_published_person_unavailability (w_db w).
Proof.
  unfold clear_tasks. intros H. apply Mbind_Ok_inv in H as (tasks & ? & [-> ->]%q_all_inv & H).
  apply Mbind_Ok_inv in H as (scope & ? & [->%in_scope_replaced ->]%lift_Ok_inv & H). rewrite zip_filter in H.
  fold (cleared event_id range dates w) in H.
  apply Mbind_Ok_inv in H as (k & ? & Hk & H). pose proof Hk as ->%delete_inv.
  apply Mbind_Ok_inv in H as (k2 & ? & ->%delete_inv & [_ ->]%mret_Ok_inv). done.
Qed.
Lemma cleared_task event_id range dates w t : NoDup (map pt_id (t_published_tasks (w_db w))) -> t ∈ t_published_tasks (w_db w) ->
  among (cleared event_id range dates w) (pt_id t) = (pt_event_id t =? event_id) && replaced range dates t.
Proof.
  intros Hn Ht. apply Bool.eq_iff_eq_true. rewrite among_true, andb_true_iff. unfold cleared. rewrite list_elem_of_fmap. split.
  - intros (x & E & [[Hx Hev]%filter_in Hr]%filter_in). by rewrite (keyed_once pt_id _ t x Hn Ht Hx E).
  - intros [Hev Hr]. exists t. split; [done|]. by rewrite !filter_in.
Qed.

(** ** What the new rows carry *)

Lemma map_outcome_each {A B} (f : A -> outcome B) l ys : map_outcome f l = Ok ys -> Forall2 (fun x y => f x = Ok y) l ys.
Proof.
  revert ys. induction l as [|x l IH]; intros ys; cbn [map_outcome]; [by intros [= <-]|].
  intros (y & Hy & (ys' & Hys%IH & [= <-])%bind_Ok_inv)%bind_Ok_inv. by constructor.
Qed.
Lemma Forall2_compose {A B C} (P : A -> B -> Prop) (Q : B -> C -> Prop) (S : A -> C -> Prop) l ys rows :
  (forall x y r, P x y -> Q y r -> S x r) -> Forall2 P l ys -> Forall2 Q ys rows -> Forall2 S l rows.
Proof. intros H F. revert rows. induction F; intros rows; inversion 1; subst; constructor; eauto. Qed.
Lemma Forall2_member {A B} (P : A -> B -> Prop) l l' : Forall2 P l l' ->
  (forall x, x ∈ l -> exists y, y ∈ l' /\ P x y) /\ (forall y, y ∈ l' -> exists x, x ∈ l /\ P x y).
Proof.
  induction 1 as [|x y l l' Hp F [IH1 IH2]]; [by split; intros ? ?%elem_of_nil|].
  split; intros z [->|Hz]%elem_of_cons; [exists y; by split; [left|]| |exists x; by split; [left|]|].
  - destruct (IH1 z Hz) as (b & Hb & HP). exists b. split; [by right|done].
  - destruct (IH2 z Hz) as (a & Ha & HP). exists a. split; [by right|done].
Qed.
Lemma bad_request_Ok {A} (m : outcome A) d a : or_bad_request m d = Ok a -> m = Ok a.
Proof. unfold or_bad_request, bad_request. destruct m as [x|e]; [done|]. by destruct (exn_in e [ValueError]). Qed.

Lemma insert_task_carried event_id now t mk r : _insert_task event_id t = Ok mk -> (exists i, r = mk i now) -> task_carried event_id t r.
Proof.
  unfold _insert_task. intros ([start end_] & H%bad_request_Ok & [= <-])%bind_Ok_inv (i & ->).
  apply bind_Ok_inv in H as (s & Hs & (e & He & [= <- <-])%bind_Ok_inv). by constructor.
Qed.
Lemma person_row_carried event_id now p r : (exists i, r = person_row event_id p i now) -> person_carried event_id p r.
Proof. intros (i & ->). by constructor. Qed.
Definition interval_of (r : PublishedPersonUnavailability) : interval :=
  (pu_external_person_id r, pu_working_date r, pu_start_datetime r, pu_end_datetime r).
Lemma interval_row_of event_id now k r : (exists i, r = interval_row event_id k i now) -> interval_of r = k /\ pu_event_id r = event_id.
Proof. intros (i & ->). by destruct k as [[[a b] c] d]. Qed.
Lemma check_interval_carried event_id ids dates u k r : check_interval ids dates u = Ok k -> interval_of r = k -> pu_event_id r = event_id ->
  interval_carried event_id u r /\ date_replaced dates r = true.
Proof.
  unfold check_interval. intros ([[day start] end_] & H%bad_request_Ok & Hk)%bind_Ok_inv E He.
  apply bind_Ok_inv in Hk as ([] & _ & Hk). apply bind_Ok_inv in Hk as ([] & Hd%raise_if_Ok_inv & Hk).
  apply bind_Ok_inv in Hk as (early & Hle & Hk). apply bind_Ok_inv in Hk as ([] & ->%raise_if_Ok_inv & [= <-]).
  injection E as E1 E2 E3 E4.
  apply bind_Ok_inv in H as (d & Hday & H). apply bind_Ok_inv in H as (s & Hs & H). apply bind_Ok_inv in H as (e & Hee & [= <- <- <-]).
  split.
  - constructor; [done|done|by exists d|]. by exists s, e.
  - unfold date_replaced. rewrite E2. destruct dates; [by apply negb_false_iff|done].
Qed.
Lemma new_intervals_spec seen l : NoDup (new_intervals seen l) /\ (forall k, k ∈ new_intervals seen l <-> k ∈ l /\ k ∉ seen).
Proof.
  revert seen. induction l as [|k l IH]; intros seen; cbn [new_intervals].
  - split; [constructor|]. intros k. rewrite elem_of_nil. tauto.
  - case_bool_decide as Hk.
    + destruct (IH seen) as [Hn Hi]. split; [done|]. intros x. rewrite Hi, elem_of_cons. split; [tauto|]. intros [[->|?] ?]; tauto.
    + destruct (IH (k :: seen)) as [Hn Hi]. split.
      * constructor; [|done]. rewrite Hi, elem_of_cons. tauto.
      * intros x. rewrite !elem_of_cons, Hi, elem_of_cons. split; [intros [->|[? ?]]; [tauto|tauto]|].
        intros [[->|?] ?]; [by left|]. destruct (decide (x = k)) as [->|]; [by left|right; tauto].
Qed.
Lemma scope_replaced event_id range dates tasks fresh : check_scope range dates tasks = Ok tt ->
  Forall2 (task_carried event_id) tasks fresh -> Forall (fun t => replaced range dates t = true) fresh.
Proof.
  intros H F. destruct dates as [dates|]; [|by apply Forall_forall]. cbn [check_scope] in H.
  apply Forall_forall. intros r Hr. destruct (Forall2_member _ _ _ F) as [_ Hm]. destruct (Hm r Hr) as (t & Ht & C).
  pose proof (each_Ok _ _ H t Ht) as Hs. cbn beta in Hs. apply bind_Ok_inv in Hs as (day & Hday%bad_request_Ok & Hin%raise_if_Ok_inv%negb_false_iff).
  rewrite (tc_start _ _ _ C) in Hday. unfold replaced, _published_task_day. cbn [mbind outcome_bind] in Hday. by rewrite Hday.
Qed.

(** ** Replacing a schedule *)

(** The people who stay *)
Definition people_base (event_id : Z) (dates : option (list string)) (ps : list PersonIn) (l : list PublishedPerson) : list PublishedPerson :=
  match dates with None => List.filter (fun r => negb (in_event event_id r)) l | Some _ => fold_left (refresh_in event_id) ps l end.
Lemma replace_tables event_id range dates payload w n w' : NoDup (map pp_id (t_published_persons (w_db w))) ->
  replace_schedule event_id range dates payload w = (Ok n, w') ->
  exists tasks people intervals ks,
    t_published_tasks (w_db w') = List.filter (fun t => negb (among (cleared event_id range dates w) (pt_id t))) (t_published_tasks (w_db w)) ++ tasks /\
    Forall2 (task_carried event_id) (py_tasks payload) tasks /\
    t_task_edits (w_db w') = List.filter (fun e => negb (among (cleared event_id range dates w) (te_task_id e))) (t_task_edits (w_db w)) /\
    t_published_persons (w_db w') = people_base event_id dates (py_persons payload) (t_published_persons (w_db w)) ++ people /\
    Forall2 (person_carried event_id) (new_people dates (List.filter (in_event event_id) (t_published_persons (w_db w))) (py_persons payload)) people /\
    t_published_person_unavailability (w_db w') =
      List.filter (fun u => negb (cleared_interval event_id dates u)) (t_published_person_unavailability (w_db w)) ++ intervals /\
    Forall2 (fun u k => check_interval (map pi_id (py_persons payload)) dates u = Ok k) (py_unavailabilities payload) ks /\
    Forall2 (fun k r => interval_of r = k /\ pu_event_id r = event_id) (new_intervals [] ks) intervals.
Proof.
  intros Hp H. unfold replace_schedule in H. apply Mbind_Ok_inv in H as (k & w1 & (T1 & E1 & P1 & U1)%clear_run & H).
  apply Mbind_Ok_inv in H as (u2 & w2 & H2 & H). apply Mbind_Ok_inv in H as (people & w3 & H3 & H).
  assert (t_published_persons (w_db w3) = people_base event_id dates (py_persons payload) (t_published_persons (w_db w)) /\
          concat people = new_people dates (List.filter (in_event event_id) (t_published_persons (w_db w))) (py_persons payload) /\
          t_published_tasks (w_db w3) = t_published_tasks (w_db w1) /\ t_task_edits (w_db w3) = t_task_edits (w_db w1) /\
          t_published_person_unavailability (w_db w3) = t_published_person_unavailability (w_db w1)) as (P3 & Hc & T3 & E3 & U3).
  { clear H. destruct dates as [dates|]; cbn [is_some negb when] in H2, H3.
    - apply mret_Ok_inv in H2 as [_ ->]. apply upsert_run in H3 as [E Hc]; [|by rewrite P1].
      rewrite Hc, E, P1. split; [cbn [people_base]; rewrite <-P1; reflexivity|]. split; [|repeat split].
      cbn [new_people]. apply List.filter_ext. intros p. f_equal. apply exists_filter.
    - apply Mbind_Ok_inv in H2 as (u & ? & ->%delete_inv & [_ ->]%mret_Ok_inv). apply insert_people_run in H3 as [-> ->].
      split; [cbn [people_base]; rewrite <-P1; reflexivity|repeat split]. }
  clear H2 H3. apply Mbind_Ok_inv in H as (u4 & w4 & ->%delete_inv & H).
  apply Mbind_Ok_inv in H as (ks & ? & [Hk%map_outcome_each ->]%lift_Ok_inv & H).
  apply Mbind_Ok_inv in H as (mks & ? & [Hm%map_outcome_each ->]%lift_Ok_inv & H).
  apply Mbind_Ok_inv in H as (now & w5 & [-> ->]%utc_now_inv & H).
  apply Mbind_Ok_inv in H as (u6 & w6 & (rows1 & D1 & F1)%(flush_run t_published_persons) & H).
  apply Mbind_Ok_inv in H as (u7 & w7 & (rows2 & D2 & F2)%(flush_run t_published_person_unavailability) & H).
  apply Mbind_Ok_inv in H as (u8 & w8 & (rows3 & D3 & F3)%(flush_run t_published_tasks) & [_ ->]%mret_Ok_inv).
  exists rows3, rows1, rows2, ks.
  assert (t_published_tasks (w_db w7) = t_published_tasks (w_db w3)) as T7.
  { transitivity (t_published_tasks (w_db w6)); [by rewrite D2|by rewrite D1]. }
  assert (t_task_edits (w_db w7) = t_task_edits (w_db w3)) as E7.
  { transitivity (t_task_edits (w_db w6)); [by rewrite D2|by rewrite D1]. }
  assert (t_published_persons (w_db w7) = t_published_persons (w_db w3) ++ rows1) as P7.
  { transitivity (t_published_persons (w_db w6)); [by rewrite D2|by rewrite D1]. }
  assert (t_published_person_unavailability (w_db w7) =
          List.filter (fun u => negb (cleared_interval event_id dates u)) (t_published_person_unavailability (w_db w3)) ++ rows2) as U7.
  { transitivity (t_published_person_unavailability (w_db w6) ++ rows2); [by rewrite D2|by rewrite D1]. }
  clear D1 D2. rewrite D3.
  split; [rewrite <-T1, <-T3, <-T7; reflexivity|].
  split; [eapply Forall2_compose; [|exact Hm|exact F3]; intros ? ? ? HP HQ; exact (insert_task_carried _ _ _ _ _ HP HQ)|].
  split; [rewrite <-E1, <-E3, <-E7; reflexivity|].
  split; [rewrite <-P3, <-P7; reflexivity|].
  split; [rewrite <-Hc; apply Forall2_fmap_l in F1; eapply Forall2_impl; [exact F1|]; intros ? ? HQ; exact (person_row_carried _ _ _ _ HQ)|].
  split; [rewrite <-U1, <-U3, <-U7; reflexivity|]. split; [exact Hk|].
  apply Forall2_fmap_l in F2. eapply Forall2_impl; [exact F2|]. intros ? ? HQ; exact (interval_row_of _ _ _ _ HQ).
Qed.

Lemma split_rows {R} (ev : R -> Z) event_id (l fresh l' : list R) (p : R -> bool) :
  l' = List.filter (fun r => negb ((ev r =? event_id) && p r)) l ++ fresh -> Forall (fun r => ev r = event_id) fresh ->
  List.filter (fun r => ev r =? event_id) l' = List.filter (fun r => negb (p r)) (List.filter (fun r => ev r =? event_id) l) ++ fresh /\
  forall other, other <> event_id -> List.filter (fun r => ev r =? other) l' = List.filter (fun r => ev r =? other) l.
Proof.
  intros -> Hf. rewrite Forall_forall in Hf. split.
  - rewrite List.filter_app, !filter_filter. f_equal.
    + apply List.filter_ext. intros x. by destruct (ev x =? event_id), (p x).
    + apply filter_all. intros x Hx. rewrite (Hf x Hx). apply Z.eqb_refl.
  - intros other Ho. rewrite List.filter_app, filter_filter.
    assert (List.filter (fun r => ev r =? other) fresh = []) as ->.
    { clear -Hf Ho. induction fresh as [|x l IH]; [done|]. cbn. destruct (Z.eqb_spec (ev x) other) as [E|].
      - rewrite (Hf x) in E by left. congruence.
      - apply IH. intros y Hy. apply Hf. by right. }
    rewrite app_nil_r. apply List.filter_ext. intros x. destruct (Z.eqb_spec (ev x) other) as [->|]; [|by rewrite andb_false_r].
    destruct (Z.eqb_spec other event_id); [done|by destruct (p x)].
Qed.
Lemma split_people event_id dates ps (l fresh l' : list PublishedPerson) :
  l' = people_base event_id dates ps l ++ fresh -> Forall (fun r => pp_event_id r = event_id) fresh ->
  List.filter (in_event event_id) l' = kept_people dates (List.filter (in_event event_id) l) ps ++ fresh /\
  forall other, other <> event_id -> List.filter (in_event other) l' = List.filter (in_event other) l.
Proof.
  intros -> Hf. destruct (split_rows pp_event_id event_id [] fresh fresh (fun _ => true) eq_refl Hf) as [F1 F2].
  assert (forall other, other <> event_id -> List.filter (in_event other) (people_base event_id dates ps l) = List.filter (in_event other) l) as Ho.
  { intros other Ho.
    assert (List.filter (fun r => negb (in_event event_id r)) (people_base event_id dates ps l) = List.filter (fun r => negb (in_event event_id r)) l) as E.
    { destruct dates; cbn [people_base]; [apply refresh_event|]. rewrite filter_filter. apply List.filter_ext. intros x. by destruct (in_event event_id x). }
    apply (f_equal (List.filter (in_event other))) in E. rewrite !filter_filter in E.
    assert (forall l0, List.filter (fun x => negb (in_event event_id x) && in_event other x) l0 = List.filter (in_event other) l0) as Ex.
    { intros l0. apply List.filter_ext. intros x. unfold in_event. destruct (Z.eqb_spec (pp_event_id x) other) as [->|]; [|by rewrite andb_false_r].
      by destruct (Z.eqb_spec other event_id). }
    by rewrite !Ex in E. }
  split.
  - rewrite List.filter_app. f_equal; [|exact F1]. destruct dates; cbn [people_base kept_people]; [apply refresh_event|].
    rewrite filter_filter. clear. induction l as [|x l IH]; [done|]. cbn. by destruct (in_event event_id x).
  - intros other Hne. rewrite List.filter_app, Ho by done.
    etransitivity; [apply f_equal; exact (F2 other Hne)|apply app_nil_r].
Qed.

Lemma replace_run event_id range dates payload w n w' :
  NoDup (map pt_id (t_published_tasks (w_db w))) -> NoDup (map pp_id (t_published_persons (w_db w))) ->
  check_scope range dates (py_tasks payload) = Ok tt -> replace_schedule event_id range dates payload w = (Ok n, w') ->
  publishes event_id range dates payload (schedule_of event_id (w_db w)) (schedule_of event_id (w_db w')) /\
  (forall other, other <> event_id -> schedule_of other (w_db w') = schedule_of other (w_db w)) /\
  t_task_edits (w_db w') = List.filter (fun e => negb (among (cleared event_id range dates w) (te_task_id e))) (t_task_edits (w_db w)).
Proof.
  intros Ht Hp Hs H. apply replace_tables in H as (tasks & people & intervals & ks & T & FT & E & P & FP & U & FK & FU); [|done].
  assert (t_published_tasks (w_db w') = List.filter (fun t => negb ((pt_event_id t =? event_id) && replaced range dates t)) (t_published_tasks (w_db w)) ++ tasks) as T'.
  { rewrite T. f_equal. apply filter_ext_in. intros t Hin%list_elem_of_In. by rewrite cleared_task. }
  assert (Forall (fun r => pt_event_id r = event_id) tasks) as HT.
  { apply Forall_forall. intros r Hr. destruct (Forall2_member _ _ _ FT) as [_ Hm]. destruct (Hm r Hr) as (t & _ & C). apply C. }
  assert (Forall (fun r => pp_event_id r = event_id) people) as HP.
  { apply Forall_forall. intros r Hr. destruct (Forall2_member _ _ _ FP) as [_ Hm]. destruct (Hm r Hr) as (t & _ & C). apply C. }
  assert (Forall (fun r => pu_event_id r = event_id) intervals) as HU.
  { apply Forall_forall. intros r Hr. destruct (Forall2_member _ _ _ FU) as [_ Hm]. destruct (Hm r Hr) as (t & _ & C). apply C. }
  destruct (split_rows pt_event_id event_id _ _ _ _ T' HT) as [T1 T2].
  destruct (split_people event_id dates _ _ _ _ P HP) as [P1 P2].
  destruct (split_rows pu_event_id event_id _ _ _ (date_replaced dates) U HU) as [U1 U2].
  split; [|split; [|exact E]].
  - unfold schedule_of. fold (in_event event_id). split; cbn [s_tasks s_people s_intervals].
    + exists tasks. split; [exact T1|]. split; [exact FT|]. by eapply scope_replaced.
    + exists people. split; [exact P1|exact FP].
    + exists intervals. split; [exact U1|]. destruct (new_intervals_spec [] ks) as [Hn Hi].
      destruct (Forall2_member _ _ _ FK) as [Hk1 Hk2]. destruct (Forall2_member _ _ _ FU) as [Hu1 Hu2]. split; [|split].
      * intros u Hin. destruct (Hk1 u Hin) as (k & Hk & Hc). destruct (Hu1 k) as (r & Hr & Er & Ev).
        { apply Hi. split; [done|]. apply not_elem_of_nil. }
        exists r. split; [done|]. by apply (check_interval_carried _ _ _ _ _ _ Hc Er Ev).
      * apply Forall_forall. intros r Hr. destruct (Hu2 r Hr) as (k & Hk & Er & Ev). apply Hi in Hk as [Hk _].
        destruct (Hk2 k Hk) as (u & Hin & Hc). destruct (check_interval_carried _ _ _ _ _ _ Hc Er Ev) as [C D].
        split; [done|]. by exists u.
      * assert (map (fun r => (pu_external_person_id r, pu_working_date r, pu_start_datetime r, pu_end_datetime r)) intervals = new_intervals [] ks) as ->; [|done].
        clear -FU. change (map interval_of intervals = new_intervals [] ks). induction FU as [|k r l l' [Hr _] F IH]; [done|]. cbn. by rewrite Hr, IH.
  - intros other Hne. unfold schedule_of. fold (in_event other). by rewrite (T2 other Hne), (P2 other Hne), (U2 other Hne).
Qed.

(** ** The request *)

Section Publish.
Context (repr_container : json -> string) (urlopen : http_request -> http_result) (as_int : json -> option Z)
        (unicode_lower : string -> string) (webpush : push_request -> push_result).

(** The secret of the request is that of the event, is not being secured on the
    standby and is not too old at the next reading of the clock. *)
Record live_secret (r : request) (event : Event) (w : world) : Prop := {
  ls_secret : exists secret, bearer_secret r = Some secret /\ secret <> EmptyString /\ _hash_secret secret = Ok (ev_publish_secret_hash event);
  ls_event : event ∈ t_events (w_db w);
  ls_protected o : HA_MODE (w_config w) = "ha"%string -> o ∈ t_ha_protection_operations (w_db w) -> pending_protection event o = false;
  ls_age m c : (get_int "secret_max_age_days" w).1 = Ok m -> 0 < m -> ev_secret_created_at event = Some c ->
    w_clock w (w_ticks w) - instant c < (m + 1) * us_day
}.
Lemma authenticate_inv r w event w' : _authenticate_event r w = (Ok event, w') -> live_secret r event w.
Proof.
  unfold _authenticate_event, unauthorised. intros H. destruct (bearer_secret r) as [secret|] eqn:Eb; [|done].
  destruct (truthy_str secret) eqn:Et; [|done]. cbn [negb] in H.
  apply Mbind_Ok_inv in H as (digest & ? & [Hd ->]%lift_Ok_inv & H). apply Mbind_Ok_inv in H as (o & ? & [-> ->]%first_row_inv & H).
  destruct (List.find _ _) as [ev|] eqn:Ef; [|done]. apply find_some in Ef as [Hin%list_elem_of_In Eh%String.eqb_eq].
  apply Mbind_Ok_inv in H as (mode & ? & [= <- <-] & H). apply Mbind_Ok_inv in H as (u & w1 & Hp & H).
  apply Mbind_Ok_inv in H as (u2 & w2 & Ha & [-> ->]%mret_Ok_inv).
  assert (w1 = w /\ (HA_MODE (w_config w) = "ha"%string -> forall o, o ∈ t_ha_protection_operations (w_db w) -> pending_protection ev o = false)) as [-> Hprot].
  { destruct (String.eqb_spec (HA_MODE (w_config w)) "ha") as [Em|Em]; cbn [when] in Hp; [|apply mret_Ok_inv in Hp as [_ ->]; done].
    apply Mbind_Ok_inv in Hp as (p & ? & [-> ->]%first_row_inv & Hp). apply throw_if_Ok_inv in Hp as [Hn ->]. split; [done|].
    intros _ o Ho. destruct (List.find _ _) as [x|] eqn:En; [done|]. apply find_none with (x := o) in En; [done|]. by apply list_elem_of_In. }
  split.
  - exists secret. split; [done|]. split; [intros ->; discriminate Et|]. rewrite Eh. exact Hd.
  - done.
  - intros o Hm Ho. by apply Hprot.
  - intros m c Hm Hpos Hc. unfold check_secret_age in Ha. apply Mbind_Ok_inv in Ha as (m' & w3 & Hg & Ha).
    pose proof (get_int_keeps _ _ _ _ Hg) as ->. rewrite Hg in Hm. injection Hm as ->.
    rewrite (proj2 (Z.ltb_lt _ _) Hpos), Hc in Ha. cbn [_ensure_aware_utc option_map] in Ha.
    apply Mbind_Ok_inv in Ha as (now & w4 & [-> ->]%utc_now_inv & Ha). apply throw_if_Ok_inv in Ha as [Hle%Z.ltb_ge _].
    assert (instant (_aware_utc c) = instant c) as Ei.
    { unfold _aware_utc, is_naive, replace_utc, astimezone_utc, instant. destruct c as [u0 [o|]]; cbn; lia. }
    unfold dt_sub in Hle. rewrite Ei in Hle. unfold instant at 1 in Hle. cbn [wall tzoff utc_at utc] in Hle.
    assert (w_clock w (w_ticks w) - 0 - instant c < (m + 1) * us_day); [|lia].
    apply Z.lt_le_trans with (us_day * Z.succ ((w_clock w (w_ticks w) - 0 - instant c) / us_day)).
    + apply Z.mul_succ_div_gt. unfold us_day, us_hour, us_minute, us_second. lia.
    + unfold us_day, us_hour, us_minute, us_second in *. nia.
Qed.

End Publish.

(** ** A small instance *)

Module Desk.
Import Camp.
(** Task 1 is on 30 July, task 2 a day later. *)
Definition camp : Event := (new_Event now) <| ev_id := 1 |> <| ev_name := "Camp"%string |>
  <| ev_publish_secret_hash := match _hash_secret "s3cret" with Ok h => h | Raise _ => EmptyString end |>.
Definition later (t : PublishedTask) : PublishedTask :=
  t <| pt_start_datetime := add_us now us_day |> <| pt_end_datetime := add_us now (us_day + us_hour) |>.
Definition state : world := start <| w_db := db <| t_events := [camp] |> <| t_published_tasks := [task 1 false; later (task 2 false)] |> |>.
Definition payload : PublishPayload :=
  mkPublishPayload PUBLISH_CONTRACT_VERSION None
    [mkTaskIn 3 "Set up" None None "2026-07-30T10:00:00" "2026-07-30T11:00:00" None None None None None [] None None None None]
    [mkPersonIn 7 "Ann" "Lee" None EmptyString; mkPersonIn 9 "Cy" "Fox" None EmptyString]
    [mkPersonUnavailabilityIn 9 "2026-07-30" "2026-07-30T08:00:00" "2026-07-30T09:00:00";
     mkPersonUnavailabilityIn 9 "2026-07-30" "2026-07-30T08:00:00" "2026-07-30T09:00:00"]
    (Some "dates"%string) (Some ["2026-07-30"%string]).
Definition desk : request := Request "POST" "/publish" [("authorization", "Bearer s3cret ")]%string [].
End Desk.

