(* ===== verification/DesktopEvidenceProps.v ===== *)
(** A paired desktop only gets a deletion work order claimed, reported or resolved
    with a statement signed by the active key of the order's processor. *)
From Stdlib Require Import ZArith Lia Ascii String.
From stdpp Require Import base list strings.
From S2P Require Import Prelude Text TextFacts Json JsonFacts Sha256 PyTime PyBuiltins Base64 Models World RuntimeSettings Permissions EvidenceManifest Evidence EvidenceFrames Ha HaWitness HaProps CalendarProps Cascade Sessions DeletionWorkflow DeletionCases DeletionProps Governance Retention Publish PublishProps OperatorEvidence OperatorEvidenceProps DesktopEvidence.

Section Statements.
Context (repr_container : json -> string) (urlopen : http_request -> http_result) (as_int : json -> option Z) (as_bool : json -> option bool).
Context `{Keys : !TrustKeys} `{Laws : !TrustKeyLaws} `{Evidence : !EvidenceService}.
#[local] Hint Extern 0 (PreOrder _) => typeclasses eauto : keeps.

Lemma authenticate_reads r : keeps same_state (_authenticate_event r).
Proof.
  unfold _authenticate_event, check_secret_age, Publish.unauthorised. by_frame ltac:(idtac; lazymatch goal with
  | |- keeps _ (get_int ?k) => intros w0; destruct (get_int k w0) as [o0 w1] eqn:E0; apply get_int_keeps in E0 as ->; reflexivity
  | |- keeps _ (q_first _ _) => intros ?; reflexivity
  | |- keeps _ (setting _) => intros ?; reflexivity
  | |- keeps _ (throw_if _ _ _) => apply keeps_throw_if; typeclasses eauto
  end).
Qed.

(** What an accepted statement about a work order comes with *)
Record signed_statement (work_order_id : string) (ms : list member) (body : SignedDesktopDocumentIn) (r : Permissions.request) (w : world)
  (event : Event) (o : DesktopDeletionWorkOrder) (i : ProcessorIdentity) (key : EvidenceKey) (document : list (string * json)) : Prop := {
  ss_event : live_secret r event w;
  ss_order : o ∈ t_desktop_deletion_work_orders (w_db w) /\ wo_work_order_id o = work_order_id /\ wo_event_id o = Some (ev_id event);
  ss_processor : i ∈ t_processor_identities (w_db w) /\ active_identity event (wo_processor_entity_id o) i = true;
  ss_key : key ∈ t_evidence_keys (w_db w) /\ active_key i (ek_key_id key) key = true /\ pi_active_key_id i = Some (ek_key_id key);
  ss_document : exists name, validate_model name ms (sg_document body) = Ok document;
  ss_about : document_text "work_order_id" document = work_order_id;
  ss_bound : validate_desktop_evidence_document document (ek_instance_id key) (ev_evidence_id event) (wo_processor_entity_id o)
               (ek_key_id key) (ek_public_key_sha256 key) = Ok tt;
  ss_signed : exists k signature message, canonical_public_key (ek_public_key key) = Ok (openssh_text k) /\
    signing_bytes DESKTOP_EVIDENCE_NAMESPACE document = Ok message /\ key_verify k signature message = true
}.
Lemma processor_key_inv event entity key_id w i key w' : _processor_key_for_event event entity key_id w = (Ok (i, key), w') ->
  w' = w /\ (i ∈ t_processor_identities (w_db w) /\ active_identity event entity i = true) /\
  (key ∈ t_evidence_keys (w_db w) /\ active_key i (ek_key_id key) key = true /\ pi_active_key_id i = Some (ek_key_id key)).
Proof.
  unfold _processor_key_for_event, trust_raise. intros H. apply Mbind_Ok_inv in H as (oi & ? & [-> ->]%first_row_inv & H).
  destruct (List.find _ _) as [i0|] eqn:Ei; [|done]. apply find_some in Ei as [Hi%list_elem_of_In Hai].
  apply Mbind_Ok_inv in H as (ok & ? & [-> ->]%first_row_inv & H).
  destruct (List.find _ _) as [k0|] eqn:Ek; [|done]. apply find_some in Ek as [Hk%list_elem_of_In Hak].
  destruct (eq_opt_str _ _) eqn:Ea in H; [|done]. apply mret_Ok_inv in H as [[= -> ->] ->]. split; [done|]. split; [done|]. split; [done|].
  split.
  - unfold active_key in *. rewrite !andb_true_iff in *. destruct Hak as [[[[E ?] ?] ?] ?]. rewrite String.eqb_refl. done.
  - unfold eq_opt_str, opt_eqb in Ea. destruct (pi_active_key_id i0); [|done]. by apply String.eqb_eq in Ea as ->.
Qed.

Lemma find_order_inv event id w o w' : find_order event id w = (Ok o, w') ->
  w' = w /\ o ∈ t_desktop_deletion_work_orders (w_db w) /\ wo_work_order_id o = id /\ wo_event_id o = Some (ev_id event).
Proof.
  unfold find_order. intros H. apply Mbind_Ok_inv in H as (x & ? & [-> ->]%first_row_inv & H).
  destruct (List.find _ _) as [y|] eqn:E; [|done]. apply mret_Ok_inv in H as [-> ->]. apply find_some in E as [Hin%list_elem_of_In Hq].
  apply andb_true_iff in Hq as [Hi%String.eqb_eq He]. split; [done|]. split; [done|]. split; [done|].
  unfold of_event, eq_opt_Z, opt_eqb in He. destruct (wo_event_id y); [|done]. by apply Z.eqb_eq in He as ->.
Qed.
Lemma find_case_inv o w c w' : find_case o w = (Ok c, w') -> w' = w.
Proof.
  unfold find_case. intros H. apply Mbind_Ok_inv in H as (x & ? & [_ ->]%first_row_inv & H). destruct x; [|done]. by apply mret_Ok_inv in H as [_ ->].
Qed.
Lemma verify_signed key document proof digest :
  verify_signature document proof (ek_public_key key) DESKTOP_EVIDENCE_NAMESPACE = Ok digest ->
  exists k signature message, canonical_public_key (ek_public_key key) = Ok (openssh_text k) /\
    signing_bytes DESKTOP_EVIDENCE_NAMESPACE document = Ok message /\ key_verify k signature message = true.
Proof. intros H. apply verify_inv in H as (k & _ & sg & m & _ & Hk & _ & _ & _ & _ & Hm & _ & Hv & _). by exists k, sg, m. Qed.
Lemma package_signed key document proof report : signed_of key document proof = Ok report ->
  exists k signature message, canonical_public_key (ek_public_key key) = Ok (openssh_text k) /\
    signing_bytes DESKTOP_EVIDENCE_NAMESPACE document = Ok message /\ key_verify k signature message = true.
Proof.
  unfold signed_of, signed_desktop_evidence_package. intros H. apply bind_Ok_inv in H as (p & H & _).
  apply bind_Ok_inv in H as (c & Hc & H). apply bind_Ok_inv in H as (d & Hv & _). destruct (public_key_inv _ _ Hc) as (k & He & ->).
  apply verify_inv in Hv as (k' & _ & sg & m & _ & Hk & _ & _ & _ & _ & Hm & _ & Hv & _). exists k', sg, m. split; [|done].
  rewrite public_key_again in Hk by done. injection Hk as <-. done.
Qed.
Lemma identified_inv event o document m1 m2 w i key w' : identified event o document m1 m2 w = (Ok (i, key), w') ->
  w' = w /\ document_text "work_order_id" document = wo_work_order_id o /\
  (i ∈ t_processor_identities (w_db w) /\ active_identity event (wo_processor_entity_id o) i = true) /\
  (key ∈ t_evidence_keys (w_db w) /\ active_key i (ek_key_id key) key = true /\ pi_active_key_id i = Some (ek_key_id key)) /\
  validate_desktop_evidence_document document (ek_instance_id key) (ev_evidence_id event) (wo_processor_entity_id o)
    (ek_key_id key) (ek_public_key_sha256 key) = Ok tt.
Proof.
  unfold identified. intros H. apply Mbind_Ok_inv in H as (u & ? & [Ho%negb_false_iff%String.eqb_eq ->]%throw_if_Ok_inv & H).
  apply Mbind_Ok_inv in H as ([i0 k0] & ? & (-> & [Hi Ha] & Hk)%processor_key_inv & H).
  apply Mbind_Ok_inv in H as (u2 & ? & [Hp%negb_false_iff%String.eqb_eq ->]%throw_if_Ok_inv & H).
  apply Mbind_Ok_inv in H as ([] & ? & [Hd ->]%lift_Ok_inv & [[= -> ->] ->]%mret_Ok_inv).
  split; [done|]. split; [done|]. unfold check_document in Hd. rewrite <-Hp in Hd. split; [|done]. split; [done|].
  unfold active_identity in *. rewrite !andb_true_iff in *. destruct Ha as [[? _] ?]. rewrite Hp, String.eqb_refl. done.
Qed.
Lemma caught {A} (m : py A) cs (h : exn -> py A) w a w' : (forall e w0, fst (h e w0) <> Ok a) ->
  try_except m cs h w = (Ok a, w') -> m w = (Ok a, w').
Proof.
  intros Hh H. apply try_except_inv in H as [H|(e & w2 & _ & _ & H)]; [done|]. destruct (Hh e w2). by rewrite H.
Qed.

(** C28: whenever the server lets a desktop claim a deletion work order, report its outcome or
    resolve its copies, the desktop's secret was one of the event's, the order is that
    event's, and the document it sent is well typed, names the order, this deployment, the
    event, the order's processor and that processor's active unrevoked key, and was signed in
    the desktop namespace by that very key. *)
Theorem desktop_statement_is_signed work_order_id body r w :
  let accepted ms := exists event o i key document, signed_statement work_order_id ms body r w event o i key document in
  (forall out w', claim_desktop_deletion_work_order repr_container urlopen work_order_id body r w = (Ok out, w') ->
     accepted DesktopWorkOrderClaimIn) /\
  (forall out w', report_desktop_deletion_work_order repr_container urlopen as_int work_order_id body r w = (Ok out, w') ->
     accepted (DesktopDeletionReportIn as_int)) /\
  (forall out w', report_desktop_copy_resolution repr_container urlopen as_bool work_order_id body r w = (Ok out, w') ->
     accepted (DesktopCopyResolutionIn as_bool)).
Proof.
  cbv zeta. split; [|split]; intros out w' H.
  - unfold claim_desktop_deletion_work_order in H. apply Mbind_Ok_inv in H as (event & w1 & Ha & H).
    pose proof (authenticate_inv _ _ _ _ Ha) as Hl. apply (keeps_run _ _ _ _ _ (authenticate_reads _)) in Ha as [Hdb _].
    apply Mbind_Ok_inv in H as (o & ? & (-> & Ho & Hid & Hev)%find_order_inv & H). rewrite Hdb in Ho.
    apply Mbind_Ok_inv in H as (cap & w2 & Hc & _). apply caught in Hc; [|done].
    unfold claim_request in Hc. apply Mbind_Ok_inv in Hc as (document & ? & [Hm ->]%lift_Ok_inv & H).
    apply Mbind_Ok_inv in H as ([i key] & ? & (-> & [Hi Hai] & Hk)%processor_key_inv & H). rewrite Hdb in Hi, Hk.
    apply Mbind_Ok_inv in H as (u & ? & [[Hd%negb_false_iff%String.eqb_eq Hp%negb_false_iff%String.eqb_eq]%orb_false_iff ->]%throw_if_Ok_inv & H).
    apply Mbind_Ok_inv in H as ([] & ? & [Hb ->]%lift_Ok_inv & H).
    apply Mbind_Ok_inv in H as (at_ & ? & [_ ->]%lift_Ok_inv & H). apply Mbind_Ok_inv in H as (u1 & ? & [_ ->]%throw_if_Ok_inv & H).
    apply Mbind_Ok_inv in H as (now & w3 & [-> ->]%utc_now_inv & H). apply Mbind_Ok_inv in H as (u2 & ? & [_ ->]%throw_if_Ok_inv & H).
    apply Mbind_Ok_inv in H as (digest & ? & [Hv ->]%lift_Ok_inv & _).
    exists event, o, i, key, document. split; try done.
    + split; [done|]. unfold active_identity in *. rewrite !andb_true_iff in *. destruct Hai as [[? _] ?]. by rewrite Hp, String.eqb_refl.
    + by exists "DesktopWorkOrderClaimIn"%string.
    + by rewrite Hd.
    + unfold check_document in Hb. by rewrite Hp.
    + by eapply verify_signed.
  - unfold report_desktop_deletion_work_order in H. apply Mbind_Ok_inv in H as (event & w1 & Ha & H).
    pose proof (authenticate_inv _ _ _ _ Ha) as Hl. apply (keeps_run _ _ _ _ _ (authenticate_reads _)) in Ha as [Hdb _].
    apply Mbind_Ok_inv in H as (o & ? & (-> & Ho & Hid & Hev)%find_order_inv & H). rewrite Hdb in Ho.
    apply Mbind_Ok_inv in H as (c & ? & ->%find_case_inv & H).
    apply Mbind_Ok_inv in H as (dg & w2 & Hc & _). apply caught in Hc; [|done].
    unfold report_request in Hc. apply Mbind_Ok_inv in Hc as (document & ? & [Hm ->]%lift_Ok_inv & H).
    apply Mbind_Ok_inv in H as ([i key] & ? & (-> & Hd & Hi & Hk & Hb)%identified_inv & H). rewrite Hdb in Hi, Hk.
    apply Mbind_Ok_inv in H as (rep & ? & [Hv ->]%lift_Ok_inv & _).
    exists event, o, i, key, document. split; try done.
    + by exists "DesktopDeletionReportIn"%string.
    + by rewrite Hd.
    + by eapply package_signed.
  - unfold report_desktop_copy_resolution in H. apply Mbind_Ok_inv in H as (event & w1 & Ha & H).
    pose proof (authenticate_inv _ _ _ _ Ha) as Hl. apply (keeps_run _ _ _ _ _ (authenticate_reads _)) in Ha as [Hdb _].
    apply Mbind_Ok_inv in H as (o & ? & (-> & Ho & Hid & Hev)%find_order_inv & H). rewrite Hdb in Ho.
    apply Mbind_Ok_inv in H as (c & ? & ->%find_case_inv & H).
    apply caught in H; [|done]. apply Mbind_Ok_inv in H as (document & ? & [Hm ->]%lift_Ok_inv & H).
    apply Mbind_Ok_inv in H as ([i key] & ? & (-> & Hd & Hi & Hk & Hb)%identified_inv & H). rewrite Hdb in Hi, Hk.
    apply Mbind_Ok_inv in H as (rep & ? & [Hv ->]%lift_Ok_inv & _).
    exists event, o, i, key, document. split; try done.
    + by exists "DesktopCopyResolutionIn"%string.
    + by rewrite Hd.
    + by eapply package_signed.
Qed.
End Statements.

(** ** A small instance *)

Module Paired.
Import Camp.
#[local] Existing Instance Signed.toy_keys.
Definition processor : string := "prc-aaaaaaaaaaaa".
Definition event_ref : string := "0f8fad5b-d9cb-469f-a165-70867728950e".
Definition instance_id : string := "7c9e6679-7425-40de-944b-e07fc1f90ae7".
Definition order_id : string := "a3bb189e-8bf9-3888-9912-ace4e6543002".
Definition identifier : string := match key_id Signed.key with Ok i => i | Raise _ => EmptyString end.
Definition fingerprint : string := match public_key_sha256 Signed.key with Ok i => i | Raise _ => EmptyString end.
Definition camp : Event := Desk.camp <| ev_evidence_id := event_ref |>.
Definition identity : ProcessorIdentity := (new_ProcessorIdentity now) <| pi_id := 1 |> <| pi_instance_id := instance_id |>
  <| pi_entity_id := processor |> <| pi_event_evidence_id := event_ref |> <| pi_status := "active"%string |> <| pi_active_key_id := Some identifier |>.
Definition key : EvidenceKey := (new_EvidenceKey now) <| ek_id := 1 |> <| ek_key_id := identifier |> <| ek_public_key := Signed.key |>
  <| ek_public_key_sha256 := fingerprint |> <| ek_instance_id := instance_id |> <| ek_entity_id := Some processor |>
  <| ek_role := "processor"%string |> <| ek_activated_at := Some now |>.
Definition order : DesktopDeletionWorkOrder := (new_DesktopDeletionWorkOrder now) <| wo_id := 1 |> <| wo_work_order_id := order_id |>
  <| wo_case_id := 1 |> <| wo_event_id := Some 1 |> <| wo_event_ref := event_ref |> <| wo_processor_entity_id := processor |>
  <| wo_processor_key_id := identifier |> <| wo_operation := "delete_event"%string |>.
Definition state : world := start <| w_db := db <| t_events := [camp] |> <| t_processor_identities := [identity] |>
  <| t_evidence_keys := [key] |> <| t_desktop_deletion_work_orders := [order] |> |>.
Definition document : list (string * json) :=
  [("format", JStr DESKTOP_WORK_ORDER_CLAIM_FORMAT); ("instance_id", JStr instance_id); ("event_ref", JStr event_ref);
   ("entity_id", JStr processor); ("key_id", JStr identifier); ("role", JStr "processor"); ("algorithm", JStr "Ed25519");
   ("public_key_sha256", JStr fingerprint); ("work_order_id", JStr order_id); ("requested_at", JStr "2026-07-30T12:33:00Z")]%string.
Definition proof : list (string * json) :=
  match signing_bytes DESKTOP_EVIDENCE_NAMESPACE document with
  | Ok m => match signature_envelope identifier (sha256 m) DESKTOP_EVIDENCE_NAMESPACE with Ok e => e | Raise _ => [] end
  | Raise _ => []
  end.
Definition body : SignedDesktopDocumentIn := mkSignedDesktopDocumentIn document proof.
End Paired.
#[local] Existing Instance Signed.toy_keys.


Lemma desktop_statement_is_signed_witness :
  exists out w', claim_desktop_deletion_work_order Camp.no_repr Camp.unreachable Paired.order_id Paired.body Desk.desk Paired.state = (Ok out, w') /\
    map wo_state (t_desktop_deletion_work_orders (w_committed w')) = ["claimed"%string] /\
    exists event o i key document,
      signed_statement Paired.order_id DesktopWorkOrderClaimIn Paired.body Desk.desk Paired.state event o i key document.
Proof.
  assert (match claim_desktop_deletion_work_order Camp.no_repr Camp.unreachable Paired.order_id Paired.body Desk.desk Paired.state with
          | (Ok _, w') => map wo_state (t_desktop_deletion_work_orders (w_committed w')) | _ => [] end = ["claimed"%string]) as Hv
    by (vm_compute; reflexivity).
  destruct (claim_desktop_deletion_work_order _ _ _ _ _ _) as [[out|e] w'] eqn:H; [|discriminate Hv].
  exists out, w'. split; [reflexivity|]. split; [exact Hv|].
  exact (proj1 (desktop_statement_is_signed (Laws := Signed.toy_key_laws) Camp.no_repr Camp.unreachable Camp.as_int (fun _ => None)
           Paired.order_id Paired.body Desk.desk Paired.state) out w' H).
Defined.
