(* ===== verification/RetentionProps.v ===== *)
(** What a retention cycle leaves: exactly the rows whose time is not over, every
    event, and, when it fails, nothing but a failed status row. *)
From Stdlib Require Import ZArith Lia String Btauto.
From stdpp Require Import base list strings.
From S2P Require Import Prelude Text TextFacts Json PyTime PyBuiltins Models World RuntimeSettings Cascade Sessions Ha HaWitness HaProps Evidence EvidenceFrames DeletionWorkflow DeletionCases DeletionProps ActivationMail Snapshots Retention.

(** ** Worlds that differ in the session's database only *)

Definition only_db (w w' : world) : Prop := w' <| w_db := w_db w |> = w.
#[export] Instance only_db_preorder : PreOrder only_db.
Proof.
  split; [by intros []|]. intros [] [] [] H1 H2. unfold only_db in *. cbn in *. injection H1. injection H2. intros. by subst.
Qed.
Lemma only_db_table {R} (t : database -> list R) `{!Setter t} f : keeps only_db (modify (on_table t f)).
Proof. by intros []. Qed.

Section Rows.
Context {R : Type} (Q : R -> R -> Prop) (Q_refl : forall r, Q r r).
Lemma rows_refl l : Forall2 Q l l.
Proof. induction l; constructor; auto. Qed.
Lemma rows_update_first p f l :
  (forall r, List.find p l = Some r -> Q r (f r)) -> Forall2 Q l (update_first p f l).
Proof.
  induction l as [|r l IH]; intros H; cbn in *; [constructor|].
  destruct (p r) eqn:E; constructor; auto using rows_refl.
Qed.
Lemma rows_filter (p q : R -> bool) (l l' : list R) :
  (forall r r', Q r r' -> p r = q r') -> Forall2 Q l l' -> Forall2 Q (List.filter p l) (List.filter q l').
Proof.
  intros Hpq. induction 1 as [|r r' l l' Hr Hl IH]; [constructor|]. cbn. rewrite (Hpq _ _ Hr).
  destruct (q r'); [by constructor|done].
Qed.
End Rows.

(** ** Recovered deliveries *)

Definition recovered (now : datetime) (d d' : ActivationEmailDelivery) : Prop := d' = d \/ d' = interrupted now d.
Definition maybe_withdrawn (now : datetime) (l l' : ActivationLink) : Prop := l' = l \/ l' = withdrawn now l.
Lemma interrupted_idem now d : interrupted now (interrupted now d) = interrupted now d.
Proof. done. Qed.
Lemma withdrawn_idem now l : withdrawn now (withdrawn now l) = withdrawn now l.
Proof. unfold withdrawn. destruct l. cbn. by destruct al_used_at. Qed.
#[local] Instance recovered_preorder now : PreOrder (recovered now).
Proof. split; [by left|]. intros x y z. unfold recovered. intros [->| ->] [->| ->]; rewrite ?interrupted_idem; auto. Qed.
#[local] Instance withdrawn_preorder now : PreOrder (maybe_withdrawn now).
Proof. split; [by left|]. intros x y z. unfold maybe_withdrawn. intros [->| ->] [->| ->]; rewrite ?withdrawn_idem; auto. Qed.

Definition recovers (now : datetime) (w w' : world) : Prop :=
  only_db w w' /\
  (w_db w') <| t_activation_links := [] |> <| t_activation_email_deliveries := [] |> =
    (w_db w) <| t_activation_links := [] |> <| t_activation_email_deliveries := [] |> /\
  Forall2 (maybe_withdrawn now) (t_activation_links (w_db w)) (t_activation_links (w_db w')) /\
  Forall2 (recovered now) (t_activation_email_deliveries (w_db w)) (t_activation_email_deliveries (w_db w')).
#[local] Instance recovers_preorder now : PreOrder (recovers now).
Proof.
  split.
  - intros w. by repeat split.
  - intros w1 w2 w3 (A & B & C & D) (A' & B' & C' & D'). split; [by transitivity w2|]. split; [congruence|].
    split; [by transitivity (t_activation_links (w_db w2))|by transitivity (t_activation_email_deliveries (w_db w2))].
Qed.
Lemma recovers_delivery now d : keeps (recovers now) (recover_delivery now d).
Proof.
  unfold recover_delivery. apply keeps_bind; [typeclasses eauto| |intros _].
  - intros w. split; [exact (only_db_table _ _ w)|]. cbn. split; [done|]. split; [apply rows_refl; by left|].
    apply rows_update_first; [by left|by right].
  - destruct (ad_activation_link_id d) as [id|]; [|auto with keeps typeclass_instances].
    apply keeps_bind; [typeclasses eauto|intros w; reflexivity|]. intros [l|]; [|intros w; reflexivity].
    apply keeps_bind; [typeclasses eauto| |intros ? w; reflexivity]. intros w.
    split; [exact (only_db_table _ _ w)|]. cbn. split; [done|]. split; [|apply rows_refl; by left].
    apply rows_update_first; [by left|by right].
Qed.
Lemma recovers_stale user force n : keeps (recovers n) (recover_stale_deliveries user force (Some n)).
Proof.
  unfold recover_stale_deliveries. apply keeps_bind; [typeclasses eauto|intros w; reflexivity|intros timeout].
  change (keeps (recovers n) (
    deliveries ← q_all t_activation_email_deliveries (stale user force (add_us n (- (Z.max (timeout * 4) 120 * us_second))));
    links ← mmap (recover_delivery n) deliveries;
    mret (Z.of_nat (length deliveries), Unflushed (map ad_id deliveries) (concat links)))).
  pose proof (recovers_delivery n). by_frame ltac:(solve [intros ?; reflexivity]).
Qed.

(** ** The tables of a cycle *)

Definition cutoff (now : datetime) (days : Z) : Z := instant now - days * us_day.
Definition before (o : option datetime) (limit : Z) : bool :=
  match o with Some d => instant d <? limit | None => false end.

(** The tables [delete_expired] may change, emptied *)
Definition erase_expired (db : database) : database :=
  db <| t_auth_sessions := [] |> <| t_passkey_ceremonies := [] |> <| t_activation_links := [] |>
     <| t_activation_email_deliveries := [] |> <| t_passkey_challenges := [] |>
     <| t_evidence_key_registration_challenges := [] |> <| t_exchange_codes := [] |> <| t_audit_log := [] |>.

(** The references a ceremony or a delivery loses *)
Definition unlinked (c c' : PasskeyCeremony) : Prop :=
  c' <| pc_activation_link_id := None |> = c <| pc_activation_link_id := None |>.
Definition unreferenced (d d' : ActivationEmailDelivery) : Prop :=
  d' <| ad_activation_link_id := None |> <| ad_retry_of_id := None |> =
    d <| ad_activation_link_id := None |> <| ad_retry_of_id := None |>.

Definition session_over (now : datetime) (e r : Z) (s : AuthSession) : bool :=
  (instant (s_expires_at s) <? cutoff now e) || before (s_revoked_at s) (cutoff now r).
Definition link_over (now : datetime) (l : Z) (x : ActivationLink) : bool :=
  before (al_used_at x) (cutoff now l) || before (al_invalidated_at x) (cutoff now l) ||
  (instant (al_expires_at x) <? cutoff now l).

(** Which rows are left: [e], [r], [l] and [a] are the days that expired sessions,
    revoked sessions, links and audit entries are kept. *)
Record only_unexpired (now : datetime) (e r l a : Z) (db db' : database) : Prop := {
  left_sessions : t_auth_sessions db' = without (session_over now e r) (t_auth_sessions db);
  left_challenges :
    t_passkey_challenges db' = without (fun c => instant (ph_expires_at c) <=? instant now) (t_passkey_challenges db);
  left_key_challenges :
    t_evidence_key_registration_challenges db' =
      without (fun c => (instant (kc_expires_at c) <=? instant now) || is_some (kc_used_at c))
        (t_evidence_key_registration_challenges db);
  left_codes :
    t_exchange_codes db' = without (fun c => instant (xc_expires_at c) <=? instant now) (t_exchange_codes db);
  left_entries : t_audit_log db' = without (fun x => before (au_timestamp x) (cutoff now a)) (t_audit_log db);
  left_links : exists links, Forall2 (maybe_withdrawn now) (t_activation_links db) links /\
    t_activation_links db' = without (link_over now l) links;
  left_deliveries : exists deliveries, Forall2 (recovered now) (t_activation_email_deliveries db) deliveries /\
    Forall2 unreferenced (without (fun x => before (ad_started_at x) (cutoff now l)) deliveries)
      (t_activation_email_deliveries db');
  left_ceremonies :
    Forall2 unlinked
      (without (fun c => (instant (pc_expires_at c) <=? cutoff now 1) ||
                         opt_in (ids_of s_id (session_over now e r) (t_auth_sessions db)) (pc_session_id c))
        (t_passkey_ceremonies db))
      (t_passkey_ceremonies db')
}.

Lemma without_without {R} (p q : R -> bool) l : without q (without p l) = without (fun r => p r || q r) l.
Proof.
  unfold without. induction l as [|r l IH]; [done|]. cbn. destruct (p r) eqn:E; cbn; [done|]. rewrite IH.
  by destruct (q r).
Qed.
Lemma among_app l l' i : among (l ++ l') i = among l i || among l' i.
Proof. unfold among. by rewrite existsb_app. Qed.
Lemma among_ids_split {R} (key : R -> Z) p q l i :
  among (ids_of key p l) i || among (ids_of key q (without p l)) i = among (ids_of key (fun r => p r || q r) l) i.
Proof.
  unfold ids_of, without, among. induction l as [|r l IH]; [done|]. cbn.
  destruct (p r) eqn:Ep; cbn; [by rewrite <-IH, orb_assoc|].
  destruct (q r) eqn:Eq; cbn; [|done]. rewrite <-IH. btauto.
Qed.
Lemma opt_in_split {R} (key : R -> Z) p q l o :
  opt_in (ids_of key p l) o || opt_in (ids_of key q (without p l)) o = opt_in (ids_of key (fun r => p r || q r) l) o.
Proof. destruct o; [apply among_ids_split|done]. Qed.

Lemma delete_where_inv {R} (t : database -> list R) rows p w n w' :
  delete_where t rows p w = (Ok n, w') -> w' = w <| w_db := rows p (w_db w) |>.
Proof. by intros [= _ <-]. Qed.
Lemma get_int_same key w w' : w_config w' = w_config w -> t_server_settings (w_db w') = t_server_settings (w_db w) ->
  (get_int key w').1 = (get_int key w).1.
Proof. rewrite !get_int_run. intros -> ->. by destruct (find_tuneable key (w_config w)). Qed.

(** The cut-off of a retention time read from the settings *)
Lemma instant_cutoff now days : instant (add_us now (- (days * us_day))) = cutoff now days.
Proof. rewrite instant_add. unfold cutoff. lia. Qed.

Lemma cleanup_inv now w n w' : cleanup_expired_sessions (Some now) false w = (Ok n, w') ->
  exists e r, (get_int "retention_expired_sessions_days" w).1 = Ok e /\ (get_int "retention_revoked_sessions_days" w).1 = Ok r /\
    w' = w <| w_db := delete_session_rows (fun s => before (s_revoked_at s) (cutoff now r))
                        (delete_session_rows (fun s => instant (s_expires_at s) <? cutoff now e) (w_db w)) |>.
Proof.
  unfold cleanup_expired_sessions. intros H.
  apply Mbind_Ok_inv in H as (? & w0 & [-> ->]%mret_Ok_inv & H).
  apply Mbind_Ok_inv in H as (e & w0 & He & H). pose proof (get_int_keeps _ _ _ _ He) as ->.
  apply Mbind_Ok_inv in H as (n1 & w1 & H1%delete_where_inv & H).
  apply Mbind_Ok_inv in H as (r & w2 & Hr & H). pose proof (get_int_keeps _ _ _ _ Hr) as ->.
  apply Mbind_Ok_inv in H as (n2 & w3 & H3%delete_where_inv & H).
  apply Mbind_Ok_inv in H as (? & w4 & [_ ->]%mret_Ok_inv & [_ ->]%mret_Ok_inv).
  exists e, r. rewrite He. split; [done|].
  assert ((get_int "retention_revoked_sessions_days" w).1 = Ok r) as Hr'.
  { erewrite <-get_int_same; [by rewrite Hr|by subst w1..]. }
  split; [done|]. subst. rewrite !instant_cutoff. by destruct w.
Qed.

Lemma one_day_ago now : add_us now (- us_day) = add_us now (- (1 * us_day)).
Proof. done. Qed.

Ltac table E := rewrite E; cbn [w_db on_table set_field t_auth_sessions t_passkey_ceremonies t_activation_links
  t_activation_email_deliveries t_passkey_challenges t_evidence_key_registration_challenges t_exchange_codes t_audit_log
  delete_session_rows delete_link_rows delete_delivery_rows].

(** The session's tables along a chain of worlds *)
Ltac unroll := repeat match goal with E : ?w = _ |- context [w_db ?w] => is_var w; table E end.

Lemma without_ext {R} (p q : R -> bool) l : (forall r, p r = q r) -> without p l = without q l.
Proof. intros H. unfold without. apply filter_ext. intros r. by rewrite H. Qed.
Lemma unlinked_rows links l :
  Forall2 unlinked l (map (fun c => c <| pc_activation_link_id := unless_in links (pc_activation_link_id c) |>) l).
Proof. induction l as [|c l IH]; constructor; [by destruct c|done]. Qed.
Lemma unreferenced_rows links deliveries (p : ActivationEmailDelivery -> bool) l :
  (forall d i, p (d <| ad_activation_link_id := i |>) = p d) ->
  Forall2 unreferenced (without p l)
    (map (fun d => d <| ad_retry_of_id := unless_in deliveries (ad_retry_of_id d) |>)
      (without p (map (fun d => d <| ad_activation_link_id := unless_in links (ad_activation_link_id d) |>) l))).
Proof.
  intros Hp. induction l as [|d l IH]; [constructor|]. unfold without in *. cbn [map List.filter]. rewrite Hp.
  destruct (p d); cbn [negb map]; [done|]. constructor; [by destruct d|done].
Qed.

(** Only those tables change. *)
Definition expired_only (w w' : world) : Prop := only_db w w' /\ erase_expired (w_db w') = erase_expired (w_db w).
#[local] Instance expired_only_preorder : PreOrder expired_only.
Proof.
  split; [by intros w|]. intros w1 w2 w3 [A B] [A' B']. split; [by transitivity w2|congruence].
Qed.
Lemma expired_only_recover now : keeps expired_only (recover_stale_deliveries None false (Some now)).
Proof.
  intros w. destruct (recovers_stale None false now w) as (A & B & _). split; [done|].
  exact (f_equal erase_expired B).
Qed.
Lemma expired_only_step (f : database -> database) {A} (a : A) :
  (forall db, erase_expired (f db) = erase_expired db) ->
  keeps expired_only (fun w => (Ok a, w <| w_db := f (w_db w) |>)).
Proof. intros Hf w. split; [by destruct w|apply Hf]. Qed.
Lemma expired_only_get key : keeps expired_only (get_int key).
Proof. intros w. destruct (get_int key w) as [o w'] eqn:E. by rewrite (get_int_keeps _ _ _ _ E). Qed.
#[local] Hint Resolve expired_only_recover expired_only_get : keeps.
Ltac by_expired := by_frame ltac:(idtac; lazymatch goal with
  | |- keeps _ (q_delete _ _) => intros w; split; [by destruct w|reflexivity]
  | |- keeps _ (delete_where _ _ _) => intros w; split; [by destruct w|reflexivity]
  | |- keeps _ (_ ≫= _) => fail
  | |- _ => solve [intros ?; reflexivity]
  end).
Lemma expired_only_delete now : keeps expired_only (delete_expired now).
Proof. unfold delete_expired, cleanup_expired_sessions, delete_sessions, delete_links, delete_deliveries. by_expired. Qed.

Lemma delete_expired_inv now w counts pending w' :
  delete_expired now w = (Ok (counts, pending), w') ->
  exists e r l a,
    (get_int "retention_expired_sessions_days" w).1 = Ok e /\ (get_int "retention_revoked_sessions_days" w).1 = Ok r /\
    (get_int "retention_used_activation_links_days" w).1 = Ok l /\ (get_int "audit_log_retention_days" w).1 = Ok a /\
    only_unexpired now e r l a (w_db w) (w_db w').
Proof.
  unfold delete_expired. intros H.
  apply Mbind_Ok_inv in H as (n & w1 & (e & r & He & Hr & E1)%cleanup_inv & H).
  apply Mbind_Ok_inv in H as ([m pend] & w2 & Hrec & H).
  destruct (keeps_run _ _ _ _ _ (recovers_stale None false now) Hrec) as (Ro & Re & Rl & Rd).
  apply Mbind_Ok_inv in H as (? & w3 & E3%delete_inv & H).
  apply Mbind_Ok_inv in H as (? & w4 & E4%delete_inv & H).
  apply Mbind_Ok_inv in H as (? & w5 & E5%delete_inv & H).
  apply Mbind_Ok_inv in H as (? & w6 & E6%delete_inv & H).
  apply Mbind_Ok_inv in H as (l & ? & Hl & H). pose proof (get_int_keeps _ _ _ _ Hl) as ->.
  apply Mbind_Ok_inv in H as (? & w7 & E7%delete_where_inv & H).
  apply Mbind_Ok_inv in H as (? & w8 & E8%delete_where_inv & H).
  apply Mbind_Ok_inv in H as (a & ? & Ha & H). pose proof (get_int_keeps _ _ _ _ Ha) as ->.
  apply Mbind_Ok_inv in H as (? & w9 & E9%delete_inv & [_ ->]%mret_Ok_inv).
  rewrite (one_day_ago now), instant_cutoff in E5.
  unfold link_expired in E7. unfold delivery_expired in E8. unfold entry_expired in E9.
  rewrite !instant_cutoff in E7, E8, E9.
  assert (w_config w2 = w_config w /\ t_server_settings (w_db w2) = t_server_settings (w_db w)) as [Ec Es].
  { rewrite (f_equal w_config Ro : w_config w2 = w_config w1).
    rewrite (f_equal t_server_settings Re : t_server_settings (w_db w2) = t_server_settings (w_db w1)). by rewrite E1. }
  exists e, r, l, a. split; [done|]. split; [done|].
  split; [|split].
  - erewrite <-get_int_same; [by rewrite Hl|by rewrite E6, E5, E4, E3..].
  - erewrite <-get_int_same; [by rewrite Ha|by rewrite E8, E7, E6, E5, E4, E3..].
  - clear Hl Ha Hrec He Hr. constructor.
    + unroll. rewrite (f_equal t_auth_sessions Re : t_auth_sessions (w_db w2) = t_auth_sessions (w_db w1)). unroll.
      apply without_without.
    + unroll. rewrite (f_equal t_passkey_challenges Re : t_passkey_challenges (w_db w2) = t_passkey_challenges (w_db w1)).
      by unroll.
    + unroll. rewrite (f_equal t_evidence_key_registration_challenges Re :
        t_evidence_key_registration_challenges (w_db w2) = t_evidence_key_registration_challenges (w_db w1)).
      by unroll.
    + unroll. rewrite (f_equal t_exchange_codes Re : t_exchange_codes (w_db w2) = t_exchange_codes (w_db w1)). by unroll.
    + unroll. rewrite (f_equal t_audit_log Re : t_audit_log (w_db w2) = t_audit_log (w_db w1)). by unroll.
    + exists (t_activation_links (w_db w2)). split; [revert Rl|]; by unroll.
    + exists (t_activation_email_deliveries (w_db w2)). split; [revert Rd; by unroll|].
      unroll. by apply unreferenced_rows.
    + unroll. rewrite (f_equal t_passkey_ceremonies Re : t_passkey_ceremonies (w_db w2) = t_passkey_ceremonies (w_db w1)).
      unroll. rewrite without_without.
      match goal with |- context [List.filter (fun r => negb (instant (pc_expires_at r) <=? ?x)) ?l] =>
        change (List.filter (fun r => negb (instant (pc_expires_at r) <=? x)) l)
          with (without (fun r => instant (pc_expires_at r) <=? x) l) end.
      rewrite without_without. erewrite without_ext; [apply unlinked_rows|].
      intros c. cbv beta. rewrite orb_comm. f_equal. symmetry. exact (opt_in_split s_id _ _ _ _).
Qed.

(** ** Events on the way to deletion *)

(** What a cycle never changes of an event *)
Definition identity (e : Event) : Event :=
  e <| ev_purge_grace_days := None |> <| ev_purge_due_at := None |> <| ev_purge_case_request_id := None |>
    <| ev_purge_started_at := None |> <| ev_status := None |>.
Definition due (now : datetime) (e : Event) : Prop :=
  exists d, ev_purge_due_at e = Some d /\ instant (_aware_utc d) <= instant now.
(** A deadline that is there stays; a new one is the midnight after the last day
    and the days of grace; a deletion starts only when its deadline has passed. *)
Record scheduled (now : datetime) (e e' : Event) : Prop := {
  same_identity : identity e' = identity e;
  deadline_kept : forall d, ev_purge_due_at e = Some d -> ev_purge_due_at e' = Some d;
  deadline_after_grace : ev_purge_due_at e = None -> ev_purge_due_at e' = None \/
    exists last grace, ev_end_date e = Some last /\ 1 <= grace <= 3650 /\
      ev_purge_due_at e' = Some (utc_at ((last + grace + 1) * us_day));
  started_when_due : ev_purge_case_request_id e' = ev_purge_case_request_id e /\ ev_status e' = ev_status e \/ due now e'
}.
#[local] Instance scheduled_preorder now : PreOrder (scheduled now).
Proof.
  split; [by intros e; split; auto|]. intros x y z [A1 A2 A3 A4] [B1 B2 B3 B4]. split.
  - congruence.
  - auto.
  - intros Hx. destruct (A3 Hx) as [Hy|(last & grace & Hl & Hg & Hy)].
    + destruct (B3 Hy) as [Hz|(last & grace & Hl & Hg & Hz)]; [by left|right].
      exists last, grace. split; [|done]. rewrite <-Hl. exact (f_equal ev_end_date (eq_sym A1)).
    + right. exists last, grace. auto.
  - destruct B4 as [[B4 B5]|?]; [|by right]. destruct A4 as [[A4 A5]|(d & Hd & Hn)]; [left; split; congruence|].
    right. exists d. auto.
Qed.

(** The tables a cycle may change apart from the events, the cases and the evidence *)
Definition scheduling (now : datetime) (w w' : world) : Prop :=
  w_committed w' = w_committed w /\
  (erase_evidence (w_db w')) <| t_deletion_cases := [] |> <| t_events := [] |> =
    (erase_evidence (w_db w)) <| t_deletion_cases := [] |> <| t_events := [] |> /\
  Forall2 (scheduled now) (t_events (w_db w)) (t_events (w_db w')).
#[local] Instance scheduling_preorder now : PreOrder (scheduling now).
Proof.
  split; [by intros w|]. intros w1 w2 w3 (A & B & C) (A' & B' & C'). split; [congruence|]. split; [congruence|].
  by transitivity (t_events (w_db w2)).
Qed.

Lemma evidence_scheduling now w w' : evidence_only w w' -> scheduling now w w'.
Proof.
  intros (A & B & _). split; [done|]. split; [by rewrite A|].
  rewrite (f_equal t_events A : t_events (w_db w') = t_events (w_db w)). reflexivity.
Qed.
Lemma set_event_scheduling now event f w :
  (forall e, List.find (fun e => ev_id e =? event) (t_events (w_db w)) = Some e -> scheduled now e (f e)) ->
  scheduling now w (on_table t_events (update_first (fun e => ev_id e =? event) f) w).
Proof.
  intros H. split; [done|]. split; [done|]. apply rows_update_first; [reflexivity|exact H].
Qed.

Definition found (event : Z) (w : world) : option Event := List.find (fun e => ev_id e =? event) (t_events (w_db w)).
Lemma found_set event f w e : (forall e, ev_id (f e) = ev_id e) -> found event w = Some e ->
  found event (on_table t_events (update_first (fun e => ev_id e =? event) f) w) = Some (f e).
Proof. apply find_update_first. Qed.

Lemma purge_due_inv last grace d : event_purge_due_at last grace = Ok d ->
  1 <= grace <= 3650 /\ d = utc_at ((last + grace + 1) * us_day).
Proof.
  unfold event_purge_due_at. intros H.
  apply bind_Ok_inv in H as (? & Hg%raise_if_Ok_inv & H). apply bind_Ok_inv in H as (? & _ & [= <-]).
  bool_norm. split; [lia|]. do 2 f_equal. lia.
Qed.

Lemma materialise_run now event w e r w' :
  found event w = Some e -> ev_purge_due_at e = None -> truthy_opt (ev_purge_case_request_id e) = false ->
  materialise_event_purge_deadline event false w = (Ok r, w') -> scheduling now w w'.
Proof.
  intros He Hd Hc H. unfold materialise_event_purge_deadline in H.
  apply Mbind_Ok_inv in H as (e' & ? & [-> He']%row_inv & H).
  assert (e' = e) as -> by (unfold found in He; congruence). rewrite Hc, Hd in H. cbn [is_some andb] in H.
  destruct (ev_end_date e) as [last|] eqn:El.
  - apply Mbind_Ok_inv in H as (grace & w1 & Hg & H). pose proof (get_int_keeps _ _ _ _ Hg) as ->.
    apply Mbind_Ok_inv in H as (? & w1 & E1%assign_inv & H).
    apply Mbind_Ok_inv in H as (d & ? & [Hdue ->]%lift_Ok_inv & H).
    apply Mbind_Ok_inv in H as (? & w2 & E2%assign_inv & [_ ->]%mret_Ok_inv).
    apply purge_due_inv in Hdue as [Hb ->].
    transitivity w1; [rewrite E1; apply set_event_scheduling|rewrite E2; apply set_event_scheduling].
    + intros e0 He0. assert (e0 = e) as -> by congruence. split; [done|done|by left|by left].
    + intros e1 He1. rewrite E1 in He1.
      assert (Some e1 = Some (e <| ev_purge_grace_days := Some grace |>)) as [= ->].
      { rewrite <-He1. by apply (found_set event (fun e : Event => e <| ev_purge_grace_days := Some grace |>) w e). }
      split; [done|cbn; by rewrite Hd|intros _; right; by exists last, grace|by left].
  - apply Mbind_Ok_inv in H as (? & w1 & E1%assign_inv & [_ ->]%mret_Ok_inv).
    rewrite E1. apply set_event_scheduling. intros e0 He0. assert (e0 = e) as -> by congruence.
    split; [done|by rewrite Hd|by left|by left].
Qed.

Section Schedule.
Context `{Evidence : !EvidenceService}.

(** Only cases and evidence change. *)
Definition case_only (w w' : world) : Prop :=
  w_committed w' = w_committed w /\
  (erase_evidence (w_db w')) <| t_deletion_cases := [] |> = (erase_evidence (w_db w)) <| t_deletion_cases := [] |>.
#[local] Instance case_only_preorder : PreOrder case_only.
Proof. split; [by intros w|]. intros w1 w2 w3 [A B] [A' B']. split; congruence. Qed.
Lemma case_only_append q : keeps case_only (evidence_append q).
Proof. intros w. destruct (evidence_append_only q w) as (A & B & _). split; [done|by rewrite A]. Qed.
Lemma case_only_identity : keeps case_only stable_instance_id.
Proof. intros w. destruct (only_stable w) as (A & B & _). split; [done|by rewrite A]. Qed.
#[local] Hint Resolve case_only_preorder case_only_append case_only_identity : keeps.
Lemma erase_cases_set g db :
  (erase_evidence (set_field t_deletion_cases g db)) <| t_deletion_cases := [] |> = (erase_evidence db) <| t_deletion_cases := [] |>.
Proof. destruct db. vm_compute. reflexivity. Qed.
Lemma case_only_insert f : keeps case_only (q_insert t_deletion_cases f).
Proof. intros w. split; [reflexivity|]. exact (erase_cases_set (fun l => l ++ [f (w_next_id w)]) (w_db w)). Qed.
Lemma case_only_set job f : keeps case_only (set_case job f).
Proof. intros w. split; [reflexivity|]. exact (erase_cases_set (update_first (fun r => dc_id r =? job) f) (w_db w)). Qed.
Lemma case_only_now : keeps case_only utc_now.
Proof. by intros w. Qed.
Lemma case_only_fresh : keeps case_only fresh.
Proof. by intros w. Qed.
#[local] Hint Resolve case_only_insert case_only_set case_only_now case_only_fresh : keeps.
#[local] Hint Constants Opaque : keeps.
Lemma case_only_event event : keeps case_only (the_event event).
Proof. unfold the_event, row. by_frame ltac:(idtac; lazymatch goal with |- keeps _ (q_first _ _) => intros ?; reflexivity end). Qed.
Lemma case_only_first p : keeps case_only (q_first t_deletion_cases p).
Proof. by intros w. Qed.
#[local] Hint Resolve case_only_event case_only_first : keeps.
Lemma case_only_create event reason now : keeps case_only (create_event_erasure_case event reason now).
Proof. unfold create_event_erasure_case. by_frame ltac:(fail). Qed.
Lemma case_only_scheduling now w w' : case_only w w' -> scheduling now w w'.
Proof.
  intros [A B]. split; [done|]. split.
  - exact (f_equal (fun db => db <| t_events := [] |>) B).
  - rewrite (f_equal t_events B : t_events (w_db w') = t_events (w_db w)). reflexivity.
Qed.

Lemma schedule_event_run pending now event w c w' :
  schedule_event_purge pending now event w = (Ok c, w') -> scheduling now w w'.
Proof.
  unfold schedule_event_purge. intros H.
  apply Mbind_Ok_inv in H as (e & ? & [-> He]%row_inv & H).
  destruct (truthy_opt (ev_purge_case_request_id e)) eqn:Hc; [apply mret_Ok_inv in H as [_ ->]; reflexivity|].
  apply Mbind_Ok_inv in H as (n & w1 & H1 & H).
  assert (scheduling now w w1) as S1.
  { destruct (ev_purge_due_at e) eqn:Ed; cbn [is_none is_some negb] in H1; [apply mret_Ok_inv in H1 as [_ ->]; reflexivity|].
    apply Mbind_Ok_inv in H1 as (r & ? & H1 & [_ ->]%mret_Ok_inv). by apply (materialise_run now event w e r). }
  apply Mbind_Ok_inv in H as (e1 & ? & [-> He1]%row_inv & H).
  destruct (ev_purge_due_at e1) as [d|] eqn:Ed; [|by apply mret_Ok_inv in H as [_ ->]].
  destruct (Z.ltb_spec (instant now) (instant (_aware_utc d))) as [|Hdue]; [by apply mret_Ok_inv in H as [_ ->]|].
  apply Mbind_Ok_inv in H as (existing & ? & [-> ->]%first_row_inv & H).
  apply Mbind_Ok_inv in H as (job & w2 & H2 & H).
  assert (case_only w1 w2) as S2.
  { destruct (List.find _ (t_deletion_cases _)) as [c0|]; [by apply mret_Ok_inv in H2 as [_ ->]|].
    apply Mbind_Ok_inv in H2 as (? & ? & Hf & H2). apply Mbind_Ok_inv in Hf as (db & ? & [= <- <-] & [_ ->]%throw_if_Ok_inv).
    exact (keeps_run _ _ _ _ _ (case_only_create _ _ _) H2). }
  apply Mbind_Ok_inv in H as (c0 & ? & [-> _]%row_inv & H).
  apply Mbind_Ok_inv in H as (? & w3 & ->%assign_inv & [_ ->]%mret_Ok_inv).
  transitivity w1; [done|]. transitivity w2; [by apply case_only_scheduling|].
  apply set_event_scheduling. intros e2 He2.
  assert (e2 = e1) as ->.
  { rewrite (f_equal t_events (proj2 S2) : t_events (w_db w2) = t_events (w_db w1)) in He2. congruence. }
  split; [done|done|by left|right; by exists d].
Qed.
Lemma mmap_run {A B} (R : world -> world -> Prop) `{!PreOrder R} (f : A -> py B) :
  (forall x w b w', f x w = (Ok b, w') -> R w w') ->
  forall l w bs w', mmap f l w = (Ok bs, w') -> R w w'.
Proof.
  intros Hf. induction l as [|x l IH]; intros w bs w' H; cbn [mmap] in H.
  - apply mret_Ok_inv in H as [_ ->]. reflexivity.
  - apply Mbind_Ok_inv in H as (b & w1 & H1 & H). apply Mbind_Ok_inv in H as (bs1 & w2 & H2 & [_ ->]%mret_Ok_inv).
    transitivity w1; [by apply (Hf x w b)|by apply (IH w1 bs1)].
Qed.
Lemma schedule_events_run pending now w c w' :
  _schedule_event_purges pending now w = (Ok c, w') -> scheduling now w w'.
Proof.
  intros H. apply Mbind_Ok_inv in H as (events & ? & [-> ->]%q_all_inv & H).
  apply Mbind_Ok_inv in H as (counts & w1 & H & [_ ->]%mret_Ok_inv).
  revert H. apply mmap_run; [typeclasses eauto|]. apply schedule_event_run.
Qed.

(** ** Snapshots *)

(** Some snapshots that are not frozen may go; nothing else changes. *)
Definition pruning (w w' : world) : Prop :=
  only_db w w' /\ (w_db w') <| t_publish_snapshots := [] |> = (w_db w) <| t_publish_snapshots := [] |> /\
  (forall s, s ∈ t_publish_snapshots (w_db w') -> s ∈ t_publish_snapshots (w_db w)) /\
  (forall s, s ∈ t_publish_snapshots (w_db w) -> sn_frozen s = true ->
     (forall s', s' ∈ t_publish_snapshots (w_db w) -> sn_id s' = sn_id s -> s' = s) -> s ∈ t_publish_snapshots (w_db w')).
#[local] Instance pruning_preorder : PreOrder pruning.
Proof.
  split; [by intros w; repeat split; [destruct w|auto|auto]|].
  intros w1 w2 w3 (A & B & C & D) (A' & B' & C' & D'). split; [by transitivity w2|]. split; [congruence|]. split; [auto|].
  intros s Hs Hf Hu. apply D'; [by apply D|done|auto].
Qed.

Lemma insert_by_elem {R} (key : R -> Z) x y l : x ∈ insert_by key y l <-> x = y \/ x ∈ l.
Proof.
  induction l as [|z l IH]; cbn; [by rewrite elem_of_cons|]. destruct (key y <=? key z); rewrite !elem_of_cons; [done|].
  rewrite IH. tauto.
Qed.
Lemma ordered_elem {R} (key : R -> Z) l x : x ∈ order_by key l <-> x ∈ l.
Proof.
  induction l as [|y l IH]; [done|]. cbn [order_by fold_right].
  rewrite insert_by_elem, elem_of_cons. by rewrite IH.
Qed.
Lemma among_spec l i : among l i = true <-> i ∈ l.
Proof.
  unfold among. rewrite existsb_exists. setoid_rewrite <-list_elem_of_In. split.
  - intros (j & Hj & ->%Z.eqb_eq). done.
  - intros Hi. exists i. by rewrite Z.eqb_refl.
Qed.

Lemma pruning_one event : keeps pruning (_prune_old_snapshots event).
Proof.
  unfold _prune_old_snapshots. apply keeps_bind; [typeclasses eauto| |intros limit].
  { intros w. destruct (get_int _ w) as [o w'] eqn:E. by rewrite (get_int_keeps _ _ _ _ E). }
  intros w. unfold mbind, M_bind, q_all, gets, when. cbv beta zeta match. cbn [fst snd].
  destruct (_ <=? 0); [reflexivity|]. destruct (negb _); [|reflexivity].
  cbn [q_delete mret M_ret fst snd]. split; [by destruct w|]. split; [done|]. cbn [w_db on_table set_field t_publish_snapshots].
  split; intros s; rewrite !list_elem_of_In, filter_In.
  - by intros [Hs _].
  - intros Hs Hf Hu. split; [done|]. apply negb_true_iff, not_true_iff_false. rewrite among_spec.
    intros (s' & Hid & Hs')%list_elem_of_fmap.
    assert (s' ∈ List.filter (prunable event) (t_publish_snapshots (w_db w))) as Hp.
    { apply (ordered_elem sn_version). rewrite <-(firstn_skipn (Z.to_nat (Z.of_nat (length (List.filter (snapshot_of event)
        (t_publish_snapshots (w_db w)))) - limit))), elem_of_app. by left. }
    apply list_elem_of_In, filter_In in Hp as [Hin Hfrozen].
    assert (s' = s) as -> by (apply Hu; [by apply list_elem_of_In|done]).
    unfold prunable in Hfrozen. rewrite Hf, andb_false_r in Hfrozen. discriminate.
Qed.
#[local] Hint Resolve pruning_preorder : keeps.
Lemma pruning_all : keeps pruning _prune_snapshots.
Proof.
  unfold _prune_snapshots. pose proof pruning_one. by_frame ltac:(idtac; lazymatch goal with
    | |- keeps _ (_prune_old_snapshots _) => apply pruning_one
    | |- keeps _ (q_count _) => intros ?; reflexivity
    | |- keeps _ (q_all _ _) => intros ?; reflexivity end).
Qed.

(** ** The status row *)

Definition status_only (w w' : world) : Prop :=
  only_db w w' /\ (w_db w') <| t_retention_scheduler_state := [] |> = (w_db w) <| t_retention_scheduler_state := [] |>.
#[local] Instance status_only_preorder : PreOrder status_only.
Proof. split; [by intros w; split|]. intros w1 w2 w3 [A B] [A' B']. split; [by transitivity w2|congruence]. Qed.
Lemma erase_state_set g db :
  (set_field t_retention_scheduler_state g db) <| t_retention_scheduler_state := [] |> = db <| t_retention_scheduler_state := [] |>.
Proof. by destruct db. Qed.
Lemma status_set f : keeps status_only (set_state f).
Proof. intros w. split; [by destruct w|]. apply erase_state_set. Qed.
Lemma status_row : keeps status_only scheduler_state.
Proof.
  unfold scheduler_state. apply keeps_bind; [typeclasses eauto|intros w; reflexivity|intros o].
  apply keeps_when; [typeclasses eauto|]. intros w. split; [by destruct w|]. apply erase_state_set.
Qed.

(** ** A cycle *)

(** The tables a cycle may change, emptied *)
Definition erase_retained (db : database) : database :=
  (erase_evidence (erase_expired db)) <| t_deletion_cases := [] |> <| t_events := [] |>
    <| t_publish_snapshots := [] |> <| t_retention_scheduler_state := [] |>.
(** The tables of expired rows *)
Definition expired_tables (db : database) :=
  (t_auth_sessions db, t_passkey_ceremonies db, t_activation_links db, t_activation_email_deliveries db,
   (t_passkey_challenges db, t_evidence_key_registration_challenges db, t_exchange_codes db, t_audit_log db)).
Lemma only_unexpired_tables now e r l a db1 db2 db1' db2' :
  expired_tables db1 = expired_tables db2 -> expired_tables db1' = expired_tables db2' ->
  only_unexpired now e r l a db1 db1' -> only_unexpired now e r l a db2 db2'.
Proof.
  intros [= E1 E2 E3 E4 E5 E6 E7 E8] [= F1 F2 F3 F4 F5 F6 F7 F8] [].
  constructor; rewrite <-?E1, <-?E2, <-?E3, <-?E4, <-?E5, <-?E6, <-?E7, <-?E8,
    <-?F1, <-?F2, <-?F3, <-?F4, <-?F5, <-?F6, <-?F7, <-?F8; assumption.
Qed.

Lemma retained_state db : erase_retained (db <| t_retention_scheduler_state := [] |>) = erase_retained db.
Proof. destruct db. vm_compute. reflexivity. Qed.
Lemma retained_snapshots db : erase_retained (db <| t_publish_snapshots := [] |>) = erase_retained db.
Proof. destruct db. vm_compute. reflexivity. Qed.
Lemma retained_expired db : erase_retained (erase_expired db) = erase_retained db.
Proof. destruct db. vm_compute. reflexivity. Qed.
Lemma retained_scheduling db :
  erase_retained ((erase_evidence db) <| t_deletion_cases := [] |> <| t_events := [] |>) = erase_retained db.
Proof. destruct db. vm_compute. reflexivity. Qed.
Lemma expired_of_state db : expired_tables (db <| t_retention_scheduler_state := [] |>) = expired_tables db.
Proof. done. Qed.
Lemma expired_of_snapshots db : expired_tables (db <| t_publish_snapshots := [] |>) = expired_tables db.
Proof. done. Qed.
Lemma expired_of_scheduling db :
  expired_tables ((erase_evidence db) <| t_deletion_cases := [] |> <| t_events := [] |>) = expired_tables db.
Proof. destruct db. vm_compute. reflexivity. Qed.

(** The calls of a cycle, one by one *)
Lemma retention_work_run now w counts pending w' :
  retention_work now w = (Ok (counts, pending), w') ->
  exists w1 w2 w3 w4 cs, status_only w w1 /\ delete_expired now w1 = (Ok (cs, pending), w2) /\ pruning w2 w3 /\
    scheduling now w3 w4 /\ status_only w4 w'.
Proof.
  unfold retention_work. intros H.
  apply Mbind_Ok_inv in H as (? & w0 & H0 & H). apply Mbind_Ok_inv in H as (? & w1 & H1 & H).
  apply Mbind_Ok_inv in H as ([cs pend] & w2 & H2 & H). apply Mbind_Ok_inv in H as (n & w3 & H3 & H).
  apply Mbind_Ok_inv in H as ([scheduled started] & w4 & H4 & H).
  apply Mbind_Ok_inv in H as (? & w5 & H5 & [[= -> ->] ->]%mret_Ok_inv).
  exists w1, w2, w3, w4, cs. split.
  { transitivity w0; [exact (keeps_run _ _ _ _ _ status_row H0)|exact (keeps_run _ _ _ _ _ (status_set _) H1)]. }
  split; [done|]. split; [exact (keeps_run _ _ _ _ _ pruning_all H3)|].
  split; [exact (schedule_events_run _ _ _ _ _ H4)|exact (keeps_run _ _ _ _ _ (status_set _) H5)].
Qed.


(** ** What a cycle commits *)

Section Commits.
Context (repr_container : json -> string) (urlopen : http_request -> http_result) (is_postgresql lock_acquired : bool).

#[local] Hint Resolve uncommitted_preorder : keeps.
Lemma uncommitted_append q : keeps uncommitted (evidence_append q).
Proof. intros w. by destruct (evidence_append_only q w) as (_ & B & _). Qed.
Lemma uncommitted_get key : keeps uncommitted (get_int key).
Proof. intros w. destruct (get_int key w) as [o w'] eqn:E. by rewrite (get_int_keeps _ _ _ _ E). Qed.
Lemma uncommitted_create event reason now : keeps uncommitted (create_event_erasure_case event reason now).
Proof. intros w. by destruct (case_only_create event reason now w). Qed.
Lemma uncommitted_delete now : keeps uncommitted (delete_expired now).
Proof. intros w. destruct (expired_only_delete now w) as [A _]. exact (f_equal w_committed A). Qed.
Lemma uncommitted_prune : keeps uncommitted _prune_snapshots.
Proof. intros w. destruct (pruning_all w) as (A & _). exact (f_equal w_committed A). Qed.
Lemma uncommitted_row : keeps uncommitted scheduler_state.
Proof. intros w. destruct (status_row w) as [A _]. exact (f_equal w_committed A). Qed.
#[local] Hint Resolve uncommitted_append uncommitted_get uncommitted_create uncommitted_delete uncommitted_prune uncommitted_row : keeps.
Ltac by_uncommitted := by_frame ltac:(idtac; lazymatch goal with
  | |- keeps _ (_ ≫= _) => fail
  | |- keeps _ (match _ with _ => _ end) => fail
  | |- keeps _ (mfor _ _) => fail
  | |- keeps _ (mmap _ _) => fail
  | |- _ => solve [intros ?; reflexivity] end).
Lemma uncommitted_schedule pending now event : keeps uncommitted (schedule_event_purge pending now event).
Proof. unfold schedule_event_purge, materialise_event_purge_deadline, flush, the_event, the_case, row. by_uncommitted. Qed.
#[local] Hint Resolve uncommitted_schedule : keeps.
Lemma uncommitted_work now : keeps uncommitted (retention_work now).
Proof. unfold retention_work, _schedule_event_purges. by_uncommitted. Qed.

(** Neither the session's database nor the committed one changes. *)
Lemma same_dbs_holder : keeps same_dbs (not_holder repr_container).
Proof.
  assert (forall w w', same_state w w' -> same_dbs w w') as Hs.
  { intros w w' (A & B & C & _ & _ & D & _ & E). by unfold same_dbs. }
  assert (keeps same_dbs (control_witness_ready repr_container)) as Hr.
  { intros w. apply Hs. unfold control_witness_ready. pose proof (same_state_witness repr_container) as K.
    revert w. match goal with |- forall w, same_state w (?m w).2 => change (keeps same_state m) end.
    by_frame ltac:(idtac; lazymatch goal with |- keeps _ (setting _) => intros ?; reflexivity end). }
  unfold not_holder, is_ha_enabled. by_frame ltac:(fail).
Qed.

(** What a cycle did when it answers, and that one that fails has committed nothing. *)
Definition committed_cycle (counts : list (string * json)) (w w' : world) : Prop :=
  exists now w1 pending w2, w_db w1 = w_db w /\ w_committed w1 = w_committed w /\
    retention_work now w1 = (Ok (counts, pending), w2) /\ w_committed w' = w_db w2.
Definition skipped (counts : list (string * json)) : Prop :=
  counts = [("non_holder_skipped", JInt 1)]%string \/ counts = [("lock_skipped", JInt 1)]%string.
Lemma cycle_inv now w o w' :
  run_retention_cycle repr_container urlopen is_postgresql lock_acquired now true w = (o, w') ->
  match o with
  | Ok counts => skipped counts /\ uncommitted w w' \/ committed_cycle counts w w'
  | Raise _ => uncommitted w w'
  end.
Proof.
  intros H. unfold run_retention_cycle in H. unfold mbind at 1, M_bind at 1 in H.
  pose proof (same_dbs_holder w) as (Hd1 & Hc1 & _).
  destruct (not_holder repr_container w) as [[sk|e] w1]; cbn in Hd1, Hc1; [|by injection H as <- <-].
  destruct sk; [injection H as <- <-; left; split; [by left|exact Hc1]|].
  unfold mbind at 1, M_bind at 1 in H.
  pose proof (same_dbs_permit repr_container urlopen true w1) as (Hd2 & Hc2 & _).
  destruct (require_write_permit _ _ true w1) as [[u|e] w2]; cbn in Hd2, Hc2;
    [|injection H as <- <-; unfold uncommitted; congruence].
  assert (exists t w3, (match now with Some n => mret n | None => utc_now end : py datetime) w2 = (Ok t, w3) /\
            w_db w3 = w_db w2 /\ w_committed w3 = w_committed w2) as (t & w3 & Ht & Hd3 & Hc3) by (destruct now; by eexists _, _).
  rewrite (Mbind_Ok _ _ w2 t w3 Ht) in H. cbv zeta in H. unfold _try_cycle_lock in H. unfold mbind at 1, M_bind at 1, mret, M_ret in H.
  destruct (if is_postgresql then lock_acquired else true); cbn [negb] in H;
    [|injection H as <- <-; left; split; [by right|unfold uncommitted; congruence]].
  unfold mbind at 1, M_bind at 1 in H. pose proof (uncommitted_work (_aware_utc t) w3) as Hw.
  destruct (retention_work (_aware_utc t) w3) as [[[counts pending]|e] w4] eqn:Ew; unfold uncommitted in Hw; cbn in Hw;
    [|injection H as <- <-; unfold uncommitted; congruence].
  unfold mbind at 1, M_bind at 1, flush in H. unfold mbind at 1, M_bind at 1, gets, throw_if, lift in H.
  destruct (raise_if _ _ _) as [[]|e]; [|injection H as <- <-; unfold uncommitted; congruence].
  unfold mbind at 1, M_bind at 1 in H. destruct (fenced_commit _ _ true w4) as [[x5|e] w5] eqn:Ef.
  - apply fence_inv in Ef as [Hc5 _]. injection H as <- <-. right. exists (_aware_utc t), w3, pending, w4.
    split; [congruence|]. split; [congruence|]. split; [exact Ew|exact Hc5].
  - apply fence_inv in Ef as [Hc5 _]. injection H as <- <-. unfold uncommitted in *. congruence.
Qed.

Lemma find_app_none {R} (p : R -> bool) l r : List.find p l = None -> p r = true -> List.find p (l ++ [r]) = Some r.
Proof. induction l as [|x l IH]; cbn; [by intros _ ->|]. by destruct (p x). Qed.
Lemma status_row_found w u w' : scheduler_state w = (Ok u, w') ->
  exists s, List.find (fun s => rs_id s =? 1) (t_retention_scheduler_state (w_db w')) = Some s.
Proof.
  unfold scheduler_state. intros H. apply Mbind_Ok_inv in H as (o & ? & [-> ->]%first_row_inv & H).
  destruct (List.find _ _) as [s|] eqn:E; cbn [is_none is_some negb when] in H.
  - apply mret_Ok_inv in H as [_ ->]. by exists s.
  - apply modify_Ok_inv in H as ->. exists new_RetentionSchedulerState. by apply find_app_none.
Qed.

(** The status row of a failed cycle *)
Definition failed_row (e : exn) (db db' : database) : Prop :=
  db' <| t_retention_scheduler_state := [] |> = db <| t_retention_scheduler_state := [] |> /\
  exists s, s ∈ t_retention_scheduler_state db' /\ rs_last_result s = Some "failed"%string /\
    rs_last_error_code s = Some (take_bytes 64 (exn_name (exn_cls e))) /\ rs_last_counts_json s = Some "{}"%string.
Lemma record_failure_inv now e w o w' : record_failure repr_container urlopen now e w = (o, w') ->
  uncommitted w w' \/ failed_row e (w_db w) (w_committed w').
Proof.
  intros H. unfold record_failure in H.
  assert (exists t w1, (match now with Some n => mret n | None => utc_now end : py datetime) w = (Ok t, w1) /\
            w_db w1 = w_db w /\ w_committed w1 = w_committed w) as (t & w1 & Ht & Hd1 & Hc1) by (destruct now; by eexists _, _).
  rewrite (Mbind_Ok _ _ w t w1 Ht) in H. cbv zeta in H. unfold mbind at 1, M_bind at 1 in H.
  destruct (status_row w1) as [O2 S2].
  destruct (scheduler_state w1) as [[u|x] w2] eqn:E2; cbn in O2, S2;
    [|injection H as <- <-; left; unfold uncommitted; rewrite <-Hc1; exact (f_equal w_committed O2)].
  destruct (status_row_found _ _ _ E2) as (s & Hs).
  unfold mbind at 1, M_bind at 1 in H.
  match type of H with (match set_state ?f w2 with _ => _ end) = _ => destruct (status_set f w2) as [O3 S3];
    pose proof (find_update_first rs_id f 1 _ _ (fun _ => eq_refl) Hs) as Hs3 end.
  apply fence_inv in H as [Hc Hd].
  destruct o as [y|x]; [right|left].
  - rewrite Hc. split.
    + etransitivity; [exact S3|]. by rewrite S2, Hd1.
    + apply find_some in Hs3 as [Hs3 _]. apply list_elem_of_In in Hs3. eexists. split; [exact Hs3|done].
  - unfold uncommitted in *. rewrite Hc, <-Hc1. exact (f_equal w_committed O2).
Qed.

(** C37: a retention cycle is atomic.  When it answers, either it was skipped, on a
    node that does not hold the lease or while another cycle holds the lock, and
    nothing was committed, or exactly what one complete run of the work makes
    of the committed database was committed; when it fails, at whatever step,
    no change of its work is committed: at most the status row says that a
    cycle failed and with which exception.  In both cases no uncommitted change
    is left in the session. *)
Theorem retention_cycle_is_atomic now w o w'
  (H : run_retention_cycle_once repr_container urlopen is_postgresql lock_acquired now w = (o, w'))
  (Hw : w_db w = w_committed w) :
  match o with
  | Ok counts => skipped counts /\ w_committed w' = w_committed w \/
      exists t w1 pending w2, w_db w1 = w_committed w /\ retention_work t w1 = (Ok (counts, pending), w2) /\
        w_committed w' = w_db w2
  | Raise e => w_committed w' = w_committed w \/ failed_row e (w_committed w) (w_committed w')
  end /\ w_db w' = w_committed w'.
Proof.
  unfold run_retention_cycle_once in H. unfold mbind at 1, M_bind at 1 in H.
  pose proof (same_dbs_holder w) as (Hd1 & Hc1 & _).
  destruct (not_holder repr_container w) as [[sk|e] w1]; cbn in Hd1, Hc1;
    [|injection H as <- <-; split; [by left|congruence]].
  destruct sk; [injection H as <- <-; split; [left; split; [by left|done]|congruence]|].
  unfold mbind at 1, M_bind at 1 in H.
  pose proof (same_dbs_permit repr_container urlopen true w1) as (Hd2 & Hc2 & _).
  destruct (require_write_permit _ _ true w1) as [[u|e] w2]; cbn in Hd2, Hc2;
    [|injection H as <- <-; split; [left; congruence|congruence]].
  unfold in_session in H.
  destruct (run_retention_cycle _ _ _ _ now true (roll w2)) as [[counts|e] w3] eqn:Er; apply cycle_inv in Er;
    injection H as <- <-; (split; [|done]); cbn [roll w_committed set_field].
  - destruct Er as [[Hs Hu]|(t & w4 & pending & w5 & Hd4 & _ & Ew & Hc5)].
    + left. split; [done|]. unfold uncommitted in Hu. cbn in Hu. congruence.
    + right. exists t, w4, pending, w5. split; [|done]. rewrite Hd4. cbn. congruence.
  - destruct (record_failure _ _ now e (roll w3)) as [o w4] eqn:Ef. cbn [snd].
    unfold uncommitted in Er. cbn in Er.
    apply record_failure_inv in Ef as [Hu|Hf]; [left; unfold uncommitted in Hu; cbn in Hu; congruence|right].
    cbn in Hf. by rewrite Er, Hc2, Hc1 in Hf.
Qed.
End Commits.
End Schedule.

(** ** A small instance *)

Module Cycle.
Definition now : datetime := utc_at 1785414896000000.
Definition ago (days : Z) : datetime := add_us now (- (days * us_day)).
(** An event that ended 200 days ago, one that has not ended, rows that are over and
    rows that are not *)
Definition db : database := empty_database
  <| t_events := [(new_Event now) <| ev_id := 1 |> <| ev_evidence_id := "past"%string |> <| ev_end_date := Some 20464 |>;
                  (new_Event now) <| ev_id := 2 |> <| ev_evidence_id := "future"%string |> <| ev_end_date := Some 20700 |>] |>
  <| t_auth_sessions := [(new_AuthSession now) <| s_id := 1 |> <| s_expires_at := ago 60 |>;
                         (new_AuthSession now) <| s_id := 2 |>] |>
  <| t_activation_links := [(new_ActivationLink now) <| al_id := 3 |> <| al_expires_at := ago 1 |>] |>
  <| t_activation_email_deliveries := [(new_ActivationEmailDelivery (ago 1)) <| ad_id := 4 |>
       <| ad_activation_link_id := Some 3 |>] |>
  <| t_exchange_codes := [new_ExchangeCode (ago 1)] |>
  <| t_audit_log := [new_AuditLog (ago 100); new_AuditLog now] |>.
Definition start : world := toy_world db.
(** The same with an event whose deadline lies after the last representable day *)
Definition broken : world := toy_world (db <| t_events := [(new_Event now) <| ev_id := 1 |> <| ev_end_date := Some last_day |>] |>).
End Cycle.


Definition unreachable (_ : http_request) : http_result := HttpFailure.
Definition no_repr (_ : json) : string := EmptyString.
Lemma retention_cycle_is_atomic_witness :
  exists e w', run_retention_cycle_once no_repr unreachable false true (Some Cycle.now) Cycle.broken = (Raise e, w') /\
    exn_cls e = OverflowError /\
    (w_committed w' = w_committed Cycle.broken \/ failed_row e (w_committed Cycle.broken) (w_committed w')).
Proof.
  destruct (run_retention_cycle_once no_repr unreachable false true (Some Cycle.now) Cycle.broken) as [[counts|e] w'] eqn:H;
    [vm_compute in H; discriminate|].
  destruct (retention_cycle_is_atomic no_repr unreachable false true (Some Cycle.now) Cycle.broken _ w' H eq_refl) as [Hc _].
  exists e, w'. split; [reflexivity|]. split; [|exact Hc].
  assert (Raise e = (run_retention_cycle_once no_repr unreachable false true (Some Cycle.now) Cycle.broken).1) as He
    by (rewrite H; reflexivity).
  vm_compute in He. injection He as ->. reflexivity.
Defined.
