(* ===== verification/PublicLinksProps.v ===== *)
(** What a shared schedule shows: the granted views that are published and their
    items, to the holder of the token of a live link; and that an invalidated link
    stays dead, whatever is done to the links afterwards. *)
From Stdlib Require Import ZArith Lia String.
From stdpp Require Import base list strings relations.
From S2P Require Import Prelude Text TextFacts Json Sha256 PyTime PyBuiltins ScheduleDays Ordering Models World Cascade Commissioning AuditTrail Sessions Ha HaWitness HaProps HaReplication HaReplicationProps PublicLinks DeletionProps.

(** ** What reading a link leaves alone *)

#[local] Hint Extern 0 (PreOrder _) => typeclasses eauto : keeps.

(** The tables that a look at the state of an operation may change, emptied *)
Definition erase_receipts (db : database) : database :=
  db <| t_ha_protection_operations := [] |> <| t_activation_links := [] |>.
Definition reading (w w' : world) : Prop :=
  w_committed w' = w_committed w /\ w_config w' = w_config w /\ w_clock w' = w_clock w /\
  erase_receipts (w_db w') = erase_receipts (w_db w) /\ (w_ticks w <= w_ticks w')%nat.
#[local] Instance reading_preorder : PreOrder reading.
Proof.
  split; [by intros w|]. intros w1 w2 w3 (A & B & C & D & E) (A' & B' & C' & D' & E').
  unfold reading. rewrite A', B', C', D'. repeat split; auto. lia.
Qed.
Ltac by_reading := by_frame ltac:(idtac; lazymatch goal with
  | |- keeps _ (_ ≫= _) => fail
  | |- _ => solve [let w := fresh "w" in intros w; destruct w; repeat split; cbn; lia]
  end).
Lemma reading_release o : keeps reading (release_links o).
Proof. unfold release_links. by_reading. Qed.
Lemma reading_receipt c o : keeps reading (read_receipt c o).
Proof. unfold read_receipt. by_reading. Qed.
#[local] Hint Resolve reading_preorder reading_release reading_receipt : keeps.

Section Links.
Context (repr_container : json -> string) (urlopen : http_request -> http_result).

Lemma reading_sync o : keeps reading (sync_protection_operation repr_container o).
Proof. unfold sync_protection_operation. by_reading. Qed.
Lemma reading_operation id : keeps reading (_link_operation repr_container id).
Proof. unfold _link_operation. pose proof reading_sync. by_reading. Qed.
Lemma reading_status link rows views : keeps reading (_link_status link rows views).
Proof. unfold _link_status. by_reading. Qed.

(** ** The operation of a link *)

Definition operations_of (db : database) (id : Z) : list HAProtectionOperation :=
  List.filter (operation_of id) (t_ha_protection_operations db).
Lemma latest_map {R} (key : R -> Z) (f : R -> R) l :
  (forall r, key (f r) = key r) -> latest key (map f l) = option_map f (latest key l).
Proof.
  intros Hf. unfold latest. assert (order_by (fun r => - key r) (map f l) = map f (order_by (fun r => - key r) l)) as ->.
  { unfold order_by. induction l as [|r l IH]; [done|]. cbn [map fold_right]. rewrite IH. clear IH.
    generalize (fold_right (insert_by (fun r => - key r)) [] l). intros l'. induction l' as [|x l' IH]; [done|].
    cbn [map insert_by]. rewrite !Hf. destruct (- key r <=? - key x); [done|]. cbn. by rewrite IH. }
  by destruct (order_by _ l).
Qed.
Lemma operations_update (f : HAProtectionOperation -> HAProtectionOperation) (p : HAProtectionOperation -> bool) db id :
  (forall o, operation_of id (f o) = operation_of id o) ->
  List.filter (operation_of id) (map (fun o => if p o then f o else o) (t_ha_protection_operations db)) =
    map (fun o => if p o then f o else o) (operations_of db id).
Proof.
  intros Hf. unfold operations_of. induction (t_ha_protection_operations db) as [|o l IH]; [done|]. cbn.
  assert (operation_of id (if p o then f o else o) = operation_of id o) as ->. { destruct (p o); auto. }
  destruct (operation_of id o); cbn; by rewrite IH.
Qed.

Definition same_operations (w w' : world) : Prop :=
  t_ha_protection_operations (w_db w') = t_ha_protection_operations (w_db w).
#[local] Instance same_operations_preorder : PreOrder same_operations.
Proof. split; [by intros w|]. intros w1 w2 w3 A B. unfold same_operations in *. congruence. Qed.
Lemma release_operations o : keeps same_operations (release_links o).
Proof.
  unfold release_links. by_frame ltac:(idtac; lazymatch goal with
    |- keeps _ (_ ≫= _) => fail | |- _ => solve [intros ?; reflexivity] end).
Qed.
Lemma update_latest f operation w n w' id :
  q_update t_ha_protection_operations (same_operation operation) f w = (Ok n, w') ->
  (forall o, operation_of id (f o) = operation_of id o) -> (forall o, ho_mutation_sequence (f o) = ho_mutation_sequence o) ->
  forall o, same_operation operation o = true ->
  latest ho_mutation_sequence (operations_of (w_db w) id) = Some o ->
  latest ho_mutation_sequence (operations_of (w_db w') id) = Some (f o).
Proof.
  intros [= _ <-] Hop Hseq o Ho Hl. unfold operations_of at 1. cbn [w_db on_table set_field t_ha_protection_operations].
  rewrite operations_update by done. rewrite latest_map by (intros r; by destruct (same_operation _ r)).
  rewrite Hl. cbn. by rewrite Ho.
Qed.
Lemma apply_verdict_same v o : ho_id (apply_verdict v o) = ho_id o /\
  ho_mutation_sequence (apply_verdict v o) = ho_mutation_sequence o /\
  forall id, operation_of id (apply_verdict v o) = operation_of id o.
Proof. unfold apply_verdict. by destruct (v_accepted v). Qed.

Lemma receipt_same c o : keeps eq (read_receipt c o).
Proof. unfold read_receipt. by_frame ltac:(idtac; lazymatch goal with |- keeps _ (read_text _) => by intros ? end). Qed.
Lemma sync_latest o w o' w' id :
  sync_protection_operation repr_container o w = (Ok o', w') ->
  latest ho_mutation_sequence (operations_of (w_db w) id) = Some o ->
  latest ho_mutation_sequence (operations_of (w_db w') id) = Some o'.
Proof.
  intros H Hl. unfold sync_protection_operation in H. apply Mbind_Ok_inv in H as (c & ? & [= <- <-] & H).
  destruct (_ || _); [by apply mret_Ok_inv in H as [-> ->]|].
  apply Mbind_Ok_inv in H as (document & w1 & Hd & H).
  pose proof (keeps_run _ _ _ _ _ (receipt_same _ _) Hd) as <-.
  destruct document as [document|]; [|by apply mret_Ok_inv in H as [-> ->]].
  apply Mbind_Ok_inv in H as (v & ? & [_ ->]%lift_Ok_inv & H). destruct v as [v|]; [|by apply mret_Ok_inv in H as [-> ->]].
  apply Mbind_Ok_inv in H as (n & w1 & H1 & H). apply Mbind_Ok_inv in H as (? & w2 & H2 & H).
  apply Mbind_Ok_inv in H as (now & w3 & [= _ <-] & H). apply Mbind_Ok_inv in H as (m & w4 & H4 & [-> ->]%mret_Ok_inv).
  destruct (apply_verdict_same v o) as (Hid & _ & _).
  eapply (update_latest _ _ _ _ _ id) in H1; try apply Hl; try apply String.eqb_refl; try (intros o0; apply apply_verdict_same).
  assert (same_operations w1 w2) as Hs.
  { destruct (is_some _); [exact (keeps_run _ _ _ _ _ (release_operations o) H2)|by apply mret_Ok_inv in H2 as [_ ->]]. }
  eapply (update_latest _ _ _ _ _ id) in H4; [exact H4|done|done|by apply String.eqb_eq|].
  unfold operations_of in *. cbn. by rewrite Hs.
Qed.

(** The state a request is answered by is the one it leaves in the session. *)
Lemma link_operation_latest id w o w' :
  _link_operation repr_container id w = (Ok o, w') -> HA_MODE (w_config w) = "ha"%string ->
  latest ho_mutation_sequence (operations_of (w_db w') id) = o.
Proof.
  intros H Hha. unfold _link_operation in H. apply Mbind_Ok_inv in H as (mode & ? & [= <- <-] & H). rewrite Hha in H. cbn [negb] in H.
  apply Mbind_Ok_inv in H as (ops & ? & [-> ->]%q_all_inv & H). fold (operations_of (w_db w) id) in H.
  destruct (latest _ _) as [o0|] eqn:E; [|by apply mret_Ok_inv in H as [-> ->]].
  destruct (unsettled o0); [|by apply mret_Ok_inv in H as [-> ->]].
  apply Mbind_Ok_inv in H as (o1 & w1 & H & [-> ->]%mret_Ok_inv). exact (sync_latest _ _ _ _ _ H E).
Qed.

(** ** What the holder is shown *)

Definition granted (db : database) (link : PublicScheduleLink) (id : Z) : Prop :=
  exists r, r ∈ t_public_schedule_link_views db /\ pv_link_id r = pl_id link /\ pv_external_view_id r = id.
Definition published (db : database) (event_id : Z) (c : PublishedGeneralScheduleCategory) : Prop :=
  c ∈ t_published_general_schedule_categories db /\ gc_event_id c = event_id.
(** An item keeps the published texts; its ID is its place in the answer. *)
Definition item_of (i : PublishedGeneralScheduleItem) (o : SharedScheduleItemOut) : Prop :=
  Some (so_view_id o) = gi_category_id i /\ so_title o = gi_title i /\ so_date o = gi_date i /\
  so_start_time o = gi_start_time i /\ so_end_time o = gi_end_time i /\ so_location_name o = gi_location_name i /\
  so_location_address o = gi_location_address i /\ so_responsible o = gi_responsible i /\
  so_description o = gi_description i /\ so_type_name o = gi_type_name i /\ so_colour o = gi_colour i.
Record shows (db : database) (link : PublicScheduleLink) (out : SharedScheduleOut) : Prop := {
  shown_once : NoDup (map sv_id (sh_views out));
  shown_views : forall v, v ∈ sh_views out ->
    exists c, published db (pl_event_id link) c /\ granted db link (gc_external_category_id c) /\ v = shared_view c;
  granted_views : forall c, published db (pl_event_id link) c -> granted db link (gc_external_category_id c) ->
    gc_external_category_id c ∈ map sv_id (sh_views out);
  shown_items : exists items,
    items ≡ₚ List.filter (fun i => (gi_event_id i =? pl_event_id link) && opt_in (map sv_id (sh_views out)) (gi_category_id i))
               (t_published_general_schedule_items db) /\
    Forall2 item_of items (sh_items out);
  shown_numbers : map so_id (sh_items out) = seqZ 1 (Z.of_nat (length (sh_items out)))
}.

Lemma view_elem id views v : view id views = Some v -> v ∈ views /\ gc_external_category_id v = id.
Proof.
  unfold view. intros H. apply List.find_some in H as [Hv Heq]. split; [|lia].
  rewrite list_elem_of_In. by apply List.in_rev.
Qed.
Lemma has_view_iff id views : has_view views id = true <-> exists v, v ∈ views /\ gc_external_category_id v = id.
Proof.
  unfold has_view. split.
  - destruct (view id views) as [v|] eqn:E; [|done]. intros _. exists v. by apply view_elem.
  - intros (v & Hv & <-). unfold view. destruct (List.find _ _) eqn:E; [done|].
    apply (List.find_none _ _) with (x := v) in E; [lia|]. by rewrite <-List.in_rev, <-list_elem_of_In.
Qed.
Lemma among_elem l i : among l i = true <-> i ∈ l.
Proof.
  unfold among. rewrite existsb_exists, list_elem_of_In. split; [intros (j & Hj & E)|intros H; exists i; split; [done|]]; [|lia].
  by apply Z.eqb_eq in E as ->.
Qed.
Lemma available_elem views rows id :
  id ∈ available_ids views rows <-> has_view views id = true /\ exists r, r ∈ rows /\ pv_external_view_id r = id.
Proof.
  revert id. induction rows as [|r rows IH]; intros id; cbn [available_ids].
  - split; [by intros ?%elem_of_nil|intros (_ & r & ?%elem_of_nil & _)]; done.
  - destruct (has_view views (pv_external_view_id r)) eqn:Ev; cbn [andb].
    + destruct (among _ _) eqn:Ea; cbn [negb]; rewrite ?elem_of_cons, IH.
      * apply among_elem, IH in Ea as (_ & r' & Hr' & Hid). split.
        { intros (? & r0 & ? & ?). split; [done|]. exists r0. by rewrite elem_of_cons; auto. }
        intros (? & r0 & [->|?]%elem_of_cons & ?); split; try done; [exists r'; split; congruence|by exists r0].
      * split.
        { intros [->|(? & r0 & ? & ?)]; split; try done; [exists r|exists r0]; rewrite elem_of_cons; auto. }
        intros (? & r0 & [->|?]%elem_of_cons & <-); [by left|right]. split; [done|by exists r0].
    + rewrite IH. split.
      { intros (? & r0 & ? & ?). split; [done|]. exists r0. rewrite elem_of_cons; auto. }
      intros (? & r0 & [->|?]%elem_of_cons & <-); [congruence|]. split; [done|by exists r0].
Qed.
Lemma available_nodup views rows : NoDup (available_ids views rows).
Proof.
  induction rows as [|r rows IH]; cbn [available_ids]; [constructor|].
  destruct (has_view _ _); cbn [andb]; [|done]. destruct (among _ _) eqn:E; cbn [negb]; [done|].
  constructor; [|done]. rewrite <-among_elem. by rewrite E.
Qed.

Lemma omap_views views ids : (forall i, i ∈ ids -> has_view views i = true) ->
  map gc_external_category_id (omap (fun i => view i views) ids) = ids.
Proof.
  induction ids as [|i ids IH]; intros H; [done|]. cbn.
  assert (has_view views i = true) as Hi by (apply H; left). unfold has_view in Hi.
  destruct (view i views) as [v|] eqn:E; [|done]. cbn. apply view_elem in E as [_ ->].
  f_equal. apply IH. intros j Hj. apply H. by right.
Qed.
Lemma shared_items_spec rng n items out :
  shared_items rng n items = Ok out -> (forall i, i ∈ items -> is_some (gi_category_id i) = true) ->
  Forall2 item_of items out /\ map so_id out = seqZ n (Z.of_nat (length out)).
Proof.
  revert n out. induction items as [|i items IH]; intros n out H Hs; cbn in H; [injection H as <-; split; [constructor|done]|].
  apply bind_Ok_inv in H as (o & Ho & H). apply bind_Ok_inv in H as (rest & Hr & [= <-]).
  destruct (IH _ _ Hr) as [Hf Hn]; [intros j Hj; apply Hs; by right|].
  unfold shared_item in Ho. apply bind_Ok_inv in Ho as (d & _ & Ho). apply bind_Ok_inv in Ho as (t & _ & [= <-]).
  assert (is_some (gi_category_id i) = true) as Hi by (apply Hs; left).
  split.
  - constructor; [|done]. repeat split. by destruct (gi_category_id i).
  - cbn [map length so_id]. rewrite Hn, Nat2Z.inj_succ, (seqZ_cons n) by lia. f_equal. f_equal; lia.
Qed.

(** The holder of a token that is live: its link is neither invalidated nor expired
    at the time the clock shows, and in the cluster its last change is accepted. *)
Record live_link (w w' : world) (authorization : option string) (link : PublicScheduleLink) : Prop := {
  live_stored : link ∈ t_public_schedule_links (w_db w);
  live_token : exists token, _extract_bearer_token authorization = Some token /\ pl_token_hash link = sha256 token;
  live_valid : pl_invalidated_at link = None;
  live_time : exists n, (w_ticks w <= n < w_ticks w')%nat /\ w_clock w n < instant (_aware_utc (pl_expires_at link));
  live_accepted : HA_MODE (w_config w) = "ha"%string -> forall o,
    latest ho_mutation_sequence (operations_of (w_db w') (pl_id link)) = Some o -> ho_state o = "accepted"%string
}.

Lemma link_status_active link rows views w w' :
  _link_status link rows views w = (Ok "active"%string, w') ->
  pl_invalidated_at link = None /\ (w_ticks w < w_ticks w')%nat /\ w_db w' = w_db w /\
  w_clock w (w_ticks w) < instant (_aware_utc (pl_expires_at link)).
Proof.
  unfold _link_status. destruct (pl_invalidated_at link); cbn [is_some]; [by intros [= ]|].
  intros (now & w1 & [= <- <-] & [H ->]%mret_Ok_inv)%Mbind_Ok_inv.
  destruct (_ <=? _) eqn:E; [done|]. split; [done|]. split; [cbn; lia|]. split; [done|]. apply Z.leb_gt in E. by rewrite Sessions.instant_utc in E.
Qed.

Lemma erased_tables db db' : erase_receipts db' = erase_receipts db ->
  t_events db' = t_events db /\ t_public_schedule_links db' = t_public_schedule_links db /\
  t_public_schedule_link_views db' = t_public_schedule_link_views db /\
  t_published_general_schedule_categories db' = t_published_general_schedule_categories db /\
  t_published_general_schedule_items db' = t_published_general_schedule_items db.
Proof.
  intros H. exact (conj (f_equal t_events H) (conj (f_equal t_public_schedule_links H)
    (conj (f_equal t_public_schedule_link_views H) (conj (f_equal t_published_general_schedule_categories H)
    (f_equal t_published_general_schedule_items H))))).
Qed.
Lemma shows_spec db link rng event items :
  let views := List.filter (fun c => gc_event_id c =? pl_event_id link) (t_published_general_schedule_categories db) in
  let rows := sort_with grant_le (List.filter (fun v => pv_link_id v =? pl_id link) (t_public_schedule_link_views db)) in
  let available := available_ids views rows in
  shared_items rng 1 (sort_with item_le (List.filter
    (fun i => (gi_event_id i =? pl_event_id link) && opt_in available (gi_category_id i))
    (t_published_general_schedule_items db))) = Ok items ->
  shows db link (SharedSchedule event (map shared_view (sort_with view_le (omap (fun i => view i views) available))) items).
Proof.
  intros views rows available H.
  assert (forall id, id ∈ available <-> has_view views id = true /\ granted db link id) as Hav.
  { intros id. unfold available, rows. rewrite available_elem. setoid_rewrite sort_with_elem. setoid_rewrite list_elem_of_In.
    setoid_rewrite List.filter_In. unfold granted. setoid_rewrite list_elem_of_In. setoid_rewrite Z.eqb_eq.
    split; [intros (? & r & (? & ?) & ?)|intros (? & r & ? & ? & ?)]; (split; [done|]); exists r; auto. }
  assert (map sv_id (map shared_view (sort_with view_le (omap (fun i => view i views) available))) ≡ₚ available) as Hids.
  { rewrite sort_with_perm, map_map. cbn. rewrite omap_views; [done|]. by intros i [Hi _]%Hav. }
  assert (forall c, published db (pl_event_id link) c <-> c ∈ views) as Hpub.
  { intros c. unfold published, views. rewrite !list_elem_of_In, List.filter_In. by rewrite Z.eqb_eq. }
  apply shared_items_spec in H as [Hf Hn].
  2: { intros i [_ [_ Hi]%andb_prop]%sort_with_elem%list_elem_of_In%List.filter_In. by destruct (gi_category_id i). }
  split; cbn [sh_views sh_items].
  - rewrite Hids. apply available_nodup.
  - intros v (c & -> & Hc)%list_elem_of_fmap. apply sort_with_elem, list_elem_of_omap in Hc as (id & Hid & Hv).
    apply view_elem in Hv as [Hc <-]. exists c. rewrite Hpub. split; [done|]. split; [by apply Hav|done].
  - intros c Hc Hg. rewrite Hids, Hav. split; [|done]. apply has_view_iff. exists c. by rewrite <-Hpub.
  - eexists. split; [|exact Hf]. rewrite sort_with_perm. apply reflexive_eq, List.filter_ext. intros i. f_equal.
    destruct (gi_category_id i) as [id|]; [|done]. apply eq_true_iff_eq. cbn. by rewrite !among_elem, Hids.
  - done.
Qed.

Lemma shared_schedule_live authorization w out w' :
  get_shared_public_schedule repr_container authorization w = (Ok out, w') ->
  exists link event, live_link w w' authorization link /\ shows (w_db w) link out /\
    event ∈ t_events (w_db w) /\ ev_id event = pl_event_id link /\ se_name (sh_event out) = ev_name event.
Proof.
  unfold get_shared_public_schedule. destruct (_extract_bearer_token authorization) as [token|] eqn:Et; [|done].
  intros (found & ? & [-> ->]%first_row_inv & H)%Mbind_Ok_inv.
  destruct (List.find _ _) as [link|] eqn:El; [|done]. apply List.find_some in El as [El%list_elem_of_In Eh%String.eqb_eq].
  apply Mbind_Ok_inv in H as (o & w1 & Ho & H).
  destruct (keeps_run _ _ _ _ _ (reading_operation (pl_id link)) Ho) as (_ & _ & Hclock & Hdb & Ht1).
  destruct (match o with Some _ => _ | None => _ end) eqn:Eacc; [done|].
  apply Mbind_Ok_inv in H as (rows & ? & Hrows & H).
  apply Mbind_Ok_inv in Hrows as (rows0 & ? & [-> ->]%q_all_inv & [-> ->]%mret_Ok_inv).
  apply Mbind_Ok_inv in H as (views & ? & [-> ->]%q_all_inv & H).
  apply Mbind_Ok_inv in H as (st & w2 & Hst & H). destruct (negb (String.eqb st "active")) eqn:Es; [done|]. cbn [orb] in H.
  apply negb_false_iff, String.eqb_eq in Es as ->. apply link_status_active in Hst as (Hinv & Ht2 & Hdb2 & Hexp).
  destruct (bool_decide _); [done|].
  apply Mbind_Ok_inv in H as (ev & ? & [-> ->]%first_row_inv & H).
  destruct (List.find _ (t_events _)) as [event|] eqn:Ee; [|done]. apply List.find_some in Ee as [Ee%list_elem_of_In Eid%Z.eqb_eq].
  apply Mbind_Ok_inv in H as (rng & ? & [_ ->]%lift_Ok_inv & H).
  apply Mbind_Ok_inv in H as (source & ? & [-> ->]%q_all_inv & H).
  apply Mbind_Ok_inv in H as (aliases & ? & [_ ->]%lift_Ok_inv & H).
  apply Mbind_Ok_inv in H as (items & ? & [Hitems ->]%lift_Ok_inv & [-> ->]%mret_Ok_inv).
  rewrite Hdb2 in *. apply erased_tables in Hdb as (Ev & El' & Evw & Ec & Ei).
  exists link, event. rewrite Ev in Ee. split; [|split; [|done]].
  - split; [done|eauto|done| |].
    + exists (w_ticks w1). rewrite Hclock in Hexp. split; [lia|done].
    + intros Hha o' Ho'. rewrite Hdb2, (link_operation_latest _ _ _ _ Ho Hha) in Ho'. subst o.
      by apply negb_false_iff, String.eqb_eq in Eacc.
  - rewrite Ec, Evw, Ei in *. by eapply shows_spec.
Qed.
(** C34: a request for a shared schedule that is answered carries the token of a
    stored link that is not invalidated, not expired and, in the cluster, whose last
    change the standby has accepted; the answer holds exactly the views the link
    grants that are published for its event, each once, and exactly the items
    published in them, numbered by their place. *)
Theorem shared_schedule_shows_only_granted_views authorization w out w' :
  get_shared_public_schedule repr_container authorization w = (Ok out, w') ->
  exists link event, live_link w w' authorization link /\ shows (w_db w) link out /\
    event ∈ t_events (w_db w) /\ ev_id event = pl_event_id link /\ se_name (sh_event out) = ev_name event.
Proof. apply shared_schedule_live. Qed.

(** ** An invalidated link *)

Section Dead.
Context (h : string).

(** Every link with the hash [h] is invalidated. *)
Definition dead (db : database) : Prop :=
  forall l, l ∈ t_public_schedule_links db -> pl_token_hash l = h -> is_some (pl_invalidated_at l) = true.
Definition buries (w w' : world) : Prop :=
  dead (w_db w) -> dead (w_committed w) -> dead (w_db w') /\ dead (w_committed w').
#[local] Instance buries_preorder : PreOrder buries.
Proof. split; [by intros w|]. intros w1 w2 w3 A B C D. destruct (A C D). by apply B. Qed.

Lemma buries_dbs w w' : same_dbs w w' -> buries w w'.
Proof. intros (E1 & E2 & _) D D'. by rewrite E1, E2. Qed.
Lemma buries_keeps {A} (m : py A) : keeps same_dbs m -> keeps buries m.
Proof. intros H w. apply buries_dbs, H. Qed.
Ltac alive := let w := fresh "w" in let D := fresh "D" in let D' := fresh "D'" in
  intros w D D'; split; [first [exact D|exact D']|first [exact D'|exact D]].
Ltac by_burial := by_frame ltac:(idtac; lazymatch goal with
  | |- keeps _ (_ ≫= _) => fail
  | |- keeps _ (q_update t_public_schedule_links _ _) => fail
  | |- keeps _ (q_delete t_public_schedule_links _) => fail
  | |- _ => solve [alive]
  end).

Lemma dead_assign id f db : (forall l, pl_token_hash (f l) = pl_token_hash l) ->
  (forall l, is_some (pl_invalidated_at l) = true -> is_some (pl_invalidated_at (f l)) = true) ->
  dead db -> dead (set_field t_public_schedule_links (update_first (fun l => pl_id l =? id) f) db).
Proof.
  intros Hh Hi D l. cbn [t_public_schedule_links set_field]. intros Hl.
  assert (exists l0, l0 ∈ t_public_schedule_links db /\ (l = l0 \/ l = f l0)) as (l0 & Hl0 & [->| ->]).
  { revert Hl. generalize (t_public_schedule_links db). intros ls. induction ls as [|x ls IH]; cbn; [by intros ?%elem_of_nil|].
    destruct (_ =? _); rewrite elem_of_cons; [intros [->|Hl]|intros [->|Hl]]; [exists x|exists l|exists x|].
    1-3: rewrite elem_of_cons; auto. destruct (IH Hl) as (y & Hy & E). exists y. rewrite elem_of_cons. auto. }
  - by apply D.
  - rewrite Hh. intros E. by apply Hi, D.
Qed.
Lemma buries_set_link id f : (forall l, pl_token_hash (f l) = pl_token_hash l) ->
  (forall l, is_some (pl_invalidated_at l) = true -> is_some (pl_invalidated_at (f l)) = true) ->
  keeps buries (set_link id f).
Proof. intros Hh Hi w D D'. split; [by apply dead_assign|done]. Qed.
Lemma buries_delete_link id : keeps buries (delete_link_row id).
Proof.
  unfold delete_link_row. by_frame ltac:(idtac; lazymatch goal with
    | |- keeps _ (q_delete t_public_schedule_link_views _) => alive
    | |- keeps _ (q_delete t_public_schedule_links _) => idtac end).
  intros w D D'. split; [|done]. intros l [Hl _]%list_elem_of_In%List.filter_In. by apply D, list_elem_of_In.
Qed.
Lemma buries_insert (row : Z -> PublicScheduleLink) : (forall i, pl_token_hash (row i) <> h) ->
  keeps buries (q_insert t_public_schedule_links row).
Proof. intros Hh w D D'. split; [|done]. intros l [Hl| ->%list_elem_of_singleton]%elem_of_app; [by apply D|]. by intros ?%Hh. Qed.

Lemma buries_ready : keeps buries require_protection_queue_ready.
Proof. apply buries_keeps, ready_dbs. Qed.
Lemma buries_witness path v : keeps buries (witness_post urlopen path v).
Proof. apply buries_keeps, same_dbs_call. Qed.
Lemma buries_commit b : keeps buries (fenced_commit repr_container urlopen b).
Proof.
  unfold fenced_commit. apply keeps_bind; [typeclasses eauto| |intros _ w D D'; by split].
  apply keeps_when; [typeclasses eauto|]. apply buries_keeps, same_dbs_permit.
Qed.
Lemma buries_file on_fault op : keeps buries (file_op on_fault op).
Proof. apply buries_keeps, file_op_dbs. Qed.
#[local] Hint Resolve buries_ready buries_witness buries_commit buries_file buries_delete_link : keeps.
Lemma buries_reading w w' : reading w w' -> buries w w'.
Proof.
  intros (A & _ & _ & B & _) D D'. rewrite A. apply erased_tables in B as (_ & B & _). split; [|done].
  unfold dead. by rewrite B.
Qed.
Lemma buries_operation id : keeps buries (_link_operation repr_container id).
Proof. intros w. apply buries_reading, reading_operation. Qed.
Lemma buries_sync o : keeps buries (sync_protection_operation repr_container o).
Proof. intros w. apply buries_reading, reading_sync. Qed.
#[local] Hint Resolve buries_operation buries_sync : keeps.
Lemma buries_begin key ty rt rid : keeps buries (create_protection_operation urlopen key ty rt rid).
Proof. unfold create_protection_operation, find_protection_operation, next_mutation_sequence. by_burial. Qed.
Lemma buries_cancel o : keeps buries (cancel_uncommitted_protection urlopen o).
Proof. unfold cancel_uncommitted_protection. by_burial. Qed.
#[local] Hint Resolve buries_begin buries_cancel : keeps.
Lemma buries_rollback : keeps buries rollback.
Proof. intros w D D'. by split. Qed.
#[local] Hint Resolve buries_rollback : keeps.
Lemma buries_protected key ty id : keeps buries (protected_commit repr_container urlopen key ty id).
Proof.
  unfold protected_commit. intros w.
  assert (forall p e, keeps buries (abandon urlopen p e)) as Ha by (intros p e; unfold abandon; by_burial).
  pose proof (buries_begin (default EmptyString key) ty "public_schedule_link" (Some (string_of_Z id)) w) as H1.
  destruct (create_protection_operation _ _ _ _ _ w) as [[p|e] w1]; [|etransitivity; [exact H1|apply Ha]].
  pose proof (buries_commit true w1) as H2. destruct (fenced_commit _ _ _ w1) as [[[]|e] w2].
  - by etransitivity.
  - etransitivity; [exact H1|]. etransitivity; [exact H2|apply Ha].
Qed.
Lemma buries_queue_code m : keeps buries m -> keeps buries (queue_code m).
Proof. intros H. unfold queue_code. by_burial. Qed.
Lemma buries_queue o a : keeps buries (queue_protection_operation o a).
Proof.
  unfold queue_protection_operation, swallow_os, unlink_file, publish_file, write_text, chmod, replace_file. destruct o as [o|]; [|auto with keeps].
  pose proof (buries_queue_code _ buries_ready). by_burial.
Qed.
Lemma buries_queue_link o status : keeps buries (_queue_link_operation o status).
Proof. unfold _queue_link_operation. pose proof buries_queue. by_burial. Qed.
Lemma buries_status link rows views : keeps buries (_link_status link rows views).
Proof. intros w. apply buries_reading, reading_status. Qed.
#[local] Hint Resolve buries_protected buries_queue_link buries_status : keeps.
Lemma buries_serialise link url : keeps buries (_serialise_link repr_container link url).
Proof. unfold _serialise_link, _current_views, _link_view_rows. by_burial. Qed.
Lemma buries_load e id u : keeps buries (_load_managed_link e id u).
Proof. unfold _load_managed_link, _require_event_access. by_burial. Qed.
Lemma buries_active link : keeps buries (_require_active_link link).
Proof. unfold _require_active_link, _current_views, _link_view_rows. by_burial. Qed.
Lemma buries_permissions link ids b : keeps buries (_replace_view_permissions link ids b).
Proof. unfold _replace_view_permissions, _current_views, _link_view_rows, put_permission. by_burial. Qed.
Lemma buries_audit u a rt rid d ch o : keeps buries (audit u a rt rid d ch o).
Proof. unfold audit, _hash_ip. by_burial. Qed.
#[local] Hint Resolve buries_serialise buries_load buries_active buries_permissions buries_audit : keeps.
Lemma buries_replayed k t r : keeps buries (replayed k t r).
Proof. unfold replayed, find_protection_operation. by_burial. Qed.
Lemma buries_answer o link : keeps buries (answer_replayed repr_container o link).
Proof. unfold answer_replayed. by_burial. Qed.
Lemma buries_pending id : keeps buries (refuse_pending repr_container id).
Proof. unfold refuse_pending, refuse_unsettled. by_burial. Qed.
#[local] Hint Resolve buries_replayed buries_answer buries_pending : keeps.

Lemma keeps_lift_bind {A B} (r : outcome A) (k : A -> py B) :
  (forall a, r = Ok a -> keeps buries (k a)) -> keeps buries (lift r ≫= k).
Proof. intros H w. destruct r as [a|e]; [exact (H a eq_refl w)|reflexivity]. Qed.
Lemma validate_create_token body body' : validate_create body = Ok body' -> lc_token body' = lc_token body.
Proof.
  unfold validate_create. intros H. by repeat (apply bind_Ok_inv in H as (? & _ & H) || injection H as <-).
Qed.
Lemma buries_list e u : keeps buries (list_public_schedule_links repr_container e u).
Proof. unfold list_public_schedule_links, _require_event_access. by_burial. Qed.
Lemma buries_create e body client u : sha256 (lc_token body) <> h ->
  keeps buries (create_public_schedule_link repr_container urlopen e body client u).
Proof.
  intros Hh. unfold create_public_schedule_link, _require_event_access, _validate_expiry, _validate_new_view_permissions, _current_views, the_link, row.
  apply keeps_lift_bind. intros body' E%validate_create_token. rewrite <-E in Hh.
  assert (forall e d x u i, keeps buries (q_insert t_public_schedule_links
    (fun k => mkPublicScheduleLink k e (sha256 (lc_token body')) d x None u i))) as Hi by (intros; by apply buries_insert).
  by_burial.
Qed.
Lemma buries_update e id body client u : keeps buries (update_public_schedule_link repr_container urlopen e id body client u).
Proof.
  unfold update_public_schedule_link, _validate_expiry, the_link, row.
  assert (forall d, keeps buries (set_link id (fun l => l <| pl_description := d |>))) by (intros; by apply buries_set_link).
  assert (forall d, keeps buries (set_link id (fun l => l <| pl_expires_at := d |>))) by (intros; by apply buries_set_link).
  by_burial.
Qed.
Lemma buries_invalidate e id key client u :
  keeps buries (invalidate_public_schedule_link repr_container urlopen e id key client u).
Proof.
  unfold invalidate_public_schedule_link, the_link, row.
  assert (forall d, keeps buries (set_link id (fun l => l <| pl_invalidated_at := Some d |>))) by (intros; by apply buries_set_link).
  by_burial.
Qed.
Lemma buries_delete e id key client u : keeps buries (delete_public_schedule_link repr_container urlopen e id key client u).
Proof. unfold delete_public_schedule_link, refuse_unsettled. by_burial. Qed.
Lemma buries_show a : keeps buries (get_shared_public_schedule repr_container a).
Proof. unfold get_shared_public_schedule, _current_views, _link_view_rows, unavailable. by_burial. Qed.

(** The requests of the file, in any order and with any outcome, the commits and the
    rollbacks of their sessions; none creates a link with the hash [h] again. *)
Inductive link_step : world -> world -> Prop :=
| step_list e u w : link_step w (snd (list_public_schedule_links repr_container e u w))
| step_create e body client u w : sha256 (lc_token body) <> h ->
    link_step w (snd (create_public_schedule_link repr_container urlopen e body client u w))
| step_update e id body client u w : link_step w (snd (update_public_schedule_link repr_container urlopen e id body client u w))
| step_invalidate e id key client u w :
    link_step w (snd (invalidate_public_schedule_link repr_container urlopen e id key client u w))
| step_delete e id key client u w : link_step w (snd (delete_public_schedule_link repr_container urlopen e id key client u w))
| step_show a w : link_step w (snd (get_shared_public_schedule repr_container a w))
| step_commit w : link_step w (snd (fenced_commit repr_container urlopen true w))
| step_rollback w : link_step w (snd (rollback w)).
Lemma link_step_buries w w' : link_step w w' -> buries w w'.
Proof.
  intros []; [apply buries_list|by apply buries_create|apply buries_update|apply buries_invalidate|apply buries_delete
             |apply buries_show|apply buries_commit|apply buries_rollback].
Qed.

(** C35: once every link with a token's hash is invalidated, the token opens nothing
    any more: whatever requests, commits and rollbacks follow, no request that
    carries it is answered, unless a link is created with that very token again. *)
Theorem invalidated_link_stays_dead w w' authorization token out w'' :
  dead (w_db w) -> dead (w_committed w) -> rtc link_step w w' ->
  _extract_bearer_token authorization = Some token -> sha256 token = h ->
  get_shared_public_schedule repr_container authorization w' <> (Ok out, w'').
Proof.
  intros D D' Hsteps Ht Hh H.
  assert (buries w w') as [D1 _]; [|done..|].
  { clear -Hsteps. induction Hsteps as [|? ? ? ?%link_step_buries]; [done|]. by etransitivity. }
  apply shared_schedule_live in H as (link & event & [Hl (t & Ht' & Hth) Hinv _ _] & _).
  rewrite Ht in Ht'. injection Ht' as <-. specialize (D1 link Hl). rewrite Hinv, Hth in D1. by apply D1 in Hh.
Qed.
End Dead.
End Links.

(** ** A small instance *)

Module Shared.
Definition now : datetime := utc_at 1785414896000000.
Definition root : User := (new_User now) <| u_id := 1 |> <| u_is_root_admin := true |>.
Definition category (id : Z) (name : string) : PublishedGeneralScheduleCategory :=
  (new_PublishedGeneralScheduleCategory now) <| gc_id := id |> <| gc_event_id := 1 |> <| gc_external_category_id := id |>
    <| gc_name := name |>.
Definition item (id category : Z) (title : string) : PublishedGeneralScheduleItem :=
  (new_PublishedGeneralScheduleItem now) <| gi_id := id |> <| gi_event_id := 1 |> <| gi_title := title |>
    <| gi_date := "2026-08-01"%string |> <| gi_start_time := "09:00"%string |> <| gi_end_time := "10:00"%string |>
    <| gi_category_id := Some category |>.
(** Two published views, with an item in each *)
Definition db : database := empty_database
  <| t_events := [(new_Event now) <| ev_id := 1 |> <| ev_name := "Camp"%string |>] |>
  <| t_users := [root] |>
  <| t_published_general_schedule_categories := [category 5 "Crew"; category 6 "Guests"] |>
  <| t_published_general_schedule_items := [item 1 5 "Briefing"; item 2 6 "Dinner"] |>.
Definition token : string := "0123456789abcdef0123456789abcdef".
Definition body : PublicScheduleLinkCreate := LinkCreate " Guests " (add_us now us_day) [6] token None.
Definition unreachable (_ : http_request) : http_result := HttpFailure.
Definition no_repr (_ : json) : string := EmptyString.
Definition authorization : option string := Some ("Bearer " +:+ token).
(** The root account shares the second view, then invalidates the link. *)
Definition linked : world := snd (create_public_schedule_link no_repr unreachable 1 body None root (toy_world db)).
Definition revoked : world := snd (invalidate_public_schedule_link no_repr unreachable 1 100 None None root linked).
Definition shown : outcome SharedScheduleOut := fst (get_shared_public_schedule no_repr authorization linked).
End Shared.

Lemma shared_schedule_shows_only_granted_views_witness :
  exists out link, Shared.shown = Ok out /\ map so_title (sh_items out) = ["Dinner"]%string /\ shows (w_db Shared.linked) link out.
Proof.
  destruct (get_shared_public_schedule Shared.no_repr Shared.authorization Shared.linked) as [[out|e] w'] eqn:H;
    [|vm_compute in H; discriminate].
  destruct (shared_schedule_shows_only_granted_views Shared.no_repr Shared.authorization Shared.linked out w' H)
    as (link & event & _ & Hs & _).
  exists out, link. assert (Shared.shown = Ok out) as E by (unfold Shared.shown; rewrite H; reflexivity).
  split; [exact E|]. split; [|exact Hs]. vm_compute in E. injection E as <-. reflexivity.
Defined.

Lemma invalidated_link_stays_dead_witness : ~ exists out w'',
  get_shared_public_schedule Shared.no_repr Shared.authorization (snd (rollback Shared.revoked)) = (Ok out, w'').
Proof.
  intros (out & w'' & H). revert H.
  apply (invalidated_link_stays_dead Shared.no_repr Shared.unreachable (sha256 Shared.token) Shared.revoked) with (token := Shared.token).
  1, 2: vm_compute; intros l Hl _; apply elem_of_cons in Hl as [->|Hl]; [reflexivity|by apply elem_of_nil in Hl].
  - apply rtc_once, step_rollback.
  - vm_compute. reflexivity.
  - reflexivity.
Defined.
