(* ===== verification/DeletionPurge.v ===== *)
(** What a purge leaves behind: no object of a stored document names the
    person, no row refers to the account, and its audit entries are anonymous. *)
From Stdlib Require Import ZArith Lia Ascii String.
From stdpp Require Import base list strings.
From S2P Require Import Prelude Text TextFacts Json JsonFacts Sha256 PyTime PyBuiltins Models World Sessions Evidence EvidenceFrames Cascade DeletionWorkflow DeletionCases DeletionProps.

(** ** Redaction *)

(** Somewhere in the document an object of that person still has a name. *)
Definition hidden (l : list (string * json)) : bool :=
  forallb (fun k => match dget k l with Some v => py_eq v (redacted_name k) | None => true end) NAME_KEYS.
Fixpoint names (external_person_id : Z) (v : json) : bool :=
  match v with
  | JList l => existsb (names external_person_id) l
  | JObj l => (same_person external_person_id (person_of l) && negb (hidden l)) ||
              existsb (fun kv => names external_person_id kv.2) l
  | _ => false
  end.
(** Some object of the document is about that person. *)
Fixpoint about (external_person_id : Z) (v : json) : bool :=
  match v with
  | JList l => existsb (about external_person_id) l
  | JObj l => same_person external_person_id (person_of l) || existsb (fun kv => about external_person_id kv.2) l
  | _ => false
  end.

Section Redaction.
Context (person : Z).

Lemma same_person_redact v : same_person person (redact person v) = same_person person v.
Proof. by destruct v. Qed.
Definition redact_items (l : list (string * json)) : list (string * json) :=
  map (fun kv => (kv.1, redact person kv.2)) l.
Lemma dget_redact k l : dget k (redact_items l) = option_map (redact person) (dget k l).
Proof. induction l as [|[k' v] l IH]; [done|]. cbn. by destruct (String.eqb k k'). Qed.
Lemma keys_redact l : dkeys (redact_items l) = dkeys l.
Proof. unfold dkeys, redact_items. by rewrite map_map. Qed.

(** The step of [hide_person] for one key *)
Definition hide_key (r : list (string * json)) (k : string) : list (string * json) :=
  if has_key k r then dset k (redacted_name k) r else r.
Lemma keys_hide_key r k : dkeys (hide_key r k) = dkeys r.
Proof. unfold hide_key. destruct (has_key k r) eqn:E; [|done]. by rewrite dkeys_dset, E. Qed.
Lemma dget_hide_key r k k' :
  dget k' (hide_key r k) = if String.eqb k' k && has_key k r then Some (redacted_name k) else dget k' r.
Proof.
  unfold hide_key. destruct (has_key k r) eqn:E; [|by rewrite andb_false_r].
  rewrite dget_dset, andb_true_r. done.
Qed.
Lemma hide_person_eq l : hide_person l = fold_left hide_key NAME_KEYS l.
Proof. done. Qed.
Lemma keys_hide l ks : dkeys (fold_left hide_key ks l) = dkeys l.
Proof. revert l. induction ks as [|k ks IH]; intros l; [done|]. cbn [fold_left]. by rewrite IH, keys_hide_key. Qed.
Lemma dget_hide ks l k :
  dget k (fold_left hide_key ks l) = if str_in k ks && has_key k l then Some (redacted_name k) else dget k l.
Proof.
  revert l. induction ks as [|k' ks IH]; intros l; [done|]. cbn [fold_left]. rewrite IH, dget_hide_key.
  unfold has_key. rewrite keys_hide_key. fold (has_key k l) (has_key k' l). cbn [str_in existsb].
  destruct (String.eqb_spec k k') as [->|]; cbn [orb andb]; [|done].
  change (existsb (String.eqb k') ks) with (str_in k' ks). by destruct (str_in k' ks), (has_key k' l).
Qed.
Lemma hidden_hide l : hidden (hide_person l) = true.
Proof.
  rewrite hide_person_eq. unfold hidden. apply forallb_forall. intros k Hk. rewrite dget_hide.
  assert (str_in k NAME_KEYS = true) as -> by (apply existsb_exists; exists k; by rewrite String.eqb_refl).
  cbn [andb]. rewrite has_key_dget. destruct (dget k l); [|done].
  unfold redacted_name. by destruct (str_in k ["name"; "display_name"]%string).
Qed.

Lemma person_of_redact l : same_person person (person_of (redact_items l)) = same_person person (person_of l).
Proof.
  unfold person_of, dget_or_null. rewrite !dget_redact.
  assert (forall k, has_key k (redact_items l) = has_key k l) as Hk by (intros k; unfold has_key; by rewrite keys_redact).
  unfold PERSON_KEYS. cbn [existsb]. rewrite !Hk.
  destruct (dget "person_id" l) as [v|]; cbn [option_map].
  - assert (is_null (redact person v) = is_null v) as -> by by destruct v.
    destruct (is_null v && _); [|apply same_person_redact].
    destruct (dget "id" l); [apply same_person_redact|done].
  - destruct (is_null JNull && _); [|done]. destruct (dget "id" l); [apply same_person_redact|done].
Qed.
Lemma person_of_hide l : person_of (hide_person l) = person_of l.
Proof.
  unfold person_of, dget_or_null. rewrite hide_person_eq, !dget_hide.
  assert (forall k, has_key k (fold_left hide_key NAME_KEYS l) = has_key k l) as Hk
    by (intros k; unfold has_key; by rewrite keys_hide).
  unfold PERSON_KEYS. cbn [existsb]. by rewrite !Hk.
Qed.

Lemma names_hide_key r k :
  existsb (fun kv => names person kv.2) r = false -> existsb (fun kv => names person kv.2) (hide_key r k) = false.
Proof.
  unfold hide_key. destruct (has_key k r); [|done]. intros H. induction r as [|[q v] r IH].
  - cbn. unfold redacted_name. by destruct (str_in k ["name"; "display_name"]%string).
  - cbn [existsb snd] in H. apply orb_false_iff in H as [Hv Hr]. cbn [dset].
    destruct (String.eqb k q); cbn [existsb snd].
    + rewrite Hr. unfold redacted_name. by destruct (str_in k ["name"; "display_name"]%string).
    + by rewrite Hv, IH.
Qed.
Lemma names_hide l :
  existsb (fun kv => names person kv.2) l = false -> existsb (fun kv => names person kv.2) (hide_person l) = false.
Proof. rewrite hide_person_eq. generalize NAME_KEYS as ks. intros ks. revert l.
  induction ks as [|k ks IH]; intros l H; [done|]. by apply IH, names_hide_key.
Qed.

Lemma redacted_has_no_name v : names person (redact person v) = false.
Proof.
  induction v as [|b|z|f|s|l HP|l HP] using json_rect'; try done.
  - cbn. induction HP as [|v l Hv _ IH]; [done|]. cbn. by rewrite Hv, IH.
  - assert (existsb (fun kv => names person kv.2) (redact_items l) = false) as Hn.
    { induction HP as [|[k v] l Hv _ IH]; [done|]. cbn in *. rewrite Hv. exact IH. }
    cbn [redact]. fold (redact_items l). destruct (same_person person (person_of (redact_items l))) eqn:E; cbn [names].
    + rewrite person_of_hide, E, hidden_hide. cbn [negb andb orb]. by apply names_hide.
    + by rewrite E, Hn.
Qed.
Lemma redact_others v : about person v = false -> redact person v = v.
Proof.
  induction v as [|b|z|f|s|l HP|l HP] using json_rect'; intros H; try done.
  - cbn in *. f_equal. induction HP as [|v l Hv _ IH]; [done|]. cbn in *.
    apply orb_false_iff in H as [H1 H2]. by rewrite Hv, IH.
  - cbn [about] in H. apply orb_false_iff in H as [Hp H]. cbn [redact]. fold (redact_items l).
    rewrite person_of_redact, Hp. f_equal. clear Hp. induction HP as [|[k v] l Hv _ IH]; [done|]. cbn in *.
    apply orb_false_iff in H as [H1 H2]. rewrite Hv by done. f_equal. by apply IH.
Qed.
End Redaction.

(** C11: what the redaction of a stored text leaves: a text that is missing,
    empty or not JSON is kept; any other becomes the text of a document in which no object
    about that person, at any depth, still has a name, an e-mail address or a
    display name, and which is the old document when none was about them. *)
Theorem redacted_text_forgets raw person raw'
  (H : _redact_person_from_json raw person = Ok raw') :
  (raw' = raw /\ forall s, raw = Some s -> truthy_str s = true -> exists e, loads s = Raise e) \/
  exists s v v', raw = Some s /\ loads s = Ok v /\ raw' = Some (dumps_compact v') /\ names person v' = false /\
    (about person v = false -> v' = v).
Proof.
  unfold _redact_person_from_json in H. destruct raw as [s|]; [|left; split; [congruence|done]].
  destruct (truthy_str s) eqn:T; [|left; injection H as <-; split; [done|]; intros s0 [= <-]; congruence].
  destruct (loads s) as [v|e] eqn:L.
  - right. exists s, v, (redact person v). injection H as <-.
    split; [done|]. split; [done|]. split; [done|]. split; [apply redacted_has_no_name|apply redact_others].
  - left. destruct (exn_in e _); [|done]. injection H as <-. split; [done|]. intros s0 [= <-] _. by exists e.
Qed.

(** Ada's two objects, one inside the other's list, and Bob's *)
Definition two_persons : json :=
  JList [JObj [("id", JInt 3); ("first_name", JStr "Ada"); ("people", JList [JObj [("person_id", JInt 3); ("name", JStr "A")]])];
         JObj [("person_id", JInt 4); ("name", JStr "Bob")]]%string.
Lemma redacted_text_forgets_witness :
  exists s v', _redact_person_from_json (Some (dumps_compact two_persons)) 3 = Ok (Some s) /\ s = dumps_compact v' /\ names 3 two_persons = true /\ names 3 v' = false.
Proof.
  destruct (_redact_person_from_json (Some (dumps_compact two_persons)) 3) as [raw'|e] eqn:H; [|vm_compute in H; discriminate].
  destruct (redacted_text_forgets _ _ _ H) as [[_ K]|(s & v & v' & _ & _ & -> & Hn & _)].
  - destruct (K _ eq_refl ltac:(vm_compute; reflexivity)) as [e He]. vm_compute in He. discriminate.
  - exists (dumps_compact v'), v'. split; [done|]. split; [done|]. split; [vm_compute; reflexivity|exact Hn].
Defined.

(** ** The rows of an account *)

Section Purge.
Context `{Evidence : !EvidenceService}.

(** No row of the database refers to the user. *)
Definition forgotten (user : Z) (db : database) : Prop :=
  Forall (fun u => u_id u <> user) (t_users db) /\
  Forall (fun s => s_user_id s <> user) (t_auth_sessions db) /\
  Forall (fun c => wc_user_id c <> user) (t_webauthn_credentials db) /\
  Forall (fun c => ph_user_id c <> Some user) (t_passkey_challenges db) /\
  Forall (fun c => pc_user_id c <> Some user) (t_passkey_ceremonies db) /\
  Forall (fun c => xc_user_id c <> user) (t_exchange_codes db) /\
  Forall (fun p => ps_user_id p <> user) (t_push_subscriptions db) /\
  Forall (fun c => sc_user_id c <> user) (t_schedule_changes db) /\
  Forall (fun l => al_user_id l <> user /\ al_created_by_id l <> Some user) (t_activation_links db) /\
  Forall (fun d => ad_user_id d <> user /\ ad_requested_by_id d <> Some user) (t_activation_email_deliveries db) /\
  Forall (fun a => an_created_by_id a <> Some user) (t_announcements db) /\
  Forall (fun e => te_edited_by_user_id e <> Some user) (t_task_edits db) /\
  Forall (fun a => au_user_id a <> Some user) (t_audit_log db) /\
  Forall (fun c => dc_user_id c <> Some user) (t_deletion_cases db) /\
  Forall (fun a => ap_user_id a <> Some user) (t_deletion_checklist_approvals db) /\
  Forall (fun g => gv_published_by_id g <> Some user) (t_governance_publications db) /\
  Forall (fun a => dp_user_id a <> Some user) (t_data_policy_acknowledgements db) /\
  Forall (fun l => pl_created_by_id l <> Some user) (t_public_schedule_links db).

Lemma forall_without {R} (p : R -> bool) (P : R -> Prop) l :
  (forall r, p r = false -> P r) -> Forall P (without p l).
Proof.
  intros H. apply Forall_forall. intros r Hr. apply list_elem_of_In, filter_In in Hr as [_ Hr].
  apply H. by destruct (p r).
Qed.
Lemma forall_map {R} (f : R -> R) (P : R -> Prop) l : Forall (fun r => P (f r)) l -> Forall P (map f l).
Proof. intros H. apply Forall_fmap. exact H. Qed.
Lemma forall_all {R} (P : R -> Prop) l : (forall r, P r) -> Forall P l.
Proof. intros H. by apply Forall_forall. Qed.
Lemma unless_in_ne id o : unless_in [id] o <> Some id.
Proof.
  unfold unless_in, opt_in, among. destruct o as [i|]; [|done]. cbn [existsb]. rewrite orb_false_r.
  destruct (Z.eqb_spec i id); [done|]. congruence.
Qed.
Lemma is_id_ne id o : is_id id o = false -> o <> Some id.
Proof. intros H ->. cbn in H. by rewrite Z.eqb_refl in H. Qed.

Lemma delete_user_forgets id db : forgotten id (delete_user_row id db).
Proof.
  unfold forgotten, delete_user_row. cbn.
  split_and!; repeat apply forall_map; first [apply forall_without; intros r Hr | apply forall_all; intros r]; cbn in *;
    try apply orb_false_iff in Hr as [Hr _];
    try match goal with |- _ /\ _ => split end;
    solve [by apply Z.eqb_neq | by apply is_id_ne | apply unless_in_ne].
Qed.

(** ** Steps that touch neither the published persons nor the audit trail *)

Definition apart (w w' : world) : Prop :=
  t_published_persons (w_db w') = t_published_persons (w_db w) /\ t_audit_log (w_db w') = t_audit_log (w_db w).
#[local] Instance apart_preorder : PreOrder apart.
Proof. split; [by intros w|]. intros w1 w2 w3 [A B] [A' B']. split; congruence. Qed.
Lemma apart_append q : keeps apart (evidence_append q).
Proof.
  intros w. destruct (evidence_append_only q w) as (E & _).
  split; [exact (f_equal t_published_persons E)|exact (f_equal t_audit_log E)].
Qed.
Ltac by_apart := by_frame ltac:(first [apply apart_append | solve [intros ?; split; reflexivity]]).

Lemma apart_account user : keeps apart (purge_account_rows user).
Proof. unfold purge_account_rows, revoke_all_user_sessions. by_apart. Qed.
Lemma apart_privacy job : keeps apart (_create_privacy_action job).
Proof. unfold _create_privacy_action, lock_evidence_transaction, the_case, row, new_privacy_action, last_privacy_sequence. by_apart. Qed.
#[local] Hint Resolve apart_privacy : keeps.
Lemma apart_receipt job now : keeps apart (applied_receipt job now).
Proof. unfold applied_receipt, the_case, row. by_apart. Qed.
Lemma apart_rows {R} (t : database -> list R) `{!Setter t} key p f :
  (forall g db, t_published_persons (set_field t g db) = t_published_persons db) ->
  (forall g db, t_audit_log (set_field t g db) = t_audit_log db) -> keeps apart (for_rows t key p f).
Proof.
  intros Hp Ha. unfold for_rows, assign. by_apart. apply keeps_modify. intros w. split; [apply Hp|apply Ha].
Qed.

(** ** Steps that keep the identity of the case *)

Definition case_kept (job : Z) (w w' : world) : Prop :=
  option_map dc_request_id (the_row job w') = option_map dc_request_id (the_row job w).
#[local] Instance case_kept_preorder job : PreOrder (case_kept job).
Proof. split; [by intros w|]. intros w1 w2 w3 A B. unfold case_kept in *. congruence. Qed.
Lemma case_kept_append job q : keeps (case_kept job) (evidence_append q).
Proof.
  intros w. destruct (evidence_append_only q w) as (E & _). unfold case_kept, the_row.
  by assert (t_deletion_cases (w_db (evidence_append q w).2) = t_deletion_cases (w_db w)) as ->
    by exact (f_equal t_deletion_cases E).
Qed.
Lemma case_kept_set job job' f :
  (forall c, dc_id (f c) = dc_id c /\ dc_request_id (f c) = dc_request_id c) -> keeps (case_kept job) (set_case job' f).
Proof.
  intros Hf w. unfold case_kept, the_row, set_case, assign, on_table. cbn.
  induction (t_deletion_cases (w_db w)) as [|c l IH]; [done|]. cbn. destruct (Hf c) as [Hi Hr].
  destruct (dc_id c =? job') eqn:E; cbn; rewrite ?Hi.
  - destruct (dc_id c =? job); [cbn; by rewrite Hr|done].
  - destruct (dc_id c =? job); [done|apply IH].
Qed.
Lemma case_kept_delete job user : keeps (case_kept job) (delete_user user).
Proof.
  intros w. unfold case_kept, the_row, delete_user, modify. cbn.
  induction (t_deletion_cases (w_db w)) as [|c l IH]; [done|]. cbn. by destruct (dc_id c =? job).
Qed.
Ltac case_step := idtac; lazymatch goal with
  | |- keeps _ (evidence_append _) => apply case_kept_append
  | |- keeps _ (set_case _ _) => apply case_kept_set; by intros []
  | |- keeps _ (delete_user _) => apply case_kept_delete
  | |- keeps _ (_ ≫= _) => fail
  | |- _ => solve [intros ?; reflexivity]
  end.
Ltac by_case := by_frame case_step.

Lemma case_kept_account job user : keeps (case_kept job) (purge_account_rows user).
Proof. unfold purge_account_rows, revoke_all_user_sessions. by_case. Qed.
Lemma case_kept_privacy job job' : keeps (case_kept job) (_create_privacy_action job').
Proof. unfold _create_privacy_action, lock_evidence_transaction, the_case, row, new_privacy_action, last_privacy_sequence. by_case. Qed.
#[local] Hint Resolve case_kept_privacy : keeps.
Lemma case_kept_receipt job job' now : keeps (case_kept job) (applied_receipt job' now).
Proof. unfold applied_receipt, the_case, row. by_case. Qed.
Lemma case_kept_published job target : keeps (case_kept job) (purge_published_copy target).
Proof. unfold purge_published_copy, for_rows, assign. by_case. Qed.
Lemma case_kept_audit job user : keeps (case_kept job) (anonymise_audit user).
Proof. unfold anonymise_audit. by_case. Qed.

(** ** The published copies *)

Definition is_target (target : Z * Z) (p : PublishedPerson) : bool :=
  (pp_event_id p =? target.1) && (pp_external_person_id p =? target.2).
Definition nameless (p : PublishedPerson) : PublishedPerson :=
  p <| pp_first_name := "Deleted"%string |> <| pp_last_name := "Participant " +:+ string_of_Z (pp_id p) |>
    <| pp_email := None |>.
Definition hide_targets (targets : list (Z * Z)) (p : PublishedPerson) : PublishedPerson :=
  if existsb (fun target => is_target target p) targets then nameless p else p.

Lemma hide_targets_cons target targets p :
  hide_targets targets (if is_target target p then nameless p else p) = hide_targets (target :: targets) p.
Proof.
  unfold hide_targets. cbn [existsb]. destruct (is_target target p) eqn:E; cbn [orb]; [|done].
  change (existsb (fun t => is_target t (nameless p)) targets) with (existsb (fun t => is_target t p) targets).
  by destruct (existsb _ targets).
Qed.

Lemma published_copy_run target w u w' : purge_published_copy target w = (Ok u, w') ->
  t_published_persons (w_db w') = map (fun p => if is_target target p then nameless p else p) (t_published_persons (w_db w)) /\
  t_audit_log (w_db w') = t_audit_log (w_db w).
Proof.
  destruct target as [event person]. unfold purge_published_copy. intros H.
  apply Mbind_Ok_inv in H as (n & w1 & ->%update_inv & H).
  match type of H with ?m ?w1 = _ => assert (keeps apart m) as K end.
  { by_apart; by apply apart_rows. }
  exact (keeps_run _ _ _ _ _ K H).
Qed.
Lemma published_copies_run targets w u w' : mfor purge_published_copy targets w = (Ok u, w') ->
  t_published_persons (w_db w') = map (hide_targets targets) (t_published_persons (w_db w)) /\
  t_audit_log (w_db w') = t_audit_log (w_db w).
Proof.
  revert w. induction targets as [|target targets IH]; intros w H; cbn [mfor] in H.
  - apply mret_Ok_inv in H as [_ ->]. split; [|done]. symmetry. apply List.map_id.
  - apply Mbind_Ok_inv in H as (u1 & w1 & [Ep Ea]%published_copy_run & H). apply IH in H as [Ep' Ea'].
    split; [|congruence]. rewrite Ep', Ep, map_map. apply map_ext. intros p. apply hide_targets_cons.
Qed.

Lemma insert_pair_elem x y l : y ∈ insert_pair x l <-> y = x \/ y ∈ l.
Proof.
  induction l as [|z l IH]; cbn [insert_pair]; [by rewrite list_elem_of_singleton, elem_of_nil; tauto|].
  destruct (pair_lt x z) eqn:E1; [rewrite !elem_of_cons; tauto|].
  destruct (pair_lt z x) eqn:E2; rewrite !elem_of_cons; [rewrite IH; tauto|].
  assert (x = z) as ->; [|tauto].
  unfold pair_lt in *. destruct x, z. cbn in *. f_equal; lia.
Qed.
Lemma sorted_targets_elem y l : y ∈ sorted_targets l <-> y ∈ l.
Proof. induction l as [|x l IH]; [done|]. cbn. by rewrite insert_pair_elem, IH, elem_of_cons. Qed.

(** ** The audit trail *)

Definition about_user (user : Z) (a : AuditLog) : bool :=
  eq_opt_str (au_resource_type a) (Some "user"%string) && is_id user (au_resource_id a).
(** What becomes of an entry: those by the user lose the actor, those about the
    user the resource, the others stay. *)
Definition audit_forgets (user : Z) (a a' : AuditLog) : Prop :=
  au_id a' = au_id a /\ au_action a' = au_action a /\ au_timestamp a' = au_timestamp a /\
  (au_user_id a = Some user -> au_user_id a' = None /\ au_username a' = None /\ au_actor_ref a' = None /\
     au_detail a' = None /\ au_ip_hash a' = None) /\
  (about_user user a = true -> au_resource_id a' = None /\ au_detail a' = None) /\
  (au_user_id a <> Some user -> about_user user a = false -> a' = a).

Definition anonymous (user : Z) (a : AuditLog) : AuditLog :=
  let a := if is_id user (au_user_id a) then a <| au_user_id := None |> <| au_username := None |> <| au_actor_ref := None |>
             <| au_detail := None |> <| au_ip_hash := None |> else a in
  let a := if about_user user a then a <| au_resource_id := None |> <| au_detail := None |> else a in
  a <| au_user_id := unless_in [user] (au_user_id a) |>.

Lemma anonymise_audit_run user w u w' : anonymise_audit user w = (Ok u, w') ->
  map (fun a => a <| au_user_id := unless_in [user] (au_user_id a) |>) (t_audit_log (w_db w')) =
    map (anonymous user) (t_audit_log (w_db w)) /\
  t_published_persons (w_db w') = t_published_persons (w_db w).
Proof.
  unfold anonymise_audit. intros H. apply Mbind_Ok_inv in H as (n & w1 & ->%update_inv & H).
  apply Mbind_Ok_inv in H as (n' & w2 & ->%update_inv & [_ ->]%mret_Ok_inv).
  split; [|done]. cbn. rewrite !map_map. done.
Qed.
Lemma unless_other user o : o <> Some user -> unless_in [user] o = o.
Proof.
  unfold unless_in, opt_in, among. destruct o as [i|]; [|done]. cbn [existsb]. rewrite orb_false_r. intros H.
  destruct (Z.eqb_spec i user); [by subst|done].
Qed.
Lemma is_id_spec id o : is_id id o = true <-> o = Some id.
Proof. destruct o as [i|]; cbn; [rewrite Z.eqb_eq|]; split; congruence. Qed.
Lemma anonymous_forgets user a : audit_forgets user a (anonymous user a).
Proof.
  unfold audit_forgets, anonymous. destruct (is_id user (au_user_id a)) eqn:E.
  - apply is_id_spec in E. unfold about_user. cbn. destruct (_ && _); cbn; split_and!; try done.
  - apply is_id_ne in E. destruct (about_user user a) eqn:A; cbn; rewrite unless_other by done; split_and!; try done.
    intros _ _. by destruct a.
Qed.

(** ** The whole purge *)

(** The published persons a case is about: the copies of its subject, an event
    and a number there, and the one the account is linked to. *)
Definition subject_of (persons : list PublishedPerson) (c : DeletionCase) (u : User) (p : PublishedPerson) : bool :=
  existsb (fun q => String.eqb (pp_evidence_subject_id q) (dc_subject_evidence_id c) &&
                    is_target (pp_event_id q, pp_external_person_id q) p) persons ||
  (is_id (pp_event_id p) (u_event_id u) && is_id (pp_external_person_id p) (u_linked_person_id u)).

Lemma published_targets_run c person_id event_id w targets w' :
  published_targets c person_id event_id w = (Ok targets, w') ->
  w' = w /\ forall t, t ∈ targets <->
    (exists p, p ∈ t_published_persons (w_db w) /\ pp_evidence_subject_id p = dc_subject_evidence_id c /\
               t = (pp_event_id p, pp_external_person_id p)) \/
    (event_id = Some t.1 /\ person_id = Some t.2).
Proof.
  unfold published_targets. intros H. apply Mbind_Ok_inv in H as (persons & ? & [-> ->]%q_all_inv & [-> ->]%mret_Ok_inv).
  split; [done|]. intros t. rewrite sorted_targets_elem, elem_of_app, list_elem_of_fmap.
  assert (t ∈ match event_id, person_id with Some e, Some p => [(e, p)] | _, _ => [] end <->
    event_id = Some t.1 /\ person_id = Some t.2) as ->.
  { destruct event_id, person_id; rewrite ?list_elem_of_singleton, ?elem_of_nil; destruct t; cbn; split;
      try done; try (intros [? ?]; congruence); intros [= -> ->]; done. }
  split; (intros [(p & H1 & H2)|H]; [left|by right]).
  - apply list_elem_of_In, filter_In in H2 as [H2 Hs%String.eqb_eq]. exists p. by rewrite list_elem_of_In.
  - exists p. destruct H2 as [Hs ->]. split; [done|]. apply list_elem_of_In, filter_In. rewrite <-list_elem_of_In.
    by rewrite Hs, String.eqb_refl.
Qed.

Lemma targets_subject c account w targets w' p :
  published_targets c (u_linked_person_id account) (u_event_id account) w = (Ok targets, w') ->
  existsb (fun target => is_target target p) targets = subject_of (t_published_persons (w_db w)) c account p.
Proof.
  intros [_ H]%published_targets_run. apply eq_true_iff_eq. unfold subject_of.
  rewrite orb_true_iff, andb_true_iff, !is_id_spec, !existsb_exists. unfold is_target. split.
  - intros (t & Ht%list_elem_of_In & [He Hx]%andb_true_iff). bool_norm.
    apply H in Ht as [(q & Hq & Hs & ->)|[E1 E2]]; [left|right].
    + exists q. rewrite <-list_elem_of_In. cbn in *. by rewrite Hs, String.eqb_refl, He, Hx, !Z.eqb_refl.
    + by rewrite He, Hx.
  - intros [(q & Hq & Hs)|[E1 E2]].
    + apply andb_true_iff in Hs as [Hs%String.eqb_eq Ht]. exists (pp_event_id q, pp_external_person_id q). split; [|exact Ht].
      apply list_elem_of_In, H. left. exists q. by rewrite list_elem_of_In.
    + exists (pp_event_id p, pp_external_person_id p). cbn. rewrite !Z.eqb_refl. split; [|done].
      apply list_elem_of_In, H. by right.
Qed.

(** The last steps: the receipt, the account, the state *)
Definition close_purge (job user : Z) (digest state : string) (w : world) : world :=
  let w := on_table t_deletion_cases (update_first (fun c => dc_id c =? job) (fun c =>
             c <| dc_live_purge_receipt_sha256 := Some digest |> <| dc_user_id := None |>)) w in
  on_table t_deletion_cases (update_first (fun c => dc_id c =? job) (fun c => c <| dc_state := state |>))
    (w <| w_db := delete_user_row user (w_db w) |>).

Lemma delete_user_forgets_case job user digest state w : forgotten user (w_db (close_purge job user digest state w)).
Proof.
  unfold close_purge. set (w1 := on_table _ _ w). pose proof (delete_user_forgets user (w_db w1)) as F.
  unfold forgotten in *. cbn in *. destruct F as (F1 & F2 & F3 & F4 & F5 & F6 & F7 & F8 & F9 & F10 & F11 & F12 & F13 & F14 & F15).
  do 13 (split; [assumption|]). split; [|assumption]. clear -F14.
  match type of F14 with Forall _ ?l0 => generalize dependent l0 end. intros l F14.
  induction F14 as [|c l Hc Hl IH]; cbn; [constructor|]. destruct (dc_id c =? job); constructor; auto.
Qed.

Lemma purge_subject_run job user w u w' c :
  purge_subject_live_data job user w = (Ok u, w') -> the_row job w = Some c -> dc_live_data_purged_at c = None ->
  str_in (dc_state c) PURGEABLE = true /\ desktop_proof_missing c = false /\
  exists account targets w1 w2 c2 conf payload digest,
    List.find (fun u => u_id u =? user) (t_users (w_db w)) = Some account /\
    published_targets c (u_linked_person_id account) (u_event_id account) w = (Ok targets, w) /\
    t_published_persons (w_db w1) = map (hide_targets targets) (t_published_persons (w_db w)) /\
    map (fun a => a <| au_user_id := unless_in [user] (au_user_id a) |>) (t_audit_log (w_db w1)) =
      map (anonymous user) (t_audit_log (w_db w)) /\
    apart w1 w2 /\ dc_request_id c2 = dc_request_id c /\
    recorded_as (case_request c2 "live_data_purged" "data_subject.live_data_purged" payload) digest w2 /\
    w' = close_purge job user digest (after_purge conf) w2.
Proof.
  intros H Hc Hnew. unfold purge_subject_live_data in H.
  apply Mbind_Ok_inv in H as (c' & ? & [-> Hc']%row_inv & H). unfold the_row in Hc. rewrite Hc in Hc'. injection Hc' as <-.
  rewrite Hnew in H. cbn [is_some] in H.
  apply Mbind_Ok_inv in H as (? & ? & [Hs ->]%throw_if_Ok_inv & H).
  apply Mbind_Ok_inv in H as (? & ? & [Hd ->]%throw_if_Ok_inv & H). bool_norm. do 2 (split; [done|]).
  apply Mbind_Ok_inv in H as (? & wa & Ea & H).
  assert (case_kept job w wa) as Ka by (eapply keeps_run; [|exact Ea]; apply case_kept_set; by intros []).
  apply assign_inv in Ea as ->.
  apply Mbind_Ok_inv in H as (account & ? & [-> Hu]%row_inv & H).
  apply Mbind_Ok_inv in H as (? & wb & Eb & H).
  pose proof (keeps_run _ _ _ _ _ (apart_account user) Eb) as [Pb Ab].
  pose proof (keeps_run _ _ _ _ _ (case_kept_account job user) Eb) as Kb.
  apply Mbind_Ok_inv in H as (targets & wc & Ht & H).
  assert (wc = wb /\ published_targets c (u_linked_person_id account) (u_event_id account) w = (Ok targets, w)) as [-> Ht'].
  { apply Mbind_Ok_inv in Ht as (ps & ? & [-> ->]%q_all_inv & [-> ->]%mret_Ok_inv). split; [done|].
    unfold published_targets. by rewrite Pb. }
  apply Mbind_Ok_inv in H as (? & wd & Ed & H).
  assert (case_kept job wb wd) as Kd.
  { eapply keeps_run; [|exact Ed]. apply keeps_mfor; [typeclasses eauto|]. intros t. apply case_kept_published. }
  apply published_copies_run in Ed as [Pd Ad].
  apply Mbind_Ok_inv in H as (? & we & ->%assign_inv & H).
  apply Mbind_Ok_inv in H as (? & wf & Ef & H).
  pose proof (keeps_run _ _ _ _ _ (case_kept_audit job user) Ef) as Kf. apply anonymise_audit_run in Ef as [Af Pf].
  exists account, targets, wf. 
  apply Mbind_Ok_inv in H as (name & wg & [= <- <-] & H). apply Mbind_Ok_inv in H as (? & wh & ->%assign_inv & H).
  apply Mbind_Ok_inv in H as (now & wi & [= <- <-] & H). apply Mbind_Ok_inv in H as (? & wj & Ej & H).
  pose proof (keeps_run _ _ _ _ _ (apart_receipt job _) Ej) as [Pj Aj].
  pose proof (keeps_run _ _ _ _ _ (case_kept_receipt job job _) Ej) as Kj.
  apply Mbind_Ok_inv in H as (? & wk & Ek & H).
  assert (case_kept job wj wk) as Kk by (eapply keeps_run; [|exact Ek]; apply case_kept_set; by intros []).
  apply assign_inv in Ek as ->.
  apply Mbind_Ok_inv in H as (conf & ? & [= <- <-] & H). apply Mbind_Ok_inv in H as (c2 & ? & [-> Hc2]%row_inv & H).
  apply Mbind_Ok_inv in H as (digest & w2 & Ew & H).
  pose proof (evidence_append_recorded _ _ _ _ Ew) as Hrec.
  pose proof (keeps_run _ _ _ _ _ (apart_append _) Ew) as [Pw Aw].
  apply Mbind_Ok_inv in H as (? & wl & ->%assign_inv & H). apply Mbind_Ok_inv in H as (? & wm & ->%modify_Ok_inv & ->%assign_inv).
  eexists w2, c2, _, _, digest. split; [exact Hu|]. split; [exact Ht'|].
  split; [rewrite Pf; cbn; by rewrite Pd, Pb|]. split; [rewrite Af; cbn; by rewrite Ad, Ab|].
  split; [split; [exact (eq_trans Pw Pj)|exact (eq_trans Aw Aj)]|]. split; [|split; [exact Hrec|reflexivity]].
  assert (case_kept job w (on_table t_deletion_cases (update_first (fun c => dc_id c =? job) (fun c =>
    c <| dc_live_data_purged_at := Some (utc_at (w_clock wf (w_ticks wf))) |>)) wj)) as K.
  { transitivity (on_table t_deletion_cases (update_first (fun c => dc_id c =? job) (fun c =>
      c <| dc_state := "live_purge_in_progress"%string |>)) w); [exact Ka|].
    transitivity wb; [exact Kb|]. transitivity wd; [exact Kd|]. transitivity wf; [exact Kf|].
    transitivity wj; [exact Kj|exact Kk]. }
  unfold case_kept, the_row in K. rewrite Hc2, Hc in K. by injection K.
Qed.

(** C9: a purge of a subject runs only on a case that is ready for it and has the
    desktop's proof where one is required, and when it succeeds: no row of any
    table refers to the account any more; the published persons of the subject,
    and the one the account was linked to, are renamed and without e-mail address,
    while the others are as they were; every audit entry is still there, those by the account
    without actor, detail or network trace and those about it without its number; and the
    purge is recorded as evidence of this case. *)
Theorem purged_subject_is_forgotten job user w w' c
  (H : purge_subject_live_data job user w = (Ok tt, w')) (Hc : the_row job w = Some c)
  (Hnew : dc_live_data_purged_at c = None) :
  str_in (dc_state c) PURGEABLE = true /\ desktop_proof_missing c = false /\ forgotten user (w_db w') /\
  (exists account, List.find (fun u => u_id u =? user) (t_users (w_db w)) = Some account /\
     t_published_persons (w_db w') =
       map (fun p => if subject_of (t_published_persons (w_db w)) c account p then nameless p else p) (t_published_persons (w_db w))) /\
  Forall2 (audit_forgets user) (t_audit_log (w_db w)) (t_audit_log (w_db w')) /\
  exists c2 payload digest, dc_request_id c2 = dc_request_id c /\
    recorded_as (case_request c2 "live_data_purged" "data_subject.live_data_purged" payload) digest w'.
Proof.
  destruct (purge_subject_run _ _ _ _ _ _ H Hc Hnew) as (Hs & Hd & account & targets & w1 & w2 & c2 & conf & payload &
    digest & Hu & Ht & Hp & Ha & [Pw Aw] & Hr & Hrec & ->).
  do 2 (split; [done|]). split; [|split; [|split; [|by exists c2, payload, digest]]].
  - apply delete_user_forgets_case.
  - exists account. split; [exact Hu|]. unfold close_purge. cbn. rewrite Pw, Hp. apply map_ext. intros p.
    unfold hide_targets. by rewrite (targets_subject _ _ _ _ _ _ Ht).
  - unfold close_purge. cbn. rewrite Aw, Ha. clear. induction (t_audit_log (w_db w)); constructor; [apply anonymous_forgets|done].
Qed.
End Purge.

Lemma purged_subject_is_forgotten_witness :
  exists w' c, purge_subject_live_data 1 7 Small.accepted = (Ok tt, w') /\ the_row 1 Small.accepted = Some c /\
    forgotten 7 (w_db w') /\ Forall2 (audit_forgets 7) (t_audit_log (w_db Small.accepted)) (t_audit_log (w_db w')).
Proof.
  destruct (the_row 1 Small.accepted) as [c|] eqn:Hc; [|vm_compute in Hc; discriminate].
  pose proof (run_eq (purge_subject_live_data 1 7 Small.accepted) (Ok tt)) as Hrun.
  specialize (Hrun ltac:(vm_compute; reflexivity)).
  assert (dc_live_data_purged_at c = None) as Hnew by (vm_compute in Hc; injection Hc as <-; reflexivity).
  destruct (purged_subject_is_forgotten 1 7 Small.accepted _ c Hrun Hc Hnew) as (_ & _ & Hf & _ & Ha & _).
  eexists _, c. split; [exact Hrun|]. split; [reflexivity|]. split; [exact Hf|exact Ha].
Defined.
