(* ===== verification/DeletionLiveness.v ===== *)
(** An approved case completes: once its checklist is built and approved and
    nothing else has happened, nothing in the database can refuse its
    completion. *)
From Stdlib Require Import ZArith Lia Ascii String.
From stdpp Require Import base list strings.
From S2P Require Import Prelude Text TextFacts Json JsonFacts Sha256 PyTime PyBuiltins Models World Evidence EvidenceFrames Cascade DeletionWorkflow DeletionCases DeletionProps.

Section Liveness.
Context `{Evidence : !EvidenceService}.

(** Evidence is never refused. *)
Definition answers : Prop := forall q w, exists digest w', evidence_append q w = (Ok digest, w').

Lemma row_run {R} (t : database -> list R) `{!Setter t} key id w r :
  List.find (fun r => key r =? id) (t (w_db w)) = Some r -> row t key id w = (Ok r, w).
Proof. intros H. unfold row, q_first, gets, mbind, M_bind. cbn. by rewrite H. Qed.
Lemma throw_if_run {W} c k m (w : W) : c = false -> throw_if c k m w = (Ok tt, w).
Proof. by intros ->. Qed.

(** ** What the prerequisites depend on *)

(** The columns of a case that its prerequisites and its checklist read *)
Definition same_proofs (c c' : DeletionCase) : Prop :=
  dc_request_id c' = dc_request_id c /\ dc_case_type c' = dc_case_type c /\
  dc_desktop_deletion_required c' = dc_desktop_deletion_required c /\
  dc_live_purge_receipt_sha256 c' = dc_live_purge_receipt_sha256 c /\
  dc_peer_confirmation_sha256 c' = dc_peer_confirmation_sha256 c /\
  dc_replacement_package_sha256 c' = dc_replacement_package_sha256 c /\
  dc_peer_backup_resolution_sha256 c' = dc_peer_backup_resolution_sha256 c /\
  dc_backup_not_applicable_sha256 c' = dc_backup_not_applicable_sha256 c /\
  dc_outstanding_actions_json c' = dc_outstanding_actions_json c.
(** The other tables and the configuration they read *)
Definition same_world (job : Z) (w w' : world) : Prop :=
  w_config w' = w_config w /\ scopes_of job w' = scopes_of job w /\ processors_of job w' = processors_of job w /\
  t_backup_inventory_records (w_db w') = t_backup_inventory_records (w_db w).

(** The prerequisites as a function of what they read *)
Definition missing_of (is_ha : bool) (c : DeletionCase) (processors : list DeletionRequiredProcessor)
  (inventory : list BackupInventoryRecord) : outcome (list string) :=
  outstanding ← (if truthy_opt (dc_outstanding_actions_json c)
                 then v ← loads_list (dc_outstanding_actions_json c); Ok (truthy v) else Ok false);
  Ok (missing_if (processors_missing c processors) "desktop_processor_receipts" ++
      missing_if (negb (truthy_opt (dc_live_purge_receipt_sha256 c))) "live_purge_receipt" ++
      missing_if (is_ha && negb (truthy_opt (dc_peer_confirmation_sha256 c))) "peer_replication_receipt" ++
      missing_if (is_ha && truthy_opt (dc_replacement_package_sha256 c)
                  && negb (truthy_opt (dc_peer_backup_resolution_sha256 c))) "peer_snapshot_resolution_receipt" ++
      missing_if (negb (truthy_opt (dc_replacement_package_sha256 c)
                        || truthy_opt (dc_backup_not_applicable_sha256 c))) "clean_backup_receipt" ++
      missing_if (negb (is_none (List.find (fun b => String.eqb (bi_status b) "superseded_pending_deletion") inventory)))
        "backup_inventory_resolution" ++
      missing_if outstanding "outstanding_desktop_actions").

Lemma prerequisites_run job w c : the_row job w = Some c ->
  checklist_prerequisites job w =
    (missing_of (ha w) c (processors_of job w) (t_backup_inventory_records (w_db w)), w).
Proof.
  intros Hc. unfold checklist_prerequisites, the_case. rewrite (Mbind_Ok _ _ _ _ _ (row_run _ _ _ _ _ Hc)).
  unfold missing_of. destruct (truthy_opt (dc_outstanding_actions_json c)); [|reflexivity].
  by destruct (loads_list (dc_outstanding_actions_json c)).
Qed.
Lemma prerequisites_same job w w' c c' :
  the_row job w = Some c -> the_row job w' = Some c' -> same_proofs c c' -> same_world job w w' ->
  (checklist_prerequisites job w').1 = (checklist_prerequisites job w).1.
Proof.
  intros Hc Hc' (_ & _ & E3 & E4 & E5 & E6 & E7 & E8 & E9) (F1 & _ & F3 & F4).
  rewrite !(prerequisites_run _ _ _ Hc), !(prerequisites_run _ _ _ Hc'). cbn [fst].
  unfold missing_of, processors_missing, ha. by rewrite F1, F3, F4, E3, E4, E5, E6, E7, E8, E9.
Qed.

Lemma checklist_same c c' s p : same_proofs c c' -> checklist_of c' s p = checklist_of c s p.
Proof.
  intros (E1 & E2 & E3 & E4 & E5 & E6 & E7 & E8 & E9). unfold checklist_of, receipt_fields. by rewrite E1, E2, E3, E4, E5, E6, E7, E8.
Qed.
Lemma checklist_payload c s p c' now :
  exists payload, completion_payload c' (sort_keys (checklist_of c s p)) now = Ok payload.
Proof. eexists. unfold completion_payload, checklist_of. cbn. reflexivity. Qed.

(** ** Building and approving *)

Lemma evidence_same job w w' : evidence_only w w' ->
  the_row job w' = the_row job w /\ same_world job w w' /\
  t_deletion_checklist_approvals (w_db w') = t_deletion_checklist_approvals (w_db w).
Proof.
  intros H. pose proof (only_tables H) as E. destruct H as (_ & _ & Hconf & _).
  unfold the_row, same_world, scopes_of, processors_of.
  assert (t_deletion_cases (w_db w') = t_deletion_cases (w_db w)) as -> by exact (f_equal t_deletion_cases E).
  assert (t_deletion_subject_scopes (w_db w') = t_deletion_subject_scopes (w_db w)) as ->
    by exact (f_equal t_deletion_subject_scopes E).
  assert (t_deletion_required_processors (w_db w') = t_deletion_required_processors (w_db w)) as ->
    by exact (f_equal t_deletion_required_processors E).
  assert (t_backup_inventory_records (w_db w') = t_backup_inventory_records (w_db w)) as ->
    by exact (f_equal t_backup_inventory_records E).
  assert (t_deletion_checklist_approvals (w_db w') = t_deletion_checklist_approvals (w_db w)) as ->
    by exact (f_equal t_deletion_checklist_approvals E). done.
Qed.

Definition listed_case (text digest : string) (now : datetime) (c : DeletionCase) : DeletionCase :=
  c <| dc_checklist_version := Some CHECKLIST_VERSION |> <| dc_checklist_json := Some text |>
    <| dc_checklist_sha256 := Some digest |> <| dc_checklist_created_at := Some now |>
    <| dc_state := "awaiting_approvals"%string |>.
Lemma build_inv job w v w1 c :
  build_checklist job w = (Ok v, w1) -> the_row job w = Some c -> truthy_opt (dc_checklist_json c) = false ->
  exists text digest now,
    v = checklist_of c (scopes_of job w) (processors_of job w) /\ canonical_json v = Ok text /\
    sha256_text text = Ok digest /\ (checklist_prerequisites job w).1 = Ok [] /\
    the_row job w1 = Some (listed_case text digest now c) /\ same_world job w w1 /\
    t_deletion_checklist_approvals (w_db w1) = t_deletion_checklist_approvals (w_db w).
Proof.
  intros H Hc Hj. unfold build_checklist in H.
  apply Mbind_Ok_inv in H as (c' & ? & [-> Hc']%row_inv & H). unfold the_row in Hc. rewrite Hc in Hc'. injection Hc' as <-.
  rewrite Hj in H. apply Mbind_Ok_inv in H as (missing & w0 & Hm & H).
  pose proof (prerequisites_run job w c Hc) as Hr. rewrite Hr in Hm. injection Hm as Hm <-. rewrite Hr. cbn [fst].
  destruct missing as [|m missing]; [|exfalso].
  - apply Mbind_Ok_inv in H as (scopes & ? & [-> ->]%q_all_inv & H).
    apply Mbind_Ok_inv in H as (processors & ? & [-> ->]%q_all_inv & H).
    apply Mbind_Ok_inv in H as (text & ? & [Ht ->]%lift_Ok_inv & H).
    apply Mbind_Ok_inv in H as (digest & ? & [Hd ->]%lift_Ok_inv & H).
    apply Mbind_Ok_inv in H as (now & wa & [= <- <-] & H). apply Mbind_Ok_inv in H as (? & wb & ->%assign_inv & H).
    apply Mbind_Ok_inv in H as (d & wc & Hap & [-> ->]%mret_Ok_inv).
    apply (keeps_run _ _ _ _ _ (evidence_append_only _)) in Hap. apply (evidence_same job) in Hap as (Er & Es & Ea).
    exists text, digest, (utc_at (w_clock w (w_ticks w))). do 3 (split; [done|]). split; [by rewrite Hm|].
    split; [|by split]. rewrite Er. unfold the_row. cbn.
    by apply (find_update_first dc_id (listed_case text digest (utc_at (w_clock w (w_ticks w))))).
  - apply Mbind_Ok_inv in H as (? & wa & _ & H). apply Mbind_Ok_inv in H as (? & wb & _ & H).
    apply Mbind_Ok_inv in H as (? & wc & _ & H). discriminate.
Qed.

Definition approved_case (digest : string) (c : DeletionCase) : DeletionCase :=
  c <| dc_executor_approval_sha256 := Some digest |> <| dc_state := "ready_for_completion"%string |>.
Lemma approve_inv job user credential w a w' c checklist :
  record_checklist_approval job "executor" user credential w = (Ok a, w') -> the_row job w = Some c ->
  dc_checklist_sha256 c = Some checklist ->
  (forall b, b ∈ t_deletion_checklist_approvals (w_db w) -> approval_of job (Some checklist) b = false) ->
  approval_of job (Some checklist) a = true /\ ap_role a = "executor"%string /\ truthy_str (ap_approval_sha256 a) = true /\
  t_deletion_checklist_approvals (w_db w') = t_deletion_checklist_approvals (w_db w) ++ [a] /\
  the_row job w' = Some (approved_case (ap_approval_sha256 a) c) /\ same_world job w w'.
Proof.
  intros H Hc Hk Hno. unfold record_checklist_approval in H. cbn [String.eqb Ascii.eqb Bool.eqb negb] in H.
  apply Mbind_Ok_inv in H as (? & ? & [_ ->]%throw_if_Ok_inv & H).
  apply Mbind_Ok_inv in H as (c' & ? & [-> Hc']%row_inv & H). unfold the_row in Hc. rewrite Hc in Hc'. injection Hc' as <-.
  rewrite Hk in H. destruct (negb (truthy_str checklist) || _); [done|].
  apply Mbind_Ok_inv in H as (existing & ? & [-> ->]%first_row_inv & H).
  match type of H with (match List.find ?p ?l with _ => _ end) _ = _ => destruct (List.find p l) as [b|] eqn:E end.
  { exfalso. apply find_some in E as [Hin Hb%andb_true_iff]. apply list_elem_of_In, Hno in Hin. destruct Hb. congruence. }
  apply Mbind_Ok_inv in H as (now & wa & [= <- <-] & H). apply Mbind_Ok_inv in H as (digest & ? & [Hd ->]%lift_Ok_inv & H).
  apply Mbind_Ok_inv in H as (id & wb & [= <- <-] & H). apply Mbind_Ok_inv in H as (b & wc & [= <- <-] & H).
  apply Mbind_Ok_inv in H as (? & wd & ->%assign_inv & H). apply Mbind_Ok_inv in H as (? & we & ->%assign_inv & H).
  apply Mbind_Ok_inv in H as (c2 & ? & [-> _]%row_inv & H).
  apply Mbind_Ok_inv in H as (d & wf & Hap & [-> ->]%mret_Ok_inv).
  apply (keeps_run _ _ _ _ _ (evidence_append_only _)) in Hap. apply (evidence_same job) in Hap as (Er & Es & Ea).
  split; [unfold approval_of; cbn; by rewrite Z.eqb_refl, String.eqb_refl|]. split; [done|].
  split; [|split; [exact Ea|split; [|exact Es]]].
  - cbn. destruct (approval_text _ _ _ _ _ _) as [text|]; [|done]. cbn in Hd. unfold sha256_text in Hd.
    destruct (encode_utf8 text); [|done]. injection Hd as <-. apply sha256_truthy.
  - rewrite Er. unfold the_row. cbn.
    apply (find_update_first dc_id (fun c => c <| dc_state := "ready_for_completion"%string |>)); [done|].
    by apply (find_update_first dc_id (fun c => c <| dc_executor_approval_sha256 := Some digest |>)).
Qed.

(** ** Completing *)

Lemma json_ok_weaken (p q : string -> bool) v : (forall s, p s = true -> q s = true) -> json_ok p v = true -> json_ok q v = true.
Proof.
  intros Hpq. induction v as [|b|z|f|s|l HP|l HP] using json_rect'; cbn; auto.
  - intros H. apply forallb_forall. rewrite forallb_forall in H. intros x Hx. rewrite Forall_forall in HP.
    apply HP; [by apply list_elem_of_In|by apply H].
  - rewrite !andb_true_iff. intros [Hd H]. split; [done|]. apply forallb_forall. rewrite forallb_forall in H.
    intros x Hx. specialize (H x Hx). rewrite andb_true_iff in H |- *. destruct H as [Hk Hv].
    rewrite Forall_forall in HP. split; [by apply Hpq|]. apply HP; [by apply list_elem_of_In|done].
Qed.
Lemma json_ok_finite p v : json_ok p v = true -> all_finite v = true.
Proof.
  induction v as [|b|z|f|s|l HP|l HP] using json_rect'; cbn; auto; try done.
  - rewrite !forallb_forall. intros H x Hx. rewrite Forall_forall in HP. apply HP; [by apply list_elem_of_In|by apply H].
  - rewrite andb_true_iff, !forallb_forall. intros [_ H] x Hx. rewrite Forall_forall in HP.
    apply HP; [by apply list_elem_of_In|]. specialize (H x Hx). by apply andb_true_iff in H as [_ H].
Qed.
Lemma canonical_sorted v text :
  json_ok is_ascii v = true -> canonical_json v = Ok text -> canonical_json (sort_keys v) = Ok text.
Proof.
  intros Hok. unfold canonical_json. rewrite (json_ok_finite is_ascii (sort_keys v)) by by rewrite json_ok_sort.
  rewrite (json_ok_finite is_ascii v) by done. unfold dumps_ascii_compact_sorted. by rewrite sort_keys_idem.
Qed.

Lemma stored_run v text digest c w :
  json_ok is_ascii v = true -> canonical_json v = Ok text -> sha256_text text = Ok digest ->
  dc_checklist_json c = Some text -> dc_checklist_sha256 c = Some digest ->
  stored_checklist c w = (Ok (sort_keys v), w).
Proof.
  intros Hok Ht Hd Ej Es. assert (loads text = Ok (sort_keys v)) as Hl.
  { unfold canonical_json in Ht. destruct (all_finite v); [|done]. injection Ht as <-.
    by apply loads_dumps_ascii_compact_sorted. }
  assert (truthy_str text = true) as Htext by by destruct text.
  assert (truthy_str digest = true) as Hdigest.
  { unfold sha256_text in Hd. destruct (encode_utf8 text); [|done]. injection Hd as <-. apply sha256_truthy. }
  unfold stored_checklist. rewrite Ej, Es. cbn [default truthy_opt]. change (id text) with text. rewrite Htext, Hdigest. cbn [negb orb].
  rewrite (Mbind_Ok _ _ w tt w) by done.
  rewrite (Mbind_Ok _ _ w (sort_keys v) w) by (unfold try_except, lift; by rewrite Hl).
  rewrite (Mbind_Ok _ _ w text w) by (unfold lift; by rewrite (canonical_sorted _ _ Hok Ht)).
  rewrite String.eqb_refl. cbn [negb].
  rewrite (Mbind_Ok _ _ w true w); [done|]. rewrite (Mbind_Ok _ _ w digest w) by (unfold lift; by rewrite Hd).
  unfold mret, M_ret. unfold eq_opt_str; cbn [opt_eqb]. by rewrite String.eqb_refl.
Qed.

Lemma complete_run job w c v text digest a :
  answers -> the_row job w = Some c -> dc_state c = "ready_for_completion"%string ->
  (checklist_prerequisites job w).1 = Ok [] -> v = checklist_of c (scopes_of job w) (processors_of job w) ->
  json_ok is_ascii v = true -> canonical_json v = Ok text -> sha256_text text = Ok digest ->
  dc_checklist_json c = Some text -> dc_checklist_sha256 c = Some digest ->
  List.filter (approval_of job (Some digest)) (t_deletion_checklist_approvals (w_db w)) = [a] ->
  ap_role a = "executor"%string -> truthy_str (ap_approval_sha256 a) = true ->
  dc_executor_approval_sha256 c = Some (ap_approval_sha256 a) ->
  exists d w', completion_evidence job w = (Ok d, w').
Proof.
  intros Hans Hc Hst Hm Ev Hok Ht Hd Ej Es Hf Hrole Hta Hap. unfold completion_evidence, the_case.
  rewrite (Mbind_Ok _ _ _ _ _ (row_run _ _ _ _ _ Hc)).
  rewrite (Mbind_Ok _ _ w tt w) by (apply throw_if_run; by rewrite Hst).
  rewrite (Mbind_Ok _ _ w [] w) by (rewrite (prerequisites_run _ _ _ Hc) in Hm |- *; cbn in Hm; by rewrite Hm).
  rewrite (Mbind_Ok _ _ w tt w) by by apply throw_if_run.
  rewrite (Mbind_Ok _ _ w (sort_keys v) w) by by apply (stored_run v text digest).
  rewrite (Mbind_Ok _ _ w (scopes_of job w) w) by done.
  rewrite (Mbind_Ok _ _ w (processors_of job w) w) by done.
  rewrite (Mbind_Ok _ _ w tt w).
  2:{ apply throw_if_run. rewrite <-Ev, py_eq_sorted; [done|]. by apply (json_ok_weaken is_ascii). }
  rewrite (Mbind_Ok _ _ w [a] w) by (unfold q_all, gets, mbind, M_bind; cbn; by rewrite Es, Hf).
  rewrite (Mbind_Ok _ _ w tt w).
  2:{ apply throw_if_run. unfold executor_approved, approval_row. cbn [List.filter]. rewrite Hrole. cbn.
      rewrite Hap. cbn. by rewrite Hta, String.eqb_refl. }
  set (now := utc_at (w_clock w (w_ticks w))). set (w1 := w <| w_ticks := S (w_ticks w) |>).
  rewrite (Mbind_Ok _ _ w now w1) by done. destruct (checklist_payload c (scopes_of job w) (processors_of job w) c now) as [payload Hp].
  rewrite (Mbind_Ok _ _ w1 payload w1) by (unfold lift; by rewrite Ev, Hp).
  destruct (Hans (case_request c "completed" "deletion.completed" payload) w1) as (d & w2 & Hap2).
  rewrite (Mbind_Ok _ _ w1 d w2) by done. by exists (d, now), w2.
Qed.

(** C10: a case that can be closed is closed.  Once its checklist has been built and
    the executor has approved it, and nothing else has happened to the case
    meanwhile, its completion cannot be refused: the stored checklist reads back
    as itself, still describes the case and still has the digest that was
    approved, and no prerequisite has become unresolved.  Only the filing of the evidence
    could fail. *)
Theorem approved_case_completes job user credential w c v w1 a w2
  (Hanswers : answers)
  (Hc : the_row job w = Some c) (Hnew : truthy_opt (dc_checklist_json c) = false)
  (Hbuild : build_checklist job w = (Ok v, w1)) (Htext : json_ok is_ascii v = true)
  (Hfirst : forall b, b ∈ t_deletion_checklist_approvals (w_db w) -> ap_case_id b <> job)
  (Happrove : record_checklist_approval job "executor" user credential w1 = (Ok a, w2)) :
  exists w3, complete_case job w2 = (Ok "complete"%string, w3).
Proof.
  destruct (build_inv _ _ _ _ _ Hbuild Hc Hnew) as (text & digest & now & Ev & Ht & Hd & Hm & Hc1 & Hsame & Happ).
  destruct (approve_inv _ _ _ _ _ _ _ digest Happrove Hc1 eq_refl) as (Ha & Hrole & Hta & Happ2 & Hc2 & Hsame2).
  { intros b Hb. rewrite Happ in Hb. apply Hfirst in Hb. unfold approval_of. by apply Z.eqb_neq in Hb as ->. }
  assert (same_world job w w2) as Hw.
  { destruct Hsame as (A & B & C & D), Hsame2 as (A' & B' & C' & D'). unfold same_world. by rewrite A', B', C', D'. }
  edestruct (complete_run job w2 _ v text digest a Hanswers Hc2) as ([d now'] & w3 & Hrun); try done.
  - rewrite <-Hm. by eapply prerequisites_same.
  - destruct Hw as (_ & -> & -> & _). by rewrite Ev.
  - rewrite Happ2, Happ, List.filter_app. cbn [List.filter]. rewrite Ha, filter_none; [done|].
    intros b Hb%list_elem_of_In%Hfirst. unfold approval_of. by apply Z.eqb_neq in Hb as ->.
  - eexists. unfold complete_case. rewrite (Mbind_Ok _ _ w2 (d, now') w3) by done. reflexivity.
Qed.
End Liveness.

Definition confirmed : world := Eval vm_compute in (confirm_no_controlled_backups 1 Small.purged).2.
Definition confirmed_case : option DeletionCase := Eval vm_compute in the_row 1 confirmed.
Definition small_checklist : outcome json := Eval vm_compute in (build_checklist 1 confirmed).1.
Definition small_approval : outcome DeletionChecklistApproval :=
  Eval vm_compute in (record_checklist_approval 1 "executor" 9 "credential" Small.listed).1.

Lemma approved_case_completes_witness :
  exists v a w3, build_checklist 1 confirmed = (Ok v, Small.listed) /\ record_checklist_approval 1 "executor" 9 "credential" Small.listed = (Ok a, Small.ready) /\ complete_case 1 Small.ready = (Ok "complete"%string, w3).
Proof.
  assert (answers) as Hans by (intros q w; unfold evidence_append, Small.service, Small.append; by eexists _, _).
  assert (the_row 1 confirmed = confirmed_case) as Hc by (vm_compute; reflexivity). unfold confirmed_case in Hc.
  assert (build_checklist 1 confirmed = (small_checklist, Small.listed)) as Hb by (vm_compute; reflexivity).
  unfold small_checklist in Hb.
  assert (record_checklist_approval 1 "executor" 9 "credential" Small.listed = (small_approval, Small.ready)) as Ha
    by (vm_compute; reflexivity).
  unfold small_approval in Ha.
  assert (t_deletion_checklist_approvals (w_db confirmed) = []) as Hno by (vm_compute; reflexivity).
  assert (forall b, b ∈ t_deletion_checklist_approvals (w_db confirmed) -> ap_case_id b <> 1) as Hfirst
    by (rewrite Hno; intros b Hb'; inversion Hb').
  destruct (approved_case_completes 1 9 "credential" confirmed _ _ _ _ _ Hans Hc eq_refl Hb
    ltac:(vm_compute; reflexivity) Hfirst Ha) as [w3 H].
  eexists _, _, w3. split; [exact Hb|]. split; [exact Ha|exact H].
Defined.
